(* ===== verification/_CoqProject ===== *)
-Q . S2P
Prelude.v
MqTypes.v
BlkSwitch.v
BlkSwitchSpec.v
BlkSwitchSafe.v
BlkMqAlloc.v
BlkMqAccount.v
BlkMqAllocSpec.v
BlkMqRun.v
BlkMqRunSpec.v
BlkMqInsert.v
BlkMqInsertSpec.v
BlkMqDispatch.v
BlkMqDispatchSpec.v
BlkMqTimeout.v
BlkMqTimeoutSpec.v
BlkMqTagSet.v
BlkMqTagSetSpec.v
BlkMqTagSetTop.v
BlkMqMap.v
BlkMqMapSpec.v
BlkMqShareSpec.v
BlkMqHctx.v
BlkMqHctxSpec.v
BlkMqUpdate.v
BlkMqTotal.v
BlkMqUpdateSpec.v
BlkMqInitSpec.v
BlkMqPoll.v
BlkMqPollSpec.v
NvmeTcpMap.v
NvmeTcpMapSpec.v
NvmeTcpConn.v
NvmeTcpConnSpec.v
NvmeTcpCtrl.v
NvmeTcpCtrlInv.v
NvmeTcpCtrlSpec.v
NvmeTcpLife.v
I10HostCtrl.v
NvmeTcp.v
NvmeTcpSend.v
NvmeTcpSendSpec.v
NvmeTcpStream.v
NvmeTcpSetup.v
NvmeTcpRecv.v
NvmeTcpRecvSpec.v
NvmeTcpWork.v
NvmeTcpBell.v
I10Host.v
I10HostSpec.v
NvmetTcp.v
NvmetTcpSend.v
NvmetTcpRecv.v
NvmetTcpWork.v
NvmetTcpSteer.v
NvmetTcpQueue.v
NvmetTcpOwn.v
NvmetTcpSendSpec.v
NvmetTcpStream.v
NvmetTcpFlow.v
NvmetTcpTrySend.v
NvmetTcpRecvSpec.v
NvmetTcpMap.v
NvmetTcpSafe.v
NvmetTcpTarget.v
NvmetTcpSteerSpec.v
NvmetTcpQueueSpec.v
NvmetTcpPair.v
NvmetTcpEx.v
I10Target.v
NvmeRdmaConn.v
NvmeRdmaConnSpec.v
NvmeRdmaIo.v
NvmeRdmaIoSpec.v
NvmeRdmaRun.v
NvmeRdmaCtrl.v
NvmeRdmaCtrlInv.v
NvmeRdmaCtrlAdmin.v
NvmeRdmaCtrlSetup.v
NvmeRdmaLife.v
