(* ===== verification/Prelude.v ===== *)
(** * blk-switch: a verification development

    blk-switch turns the multi-queue block layer of Linux 5.4 into a switch:
    requests of latency-sensitive (L) and throughput-bound (T) applications are
    classified, kept in separate hardware queues, steered between cores, and
    sent over NVMe/TCP with delayed doorbells to a target that keeps the two
    classes apart as well.  This library models that code, under src/block,
    src/include/linux, src/drivers/nvme/host and src/drivers/nvme/target, as
    executable functions and proves what makes it correct.

    ** The parts and how they interact

    A bio enters [blk_mq_make_request].  [blk_mq_get_request] classifies it,
    lets application steering and request steering choose a core, and takes a
    tag and a request of the hardware queue of that core and class.  The request
    is plugged, issued directly, or inserted into the software queue of the
    core; running the hardware queue flushes the software queues and dispatches
    to the driver.  The NVMe/TCP driver builds a command PDU, appends the request
    to the send list of its queue, and either rings the doorbell or delays it;
    the I/O work collects PDUs and data in a caravan and sends it with one call
    of the socket.  The receive path parses response, data and R2T PDUs and ends
    requests.  Before any of this, a tag set is allocated, its maps are filled by
    the driver and the software queues are laid out over the hardware queues.

    On the target every connection is a queue with a lane of one class on one core.
    [nvmet_tcp_data_ready] may move the lane and queues its work; the work receives
    command capsules and data into the buffers of a command, gives the command to
    the nvmet core, and sends R2Ts, data and responses, collected in a caravan for
    throughput lanes.

    ** Files

    Conventions: a C integer is a [Z] that is reduced at its width where the code
    stores it ([u8] .. [s64]); an array is a list, and an access outside it is
    [None], which stands for undefined behaviour throughout; a loop is [foldM]
    over its indices or a structural function; a struct is a record updated with
    [r <| f := v |>].  Code outside src/ enters through classes whose laws state
    its documented behaviour; each class has an instance ([linux_5_4],
    [ex_kernel], [ex_sched], [ex_mem], [ex_proto], ...) that the witnesses use.

    - Prelude: integers, arrays, loops, record update, tactics and hints.
    - MqTypes: the structures of block/blk-mq.h, include/linux/blk-mq.h and
      include/linux/blkdev.h, and [blk_mq_map_queue].
    - BlkSwitch (block/blk-switch.h and the blk-switch part of
      [blk_mq_get_request] in block/blk-mq.c): classification, moving averages,
      application and request steering.  BlkSwitchSpec, BlkSwitchSafe: egress
      separation, the search equals the least loaded qualifying core, the choice
      of request steering, memory safety up to 64 CPUs and the overflow beyond,
      the averages.
    - BlkMqAlloc: allocation, release and end of requests.  BlkMqAllocSpec,
      BlkMqAccount: round trip, failure leaves no trace, the class survives steering,
      and what the byte counts are while requests are merged and the metrics reset.
    - BlkMqRun: running, stopping, quiescing, freezing.  BlkMqRunSpec: round
      robin over CPUs, nesting of freezes, no request is left behind by a quiesce.
    - BlkMqInsert: software queues, requeueing, plugging.  BlkMqInsertSpec:
      flushing and dequeueing lose and reorder nothing; unplugging keeps order.
    - BlkMqDispatch: driver tags, dispatch, direct issue, [blk_mq_make_request].
      BlkMqDispatchSpec: order, what is left is kept and how it is run again, the
      bound of [dispatch_busy].
    - BlkMqTimeout: completion, time-outs, requests in flight.  BlkMqTimeoutSpec:
      the time-out work forgets no request.
    - BlkMqTagSet: memory of requests, tags, maps, tag sets.  BlkMqTagSetSpec,
      BlkMqTagSetTop: requests never overlap, all or nothing, release gives
      everything back, the leak of the unwind path.
    - BlkMqMap: [blk_mq_map_swqueue], sharing of tag sets, CPU hotplug.
      BlkMqMapSpec, BlkMqShareSpec: the layout establishes the invariant
      [pending_wf] that BlkMqInsertSpec assumes; no request of a dead CPU is
      lost; the shared mark is exact.
    - BlkMqHctx: allocation, initialisation, exchange and release of hardware queues
      over a heap of objects, and [blk_mq_init_allocated_queue].  BlkMqUpdate:
      schedulers switched off and on, [blk_mq_update_nr_hw_queues].  BlkMqHctxSpec,
      BlkMqTotal, BlkMqUpdateSpec, BlkMqInitSpec: what a queue owns on every path, the
      layout is defined for the queues of a set, a change of the number of queues
      ends after two passes; with concrete sets and two undefined runs.
    - BlkMqPoll: classic and hybrid polling.  BlkMqPollSpec: polling ends.
    - NvmeTcpMap (drivers/nvme/host/tcp.c): division of the queues of a
      controller and their maps.  NvmeTcpMapSpec discharges what BlkMqMapSpec
      asks of the maps and composes task, block layer and driver: the latency
      class reaches the driver queue.
    - NvmeTcpConn: allocation, connection and release of one queue over a heap of
      objects, where the use or release of an object not in use is [None].
      NvmeTcpConnSpec: what a queue owns, on every error path.
    - NvmeTcpCtrl: creation, set-up, tear-down, reconnect, reset, error recovery,
      time-out and deletion of a controller.  NvmeTcpCtrlInv, NvmeTcpCtrlSpec,
      NvmeTcpLife: creation is all or nothing, every sequence of works is free of
      use after release, deletion gives back what the controller owns, and the error
      that the check of the capsule offset loses.
    - NvmeTcp, NvmeTcpSend: requests, queues and the send path with caravans and
      doorbells.  NvmeTcpSendSpec, NvmeTcpStream: the byte stream is preserved but for
      the rest of a caravan of which the socket takes a part.
    - NvmeTcpSetup: command set-up and submission; a submitted request adds exactly
      its bytes to the stream.
    - NvmeTcpRecv: the receive state machine.  NvmeTcpRecvSpec: the result does
      not depend on how the stream is cut into packets.
    - NvmeTcpWork: the I/O work and the socket callbacks.  NvmeTcpBell: a step
      relation over submissions, timer, callbacks and work, with the invariant
      that no wake-up is lost but for one race of [nvme_tcp_queue_request], which is
      shown.
    - I10Host, I10HostCtrl (drivers/nvme/host/i10.c) and I10Target
      (drivers/nvme/target/i10.c): the i10 drivers, from which the TCP drivers of
      blk-switch were made.  Most functions have the same text in both: those are
      modelled once, and where the texts differ in a detail the definition branches on
      the driver ([host_driver], [target_driver]), so its theorems hold for both.
      The i10 files take these definitions for the i10 driver and add the functions
      that differ as a whole.  I10HostSpec: the byte stream of i10 is preserved, no
      wake-up is lost between whole submissions, and the race of its counter.
    - NvmetTcp (drivers/nvme/target/tcp.c): commands, queues, mapping of data, PDUs
      of the target.  NvmetTcpSend: its send path with caravans.  NvmetTcpOwn,
      NvmetTcpSendSpec, NvmetTcpStream, NvmetTcpFlow, NvmetTcpTrySend: who owns the
      buffers of a command, what each step of the send path does to the stream, and
      that answers are sent in order, without losing memory, and exactly when the socket
      takes each caravan as a whole.
    - NvmetTcpRecv: the receive path with digests and handshake.  NvmetTcpRecvSpec,
      NvmetTcpMap, NvmetTcpSafe, NvmetTcpTarget: the header digest that is never
      checked; the invariant [tgt_inv] over receive, core and send, kept by every step
      of a step relation, so that no step is undefined; data of a write lands in its
      buffers.
    - NvmetTcpWork: the work and the callbacks of a queue; the work ends.
    - NvmetTcpSteer: [nvmet_tcp_data_ready].  NvmetTcpSteerSpec: the choice of a core,
      the overflow on nodes with more than six cores, and the placement and class of
      the lanes of a controller.
    - NvmetTcpQueue: commands, queues, ports and the module over a heap of objects.
      NvmetTcpQueueSpec: acceptance is all or nothing, the release leaks the caravan.
    - NvmetTcpPair: host and target together: the handshake, and an R2T with its
      answer.  NvmetTcpEx: concrete runs of the target, three of them faulty.
    - NvmeRdmaConn (drivers/nvme/host/rdma.c): devices with their references, rings of
      answers, queue pairs, the handler of connection events, allocation, start, stop
      and release of an RDMA queue.  NvmeRdmaConnSpec: for every order of events a
      queue owns its objects and one reference of its device, or nothing is left.
    - NvmeRdmaIo: mapping of the data of a request, submission, completions and answers.
      NvmeRdmaIoSpec, NvmeRdmaRun: a step relation over submissions, completions,
      answers and tear-downs with an invariant: requests end exactly once, regions and
      slots of the send queue suffice, nothing is leaked.
    - NvmeRdmaCtrl: set-up, tear-down, reconnect, reset and deletion of an RDMA
      controller, its tag sets and maps.  NvmeRdmaCtrlInv, NvmeRdmaCtrlAdmin,
      NvmeRdmaCtrlSetup, NvmeRdmaLife: creation is all or nothing, no run of the works
      uses a released object or device, and three runs outside of that which do.

    ** Bounds and fuel

    [alloc_rqs_loop] gets one unit per request: each turn carves at least one,
    because a block of 16 pages holds a request (a hypothesis on the request
    size; without it the C loop does not end).  [reduce_depth_loop] gets the
    depth plus one, and every turn halves the depth.  The loops of the send and
    receive paths get one unit per byte or segment plus one, and every turn
    consumes one ([sgs_fuel], [recv_data]); [try_recv_pdu] has two turns, for the
    common header and the rest; [io_fuel] is the work budget plus one, and a turn
    that goes on counts at least one operation ([io_work_terminates]);
    [update_passes] gets two units, because the second pass goes back to a number of
    queues that needs no allocation ([update_nr_hw_queues_ok]);
    [sleep_loop] and [poll_loop] take any fuel above the nap and the call of the driver
    at which the clock and the scheduler end them ([blk_poll_terminates]); the draws of
    random numbers are a list, and [random_enough] says that it is long enough.  The
    theorems prove that a result is returned.  Machine limits are hypotheses where the
    code relies on them (64 CPUs, 2^16 software queues, sizes below 2^64).

    ** Conditions of the theorems

    A theorem leaves out a case only where the code fails in it or relies on its
    environment; the comment of the theorem says so, and a lemma shows the failure
    where it is one of the code.  The streams of host and target are those of
    connections without data digest.  On the host: a caravan that is sent in part
    ([short_caravan_loses]), the race of the doorbell ([doorbell_race],
    [i10_count_race]), poll queues that get none ([poll_map_breaks_layout]), a
    controller with a capsule offset ([icdoff_delete_null],
    [rdma_icdoff_delete_undefined]), a region invalidated that is not there
    ([bogus_invalidation_undefined]), caravan arrays that cannot be allocated.  On the
    target: a caravan that fails ([failed_caravan_lost]), no memory for the [kvec] of a
    command ([iovec_failure_double_free]), data PDUs inside a page
    ([map_iovec_misplaced]), more than six cores on a node ([steering_overflow]).  In
    the block layer: no memory for a CPU mask ([kcalloc_failure_undefined]), a deadline
    of 0 ([deadline_zero_forgotten]), a map that names queues that do not exist
    ([update_fallback_undefined]), queues with an I/O scheduler where a theorem is about
    the allocation of tags.

    ** Not modelled

    - block/blk-mq.c: sysfs, debugfs and tracing; the collection of the statistics
      that polling reads.
    - drivers/nvme/host/tcp.c, i10.c, rdma.c: the overlap of works of one controller,
      the callbacks of the socket during set-up, module unloading of the first two.
    - drivers/nvme/target/tcp.c, i10.c: contents of the debug output, the nice value of
      the worker, the overlap of the works of one queue.  The nvmet core (commands,
      controllers, configfs) is outside of the model or of the repository.
    - drivers/nvme/host/rdma.c: the RDMA stack, which is not in the repository; a work
      request that is refused together with others of its chain is taken as not posted.
    - Locks: a function that holds a lock is one step; where the code drops it
      in between (the doorbell) the step relation splits the function.
    - Experiment scripts and the copy of Caladan under osdi21_artifact. *)
From stdpp Require Export base list gmap strings.
From Stdlib Require Export ZArith Lia.

#[global] Open Scope Z_scope.

(** ** Functional record update

    [r <| f := v |>] is the C assignment [r.f = v] on a value-passed structure.
    Each record declares its eta expansion once, as an instance of [Settable];
    the setter of a field is then derived by abstracting that field in the eta
    expansion. *)

Class Settable (R : Type) := { eta_expand : R -> R }.
Class Setter {R T : Type} (proj : R -> T) := upd : (T -> T) -> R -> R.
#[global] Typeclasses Opaque Setter.
Arguments upd {R T} proj {_} _ _.

Ltac derive_setter :=
  lazymatch goal with
  | |- @Setter ?R ?T ?proj =>
    let e := constr:(_ : Settable R) in
    let e := eval hnf in (@eta_expand R e) in
    exact (fun (f : T -> T) (r : R) =>
      ltac:(let body := eval cbv beta in (e r) in
            let pat := eval pattern (proj r) in body in
            lazymatch pat with
            | ?g _ => let res := eval cbv beta in (g (f (proj r))) in exact res
            end))
  end.

#[global] Hint Extern 1 (Setter _) => derive_setter : typeclass_instances.

Declare Scope upd_scope.
Delimit Scope upd_scope with upd.
Notation "r <| f := v |>" := (upd f (fun _ => v) r)
  (at level 1, f at next level, v at level 99, left associativity,
   format "r  <| f  :=  v |>") : upd_scope.
Notation "r <| f ::= g |>" := (upd f g r)
  (at level 1, f at next level, g at level 99, left associativity,
   format "r  <| f  ::=  g |>") : upd_scope.
#[global] Open Scope upd_scope.

(** ** C integers

    An object of an unsigned [w]-bit type holds a value of [0 .. 2^w - 1] and a
    store into it reduces modulo [2^w]; [int] and [long] are two's complement. *)

Definition u8 (z : Z) : Z := z mod 2 ^ 8.
Definition u16 (z : Z) : Z := z mod 2 ^ 16.
Definition u32 (z : Z) : Z := z mod 2 ^ 32.
Definition u64 (z : Z) : Z := z mod 2 ^ 64.
Definition s32 (z : Z) : Z := (z + 2 ^ 31) mod 2 ^ 32 - 2 ^ 31.
Definition s64 (z : Z) : Z := (z + 2 ^ 63) mod 2 ^ 64 - 2 ^ 63.

(** The truth value of an integer in a C condition, and the C conversion of an
    integer to [bool] (every non-zero value becomes [true]). *)
Definition c_true (z : Z) : bool := negb (z =? 0).

(** [flags & mask] as a condition. *)
Definition has_flag (flags mask : Z) : bool := c_true (Z.land flags mask).

(** [time_after(a, b)] and [time_after_eq(a, b)] of <linux/jiffies.h>: signed
    comparison of the wrapped difference of two [unsigned long]. *)
Definition time_after (a b : Z) : bool := s64 (b - a) <? 0.
Definition time_after_eq (a b : Z) : bool := 0 <=? s64 (a - b).

(** ** Error numbers *)

Definition EAGAIN : Z := 11.
Definition ENOMEM : Z := 12.
Definition EFAULT : Z := 14.
Definition EIO : Z := 5.
Definition ENOENT : Z := 2.
Definition EXDEV : Z := 18.
Definition EINVAL : Z := 22.
Definition EPIPE : Z := 32.
Definition EPROTO : Z := 71.
Definition ECONNRESET : Z := 104.

(** ** Arrays

    A C array of fixed size is a list; an access outside it has no defined
    result and is [None]. *)

Definition aget {A} (l : list A) (i : Z) : option A :=
  if i <? 0 then None else l !! Z.to_nat i.

Definition aset {A} (l : list A) (i : Z) (x : A) : option (list A) :=
  if (0 <=? i) && (i <? Z.of_nat (length l)) then Some (<[Z.to_nat i := x]> l) else None.

Definition amod {A} (l : list A) (i : Z) (f : A -> A) : option (list A) :=
  x ← aget l i; aset l i (f x).

(** ** Loops

    [for (i = 0; i < n; i++)] folds over [seqZ 0 n]; the body may leave the
    defined behaviour ([None]). *)

Fixpoint foldM {A S} (f : S -> A -> option S) (s : S) (l : list A) : option S :=
  match l with
  | [] => Some s
  | a :: l => s' ← f s a; foldM f s' l
  end.

(** The first element of [l] that satisfies [p] and has the least key. *)
Fixpoint best {A} (key : A -> Z) (p : A -> bool) (l : list A) : option A :=
  match l with
  | [] => None
  | c :: l =>
    match best key p l with
    | Some d => Some (if p c && (key c <=? key d) then c else d)
    | None => if p c then Some c else None
    end
  end.

(** ** Tactics *)

(** Case analysis on a C condition, leaving its Boolean equation in [Z] form
    where [lia] can use it. *)
Ltac case_bool :=
  match goal with
  | |- context [if ?b then _ else _] =>
    lazymatch b with
    | context [if _ then _ else _] => fail
    | _ => let E := fresh "Hif" in destruct b eqn:E
    end
  end.
Ltac case_bool_in H :=
  match type of H with
  | context [if ?b then _ else _] =>
    lazymatch b with
    | context [if _ then _ else _] => fail
    | _ => let E := fresh "Hif" in destruct b eqn:E
    end
  end.

(** Split the [Some] result of a sequence of possibly failing accesses. *)
Ltac inv_some :=
  repeat match goal with
  | H : Some _ = Some _ |- _ => injection H as H
  | H : None = Some _ |- _ => discriminate H
  | H : Some _ = None |- _ => discriminate H
  | H : mbind _ _ = Some _ |- _ =>
    let x := fresh "x" in let E := fresh "Hx" in
    apply bind_Some in H as (x & E & H); cbv beta in H
  | H : (let '(_, _) := ?p in _) = Some _ |- _ => is_var p; destruct p
  end.

(** ** Lemmas on integers *)

Lemma u64_range z : 0 <= u64 z < 2 ^ 64.
Proof. apply Z.mod_pos_bound. lia. Qed.
Lemma u64_small z : 0 <= z < 2 ^ 64 -> u64 z = z.
Proof. apply Z.mod_small. Qed.
Lemma u32_small z : 0 <= z < 2 ^ 32 -> u32 z = z.
Proof. apply Z.mod_small. Qed.
Lemma u32_range z : 0 <= u32 z < 2 ^ 32.
Proof. apply Z.mod_pos_bound. lia. Qed.
Lemma s32_small z : - 2 ^ 31 <= z < 2 ^ 31 -> s32 z = z.
Proof. intros H. unfold s32. rewrite Z.mod_small; lia. Qed.
Lemma s64_small z : - 2 ^ 63 <= z < 2 ^ 63 -> s64 z = z.
Proof. intros H. unfold s64. rewrite Z.mod_small; lia. Qed.
Lemma s32_range z : - 2 ^ 31 <= s32 z < 2 ^ 31.
Proof. unfold s32. pose proof (Z.mod_pos_bound (z + 2 ^ 31) (2 ^ 32)). lia. Qed.

Lemma c_true_spec z : c_true z = true <-> z <> 0.
Proof. unfold c_true. lia. Qed.
Lemma c_true_false z : c_true z = false <-> z = 0.
Proof. unfold c_true. lia. Qed.

(** Jiffies comparisons agree with the integers while no wrap lies between. *)
Lemma time_after_small a b :
  0 <= a < 2 ^ 63 -> 0 <= b < 2 ^ 63 -> time_after a b = (b <? a).
Proof. intros Ha Hb. unfold time_after. rewrite s64_small by lia. lia. Qed.
Lemma time_after_eq_small a b :
  0 <= a < 2 ^ 63 -> 0 <= b < 2 ^ 63 -> time_after_eq a b = (b <=? a).
Proof. intros Ha Hb. unfold time_after_eq. rewrite s64_small by lia. lia. Qed.

(** A right shift by three is the division by eight of the moving averages. *)
Lemma shiftr3 z : Z.shiftr z 3 = z / 8.
Proof. rewrite Z.shiftr_div_pow2 by lia. reflexivity. Qed.

(** ** Lemmas on arrays and loops *)

Section arrays.
Context {A : Type}.
Implicit Types (l : list A) (i : Z) (x y : A).

Lemma aget_Some l i x : aget l i = Some x -> 0 <= i < Z.of_nat (length l).
Proof.
  unfold aget. case_bool; [done|]. intros H%lookup_lt_Some. lia.
Qed.

Lemma aget_lt l i : 0 <= i < Z.of_nat (length l) -> exists x, aget l i = Some x.
Proof.
  intros H. unfold aget. case_bool; [lia|]. apply lookup_lt_is_Some. lia.
Qed.

Lemma aget_of_nat l n : aget l (Z.of_nat n) = l !! n.
Proof.
  unfold aget. destruct (Z.ltb_spec (Z.of_nat n) 0); [lia|]. by rewrite Nat2Z.id.
Qed.

Lemma aset_lt l i x :
  0 <= i < Z.of_nat (length l) -> aset l i x = Some (<[Z.to_nat i := x]> l).
Proof. intros H. unfold aset. case_bool; [done|lia]. Qed.

Lemma aset_out l i x : ~ 0 <= i < Z.of_nat (length l) -> aset l i x = None.
Proof. intros H. unfold aset. case_bool; [lia|done]. Qed.

Lemma aset_Some l i x l' :
  aset l i x = Some l' ->
  0 <= i < Z.of_nat (length l) /\ l' = <[Z.to_nat i := x]> l.
Proof. unfold aset. case_bool; intros H; inv_some. split; [lia|done]. Qed.

Lemma aset_length l i x l' : aset l i x = Some l' -> length l' = length l.
Proof. intros [_ ->]%aset_Some. apply length_insert. Qed.

Lemma aget_aset_eq l i x l' : aset l i x = Some l' -> aget l' i = Some x.
Proof.
  intros [Hi ->]%aset_Some. unfold aget. case_bool; [lia|].
  apply list_lookup_insert_eq. lia.
Qed.

Lemma aget_aset_ne l i j x l' :
  aset l i x = Some l' -> i <> j -> aget l' j = aget l j.
Proof.
  intros [Hi ->]%aset_Some Hne. unfold aget. case_bool; [done|].
  apply list_lookup_insert_ne. lia.
Qed.

Lemma amod_lt l i (f : A -> A) :
  0 <= i < Z.of_nat (length l) -> exists l', amod l i f = Some l' /\ length l' = length l.
Proof.
  intros H. destruct (aget_lt l i H) as [x Hx]. unfold amod. rewrite Hx. simpl.
  rewrite aset_lt by done. eexists; split; [done|]. apply length_insert.
Qed.

Lemma amod_length l i (f : A -> A) l' : amod l i f = Some l' -> length l' = length l.
Proof. unfold amod. intros H; inv_some. eapply aset_length; eauto. Qed.
End arrays.

(** The loop invariant rule for [foldM]: the body is defined at every index and
    preserves a property of the indices done so far and the state. *)
Lemma foldM_inv {A S} (f : S -> A -> option S) (P : list A -> S -> Prop) l s :
  P [] s ->
  (forall done a rest s, l = done ++ a :: rest -> P done s ->
     exists s', f s a = Some s' /\ P (done ++ [a]) s') ->
  exists s', foldM f s l = Some s' /\ P l s'.
Proof.
  intros H0 Hstep.
  enough (forall rest done s, l = done ++ rest -> P done s ->
    exists s', foldM f s rest = Some s' /\ P l s') as Hgen
    by (apply (Hgen l []); done).
  induction rest as [|a rest IH]; intros done st -> HP; simpl.
  { exists st. rewrite app_nil_r in *. done. }
  destruct (Hstep done a rest st eq_refl HP) as (s1 & -> & HP1). simpl.
  apply (IH (done ++ [a])); [|done]. by rewrite <- app_assoc.
Qed.

Lemma foldM_app {A S} (f : S -> A -> option S) l1 l2 s :
  foldM f s (l1 ++ l2) = foldM f s l1 ≫= fun s' => foldM f s' l2.
Proof.
  revert s. induction l1 as [|a l1 IH]; intros s; simpl; [done|].
  destruct (f s a); simpl; [apply IH|done].
Qed.

(** A loop whose body is always defined is a fold. *)
Lemma foldM_foldl {A S} (f : S -> A -> option S) (g : S -> A -> S) l s :
  (forall s a, a ∈ l -> f s a = Some (g s a)) -> foldM f s l = Some (foldl g s l).
Proof.
  revert s. induction l as [|a l IH]; intros s H; simpl; [done|].
  rewrite H by set_solver. simpl. apply IH. intros s' b Hb. apply H. set_solver.
Qed.

(** ** Lemmas on [best] *)

Section best.
Context {A : Type} (key : A -> Z).
Implicit Types (p : A -> bool) (l : list A).

Lemma best_Some p l d :
  best key p l = Some d -> d ∈ l /\ p d = true /\ forall c, c ∈ l -> p c = true -> key d <= key c.
Proof.
  revert d. induction l as [|a l IH]; intros d; simpl; [done|].
  destruct (best key p l) as [b|] eqn:E.
  - intros [= <-]. destruct (IH b eq_refl) as (Hin & Hp & Hmin).
    destruct (p a) eqn:Ea; simpl; [destruct (key a <=? key b) eqn:Ek|];
      (split; [set_solver|]); (split; [done|]);
      intros c [->|Hc]%elem_of_cons Hpc; try congruence; try lia;
      specialize (Hmin c Hc Hpc); lia.
  - destruct (p a) eqn:Ea; intros [= <-]. split; [set_solver|]. split; [done|].
    intros c [->|Hc]%elem_of_cons Hpc; [lia|]. exfalso. clear IH.
    induction l as [|b l IH]; [by apply elem_of_nil in Hc|]. simpl in E.
    destruct (best key p l) eqn:E2; [done|]. destruct (p b) eqn:Hb; [done|].
    apply elem_of_cons in Hc as [->|Hc]; [congruence|]. by apply IH.
Qed.

Lemma best_None p l : best key p l = None <-> forall c, c ∈ l -> p c = false.
Proof.
  induction l as [|a l IH]; simpl; [set_solver|].
  destruct (best key p l) as [d|] eqn:E.
  - split; [done|]. intros H. apply best_Some in E as (Hin & Hp & _).
    rewrite H in Hp by set_solver. done.
  - destruct (p a) eqn:Ea.
    + split; [done|]. intros H. rewrite H in Ea by set_solver. done.
    + split; [|done]. intros _ c [->|Hc]%elem_of_cons; [done|]. by apply IH.
Qed.

(** Restricting the candidates to keys below [k]. *)
Lemma best_below p k l :
  best key (fun c => p c && (key c <? k)) l
  = (d ← best key p l; if key d <? k then Some d else None).
Proof.
  induction l as [|a l IH]; simpl; [done|]. rewrite IH.
  destruct (best key p l) as [d|]; simpl.
  - destruct (key d <? k) eqn:E1; destruct (p a) eqn:E2; destruct (key a <? k) eqn:E3;
      destruct (key a <=? key d) eqn:E4; simpl; rewrite ?E1, ?E3; try done; lia.
  - destruct (p a); simpl; [|done]. by destruct (key a <? k).
Qed.
End best.

(** ** Lemmas on filters *)

Lemma list_filter_all {A} (P : A -> Prop) `{!forall x, Decision (P x)} (l : list A) :
  (forall x, x ∈ l -> P x) -> filter P l = l.
Proof.
  induction l as [|x l IH]; intros Hl; [done|]. rewrite filter_cons_True by (apply Hl; left).
  f_equal. apply IH. intros y Hy. apply Hl. by right.
Qed.

Create HintDb blksw.
#[export] Hint Resolve u64_range u32_range s32_range : blksw.
Create Rewrite HintDb blksw_norm.
#[export] Hint Rewrite shiftr3 : blksw_norm.
