(* ===== verification/MqTypes.v ===== *)
(** * Data of the multi-queue block layer

    The structures of include/linux/blk-mq.h, include/linux/blkdev.h and
    block/blk-mq.h, restricted to the fields that the modelled functions of
    block/blk-mq.c read or write.  A pointer is represented by what it
    identifies: a software queue ([struct blk_mq_ctx]) by its CPU, a hardware
    queue ([struct blk_mq_hw_ctx]) by its index in [queue_hw_ctx], a request by
    an address in the store [q_rqs]. *)
From S2P Require Import Prelude.

(** ** Names defined by kernel headers outside the repository

    The request flag masks of <linux/blk_types.h> and the priority encoding of
    <linux/ioprio.h>.  The code relies on each flag being one bit of its own. *)

Definition is_bit (m : Z) : Prop := exists n, 0 <= n /\ m = 2 ^ n.

Class BlkTypes := {
  REQ_PRIO : Z;
  REQ_FUA : Z;
  REQ_HIPRI : Z;
  REQ_NOWAIT : Z;
  REQ_RAHEAD : Z;
  REQ_FAILFAST_MASK : Z;
  IOPRIO_CLASS_SHIFT : Z;
  IOPRIO_CLASS_NONE : Z;
  IOPRIO_NORM : Z;
  op_is_sync : Z -> bool;
  op_is_flush : Z -> bool;
  op_is_write : Z -> bool;
  req_bits : Forall is_bit [REQ_PRIO; REQ_FUA; REQ_HIPRI; REQ_NOWAIT];
  req_distinct : NoDup [REQ_PRIO; REQ_FUA; REQ_HIPRI; REQ_NOWAIT];
}.

Section names.
Context {bt : BlkTypes}.
Definition IOPRIO_PRIO_CLASS (prio : Z) : Z := Z.shiftr prio IOPRIO_CLASS_SHIFT.
Definition IOPRIO_PRIO_VALUE (class data : Z) : Z :=
  Z.lor (Z.shiftl class IOPRIO_CLASS_SHIFT) data.
End names.

(** ** Constants *)

Definition HCTX_TYPE_DEFAULT : Z := 0.
Definition HCTX_TYPE_READ : Z := 1.
Definition HCTX_TYPE_POLL : Z := 2.
Definition HCTX_MAX_TYPES : Z := 3.

Definition BLK_MQ_F_SHOULD_MERGE : Z := 1.
Definition BLK_MQ_F_TAG_SHARED : Z := 2.
Definition BLK_MQ_F_BLOCKING : Z := 32.
Definition BLK_MQ_S_STOPPED : Z := 0.
Definition BLK_MQ_S_TAG_ACTIVE : Z := 1.
Definition BLK_MQ_S_SCHED_RESTART : Z := 2.
Definition BLK_MQ_MAX_DEPTH : Z := 10240.
Definition BLK_MQ_CPU_WORK_BATCH : Z := 8.
Definition BLK_MQ_MAX_DISPATCH_ORDER : Z := 7.

Definition BLK_MQ_REQ_NOWAIT : Z := 1.
Definition BLK_MQ_REQ_RESERVED : Z := 2.
Definition BLK_MQ_REQ_INTERNAL : Z := 4.
Definition BLK_MQ_REQ_PREEMPT : Z := 8.

Definition RQF_SOFTBARRIER : Z := 2 ^ 3.
Definition RQF_MQ_INFLIGHT : Z := 2 ^ 6.
Definition RQF_DONTPREP : Z := 2 ^ 7.
Definition RQF_PREEMPT : Z := 2 ^ 8.
Definition RQF_ELVPRIV : Z := 2 ^ 12.
Definition RQF_IO_STAT : Z := 2 ^ 13.
Definition RQF_STATS : Z := 2 ^ 17.
Definition RQF_SPECIAL_PAYLOAD : Z := 2 ^ 18.
Definition RQF_MQ_POLL_SLEPT : Z := 2 ^ 20.
Definition RQF_TIMED_OUT : Z := 2 ^ 21.

Definition QUEUE_FLAG_NOMERGES : Z := 3.
Definition QUEUE_FLAG_SAME_COMP : Z := 4.
Definition QUEUE_FLAG_NONROT : Z := 6.
Definition QUEUE_FLAG_IO_STAT : Z := 7.
Definition QUEUE_FLAG_SAME_FORCE : Z := 12.
Definition QUEUE_FLAG_POLL : Z := 16.
Definition QUEUE_FLAG_STATS : Z := 20.
Definition QUEUE_FLAG_POLL_STATS : Z := 21.
Definition QUEUE_FLAG_QUIESCED : Z := 24.

(** [test_bit(nr, &word)]. *)
Definition test_bit (nr word : Z) : bool := Z.testbit word nr.

(** Request states. *)
Inductive mq_rq_state := MQ_RQ_IDLE | MQ_RQ_IN_FLIGHT | MQ_RQ_COMPLETE.
#[export] Instance mq_rq_state_eq_dec : EqDecision mq_rq_state.
Proof. solve_decision. Defined.

(** ** Structures *)

Abbreviation rqid := Z (only parsing).

(** A block I/O descriptor. *)
Record bio := mk_bio {
  bi_size : Z;  (* bytes left, bi_iter.bi_size *)
  bi_opf : Z;  (* operation and flags *)
  bi_ioprio : Z;
  bi_sector : Z;
}.
#[export] Instance bio_eta : Settable bio := {| eta_expand := fun r =>
  mk_bio (bi_size r) (bi_opf r) (bi_ioprio r) (bi_sector r) |}.

(** struct request. *)
Record request := mk_request {
  mq_ctx : Z;  (* CPU of the software queue *)
  mq_hctx : option Z;  (* hardware queue, NULL once freed *)
  cmd_flags : Z;
  rq_flags : Z;
  tag : Z;  (* driver tag, -1 when none *)
  internal_tag : Z;  (* scheduler tag, -1 when none *)
  steered : bool;  (* blk-switch: request was steered *)
  data_len : Z;  (* __data_len, bytes of the request *)
  sector : Z;
  rq_bio : option bio;
  part : option Z;
  start_time_ns : Z;
  io_start_time_ns : Z;
  stats_sectors : Z;
  nr_phys_segments : Z;
  extra_len : Z;
  rq_state : mq_rq_state;
  ref : Z;
  rq_timeout : Z;
  deadline : Z;
  end_io : bool;  (* a completion callback is set *)
  elv_icq : option Z;  (* I/O context of the scheduler *)
}.
#[export] Instance request_eta : Settable request := {| eta_expand := fun r =>
  mk_request (mq_ctx r) (mq_hctx r) (cmd_flags r) (rq_flags r) (tag r) (internal_tag r) (steered r) (data_len r) (sector r) (rq_bio r) (part r) (start_time_ns r) (io_start_time_ns r) (stats_sectors r) (nr_phys_segments r) (extra_len r) (rq_state r) (ref r) (rq_timeout r) (deadline r) (end_io r) (elv_icq r) |}.

(** struct blk_mq_ctx: the software queue of a CPU. *)
Record blk_mq_ctx := mk_ctx {
  rq_lists : list (list rqid);  (* one list per hctx type *)
  cpu : Z;
  index_hw : list Z;  (* bit number in the ctx_map of each type *)
  hctxs : list Z;  (* hardware queue of each type *)
  rq_dispatched : list Z;  (* asynchronous, synchronous *)
  rq_merged : Z;
  rq_completed : list Z;
}.
#[export] Instance blk_mq_ctx_eta : Settable blk_mq_ctx := {| eta_expand := fun r =>
  mk_ctx (rq_lists r) (cpu r) (index_hw r) (hctxs r) (rq_dispatched r) (rq_merged r) (rq_completed r) |}.

(** struct blk_mq_hw_ctx: a hardware queue. *)
Record blk_mq_hw_ctx := mk_hctx {
  dispatch : list rqid;
  h_state : Z;  (* BLK_MQ_S_* bits *)
  run_work : option (Z * Z);  (* CPU and delay of the queued run_work *)
  cpumask : list Z;  (* CPUs mapped to the queue *)
  next_cpu : Z;
  next_cpu_batch : Z;
  h_flags : Z;  (* BLK_MQ_F_* flags *)
  driver_data : Z;  (* the queue of the driver *)
  ctx_map : list bool;  (* software queues with pending work *)
  dispatch_from : option Z;
  dispatch_busy : Z;
  blk_switch : bool;  (* the field that the driver sets for blk-switch *)
  h_type : Z;
  nr_ctx : Z;
  h_ctxs : list Z;  (* software queues, by bit number *)
  dispatch_wait : bool;  (* dispatch_wait.entry is on a wait queue *)
  tags : option Z;  (* index of the driver tags *)
  sched_tags : option Z;
  queued : Z;
  dispatched : list Z;
  numa_node : Z;
  queue_num : Z;
  nr_active : Z;
  poll_considered : Z;
  poll_invoked : Z;
  poll_success : Z;
}.
#[export] Instance blk_mq_hw_ctx_eta : Settable blk_mq_hw_ctx := {| eta_expand := fun r =>
  mk_hctx (dispatch r) (h_state r) (run_work r) (cpumask r) (next_cpu r) (next_cpu_batch r) (h_flags r) (driver_data r) (ctx_map r) (dispatch_from r) (dispatch_busy r) (blk_switch r) (h_type r) (nr_ctx r) (h_ctxs r) (dispatch_wait r) (tags r) (sched_tags r) (queued r) (dispatched r) (numa_node r) (queue_num r) (nr_active r) (poll_considered r) (poll_invoked r) (poll_success r) |}.

(** struct blk_mq_tags; [in_use] is the content of its tag bitmaps. *)
Record blk_mq_tags := mk_tags {
  nr_tags : Z;
  nr_reserved_tags : Z;
  active_queues : Z;
  ws_active : Z;  (* users of the wait queues of the bitmap *)
  in_use : list Z;  (* tags set in the bitmaps *)
  tag_rqs : list (option rqid);  (* rqs[], request that holds each tag *)
  static_rqs : list (option rqid);
}.
#[export] Instance blk_mq_tags_eta : Settable blk_mq_tags := {| eta_expand := fun r =>
  mk_tags (nr_tags r) (nr_reserved_tags r) (active_queues r) (ws_active r) (in_use r) (tag_rqs r) (static_rqs r) |}.

(** struct blk_mq_alloc_data. *)
Record blk_mq_alloc_data := mk_alloc_data {
  d_flags : Z;  (* BLK_MQ_REQ_* flags *)
  d_shallow_depth : Z;
  d_cmd_flags : Z;
  d_ctx : option Z;
  d_hctx : option Z;
}.
#[export] Instance blk_mq_alloc_data_eta : Settable blk_mq_alloc_data := {| eta_expand := fun r =>
  mk_alloc_data (d_flags r) (d_shallow_depth r) (d_cmd_flags r) (d_ctx r) (d_hctx r) |}.

(** The methods of an I/O scheduler that the allocation path calls
    ([e->type->ops]); a method that is not set is [None]. *)
Record elv_ops := mk_elv_ops {
  limit_depth : option (Z -> blk_mq_alloc_data -> blk_mq_alloc_data);
  prepare_request : option (request -> option bio -> request);
  finish_request : option (request -> request);
  icq_cache : bool;
  assign_ioc : request -> request;  (* blk_mq_sched_assign_ioc *)
}.

(** struct request_queue with the tags of its tag set and the store of requests. *)
Record request_queue := mk_queue {
  elevator : option elv_ops;
  queue_ctx : list blk_mq_ctx;  (* per CPU *)
  queue_hw_ctx : list blk_mq_hw_ctx;
  queue_flags : Z;
  nr_requests : Z;
  dma_drain_size : Z;
  requeue_list : list rqid;
  requeue_work : option Z;  (* delay of the queued requeue_work *)
  mq_freeze_depth : Z;
  q_usage_dead : bool;  (* q_usage_counter has been killed *)
  q_usage : Z;  (* q_usage_counter *)
  q_tags : list blk_mq_tags;  (* tags of the tag set *)
  q_rqs : gmap Z request;  (* the requests, by address *)
}.
#[export] Instance request_queue_eta : Settable request_queue := {| eta_expand := fun r =>
  mk_queue (elevator r) (queue_ctx r) (queue_hw_ctx r) (queue_flags r) (nr_requests r) (dma_drain_size r) (requeue_list r) (requeue_work r) (mq_freeze_depth r) (q_usage_dead r) (q_usage r) (q_tags r) (q_rqs r) |}.

(** Structures as [kzalloc] returns them. *)
Definition ctx0 : blk_mq_ctx := mk_ctx [[]; []; []] 0 [0; 0; 0] [0; 0; 0] [0; 0] 0 [0; 0].
Definition hctx0 : blk_mq_hw_ctx :=
  mk_hctx [] 0 None [] 0 0 0 0 [] None 0 false 0 0 [] false None None 0
    [0; 0; 0; 0; 0; 0; 0] 0 0 0 0 0 0.
Definition request0 : request :=
  mk_request 0 None 0 0 0 0 false 0 0 None None 0 0 0 0 0 MQ_RQ_IDLE 0 0 0 false None.
Definition tags0 : blk_mq_tags := mk_tags 0 0 0 0 [] [] [].
Definition queue0 : request_queue := mk_queue None [] [] 0 0 0 [] None 0 false 0 [] ∅.

(** [q->nr_hw_queues]: every entry of [queue_hw_ctx] of a set-up queue is a
    hardware queue. *)
Definition nr_hw_queues (q : request_queue) : Z := Z.of_nat (length (queue_hw_ctx q)).

(** Replace the hardware queue [i], the software queue of [c] or the request at
    [r]: a store through the pointer. *)
Definition set_hctx (i : Z) (h : blk_mq_hw_ctx) (q : request_queue) : request_queue :=
  q <| queue_hw_ctx ::= <[Z.to_nat i := h]> |>.
Definition set_ctx (c : Z) (x : blk_mq_ctx) (q : request_queue) : request_queue :=
  q <| queue_ctx ::= <[Z.to_nat c := x]> |>.
Definition set_rq (r : rqid) (rq : request) (q : request_queue) : request_queue :=
  q <| q_rqs ::= <[r := rq]> |>.
Definition set_tags (i : Z) (t : blk_mq_tags) (q : request_queue) : request_queue :=
  q <| q_tags ::= <[Z.to_nat i := t]> |>.

(** ** Mapping to hardware queues (block/blk-mq.h) *)

Section map_queue.
Context {bt : BlkTypes}.

(** The type of hardware queue that serves a request: polled requests, then
    requests of latency-sensitive applications, then everything else. *)
Definition hctx_type_of (flags : Z) : Z :=
  if has_flag flags REQ_HIPRI then HCTX_TYPE_POLL
  else if has_flag flags REQ_PRIO && negb (has_flag flags REQ_FUA) then HCTX_TYPE_READ
  else HCTX_TYPE_DEFAULT.

Definition blk_mq_map_queue (flags : Z) (ctx : blk_mq_ctx) : option Z :=
  aget (hctxs ctx) (hctx_type_of flags).
End map_queue.

Definition blk_mq_map_queue_type (mq_map : list (list Z)) (type cpu : Z) : option Z :=
  m ← aget mq_map type; aget m cpu.

Definition blk_mq_tags_from_data (q : request_queue) (d : blk_mq_alloc_data) : option Z :=
  i ← d_hctx d; h ← aget (queue_hw_ctx q) i;
  if has_flag (d_flags d) BLK_MQ_REQ_INTERNAL then sched_tags h else tags h.

Definition blk_mq_hctx_stopped (h : blk_mq_hw_ctx) : bool :=
  test_bit BLK_MQ_S_STOPPED (h_state h).

Definition blk_mq_hw_queue_mapped (h : blk_mq_hw_ctx) : bool :=
  c_true (nr_ctx h) && bool_decide (is_Some (tags h)).

(** ** Lemmas on flags *)

Lemma test_bit_set n w : 0 <= n -> test_bit n (Z.setbit w n) = true.
Proof. intros Hn. unfold test_bit. rewrite Z.setbit_eqb by done. by rewrite Z.eqb_refl. Qed.
Lemma test_bit_clear n w : test_bit n (Z.clearbit w n) = false.
Proof. unfold test_bit. rewrite Z.clearbit_eqb. rewrite Z.eqb_refl. apply andb_false_r. Qed.

Section flags.
Context {bt : BlkTypes}.

Lemma has_flag_pow2 f n : 0 <= n -> has_flag f (2 ^ n) = Z.testbit f n.
Proof.
  intros Hn. unfold has_flag, c_true. destruct (Z.testbit f n) eqn:E.
  - apply negb_true_iff, Z.eqb_neq. intros H0.
    assert (Z.testbit (Z.land f (2 ^ n)) n = false) as Hb by (rewrite H0; apply Z.bits_0).
    rewrite Z.land_spec, E, Z.pow2_bits_true in Hb by done. done.
  - apply negb_false_iff, Z.eqb_eq, Z.bits_inj_0. intros m.
    rewrite Z.land_spec, Z.pow2_bits_eqb by done.
    destruct (n =? m) eqn:Em; [|by rewrite andb_false_r].
    apply Z.eqb_eq in Em as <-. by rewrite E.
Qed.

Lemma has_flag_lor f g m :
  is_bit m -> has_flag (Z.lor f g) m = has_flag f m || has_flag g m.
Proof. intros (n & Hn & ->). rewrite !has_flag_pow2 by done. apply Z.lor_spec. Qed.

Lemma has_flag_self m : is_bit m -> has_flag m m = true.
Proof. intros (n & Hn & ->). rewrite has_flag_pow2 by done. by apply Z.pow2_bits_true. Qed.

Lemma has_flag_other m m' : is_bit m -> is_bit m' -> m <> m' -> has_flag m m' = false.
Proof.
  intros (n & Hn & ->) (n' & Hn' & ->) Hne. rewrite has_flag_pow2 by done.
  apply Z.pow2_bits_false. congruence.
Qed.

Lemma REQ_PRIO_bit : is_bit REQ_PRIO.
Proof. pose proof req_bits as H. rewrite !Forall_cons in H. tauto. Qed.
Lemma REQ_FUA_bit : is_bit REQ_FUA.
Proof. pose proof req_bits as H. rewrite !Forall_cons in H. tauto. Qed.
Lemma REQ_HIPRI_bit : is_bit REQ_HIPRI.
Proof. pose proof req_bits as H. rewrite !Forall_cons in H. tauto. Qed.
Lemma REQ_PRIO_not_FUA : REQ_PRIO <> REQ_FUA.
Proof. pose proof req_distinct as H. rewrite !NoDup_cons in H. set_solver. Qed.
Lemma REQ_PRIO_not_HIPRI : REQ_PRIO <> REQ_HIPRI.
Proof. pose proof req_distinct as H. rewrite !NoDup_cons in H. set_solver. Qed.
End flags.

#[export] Hint Resolve REQ_PRIO_bit REQ_FUA_bit REQ_HIPRI_bit
  REQ_PRIO_not_FUA REQ_PRIO_not_HIPRI : blksw.
#[export] Hint Rewrite @has_flag_lor @has_flag_self using (auto with blksw) : blksw_norm.

(** ** The values of Linux 5.4 *)

Definition linux_5_4 : BlkTypes.
Proof.
  refine {| REQ_PRIO := 2 ^ 13; REQ_FUA := 2 ^ 17; REQ_HIPRI := 2 ^ 24;
    REQ_NOWAIT := 2 ^ 21; REQ_RAHEAD := 2 ^ 19; REQ_FAILFAST_MASK := 7 * 2 ^ 8;
    IOPRIO_CLASS_SHIFT := 13; IOPRIO_CLASS_NONE := 0; IOPRIO_NORM := 4;
    op_is_write := fun op => Z.odd op;
    op_is_sync := fun op => (Z.land op 255 =? 0)
       || has_flag op (2 ^ 11 + 2 ^ 17 + 2 ^ 18);
    op_is_flush := fun op => has_flag op (2 ^ 17 + 2 ^ 18) |}.
  - repeat constructor; by eexists; split; [|reflexivity].
  - by apply (bool_decide_unpack _); vm_compute.
Defined.
