(* ===== verification/BlkSwitch.v ===== *)
(** * blk-switch: prioritisation and steering

    block/blk-switch.h and the parts of [blk_mq_get_request] (block/blk-mq.c)
    that implement blk-switch: the reset of the load metrics, application
    steering and request steering.  The load metrics are global arrays of 64
    entries; an access outside them is [None]. *)
From S2P Require Import Prelude MqTypes.

(** ** Constants, parameters and state (block/blk-switch.h) *)

Definition BLK_SWITCH_NR_CPUS : Z := 64.
Definition BLK_SWITCH_RESET_METRICS : Z := 1000.
Definition BLK_SWITCH_APPSTR_INTERVAL : Z := 10.
Definition BLK_SWITCH_TCP_BATCH : Z := 16.
Definition BLK_SWITCH_THRESH_L : Z := 98304.

Definition BLK_SWITCH_T_APP : Z := 0.
Definition BLK_SWITCH_L_APP : Z := 1.
Definition BLK_SWITCH_NONE : Z := 0.
Definition BLK_SWITCH_TCP : Z := 1.
Definition BLK_SWITCH_RDMA : Z := 2.

(** Module parameters. *)
Record bsw_params := mk_bsw_params {
  blk_switch_on : Z;  (* 0: prio, 1: +reqstr, 2: +appstr *)
  blk_switch_thresh_B : Z;
  blk_switch_nr_cpus : Z;
  blk_switch_debug : Z;
}.

(** Global variables. *)
Record bsw := mk_bsw {
  T_bytes : list Z;
  L_bytes : list Z;
  T_metric : list Z;
  L_metric : list Z;
  T_appstr : list Z;
  L_appstr : list Z;
  reset_metrics : Z;
  last_appstr : Z;
  appstr_app : Z;
  stats_print : list Z;
  stats_gen : list Z;
  stats_str : list Z;
  stats_prc : list Z;
}.
#[export] Instance bsw_eta : Settable bsw := {| eta_expand := fun r =>
  mk_bsw (T_bytes r) (L_bytes r) (T_metric r) (L_metric r) (T_appstr r) (L_appstr r)
    (reset_metrics r) (last_appstr r) (appstr_app r)
    (stats_print r) (stats_gen r) (stats_str r) (stats_prc r) |}.

Definition zeros : list Z := replicate (Z.to_nat BLK_SWITCH_NR_CPUS) 0.
Definition bsw_init : bsw :=
  mk_bsw zeros zeros zeros zeros zeros zeros 0 0 0 zeros zeros zeros zeros.

(** What one call observes of the machine: the topology, the clock, the CPU it
    runs on, the CPU it runs on after an optional [sched_setaffinity], the
    outcome of [kcalloc], the bytes [get_random_bytes] delivers, and [nr_req] of
    the driver queue behind a [driver_data] pointer. *)
Record bsw_env := mk_bsw_env {
  num_online_cpus : Z;
  num_online_nodes : Z;
  jiffies : Z;
  msecs_to_jiffies : Z -> Z;
  current_cpu : Z;
  cpu_after : option Z -> Z;
  kcalloc_ok : bool;
  random_bytes : list Z;
  driver_nr_req : Z -> Z;
}.

(** [int cur_node = data->hctx->numa_node], from an [unsigned int]. *)
Definition cur_node (h : blk_mq_hw_ctx) : Z := s32 (numa_node h).

Definition b2z (b : bool) : Z := if b then 1 else 0.

(** ** Classification of requests (block/blk-switch.h) *)

Section classify.
Context {bt : BlkTypes}.

Definition bio_prio (b : bio) : Z := bi_ioprio b.

(** [io_context] is the I/O priority of the task's I/O context, if it has one. *)
Definition blk_switch_set_ioprio (io_context : option Z) (b : bio) : bio :=
  let ioprio := match io_context with
                | Some prio => prio
                | None => IOPRIO_PRIO_VALUE IOPRIO_CLASS_NONE IOPRIO_NORM
                end in
  if IOPRIO_PRIO_CLASS ioprio =? BLK_SWITCH_L_APP
  then (b <| bi_ioprio := u16 ioprio |>) <| bi_opf ::= fun f => Z.lor f REQ_PRIO |>
  else b.

Definition blk_switch_request (ob : option bio) (h : blk_mq_hw_ctx) : bool :=
  blk_switch h && match ob with Some b => 0 <? bi_size b | None => false end.

Definition blk_switch_is_thru_request (ob : option bio) : bool :=
  match ob with
  | Some b => negb (IOPRIO_PRIO_CLASS (bio_prio b) =? BLK_SWITCH_L_APP)
  | None => false
  end.
End classify.

Definition bio_size (ob : option bio) : Z := from_option bi_size 0 ob.

(** ** Reset of the metrics ([blk_mq_get_request], first part) *)

Definition steering_nr_cpus (p : bsw_params) (e : bsw_env) : Z :=
  if (blk_switch_nr_cpus p <=? 0) || (num_online_cpus e <? blk_switch_nr_cpus p)
  then num_online_cpus e else blk_switch_nr_cpus p.

Definition reset_cpu (s : bsw) (i : Z) : option bsw :=
  tb ← aset (T_bytes s) i 0; lb ← aset (L_bytes s) i 0;
  tm ← aset (T_metric s) i 0; lm ← aset (L_metric s) i 0;
  ta ← aset (T_appstr s) i 0; la ← aset (L_appstr s) i 0;
  sp ← aset (stats_print s) i 1;
  Some (mk_bsw tb lb tm lm ta la (reset_metrics s) (last_appstr s) (appstr_app s)
          sp (stats_gen s) (stats_str s) (stats_prc s)).

Definition reset_all (nr_cpus : Z) (s : bsw) : option bsw :=
  s ← foldM reset_cpu s (seqZ 0 nr_cpus);
  Some ((s <| last_appstr := 0 |>) <| appstr_app := 0 |>).

Definition print_stats (cpu : Z) (s : bsw) : option bsw :=
  g ← aset (stats_gen s) cpu 0; t ← aset (stats_str s) cpu 0;
  c ← aset (stats_prc s) cpu 0; pr ← aset (stats_print s) cpu 0;
  Some ((((s <| stats_gen := g |>) <| stats_str := t |>) <| stats_prc := c |>)
          <| stats_print := pr |>).

Definition blk_switch_reset (p : bsw_params) (e : bsw_env) (nr_cpus : Z) (s : bsw)
  : option bsw :=
  s ← (if (reset_metrics s =? 0) || time_after (jiffies e) (reset_metrics s)
       then reset_all nr_cpus s else Some s);
  let s := s <| reset_metrics :=
    u64 (jiffies e + msecs_to_jiffies e BLK_SWITCH_RESET_METRICS) |> in
  if c_true (blk_switch_debug p) && c_true (reset_metrics s) then
    pr ← aget (stats_print s) (current_cpu e);
    if c_true pr then print_stats (current_cpu e) s else Some s
  else Some s.

(** ** Application steering *)

(** Exponentially weighted moving average of the outstanding bytes of a core:
    [bytes] are those in flight, [size] those of the request at hand, which is
    counted when it is of the class the metric measures ([mine]).  [sample] is
    an [int]. *)
Definition ewma (bytes m size : Z) (mine : bool) : Z :=
  let sample := s32 bytes in
  let m := if mine then
             let sample := s32 (sample + size) in
             if m =? 0 then u64 sample
             else u64 (u64 (m - Z.shiftr m 3) + Z.shiftr sample 3)
           else m in
  if m <? 10 then 0 else m.

Section steering.
Context {bt : BlkTypes}.

Definition update_T_core (cpu : Z) (ob : option bio) (s : bsw) : option bsw :=
  bytes ← aget (T_bytes s) cpu; m ← aget (T_metric s) cpu;
  tm ← aset (T_metric s) cpu (ewma bytes m (bio_size ob) (blk_switch_is_thru_request ob));
  Some (s <| T_metric := tm |>).

Definition update_L_core (cpu : Z) (ob : option bio) (s : bsw) : option bsw :=
  bytes ← aget (L_bytes s) cpu; m ← aget (L_metric s) cpu;
  lm ← aset (L_metric s) cpu
         (ewma bytes m (bio_size ob) (negb (blk_switch_is_thru_request ob)));
  Some (s <| L_metric := lm |>).

Definition snapshot_cpu (s : bsw) (i : Z) : option bsw :=
  t ← aget (T_metric s) i; ta ← aset (T_appstr s) i t;
  l ← aget (L_metric s) i; la ← aset (L_appstr s) i l;
  Some ((s <| T_appstr := ta |>) <| L_appstr := la |>).

Definition snapshot (e : bsw_env) (nr_cpus : Z) (s : bsw) : option bsw :=
  let deadline := u64 (jiffies e + msecs_to_jiffies e BLK_SWITCH_APPSTR_INTERVAL) in
  if last_appstr s =? 0 then Some (s <| last_appstr := deadline |>)
  else if time_after (jiffies e) (last_appstr s) then
    s ← foldM snapshot_cpu s (seqZ 0 nr_cpus);
    Some ((s <| last_appstr := deadline |>)
            <| appstr_app := if appstr_app s =? BLK_SWITCH_T_APP
                             then BLK_SWITCH_L_APP else BLK_SWITCH_T_APP |>)
  else Some s.

(** Loop variables of the search for a target core; [sc_break] records that the
    loop has been left by [break]. *)
Record scan_state := mk_scan {
  sc_target : Z;
  sc_min : Z;
  sc_break : bool;
}.

(** The body of the search, for the core [iter_cpu] with loads [iter_L] and
    [iter_T]: [thru] tells whether the request is of a throughput-bound
    application and [app] which class moves in this interval. *)
Definition scan_core (app : Z) (thru : bool) (cur_cpu L_core T_core : Z)
    (iter_cpu iter_L iter_T : Z) (c : scan_state) : scan_state :=
  if sc_break c then c
  else if (iter_cpu =? cur_cpu) || (BLK_SWITCH_THRESH_L <? iter_L) then c
  else if (app =? BLK_SWITCH_L_APP) && negb thru then
    if c_true T_core && c_true iter_L
       && (u64 (iter_L + iter_T) <? u64 (L_core + T_core))
       && (u64 (iter_L + iter_T) <? sc_min c)
    then mk_scan iter_cpu (u64 (iter_L + iter_T)) false
    else c
  else if (app =? BLK_SWITCH_T_APP) && thru then
    if (L_core <? iter_L) && (iter_L <? BLK_SWITCH_THRESH_L)
    then mk_scan (-1) (sc_min c) true
    else if (iter_L <? L_core) && (iter_T <? sc_min c)
    then mk_scan iter_cpu iter_T false
    else c
  else c.

Definition scan_init (thru : bool) (L_core T_core : Z) : scan_state :=
  mk_scan (-1) (if thru then 8388608 else u64 (L_core + T_core)) false.

Definition scan_body (s : bsw) (thru : bool) (cur_cpu nr_nodes cur_node L_core T_core : Z)
    (c : scan_state) (i : Z) : option scan_state :=
  if sc_break c then Some c else
  let iter_cpu := i * nr_nodes + cur_node in
  iter_L ← aget (L_appstr s) iter_cpu; iter_T ← aget (T_appstr s) iter_cpu;
  Some (scan_core (appstr_app s) thru cur_cpu L_core T_core iter_cpu iter_L iter_T c).

Definition app_steering_target (s : bsw) (thru : bool)
    (cur_cpu cur_node nr_cpus nr_nodes : Z) : option Z :=
  L_core ← aget (L_appstr s) cur_cpu; T_core ← aget (T_appstr s) cur_cpu;
  c ← foldM (scan_body s thru cur_cpu nr_nodes cur_node L_core T_core)
            (scan_init thru L_core T_core) (seqZ 0 (nr_cpus / nr_nodes));
  Some (sc_target c).

(** The metrics of the core that the application leaves are cleared when no
    other queue shares its tags. *)
Definition app_steering_clear (thru : bool) (cur_cpu active_queues : Z) (s : bsw)
  : option bsw :=
  if negb thru && (active_queues <=? 1) then
    lm ← aset (L_metric s) cur_cpu 0; Some (s <| L_metric := lm |>)
  else if thru && (active_queues <=? 1) then
    tm ← aset (T_metric s) cur_cpu 0; Some (s <| T_metric := tm |>)
  else Some s.

(** The queues of the allocation are those of CPU [cpu]. *)
Definition set_data_ctx (q : request_queue) (cpu : Z) (d : blk_mq_alloc_data)
  : option blk_mq_alloc_data :=
  ctx ← aget (queue_ctx q) cpu; hi ← blk_mq_map_queue (d_cmd_flags d) ctx;
  Some ((d <| d_ctx := Some cpu |>) <| d_hctx := Some hi |>).

(** Application steering: the new metrics and queues, and [app_steered]. *)
Definition app_steering (e : bsw_env) (nr_cpus : Z) (q : request_queue)
    (ob : option bio) (d : blk_mq_alloc_data) (s : bsw)
  : option (bsw * blk_mq_alloc_data * bool) :=
  let thru := blk_switch_is_thru_request ob in
  cx ← d_ctx d; ctx ← aget (queue_ctx q) cx; let cur_cpu := cpu ctx in
  hi ← d_hctx d; h ← aget (queue_hw_ctx q) hi;
  s ← update_T_core cur_cpu ob s;
  s ← update_L_core cur_cpu ob s;
  s ← snapshot e nr_cpus s;
  target_cpu ← app_steering_target s thru cur_cpu (cur_node h) nr_cpus (num_online_nodes e);
  s ← (if 0 <=? target_cpu then
         ti ← tags h; t ← aget (q_tags q) ti;
         s ← app_steering_clear thru cur_cpu (active_queues t) s;
         if kcalloc_ok e then Some s else None
       else Some s);
  let now := cpu_after e (if 0 <=? target_cpu then Some target_cpu else None) in
  if now =? cur_cpu then Some (s, d, false)
  else d ← set_data_ctx q now d; Some (s, d, true).

(** ** Request steering *)

Definition default_hctx (q : request_queue) (c : Z) : option blk_mq_hw_ctx :=
  ctx ← aget (queue_ctx q) c; hi ← aget (hctxs ctx) HCTX_TYPE_DEFAULT;
  aget (queue_hw_ctx q) hi.

Definition steering_thresh (p : bsw_params) (h : blk_mq_hw_ctx) : Z :=
  if 0 <? blk_switch_thresh_B p then s32 (blk_switch_thresh_B p * 2)
  else if b2z (blk_switch h) =? BLK_SWITCH_TCP then BLK_SWITCH_TCP_BATCH * 2
  else BLK_SWITCH_TCP_BATCH / 2.

Record pick_state := mk_pick {
  pk_target : Z;
  pk_min_nr : Z;
  pk_min_active : Z;
  pk_rnd : list Z;
}.
#[export] Instance pick_eta : Settable pick_state := {| eta_expand := fun r =>
  mk_pick (pk_target r) (pk_min_nr r) (pk_min_active r) (pk_rnd r) |}.

Definition get_random_byte (rnd : list Z) : option (Z * list Z) :=
  match rnd with [] => None | x :: rnd => Some (u8 x, rnd) end.

(** Comparison of core [c], with [nr] requests missing to a full batch and
    [T_active] outstanding ones, to the best core so far. *)
Definition pick_core (cur_cpu c nr T_active : Z) (k : pick_state) : option pick_state :=
  if nr <? pk_min_nr k then Some (mk_pick c nr T_active (pk_rnd k))
  else if nr =? pk_min_nr k then
    if T_active <? pk_min_active k then Some (mk_pick c (pk_min_nr k) T_active (pk_rnd k))
    else if T_active =? pk_min_active k then
      if c =? cur_cpu then Some (k <| pk_target := c |>)
      else if negb (pk_target k =? cur_cpu) then
        '(r, rnd) ← get_random_byte (pk_rnd k);
        Some (mk_pick (if r mod 2 =? 0 then c else pk_target k)
                (pk_min_nr k) (pk_min_active k) rnd)
      else Some k
    else Some k
  else Some k.

(** The body of the search for another queue: only cores without load of
    latency-sensitive applications are considered and, for TCP, with less than a
    batch of outstanding requests. *)
Definition pick_body (e : bsw_env) (q : request_queue) (s : bsw) (fabric : Z)
    (cur_cpu cur_node : Z) (k : pick_state) (i : Z) : option pick_state :=
  let c := i * num_online_nodes e + cur_node in
  h ← default_hctx q c;
  let T_active := nr_active h in
  lm ← aget (L_metric s) c;
  let nr := if fabric =? BLK_SWITCH_TCP
            then s32 (BLK_SWITCH_TCP_BATCH - driver_nr_req e (driver_data h)) else 0 in
  if negb (c_true lm) && ((fabric =? BLK_SWITCH_RDMA)
       || (fabric =? BLK_SWITCH_TCP) && (T_active <? BLK_SWITCH_TCP_BATCH))
  then pick_core cur_cpu c nr T_active k
  else Some k.

(** The second of the two choices: draw until it differs from the first.  The
    draws are the recursion; [None] when they run out. *)
Fixpoint draw_other (n nr_nodes cur_node c0 : Z) (rnd : list Z) : option Z :=
  match rnd with
  | [] => None
  | x :: rnd =>
    let c1 := u8 x mod n * nr_nodes + cur_node in
    if c0 =? c1 then draw_other n nr_nodes cur_node c0 rnd else Some c1
  end.

(** Power-of-two choices among the cores of the node. *)
Definition two_choices (e : bsw_env) (q : request_queue) (nr_cpus cur_node : Z)
    (rnd : list Z) : option Z :=
  let nr_nodes := num_online_nodes e in
  let n := nr_cpus / nr_nodes in
  '(r0, rnd) ← get_random_byte rnd;
  let c0 := r0 mod n * nr_nodes + cur_node in
  c1 ← draw_other n nr_nodes cur_node c0 rnd;
  h0 ← default_hctx q c0; h1 ← default_hctx q c1;
  Some (if nr_active h0 <=? nr_active h1 then c0 else c1).

(** The core a request of a throughput-bound application is sent to. *)
Definition req_steering_target (p : bsw_params) (e : bsw_env) (nr_cpus : Z)
    (q : request_queue) (s : bsw) (cur_cpu : Z) (h local : blk_mq_hw_ctx)
  : option (bsw * Z) :=
  if nr_active local <=? steering_thresh p h then Some (s, cur_cpu)
  else
    st ← amod (stats_str s) cur_cpu (fun n => s32 (n + 1));
    let s := s <| stats_str := st |> in
    k ← foldM (pick_body e q s (b2z (blk_switch h)) cur_cpu (cur_node h))
              (mk_pick (-1) 1024 2048 (random_bytes e))
              (seqZ 0 (nr_cpus / num_online_nodes e));
    if pk_target k <? 0 then
      t ← two_choices e q nr_cpus (cur_node h) (pk_rnd k); Some (s, t)
    else Some (s, pk_target k).

(** Request steering: the new statistics and queues, and [req_steered]. *)
Definition req_steering (p : bsw_params) (e : bsw_env) (nr_cpus : Z) (q : request_queue)
    (d : blk_mq_alloc_data) (s : bsw) : option (bsw * blk_mq_alloc_data * bool) :=
  cx ← d_ctx d; ctx ← aget (queue_ctx q) cx; let cur_cpu := cpu ctx in
  hi ← d_hctx d; h ← aget (queue_hw_ctx q) hi;
  li ← aget (hctxs ctx) HCTX_TYPE_DEFAULT; local ← aget (queue_hw_ctx q) li;
  '(s, target_cpu) ← req_steering_target p e nr_cpus q s cur_cpu h local;
  gen ← amod (stats_gen s) cur_cpu (fun n => s32 (n + 1));
  let s := s <| stats_gen := gen |> in
  if cur_cpu =? target_cpu then Some (s, d, false)
  else
    prc ← amod (stats_prc s) target_cpu (fun n => s32 (n + 1));
    d ← set_data_ctx q target_cpu d;
    Some (s <| stats_prc := prc |>, d, true).

(** The blk-switch part of [blk_mq_get_request]: reset, application steering,
    request steering, under the guards of the code. *)
Definition blk_switch_steer (p : bsw_params) (e : bsw_env) (q : request_queue)
    (ob : option bio) (d : blk_mq_alloc_data) (s : bsw)
  : option (bsw * blk_mq_alloc_data * bool) :=
  let nr_cpus := steering_nr_cpus p e in
  hi ← d_hctx d; h ← aget (queue_hw_ctx q) hi;
  s ← (if blk_switch_request ob h then blk_switch_reset p e nr_cpus s else Some s);
  '(s, d, app_steered) ←
    (if (2 <=? blk_switch_on p) && blk_switch_request ob h
     then app_steering e nr_cpus q ob d s else Some (s, d, false));
  hi ← d_hctx d; h ← aget (queue_hw_ctx q) hi;
  if (1 <=? blk_switch_on p) && blk_switch_request ob h
     && blk_switch_is_thru_request ob && negb app_steered
     && (num_online_nodes e * 2 <=? nr_cpus)
  then req_steering p e nr_cpus q d s
  else Some (s, d, false).
End steering.
