(* ===== verification/BlkSwitchSpec.v ===== *)
(** * blk-switch: what prioritisation and steering promise

    Theorems on the definitions of BlkSwitch: separation of the two classes of
    applications onto different hardware queues, the moving average that
    measures the load of a core, the choice of a target core by application and
    by request steering against reference definitions, and the absence of
    accesses outside the arrays. *)
From S2P Require Import Prelude MqTypes BlkSwitch.

(** ** Reference definitions *)

(** The cores that the steering loops visit: those of one NUMA node. *)
Definition node_cpus (nr_cpus nr_nodes node : Z) : list Z :=
  (fun i => i * nr_nodes + node) <$> seqZ 0 (nr_cpus / nr_nodes).

Definition load (l : list Z) (c : Z) : Z := default 0 (aget l c).

Section reference.
Variable s : bsw.
Let L := load (L_appstr s).
Let T := load (T_appstr s).

Definition total_load (c : Z) : Z := u64 (L c + T c).

(** Cores a latency-sensitive application may move to. *)
Definition L_candidate (cur c : Z) : bool :=
  negb (c =? cur) && (L c <=? BLK_SWITCH_THRESH_L) && c_true (T cur) && c_true (L c)
  && (total_load c <? total_load cur).

(** Cores a throughput-bound application may move to, and cores that make it
    wait for a latency-sensitive application to move first. *)
Definition T_candidate (cur c : Z) : bool :=
  negb (c =? cur) && (L c <=? BLK_SWITCH_THRESH_L) && (L c <? L cur) && (T c <? 8388608).
Definition T_waits_for (cur c : Z) : bool :=
  negb (c =? cur) && (L cur <? L c) && (L c <? BLK_SWITCH_THRESH_L).

(** The target of application steering: the least loaded candidate. *)
Definition app_target_spec (thru : bool) (cur : Z) (cpus : list Z) : Z :=
  if (appstr_app s =? BLK_SWITCH_L_APP) && negb thru then
    default (-1) (best total_load (L_candidate cur) cpus)
  else if (appstr_app s =? BLK_SWITCH_T_APP) && thru then
    if existsb (T_waits_for cur) cpus then -1
    else default (-1) (best T (T_candidate cur) cpus)
  else -1.
End reference.

(** The moving average without its cut-off, while no value leaves the positive
    range of [int], and [n] updates under a constant sample. *)
Definition ewma_raw (m x : Z) : Z := if m =? 0 then x else m - m / 8 + x / 8.

Fixpoint ewma_iter (n : nat) (bytes size m : Z) : Z :=
  match n with
  | O => m
  | S n => ewma_iter n bytes size (ewma bytes m size true)
  end.

(** An index inside an array. *)
Definition in_array {A} (l : list A) (i : Z) : Prop := 0 <= i < Z.of_nat (length l).

(** A queue that has been set up on the machine: software queues of as many CPUs
    as blk-switch uses, at most 64 of them, each with a hardware queue for every
    type; hardware queues with a NUMA node of the machine and with tags. *)
Record topology_wf (nr_cpus : Z) (e : bsw_env) (q : request_queue) : Prop := {
  tw_nodes : 0 < num_online_nodes e;
  tw_cpus : 0 <= nr_cpus <= Z.of_nat (length (queue_ctx q));
  tw_64 : Z.of_nat (length (queue_ctx q)) <= BLK_SWITCH_NR_CPUS;
  tw_ctx : forall c ctx, aget (queue_ctx q) c = Some ctx ->
    cpu ctx = c /\ Z.of_nat (length (hctxs ctx)) = HCTX_MAX_TYPES
    /\ Forall (in_array (queue_hw_ctx q)) (hctxs ctx);
  tw_hctx : forall i h, aget (queue_hw_ctx q) i = Some h ->
    0 <= cur_node h < num_online_nodes e
    /\ exists ti, tags h = Some ti /\ in_array (q_tags q) ti;
}.

(** The global arrays keep their size. *)
Definition bsw_wf (s : bsw) : Prop :=
  Forall (fun l => Z.of_nat (length l) = BLK_SWITCH_NR_CPUS)
    [T_bytes s; L_bytes s; T_metric s; L_metric s; T_appstr s; L_appstr s;
     stats_print s; stats_gen s; stats_str s; stats_prc s].

(** What request steering looks at for core [c]: the requests missing to a full
    batch, the outstanding requests, and whether the core is a candidate. *)
Section cores.
Variables (e : bsw_env) (q : request_queue) (s : bsw).
Definition core_active (c : Z) : Z := from_option nr_active 0 (default_hctx q c).
Definition core_missing (c : Z) : Z :=
  BLK_SWITCH_TCP_BATCH - driver_nr_req e (from_option driver_data 0 (default_hctx q c)).
Definition core_eligible (c : Z) : bool :=
  (load (L_metric s) c =? 0) && (core_active c <? BLK_SWITCH_TCP_BATCH).
Definition core_le (c c' : Z) : Prop :=
  core_missing c < core_missing c'
  \/ core_missing c = core_missing c' /\ core_active c <= core_active c'.
End cores.

(** Enough random bytes: after any of the first [n + 1] draws there is still one
    that selects the first core of the node and one that selects the second. *)
Definition random_enough (n : Z) (rnd : list Z) : Prop :=
  forall k, Z.of_nat k <= n + 1 -> 0 ∈ drop k rnd /\ 1 ∈ drop k rnd.

(** ** Classification *)

Section classification.
Context {bt : BlkTypes}.

Lemma set_ioprio_L prio b :
  IOPRIO_PRIO_CLASS prio = BLK_SWITCH_L_APP ->
  blk_switch_set_ioprio (Some prio) b
  = (b <| bi_ioprio := u16 prio |>) <| bi_opf ::= fun f => Z.lor f REQ_PRIO |>.
Proof. intros H. unfold blk_switch_set_ioprio. by rewrite H. Qed.

Lemma set_ioprio_T prio b :
  IOPRIO_PRIO_CLASS prio <> BLK_SWITCH_L_APP -> blk_switch_set_ioprio (Some prio) b = b.
Proof. intros H%Z.eqb_neq. unfold blk_switch_set_ioprio. by rewrite H. Qed.

(** The I/O priority of a task, which has an I/O context or not, and its class. *)
Definition task_ioprio (ioc : option Z) : Z :=
  default (IOPRIO_PRIO_VALUE IOPRIO_CLASS_NONE IOPRIO_NORM) ioc.
Definition latency_task (ioc : option Z) : bool := IOPRIO_PRIO_CLASS (task_ioprio ioc) =? BLK_SWITCH_L_APP.

(** The type of hardware queue for a bio [b] of a task. *)
Definition egress_type (ioc : option Z) (b : bio) : Z :=
  if has_flag (bi_opf b) REQ_HIPRI then HCTX_TYPE_POLL
  else if has_flag (bi_opf b) REQ_FUA then HCTX_TYPE_DEFAULT
  else if latency_task ioc || has_flag (bi_opf b) REQ_PRIO then HCTX_TYPE_READ
  else HCTX_TYPE_DEFAULT.

Lemma set_ioprio_task ioc b : blk_switch_set_ioprio ioc b = blk_switch_set_ioprio (Some (task_ioprio ioc)) b.
Proof. by destruct ioc. Qed.

Lemma map_queue_egress ioc b ctx :
  blk_mq_map_queue (bi_opf (blk_switch_set_ioprio ioc b)) ctx = aget (hctxs ctx) (egress_type ioc b).
Proof.
  unfold blk_mq_map_queue, hctx_type_of, egress_type, latency_task. f_equal. rewrite set_ioprio_task.
  destruct (Z.eqb_spec (IOPRIO_PRIO_CLASS (task_ioprio ioc)) BLK_SWITCH_L_APP) as [E|E].
  - rewrite set_ioprio_L by done. simpl. rewrite !has_flag_lor by auto with blksw.
    rewrite has_flag_self by auto with blksw. rewrite !(has_flag_other REQ_PRIO) by auto with blksw.
    rewrite !orb_false_r, orb_true_r. by destruct (has_flag (bi_opf b) REQ_HIPRI), (has_flag (bi_opf b) REQ_FUA).
  - rewrite set_ioprio_T by done. by destruct (has_flag (bi_opf b) REQ_HIPRI), (has_flag (bi_opf b) REQ_FUA), (has_flag (bi_opf b) REQ_PRIO).
Qed.

(** C1: egress separation.  For a bio of any task, with any flags: a polled request
    (REQ_HIPRI) is mapped to the hardware queue of type POLL of its software queue and
    one with REQ_FUA to that of type DEFAULT, whatever the task; any other request goes
    to the queue of type READ if the I/O priority class of the task is the
    latency-sensitive one or the bio already had REQ_PRIO set, and to that of type
    DEFAULT if neither.  The bio of a latency-sensitive task (with a priority of 16
    bits) gets its priority and REQ_PRIO, keeps its size and is not classified as a
    throughput request; the bio of any other task is left alone. *)
Theorem egress_separation ioc b ctx :
  let b' := blk_switch_set_ioprio ioc b in
  blk_mq_map_queue (bi_opf b') ctx
    = aget (hctxs ctx)
        (if has_flag (bi_opf b) REQ_HIPRI then HCTX_TYPE_POLL
         else if has_flag (bi_opf b) REQ_FUA then HCTX_TYPE_DEFAULT
         else if latency_task ioc || has_flag (bi_opf b) REQ_PRIO then HCTX_TYPE_READ
         else HCTX_TYPE_DEFAULT)
  /\ if latency_task ioc
     then bi_ioprio b' = u16 (task_ioprio ioc) /\ has_flag (bi_opf b') REQ_PRIO = true /\ bi_size b' = bi_size b
          /\ (0 <= task_ioprio ioc < 2 ^ 16 -> blk_switch_is_thru_request (Some b') = false)
     else b' = b.
Proof.
  intros b'. subst b'. split; [apply map_queue_egress|]. unfold latency_task. rewrite set_ioprio_task.
  destruct (Z.eqb_spec (IOPRIO_PRIO_CLASS (task_ioprio ioc)) BLK_SWITCH_L_APP) as [E|E].
  - rewrite set_ioprio_L by done. split; [done|]. split; [|split; [done|]].
    + simpl. rewrite has_flag_lor, has_flag_self by auto with blksw. apply orb_true_r.
    + intros Hp. simpl. unfold u16. rewrite Z.mod_small by done. unfold bio_prio. simpl. by rewrite E.
  - by rewrite set_ioprio_T.
Qed.
End classification.

(** The class of real-time tasks is the latency-sensitive one. *)
Lemma egress_separation_witness :
  let b := mk_bio 4096 0 0 0 in
  let ctx := mk_ctx [] 0 [] [7; 8; 9] [] 0 [] in
  @blk_mq_map_queue linux_5_4 (bi_opf (@blk_switch_set_ioprio linux_5_4 (Some 8196) b)) ctx = Some 8
  /\ @blk_mq_map_queue linux_5_4 (bi_opf (@blk_switch_set_ioprio linux_5_4 None b)) ctx = Some 7.
Proof.
  intros b ctx. split.
  - apply (@egress_separation linux_5_4 (Some 8196) b ctx).
  - apply (@egress_separation linux_5_4 None b ctx).
Defined.

(** ** The moving average *)

Lemma ewma_mine bytes m size :
  0 <= bytes -> 0 <= size -> bytes + size < 2 ^ 31 -> 0 <= m < 2 ^ 31 ->
  ewma bytes m size true
  = if ewma_raw m (bytes + size) <? 10 then 0 else ewma_raw m (bytes + size).
Proof.
  intros Hb Hs Hsum Hm. unfold ewma, ewma_raw. rewrite !shiftr3.
  rewrite (s32_small bytes), (s32_small (bytes + size)) by lia.
  destruct (m =? 0) eqn:E; rewrite !u64_small; try done; try lia.
  all: rewrite ?u64_small; Z.div_mod_to_equations; lia.
Qed.

Lemma ewma_raw_between m x :
  0 < m -> 0 <= x -> Z.min m x <= ewma_raw m x <= Z.max m x.
Proof.
  intros Hm Hx. unfold ewma_raw. case_bool; [lia|]. Z.div_mod_to_equations. lia.
Qed.

(** the load metric is a weighted average.  While the outstanding bytes fit
    an [int], an update by a request of the measured class moves the metric
    towards the sample without overshooting it (or clears it, below 10 bytes),
    starts it at the sample when it is zero, and an update by a request of the
    other class leaves it in place. *)
Lemma ewma_average bytes m size :
  0 <= bytes -> 0 <= size -> bytes + size < 2 ^ 31 -> 0 <= m < 2 ^ 31 ->
  let x := bytes + size in
  let m' := ewma bytes m size true in
  (m = 0 -> 10 <= x -> m' = x)
  /\ (10 <= m -> 10 <= x -> Z.min m x <= m' <= Z.max m x)
  /\ (8 <= Z.abs (m - x) -> 10 <= m -> 10 <= x -> Z.abs (m' - x) < Z.abs (m - x))
  /\ (10 <= m -> ewma bytes m size false = m).
Proof.
  intros Hb Hs Hsum Hm x m'. unfold m'. rewrite ewma_mine by done. fold x.
  refine (conj _ (conj _ (conj _ _))).
  - intros -> Hx. unfold ewma_raw. simpl. case_bool; lia.
  - intros H1 H2. pose proof (ewma_raw_between m x). case_bool; lia.
  - intros Hd H1 H2. pose proof (ewma_raw_between m x). case_bool; [lia|].
    unfold ewma_raw in *. destruct (m =? 0) eqn:E0; [lia|].
    Z.div_mod_to_equations. lia.
  - intros Hm10. unfold ewma. case_bool; lia.
Qed.

Lemma ewma_average_witness :
  ewma 4096 8192 12288 true = 9216 /\ Z.abs (9216 - 16384) < Z.abs (8192 - 16384).
Proof.
  split; [reflexivity|].
  apply (ewma_average 4096 8192 12288); lia.
Defined.

Lemma ewma_step_closer bytes m size :
  0 <= bytes -> 0 <= size -> 10 <= bytes + size < 2 ^ 31 -> 10 <= m < 2 ^ 31 ->
  let x := bytes + size in let m' := ewma bytes m size true in
  10 <= m' < 2 ^ 31 /\ Z.abs (m' - x) <= Z.max (Z.abs (m - x) - 1) 7.
Proof.
  intros Hb Hs Hx Hm x m'. unfold m'. rewrite ewma_mine by lia. fold x in Hx |- *.
  pose proof (ewma_raw_between m x) as Hbt. case_bool; [lia|].
  split; [lia|]. unfold ewma_raw in *. destruct (m =? 0) eqn:E0; [lia|].
  Z.div_mod_to_equations. lia.
Qed.

Lemma ewma_iter_closer n bytes size m :
  0 <= bytes -> 0 <= size -> 10 <= bytes + size < 2 ^ 31 -> 10 <= m < 2 ^ 31 ->
  Z.abs (ewma_iter n bytes size m - (bytes + size))
  <= Z.max (Z.abs (m - (bytes + size)) - Z.of_nat n) 7.
Proof.
  intros Hb Hs Hx. revert m. induction n as [|n IH]; intros m Hm; simpl ewma_iter; [lia|].
  pose proof (ewma_step_closer bytes m size Hb Hs Hx Hm) as [Hm' Hd].
  specialize (IH _ Hm'). lia.
Qed.

(** the load metric converges.  Under a constant sample of outstanding
    bytes, whatever the value it starts from (a stored metric is zero or at
    least ten), the metric is within seven bytes of the sample after as many
    updates as the initial distance, and remains so. *)
Lemma ewma_converges n bytes size m :
  0 <= bytes -> 0 <= size -> 10 <= bytes + size < 2 ^ 31 ->
  m = 0 \/ 10 <= m < 2 ^ 31 ->
  Z.abs (m - (bytes + size)) < Z.of_nat n ->
  Z.abs (ewma_iter n bytes size m - (bytes + size)) <= 7.
Proof.
  intros Hb Hs Hx Hm Hn. destruct Hm as [->|Hm].
  - destruct n as [|n]; [lia|]. simpl.
    assert (ewma bytes 0 size true = bytes + size) as ->.
    { rewrite ewma_mine by lia. unfold ewma_raw. simpl. case_bool; lia. }
    pose proof (ewma_iter_closer n bytes size (bytes + size) Hb Hs Hx Hx). lia.
  - pose proof (ewma_iter_closer n bytes size m Hb Hs Hx Hm). lia.
Qed.

Lemma ewma_converges_witness :
  Z.abs (ewma_iter 40 1000 24 1060 - (1000 + 24)) <= 7.
Proof. apply (ewma_converges 40 1000 24 1060); try lia. Defined.

(** ** Application steering *)

Lemma aget_load l c : in_array l c -> aget l c = Some (load l c).
Proof. intros [x Hx]%aget_lt. unfold load. by rewrite Hx. Qed.

Lemma node_cpus_bound nr_cpus nr_nodes node c :
  0 < nr_nodes -> 0 <= node < nr_nodes -> 0 <= nr_cpus ->
  c ∈ node_cpus nr_cpus nr_nodes node -> 0 <= c < nr_cpus /\ c mod nr_nodes = node.
Proof.
  intros Hn Hnode Hc (i & -> & Hi%elem_of_seqZ)%list_elem_of_fmap. split.
  - pose proof (Z.mul_div_le nr_cpus nr_nodes Hn). nia.
  - rewrite Z.add_comm, Z_mod_plus_full, Z.mod_small; lia.
Qed.

Section scan.
Variables (s : bsw) (cur : Z).
Let L := load (L_appstr s).
Let T := load (T_appstr s).

Definition scan_fold (thru : bool) (cpus : list Z) (c : scan_state) : scan_state :=
  foldl (fun c k => scan_core (appstr_app s) thru cur (L cur) (T cur) k (L k) (T k) c) c cpus.

Lemma scan_body_fold thru nr_nodes node l c :
  (forall i, i ∈ l -> in_array (L_appstr s) (i * nr_nodes + node)
                      /\ in_array (T_appstr s) (i * nr_nodes + node)) ->
  foldM (scan_body s thru cur nr_nodes node (L cur) (T cur)) c l
  = Some (scan_fold thru ((fun i => i * nr_nodes + node) <$> l) c).
Proof.
  intros H. rewrite (foldM_foldl _ (fun c i => let k := i * nr_nodes + node in
    scan_core (appstr_app s) thru cur (L cur) (T cur) k (L k) (T k) c)).
  - unfold scan_fold. f_equal. revert c. clear H.
    induction l as [|i l IH]; intros c; simpl; [done|apply IH].
  - intros c' i Hi. destruct (H i Hi) as [HL HT]. unfold scan_body.
    rewrite !aget_load by done. simpl.
    destruct (sc_break c') eqn:E; [|done]. unfold scan_core. by rewrite E.
Qed.

Lemma scan_fold_break thru l c : sc_break c = true -> scan_fold thru l c = c.
Proof.
  intros Hb. unfold scan_fold. induction l as [|k l IH]; simpl; [done|].
  unfold scan_core at 2. by rewrite Hb.
Qed.

(** A search for the least key: what both loops do. *)
Lemma foldl_best (key : Z -> Z) (p : Z -> bool) l c :
  foldl (fun c k => if p k && (key k <? sc_min c) then mk_scan k (key k) false else c) c l
  = match best key p l with
    | Some k => if key k <? sc_min c then mk_scan k (key k) false else c
    | None => c
    end.
Proof.
  revert c. induction l as [|a l IH]; intros c; simpl; [done|]. rewrite IH.
  destruct (best key p l) as [d|]; destruct (p a); simpl; try done;
    destruct (key a <? sc_min c) eqn:E1; simpl; try done.
  all: destruct (key a <=? key d) eqn:E2; destruct (key d <? key a) eqn:E3; try lia.
  all: rewrite ?E1; try done.
  all: destruct (key d <? sc_min c) eqn:E4; try done; lia.
Qed.

Lemma scan_fold_L l c :
  appstr_app s = BLK_SWITCH_L_APP -> sc_break c = false ->
  scan_fold false l c
  = foldl (fun c k => if L_candidate s cur k && (total_load s k <? sc_min c)
                      then mk_scan k (total_load s k) false else c) c l.
Proof.
  intros Happ. revert c. induction l as [|k l IH]; intros c Hb; [done|].
  simpl. rewrite IH.
  - f_equal. unfold scan_core, L_candidate, total_load. fold L T. rewrite Hb, Happ. simpl.
    rewrite (Z.ltb_antisym (L k)).
    destruct (k =? cur), (L k <=? BLK_SWITCH_THRESH_L), (c_true (T cur)), (c_true (L k)); done.
  - unfold scan_core. rewrite Hb, Happ. simpl. repeat case_bool; done.
Qed.

Lemma scan_fold_T l c :
  appstr_app s = BLK_SWITCH_T_APP -> sc_break c = false -> sc_min c <= 8388608 ->
  (existsb (T_waits_for s cur) l = true -> sc_target (scan_fold true l c) = -1)
  /\ (existsb (T_waits_for s cur) l = false ->
      scan_fold true l c
      = foldl (fun c k => if T_candidate s cur k && (T k <? sc_min c)
                          then mk_scan k (T k) false else c) c l).
Proof.
  intros Happ. revert c. induction l as [|k l IH]; intros c Hb Hmin; [done|]. simpl.
  set (c' := scan_core _ _ _ _ _ _ _ _ c).
  destruct (T_waits_for s cur k) eqn:Hw; simpl.
  - split; [|done]. intros _.
    assert (c' = mk_scan (-1) (sc_min c) true) as ->; [|by rewrite scan_fold_break].
    unfold c', scan_core, T_waits_for in *. fold L T in Hw. rewrite Hb, Happ. simpl.
    destruct (k =? cur); [done|]. simpl in *.
    destruct (BLK_SWITCH_THRESH_L <? L k) eqn:?; [lia|]. by rewrite Hw.
  - assert (c' = if T_candidate s cur k && (T k <? sc_min c)
                 then mk_scan k (T k) false else c) as Hc'.
    { unfold c', scan_core, T_candidate, T_waits_for in *. fold L T in Hw |- *.
      rewrite Hb, Happ, (Z.ltb_antisym (L k)). simpl.
      destruct (k =? cur); [done|]. simpl in *.
      destruct (L k <=? BLK_SWITCH_THRESH_L) eqn:?; [|done]. simpl. rewrite Hw.
      destruct (L k <? L cur) eqn:?; simpl; [|done].
      destruct (T k <? sc_min c) eqn:?; [|by rewrite andb_false_r].
      destruct (T k <? 8388608) eqn:?; [done|lia]. }
    rewrite Hc'. apply IH; repeat case_bool; simpl; try done; lia.
Qed.

Lemma scan_fold_idle thru l c :
  (appstr_app s =? BLK_SWITCH_L_APP) && negb thru = false ->
  (appstr_app s =? BLK_SWITCH_T_APP) && thru = false -> scan_fold thru l c = c.
Proof.
  intros H1 H2. induction l as [|k l IH]; simpl; [done|].
  enough (scan_core (appstr_app s) thru cur (L cur) (T cur) k (L k) (T k) c = c) as -> by done.
  unfold scan_core. rewrite H1, H2. repeat case_bool; done.
Qed.
End scan.

Lemma scan_fold_spec s cur thru cpus :
  sc_target (scan_fold s cur thru cpus
    (scan_init thru (load (L_appstr s) cur) (load (T_appstr s) cur)))
  = app_target_spec s thru cur cpus.
Proof.
  unfold app_target_spec.
  destruct ((appstr_app s =? BLK_SWITCH_L_APP) && negb thru) eqn:H1.
  - destruct thru; [by rewrite andb_false_r in H1|]. rewrite andb_true_r in H1.
    apply Z.eqb_eq in H1. rewrite scan_fold_L, foldl_best by done. simpl.
    destruct (best _ _ cpus) as [k|] eqn:E; [|done].
    apply best_Some in E as (_ & Hc & _). unfold L_candidate, total_load in *.
    case_bool; [done|lia].
  - destruct ((appstr_app s =? BLK_SWITCH_T_APP) && thru) eqn:H2.
    + destruct thru; [|by rewrite andb_false_r in H2]. rewrite andb_true_r in H2.
      apply Z.eqb_eq in H2.
      edestruct (scan_fold_T s cur cpus (scan_init true (load (L_appstr s) cur)
        (load (T_appstr s) cur))) as [Hy Hn]; [done..|simpl; lia|].
      destruct (existsb _ cpus); [by apply Hy|]. rewrite Hn, foldl_best by done. simpl.
      destruct (best _ _ cpus) as [k|] eqn:E; [|done].
      apply best_Some in E as (_ & Hc & _). unfold T_candidate in *. case_bool; [done|lia].
    + by rewrite scan_fold_idle.
Qed.

Lemma app_steering_target_scan s thru cur node nr_cpus nr_nodes :
  0 < nr_nodes -> 0 <= node < nr_nodes -> 0 <= nr_cpus ->
  nr_cpus <= Z.of_nat (length (L_appstr s)) -> nr_cpus <= Z.of_nat (length (T_appstr s)) ->
  in_array (L_appstr s) cur -> in_array (T_appstr s) cur ->
  app_steering_target s thru cur node nr_cpus nr_nodes
  = Some (app_target_spec s thru cur (node_cpus nr_cpus nr_nodes node)).
Proof.
  intros Hnn Hnode Hn HL HT HcL HcT. unfold app_steering_target.
  rewrite !aget_load by done. simpl. rewrite scan_body_fold; simpl.
  - f_equal. apply scan_fold_spec.
  - intros i Hi. pose proof (node_cpus_bound nr_cpus nr_nodes node (i * nr_nodes + node)) as Hb.
    destruct Hb as [Hb _]; try done.
    { by apply (list_elem_of_fmap_2 (fun i => i * nr_nodes + node)). }
    unfold in_array. lia.
Qed.

(** C10: the search of application steering is the choice of the least loaded
    candidate.  For either class of application and either phase, the loop with
    its running minimum and its early exit returns the first core of the node
    with the least load among the cores that qualify, or -1 when none does or a
    throughput-bound application has to wait; it reads inside the arrays. *)
Theorem app_steering_least_loaded s thru cur node nr_cpus nr_nodes :
  0 < nr_nodes -> 0 <= node < nr_nodes -> 0 <= nr_cpus ->
  nr_cpus <= Z.of_nat (length (L_appstr s)) -> nr_cpus <= Z.of_nat (length (T_appstr s)) ->
  in_array (L_appstr s) cur -> in_array (T_appstr s) cur ->
  app_steering_target s thru cur node nr_cpus nr_nodes
  = Some (app_target_spec s thru cur (node_cpus nr_cpus nr_nodes node)).
Proof. apply app_steering_target_scan. Qed.

Definition bsw_example : bsw :=
  bsw_init <| L_appstr := [60; 8; 50; 30; 9; 80] |> <| T_appstr := [100; 7; 20; 5; 40; 6] |>
           <| appstr_app := BLK_SWITCH_L_APP |>.

Lemma app_steering_least_loaded_witness :
  app_steering_target bsw_example false 0 0 6 2 = Some 4.
Proof.
  apply (app_steering_least_loaded bsw_example false 0 0 6 2);
    unfold in_array; vm_compute; done || (split; done).
Defined.

(** application steering only improves the placement.  When it chooses a
    core, that core is another core of the same NUMA node whose latency load is
    within the threshold; a latency-sensitive application only moves to a core
    with strictly less total load than its own, and no qualifying core has less;
    a throughput-bound one only moves when no other core of the node has more
    latency load than its own below the threshold, to a core with strictly less
    latency load and the least throughput load among the qualifying ones. *)
Lemma app_steering_improves s thru cur node nr_cpus nr_nodes t :
  0 < nr_nodes -> 0 <= node < nr_nodes -> 0 <= nr_cpus ->
  nr_cpus <= Z.of_nat (length (L_appstr s)) -> nr_cpus <= Z.of_nat (length (T_appstr s)) ->
  in_array (L_appstr s) cur -> in_array (T_appstr s) cur ->
  app_steering_target s thru cur node nr_cpus nr_nodes = Some t -> 0 <= t ->
  let L := load (L_appstr s) in let T := load (T_appstr s) in
  let cpus := node_cpus nr_cpus nr_nodes node in
  t <> cur /\ 0 <= t < nr_cpus /\ t mod nr_nodes = node /\ L t <= BLK_SWITCH_THRESH_L
  /\ (thru = false ->
      total_load s t < total_load s cur
      /\ forall c, c ∈ cpus -> L_candidate s cur c = true -> total_load s t <= total_load s c)
  /\ (thru = true ->
      L t < L cur
      /\ (forall c, c ∈ cpus -> c <> cur -> L cur < L c -> BLK_SWITCH_THRESH_L <= L c)
      /\ forall c, c ∈ cpus -> T_candidate s cur c = true -> T t <= T c).
Proof.
  intros Hnn Hnode Hn HL HT HcL HcT Ht Ht0 L T cpus.
  rewrite app_steering_target_scan in Ht by done. injection Ht as Ht. fold cpus in Ht.
  pose proof (fun k => node_cpus_bound nr_cpus nr_nodes node k Hnn Hnode Hn) as Hcpus.
  unfold app_target_spec in Ht.
  destruct (_ && negb thru) eqn:H1; [|destruct (_ && thru) eqn:H2; [|lia]].
  - destruct (best _ _ cpus) as [k|] eqn:E; simpl in Ht; [|lia]. subst k.
    apply best_Some in E as (Hin & Hc & Hmin). specialize (Hcpus _ Hin).
    destruct thru; [by rewrite andb_false_r in H1|].
    unfold L_candidate in Hc. rewrite !andb_true_iff in Hc. fold L T in Hc.
    destruct Hc as ((((Hne & Hth) & _) & _) & Hlt).
    repeat split; try done; lia.
  - destruct (existsb _ cpus) eqn:Hw; [lia|].
    destruct (best _ _ cpus) as [k|] eqn:E; simpl in Ht; [|lia]. subst k.
    apply best_Some in E as (Hin & Hc & Hmin). specialize (Hcpus _ Hin).
    destruct thru; [|by rewrite andb_false_r in H2].
    unfold T_candidate in Hc. rewrite !andb_true_iff in Hc. fold L T in Hc.
    destruct Hc as (((Hne & Hth) & Hlt) & _).
    repeat split; try done; try lia.
    intros c Hc Hcc Hlc. destruct (decide (BLK_SWITCH_THRESH_L <= L c)) as [|Hlo]; [done|].
    enough (existsb (T_waits_for s cur) cpus = true) by congruence.
    apply existsb_exists. exists c. split; [by apply list_elem_of_In|].
    unfold T_waits_for. fold L T. lia.
Qed.

Lemma app_steering_improves_witness : total_load bsw_example 4 < total_load bsw_example 0.
Proof.
  destruct (app_steering_improves bsw_example false 0 0 6 2 4) as (_ & _ & _ & _ & H & _);
    [unfold in_array; vm_compute; done || (split; done)..|].
  apply H. reflexivity.
Defined.

(** ** Request steering *)

Lemma foldM_fmap {A B S} (f : S -> B -> option S) (g : A -> B) s l :
  foldM f s (g <$> l) = foldM (fun s a => f s (g a)) s l.
Proof.
  revert s. induction l as [|a l IH]; intros s; simpl; [done|].
  destruct (f s (g a)); simpl; [apply IH|done].
Qed.

Section topology.
Context {nr_cpus : Z} {e : bsw_env} {q : request_queue} (Hwf : topology_wf nr_cpus e q).

Lemma topo_ctx c :
  in_array (queue_ctx q) c -> exists ctx, aget (queue_ctx q) c = Some ctx /\ cpu ctx = c.
Proof.
  intros [ctx Hctx]%aget_lt. exists ctx. split; [done|]. by apply (tw_ctx _ _ _ Hwf) in Hctx as [].
Qed.

Lemma topo_map c ctx ty :
  aget (queue_ctx q) c = Some ctx -> 0 <= ty < HCTX_MAX_TYPES ->
  exists i h, aget (hctxs ctx) ty = Some i /\ aget (queue_hw_ctx q) i = Some h.
Proof.
  intros Hctx Hty. apply (tw_ctx _ _ _ Hwf) in Hctx as (_ & Hlen & Hall).
  destruct (aget_lt (hctxs ctx) ty) as [i Hi]; [lia|]. exists i.
  assert (in_array (queue_hw_ctx q) i) as [h Hh]%aget_lt; [|by exists h].
  rewrite Forall_forall in Hall. apply Hall.
  unfold aget in Hi. destruct (ty <? 0); [done|]. by eapply list_elem_of_lookup_2.
Qed.

Lemma topo_default c :
  in_array (queue_ctx q) c -> exists h, default_hctx q c = Some h.
Proof.
  intros (ctx & Hctx & _)%topo_ctx.
  destruct (topo_map c ctx HCTX_TYPE_DEFAULT Hctx) as (i & h & Hi & Hh); [done|].
  exists h. unfold default_hctx. rewrite Hctx. simpl. rewrite Hi. done.
Qed.

Lemma topo_node i h c :
  aget (queue_hw_ctx q) i = Some h ->
  c ∈ node_cpus nr_cpus (num_online_nodes e) (cur_node h) ->
  0 <= c < nr_cpus /\ in_array (queue_ctx q) c /\ 0 <= c < BLK_SWITCH_NR_CPUS.
Proof.
  intros Hh Hc. pose proof (tw_cpus _ _ _ Hwf). pose proof (tw_64 _ _ _ Hwf).
  apply (tw_hctx _ _ _ Hwf) in Hh as [Hn _].
  apply node_cpus_bound in Hc; [|apply (tw_nodes _ _ _ Hwf)|done|lia].
  unfold in_array. lia.
Qed.
End topology.

Section pick.
Variables (e : bsw_env) (q : request_queue) (s : bsw) (cur : Z) (rnd : list Z).

(** The loop invariant of the search: [k] describes the best of the cores
    [done], the current core winning ties; at most one random byte per core is
    used. *)
Definition pick_best (done : list Z) (k : pick_state) : Prop :=
  (pk_target k = -1 /\ pk_min_nr k = 1024 /\ pk_min_active k = 2048
   /\ forall c, c ∈ done -> core_eligible q s c = false)
  \/ (pk_target k ∈ done /\ core_eligible q s (pk_target k) = true
      /\ pk_min_nr k = core_missing e q (pk_target k)
      /\ pk_min_active k = core_active q (pk_target k)
      /\ (forall c, c ∈ done -> core_eligible q s c = true -> core_le e q (pk_target k) c)
      /\ (cur ∈ done -> core_eligible q s cur = true ->
          core_le e q cur (pk_target k) -> pk_target k = cur)).
Definition pick_rnd (done : list Z) (k : pick_state) : Prop :=
  exists j, (j <= length done)%nat /\ pk_rnd k = drop j rnd.

Definition pick_at (k : pick_state) (c : Z) : option pick_state :=
  if core_eligible q s c then pick_core cur c (core_missing e q c) (core_active q c) k
  else Some k.

(** The outcomes of the comparison with the best core so far. *)
Lemma pick_core_cases c nr act k r rr :
  get_random_byte (pk_rnd k) = Some (r, rr) ->
  exists k', pick_core cur c nr act k = Some k' /\
    ((nr < pk_min_nr k \/ nr = pk_min_nr k /\ act < pk_min_active k)
       /\ k' = mk_pick c nr act (pk_rnd k)
     \/ (pk_min_nr k < nr \/ nr = pk_min_nr k /\ pk_min_active k < act) /\ k' = k
     \/ (nr = pk_min_nr k /\ act = pk_min_active k
         /\ pk_min_nr k' = nr /\ pk_min_active k' = act
         /\ (pk_rnd k' = pk_rnd k \/ pk_rnd k' = rr)
         /\ (pk_target k' = c /\ (c = cur \/ pk_target k <> cur)
             \/ pk_target k' = pk_target k /\ c <> cur))).
Proof.
  intros Hr. unfold pick_core. rewrite Hr. simpl.
  repeat case_bool; eexists; (split; [reflexivity|]); simpl;
    repeat match goal with
    | H : (_ =? _) = true |- _ => apply Z.eqb_eq in H
    | H : (_ =? _) = false |- _ => apply Z.eqb_neq in H
    | H : (_ <? _) = true |- _ => apply Z.ltb_lt in H
    | H : (_ <? _) = false |- _ => apply Z.ltb_ge in H
    end; simpl; try (left; split; [lia|congruence]); try (right; left; split; [lia|done]);
    right; right; repeat split; try lia; auto.
  all: try (destruct (pk_target k =? cur) eqn:E; simpl in *; lia).
Qed.

(** One step of the search, at an eligible core and at another one. *)
Lemma pick_best_step done k c k' r rr :
  core_eligible q s c = true -> core_missing e q c <= BLK_SWITCH_TCP_BATCH ->
  get_random_byte (pk_rnd k) = Some (r, rr) ->
  pick_core cur c (core_missing e q c) (core_active q c) k = Some k' ->
  pick_best done k -> pick_best (done ++ [c]) k'.
Proof.
  intros He Hmiss Hr Hk Hinv.
  destruct (pick_core_cases c (core_missing e q c) (core_active q c) k r rr Hr)
    as (k2 & Hk2 & Hcase). rewrite Hk2 in Hk. injection Hk as ->.
  assert (core_active q c < BLK_SWITCH_TCP_BATCH) as Hact by (unfold core_eligible in He; lia).
  unfold BLK_SWITCH_TCP_BATCH in *. unfold pick_best. setoid_rewrite elem_of_app.
  setoid_rewrite list_elem_of_singleton. unfold core_le in *.
  destruct Hcase as [[Hlt ->]|[[Hgt ->]|(Hn & Ha & Hn' & Ha' & Hrk & Ht)]]; simpl; right.
  - destruct Hinv as [(_ & _ & _ & Hno)|(Hin & Hel & E1 & E2 & Hle & Hc')];
      repeat split; auto.
    + intros c0 [Hc0| ->] He0; [by rewrite Hno in He0|lia].
    + intros [Hc0| ->] He0; [by rewrite Hno in He0|done].
    + intros c0 [Hc0| ->] He0; [|lia]. specialize (Hle c0 Hc0 He0). unfold core_le in *. lia.
    + intros [Hc0| ->] He0; [|done]. specialize (Hle cur Hc0 He0). unfold core_le in *. lia.
  - destruct Hinv as [(_ & E1 & E2 & Hno)|(Hin & Hel & E1 & E2 & Hle & Hc')]; [lia|].
    repeat split; auto.
    + intros c0 [Hc0| ->] He0; [by apply Hle|lia].
    + intros [Hc0| ->] He0 H; [by apply Hc'|lia].
  - destruct Hinv as [(_ & E1 & E2 & Hno)|(Hin & Hel & E1 & E2 & Hle & Hc')]; [lia|].
    destruct Ht as [[-> Ht]|[-> Ht]]; repeat split; auto; try lia.
    + intros c0 [Hc0| ->] He0; [|lia]. specialize (Hle c0 Hc0 He0). unfold core_le in *. lia.
    + intros [Hc0| ->] He0 H; [|done]. destruct Ht as [|Ht]; [done|].
      destruct Ht. apply Hc'; auto. unfold core_le. lia.
    + intros c0 [Hc0| ->] He0; [by apply Hle|lia].
    + intros [Hc0| ->] He0 H; [by apply Hc'|done].
Qed.

Lemma pick_best_skip done k c :
  core_eligible q s c = false -> pick_best done k -> pick_best (done ++ [c]) k.
Proof.
  intros He. unfold pick_best. setoid_rewrite elem_of_app. setoid_rewrite list_elem_of_singleton.
  intros [(E0 & E1 & E2 & Hno)|(Hin & Hel & E1 & E2 & Hle & Hc')]; [left|right];
    repeat split; auto.
  - intros c0 [Hc0| ->]; auto.
  - intros c0 [Hc0| ->] He0; [auto|congruence].
  - intros [Hc0| ->] He0; [auto|congruence].
Qed.

Lemma pick_at_inv done k c :
  (length done < length rnd)%nat -> core_missing e q c <= BLK_SWITCH_TCP_BATCH ->
  pick_best done k -> pick_rnd done k ->
  exists k', pick_at k c = Some k' /\ pick_best (done ++ [c]) k' /\ pick_rnd (done ++ [c]) k'.
Proof.
  intros Hlen Hmiss Hinv (j & Hj & Hrnd).
  assert (exists r rr, get_random_byte (pk_rnd k) = Some (r, rr)
    /\ rr = drop (S j) rnd) as (r & rr & Hr & Hrr).
  { rewrite Hrnd. destruct (drop j rnd) as [|x l] eqn:E.
    - apply (f_equal length) in E. rewrite length_drop in E. simpl in E. lia.
    - exists (u8 x), l. split; [done|]. replace (S j) with (j + 1)%nat by lia.
      by rewrite <- drop_drop, E. }
  assert (forall k', pk_rnd k' = pk_rnd k \/ pk_rnd k' = rr -> pick_rnd (done ++ [c]) k') as Hrd.
  { intros k' Hrd. unfold pick_rnd. rewrite length_app. simpl.
    destruct Hrd as [->| ->]; [exists j|exists (S j)]; split; try lia; done. }
  unfold pick_at. destruct (core_eligible q s c) eqn:He.
  - destruct (pick_core_cases c (core_missing e q c) (core_active q c) k r rr Hr)
      as (k' & Hk & Hcase).
    exists k'. split; [done|]. split; [by eapply pick_best_step|]. apply Hrd.
    destruct Hcase as [[_ ->]|[[_ ->]|(_ & _ & _ & _ & Hrk & _)]]; auto.
  - exists k. split; [done|]. split; [by apply pick_best_skip|]. apply Hrd. auto.
Qed.
End pick.

Section request_steering.
Context (p : bsw_params) (e : bsw_env) (q : request_queue) (s : bsw) (nr_cpus : Z).
Hypothesis Hwf : topology_wf nr_cpus e q.
Hypothesis Hs : bsw_wf s.
Hypothesis Hnr : forall i h, aget (queue_hw_ctx q) i = Some h ->
  0 <= driver_nr_req e (driver_data h) < 2 ^ 31.

Lemma default_hctx_inv c h : default_hctx q c = Some h -> exists i, aget (queue_hw_ctx q) i = Some h.
Proof. unfold default_hctx. intros H. inv_some. eauto. Qed.

Lemma pick_body_at cur node k i :
  let c := i * num_online_nodes e + node in
  in_array (queue_ctx q) c ->
  pick_body e q s BLK_SWITCH_TCP cur node k i = pick_at e q s cur k c.
Proof.
  intros c Hc. unfold pick_body, pick_at. fold c.
  destruct (topo_default Hwf c Hc) as [h Hh]. pose proof (tw_64 _ _ _ Hwf) as H64.
  destruct (default_hctx_inv c h Hh) as [j Hj]. apply Hnr in Hj.
  rewrite Hh. simpl. rewrite aget_load.
  2: { unfold bsw_wf in Hs. rewrite !Forall_cons in Hs. unfold in_array in *. lia. }
  unfold core_eligible, core_missing, core_active. rewrite Hh. simpl.
  rewrite s32_small by (unfold BLK_SWITCH_TCP_BATCH; lia).
  unfold c_true. rewrite negb_involutive. done.
Qed.

Lemma pick_loop i h cur :
  aget (queue_hw_ctx q) i = Some h ->
  nr_cpus / num_online_nodes e <= Z.of_nat (length (random_bytes e)) ->
  let cpus := node_cpus nr_cpus (num_online_nodes e) (cur_node h) in
  exists k, foldM (pick_body e q s BLK_SWITCH_TCP cur (cur_node h))
              (mk_pick (-1) 1024 2048 (random_bytes e)) (seqZ 0 (nr_cpus / num_online_nodes e))
            = Some k
    /\ pick_best e q s cur cpus k /\ pick_rnd (random_bytes e) cpus k.
Proof.
  intros Hh Hrnd cpus.
  assert (foldM (pick_body e q s BLK_SWITCH_TCP cur (cur_node h))
    (mk_pick (-1) 1024 2048 (random_bytes e)) (seqZ 0 (nr_cpus / num_online_nodes e))
    = foldM (pick_at e q s cur) (mk_pick (-1) 1024 2048 (random_bytes e)) cpus) as ->.
  { unfold cpus, node_cpus. rewrite foldM_fmap.
    assert (forall j, j ∈ seqZ 0 (nr_cpus / num_online_nodes e) ->
      in_array (queue_ctx q) (j * num_online_nodes e + cur_node h)) as Hin.
    { intros j Hj. eapply (topo_node Hwf); [exact Hh|].
      by apply (list_elem_of_fmap_2 (fun i => i * num_online_nodes e + cur_node h)). }
    revert Hin. generalize (seqZ 0 (nr_cpus / num_online_nodes e)).
    generalize (mk_pick (-1) 1024 2048 (random_bytes e)).
    intros k l. revert k. induction l as [|j l IH]; intros k Hl; simpl; [done|].
    rewrite pick_body_at by (apply Hl; set_solver).
    destruct (pick_at _ _ _ _ _ _); simpl; [apply IH; set_solver|done]. }
  apply (foldM_inv _ (fun d k => pick_best e q s cur d k /\ pick_rnd (random_bytes e) d k)).
  - split; [left; simpl; set_solver|]. exists 0%nat. done.
  - intros d c rest k Hsplit [Hb Hr]. apply pick_at_inv; try done.
    + assert (length cpus = Z.to_nat (nr_cpus / num_online_nodes e)) as Hl.
      { unfold cpus, node_cpus. by rewrite length_fmap, length_seqZ. }
      rewrite Hsplit, length_app in Hl. simpl in Hl. lia.
    + unfold core_missing. destruct (default_hctx q c) as [hc|] eqn:E.
      * apply default_hctx_inv in E as [j Hj]. apply Hnr in Hj. simpl. lia.
      * exfalso. destruct (topo_default Hwf c) as [hc Hc]; [|congruence].
        eapply (topo_node Hwf); [exact Hh|]. fold cpus. rewrite Hsplit. set_solver.
Qed.

(** The second choice: found as soon as a draw differs from the first. *)
Lemma draw_other_some n nn node c0 rnd x :
  x ∈ rnd -> u8 x mod n * nn + node <> c0 ->
  exists y, draw_other n nn node c0 rnd = Some y
    /\ y <> c0 /\ exists z, z ∈ rnd /\ y = u8 z mod n * nn + node.
Proof.
  intros Hx Hne. induction rnd as [|z rnd IH]; [by apply elem_of_nil in Hx|]. simpl.
  case_bool.
  - apply elem_of_cons in Hx as [->|Hx]; [lia|].
    destruct (IH Hx) as (y & Hy & Hyc & z' & Hz' & ->). eauto 10 using list_elem_of_further.
  - eexists. split; [done|]. split; [lia|]. eexists. split; [|done]. apply list_elem_of_here.
Qed.

Lemma node_cpu_in node r :
  2 <= nr_cpus / num_online_nodes e ->
  u8 r mod (nr_cpus / num_online_nodes e) * num_online_nodes e + node
  ∈ node_cpus nr_cpus (num_online_nodes e) node.
Proof.
  intros Hn. apply (list_elem_of_fmap_2 (fun i => i * num_online_nodes e + node)).
  apply elem_of_seqZ. pose proof (Z.mod_pos_bound (u8 r) (nr_cpus / num_online_nodes e)). lia.
Qed.

Lemma node_big : num_online_nodes e * 2 <= nr_cpus -> 2 <= nr_cpus / num_online_nodes e.
Proof. intros H. pose proof (tw_nodes _ _ _ Hwf). apply Z.div_le_lower_bound; lia. Qed.

(** Two choices: the less loaded of two different cores of the node. *)
Lemma two_choices_spec i h x rnd :
  aget (queue_hw_ctx q) i = Some h -> num_online_nodes e * 2 <= nr_cpus ->
  0 ∈ rnd -> 1 ∈ rnd ->
  let cpus := node_cpus nr_cpus (num_online_nodes e) (cur_node h) in
  exists t c, two_choices e q nr_cpus (cur_node h) (x :: rnd) = Some t
    /\ t ∈ cpus /\ c ∈ cpus /\ c <> t /\ core_active q t <= core_active q c.
Proof.
  intros Hh Hnn%node_big H0 H1 cpus. unfold two_choices. simpl.
  set (n := nr_cpus / num_online_nodes e) in *. set (nn := num_online_nodes e) in *.
  set (c0 := u8 x mod n * nn + cur_node h).
  assert (exists y, draw_other n nn (cur_node h) c0 rnd = Some y
    /\ y <> c0 /\ exists z, z ∈ rnd /\ y = u8 z mod n * nn + cur_node h)
    as (c1 & Hd & Hne & z & _ & Hz).
  { pose proof (tw_nodes _ _ _ Hwf). fold nn in H.
    destruct (decide (c0 = cur_node h)).
    - apply (draw_other_some _ _ _ _ _ 1); [done|]. unfold u8.
      rewrite (Z.mod_small 1 (2 ^ 8)), (Z.mod_small 1 n) by lia. lia.
    - apply (draw_other_some _ _ _ _ _ 0); [done|]. unfold u8.
      rewrite !Z.mod_0_l by lia. lia. }
  assert (c0 ∈ cpus) as Hc0 by (by apply node_cpu_in).
  assert (c1 ∈ cpus) as Hc1 by (subst c1; by apply node_cpu_in).
  destruct (topo_default Hwf c0) as [h0 Hh0]; [by eapply (topo_node Hwf)|].
  destruct (topo_default Hwf c1) as [h1 Hh1]; [by eapply (topo_node Hwf)|].
  rewrite Hd. simpl. rewrite Hh0. simpl. rewrite Hh1. simpl. unfold core_active.
  case_bool; [exists c0, c1|exists c1, c0]; rewrite Hh0, Hh1; simpl;
    repeat split; try done; lia.
Qed.

(** The target of request steering once the local queue is busy. *)
Definition steered_to (cur : Z) (cpus : list Z) (t : Z) : Prop :=
  t ∈ cpus /\
  if existsb (core_eligible q s) cpus
  then core_eligible q s t = true
       /\ (forall c, c ∈ cpus -> core_eligible q s c = true -> core_le e q t c)
       /\ (cur ∈ cpus -> core_eligible q s cur = true -> core_le e q cur t -> t = cur)
  else exists c, c ∈ cpus /\ c <> t /\ core_active q t <= core_active q c.

Lemma req_target_busy i h local cur :
  aget (queue_hw_ctx q) i = Some h -> blk_switch h = true ->
  num_online_nodes e * 2 <= nr_cpus -> in_array (queue_ctx q) cur ->
  random_enough (nr_cpus / num_online_nodes e) (random_bytes e) ->
  steering_thresh p h < nr_active local ->
  exists st t, amod (stats_str s) cur (fun n => s32 (n + 1)) = Some st
    /\ req_steering_target p e nr_cpus q s cur h local = Some (s <| stats_str := st |>, t)
    /\ steered_to cur (node_cpus nr_cpus (num_online_nodes e) (cur_node h)) t.
Proof.
  intros Hh Hbs Hnn Hcur Hrnd Hbusy. unfold req_steering_target.
  case_bool; [lia|]. rewrite Hbs. change (b2z true) with BLK_SWITCH_TCP.
  destruct (amod_lt (stats_str s) cur (fun n => s32 (n + 1))) as (st & Hst & _).
  { unfold bsw_wf in Hs. rewrite !Forall_cons in Hs. pose proof (tw_64 _ _ _ Hwf).
    unfold in_array in *. lia. }
  rewrite Hst. simpl. exists st. pose proof (node_big Hnn) as Hn2.
  set (cpus := node_cpus nr_cpus (num_online_nodes e) (cur_node h)).
  assert (length cpus = Z.to_nat (nr_cpus / num_online_nodes e)) as Hlen.
  { unfold cpus, node_cpus. by rewrite length_fmap, length_seqZ. }
  destruct (pick_loop i h cur Hh) as (k & Hk & Hb & (j & Hj & Hkr)).
  { destruct (Hrnd (Z.to_nat (nr_cpus / num_online_nodes e) - 1)%nat) as [H0 _]; [lia|].
    apply list_elem_of_lookup_1 in H0 as [m Hm%lookup_lt_Some]. rewrite length_drop in Hm. lia. }
  match goal with |- context [foldM (pick_body e q ?s' ?f ?c ?n)] =>
    change (pick_body e q s' f c n) with (pick_body e q s f c n) end.
  rewrite Hk. simpl. fold cpus in Hb, Hj. unfold steered_to.
  destruct Hb as [(Ht & _ & _ & Hno)|(Hin & Hel & _ & _ & Hle & Hc)].
  - rewrite Ht. simpl.
    assert (exists x, pk_rnd k = x :: drop (S j) (random_bytes e)) as [x Hx].
    { rewrite Hkr. destruct (Hrnd j) as [H0 _]; [lia|].
      destruct (drop j (random_bytes e)) as [|x l] eqn:E; [by apply elem_of_nil in H0|].
      exists x. replace (S j) with (j + 1)%nat by lia. by rewrite <- drop_drop, E. }
    destruct (Hrnd (S j)) as [H0 H1]; [lia|].
    destruct (two_choices_spec i h x (drop (S j) (random_bytes e)) Hh Hnn H0 H1)
      as (t & c & Htc & Htin & Hcin & Hne & Hle).
    exists t. rewrite Hx, Htc. simpl. split; [done|]. split; [done|]. split; [done|].
    destruct (existsb _ cpus) eqn:E; [|by exists c].
    apply existsb_exists in E as (y & Hy%list_elem_of_In & Hey). rewrite Hno in Hey; done.
  - assert (0 <= pk_target k) as Hpos by (by eapply (topo_node Hwf)).
    destruct (pk_target k <? 0) eqn:E; [lia|]. exists (pk_target k).
    split; [done|]. split; [done|]. split; [done|].
    assert (existsb (core_eligible q s) cpus = true) as ->; [|done].
    apply existsb_exists. exists (pk_target k). split; [by apply list_elem_of_In|done].
Qed.

Context {bt : BlkTypes}.

Lemma hctx_type_range f : 0 <= hctx_type_of f < HCTX_MAX_TYPES.
Proof. unfold hctx_type_of. repeat case_bool; done. Qed.

Lemma set_data_ctx_ok c d :
  in_array (queue_ctx q) c ->
  exists i, in_array (queue_hw_ctx q) i
    /\ set_data_ctx q c d = Some ((d <| d_ctx := Some c |>) <| d_hctx := Some i |>).
Proof.
  intros Hc. destruct (topo_ctx Hwf c Hc) as (ctx & Hctx & _).
  destruct (topo_map Hwf c ctx (hctx_type_of (d_cmd_flags d)) Hctx) as (i & h & Hi & Hh).
  { apply hctx_type_range. }
  exists i. split; [by apply aget_Some in Hh|].
  unfold set_data_ctx, blk_mq_map_queue. rewrite Hctx. simpl. by rewrite Hi.
Qed.

(** The arrays that only hold metrics and byte counts. *)
Definition same_metrics (s s' : bsw) : Prop :=
  T_bytes s' = T_bytes s /\ L_bytes s' = L_bytes s /\ T_metric s' = T_metric s
  /\ L_metric s' = L_metric s /\ T_appstr s' = T_appstr s /\ L_appstr s' = L_appstr s.

Lemma req_steering_spec d cur i h :
  d_ctx d = Some cur -> in_array (queue_ctx q) cur ->
  d_hctx d = Some i -> aget (queue_hw_ctx q) i = Some h -> blk_switch h = true ->
  num_online_nodes e * 2 <= nr_cpus ->
  random_enough (nr_cpus / num_online_nodes e) (random_bytes e) ->
  exists s' d' t, req_steering p e nr_cpus q d s = Some (s', d', negb (cur =? t))
    /\ in_array (queue_ctx q) t /\ bsw_wf s' /\ same_metrics s s'
    /\ (core_active q cur <= steering_thresh p h -> t = cur)
    /\ (steering_thresh p h < core_active q cur ->
        steered_to cur (node_cpus nr_cpus (num_online_nodes e) (cur_node h)) t)
    /\ (t = cur -> d' = d)
    /\ (t <> cur -> set_data_ctx q t d = Some d').
Proof.
  intros Hd Hcur Hdi Hh Hbs Hnn Hrnd. unfold req_steering.
  destruct (topo_ctx Hwf cur Hcur) as (ctx & Hctx & Hcpu).
  destruct (topo_map Hwf cur ctx HCTX_TYPE_DEFAULT Hctx) as (li & local & Hli & Hlocal); [done|].
  assert (core_active q cur = nr_active local) as Hact.
  { unfold core_active, default_hctx. rewrite Hctx. simpl. rewrite Hli. simpl. by rewrite Hlocal. }
  rewrite Hd. simpl. rewrite Hctx. simpl. rewrite Hdi. simpl. rewrite Hh. simpl.
  rewrite Hli. simpl. rewrite Hlocal. simpl. rewrite Hcpu.
  assert (exists s' t, req_steering_target p e nr_cpus q s cur h local = Some (s', t)
    /\ bsw_wf s' /\ same_metrics s s' /\ in_array (queue_ctx q) t
    /\ (core_active q cur <= steering_thresh p h -> t = cur)
    /\ (steering_thresh p h < core_active q cur ->
        steered_to cur (node_cpus nr_cpus (num_online_nodes e) (cur_node h)) t))
    as (s' & t & -> & Hs' & Hsm & Ht & Hlocal' & Hbusy).
  { destruct (decide (nr_active local <= steering_thresh p h)) as [Hle|Hgt].
    - exists s, cur. unfold req_steering_target. case_bool; [|lia].
      split_and!; try done; lia.
    - destruct (req_target_busy i h local cur) as (st & t & Hst & Htg & Hto); try done; [lia|].
      exists (s <| stats_str := st |>), t. split; [done|].
      apply amod_length in Hst. split; [|split; [done|]].
      { unfold bsw_wf in *. rewrite !Forall_cons in *. simpl. rewrite Hst. tauto. }
      split; [by eapply (topo_node Hwf), Hto|]. split; [lia|done]. }
  simpl. pose proof (tw_64 _ _ _ Hwf) as H64. pose proof Hs' as Hs2.
  unfold bsw_wf in Hs2. rewrite !Forall_cons in Hs2.
  destruct (amod_lt (stats_gen s') cur (fun n => s32 (n + 1))) as (gen & -> & Hgen).
  { unfold in_array in *. lia. }
  simpl. destruct (cur =? t) eqn:Ect.
  - exists (s' <| stats_gen := gen |>), d, t. split; [by rewrite Ect|]. split; [done|].
    split; [|split_and!; try done; lia].
    unfold bsw_wf. rewrite !Forall_cons. simpl. rewrite Hgen. tauto.
  - destruct (amod_lt (stats_prc s') t (fun n => s32 (n + 1))) as (prc & -> & Hprc).
    { unfold in_array in *. lia. }
    destruct (set_data_ctx_ok t d Ht) as (ti & _ & Hsd). simpl. rewrite Hsd. simpl.
    eexists _, _, t. split; [by rewrite Ect|]. split; [done|].
    split; [|split_and!; try done; lia].
    unfold bsw_wf. rewrite !Forall_cons. simpl. rewrite Hgen, Hprc. tauto.
Qed.
End request_steering.

(** C11: request steering keeps throughput requests local until the local queue is
    busy and then picks the best core.  While the queue of the current core has
    at most twice the batch threshold outstanding, the request stays.  Otherwise
    it goes to a core of the same NUMA node: among the cores without latency
    load and with less than a batch outstanding, one that lacks the fewest
    requests to complete an i10 batch, with the fewest outstanding requests
    among those, the current core winning ties; when there is no such core, the
    less loaded of two different cores (the draw terminates).  The software and
    hardware queues of the request become those of the core, and the load
    metrics are not changed. *)
Theorem req_steering_choice {bt : BlkTypes} p e q s nr_cpus d cur i h :
  topology_wf nr_cpus e q -> bsw_wf s ->
  (forall i h, aget (queue_hw_ctx q) i = Some h ->
     0 <= driver_nr_req e (driver_data h) < 2 ^ 31) ->
  d_ctx d = Some cur -> in_array (queue_ctx q) cur ->
  d_hctx d = Some i -> aget (queue_hw_ctx q) i = Some h -> blk_switch h = true ->
  num_online_nodes e * 2 <= nr_cpus ->
  random_enough (nr_cpus / num_online_nodes e) (random_bytes e) ->
  exists s' d' t, req_steering p e nr_cpus q d s = Some (s', d', negb (cur =? t))
    /\ in_array (queue_ctx q) t /\ bsw_wf s' /\ same_metrics s s'
    /\ (core_active q cur <= steering_thresh p h -> t = cur)
    /\ (steering_thresh p h < core_active q cur ->
        steered_to e q s cur (node_cpus nr_cpus (num_online_nodes e) (cur_node h)) t)
    /\ (t = cur -> d' = d)
    /\ (t <> cur -> set_data_ctx q t d = Some d').
Proof. intros. by eapply req_steering_spec. Qed.

(** A machine of four CPUs and two NUMA nodes; the queue of CPU 0 is busy, and
    CPU 2 has three requests in its batch. *)
Definition ex_hctx (c active : Z) : blk_mq_hw_ctx :=
  ((((hctx0 <| nr_active := active |>) <| blk_switch := true |>) <| driver_data := c |>)
     <| numa_node := c mod 2 |>) <| tags := Some 0 |>.
Definition ex_ctx (c : Z) : blk_mq_ctx := (ctx0 <| cpu := c |>) <| hctxs := [c; c; c] |>.
Definition ex_queue : request_queue :=
  ((queue0 <| queue_ctx := [ex_ctx 0; ex_ctx 1; ex_ctx 2; ex_ctx 3] |>)
     <| queue_hw_ctx := [ex_hctx 0 40; ex_hctx 1 0; ex_hctx 2 3; ex_hctx 3 0] |>)
     <| q_tags := [tags0] |>.
Definition ex_env : bsw_env :=
  mk_bsw_env 4 2 5000 (fun m => m) 0 (fun o => default 0 o) true
    [7; 0; 1; 0; 1; 0; 1] (fun dd => if dd =? 2 then 3 else 0).
Definition ex_params : bsw_params := mk_bsw_params 2 8 0 0.
Definition ex_data : blk_mq_alloc_data := mk_alloc_data 0 0 0 (Some 0) (Some 0).

(** Case analysis on the index of a concrete array. *)
Ltac each_index H :=
  let R := fresh "R" in
  pose proof (aget_Some _ _ _ H) as R;
  repeat match type of R with
  | 0 <= ?i < _ => simpl in R;
    let Hi := fresh "Hi" in
    assert (i = 0 \/ i = 1 \/ i = 2 \/ i = 3) as Hi by lia; clear R;
    destruct Hi as [->|[->|[->| ->]]]; try discriminate H; injection H as <-
  end.

Lemma ex_topology : topology_wf 4 ex_env ex_queue.
Proof.
  constructor.
  - done.
  - simpl. lia.
  - simpl. unfold BLK_SWITCH_NR_CPUS. lia.
  - intros c ctx H. each_index H; (split; [done|]); (split; [done|]);
      repeat constructor; simpl; lia.
  - intros c h H. each_index H; (split; [vm_compute; split; congruence|]);
      exists 0; (split; [done|]); unfold in_array; simpl; lia.
Qed.

Lemma ex_nr_req j h : aget (queue_hw_ctx ex_queue) j = Some h ->
  0 <= driver_nr_req ex_env (driver_data h) < 2 ^ 31.
Proof. intros H. each_index H; simpl; lia. Qed.

Lemma ex_random : random_enough 2 (random_bytes ex_env).
Proof.
  intros k Hk. assert (k = 0 \/ k = 1 \/ k = 2 \/ k = 3)%nat as Hk' by lia.
  destruct Hk' as [->|[->|[->| ->]]]; simpl; set_solver.
Qed.

Lemma bsw_init_wf : bsw_wf bsw_init.
Proof. repeat constructor. Qed.

Lemma req_steering_choice_witness :
  exists s' d', @req_steering linux_5_4 ex_params ex_env 4 ex_queue ex_data bsw_init
                = Some (s', d', true) /\ d_ctx d' = Some 2.
Proof.
  destruct (@req_steering_choice linux_5_4 ex_params ex_env ex_queue bsw_init 4 ex_data 0 0
    (ex_hctx 0 40) ex_topology bsw_init_wf ex_nr_req) as (s' & d' & t & H & _);
    [reflexivity|unfold in_array; simpl; lia|reflexivity..|simpl; lia|apply ex_random|].
  exists s', d'. vm_compute in H. injection H as <- <- _. by vm_compute.
Defined.
