(* ===== verification/BlkSwitchSafe.v ===== *)
(** * blk-switch: memory safety of steering and the reset of its metrics

    The global arrays have 64 entries.  The theorems show that every access of
    the blk-switch part of [blk_mq_get_request] is inside them on a machine with
    at most 64 CPUs, what the periodic reset does, and that the same code leaves
    the arrays on a larger machine. *)
From S2P Require Import Prelude MqTypes BlkSwitch BlkSwitchSpec.

(** The queues an allocation holds are queues of [q]. *)
Definition data_wf (q : request_queue) (d : blk_mq_alloc_data) : Prop :=
  (exists c, d_ctx d = Some c /\ in_array (queue_ctx q) c)
  /\ (exists i, d_hctx d = Some i /\ in_array (queue_hw_ctx q) i).

(** What a call finds: a set-up queue, a CPU of the machine, and driver queues with
    a sane request count. *)
Record call_wf (nr_cpus : Z) (e : bsw_env) (q : request_queue) : Prop := {
  cw_topology : topology_wf nr_cpus e q;
  cw_current : in_array (queue_ctx q) (current_cpu e);
  cw_after : forall o, in_array (queue_ctx q) (cpu_after e o);
  cw_driver : forall i h, aget (queue_hw_ctx q) i = Some h ->
    0 <= driver_nr_req e (driver_data h) < 2 ^ 31;
}.

(** Core [c] has no load on record. *)
Definition cleared (s : bsw) (c : Z) : Prop :=
  Forall (fun l => aget l c = Some 0)
    [T_bytes s; L_bytes s; T_metric s; L_metric s; T_appstr s; L_appstr s].

(** The time of the last blk-switch request lies more than the reset interval
    back, or there has been none. *)
Definition idle (e : bsw_env) (s : bsw) : bool :=
  (reset_metrics s =? 0) || time_after (jiffies e) (reset_metrics s).

Lemma bsw_wf_all s :
  bsw_wf s <->
  Z.of_nat (length (T_bytes s)) = 64 /\ Z.of_nat (length (L_bytes s)) = 64
  /\ Z.of_nat (length (T_metric s)) = 64 /\ Z.of_nat (length (L_metric s)) = 64
  /\ Z.of_nat (length (T_appstr s)) = 64 /\ Z.of_nat (length (L_appstr s)) = 64
  /\ Z.of_nat (length (stats_print s)) = 64 /\ Z.of_nat (length (stats_gen s)) = 64
  /\ Z.of_nat (length (stats_str s)) = 64 /\ Z.of_nat (length (stats_prc s)) = 64.
Proof.
  unfold bsw_wf, BLK_SWITCH_NR_CPUS. rewrite !Forall_cons.
  pose proof (Forall_nil_2 (fun l : list Z => Z.of_nat (length l) = 64)). tauto.
Qed.

(** A store at a valid index of one of the arrays. *)
Lemma aset_64 (l : list Z) i x :
  Z.of_nat (length l) = 64 -> 0 <= i < 64 ->
  exists l', aset l i x = Some l' /\ Z.of_nat (length l') = 64.
Proof.
  intros Hl Hi. rewrite aset_lt by lia. eexists. split; [done|]. by rewrite length_insert.
Qed.
Lemma aget_64 (l : list Z) i :
  Z.of_nat (length l) = 64 -> 0 <= i < 64 -> exists x, aget l i = Some x.
Proof. intros Hl Hi. apply aget_lt. lia. Qed.

(** Run the next array access of the goal. *)
Ltac array_step :=
  match goal with
  | |- context [aset ?l ?i ?x] =>
    let l' := fresh "l" in let E := fresh "E" in let Hl := fresh "Hl" in
    destruct (aset_64 l i x) as (l' & E & Hl); [simpl; lia..|]; rewrite E; simpl
  | |- context [aget ?l ?i] =>
    let x := fresh "x" in let E := fresh "E" in
    destruct (aget_64 l i) as (x & E); [simpl; lia..|]; rewrite E; simpl
  end.
Ltac arrays :=
  repeat array_step; eexists; (split; [reflexivity|]); rewrite ?bsw_wf_all; simpl; tauto.

Section safety.
Context {bt : BlkTypes}.
Implicit Types (s : bsw) (e : bsw_env).

Lemma reset_cpu_safe s i :
  bsw_wf s -> 0 <= i < 64 -> exists s', reset_cpu s i = Some s' /\ bsw_wf s'.
Proof. rewrite bsw_wf_all. intros Hs Hi. unfold reset_cpu. arrays. Qed.

Lemma print_stats_safe s c :
  bsw_wf s -> 0 <= c < 64 -> exists s', print_stats c s = Some s' /\ bsw_wf s'.
Proof. rewrite bsw_wf_all. intros Hs Hi. unfold print_stats. arrays. Qed.

Lemma update_T_core_safe s c ob :
  bsw_wf s -> 0 <= c < 64 -> exists s', update_T_core c ob s = Some s' /\ bsw_wf s'.
Proof. rewrite bsw_wf_all. intros Hs Hi. unfold update_T_core. arrays. Qed.

Lemma update_L_core_safe s c ob :
  bsw_wf s -> 0 <= c < 64 -> exists s', update_L_core c ob s = Some s' /\ bsw_wf s'.
Proof. rewrite bsw_wf_all. intros Hs Hi. unfold update_L_core. arrays. Qed.

Lemma snapshot_cpu_safe s i :
  bsw_wf s -> 0 <= i < 64 -> exists s', snapshot_cpu s i = Some s' /\ bsw_wf s'.
Proof. rewrite bsw_wf_all. intros Hs Hi. unfold snapshot_cpu. arrays. Qed.

Lemma loop_safe (f : bsw -> Z -> option bsw) n s :
  (forall s i, bsw_wf s -> 0 <= i < 64 -> exists s', f s i = Some s' /\ bsw_wf s') ->
  n <= 64 -> bsw_wf s -> exists s', foldM f s (seqZ 0 n) = Some s' /\ bsw_wf s'.
Proof.
  intros Hf Hn Hs. apply (foldM_inv _ (fun _ s => bsw_wf s)); [done|].
  intros d i rest s' Hsplit Hs'. apply Hf; [done|].
  assert (i ∈ seqZ 0 n) as Hi%elem_of_seqZ by (rewrite Hsplit; set_solver). lia.
Qed.

Lemma reset_safe p e n s :
  n <= 64 -> 0 <= current_cpu e < 64 -> bsw_wf s ->
  exists s', blk_switch_reset p e n s = Some s' /\ bsw_wf s'.
Proof.
  intros Hn Hc Hs. unfold blk_switch_reset.
  assert (exists s', (if (reset_metrics s =? 0) || time_after (jiffies e) (reset_metrics s)
    then reset_all n s else Some s) = Some s' /\ bsw_wf s') as (s1 & -> & Hs1).
  { case_bool; [|by exists s]. unfold reset_all.
    destruct (loop_safe reset_cpu n s) as (s1 & -> & Hs1); [apply reset_cpu_safe|done..|].
    simpl. eexists. split; [reflexivity|]. by rewrite bsw_wf_all in *. }
  cbn [mbind option_bind]. cbv zeta.
  match goal with |- context [upd reset_metrics ?f s1] => set (s2 := upd reset_metrics f s1) end.
  assert (bsw_wf s2) as Hs2 by (by rewrite bsw_wf_all in *). clearbody s2. repeat case_bool; try by exists s2.
  destruct (aget_64 (stats_print s2) (current_cpu e)) as [x ->]; [|done|].
  { rewrite bsw_wf_all in Hs2. tauto. }
  simpl. case_bool; [by apply print_stats_safe|by exists s2].
Qed.

Lemma snapshot_safe e n s :
  n <= 64 -> bsw_wf s -> exists s', snapshot e n s = Some s' /\ bsw_wf s'.
Proof.
  intros Hn Hs. unfold snapshot. repeat case_bool; [|destruct (loop_safe snapshot_cpu n s)
    as (s1 & -> & Hs1); [apply snapshot_cpu_safe|done..|]|]; simpl;
    eexists; (split; [reflexivity|]); by rewrite bsw_wf_all in *.
Qed.

Lemma clear_safe thru c aq s :
  0 <= c < 64 -> bsw_wf s -> exists s', app_steering_clear thru c aq s = Some s' /\ bsw_wf s'.
Proof.
  rewrite bsw_wf_all. intros Hc Hs. unfold app_steering_clear.
  repeat case_bool; [arrays..|]. exists s. by rewrite bsw_wf_all.
Qed.

Lemma in_array_64 nr_cpus e q c :
  topology_wf nr_cpus e q -> in_array (queue_ctx q) c -> 0 <= c < 64.
Proof.
  intros Hw Hc. pose proof (tw_64 _ _ _ Hw) as H. unfold in_array, BLK_SWITCH_NR_CPUS in *. lia.
Qed.

Lemma set_data_ctx_wf nr_cpus e q c d :
  topology_wf nr_cpus e q -> in_array (queue_ctx q) c ->
  exists d', set_data_ctx q c d = Some d' /\ data_wf q d'.
Proof.
  intros Hw Hc. destruct (set_data_ctx_ok e q nr_cpus Hw c d Hc) as (i & Hi & ->).
  eexists. split; [done|]. split; [by exists c|by exists i].
Qed.

Lemma app_steering_safe nr_cpus e q ob d s :
  call_wf nr_cpus e q -> kcalloc_ok e = true -> data_wf q d -> bsw_wf s ->
  exists s' d' b, app_steering e nr_cpus q ob d s = Some (s', d', b)
    /\ bsw_wf s' /\ data_wf q d'.
Proof.
  intros Hw Hk Hd Hs. pose proof (cw_topology _ _ _ Hw) as Ht.
  destruct Hd as [(c & Hdc & Hc) (i & Hdi & Hi)].
  destruct (topo_ctx Ht c Hc) as (ctx & Hctx & Hcpu). pose proof (in_array_64 _ _ _ _ Ht Hc) as Hc64.
  destruct (aget_lt _ _ Hi) as [h Hh]. pose proof (tw_hctx _ _ _ Ht i h Hh) as (Hn & ti & Hti & Htag).
  destruct (aget_lt _ _ Htag) as [t Htg].
  pose proof (tw_cpus _ _ _ Ht) as Hnc. pose proof (tw_64 _ _ _ Ht) as H64.
  unfold BLK_SWITCH_NR_CPUS in H64.
  unfold app_steering. rewrite Hdc. simpl. rewrite Hctx. simpl. rewrite Hdi. simpl.
  rewrite Hh. simpl. rewrite Hcpu.
  destruct (update_T_core_safe s c ob Hs Hc64) as (s1 & -> & Hs1). simpl.
  destruct (update_L_core_safe s1 c ob Hs1 Hc64) as (s2 & -> & Hs2). simpl.
  destruct (snapshot_safe e nr_cpus s2 ltac:(lia) Hs2) as (s3 & -> & Hs3). simpl.
  pose proof (proj1 (bsw_wf_all s3) Hs3) as Hl.
  rewrite app_steering_target_scan; [|apply (tw_nodes _ _ _ Ht)|done|unfold in_array; lia..].
  cbn [mbind option_bind]. set (t' := app_target_spec _ _ _ _).
  assert (exists s', (if 0 <=? t' then ti ← tags h; t ← aget (q_tags q) ti;
    s4 ← app_steering_clear (blk_switch_is_thru_request ob) c (active_queues t) s3;
    (if kcalloc_ok e then Some s4 else None) else Some s3) = Some s' /\ bsw_wf s')
    as (s4 & -> & Hs4).
  { case_bool; [|by exists s3]. rewrite Hti. simpl. rewrite Htg. simpl.
    destruct (clear_safe (blk_switch_is_thru_request ob) c (active_queues t) s3 Hc64 Hs3)
      as (s4 & -> & Hs4). simpl. rewrite Hk. by exists s4. }
  simpl. set (now := cpu_after e _). destruct (now =? c).
  - exists s4, d, false. split; [done|]. split; [done|]. split; [by exists c|by exists i].
  - destruct (set_data_ctx_wf nr_cpus e q now d Ht (cw_after _ _ _ Hw _)) as (d' & -> & Hdw).
    simpl. by exists s4, d', true.
Qed.

Lemma steer_safe p e q ob d s :
  call_wf (steering_nr_cpus p e) e q -> data_wf q d -> bsw_wf s ->
  (2 <= blk_switch_on p -> kcalloc_ok e = true) ->
  (1 <= blk_switch_on p ->
   random_enough (steering_nr_cpus p e / num_online_nodes e) (random_bytes e)) ->
  exists s' d' b, blk_switch_steer p e q ob d s = Some (s', d', b)
    /\ bsw_wf s' /\ data_wf q d'.
Proof.
  intros Hw Hd Hs Hk Hrnd. pose proof (cw_topology _ _ _ Hw) as Ht. unfold blk_switch_steer.
  set (n := steering_nr_cpus p e) in *.
  destruct Hd as [Hdc (i & Hdi & Hi)]. destruct (aget_lt _ _ Hi) as [h Hh].
  rewrite Hdi. simpl. rewrite Hh. simpl.
  assert (exists s1, (if blk_switch_request ob h then blk_switch_reset p e n s else Some s)
    = Some s1 /\ bsw_wf s1) as (s1 & -> & Hs1).
  { case_bool; [|by exists s]. apply reset_safe; [|by eapply in_array_64, Hw|done].
    pose proof (tw_cpus _ _ _ Ht). pose proof (tw_64 _ _ _ Ht). unfold BLK_SWITCH_NR_CPUS in *. lia. }
  simpl.
  assert (exists s2 d2 b2, (if (2 <=? blk_switch_on p) && blk_switch_request ob h
    then app_steering e n q ob d s1 else Some (s1, d, false)) = Some (s2, d2, b2)
    /\ bsw_wf s2 /\ data_wf q d2) as (s2 & d2 & b2 & -> & Hs2 & Hd2).
  { case_bool; [apply app_steering_safe; [done|apply Hk; lia|split; [done|by exists i]|done]|].
    exists s1, d, false. split; [done|]. split; [done|]. split; [done|by exists i]. }
  simpl. destruct Hd2 as [(c & Hdc2 & Hc) (i2 & Hdi2 & Hi2)].
  destruct (aget_lt _ _ Hi2) as [h2 Hh2]. rewrite Hdi2. simpl. rewrite Hh2. simpl.
  case_bool.
  - edestruct (req_steering_spec p e q s2 n Ht Hs2 (cw_driver _ _ _ Hw) d2 c i2 h2)
      as (s3 & d3 & t & -> & Htin & Hs3 & _ & _ & _ & Heq & Hne); try done.
    { unfold blk_switch_request in *. destruct (blk_switch h2); [done|].
      rewrite !andb_false_r in Hif. done. }
    { lia. }
    { apply Hrnd. lia. }
    exists s3, d3, (negb (c =? t)). split; [done|]. split; [done|].
    destruct (decide (t = c)) as [Etc|Etc].
    + rewrite (Heq Etc). split; [by exists c|by exists i2].
    + destruct (set_data_ctx_wf n e q t d2 Ht Htin) as (d4 & Hd4 & Hw4).
      rewrite (Hne Etc) in Hd4. injection Hd4 as ->. done.
  - exists s2, d2, false. split; [done|]. split; [done|]. split; [by exists c|by exists i2].
Qed.

(** C13: steering stays inside its arrays.  On a machine of at most 64 CPUs whose
    queue has been set up ([topology_wf]), whatever the request, the module parameters
    and the metrics, the blk-switch part of the allocation of a request terminates
    without leaving an array or following an invalid queue, keeps the arrays, and hands
    on queues that exist.  Two conditions: with application steering on, there is
    memory for a CPU mask, which the code uses unchecked
    ([kcalloc_failure_undefined]); with request steering on, the random bytes do not
    select the same core for ever ([random_enough]), for the second choice is drawn until
    it differs from the first. *)
Theorem steering_memory_safe p e q ob d s :
  call_wf (steering_nr_cpus p e) e q -> data_wf q d -> bsw_wf s ->
  (2 <= blk_switch_on p -> kcalloc_ok e = true) ->
  (1 <= blk_switch_on p ->
   random_enough (steering_nr_cpus p e / num_online_nodes e) (random_bytes e)) ->
  exists s' d' b, blk_switch_steer p e q ob d s = Some (s', d', b)
    /\ bsw_wf s' /\ data_wf q d'.
Proof. apply steer_safe. Qed.
End safety.

Definition ex_env_2 : bsw_env :=
  mk_bsw_env 4 2 5000 (fun m => m) 0 (fun _ => 0) true [7; 0; 1; 0; 1; 0; 1]
    (fun dd => if dd =? 2 then 3 else 0).

Lemma ex_call_wf : call_wf 4 ex_env_2 ex_queue.
Proof.
  constructor.
  - destruct ex_topology as [H1 H2 H3 H4 H5]. by constructor.
  - unfold in_array. simpl. lia.
  - intros o. unfold in_array. simpl. lia.
  - apply ex_nr_req.
Qed.

Lemma ex_data_wf : data_wf ex_queue ex_data.
Proof. split; exists 0; unfold in_array; simpl; split; try done; lia. Qed.

Lemma steering_memory_safe_witness :
  exists s' d', @blk_switch_steer linux_5_4 ex_params ex_env_2 ex_queue
    (Some (mk_bio 4096 0 0 0)) ex_data bsw_init = Some (s', d', true) /\ d_ctx d' = Some 2.
Proof.
  destruct (@steering_memory_safe linux_5_4 ex_params ex_env_2 ex_queue
    (Some (mk_bio 4096 0 0 0)) ex_data bsw_init ex_call_wf ex_data_wf bsw_init_wf (fun _ => eq_refl) (fun _ => ex_random))
    as (s' & d' & b & H & _).
  exists s', d'. vm_compute in H. injection H as <- <- _. by vm_compute.
Defined.

(** A throughput-loaded core 0 and a lightly loaded core 2 of the same node: the
    latency-sensitive task is to move there, and there is no memory for the mask. *)
Definition ex_env_nomem : bsw_env :=
  mk_bsw_env 4 2 5000 (fun m => m) 0 (fun o => default 0 o) false [7; 0; 1; 0; 1; 0; 1] (fun _ => 0).
Definition ex_loaded : bsw :=
  bsw_init <| L_appstr := <[0%nat := 60]> (<[2%nat := 9]> zeros) |> <| T_appstr := <[0%nat := 100]> zeros |>
           <| appstr_app := BLK_SWITCH_L_APP |> <| reset_metrics := 9000 |> <| last_appstr := 9000 |>.

Lemma kcalloc_failure_undefined :
  bsw_wf ex_loaded
  /\ @blk_switch_steer linux_5_4 ex_params ex_env_nomem ex_queue (Some (mk_bio 4096 0 8196 0)) ex_data ex_loaded = None
  /\ is_Some (@blk_switch_steer linux_5_4 ex_params ex_env ex_queue (Some (mk_bio 4096 0 8196 0)) ex_data ex_loaded).
Proof. split; [repeat constructor|]. split; [vm_compute; reflexivity|]. eexists. vm_compute. reflexivity. Qed.

(** ** The periodic reset *)

Lemma reset_cpu_spec s i s' :
  reset_cpu s i = Some s' ->
  cleared s' i /\ (forall c, c <> i -> cleared s c -> cleared s' c)
  /\ reset_metrics s' = reset_metrics s.
Proof.
  unfold reset_cpu. intros H. inv_some. subst s'. unfold cleared. simpl.
  split; [|split; [|done]].
  - repeat constructor; by eapply aget_aset_eq.
  - intros c Hc Hs. rewrite !Forall_cons in *.
    destruct Hs as (H1 & H2 & H3 & H4 & H5 & H6 & _).
    split_and!; try constructor;
      (etrans; [eapply aget_aset_ne; [eassumption|lia]|eassumption]).
Qed.

Lemma reset_loop n s :
  n <= 64 -> bsw_wf s ->
  exists s', foldM reset_cpu s (seqZ 0 n) = Some s' /\ bsw_wf s'
    /\ (forall c, 0 <= c < n -> cleared s' c) /\ reset_metrics s' = reset_metrics s.
Proof.
  intros Hn Hs.
  destruct (foldM_inv reset_cpu (fun d s' => bsw_wf s' /\ (forall c, c ∈ d -> cleared s' c)
    /\ reset_metrics s' = reset_metrics s) (seqZ 0 n) s) as (s' & Hf & Hw & Hc & Hr).
  - split; [done|]. split; [set_solver|done].
  - intros d i rest s1 Hsplit (Hs1 & Hc1 & Hr1).
    assert (i ∈ seqZ 0 n) as Hi%elem_of_seqZ by (rewrite Hsplit; set_solver).
    destruct (reset_cpu_safe s1 i Hs1) as (s2 & Hs2 & Hw2); [lia|].
    exists s2. split; [done|]. split; [done|].
    apply reset_cpu_spec in Hs2 as (Hz & Hk & Hr2). split; [|congruence].
    intros c Hc. destruct (decide (c = i)) as [->|Hne]; [done|]. apply Hk; [done|].
    apply Hc1. set_solver.
  - exists s'. split; [done|]. split; [done|]. split; [|done].
    intros c Hcn. apply Hc, elem_of_seqZ. lia.
Qed.

Lemma print_stats_same c s s' :
  print_stats c s = Some s' -> same_metrics s s' /\ last_appstr s' = last_appstr s
  /\ appstr_app s' = appstr_app s /\ reset_metrics s' = reset_metrics s.
Proof. unfold print_stats. intros H. inv_some. by subst. Qed.

(** the metrics are forgotten after an idle second and only then.  The first
    blk-switch request after more than the reset interval clears the byte
    counts, the metrics and their snapshots of every core in use and restarts
    application steering; a request within the interval leaves all of them as
    they are.  Either way the deadline moves to one interval from now. *)
Lemma reset_when_idle p e n s :
  n <= 64 -> 0 <= current_cpu e < 64 -> bsw_wf s ->
  exists s', blk_switch_reset p e n s = Some s'
    /\ reset_metrics s' = u64 (jiffies e + msecs_to_jiffies e BLK_SWITCH_RESET_METRICS)
    /\ if idle e s
       then (forall c, 0 <= c < n -> cleared s' c)
            /\ last_appstr s' = 0 /\ appstr_app s' = BLK_SWITCH_T_APP
       else same_metrics s s' /\ last_appstr s' = last_appstr s
            /\ appstr_app s' = appstr_app s.
Proof.
  intros Hn Hc Hs. destruct (reset_safe p e n s Hn Hc Hs) as (s' & Hr & _). exists s'.
  split; [done|]. unfold blk_switch_reset in Hr. fold (idle e s) in Hr.
  apply bind_Some in Hr as (s1 & H1 & Hr). cbv zeta in Hr.
  match type of Hr with context [upd reset_metrics ?f s1] =>
    set (s2 := upd reset_metrics f s1) in Hr end.
  assert (same_metrics s2 s' /\ last_appstr s' = last_appstr s2
    /\ appstr_app s' = appstr_app s2 /\ reset_metrics s' = reset_metrics s2)
    as (Hm & Hl & Ha & Hd).
  { repeat case_bool_in Hr; inv_some; subst; [|done..].
    case_bool_in Hr; inv_some; subst; [by eapply print_stats_same|done]. }
  split; [by rewrite Hd|]. destruct (idle e s).
  - unfold reset_all in H1. destruct (reset_loop n s Hn Hs) as (s0 & Hf & _ & Hcl & _).
    rewrite Hf in H1. injection H1 as <-. split; [|by rewrite Hl, Ha].
    intros c Hcn. specialize (Hcl c Hcn). unfold cleared in *.
    destruct Hm as (-> & -> & -> & -> & -> & ->). done.
  - injection H1 as <-. by split.
Qed.

Lemma reset_when_idle_witness :
  exists s', blk_switch_reset ex_params ex_env 4
    (bsw_init <| T_bytes := <[3%nat := 4096]> zeros |> <| reset_metrics := 10 |>) = Some s'
  /\ cleared s' 3.
Proof.
  destruct (reset_when_idle ex_params ex_env 4
    (bsw_init <| T_bytes := <[3%nat := 4096]> zeros |> <| reset_metrics := 10 |>))
    as (s' & H & _ & Hc); [lia|simpl; lia|repeat constructor|].
  exists s'. split; [done|]. apply (proj1 Hc). lia.
Defined.

(** With more than 64 CPUs the reset writes outside its arrays.  Nothing
    bounds the number of CPUs the loops use by the size of the arrays; the first
    request after an idle second on a larger machine stores past their end. *)
Lemma reset_overflows p e n s :
  64 < n -> bsw_wf s -> idle e s = true -> blk_switch_reset p e n s = None.
Proof.
  intros Hn Hs Hi. unfold blk_switch_reset. fold (idle e s). rewrite Hi. unfold reset_all.
  replace n with (64 + (n - 64)) by lia. rewrite seqZ_app by lia.
  rewrite foldM_app. destruct (reset_loop 64 s) as (s1 & -> & Hw & _); [lia|done|].
  change (0 + 64) with 64. cbn [mbind option_bind]. rewrite (seqZ_cons 64) by lia. cbn [foldM].
  assert (reset_cpu s1 64 = None) as ->; [|done].
  rewrite bsw_wf_all in Hw. unfold reset_cpu. by rewrite (aset_out (T_bytes s1)) by lia.
Qed.

Lemma reset_overflows_witness : blk_switch_reset ex_params ex_env 65 bsw_init = None.
Proof. apply (reset_overflows ex_params ex_env 65); [lia|apply bsw_init_wf|done]. Defined.
