(* ===== verification/BlkMqAlloc.v ===== *)
(** * Allocation and release of requests

    [blk_mq_rq_ctx_init], [blk_mq_get_request], [blk_mq_alloc_request],
    [blk_mq_alloc_request_hctx], [__blk_mq_free_request],
    [blk_mq_free_request], [__blk_mq_end_request] and [blk_mq_end_request] of
    block/blk-mq.c, with the byte counts that blk-switch keeps per core.  The tag
    allocator and the scheduler core are other files of the kernel: they enter
    as the operations of the class [MqKernel]. *)
From S2P Require Import Prelude MqTypes BlkSwitch.

(** ** Functions of the kernel outside the repository *)

Class MqKernel := {
  (* blk-mq-tag.c *)
  blk_mq_tag_busy : Z -> request_queue -> bool * request_queue;
  blk_mq_get_tag : blk_mq_alloc_data -> request_queue ->
    option Z * blk_mq_alloc_data * request_queue;
  blk_mq_put_tag : Z -> Z -> request_queue -> request_queue;  (* tags, tag *)
  (* blk-mq-sched.c *)
  blk_mq_sched_restart : Z -> request_queue -> request_queue;
  (* blk-core.c *)
  blk_queue_enter : Z -> request_queue -> Z * request_queue;
  blk_update_request : request -> Z -> Z -> bool * request;  (* error, bytes *)
  (* the completion callback of a request *)
  call_end_io : rqid -> Z -> request_queue -> request_queue;
}.

(** [blk_queue_enter_live] and [blk_queue_exit]: the usage counter. *)
Definition blk_queue_enter_live (q : request_queue) : request_queue :=
  q <| q_usage ::= fun n => n + 1 |>.
Definition blk_queue_exit (q : request_queue) : request_queue :=
  q <| q_usage ::= fun n => n - 1 |>.

Definition blk_queue_io_stat (q : request_queue) : bool :=
  test_bit QUEUE_FLAG_IO_STAT (queue_flags q).

Definition blk_mq_need_time_stamp (q : request_queue) (rq : request) : bool :=
  has_flag (rq_flags rq) (Z.lor RQF_IO_STAT RQF_STATS) || bool_decide (is_Some (elevator q)).

(** Pointer stores into the queue. *)
Definition mod_hctx (i : Z) (f : blk_mq_hw_ctx -> blk_mq_hw_ctx) (q : request_queue)
  : option request_queue :=
  h ← aget (queue_hw_ctx q) i; Some (set_hctx i (f h) q).
Definition mod_ctx (c : Z) (f : blk_mq_ctx -> option blk_mq_ctx) (q : request_queue)
  : option request_queue :=
  ctx ← aget (queue_ctx q) c; ctx ← f ctx; Some (set_ctx c ctx q).
Definition mod_rq (r : rqid) (f : request -> request) (q : request_queue)
  : option request_queue :=
  rq ← q_rqs q !! r; Some (set_rq r (f rq) q).

Section alloc.
Context {bt : BlkTypes}.

Definition rq_is_sync (rq : request) : bool := op_is_sync (cmd_flags rq).

(** ** Initialisation *)

(** The fields that do not depend on where the tag comes from. *)
Definition rq_init_fields (q : request_queue) (d : blk_mq_alloc_data) (cx hi op now flags : Z)
    (rq : request) : request :=
  let rq := rq <| mq_ctx := cx |> <| mq_hctx := Some hi |> <| rq_flags := flags |>
               <| cmd_flags := op |> in
  let rq := if has_flag (d_flags d) BLK_MQ_REQ_PREEMPT
            then rq <| rq_flags ::= fun f => Z.lor f RQF_PREEMPT |> else rq in
  let rq := if blk_queue_io_stat q
            then rq <| rq_flags ::= fun f => Z.lor f RQF_IO_STAT |> else rq in
  let rq := rq <| part := None |> in
  let rq := if blk_mq_need_time_stamp q rq then rq <| start_time_ns := now |>
            else rq <| start_time_ns := 0 |> in
  rq <| io_start_time_ns := 0 |> <| stats_sectors := 0 |> <| nr_phys_segments := 0 |>
     <| extra_len := 0 |> <| deadline := 0 |> <| rq_timeout := 0 |> <| end_io := false |>.

Definition blk_mq_rq_ctx_init (now : Z) (d : blk_mq_alloc_data) (tg op : Z) (q : request_queue)
  : option (rqid * request_queue) :=
  ti ← blk_mq_tags_from_data q d; t ← aget (q_tags q) ti;
  sr ← aget (static_rqs t) tg; r ← sr; rq ← q_rqs q !! r;
  hi ← d_hctx d; h ← aget (queue_hw_ctx q) hi; cx ← d_ctx d;
  '(rq, flags, q) ←
    (if has_flag (d_flags d) BLK_MQ_REQ_INTERNAL
     then Some (rq <| tag := -1 |> <| internal_tag := tg |>, 0, q)
     else
       '(flags, q) ← (if has_flag (h_flags h) BLK_MQ_F_TAG_SHARED
                      then q ← mod_hctx hi (fun h => h <| nr_active ::= fun n => s32 (n + 1) |>) q;
                           Some (RQF_MQ_INFLIGHT, q)
                      else Some (0, q));
       rqs ← aset (tag_rqs t) tg (Some r);
       Some (rq <| tag := tg |> <| internal_tag := -1 |>, flags,
             set_tags ti (t <| tag_rqs := rqs |>) q));
  let rq := rq_init_fields q d cx hi op now flags rq in
  q ← mod_ctx cx (fun ctx => rd ← amod (rq_dispatched ctx) (b2z (op_is_sync op))
                                    (fun n => u64 (n + 1));
                             Some (ctx <| rq_dispatched := rd |>)) q;
  Some (r, set_rq r (rq <| ref := 1 |>) q).

(** ** Byte counts of blk-switch *)

(** A request that is not steered counts for the core it is issued from. *)
Definition account_issue (h : blk_mq_hw_ctx) (ob : option bio) (req_steered : bool) (c : Z)
    (s : bsw) : option bsw :=
  match ob with
  | Some b =>
    if blk_switch h && negb req_steered then
      if blk_switch_is_thru_request ob
      then tb ← amod (T_bytes s) c (fun n => u64 (n + bi_size b)); Some (s <| T_bytes := tb |>)
      else lb ← amod (L_bytes s) c (fun n => u64 (n + bi_size b)); Some (s <| L_bytes := lb |>)
    else Some s
  | None => Some s
  end.

(** [blk_rq_bytes]: what is left of the request. *)
Definition blk_rq_bytes (rq : request) : Z := data_len rq.

(** Completion subtracts what is left of the request, down to zero. *)
Definition account_done (h : blk_mq_hw_ctx) (rq : request) (c : Z) (s : bsw) : option bsw :=
  if blk_switch h && c_true (blk_rq_bytes rq) && negb (steered rq) && c_true (tag rq)
     && bool_decide (is_Some (rq_bio rq)) then
    let sub n := if blk_rq_bytes rq <=? n then n - blk_rq_bytes rq else 0 in
    if blk_switch_is_thru_request (rq_bio rq)
    then tb ← amod (T_bytes s) c sub; Some (s <| T_bytes := tb |>)
    else lb ← amod (L_bytes s) c sub; Some (s <| L_bytes := lb |>)
  else Some s.

Context {mk : MqKernel}.

(** ** Allocation *)

(** Scheduler hook before the tag is taken. *)
Definition limit_depth_step (q : request_queue) (d : blk_mq_alloc_data)
  : blk_mq_alloc_data * request_queue :=
  match elevator q with
  | Some e =>
    let d := d <| d_flags ::= fun f => Z.lor f BLK_MQ_REQ_INTERNAL |> in
    (match limit_depth e with
     | Some limit => if negb (op_is_flush (d_cmd_flags d))
                        && negb (has_flag (d_flags d) BLK_MQ_REQ_RESERVED)
                     then limit (d_cmd_flags d) d else d
     | None => d
     end, q)
  | None => (d, match d_hctx d with Some i => (blk_mq_tag_busy i q).2 | None => q end)
  end.

(** Scheduler hook after the request is initialised. *)
Definition prepare_step (q : request_queue) (op : Z) (ob : option bio) (rq : request) : request :=
  if op_is_flush op then rq
  else
    let rq := rq <| elv_icq := None |> in
    match elevator q with
    | Some e => match prepare_request e with
                | Some prepare =>
                  let rq := if icq_cache e then assign_ioc e rq else rq in
                  (prepare rq ob) <| rq_flags ::= fun f => Z.lor f RQF_ELVPRIV |>
                | None => rq
                end
    | None => rq
    end.

(** The software and hardware queue of the allocation, when the caller has not
    chosen them. *)
Definition choose_queues (e : bsw_env) (q : request_queue) (d : blk_mq_alloc_data)
  : option blk_mq_alloc_data :=
  let d := match d_ctx d with None => d <| d_ctx := Some (current_cpu e) |> | Some _ => d end in
  cx ← d_ctx d; ctx ← aget (queue_ctx q) cx;
  d ← match d_hctx d with
      | None => hi ← blk_mq_map_queue (d_cmd_flags d) ctx; Some (d <| d_hctx := Some hi |>)
      | Some _ => Some d
      end;
  Some (if has_flag (d_cmd_flags d) REQ_NOWAIT
        then d <| d_flags ::= fun f => Z.lor f BLK_MQ_REQ_NOWAIT |> else d).

(** The request, if there is a tag for it, with the state after the call. *)
Definition blk_mq_get_request (p : bsw_params) (e : bsw_env) (now : Z) (ob : option bio)
    (d : blk_mq_alloc_data) (q : request_queue) (s : bsw)
  : option (option rqid * blk_mq_alloc_data * request_queue * bsw) :=
  let clear_ctx_on_error := bool_decide (d_ctx d = None) in
  let q := blk_queue_enter_live q in
  d ← choose_queues e q d;
  '(s, d, req_steered) ← blk_switch_steer p e q ob d s;
  let '(d, q) := limit_depth_step q d in
  match blk_mq_get_tag d q with
  | (None, d, q) =>
    Some (None, if clear_ctx_on_error then d <| d_ctx := None |> else d, blk_queue_exit q, s)
  | (Some tg, d, q) =>
    '(r, q) ← blk_mq_rq_ctx_init now d tg (d_cmd_flags d) q;
    hi ← d_hctx d; h ← aget (queue_hw_ctx q) hi;
    cx ← d_ctx d; ctx ← aget (queue_ctx q) cx;
    s ← account_issue h ob req_steered (cpu ctx) s;
    q ← mod_rq r (fun rq => prepare_step q (d_cmd_flags d) ob (rq <| steered := req_steered |>)) q;
    q ← mod_hctx hi (fun h => h <| queued ::= fun n => u64 (n + 1) |>) q;
    Some (Some r, d, q, s)
  end.

(** Allocation for passthrough commands: [inl] is an error number. *)
Definition EWOULDBLOCK : Z := EAGAIN.

Definition blk_mq_alloc_request (p : bsw_params) (e : bsw_env) (now op flags : Z)
    (q : request_queue) (s : bsw) : option ((Z + rqid) * request_queue * bsw) :=
  let d := mk_alloc_data flags 0 op None None in
  let '(ret, q) := blk_queue_enter flags q in
  if c_true ret then Some (inl ret, q, s)
  else
    '(o, d, q, s) ← blk_mq_get_request p e now None d q s;
    let q := blk_queue_exit q in
    match o with
    | None => Some (inl (- EWOULDBLOCK), q, s)
    | Some r =>
      q ← mod_rq r (fun rq => rq <| data_len := 0 |> <| sector := u64 (-1) |> <| rq_bio := None |>) q;
      Some (inr r, q, s)
    end.

(** A CPU mask is the ascending list of its CPUs.  [cpumask_first_and] of two
    masks without a common CPU is [nr_cpu_ids], for which there is no software
    queue. *)
Definition cpumask_first_and (m online : list Z) : option Z :=
  head (List.filter (fun c => bool_decide (c ∈ online)) m).

Definition blk_mq_alloc_request_hctx (p : bsw_params) (e : bsw_env) (online : list Z)
    (now op flags hctx_idx : Z) (q : request_queue) (s : bsw)
  : option ((Z + rqid) * request_queue * bsw) :=
  if negb (has_flag flags BLK_MQ_REQ_NOWAIT) then Some (inl (- EINVAL), q, s)
  else if nr_hw_queues q <=? hctx_idx then Some (inl (- EIO), q, s)
  else
    let '(ret, q) := blk_queue_enter flags q in
    if c_true ret then Some (inl ret, q, s)
    else
      h ← aget (queue_hw_ctx q) hctx_idx;
      if negb (blk_mq_hw_queue_mapped h) then Some (inl (- EXDEV), blk_queue_exit q, s)
      else
        c ← cpumask_first_and (cpumask h) online;
        '(o, d, q, s) ← blk_mq_get_request p e now None
                          (mk_alloc_data flags 0 op (Some c) (Some hctx_idx)) q s;
        let q := blk_queue_exit q in
        match o with
        | None => Some (inl (- EWOULDBLOCK), q, s)
        | Some r => Some (inr r, q, s)
        end.

(** ** Release *)

Definition blk_mq_free_request_final (r : rqid) (q : request_queue) : option request_queue :=
  rq ← q_rqs q !! r;
  hi ← mq_hctx rq; h ← aget (queue_hw_ctx q) hi;
  let q := set_rq r (rq <| mq_hctx := None |>) q in
  q ← (if tag rq =? -1 then Some q else ti ← tags h; Some (blk_mq_put_tag ti (tag rq) q));
  q ← (if internal_tag rq =? -1 then Some q
       else ti ← sched_tags h; Some (blk_mq_put_tag ti (internal_tag rq) q));
  Some (blk_queue_exit (blk_mq_sched_restart hi q)).

Definition finish_step (q : request_queue) (rq : request) : request :=
  if has_flag (rq_flags rq) RQF_ELVPRIV then
    let rq := match elevator q with
              | Some e => match finish_request e with Some f => f rq | None => rq end
              | None => rq
              end in
    rq <| elv_icq := None |>
  else rq.

Definition blk_mq_free_request (r : rqid) (q : request_queue) : option request_queue :=
  rq ← q_rqs q !! r;
  let cx := mq_ctx rq in hi ← mq_hctx rq;
  let rq := finish_step q rq in
  q ← mod_ctx cx (fun ctx => rc ← amod (rq_completed ctx) (b2z (rq_is_sync rq))
                                     (fun n => u64 (n + 1));
                             Some (ctx <| rq_completed := rc |>)) q;
  q ← (if has_flag (rq_flags rq) RQF_MQ_INFLIGHT
       then mod_hctx hi (fun h => h <| nr_active ::= fun n => s32 (n - 1) |>) q else Some q);
  let rq := rq <| rq_state := MQ_RQ_IDLE |> <| ref ::= fun n => n - 1 |> in
  let q := set_rq r rq q in
  if ref rq =? 0 then blk_mq_free_request_final r q else Some q.

(** [__blk_mq_end_request]; the statistics it feeds are not part of the model. *)
Definition blk_mq_end_request_inner (r : rqid) (error : Z) (q : request_queue)
  : option request_queue :=
  rq ← q_rqs q !! r;
  if end_io rq then Some (call_end_io r error q) else blk_mq_free_request r q.

(** [BUG()] when the request is not finished by all of its bytes. *)
Definition blk_mq_end_request (r : rqid) (error : Z) (q : request_queue) (s : bsw)
  : option (request_queue * bsw) :=
  rq ← q_rqs q !! r; hi ← mq_hctx rq; h ← aget (queue_hw_ctx q) hi;
  ctx ← aget (queue_ctx q) (mq_ctx rq);
  s ← account_done h rq (cpu ctx) s;
  let '(more, rq) := blk_update_request rq error (blk_rq_bytes rq) in
  if more then None
  else q ← blk_mq_end_request_inner r error (set_rq r rq q); Some (q, s).
End alloc.
