(* ===== verification/BlkMqAccount.v ===== *)
(** * The byte counts of blk-switch

    [blk_switch_T_bytes] and [blk_switch_L_bytes] count the bytes in flight per
    core: [blk_mq_get_request] adds the size of the bio of a request that is not
    steered, and [blk_mq_end_request] subtracts what the request then has.  The
    steering part of [blk_mq_get_request] zeroes the counts after a second without
    traffic.  The file proves what the counts are after any sequence of such steps,
    while requests are merged, completed in part or released without a completion. *)
From S2P Require Import Prelude MqTypes BlkSwitch BlkSwitchSpec BlkMqAlloc.

(** What was added to a count for a request: the core, the class and the bytes (none
    when it was not counted), and the request as it is now. *)
Record charge := mk_charge {
  ch_core : Z;
  ch_thru : bool;
  ch_bytes : Z;
  ch_rq : request;
}.

(** The state of the accounting: the counts; the requests in flight; what was added and
    will never be subtracted; and the counts, by class and core, that may have lost
    bytes of requests in flight. *)
Record acct := mk_acct {
  ac_counts : bsw;
  ac_live : list charge;
  ac_left : list charge;
  ac_under : list (bool * Z);
}.

Section account.
Context {bt : BlkTypes}.

Definition owed_by (thru : bool) (c : Z) (x : charge) : Z :=
  if (ch_core x =? c) && eqb (ch_thru x) thru then ch_bytes x else 0.
Definition owed (thru : bool) (c : Z) (l : list charge) : Z := foldr (fun x n => owed_by thru c x + n) 0 l.

(** What an issue adds and what a completion asks to subtract. *)
Definition charged (h : blk_mq_hw_ctx) (ob : option bio) (st : bool) : Z :=
  if blk_switch h && negb st then bio_size ob else 0.
Definition refund (h : blk_mq_hw_ctx) (rq : request) : Z :=
  if blk_switch h && negb (steered rq) && c_true (tag rq) && bool_decide (is_Some (rq_bio rq)) then blk_rq_bytes rq else 0.

(** A request that was counted keeps its class while it has a bio: bios are merged only
    when their priorities agree. *)
Definition fits (x : charge) : Prop :=
  0 <= blk_rq_bytes (ch_rq x)
  /\ (0 < ch_bytes x -> is_Some (rq_bio (ch_rq x)) -> blk_switch_is_thru_request (rq_bio (ch_rq x)) = ch_thru x).

(** A steering step that finds no traffic for a second zeroes the cores below
    [nr_cpus]: what was left behind there is forgotten, and the counts with requests in
    flight lose them. *)
Definition resets (e : bsw_env) (q : request_queue) (ob : option bio) (d : blk_mq_alloc_data) (s : bsw) : bool :=
  bool_decide (is_Some (h ← (hi ← d_hctx d; aget (queue_hw_ctx q) hi); if blk_switch_request ob h then Some h else None))
  && ((reset_metrics s =? 0) || time_after (jiffies e) (reset_metrics s)).

Definition below (n c : Z) : bool := (0 <=? c) && (c <? n).
Definition after_reset (n : Z) (s : bsw) (a : acct) : acct :=
  mk_acct s (ac_live a) (List.filter (fun x => negb (below n (ch_core x))) (ac_left a))
    (((fun x => (ch_thru x, ch_core x)) <$> List.filter (fun x => (0 <? ch_bytes x) && below n (ch_core x)) (ac_live a))
     ++ List.filter (fun k => negb (below n k.2)) (ac_under a)).

(** What a completion leaves: the part of the charge that it does not subtract, and a
    count that is too low when it subtracts more than the charge. *)
Definition after_done (h : blk_mq_hw_ctx) (x : charge) (s : bsw) (live : list charge) (a : acct) : acct :=
  let d := refund h (ch_rq x) in
  mk_acct s live
    (mk_charge (ch_core x) (ch_thru x) (Z.max 0 (ch_bytes x - d)) (ch_rq x) :: ac_left a)
    (if ch_bytes x <? d then (blk_switch_is_thru_request (rq_bio (ch_rq x)), ch_core x) :: ac_under a else ac_under a).

(** The steps, of any hardware queues and in any order: the steering part of an
    allocation; the accounting of an allocation; any change of a request in flight (its
    bios are set, merged, or completed in part; it gets a driver tag); a completion; a
    release that is no completion. *)
Inductive acct_step : acct -> acct -> Prop :=
| acct_steer p e q ob dt a s' dt' st :
    blk_switch_steer p e q ob dt (ac_counts a) = Some (s', dt', st) ->
    acct_step a (if resets e q ob dt (ac_counts a) then after_reset (steering_nr_cpus p e) s' a
                 else mk_acct s' (ac_live a) (ac_left a) (ac_under a))
| acct_issue h ob st c rq a s' :
    account_issue h ob st c (ac_counts a) = Some s' -> 0 <= bio_size ob ->
    owed (blk_switch_is_thru_request ob) c (ac_live a ++ ac_left a) + bio_size ob < 2 ^ 64 ->
    let x := mk_charge c (blk_switch_is_thru_request ob) (charged h ob st) rq in fits x ->
    acct_step a (mk_acct s' (x :: ac_live a) (ac_left a) (ac_under a))
| acct_change l1 x l2 rq s left under :
    let x' := mk_charge (ch_core x) (ch_thru x) (ch_bytes x) rq in fits x' ->
    acct_step (mk_acct s (l1 ++ x :: l2) left under) (mk_acct s (l1 ++ x' :: l2) left under)
| acct_done h l1 x l2 a s' :
    ac_live a = l1 ++ x :: l2 -> account_done h (ch_rq x) (ch_core x) (ac_counts a) = Some s' ->
    acct_step a (after_done h x s' (l1 ++ l2) a)
| acct_drop l1 x l2 s left under :
    acct_step (mk_acct s (l1 ++ x :: l2) left under) (mk_acct s (l1 ++ l2) (x :: left) under).

Definition acct_init : acct := mk_acct bsw_init [] [] [].

(** The counts of a class. *)
Definition count (thru : bool) (s : bsw) : list Z := if thru then T_bytes s else L_bytes s.

(** The invariant. *)
Definition acct_ok (a : acct) : Prop :=
  Forall fits (ac_live a) /\ Forall (fun x => 0 <= ch_bytes x) (ac_live a ++ ac_left a)
  /\ forall thru c v, aget (count thru (ac_counts a)) c = Some v ->
       0 <= v <= owed thru c (ac_live a ++ ac_left a)
       /\ ((thru, c) ∉ ac_under a -> v = owed thru c (ac_live a ++ ac_left a)).

(** An update of one entry of an array. *)
Lemma amod_spec (l : list Z) c f l' :
  amod l c f = Some l' ->
  (exists x, aget l c = Some x /\ aget l' c = Some (f x))
  /\ forall c', c' <> c -> aget l' c' = aget l c'.
Proof.
  unfold amod. intros H. inv_some. split.
  - exists x. split; [done|]. by eapply aget_aset_eq.
  - intros c' Hc'. eapply aget_aset_ne; [done|lia].
Qed.

Lemma foldM_rel {A S} (R : S -> S -> Prop) (f : S -> A -> option S) l s s' :
  (forall s, R s s) -> (forall s1 s2 s3, R s1 s2 -> R s2 s3 -> R s1 s3) ->
  (forall s a s', a ∈ l -> f s a = Some s' -> R s s') -> foldM f s l = Some s' -> R s s'.
Proof.
  intros Hr Ht. revert s. induction l as [|a l IH]; intros s Hf H; simpl in H; inv_some; [subst; apply Hr|].
  eapply Ht; [eapply Hf; [left|done]|]. eapply IH; [|done]. intros. eapply Hf; [by right|done].
Qed.

(** ** Steering leaves the counts alone but for the reset *)

Definition same_bytes (s s' : bsw) : Prop := T_bytes s' = T_bytes s /\ L_bytes s' = L_bytes s.

Lemma same_bytes_trans s1 s2 s3 : same_bytes s1 s2 -> same_bytes s2 s3 -> same_bytes s1 s3.
Proof. unfold same_bytes. intros [-> ->] [-> ->]. done. Qed.

Ltac break_if := repeat (match goal with H : context [if ?b then _ else _] |- _ => destruct b end; inv_some).
Ltac bytes := inv_some; break_if; simplify_eq; by split.

Lemma snapshot_bytes e n s s' : snapshot e n s = Some s' -> same_bytes s s'.
Proof.
  unfold snapshot. intros H. case_bool_in H; [by inv_some; subst; split|].
  destruct (time_after _ _); inv_some; [|by subst; split]. subst s'. apply (same_bytes_trans _ x); [|by split]. eapply (foldM_rel same_bytes); [by split|apply same_bytes_trans| |exact Hx].
  intros s1 i s2 _ H. unfold snapshot_cpu in H. bytes.
Qed.

Lemma app_steering_bytes e n q ob dt s s' dt' st :
  app_steering e n q ob dt s = Some (s', dt', st) -> same_bytes s s'.
Proof.
  unfold app_steering. intros H. inv_some.
  match goal with H : snapshot _ _ _ = Some _ |- _ => apply snapshot_bytes in H as Hsnap end.
  unfold update_T_core, update_L_core, app_steering_clear in *. clear - Hx3 Hx4 Hx7 H Hsnap. 
  assert (same_bytes s x4) by (clear - Hx3 Hx4; bytes).
  assert (same_bytes x5 x7) by (clear - Hx7; bytes).
  assert (s' = x7) as -> by (clear - H; break_if; by simplify_eq).
  eauto using same_bytes_trans.
Qed.

Lemma req_steering_bytes p e n q dt s s' dt' st :
  req_steering p e n q dt s = Some (s', dt', st) -> same_bytes s s'.
Proof.
  unfold req_steering. intros H. inv_some. unfold req_steering_target in *. clear - Hx5 H.
  assert (same_bytes s b) by (clear - Hx5; bytes).
  eapply same_bytes_trans; [done|]. clear - H. bytes.
Qed.

Lemma reset_all_bytes n s s' thru c v :
  reset_all n s = Some s' -> aget (count thru s') c = Some v ->
  if below n c then v = 0 else aget (count thru s) c = Some v.
Proof.
  unfold reset_all. intros H Hv. inv_some. rename x into s1.
  assert (aget (count thru s1) c = Some v) as Hv1 by (subst s'; by destruct thru). clear Hv.
  assert (Hgen : forall l s, foldM reset_cpu s l = Some s1 ->
    if bool_decide (c ∈ l) then v = 0 else aget (count thru s) c = Some v).
  { clear s H Hx. induction l as [|i l IH]; intros s H; simpl in H; inv_some; [by subst|].
    specialize (IH _ H). destruct (decide (c ∈ l)) as [Hin|Hin].
    - rewrite bool_decide_true in * by (by right || done). done.
    - rewrite bool_decide_false in IH by done. unfold reset_cpu in Hx. inv_some. subst.
      assert (exists l', aset (count thru s) i 0 = Some l' /\ aget l' c = Some v) as (l' & Ha & Hl) by (destruct thru; eauto).
      destruct (decide (c = i)) as [->|Hne].
      + rewrite bool_decide_true by left. apply aget_aset_eq in Ha. congruence.
      + rewrite bool_decide_false by (by intros [->|]%elem_of_cons). by rewrite (aget_aset_ne _ _ _ _ _ Ha) in Hl by done. }
  specialize (Hgen _ _ Hx). unfold below. destruct (decide (c ∈ seqZ 0 n)) as [Hin|Hin].
  - rewrite bool_decide_true in Hgen by done. apply elem_of_seqZ in Hin. case_bool; [done|lia].
  - rewrite bool_decide_false in Hgen by done. rewrite elem_of_seqZ in Hin. case_bool; [lia|done].
Qed.

Lemma reset_bytes p e n s s' thru c v :
  blk_switch_reset p e n s = Some s' -> aget (count thru s') c = Some v ->
  if ((reset_metrics s =? 0) || time_after (jiffies e) (reset_metrics s)) && below n c then v = 0
  else aget (count thru s) c = Some v.
Proof.
  unfold blk_switch_reset. intros H Hv. inv_some.
  assert (same_bytes x s') as [Ht Hl] by (clear - H; unfold print_stats in H; bytes).
  assert (aget (count thru x) c = Some v) as Hv1 by (destruct thru; simpl in *; congruence).
  destruct (_ || _); [by eapply reset_all_bytes|]. inv_some. by subst x.
Qed.

(** What the steering part does to one count. *)
Lemma steer_count p e q ob dt s s' dt' st thru c v :
  blk_switch_steer p e q ob dt s = Some (s', dt', st) -> aget (count thru s') c = Some v ->
  if resets e q ob dt s && below (steering_nr_cpus p e) c then v = 0 else aget (count thru s) c = Some v.
Proof.
  unfold blk_switch_steer. intros H Hv. inv_some. unfold resets. rewrite Hx. cbn [mbind option_bind]. rewrite Hx0. cbn [mbind option_bind].
  rename x1 into s1.
  assert (same_bytes s1 s') as [Ht Hl].
  { clear Hx1. eapply (same_bytes_trans _ b0).
    - clear H. case_bool_in Hx2; [by eapply app_steering_bytes|]. by simplify_eq.
    - case_bool_in H; [by eapply req_steering_bytes|]. by simplify_eq. }
  assert (aget (count thru s1) c = Some v) as Hv1 by (destruct thru; simpl in *; congruence).
  destruct (blk_switch_request ob x0).
  - rewrite bool_decide_true by done. by eapply reset_bytes.
  - inv_some. subst s1. rewrite bool_decide_false by (by intros []). done.
Qed.

(** What an issue and a completion do to one count. *)
Lemma issue_count thru c' h ob st c rq s s' v :
  account_issue h ob st c s = Some s' -> aget (count thru s') c' = Some v ->
  let n := owed_by thru c' (mk_charge c (blk_switch_is_thru_request ob) (charged h ob st) rq) in
  exists v0, aget (count thru s) c' = Some v0 /\ (n = 0 /\ v = v0 \/ thru = blk_switch_is_thru_request ob /\ c' = c /\ v = u64 (v0 + n)).
Proof.
  unfold account_issue, charged, owed_by. intros H Hv. simpl.
  destruct ob as [b|]; [|inv_some; subst s'; exists v; split; [done|left; by repeat case_bool]].
  destruct (blk_switch h && negb st); [|inv_some; subst s'; exists v; split; [done|left; by case_bool]].
  assert (exists l, amod (count (blk_switch_is_thru_request (Some b)) s) c (fun n => u64 (n + bi_size b)) = Some l
    /\ count (blk_switch_is_thru_request (Some b)) s' = l
    /\ count (negb (blk_switch_is_thru_request (Some b))) s' = count (negb (blk_switch_is_thru_request (Some b))) s)
    as (l & Ha & Hl & Ho) by (destruct (blk_switch_is_thru_request (Some b)); inv_some; subst s'; by eexists).
  destruct (decide (thru = blk_switch_is_thru_request (Some b))) as [->|Hne].
  - rewrite eqb_reflx, andb_true_r, Hl in *. apply amod_spec in Ha as [(y & Hy & Hy') Hother].
    destruct (Z.eqb_spec c c') as [->|Hc]; [exists y; split; [done|right; split_and!; [done..|simpl; congruence]]|].
    exists v. rewrite <- Hother by done. auto.
  - assert (thru = negb (blk_switch_is_thru_request (Some b))) as -> by by destruct thru, (blk_switch_is_thru_request (Some b)).
    exists v. rewrite <- Ho. rewrite eqb_negb2, andb_false_r. auto.
Qed.

Lemma done_count thru c' h rq c s s' v :
  account_done h rq c s = Some s' -> aget (count thru s') c' = Some v ->
  exists v0, aget (count thru s) c' = Some v0 /\ (0 <= v0 -> v = Z.max 0 (v0 -
    if (c =? c') && eqb (blk_switch_is_thru_request (rq_bio rq)) thru then refund h rq else 0)).
Proof.
  unfold account_done, refund. set (thru' := blk_switch_is_thru_request (rq_bio rq)). intros H Hv.
  destruct (blk_switch h && negb (steered rq) && c_true (tag rq) && bool_decide (is_Some (rq_bio rq))) eqn:E.
  2: { assert (s' = s) as ->.
       { destruct (blk_switch h), (steered rq), (c_true (tag rq)), (bool_decide _), (c_true (blk_rq_bytes rq)); simpl in *; by inv_some. }
       exists v. split; [done|]. case_bool; lia. }
  rewrite !andb_true_iff in E. destruct E as [[[E1 E2] E3] E4]. rewrite E1, E2, E3, E4, !andb_true_r, andb_true_l in H.
  destruct (c_true (blk_rq_bytes rq)) eqn:Hb.
  2: { inv_some. subst s'. exists v. split; [done|]. unfold c_true in Hb. apply negb_false_iff, Z.eqb_eq in Hb. rewrite Hb. case_bool; lia. }
  set (sub := fun n => if blk_rq_bytes rq <=? n then n - blk_rq_bytes rq else 0) in *.
  assert (exists l, amod (count thru' s) c sub = Some l /\ count thru' s' = l /\ count (negb thru') s' = count (negb thru') s)
    as (l & Ha & Hl & Ho) by (destruct thru'; inv_some; subst s'; by eexists).
  destruct (decide (thru = thru')) as [->|Hne].
  - rewrite eqb_reflx, andb_true_r, Hl in *. apply amod_spec in Ha as [(y & Hy & Hy') Hother].
    destruct (Z.eqb_spec c c') as [->|Hc].
    + exists y. split; [done|]. intros _. rewrite Hy' in Hv. injection Hv as <-. unfold sub. case_bool; lia.
    + exists v. rewrite <- Hother by done. split; [done|lia].
  - assert (thru = negb thru') as -> by by destruct thru, thru'. exists v. rewrite <- Ho, eqb_negb2, andb_false_r. split; [done|lia].
Qed.

(** ** The invariant is preserved *)

Lemma owed_app thru c l1 l2 : owed thru c (l1 ++ l2) = owed thru c l1 + owed thru c l2.
Proof. unfold owed. induction l1 as [|x l1 IH]; simpl; lia. Qed.

Lemma owed_cons_by thru c x l : owed thru c (x :: l) = owed_by thru c x + owed thru c l.
Proof. done. Qed.

Lemma owed_by_nonneg thru c x : 0 <= ch_bytes x -> 0 <= owed_by thru c x.
Proof. unfold owed_by. case_bool; lia. Qed.

Lemma owed_nonneg thru c l : Forall (fun x => 0 <= ch_bytes x) l -> 0 <= owed thru c l.
Proof. induction 1 as [|x l Hx _ IH]; [done|]. rewrite owed_cons_by. pose proof (owed_by_nonneg thru c x Hx). lia. Qed.

Lemma owed_kept n thru c l :
  owed thru c (List.filter (fun x => negb (below n (ch_core x))) l) = if below n c then 0 else owed thru c l.
Proof.
  induction l as [|x l IH]; [by destruct (below n c)|]. cbn [List.filter]. destruct (below n (ch_core x)) eqn:E; cbn [negb].
  - rewrite IH, owed_cons_by. unfold owed_by. destruct (Z.eqb_spec (ch_core x) c) as [<-|]; [by rewrite E|]. simpl. case_bool; lia.
  - rewrite !owed_cons_by, IH. unfold owed_by. destruct (Z.eqb_spec (ch_core x) c) as [<-|]; [by rewrite E|]. simpl. case_bool; lia.
Qed.

Lemma owed_zero thru c l : (forall x, x ∈ l -> owed_by thru c x = 0) -> owed thru c l = 0.
Proof. induction l as [|x l IH]; intros H; [done|]. rewrite owed_cons_by, (H x), IH by set_solver. done. Qed.

Lemma steer_step_ok a p e q ob dt s' dt' st :
  blk_switch_steer p e q ob dt (ac_counts a) = Some (s', dt', st) -> acct_ok a ->
  acct_ok (if resets e q ob dt (ac_counts a) then after_reset (steering_nr_cpus p e) s' a
           else mk_acct s' (ac_live a) (ac_left a) (ac_under a)).
Proof.
  intros H (Hf & Hn & Hok). pose proof (fun thru c v => steer_count p e q ob dt _ _ _ _ thru c v H) as Hs.
  destruct (resets e q ob dt (ac_counts a)); simpl in Hs; [|by split_and!; auto].
  set (n := steering_nr_cpus p e) in *. apply Forall_app in Hn as [Hn1 Hn2].
  split; [done|]. split; simpl.
  { apply Forall_app. split; [done|]. apply Forall_forall. intros x Hx%list_elem_of_In. apply filter_In in Hx as [Hx _].
    rewrite Forall_forall in Hn2. by apply Hn2, list_elem_of_In. }
  intros thru c v Hv%Hs. rewrite owed_app, owed_kept. destruct (below n c) eqn:Eb.
  - subst v. pose proof (owed_nonneg thru c _ Hn1). split; [lia|]. intros Hnot. rewrite owed_zero; [done|].
    intros x Hx. unfold owed_by. destruct (Z.eqb_spec (ch_core x) c) as [<-|]; [|done].
    destruct (eqb (ch_thru x) thru) eqn:Et; [|done]. apply eqb_prop in Et as <-. simpl.
    destruct (Z.ltb_spec 0 (ch_bytes x)); [|rewrite Forall_forall in Hn1; specialize (Hn1 x Hx); lia].
    destruct Hnot. apply elem_of_app. left. apply list_elem_of_fmap. exists x. split; [done|].
    apply list_elem_of_In, filter_In. split; [by apply list_elem_of_In|]. rewrite Eb. lia.
  - apply Hok in Hv as [Hr He]. rewrite owed_app in Hr, He. split; [done|]. intros Hnot. apply He. intros Hin. apply Hnot.
    apply elem_of_app. right. apply list_elem_of_In, filter_In. split; [by apply list_elem_of_In|]. simpl. by rewrite Eb.
Qed.

Lemma issue_step_ok a h ob st c rq s' :
  account_issue h ob st c (ac_counts a) = Some s' -> 0 <= bio_size ob ->
  owed (blk_switch_is_thru_request ob) c (ac_live a ++ ac_left a) + bio_size ob < 2 ^ 64 ->
  let x := mk_charge c (blk_switch_is_thru_request ob) (charged h ob st) rq in fits x ->
  acct_ok a -> acct_ok (mk_acct s' (x :: ac_live a) (ac_left a) (ac_under a)).
Proof.
  intros H Hsz Hw x Hx (Hf & Hn & Hok).
  assert (Hc : 0 <= charged h ob st <= bio_size ob) by (unfold charged; case_bool; lia).
  split; [by constructor|]. split; cbn [ac_live ac_left ac_counts ac_under]; [constructor; [simpl; lia|done]|].
  intros thru c' v Hv. destruct (issue_count thru c' h ob st c rq _ _ v H Hv) as (v0 & Hv0 & Hor). fold x in Hor.
  apply Hok in Hv0 as [Hr He]. rewrite <- app_comm_cons, owed_cons_by. pose proof (owed_by_nonneg thru c' x (proj1 Hc)).
  destruct Hor as [[Hz ->]|(-> & -> & ->)]; [split; [lia|]; intros Hnot; specialize (He Hnot); lia|].
  assert (owed_by (blk_switch_is_thru_request ob) c x <= bio_size ob) by (unfold owed_by; simpl; case_bool; lia).
  rewrite u64_small by lia. split; [lia|]. intros Hnot. specialize (He Hnot). lia.
Qed.

Lemma done_step_ok a h l1 x l2 s' :
  ac_live a = l1 ++ x :: l2 -> account_done h (ch_rq x) (ch_core x) (ac_counts a) = Some s' ->
  acct_ok a -> acct_ok (after_done h x s' (l1 ++ l2) a).
Proof.
  intros El H (Hf & Hn & Hok). rewrite El in Hf, Hn, Hok.
  rewrite Forall_app, Forall_cons in Hf. destruct Hf as (Hf1 & [Hd Hcl] & Hf2).
  rewrite !Forall_app, Forall_cons in Hn. destruct Hn as ((Hn1 & Hx & Hn2) & Hn3).
  unfold after_done. set (d := refund h (ch_rq x)). set (x' := mk_charge _ _ _ _).
  assert (0 <= d) by (unfold d, refund; case_bool; lia).
  split; [by apply Forall_app|]. split; cbn [ac_live ac_left ac_counts ac_under].
  { rewrite !Forall_app, Forall_cons. simpl. split_and!; try done; lia. }
  intros thru c v Hv. destruct (done_count thru c h _ _ _ _ v H Hv) as (v0 & Hv0 & Hmax). fold d in Hmax.
  apply Hok in Hv0 as [Hr He]. specialize (Hmax (proj1 Hr)).
  rewrite !owed_app, !owed_cons_by in Hr, He. rewrite !owed_app, !owed_cons_by.
  pose proof (owed_nonneg thru c _ Hn1). pose proof (owed_nonneg thru c _ Hn2). pose proof (owed_nonneg thru c _ Hn3).
  assert (Hbio : d = 0 \/ ch_bytes x = 0 \/ blk_switch_is_thru_request (rq_bio (ch_rq x)) = ch_thru x).
  { unfold d, refund. destruct (bool_decide_reflect (is_Some (rq_bio (ch_rq x)))) as [Hb|]; [|left; by rewrite andb_false_r].
    destruct (decide (ch_bytes x = 0)); [auto|]. right; right. apply Hcl; [lia|done]. }
  set (thru' := blk_switch_is_thru_request _) in *. clearbody d.
  assert (Hu : (thru, c) ∉ (if ch_bytes x <? d then (thru', ch_core x) :: ac_under a else ac_under a) ->
    (thru, c) ∉ ac_under a /\ (thru' = thru -> ch_core x = c -> d <= ch_bytes x)).
  { case_bool; [|intros; split; [done|lia]]. rewrite elem_of_cons. intros Hnot. split; [tauto|]. intros <- <-. tauto. }
  revert Hu. generalize ((thru, c) ∉ (if ch_bytes x <? d then (thru', ch_core x) :: ac_under a else ac_under a)) as P. intros P Hu.
  revert Hr He Hmax. unfold x', owed_by. simpl. destruct (Z.eqb_spec (ch_core x) c) as [Hc|Hc]; simpl.
  2: { intros Hr He ->. split; [lia|]. intros [Hun _]%Hu. specialize (He Hun). lia. }
  destruct (eqb thru' thru) eqn:E1, (eqb (ch_thru x) thru) eqn:E2; intros Hr He ->.
  - apply eqb_prop in E1. split; [lia|]. intros [Hun Hle]%Hu. specialize (He Hun). specialize (Hle E1 Hc). lia.
  - apply eqb_prop in E1. split; [lia|]. intros [Hun Hle]%Hu. specialize (He Hun). specialize (Hle E1 Hc).
    destruct Hbio as [->|[Hz|Hz]]; [lia|lia|]. apply eqb_false_iff in E2. congruence.
  - assert (d = 0 \/ ch_bytes x = 0) as Hz by (apply eqb_prop in E2; apply eqb_false_iff in E1; destruct Hbio as [|[|]]; auto; congruence).
    split; [lia|]. intros [Hun _]%Hu. specialize (He Hun). lia.
  - split; [lia|]. intros [Hun _]%Hu. specialize (He Hun). lia.
Qed.

Lemma acct_step_ok a a' : acct_step a a' -> acct_ok a -> acct_ok a'.
Proof.
  intros H. destruct H as [p e q ob dt a s' dt' st H|h ob st c rq a s' H Hs Hw x Hx|l1 x l2 rq s left under x' Hx
    |h l1 x l2 a s' El H|l1 x l2 s left under].
  - by eapply steer_step_ok.
  - by eapply issue_step_ok.
  - unfold acct_ok. cbn [ac_live ac_left ac_counts ac_under]. intros (Hf & Hn & Hok).
    rewrite Forall_app, Forall_cons in Hf. rewrite !Forall_app, Forall_cons in Hn.
    split; [rewrite Forall_app, Forall_cons; tauto|]. split; [by rewrite !Forall_app, Forall_cons|].
    intros thru c v Hv. specialize (Hok thru c v Hv). rewrite !owed_app, owed_cons_by in *.
    change (owed_by thru c x') with (owed_by thru c x). done.
  - by eapply done_step_ok.
  - unfold acct_ok. cbn [ac_live ac_left ac_counts ac_under]. intros (Hf & Hn & Hok).
    rewrite Forall_app, Forall_cons in Hf. rewrite !Forall_app, Forall_cons in Hn.
    split; [rewrite Forall_app; tauto|]. split; [rewrite !Forall_app, Forall_cons; tauto|].
    intros thru c v Hv. specialize (Hok thru c v Hv). rewrite !owed_app, !owed_cons_by in *.
    destruct Hok as [Hr He]. split; [lia|]. intros Hu. rewrite (He Hu). lia.
Qed.

Lemma acct_init_ok : acct_ok acct_init.
Proof.
  split; [constructor|]. split; [constructor|]. intros thru c v Hv. simpl in *.
  assert (v ∈ count thru bsw_init) as Hin.
  { unfold aget in Hv. case_bool_in Hv; [done|]. by eapply list_elem_of_lookup_2. }
  destruct thru; simpl in Hin; unfold zeros in Hin; apply elem_of_replicate in Hin as [-> _]; split; (lia || done).
Qed.

End account.

(** Throughput requests of core 2.  A bio is merged into the second, so that its
    completion takes the bytes of the first, which has tag 0; the first is completed and
    leaves its bytes.  The allocation of the third resets the counts with nothing in
    flight, and the count is exact again. *)
Definition ex_bsw_hctx : blk_mq_hw_ctx := hctx0 <| blk_switch := true |>.
Definition ex_bio (size : Z) : bio := mk_bio size 0 0 0.
Definition ex_req (t size : Z) : request :=
  ((request0 <| tag := t |>) <| data_len := size |>) <| rq_bio := Some (ex_bio size) |>.
Definition ex_charge (n t size : Z) : charge := mk_charge 2 true n (ex_req t size).
Definition ex_counts (n : Z) : bsw := bsw_init <| T_bytes := <[2%nat := n]> zeros |>.
Definition ex_off : bsw_params := mk_bsw_params 0 8 0 0.
Definition ex_reset : bsw :=
  from_option (fun x => x.1.1) bsw_init (@blk_switch_steer linux_5_4 ex_off ex_env ex_queue (Some (ex_bio 16384)) ex_data (ex_counts 0)).
Definition ex_issued : bsw :=
  default bsw_init (@account_issue linux_5_4 ex_bsw_hctx (Some (ex_bio 16384)) false 2 ex_reset).

Lemma ex_fits n t size : 0 <= size -> @fits linux_5_4 (ex_charge n t size).
Proof. by split. Qed.

(** The state before the reset: the count is below what was added and left. *)
Definition ex_low : acct :=
  @after_done linux_5_4 ex_bsw_hctx (ex_charge 4096 0 4096) (ex_counts 0) []
    (@after_done linux_5_4 ex_bsw_hctx (ex_charge 8192 5 12288) (ex_counts 0) [ex_charge 4096 0 4096]
       (mk_acct (ex_counts 12288) [ex_charge 8192 5 12288; ex_charge 4096 0 4096] [] [])).

Lemma ex_low_reached : rtc (@acct_step linux_5_4) acct_init ex_low.
Proof.
  eapply rtc_l; [apply (acct_issue ex_bsw_hctx (Some (ex_bio 4096)) false 2 (ex_req 0 4096) _ (ex_counts 4096));
    [reflexivity|done|done|by apply ex_fits]|].
  eapply rtc_l; [apply (acct_issue ex_bsw_hctx (Some (ex_bio 8192)) false 2 (ex_req 5 8192) _ (ex_counts 12288));
    [reflexivity|done|done|by apply ex_fits]|].
  eapply rtc_l; [apply (acct_change [] _ _ (ex_req 5 12288)); by apply (ex_fits 8192)|].
  eapply rtc_l; [eapply (acct_done ex_bsw_hctx [] (ex_charge 8192 5 12288) [ex_charge 4096 0 4096] _ (ex_counts 0)); reflexivity|].
  eapply rtc_l; [eapply (acct_done ex_bsw_hctx [] (ex_charge 4096 0 4096) [] _ (ex_counts 0)); reflexivity|].
  apply rtc_refl.
Qed.

