(* ===== verification/BlkMqAllocSpec.v ===== *)
(** * Allocation and release of requests: theorems

    What [blk_mq_get_request] and [blk_mq_free_request] do to the tags, the
    reference on the queue and the count of active requests, against the
    documented behaviour of the tag allocator and of the scheduler core. *)
From S2P Require Import Prelude MqTypes BlkSwitch BlkMqAlloc BlkSwitchSpec BlkSwitchSafe.

(** ** The state that allocation is about

    [blk_mq_tag_busy] and [blk_mq_sched_restart] only touch the state bits and
    the queued work of a hardware queue and the number of active users of its
    tags; two queues that agree elsewhere are equivalent. *)

Definition core_h (h : blk_mq_hw_ctx) : blk_mq_hw_ctx :=
  h <| h_state := 0 |> <| run_work := None |>.
Definition core_t (t : blk_mq_tags) : blk_mq_tags := t <| active_queues := 0 |>.
Definition core (q : request_queue) : request_queue :=
  q <| queue_hw_ctx ::= fmap core_h |> <| q_tags ::= fmap core_t |>.

(** The documented behaviour of the functions outside the repository: an
    allocation that fails changes nothing, and releasing a tag clears it. *)
Class MqKernelLaws (mk : MqKernel) : Prop := {
  tag_busy_core : forall i q, core (blk_mq_tag_busy i q).2 = core q;
  sched_restart_core : forall i q, core (blk_mq_sched_restart i q) = core q;
  get_tag_fail : forall d q d' q', blk_mq_get_tag d q = (None, d', q') -> q' = q /\ d' = d;
  put_tag_ok : forall ti tg t q, aget (q_tags q) ti = Some t ->
    blk_mq_put_tag ti tg q = set_tags ti (t <| in_use ::= List.remove Z.eq_dec tg |>) q;
}.

(** An allocation that may wait for a tag sleeps when there is none.  Others run
    meanwhile, but nobody replaces the scheduler of a queue that is in use; the task
    wakes up on any core, and the software queue of that core and its hardware queue
    for the flags of the command become those of the allocation. *)
Definition slept {bt : BlkTypes} (d : blk_mq_alloc_data) (q : request_queue)
    (d' : blk_mq_alloc_data) (q1 : request_queue) : Prop :=
  has_flag (d_flags d) BLK_MQ_REQ_NOWAIT = false /\ elevator q1 = elevator q
  /\ exists cx ctx hi, aget (queue_ctx q1) cx = Some ctx
     /\ blk_mq_map_queue (d_cmd_flags d) ctx = Some hi
     /\ d' = d <| d_ctx := Some cx |> <| d_hctx := Some hi |>.

(** A tag that is handed out is one of those of the hardware queue of the
    allocation, is within the depth and free at that moment (in [q1]), and only the
    tag bitmap changes. *)
Class MqTagLaws {bt : BlkTypes} (mk : MqKernel) : Prop := {
  get_tag_some : forall d q tg d' q', blk_mq_get_tag d q = (Some tg, d', q') ->
    exists q1 ti t, (d' = d /\ q1 = q \/ slept d q d' q1)
      /\ blk_mq_tags_from_data q1 d' = Some ti
      /\ aget (q_tags q1) ti = Some t /\ 0 <= tg < nr_tags t /\ tg ∉ in_use t
      /\ q' = set_tags ti (t <| in_use ::= cons tg |>) q1;
}.

(** The bitmaps of all tags, and the number of active requests per hardware
    queue. *)
Definition tags_in_use (q : request_queue) : list (list Z) := in_use <$> q_tags q.
Definition active_counts (q : request_queue) : list Z := nr_active <$> queue_hw_ctx q.

(** ** Observations that the equivalence preserves *)

Section core.
Implicit Types q : request_queue.

Lemma core_rqs q1 q2 : core q1 = core q2 -> q_rqs q1 = q_rqs q2.
Proof. intros H. exact (f_equal q_rqs H). Qed.
Lemma core_usage q1 q2 : core q1 = core q2 -> q_usage q1 = q_usage q2.
Proof. intros H. exact (f_equal q_usage H). Qed.
Lemma core_elevator q1 q2 : core q1 = core q2 -> elevator q1 = elevator q2.
Proof. intros H. exact (f_equal elevator H). Qed.

Lemma core_tags q1 q2 {A} (f : blk_mq_tags -> A) :
  (forall t, f (core_t t) = f t) -> core q1 = core q2 -> f <$> q_tags q1 = f <$> q_tags q2.
Proof.
  intros Hf H. assert (core_t <$> q_tags q1 = core_t <$> q_tags q2) as Ht by exact (f_equal q_tags H).
  apply (f_equal (fmap f)) in Ht. rewrite <- !list_fmap_compose in Ht.
  erewrite (list_fmap_ext (f ∘ core_t) f), (list_fmap_ext (f ∘ core_t) f) in Ht; [done|..];
    intros; simpl; apply Hf.
Qed.

Lemma core_hctxs q1 q2 {A} (f : blk_mq_hw_ctx -> A) :
  (forall h, f (core_h h) = f h) -> core q1 = core q2 ->
  f <$> queue_hw_ctx q1 = f <$> queue_hw_ctx q2.
Proof.
  intros Hf H.
  assert (core_h <$> queue_hw_ctx q1 = core_h <$> queue_hw_ctx q2) as Ht
    by exact (f_equal queue_hw_ctx H).
  apply (f_equal (fmap f)) in Ht. rewrite <- !list_fmap_compose in Ht.
  erewrite (list_fmap_ext (f ∘ core_h) f), (list_fmap_ext (f ∘ core_h) f) in Ht; [done|..];
    intros; simpl; apply Hf.
Qed.

Lemma core_in_use q1 q2 : core q1 = core q2 -> tags_in_use q1 = tags_in_use q2.
Proof. by apply core_tags. Qed.
Lemma core_active q1 q2 : core q1 = core q2 -> active_counts q1 = active_counts q2.
Proof. by apply core_hctxs. Qed.
End core.

(** The failure path. *)
Section failure.
Context {bt : BlkTypes} {mk : MqKernel} {laws : MqKernelLaws mk}.

Lemma limit_depth_core q d d' q' :
  limit_depth_step q d = (d', q') -> core q' = core q.
Proof.
  unfold limit_depth_step. destruct (elevator q); intros [= <- <-]; [done|].
  destruct (d_hctx d); [apply tag_busy_core|done].
Qed.

(** a failed allocation leaves no trace.  When no tag can be had without
    sleeping, the reference on the queue taken at entry is dropped, no tag, no
    request and no active count changes, the byte counts of the request are not
    counted, and the software queue that the function itself chose is cleared
    again. *)
Lemma get_request_failure p e now ob d q s d' q' s' :
  blk_mq_get_request p e now ob d q s = Some (None, d', q', s') ->
  core q' = core q
  /\ (d_ctx d = None -> d_ctx d' = None)
  /\ exists d1 d2 st, choose_queues e (blk_queue_enter_live q) d = Some d1
     /\ blk_switch_steer p e (blk_queue_enter_live q) ob d1 s = Some (s', d2, st).
Proof.
  unfold blk_mq_get_request. intros H. inv_some. rename b1 into d1.
  destruct (limit_depth_step _ d1) as [d2 q2] eqn:Hl. apply limit_depth_core in Hl.
  destruct (blk_mq_get_tag d2 q2) as [[[tg|] d3] q3] eqn:Ht.
  { exfalso. by inv_some. }
  apply get_tag_fail in Ht as [-> ->]. injection H as <- <- <-. split.
  - unfold blk_queue_exit.
    assert (core (q2 <| q_usage ::= fun n => n - 1 |>)
      = (core q2) <| q_usage ::= fun n => n - 1 |>) as -> by done.
    rewrite Hl. destruct q; unfold core, blk_queue_enter_live, upd; simpl. f_equal. lia.
  - split; [|by eauto 10]. intros Hn. rewrite bool_decide_true by done. done.
Qed.
End failure.

(** ** Observations and stores *)

Lemma list_insert_same {A} (l : list A) i x : l !! i = Some x -> <[i := x]> l = l.
Proof. apply list_insert_id. Qed.

Lemma aget_fmap {A B} (f : A -> B) (l : list A) i : aget (f <$> l) i = f <$> aget l i.
Proof. unfold aget. case_bool; [done|]. apply list_lookup_fmap. Qed.

Lemma aget_nat {A} (l : list A) i x : aget l i = Some x -> 0 <= i /\ l !! Z.to_nat i = Some x.
Proof. unfold aget. case_bool; [done|]. intros H. split; [lia|done]. Qed.

Lemma in_use_set_tags ti t q :
  tags_in_use (set_tags ti t q) = <[Z.to_nat ti := in_use t]> (tags_in_use q).
Proof. unfold tags_in_use, set_tags. simpl. apply list_fmap_insert. Qed.

Lemma active_set_hctx i h q :
  active_counts (set_hctx i h q) = <[Z.to_nat i := nr_active h]> (active_counts q).
Proof. unfold active_counts, set_hctx. simpl. apply list_fmap_insert. Qed.

(** The hardware queues keep the tags they use. *)
Definition hctx_tags (q : request_queue) : list (option Z) := tags <$> queue_hw_ctx q.

Lemma hctx_tags_set_hctx i h h0 q :
  aget (queue_hw_ctx q) i = Some h0 -> tags h = tags h0 -> hctx_tags (set_hctx i h q) = hctx_tags q.
Proof.
  intros Hh Ht. unfold hctx_tags, set_hctx. simpl. rewrite list_fmap_insert.
  apply list_insert_same. rewrite list_lookup_fmap. apply aget_nat in Hh as [_ ->].
  simpl. by rewrite Ht.
Qed.

(** The hardware queues of every software queue. *)
Definition hctx_maps (q : request_queue) : list (list Z) := hctxs <$> queue_ctx q.

Section roundtrip.
Context {bt : BlkTypes} {mk : MqKernel} {laws : MqKernelLaws mk} {tag_laws : MqTagLaws mk}.

(** The flags set by the initialisation say whether the request is counted as
    active. *)
Lemma rq_init_inflight q d cx hi op now flags rq :
  has_flag (rq_flags (rq_init_fields q d cx hi op now flags rq)) RQF_MQ_INFLIGHT
  = has_flag flags RQF_MQ_INFLIGHT.
Proof.
  assert (forall f n, 0 <= n -> n <> 6 -> has_flag (Z.lor f (2 ^ n)) RQF_MQ_INFLIGHT
    = has_flag f RQF_MQ_INFLIGHT) as Hl.
  { intros f n Hn H6. unfold RQF_MQ_INFLIGHT. rewrite !has_flag_pow2, Z.lor_spec by lia.
    rewrite Z.pow2_bits_false by lia. apply orb_false_r. }
  unfold rq_init_fields. cbv zeta.
  repeat match goal with |- context [if ?b then _ else _] => destruct b end; simpl;
    unfold RQF_PREEMPT, RQF_IO_STAT; rewrite ?Hl; done.
Qed.

Lemma rq_init_keep q d cx hi op now flags rq :
  exists rq', rq_init_fields q d cx hi op now flags rq = rq'
  /\ tag rq' = tag rq /\ internal_tag rq' = internal_tag rq /\ mq_hctx rq' = Some hi
  /\ mq_ctx rq' = cx /\ cmd_flags rq' = op
  /\ has_flag (rq_flags rq') RQF_MQ_INFLIGHT = has_flag flags RQF_MQ_INFLIGHT.
Proof.
  eexists. split; [reflexivity|]. rewrite rq_init_inflight.
  unfold rq_init_fields. cbv zeta.
  repeat match goal with |- context [if ?b then _ else _] => destruct b end; done.
Qed.

Lemma mod_ctx_maps c f q q' :
  (forall ctx ctx', f ctx = Some ctx' -> hctxs ctx' = hctxs ctx) ->
  mod_ctx c f q = Some q' -> hctx_maps q' = hctx_maps q.
Proof.
  unfold mod_ctx. intros Hf H. inv_some. subst q'. unfold hctx_maps, set_ctx. simpl.
  rewrite list_fmap_insert, (Hf x x0) by done. apply list_insert_same. rewrite list_lookup_fmap.
  by apply aget_nat in Hx as [_ ->].
Qed.

Lemma mod_ctx_obs c f q q' :
  mod_ctx c f q = Some q' ->
  tags_in_use q' = tags_in_use q /\ hctx_tags q' = hctx_tags q
  /\ active_counts q' = active_counts q /\ q_usage q' = q_usage q /\ elevator q' = elevator q
  /\ q_rqs q' = q_rqs q /\ queue_hw_ctx q' = queue_hw_ctx q /\ q_tags q' = q_tags q.
Proof. unfold mod_ctx. intros H. inv_some. by subst. Qed.

Lemma rq_ctx_init_inv now d tg op q r q' :
  has_flag (d_flags d) BLK_MQ_REQ_INTERNAL = false ->
  blk_mq_rq_ctx_init now d tg op q = Some (r, q') ->
  exists ti t hi h rq,
    d_hctx d = Some hi /\ aget (queue_hw_ctx q) hi = Some h /\ tags h = Some ti
    /\ aget (q_tags q) ti = Some t
    /\ q_rqs q' = <[r := rq]> (q_rqs q) /\ tag rq = tg /\ internal_tag rq = -1 /\ ref rq = 1
    /\ mq_hctx rq = Some hi /\ d_ctx d = Some (mq_ctx rq)
    /\ has_flag (rq_flags rq) RQF_MQ_INFLIGHT = has_flag (h_flags h) BLK_MQ_F_TAG_SHARED
    /\ tags_in_use q' = tags_in_use q /\ hctx_tags q' = hctx_tags q
    /\ active_counts q'
       = (if has_flag (h_flags h) BLK_MQ_F_TAG_SHARED
          then <[Z.to_nat hi := s32 (nr_active h + 1)]> (active_counts q) else active_counts q)
    /\ q_usage q' = q_usage q /\ elevator q' = elevator q /\ hctx_maps q' = hctx_maps q.
Proof.
  intros Hint H. unfold blk_mq_rq_ctx_init in H. rewrite Hint in H. inv_some.
  rename x into ti, x0 into t, x3 into rq0, x4 into hi, x5 into h, x6 into cx, x7 into x,
    z0 into flags, r2 into q2.
  unfold blk_mq_tags_from_data in Hx. rewrite Hx4, Hint in Hx. simpl in Hx.
  rewrite Hx5 in Hx. simpl in Hx. rename Hx into Htags.
  assert (hctx_maps x = hctx_maps r0) as M7.
  { eapply mod_ctx_maps; [|exact Hx9]. intros c1 c2 (rd & _ & [= <-])%bind_Some. done. }
  apply mod_ctx_obs in Hx9 as (M1 & M2 & M3 & M4 & M5 & M6 & _). subst z x2 q' r0 r1. simplify_eq.
  assert (tags_in_use q2 = tags_in_use q /\ hctx_tags q2 = hctx_tags q
    /\ q_usage q2 = q_usage q /\ elevator q2 = elevator q /\ hctx_maps q2 = hctx_maps q /\ q_rqs q2 = q_rqs q
    /\ has_flag flags RQF_MQ_INFLIGHT = has_flag (h_flags h) BLK_MQ_F_TAG_SHARED
    /\ active_counts q2 = (if has_flag (h_flags h) BLK_MQ_F_TAG_SHARED
          then <[Z.to_nat hi := s32 (nr_active h + 1)]> (active_counts q) else active_counts q))
    as (Hu & Ht & Hq & He & Hmp & Hr & Hf & Ha).
  { destruct (has_flag (h_flags h) BLK_MQ_F_TAG_SHARED); inv_some; simplify_eq; [|done].
    unfold mod_hctx in *. inv_some. simplify_eq.
    rewrite active_set_hctx. erewrite hctx_tags_set_hctx by done. done. }
  match goal with |- context [rq_init_fields ?a ?b ?c ?d ?e ?f ?g ?h] =>
    destruct (rq_init_keep a b c d e f g h) as (rq1 & -> & K1 & K2 & K3 & K4 & _ & K5) end.
  simpl in K1, K2, K3, K4, M4, M5, M6. exists ti, t, hi, h, (rq1 <| ref := 1 |>).
  split; [exact Hx4|]. split; [exact Hx5|]. split; [exact Htags|]. split; [exact Hx0|].
  split; [change (<[r := rq1 <| ref := 1 |>]> (q_rqs x) = <[r := rq1 <| ref := 1 |>]> (q_rqs q));
          by rewrite M6, Hr|].
  split; [exact K1|]. split; [exact K2|]. split; [reflexivity|]. split; [exact K3|].
  split; [rewrite <- K4 in Hx6; exact Hx6|]. split; [etrans; [exact K5|exact Hf]|].
  split; [|split; [etrans; [exact M2|exact Ht]|split; [etrans; [exact M3|exact Ha]|]]].
  - etrans; [exact M1|]. rewrite in_use_set_tags, Hu. apply list_insert_same. unfold tags_in_use.
    rewrite list_lookup_fmap. apply aget_nat in Hx0 as [_ ->]. done.
  - split; [etrans; [exact M4|exact Hq]|]. split; [etrans; [exact M5|exact He]|etrans; [exact M7|exact Hmp]].
Qed.

(** Steering and the choice of queues leave the flags of the allocation. *)
Lemma set_data_ctx_flags q c d d' :
  set_data_ctx q c d = Some d' -> d_flags d' = d_flags d /\ d_cmd_flags d' = d_cmd_flags d.
Proof. unfold set_data_ctx. intros H. inv_some. by subst. Qed.

Lemma app_steering_flags e n q ob d s s' d' b :
  app_steering e n q ob d s = Some (s', d', b) ->
  d_flags d' = d_flags d /\ d_cmd_flags d' = d_cmd_flags d.
Proof.
  unfold app_steering. intros H. inv_some.
  match type of H with context [if ?c then _ else _] => destruct c end; inv_some; simplify_eq; [done|].
  by eapply set_data_ctx_flags.
Qed.

Lemma req_steering_flags p e n q d s s' d' b :
  req_steering p e n q d s = Some (s', d', b) ->
  d_flags d' = d_flags d /\ d_cmd_flags d' = d_cmd_flags d.
Proof.
  unfold req_steering. intros H. inv_some.
  case_bool_in H; inv_some; simplify_eq; [done|]. by eapply set_data_ctx_flags.
Qed.

Lemma steer_flags p e q ob d s s' d' b :
  blk_switch_steer p e q ob d s = Some (s', d', b) ->
  d_flags d' = d_flags d /\ d_cmd_flags d' = d_cmd_flags d.
Proof.
  unfold blk_switch_steer. intros H. inv_some. rename b2 into d1.
  assert (d_flags d1 = d_flags d /\ d_cmd_flags d1 = d_cmd_flags d) as [<- <-].
  { repeat match goal with
    | E : (if ?c then _ else _) = Some (_, d1, _) |- _ => destruct c; simplify_eq; try done;
        by eapply app_steering_flags
    end. }
  match type of H with (if ?c then _ else _) = _ => destruct c end; simplify_eq; [|done].
  by eapply req_steering_flags.
Qed.

Lemma choose_queues_flags e q d d' :
  choose_queues e q d = Some d' ->
  has_flag (d_flags d') BLK_MQ_REQ_INTERNAL = has_flag (d_flags d) BLK_MQ_REQ_INTERNAL
  /\ d_cmd_flags d' = d_cmd_flags d.
Proof.
  unfold choose_queues. intros H. inv_some.
  assert (forall f, has_flag (Z.lor f BLK_MQ_REQ_NOWAIT) BLK_MQ_REQ_INTERNAL
    = has_flag f BLK_MQ_REQ_INTERNAL) as Hn.
  { intros f. unfold BLK_MQ_REQ_INTERNAL. change 4 with (2 ^ 2).
    rewrite !has_flag_pow2, Z.lor_spec by lia. apply orb_false_r. }
  assert (d_flags x1 = d_flags d /\ d_cmd_flags x1 = d_cmd_flags d) as [E1 E2].
  { destruct (d_ctx d); simpl in *; destruct (d_hctx d); inv_some; simplify_eq; done. }
  subst d'. case_bool; simpl; by rewrite ?Hn, ?E1, ?E2.
Qed.

Lemma prepare_none q op ob st rq :
  elevator q = None ->
  exists rq', prepare_step q op ob (rq <| steered := st |>) = rq'
  /\ tag rq' = tag rq /\ internal_tag rq' = internal_tag rq /\ mq_hctx rq' = mq_hctx rq
  /\ mq_ctx rq' = mq_ctx rq /\ rq_flags rq' = rq_flags rq /\ ref rq' = ref rq.
Proof.
  intros He. eexists. split; [reflexivity|]. unfold prepare_step. rewrite He. case_bool; done.
Qed.

(** A change of a field that is not observed. *)
Lemma mod_hctx_obs i f q q' :
  (forall h, tags (f h) = tags h /\ nr_active (f h) = nr_active h) ->
  mod_hctx i f q = Some q' ->
  tags_in_use q' = tags_in_use q /\ hctx_tags q' = hctx_tags q
  /\ active_counts q' = active_counts q /\ q_usage q' = q_usage q /\ elevator q' = elevator q
  /\ q_rqs q' = q_rqs q /\ queue_ctx q' = queue_ctx q.
Proof.
  intros Hf H. unfold mod_hctx in H. inv_some. subst q'. destruct (Hf x) as [H1 H2].
  erewrite hctx_tags_set_hctx by done. rewrite active_set_hctx, H2. split_and!; try done.
  apply list_insert_same. unfold active_counts. rewrite list_lookup_fmap.
  by apply aget_nat in Hx as [_ ->].
Qed.

(** The data [d] of an allocation and the queue, before ([q]) and after ([q1]) a tag
    is found. *)
Definition settled d q d' q1 : Prop := d' = d /\ core q1 = core q \/ slept d q d' q1.

Lemma settled_flags d q d' q1 :
  settled d q d' q1 -> d_flags d' = d_flags d /\ d_cmd_flags d' = d_cmd_flags d /\ elevator q1 = elevator q.
Proof.
  intros [[-> Hc]|(_ & He & cx & ctx & hi & _ & _ & ->)]; [|done].
  split; [done|]. split; [done|]. exact (f_equal elevator Hc).
Qed.

(** A successful allocation without an I/O scheduler. *)
Lemma get_request_ok p e now ob d q s r d' q' s' :
  elevator q = None -> has_flag (d_flags d) BLK_MQ_REQ_INTERNAL = false ->
  blk_mq_get_request p e now ob d q s = Some (Some r, d', q', s') ->
  exists d0 d1 s0 st q1,
    choose_queues e (blk_queue_enter_live q) d = Some d0
    /\ blk_switch_steer p e (blk_queue_enter_live q) ob d0 s = Some (s0, d1, st)
    /\ settled d1 (blk_queue_enter_live q) d' q1 /\ hctx_maps q' = hctx_maps q1
    /\ exists ti old tg hi rq n,
    q_rqs q' = <[r := rq]> (q_rqs q1)
    /\ d_hctx d' = Some hi /\ mq_hctx rq = Some hi /\ d_ctx d' = Some (mq_ctx rq)
    /\ ref rq = 1 /\ tag rq = tg /\ internal_tag rq = -1 /\ 0 <= tg
    /\ aget (hctx_tags q') hi = Some (Some ti) /\ aget (tags_in_use q1) ti = Some old
    /\ tg ∉ old /\ tags_in_use q' = <[Z.to_nat ti := tg :: old]> (tags_in_use q1)
    /\ aget (active_counts q1) hi = Some n
    /\ active_counts q' = (if has_flag (rq_flags rq) RQF_MQ_INFLIGHT
         then <[Z.to_nat hi := s32 (n + 1)]> (active_counts q1) else active_counts q1)
    /\ q_usage q' = q_usage q1 /\ elevator q' = None
    /\ is_Some (aget (queue_ctx q') (mq_ctx rq)).
Proof.
  intros Hel Hint H. unfold blk_mq_get_request in H. inv_some. rename b1 into d1.
  exists x, d1, b0, b. pose proof (choose_queues_flags _ _ _ _ Hx) as [Hf1 _].
  pose proof (steer_flags _ _ _ _ _ _ _ _ _ Hx0) as [Hf2 _]. rename Hx into Hch, Hx0 into Hst.
  destruct (limit_depth_step _ d1) as [d2 q2] eqn:Hl.
  assert (d2 = d1) as ->.
  { unfold limit_depth_step in Hl. simpl in Hl. rewrite Hel in Hl. congruence. }
  apply limit_depth_core in Hl.
  destruct (blk_mq_get_tag d1 q2) as [[[tg|] d3] q3] eqn:Ht; [|done].
  apply get_tag_some in Ht as (q1 & ti & t & Hset & Hti & Htg & Hrange & Hfree & ->).
  inv_some. subst. rename x0 into hi. exists q1.
  assert (settled d1 (blk_queue_enter_live q) d' q1) as Hs.
  { destruct Hset as [[-> ->]|(S1 & S2 & S3)]; [by left|]. right. split; [done|]. split; [|done].
    by rewrite S2, (core_elevator _ _ Hl). }
  destruct (settled_flags _ _ _ _ Hs) as (Hf3 & _ & Hel1). simpl in Hel1.
  split; [done|]. split; [done|]. split; [done|].
  apply rq_ctx_init_inv in Hx as (ti' & t' & hi' & h & rq & E1 & E2 & E3 & E4 & E5 & E6 & E7 & E8
    & E9 & E10 & E11 & E12 & E13 & E14 & E15 & E16 & E17); [|congruence].
  assert (hi' = hi) as -> by congruence.
  assert (ti' = ti) as ->.
  { unfold blk_mq_tags_from_data in Hti. rewrite Hx0 in Hti. simpl in Hti, E2. rewrite E2 in Hti.
    simpl in Hti. rewrite Hf3, Hf2, Hf1, Hint in Hti. congruence. }
  assert (elevator r0 = None) as Hel0 by (rewrite E16; simpl; by rewrite Hel1).
  unfold mod_rq in Hx5. inv_some. rewrite E5, lookup_insert_eq in Hx. injection Hx as <-.
  destruct (prepare_none r0 (d_cmd_flags d') ob b rq Hel0) as (rq' & Er & P1 & P2 & P3 & P4 & P5 & P6).
  rewrite Er in Hx5. subst x5.
  apply mod_hctx_obs in Hx6 as (O1 & O2 & O3 & O4 & O5 & O6 & O7); [|done].
  split. { unfold hctx_maps. rewrite O7. exact E17. }
  exists ti, (in_use t), tg, hi, rq', (nr_active h).
  simpl in E2.
  split; [rewrite O6; simpl; rewrite E5; simpl; rewrite insert_insert_eq; done|].
  split; [done|]. split; [congruence|]. split; [congruence|]. split; [congruence|].
  split; [congruence|]. split; [congruence|]. split; [lia|].
  split. { rewrite O2. change (aget (hctx_tags r0) hi = Some (Some ti)). rewrite E13.
    unfold hctx_tags. simpl. rewrite aget_fmap, E2. simpl. congruence. }
  split. { unfold tags_in_use. by rewrite aget_fmap, Htg. }
  split; [done|].
  split. { rewrite O1. change (tags_in_use r0 = <[Z.to_nat ti := tg :: in_use t]> (tags_in_use q1)).
    by rewrite E12, in_use_set_tags. }
  split. { unfold active_counts. by rewrite aget_fmap, E2. }
  split. { rewrite O3, P5, E11. exact E14. }
  split. { rewrite O4. simpl. rewrite E15. done. }
  split; [by rewrite O5|]. rewrite O7. simpl. assert (mq_ctx rq' = x2) as -> by congruence. eauto.
Qed.

Lemma finish_none q rq :
  elevator q = None ->
  exists rq', finish_step q rq = rq'
  /\ tag rq' = tag rq /\ internal_tag rq' = internal_tag rq /\ mq_hctx rq' = mq_hctx rq
  /\ rq_flags rq' = rq_flags rq /\ ref rq' = ref rq.
Proof.
  intros He. eexists. split; [reflexivity|]. unfold finish_step. rewrite He. case_bool; done.
Qed.

(** Dropping the last reference of a request that holds driver tag [tg]. *)
Lemma free_final_ok r q rq hi ti used :
  q_rqs q !! r = Some rq -> mq_hctx rq = Some hi -> internal_tag rq = -1 -> 0 <= tag rq ->
  aget (hctx_tags q) hi = Some (Some ti) -> aget (tags_in_use q) ti = Some used ->
  exists q', blk_mq_free_request_final r q = Some q'
    /\ tags_in_use q' = <[Z.to_nat ti := List.remove Z.eq_dec (tag rq) used]> (tags_in_use q)
    /\ active_counts q' = active_counts q /\ q_usage q' = q_usage q - 1
    /\ mq_hctx <$> (q_rqs q' !! r) = Some None.
Proof.
  intros Hr Hh Hi Ht Hti Hu. unfold blk_mq_free_request_final. rewrite Hr. simpl. rewrite Hh. simpl.
  unfold hctx_tags in Hti. rewrite aget_fmap in Hti.
  apply fmap_Some in Hti as (h & Hhi & Htag). rewrite Hhi. simpl.
  unfold tags_in_use in Hu. rewrite aget_fmap in Hu. apply fmap_Some in Hu as (t & Htg & Hut).
  destruct (tag rq =? -1) eqn:E; [lia|]. rewrite <- Htag. simpl.
  rewrite (put_tag_ok ti (tag rq) t) by done. rewrite Hi. simpl. eexists. split; [reflexivity|].
  set (q1 := set_tags ti _ _). pose proof (sched_restart_core hi q1) as C.
  split; [|split; [|split]].
  - etrans; [exact (core_in_use _ _ C)|]. unfold q1. by rewrite in_use_set_tags, Hut.
  - exact (core_active _ _ C).
  - simpl. by rewrite (core_usage _ _ C).
  - simpl. rewrite (core_rqs _ _ C). simpl. by rewrite lookup_insert_eq.
Qed.

Lemma free_request_ok r q rq hi ti used n :
  elevator q = None -> q_rqs q !! r = Some rq -> mq_hctx rq = Some hi -> ref rq = 1 ->
  internal_tag rq = -1 -> 0 <= tag rq ->
  aget (hctx_tags q) hi = Some (Some ti) -> aget (tags_in_use q) ti = Some used ->
  aget (active_counts q) hi = Some n ->
  (exists ctx, aget (queue_ctx q) (mq_ctx rq) = Some ctx /\ length (rq_completed ctx) = 2%nat) ->
  exists q', blk_mq_free_request r q = Some q'
    /\ tags_in_use q' = <[Z.to_nat ti := List.remove Z.eq_dec (tag rq) used]> (tags_in_use q)
    /\ active_counts q' = (if has_flag (rq_flags rq) RQF_MQ_INFLIGHT
         then <[Z.to_nat hi := s32 (n - 1)]> (active_counts q) else active_counts q)
    /\ q_usage q' = q_usage q - 1 /\ mq_hctx <$> (q_rqs q' !! r) = Some None.
Proof.
  intros He Hr Hh Href Hi Ht Hti Hu Hn (ctx & Hctx & Hlen).
  unfold blk_mq_free_request. rewrite Hr. simpl. rewrite Hh. simpl.
  destruct (finish_none q rq He) as (rq1 & -> & F1 & F2 & F3 & F4 & F5).
  destruct (amod_lt (rq_completed ctx) (b2z (rq_is_sync rq1)) (fun n => u64 (n + 1)))
    as (rc & Hrc & _). { rewrite Hlen. destruct (rq_is_sync rq1); simpl; lia. }
  unfold mod_ctx. rewrite Hctx. simpl. rewrite Hrc. simpl. rewrite F4.
  set (q1 := set_ctx _ _ _).
  assert (exists q2, (if has_flag (rq_flags rq) RQF_MQ_INFLIGHT
    then mod_hctx hi (fun h => h <| nr_active ::= fun n => s32 (n - 1) |>) q1 else Some q1) = Some q2
    /\ tags_in_use q2 = tags_in_use q /\ hctx_tags q2 = hctx_tags q /\ q_usage q2 = q_usage q
    /\ active_counts q2 = (if has_flag (rq_flags rq) RQF_MQ_INFLIGHT
         then <[Z.to_nat hi := s32 (n - 1)]> (active_counts q) else active_counts q))
    as (q2 & -> & U1 & U2 & U3 & U4).
  { destruct (has_flag (rq_flags rq) RQF_MQ_INFLIGHT); [|by exists q1].
    unfold active_counts in Hn. rewrite aget_fmap in Hn. apply fmap_Some in Hn as (h & Hhi & ->).
    unfold mod_hctx. simpl. rewrite Hhi. simpl. eexists. split; [reflexivity|].
    rewrite active_set_hctx. erewrite hctx_tags_set_hctx by done. done. }
  simpl. rewrite F5, Href. simpl.
  edestruct (free_final_ok r (set_rq r (rq1 <| rq_state := MQ_RQ_IDLE |> <| ref ::= fun n => n - 1 |>) q2)
    (rq1 <| rq_state := MQ_RQ_IDLE |> <| ref ::= fun n => n - 1 |>) hi ti used)
    as (q3 & Hq3 & V1 & V2 & V3 & V4).
  { simpl. apply lookup_insert_eq. }
  { simpl. congruence. } { simpl. congruence. } { simpl. lia. }
  { etrans; [|exact Hti]. by rewrite <- U2. } { etrans; [|exact Hu]. by rewrite <- U1. }
  exists q3. split; [exact Hq3|]. split; [|split; [|split; [|exact V4]]].
  - rewrite V1. simpl. rewrite F1. by rewrite <- U1.
  - rewrite V2. exact U4.
  - rewrite V3. simpl. by rewrite U3.
Qed.

Lemma s32_inc_dec n : - 2 ^ 31 <= n < 2 ^ 31 - 1 -> s32 (s32 (n + 1) - 1) = n.
Proof. intros H. rewrite (s32_small (n + 1)) by lia. rewrite s32_small by lia. lia. Qed.

(** C20: allocation and release are inverse, on a queue without I/O scheduler.  A
    request that is allocated holds a driver tag that was free at the moment it was
    handed out ([q1]), one reference on the queue, and is counted as active on its
    hardware queue when the tags are shared; releasing it returns the tag bitmaps, the
    usage counter of the queue (with the reference that the allocation took at its
    start) and the active counts, if they are in the range of an [int], to what they
    were at that moment.  When the allocation did not sleep, and one that may not wait
    never does, this is the state before the allocation. *)
Theorem alloc_free_roundtrip p e now ob d q s r d' q' s' :
  elevator q = None -> has_flag (d_flags d) BLK_MQ_REQ_INTERNAL = false ->
  blk_mq_get_request p e now ob d q s = Some (Some r, d', q', s') ->
  Forall (fun ctx => length (rq_completed ctx) = 2%nat) (queue_ctx q') ->
  exists q1, (core q1 = core (blk_queue_enter_live q) \/ has_flag (d_flags d') BLK_MQ_REQ_NOWAIT = false)
  /\ (exists rq ti old, q_rqs q' !! r = Some rq /\ aget (tags_in_use q1) ti = Some old
     /\ tag rq ∉ old /\ tags_in_use q' = <[Z.to_nat ti := tag rq :: old]> (tags_in_use q1))
  /\ q_usage q' = q_usage q1
  /\ exists q'', blk_mq_free_request r q' = Some q''
     /\ tags_in_use q'' = tags_in_use q1 /\ q_usage q'' = q_usage q1 - 1
     /\ (Forall (fun n => - 2 ^ 31 <= n < 2 ^ 31 - 1) (active_counts q1) ->
         active_counts q'' = active_counts q1)
     /\ (core q1 = core (blk_queue_enter_live q) ->
         q_usage q' = q_usage q + 1 /\ tags_in_use q'' = tags_in_use q /\ q_usage q'' = q_usage q
         /\ (Forall (fun n => - 2 ^ 31 <= n < 2 ^ 31 - 1) (active_counts q) ->
             active_counts q'' = active_counts q)).
Proof.
  intros Hel Hint H Hctx.
  apply get_request_ok in H as (d0 & d1 & s0 & st & q1 & _ & _ & Hset & _ & ti & old & tg & hi & rq & n
    & A1 & A2 & A3 & A4 & A5 & A6 & A7 & A8
    & A9 & A10 & A11 & A12 & A13 & A14 & A15 & A16 & [ctx A17]); [|done..].
  assert (q_rqs q' !! r = Some rq) as Hr by (rewrite A1; apply lookup_insert_eq).
  pose proof (settled_flags _ _ _ _ Hset) as (Hf & _).
  apply aget_nat in A10 as [Hti Hold]. pose proof (aget_nat _ _ _ A13) as [Hhi Hn].
  exists q1. split; [destruct Hset as [[_ ?]|(? & _)]; [by left|right; by rewrite Hf]|].
  split. { exists rq, ti, old. rewrite A6. split; [done|]. split; [|done]. unfold aget. by case_bool; [lia|]. }
  split; [done|].
  edestruct (free_request_ok r q' rq hi ti (tg :: old)
    (if has_flag (rq_flags rq) RQF_MQ_INFLIGHT then s32 (n + 1) else n))
    as (q'' & Hq'' & B1 & B2 & B3 & _); try done; [lia|..].
  { rewrite A12. unfold aget. case_bool; [lia|]. apply list_lookup_insert_eq.
    by apply lookup_lt_Some in Hold. }
  { rewrite A14. case_bool; [|done]. unfold aget. case_bool; [lia|].
    apply list_lookup_insert_eq. by apply lookup_lt_Some in Hn. }
  { exists ctx. split; [done|]. rewrite Forall_forall in Hctx. apply Hctx.
    apply aget_nat in A17 as [_ A17]. by eapply list_elem_of_lookup_2. }
  assert (tags_in_use q'' = tags_in_use q1) as T1.
  { rewrite B1, A12, list_insert_insert_eq, A6. simpl. destruct (Z.eq_dec tg tg); [|done].
    rewrite notin_remove by (by rewrite <- list_elem_of_In). by apply list_insert_same. }
  assert (Forall (fun n => - 2 ^ 31 <= n < 2 ^ 31 - 1) (active_counts q1) -> active_counts q'' = active_counts q1) as T2.
  { intros Hact. rewrite B2, A14. case_bool; [|done].
    rewrite list_insert_insert_eq, s32_inc_dec; [by apply list_insert_same|].
    rewrite Forall_forall in Hact. apply Hact. by eapply list_elem_of_lookup_2. }
  exists q''. split; [done|]. split; [done|]. split; [lia|]. split; [done|].
  intros Hc. pose proof (core_usage _ _ Hc) as U. pose proof (core_in_use _ _ Hc) as I.
  pose proof (core_active _ _ Hc) as A. simpl in U.
  change (tags_in_use (blk_queue_enter_live q)) with (tags_in_use q) in I.
  change (active_counts (blk_queue_enter_live q)) with (active_counts q) in A.
  rewrite <- I, <- A. split; [lia|]. split; [done|]. split; [lia|done].
Qed.
End roundtrip.

(** ** A tag allocator that satisfies the laws: the lowest free tag *)

Definition lowest_free (t : blk_mq_tags) : option Z :=
  List.find (fun x => negb (bool_decide (x ∈ in_use t))) (seqZ 0 (nr_tags t)).

Definition ex_get_tag (d : blk_mq_alloc_data) (q : request_queue)
  : option Z * blk_mq_alloc_data * request_queue :=
  match (ti ← blk_mq_tags_from_data q d; t ← aget (q_tags q) ti; x ← lowest_free t;
         Some (x, set_tags ti (t <| in_use ::= cons x |>) q)) with
  | Some (x, q') => (Some x, d, q')
  | None => (None, d, q)
  end.

Definition ex_kernel : MqKernel := {|
  blk_mq_tag_busy := fun i q =>
    (from_option (fun h => has_flag (h_flags h) BLK_MQ_F_TAG_SHARED) false
       (aget (queue_hw_ctx q) i), q);
  blk_mq_get_tag := ex_get_tag;
  blk_mq_put_tag := fun ti x q =>
    match aget (q_tags q) ti with
    | Some t => set_tags ti (t <| in_use ::= List.remove Z.eq_dec x |>) q
    | None => q
    end;
  blk_mq_sched_restart := fun _ q => q;
  blk_queue_enter := fun _ q => (0, blk_queue_enter_live q);
  blk_update_request := fun rq _ _ => (false, rq <| data_len := 0 |> <| rq_bio := None |>);
  call_end_io := fun _ _ q => q;
|}.

#[export] Instance ex_kernel_laws : MqKernelLaws ex_kernel.
Proof.
  constructor; try done.
  - intros d q d' q' H. simpl in H. unfold ex_get_tag in H.
    destruct (_ ≫= _) as [[]|]; by simplify_eq.
  - intros ti tg t q H. simpl. by rewrite H.
Qed.

#[export] Instance ex_tag_laws {bt : BlkTypes} : MqTagLaws ex_kernel.
Proof.
  constructor. intros d q tg d' q' H. simpl in H. unfold ex_get_tag in H.
  destruct (_ ≫= _) as [[x q1]|] eqn:E; simplify_eq. inv_some.
  exists q, x, x0. split; [by left|]. unfold lowest_free in Hx1. apply find_some in Hx1 as [H1 H2].
  apply list_elem_of_In, elem_of_seqZ in H1. apply negb_true_iff, bool_decide_eq_false in H2.
  simplify_eq. split_and!; try done; lia.
Qed.

(** A queue with shared tags of depth four, of which tag 0 is in use. *)
Definition ex_tags : blk_mq_tags :=
  mk_tags 4 0 1 0 [0] [Some 100; None; None; None] [Some 100; Some 101; Some 102; Some 103].
Definition ex_queue_tags : request_queue :=
  ex_queue
    <| queue_hw_ctx ::= fmap (fun h : blk_mq_hw_ctx => h <| h_flags := BLK_MQ_F_TAG_SHARED |>) |>
    <| q_tags := [ex_tags] |> <| q_usage := 1 |>
    <| q_rqs := <[101 := request0]> (<[100 := request0]> ∅) |>.

(** An allocation that may not wait. *)
Lemma alloc_free_roundtrip_witness :
  exists r d' q' s' q'',
    @blk_mq_get_request linux_5_4 ex_kernel ex_params ex_env_2 9 (Some (mk_bio 4096 0 0 0))
      (mk_alloc_data BLK_MQ_REQ_NOWAIT 0 0 None None) ex_queue_tags bsw_init = Some (Some r, d', q', s')
    /\ tags_in_use q' = [[1; 0]] /\ active_counts q' = [40; 0; 4; 0]
    /\ @blk_mq_free_request linux_5_4 ex_kernel r q' = Some q''
    /\ tags_in_use q'' = tags_in_use ex_queue_tags
    /\ active_counts q'' = active_counts ex_queue_tags /\ q_usage q'' = 1.
Proof.
  destruct (@blk_mq_get_request linux_5_4 ex_kernel ex_params ex_env_2 9
    (Some (mk_bio 4096 0 0 0)) (mk_alloc_data BLK_MQ_REQ_NOWAIT 0 0 None None) ex_queue_tags bsw_init)
    as [[[[[r|] d'] q'] s']|] eqn:E; [|vm_compute in E; discriminate E..].
  destruct (@alloc_free_roundtrip linux_5_4 ex_kernel ex_kernel_laws ex_tag_laws ex_params ex_env_2 9
    (Some (mk_bio 4096 0 0 0)) (mk_alloc_data BLK_MQ_REQ_NOWAIT 0 0 None None) ex_queue_tags bsw_init r d' q' s'
    eq_refl eq_refl E) as (q1 & Hq1 & _ & _ & q'' & H1 & _ & _ & _ & H2).
  - vm_compute in E. injection E as <- <- <- <-. repeat constructor.
  - exists r, d', q', s', q''. split; [reflexivity|].
    split; [vm_compute in E; injection E as <- <- <- <-; reflexivity|].
    split; [vm_compute in E; injection E as <- <- <- <-; reflexivity|]. split; [exact H1|].
    destruct H2 as (_ & H3 & H4 & H5).
    + destruct Hq1 as [Hq1|Hq1]; [exact Hq1|]. exfalso.
      vm_compute in E. injection E as <- <- <- <-. vm_compute in Hq1. discriminate Hq1.
    + split; [exact H3|]. split; [|exact H4]. apply H5. repeat constructor; simpl; lia.
Defined.

(** The same queue with all of its tags in use. *)
Definition ex_queue_full : request_queue :=
  ex_queue_tags <| q_tags := [ex_tags <| in_use := [0; 1; 2; 3] |>] |>.

Lemma get_request_failure_witness :
  exists d' q' s',
    @blk_mq_get_request linux_5_4 ex_kernel ex_params ex_env_2 9 (Some (mk_bio 4096 0 0 0))
      (mk_alloc_data 1 0 0 None None) ex_queue_full bsw_init = Some (None, d', q', s')
    /\ core q' = core ex_queue_full /\ d_ctx d' = None.
Proof.
  destruct (@blk_mq_get_request linux_5_4 ex_kernel ex_params ex_env_2 9
    (Some (mk_bio 4096 0 0 0)) (mk_alloc_data 1 0 0 None None) ex_queue_full bsw_init)
    as [[[[[r|] d'] q'] s']|] eqn:E; [vm_compute in E; discriminate E| |vm_compute in E; discriminate E].
  destruct (@get_request_failure linux_5_4 ex_kernel ex_kernel_laws _ _ _ _ _ _ _ _ _ _ E)
    as (H1 & H2 & _).
  exists d', q', s'. split; [reflexivity|]. split; [exact H1|]. apply H2. reflexivity.
Defined.

(** ** Prioritisation across the submission path

    The class of an application decides the type of hardware queue that its
    requests are issued on, from the I/O priority of the task to the request
    that [blk_mq_get_request] returns, and no steering decision changes it. *)

Section prio.
Context {bt : BlkTypes}.

(** The hardware queue of an allocation is the one that its software queue has
    for its flags. *)
Definition mapped (q : request_queue) (d : blk_mq_alloc_data) : Prop :=
  exists cx ctx, d_ctx d = Some cx /\ aget (queue_ctx q) cx = Some ctx
    /\ d_hctx d = blk_mq_map_queue (d_cmd_flags d) ctx.

Lemma set_data_ctx_mapped q c d d' : set_data_ctx q c d = Some d' -> mapped q d'.
Proof.
  unfold set_data_ctx. intros H. inv_some. subst d'. simpl.
  eexists c, _. simpl. split; [done|]. split; [done|]. congruence.
Qed.

Lemma app_steering_mapped e n q ob d s s' d' b :
  app_steering e n q ob d s = Some (s', d', b) -> mapped q d -> mapped q d'.
Proof.
  unfold app_steering. intros H Hm. inv_some.
  match type of H with context [if ?c then _ else _] => destruct c end; inv_some; simplify_eq; [done|].
  by eapply set_data_ctx_mapped.
Qed.

Lemma req_steering_mapped p e n q d s s' d' b :
  req_steering p e n q d s = Some (s', d', b) -> mapped q d -> mapped q d'.
Proof.
  unfold req_steering. intros H Hm. inv_some.
  case_bool_in H; inv_some; simplify_eq; [done|]. by eapply set_data_ctx_mapped.
Qed.

Lemma steer_mapped p e q ob d s s' d' b :
  blk_switch_steer p e q ob d s = Some (s', d', b) -> mapped q d -> mapped q d'.
Proof.
  unfold blk_switch_steer. intros H Hm. inv_some. rename b2 into d1.
  assert (mapped q d1) as Hm1.
  { repeat match goal with
    | E : (if ?c then _ else _) = Some (_, d1, _) |- _ => destruct c; simplify_eq; try done;
        by eapply app_steering_mapped
    end. }
  match type of H with (if ?c then _ else _) = _ => destruct c end; simplify_eq; [|done].
  by eapply req_steering_mapped.
Qed.

Lemma choose_queues_mapped e q d d' :
  d_hctx d = None -> choose_queues e q d = Some d' -> mapped q d'.
Proof.
  unfold choose_queues. intros Hn H. inv_some.
  assert (exists d1, mapped q d1 /\ d_ctx d' = d_ctx d1 /\ d_hctx d' = d_hctx d1
    /\ d_cmd_flags d' = d_cmd_flags d1) as (d1 & (cx & ctx & G1 & G2 & G3) & E1 & E2 & E3).
  { exists x1. split; [|subst d'; case_bool; done].
    destruct (d_ctx d) eqn:Ec; simpl in Hx1, Hx; rewrite Hn in Hx1; inv_some; subst x1; simpl;
      eexists _, _; simpl; split_and!; try done; congruence. }
  exists cx, ctx. rewrite E1, E2, E3. done.
Qed.

Lemma slept_mapped d q d' q1 : slept d q d' q1 -> mapped q1 d'.
Proof.
  intros (_ & _ & cx & ctx & hi & H1 & H2 & ->). exists cx, ctx. split; [done|]. split; [done|]. by simpl.
Qed.

Lemma mapped_maps q q' d : hctx_maps q' = hctx_maps q -> mapped q d -> mapped q' d.
Proof.
  intros Hm (cx & ctx & H1 & H2 & H3). exists cx.
  assert (hctxs <$> aget (queue_ctx q') cx = Some (hctxs ctx)) as (ctx' & Hc & He)%fmap_Some.
  { rewrite <- aget_fmap. change (hctxs <$> queue_ctx q') with (hctx_maps q'). rewrite Hm. unfold hctx_maps.
    by rewrite aget_fmap, H2. }
  exists ctx'. split; [done|]. split; [done|]. unfold blk_mq_map_queue in *. by rewrite <- He.
Qed.

Context {mk : MqKernel} {laws : MqKernelLaws mk} {tag_laws : MqTagLaws mk}.

(** C12: prioritisation holds from end to end, whatever steering does, on a queue
    without I/O scheduler.  For any setting of the steering parameters and any state
    of the load metrics, whether or not the task has to sleep for a tag and wakes up
    on another core, the request that is allocated for a bio of a task is bound to the
    hardware queue that its software queue has for the class of the task (see
    [egress_type]): polled requests to the one for polling, requests with REQ_FUA to the
    default one; of the others those of a latency-sensitive task, and those that came
    with REQ_PRIO set, to the one for latency-sensitive requests, and all the rest to
    the default one.  A steering decision changes the core, and never the class. *)
Theorem steering_keeps_class p e now ioc b q s r d' q' s' :
  elevator q = None ->
  let b' := blk_switch_set_ioprio ioc b in
  blk_mq_get_request p e now (Some b') (mk_alloc_data 0 0 (bi_opf b') None None) q s
    = Some (Some r, d', q', s') ->
  exists rq ctx, q_rqs q' !! r = Some rq /\ aget (queue_ctx q') (mq_ctx rq) = Some ctx
    /\ mq_hctx rq = aget (hctxs ctx) (egress_type ioc b).
Proof.
  intros Hel b' H.
  apply get_request_ok in H as (d0 & d1 & s0 & st & q1 & Hc & Hs & Hset & Hm
    & ti & old & tg & hi & rq & n & A1 & A2 & A3 & A4 & _); [|done..].
  destruct (choose_queues_flags _ _ _ _ Hc) as [_ F1]. destruct (steer_flags _ _ _ _ _ _ _ _ _ Hs) as [_ F2].
  destruct (settled_flags _ _ _ _ Hset) as (_ & F3 & _).
  assert (mapped q1 d') as Hd.
  { destruct Hset as [[-> Hq]|Hsl]; [|by eapply slept_mapped].
    apply (mapped_maps (blk_queue_enter_live q)); [exact (f_equal hctx_maps Hq)|].
    eapply steer_mapped; [exact Hs|]. by eapply choose_queues_mapped; [|exact Hc]. }
  apply (mapped_maps _ q') in Hd as (cx & ctx & M1 & M2 & M3); [|done].
  exists rq, ctx. rewrite A1, lookup_insert_eq. split; [done|].
  assert (cx = mq_ctx rq) as -> by congruence. split; [done|].
  rewrite A3, <- A2, M3, F3, F2, F1. simpl. apply map_queue_egress.
Qed.
End prio.

(** A request of a task of the latency-sensitive class on a machine with two
    cores. *)
Lemma steering_keeps_class_witness :
  exists r d' q' s' rq ctx,
    @blk_mq_get_request linux_5_4 ex_kernel ex_params ex_env_2 9
      (Some (@blk_switch_set_ioprio linux_5_4 (Some 8196) (mk_bio 4096 0 0 0)))
      (mk_alloc_data 0 0 (bi_opf (@blk_switch_set_ioprio linux_5_4 (Some 8196) (mk_bio 4096 0 0 0)))
         None None) ex_queue_tags bsw_init = Some (Some r, d', q', s')
    /\ q_rqs q' !! r = Some rq /\ aget (queue_ctx q') (mq_ctx rq) = Some ctx
    /\ mq_hctx rq = aget (hctxs ctx) HCTX_TYPE_READ.
Proof.
  destruct (@blk_mq_get_request linux_5_4 ex_kernel ex_params ex_env_2 9
      (Some (@blk_switch_set_ioprio linux_5_4 (Some 8196) (mk_bio 4096 0 0 0)))
      (mk_alloc_data 0 0 (bi_opf (@blk_switch_set_ioprio linux_5_4 (Some 8196) (mk_bio 4096 0 0 0)))
         None None) ex_queue_tags bsw_init) as [[[[[r|] d'] q'] s']|] eqn:E; [|by vm_compute in E..].
  destruct (@steering_keeps_class linux_5_4 ex_kernel ex_kernel_laws ex_tag_laws _ _ _ (Some 8196) (mk_bio 4096 0 0 0)
    ex_queue_tags _ _ _ _ _ eq_refl E) as (rq & ctx & H1 & H2 & H3).
  exists r, d', q', s', rq, ctx. split; [reflexivity|]. split; [exact H1|]. split; [exact H2|exact H3].
Defined.
