(* ===== verification/BlkMqRun.v ===== *)
(** * Running, stopping, quiescing and freezing queues

    The part of block/blk-mq.c that decides when and on which CPU a hardware
    queue is run: the pending bitmap, [blk_mq_hctx_next_cpu],
    [blk_mq_run_hw_queue] and its callers, stop/start, quiesce/unquiesce and
    freeze/unfreeze.  Running a queue ends in [blk_mq_sched_dispatch_requests] of
    blk-mq-sched.c, an operation of the class [MqSched]. *)
From S2P Require Import Prelude MqTypes BlkSwitch BlkMqAlloc.

(** Functions of blk-mq-sched.c and blk-mq-sched.h. *)
Class MqSched := {
  blk_mq_sched_has_work : Z -> request_queue -> bool;
  blk_mq_sched_dispatch_requests : Z -> request_queue -> request_queue;
  blk_mq_sched_mark_restart_hctx : Z -> request_queue -> request_queue;
  blk_mq_sched_needs_restart : Z -> request_queue -> bool;
  (* request, at_head, run_queue, async *)
  blk_mq_sched_insert_request : rqid -> bool -> bool -> bool -> request_queue -> request_queue;
  (* hctx, ctx, list, run_queue_async *)
  blk_mq_sched_insert_requests :
    Z -> Z -> list rqid -> bool -> request_queue -> request_queue;
  blk_mq_sched_requeue_request : rqid -> request_queue -> request_queue;
}.

(** The CPU the caller runs on, the CPUs that are online, the number of CPU ids,
    and the conversion of milliseconds to ticks. *)
Record run_env := mk_run_env {
  r_cpu : Z;
  cpu_online_mask : list Z;
  nr_cpu_ids : Z;
  r_msecs_to_jiffies : Z -> Z;
}.

Definition cpu_online (e : run_env) (c : Z) : bool := bool_decide (c ∈ cpu_online_mask e).

(** ** Pending work *)

Definition blk_mq_hctx_has_pending {sch : MqSched} (i : Z) (q : request_queue) : option bool :=
  h ← aget (queue_hw_ctx q) i;
  Some (negb (bool_decide (dispatch h = [])) || existsb id (ctx_map h)
        || blk_mq_sched_has_work i q).

(** Bit of [ctx] in the bitmap of [h]. *)
Definition ctx_bit (h : blk_mq_hw_ctx) (ctx : blk_mq_ctx) : option Z :=
  aget (index_hw ctx) (h_type h).

Definition blk_mq_hctx_mark_pending (ctx : blk_mq_ctx) (h : blk_mq_hw_ctx) : option blk_mq_hw_ctx :=
  bit ← ctx_bit h ctx; b ← aget (ctx_map h) bit;
  if (b : bool) then Some h else m ← aset (ctx_map h) bit true; Some (h <| ctx_map := m |>).

Definition blk_mq_hctx_clear_pending (ctx : blk_mq_ctx) (h : blk_mq_hw_ctx)
  : option blk_mq_hw_ctx :=
  bit ← ctx_bit h ctx; m ← aset (ctx_map h) bit false; Some (h <| ctx_map := m |>).

(** ** The CPU that runs a queue *)

Definition cpumask_next_and (n : Z) (m online : list Z) : option Z :=
  head (List.filter (fun c => (n <? c) && bool_decide (c ∈ online)) m).

Definition blk_mq_first_mapped_cpu (e : run_env) (h : blk_mq_hw_ctx) : Z :=
  match cpumask_first_and (cpumask h) (cpu_online_mask e) with
  | Some c => c
  | None => default (nr_cpu_ids e) (head (cpumask h))
  end.

(** The code from the label [select_cpu] to the end of its block. *)
Definition select_cpu (e : run_env) (h : blk_mq_hw_ctx) (n : Z) : Z :=
  match cpumask_next_and n (cpumask h) (cpu_online_mask e) with
  | Some c => c
  | None => blk_mq_first_mapped_cpu e h
  end.

(** [None] is [WORK_CPU_UNBOUND]. *)
Definition blk_mq_hctx_next_cpu (e : run_env) (nr_hw : Z) (h : blk_mq_hw_ctx)
  : option Z * blk_mq_hw_ctx :=
  if nr_hw =? 1 then (None, h)
  else
    let batch := next_cpu_batch h - 1 in
    let '(n, batch) := if batch <=? 0
                       then (select_cpu e h (next_cpu h), BLK_MQ_CPU_WORK_BATCH)
                       else (next_cpu h, batch) in
    if cpu_online e n then (Some n, h <| next_cpu := n |> <| next_cpu_batch := batch |>)
    else
      let n := select_cpu e h n in
      if cpu_online e n
      then (Some n, h <| next_cpu := n |> <| next_cpu_batch := BLK_MQ_CPU_WORK_BATCH |>)
      else (None, h <| next_cpu := n |> <| next_cpu_batch := 1 |>).

(** ** Running *)

Section run.
Context {sch : MqSched}.

Definition WORK_CPU_UNBOUND : Z := -1.

Definition blk_mq_run_hw_queue_inner (i : Z) (q : request_queue) : request_queue :=
  blk_mq_sched_dispatch_requests i q.

Definition blk_mq_delay_run_hw_queue_inner (e : run_env) (i : Z) (async : bool) (msecs : Z)
    (q : request_queue) : option request_queue :=
  h ← aget (queue_hw_ctx q) i;
  if blk_mq_hctx_stopped h then Some q
  else if negb async && negb (has_flag (h_flags h) BLK_MQ_F_BLOCKING)
          && bool_decide (r_cpu e ∈ cpumask h)
  then Some (blk_mq_run_hw_queue_inner i q)
  else
    let '(c, h) := blk_mq_hctx_next_cpu e (nr_hw_queues q) h in
    Some (set_hctx i (h <| run_work :=
            Some (default WORK_CPU_UNBOUND c, r_msecs_to_jiffies e msecs) |>) q).

Definition blk_mq_delay_run_hw_queue (e : run_env) (i msecs : Z) (q : request_queue)
  : option request_queue :=
  blk_mq_delay_run_hw_queue_inner e i true msecs q.

Definition blk_queue_quiesced (q : request_queue) : bool :=
  test_bit QUEUE_FLAG_QUIESCED (queue_flags q).

Definition blk_mq_run_hw_queue (e : run_env) (i : Z) (async : bool) (q : request_queue)
  : option (bool * request_queue) :=
  pending ← (if blk_queue_quiesced q then Some false else blk_mq_hctx_has_pending i q);
  if negb (blk_queue_quiesced q) && pending
  then q ← blk_mq_delay_run_hw_queue_inner e i async 0 q; Some (true, q)
  else Some (false, q).

(** [queue_for_each_hw_ctx]. *)
Definition for_each_hw (f : Z -> request_queue -> option request_queue) (q : request_queue)
  : option request_queue :=
  foldM (fun q i => f i q) q (seqZ 0 (nr_hw_queues q)).

Definition blk_mq_run_hw_queues (e : run_env) (async : bool) : request_queue -> option request_queue :=
  for_each_hw (fun i q =>
    h ← aget (queue_hw_ctx q) i;
    if blk_mq_hctx_stopped h then Some q
    else '(_, q) ← blk_mq_run_hw_queue e i async q; Some q).

Definition blk_mq_queue_stopped (q : request_queue) : bool :=
  existsb blk_mq_hctx_stopped (queue_hw_ctx q).

(** ** Stop and start *)

Definition blk_mq_stop_hw_queue (i : Z) (q : request_queue) : option request_queue :=
  mod_hctx i (fun h => h <| run_work := None |>
                         <| h_state ::= fun s => Z.setbit s BLK_MQ_S_STOPPED |>) q.

Definition blk_mq_stop_hw_queues : request_queue -> option request_queue :=
  for_each_hw blk_mq_stop_hw_queue.

Definition clear_stopped (i : Z) : request_queue -> option request_queue :=
  mod_hctx i (fun h => h <| h_state ::= fun s => Z.clearbit s BLK_MQ_S_STOPPED |>).

Definition blk_mq_start_hw_queue (e : run_env) (i : Z) (q : request_queue)
  : option request_queue :=
  q ← clear_stopped i q; '(_, q) ← blk_mq_run_hw_queue e i false q; Some q.

Definition blk_mq_start_hw_queues (e : run_env) : request_queue -> option request_queue :=
  for_each_hw (blk_mq_start_hw_queue e).

Definition blk_mq_start_stopped_hw_queue (e : run_env) (async : bool) (i : Z) (q : request_queue)
  : option request_queue :=
  h ← aget (queue_hw_ctx q) i;
  if negb (blk_mq_hctx_stopped h) then Some q
  else q ← clear_stopped i q; '(_, q) ← blk_mq_run_hw_queue e i async q; Some q.

Definition blk_mq_start_stopped_hw_queues (e : run_env) (async : bool)
  : request_queue -> option request_queue :=
  for_each_hw (blk_mq_start_stopped_hw_queue e async).

(** The work item consumes its own queueing. *)
Definition blk_mq_run_work_fn (i : Z) (q : request_queue) : option request_queue :=
  q ← mod_hctx i (fun h => h <| run_work := None |>) q;
  h ← aget (queue_hw_ctx q) i;
  if test_bit BLK_MQ_S_STOPPED (h_state h) then Some q
  else Some (blk_mq_run_hw_queue_inner i q).

(** ** Quiesce *)

Definition blk_mq_quiesce_queue_nowait (q : request_queue) : request_queue :=
  q <| queue_flags ::= fun f => Z.setbit f QUEUE_FLAG_QUIESCED |>.

(** Which grace periods [blk_mq_quiesce_queue] waits for: those of the blocking
    hardware queues, and whether the global one is needed. *)
Definition blk_mq_quiesce_queue (q : request_queue) : request_queue * (list Z * bool) :=
  let q := blk_mq_quiesce_queue_nowait q in
  let blocking i := from_option (fun h => has_flag (h_flags h) BLK_MQ_F_BLOCKING) false
                      (aget (queue_hw_ctx q) i) in
  let all := seqZ 0 (nr_hw_queues q) in
  (q, (List.filter blocking all, existsb (fun i => negb (blocking i)) all)).

Definition blk_mq_unquiesce_queue (e : run_env) (q : request_queue) : option request_queue :=
  blk_mq_run_hw_queues e true
    (q <| queue_flags ::= fun f => Z.clearbit f QUEUE_FLAG_QUIESCED |>).

(** ** Freeze *)

Definition blk_freeze_queue_start (e : run_env) (q : request_queue) : option request_queue :=
  let q := q <| mq_freeze_depth ::= fun d => s32 (d + 1) |> in
  if mq_freeze_depth q =? 1
  then blk_mq_run_hw_queues e false (q <| q_usage_dead := true |>)
  else Some q.

(** The condition that [blk_mq_freeze_queue_wait] waits for:
    [percpu_ref_is_zero]. *)
Definition queue_frozen (q : request_queue) : bool := q_usage_dead q && (q_usage q =? 0).

Definition blk_mq_unfreeze_queue (q : request_queue) : request_queue :=
  let q := q <| mq_freeze_depth ::= fun d => s32 (d - 1) |> in
  if mq_freeze_depth q =? 0 then q <| q_usage_dead := false |> else q.
End run.
