(* ===== verification/BlkMqRunSpec.v ===== *)
(** * Running queues: theorems

    The CPU that runs a hardware queue is one it is mapped to and the CPUs take
    turns; a quiesced queue is not run and no pending work is forgotten when it
    is unquiesced; freezing nests. *)
From S2P Require Import Prelude MqTypes BlkSwitch BlkMqAlloc BlkMqRun.
From Stdlib Require Import Sorted.

(** ** Round robin over the mapped CPUs *)

(** The CPUs of the mask that are online, in ascending order. *)
Definition active_cpus (e : run_env) (h : blk_mq_hw_ctx) : list Z :=
  List.filter (fun c => bool_decide (c ∈ cpu_online_mask e)) (cpumask h).

(** The state of the hardware queue after [n] requests for a CPU, and the CPU
    that the next one yields. *)
Fixpoint next_cpu_iter (e : run_env) (nr_hw : Z) (n : nat) (h : blk_mq_hw_ctx) : blk_mq_hw_ctx :=
  match n with
  | O => h
  | S n => next_cpu_iter e nr_hw n (blk_mq_hctx_next_cpu e nr_hw h).2
  end.

(** The CPU after [c] in the cyclic order of [l]. *)
Definition cyclic_next (l : list Z) (c : Z) : option Z :=
  match head (List.filter (fun x => c <? x) l) with Some x => Some x | None => head l end.

Section round_robin.
Variables (e : run_env) (nr_hw : Z).
Hypothesis Hnr : nr_hw <> 1.

Lemma filter_filter {A} (f g : A -> bool) l :
  List.filter f (List.filter g l) = List.filter (fun x => g x && f x) l.
Proof.
  induction l as [|x l IH]; simpl; [done|]. destruct (g x); simpl; [|done].
  destruct (f x); by rewrite IH.
Qed.

Lemma select_cpu_cyclic h n x :
  active_cpus e h = x :: tail (active_cpus e h) ->
  Some (select_cpu e h n) = cyclic_next (active_cpus e h) n.
Proof.
  intros Hne. unfold select_cpu, cpumask_next_and, cyclic_next, active_cpus.
  rewrite filter_filter.
  rewrite (List.filter_ext _ (fun c => bool_decide (c ∈ cpu_online_mask e) && (n <? c)))
    by (intros; apply andb_comm).
  destruct (head (List.filter _ (cpumask h))) as [c|] eqn:E; [done|].
  unfold blk_mq_first_mapped_cpu, cpumask_first_and. fold (active_cpus e h). by rewrite Hne.
Qed.

Lemma cyclic_next_in l n x : cyclic_next l n = Some x -> x ∈ l.
Proof.
  unfold cyclic_next. destruct (List.filter _ l) as [|y l'] eqn:E; simpl.
  - destruct l; simpl; [done|]. intros [= ->]. apply list_elem_of_here.
  - intros [= ->]. apply list_elem_of_In. apply (proj1 (filter_In (fun x => n <? x) x l)).
    rewrite E. by left.
Qed.

(** In a strictly ascending list, the CPU after the [i]-th is the next one. *)
Lemma cyclic_next_nth l i c :
  StronglySorted Z.lt l -> l !! i = Some c ->
  cyclic_next l c = match l !! S i with Some d => Some d | None => head l end.
Proof.
  intros Hs Hi. unfold cyclic_next.
  enough (List.filter (fun x => c <? x) l = drop (S i) l) as ->.
  { rewrite <- (Nat.add_0_r (S i)) at 2. rewrite <- lookup_drop. by destruct (drop (S i) l). }
  revert i Hi. induction Hs as [|a l Hs IH Hall]; intros i Hi; [done|].
  destruct i as [|i]; simpl in Hi.
  - injection Hi as ->. simpl. rewrite Z.ltb_irrefl. clear IH Hs.
    induction Hall as [|b l Hb _ IH]; simpl; [done|].
    destruct (c <? b) eqn:E; [|lia]. simpl in IH. by rewrite IH.
  - simpl. specialize (IH i Hi). destruct (c <? a) eqn:E; [|done].
    rewrite List.Forall_forall in Hall. apply list_elem_of_lookup_2 in Hi.
    apply list_elem_of_In, Hall in Hi. lia.
Qed.

Lemma next_cpu_keep h c :
  next_cpu h = c -> c ∈ active_cpus e h -> 1 < next_cpu_batch h ->
  blk_mq_hctx_next_cpu e nr_hw h
  = (Some c, h <| next_cpu := c |> <| next_cpu_batch := next_cpu_batch h - 1 |>).
Proof.
  intros Hc Hin Hb. unfold blk_mq_hctx_next_cpu. destruct (nr_hw =? 1) eqn:E; [lia|].
  destruct (next_cpu_batch h - 1 <=? 0) eqn:E2; [lia|]. rewrite Hc.
  unfold active_cpus in Hin. apply list_elem_of_In, filter_In in Hin as [_ Hon].
  unfold cpu_online. by rewrite Hon.
Qed.

Lemma next_cpu_select h d :
  next_cpu_batch h <= 1 -> Some d = cyclic_next (active_cpus e h) (next_cpu h) ->
  blk_mq_hctx_next_cpu e nr_hw h
  = (Some d, h <| next_cpu := d |> <| next_cpu_batch := BLK_MQ_CPU_WORK_BATCH |>).
Proof.
  intros Hb Hd. unfold blk_mq_hctx_next_cpu. destruct (nr_hw =? 1) eqn:E; [lia|].
  destruct (next_cpu_batch h - 1 <=? 0) eqn:E2; [|lia].
  pose proof (cyclic_next_in _ _ _ (eq_sym Hd)) as Hin.
  assert (select_cpu e h (next_cpu h) = d) as ->.
  { destruct (active_cpus e h) as [|x l] eqn:Ea; [by apply elem_of_nil in Hin|].
    assert (active_cpus e h = x :: tail (active_cpus e h)) as Hne by (by rewrite Ea).
    pose proof (select_cpu_cyclic h (next_cpu h) x Hne) as Hsel.
    rewrite Ea in Hsel. congruence. }
  unfold active_cpus in Hin. apply list_elem_of_In, filter_In in Hin as [_ Hon].
  unfold cpu_online. by rewrite Hon.
Qed.

(** One turn: [next_cpu_batch] requests later the next CPU is chosen. *)
Lemma next_cpu_turn b h c d :
  next_cpu h = c -> c ∈ active_cpus e h -> next_cpu_batch h = Z.of_nat (S b) ->
  Some d = cyclic_next (active_cpus e h) c ->
  next_cpu_iter e nr_hw (S b) h
  = h <| next_cpu := d |> <| next_cpu_batch := BLK_MQ_CPU_WORK_BATCH |>.
Proof.
  revert h. induction b as [|b IH]; intros h Hc Hin Hb Hd; simpl.
  - rewrite (next_cpu_select h d) by (lia || congruence). done.
  - simpl in IH. rewrite (next_cpu_keep h c) by (done || lia). simpl.
    set (h1 := h <| next_cpu := c |> <| next_cpu_batch := next_cpu_batch h - 1 |>).
    assert (active_cpus e h1 = active_cpus e h) as Ha by done.
    specialize (IH h1). rewrite IH; [done|done|done|simpl; lia|done].
Qed.

Lemma next_cpu_iter_app m n h :
  next_cpu_iter e nr_hw (m + n) h = next_cpu_iter e nr_hw n (next_cpu_iter e nr_hw m h).
Proof. revert h. induction m as [|m IH]; intros h; simpl; [done|apply IH]. Qed.

(** The CPU in the [k]-th turn, counted from the [i]-th CPU. *)
Definition nth_cyclic (l : list Z) (n : nat) : Z := default 0 (l !! (n mod length l)%nat).

Lemma cyclic_next_step l n :
  StronglySorted Z.lt l -> l <> [] ->
  cyclic_next l (nth_cyclic l n) = Some (nth_cyclic l (S n)).
Proof.
  intros Hs Hne. assert (length l <> 0)%nat as Hl by (by destruct l).
  unfold nth_cyclic. set (m := length l) in *.
  pose proof (Nat.mod_upper_bound n m Hl) as Hlt.
  destruct (lookup_lt_is_Some_2 l (n mod m)%nat Hlt) as [c Hc]. rewrite Hc. simpl.
  rewrite (cyclic_next_nth l (n mod m) c) by done.
  destruct (decide (S (n mod m) = m)%nat) as [E|E].
  - assert ((S n) mod m = 0)%nat as ->.
    { replace (S n) with (n + 1)%nat by lia. rewrite Nat.Div0.add_mod.
      destruct (decide (m = 1%nat)) as [->|Hm1]; [apply Nat.mod_1_r|].
      rewrite (Nat.mod_small 1 m) by lia. replace (n mod m + 1)%nat with m by lia.
      apply Nat.Div0.mod_same. }
    rewrite lookup_ge_None_2 by (fold m; lia). by destruct l.
  - assert ((S n) mod m = S (n mod m))%nat as ->.
    { replace (S n) with (n + 1)%nat by lia. rewrite Nat.Div0.add_mod.
      rewrite (Nat.mod_small 1 m), Nat.mod_small by lia. lia. }
    destruct (lookup_lt_is_Some_2 l (S (n mod m))) as [d Hd]; [fold m; lia|]. by rewrite Hd.
Qed.

Lemma nth_cyclic_in l n : l <> [] -> nth_cyclic l n ∈ l.
Proof.
  intros Hne. assert (length l <> 0)%nat as Hl by (by destruct l). unfold nth_cyclic.
  destruct (lookup_lt_is_Some_2 l (n mod length l)) as [c Hc]; [by apply Nat.mod_upper_bound|].
  rewrite Hc. by eapply list_elem_of_lookup_2.
Qed.

Lemma next_cpu_turns k h i b :
  let l := active_cpus e h in
  StronglySorted Z.lt l -> l <> [] -> next_cpu h = nth_cyclic l i ->
  next_cpu_batch h = Z.of_nat (S b) ->
  next_cpu_iter e nr_hw (S b + 8 * k) h
  = h <| next_cpu := nth_cyclic l (S k + i) |> <| next_cpu_batch := BLK_MQ_CPU_WORK_BATCH |>.
Proof.
  intros l Hs Hne Hn Hb. induction k as [|k IH].
  - rewrite Nat.mul_0_r, Nat.add_0_r. apply (next_cpu_turn b h (nth_cyclic l i)); try done.
    + by apply nth_cyclic_in.
    + symmetry. by apply cyclic_next_step.
  - replace (S b + 8 * S k)%nat with ((S b + 8 * k) + 8)%nat by lia.
    rewrite next_cpu_iter_app, IH. clear IH.
    match goal with |- next_cpu_iter _ _ _ ?h1 = _ =>
      rewrite (next_cpu_turn 7 h1 (nth_cyclic l (S k + i)) (nth_cyclic l (S (S k) + i))) end; try done.
    + by apply nth_cyclic_in.
    + symmetry. by apply cyclic_next_step.
Qed.

(** A hardware queue whose next CPU is one of its online CPUs and whose batch is
    within its bounds, as [blk_mq_map_swqueue] leaves it, stays so and yields
    such CPUs. *)
Definition next_cpu_inv (h : blk_mq_hw_ctx) : Prop :=
  next_cpu h ∈ active_cpus e h /\ 1 <= next_cpu_batch h <= BLK_MQ_CPU_WORK_BATCH.

Lemma next_cpu_step h :
  next_cpu_inv h ->
  exists c, blk_mq_hctx_next_cpu e nr_hw h = (Some c, (blk_mq_hctx_next_cpu e nr_hw h).2)
    /\ c ∈ active_cpus e h /\ next_cpu_inv (blk_mq_hctx_next_cpu e nr_hw h).2
    /\ active_cpus e (blk_mq_hctx_next_cpu e nr_hw h).2 = active_cpus e h.
Proof.
  intros [Hin Hb]. destruct (decide (1 < next_cpu_batch h)) as [Hgt|Hle].
  - rewrite (next_cpu_keep h (next_cpu h)) by done. exists (next_cpu h). unfold next_cpu_inv.
    simpl. split; [done|]. split; [done|]. split; [|done]. split; [done|lia].
  - destruct (cyclic_next (active_cpus e h) (next_cpu h)) as [d|] eqn:E.
    + rewrite (next_cpu_select h d) by (done || lia). exists d.
      pose proof (cyclic_next_in _ _ _ E). unfold next_cpu_inv, BLK_MQ_CPU_WORK_BATCH. simpl.
      split; [done|]. split; [done|]. split; [|done]. split; [done|lia].
    + exfalso. unfold cyclic_next in E. destruct (active_cpus e h); [by apply elem_of_nil in Hin|].
      simpl in E. by destruct (_ <? _); [|destruct (head _)].
Qed.

(** a hardware queue is run by its CPUs in turn.  Starting from a next CPU
    that is mapped and online, every request for a CPU yields a CPU that is in
    the mask of the queue and online, and every such CPU is chosen within eight
    requests per CPU. *)
Lemma next_cpu_round_robin h :
  StronglySorted Z.lt (active_cpus e h) -> next_cpu_inv h ->
  (forall n, exists c, (blk_mq_hctx_next_cpu e nr_hw (next_cpu_iter e nr_hw n h)).1 = Some c
     /\ c ∈ active_cpus e h)
  /\ forall c, c ∈ active_cpus e h -> exists n, (n <= 8 * length (active_cpus e h))%nat
     /\ (blk_mq_hctx_next_cpu e nr_hw (next_cpu_iter e nr_hw n h)).1 = Some c.
Proof.
  intros Hs Hinv. split.
  - intros n. revert h Hs Hinv. induction n as [|n IH]; intros h Hs Hinv; simpl;
      destruct (next_cpu_step h Hinv) as (c & Hc & Hin & Hinv' & Ha).
    + exists c. by rewrite Hc.
    + destruct (IH (blk_mq_hctx_next_cpu e nr_hw h).2) as (c' & Hc' & Hin'); [by rewrite Ha|done|].
      exists c'. by rewrite <- Ha.
  - intros c Hc. destruct Hinv as [Hin Hb].
    apply list_elem_of_lookup_1 in Hin as [i Hi]. apply list_elem_of_lookup_1 in Hc as [j Hj].
    set (l := active_cpus e h) in *. set (m := length l).
    pose proof (lookup_lt_Some _ _ _ Hi) as Hil. pose proof (lookup_lt_Some _ _ _ Hj) as Hjl.
    fold m in Hil, Hjl. assert (l <> []) as Hne by (by destruct l).
    set (k := if decide (i < j)%nat then (j - i - 1)%nat else (m + j - i - 1)%nat).
    destruct (Z_of_nat_complete (next_cpu_batch h - 1)) as [b Hbb]; [lia|].
    exists (S b + 8 * k)%nat. unfold BLK_MQ_CPU_WORK_BATCH in Hb. split.
    { unfold k. destruct (decide (i < j)%nat); lia. }
    rewrite (next_cpu_turns k h i b); try done; [|fold l|lia].
    + rewrite next_cpu_keep with (c := c); [done| |by eapply list_elem_of_lookup_2|done].
      simpl. fold l. unfold nth_cyclic.
      fold m. assert (S (k + i) mod m = j)%nat as ->; [|by rewrite Hj].
      unfold k. destruct (decide (i < j)%nat).
      * rewrite Nat.mod_small by lia. lia.
      * replace (S (m + j - i - 1 + i))%nat with (j + 1 * m)%nat by lia.
        rewrite Nat.Div0.mod_add. apply Nat.mod_small. lia.
    + unfold nth_cyclic. fold m. rewrite Nat.mod_small by lia. by rewrite Hi.
Qed.
End round_robin.

Definition ex_run_env : run_env := mk_run_env 0 [0; 1; 2; 4] 8 (fun m => m).
Definition ex_mapped : blk_mq_hw_ctx :=
  ((hctx0 <| cpumask := [1; 3; 4] |>) <| next_cpu := 1 |>) <| next_cpu_batch := 8 |>.

Lemma next_cpu_round_robin_witness :
  exists n, (n <= 16)%nat
    /\ (blk_mq_hctx_next_cpu ex_run_env 4 (next_cpu_iter ex_run_env 4 n ex_mapped)).1 = Some 4.
Proof.
  apply (next_cpu_round_robin ex_run_env 4 ltac:(lia) ex_mapped).
  - change (active_cpus ex_run_env ex_mapped) with [1; 4]. repeat constructor; lia.
  - split; [|vm_compute; split; congruence].
    change (active_cpus ex_run_env ex_mapped) with [1; 4]. set_solver.
  - change (active_cpus ex_run_env ex_mapped) with [1; 4]. set_solver.
Defined.

(** ** Quiesce and unquiesce *)

Section quiesce.
Context {sch : MqSched} (e : run_env).

(** Requests wait in the dispatch list or in a software queue of [h]. *)
Definition has_requests (h : blk_mq_hw_ctx) : bool :=
  negb (bool_decide (dispatch h = [])) || existsb id (ctx_map h).

Lemma next_cpu_frame nr_hw h :
  let h' := (blk_mq_hctx_next_cpu e nr_hw h).2 in
  dispatch h' = dispatch h /\ ctx_map h' = ctx_map h /\ h_state h' = h_state h.
Proof. unfold blk_mq_hctx_next_cpu. repeat case_bool; simpl; done. Qed.

(** An asynchronous run only queues the work of the hardware queue. *)
Lemma run_async i q h :
  blk_queue_quiesced q = false -> aget (queue_hw_ctx q) i = Some h ->
  exists b h', blk_mq_run_hw_queue e i true q = Some (b, set_hctx i h' q)
    /\ dispatch h' = dispatch h /\ ctx_map h' = ctx_map h /\ h_state h' = h_state h
    /\ (blk_mq_hctx_stopped h = false -> has_requests h = true -> is_Some (run_work h'))
    /\ (is_Some (run_work h) -> is_Some (run_work h')).
Proof.
  intros Hq Hh. unfold blk_mq_run_hw_queue. rewrite Hq.
  unfold blk_mq_hctx_has_pending. rewrite Hh. simpl. fold (has_requests h).
  assert (set_hctx i h q = q) as Hid.
  { unfold set_hctx, upd. destruct q; simpl in *. f_equal. apply list_insert_id.
    unfold aget in Hh. case_bool_in Hh; done. }
  destruct (has_requests h || blk_mq_sched_has_work i q) eqn:Hp.
  2: { exists false, h. rewrite Hid. apply orb_false_iff in Hp as [-> _]. done. }
  unfold blk_mq_delay_run_hw_queue_inner. rewrite Hh. simpl.
  destruct (blk_mq_hctx_stopped h) eqn:Hst; simpl.
  { exists true, h. by rewrite Hid. }
  pose proof (next_cpu_frame (nr_hw_queues q) h) as (F1 & F2 & F3).
  destruct (blk_mq_hctx_next_cpu e (nr_hw_queues q) h) as [c h1]. simpl in *.
  eexists true, _. split; [reflexivity|]. simpl. eauto 10.
Qed.

Lemma aget_set_hctx_eq i h q :
  0 <= i < nr_hw_queues q -> aget (queue_hw_ctx (set_hctx i h q)) i = Some h.
Proof.
  intros Hi. unfold aget, set_hctx, nr_hw_queues in *. simpl. case_bool; [lia|].
  apply list_lookup_insert_eq. lia.
Qed.
Lemma aget_set_hctx_ne i j h q :
  0 <= i -> i <> j -> aget (queue_hw_ctx (set_hctx i h q)) j = aget (queue_hw_ctx q) j.
Proof.
  intros Hi Hne. unfold aget, set_hctx. simpl. case_bool; [done|].
  apply list_lookup_insert_ne. lia.
Qed.

(** What the loop over the hardware queues maintains. *)
Definition rerun_inv (q0 : request_queue) (done : list Z) (q : request_queue) : Prop :=
  blk_queue_quiesced q = false /\ nr_hw_queues q = nr_hw_queues q0
  /\ forall j h0, aget (queue_hw_ctx q0) j = Some h0 ->
       exists h, aget (queue_hw_ctx q) j = Some h
         /\ dispatch h = dispatch h0 /\ ctx_map h = ctx_map h0 /\ h_state h = h_state h0
         /\ (j ∈ done -> blk_mq_hctx_stopped h0 = false -> has_requests h0 = true ->
             is_Some (run_work h)).

Lemma rerun_step q0 done i rest q :
  seqZ 0 (nr_hw_queues q0) = done ++ i :: rest -> rerun_inv q0 done q ->
  exists q', (h ← aget (queue_hw_ctx q) i;
      if blk_mq_hctx_stopped h then Some q
      else '(_, q) ← blk_mq_run_hw_queue e i true q; Some q) = Some q'
    /\ rerun_inv q0 (done ++ [i]) q'.
Proof.
  intros Hsplit (Hq & Hn & Hall).
  assert (i ∈ seqZ 0 (nr_hw_queues q0)) as Hi%elem_of_seqZ by (rewrite Hsplit; set_solver).
  destruct (aget_lt (queue_hw_ctx q0) i) as [h0 Hh0]; [unfold nr_hw_queues in Hi; lia|].
  destruct (Hall i h0 Hh0) as (h & Hh & E1 & E2 & E3 & _). rewrite Hh. simpl.
  assert (blk_mq_hctx_stopped h = blk_mq_hctx_stopped h0) as Est
    by (unfold blk_mq_hctx_stopped; by rewrite E3).
  destruct (blk_mq_hctx_stopped h) eqn:Hst.
  - exists q. split; [done|]. split; [done|]. split; [done|]. intros j hj Hj.
    destruct (Hall j hj Hj) as (h' & Hh' & G1 & G2 & G3 & G4). exists h'. split_and!; try done.
    intros [Hd|Hd]%elem_of_app; [auto|]. apply list_elem_of_singleton in Hd as ->.
    assert (hj = h0) as -> by congruence. congruence.
  - destruct (run_async i q h Hq Hh) as (b & h' & -> & F1 & F2 & F3 & F4 & F5). simpl.
    eexists. split; [reflexivity|]. split; [done|].
    split; [unfold nr_hw_queues, set_hctx in *; simpl; by rewrite length_insert|].
    intros j hj Hj. destruct (decide (j = i)) as [->|Hne].
    + assert (hj = h0) as -> by congruence. exists h'.
      rewrite aget_set_hctx_eq by lia. split_and!; try done; try congruence.
      intros _ _ Hr. apply F4; [done|]. unfold has_requests in *. by rewrite E1, E2.
    + destruct (Hall j hj Hj) as (h'' & Hh'' & G1 & G2 & G3 & G4). exists h''.
      rewrite aget_set_hctx_ne by lia. split_and!; try done. intros Hd. apply G4. set_solver.
Qed.

(** no request is forgotten when a queue is unquiesced.  A quiesced queue is
    not run: a request to run it changes nothing.  Unquiescing it queues the
    work of every hardware queue that is not stopped and has requests waiting in
    its dispatch list or in a software queue. *)
Lemma unquiesce_reruns q :
  let q1 := blk_mq_quiesce_queue_nowait q in
  (forall i async, blk_mq_run_hw_queue e i async q1 = Some (false, q1))
  /\ exists q', blk_mq_unquiesce_queue e q1 = Some q'
     /\ forall i h, aget (queue_hw_ctx q) i = Some h -> blk_mq_hctx_stopped h = false ->
        has_requests h = true ->
        exists h', aget (queue_hw_ctx q') i = Some h' /\ is_Some (run_work h').
Proof.
  intros q1. assert (blk_queue_quiesced q1 = true) as Hq1.
  { exact (test_bit_set QUEUE_FLAG_QUIESCED (queue_flags q) ltac:(done)). }
  split; [intros i async; unfold blk_mq_run_hw_queue; by rewrite Hq1|].
  unfold blk_mq_unquiesce_queue, blk_mq_run_hw_queues, for_each_hw.
  set (q2 := q1 <| queue_flags ::= _ |>).
  destruct (foldM_inv (fun q i => h ← aget (queue_hw_ctx q) i;
      if blk_mq_hctx_stopped h then Some q
      else '(_, q) ← blk_mq_run_hw_queue e i true q; Some q)
    (rerun_inv q2) (seqZ 0 (nr_hw_queues q2)) q2) as (q' & Hq' & _ & _ & Hall).
  - split; [exact (test_bit_clear QUEUE_FLAG_QUIESCED (queue_flags q1))|].
    split; [done|]. intros j h0 Hj. exists h0. split_and!; try done. set_solver.
  - intros. by eapply rerun_step.
  - exists q'. split; [exact Hq'|]. intros i h Hh Hst Hr.
    destruct (Hall i h Hh) as (h' & Hh' & _ & _ & _ & Hw). exists h'. split; [done|].
    apply Hw; [|done..]. apply elem_of_seqZ. apply aget_Some in Hh. unfold nr_hw_queues. simpl. lia.
Qed.
End quiesce.

(** ** Freezing *)

(** Running a queue does not freeze or unfreeze it and keeps its hardware
    queues. *)
Class MqSchedLaws (sch : MqSched) : Prop := {
  dispatch_freeze : forall i q,
    mq_freeze_depth (blk_mq_sched_dispatch_requests i q) = mq_freeze_depth q
    /\ q_usage_dead (blk_mq_sched_dispatch_requests i q) = q_usage_dead q
    /\ nr_hw_queues (blk_mq_sched_dispatch_requests i q) = nr_hw_queues q;
}.

Section freeze.
Context {sch : MqSched} {laws : MqSchedLaws sch} (e : run_env).

(** The queue is frozen and unfrozen, entered while its counter is alive, and
    left, in any order; the nesting depth stays below the range of [int]. *)
Inductive freeze_step : request_queue -> request_queue -> Prop :=
| fs_start q q' :
    mq_freeze_depth q < 2 ^ 31 - 1 -> blk_freeze_queue_start e q = Some q' -> freeze_step q q'
| fs_unfreeze q :
    0 < mq_freeze_depth q -> freeze_step q (blk_mq_unfreeze_queue q)
| fs_enter q :
    q_usage_dead q = false -> freeze_step q (blk_queue_enter_live q)
| fs_exit q :
    0 < q_usage q -> freeze_step q (blk_queue_exit q).

Definition same_freeze (q0 q : request_queue) : Prop :=
  mq_freeze_depth q = mq_freeze_depth q0 /\ q_usage_dead q = q_usage_dead q0
  /\ nr_hw_queues q = nr_hw_queues q0.

Lemma run_hw_freeze i async q :
  0 <= i < nr_hw_queues q ->
  exists b q', blk_mq_run_hw_queue e i async q = Some (b, q') /\ same_freeze q q'.
Proof.
  intros Hi. destruct (aget_lt (queue_hw_ctx q) i) as [h Hh]; [unfold nr_hw_queues in Hi; lia|].
  unfold blk_mq_run_hw_queue. destruct (blk_queue_quiesced q) eqn:Hq; simpl.
  { exists false, q. split; [done|]. by split. }
  unfold blk_mq_hctx_has_pending. rewrite Hh. simpl.
  destruct (_ || _); simpl; [|exists false, q; split; [done|]; by split].
  unfold blk_mq_delay_run_hw_queue_inner. rewrite Hh. simpl.
  destruct (blk_mq_hctx_stopped h); simpl; [exists true, q; split; [done|]; by split|].
  destruct (_ && _ && _); simpl.
  { eexists true, _. split; [done|]. apply dispatch_freeze. }
  destruct (blk_mq_hctx_next_cpu e (nr_hw_queues q) h) as [c h1]. simpl.
  eexists true, _. split; [done|]. split; [done|]. split; [done|].
  unfold nr_hw_queues, set_hctx. simpl. by rewrite length_insert.
Qed.

Lemma run_all_freeze async q :
  exists q', blk_mq_run_hw_queues e async q = Some q' /\ same_freeze q q'.
Proof.
  unfold blk_mq_run_hw_queues, for_each_hw.
  apply (foldM_inv _ (fun _ q' => same_freeze q q')); [by split|].
  intros d i rest q1 Hsplit (S1 & S2 & S3).
  assert (i ∈ seqZ 0 (nr_hw_queues q)) as Hi%elem_of_seqZ by (rewrite Hsplit; set_solver).
  destruct (aget_lt (queue_hw_ctx q1) i) as [h Hh]; [unfold nr_hw_queues in *; lia|].
  rewrite Hh. simpl. destruct (blk_mq_hctx_stopped h); [exists q1; by split|].
  destruct (run_hw_freeze i async q1) as (b & q2 & -> & T1 & T2 & T3); [lia|]. simpl.
  exists q2. split; [done|]. unfold same_freeze. rewrite T1, T2, T3. by split.
Qed.

(** freezing nests.  Whatever the order in which users freeze and unfreeze
    a queue and requests enter and leave it, the reference counter of the queue
    is dead, so that new requests are refused, exactly while some freeze has not
    been undone; and once no request is left in a frozen queue, that remains so
    until the last freeze is undone. *)
Lemma freeze_nesting q0 q :
  mq_freeze_depth q0 = 0 -> q_usage_dead q0 = false ->
  rtc freeze_step q0 q ->
  0 <= mq_freeze_depth q /\ q_usage_dead q = (0 <? mq_freeze_depth q)
  /\ forall q', freeze_step q q' -> queue_frozen q = true -> mq_freeze_depth q' <> 0 ->
     queue_frozen q' = true.
Proof.
  intros Hd0 Hu0 Hr.
  assert (forall q q', freeze_step q q' ->
    0 <= mq_freeze_depth q < 2 ^ 31 /\ q_usage_dead q = (0 <? mq_freeze_depth q) ->
    0 <= mq_freeze_depth q' < 2 ^ 31 /\ q_usage_dead q' = (0 <? mq_freeze_depth q')) as Hstep.
  { clear q q0 Hd0 Hu0 Hr. intros q q' Hs [Hd Hu].
    destruct Hs as [q q' Hb Hs|q Hp|q Hp|q Hp]; [| |simpl; done..].
    - unfold blk_freeze_queue_start in Hs. simpl in Hs. rewrite s32_small in Hs by lia.
      destruct (mq_freeze_depth q + 1 =? 1) eqn:E.
      + edestruct run_all_freeze as (q1 & Hq1 & S1 & S2 & _). rewrite Hq1 in Hs.
        injection Hs as <-. simpl in S1, S2. rewrite s32_small in S1 by lia.
        rewrite S1, S2. split; [lia|]. symmetry. apply Z.ltb_lt. lia.
      + injection Hs as <-. simpl. rewrite s32_small by lia. rewrite Hu. lia.
    - unfold blk_mq_unfreeze_queue. simpl. rewrite s32_small by lia.
      case_bool; simpl; rewrite s32_small by lia; [lia|]. rewrite Hu. lia. }
  assert (0 <= mq_freeze_depth q < 2 ^ 31 /\ q_usage_dead q = (0 <? mq_freeze_depth q)) as [Hd Hu].
  { assert (0 <= mq_freeze_depth q0 < 2 ^ 31 /\ q_usage_dead q0 = (0 <? mq_freeze_depth q0)) as H0
      by (rewrite Hd0, Hu0; split; [lia|done]).
    clear Hd0 Hu0. induction Hr as [q|q q1 q2 Hs _ IH]; [done|]. apply IH. by eapply Hstep. }
  split; [lia|]. split; [done|]. intros q' Hs Hf Hne.
  destruct (Hstep q q' Hs (conj Hd Hu)) as [Hd' Hu'].
  unfold queue_frozen in *. apply andb_true_iff in Hf as [Hdead Hz%Z.eqb_eq]. rewrite Hu in Hdead.
  apply andb_true_iff. split; [rewrite Hu'; lia|]. apply Z.eqb_eq.
  destruct Hs as [q q' Hb Hs|q Hp|q Hp|q Hp]; [| |congruence|lia].
  - unfold blk_freeze_queue_start in Hs. simpl in Hs. rewrite s32_small in Hs by lia.
    case_bool_in Hs; [lia|]. by injection Hs as <-.
  - unfold blk_mq_unfreeze_queue. simpl. by case_bool.
Qed.
End freeze.

(** A scheduler core that finds nothing to dispatch. *)
Definition ex_sched : MqSched := {|
  blk_mq_sched_has_work := fun _ _ => false;
  blk_mq_sched_dispatch_requests := fun _ q => q;
  blk_mq_sched_mark_restart_hctx := fun _ q => q;
  blk_mq_sched_needs_restart := fun _ _ => false;
  blk_mq_sched_insert_request := fun _ _ _ _ q => q;
  blk_mq_sched_insert_requests := fun _ _ _ _ q => q;
  blk_mq_sched_requeue_request := fun _ q => q;
|}.

#[export] Instance ex_sched_laws : MqSchedLaws ex_sched.
Proof. constructor. done. Qed.

Lemma freeze_nesting_witness :
  exists q, rtc (@freeze_step ex_sched ex_run_env) queue0 q
    /\ mq_freeze_depth q = 1 /\ q_usage_dead q = true.
Proof.
  assert (rtc (@freeze_step ex_sched ex_run_env) queue0
    (queue0 <| mq_freeze_depth := 1 |> <| q_usage_dead := true |>)) as Hr.
  { eapply rtc_l; [eapply (fs_start ex_run_env); [by vm_compute|reflexivity]|].
    eapply rtc_l; [eapply (fs_start ex_run_env); [by vm_compute|reflexivity]|].
    eapply rtc_l; [apply (fs_unfreeze ex_run_env); by vm_compute|]. apply rtc_refl. }
  eexists. split; [exact Hr|]. split; [reflexivity|].
  apply (@freeze_nesting ex_sched ex_sched_laws ex_run_env queue0 _ eq_refl eq_refl Hr).
Defined.
