(* ===== verification/BlkMqInsert.v ===== *)
(** * Software queues: insertion, flushing, dequeueing and plugging

    The lists of requests of block/blk-mq.c: insertion into the software queue of
    a CPU with the pending bitmap of the hardware queue, [blk_mq_flush_busy_ctxs]
    and [blk_mq_dequeue_from_ctx], which empty them, the bypass insertion, the
    requeue list, and the plug list of a task. *)
From S2P Require Import Prelude MqTypes BlkSwitch BlkMqAlloc BlkMqRun.

(** The list of [ctx] for the hardware queue type [ty]. *)
Definition ctx_list (ctx : blk_mq_ctx) (ty : Z) : option (list rqid) := aget (rq_lists ctx) ty.

Definition set_ctx_list (ty : Z) (l : list rqid) (ctx : blk_mq_ctx) : option blk_mq_ctx :=
  ls ← aset (rq_lists ctx) ty l; Some (ctx <| rq_lists := ls |>).

Section insert.
Context {sch : MqSched}.

(** [list_add] puts the request first, [list_add_tail] last. *)
Definition list_add_at (at_head : bool) (r : rqid) (l : list rqid) : list rqid :=
  if at_head then r :: l else l ++ [r].

Definition blk_mq_insert_req_list (i : Z) (r : rqid) (at_head : bool) (q : request_queue)
  : option request_queue :=
  rq ← q_rqs q !! r; h ← aget (queue_hw_ctx q) i;
  mod_ctx (mq_ctx rq) (fun ctx =>
    l ← ctx_list ctx (h_type h); set_ctx_list (h_type h) (list_add_at at_head r l) ctx) q.

(** [blk_mq_hctx_mark_pending(hctx, ctx)] on the queue. *)
Definition mark_pending (i c : Z) (q : request_queue) : option request_queue :=
  h ← aget (queue_hw_ctx q) i; ctx ← aget (queue_ctx q) c;
  h ← blk_mq_hctx_mark_pending ctx h; Some (set_hctx i h q).

Definition blk_mq_insert_request (i : Z) (r : rqid) (at_head : bool) (q : request_queue)
  : option request_queue :=
  rq ← q_rqs q !! r;
  q ← blk_mq_insert_req_list i r at_head q; mark_pending i (mq_ctx rq) q.

Definition blk_mq_request_bypass_insert (e : run_env) (r : rqid) (at_head run_queue : bool)
    (q : request_queue) : option request_queue :=
  rq ← q_rqs q !! r; i ← mq_hctx rq;
  q ← mod_hctx i (fun h => h <| dispatch ::= list_add_at at_head r |>) q;
  if run_queue then '(_, q) ← blk_mq_run_hw_queue e i false q; Some q else Some q.

(** [BUG_ON] when a request of the list belongs to another software queue. *)
Definition blk_mq_insert_requests (i c : Z) (l : list rqid) (q : request_queue)
  : option request_queue :=
  if forallb (fun r => bool_decide (mq_ctx <$> (q_rqs q !! r) = Some c)) l then
    h ← aget (queue_hw_ctx q) i;
    q ← mod_ctx c (fun ctx =>
          old ← ctx_list ctx (h_type h); set_ctx_list (h_type h) (old ++ l) ctx) q;
    mark_pending i c q
  else None.

(** ** Emptying the software queues *)

(** [__sbitmap_for_each_set] visits the set bits from [off] on, then those before
    it; [f] returns whether to go on. *)
Definition bit_order (n off : Z) : list Z := seqZ off (n - off) ++ seqZ 0 off.

Definition flush_busy_ctx (i : Z) (st : list rqid * request_queue) (bit : Z)
  : option (list rqid * request_queue) :=
  let '(l, q) := st in
  h ← aget (queue_hw_ctx q) i; b ← aget (ctx_map h) bit;
  if (b : bool) then
    c ← aget (h_ctxs h) bit; ctx ← aget (queue_ctx q) c;
    cl ← ctx_list ctx (h_type h); ctx ← set_ctx_list (h_type h) [] ctx;
    m ← aset (ctx_map h) bit false;
    Some (l ++ cl, set_hctx i (h <| ctx_map := m |>) (set_ctx c ctx q))
  else Some (l, q).

Definition blk_mq_flush_busy_ctxs (i : Z) (l : list rqid) (q : request_queue)
  : option (list rqid * request_queue) :=
  h ← aget (queue_hw_ctx q) i;
  foldM (flush_busy_ctx i) (l, q) (bit_order (Z.of_nat (length (ctx_map h))) 0).

(** The visit that takes a request ends the iteration. *)
Definition dispatch_rq_from_ctx (i : Z) (st : option rqid * request_queue) (bit : Z)
  : option (option rqid * request_queue) :=
  let '(found, q) := st in
  match found with
  | Some _ => Some st
  | None =>
    h ← aget (queue_hw_ctx q) i; b ← aget (ctx_map h) bit;
    if (b : bool) then
      c ← aget (h_ctxs h) bit; ctx ← aget (queue_ctx q) c; cl ← ctx_list ctx (h_type h);
      match cl with
      | [] => Some (None, q)
      | r :: cl =>
        ctx ← set_ctx_list (h_type h) cl ctx;
        m ← (if bool_decide (cl = []) then aset (ctx_map h) bit false else Some (ctx_map h));
        Some (Some r, set_hctx i (h <| ctx_map := m |>) (set_ctx c ctx q))
      end
    else Some (None, q)
  end.

Definition blk_mq_dequeue_from_ctx (i : Z) (start : option Z) (q : request_queue)
  : option (option rqid * request_queue) :=
  h ← aget (queue_hw_ctx q) i;
  off ← match start with
        | Some c => ctx ← aget (queue_ctx q) c; aget (index_hw ctx) (h_type h)
        | None => Some 0
        end;
  foldM (dispatch_rq_from_ctx i) (None, q) (bit_order (Z.of_nat (length (ctx_map h))) off).

(** ** The requeue list *)

Definition blk_mq_kick_requeue_list (q : request_queue) : request_queue :=
  q <| requeue_work := Some 0 |>.
Definition blk_mq_delay_kick_requeue_list (e : run_env) (msecs : Z) (q : request_queue)
  : request_queue :=
  q <| requeue_work := Some (r_msecs_to_jiffies e msecs) |>.

(** [BUG_ON] when the request already asks for head insertion. *)
Definition blk_mq_add_to_requeue_list (r : rqid) (at_head kick : bool) (q : request_queue)
  : option request_queue :=
  rq ← q_rqs q !! r;
  if has_flag (rq_flags rq) RQF_SOFTBARRIER then None
  else
    let q := if at_head
             then set_rq r (rq <| rq_flags ::= fun f => Z.lor f RQF_SOFTBARRIER |>) q else q in
    let q := q <| requeue_list ::= list_add_at at_head r |> in
    Some (if kick then blk_mq_kick_requeue_list q else q).

(** First the requests that want head insertion or hold driver data, in order,
    then the others. *)
Definition requeue_first (e : run_env) (st : list rqid * request_queue) (r : rqid)
  : option (list rqid * request_queue) :=
  let '(rest, q) := st in
  rq ← q_rqs q !! r;
  if negb (has_flag (rq_flags rq) (Z.lor RQF_SOFTBARRIER RQF_DONTPREP)) then Some (rest ++ [r], q)
  else
    let rq := rq <| rq_flags ::= fun f => Z.land f (Z.lnot RQF_SOFTBARRIER) |> in
    let q := set_rq r rq q in
    if has_flag (rq_flags rq) RQF_DONTPREP
    then q ← blk_mq_request_bypass_insert e r false false q; Some (rest, q)
    else Some (rest, blk_mq_sched_insert_request r true false false q).

Definition blk_mq_requeue_work (e : run_env) (q : request_queue) : option request_queue :=
  let l := requeue_list q in
  let q := q <| requeue_list := [] |> <| requeue_work := None |> in
  '(rest, q) ← foldM (requeue_first e) ([], q) l;
  let q := foldl (fun q r => blk_mq_sched_insert_request r false false false q) q rest in
  blk_mq_run_hw_queues e false q.
End insert.

(** ** The plug list of a task *)

(** A plugged request: its address, queue, software and hardware queue, position
    and size. *)
Record plugged := mk_plugged {
  pl_rq : rqid;
  pl_q : Z;
  pl_ctx : Z;
  pl_hctx : Z;
  pl_pos : Z;
  pl_bytes : Z;
}.

Record blk_plug := mk_plug {
  mq_list : list plugged;
  rq_count : Z;
  multiple_queues : bool;
}.
#[export] Instance blk_plug_eta : Settable blk_plug := {| eta_expand := fun r =>
  mk_plug (mq_list r) (rq_count r) (multiple_queues r) |}.

Definition BLK_MAX_REQUEST_COUNT : Z := 16.
Definition BLK_PLUG_FLUSH_SIZE : Z := 128 * 1024.

Definition plug_rq_cmp (a b : plugged) : Z :=
  if pl_ctx a <? pl_ctx b then -1
  else if pl_ctx b <? pl_ctx a then 1
  else if pl_hctx a <? pl_hctx b then -1
  else if pl_hctx b <? pl_hctx a then 1
  else b2z (pl_pos b <? pl_pos a).

(** The loop of [blk_mq_flush_plug_list]: [this] is the current pair of hardware
    and software queue with its requests so far. *)
Definition plug_batch : Type := Z * Z * list rqid.

Fixpoint plug_batches (this : option plug_batch) (l : list plugged) : list plug_batch :=
  match l with
  | [] => match this with Some b => [b] | None => [] end
  | r :: l =>
    match this with
    | Some (h, c, rs) =>
      if negb (pl_hctx r =? h) || negb (pl_ctx r =? c)
      then (h, c, rs) :: plug_batches (Some (pl_hctx r, pl_ctx r, [pl_rq r])) l
      else plug_batches (Some (h, c, rs ++ [pl_rq r])) l
    | None => plug_batches (Some (pl_hctx r, pl_ctx r, [pl_rq r])) l
    end
  end.

(** The batches that are inserted and the plug that remains; [list_sort] is the
    stable sort of lib/list_sort.c. *)
Definition blk_mq_flush_plug_list (list_sort : (plugged -> plugged -> Z) -> list plugged -> list plugged)
    (plug : blk_plug) : list plug_batch * blk_plug :=
  let l := mq_list plug in
  let l := if (2 <? rq_count plug) && multiple_queues plug then list_sort plug_rq_cmp l else l in
  (plug_batches None l, plug <| mq_list := [] |> <| rq_count := 0 |>).

Definition blk_add_rq_to_plug (r : plugged) (plug : blk_plug) : blk_plug :=
  let l := mq_list plug ++ [r] in
  let multiple := match l with
                  | tmp :: _ :: _ => multiple_queues plug || negb (pl_q tmp =? pl_q r)
                  | _ => multiple_queues plug
                  end in
  mk_plug l (rq_count plug + 1) multiple.

(** [make_request] flushes the plug before it adds to it when the plug is full or
    its last request is large. *)
Definition plug_needs_flush (plug : blk_plug) : bool :=
  (BLK_MAX_REQUEST_COUNT <=? rq_count plug)
  || (c_true (rq_count plug)
      && from_option (fun r => BLK_PLUG_FLUSH_SIZE <=? pl_bytes r) false (last (mq_list plug))).
