(* ===== verification/BlkMqInsertSpec.v ===== *)
(** * Software queues and the plug list: theorems

    Unplugging hands every request to its own pair of queues, in order and in as
    few batches as possible; the pending bitmap never misses a request, and
    flushing the software queues takes all of them in order. *)
From S2P Require Import Prelude MqTypes BlkSwitch BlkMqAlloc BlkMqRun BlkMqInsert BlkMqRunSpec.
From Stdlib Require Import Sorted.

(** ** Unplugging *)

Definition key (r : plugged) : Z * Z := (pl_ctx r, pl_hctx r).
Definition key_lt (a b : Z * Z) : Prop := a.1 < b.1 \/ a.1 = b.1 /\ a.2 < b.2.
Definition key_le (a b : Z * Z) : Prop := a.1 < b.1 \/ a.1 = b.1 /\ a.2 <= b.2.

(** The batch of a group of requests with one key. *)
Definition batch_of (g : list plugged) : plug_batch :=
  match g with
  | r :: _ => (pl_hctx r, pl_ctx r, pl_rq <$> g)
  | [] => (0, 0, [])
  end.

(** [gs] splits a list into runs of equal keys, neighbouring runs with different
    keys. *)
Definition run_of (k : Z * Z) (g : list plugged) : Prop := g <> [] /\ Forall (fun r => key r = k) g.
Inductive runs : list (list plugged) -> list (Z * Z) -> Prop :=
| runs_nil : runs [] []
| runs_cons g gs k ks :
    run_of k g -> runs gs ks -> (forall k', head ks = Some k' -> k' <> k) ->
    runs (g :: gs) (k :: ks).

Lemma plug_batches_runs l g k :
  run_of k g ->
  exists gs ks, plug_batches (Some (k.2, k.1, pl_rq <$> g)) l = batch_of <$> gs
    /\ concat gs = g ++ l /\ runs gs ks /\ head ks = Some k.
Proof.
  revert g k. induction l as [|r l IH]; intros g k Hg; simpl.
  - exists [g], [k]. simpl. destruct Hg as [Hne Hall]. rewrite !app_nil_r. split_and!; try done.
    + destruct g as [|x g]; [done|]. apply Forall_cons in Hall as [<- _]. done.
    + repeat constructor; try done.
  - destruct (negb (pl_hctx r =? k.2) || negb (pl_ctx r =? k.1)) eqn:E.
    + destruct (IH [r] (key r)) as (gs & ks & Hb & Hc & Hr & Hh); [split; [done|by constructor]|].
      simpl in Hb. exists (g :: gs), (k :: ks). split_and!.
      * simpl. rewrite Hb. f_equal. destruct Hg as [Hne Hall]. destruct g as [|x g]; [done|].
        apply Forall_cons in Hall as [<- _]. done.
      * simpl. by rewrite Hc.
      * constructor; [done|done|]. intros k' Hk' ->. rewrite Hh in Hk'. injection Hk' as <-.
        simpl in E. lia.
      * done.
    + destruct (IH (g ++ [r]) k) as (gs & ks & Hb & Hc & Hr & Hh).
      { destruct Hg as [Hne Hall]. split; [by destruct g|]. apply Forall_app. split; [done|].
        constructor; [|done]. destruct k as [kc kh]. unfold key. simpl in E. f_equal; lia. }
      exists gs, ks. rewrite fmap_app in Hb. split_and!; try done. by rewrite Hc, <- app_assoc.
Qed.

Lemma plug_batches_spec l :
  exists gs ks, plug_batches None l = batch_of <$> gs /\ concat gs = l /\ runs gs ks.
Proof.
  destruct l as [|r l]; simpl; [exists [], []; split_and!; constructor|].
  destruct (plug_batches_runs l [r] (key r)) as (gs & ks & Hb & Hc & Hr & _).
  { split; [done|by constructor]. }
  exists gs, ks. done.
Qed.

(** Runs of a sorted list have ascending keys. *)
Lemma runs_sorted gs ks :
  runs gs ks -> StronglySorted (fun a b => key_le (key a) (key b)) (concat gs) ->
  StronglySorted key_lt ks.
Proof.
  intros Hr. induction Hr as [|g gs k ks [Hne Hall] Hr IH Hd]; intros Hs; [constructor|].
  simpl in Hs.
  assert (StronglySorted (fun a b => key_le (key a) (key b)) (concat gs)) as Hs'.
  { clear -Hs. induction g as [|x g IH]; [done|]. inversion Hs; subst. auto. }
  specialize (IH Hs'). constructor; [done|].
  destruct Hr as [|g2 gs2 k2 ks2 [Hne2 Hall2] Hr2 Hd2]; [constructor|].
  assert (key_lt k k2) as Hlt.
  { destruct g as [|x g]; [done|]. destruct g2 as [|y g2]; [done|].
    apply Forall_cons in Hall as [<- _]. apply Forall_cons in Hall2 as [<- _].
    inversion Hs as [|? ? _ Hx]; subst. rewrite List.Forall_forall in Hx.
    specialize (Hx y). simpl in Hx.
    assert (key_le (key x) (key y)) as Hle by (apply Hx; rewrite in_app_iff; right; by left).
    specialize (Hd _ eq_refl). unfold key_le, key_lt in *.
    destruct (key x) as [a b], (key y) as [c d]. simpl in *.
    destruct Hle as [|[-> ]]; [by left|right; split; [done|]].
    assert (b <> d) by congruence. lia. }
  inversion IH as [|? ? _ Hall']; subst. constructor; [done|].
  eapply List.Forall_impl; [|exact Hall']. intros k3. unfold key_lt in *. lia.
Qed.

Lemma sorted_nodup ks : StronglySorted key_lt ks -> NoDup ks.
Proof.
  induction 1 as [|k ks _ IH Hall]; constructor; [|done]. intros Hin.
  rewrite List.Forall_forall in Hall. apply list_elem_of_In, Hall in Hin. unfold key_lt in Hin. lia.
Qed.

Lemma cmp_key_le a b : plug_rq_cmp a b <= 0 -> key_le (key a) (key b).
Proof.
  unfold plug_rq_cmp, key_le, key. simpl. repeat case_bool; unfold b2z; lia.
Qed.

(** unplugging groups the requests by their queues.  The requests of a plug
    list are inserted in batches; each batch holds requests of one software and
    one hardware queue, neighbouring batches differ in them, nothing is lost or
    duplicated and the plug is empty afterwards.  A list that is not sorted keeps
    its order; when the list is sorted first (more than two requests, of several
    queues), every pair of queues gets exactly one batch. *)
Lemma unplug_batches list_sort plug :
  list_sort plug_rq_cmp (mq_list plug) ≡ₚ mq_list plug ->
  StronglySorted (fun a b => plug_rq_cmp a b <= 0) (list_sort plug_rq_cmp (mq_list plug)) ->
  exists gs ks, blk_mq_flush_plug_list list_sort plug
    = (batch_of <$> gs, mk_plug [] 0 (multiple_queues plug))
    /\ runs gs ks /\ concat gs ≡ₚ mq_list plug
    /\ if (2 <? rq_count plug) && multiple_queues plug then NoDup ks
       else concat gs = mq_list plug.
Proof.
  intros Hperm Hsort. unfold blk_mq_flush_plug_list.
  destruct ((2 <? rq_count plug) && multiple_queues plug).
  - destruct (plug_batches_spec (list_sort plug_rq_cmp (mq_list plug))) as (gs & ks & -> & Hc & Hr).
    exists gs, ks. split; [done|]. split; [done|]. split; [by rewrite Hc|].
    apply sorted_nodup. eapply runs_sorted; [done|]. rewrite Hc.
    clear -Hsort. induction Hsort as [|a l _ IH Hall]; constructor; [done|].
    eapply List.Forall_impl; [|exact Hall]. intros b. apply cmp_key_le.
  - destruct (plug_batches_spec (mq_list plug)) as (gs & ks & -> & Hc & Hr).
    exists gs, ks. split; [done|]. split; [done|]. split; [by rewrite Hc|done].
Qed.

(** Insertion sort by the comparison, and four requests of two queues. *)
Fixpoint insert_by (cmp : plugged -> plugged -> Z) (x : plugged) (l : list plugged) : list plugged :=
  match l with
  | [] => [x]
  | y :: l => if cmp x y <=? 0 then x :: y :: l else y :: insert_by cmp x l
  end.
Definition ex_sort (cmp : plugged -> plugged -> Z) (l : list plugged) : list plugged :=
  foldr (insert_by cmp) [] l.
Definition ex_plug : blk_plug :=
  mk_plug [mk_plugged 1 0 2 7 8 4096; mk_plugged 2 1 1 5 0 4096;
           mk_plugged 3 0 2 7 0 4096; mk_plugged 4 1 1 5 8 4096] 4 true.

Lemma ex_sort_perm cmp l : ex_sort cmp l ≡ₚ l.
Proof.
  induction l as [|x l IH]; simpl; [done|]. rewrite <- IH at 2. generalize (ex_sort cmp l).
  clear IH l. intros l. induction l as [|y l IH]; simpl; [done|]. case_bool; [done|].
  rewrite IH. apply Permutation_swap.
Qed.

Lemma unplug_batches_witness :
  exists gs ks, (blk_mq_flush_plug_list ex_sort ex_plug).1 = batch_of <$> gs /\ runs gs ks
    /\ NoDup ks /\ (blk_mq_flush_plug_list ex_sort ex_plug).1 = [(5, 1, [2; 4]); (7, 2, [3; 1])].
Proof.
  destruct (unplug_batches ex_sort ex_plug) as (gs & ks & H & Hr & _ & Hn).
  - apply ex_sort_perm.
  - vm_compute. repeat constructor; discriminate.
  - exists gs, ks. split; [by rewrite H|]. split; [exact Hr|]. split; [exact Hn|].
    reflexivity.
Defined.

(** ** The software queues of a hardware queue *)

(** The requests that wait for hardware queue [h] in the software queues [cs]. *)
Definition lists_of (q : request_queue) (ty : Z) (cs : list Z) : list (list rqid) :=
  (fun c => from_option (fun ctx => default [] (ctx_list ctx ty)) [] (aget (queue_ctx q) c)) <$> cs.
Definition waiting (q : request_queue) (h : blk_mq_hw_ctx) : list rqid :=
  concat (lists_of q (h_type h) (h_ctxs h)).

(** The bitmap has a bit per software queue, the software queues know their
    bits, and the bit of a software queue with requests is set. *)
Record pending_wf (i : Z) (q : request_queue) (h : blk_mq_hw_ctx) : Prop := {
  pw_hctx : aget (queue_hw_ctx q) i = Some h;
  pw_len : length (ctx_map h) = length (h_ctxs h);
  pw_nodup : NoDup (h_ctxs h);
  pw_ctx : forall bit c, aget (h_ctxs h) bit = Some c ->
    exists ctx l, aget (queue_ctx q) c = Some ctx /\ aget (index_hw ctx) (h_type h) = Some bit
      /\ ctx_list ctx (h_type h) = Some l /\ (l <> [] -> aget (ctx_map h) bit = Some true);
}.

Section pending.
Variables (i : Z) (q : request_queue) (h : blk_mq_hw_ctx).
Hypothesis Hwf : pending_wf i q h.
Let ty := h_type h.

Lemma aget_lists bit c ctx l :
  aget (h_ctxs h) bit = Some c -> aget (queue_ctx q) c = Some ctx -> ctx_list ctx ty = Some l ->
  lists_of q ty (h_ctxs h) !! Z.to_nat bit = Some l.
Proof.
  intros Hc Hctx Hl. unfold lists_of. rewrite list_lookup_fmap.
  unfold aget in Hc. case_bool_in Hc; [done|]. rewrite Hc. simpl. rewrite Hctx. simpl. by rewrite Hl.
Qed.

(** Replacing the list of one software queue and its bit. *)
Definition replaced (bit c : Z) (ctx' : blk_mq_ctx) (m' : list bool) : request_queue :=
  set_hctx i (h <| ctx_map := m' |>) (set_ctx c ctx' q).

Lemma replace_list bit c ctx l' ctx' b' m' :
  aget (h_ctxs h) bit = Some c -> aget (queue_ctx q) c = Some ctx ->
  set_ctx_list ty l' ctx = Some ctx' -> aset (ctx_map h) bit b' = Some m' ->
  (l' <> [] -> b' = true) ->
  pending_wf i (replaced bit c ctx' m') (h <| ctx_map := m' |>)
  /\ lists_of (replaced bit c ctx' m') ty (h_ctxs h)
     = <[Z.to_nat bit := l']> (lists_of q ty (h_ctxs h)).
Proof.
  intros Hc Hctx Hset Hm Hb. unfold set_ctx_list in Hset. inv_some. subst ctx'.
  pose proof (aget_Some _ _ _ Hc) as Hbit. pose proof (aget_Some _ _ _ Hctx) as Hcr.
  pose proof (aget_Some _ _ _ (pw_hctx _ _ _ Hwf)) as Hir.
  assert (forall c', aget (queue_ctx (replaced bit c (ctx <| rq_lists := x |>) m')) c'
    = if decide (c' = c) then Some (ctx <| rq_lists := x |>) else aget (queue_ctx q) c') as Hlook.
  { intros c'. unfold replaced, set_hctx, set_ctx. simpl. destruct (decide (c' = c)) as [->|Hne].
    - unfold aget. case_bool; [lia|]. apply list_lookup_insert_eq. lia.
    - unfold aget. case_bool; [done|]. apply list_lookup_insert_ne. lia. }
  split.
  - constructor.
    + unfold replaced. apply aget_set_hctx_eq. unfold nr_hw_queues. simpl. lia.
    + simpl. rewrite (aset_length _ _ _ _ Hm). apply (pw_len _ _ _ Hwf).
    + apply (pw_nodup _ _ _ Hwf).
    + intros bit2 c2 Hc2. simpl in Hc2. destruct (pw_ctx _ _ _ Hwf bit2 c2 Hc2) as (ctx2 & l2 & E1 & E2 & E3 & E4).
      rewrite Hlook. destruct (decide (c2 = c)) as [->|Hne].
      * assert (ctx2 = ctx) as -> by congruence.
        assert (bit2 = bit) as ->.
        { destruct (pw_ctx _ _ _ Hwf bit c Hc) as (? & ? & F1 & F2 & _). congruence. }
        exists (ctx <| rq_lists := x |>), l'. simpl. split_and!; try done.
        { unfold ctx_list. simpl. by eapply aget_aset_eq. }
        { intros Hne. rewrite <- (Hb Hne). by eapply aget_aset_eq. }
      * exists ctx2, l2. simpl. split_and!; try done. intros Hl2. rewrite <- (E4 Hl2).
        eapply aget_aset_ne; [done|]. intros ->. congruence.
  - apply list_eq. intros n. unfold lists_of. rewrite list_lookup_fmap.
    destruct (h_ctxs h !! n) as [c2|] eqn:En.
    + simpl. rewrite Hlook. destruct (decide (c2 = c)) as [->|Hne].
      * assert (n = Z.to_nat bit) as ->.
        { eapply NoDup_lookup; [apply (pw_nodup _ _ _ Hwf)|done|].
          unfold aget in Hc. case_bool_in Hc; done. }
        rewrite list_lookup_insert_eq by (rewrite length_fmap; lia). simpl. unfold ctx_list. simpl.
        by erewrite aget_aset_eq.
      * rewrite list_lookup_insert_ne, list_lookup_fmap, En; [done|]. intros <-.
        unfold aget in Hc. case_bool_in Hc; congruence.
    + symmetry. apply lookup_ge_None_2. rewrite length_insert, length_fmap.
      by apply lookup_ge_None_1.
Qed.
End pending.

Section operations.
Variables (i : Z) (q : request_queue) (h : blk_mq_hw_ctx).
Hypothesis Hwf : pending_wf i q h.

(** The outcome of an operation on software queue [c]: it replaces the list. *)
Definition becomes (q' : request_queue) (bit : Z) (l : list rqid) : Prop :=
  exists h', pending_wf i q' h' /\ h_ctxs h' = h_ctxs h /\ h_type h' = h_type h
    /\ lists_of q' (h_type h') (h_ctxs h') = <[Z.to_nat bit := l]> (lists_of q (h_type h) (h_ctxs h)).

Lemma mark_pending_map ctx bit :
  ctx_bit h ctx = Some bit -> 0 <= bit < Z.of_nat (length (ctx_map h)) ->
  exists m', aset (ctx_map h) bit true = Some m'
    /\ blk_mq_hctx_mark_pending ctx h = Some (h <| ctx_map := m' |>).
Proof.
  intros Hbit Hr. unfold blk_mq_hctx_mark_pending. rewrite Hbit. simpl.
  destruct (aget_lt _ _ Hr) as [b Hb]. rewrite Hb. simpl. rewrite aset_lt by done.
  eexists. split; [done|]. destruct b; [|done].
  rewrite list_insert_id; [by destruct h|]. unfold aget in Hb. case_bool_in Hb; done.
Qed.

(** Appending to, or prepending to, the list of a software queue and marking it. *)
Lemma mark_after_list bit c ctx l l' :
  aget (h_ctxs h) bit = Some c -> aget (queue_ctx q) c = Some ctx ->
  ctx_list ctx (h_type h) = Some l ->
  exists ctx' q', set_ctx_list (h_type h) l' ctx = Some ctx'
    /\ mark_pending i c (set_ctx c ctx' q) = Some q' /\ becomes q' bit l'.
Proof.
  intros Hc Hctx Hl. unfold set_ctx_list. unfold ctx_list in Hl.
  rewrite aset_lt by (by eapply aget_Some). simpl.
  set (ctx' := ctx <| rq_lists := <[Z.to_nat (h_type h) := l']> (rq_lists ctx) |>). exists ctx'.
  destruct (pw_ctx _ _ _ Hwf bit c Hc) as (ctx2 & l2 & E1 & E2 & E3 & E4).
  assert (ctx2 = ctx) as -> by congruence.
  destruct (mark_pending_map ctx' bit) as (m' & Hm & Hmark); [exact E2| |].
  { rewrite (pw_len _ _ _ Hwf). by eapply aget_Some. }
  exists (replaced i q h bit c ctx' m'). split; [done|]. split.
  - unfold mark_pending, replaced.
    change (queue_hw_ctx (set_ctx c ctx' q)) with (queue_hw_ctx q).
    rewrite (pw_hctx _ _ _ Hwf). cbn [mbind option_bind].
    assert (aget (queue_ctx (set_ctx c ctx' q)) c = Some ctx') as ->.
    { apply aget_Some in Hctx. unfold aget. case_bool; [lia|]. apply list_lookup_insert_eq. lia. }
    cbn [mbind option_bind]. by rewrite Hmark.
  - destruct (replace_list i q h Hwf bit c ctx l' ctx' true m' Hc Hctx) as [H1 H2]; try done.
    { unfold set_ctx_list. by rewrite aset_lt by (by eapply aget_Some). }
    by exists (h <| ctx_map := m' |>).
Qed.

Lemma insert_request_ok r rq at_head bit :
  q_rqs q !! r = Some rq -> aget (h_ctxs h) bit = Some (mq_ctx rq) ->
  exists q' l, blk_mq_insert_request i r at_head q = Some q'
    /\ lists_of q (h_type h) (h_ctxs h) !! Z.to_nat bit = Some l
    /\ becomes q' bit (list_add_at at_head r l).
Proof.
  intros Hr Hc. destruct (pw_ctx _ _ _ Hwf bit _ Hc) as (ctx & l & E1 & E2 & E3 & E4).
  destruct (mark_after_list bit _ ctx l (list_add_at at_head r l) Hc E1 E3)
    as (ctx' & q' & Hs & Hm & Hb).
  exists q', l. split; [|split; [by eapply aget_lists|done]].
  unfold blk_mq_insert_request, blk_mq_insert_req_list, mod_ctx.
  rewrite Hr. simpl. rewrite (pw_hctx _ _ _ Hwf). simpl. rewrite E1. simpl. rewrite E3. simpl.
  rewrite Hs. simpl. done.
Qed.

Lemma insert_requests_ok c bit rs :
  Forall (fun r => mq_ctx <$> (q_rqs q !! r) = Some c) rs -> aget (h_ctxs h) bit = Some c ->
  exists q' l, blk_mq_insert_requests i c rs q = Some q'
    /\ lists_of q (h_type h) (h_ctxs h) !! Z.to_nat bit = Some l
    /\ becomes q' bit (l ++ rs).
Proof.
  intros Hrs Hc. destruct (pw_ctx _ _ _ Hwf bit _ Hc) as (ctx & l & E1 & E2 & E3 & E4).
  destruct (mark_after_list bit _ ctx l (l ++ rs) Hc E1 E3) as (ctx' & q' & Hs & Hm & Hb).
  exists q', l. split; [|split; [by eapply aget_lists|done]].
  unfold blk_mq_insert_requests, mod_ctx.
  assert (forallb (fun r => bool_decide (mq_ctx <$> (q_rqs q !! r) = Some c)) rs = true) as ->.
  { apply forallb_forall. intros r Hin%list_elem_of_In. rewrite Forall_forall in Hrs.
    by apply bool_decide_eq_true, Hrs. }
  rewrite (pw_hctx _ _ _ Hwf). simpl. rewrite E1. simpl. rewrite E3. simpl. rewrite Hs. simpl. done.
Qed.

(** One visit of the flush: the list of the software queue is taken. *)
Lemma flush_visit acc bit c :
  aget (h_ctxs h) bit = Some c ->
  exists q' l, flush_busy_ctx i (acc, q) bit = Some (acc ++ l, q')
    /\ lists_of q (h_type h) (h_ctxs h) !! Z.to_nat bit = Some l /\ becomes q' bit [].
Proof.
  intros Hc. destruct (pw_ctx _ _ _ Hwf bit _ Hc) as (ctx & l & E1 & E2 & E3 & E4).
  pose proof (aget_lists q h bit c ctx l Hc E1 E3) as Hl.
  unfold flush_busy_ctx. rewrite (pw_hctx _ _ _ Hwf). simpl.
  assert (0 <= bit < Z.of_nat (length (ctx_map h))) as Hbr.
  { rewrite (pw_len _ _ _ Hwf). by eapply aget_Some. }
  destruct (aget_lt _ _ Hbr) as [b Hb]. rewrite Hb. simpl. destruct b.
  - rewrite Hc. simpl. rewrite E1. simpl. rewrite E3. simpl.
    unfold set_ctx_list. unfold ctx_list in E3.
    rewrite (aset_lt (rq_lists ctx)) by (by eapply aget_Some). simpl.
    rewrite (aset_lt (ctx_map h) bit false Hbr). simpl. eexists _, l. split; [reflexivity|]. split; [done|].
    edestruct (fun ctx' => replace_list i q h Hwf bit c ctx [] ctx' false) as [H1 H2];
      [done|done| | |done|].
    { unfold set_ctx_list. by rewrite aset_lt by (by eapply aget_Some). }
    { by apply aset_lt. }
    eexists. split; [exact H1|]. done.
  - exists q, l. destruct l as [|r l]; [|by rewrite E4 in Hb].
    rewrite app_nil_r. split; [done|]. split; [done|]. exists h. split; [done|]. split; [done|].
    split; [done|]. symmetry. by apply list_insert_id.
Qed.

(** One visit of the search for a request. *)
Lemma dequeue_visit bit c :
  aget (h_ctxs h) bit = Some c ->
  exists l, lists_of q (h_type h) (h_ctxs h) !! Z.to_nat bit = Some l
    /\ match l with
       | [] => dispatch_rq_from_ctx i (None, q) bit = Some (None, q)
       | r :: l' => exists q', dispatch_rq_from_ctx i (None, q) bit = Some (Some r, q')
                              /\ becomes q' bit l'
       end.
Proof.
  intros Hc. destruct (pw_ctx _ _ _ Hwf bit _ Hc) as (ctx & l & E1 & E2 & E3 & E4).
  exists l. split; [by eapply aget_lists|].
  unfold dispatch_rq_from_ctx. rewrite (pw_hctx _ _ _ Hwf). cbn [mbind option_bind].
  assert (0 <= bit < Z.of_nat (length (ctx_map h))) as Hbr.
  { rewrite (pw_len _ _ _ Hwf). by eapply aget_Some. }
  destruct l as [|r l].
  - destruct (aget_lt _ _ Hbr) as [b ->]. simpl. destruct b; [|done].
    rewrite Hc. simpl. rewrite E1. simpl. by rewrite E3.
  - rewrite (E4 ltac:(done)). simpl. rewrite Hc. simpl. rewrite E1. simpl. rewrite E3. simpl.
    assert (exists ctx', set_ctx_list (h_type h) l ctx = Some ctx') as [ctx' Hs].
    { unfold set_ctx_list. unfold ctx_list in E3.
      rewrite (aset_lt (rq_lists ctx)) by (by eapply aget_Some). by eexists. }
    rewrite Hs. simpl. destruct (bool_decide (l = [])) eqn:El.
    + apply bool_decide_eq_true in El as ->. rewrite (aset_lt (ctx_map h) bit false Hbr). simpl.
      eexists. split; [reflexivity|].
      edestruct (replace_list i q h Hwf bit c ctx [] ctx' false) as [H1 H2];
        [done|done|exact Hs|by apply aset_lt|done|].
      eexists. split; [exact H1|]. done.
    + simpl. eexists. split; [reflexivity|].
      assert (aset (ctx_map h) bit true = Some (ctx_map h)) as Hsame.
      { rewrite aset_lt by done. f_equal. apply list_insert_id. specialize (E4 ltac:(done)).
        unfold aget in E4. case_bool_in E4; done. }
      edestruct (replace_list i q h Hwf bit c ctx l ctx' true) as [H1 H2]; [done|done|done|exact Hsame|done|].
      eexists. split; [exact H1|]. done.
Qed.
End operations.

Lemma becomes_perm_add i q h q' bit l l' x :
  lists_of q (h_type h) (h_ctxs h) !! Z.to_nat bit = Some l -> l' ≡ₚ x ++ l ->
  becomes i q h q' bit l' ->
  exists h', pending_wf i q' h' /\ h_ctxs h' = h_ctxs h /\ h_type h' = h_type h
    /\ waiting q' h' ≡ₚ x ++ waiting q h.
Proof.
  intros Hl Hp (h' & Hwf & Hc & Ht & Hls). exists h'. split; [done|]. split; [done|]. split; [done|].
  unfold waiting. rewrite Hls. clear Hls.
  apply list_elem_of_split_length in Hl as (l1 & l2 & -> & Hlen). rewrite Hlen.
  rewrite insert_app_r_alt by lia. rewrite Nat.sub_diag. simpl.
  rewrite !concat_app. simpl. rewrite Hp. solve_Permutation.
Qed.

Section flush.
Variables (i : Z) (q : request_queue) (h : blk_mq_hw_ctx).
Hypothesis Hwf : pending_wf i q h.
Let ls := lists_of q (h_type h) (h_ctxs h).

Definition flush_inv (acc : list rqid) (done : list Z) (st : list rqid * request_queue) : Prop :=
  st.1 = acc ++ concat (take (length done) ls)
  /\ exists h', pending_wf i st.2 h' /\ h_ctxs h' = h_ctxs h /\ h_type h' = h_type h
     /\ lists_of st.2 (h_type h') (h_ctxs h') = replicate (length done) [] ++ drop (length done) ls.

Lemma flush_ok acc :
  exists q' h', blk_mq_flush_busy_ctxs i acc q = Some (acc ++ waiting q h, q')
    /\ pending_wf i q' h' /\ h_ctxs h' = h_ctxs h /\ h_type h' = h_type h /\ waiting q' h' = [].
Proof.
  unfold blk_mq_flush_busy_ctxs. rewrite (pw_hctx _ _ _ Hwf). cbn [mbind option_bind].
  set (n := Z.of_nat (length (ctx_map h))).
  assert (bit_order n 0 = seqZ 0 n) as -> by (unfold bit_order; rewrite Z.sub_0_r; apply app_nil_r).
  assert (length ls = length (h_ctxs h)) as Hls by (unfold ls, lists_of; apply length_fmap).
  pose proof (pw_len _ _ _ Hwf) as Hlen.
  destruct (foldM_inv (flush_busy_ctx i) (flush_inv acc) (seqZ 0 n) (acc, q))
    as ([l' q'] & Hf & Hl & h' & Hw & Hc & Ht & Hlists).
  - split; [by rewrite app_nil_r|]. by exists h.
  - intros done bit rest [l1 q1] Hsplit (Hl1 & h1 & Hw1 & Hc1 & Ht1 & Hlists1).
    cbn [fst snd] in *.
    assert (bit = Z.of_nat (length done)) as Hbit.
    { assert (seqZ 0 n !! length done = Some bit) as H
        by (rewrite Hsplit; by apply list_lookup_middle).
      rewrite lookup_seqZ in H. lia. }
    assert (length done < length ls)%nat as Hdone.
    { assert (length (seqZ 0 n) = (length done + S (length rest))%nat) as H
        by (rewrite Hsplit, length_app; done).
      rewrite length_seqZ in H. unfold n in H. lia. }
    destruct (lookup_lt_is_Some_2 (h_ctxs h) (length done)) as [c Hcd]; [lia|].
    assert (aget (h_ctxs h1) bit = Some c) as Hcb.
    { rewrite Hc1. unfold aget. case_bool; [lia|]. by rewrite Hbit, Nat2Z.id. }
    destruct (flush_visit i q1 h1 Hw1 l1 bit c Hcb) as (q2 & l2 & -> & Hl2 & h2 & Hw2 & Hc2 & Ht2 & Hls2).
    rewrite Hlists1, Hbit, Nat2Z.id in Hl2.
    rewrite lookup_app_r, length_replicate, Nat.sub_diag, lookup_drop, Nat.add_0_r in Hl2
      by (rewrite length_replicate; lia).
    eexists. split; [reflexivity|]. split.
    + simpl. rewrite Hl1, length_app, Nat.add_1_r. simpl. erewrite take_S_r by done.
      rewrite concat_app. simpl. by rewrite app_nil_r, app_assoc.
    + exists h2. simpl. split; [done|]. split; [congruence|]. split; [congruence|].
      rewrite Hls2, Hlists1, Hbit, Nat2Z.id, length_app, Nat.add_1_r. simpl.
      rewrite insert_app_r_alt by (rewrite length_replicate; lia).
      rewrite length_replicate, Nat.sub_diag, (drop_S ls l2) by done. cbn [replicate insert list_insert app].
      generalize (drop (S (length done)) ls). intros tl.
      generalize (length done). intros m. induction m as [|m IH]; simpl; [done|]. by rewrite IH.
  - exists q', h'. simpl in *. rewrite length_seqZ in Hl, Hlists. unfold n in Hl, Hlists.
    rewrite Nat2Z.id in Hl, Hlists. rewrite take_ge in Hl by lia. rewrite drop_ge in Hlists by lia.
    split; [by rewrite Hf, Hl|]. split; [done|]. split; [done|]. split; [done|].
    unfold waiting. rewrite Hlists, app_nil_r. generalize (length (ctx_map h)). clear.
    intros n. induction n; done.
Qed.
End flush.

Section dequeue.
Variables (i : Z) (q : request_queue) (h : blk_mq_hw_ctx).
Hypothesis Hwf : pending_wf i q h.
Let ls := lists_of q (h_type h) (h_ctxs h).

Definition dequeue_inv (done : list Z) (st : option rqid * request_queue) : Prop :=
  match st with
  | (None, q') => q' = q /\ forall bit, bit ∈ done -> ls !! Z.to_nat bit = Some []
  | (Some r, q') => exists bit l, ls !! Z.to_nat bit = Some (r :: l) /\ becomes i q h q' bit l
  end.

Lemma dequeue_ok start :
  (forall c, start = Some c -> c ∈ h_ctxs h) ->
  exists o q', blk_mq_dequeue_from_ctx i start q = Some (o, q')
    /\ match o with
       | None => q' = q /\ waiting q h = []
       | Some r => exists h', pending_wf i q' h' /\ h_ctxs h' = h_ctxs h /\ h_type h' = h_type h
           /\ waiting q h ≡ₚ r :: waiting q' h'
       end.
Proof.
  intros Hstart. unfold blk_mq_dequeue_from_ctx. rewrite (pw_hctx _ _ _ Hwf). cbn [mbind option_bind].
  set (n := Z.of_nat (length (ctx_map h))). pose proof (pw_len _ _ _ Hwf) as Hlen.
  assert (exists off, match start with
      | Some c => ctx ← aget (queue_ctx q) c; aget (index_hw ctx) (h_type h)
      | None => Some 0 end = Some off /\ 0 <= off <= n) as (off & -> & Hoff).
  { unfold n. destruct start as [c|]; [|exists 0; split; [done|lia]].
    pose proof (Hstart c eq_refl) as [b Hb]%list_elem_of_lookup_1.
    assert (aget (h_ctxs h) (Z.of_nat b) = Some c) as Hc by (by rewrite aget_of_nat).
    destruct (pw_ctx _ _ _ Hwf _ _ Hc) as (ctx & l & E1 & E2 & _).
    exists (Z.of_nat b). rewrite E1. simpl. split; [done|]. apply aget_Some in Hc. lia. }
  cbn [mbind option_bind].
  destruct (foldM_inv (dispatch_rq_from_ctx i) dequeue_inv (bit_order n off) (None, q))
    as ([o q'] & Hf & Hinv).
  - split; [done|]. set_solver.
  - intros done bit rest [[r|] q1] Hsplit Hinv; [by exists (Some r, q1)|].
    destruct Hinv as [-> Hdone].
    assert (bit ∈ bit_order n off) as Hbit by (rewrite Hsplit; set_solver).
    assert (0 <= bit < n) as Hbr.
    { unfold bit_order in Hbit. rewrite elem_of_app, !elem_of_seqZ in Hbit. lia. }
    destruct (aget_lt (h_ctxs h) bit) as [c Hc]; [unfold n in Hbr; lia|].
    destruct (dequeue_visit i q h Hwf bit c Hc) as (l & Hl & Hcase). destruct l as [|r l].
    + exists (None, q). split; [done|]. split; [done|].
      intros b [Hb|Hb]%elem_of_app; [auto|]. apply list_elem_of_singleton in Hb as ->. done.
    + destruct Hcase as (q' & Hd & Hb). exists (Some r, q'). split; [done|]. by exists bit, l.
  - exists o, q'. split; [done|]. destruct o as [r|]; simpl in Hinv.
    + destruct Hinv as (bit & l & Hl & Hb).
      destruct Hb as (h' & Hw' & Hc' & Ht' & Hls'). exists h'.
      split; [done|]. split; [done|]. split; [done|]. unfold waiting. rewrite Hls'. fold ls.
      apply list_elem_of_split_length in Hl as (l1 & l2 & -> & Hlen'). rewrite Hlen'.
      rewrite insert_app_r_alt by lia. rewrite Nat.sub_diag. simpl.
      rewrite !concat_app. simpl. solve_Permutation.
    + destruct Hinv as [-> Hall]. split; [done|]. unfold waiting. fold ls.
      assert (Forall (fun l => l = []) ls) as Hemp.
      { apply Forall_lookup. intros k l Hk.
        assert (length ls = length (h_ctxs h)) as Hls by (unfold ls, lists_of; apply length_fmap).
        pose proof (lookup_lt_Some _ _ _ Hk).
        specialize (Hall (Z.of_nat k)). rewrite Nat2Z.id, Hk in Hall.
        assert (Some l = Some []) as [= ->]; [|done]. apply Hall. unfold bit_order.
        rewrite elem_of_app, !elem_of_seqZ. unfold n in *. lia. }
      clear -Hemp. induction Hemp as [|l ls -> _ IH]; done.
Qed.
End dequeue.

(** C21: the pending bitmap never misses a request.  In a well-formed hardware
    queue, inserting a request into one of its software queues, or a batch of
    requests of one software queue, adds exactly these to the requests waiting
    for the hardware queue; flushing hands over all of them, in the order of the
    software queues and within each in queue order, and leaves none.  Each
    operation keeps the bitmap well-formed. *)
Theorem software_queues_flush i q h :
  pending_wf i q h ->
  (forall r rq at_head, q_rqs q !! r = Some rq -> mq_ctx rq ∈ h_ctxs h ->
     exists q' h', blk_mq_insert_request i r at_head q = Some q' /\ pending_wf i q' h'
       /\ waiting q' h' ≡ₚ r :: waiting q h)
  /\ (forall c rs, Forall (fun r => mq_ctx <$> (q_rqs q !! r) = Some c) rs -> c ∈ h_ctxs h ->
     exists q' h', blk_mq_insert_requests i c rs q = Some q' /\ pending_wf i q' h'
       /\ waiting q' h' ≡ₚ rs ++ waiting q h)
  /\ (forall acc, exists q' h', blk_mq_flush_busy_ctxs i acc q = Some (acc ++ waiting q h, q')
       /\ pending_wf i q' h' /\ waiting q' h' = []).
Proof.
  intros Hwf.
  assert (forall c, c ∈ h_ctxs h -> exists bit, aget (h_ctxs h) bit = Some c) as Hbit.
  { intros c [b Hb]%list_elem_of_lookup_1. exists (Z.of_nat b).
    by rewrite aget_of_nat. }
  split; [|split].
  - intros r rq at_head Hr [bit Hc]%Hbit.
    destruct (insert_request_ok i q h Hwf r rq at_head bit Hr Hc) as (q' & l & Hq' & Hl & Hb).
    destruct (becomes_perm_add i q h q' bit l (list_add_at at_head r l) [r] Hl) as (h' & Hw & _ & _ & Hp); [|exact Hb|].
    { unfold list_add_at. destruct at_head; solve_Permutation. }
    by exists q', h'.
  - intros c rs Hrs [bit Hc]%Hbit.
    destruct (insert_requests_ok i q h Hwf c bit rs Hrs Hc) as (q' & l & Hq' & Hl & Hb).
    destruct (becomes_perm_add i q h q' bit l (l ++ rs) rs Hl) as (h' & Hw & _ & _ & Hp); [|exact Hb|].
    { solve_Permutation. }
    by exists q', h'.
  - intros acc. destruct (flush_ok i q h Hwf acc) as (q' & h' & Hf & Hw & _ & _ & He).
    by exists q', h'.
Qed.

(** taking requests one at a time loses none.  Dequeueing from the software
    queues of a hardware queue, from any of them on in round-robin order, returns
    nothing only when no request waits in any of them; otherwise it removes
    exactly the request it returns and keeps the bitmap well-formed. *)
Lemma software_queues_dequeue i q h start :
  pending_wf i q h -> (forall c, start = Some c -> c ∈ h_ctxs h) ->
  exists o q', blk_mq_dequeue_from_ctx i start q = Some (o, q')
    /\ match o with
       | None => q' = q /\ waiting q h = []
       | Some r => exists h', pending_wf i q' h' /\ h_ctxs h' = h_ctxs h
           /\ waiting q h ≡ₚ r :: waiting q' h'
       end.
Proof.
  intros Hwf Hstart. destruct (dequeue_ok i q h Hwf start Hstart) as (o & q' & Hd & Ho).
  exists o, q'. split; [done|]. destruct o as [r|]; [|done].
  destruct Ho as (h' & Hw & Hc & _ & Hp). by exists h'.
Qed.

(** Hardware queue 0 with the software queues of CPUs 0 and 2; two requests wait
    on CPU 2. *)
Definition ex_pending : blk_mq_hw_ctx :=
  (hctx0 <| h_ctxs := [0; 2] |>) <| ctx_map := [false; true] |>.
Definition ex_pending_queue : request_queue :=
  ((queue0 <| queue_hw_ctx := [ex_pending] |>)
     <| queue_ctx := [ctx0; ctx0 <| cpu := 1 |>;
          ((ctx0 <| cpu := 2 |>) <| index_hw := [1; 1; 1] |>) <| rq_lists := [[11; 12]; []; []] |>] |>)
     <| q_rqs := <[13 := request0]> ∅ |>.

Lemma ex_pending_wf : pending_wf 0 ex_pending_queue ex_pending.
Proof.
  constructor; [done|done|apply (bool_decide_unpack _); by vm_compute|].
  intros bit c H. pose proof (aget_Some _ _ _ H) as R. simpl in R.
  assert (bit = 0 \/ bit = 1) as [->| ->] by lia; injection H as <-.
  - exists ctx0, []. done.
  - eexists _, _. split; [reflexivity|]. split; [done|]. split; [done|]. done.
Qed.

Lemma software_queues_flush_witness :
  exists q' h', blk_mq_flush_busy_ctxs 0 [9] ex_pending_queue = Some ([9; 11; 12], q')
    /\ waiting q' h' = [].
Proof.
  destruct (proj2 (proj2 (software_queues_flush 0 ex_pending_queue ex_pending ex_pending_wf)) [9])
    as (q' & h' & H & _ & He).
  exists q', h'. split; [exact H|exact He].
Defined.

Lemma software_queues_dequeue_witness :
  exists q' h', blk_mq_dequeue_from_ctx 0 (Some 0) ex_pending_queue = Some (Some 11, q')
    /\ waiting ex_pending_queue ex_pending ≡ₚ 11 :: waiting q' h'.
Proof.
  destruct (software_queues_dequeue 0 ex_pending_queue ex_pending (Some 0) ex_pending_wf)
    as (o & q' & H & Ho).
  - intros c [= <-]. simpl. set_solver.
  - vm_compute in H. injection H as <- <-. destruct Ho as (h' & _ & _ & Hp).
    eexists _, h'. split; [reflexivity|exact Hp].
Defined.
