(* ===== verification/BlkMqDispatch.v ===== *)
(** * Dispatch to the driver

    Driver tags, [blk_mq_dispatch_rq_list], direct issue and
    [blk_mq_make_request] of block/blk-mq.c.  The driver enters as the class
    [MqOps] ([struct blk_mq_ops]). *)
From S2P Require Import Prelude MqTypes BlkSwitch BlkMqAlloc BlkMqRun BlkMqInsert.

Inductive blk_status :=
| BLK_STS_OK
| BLK_STS_RESOURCE
| BLK_STS_DEV_RESOURCE
| BLK_STS_ERR (code : Z).

Definition is_busy (s : blk_status) : bool :=
  match s with BLK_STS_RESOURCE | BLK_STS_DEV_RESOURCE => true | _ => false end.

(** The callbacks of the driver; [queue_rq] takes the hardware queue, the
    request and the flag [last]. *)
Class MqOps := {
  queue_rq : Z -> rqid -> bool -> request_queue -> blk_status * request_queue;
  commit_rqs : option (Z -> request_queue -> request_queue);
  get_budget : option (Z -> request_queue -> bool * request_queue);
  put_budget : option (Z -> request_queue -> request_queue);
}.

(** [blk_mq_tag_is_reserved] of blk-mq-tag.h, the status that
    [blk_mq_end_request] receives for a failed dispatch, [blk_add_timer] of
    blk-timeout.c, which arms the timer of a request, and [blk_rq_bio_prep] of
    blk.h, which attaches a bio to a request. *)
Class MqMisc := {
  blk_mq_tag_is_reserved : blk_mq_tags -> Z -> bool;
  BLK_STS_IOERR : Z;
  blk_add_timer : request -> request;
  blk_rq_bio_prep : request -> bio -> Z -> request;
}.

Definition BLK_MQ_RESOURCE_DELAY : Z := 3.

(** ** Busy estimate *)

(** [dispatch_busy] is an [unsigned int]. *)
Definition dispatch_busy_ewma (ewma : Z) (busy : bool) : Z :=
  if (ewma =? 0) && negb busy then ewma
  else
    let e := u32 (ewma * 7) in
    let e := if busy then u32 (e + Z.shiftl 1 4) else e in
    e / 8.

Definition blk_mq_update_dispatch_busy (i : Z) (busy : bool) (q : request_queue)
  : option request_queue :=
  match elevator q with
  | Some _ => Some q
  | None => mod_hctx i (fun h => h <| dispatch_busy ::= fun e => dispatch_busy_ewma e busy |>) q
  end.

(** Histogram slot for a number of dispatched requests. *)
Definition queued_to_index (queued : Z) : Z :=
  if queued =? 0 then 0 else Z.min (BLK_MQ_MAX_DISPATCH_ORDER - 1) (Z.log2 queued + 1).

Section dispatch.
Context {bt : BlkTypes} {mk : MqKernel} {sch : MqSched} {ops : MqOps} {mm : MqMisc}.

Definition blk_mq_get_dispatch_budget (i : Z) (q : request_queue) : bool * request_queue :=
  match get_budget with Some f => f i q | None => (true, q) end.
Definition blk_mq_put_dispatch_budget (i : Z) (q : request_queue) : request_queue :=
  match put_budget with Some f => f i q | None => q end.

(** ** Driver tags *)

Definition put_driver_tag_inner (i : Z) (r : rqid) (q : request_queue) : option request_queue :=
  rq ← q_rqs q !! r; h ← aget (queue_hw_ctx q) i; ti ← tags h;
  let q := blk_mq_put_tag ti (tag rq) q in
  q ← mod_rq r (fun rq => rq <| tag := -1 |>) q;
  rq ← q_rqs q !! r;
  if has_flag (rq_flags rq) RQF_MQ_INFLIGHT then
    q ← mod_rq r (fun rq => rq <| rq_flags ::= fun f => Z.land f (Z.lnot RQF_MQ_INFLIGHT) |>) q;
     mod_hctx i (fun h => h <| nr_active ::= fun n => s32 (n - 1) |>) q else Some q.

Definition blk_mq_put_driver_tag (r : rqid) (q : request_queue) : option request_queue :=
  rq ← q_rqs q !! r;
  if (tag rq =? -1) || (internal_tag rq =? -1) then Some q
  else i ← mq_hctx rq; put_driver_tag_inner i r q.

Definition blk_mq_get_driver_tag (r : rqid) (q : request_queue) : option (bool * request_queue) :=
  rq ← q_rqs q !! r;
  if negb (tag rq =? -1) then Some (true, q)
  else
    i ← mq_hctx rq; h ← aget (queue_hw_ctx q) i;
    si ← sched_tags h; st ← aget (q_tags q) si;
    let flags := if blk_mq_tag_is_reserved st (internal_tag rq)
                 then Z.lor BLK_MQ_REQ_NOWAIT BLK_MQ_REQ_RESERVED else BLK_MQ_REQ_NOWAIT in
    let '(shared, q) := blk_mq_tag_busy i q in
    match blk_mq_get_tag (mk_alloc_data flags 0 (cmd_flags rq) None (Some i)) q with
    | (None, _, q) => Some (false, q)
    | (Some tg, _, q) =>
      q ← mod_rq r (fun rq => rq <| tag := tg |>) q;
      q ← (if shared then
             q ← mod_rq r (fun rq => rq <| rq_flags ::= fun f => Z.lor f RQF_MQ_INFLIGHT |>) q;
             mod_hctx i (fun h => h <| nr_active ::= fun n => s32 (n + 1) |>) q
           else Some q);
      ti ← tags h; t ← aget (q_tags q) ti; rqs ← aset (tag_rqs t) tg (Some r);
      Some (true, set_tags ti (t <| tag_rqs := rqs |>) q)
    end.

(** Wake-up of a hardware queue that waits for a shared tag. *)
Definition blk_mq_dispatch_wake (e : run_env) (i : Z) (q : request_queue) : option request_queue :=
  h ← aget (queue_hw_ctx q) i;
  q ← (if dispatch_wait h then
         ti ← tags h; t ← aget (q_tags q) ti;
         Some (set_tags ti (t <| ws_active ::= fun n => n - 1 |>)
                 (set_hctx i (h <| dispatch_wait := false |>) q))
       else Some q);
  '(_, q) ← blk_mq_run_hw_queue e i true q; Some q.

Definition blk_mq_mark_tag_wait (i : Z) (r : rqid) (q : request_queue)
  : option (bool * request_queue) :=
  h ← aget (queue_hw_ctx q) i;
  if negb (has_flag (h_flags h) BLK_MQ_F_TAG_SHARED)
  then blk_mq_get_driver_tag r (blk_mq_sched_mark_restart_hctx i q)
  else if dispatch_wait h then Some (false, q)
  else
    ti ← tags h; t ← aget (q_tags q) ti;
    let q := set_tags ti (t <| ws_active ::= fun n => n + 1 |>)
               (set_hctx i (h <| dispatch_wait := true |>) q) in
    '(ok, q) ← blk_mq_get_driver_tag r q;
    if (ok : bool) then
      q ← mod_hctx i (fun h => h <| dispatch_wait := false |>) q;
      t ← aget (q_tags q) ti;
      Some (true, set_tags ti (t <| ws_active ::= fun n => n - 1 |>) q)
    else Some (false, q).

(** ** Requeue *)

Definition blk_mq_request_started (rq : request) : bool :=
  negb (bool_decide (rq_state rq = MQ_RQ_IDLE)).
Definition blk_mq_request_completed (rq : request) : bool :=
  bool_decide (rq_state rq = MQ_RQ_COMPLETE).

Definition requeue_request_inner (r : rqid) (q : request_queue) : option request_queue :=
  q ← blk_mq_put_driver_tag r q;
  mod_rq r (fun rq =>
    if blk_mq_request_started rq then
      let rq := rq <| rq_state := MQ_RQ_IDLE |>
                   <| rq_flags ::= fun f => Z.land f (Z.lnot RQF_TIMED_OUT) |> in
      if c_true (dma_drain_size q) && c_true (blk_rq_bytes rq)
      then rq <| nr_phys_segments ::= fun n => u16 (n - 1) |> else rq
    else rq) q.

Definition blk_mq_requeue_request (r : rqid) (kick : bool) (q : request_queue)
  : option request_queue :=
  q ← requeue_request_inner r q;
  blk_mq_add_to_requeue_list r true kick (blk_mq_sched_requeue_request r q).

Definition blk_mq_start_request (now : Z) (r : rqid) (q : request_queue) : option request_queue :=
  mod_rq r (fun rq =>
    let rq := if test_bit QUEUE_FLAG_STATS (queue_flags q)
              then rq <| io_start_time_ns := now |>
                      <| stats_sectors := u16 (Z.shiftr (blk_rq_bytes rq) 9) |>
                      <| rq_flags ::= fun f => Z.lor f RQF_STATS |> else rq in
    let rq := (blk_add_timer rq) <| rq_state := MQ_RQ_IN_FLIGHT |> in
    if c_true (dma_drain_size q) && c_true (blk_rq_bytes rq)
    then rq <| nr_phys_segments ::= fun n => u16 (n + 1) |> else rq) q.

(** ** The dispatch loop *)

(** State of [blk_mq_dispatch_rq_list]; [ds_log] records the calls of
    [queue_rq]: request, [last] and result. *)
Record disp := mk_disp {
  ds_q : request_queue;
  ds_s : bsw;
  ds_list : list rqid;
  ds_errors : Z;
  ds_queued : Z;
  ds_no_tag : bool;
  ds_ret : blk_status;
  ds_hctx : Z;
  ds_log : list (rqid * bool * blk_status);
}.
#[local] Instance disp_eta : Settable disp := {| eta_expand := fun r =>
  mk_disp (ds_q r) (ds_s r) (ds_list r) (ds_errors r) (ds_queued r) (ds_no_tag r) (ds_ret r)
    (ds_hctx r) (ds_log r) |}.

(** A driver tag for the head of the list, waiting for one if there is none. *)
Definition tag_or_wait (i : Z) (r : rqid) (q : request_queue) : option (bool * request_queue) :=
  '(ok, q) ← blk_mq_get_driver_tag r q;
  if (ok : bool) then Some (true, q) else blk_mq_mark_tag_wait i r q.

(** Flag [last]: no request follows, or the next one has no driver tag. *)
Definition last_flag (rest : list rqid) (q : request_queue) : option (bool * request_queue) :=
  match rest with
  | [] => Some (true, q)
  | nxt :: _ => '(ok, q) ← blk_mq_get_driver_tag nxt q; Some (negb ok, q)
  end.

Fixpoint dispatch_loop (got_budget : bool) (l : list rqid) (d : disp) : option disp :=
  match l with
  | [] => Some (d <| ds_list := [] |>)
  | r :: rest =>
    rq ← q_rqs (ds_q d) !! r; i ← mq_hctx rq;
    let d := d <| ds_list := l |> <| ds_hctx := i |> in
    let '(budget, q) := if got_budget then (true, ds_q d)
                        else blk_mq_get_dispatch_budget i (ds_q d) in
    if negb budget then q ← blk_mq_put_driver_tag r q; Some (d <| ds_q := q |>)
    else
      '(ok, q) ← tag_or_wait i r q;
      if negb ok then
        let q := blk_mq_put_dispatch_budget i q in
        h ← aget (queue_hw_ctx q) i;
        Some (d <| ds_q := q |>
                <| ds_no_tag := ds_no_tag d || has_flag (h_flags h) BLK_MQ_F_TAG_SHARED |>)
      else
        '(last, q) ← last_flag rest q;
        let '(ret, q) := queue_rq i r last q in
        let d := d <| ds_ret := ret |> <| ds_log ::= fun g => g ++ [(r, last, ret)] |> in
        match ret with
        | BLK_STS_RESOURCE | BLK_STS_DEV_RESOURCE =>
          q ← match rest with [] => Some q | nxt :: _ => blk_mq_put_driver_tag nxt q end;
          q ← requeue_request_inner r q;
          Some (d <| ds_q := q |>)
        | BLK_STS_OK =>
          dispatch_loop got_budget rest
            (d <| ds_q := q |> <| ds_queued ::= fun n => n + 1 |> <| ds_list := rest |>)
        | BLK_STS_ERR _ =>
          '(q, s) ← blk_mq_end_request r BLK_STS_IOERR q (ds_s d);
          dispatch_loop got_budget rest
            (d <| ds_q := q |> <| ds_s := s |> <| ds_errors ::= fun n => n + 1 |>
               <| ds_list := rest |>)
        end
  end.

(** What is left goes to the dispatch list of the hardware queue of the last
    request that was looked at, and the queue is run again when nothing else
    will do it. *)
Definition dispatch_leftover (e : run_env) (d : disp) : option request_queue :=
  let i := ds_hctx d in
  let q := match commit_rqs with Some f => f i (ds_q d) | None => ds_q d end in
  q ← mod_hctx i (fun h => h <| dispatch ::= fun l => l ++ ds_list d |>) q;
  let needs_restart := blk_mq_sched_needs_restart i q in
  h ← aget (queue_hw_ctx q) i;
  q ← (if negb needs_restart || (ds_no_tag d && negb (dispatch_wait h))
       then '(_, q) ← blk_mq_run_hw_queue e i true q; Some q
       else match ds_ret d with
            | BLK_STS_RESOURCE => blk_mq_delay_run_hw_queue e i BLK_MQ_RESOURCE_DELAY q
            | _ => Some q
            end);
  blk_mq_update_dispatch_busy i true q.

Definition blk_mq_dispatch_rq_list (e : run_env) (l : list rqid) (got_budget : bool)
    (q : request_queue) (s : bsw) : option (bool * request_queue * bsw * disp) :=
  let d0 := mk_disp q s l 0 0 false BLK_STS_OK 0 [] in
  if bool_decide (l = []) then Some (false, q, s, d0)
  else
    d ← dispatch_loop got_budget l d0;
    h ← aget (queue_hw_ctx (ds_q d)) (ds_hctx d);
    hist ← amod (dispatched h) (queued_to_index (ds_queued d)) (fun n => u64 (n + 1));
    let d := d <| ds_q ::= set_hctx (ds_hctx d) (h <| dispatched := hist |>) |> in
    if bool_decide (ds_list d = []) then
      q ← blk_mq_update_dispatch_busy (ds_hctx d) false (ds_q d);
      Some (negb (is_busy (ds_ret d)) && c_true (ds_queued d + ds_errors d), q, ds_s d, d)
    else q ← dispatch_leftover e d; Some (false, q, ds_s d, d).

(** ** Direct issue *)

Definition issue_directly (i : Z) (r : rqid) (last : bool) (q : request_queue)
  : option (blk_status * request_queue) :=
  let '(ret, q) := queue_rq i r last q in
  q ← blk_mq_update_dispatch_busy i (is_busy ret) q;
  q ← (if is_busy ret then requeue_request_inner r q else Some q);
  Some (ret, q).

(** The label [insert]. *)
Definition issue_insert (e : run_env) (r : rqid) (bypass_insert run_queue : bool)
    (q : request_queue) : option (blk_status * request_queue) :=
  if bypass_insert then Some (BLK_STS_RESOURCE, q)
  else q ← blk_mq_request_bypass_insert e r false run_queue q; Some (BLK_STS_OK, q).

Definition try_issue_directly_inner (e : run_env) (i : Z) (r : rqid) (bypass_insert last : bool)
    (q : request_queue) : option (blk_status * request_queue) :=
  h ← aget (queue_hw_ctx q) i;
  if blk_mq_hctx_stopped h || blk_queue_quiesced q then issue_insert e r false false q
  else if bool_decide (is_Some (elevator q)) && negb bypass_insert
  then issue_insert e r bypass_insert true q
  else
    let '(budget, q) := blk_mq_get_dispatch_budget i q in
    if negb budget then issue_insert e r bypass_insert true q
    else
      '(ok, q) ← blk_mq_get_driver_tag r q;
      if negb ok then issue_insert e r bypass_insert true (blk_mq_put_dispatch_budget i q)
      else issue_directly i r last q.

Definition blk_mq_try_issue_directly (e : run_env) (i : Z) (r : rqid) (q : request_queue) (s : bsw)
  : option (request_queue * bsw) :=
  '(ret, q) ← try_issue_directly_inner e i r false true q;
  match ret with
  | BLK_STS_RESOURCE | BLK_STS_DEV_RESOURCE =>
    q ← blk_mq_request_bypass_insert e r false true q; Some (q, s)
  | BLK_STS_OK => Some (q, s)
  | BLK_STS_ERR code => blk_mq_end_request r code q s
  end.

Definition blk_mq_request_issue_directly (e : run_env) (r : rqid) (last : bool) (q : request_queue)
  : option (blk_status * request_queue) :=
  rq ← q_rqs q !! r; i ← mq_hctx rq; try_issue_directly_inner e i r true last q.

Fixpoint issue_list_loop (e : run_env) (l : list rqid) (q : request_queue) (s : bsw)
  : option (list rqid * request_queue * bsw) :=
  match l with
  | [] => Some ([], q, s)
  | r :: rest =>
    '(ret, q) ← blk_mq_request_issue_directly e r (bool_decide (rest = [])) q;
    match ret with
    | BLK_STS_OK => issue_list_loop e rest q s
    | BLK_STS_RESOURCE | BLK_STS_DEV_RESOURCE =>
      q ← blk_mq_request_bypass_insert e r false (bool_decide (rest = [])) q; Some (rest, q, s)
    | BLK_STS_ERR code => '(q, s) ← blk_mq_end_request r code q s; issue_list_loop e rest q s
    end
  end.

Definition blk_mq_try_issue_list_directly (e : run_env) (i : Z) (l : list rqid)
    (q : request_queue) (s : bsw) : option (list rqid * request_queue * bsw) :=
  '(rest, q, s) ← issue_list_loop e l q s;
  Some (rest, match commit_rqs with
              | Some f => if bool_decide (rest = []) then q else f i q
              | None => q
              end, s).

(** ** Submission of a bio *)

Definition blk_mq_bio_to_request (r : rqid) (b : bio) (nr_segs : Z) (q : request_queue)
  : option request_queue :=
  mod_rq r (fun rq =>
    let rq := if has_flag (bi_opf b) REQ_RAHEAD
              then rq <| cmd_flags ::= fun f => Z.lor f REQ_FAILFAST_MASK |> else rq in
    blk_rq_bio_prep (rq <| sector := bi_sector b |>) b nr_segs) q.
End dispatch.

(** The steps of the submission path that are other files of the block layer:
    bouncing and splitting the bio, the integrity check, merging into the plug
    list or the scheduler, flush requests, and whether the device is zoned. *)
Class SubmitOps := {
  queue_split : bio -> bio * Z;
  bio_integrity_prep : bio -> bool;
  blk_attempt_plug_merge : bio -> Z -> blk_plug -> bool * option plugged * blk_plug;
  blk_mq_sched_bio_merge : bio -> Z -> request_queue -> bool * request_queue;
  blk_insert_flush : rqid -> request_queue -> request_queue;
  blk_queue_is_zoned : bool;
  queue_id : Z;
  list_sort : (plugged -> plugged -> Z) -> list plugged -> list plugged;
}.

Section submit.
Context {bt : BlkTypes} {mk : MqKernel} {sch : MqSched} {ops : MqOps} {mm : MqMisc} {sub : SubmitOps}.

(** The plug of the submitting task, unless the device is zoned and the bio
    writes. *)
Definition blk_mq_plug (b : bio) (plug : option blk_plug) : option blk_plug :=
  if negb blk_queue_is_zoned || negb (op_is_write (bi_opf b)) then plug else None.

Definition to_plugged (r : rqid) (rq : request) : plugged :=
  mk_plugged r queue_id (mq_ctx rq) (default 0 (mq_hctx rq)) (sector rq) (blk_rq_bytes rq).

(** [blk_flush_plug_list(plug, false)] for a plug with requests of this queue. *)
Definition flush_plug (plug : blk_plug) (q : request_queue) : blk_plug * request_queue :=
  let '(bs, plug) := blk_mq_flush_plug_list list_sort plug in
  (plug, foldl (fun q '(h, c, rs) => blk_mq_sched_insert_requests h c rs false q) q bs).

(** Where an initialised request goes. *)
Definition submit_request (e : run_env) (b : bio) (is_sync is_flush_fua : bool) (hi : Z) (r : rqid)
    (same : option plugged) (plug : option blk_plug) (q : request_queue) (s : bsw)
  : option (option blk_plug * request_queue * bsw) :=
  rq ← q_rqs q !! r; h ← aget (queue_hw_ctx q) hi;
  let nomerges := test_bit QUEUE_FLAG_NOMERGES (queue_flags q) in
  if is_flush_fua then
    '(_, q) ← blk_mq_run_hw_queue e hi true (blk_insert_flush r q); Some (plug, q, s)
  else match plug with
  | Some pl =>
    if (nr_hw_queues q =? 1) || bool_decide (is_Some commit_rqs)
       || negb (test_bit QUEUE_FLAG_NONROT (queue_flags q)) then
      let '(pl, q) := if plug_needs_flush pl then flush_plug pl q else (pl, q) in
      Some (Some (blk_add_rq_to_plug (to_plugged r rq) pl), q, s)
    else if bool_decide (is_Some (elevator q)) then
      Some (plug, blk_mq_sched_insert_request r false true true q, s)
    else if negb nomerges then
      let same := if bool_decide (mq_list pl = []) then None else same in
      let pl := match same with
                | Some x => pl <| mq_list ::= List.filter (fun y => negb (pl_rq y =? pl_rq x)) |>
                               <| rq_count ::= fun n => n - 1 |>
                | None => pl
                end in
      let pl := blk_add_rq_to_plug (to_plugged r rq) pl in
      match same with
      | Some x => '(q, s) ← blk_mq_try_issue_directly e (pl_hctx x) (pl_rq x) q s; Some (Some pl, q, s)
      | None => Some (Some pl, q, s)
      end
    else if ((1 <? nr_hw_queues q) && is_sync) || negb (c_true (dispatch_busy h)) then
      '(q, s) ← blk_mq_try_issue_directly e hi r q s; Some (plug, q, s)
    else Some (plug, blk_mq_sched_insert_request r false true true q, s)
  | None =>
    if bool_decide (is_Some (elevator q)) then
      Some (plug, blk_mq_sched_insert_request r false true true q, s)
    else if ((1 <? nr_hw_queues q) && is_sync) || negb (c_true (dispatch_busy h)) then
      '(q, s) ← blk_mq_try_issue_directly e hi r q s; Some (plug, q, s)
    else Some (plug, blk_mq_sched_insert_request r false true true q, s)
  end.

(** [current] is the plug and the I/O priority of the submitting task. *)
Definition blk_mq_make_request (p : bsw_params) (be : bsw_env) (e : run_env) (now : Z)
    (io_context : option Z) (plug : option blk_plug) (b : bio) (q : request_queue) (s : bsw)
  : option (option blk_plug * request_queue * bsw) :=
  let is_sync := op_is_sync (bi_opf b) in
  let is_flush_fua := op_is_flush (bi_opf b) in
  let b := blk_switch_set_ioprio io_context b in
  let '(b, nr_segs) := queue_split b in
  if negb (bio_integrity_prep b) then Some (plug, q, s)
  else
    let '(merged, same, plug) :=
      match plug with
      | Some pl =>
        if negb is_flush_fua && negb (test_bit QUEUE_FLAG_NOMERGES (queue_flags q))
        then let '(m, same, pl) := blk_attempt_plug_merge b nr_segs pl in (m, same, Some pl)
        else (false, None, plug)
      | None => (false, None, None)
      end in
    if (merged : bool) then Some (plug, q, s)
    else
      let '(merged, q) := blk_mq_sched_bio_merge b nr_segs q in
      if merged then Some (plug, q, s)
      else
        '(o, d, q, s) ← blk_mq_get_request p be now (Some b)
                          (mk_alloc_data 0 0 (bi_opf b) None None) q s;
        match o with
        | None => Some (plug, q, s)
        | Some r =>
          q ← blk_mq_bio_to_request r b nr_segs q;
          hi ← d_hctx d;
          match blk_mq_plug b plug with
          | Some pl => '(pl, q, s) ← submit_request e b is_sync is_flush_fua hi r same (Some pl) q s;
                       Some (pl, q, s)
          | None => '(_, q, s) ← submit_request e b is_sync is_flush_fua hi r same None q s;
                    Some (plug, q, s)
          end
        end.
End submit.
