(* ===== verification/BlkMqDispatchSpec.v ===== *)
(** * Dispatch: theorems

    Requests reach the driver in order, none is lost or dispatched twice, what
    the driver cannot take is kept for a later run, which is queued or left to the
    completion of a request, and the estimate of how busy the driver is stays
    bounded. *)
From S2P Require Import Prelude MqTypes BlkSwitch BlkMqAlloc BlkMqRun BlkMqInsert BlkMqDispatch.
From S2P Require Import BlkSwitchSpec BlkMqAllocSpec BlkMqRunSpec.

(** The requests that the driver took or that were ended with an error, in the
    order of the calls. *)
Definition consumed (g : list (rqid * bool * blk_status)) : list rqid :=
  (fun x : rqid * bool * blk_status => x.1.1) <$> List.filter (fun x => negb (is_busy x.2)) g.

Definition count_status (f : blk_status -> bool) (g : list (rqid * bool * blk_status)) : Z :=
  Z.of_nat (length (List.filter (fun x : rqid * bool * blk_status => f x.2) g)).
Definition is_ok (s : blk_status) : bool := match s with BLK_STS_OK => true | _ => false end.
Definition is_err (s : blk_status) : bool := match s with BLK_STS_ERR _ => true | _ => false end.

(** [g] is a log of calls for the requests [l] that left [rest]: all calls but
    possibly the last were final, and a busy answer is for the first request
    that is left. *)
Definition log_of (l rest : list rqid) (g : list (rqid * bool * blk_status)) : Prop :=
  consumed g ++ rest = l
  /\ (forall g1 x g2, g = g1 ++ x :: g2 -> is_busy x.2 = true ->
        g2 = [] /\ head rest = Some x.1.1).

Section loop.
Context {bt : BlkTypes} {mk : MqKernel} {sch : MqSched} {ops : MqOps} {mm : MqMisc}.

Lemma log_of_nil l : log_of l l [].
Proof. split; [done|]. intros g1 x g2 H. by destruct g1. Qed.

Lemma log_of_busy r rest last ret :
  is_busy ret = true -> log_of (r :: rest) (r :: rest) [(r, last, ret)].
Proof.
  intros Hb. split; [unfold consumed; simpl; by rewrite Hb|].
  intros [|y g1] x g2; simpl; intros [= <- Hg]; [by subst|]. by destruct g1.
Qed.

Lemma log_of_cons r rest rest' last ret g :
  is_busy ret = false -> log_of rest rest' g -> log_of (r :: rest) rest' ((r, last, ret) :: g).
Proof.
  intros Hb [Hc Hl]. split; [unfold consumed in *; simpl; rewrite Hb; simpl; f_equal; exact Hc|].
  intros [|y g1] x g2; simpl; intros [= <- Hg] Hx; [simpl in Hx; congruence|]. by eapply Hl.
Qed.

(** A call that was final either took the request or failed. *)
Lemma consumed_count g :
  consumed g <> [] -> 0 + count_status is_ok g + (0 + count_status is_err g) <> 0.
Proof.
  unfold count_status. induction g as [|[[r last] ret] g IH]; [done|].
  unfold consumed in *. destruct ret; simpl; try lia; intros H; by apply IH.
Qed.

Lemma dispatch_loop_log got l d d' :
  dispatch_loop got l d = Some d' ->
  exists g, ds_log d' = ds_log d ++ g /\ log_of l (ds_list d') g
    /\ ds_queued d' = ds_queued d + count_status is_ok g
    /\ ds_errors d' = ds_errors d + count_status is_err g.
Proof.
  revert d. induction l as [|r rest IH]; intros d H; simpl in H.
  { inv_some. subst d'. exists []. simpl. rewrite app_nil_r. unfold count_status. simpl.
    split; [done|]. split; [apply log_of_nil|]. lia. }
  apply bind_Some in H as (rq & Hrq & H). apply bind_Some in H as (i & Hi & H).
  match type of H with (let '(_, _) := ?e in _) = _ => destruct e as [budget q] end.
  destruct budget; simpl in H; [|inv_some; subst d'; exists []; simpl; rewrite app_nil_r;
    unfold count_status; simpl; split; [done|]; split; [apply log_of_nil|]; lia].
  apply bind_Some in H as ([ok q2] & Hok & H). destruct ok; simpl in H.
  2: { inv_some. subst d'. exists []. simpl. rewrite app_nil_r. unfold count_status. simpl.
       split; [done|]. split; [apply log_of_nil|]. lia. }
  apply bind_Some in H as ([last q3] & Hlast & H).
  destruct (queue_rq i r last q3) as [ret q4] eqn:Hq.
  assert (forall d1, dispatch_loop got rest d1 = Some d' -> is_busy ret = false ->
    ds_log d1 = ds_log d ++ [(r, last, ret)] ->
    ds_queued d1 = ds_queued d + count_status is_ok [(r, last, ret)] ->
    ds_errors d1 = ds_errors d + count_status is_err [(r, last, ret)] ->
    exists g, ds_log d' = ds_log d ++ g /\ log_of (r :: rest) (ds_list d') g
      /\ ds_queued d' = ds_queued d + count_status is_ok g
      /\ ds_errors d' = ds_errors d + count_status is_err g) as Hrec.
  { intros d1 H1 Hb Hlog Hqu Her. apply IH in H1 as (g & E1 & E2 & E3 & E4).
    exists ((r, last, ret) :: g). rewrite E1, E3, E4, Hlog, Hqu, Her, <- app_assoc.
    split; [done|]. split; [by apply log_of_cons|]. unfold count_status. simpl.
    destruct (is_ok ret), (is_err ret); simpl; lia. }
  destruct ret as [| | |code]; simpl in H.
  - eapply Hrec; [exact H|done|done|..]; unfold count_status; simpl; lia.
  - inv_some. subst d'. exists [(r, last, BLK_STS_RESOURCE)]. unfold count_status. simpl.
    split; [done|]. split; [by apply log_of_busy|]. lia.
  - inv_some. subst d'. exists [(r, last, BLK_STS_DEV_RESOURCE)]. unfold count_status. simpl.
    split; [done|]. split; [by apply log_of_busy|]. lia.
  - apply bind_Some in H as ([q5 s5] & Hend & H).
    eapply Hrec; [exact H|done|done|..]; unfold count_status; simpl; lia.
Qed.

(** The last answer of the driver was not busy when everything was consumed. *)
Lemma dispatch_loop_ret got l d d' :
  dispatch_loop got l d = Some d' -> is_busy (ds_ret d) = false -> ds_list d' = [] ->
  is_busy (ds_ret d') = false.
Proof.
  revert d. induction l as [|r rest IH]; intros d H Hb Hl; simpl in H; [by inv_some; subst|].
  apply bind_Some in H as (rq & Hrq & H). apply bind_Some in H as (i & Hi & H).
  match type of H with (let '(_, _) := ?e in _) = _ => destruct e as [budget q] end.
  destruct budget; simpl in H; [|by inv_some; subst].
  apply bind_Some in H as ([ok q2] & Hok & H). destruct ok; simpl in H; [|by inv_some; subst].
  apply bind_Some in H as ([last q3] & Hlast & H).
  destruct (queue_rq i r last q3) as [ret q4] eqn:Hq.
  destruct ret as [| | |code]; simpl in H; [by eapply IH|by inv_some; subst..|].
  apply bind_Some in H as ([q5 s5] & Hend & H). by eapply IH.
Qed.

(** The queue when what is left is put on the dispatch list: the driver has been
    told that no more requests follow. *)
Definition committed_queue (d : disp) : request_queue :=
  match commit_rqs with Some f => f (ds_hctx d) (ds_q d) | None => ds_q d end.

(** How hardware queue [i] is run again, [q] with the list on it.  [mark]: the
    scheduler core restarts it when a request is released; [lost_tag]: no driver tag
    was free, and the wait for one is over. *)
Record rerun (i : Z) (d : disp) (h h' : blk_mq_hw_ctx) (q : request_queue) : Prop := {
  rr_now : blk_mq_sched_needs_restart i q = false \/ ds_no_tag d = true /\ dispatch_wait h = false ->
    blk_mq_hctx_stopped h = false -> blk_queue_quiesced q = false -> is_Some (run_work h');
  rr_delayed : ds_ret d = BLK_STS_RESOURCE -> blk_mq_sched_needs_restart i q = true ->
    ds_no_tag d = false \/ dispatch_wait h = true -> blk_mq_hctx_stopped h = false -> is_Some (run_work h');
  rr_marked : ds_ret d <> BLK_STS_RESOURCE -> blk_mq_sched_needs_restart i q = true ->
    ds_no_tag d = false \/ dispatch_wait h = true -> run_work h' = run_work h;
  rr_stopped : blk_mq_hctx_stopped h = true -> run_work h' = run_work h;
}.

Lemma update_busy_frame i busy q q' h :
  blk_mq_update_dispatch_busy i busy q = Some q' -> aget (queue_hw_ctx q) i = Some h ->
  exists h', aget (queue_hw_ctx q') i = Some h' /\ dispatch h' = dispatch h
    /\ run_work h' = run_work h.
Proof.
  unfold blk_mq_update_dispatch_busy. intros H Hh. destruct (elevator q); [inv_some; subst; eauto|].
  unfold mod_hctx in H. rewrite Hh in H. cbn [mbind option_bind] in H.
  injection H as <-. eexists. split; [apply aget_set_hctx_eq; by apply aget_Some in Hh|]. done.
Qed.

Lemma delay_run_async e i ms q h :
  aget (queue_hw_ctx q) i = Some h ->
  exists q' h', blk_mq_delay_run_hw_queue e i ms q = Some q' /\ aget (queue_hw_ctx q') i = Some h'
    /\ dispatch h' = dispatch h /\ (blk_mq_hctx_stopped h = false -> is_Some (run_work h'))
    /\ (blk_mq_hctx_stopped h = true -> run_work h' = run_work h).
Proof.
  intros Hh. unfold blk_mq_delay_run_hw_queue, blk_mq_delay_run_hw_queue_inner. rewrite Hh. simpl.
  destruct (blk_mq_hctx_stopped h) eqn:E; [by exists q, h|].
  pose proof (next_cpu_frame e (nr_hw_queues q) h) as (F1 & _).
  destruct (blk_mq_hctx_next_cpu e (nr_hw_queues q) h) as [c h1]. simpl in F1.
  eexists _, _. split; [reflexivity|]. rewrite aget_set_hctx_eq by (by apply aget_Some in Hh).
  split; [reflexivity|]. simpl. split; [done|]. split; [eauto|done].
Qed.

(** A run of a queue with requests. *)
Lemma run_now e i q h :
  aget (queue_hw_ctx q) i = Some h -> has_requests h = true ->
  exists b q' h', blk_mq_run_hw_queue e i true q = Some (b, q') /\ aget (queue_hw_ctx q') i = Some h'
    /\ dispatch h' = dispatch h
    /\ (blk_mq_hctx_stopped h = false -> blk_queue_quiesced q = false -> is_Some (run_work h'))
    /\ (blk_mq_hctx_stopped h = true -> run_work h' = run_work h).
Proof.
  intros Hh Hreq. unfold blk_mq_run_hw_queue. destruct (blk_queue_quiesced q) eqn:Hq; simpl.
  { exists false, q, h. done. }
  unfold blk_mq_hctx_has_pending. rewrite Hh. simpl. fold (has_requests h). rewrite Hreq. simpl.
  destruct (delay_run_async e i 0 q h Hh) as (q' & h' & E & H1 & H2 & H3 & H4).
  unfold blk_mq_delay_run_hw_queue in E. rewrite E. simpl. exists true, q', h'. split; [done|]. split; [done|]. split; [done|]. split; [by intros ?%H3|done].
Qed.

Lemma leftover_ok e d q' :
  ds_list d <> [] -> dispatch_leftover e d = Some q' ->
  exists h h', aget (queue_hw_ctx (committed_queue d)) (ds_hctx d) = Some h
    /\ aget (queue_hw_ctx q') (ds_hctx d) = Some h' /\ dispatch h' = dispatch h ++ ds_list d
    /\ rerun (ds_hctx d) d h h'
         (set_hctx (ds_hctx d) (h <| dispatch ::= fun l => l ++ ds_list d |>) (committed_queue d)).
Proof.
  intros Hne H. unfold dispatch_leftover in H. fold (committed_queue d) in H.
  set (i := ds_hctx d) in *. unfold mod_hctx in H.
  destruct (aget (queue_hw_ctx (committed_queue d)) i) as [h|] eqn:Hh; [|done]. cbn [mbind option_bind] in H.
  set (h1 := h <| dispatch ::= fun l => l ++ ds_list d |>) in *.
  set (q1 := set_hctx i h1 (committed_queue d)) in *.
  assert (aget (queue_hw_ctx q1) i = Some h1) as Hh1
    by (apply aget_set_hctx_eq; by apply aget_Some in Hh).
  rewrite Hh1 in H. cbn [mbind option_bind] in H.
  assert (has_requests h1 = true) as Hreq.
  { unfold has_requests. simpl. rewrite bool_decide_false; [done|]. by intros [_ ?]%app_eq_nil. }
  assert (exists q2 h2, (if negb (blk_mq_sched_needs_restart i q1) || ds_no_tag d && negb (dispatch_wait h1)
      then '(_, q) ← blk_mq_run_hw_queue e i true q1; Some q
      else match ds_ret d with
           | BLK_STS_RESOURCE => blk_mq_delay_run_hw_queue e i BLK_MQ_RESOURCE_DELAY q1
           | _ => Some q1 end) = Some q2
    /\ aget (queue_hw_ctx q2) i = Some h2 /\ dispatch h2 = dispatch h1 /\ rerun i d h h2 q1)
    as (q2 & h2 & E & Hh2 & Hd2 & Hw2).
  { destruct (negb (blk_mq_sched_needs_restart i q1) || _) eqn:Er;
      change (dispatch_wait h1) with (dispatch_wait h) in Er.
    - destruct (run_now e i q1 h1) as (b & q2 & h2 & -> & D1 & D2 & D3 & D4); [done|done|]. simpl.
      exists q2, h2. split; [done|]. split; [done|]. split; [done|].
      apply orb_true_iff in Er. rewrite negb_true_iff, andb_true_iff, negb_true_iff in Er.
      constructor; [by intros _|..|done]; intros _ Hm Hw; exfalso;
        (destruct Er as [Er|[Er1 Er2]]; [congruence|destruct Hw; congruence]).
    - apply orb_false_iff in Er as [Er%negb_false_iff Er2]. apply andb_false_iff in Er2. rewrite negb_false_iff in Er2.
      assert (ds_ret d = BLK_STS_RESOURCE \/ ds_ret d <> BLK_STS_RESOURCE) as [Eret|Eret]
        by (destruct (ds_ret d); (by left) || by right).
      + rewrite Eret.
        destruct (delay_run_async e i BLK_MQ_RESOURCE_DELAY q1 h1 Hh1) as (q2 & h2 & -> & G1 & G2 & G3 & G4).
        exists q2, h2. split; [done|]. split; [done|]. split; [done|]. constructor; try done. by intros _ Hst _; apply G3.
      + exists q1, h1. split; [by destruct (ds_ret d)|]. split; [done|]. split; [done|].
        constructor; try done. intros [Hm|[Hm1 Hm2]]; [congruence|]. destruct Er2; congruence. }
  rewrite E in H. cbn [mbind option_bind] in H.
  destruct (update_busy_frame i true q2 q' h2 H Hh2) as (h3 & Hh3 & Hd3 & Hw3).
  exists h, h3. split; [done|]. split; [done|]. split; [by rewrite Hd3, Hd2|].
  destruct Hw2 as [W1 W2 W3 W4]. constructor; rewrite Hw3; done.
Qed.
End loop.

(** ** The dispatch of a list *)

Section dispatch_list.
Context {bt : BlkTypes} {mk : MqKernel} {sch : MqSched} {ops : MqOps} {mm : MqMisc}.

(** C27: dispatch is in order and loses nothing.  The requests that the driver
    took or that were ended with an error, followed by those that are left,
    are the list in its order; the driver is not called again after it
    answered busy, and the request it was busy for is the first that is left.
    The call reports progress ([true]) exactly when nothing is left of a
    non-empty list. *)
Theorem dispatch_in_order e l got q s b q' s' d :
  blk_mq_dispatch_rq_list e l got q s = Some (b, q', s', d) ->
  log_of l (ds_list d) (ds_log d)
  /\ ds_queued d = count_status is_ok (ds_log d)
  /\ ds_errors d = count_status is_err (ds_log d)
  /\ b = negb (bool_decide (l = [])) && bool_decide (ds_list d = []).
Proof.
  unfold blk_mq_dispatch_rq_list. case_bool_decide as El.
  { intros H. injection H as <- <- <- <-. simpl. split; [apply log_of_nil|done]. }
  intros H. apply bind_Some in H as (d1 & Hd & H).
  pose proof (dispatch_loop_ret _ _ _ _ Hd eq_refl) as Hret.
  apply dispatch_loop_log in Hd as (g & E1 & E2 & E3 & E4). simpl in E1, E3, E4. subst g.
  apply bind_Some in H as (h & Hh & H). apply bind_Some in H as (hist & Hhist & H).
  case_bool_decide as Er; apply bind_Some in H as (q2 & _ & H); injection H as <- _ _ <-; simpl in Er |- *.
  - split; [exact E2|]. split; [exact E3|]. split; [exact E4|].
    rewrite (bool_decide_true (ds_list d1 = [])), Hret by done. simpl. unfold c_true.
    rewrite E3, E4. destruct E2 as [Ec _]. rewrite Er, app_nil_r in Ec. rewrite <- Ec in El.
    apply negb_true_iff, Z.eqb_neq. by apply consumed_count.
  - rewrite bool_decide_false by done. done.
Qed.

(** The state from which [dispatch_leftover] starts. *)
Lemma dispatch_rq_list_leftover e l got q s b q' s' d :
  blk_mq_dispatch_rq_list e l got q s = Some (b, q', s', d) -> l <> [] -> ds_list d <> [] ->
  is_Some (aget (queue_hw_ctx (ds_q d)) (ds_hctx d)) /\ dispatch_leftover e d = Some q'.
Proof.
  unfold blk_mq_dispatch_rq_list. intros H Hl Hne. rewrite bool_decide_false in H by done.
  apply bind_Some in H as (d1 & Hd & H).
  apply bind_Some in H as (h & Hh & H). apply bind_Some in H as (hist & Hhist & H).
  case_bool_decide as Er; apply bind_Some in H as (q2 & Hq2 & H); injection H as _ <- _ <-.
  - done.
  - split; [|exact Hq2]. eexists. cbn [ds_q ds_hctx]. apply aget_set_hctx_eq. by apply aget_Some in Hh.
Qed.

End dispatch_list.

(** ** The busy estimate *)

Lemma busy_step e busy : 0 <= e <= 9 -> 0 <= dispatch_busy_ewma e busy <= 9.
Proof.
  intros He. unfold dispatch_busy_ewma, u32. change (Z.shiftl 1 4) with 16.
  destruct busy; simpl; rewrite ?andb_true_r, ?andb_false_r.
  - rewrite !Z.mod_small by (rewrite ?Z.mod_small by lia; lia). Z.div_mod_to_equations. lia.
  - destruct (e =? 0) eqn:E; [lia|]. rewrite Z.mod_small by lia. Z.div_mod_to_equations. lia.
Qed.

Lemma busy_fold l e :
  0 <= e <= 9 -> 0 <= foldl dispatch_busy_ewma e l <= 9.
Proof. revert e. induction l as [|b l IH]; intros e He; [done|]. by apply IH, busy_step. Qed.

(** The busy estimate is bounded and reacts.  Whatever sequence of busy and
    successful dispatches a hardware queue has seen since it was created, the
    estimate is between 0 and 9; a busy dispatch makes it positive, which turns
    direct issue off, and eight dispatches in a row that are not busy bring it
    back to 0. *)
Lemma dispatch_busy_bounded l :
  let e := foldl dispatch_busy_ewma (dispatch_busy hctx0) l in
  0 <= e <= 9 /\ 0 < dispatch_busy_ewma e true
  /\ foldl dispatch_busy_ewma e (replicate 8 false) = 0.
Proof.
  intros e. assert (0 <= e <= 9) as He by (by apply busy_fold).
  split; [done|]. clearbody e.
  assert (e ∈ seqZ 0 10) as Hin by (apply elem_of_seqZ; lia).
  assert (Forall (fun e => 0 < dispatch_busy_ewma e true
    /\ foldl dispatch_busy_ewma e (replicate 8 false) = 0) (seqZ 0 10)) as Hall
    by (apply (bool_decide_unpack _); vm_compute; exact I).
  rewrite Forall_forall in Hall. by apply Hall.
Qed.

(** ** A driver that takes one request and then runs out of memory *)

Definition ex_ops : MqOps := {|
  queue_rq := fun _ r _ q => (if r =? 100 then BLK_STS_OK else BLK_STS_RESOURCE, q);
  commit_rqs := None;
  get_budget := None;
  put_budget := None;
|}.
Definition ex_misc : MqMisc := {|
  blk_mq_tag_is_reserved := fun t x => x <? nr_reserved_tags t;
  BLK_STS_IOERR := 10;
  blk_add_timer := fun rq => rq <| deadline := 30000 |>;
  blk_rq_bio_prep := fun rq b n =>
    rq <| rq_bio := Some b |> <| data_len := bi_size b |> <| nr_phys_segments := n |>;
|}.

Definition ex_rq (t : Z) : request :=
  request0 <| mq_hctx := Some 0 |> <| tag := t |> <| internal_tag := -1 |>.
Definition ex_queue_disp : request_queue :=
  ex_queue_tags <| q_rqs := <[102 := ex_rq 2]> (<[101 := ex_rq 1]> (<[100 := ex_rq 0]> ∅)) |>.

Lemma dispatch_in_order_witness :
  exists b q' s' d,
    @blk_mq_dispatch_rq_list linux_5_4 ex_kernel ex_sched ex_ops ex_misc ex_run_env [100; 101; 102] false
      ex_queue_disp bsw_init = Some (b, q', s', d)
    /\ log_of [100; 101; 102] (ds_list d) (ds_log d) /\ ds_list d = [101; 102] /\ b = false.
Proof.
  destruct (@blk_mq_dispatch_rq_list linux_5_4 ex_kernel ex_sched ex_ops ex_misc ex_run_env [100; 101; 102]
    false ex_queue_disp bsw_init) as [[[[b q'] s'] d]|] eqn:E; [|by vm_compute in E].
  destruct (@dispatch_in_order linux_5_4 ex_kernel ex_sched ex_ops ex_misc _ _ _ _ _ _ _ _ _ E)
    as (H1 & H2 & H3 & H4).
  exists b, q', s', d. split; [done|]. split; [done|].
  vm_compute in E. by injection E as <- <- <- <-.
Defined.

