(* ===== verification/BlkMqTimeout.v ===== *)
(** * Completion, time-outs and requests in flight

    [blk_mq_complete_request], the time-out work and the iterations over the
    requests that hold a tag, of block/blk-mq.c.  The iteration itself
    ([blk_mq_queue_tag_busy_iter] of blk-mq-tag.c), the time-out handler of the
    driver and the clock enter through the class [MqTimeout]. *)
From S2P Require Import Prelude MqTypes BlkSwitch BlkMqAlloc BlkMqRun BlkMqInsert BlkMqDispatch.

(** What the driver tells about a request that timed out. *)
Inductive blk_eh_timer_return := BLK_EH_DONE | BLK_EH_RESET_TIMER.

Class MqTimeout := {
  jiffies : Z;
  (* struct blk_mq_ops *)
  op_timeout : option (rqid -> bool -> request_queue -> blk_eh_timer_return * request_queue);
  op_complete : rqid -> request_queue -> request_queue;
  (* hardware queue, address and reserved mark of every request that holds a tag *)
  busy_tags : request_queue -> list (Z * rqid * bool);
  is_flush_rq : rqid -> Z -> bool;
  blk_mq_tag_idle : Z -> request_queue -> request_queue;
  cpus_share_cache : Z -> Z -> bool;
  blk_should_fake_timeout : bool;
}.

(** [blk_mq_queue_tag_busy_iter]: [fn] is called until it returns false. *)
Fixpoint tag_iter {S} (fn : Z -> rqid -> bool -> S -> option (bool * S)) (l : list (Z * rqid * bool)) (s : S)
  : option S :=
  match l with
  | [] => Some s
  | (h, r, reserved) :: l => '(go, s) ← fn h r reserved s; if go : bool then tag_iter fn l s else Some s
  end.

Section timeout.
Context {bt : BlkTypes} {mk : MqKernel} {mm : MqMisc} {mt : MqTimeout}.

(** ** Completion *)

(** Where a request is completed: by the softirq, here, or by an interrupt of
    another CPU. *)
Inductive completion := Softirq | Local | Remote (c : Z).

Definition blk_mq_complete_request_remote (r : rqid) (q : request_queue) : request_queue := op_complete r q.

(** [__blk_mq_complete_request] on CPU [this_cpu]. *)
Definition blk_mq_complete_request_inner (e : run_env) (r : rqid) (q : request_queue)
  : option (completion * request_queue) :=
  rq ← q_rqs q !! r; ctx ← aget (queue_ctx q) (mq_ctx rq);
  let q := set_rq r (rq <| rq_state := MQ_RQ_COMPLETE |>) q in
  if nr_hw_queues q =? 1 then Some (Softirq, q)
  else if has_flag (cmd_flags rq) REQ_HIPRI || negb (test_bit QUEUE_FLAG_SAME_COMP (queue_flags q))
  then Some (Local, op_complete r q)
  else
    let shared := if negb (test_bit QUEUE_FLAG_SAME_FORCE (queue_flags q))
                  then cpus_share_cache (r_cpu e) (cpu ctx) else false in
    if negb (r_cpu e =? cpu ctx) && negb shared && cpu_online e (cpu ctx)
    then Some (Remote (cpu ctx), q)
    else Some (Local, op_complete r q).

Definition blk_mq_complete_request (e : run_env) (r : rqid) (q : request_queue)
  : option (bool * option completion * request_queue) :=
  if blk_should_fake_timeout then Some (false, None, q)
  else '(w, q) ← blk_mq_complete_request_inner e r q; Some (true, Some w, q).

(** ** Requests in flight *)

Definition blk_mq_rq_inflight (r : rqid) (q : request_queue) (busy : bool) : option (bool * bool) :=
  rq ← q_rqs q !! r;
  if bool_decide (rq_state rq = MQ_RQ_IN_FLIGHT) then Some (false, true) else Some (true, busy).

Definition blk_mq_queue_inflight (q : request_queue) : option bool :=
  tag_iter (fun _ r _ => blk_mq_rq_inflight r q) (busy_tags q) false.

Definition blk_mq_check_inflight (pt : option Z) (r : rqid) (q : request_queue) (n : Z) : option (bool * Z) :=
  rq ← q_rqs q !! r; Some (true, if bool_decide (part rq = pt) then u32 (n + 1) else n).

Definition blk_mq_in_flight (pt : option Z) (q : request_queue) : option Z :=
  tag_iter (fun _ r _ => blk_mq_check_inflight pt r q) (busy_tags q) 0.

Definition blk_mq_check_inflight_rw (pt : option Z) (r : rqid) (q : request_queue) (n : Z * Z)
  : option (bool * (Z * Z)) :=
  rq ← q_rqs q !! r;
  Some (true, if bool_decide (part rq = pt)
              then if op_is_write (cmd_flags rq) then (n.1, u32 (n.2 + 1)) else (u32 (n.1 + 1), n.2)
              else n).

Definition blk_mq_in_flight_rw (pt : option Z) (q : request_queue) : option (Z * Z) :=
  tag_iter (fun _ r _ => blk_mq_check_inflight_rw pt r q) (busy_tags q) (0, 0).

(** ** Time-outs *)

Definition blk_mq_rq_timed_out (r : rqid) (reserved : bool) (q : request_queue) : option request_queue :=
  q ← mod_rq r (fun rq => rq <| rq_flags ::= fun f => Z.lor f RQF_TIMED_OUT |>) q;
  match op_timeout with
  | Some f =>
    match f r reserved q with
    | (BLK_EH_DONE, q) => Some q
    | (BLK_EH_RESET_TIMER, q) => mod_rq r blk_add_timer q
    end
  | None => mod_rq r blk_add_timer q
  end.

(** Whether the request has expired, and the next deadline. *)
Definition blk_mq_req_expired (rq : request) (next : Z) : bool * Z :=
  if negb (bool_decide (rq_state rq = MQ_RQ_IN_FLIGHT)) then (false, next)
  else if has_flag (rq_flags rq) RQF_TIMED_OUT then (false, next)
  else if time_after_eq jiffies (deadline rq) then (true, next)
  else if next =? 0 then (false, deadline rq)
  else if time_after next (deadline rq) then (false, deadline rq)
  else (false, next).

(** The state of the iteration; [tw_log] are the requests handed to the driver,
    the last first. *)
Record tw_state := mk_tw {
  tw_next : Z;
  tw_q : request_queue;
  tw_log : list rqid;
}.

(** The end of the callback: its reference is dropped. *)
Definition put_expired (h : Z) (r : rqid) (q : request_queue) : option request_queue :=
  if is_flush_rq r h then Some (call_end_io r 0 q)
  else
    rq ← q_rqs q !! r;
    let rq := rq <| ref ::= fun n => n - 1 |> in
    let q := set_rq r rq q in
    if ref rq =? 0 then blk_mq_free_request_final r q else Some q.

Definition blk_mq_check_expired (h : Z) (r : rqid) (reserved : bool) (s : tw_state) : option (bool * tw_state) :=
  rq ← q_rqs (tw_q s) !! r;
  let '(expired, next) := blk_mq_req_expired rq (tw_next s) in
  if negb expired then Some (true, mk_tw next (tw_q s) (tw_log s))
  else if ref rq =? 0 then Some (true, mk_tw next (tw_q s) (tw_log s))
  else
    let rq := rq <| ref ::= fun n => n + 1 |> in
    let q := set_rq r rq (tw_q s) in
    let '(expired, next) := blk_mq_req_expired rq next in
    q ← (if expired : bool then blk_mq_rq_timed_out r reserved q else Some q);
    q ← put_expired h r q;
    Some (true, mk_tw next q (if expired then r :: tw_log s else tw_log s)).

(** The hardware queues that are mapped are marked idle. *)
Definition mark_idle (q : request_queue) : option request_queue :=
  foldM (fun q i => h ← aget (queue_hw_ctx q) i;
                    Some (if blk_mq_hw_queue_mapped h then blk_mq_tag_idle i q else q))
    q (seqZ 0 (nr_hw_queues q)).

(** The time for which the timer of the queue is set, the queue, and the
    requests handed to the driver.  [percpu_ref_tryget] fails once the usage
    counter has reached zero. *)
Definition blk_mq_timeout_work (q : request_queue) : option (option Z * request_queue * list rqid) :=
  if queue_frozen q then Some (None, q, [])
  else
    let q := blk_queue_enter_live q in
    s ← tag_iter blk_mq_check_expired (busy_tags q) (mk_tw 0 q []);
    if negb (tw_next s =? 0) then Some (Some (tw_next s), blk_queue_exit (tw_q s), tw_log s)
    else q ← mark_idle (tw_q s); Some (None, blk_queue_exit q, tw_log s).
End timeout.
