(* ===== verification/BlkMqTimeoutSpec.v ===== *)
(** * The time-out work: theorem

    The requests handed to the driver are those whose deadline has passed, and
    the timer of the queue is set so that no other request is forgotten. *)
From S2P Require Import Prelude MqTypes BlkSwitch BlkMqAlloc BlkMqAllocSpec BlkMqRun BlkMqInsert BlkMqDispatch BlkMqTimeout.

(** The tags of each hardware queue. *)
Definition hw_tags (q : request_queue) : list (option Z * option Z) :=
  (fun h => (tags h, sched_tags h)) <$> queue_hw_ctx q.

(** What the release of a request reads is there. *)
Definition releasable (q : request_queue) (rq : request) : Prop :=
  exists hi tg stg, mq_hctx rq = Some hi /\ aget (hw_tags q) hi = Some (tg, stg) /\
    (tag rq <> -1 -> exists ti, tg = Some ti /\ 0 <= ti < Z.of_nat (length (q_tags q))) /\
    (internal_tag rq <> -1 -> exists ti, stg = Some ti /\ 0 <= ti < Z.of_nat (length (q_tags q))).

(** A handler keeps a request that somebody else holds a reference on; other
    requests it leaves alone or completes. *)
Definition only_completes (r : rqid) (q q' : request_queue) : Prop :=
  forall r' rq, r' <> r -> q_rqs q !! r' = Some rq ->
  exists rq', q_rqs q' !! r' = Some rq' /\ (rq' = rq \/ rq_state rq' <> MQ_RQ_IN_FLIGHT).

Definition same_hw (q q' : request_queue) : Prop :=
  hw_tags q' = hw_tags q /\ length (q_tags q') = length (q_tags q) /\
  length (queue_hw_ctx q') = length (queue_hw_ctx q).

Definition same_ids (rq rq' : request) : Prop :=
  mq_hctx rq' = mq_hctx rq /\ tag rq' = tag rq /\ internal_tag rq' = internal_tag rq.

Class MqTimeoutLaws {mm : MqMisc} (mt : MqTimeout) : Prop := {
  timeout_handler : forall f r reserved q rq ret q', op_timeout = Some f -> q_rqs q !! r = Some rq -> 2 <= ref rq ->
    f r reserved q = (ret, q') ->
    only_completes r q q' /\ same_hw q q' /\
    exists rq', q_rqs q' !! r = Some rq' /\ 1 <= ref rq' /\ same_ids rq rq';
  tag_idle_core : forall i q, core (blk_mq_tag_idle i q) = core q;
  add_timer_keeps : forall rq, ref (blk_add_timer rq) = ref rq /\ same_ids rq (blk_add_timer rq);
}.

Section spec.
Context {mk : MqKernel} {mkl : MqKernelLaws mk} {mm : MqMisc} {mt : MqTimeout} {mtl : MqTimeoutLaws mt}.

(** In flight and not yet handed to the driver; expired, or pending. *)
Definition awaited (rq : request) : bool :=
  bool_decide (rq_state rq = MQ_RQ_IN_FLIGHT) && negb (has_flag (rq_flags rq) RQF_TIMED_OUT).
Definition expired (rq : request) : bool := awaited rq && time_after_eq jiffies (deadline rq).
Definition pending (rq : request) : bool := awaited rq && negb (time_after_eq jiffies (deadline rq)).

Definition next_deadline (next : Z) (rq : request) : Z :=
  if next =? 0 then deadline rq else if time_after next (deadline rq) then deadline rq else next.

Lemma req_expired_eq rq next :
  blk_mq_req_expired rq next = (expired rq, if pending rq then next_deadline next rq else next).
Proof.
  unfold blk_mq_req_expired, expired, pending, awaited, next_deadline.
  destruct (bool_decide _), (has_flag _ _), (time_after_eq _ _), (next =? 0),
    (time_after next (deadline rq)); done.
Qed.

(** ** Release *)

Lemma core_hw q q' : core q' = core q -> same_hw q q'.
Proof.
  intros H. split_and!.
  - exact (core_hctxs q' q (fun h => (tags h, sched_tags h)) (fun _ => eq_refl) H).
  - pose proof (f_equal (fun q => length (q_tags q)) H) as E. simpl in E. by rewrite !length_fmap in E.
  - pose proof (f_equal (fun q => length (queue_hw_ctx q)) H) as E. simpl in E. by rewrite !length_fmap in E.
Qed.

#[global] Instance same_hw_preorder : PreOrder same_hw.
Proof.
  split; [done|]. intros q1 q2 q3 (A1 & A2 & A3) (B1 & B2 & B3). split_and!; congruence.
Qed.

(** A release of a tag changes the bitmap of the tags only. *)
Lemma put_tag_keeps ti x q :
  0 <= ti < Z.of_nat (length (q_tags q)) ->
  same_hw q (blk_mq_put_tag ti x q) /\ q_rqs (blk_mq_put_tag ti x q) = q_rqs q.
Proof.
  intros H. destruct (aget_lt (q_tags q) ti H) as [t Ht]. rewrite (put_tag_ok ti x t q Ht).
  split; [|done]. split_and!; [done| |done]. simpl. apply length_insert.
Qed.

Lemma free_final_keeps r q rq :
  q_rqs q !! r = Some rq -> releasable q rq ->
  exists q', blk_mq_free_request_final r q = Some q' /\ same_hw q q' /\
    q_rqs q' = <[r := rq <| mq_hctx := None |>]> (q_rqs q).
Proof.
  intros Hr (hi & tg & stg & Hh & Ht & H1 & H2). unfold blk_mq_free_request_final. rewrite Hr. cbn [mbind option_bind].
  rewrite Hh. cbn [mbind option_bind]. unfold hw_tags in Ht. rewrite aget_fmap in Ht. apply fmap_Some in Ht as (h & Hhi & Eh).
  injection Eh as -> ->. rewrite Hhi. cbn [mbind option_bind]. set (q1 := set_rq r _ q).
  assert (S1 : same_hw q q1) by done.
  assert (H : exists q2, (if tag rq =? -1 then Some q1 else ti ← tags h; Some (blk_mq_put_tag ti (tag rq) q1)) = Some q2 /\
    same_hw q q2 /\ q_rqs q2 = q_rqs q1).
  { destruct (Z.eqb_spec (tag rq) (-1)); [by exists q1|]. destruct (H1 n) as (ti & -> & Hti). cbn [mbind option_bind].
    destruct (put_tag_keeps ti (tag rq) q1 Hti) as [P1 P2]. eexists; split_and!; [done|by etrans|done]. }
  destruct H as (q2 & -> & S2 & R2). cbn [mbind option_bind].
  assert (H : exists q3, (if internal_tag rq =? -1 then Some q2
    else ti ← sched_tags h; Some (blk_mq_put_tag ti (internal_tag rq) q2)) = Some q3 /\ same_hw q q3 /\ q_rqs q3 = q_rqs q1).
  { destruct (Z.eqb_spec (internal_tag rq) (-1)); [by exists q2|]. destruct (H2 n) as (ti & -> & Hti). cbn [mbind option_bind].
    destruct (put_tag_keeps ti (internal_tag rq) q2) as [P1 P2]; [destruct S2 as (_ & -> & _); done|].
    eexists; split_and!; [done|by etrans|by rewrite P2]. }
  destruct H as (q3 & -> & S3 & R3). cbn [mbind option_bind]. eexists; split_and!; [done| |].
  - etrans; [exact S3|]. exact (core_hw _ _ (sched_restart_core hi q3)).
  - change (q_rqs (blk_mq_sched_restart hi q3) = q_rqs q1). by rewrite (core_rqs _ _ (sched_restart_core hi q3)).
Qed.

Lemma releasable_hw q q' rq rq' : same_hw q q' -> same_ids rq rq' -> releasable q rq -> releasable q' rq'.
Proof.
  intros (E1 & E2 & _) (F1 & F2 & F3) (hi & tg & stg & H). exists hi, tg, stg. by rewrite E1, E2, F1, F2, F3.
Qed.

Lemma only_completes_refl r q q' : (forall r', r' <> r -> q_rqs q' !! r' = q_rqs q !! r') -> only_completes r q q'.
Proof. intros H r' rq Hne Hr. exists rq. split; [by rewrite H|by left]. Qed.

Lemma only_completes_trans r q1 q2 q3 : only_completes r q1 q2 -> only_completes r q2 q3 -> only_completes r q1 q3.
Proof.
  intros H1 H2 r' rq Hne Hr. destruct (H1 r' rq Hne Hr) as (rq2 & Hr2 & E2). destruct (H2 r' rq2 Hne Hr2) as (rq3 & Hr3 & E3).
  exists rq3. split; [done|]. destruct E3 as [->|]; [|by right]. done.
Qed.

(** ** One request *)

Lemma timed_out_keeps r reserved q rq :
  q_rqs q !! r = Some rq -> 2 <= ref rq -> releasable q rq ->
  exists q', blk_mq_rq_timed_out r reserved q = Some q' /\ only_completes r q q' /\ same_hw q q' /\
    exists rq', q_rqs q' !! r = Some rq' /\ 1 <= ref rq' /\ releasable q' rq'.
Proof.
  intros Hr Href Hrel. unfold blk_mq_rq_timed_out, mod_rq. rewrite Hr. cbn [mbind option_bind].
  set (rq1 := rq <| rq_flags ::= _ |>). set (q1 := set_rq r rq1 q).
  assert (Hr1 : q_rqs q1 !! r = Some rq1) by apply lookup_insert_eq.
  assert (C1 : only_completes r q q1) by (apply only_completes_refl; intros r' Hne; by apply lookup_insert_ne).
  assert (Htimer : forall q2 rq2, only_completes r q q2 -> same_hw q q2 -> q_rqs q2 !! r = Some rq2 -> 1 <= ref rq2 -> same_ids rq rq2 ->
    exists q', (rq ← q_rqs q2 !! r; Some (set_rq r (blk_add_timer rq) q2)) = Some q' /\ only_completes r q q' /\ same_hw q q' /\
    exists rq', q_rqs q' !! r = Some rq' /\ 1 <= ref rq' /\ releasable q' rq').
  { intros q2 rq2 C2 S2 Hr2 Href2 I2. rewrite Hr2. cbn [mbind option_bind]. destruct (add_timer_keeps rq2) as [A1 A2].
    eexists; split_and!; [done| |done|].
    - eapply only_completes_trans; [exact C2|]. apply only_completes_refl. intros r' Hne. by apply lookup_insert_ne.
    - eexists; split_and!; [apply lookup_insert_eq|lia|]. eapply releasable_hw; [exact S2| |exact Hrel].
      destruct A2 as (B1 & B2 & B3), I2 as (D1 & D2 & D3). split_and!; congruence. }
  destruct op_timeout as [f|] eqn:Ef; [|by apply (Htimer q1 rq1); try done; simpl; lia].
  destruct (f r reserved q1) as [ret q2] eqn:Eq.
  destruct (timeout_handler f r reserved q1 rq1 ret q2 Ef Hr1 Href Eq) as (C2 & S2 & rq2 & Hr2 & Href2 & I2).
  assert (C3 : only_completes r q q2) by by eapply only_completes_trans. destruct ret.
  - exists q2. split_and!; [done..|]. exists rq2. split_and!; [done..|]. by eapply releasable_hw.
  - by apply (Htimer q2 rq2).
Qed.

Lemma put_expired_keeps h r q rq :
  is_flush_rq r h = false -> q_rqs q !! r = Some rq -> 1 <= ref rq -> releasable q rq ->
  exists q', put_expired h r q = Some q' /\ only_completes r q q' /\ same_hw q q' /\ is_Some (q_rqs q' !! r).
Proof.
  intros Hf Hr Href Hrel. unfold put_expired. rewrite Hf, Hr. cbn [mbind option_bind].
  set (rq1 := rq <| ref ::= _ |>). set (q1 := set_rq r rq1 q).
  assert (Hr1 : q_rqs q1 !! r = Some rq1) by apply lookup_insert_eq.
  assert (C1 : only_completes r q q1) by (apply only_completes_refl; intros r' Hne; by apply lookup_insert_ne).
  destruct (ref rq1 =? 0); [|exists q1; split_and!; try done; by rewrite Hr1].
  destruct (free_final_keeps r q1 rq1 Hr1) as (q2 & -> & S2 & R2); [by eapply (releasable_hw q)|].
  exists q2. split_and!; [done| |done|rewrite R2, lookup_insert_eq; by eexists].
  eapply only_completes_trans; [exact C1|]. apply only_completes_refl. intros r' Hne. rewrite R2. by apply lookup_insert_ne.
Qed.

(** What one call of the callback does. *)
Lemma check_expired_spec h r reserved s rq :
  q_rqs (tw_q s) !! r = Some rq -> is_flush_rq r h = false ->
  (expired rq = true -> 1 <= ref rq /\ releasable (tw_q s) rq) ->
  exists q', blk_mq_check_expired h r reserved s =
      Some (true, mk_tw (if pending rq then next_deadline (tw_next s) rq else tw_next s) q'
        (if expired rq then r :: tw_log s else tw_log s)) /\
    only_completes r (tw_q s) q' /\ same_hw (tw_q s) q' /\
    if expired rq then is_Some (q_rqs q' !! r) else q' = tw_q s.
Proof.
  intros Hr Hf He. unfold blk_mq_check_expired. rewrite Hr. cbn [mbind option_bind]. rewrite req_expired_eq.
  destruct (expired rq) eqn:Ee; cbn [negb].
  2:{ exists (tw_q s). split_and!; try done. by apply only_completes_refl. }
  destruct (He eq_refl) as [Href Hrel]. rewrite (proj2 (Z.eqb_neq (ref rq) 0)) by lia. rewrite req_expired_eq.
  assert (Ep : pending rq = false). { unfold expired, pending in *. destruct (awaited rq), (time_after_eq _ _); done. }
  change (expired (rq <| ref ::= _ |>)) with (expired rq). change (pending (rq <| ref ::= _ |>)) with (pending rq).
  rewrite Ee, Ep. set (rq1 := rq <| ref ::= _ |>). set (q1 := set_rq r rq1 (tw_q s)).
  assert (Hr1 : q_rqs q1 !! r = Some rq1) by apply lookup_insert_eq.
  assert (C1 : only_completes r (tw_q s) q1) by (apply only_completes_refl; intros r' Hne; by apply lookup_insert_ne).
  destruct (timed_out_keeps r reserved q1 rq1 Hr1) as (q2 & -> & C2 & S2 & rq2 & Hr2 & Href2 & Hrel2).
  { simpl. lia. } { by eapply (releasable_hw (tw_q s)). }
  cbn [mbind option_bind]. destruct (put_expired_keeps h r q2 rq2 Hf Hr2 Href2 Hrel2) as (q3 & -> & C3 & S3 & H3).
  cbn [mbind option_bind]. exists q3. split_and!; [done| |by etrans|done].
  eapply only_completes_trans; [exact C1|]. by eapply only_completes_trans.
Qed.

(** ** Deadlines *)

(** Distance of a deadline from now. *)
Definition off (d : Z) : Z := s64 (d - jiffies).
Definition near (d : Z) : Prop := - 2 ^ 62 < off d < 2 ^ 62.

(** A deadline that the work can tell from "no deadline yet". *)
Definition timely (d : Z) : Prop := d <> 0 /\ near d.

Lemma s64_shift z k : s64 (z + k * 2 ^ 64) = s64 z.
Proof. unfold s64. replace (z + k * 2 ^ 64 + 2 ^ 63) with (z + 2 ^ 63 + k * 2 ^ 64) by lia. by rewrite Z.mod_add by lia. Qed.

Lemma s64_decomp z : exists k, z = s64 z + k * 2 ^ 64.
Proof. exists ((z + 2 ^ 63) / 2 ^ 64). unfold s64. pose proof (Z.div_mod (z + 2 ^ 63) (2 ^ 64)). lia. Qed.

Lemma s64_off a b : timely a -> timely b -> s64 (a - b) = off a - off b.
Proof.
  intros [_ Ha] [_ Hb]. unfold near, off in *. destruct (s64_decomp (a - jiffies)) as [k Hk]. destruct (s64_decomp (b - jiffies)) as [m Hm].
  replace (a - b) with (s64 (a - jiffies) - s64 (b - jiffies) + (k - m) * 2 ^ 64) by lia.
  rewrite s64_shift, s64_small; lia.
Qed.

Lemma next_deadline_spec next rq :
  timely (deadline rq) -> next = 0 \/ timely next ->
  let n := next_deadline next rq in
  timely n /\ off n <= off (deadline rq) /\ (next <> 0 -> off n <= off next) /\ (n = next \/ n = deadline rq).
Proof.
  intros Hd Hn n. subst n. unfold next_deadline. destruct (Z.eqb_spec next 0); [split_and!; try done; lia|].
  destruct Hn as [|Hn]; [done|]. unfold time_after. rewrite s64_off by done.
  destruct (Z.ltb_spec (off (deadline rq) - off next) 0); split_and!; try done; try (by left); try (by right); lia.
Qed.

Lemma pending_off rq : pending rq = true -> timely (deadline rq) -> 0 < off (deadline rq).
Proof.
  unfold pending, off, timely, near, time_after_eq. intros [_ H]%andb_prop [Hnz Hn]. apply negb_true_iff, Z.leb_gt in H. unfold off in Hn.
  destruct (s64_decomp (deadline rq - jiffies)) as [k Hk].
  replace (jiffies - deadline rq) with (- s64 (deadline rq - jiffies) + - k * 2 ^ 64) in H by lia.
  rewrite s64_shift, s64_small in H by lia. lia.
Qed.

(** ** The iteration *)

Definition ids (l : list (Z * rqid * bool)) : list rqid := (fun x => x.1.2) <$> l.

(** What the work relies on for the requests it visits. *)
Definition visitable (q : request_queue) (x : Z * rqid * bool) : Prop :=
  is_flush_rq x.1.2 x.1.1 = false /\
  exists rq, q_rqs q !! x.1.2 = Some rq /\ 1 <= ref rq /\ releasable q rq /\ (awaited rq = true -> deadline rq <> 0 /\ near (deadline rq)).

Definition gone (q : request_queue) (r : rqid) : Prop :=
  exists rq, q_rqs q !! r = Some rq /\ rq_state rq <> MQ_RQ_IN_FLIGHT.

(** A request that was visited is taken care of. *)
Definition covered (q0 : request_queue) (s : tw_state) (r : rqid) : Prop :=
  forall rq, q_rqs q0 !! r = Some rq ->
  (expired rq = true -> r ∈ tw_log s \/ gone (tw_q s) r) /\
  (pending rq = true -> gone (tw_q s) r \/
     (q_rqs (tw_q s) !! r = Some rq /\ tw_next s <> 0 /\ off (tw_next s) <= off (deadline rq))).

Record iter_inv (q0 : request_queue) (seen todo : list (Z * rqid * bool)) (s : tw_state) : Prop := {
  it_hw : same_hw q0 (tw_q s);
  it_seen : forall r, r ∈ ids seen -> covered q0 s r;
  it_todo : forall r rq, r ∈ ids todo -> q_rqs q0 !! r = Some rq -> q_rqs (tw_q s) !! r = Some rq \/ gone (tw_q s) r;
  it_log : forall r, r ∈ tw_log s -> r ∈ ids seen /\ exists rq, q_rqs q0 !! r = Some rq /\ expired rq = true;
  it_next : tw_next s = 0 \/ timely (tw_next s) /\ exists r rq, r ∈ ids seen /\ q_rqs q0 !! r = Some rq /\
    pending rq = true /\ deadline rq = tw_next s;
}.

Lemma completes_keeps r r' q q' rq :
  only_completes r q q' -> r' <> r -> q_rqs q !! r' = Some rq \/ gone q r' ->
  q_rqs q' !! r' = Some rq \/ gone q' r'.
Proof.
  intros C Hne [Hr|(rq1 & Hr & Hs)]; destruct (C r' _ Hne Hr) as (rq2 & Hr2 & [->|E]);
    [by left|right; by exists rq2|right; by exists rq1|right; by exists rq2].
Qed.

Lemma gone_keeps r r' q q' : only_completes r q q' -> r' <> r -> gone q r' -> gone q' r'.
Proof.
  intros C Hne (rq1 & Hr & Hs). destruct (C r' _ Hne Hr) as (rq2 & Hr2 & [->|E]); [by exists rq1|by exists rq2].
Qed.

(** A request that was visited stays covered while others are visited. *)
Lemma covered_keeps q0 s r r' q' next log :
  covered q0 s r' -> only_completes r (tw_q s) q' -> r' <> r ->
  (tw_next s <> 0 -> next <> 0 /\ off next <= off (tw_next s)) -> (forall x, x ∈ tw_log s -> x ∈ log) ->
  covered q0 (mk_tw next q' log) r'.
Proof.
  intros Hc C Hne Hn Hl rq Hr. destruct (Hc rq Hr) as [He Hp]. split; intros H.
  - destruct (He H) as [|Hg]; [left; by apply Hl|right; by eapply gone_keeps].
  - destruct (Hp H) as [Hg|(Hq & Hnz & Ho)]; [left; by eapply gone_keeps|].
    destruct (completes_keeps r r' (tw_q s) q' rq C Hne (or_introl Hq)) as [|]; [right|by left].
    destruct (Hn Hnz). split_and!; [done..|]. simpl. lia.
Qed.

Lemma not_waiting rq : rq_state rq <> MQ_RQ_IN_FLIGHT -> expired rq = false /\ pending rq = false.
Proof. intros H. unfold expired, pending, awaited. by rewrite bool_decide_false. Qed.

Lemma expired_pending rq : expired rq = true -> pending rq = true -> False.
Proof. unfold expired, pending. destruct (awaited rq), (time_after_eq _ _); done. Qed.

Lemma iter_step q0 seen h r reserved todo s :
  NoDup (ids (seen ++ (h, r, reserved) :: todo)) -> visitable q0 (h, r, reserved) ->
  iter_inv q0 seen ((h, r, reserved) :: todo) s ->
  exists s', blk_mq_check_expired h r reserved s = Some (true, s') /\ iter_inv q0 (seen ++ [(h, r, reserved)]) todo s'.
Proof.
  intros Hnd (Hf & rq0 & Hr0 & Href & Hrel & Hnear) [Ihw Iseen Itodo Ilog Inext]. simpl in *.
  unfold ids in Hnd. rewrite fmap_app, fmap_cons in Hnd. simpl in Hnd. apply NoDup_app in Hnd as (_ & Hnd1 & Hnd2).
  apply NoDup_cons in Hnd2 as [Hnd2 _].
  assert (Hneq : forall r', r' ∈ ids seen \/ r' ∈ ids todo -> r' <> r).
  { intros r' [H|H] ->; [by apply (Hnd1 r H); left|done]. }
  assert (Hids : forall r', r' ∈ ids (seen ++ [(h, r, reserved)]) <-> r' ∈ ids seen \/ r' = r).
  { intros r'. unfold ids. rewrite fmap_app, elem_of_app. simpl. by rewrite list_elem_of_singleton. }
  assert (Hcur : exists rq, q_rqs (tw_q s) !! r = Some rq /\ (rq = rq0 \/ rq_state rq <> MQ_RQ_IN_FLIGHT)).
  { destruct (Itodo r rq0) as [H|(rq & H & Hs)]; [left|done|by exists rq0; auto|by exists rq; auto]. }
  destruct Hcur as (rq & Hr & Hrq).
  assert (Heq : expired rq = true \/ pending rq = true -> rq = rq0).
  { destruct Hrq as [|Hs]; [done|]. destruct (not_waiting rq Hs) as [-> ->]. by intros [|]. }
  destruct (check_expired_spec h r reserved s rq Hr Hf) as (q' & -> & C & S & Hq').
  { intros He. rewrite (Heq (or_introl He)). split; [done|]. by eapply releasable_hw. }
  assert (Hnext : pending rq = true -> timely (deadline rq)).
  { intros Hp. rewrite (Heq (or_intror Hp)). apply Hnear. unfold pending in Hp. rewrite (Heq (or_intror Hp)) in Hp.
    by apply andb_prop in Hp as [Hp _]. }
  set (next' := if pending rq then next_deadline (tw_next s) rq else tw_next s).
  assert (Hmono : tw_next s <> 0 -> next' <> 0 /\ off next' <= off (tw_next s)).
  { intros Hnz. subst next'. destruct (pending rq) eqn:Hp; [|lia].
    destruct (next_deadline_spec (tw_next s) rq (Hnext eq_refl)) as (N1 & _ & N3 & _); [destruct Inext as [|[? _]]; auto|].
    split; [apply N1|by apply N3]. }
  eexists; split; [done|]. split; simpl.
  - by etrans.
  - intros r' [Hr'| ->]%Hids.
    + eapply covered_keeps; [by apply Iseen|exact C|apply Hneq; by left|exact Hmono|].
      intros x Hx. destruct (expired rq); [by right|done].
    + intros rq1 Hr1. rewrite Hr0 in Hr1. injection Hr1 as <-. split; intros H; simpl.
      * destruct Hrq as [->|Hs]; [left; rewrite H; left|]. right. destruct (not_waiting rq Hs) as [E _]. rewrite E in Hq'. subst q'.
        by exists rq.
      * destruct (expired rq) eqn:Ee.
        { rewrite (Heq (or_introl eq_refl)) in Ee. by destruct (expired_pending rq0). }
        subst q'. destruct Hrq as [->|Hs]; [right|left; by exists rq]. subst next'. rewrite H.
        destruct (next_deadline_spec (tw_next s) rq0 (Hnext H)) as (N1 & N2 & _); [destruct Inext as [|[? _]]; auto|].
        split_and!; [done|apply N1|done].
  - intros r' rq1 Hr' Hr1. eapply completes_keeps; [exact C|apply Hneq; by right|]. apply Itodo; [by right|done].
  - intros r' Hr'. assert (H : r' ∈ tw_log s \/ expired rq = true /\ r' = r).
    { destruct (expired rq); [apply elem_of_cons in Hr' as [->|]; auto|by left]. }
    destruct H as [H|[He ->]].
    + destruct (Ilog r' H) as [H1 H2]. split; [apply Hids; by left|done].
    + split; [apply Hids; by right|]. exists rq0. split; [done|]. by rewrite <- (Heq (or_introl He)).
  - subst next'. destruct (pending rq) eqn:Hp.
    + destruct (next_deadline_spec (tw_next s) rq (Hnext eq_refl)) as (N1 & _ & _ & N4); [destruct Inext as [|[? _]]; auto|].
      right. split; [done|]. destruct N4 as [E|E].
      * rewrite E in *. destruct Inext as [Hz|(_ & r1 & rq1 & H1 & H2)]; [by destruct N1|]. exists r1, rq1. split; [apply Hids; by left|done].
      * exists r, rq0. rewrite (Heq (or_intror eq_refl)) in *. split_and!; [apply Hids; by right|done..].
    + destruct Inext as [Hz|(Hn & r1 & rq1 & H1 & H2)]; [by left|right]. split; [done|]. exists r1, rq1. split; [apply Hids; by left|done].
Qed.

Lemma iter_all q0 l : NoDup (ids l) -> Forall (visitable q0) l ->
  exists s, tag_iter blk_mq_check_expired l (mk_tw 0 q0 []) = Some s /\ iter_inv q0 l [] s.
Proof.
  intros Hnd Hv. assert (H : forall todo seen s, seen ++ todo = l -> iter_inv q0 seen todo s ->
    exists s', tag_iter blk_mq_check_expired todo s = Some s' /\ iter_inv q0 l [] s').
  { induction todo as [|[[h r] reserved] todo IH]; intros seen s Hl Hi.
    - rewrite app_nil_r in Hl. subst. by exists s.
    - destruct (iter_step q0 seen h r reserved todo s) as (s' & E & Hi'); [by rewrite Hl| |done|].
      { rewrite Forall_forall in Hv. apply Hv. subst l. apply elem_of_app. right. left. }
      cbn [tag_iter]. rewrite E. cbn [mbind option_bind]. apply (IH (seen ++ [(h, r, reserved)])); [|done].
      by rewrite <- app_assoc. }
  apply (H l []); [done|]. split; simpl; try done.
  - intros r Hr. by apply elem_of_nil in Hr.
  - intros r rq _ Hr. by left.
  - intros r Hr. by apply elem_of_nil in Hr.
  - by left.
Qed.

Lemma mark_idle_total q : exists q', mark_idle q = Some q' /\ q_rqs q' = q_rqs q.
Proof.
  unfold mark_idle. assert (H : forall l q1, (forall i, i ∈ l -> 0 <= i < nr_hw_queues q) -> core q1 = core q ->
    exists q', foldM (fun q i => h ← aget (queue_hw_ctx q) i;
      Some (if blk_mq_hw_queue_mapped h then blk_mq_tag_idle i q else q)) q1 l = Some q' /\ core q' = core q).
  { induction l as [|i l IH]; intros q1 Hl Hc; [by exists q1|]. cbn [foldM].
    destruct (aget_lt (queue_hw_ctx q1) i) as [h Hh].
    { destruct (core_hw _ _ Hc) as (_ & _ & ->). apply Hl. left. }
    rewrite Hh. cbn [mbind option_bind]. apply IH; [intros j Hj; apply Hl; by right|].
    destruct (blk_mq_hw_queue_mapped h); [|done]. by rewrite tag_idle_core. }
  destruct (H (seqZ 0 (nr_hw_queues q)) q) as (q' & -> & Hc); [|done|].
  - intros i Hi. apply elem_of_seqZ in Hi. lia.
  - exists q'. split; [done|]. exact (core_rqs _ _ Hc).
Qed.

(** C29: the time-out work forgets no request.  The busy requests are not flush
    requests (which end through their own callback), hold a reference, and those that
    wait have a deadline within 2^62 ticks of now, clock wrap-around included, that is
    not 0: the code uses 0 for "no deadline found", and a request with that deadline is
    forgotten ([deadline_zero_forgotten]).  The work returns; the requests it hands to
    the driver are exactly those whose deadline has passed, but for requests that
    the handling of another one completed; and every request that is still waiting
    for its deadline is completed meanwhile or left as it was, with the timer of
    the queue set to the deadline of a waiting request that is in the future and not
    later than its own. *)
Theorem timeout_work_covers q l :
  queue_frozen q = false -> busy_tags (blk_queue_enter_live q) = l -> NoDup (ids l) -> Forall (visitable q) l ->
  exists timer q' log, blk_mq_timeout_work q = Some (timer, q', log) /\
    (forall r, r ∈ log -> r ∈ ids l /\ exists rq, q_rqs q !! r = Some rq /\ expired rq = true) /\
    forall r rq, r ∈ ids l -> q_rqs q !! r = Some rq ->
      (expired rq = true -> r ∈ log \/ gone q' r) /\
      (pending rq = true -> gone q' r \/
        (q_rqs q' !! r = Some rq /\ exists t, timer = Some t /\ 0 < off t <= off (deadline rq))).
Proof.
  intros Hfz Hl Hnd Hv. unfold blk_mq_timeout_work. rewrite Hfz. cbv zeta. rewrite Hl.
  destruct (iter_all (blk_queue_enter_live q) l Hnd) as (s & -> & [Ihw Iseen _ Ilog Inext]).
  { eapply Forall_impl; [exact Hv|]. intros x (Hf & rq & H). split; [done|]. by exists rq. }
  cbn [mbind option_bind].
  assert (Hfin : forall timer q', q_rqs q' = q_rqs (tw_q s) -> (tw_next s <> 0 -> timer = Some (tw_next s)) ->
    forall r rq, r ∈ ids l -> q_rqs q !! r = Some rq ->
      (expired rq = true -> r ∈ tw_log s \/ gone q' r) /\
      (pending rq = true -> gone q' r \/
        (q_rqs q' !! r = Some rq /\ exists t, timer = Some t /\ 0 < off t <= off (deadline rq)))).
  { intros timer q' Hq Ht r rq Hr Hrq. unfold gone. rewrite Hq. destruct (Iseen r Hr rq Hrq) as [He Hp]. split; [exact He|].
    intros H. destruct (Hp H) as [|(H1 & H2 & H3)]; [by left|right]. split; [done|]. exists (tw_next s). split_and!; [by apply Ht| |done].
    destruct Inext as [|(Hn & r1 & rq1 & _ & _ & Hp1 & Ed)]; [done|]. rewrite <- Ed in *. by apply pending_off. }
  destruct (Z.eqb_spec (tw_next s) 0); cbn [negb].
  - destruct (mark_idle_total (tw_q s)) as (q' & -> & Hq). cbn [mbind option_bind]. eexists _, _, _. split_and!; [done|exact Ilog|].
    by apply Hfin.
  - eexists _, _, _. split_and!; [done|exact Ilog|]. by apply Hfin.
Qed.
End spec.

(** ** Example: three requests around the wrap of the clock *)

Definition ex_now : Z := 2 ^ 64 - 10.
Definition ex_timer : MqMisc := {|
  blk_mq_tag_is_reserved := fun _ _ => false;
  BLK_STS_IOERR := 10;
  blk_add_timer := fun rq => rq <| deadline := u64 (ex_now + 30) |>
                                <| rq_flags ::= fun f => Z.land f (Z.lnot RQF_TIMED_OUT) |>;
  blk_rq_bio_prep := fun rq _ _ => rq;
|}.
Definition ex_busy : list (Z * rqid * bool) := [(0, 100, false); (0, 101, false); (0, 102, false)].
Definition ex_timeout : MqTimeout := {|
  jiffies := ex_now;
  op_timeout := Some (fun _ _ q => (BLK_EH_RESET_TIMER, q));
  op_complete := fun _ q => q;
  busy_tags := fun _ => ex_busy;
  is_flush_rq := fun _ _ => false;
  blk_mq_tag_idle := fun _ q => q;
  cpus_share_cache := fun _ _ => false;
  blk_should_fake_timeout := false;
|}.

Lemma ex_timeout_laws : @MqTimeoutLaws ex_timer ex_timeout.
Proof.
  split.
  - intros f r reserved q rq ret q' Hf Hr Href H. injection Hf as <-. injection H as _ <-. split_and!.
    + by apply only_completes_refl.
    + done.
    + exists rq. split_and!; [done|lia|done..].
  - done.
  - done.
Qed.

Definition ex_flying (d : Z) : request :=
  request0 <| rq_state := MQ_RQ_IN_FLIGHT |> <| ref := 1 |> <| mq_hctx := Some 0 |> <| tag := -1 |>
           <| internal_tag := -1 |> <| deadline := d |>.
Definition ex_flight : request_queue :=
  queue0 <| queue_hw_ctx := [hctx0] |> <| q_usage := 3 |>
         <| q_rqs := <[100 := ex_flying (2 ^ 64 - 20)]> (<[101 := ex_flying 20]> (<[102 := ex_flying 5]> ∅)) |>.

Lemma timeout_work_covers_witness :
  @pending ex_timeout (ex_flying 20) = true /\ (@off ex_timeout 5 = 15 /\ @off ex_timeout 20 = 30) /\
  exists t q' log, @blk_mq_timeout_work ex_kernel ex_timer ex_timeout ex_flight = Some (Some t, q', log) /\
    t = 5 /\ log = [100] /\ 0 < @off ex_timeout t <= @off ex_timeout 20.
Proof.
  split_and!; [vm_compute; reflexivity..|].
  destruct (@timeout_work_covers ex_kernel ex_kernel_laws ex_timer ex_timeout ex_timeout_laws ex_flight ex_busy)
    as (timer & q' & log & E & _ & H).
  - reflexivity.
  - reflexivity.
  - repeat constructor; set_solver.
  - repeat constructor; simpl; eexists; (split_and!; [reflexivity|simpl; lia| |]).
    1,3,5: exists 0, None, None; split_and!; [done|done|by intros []|by intros []].
    all: intros _; split; [simpl; lia|]; vm_compute; split; reflexivity.
  - destruct (H 101 (ex_flying 20)) as [_ Hp]; [set_solver|reflexivity|].
    assert (Ev : option_map (fun r => (r.1.1, r.2, rq_state <$> (q_rqs r.1.2 !! 101)))
      (@blk_mq_timeout_work ex_kernel ex_timer ex_timeout ex_flight) = Some (Some 5, [100], Some MQ_RQ_IN_FLIGHT))
      by (vm_compute; reflexivity).
    rewrite E in Ev. simpl in Ev. injection Ev as -> -> Hs.
    destruct Hp as [(rq & Hr & Hn)|(_ & t & Ht & Ho)]; [vm_compute; reflexivity|by rewrite Hr in Hs; injection Hs|].
    injection Ht as <-. exists 5, q', [100]. by split_and!.
Defined.

(** A request that expires in ten ticks, when the clock is at 0: the timer is not
    set, and the request is left waiting. *)
Definition ex_zero : request_queue :=
  queue0 <| queue_hw_ctx := [hctx0] |> <| q_usage := 1 |>
         <| q_rqs := {[100 := ex_flying 0; 101 := request0; 102 := request0]} |>.

Lemma deadline_zero_forgotten :
  @pending ex_timeout (ex_flying 0) = true /\ @off ex_timeout 0 = 10
  /\ exists q', @blk_mq_timeout_work ex_kernel ex_timer ex_timeout ex_zero = Some (None, q', [])
     /\ q_rqs q' !! 100 = Some (ex_flying 0).
Proof. split; [vm_compute; reflexivity|]. split; [vm_compute; reflexivity|]. eexists. split; vm_compute; reflexivity. Qed.
