(* ===== verification/BlkMqTagSet.v ===== *)
(** * Tag sets and the memory of requests

    The requests of a tag set are carved out of page blocks when the set is
    allocated: [blk_mq_alloc_rqs] with its undo [blk_mq_free_rqs], the tags of a
    hardware queue, [blk_mq_alloc_rq_maps] with its reduced depths, and
    [blk_mq_alloc_tag_set] and [blk_mq_free_tag_set] of block/blk-mq.c.  The
    state is the set together with the memory that is in use. *)
From S2P Require Import Prelude MqTypes BlkMqRun.

(** ** Memory in use *)

(** Page blocks (address and order), requests on which the driver's
    [init_request] has run, the number of live [struct blk_mq_tags] and of
    arrays, and the number of calls of an allocator. *)
Record mem := mk_mem {
  m_pages : list (Z * nat);
  m_inited : list Z;
  m_tags : Z;
  m_arrays : Z;
  m_calls : nat;
}.
#[export] Instance mem_eta : Settable mem := {| eta_expand := fun r =>
  mk_mem (m_pages r) (m_inited r) (m_tags r) (m_arrays r) (m_calls r) |}.

(** The allocators of the kernel and the methods of the driver. *)
Class MqMem := {
  PAGE_SIZE : Z;
  BLK_MQ_TAG_MIN : Z;
  sizeof_request : Z;
  cache_line_size : Z;
  round_up : Z -> Z -> Z;
  alloc_pages_node : mem -> nat -> option Z;  (* a block of the given order *)
  kcalloc_ok : mem -> bool;
  init_tags_ok : mem -> bool;  (* blk_mq_init_tags *)
  init_request : option (mem -> Z -> Z);  (* result for the request *)
  has_exit_request : bool;
}.

(** struct blk_mq_tags as far as its memory is concerned. *)
Record tags_mem := mk_tags_mem {
  tm_nr_tags : Z;
  tm_rqs : list (option Z);
  tm_static_rqs : list (option Z);  (* address of each request *)
  tm_page_list : list (Z * nat);
}.
#[export] Instance tags_mem_eta : Settable tags_mem := {| eta_expand := fun r =>
  mk_tags_mem (tm_nr_tags r) (tm_rqs r) (tm_static_rqs r) (tm_page_list r) |}.

(** struct blk_mq_queue_map. *)
Record blk_mq_queue_map := mk_queue_map {
  mq_map : list Z;  (* hardware queue of each CPU; [] for NULL *)
  nr_queues : Z;
  queue_offset : Z;
}.
#[export] Instance blk_mq_queue_map_eta : Settable blk_mq_queue_map := {| eta_expand := fun r =>
  mk_queue_map (mq_map r) (nr_queues r) (queue_offset r) |}.

(** struct blk_mq_tag_set. *)
Record blk_mq_tag_set := mk_tag_set {
  set_map : list blk_mq_queue_map;  (* HCTX_MAX_TYPES entries *)
  nr_maps : Z;
  set_nr_hw_queues : Z;
  queue_depth : Z;
  reserved_tags : Z;
  cmd_size : Z;
  set_numa_node : Z;
  set_flags : Z;
  ts_tags : list (option tags_mem);  (* [] for NULL *)
}.
#[export] Instance blk_mq_tag_set_eta : Settable blk_mq_tag_set := {| eta_expand := fun r =>
  mk_tag_set (set_map r) (nr_maps r) (set_nr_hw_queues r) (queue_depth r) (reserved_tags r)
    (cmd_size r) (set_numa_node r) (set_flags r) (ts_tags r) |}.

Section tagset.
Context {mm : MqMem}.

Definition order_to_size (order : nat) : Z := Z.shiftl PAGE_SIZE (Z.of_nat order).

(** ** Release *)

(** The loop over the requests of [blk_mq_free_rqs]. *)
Definition exit_rqs (l : list (option Z)) (m : mem) : mem :=
  foldl (fun m o => match o with
                    | Some p => m <| m_inited ::= fun l => filter (fun x => x <> p) l |>
                    | None => m
                    end) m l.

Definition free_page (m : mem) (b : Z * nat) : mem :=
  m <| m_pages ::= fun l => filter (fun x => x <> b) l |>.

Definition blk_mq_free_rqs (t : tags_mem) (m : mem) : tags_mem * mem :=
  let '(t, m) :=
    if has_exit_request
    then (t <| tm_static_rqs ::= fmap (fun _ => None) |>, exit_rqs (tm_static_rqs t) m)
    else (t, m) in
  (t <| tm_page_list := [] |>, foldl free_page m (tm_page_list t)).

Definition blk_mq_free_rq_map (t : tags_mem) (m : mem) : mem :=
  m <| m_arrays ::= fun n => n - 2 |> <| m_tags ::= fun n => n - 1 |>.

(** ** Requests *)

Definition blk_mq_alloc_rq_map (nr_tags : Z) (m : mem) : option tags_mem * mem :=
  if negb (init_tags_ok m) then (None, m <| m_calls ::= S |>)
  else
    let m := m <| m_tags ::= fun n => n + 1 |> <| m_calls ::= S |> in
    if negb (kcalloc_ok m) then (None, m <| m_tags ::= fun n => n - 1 |> <| m_calls ::= S |>)
    else
      let m := m <| m_arrays ::= fun n => n + 1 |> <| m_calls ::= S |> in
      if negb (kcalloc_ok m)
      then (None, m <| m_arrays ::= fun n => n - 1 |> <| m_tags ::= fun n => n - 1 |> <| m_calls ::= S |>)
      else
        let l := replicate (Z.to_nat nr_tags) None in
        (Some (mk_tags_mem nr_tags l l []), m <| m_arrays ::= fun n => n + 1 |> <| m_calls ::= S |>).

(** The result of [init_request] and the memory after it. *)
Definition blk_mq_init_request (p : Z) (m : mem) : Z * mem :=
  match init_request with
  | Some f =>
    let ret := f m p in
    (ret, if c_true ret then m <| m_calls ::= S |>
          else m <| m_inited ::= cons p |> <| m_calls ::= S |>)
  | None => (0, m)
  end.

(** [while (this_order && left < order_to_size(this_order - 1)) this_order--]. *)
Fixpoint pick_order (left : Z) (order : nat) : nat :=
  match order with
  | O => O
  | S o => if left <? order_to_size o then pick_order left o else order
  end.

(** The loop that falls back to smaller blocks. *)
Fixpoint alloc_block (rq_size : Z) (order : nat) (m : mem) : option (Z * nat) * mem :=
  match alloc_pages_node m order with
  | Some p => (Some (p, order), m <| m_pages ::= cons (p, order) |> <| m_calls ::= S |>)
  | None =>
    let m := m <| m_calls ::= S |> in
    match order with
    | O => (None, m)
    | S o => if order_to_size o <? rq_size then (None, m) else alloc_block rq_size o m
    end
  end.

(** The requests of a block; [false] when [init_request] failed. *)
Fixpoint init_block (to_do : nat) (rq_size p i : Z) (t : tags_mem) (m : mem)
  : option (bool * tags_mem * mem) :=
  match to_do with
  | O => Some (true, t, m)
  | S n =>
    rqs ← aset (tm_static_rqs t) i (Some p);
    let '(ret, m) := blk_mq_init_request p m in
    if c_true ret then
      rqs ← aset rqs i None; Some (false, t <| tm_static_rqs := rqs |>, m)
    else init_block n rq_size (p + rq_size) (i + 1) (t <| tm_static_rqs := rqs |>) m
  end.

(** The outer loop; it makes progress when a block holds at least one request. *)
Fixpoint alloc_rqs_loop (fuel : nat) (rq_size depth i left : Z) (t : tags_mem) (m : mem)
  : option (bool * tags_mem * mem) :=
  if depth <=? i then Some (true, t, m)
  else
    match fuel with
    | O => None
    | S fuel =>
      let '(page, m) := alloc_block rq_size (pick_order left 4) m in
      match page with
      | None => Some (false, t, m)
      | Some (p, order) =>
        let t := t <| tm_page_list ::= fun l => l ++ [(p, order)] |> in
        let entries_per_page := order_to_size order / rq_size in
        let to_do := Z.min entries_per_page (depth - i) in
        let left := u64 (left - to_do * rq_size) in
        '(ok, t, m) ← init_block (Z.to_nat to_do) rq_size p i t m;
        if ok : bool then alloc_rqs_loop fuel rq_size depth (i + to_do) left t m
        else Some (false, t, m)
      end
    end.

Definition rq_size_of (set : blk_mq_tag_set) : Z := round_up (sizeof_request + cmd_size set) cache_line_size.

Definition blk_mq_alloc_rqs (set : blk_mq_tag_set) (t : tags_mem) (depth : Z) (m : mem)
  : option (Z * tags_mem * mem) :=
  let rq_size := rq_size_of set in
  '(ok, t, m) ← alloc_rqs_loop (Z.to_nat depth) rq_size depth 0 (u64 (rq_size * depth))
                  (t <| tm_page_list := [] |>) m;
  if ok : bool then Some (0, t, m)
  else let '(t, m) := blk_mq_free_rqs t m in Some (- ENOMEM, t, m).

(** ** The set *)

(** [__blk_mq_alloc_rq_map]. *)
Definition alloc_map_and_rqs (hctx_idx : Z) (set : blk_mq_tag_set) (m : mem)
  : option (bool * blk_mq_tag_set * mem) :=
  match blk_mq_alloc_rq_map (queue_depth set) m with
  | (None, m) => tags ← aset (ts_tags set) hctx_idx None; Some (false, set <| ts_tags := tags |>, m)
  | (Some t, m) =>
    '(ret, t, m) ← blk_mq_alloc_rqs set t (queue_depth set) m;
    if ret =? 0 then
      tags ← aset (ts_tags set) hctx_idx (Some t); Some (true, set <| ts_tags := tags |>, m)
    else
      tags ← aset (ts_tags set) hctx_idx None;
      Some (false, set <| ts_tags := tags |>, blk_mq_free_rq_map t m)
  end.

Definition blk_mq_free_map_and_requests (set : blk_mq_tag_set) (hctx_idx : Z) (m : mem)
  : option (blk_mq_tag_set * mem) :=
  if bool_decide (ts_tags set = []) then Some (set, m)
  else
    o ← aget (ts_tags set) hctx_idx;
    match o with
    | None => Some (set, m)
    | Some t =>
      let '(t, m) := blk_mq_free_rqs t m in
      let m := blk_mq_free_rq_map t m in
      tags ← aset (ts_tags set) hctx_idx None; Some (set <| ts_tags := tags |>, m)
    end.

(** The label [out_unwind] of [__blk_mq_alloc_rq_maps]: the tags are freed, in
    descending order, and the set still points to them. *)
Fixpoint unwind_maps (i : nat) (set : blk_mq_tag_set) (m : mem) : option mem :=
  match i with
  | O => Some m
  | S i =>
    o ← aget (ts_tags set) (Z.of_nat i); t ← o; unwind_maps i set (blk_mq_free_rq_map t m)
  end.

(** The loop of [__blk_mq_alloc_rq_maps] from hardware queue [i] on. *)
Fixpoint alloc_maps_loop (n : nat) (i : Z) (set : blk_mq_tag_set) (m : mem)
  : option (Z * blk_mq_tag_set * mem) :=
  match n with
  | O => Some (0, set, m)
  | S n =>
    '(ok, set, m) ← alloc_map_and_rqs i set m;
    if ok : bool then alloc_maps_loop n (i + 1) set m
    else m ← unwind_maps (Z.to_nat i) set m; Some (- ENOMEM, set, m)
  end.

Definition alloc_rq_maps_inner (set : blk_mq_tag_set) (m : mem) : option (Z * blk_mq_tag_set * mem) :=
  alloc_maps_loop (Z.to_nat (set_nr_hw_queues set)) 0 set m.

(** The loop of [blk_mq_alloc_rq_maps]; every turn halves the depth. *)
Fixpoint reduce_depth_loop (fuel : nat) (set : blk_mq_tag_set) (m : mem)
  : option (Z * blk_mq_tag_set * mem) :=
  match fuel with
  | O => None
  | S fuel =>
    '(err, set, m) ← alloc_rq_maps_inner set m;
    if err =? 0 then Some (0, set, m)
    else
      let set := set <| queue_depth ::= fun d => Z.shiftr d 1 |> in
      if queue_depth set <? u32 (reserved_tags set + BLK_MQ_TAG_MIN) then Some (- ENOMEM, set, m)
      else if queue_depth set =? 0 then Some (err, set, m)
      else reduce_depth_loop fuel set m
  end.

Definition blk_mq_alloc_rq_maps (set : blk_mq_tag_set) (m : mem) : option (Z * blk_mq_tag_set * mem) :=
  '(err, set, m) ← reduce_depth_loop (Z.to_nat (queue_depth set) + 1) set m;
  if (queue_depth set =? 0) || negb (err =? 0) then Some (- ENOMEM, set, m) else Some (0, set, m).

(** The size of the arrays that are indexed by hardware queue. *)
Definition nr_hw_queues_of (nr_cpu_ids : Z) (set : blk_mq_tag_set) : Z :=
  if nr_maps set =? 1 then nr_cpu_ids else Z.max (set_nr_hw_queues set) nr_cpu_ids.

(** [blk_mq_clear_mq_map]. *)
Definition blk_mq_clear_mq_map (x : blk_mq_queue_map) : blk_mq_queue_map :=
  x <| mq_map ::= fmap (fun _ => 0) |>.

(** The driver's [map_queues] and [blk_mq_map_queues] of blk-mq-cpumap.c. *)
Context (is_kdump : bool) (nr_cpu_ids : Z)
  (blk_mq_map_queues : blk_mq_queue_map -> Z * blk_mq_queue_map)
  (map_queues : option (blk_mq_tag_set -> Z * blk_mq_tag_set))
  (has_queue_rq has_get_budget has_put_budget : bool).

Definition mod_map (j : Z) (f : blk_mq_queue_map -> blk_mq_queue_map) (set : blk_mq_tag_set)
  : option blk_mq_tag_set :=
  l ← amod (set_map set) j f; Some (set <| set_map := l |>).

(** The branch that has no [map_queues] method. *)
Definition map_default (set : blk_mq_tag_set) : option (Z * blk_mq_tag_set) :=
  if 1 <? nr_maps set then None  (* BUG_ON *)
  else
    x ← aget (set_map set) HCTX_TYPE_DEFAULT;
    let '(ret, x) := blk_mq_map_queues x in
    set ← mod_map HCTX_TYPE_DEFAULT (fun _ => x) set; Some (ret, set).

Definition blk_mq_update_queue_map (set : blk_mq_tag_set) : option (Z * blk_mq_tag_set) :=
  set ← (if nr_maps set =? 1
         then mod_map HCTX_TYPE_DEFAULT (fun x => x <| nr_queues := set_nr_hw_queues set |>) set
         else Some set);
  match map_queues with
  | Some f =>
    if negb is_kdump then
      set ← foldM (fun set i => mod_map i blk_mq_clear_mq_map set) set (seqZ 0 (nr_maps set));
      Some (f set)
    else map_default set
  | None => map_default set
  end.

(** [kfree] of the map of one type. *)
Definition free_map (i : Z) '((set, m) : blk_mq_tag_set * mem) : option (blk_mq_tag_set * mem) :=
  x ← aget (set_map set) i;
  set ← mod_map i (fun x => x <| mq_map := [] |>) set;
  Some (set, if bool_decide (mq_map x = []) then m else m <| m_arrays ::= fun n => n - 1 |>).

(** The maps and the array of tags are freed. *)
Definition free_maps (set : blk_mq_tag_set) (m : mem) : option (blk_mq_tag_set * mem) :=
  '(set, m) ← foldM (fun s i => free_map i s) (set, m) (seqZ 0 (nr_maps set));
  Some (set <| ts_tags := [] |>,
        if bool_decide (ts_tags set = []) then m else m <| m_arrays ::= fun n => n - 1 |>).

(** The loop that allocates the maps; [false] when an allocation failed. *)
Fixpoint alloc_map_arrays (n : nat) (i : Z) (set : blk_mq_tag_set) (m : mem)
  : option (bool * blk_mq_tag_set * mem) :=
  match n with
  | O => Some (true, set, m)
  | S n =>
    if negb (kcalloc_ok m) then
      set ← mod_map i (fun x => x <| mq_map := [] |>) set; Some (false, set, m <| m_calls ::= S |>)
    else
      set ← mod_map i (fun x => x <| mq_map := replicate (Z.to_nat nr_cpu_ids) 0 |>
                                  <| nr_queues := if is_kdump then 1 else set_nr_hw_queues set |>) set;
      alloc_map_arrays n (i + 1) set (m <| m_arrays ::= fun n => n + 1 |> <| m_calls ::= S |>)
  end.

(** The checks and limits at the start of [blk_mq_alloc_tag_set]. *)
Definition check_tag_set (set : blk_mq_tag_set) : Z * blk_mq_tag_set :=
  if set_nr_hw_queues set =? 0 then (- EINVAL, set)
  else if queue_depth set =? 0 then (- EINVAL, set)
  else if queue_depth set <? u32 (reserved_tags set + BLK_MQ_TAG_MIN) then (- EINVAL, set)
  else if negb has_queue_rq then (- EINVAL, set)
  else if xorb (negb has_get_budget) (negb has_put_budget) then (- EINVAL, set)
  else
    let set := if BLK_MQ_MAX_DEPTH <? queue_depth set then set <| queue_depth := BLK_MQ_MAX_DEPTH |> else set in
    if HCTX_MAX_TYPES <? nr_maps set then (- EINVAL, set)
    else
      let set := if nr_maps set =? 0 then set <| nr_maps := 1 |> else set in
      let set := if is_kdump
                 then set <| set_nr_hw_queues := 1 |> <| nr_maps := 1 |> <| queue_depth ::= Z.min 64 |>
                 else set in
      (0, if (nr_maps set =? 1) && (nr_cpu_ids <? set_nr_hw_queues set)
          then set <| set_nr_hw_queues := nr_cpu_ids |> else set).

(** The label [out_free_mq_map] of [blk_mq_alloc_tag_set]. *)
Definition fail_tag_set (ret : Z) (set : blk_mq_tag_set) (m : mem) : option (Z * blk_mq_tag_set * mem) :=
  '(set, m) ← free_maps set m; Some (ret, set, m).

Definition blk_mq_alloc_tag_set (set : blk_mq_tag_set) (m : mem) : option (Z * blk_mq_tag_set * mem) :=
  let '(err, set) := check_tag_set set in
  if negb (err =? 0) then Some (err, set, m)
  else if negb (kcalloc_ok m) then Some (- ENOMEM, set <| ts_tags := [] |>, m <| m_calls ::= S |>)
  else
    let m := m <| m_arrays ::= fun n => n + 1 |> <| m_calls ::= S |> in
    let set := set <| ts_tags := replicate (Z.to_nat (nr_hw_queues_of nr_cpu_ids set)) None |> in
    '(ok, set, m) ← alloc_map_arrays (Z.to_nat (nr_maps set)) 0 set m;
    if negb ok then fail_tag_set (- ENOMEM) set m
    else
      '(ret, set) ← blk_mq_update_queue_map set;
      if negb (ret =? 0) then fail_tag_set ret set m
      else
        '(ret, set, m) ← blk_mq_alloc_rq_maps set m;
        if negb (ret =? 0) then fail_tag_set ret set m else Some (0, set, m).

Definition blk_mq_free_tag_set (set : blk_mq_tag_set) (m : mem) : option (blk_mq_tag_set * mem) :=
  '(set, m) ← foldM (fun '(set, m) i => blk_mq_free_map_and_requests set i m) (set, m)
                (seqZ 0 (nr_hw_queues_of nr_cpu_ids set));
  free_maps set m.
End tagset.
