(* ===== verification/BlkMqTagSetSpec.v ===== *)
(** * Allocation of requests and tag sets

    [blk_mq_alloc_rqs] places every request in a page block of its own tags,
    without overlap, or fails and leaves the memory as it was; a tag set that
    got the depth it asked for gives everything back when it is freed. *)
From S2P Require Import Prelude MqTypes BlkMqRun BlkMqTagSet.

(** ** Memory *)

(** What is documented of the allocator and the constants. *)
Class MqMemLaws (mm : MqMem) := {
  page_size_range : 0 < PAGE_SIZE < 2 ^ 32;
  tag_min_pos : 0 < BLK_MQ_TAG_MIN;
  round_up_ge x y : x <= round_up x y;
  alloc_pages_fresh m o p : alloc_pages_node m o = Some p ->
    forall b k, (b, k) ∈ m_pages m -> p + order_to_size o <= b \/ b + order_to_size k <= p;
}.

Section spec.
Context {mm : MqMem} {ml : MqMemLaws mm}.

(** [p], of [size] bytes, lies in the block [b]. *)
Definition inside (p size : Z) (b : Z * nat) : Prop :=
  b.1 <= p /\ p + size <= b.1 + order_to_size b.2.

(** Every request on which [init_request] has run lies in a block in use. *)
Definition mem_wf (m : mem) : Prop := forall p, p ∈ m_inited m -> exists b, b ∈ m_pages m /\ inside p 1 b.

(** Two ranges of [size] bytes that do not overlap. *)
Definition apart (size p q : Z) : Prop := p + size <= q \/ q + size <= p.

Lemma order_to_size_eq o : order_to_size o = PAGE_SIZE * 2 ^ Z.of_nat o.
Proof. unfold order_to_size. apply Z.shiftl_mul_pow2. lia. Qed.

Lemma order_to_size_pos o : 0 < order_to_size o.
Proof.
  rewrite order_to_size_eq. pose proof page_size_range. apply Z.mul_pos_pos; [lia|]. apply Z.pow_pos_nonneg; lia.
Qed.

Lemma order_to_size_mono o k : (o <= k)%nat -> order_to_size o <= order_to_size k.
Proof.
  intros H. rewrite !order_to_size_eq. pose proof page_size_range.
  apply Z.mul_le_mono_nonneg_l; [lia|]. apply Z.pow_le_mono_r; lia.
Qed.

(** ** Release *)

Lemma exit_rqs_frame l m :
  m_pages (exit_rqs l m) = m_pages m /\ m_tags (exit_rqs l m) = m_tags m /\
  m_arrays (exit_rqs l m) = m_arrays m /\
  m_inited (exit_rqs l m) = filter (fun p => Some p ∉ l) (m_inited m).
Proof.
  revert m. induction l as [|[p|] l IH]; intros m; simpl.
  - split_and!; try done. symmetry. apply list_filter_all. intros; apply not_elem_of_nil.
  - destruct (IH (m <| m_inited ::= fun l => filter (fun x => x <> p) l |>)) as (A & B & C & D).
    split_and!; [exact A|exact B|exact C|]. etrans; [exact D|]. simpl.
    rewrite list_filter_filter. apply list_filter_iff. intros x. rewrite not_elem_of_cons. split; intros [? ?]; split; congruence.
  - destruct (IH m) as (A & B & C & D). split_and!; [done..|]. rewrite D.
    apply list_filter_iff. intros x. rewrite not_elem_of_cons. naive_solver.
Qed.

Lemma free_pages_frame l m :
  m_pages (foldl free_page m l) = filter (fun b => b ∉ l) (m_pages m) /\
  m_tags (foldl free_page m l) = m_tags m /\ m_arrays (foldl free_page m l) = m_arrays m /\
  m_inited (foldl free_page m l) = m_inited m.
Proof.
  revert m. induction l as [|b l IH]; intros m; simpl.
  - split_and!; try done. symmetry. apply list_filter_all. intros; apply not_elem_of_nil.
  - destruct (IH (free_page m b)) as (A & B & C & D). split_and!; [|exact B|exact C|exact D].
    etrans; [exact A|]. simpl. rewrite list_filter_filter. apply list_filter_iff.
    intros x. rewrite not_elem_of_cons. naive_solver.
Qed.

(** What [blk_mq_free_rqs] does to the memory. *)
Lemma free_rqs_frame t m t' m' :
  blk_mq_free_rqs t m = (t', m') ->
  m_pages m' = filter (fun b => b ∉ tm_page_list t) (m_pages m) /\
  m_inited m' = (if has_exit_request then filter (fun p => Some p ∉ tm_static_rqs t) (m_inited m) else m_inited m) /\
  m_tags m' = m_tags m /\ m_arrays m' = m_arrays m /\
  length (tm_static_rqs t') = length (tm_static_rqs t) /\ tm_page_list t' = [].
Proof.
  unfold blk_mq_free_rqs. destruct has_exit_request; intros [= <- <-].
  - destruct (free_pages_frame (tm_page_list t) (exit_rqs (tm_static_rqs t) m)) as (-> & -> & -> & ->).
    destruct (exit_rqs_frame (tm_static_rqs t) m) as (-> & -> & -> & ->).
    split_and!; try done. apply length_fmap.
  - destruct (free_pages_frame (tm_page_list t) m) as (-> & -> & -> & ->). done.
Qed.

(** ** Blocks *)

Lemma pick_order_fits left o :
  (pick_order left o <= o)%nat /\
  ((pick_order left o < o)%nat -> left < order_to_size (pick_order left o)).
Proof.
  induction o as [|o [IH1 IH2]]; simpl; [lia|]. case_bool; [|lia]. split; [lia|]. intros _.
  destruct (decide (pick_order left o = o)) as [->|]; [lia|]. apply IH2. lia.
Qed.

Lemma pick_order_size left rq_size :
  0 < rq_size <= order_to_size 4 -> rq_size <= left -> rq_size <= order_to_size (pick_order left 4).
Proof.
  intros H1 H2. destruct (pick_order_fits left 4) as [H3 H4].
  destruct (decide (pick_order left 4 = 4)%nat) as [->|]; [lia|]. specialize (H4 ltac:(lia)). lia.
Qed.

Lemma alloc_block_frame rq_size o m r m' :
  alloc_block rq_size o m = (r, m') -> rq_size <= order_to_size o ->
  m_inited m' = m_inited m /\ m_tags m' = m_tags m /\ m_arrays m' = m_arrays m /\
  match r with
  | None => m_pages m' = m_pages m
  | Some (p, k) => m_pages m' = (p, k) :: m_pages m /\ rq_size <= order_to_size k /\
      (forall b j, (b, j) ∈ m_pages m -> p + order_to_size k <= b \/ b + order_to_size j <= p)
  end.
Proof.
  revert m. induction o as [|o IH]; intros m; simpl.
  - destruct (alloc_pages_node m 0) eqn:E; intros [= <- <-] Hs; [|done].
    split_and!; try done. exact (alloc_pages_fresh _ _ _ E).
  - destruct (alloc_pages_node m (S o)) eqn:E.
    + intros [= <- <-] Hs. split_and!; try done. exact (alloc_pages_fresh _ _ _ E).
    + case_bool; [intros [= <- <-]; done|]. intros H Hs. destruct (IH _ H) as (A & B & C & D); [lia|].
      split_and!; [exact A|exact B|exact C|]. destruct r as [[p k]|]; exact D.
Qed.

(** ** The requests carved out so far *)

Definition bapart (b c : Z * nat) : Prop :=
  b.1 + order_to_size b.2 <= c.1 \/ c.1 + order_to_size c.2 <= b.1.

(** The requests [ps] have been set up in tags of the given depth, in blocks
    that were allocated since the memory was [m0]. *)
Record carved (rq_size : Z) (depth : nat) (ps : list Z) (t : tags_mem) (m0 m : mem) : Prop := {
  cv_rqs : tm_static_rqs t = (Some <$> ps) ++ replicate (depth - length ps) None;
  cv_len : (length ps <= depth)%nat;
  cv_pages : m_pages m = rev (tm_page_list t) ++ m_pages m0;
  cv_inited : m_inited m = (if init_request then rev ps else []) ++ m_inited m0;
  cv_tags : m_tags m = m_tags m0;
  cv_arrays : m_arrays m = m_arrays m0;
  cv_fresh : forall b c, b ∈ tm_page_list t -> c ∈ m_pages m0 -> bapart b c;
  cv_inside : forall p, p ∈ ps -> exists b, b ∈ tm_page_list t /\ inside p rq_size b;
  cv_apart : forall i j p q, i <> j -> ps !! i = Some p -> ps !! j = Some q -> apart rq_size p q;
}.

Lemma carved_snoc rq_size depth ps p b t m0 m rqs :
  carved rq_size depth ps t m0 m -> (length ps < depth)%nat ->
  b ∈ tm_page_list t -> inside p rq_size b -> (forall q, q ∈ ps -> apart rq_size p q) ->
  rqs = <[length ps := Some p]> (tm_static_rqs t) ->
  carved rq_size depth (ps ++ [p]) (t <| tm_static_rqs := rqs |>) m0
    (if init_request then m <| m_inited ::= cons p |> <| m_calls ::= S |> else m).
Proof.
  intros [Ha Hb Hc Hd He Hf Hg Hh Hi] Hlt Hin Hp Hap ->. split; simpl.
  - rewrite Ha, fmap_app, insert_app_r_alt by (rewrite length_fmap; lia).
    rewrite length_fmap, Nat.sub_diag, length_app; simpl.
    replace (depth - length ps)%nat with (S (depth - (length ps + 1))) by lia. simpl. by rewrite <- app_assoc.
  - rewrite length_app. simpl. lia.
  - destruct init_request; exact Hc.
  - destruct init_request; simpl; rewrite Hd; [by rewrite rev_app_distr|done].
  - destruct init_request; exact He.
  - destruct init_request; exact Hf.
  - exact Hg.
  - intros q [Hq| ->%list_elem_of_singleton]%elem_of_app; [by apply Hh|]. by exists b.
  - intros i j q r Hij Hq Hr. rewrite lookup_app in Hq, Hr.
    destruct (ps !! i) eqn:Ei; destruct (ps !! j) eqn:Ej; simplify_eq; [by eapply Hi|..].
    + apply list_lookup_singleton_Some in Hr as [_ <-]. apply list_elem_of_lookup_2 in Ei.
      destruct (Hap _ Ei); unfold apart; lia.
    + apply list_lookup_singleton_Some in Hq as [_ <-]. apply list_elem_of_lookup_2 in Ej. by apply Hap.
    + apply list_lookup_singleton_Some in Hq as [? <-], Hr as [? <-].
      apply lookup_ge_None in Ei, Ej. lia.
Qed.

(** A failed [init_request] leaves the slot empty. *)
Lemma carved_clear rq_size depth ps t m0 m x :
  carved rq_size depth ps t m0 m -> (length ps < depth)%nat ->
  <[length ps := None]> (<[length ps := x]> (tm_static_rqs t)) = tm_static_rqs t.
Proof.
  intros H Hlt. rewrite list_insert_insert_eq. apply list_insert_id. rewrite (cv_rqs _ _ _ _ _ _ H).
  rewrite lookup_app_r, length_fmap, Nat.sub_diag by (rewrite length_fmap; lia). apply lookup_replicate_2. lia.
Qed.

Lemma carved_calls rq_size depth ps t m0 m :
  carved rq_size depth ps t m0 m -> carved rq_size depth ps t m0 (m <| m_calls ::= S |>).
Proof. intros []. by split. Qed.

Lemma carved_same rq_size depth ps t t' m0 m :
  carved rq_size depth ps t m0 m -> tm_static_rqs t' = tm_static_rqs t ->
  tm_page_list t' = tm_page_list t -> carved rq_size depth ps t' m0 m.
Proof. intros [] E1 E2. split; rewrite ?E1, ?E2; done. Qed.

Lemma carved_length rq_size depth ps t m0 m :
  carved rq_size depth ps t m0 m -> length (tm_static_rqs t) = depth.
Proof.
  intros H. rewrite (cv_rqs _ _ _ _ _ _ H), length_app, length_fmap, length_replicate.
  pose proof (cv_len _ _ _ _ _ _ H). lia.
Qed.

(** The requests of one block. *)
Lemma init_block_carved n rq_size depth ps p b t m0 m :
  carved rq_size depth ps t m0 m -> 0 < rq_size -> (length ps + n <= depth)%nat ->
  b ∈ tm_page_list t -> b.1 <= p -> p + Z.of_nat n * rq_size <= b.1 + order_to_size b.2 ->
  (forall q, q ∈ ps -> q + rq_size <= p \/ b.1 + order_to_size b.2 <= q) ->
  exists ok ps' t' m', init_block n rq_size p (Z.of_nat (length ps)) t m = Some (ok, t', m') /\
    carved rq_size depth ps' t' m0 m' /\ tm_page_list t' = tm_page_list t /\
    tm_nr_tags t' = tm_nr_tags t /\
    (ok = true -> length ps' = (length ps + n)%nat).
Proof.
  revert ps p t m. induction n as [|n IH]; intros ps p t m H Hrq Hn Hb Hp1 Hp2 Hq; cbn [init_block].
  - exists true, ps, t, m. split_and!; (done || lia).
  - pose proof (carved_length _ _ _ _ _ _ H) as Hlen.
    rewrite aset_lt by lia. cbn [mbind option_bind]. rewrite Nat2Z.id.
    assert (Hin : inside p rq_size b) by (split; nia).
    pose proof (carved_snoc _ _ _ p b _ _ _ _ H ltac:(lia) Hb Hin
      ltac:(intros q Hq'; destruct Hin, (Hq _ Hq'); unfold apart; lia) eq_refl) as Hs.
    assert (IH' : forall m', carved rq_size depth (ps ++ [p])
        (t <| tm_static_rqs := <[length ps:=Some p]> (tm_static_rqs t) |>) m0 m' ->
      exists ok ps' t' m'', init_block n rq_size (p + rq_size) (Z.of_nat (length ps) + 1)
        (t <| tm_static_rqs := <[length ps:=Some p]> (tm_static_rqs t) |>) m' = Some (ok, t', m'') /\
        carved rq_size depth ps' t' m0 m'' /\ tm_page_list t' = tm_page_list t /\
        tm_nr_tags t' = tm_nr_tags t /\ (ok = true -> length ps' = (length ps + S n)%nat)).
    { intros m' Hc. assert (Hl : length (ps ++ [p]) = S (length ps)) by (rewrite length_app; simpl; lia).
      destruct (IH (ps ++ [p]) (p + rq_size) _ m' Hc Hrq) as (ok & ps' & t' & m'' & E & Hc' & E1 & E2 & E3);
        [lia|done|lia|lia| |].
      - intros q [Hq'| ->%list_elem_of_singleton]%elem_of_app; [destruct (Hq _ Hq'); lia|lia].
      - exists ok, ps', t', m''. rewrite Hl in E. replace (Z.of_nat (length ps) + 1) with (Z.of_nat (S (length ps))) by lia.
        split_and!; try done. intros Hok. rewrite (E3 Hok). lia. }
    unfold blk_mq_init_request. destruct init_request as [f|] eqn:Ei.
    + destruct (c_true (f m p)) eqn:Er; cbv beta iota zeta; cbn [mbind option_bind].
      * rewrite aset_lt by (rewrite length_insert; lia). cbn [mbind option_bind]. rewrite Nat2Z.id.
        do 4 eexists. split; [reflexivity|]. split_and!; try done.
        eapply carved_same; [apply carved_calls, H| |done]. exact (carved_clear _ _ _ _ _ _ (Some p) H ltac:(lia)).
      * exact (IH' _ Hs).
    + cbv beta iota zeta. exact (IH' _ Hs).
Qed.

(** A new block joins the list. *)
Lemma carved_block rq_size depth ps t m0 m m' p k :
  carved rq_size depth ps t m0 m -> m_pages m' = (p, k) :: m_pages m ->
  m_inited m' = m_inited m -> m_tags m' = m_tags m -> m_arrays m' = m_arrays m ->
  (forall b j, (b, j) ∈ m_pages m -> p + order_to_size k <= b \/ b + order_to_size j <= p) ->
  carved rq_size depth ps (t <| tm_page_list ::= fun l => l ++ [(p, k)] |>) m0 m'.
Proof.
  intros [Ha Hb Hc Hd He Hf Hg Hh Hi] Ep Ei Et Ea Hap. split; simpl; try congruence; try done.
  - by rewrite Ep, Hc, rev_app_distr.
  - intros b c [Hb'| ->%list_elem_of_singleton]%elem_of_app Hc'; [by apply Hg|].
    destruct c as [c j]. apply Hap. rewrite Hc. apply elem_of_app. by right.
  - intros q Hq. destruct (Hh q Hq) as (b & Hb' & Hi'). exists b. split; [|done]. apply elem_of_app. by left.
Qed.

Lemma elem_of_rev {A} (x : A) l : x ∈ rev l <-> x ∈ l.
Proof. by rewrite !list_elem_of_In, <- in_rev. Qed.

(** The requests so far lie outside a fresh block. *)
Lemma carved_outside rq_size depth ps t m0 m p k q :
  carved rq_size depth ps t m0 m -> q ∈ ps ->
  (forall b j, (b, j) ∈ m_pages m -> p + order_to_size k <= b \/ b + order_to_size j <= p) ->
  q + rq_size <= p \/ p + order_to_size k <= q.
Proof.
  intros H Hq Hap. destruct (cv_inside _ _ _ _ _ _ H q Hq) as ([b j] & Hb & Hi1 & Hi2). simpl in *.
  destruct (Hap b j); [|lia..]. rewrite (cv_pages _ _ _ _ _ _ H). apply elem_of_app. left.
  by apply elem_of_rev.
Qed.

Lemma alloc_rqs_loop_carved fuel rq_size depth ps t m0 m :
  carved rq_size depth ps t m0 m -> 0 < rq_size <= order_to_size 4 ->
  rq_size * Z.of_nat depth < 2 ^ 64 -> (depth - length ps <= fuel)%nat ->
  exists ok ps' t' m', alloc_rqs_loop fuel rq_size (Z.of_nat depth) (Z.of_nat (length ps))
      (rq_size * (Z.of_nat depth - Z.of_nat (length ps))) t m = Some (ok, t', m') /\
    carved rq_size depth ps' t' m0 m' /\ tm_nr_tags t' = tm_nr_tags t /\ (ok = true -> length ps' = depth).
Proof.
  revert ps t m. induction fuel as [|fuel IH]; intros ps t m H Hrq Hw Hf; cbn [alloc_rqs_loop];
    pose proof (cv_len _ _ _ _ _ _ H) as Hl.
  { rewrite (proj2 (Z.leb_le _ _)) by lia. exists true, ps, t, m. split_and!; (done || lia). }
  destruct (Z.leb_spec (Z.of_nat depth) (Z.of_nat (length ps))) as [Hd|Hd].
  { exists true, ps, t, m. split_and!; (done || lia). }
  set (left := rq_size * (Z.of_nat depth - Z.of_nat (length ps))).
  destruct (alloc_block rq_size (pick_order left 4) m) as [r m1] eqn:Eb.
  destruct (alloc_block_frame _ _ _ _ _ Eb) as (A & B & C & D); [apply pick_order_size; unfold left; nia|].
  destruct r as [[p k]|].
  2: { exists false, ps, t, m1. split_and!; try done. destruct H. split; (done || congruence). }
  destruct D as (Dp & Dk & Df). cbv beta iota zeta.
  set (n := Z.min _ _).
  assert (Hn : 1 <= n <= Z.of_nat depth - Z.of_nat (length ps) /\ n * rq_size <= order_to_size k).
  { assert (1 <= order_to_size k / rq_size) by (apply Z.div_le_lower_bound; lia).
    pose proof (Z.mul_div_le (order_to_size k) rq_size). unfold n. nia. }
  destruct (init_block_carved (Z.to_nat n) rq_size depth ps p (p, k) _ m0 m1
    (carved_block _ _ _ _ _ _ _ _ _ H Dp A B C Df)) as (ok & ps' & t' & m2 & E & Hc & E1 & E2 & E3);
    [lia|lia|apply elem_of_app; right; left|simpl; lia|simpl; rewrite Z2Nat.id by lia; lia
    |intros q Hq; exact (carved_outside _ _ _ _ _ _ _ _ _ H Hq Df)|].
  rewrite E. cbn [mbind option_bind]. destruct ok.
  - rewrite u64_small by (unfold left; nia).
    destruct (IH ps' t' m2 Hc Hrq Hw) as (ok & ps2 & t2 & m3 & F & Hc2 & F1 & F2); [specialize (E3 eq_refl); lia|].
    exists ok, ps2, t2, m3. specialize (E3 eq_refl). split_and!; [|done|exact (eq_trans F1 E2)|done].
    rewrite <- F. f_equal; unfold left; nia.
  - exists false, ps', t', m2. by split_and!.
Qed.

(** ** All or nothing *)

(** A driver that sets requests up also takes them down. *)
Definition paired : Prop := has_exit_request = true \/ init_request = None.

Lemma inside_inhab b : inside b.1 1 b.
Proof. split; [lia|]. pose proof (order_to_size_pos b.2). lia. Qed.

Lemma carved_disjoint rq_size depth ps t m0 m b :
  carved rq_size depth ps t m0 m -> b ∈ tm_page_list t -> b ∉ m_pages m0.
Proof.
  intros H Hb Hb0. pose proof (order_to_size_pos b.2). destruct (cv_fresh _ _ _ _ _ _ H b b Hb Hb0); lia.
Qed.

Lemma carved_new rq_size depth ps t m0 m p :
  carved rq_size depth ps t m0 m -> 0 < rq_size -> mem_wf m0 -> p ∈ ps -> p ∉ m_inited m0.
Proof.
  intros H Hrq Hwf Hp Hin. destruct (Hwf p Hin) as (c & Hc & Hi1 & Hi2).
  destruct (cv_inside _ _ _ _ _ _ H p Hp) as (b & Hb & Hj1 & Hj2).
  destruct (cv_fresh _ _ _ _ _ _ H b c Hb Hc); lia.
Qed.

Lemma carved_wf rq_size depth ps t m0 m :
  carved rq_size depth ps t m0 m -> 0 < rq_size -> mem_wf m0 -> mem_wf m.
Proof.
  intros H Hrq Hwf p. rewrite (cv_inited _ _ _ _ _ _ H), (cv_pages _ _ _ _ _ _ H).
  intros [Hp|Hp]%elem_of_app.
  - assert (p ∈ ps) as (b & Hb & H1 & H2)%(cv_inside _ _ _ _ _ _ H).
    { destruct init_request; [by apply elem_of_rev|by apply elem_of_nil in Hp]. }
    exists b. split; [apply elem_of_app; left; by apply elem_of_rev|]. split; lia.
  - destruct (Hwf p Hp) as (b & Hb & Hi). exists b. split; [apply elem_of_app; by right|done].
Qed.

Lemma carved_elem rq_size depth ps t m0 m p :
  carved rq_size depth ps t m0 m -> Some p ∈ tm_static_rqs t <-> p ∈ ps.
Proof.
  intros H. rewrite (cv_rqs _ _ _ _ _ _ H), elem_of_app, list_elem_of_fmap. split.
  - intros [(q & [= ->] & Hq)|Hr]; [done|]. apply elem_of_replicate in Hr as [? _]. done.
  - intros Hp. left. by exists p.
Qed.

Lemma filter_nothing {A} (P : A -> Prop) `{!forall x, Decision (P x)} (l : list A) :
  (forall x, x ∈ l -> ~ P x) -> filter P l = [].
Proof.
  induction l as [|x l IH]; intros Hl; [done|]. rewrite filter_cons_False by (apply Hl; left).
  apply IH. intros y Hy. apply Hl. by right.
Qed.

(** Freeing the requests of tags gives back what was carved for them. *)
Lemma free_carved rq_size depth ps t m0 m t' m' :
  carved rq_size depth ps t m0 m -> 0 < rq_size -> mem_wf m0 -> paired ->
  blk_mq_free_rqs t m = (t', m') ->
  m_pages m' = m_pages m0 /\ m_inited m' = m_inited m0 /\ m_tags m' = m_tags m0 /\ m_arrays m' = m_arrays m0.
Proof.
  intros H Hrq Hwf Hpair (E1 & E2 & E3 & E4 & _)%free_rqs_frame.
  assert (Hf : forall l, (forall p, p ∈ l -> p ∈ ps) ->
    filter (fun p => Some p ∉ tm_static_rqs t) (l ++ m_inited m0) = m_inited m0).
  { intros l Hl. rewrite filter_app, filter_nothing, list_filter_all; [done|..].
    - intros p Hp Hin. apply (carved_elem _ _ _ _ _ _ _ H) in Hin. by eapply carved_new.
    - intros p Hp Hin. apply Hin. apply (carved_elem _ _ _ _ _ _ _ H). by apply Hl. }
  split_and!.
  - rewrite E1, (cv_pages _ _ _ _ _ _ H), filter_app, filter_nothing, list_filter_all; [done|..].
    + intros b Hb Hin. by eapply carved_disjoint.
    + intros b Hb Hin. by apply Hin, elem_of_rev.
  - rewrite E2, (cv_inited _ _ _ _ _ _ H). destruct Hpair as [-> | ->].
    + apply Hf. intros p Hp. destruct init_request; [by apply elem_of_rev|by apply elem_of_nil in Hp].
    + destruct has_exit_request; [|done]. apply Hf. intros p Hp. by apply elem_of_nil in Hp.
  - rewrite E3. apply H.
  - rewrite E4. apply H.
Qed.

Lemma mem_wf_same m m' : mem_wf m -> m_pages m' = m_pages m -> m_inited m' = m_inited m -> mem_wf m'.
Proof. intros H E1 E2 p. rewrite E1, E2. apply H. Qed.

Lemma carved_init rq_size depth t m :
  tm_static_rqs t = replicate depth None -> carved rq_size depth [] (t <| tm_page_list := [] |>) m m.
Proof.
  intros E. split; simpl; try done.
  - by rewrite E, Nat.sub_0_r.
  - lia.
  - by destruct init_request.
  - intros b c Hb. by apply elem_of_nil in Hb.
  - intros p Hp. by apply elem_of_nil in Hp.
Qed.

(** The shape of the results of [blk_mq_alloc_rqs]. *)
Lemma alloc_rqs_carved set t depth m :
  0 < rq_size_of set <= order_to_size 4 -> 0 <= depth -> rq_size_of set * depth < 2 ^ 64 ->
  tm_static_rqs t = replicate (Z.to_nat depth) None -> mem_wf m -> paired ->
  exists ret t' m', blk_mq_alloc_rqs set t depth m = Some (ret, t', m') /\ mem_wf m' /\
    ((ret = 0 /\ exists ps, length ps = Z.to_nat depth /\
        carved (rq_size_of set) (Z.to_nat depth) ps t' m m' /\ tm_nr_tags t' = tm_nr_tags t) \/
     (ret = - ENOMEM /\ m_pages m' = m_pages m /\ m_inited m' = m_inited m /\
        m_tags m' = m_tags m /\ m_arrays m' = m_arrays m)).
Proof.
  intros Hrq Hd Hw Ht Hwf Hpair. unfold blk_mq_alloc_rqs.
  destruct (alloc_rqs_loop_carved (Z.to_nat depth) (rq_size_of set) (Z.to_nat depth) [] _ m m
    (carved_init _ _ _ _ Ht) Hrq) as (ok & ps & t' & m' & E & Hc & Hn & Hok); [lia|simpl; lia|].
  rewrite Z2Nat.id in E by lia. change (Z.of_nat (length (@nil Z))) with 0 in E. rewrite Z.sub_0_r in E. rewrite u64_small by nia.
  rewrite E. cbn [mbind option_bind]. destruct ok.
  - do 3 eexists. split; [reflexivity|]. split; [apply (carved_wf _ _ _ _ _ _ Hc); [lia|done]|].
    left. split; [done|]. exists ps. split_and!; [by apply Hok|done|exact Hn].
  - destruct (blk_mq_free_rqs t' m') as [t2 m2] eqn:Ef.
    destruct (free_carved _ _ _ _ _ _ _ _ Hc ltac:(lia) Hwf Hpair Ef) as (F1 & F2 & F3 & F4).
    do 3 eexists. split; [reflexivity|]. split; [by eapply mem_wf_same|]. right. by split_and!.
Qed.

(** the allocation of the requests of a hardware queue terminates for every
    request size up to the largest block of pages.  It either stores, for every
    tag, a request that lies inside a page block of these tags and overlaps no
    other request, in blocks apart from all memory already in use, or it returns
    -ENOMEM and the pages and the requests set up by the driver are those from
    before the call. *)
Lemma alloc_rqs_all_or_nothing set t depth m :
  0 < rq_size_of set <= order_to_size 4 -> 0 <= depth -> rq_size_of set * depth < 2 ^ 64 ->
  tm_static_rqs t = replicate (Z.to_nat depth) None -> mem_wf m -> paired ->
  exists ret t' m', blk_mq_alloc_rqs set t depth m = Some (ret, t', m') /\ mem_wf m' /\
    ((ret = 0 /\
      (forall i, 0 <= i < depth -> exists p b, aget (tm_static_rqs t') i = Some (Some p) /\
         b ∈ tm_page_list t' /\ b ∈ m_pages m' /\ inside p (rq_size_of set) b /\
         forall c, c ∈ m_pages m -> bapart b c) /\
      (forall i j p q, i <> j -> aget (tm_static_rqs t') i = Some (Some p) ->
         aget (tm_static_rqs t') j = Some (Some q) -> apart (rq_size_of set) p q)) \/
     (ret = - ENOMEM /\ m_pages m' = m_pages m /\ m_inited m' = m_inited m)).
Proof.
  intros Hrq Hd Hw Ht Hwf Hpair.
  destruct (alloc_rqs_carved set t depth m) as (ret & t' & m' & E & Hwf' & Hr); try done.
  exists ret, t', m'. split_and!; [done..|]. destruct Hr as [(-> & ps & Hl & Hc & _)|(? & ? & ? & _)]; [left|by right].
  assert (Hg : forall i o, aget (tm_static_rqs t') i = Some (Some o) -> ps !! Z.to_nat i = Some o).
  { intros i o. rewrite (cv_rqs _ _ _ _ _ _ Hc), Hl, Nat.sub_diag, app_nil_r. unfold aget.
    case_bool; [done|]. rewrite list_lookup_fmap. destruct (ps !! Z.to_nat i); intros [=]; by subst. }
  split_and!; [done|..].
  - intros i Hi. destruct (lookup_lt_is_Some_2 ps (Z.to_nat i)) as [p Hp]; [lia|].
    destruct (cv_inside _ _ _ _ _ _ Hc p) as (b & Hb & Hin); [by eapply list_elem_of_lookup_2|].
    exists p, b. split_and!; [|done|rewrite (cv_pages _ _ _ _ _ _ Hc); apply elem_of_app; left; by apply elem_of_rev|done|].
    + rewrite (cv_rqs _ _ _ _ _ _ Hc), Hl, Nat.sub_diag, app_nil_r. unfold aget. case_bool; [lia|].
      by rewrite list_lookup_fmap, Hp.
    + intros c. by apply (cv_fresh _ _ _ _ _ _ Hc).
  - intros i j p q Hij Hp Hq. pose proof (aget_Some _ _ _ Hp). pose proof (aget_Some _ _ _ Hq).
    eapply (cv_apart _ _ _ _ _ _ Hc (Z.to_nat i) (Z.to_nat j)); [lia|by apply Hg..].
Qed.

(** ** The tags of a set *)

(** The request that the set holds for a tag of a hardware queue. *)
Definition req_at (set : blk_mq_tag_set) (i k : nat) : option Z :=
  o ← ts_tags set !! i; t ← o; r ← tm_static_rqs t !! k; r.

(** The memory in use since [m0] belongs to the hardware queues [j .. n-1]. *)
Record owned (j n : nat) (set : blk_mq_tag_set) (m0 m : mem) : Prop := {
  ow_pages : exists Ps, m_pages m = Ps ++ m_pages m0 /\
    forall b, b ∈ Ps -> exists i t, (j <= i < n)%nat /\ ts_tags set !! i = Some (Some t) /\ b ∈ tm_page_list t;
  ow_inited : exists Is, m_inited m = Is ++ m_inited m0 /\
    forall p, p ∈ Is -> exists i t, (j <= i < n)%nat /\ ts_tags set !! i = Some (Some t) /\ Some p ∈ tm_static_rqs t;
  ow_noinit : init_request = None -> m_inited m = m_inited m0;
  ow_tags : m_tags m = m_tags m0 + Z.of_nat (n - j);
  ow_arrays : m_arrays m = m_arrays m0 + 2 * Z.of_nat (n - j);
  ow_some : forall i, (j <= i < n)%nat -> exists t, ts_tags set !! i = Some (Some t);
  ow_fresh : forall i t, (j <= i < n)%nat -> ts_tags set !! i = Some (Some t) ->
    (forall b, b ∈ tm_page_list t -> b ∉ m_pages m0) /\ (forall p, Some p ∈ tm_static_rqs t -> p ∉ m_inited m0);
}.

(** The hardware queues below [n] have tags of the depth of the set, with a
    request for each tag; the requests lie in memory in use and do not overlap. *)
Record filled (n : nat) (set : blk_mq_tag_set) (m : mem) : Prop := {
  fl_tags : forall i, (i < n)%nat -> exists t, ts_tags set !! i = Some (Some t) /\ tm_nr_tags t = queue_depth set /\
    length (tm_static_rqs t) = Z.to_nat (queue_depth set);
  fl_req : forall i k, (i < n)%nat -> (k < Z.to_nat (queue_depth set))%nat ->
    exists p b, req_at set i k = Some p /\ b ∈ m_pages m /\ inside p (rq_size_of set) b;
  fl_apart : forall i k i' k' p q, (i < n)%nat -> (i' < n)%nat -> (i, k) <> (i', k') ->
    req_at set i k = Some p -> req_at set i' k' = Some q -> apart (rq_size_of set) p q;
}.

Lemma alloc_rq_map_cases nr m r m' :
  blk_mq_alloc_rq_map nr m = (r, m') ->
  m_pages m' = m_pages m /\ m_inited m' = m_inited m /\
  match r with
  | None => m_tags m' = m_tags m /\ m_arrays m' = m_arrays m
  | Some t => m_tags m' = m_tags m + 1 /\ m_arrays m' = m_arrays m + 2 /\ tm_nr_tags t = nr /\
              tm_static_rqs t = replicate (Z.to_nat nr) None
  end.
Proof.
  unfold blk_mq_alloc_rq_map. repeat case_bool; intros [= <- <-]; simpl; split_and!; try done; lia.
Qed.

(** What the depth of the set and its requests have to satisfy. *)
Record depth_ok (set : blk_mq_tag_set) : Prop := {
  do_size : 0 < rq_size_of set <= order_to_size 4;
  do_depth : 0 <= queue_depth set;
  do_left : rq_size_of set * queue_depth set < 2 ^ 64;
}.

(** The tags of one hardware queue. *)
Lemma alloc_map_and_rqs_cases i set m :
  depth_ok set -> (i < length (ts_tags set))%nat -> mem_wf m -> paired ->
  exists ok set' m', alloc_map_and_rqs (Z.of_nat i) set m = Some (ok, set', m') /\ mem_wf m' /\
    if ok : bool then
      exists t ps m1, set' = set <| ts_tags := <[i := Some t]> (ts_tags set) |> /\ tm_nr_tags t = queue_depth set /\
        length ps = Z.to_nat (queue_depth set) /\
        carved (rq_size_of set) (Z.to_nat (queue_depth set)) ps t m1 m' /\
        m_pages m1 = m_pages m /\ m_inited m1 = m_inited m /\
        m_tags m1 = m_tags m + 1 /\ m_arrays m1 = m_arrays m + 2
    else set' = set <| ts_tags := <[i := None]> (ts_tags set) |> /\
      m_pages m' = m_pages m /\ m_inited m' = m_inited m /\ m_tags m' = m_tags m /\ m_arrays m' = m_arrays m.
Proof.
  intros [D1 D2 D3] Hi Hwf Hpair. unfold alloc_map_and_rqs.
  destruct (blk_mq_alloc_rq_map _ _) as [[t|] m1] eqn:E;
    destruct (alloc_rq_map_cases _ _ _ _ E) as (A1 & A2 & A3).
  - destruct A3 as (A3 & A4 & A5 & A6).
    destruct (alloc_rqs_carved set t (queue_depth set) m1) as (ret & t' & m2 & F & Hwf2 & Hr);
      [done..|by eapply mem_wf_same|done|].
    rewrite F. cbn [mbind option_bind]. rewrite !aset_lt by lia. rewrite Nat2Z.id.
    destruct Hr as [(-> & ps & Hl & Hc & Hn)|(-> & B1 & B2 & B3 & B4)]; cbn -[ENOMEM].
    + do 3 eexists. split; [reflexivity|]. split; [done|]. exists t', ps, m1. split_and!; try done. congruence.
    + do 3 eexists. split; [reflexivity|]. simpl. split; [|split_and!; [done|congruence..| |]]; [|lia..].
      eapply mem_wf_same; [exact Hwf|simpl; congruence..].
  - rewrite aset_lt by lia. rewrite Nat2Z.id. do 3 eexists. split; [reflexivity|]. simpl.
    split; [by eapply mem_wf_same|]. by destruct A3.
Qed.

(** ** Allocating the tags of every hardware queue *)

Section step.
Context (i : nat) (set : blk_mq_tag_set) (m m1 m' : mem) (t : tags_mem) (ps : list Z).
Notation rq_size := (rq_size_of set).
Notation depth := (Z.to_nat (queue_depth set)).
Notation set' := (set <| ts_tags := <[i := Some t]> (ts_tags set) |>).
Hypothesis Hi : (i < length (ts_tags set))%nat.
Hypothesis Hrq : 0 < rq_size.
Hypothesis Hwf : mem_wf m.
Hypothesis Hnr : tm_nr_tags t = queue_depth set.
Hypothesis Hps : length ps = depth.
Hypothesis Hc : carved rq_size depth ps t m1 m'.
Hypothesis Hp1 : m_pages m1 = m_pages m.
Hypothesis Hi1 : m_inited m1 = m_inited m.
Hypothesis Ht1 : m_tags m1 = m_tags m + 1.
Hypothesis Ha1 : m_arrays m1 = m_arrays m + 2.

Lemma tags_at_new : ts_tags set' !! i = Some (Some t).
Proof. by apply list_lookup_insert_eq. Qed.

Lemma tags_at_old j : i <> j -> ts_tags set' !! j = ts_tags set !! j.
Proof. intros H. by apply list_lookup_insert_ne. Qed.

Lemma req_at_new k : req_at set' i k = ps !! k.
Proof.
  unfold req_at. rewrite tags_at_new. cbn [mbind option_bind].
  rewrite (cv_rqs _ _ _ _ _ _ Hc), Hps, Nat.sub_diag, app_nil_r, list_lookup_fmap. by destruct (ps !! k).
Qed.

Lemma req_at_old j k : i <> j -> req_at set' j k = req_at set j k.
Proof. intros H. unfold req_at. by rewrite tags_at_old. Qed.

Lemma pages_grow b : b ∈ m_pages m -> b ∈ m_pages m'.
Proof. intros H. rewrite (cv_pages _ _ _ _ _ _ Hc), Hp1. apply elem_of_app. by right. Qed.

Lemma owned_snoc m0 : owned 0 i set m0 m -> owned 0 (S i) set' m0 m'.
Proof.
  intros [(Ps & EP & HP) (Is & EI & HI) En Et Ea Hs Hf].
  assert (Hlift : forall (P : tags_mem -> Prop), (exists j u, (0 <= j < i)%nat /\ ts_tags set !! j = Some (Some u) /\ P u) ->
    exists j u, (0 <= j < S i)%nat /\ ts_tags set' !! j = Some (Some u) /\ P u).
  { intros P (j & u & Hj & Hu & HPu). exists j, u. split_and!; [lia|lia| |done]. by rewrite tags_at_old by lia. }
  split.
  - exists (rev (tm_page_list t) ++ Ps). split; [by rewrite (cv_pages _ _ _ _ _ _ Hc), Hp1, EP, app_assoc|].
    intros b [Hb|Hb]%elem_of_app; [|by apply Hlift, HP].
    exists i, t. split_and!; [lia|lia|apply tags_at_new|by apply elem_of_rev].
  - exists ((if init_request then rev ps else []) ++ Is). split; [by rewrite (cv_inited _ _ _ _ _ _ Hc), Hi1, EI, app_assoc|].
    intros p [Hp|Hp]%elem_of_app; [|by apply Hlift, HI].
    exists i, t. split_and!; [lia|lia|apply tags_at_new|]. apply (carved_elem _ _ _ _ _ _ _ Hc).
    destruct init_request; [by apply elem_of_rev|by apply elem_of_nil in Hp].
  - intros Ei. rewrite (cv_inited _ _ _ _ _ _ Hc), Ei, Hi1. by apply En.
  - rewrite (cv_tags _ _ _ _ _ _ Hc). lia.
  - rewrite (cv_arrays _ _ _ _ _ _ Hc). lia.
  - intros j Hj. destruct (decide (j = i)) as [->|]; [exists t; apply tags_at_new|].
    rewrite tags_at_old by lia. apply Hs. lia.
  - intros j u Hj. destruct (decide (j = i)) as [->|].
    + rewrite tags_at_new. intros [= <-]. split.
      * intros b Hb Hin. apply (carved_disjoint _ _ _ _ _ _ _ Hc Hb). rewrite Hp1, EP. apply elem_of_app. by right.
      * intros p Hp Hin. apply (carved_elem _ _ _ _ _ _ _ Hc) in Hp.
        apply (carved_new _ _ _ _ _ _ _ Hc Hrq (mem_wf_same _ _ Hwf Hp1 Hi1) Hp). rewrite Hi1, EI. apply elem_of_app. by right.
    + rewrite tags_at_old by lia. apply Hf. lia.
Qed.

Lemma req_at_live j k p : filled i set m -> (j < i)%nat -> req_at set j k = Some p ->
  exists b, b ∈ m_pages m /\ inside p rq_size b.
Proof.
  intros [F1 F2 _] Hj Hp. destruct (F1 j Hj) as (u & Hu & _ & Hl).
  destruct (F2 j k Hj) as (p' & b & E & Hb & Hin); [|exists b; split; [done|congruence]].
  rewrite <- Hl. unfold req_at in Hp. rewrite Hu in Hp. cbn [mbind option_bind] in Hp.
  apply lookup_lt_is_Some. destruct (tm_static_rqs u !! k); [by eexists|done].
Qed.

Lemma new_old_apart j k k' p q : filled i set m -> (j < i)%nat ->
  ps !! k' = Some q -> req_at set j k = Some p -> apart rq_size p q.
Proof.
  intros F Hj Hq Hp. destruct (req_at_live j k p F Hj Hp) as (c & Hc' & Hi2 & Hi3).
  destruct (cv_inside _ _ _ _ _ _ Hc q) as (b & Hb & Hi4 & Hi5); [by eapply list_elem_of_lookup_2|].
  destruct (cv_fresh _ _ _ _ _ _ Hc b c Hb) as [?|?]; [by rewrite Hp1|unfold apart; lia..].
Qed.

Lemma filled_snoc : filled i set m -> filled (S i) set' m'.
Proof.
  intros F. split.
  - intros j Hj. destruct (decide (j = i)) as [->|]; [|rewrite tags_at_old by lia; apply F; lia].
    exists t. split_and!; [apply tags_at_new|exact Hnr|exact (carved_length _ _ _ _ _ _ Hc)].
  - intros j k Hj Hk. destruct (decide (j = i)) as [->|].
    + rewrite req_at_new. destruct (lookup_lt_is_Some_2 ps k) as [p Hp]; [simpl in Hk; lia|].
      destruct (cv_inside _ _ _ _ _ _ Hc p) as (b & Hb & Hin); [by eapply list_elem_of_lookup_2|].
      exists p, b. split_and!; [done| |apply Hin..].
      rewrite (cv_pages _ _ _ _ _ _ Hc). apply elem_of_app. left. by apply elem_of_rev.
    + rewrite req_at_old by lia. destruct (fl_req _ _ _ F j k) as (p & b & E & Hb & Hin); [lia|done|].
      exists p, b. split_and!; [done|by apply pages_grow|apply Hin..].
  - intros j k j' k' p q Hj Hj' Hne. change (rq_size_of set') with rq_size.
    destruct (decide (j = i)) as [->|], (decide (j' = i)) as [->|];
      rewrite ?req_at_new, ?req_at_old by lia; intros Hp Hq.
    + eapply (cv_apart _ _ _ _ _ _ Hc k k'); [congruence|done..].
    + destruct (new_old_apart j' k' k q p F) as [?|?]; [lia|done..|right; lia|left; lia].
    + apply (new_old_apart j k k' p q F); [lia|done..].
    + eapply (fl_apart _ _ _ F j k j' k'); [lia|lia|done..].
Qed.
End step.

Lemma owned_nil n set m : owned n n set m m.
Proof.
  split; try done; try (intros; lia).
  - exists []. split; [done|]. intros b Hb. by apply elem_of_nil in Hb.
  - exists []. split; [done|]. intros b Hb. by apply elem_of_nil in Hb.
Qed.

Lemma filled_nil set m : filled 0 set m.
Proof. split; intros; lia. Qed.

Lemma unwind_maps_frame i set m :
  (forall j, (j < i)%nat -> exists t, ts_tags set !! j = Some (Some t)) ->
  exists m', unwind_maps i set m = Some m' /\ m_pages m' = m_pages m /\ m_inited m' = m_inited m /\
    m_tags m' = m_tags m - Z.of_nat i /\ m_arrays m' = m_arrays m - 2 * Z.of_nat i.
Proof.
  revert m. induction i as [|i IH]; intros m H; cbn [unwind_maps].
  - exists m. split_and!; try done; lia.
  - destruct (H i ltac:(lia)) as [t Ht]. rewrite aget_of_nat, Ht. cbn [mbind option_bind].
    destruct (IH (blk_mq_free_rq_map t m)) as (m' & E & A & B & C & D); [intros j Hj; apply H; lia|].
    exists m'. simpl in *. split_and!; try done; lia.
Qed.

Lemma alloc_maps_loop_cases n i set m0 m :
  depth_ok set -> (i + n <= length (ts_tags set))%nat -> mem_wf m -> paired ->
  owned 0 i set m0 m -> filled i set m ->
  exists ret set' m', alloc_maps_loop n (Z.of_nat i) set m = Some (ret, set', m') /\ mem_wf m' /\
    set' = set <| ts_tags := ts_tags set' |> /\ length (ts_tags set') = length (ts_tags set) /\
    (forall k, (i + n <= k)%nat -> ts_tags set' !! k = ts_tags set !! k) /\
    ((ret = 0 /\ owned 0 (i + n) set' m0 m' /\ filled (i + n) set' m') \/
     (ret = - ENOMEM /\ m_tags m' = m_tags m0 /\ m_arrays m' = m_arrays m0)).
Proof.
  revert i set m. induction n as [|n IH]; intros i set m Hd Hl Hwf Hpair Ho Hf; cbn [alloc_maps_loop].
  { rewrite Nat.add_0_r. exists 0, set, m. split_and!; [done|done|by destruct set|done|done|by left]. }
  destruct (alloc_map_and_rqs_cases i set m Hd) as (ok & set1 & m1 & E & Hwf1 & Hcase); [lia|done..|].
  rewrite E. cbn [mbind option_bind]. destruct ok.
  - destruct Hcase as (t & ps & mi & -> & Hnr & Hps & Hc & C1 & C2 & C3 & C4).
    destruct (IH (S i) (set <| ts_tags := <[i:=Some t]> (ts_tags set) |>) m1) as (ret & set2 & m2 & F & R1 & R2 & R3 & Rk & R4).
    + destruct Hd. by split.
    + simpl. rewrite length_insert. lia.
    + done.
    + done.
    + apply (owned_snoc i set m mi m1 t ps); try done; [lia|apply Hd].
    + apply (filled_snoc i set m mi m1 t ps); try done; lia.
    + exists ret, set2, m2. rewrite Nat.add_succ_comm in R4. simpl in R3. rewrite length_insert in R3.
      split_and!; [rewrite <- F; f_equal; lia|done|exact R2|done| |exact R4].
      intros k Hk. rewrite Rk by lia. simpl. by rewrite list_lookup_insert_ne by lia.
  - destruct Hcase as (-> & C1 & C2 & C3 & C4).
    destruct (unwind_maps_frame i (set <| ts_tags := <[i:=None]> (ts_tags set) |>) m1) as (m2 & F & D1 & D2 & D3 & D4).
    { intros j Hj. simpl. rewrite list_lookup_insert_ne by lia. apply Ho. lia. }
    rewrite Nat2Z.id, F. cbn [mbind option_bind]. do 3 eexists. split; [reflexivity|].
    split_and!; [by eapply mem_wf_same|done|simpl; by rewrite length_insert
      |intros k Hk; simpl; by rewrite list_lookup_insert_ne by lia|]. right.
    pose proof (ow_tags _ _ _ _ _ Ho). pose proof (ow_arrays _ _ _ _ _ Ho). split_and!; [done|lia..].
Qed.

(** ** Reduced depths *)

Lemma reduce_depth_loop_cases fuel set m :
  depth_ok set -> 0 < queue_depth set -> (Z.to_nat (queue_depth set) < fuel)%nat ->
  (Z.to_nat (set_nr_hw_queues set) <= length (ts_tags set))%nat -> mem_wf m -> paired ->
  exists ret set' m' m1, reduce_depth_loop fuel set m = Some (ret, set', m') /\
    set' = set <| queue_depth := queue_depth set' |> <| ts_tags := ts_tags set' |> /\
    length (ts_tags set') = length (ts_tags set) /\ queue_depth set' <= queue_depth set /\
    (forall k, (Z.to_nat (set_nr_hw_queues set) <= k)%nat -> ts_tags set' !! k = ts_tags set !! k) /\
    m_tags m1 = m_tags m /\ m_arrays m1 = m_arrays m /\ (queue_depth set' = queue_depth set -> m1 = m) /\
    ((ret = 0 /\ 0 < queue_depth set' /\
      owned 0 (Z.to_nat (set_nr_hw_queues set)) set' m1 m' /\ filled (Z.to_nat (set_nr_hw_queues set)) set' m' /\
      (queue_depth set' = queue_depth set \/ u32 (reserved_tags set + BLK_MQ_TAG_MIN) <= queue_depth set')) \/
     (ret = - ENOMEM /\ m_tags m' = m_tags m /\ m_arrays m' = m_arrays m)).
Proof.
  revert set m. induction fuel as [|fuel IH]; intros set m Hd Hq Hf Hl Hwf Hpair; [lia|].
  cbn [reduce_depth_loop]. unfold alloc_rq_maps_inner.
  destruct (alloc_maps_loop_cases (Z.to_nat (set_nr_hw_queues set)) 0 set m m Hd) as (err & set1 & m1 & E & Hwf1 & S1 & S2 & Sk & Hr);
    [simpl; lia|done..|apply owned_nil|apply filled_nil|].
  change (Z.of_nat 0) with 0 in E. rewrite E. cbn [mbind option_bind].
  assert (Q1 : queue_depth set1 = queue_depth set) by (by rewrite S1).
  destruct Hr as [(-> & Ho & Hfl)|(-> & T1 & T2)];
    [change (0 =? 0) with true|change (- ENOMEM =? 0) with false]; cbv beta iota zeta.
  { exists 0, set1, m1, m. split_and!; try done; [by rewrite S1 at 1; destruct set; simpl in *; rewrite Q1|lia|].
    left. split_and!; [done|lia|done..|by left]. }
  set (set2 := set1 <| queue_depth ::= _ |>).
  assert (Q2 : queue_depth set2 = queue_depth set / 2) by (simpl; rewrite Q1; apply Z.shiftr_div_pow2; lia).
  assert (Q3 : 0 <= queue_depth set / 2 < queue_depth set).
  { split; [apply Z.div_pos; lia|apply Z.div_lt; lia]. }
  assert (Heq : forall d l, set2 <| queue_depth := d |> <| ts_tags := l |> = set <| queue_depth := d |> <| ts_tags := l |>).
  { intros. unfold set2. rewrite S1. by destruct set. }
  assert (R2 : reserved_tags set2 = reserved_tags set) by (unfold set2; by rewrite S1).
  rewrite Q2, R2. case_bool.
  { exists (- ENOMEM), set2, m1, m1. split_and!; try done; [by rewrite <- Heq; destruct set2|lia|rewrite Q2; lia|]. by right. }
  case_bool.
  { exists (- ENOMEM), set2, m1, m1. split_and!; try done; [by rewrite <- Heq; destruct set2|lia|rewrite Q2; lia|]. by right. }
  assert (Hz : rq_size_of set2 = rq_size_of set) by (unfold set2; by rewrite S1).
  destruct (IH set2 m1) as (ret & set3 & m3 & m0 & F & A1 & A2 & A3 & Ak & A4 & A5 & A6 & A7); try done; [|lia..| |].
  - destruct Hd as [D1 D2 D3]. split; rewrite ?Hz, ?Q2; [done|lia|nia].
  - unfold set2. rewrite S1. simpl. lia.
  - exists ret, set3, m3, m0. rewrite Q2 in A3, A7. rewrite R2 in A7.
    assert (Hn : set_nr_hw_queues set2 = set_nr_hw_queues set) by (unfold set2; by rewrite S1).
    split_and!; [done|by rewrite A1 at 1; rewrite Heq|simpl in A2; congruence|lia
      |intros k Hk; rewrite Ak by lia; by apply Sk|congruence|congruence|lia|].
    rewrite Hn in A7. destruct A7 as [(? & ? & ? & ? & ?)|(? & ? & ?)]; [left; split_and!; try done; right; lia|right; split_and!; congruence].
Qed.
End spec.
