(* ===== verification/BlkMqTagSetTop.v ===== *)
(** * Tag sets from allocation to release

    [blk_mq_alloc_tag_set] and [blk_mq_free_tag_set] as a whole: the checks and
    limits, the maps, the tags of every hardware queue and the error paths. *)
From S2P Require Import Prelude MqTypes BlkMqRun BlkMqTagSet BlkMqTagSetSpec.

(** ** Freeing the tags *)

Section free.
Context {mm : MqMem} {ml : MqMemLaws mm}.

Lemma owned_none j n set m0 m :
  (n <= j)%nat -> owned j n set m0 m ->
  m_pages m = m_pages m0 /\ m_inited m = m_inited m0 /\ m_tags m = m_tags m0 /\ m_arrays m = m_arrays m0.
Proof.
  intros Hj [(Ps & EP & HP) (Is & EI & HI) _ Et Ea _ _]. split_and!; [| |lia|lia].
  - destruct Ps as [|b Ps]; [done|]. destruct (HP b) as (i & t & ? & _); [left|lia].
  - destruct Is as [|b Is]; [done|]. destruct (HI b) as (i & t & ? & _); [left|lia].
Qed.

Lemma owned_past j n set m0 m : (n <= j)%nat -> owned j n set m0 m -> owned (S j) n set m0 m.
Proof.
  intros Hj H. destruct (owned_none _ _ _ _ _ Hj H) as (A & B & C & D). split; try done; try (intros; lia).
  - exists []. split; [done|]. intros b Hb. by apply elem_of_nil in Hb.
  - exists []. split; [done|]. intros b Hb. by apply elem_of_nil in Hb.
Qed.

(** What the tags [t] of queue [j] own goes; the rest belongs to later queues. *)
Lemma owned_rest {A} j n (L L0 : list A) (P : A -> Prop) `{!forall x, Decision (P x)} (own : nat -> A -> Prop) :
  (forall x, x ∈ L -> exists i, (j <= i < n)%nat /\ own i x) ->
  (forall x, P x -> own j x -> False) -> (forall x, x ∈ L0 -> P x) ->
  exists L', filter P (L ++ L0) = L' ++ L0 /\ forall x, x ∈ L' -> exists i, (S j <= i < n)%nat /\ own i x.
Proof.
  intros H1 H2 H3. exists (filter P L). split; [by rewrite filter_app, (list_filter_all P L0 H3)|].
  intros x [Hp Hx]%list_elem_of_filter. destruct (H1 x Hx) as (i & Hi & Ho). exists i. split; [|done].
  destruct (decide (i = j)) as [->|]; [exfalso; by eapply H2|lia].
Qed.

Lemma free_queue_owned j n set m0 m :
  paired -> owned j n set m0 m -> (j < n <= length (ts_tags set))%nat -> exists m',
  blk_mq_free_map_and_requests set (Z.of_nat j) m
    = Some (set <| ts_tags := <[j := None]> (ts_tags set) |>, m') /\
  owned (S j) n (set <| ts_tags := <[j := None]> (ts_tags set) |>) m0 m'.
Proof.
  intros Hpair [(Ps & EP & HP) (Is & EI & HI) En Et Ea Hs Hf] Hj.
  destruct (Hs j ltac:(lia)) as [t Ht]. destruct (Hf j t ltac:(lia) Ht) as [F1 F2].
  unfold blk_mq_free_map_and_requests. rewrite bool_decide_eq_false_2 by (intros E; rewrite E in Hj; simpl in Hj; lia).
  rewrite aget_of_nat, Ht. cbn [mbind option_bind]. destruct (blk_mq_free_rqs t m) as [t' m1] eqn:E.
  destruct (free_rqs_frame _ _ _ _ E) as (G1 & G2 & G3 & G4 & _).
  rewrite aset_lt by lia. rewrite Nat2Z.id. cbn [mbind option_bind]. eexists. split; [reflexivity|].
  assert (Hold : forall i u, (S j <= i < n)%nat -> <[j:=None]> (ts_tags set) !! i = Some (Some u) <-> ts_tags set !! i = Some (Some u)).
  { intros i u Hi. by rewrite list_lookup_insert_ne by lia. }
  split; simpl.
  - destruct (owned_rest j n Ps (m_pages m0) (fun b => b ∉ tm_page_list t)
      (fun i b => exists u, ts_tags set !! i = Some (Some u) /\ b ∈ tm_page_list u)) as (L & EL & HL).
    + intros b Hb. destruct (HP b Hb) as (i & u & Hi & Hu & Hbu). exists i. split; [done|]. by exists u.
    + intros b Hb (u & Hu & Hbu). congruence.
    + intros b Hb Hin. by apply (F1 b).
    + exists L. split; [by rewrite G1, EP|]. intros b Hb. destruct (HL b Hb) as (i & Hi & u & Hu & Hbu).
      exists i, u. split_and!; [lia|lia|by apply Hold|done].
  - destruct (owned_rest j n Is (m_inited m0) (fun p => Some p ∉ tm_static_rqs t)
      (fun i p => exists u, ts_tags set !! i = Some (Some u) /\ Some p ∈ tm_static_rqs u)) as (L & EL & HL).
    + intros p Hp. destruct (HI p Hp) as (i & u & Hi & Hu & Hpu). exists i. split; [done|]. by exists u.
    + intros p Hp (u & Hu & Hpu). congruence.
    + intros p Hp Hin. by apply (F2 p).
    + destruct has_exit_request eqn:Ex.
      * exists L. split; [by rewrite G2, EI|]. intros p Hp. destruct (HL p Hp) as (i & Hi & u & Hu & Hpu).
        exists i, u. split_and!; [lia|lia|by apply Hold|done].
      * assert (Hn : init_request = None) by (destruct Hpair; congruence). exists []. rewrite G2. split; [by apply En|].
        intros p Hp. by apply elem_of_nil in Hp.
  - intros Ei. rewrite G2. destruct has_exit_request; [|by apply En]. rewrite (En Ei).
    apply list_filter_all. intros p Hp Hin. by apply (F2 p).
  - rewrite G3. lia.
  - rewrite G4. lia.
  - intros i Hi. destruct (Hs i ltac:(lia)) as [u Hu]. exists u. by apply Hold.
  - intros i u Hi Hu. apply (Hf i); [lia|by apply Hold].
Qed.

(** The loop of [blk_mq_free_tag_set] from hardware queue [j] on. *)
Lemma free_loop_owned r j n set m0 m :
  paired -> owned j n set m0 m -> (n <= length (ts_tags set))%nat -> (j + r = length (ts_tags set))%nat ->
  (forall i t, (n <= i)%nat -> ts_tags set !! i <> Some (Some t)) ->
  exists set' m', foldM (fun '(set, m) i => blk_mq_free_map_and_requests set i m) (set, m)
      (seqZ (Z.of_nat j) (Z.of_nat r)) = Some (set', m') /\
    set' = set <| ts_tags := ts_tags set' |> /\ length (ts_tags set') = length (ts_tags set) /\
    m_pages m' = m_pages m0 /\ m_inited m' = m_inited m0 /\ m_tags m' = m_tags m0 /\ m_arrays m' = m_arrays m0.
Proof.
  intros Hpair. revert j set m. induction r as [|r IH]; intros j set m Ho Hn Hr Hx.
  { exists set, m. split_and!; [done|by destruct set|done|..]; apply (owned_none j n set m0 m ltac:(lia) Ho). }
  rewrite seqZ_cons by lia. cbn [foldM].
  replace (Z.succ (Z.of_nat j)) with (Z.of_nat (S j)) by lia.
  replace (Z.pred (Z.of_nat (S r))) with (Z.of_nat r) by lia.
  destruct (decide (j < n)%nat) as [Hj|Hj].
  - destruct (free_queue_owned j n set m0 m Hpair Ho ltac:(lia)) as (m1 & E & Ho1). rewrite E. cbn [mbind option_bind].
    destruct (IH (S j) _ m1 Ho1) as (set' & m' & F & A & B & C); simpl; rewrite ?length_insert; [lia..| |].
    + intros i t Hi. rewrite list_lookup_insert_ne by lia. by apply Hx.
    + simpl in B. rewrite length_insert in B. exists set', m'. split_and!; try done; apply C.
  - assert (E : blk_mq_free_map_and_requests set (Z.of_nat j) m = Some (set, m)).
    { unfold blk_mq_free_map_and_requests. case_bool; [done|]. rewrite aget_of_nat.
      destruct (lookup_lt_is_Some_2 (ts_tags set) j) as [[t|] Ht]; [lia| |by rewrite Ht].
      exfalso. by apply (Hx j t ltac:(lia)). }
    rewrite E. cbn [mbind option_bind]. apply IH; [|done..|lia|done]. apply owned_past; [lia|done].
Qed.
End free.

(** ** The maps *)

(** The length of the map of each type; zero when it is not allocated. *)
Definition shape (set : blk_mq_tag_set) : list nat := (fun x => length (mq_map x)) <$> set_map set.

(** The number of allocated maps. *)
Definition maps_live (set : blk_mq_tag_set) : Z :=
  foldr (fun n k => (if (n =? 0)%nat then 0 else 1) + k) 0 (take (Z.to_nat (nr_maps set)) (shape set)).

Section maps.
Context {mm : MqMem}.

Lemma three {A} (l : list A) : length l = 3%nat -> exists a b c, l = [a; b; c].
Proof. destruct l as [|a [|b [|c [|]]]]; try done. intros _. by exists a, b, c. Qed.

Lemma le_three n : 0 <= n <= 3 -> n = 0 \/ n = 1 \/ n = 2 \/ n = 3.
Proof. lia. Qed.

(** The error label and the end of [blk_mq_free_tag_set] free every array. *)
Lemma free_maps_frame set m :
  length (set_map set) = 3%nat -> 0 <= nr_maps set <= 3 -> ts_tags set <> [] ->
  exists set' m', free_maps set m = Some (set', m') /\ ts_tags set' = [] /\ maps_live set' = 0 /\
    m_pages m' = m_pages m /\ m_inited m' = m_inited m /\ m_tags m' = m_tags m /\
    m_arrays m' = m_arrays m - maps_live set - 1.
Proof.
  intros Hl Hn Ht. unfold free_maps, maps_live, shape.
  destruct (three _ Hl) as (a & b & c & E).
  destruct set as [map nr hw qd rs cs nn fl [|o tags]]; simpl in *; [done|]. subst map.
  destruct a as [[|] ? ?], b as [[|] ? ?], c as [[|] ? ?], (le_three _ Hn) as [-> | [-> | [-> | ->]]];
    do 2 eexists; (split; [reflexivity|]); cbn;
    repeat first [rewrite bool_decide_eq_false_2 by done|rewrite bool_decide_eq_true_2 by done];
    cbn; split_and!; try done; simpl; lia.
Qed.

Lemma mod_map_frame j f set :
  0 <= j < Z.of_nat (length (set_map set)) -> exists set', mod_map j f set = Some set' /\
    set' = set <| set_map := set_map set' |> /\ length (set_map set') = length (set_map set) /\
    ((forall x, length (mq_map (f x)) = length (mq_map x)) -> shape set' = shape set).
Proof.
  intros Hj. destruct (aget_lt _ _ Hj) as [x Hx]. unfold mod_map, amod. rewrite Hx. cbn [mbind option_bind].
  rewrite aset_lt by done. cbn [mbind option_bind]. eexists. split_and!; [done|done|apply length_insert|].
  intros Hf. unfold shape. simpl. rewrite list_fmap_insert, Hf. apply list_insert_id.
  rewrite list_lookup_fmap. unfold aget in Hx. case_bool_in Hx; [done|]. by rewrite Hx.
Qed.

Lemma alloc_map_arrays_frame is_kdump nr_cpu_ids set m :
  length (set_map set) = 3%nat -> 1 <= nr_maps set <= 3 -> 1 <= nr_cpu_ids ->
  Forall (fun x => mq_map x = []) (set_map set) ->
  exists ok set' m', alloc_map_arrays is_kdump nr_cpu_ids (Z.to_nat (nr_maps set)) 0 set m = Some (ok, set', m') /\
    set' = set <| set_map := set_map set' |> /\ length (set_map set') = 3%nat /\
    m_arrays m' = m_arrays m + maps_live set' /\
    m_pages m' = m_pages m /\ m_inited m' = m_inited m /\ m_tags m' = m_tags m.
Proof.
  intros Hl Hn Hc Hall. destruct (three _ Hl) as (a & b & c & E).
  assert (Hcpu : exists k, Z.to_nat nr_cpu_ids = S k) by (exists (Z.to_nat (nr_cpu_ids - 1)); lia).
  destruct Hcpu as [k Hk]. destruct set as [map nr hw qd rs cs nn fl tags]; simpl in *. subst map.
  apply Forall_cons in Hall as [Ha Hall]. apply Forall_cons in Hall as [Hb Hall].
  apply Forall_cons in Hall as [Hc' _]. destruct a, b, c; simpl in *; subst.
  destruct (le_three nr) as [-> | [-> | [-> | ->]]]; [lia|lia|..];
    change (Z.to_nat 1) with 1%nat; change (Z.to_nat 2) with 2%nat; change (Z.to_nat 3) with 3%nat;
    cbn [alloc_map_arrays]; rewrite ?Hk; repeat (case_bool; cbn);
    (do 3 eexists; split; [reflexivity|]); unfold maps_live, shape; simpl;
    rewrite ?length_replicate; simpl; split_and!; try done; lia.
Qed.
End maps.

(** ** Remapping *)

Section update.
Context {mm : MqMem} (is_kdump : bool)
  (blk_mq_map_queues : blk_mq_queue_map -> Z * blk_mq_queue_map)
  (map_queues : option (blk_mq_tag_set -> Z * blk_mq_tag_set)).

(** The mapping functions write the entries of the maps only. *)
Definition mapping_laws : Prop :=
  (forall x, length (mq_map (blk_mq_map_queues x).2) = length (mq_map x)) /\
  (forall f set, map_queues = Some f ->
     (f set).2 = set <| set_map := set_map (f set).2 |> /\ shape (f set).2 = shape set).

Lemma shape_length set set' : shape set' = shape set -> length (set_map set') = length (set_map set).
Proof. intros H. apply (f_equal length) in H. unfold shape in H. by rewrite !length_fmap in H. Qed.

Lemma clear_maps_frame l set :
  Forall (fun i => 0 <= i < Z.of_nat (length (set_map set))) l ->
  exists set', foldM (fun set i => mod_map i blk_mq_clear_mq_map set) set l = Some set' /\
    set' = set <| set_map := set_map set' |> /\ shape set' = shape set.
Proof.
  revert set. induction l as [|i l IH]; intros set Hl; cbn [foldM].
  { exists set. split_and!; try done. by destruct set. }
  apply Forall_cons in Hl as [Hi Hl].
  destruct (mod_map_frame i blk_mq_clear_mq_map set Hi) as (set1 & E & A & B & C). rewrite E. cbn [mbind option_bind].
  destruct (IH set1) as (set2 & F & A2 & C2); [by rewrite B|]. exists set2. split_and!; [done| |].
  - rewrite A2, A. done.
  - rewrite C2. apply C. intros x. apply length_fmap.
Qed.

Lemma map_default_frame set :
  mapping_laws -> (0 < length (set_map set))%nat -> nr_maps set <= 1 ->
  exists ret set', map_default blk_mq_map_queues set = Some (ret, set') /\
    set' = set <| set_map := set_map set' |> /\ shape set' = shape set.
Proof.
  intros [L1 _] Hl Hle. unfold map_default. case_bool; [lia|].
  destruct (aget_lt (set_map set) HCTX_TYPE_DEFAULT) as [x Hx]; [unfold HCTX_TYPE_DEFAULT; lia|].
  rewrite Hx. cbn [mbind option_bind]. destruct (blk_mq_map_queues x) as [ret y] eqn:Ey.
  assert (Hy : length (mq_map y) = length (mq_map x)) by (rewrite <- (L1 x), Ey; done).
  unfold mod_map, amod. rewrite Hx. cbn [mbind option_bind]. rewrite aset_lt by (unfold HCTX_TYPE_DEFAULT; lia).
  cbn [mbind option_bind]. do 2 eexists. split_and!; [done|done|].
  unfold shape. simpl. rewrite list_fmap_insert, Hy. apply list_insert_id.
  assert (Hx' : set_map set !! Z.to_nat HCTX_TYPE_DEFAULT = Some x) by exact Hx.
  by rewrite list_lookup_fmap, Hx'.
Qed.

Lemma update_queue_map_frame set :
  mapping_laws -> length (set_map set) = 3%nat -> 1 <= nr_maps set <= 3 ->
  (1 < nr_maps set -> is_kdump = false /\ map_queues <> None) ->
  exists ret set', blk_mq_update_queue_map is_kdump blk_mq_map_queues map_queues set = Some (ret, set') /\
    set' = set <| set_map := set_map set' |> /\ shape set' = shape set.
Proof.
  intros Hlaws Hl Hn Hbug. unfold blk_mq_update_queue_map.
  assert (H1 : exists set1, (if nr_maps set =? 1
         then mod_map HCTX_TYPE_DEFAULT (fun x => x <| nr_queues := set_nr_hw_queues set |>) set
         else Some set) = Some set1 /\ set1 = set <| set_map := set_map set1 |> /\ shape set1 = shape set).
  { case_bool; [|exists set; split_and!; [done|by destruct set|done]].
    destruct (mod_map_frame HCTX_TYPE_DEFAULT (fun x => x <| nr_queues := set_nr_hw_queues set |>) set)
      as (set1 & E & A & B & C); [rewrite Hl; unfold HCTX_TYPE_DEFAULT; lia|]. exists set1. split_and!; [done|done|]. by apply C. }
  destruct H1 as (set1 & -> & A & C). cbn [mbind option_bind].
  assert (N1 : nr_maps set1 = nr_maps set) by (by rewrite A).
  pose proof (shape_length _ _ C) as Hl1.
  assert (Hdef : nr_maps set <= 1 -> exists ret set', map_default blk_mq_map_queues set1 = Some (ret, set') /\
    set' = set <| set_map := set_map set' |> /\ shape set' = shape set).
  { intros Hle. destruct (map_default_frame set1) as (ret & set2 & E & A2 & C2); [done|lia..|].
    exists ret, set2. split_and!; [done|by rewrite A2, A|congruence]. }
  destruct map_queues as [f|] eqn:Emq; [|apply Hdef; destruct (decide (1 < nr_maps set)) as [?|?]; [by destruct Hbug|lia]].
  case_bool; [|apply Hdef; destruct (decide (1 < nr_maps set)) as [?|?]; [destruct Hbug; [done|]; destruct is_kdump; done|lia]].
  destruct (clear_maps_frame (seqZ 0 (nr_maps set1)) set1) as (set2 & E & A2 & C2).
  { apply Forall_forall. intros i Hi%elem_of_seqZ. lia. }
  rewrite E. cbn [mbind option_bind]. destruct (proj2 Hlaws f set2 Emq) as [A3 C3].
  destruct (f set2) as [ret set3]. exists ret, set3. simpl in *. split_and!; [done|by rewrite A3, A2, A|congruence].
Qed.
End update.

(** ** The set as a whole *)

Section top.
Context {mm : MqMem} {ml : MqMemLaws mm} (is_kdump : bool) (nr_cpu_ids : Z)
  (blk_mq_map_queues : blk_mq_queue_map -> Z * blk_mq_queue_map)
  (map_queues : option (blk_mq_tag_set -> Z * blk_mq_tag_set))
  (has_queue_rq has_get_budget has_put_budget : bool).

Notation check := (check_tag_set is_kdump nr_cpu_ids has_queue_rq has_get_budget has_put_budget).
Notation alloc := (blk_mq_alloc_tag_set is_kdump nr_cpu_ids blk_mq_map_queues map_queues
  has_queue_rq has_get_budget has_put_budget).

(** What a driver hands in: a zeroed set with unsigned fields, requests that
    fit a block of 16 pages, and a mapping method if it has several maps. *)
Record set_ok (set : blk_mq_tag_set) : Prop := {
  so_maps : length (set_map set) = 3%nat;
  so_null : Forall (fun x => mq_map x = []) (set_map set);
  so_nr_maps : 0 <= nr_maps set;
  so_hw : 0 <= set_nr_hw_queues set;
  so_depth : 0 <= queue_depth set;
  so_size : 0 < rq_size_of set <= order_to_size 4;
  so_left : rq_size_of set * queue_depth set < 2 ^ 64;
  so_method : 1 < nr_maps set -> map_queues <> None;
}.

(** A set that passed the checks. *)
Record checked (set set1 : blk_mq_tag_set) : Prop := {
  ck_same : set_map set1 = set_map set /\ rq_size_of set1 = rq_size_of set;
  ck_depth : 0 < queue_depth set1 <= Z.min (queue_depth set) BLK_MQ_MAX_DEPTH;
  ck_nr_maps : 1 <= nr_maps set1 <= 3;
  ck_hw : 0 < set_nr_hw_queues set1;
  ck_tags : set_nr_hw_queues set1 <= nr_hw_queues_of nr_cpu_ids set1;
  ck_method : 1 < nr_maps set1 -> is_kdump = false /\ map_queues <> None;
}.

Lemma check_tag_set_cases set err set1 :
  1 <= nr_cpu_ids -> set_ok set -> check set = (err, set1) ->
  err = - EINVAL \/ err = 0 /\ checked set set1.
Proof.
  intros Hc [A1 A2 A3 A4 A5 A6 A7 A8]. unfold check_tag_set.
  case_bool; [intros [= <- <-]; by left|]. case_bool; [intros [= <- <-]; by left|].
  case_bool; [intros [= <- <-]; by left|]. case_bool; [intros [= <- <-]; by left|].
  case_bool; [intros [= <- <-]; by left|]. clear Hif1 Hif2 Hif3.
  set (d := if BLK_MQ_MAX_DEPTH <? queue_depth set then _ else _).
  assert (D : set_map d = set_map set /\ rq_size_of d = rq_size_of set /\ nr_maps d = nr_maps set /\
    set_nr_hw_queues d = set_nr_hw_queues set /\ queue_depth d = Z.min (queue_depth set) BLK_MQ_MAX_DEPTH).
  { unfold d. case_bool; split_and!; try done; simpl; lia. }
  destruct D as (D1 & D2 & D3 & D4 & D5). clearbody d. unfold BLK_MQ_MAX_DEPTH in *.
  rewrite D3. unfold HCTX_MAX_TYPES. case_bool; [intros [= <- <-]; by left|].
  set (e := if nr_maps set =? 0 then _ else _).
  assert (E : set_map e = set_map set /\ rq_size_of e = rq_size_of set /\
    nr_maps e = (if nr_maps set =? 0 then 1 else nr_maps set) /\
    set_nr_hw_queues e = set_nr_hw_queues set /\ queue_depth e = queue_depth d).
  { unfold e. case_bool; split_and!; done. }
  destruct E as (E1 & E2 & E3 & E4 & E5). clearbody e. intros [= <- <-]. right. split; [done|].
  assert (Hk : is_kdump = true \/ is_kdump = false /\ (1 < nr_maps e -> map_queues <> None)).
  { destruct is_kdump; [by left|right]. split; [done|]. intros. apply A8. case_bool_in E3; lia. }
  assert (1 <= nr_maps e <= 3) by (case_bool_in E3; lia). clear E3.
  destruct Hk as [-> | [-> Hm]]; (destruct (_ && _) eqn:Ex; split; [split; [exact E1|exact E2]|..]);
    unfold nr_hw_queues_of, BLK_MQ_MAX_DEPTH; simpl in *; try done; try lia;
    repeat case_bool; try lia; intros ?; split; [done|by apply Hm].
Qed.

(** What is left of an attempt to allocate. *)
Lemma fail_tag_set_frame ret set m :
  length (set_map set) = 3%nat -> 0 <= nr_maps set <= 3 -> ts_tags set <> [] ->
  exists set' m', fail_tag_set ret set m = Some (ret, set', m') /\
    m_tags m' = m_tags m /\ m_arrays m' = m_arrays m - maps_live set - 1.
Proof.
  intros H1 H2 H3. destruct (free_maps_frame set m H1 H2 H3) as (set' & m' & E & _ & _ & _ & _ & A & B).
  unfold fail_tag_set. rewrite E. by exists set', m'.
Qed.

Lemma live_same set set' :
  nr_maps set' = nr_maps set -> shape set' = shape set -> maps_live set' = maps_live set.
Proof. unfold maps_live. by intros -> ->. Qed.

(** The result of a successful allocation over the memory [m]. *)
Record allocated (set1 set' : blk_mq_tag_set) (m m' : mem) : Prop := {
  al_set : nr_maps set' = nr_maps set1 /\ set_nr_hw_queues set' = set_nr_hw_queues set1 /\
    length (set_map set') = 3%nat /\ rq_size_of set' = rq_size_of set1;
  al_len : length (ts_tags set') = Z.to_nat (nr_hw_queues_of nr_cpu_ids set1);
  al_rest : forall k t, (Z.to_nat (set_nr_hw_queues set1) <= k)%nat -> ts_tags set' !! k <> Some (Some t);
  al_depth : 0 < queue_depth set' <= queue_depth set1;
  al_filled : filled (Z.to_nat (set_nr_hw_queues set1)) set' m';
  al_owned : exists m1, owned 0 (Z.to_nat (set_nr_hw_queues set1)) set' m1 m' /\ m_tags m1 = m_tags m /\
    m_arrays m1 = m_arrays m + maps_live set' + 1 /\
    (queue_depth set' = queue_depth set1 -> m_pages m1 = m_pages m /\ m_inited m1 = m_inited m);
}.

(** The last step: the tags of every hardware queue. *)
Lemma alloc_rq_maps_cases set1 m :
  depth_ok set1 -> 0 < queue_depth set1 -> mem_wf m -> paired ->
  (Z.to_nat (set_nr_hw_queues set1) <= length (ts_tags set1))%nat ->
  exists ret set' m' m1, blk_mq_alloc_rq_maps set1 m = Some (ret, set', m') /\
    set' = set1 <| queue_depth := queue_depth set' |> <| ts_tags := ts_tags set' |> /\
    length (ts_tags set') = length (ts_tags set1) /\ queue_depth set' <= queue_depth set1 /\
    (forall k, (Z.to_nat (set_nr_hw_queues set1) <= k)%nat -> ts_tags set' !! k = ts_tags set1 !! k) /\
    m_tags m1 = m_tags m /\ m_arrays m1 = m_arrays m /\ (queue_depth set' = queue_depth set1 -> m1 = m) /\
    ((ret = 0 /\ 0 < queue_depth set' /\
      owned 0 (Z.to_nat (set_nr_hw_queues set1)) set' m1 m' /\ filled (Z.to_nat (set_nr_hw_queues set1)) set' m') \/
     (ret = - ENOMEM /\ m_tags m' = m_tags m /\ m_arrays m' = m_arrays m)).
Proof.
  intros Hd Hq Hwf Hpair Hl. unfold blk_mq_alloc_rq_maps.
  destruct (reduce_depth_loop_cases (Z.to_nat (queue_depth set1) + 1) set1 m)
    as (ret & set' & m' & m1 & E & A1 & A2 & A3 & A4 & A5 & A6 & A7 & A8); try done; [lia|].
  rewrite E. cbn [mbind option_bind]. destruct A8 as [(-> & B1 & B2 & B3 & _)|(-> & B1 & B2)].
  - rewrite (proj2 (Z.eqb_neq (queue_depth set') 0)) by lia. simpl.
    exists 0, set', m', m1. split_and!; try done. left. by split_and!.
  - change (- ENOMEM =? 0) with false. simpl negb. rewrite orb_true_r.
    exists (- ENOMEM), set', m', m1. split_and!; try done. by right.
Qed.

(** The end of the allocation, after the maps have been filled. *)
Lemma finish_tag_set set set1 set4 m m2 (live := maps_live set4) :
  set_ok set -> checked set set1 -> mem_wf m2 -> paired ->
  set4 = set1 <| set_map := set_map set4 |> <| ts_tags := ts_tags set4 |> -> length (set_map set4) = 3%nat ->
  ts_tags set4 = replicate (Z.to_nat (nr_hw_queues_of nr_cpu_ids set1)) None ->
  m_tags m2 = m_tags m -> m_arrays m2 = m_arrays m + live + 1 -> m_pages m2 = m_pages m -> m_inited m2 = m_inited m ->
  exists ret set' m',
    ('(ret, set, m) ← blk_mq_alloc_rq_maps set4 m2;
     if negb (ret =? 0) then fail_tag_set ret set m else Some (0, set, m)) = Some (ret, set', m') /\
    ((ret = 0 /\ checked set set1 /\ allocated set1 set' m m') \/
     (ret <> 0 /\ m_tags m' = m_tags m /\ m_arrays m' = m_arrays m)).
Proof.
  intros Hok Hck Hwf Hpair E4 Hl4 Ht4 T1 T2 T3 T4.
  pose proof (ck_same _ _ Hck) as [Hmap Hsz]. pose proof (ck_hw _ _ Hck) as Hhw.
  pose proof (ck_tags _ _ Hck) as Htg. pose proof (ck_nr_maps _ _ Hck) as Hnm. pose proof (ck_depth _ _ Hck) as Hqd.
  assert (Hq4 : queue_depth set4 = queue_depth set1) by (by rewrite E4).
  assert (Hh4 : set_nr_hw_queues set4 = set_nr_hw_queues set1) by (by rewrite E4).
  assert (Hz4 : rq_size_of set4 = rq_size_of set) by (rewrite E4; exact Hsz).
  assert (Hn4 : nr_maps set4 = nr_maps set1) by (by rewrite E4).
  destruct (alloc_rq_maps_cases set4 m2) as (ret & set5 & m5 & m1 & E & A1 & A2 & A3 & A4 & A5 & A6 & A7 & A8); try done.
  { destruct Hok. split; rewrite ?Hz4, ?Hq4; [done|lia|nia]. }
  { lia. }
  { rewrite Ht4, length_replicate, Hh4. lia. }
  rewrite E. cbn [mbind option_bind]. rewrite Hh4 in A4, A8. rewrite Hq4 in A3, A7.
  assert (Hn5 : nr_maps set5 = nr_maps set1) by (rewrite A1; done).
  assert (Hm5 : set_map set5 = set_map set4) by (rewrite A1; done).
  assert (Hv5 : maps_live set5 = live) by (apply live_same; [congruence|unfold shape; by rewrite Hm5]).
  destruct A8 as [(-> & B1 & B2 & B3)|(-> & B1 & B2)].
  - exists 0, set5, m5. split; [done|]. left. split_and!; [done..|]. split.
    + split_and!; [done|rewrite A1; done|congruence|rewrite A1; simpl; unfold rq_size_of in *; simpl; congruence].
    + by rewrite A2, Ht4, length_replicate.
    + intros k t Hk. rewrite A4 by done. rewrite Ht4. intros [? _]%lookup_replicate_1. done.
    + lia.
    + done.
    + exists m1. split_and!; [done|congruence|lia|]. intros Hq. rewrite (A7 Hq). done.
  - change (- ENOMEM =? 0) with false. cbv iota. simpl negb. cbv iota.
    destruct (fail_tag_set_frame (- ENOMEM) set5 m5) as (set' & m' & Ef & G1 & G2); [congruence|lia| |].
    { intros En. apply (f_equal length) in En. rewrite A2, Ht4, length_replicate in En. simpl in En. lia. }
    exists (- ENOMEM), set', m'. split; [done|]. right. split_and!; [done|congruence|lia].
Qed.

Lemma alloc_tag_set_cases set m :
  1 <= nr_cpu_ids -> set_ok set -> mapping_laws blk_mq_map_queues map_queues -> mem_wf m -> paired ->
  exists ret set' m', alloc set m = Some (ret, set', m') /\
    ((ret = 0 /\ checked set (check set).2 /\ allocated (check set).2 set' m m') \/
     (ret <> 0 /\ m_tags m' = m_tags m /\ m_arrays m' = m_arrays m)).
Proof.
  intros Hcpu Hok Hlaws Hwf Hpair. unfold blk_mq_alloc_tag_set.
  destruct (check set) as [err set1] eqn:Ec. cbn [snd].
  destruct (check_tag_set_cases _ _ _ Hcpu Hok Ec) as [-> |[-> Hck]].
  { do 3 eexists. split; [reflexivity|]. right. by split_and!. }
  change (negb (0 =? 0)) with false. cbv iota. case_bool. { do 3 eexists. split; [reflexivity|]. right. by split_and!. }
  set (m1 := m <| m_arrays ::= _ |> <| m_calls ::= _ |>).
  set (n := Z.to_nat (nr_hw_queues_of nr_cpu_ids set1)).
  set (set2 := set1 <| ts_tags := _ |>).
  pose proof (ck_same _ _ Hck) as [Hmap Hsz]. pose proof (ck_hw _ _ Hck) as Hhw.
  pose proof (ck_tags _ _ Hck) as Htg. pose proof (ck_nr_maps _ _ Hck) as Hnm.
  assert (Hl2 : length (set_map set2) = 3%nat) by (simpl; rewrite Hmap; apply Hok).
  destruct (alloc_map_arrays_frame is_kdump nr_cpu_ids set2 m1 Hl2) as (ok & set3 & m2 & E & A1 & A2 & A3 & A4 & A5 & A6);
    [done|done|simpl; rewrite Hmap; apply Hok|].
  rewrite E. cbn [mbind option_bind].
  assert (Ht3 : ts_tags set3 = replicate n None) by (by rewrite A1).
  assert (Hn3 : nr_maps set3 = nr_maps set1) by (by rewrite A1).
  assert (Hne : replicate n (@None tags_mem) <> []) by (destruct n eqn:En; [unfold n in En; lia|done]).
  assert (Hfail : forall ret set4 m4, ret <> 0 -> length (set_map set4) = 3%nat -> nr_maps set4 = nr_maps set1 ->
    ts_tags set4 <> [] -> maps_live set4 = maps_live set3 -> m_tags m4 = m_tags m2 -> m_arrays m4 = m_arrays m2 ->
    exists ret' set' m', fail_tag_set ret set4 m4 = Some (ret', set', m') /\
      ((ret' = 0 /\ checked set set1 /\ allocated set1 set' m m') \/
       (ret' <> 0 /\ m_tags m' = m_tags m /\ m_arrays m' = m_arrays m))).
  { intros ret set4 m4 Hr F1 F2 F3 F4 F5 F6.
    destruct (fail_tag_set_frame ret set4 m4 F1 ltac:(lia) F3) as (set' & m' & Ef & G1 & G2).
    exists ret, set', m'. split; [done|]. right. simpl in *. split_and!; [done|congruence|lia]. }
  destruct ok; [|apply Hfail; try done; congruence]. simpl negb. cbv iota.
  destruct (update_queue_map_frame is_kdump blk_mq_map_queues map_queues set3 Hlaws A2) as (ret & set4 & F & B1 & B2);
    [lia|rewrite Hn3; apply Hck|].
  rewrite F. cbn [mbind option_bind].
  assert (Hn4 : nr_maps set4 = nr_maps set1) by (rewrite B1; done).
  assert (Hl4 : length (set_map set4) = 3%nat) by (rewrite (shape_length _ _ B2); done).
  assert (Ht4 : ts_tags set4 = replicate n None) by (rewrite B1; done).
  assert (Hv4 : maps_live set4 = maps_live set3) by (apply live_same; congruence).
  destruct (Z.eqb_spec ret 0) as [-> |Hret]; simpl negb; cbv iota; [|apply Hfail; try done; congruence].
  apply finish_tag_set; try done.
  - eapply mem_wf_same; [exact Hwf|done..].
  - rewrite B1, A1. done.
  - rewrite Hv4. simpl in *. lia.
Qed.

(** C39: allocating a tag set always terminates with a result.  On success the
    depth is positive and at most the depth asked for and the limit of 10240,
    and each hardware queue has a request for every tag, inside memory in use
    and without overlap with any other request of the set.  On failure the tags
    and the arrays that were allocated on the way have been freed. *)
Theorem tag_set_alloc set m :
  1 <= nr_cpu_ids -> set_ok set -> mapping_laws blk_mq_map_queues map_queues -> mem_wf m -> paired ->
  exists ret set' m', alloc set m = Some (ret, set', m') /\
    ((ret = 0 /\ 0 < queue_depth set' <= Z.min (queue_depth set) BLK_MQ_MAX_DEPTH /\
      0 < set_nr_hw_queues set' /\ filled (Z.to_nat (set_nr_hw_queues set')) set' m') \/
     (ret <> 0 /\ m_tags m' = m_tags m /\ m_arrays m' = m_arrays m)).
Proof.
  intros Hcpu Hok Hlaws Hwf Hpair.
  destruct (alloc_tag_set_cases set m Hcpu Hok Hlaws Hwf Hpair) as (ret & set' & m' & E & [(-> & Hck & Hal)|Hf]);
    eexists; exists set', m'; (split; [exact E|]); [left|by right].
  pose proof (al_set _ _ _ _ Hal) as (_ & -> & _). pose proof (al_depth _ _ _ _ Hal).
  pose proof (ck_depth _ _ Hck). pose proof (ck_hw _ _ Hck). split_and!; [done|lia..|apply Hal].
Qed.

(** a tag set that was allocated at the depth left by the checks gives back,
    when it is freed, all the pages, the requests set up by the driver, the tags
    and the arrays: the memory in use is what it was before. *)
Lemma tag_set_roundtrip set m set' m' :
  1 <= nr_cpu_ids -> set_ok set -> mapping_laws blk_mq_map_queues map_queues -> mem_wf m -> paired ->
  alloc set m = Some (0, set', m') -> queue_depth set' = queue_depth (check set).2 ->
  exists set'' m'', blk_mq_free_tag_set nr_cpu_ids set' m' = Some (set'', m'') /\
    ts_tags set'' = [] /\ m_pages m'' = m_pages m /\ m_inited m'' = m_inited m /\
    m_tags m'' = m_tags m /\ m_arrays m'' = m_arrays m.
Proof.
  intros Hcpu Hok Hlaws Hwf Hpair E Hq.
  destruct (alloc_tag_set_cases set m Hcpu Hok Hlaws Hwf Hpair) as (ret & ? & ? & E' & [(-> & Hck & Hal)|[? _]]);
    rewrite E in E'; [|congruence]. injection E' as <- <-.
  destruct Hal as [(S1 & S2 & S3 & _) Hlen Hrest _ _ (m1 & Ho & T1 & T2 & Hm1)]. destruct (Hm1 Hq) as [P1 P2].
  pose proof (ck_hw _ _ Hck). pose proof (ck_tags _ _ Hck). pose proof (ck_nr_maps _ _ Hck).
  set (set1 := (check set).2) in *. unfold blk_mq_free_tag_set.
  assert (Hn : nr_hw_queues_of nr_cpu_ids set' = nr_hw_queues_of nr_cpu_ids set1) by (unfold nr_hw_queues_of; by rewrite S1, S2).
  destruct (free_loop_owned (length (ts_tags set')) 0 (Z.to_nat (set_nr_hw_queues set1)) set' m1 m' Hpair Ho)
    as (set2 & m2 & F & A1 & A2 & A3 & A4 & A5 & A6); [lia|done|exact Hrest|].
  rewrite Hlen, <- Hn, Z2Nat.id in F by lia. change (Z.of_nat 0) with 0 in F. rewrite F. cbn [mbind option_bind].
  destruct (free_maps_frame set2 m2) as (set3 & m3 & G & B1 & _ & B2 & B3 & B4 & B5).
  - by rewrite A1.
  - rewrite A1. simpl. lia.
  - intros En. rewrite En in A2. simpl in A2. lia.
  - exists set3, m3. assert (maps_live set2 = maps_live set') by (by rewrite A1).
    split_and!; [done|done|congruence..|lia].
Qed.
End top.

(** ** A concrete kernel *)

Definition ex_top (m : mem) : Z := foldr (fun b z => Z.max (b.1 + Z.shiftl 4096 (Z.of_nat b.2)) z) 0 (m_pages m).

(** Blocks are placed above all blocks in use; an allocation of pages fails
    when [bad] holds of the number of calls so far. *)
Definition ex_mem (bad : nat -> bool) : MqMem := {|
  PAGE_SIZE := 4096; BLK_MQ_TAG_MIN := 1; sizeof_request := 320; cache_line_size := 64;
  round_up := fun x y => x + (- x) mod Z.max 1 y;
  alloc_pages_node := fun m o => if bad (m_calls m) then None else Some (ex_top m);
  kcalloc_ok := fun _ => true; init_tags_ok := fun _ => true;
  init_request := Some (fun _ _ => 0); has_exit_request := true;
|}.

Lemma ex_mem_laws bad : MqMemLaws (ex_mem bad).
Proof.
  split.
  - simpl. lia.
  - simpl. lia.
  - intros x y. simpl. pose proof (Z.mod_pos_bound (- x) (Z.max 1 y)). lia.
  - intros m o p. simpl. destruct (bad (m_calls m)); [done|]. intros [= <-] b k Hb. right. unfold ex_top.
    change (order_to_size k) with (Z.shiftl 4096 (Z.of_nat k)).
    induction (m_pages m) as [|c l IH]; [by apply elem_of_nil in Hb|].
    apply elem_of_cons in Hb as [<-|Hb]; simpl; [lia|]. specialize (IH Hb). lia.
Qed.

Definition ex_map : blk_mq_queue_map := mk_queue_map [] 0 0.
Definition ex_set : blk_mq_tag_set := mk_tag_set [ex_map; ex_map; ex_map] 1 2 4 3 100 0 0 [].
Definition ex_free : mem := mk_mem [] [] 0 0 0.

(** A mapping that spreads the CPUs round robin. *)
Definition ex_map_queues (x : blk_mq_queue_map) : Z * blk_mq_queue_map :=
  (0, x <| mq_map ::= imap (fun i _ => queue_offset x + Z.of_nat i mod nr_queues x) |>).

Lemma ex_set_ok bad : @set_ok (ex_mem bad) None ex_set.
Proof. split; try done. repeat constructor. Qed.

Lemma ex_laws : mapping_laws ex_map_queues None.
Proof. split; [|done]. intros x. simpl. apply length_imap. Qed.

Lemma ex_free_wf bad : @mem_wf (ex_mem bad) ex_free.
Proof. intros p Hp. by apply elem_of_nil in Hp. Qed.

Lemma alloc_rqs_all_or_nothing_witness : exists ret t' m',
  @blk_mq_alloc_rqs (ex_mem (fun _ => false)) ex_set (mk_tags_mem 4 (replicate 4 None) (replicate 4 None) []) 4 ex_free
    = Some (ret, t', m') /\ @mem_wf (ex_mem (fun _ => false)) m'.
Proof.
  destruct (@alloc_rqs_all_or_nothing _ (ex_mem_laws (fun _ => false)) ex_set
    (mk_tags_mem 4 (replicate 4 None) (replicate 4 None) []) 4 ex_free) as (ret & t' & m' & E & Hwf & _).
  - split; vm_compute; congruence.
  - lia.
  - reflexivity.
  - reflexivity.
  - apply ex_free_wf.
  - left. reflexivity.
  - exists ret, t', m'. split; [exact E|exact Hwf].
Defined.

Lemma tag_set_alloc_witness : exists ret set' m',
  @blk_mq_alloc_tag_set (ex_mem (fun _ => false)) false 4 ex_map_queues None true false false ex_set ex_free
    = Some (ret, set', m').
Proof.
  destruct (@tag_set_alloc _ (ex_mem_laws (fun _ => false)) false 4 ex_map_queues None true false false ex_set ex_free)
    as (ret & set' & m' & E & _).
  - lia.
  - apply ex_set_ok.
  - apply ex_laws.
  - apply ex_free_wf.
  - left. reflexivity.
  - exists ret, set', m'. exact E.
Defined.

Definition ex_result :=
  @blk_mq_alloc_tag_set (ex_mem (fun _ => false)) false 4 ex_map_queues None true false false ex_set ex_free.

Lemma tag_set_roundtrip_witness : exists set' m' set'' m'',
  ex_result = Some (0, set', m') /\ m_pages m' <> [] /\
  @blk_mq_free_tag_set (ex_mem (fun _ => false)) 4 set' m' = Some (set'', m'') /\ m_pages m'' = [].
Proof.
  destruct ex_result as [[[ret set'] m']|] eqn:E; [|vm_compute in E; discriminate].
  assert (Hr : ret = 0 /\ queue_depth set' = 4 /\ m_pages m' <> []).
  { revert E. vm_compute. intros [= <- <- <-]. split_and!; done. }
  destruct Hr as (-> & Hq & Hp).
  destruct (@tag_set_roundtrip _ (ex_mem_laws (fun _ => false)) false 4 ex_map_queues None true false false ex_set ex_free
    set' m' ltac:(lia) (ex_set_ok _) ex_laws (ex_free_wf _) (or_introl eq_refl) E) as (set'' & m'' & F & _ & G & _).
  - rewrite Hq. reflexivity.
  - exists set', m', set'', m''. split_and!; [done|done|exact F|exact G].
Defined.

(** When the memory for a later hardware queue is missing, the error path of
    the allocation frees the tags of the earlier ones but not their requests:
    the call fails with -ENOMEM, every tag and array is freed, and a page block
    and the requests set up in it stay in use for good. *)
Theorem tag_set_alloc_leaks :
  exists set' m', @blk_mq_alloc_tag_set (ex_mem (fun n => (7 <=? n)%nat)) false 4 ex_map_queues None true false false ex_set ex_free
      = Some (- ENOMEM, set', m') /\
    m_tags m' = 0 /\ m_arrays m' = 0 /\ length (m_pages m') = 1%nat /\ length (m_inited m') = 4%nat.
Proof. do 2 eexists. split; [vm_compute; reflexivity|]. done. Qed.
