(* ===== verification/BlkMqMap.v ===== *)
(** * Software queues onto hardware queues

    The part of block/blk-mq.c that lays out a request queue: the software
    queues of the CPUs, their hardware queue of each type
    ([blk_mq_map_swqueue]), the queues that share a tag set, and the hand-over
    of the requests of a CPU that goes away. *)
From S2P Require Import Prelude MqTypes BlkSwitch BlkMqAlloc BlkMqRun BlkMqTagSet.

(** [sbitmap_resize] of lib/sbitmap.c and the nearest node with memory of a CPU. *)
Class MapEnv := {
  sbitmap_resize : list bool -> Z -> list bool;
  local_node : Z -> Z;
}.

(** [cpumask_set_cpu] on the ascending list of CPUs of a mask. *)
Fixpoint cpumask_set_cpu (c : Z) (l : list Z) : list Z :=
  match l with
  | [] => [c]
  | d :: l' => if c <? d then c :: l else if c =? d then l else d :: cpumask_set_cpu c l'
  end.

Definition NUMA_NO_NODE : Z := -1.

Section swqueue.
Context {mm : MqMem} {me : MapEnv} {sch : MqSched}.
Context (e : run_env) (possible : list Z).  (* cpu_possible_mask *)

(** ** Initial software queues *)

(** [blk_mq_map_queue_type(q, type, cpu)] over the maps of the set. *)
Definition map_queue_type (set : blk_mq_tag_set) (type cpu : Z) : option Z :=
  blk_mq_map_queue_type (mq_map <$> set_map set) type cpu.

Definition init_cpu_queue (set : blk_mq_tag_set) (nr_hw : Z) (q : request_queue) (i : Z) : option request_queue :=
  ctx ← aget (queue_ctx q) i;
  let q := set_ctx i (ctx <| cpu := i |> <| rq_lists := [[]; []; []] |>) q in
  foldM (fun q j =>
    hi ← map_queue_type set j i; h ← aget (queue_hw_ctx q) hi;
    if (1 <? nr_hw) && (numa_node h =? NUMA_NO_NODE)
    then Some (set_hctx hi (h <| numa_node := local_node i |>) q) else Some q) q (seqZ 0 (nr_maps set)).

Definition blk_mq_init_cpu_queues (set : blk_mq_tag_set) (nr_hw : Z) (q : request_queue) : option request_queue :=
  foldM (init_cpu_queue set nr_hw) q possible.

(** ** blk_mq_map_swqueue *)

(** The first loop.  [h_ctxs] holds the [nr_ctx] entries of [ctxs] in use. *)
Definition unmap_hctx (h : blk_mq_hw_ctx) : blk_mq_hw_ctx :=
  h <| cpumask := [] |> <| nr_ctx := 0 |> <| h_ctxs := [] |> <| dispatch_from := None |>.

(** [ctx->hctxs[j] = hctx]. *)
Definition store_hctx (c j hi : Z) (q : request_queue) : option request_queue :=
  ctx ← aget (queue_ctx q) c; hs ← aset (hctxs ctx) j hi; Some (set_ctx c (ctx <| hctxs := hs |>) q).

(** CPU [c] becomes a software queue of hardware queue [hi] under type [j]. *)
Definition add_sw (c j hi : Z) (h : blk_mq_hw_ctx) (q : request_queue) : option request_queue :=
  ctx ← aget (queue_ctx q) c;
  ix ← aset (index_hw ctx) j (nr_ctx h);
  if nr_cpu_ids e <=? nr_ctx h then None  (* outside hctx->ctxs *)
  else
    let n := u16 (nr_ctx h + 1) in
    if n =? 0 then None  (* BUG_ON *)
    else Some (set_hctx hi (h <| cpumask ::= cpumask_set_cpu c |> <| h_type := j |>
                              <| h_ctxs ::= fun l => l ++ [c] |> <| nr_ctx := n |>)
                 (set_ctx c (ctx <| index_hw := ix |>) q)).

(** The body of the loop over the types for one CPU. *)
Definition map_type (set : blk_mq_tag_set) (c : Z) (q : request_queue) (j : Z) : option request_queue :=
  mp ← aget (set_map set) j;
  if nr_queues mp =? 0 then
    hi ← map_queue_type set HCTX_TYPE_DEFAULT c; store_hctx c j hi q
  else
    hi ← map_queue_type set j c;
    q ← store_hctx c j hi q;
    h ← aget (queue_hw_ctx q) hi;
    if bool_decide (c ∈ cpumask h) then Some q else add_sw c j hi h q.

(** The types without a map of their own. *)
Definition map_rest (set : blk_mq_tag_set) (c : Z) (q : request_queue) (j : Z) : option request_queue :=
  hi ← map_queue_type set HCTX_TYPE_DEFAULT c; store_hctx c j hi q.

(** Tags for the default queue of [c], which falls back to queue 0 without. *)
Definition ensure_tags (set : blk_mq_tag_set) (m : mem) (c : Z) : option (blk_mq_tag_set * mem) :=
  hi ← map_queue_type set HCTX_TYPE_DEFAULT c;
  o ← aget (ts_tags set) hi;
  match o with
  | Some _ => Some (set, m)
  | None =>
    '(ok, set, m) ← alloc_map_and_rqs hi set m;
    if ok : bool then Some (set, m)
    else
      mp ← aget (set_map set) HCTX_TYPE_DEFAULT;
      l ← aset (mq_map mp) c 0;
      set ← mod_map HCTX_TYPE_DEFAULT (fun x => x <| mq_map := l |>) set;
      Some (set, m)
  end.

Definition map_cpu '((set, m, q) : blk_mq_tag_set * mem * request_queue) (c : Z)
  : option (blk_mq_tag_set * mem * request_queue) :=
  '(set, m) ← ensure_tags set m c;
  q ← foldM (map_type set c) q (seqZ 0 (nr_maps set));
  q ← foldM (map_rest set c) q (seqZ (nr_maps set) (HCTX_MAX_TYPES - nr_maps set));
  Some (set, m, q).

(** The last loop. *)
Definition finish_hctx '((set, m, q) : blk_mq_tag_set * mem * request_queue) (i : Z)
  : option (blk_mq_tag_set * mem * request_queue) :=
  h ← aget (queue_hw_ctx q) i;
  o ← aget (ts_tags set) i;
  if nr_ctx h =? 0 then
    '(set, m) ← (if c_true i && bool_decide (is_Some o)
                 then blk_mq_free_map_and_requests set i m else Some (set, m));
    Some (set, m, set_hctx i (h <| tags := None |>) q)
  else
    let h := h <| tags := (_ ← o; Some i) |> <| ctx_map := sbitmap_resize (ctx_map h) (nr_ctx h) |> in
    let h := h <| next_cpu := blk_mq_first_mapped_cpu e h |> <| next_cpu_batch := BLK_MQ_CPU_WORK_BATCH |> in
    Some (set, m, set_hctx i h q).

Definition blk_mq_map_swqueue (set : blk_mq_tag_set) (m : mem) (q : request_queue)
  : option (blk_mq_tag_set * mem * request_queue) :=
  let q := q <| queue_hw_ctx ::= fmap unmap_hctx |> in
  s ← foldM map_cpu (set, m, q) possible;
  foldM finish_hctx s (seqZ 0 (nr_hw_queues s.2)).

(** ** Queues that share a tag set *)

Definition set_shared (shared : bool) (h : blk_mq_hw_ctx) : blk_mq_hw_ctx :=
  h <| h_flags ::= fun f => if shared then Z.lor f BLK_MQ_F_TAG_SHARED
                            else Z.ldiff f BLK_MQ_F_TAG_SHARED |>.

Definition queue_set_hctx_shared (q : request_queue) (shared : bool) : request_queue :=
  q <| queue_hw_ctx ::= fmap (set_shared shared) |>.

(** The queues of [tag_list], each with its identity. *)
Definition blk_mq_update_tag_set_depth (tag_list : list (Z * request_queue)) (shared : bool)
  : option (list (Z * request_queue)) :=
  mapM (fun '(n, q) =>
    q ← blk_freeze_queue_start e q;
    Some (n, blk_mq_unfreeze_queue (queue_set_hctx_shared q shared))) tag_list.

Definition blk_mq_del_queue_tag_set (set : blk_mq_tag_set) (tag_list : list (Z * request_queue)) (n : Z)
  : option (blk_mq_tag_set * list (Z * request_queue)) :=
  let tag_list := List.filter (fun x => negb (x.1 =? n)) tag_list in
  if bool_decide (length tag_list = 1%nat) then
    l ← blk_mq_update_tag_set_depth tag_list false;
    Some (set <| set_flags ::= fun f => Z.ldiff f BLK_MQ_F_TAG_SHARED |>, l)
  else Some (set, tag_list).

Definition blk_mq_add_queue_tag_set (set : blk_mq_tag_set) (tag_list : list (Z * request_queue))
    (n : Z) (q : request_queue) : option (blk_mq_tag_set * list (Z * request_queue)) :=
  '(set, l) ←
    (if negb (bool_decide (tag_list = [])) && negb (has_flag (set_flags set) BLK_MQ_F_TAG_SHARED) then
       l ← blk_mq_update_tag_set_depth tag_list true;
       Some (set <| set_flags ::= fun f => Z.lor f BLK_MQ_F_TAG_SHARED |>, l)
     else Some (set, tag_list));
  let q := if has_flag (set_flags set) BLK_MQ_F_TAG_SHARED then queue_set_hctx_shared q true else q in
  Some (set, l ++ [(n, q)]).

(** ** A CPU goes away *)

Definition blk_mq_hctx_notify_dead (c i : Z) (q : request_queue) : option request_queue :=
  h ← aget (queue_hw_ctx q) i;
  ctx ← aget (queue_ctx q) c;
  tmp ← aget (rq_lists ctx) (h_type h);
  if bool_decide (tmp = []) then Some q
  else
    l ← aset (rq_lists ctx) (h_type h) [];
    let ctx := ctx <| rq_lists := l |> in
    h ← blk_mq_hctx_clear_pending ctx h;
    let q := set_hctx i (h <| dispatch ::= fun l => l ++ tmp |>) (set_ctx c ctx q) in
    '(_, q) ← blk_mq_run_hw_queue e i true q; Some q.
End swqueue.
