(* ===== verification/BlkMqMapSpec.v ===== *)
(** * The layout of a request queue

    [blk_mq_map_swqueue] gives every CPU a hardware queue of each type and
    establishes what the software queues rely on: the bitmap of each hardware
    queue has one bit per software queue, known to both sides. *)
From S2P Require Import Prelude MqTypes BlkSwitch BlkMqAlloc BlkMqRun BlkMqRunSpec BlkMqInsert BlkMqInsertSpec.
From S2P Require Import BlkMqTagSet BlkMqTagSetSpec BlkMqMap.
From Stdlib Require Import Sorted.

(** What is documented of [sbitmap_resize]: the new depth, nothing else moves. *)
Class MapEnvLaws (me : MapEnv) := {
  sbitmap_resize_length l (n : Z) : 0 <= n -> Z.of_nat (length (sbitmap_resize l n)) = n;
}.

(** ** Masks *)

Lemma cpumask_set_cpu_elem c d l : d ∈ cpumask_set_cpu c l <-> d = c \/ d ∈ l.
Proof.
  induction l as [|a l IH]; simpl; [rewrite list_elem_of_singleton; set_solver|].
  repeat case_bool; rewrite ?elem_of_cons, ?IH; try tauto.
  apply Z.eqb_eq in Hif0 as ->. tauto.
Qed.

Lemma cpumask_set_cpu_sorted c l : StronglySorted Z.lt l -> StronglySorted Z.lt (cpumask_set_cpu c l).
Proof.
  induction 1 as [|a l Hs IH Ha]; simpl; [repeat constructor|]. repeat case_bool.
  - constructor; [by constructor|]. constructor; [lia|]. eapply Forall_impl; [exact Ha|]. simpl. lia.
  - by constructor.
  - constructor; [done|]. apply Forall_forall. intros d [-> |Hd]%cpumask_set_cpu_elem; [lia|].
    by apply (proj1 (Forall_forall _ _) Ha).
Qed.

Section layout.
Context {mm : MqMem} {me : MapEnv} {sch : MqSched} (e : run_env) (possible : list Z).
Context (set : blk_mq_tag_set).

(** ** The maps *)

Notation T := (map_queue_type set).

(** Type [j] has queues of its own. *)
Definition own (j : Z) : bool :=
  (0 <=? j) && (j <? nr_maps set) && from_option (fun x => negb (nr_queues x =? 0)) false (aget (set_map set) j).

(** The hardware queue that serves type [j] on CPU [c]. *)
Definition tgt (j c : Z) : option Z := if own j then T j c else T HCTX_TYPE_DEFAULT c.

(** The maps of a driver: the default type has queues, entries are hardware
    queues, and types that share a queue share their whole map. *)
Record maps_ok (nr_hw : Z) : Prop := {
  mo_types : length (set_map set) = 3%nat;
  mo_nr : 1 <= nr_maps set <= 3;
  mo_default : own HCTX_TYPE_DEFAULT = true;
  mo_range : forall j c, own j = true -> c ∈ possible -> exists i, T j c = Some i /\ 0 <= i < nr_hw;
  mo_share : forall j j' c c', own j = true -> own j' = true -> c ∈ possible -> c' ∈ possible ->
    T j c = T j' c' -> forall d, d ∈ possible -> T j d = T j' d;
}.

(** The software queues before the mapping, without requests. *)
Definition idle_ctx (q : request_queue) (c : Z) (ctx : blk_mq_ctx) : Prop :=
  aget (queue_ctx q) c = Some ctx /\ cpu ctx = c /\ length (hctxs ctx) = 3%nat /\
  length (index_hw ctx) = 3%nat /\ rq_lists ctx = [[]; []; []].

(** ** Invariant of the loop

    [P]: the pairs of CPU and type whose entry of [hctxs] is stored; [R]: the
    pairs that have been entered into the hardware queues. *)
Record laid (nr_hw : nat) (P R : list (Z * Z)) (q : request_queue) : Prop := {
  la_len : length (queue_hw_ctx q) = nr_hw;
  la_ctx : forall c, c ∈ possible -> exists ctx, idle_ctx q c ctx;
  la_hctxs : forall c j ctx, (c, j) ∈ P -> aget (queue_ctx q) c = Some ctx -> aget (hctxs ctx) j = tgt j c;
  la_in : forall i h c, aget (queue_hw_ctx q) i = Some h ->
    c ∈ h_ctxs h <-> exists j, (c, j) ∈ R /\ own j = true /\ T j c = Some i;
  la_nodup : forall i h, aget (queue_hw_ctx q) i = Some h -> NoDup (h_ctxs h);
  la_nr : forall i h, aget (queue_hw_ctx q) i = Some h -> nr_ctx h = Z.of_nat (length (h_ctxs h));
  la_mask : forall i h c, aget (queue_hw_ctx q) i = Some h -> c ∈ cpumask h <-> c ∈ h_ctxs h;
  la_sorted : forall i h, aget (queue_hw_ctx q) i = Some h -> StronglySorted Z.lt (cpumask h);
  la_ix : forall i h bit c ctx, aget (queue_hw_ctx q) i = Some h -> aget (h_ctxs h) bit = Some c ->
    aget (queue_ctx q) c = Some ctx -> aget (index_hw ctx) (h_type h) = Some bit;
  la_type : forall i h c, aget (queue_hw_ctx q) i = Some h -> c ∈ h_ctxs h ->
    own (h_type h) = true /\ T (h_type h) c = Some i /\
    forall j, j < h_type h -> own j = true -> T j c <> Some i;
  la_cpus : forall c j, (c, j) ∈ R -> c ∈ possible;
}.

Context (nr_hw : nat).
Hypothesis Hmaps : maps_ok (Z.of_nat nr_hw).
Hypothesis Hnodup : NoDup possible.
Hypothesis Hcpus : Z.of_nat (length possible) <= nr_cpu_ids e < 2 ^ 16.

Lemma own_range j : own j = true -> 0 <= j < 3.
Proof. unfold own. pose proof (mo_nr _ Hmaps). lia. Qed.

(** A changed software queue seen through [set_ctx]. *)
Lemma aget_set_ctx c ctx q d : aget (queue_ctx q) c <> None ->
  aget (queue_ctx (set_ctx c ctx q)) d = if decide (d = c) then Some ctx else aget (queue_ctx q) d.
Proof.
  intros Hc. destruct (aget (queue_ctx q) c) as [old|] eqn:E; [|done]. clear Hc.
  pose proof (aget_Some _ _ _ E). simpl. case_decide as Hd.
  - subst d. unfold aget. case_bool; [lia|]. apply list_lookup_insert_eq. lia.
  - unfold aget. case_bool; [done|]. apply list_lookup_insert_ne. lia.
Qed.

Lemma aget_set_hctx i h q k : aget (queue_hw_ctx q) i <> None ->
  aget (queue_hw_ctx (set_hctx i h q)) k = if decide (k = i) then Some h else aget (queue_hw_ctx q) k.
Proof.
  intros Hc. destruct (aget (queue_hw_ctx q) i) as [old|] eqn:E; [|done]. clear Hc.
  pose proof (aget_Some _ _ _ E). simpl. case_decide as Hd.
  - subst k. unfold aget. case_bool; [lia|]. apply list_lookup_insert_eq. lia.
  - unfold aget. case_bool; [done|]. apply list_lookup_insert_ne. lia.
Qed.

(** ** Steps *)

Lemma store_hctx_laid P R q c j hi :
  laid nr_hw P R q -> c ∈ possible -> 0 <= j < 3 -> tgt j c = Some hi ->
  exists q', store_hctx c j hi q = Some q' /\ laid nr_hw ((c, j) :: P) R q' /\ queue_hw_ctx q' = queue_hw_ctx q.
Proof.
  intros H Hc Hj Ht. destruct (la_ctx _ _ _ _ H c Hc) as (ctx & I1 & I2 & I3 & I4 & I5).
  unfold store_hctx. rewrite I1. cbn [mbind option_bind]. rewrite aset_lt by lia. cbn [mbind option_bind].
  eexists. split; [reflexivity|]. split; [|done].
  assert (Hq : forall d, aget (queue_ctx (set_ctx c (ctx <| hctxs := <[Z.to_nat j:=hi]> (hctxs ctx) |>) q)) d
    = if decide (d = c) then Some (ctx <| hctxs := <[Z.to_nat j:=hi]> (hctxs ctx) |>) else aget (queue_ctx q) d)
    by (intros; apply aget_set_ctx; congruence).
  destruct H as [L1 L2 L3 L4 L5 L6 L7 L8 L9 L10 L11]. split; try done.
  - intros d Hd. unfold idle_ctx. rewrite Hq. case_decide; [|by apply L2]. subst d.
    eexists. split; [done|]. simpl. by rewrite length_insert.
  - intros d k x Hin. rewrite Hq. case_decide as Hdc.
    + subst d. intros [= <-]. simpl. destruct (decide (k = j)) as [-> |Hk].
      * rewrite Ht. unfold aget. case_bool; [lia|]. apply list_lookup_insert_eq. lia.
      * apply elem_of_cons in Hin as [[= ->]|Hin]; [done|]. rewrite <- (L3 c k ctx Hin I1).
        unfold aget. case_bool; [done|]. apply list_lookup_insert_ne. lia.
    + intros Hx. apply elem_of_cons in Hin as [[= -> ->]|Hin]; [done|]. by eapply L3.
  - intros i h bit d x Hi Hb. rewrite Hq. case_decide; [|by eapply L9].
    intros [= <-]. subst d. simpl. by eapply L9.
Qed.

(** A pair that changes no hardware queue. *)
Lemma laid_skip P R q c j :
  laid nr_hw P R q -> c ∈ possible ->
  (own j = true -> forall i h, T j c = Some i -> aget (queue_hw_ctx q) i = Some h -> c ∈ h_ctxs h) ->
  laid nr_hw P ((c, j) :: R) q.
Proof.
  intros [L1 L2 L3 L4 L5 L6 L7 L8 L9 L10 L11] Hc Hin. split; try done.
  - intros i h d Hi. rewrite (L4 i h d Hi). split.
    + intros (k & Hk & Ho & Ht). exists k. split_and!; [by right|done..].
    + intros (k & [[= -> ->]|Hk]%elem_of_cons & Ho & Ht); [|by exists k].
      apply (L4 i h c Hi). by eapply Hin.
  - intros d k [[= -> ->]|Hk]%elem_of_cons; [done|by eapply L11].
Qed.

(** The type of a hardware queue that already serves a CPU is the type under
    which the next CPU enters it. *)
Lemma same_type P R q c j i h d :
  laid nr_hw P R q -> c ∈ possible -> own j = true -> T j c = Some i -> aget (queue_hw_ctx q) i = Some h ->
  (forall k, k < j -> own k = true -> (c, k) ∈ R) -> c ∉ h_ctxs h -> d ∈ h_ctxs h -> h_type h = j.
Proof.
  intros H Hc Ho Ht Hi Hprev Hn Hd. destruct (la_type _ _ _ _ H i h d Hi Hd) as (To & Tt & Tmin).
  assert (Hd' : d ∈ possible).
  { apply (la_in _ _ _ _ H i h d Hi) in Hd as (k & Hk & _). by eapply la_cpus. }
  pose proof (mo_share _ Hmaps (h_type h) j d c To Ho Hd' Hc ltac:(congruence)) as Hsh.
  destruct (Z.lt_trichotomy (h_type h) j) as [Hlt|[Heq|Hgt]]; [|done|].
  - exfalso. apply Hn, (la_in _ _ _ _ H i h c Hi). exists (h_type h).
    split_and!; [by apply Hprev|done|]. by rewrite (Hsh c Hc).
  - exfalso. apply (Tmin j); [lia|done|]. by rewrite <- (Hsh d Hd').
Qed.

(** The software queues of a hardware queue are CPUs. *)
Lemma ctxs_bound P R q i h c :
  laid nr_hw P R q -> c ∈ possible -> aget (queue_hw_ctx q) i = Some h -> c ∉ h_ctxs h ->
  Z.of_nat (length (h_ctxs h)) + 1 <= nr_cpu_ids e.
Proof.
  intros H Hc Hi Hn. assert (Hs : c :: h_ctxs h ⊆ possible).
  { intros d [-> |Hd]%elem_of_cons; [done|].
    apply (la_in _ _ _ _ H i h d Hi) in Hd as (k & Hk & _). by eapply la_cpus. }
  assert (Hl : (length (c :: h_ctxs h) <= length possible)%nat).
  { apply submseteq_length, NoDup_submseteq; [|done]. constructor; [done|by eapply la_nodup]. }
  simpl in Hl. lia.
Qed.

Lemma add_sw_laid P R q c j i h :
  laid nr_hw P R q -> c ∈ possible -> own j = true -> T j c = Some i -> aget (queue_hw_ctx q) i = Some h ->
  (forall k, k < j -> own k = true -> (c, k) ∈ R) -> c ∉ h_ctxs h ->
  exists q', add_sw e c j i h q = Some q' /\ laid nr_hw P ((c, j) :: R) q'.
Proof.
  intros H Hc Ho Ht Hi Hprev Hn. pose proof (own_range j Ho) as Hj.
  destruct (la_ctx _ _ _ _ H c Hc) as (ctx & I1 & I2 & I3 & I4 & I5).
  pose proof (ctxs_bound _ _ _ _ _ _ H Hc Hi Hn) as Hb. pose proof (la_nr _ _ _ _ H i h Hi) as Hnr.
  unfold add_sw. rewrite I1. cbn [mbind option_bind]. rewrite aset_lt by lia. cbn [mbind option_bind].
  rewrite (proj2 (Z.leb_gt _ _)) by lia. unfold u16. rewrite Z.mod_small by lia.
  rewrite (proj2 (Z.eqb_neq _ _)) by lia. cbv zeta.
  set (ctx' := ctx <| index_hw := _ |>). set (h' := h <| cpumask ::= _ |> <| h_type := j |> <| h_ctxs ::= _ |> <| nr_ctx := _ |>).
  eexists. split; [reflexivity|].
  assert (Hq : forall d, aget (queue_ctx (set_hctx i h' (set_ctx c ctx' q))) d = if decide (d = c) then Some ctx' else aget (queue_ctx q) d)
    by (intros; apply (aget_set_ctx c ctx' q); congruence).
  assert (Hh : forall k, aget (queue_hw_ctx (set_hctx i h' (set_ctx c ctx' q))) k = if decide (k = i) then Some h' else aget (queue_hw_ctx q) k).
  { intros k. rewrite aget_set_hctx by (simpl; congruence). done. }
  assert (Hty : forall d, d ∈ h_ctxs h -> h_type h = j) by (intros d Hd; eapply (same_type P R q c j i h d); done).
  assert (Hin' : forall d, d ∈ h_ctxs h' <-> d = c \/ d ∈ h_ctxs h) by (intros d; simpl; rewrite elem_of_app, list_elem_of_singleton; tauto).
  destruct H as [L1 L2 L3 L4 L5 L6 L7 L8 L9 L10 L11]. split.
  - etrans; [|exact L1]. simpl. apply length_insert.
  - intros d Hd. unfold idle_ctx. rewrite Hq. case_decide; [|by apply L2]. subst d.
    exists ctx'. simpl. by rewrite length_insert.
  - intros d k x Hin. rewrite Hq. case_decide; [|by eapply L3]. intros [= <-]. subst d. by eapply (L3 c k ctx).
  - intros k x d. rewrite Hh. case_decide as Hk.
    + intros [= <-]. subst k. rewrite Hin', (L4 i h d Hi). split.
      * intros [-> |(k & Hk & Hok & Htk)]; [exists j; split_and!; [left|done..]|exists k; split_and!; [by right|done..]].
      * intros (k & [[= -> ->]|Hk]%elem_of_cons & Hok & Htk); [by left|right; by exists k].
    + intros Hx. rewrite (L4 k x d Hx). split; intros (k' & Hk' & Hok & Htk).
      * exists k'. split_and!; [by right|done..].
      * apply elem_of_cons in Hk' as [[= -> ->]|Hk']; [congruence|by exists k'].
  - intros k x. rewrite Hh. case_decide; [|by apply L5]. intros [= <-]. simpl. apply NoDup_app. split_and!.
    + by eapply L5.
    + intros d Hd ->%list_elem_of_singleton. done.
    + apply NoDup_singleton.
  - intros k x. rewrite Hh. case_decide; [|by apply L6]. intros [= <-]. simpl. rewrite length_app. simpl. lia.
  - intros k x d. rewrite Hh. case_decide; [|by apply L7]. intros [= <-]. rewrite Hin'. simpl.
    rewrite cpumask_set_cpu_elem, (L7 i h d Hi). done.
  - intros k x. rewrite Hh. case_decide; [|by apply L8]. intros [= <-]. simpl. apply cpumask_set_cpu_sorted. by eapply L8.
  - intros k x bit d y. rewrite Hh, Hq. case_decide as Hk.
    + intros [= <-]. subst k. simpl. intros Hbit Hy.
      assert (Hcase : d = c /\ bit = nr_ctx h \/ d <> c /\ aget (h_ctxs h) bit = Some d).
      { unfold aget in *. case_bool_in Hbit; [done|]. rewrite lookup_app in Hbit.
        destruct (h_ctxs h !! Z.to_nat bit) eqn:El.
        - simplify_eq. right. split; [intros ->; apply Hn; by eapply list_elem_of_lookup_2|done].
        - apply lookup_ge_None in El. apply list_lookup_singleton_Some in Hbit as [? <-]. left. split; [done|lia]. }
      destruct Hcase as [[-> ->]|[Hdc Hold]].
      * rewrite decide_True in Hy by done. injection Hy as <-. simpl. unfold aget. case_bool; [lia|].
        apply list_lookup_insert_eq. lia.
      * rewrite decide_False in Hy by done. rewrite <- (Hty d); [by eapply L9|].
        unfold aget in Hold. case_bool_in Hold; [done|]. by eapply list_elem_of_lookup_2.
    + intros Hx Hbit Hy. case_decide as Hdc; [|by eapply L9]. subst d. injection Hy as <-. simpl.
      pose proof (L9 k x bit c ctx Hx Hbit I1) as Hix. rewrite <- Hix. unfold aget. case_bool; [done|].
      apply list_lookup_insert_ne. intros Heq.
      assert (Hcx : c ∈ h_ctxs x) by (unfold aget in Hbit; case_bool_in Hbit; [done|]; by eapply list_elem_of_lookup_2).
      destruct (L10 k x c Hx Hcx) as (_ & Tx & _). assert (h_type x = j) by lia. congruence.
  - intros k x d. rewrite Hh. case_decide as Hk; [|by apply L10]. intros [= <-]. subst k.
    rewrite Hin'. change (h_type h') with j. intros [-> |Hd].
    + split_and!; [done..|]. intros k Hk Hok Htk. apply Hn, (L4 i h c Hi). exists k. split_and!; [by apply Hprev|done..].
    + rewrite <- (Hty d Hd). by apply L10.
  - intros d k [[= -> ->]|Hk]%elem_of_cons; [done|by eapply L11].
Qed.

(** ** The loops over the types *)

Lemma default_target c : c ∈ possible -> exists i, T HCTX_TYPE_DEFAULT c = Some i /\ 0 <= i < Z.of_nat nr_hw.
Proof. intros Hc. by apply (mo_range _ Hmaps), Hc; apply (mo_default _ Hmaps). Qed.

Lemma map_type_laid P R q c j :
  laid nr_hw P R q -> c ∈ possible -> 0 <= j < nr_maps set ->
  (forall k, k < j -> own k = true -> (c, k) ∈ R) ->
  exists q', map_type e set c q j = Some q' /\ laid nr_hw ((c, j) :: P) ((c, j) :: R) q'.
Proof.
  intros H Hc Hj Hprev. pose proof (mo_nr _ Hmaps). pose proof (mo_types _ Hmaps).
  destruct (aget_lt (set_map set) j) as [mp Hmp]; [lia|]. unfold map_type. rewrite Hmp. cbn [mbind option_bind].
  assert (Hown : own j = negb (nr_queues mp =? 0)) by (unfold own; rewrite Hmp; simpl; lia).
  destruct (nr_queues mp =? 0) eqn:E0.
  - destruct (default_target c Hc) as (i & Hi & _). rewrite Hi. cbn [mbind option_bind].
    destruct (store_hctx_laid P R q c j i H Hc) as (q' & Eq & Hq' & _); [lia|by unfold tgt; rewrite Hown|].
    exists q'. split; [done|]. apply laid_skip; [done..|]. by rewrite Hown.
  - destruct (mo_range _ Hmaps j c Hown Hc) as (i & Hi & Hr). rewrite Hi. cbn [mbind option_bind].
    destruct (store_hctx_laid P R q c j i H Hc) as (q' & Eq & Hq' & Ehw); [lia|by unfold tgt; rewrite Hown|].
    rewrite Eq. cbn [mbind option_bind].
    destruct (aget_lt (queue_hw_ctx q') i) as [h Hh]; [rewrite (la_len _ _ _ _ Hq'); lia|].
    rewrite Hh. cbn [mbind option_bind]. case_bool_decide as Hin.
    + exists q'. split; [done|]. apply laid_skip; [done..|]. intros _ i' h' Hi' Hh'.
      assert (i' = i) as -> by congruence. assert (h' = h) as -> by congruence. by apply (la_mask _ _ _ _ Hq' i h c Hh).
    + apply add_sw_laid; try done. intros Hc'. by apply Hin, (la_mask _ _ _ _ Hq' i h c Hh).
Qed.

(** The pairs of a CPU with the types from [0] to [n - 1]. *)
Definition pairs (c n : Z) : list (Z * Z) := (fun j => (c, j)) <$> seqZ 0 n.

Lemma elem_of_pairs c n d j : (d, j) ∈ pairs c n <-> d = c /\ 0 <= j < n.
Proof. unfold pairs. rewrite list_elem_of_fmap. setoid_rewrite elem_of_seqZ. naive_solver lia. Qed.

(** Only membership in the lists matters. *)
Lemma laid_perm P P' R R' q :
  laid nr_hw P R q -> (forall x, x ∈ P' -> x ∈ P) -> (forall x, x ∈ R' <-> x ∈ R) -> laid nr_hw P' R' q.
Proof.
  intros [L1 L2 L3 L4 L5 L6 L7 L8 L9 L10 L11] HP HR. split; try done.
  - intros c j ctx Hin. apply L3. by apply HP.
  - intros i h c Hi. rewrite (L4 i h c Hi). by setoid_rewrite HR.
  - intros c j Hin. eapply L11. by apply HR.
Qed.

Lemma map_types_laid P R q c n :
  laid nr_hw P R q -> c ∈ possible -> 0 <= n <= nr_maps set ->
  exists q', foldM (map_type e set c) q (seqZ 0 n) = Some q' /\ laid nr_hw (pairs c n ++ P) (pairs c n ++ R) q'.
Proof.
  intros H Hc Hn.
  apply (foldM_inv _ (fun done q => laid nr_hw (((fun j => (c, j)) <$> done) ++ P) (((fun j => (c, j)) <$> done) ++ R) q)); [done|].
  intros dn j rest q1 Eq H1.
  assert (Hj : 0 <= j < n).
  { assert (Hin : j ∈ seqZ 0 n) by (rewrite Eq; set_solver). apply elem_of_seqZ in Hin. lia. }
  assert (Hpre : forall k, 0 <= k < j -> k ∈ dn).
  { intros k Hk. assert (Hj' : j = Z.of_nat (length dn)).
    { assert (Hl : seqZ 0 n !! length dn = Some j) by (rewrite Eq; by apply list_lookup_middle).
      apply lookup_seqZ in Hl. lia. }
    assert (Hl : seqZ 0 n !! Z.to_nat k = Some k) by (apply lookup_seqZ; lia).
    rewrite Eq, lookup_app_l in Hl by lia. by eapply list_elem_of_lookup_2. }
  destruct (map_type_laid _ _ q1 c j H1 Hc ltac:(lia)) as (q2 & E2 & H2).
  { intros k Hk Ho. apply elem_of_app. left. apply list_elem_of_fmap. exists k. split; [done|]. apply Hpre.
    pose proof (own_range k Ho). lia. }
  exists q2. split; [done|]. eapply laid_perm; [exact H2|..]; intros x; rewrite fmap_app; simpl; set_solver.
Qed.

Lemma map_rests_laid P R q c l :
  laid nr_hw P R q -> c ∈ possible -> Forall (fun j => nr_maps set <= j < 3) l ->
  exists q', foldM (map_rest set c) q l = Some q' /\ laid nr_hw (((fun j => (c, j)) <$> l) ++ P) R q'.
Proof.
  intros H Hc Hl. revert P q H. induction Hl as [|j l Hj Hl IH]; intros P q H; cbn [foldM]; [by exists q|].
  destruct (default_target c Hc) as (i & Hi & _).
  pose proof (mo_nr _ Hmaps).
  assert (Hown : own j = false) by (unfold own; lia).
  destruct (store_hctx_laid P R q c j i H Hc) as (q' & Eq & Hq' & _); [lia|by unfold tgt; rewrite Hown|].
  assert (E1 : map_rest set c q j = Some q') by (unfold map_rest; rewrite Hi; exact Eq).
  rewrite E1. cbn [mbind option_bind]. destruct (IH _ _ Hq') as (q2 & E2 & H2). exists q2. split; [done|].
  eapply laid_perm; [exact H2| |done]. intros x. simpl. set_solver.
Qed.

(** ** The loop over the CPUs *)

Hypothesis Htags : forall i, 0 <= i < Z.of_nat nr_hw -> exists t, aget (ts_tags set) i = Some (Some t).

Lemma ensure_tags_present m c : c ∈ possible -> ensure_tags set m c = Some (set, m).
Proof.
  intros Hc. destruct (default_target c Hc) as (i & Hi & Hr). destruct (Htags i Hr) as [t Ht].
  unfold ensure_tags. rewrite Hi. cbn [mbind option_bind]. by rewrite Ht.
Qed.

(** The pairs after the CPUs [l]. *)
Definition all_pairs (l : list Z) (n : Z) : list (Z * Z) := l ≫= fun c => pairs c n.

Lemma elem_of_all_pairs l n c j : (c, j) ∈ all_pairs l n <-> c ∈ l /\ 0 <= j < n.
Proof.
  unfold all_pairs. rewrite list_elem_of_bind. setoid_rewrite elem_of_pairs. naive_solver.
Qed.

Lemma map_cpu_laid P R m q c :
  laid nr_hw P R q -> c ∈ possible ->
  exists q', map_cpu e (set, m, q) c = Some (set, m, q') /\ laid nr_hw (pairs c 3 ++ P) (pairs c (nr_maps set) ++ R) q'.
Proof.
  intros H Hc. pose proof (mo_nr _ Hmaps). unfold map_cpu. rewrite ensure_tags_present by done. cbn [mbind option_bind].
  destruct (map_types_laid P R q c (nr_maps set) H Hc) as (q1 & E1 & H1); [lia|]. rewrite E1. cbn [mbind option_bind].
  destruct (map_rests_laid _ _ q1 c (seqZ (nr_maps set) (HCTX_MAX_TYPES - nr_maps set)) H1 Hc) as (q2 & E2 & H2).
  { apply Forall_forall. intros j Hj%elem_of_seqZ. unfold HCTX_MAX_TYPES in Hj. lia. }
  rewrite E2. cbn [mbind option_bind]. exists q2. split; [done|]. eapply laid_perm; [exact H2| |done].
  intros [d j]. rewrite !elem_of_app, !elem_of_pairs, list_elem_of_fmap. setoid_rewrite elem_of_seqZ.
  unfold HCTX_MAX_TYPES. intros [[-> Hj]|Hin]; [|by right; right].
  destruct (decide (j < nr_maps set)); [right; left; lia|left; exists j; split; [done|lia]].
Qed.

Lemma map_cpus_laid m q :
  laid nr_hw [] [] q ->
  exists q', foldM (map_cpu e) (set, m, q) possible = Some (set, m, q') /\
    laid nr_hw (all_pairs possible 3) (all_pairs possible (nr_maps set)) q'.
Proof.
  intros H.
  destruct (foldM_inv (map_cpu e) (fun dn s => exists q', s = (set, m, q') /\
    laid nr_hw (all_pairs dn 3) (all_pairs dn (nr_maps set)) q') possible (set, m, q)) as (s & E & q' & -> & Hq').
  - by exists q.
  - intros dn c rest s Eq (q1 & -> & H1).
    destruct (map_cpu_laid _ _ m q1 c H1) as (q2 & E2 & H2); [rewrite Eq; set_solver|].
    exists (set, m, q2). split; [done|]. exists q2. split; [done|].
    eapply laid_perm; [exact H2|..]; intros [d j]; rewrite elem_of_app, !elem_of_all_pairs, elem_of_pairs, elem_of_app, list_elem_of_singleton; naive_solver.
  - by exists q'.
Qed.

Lemma laid_start q :
  length (queue_hw_ctx q) = nr_hw -> (forall c, c ∈ possible -> exists ctx, idle_ctx q c ctx) ->
  laid nr_hw [] [] (q <| queue_hw_ctx ::= fmap unmap_hctx |>).
Proof.
  intros Hl Hc.
  assert (Hh : forall i h, aget (queue_hw_ctx (q <| queue_hw_ctx ::= fmap unmap_hctx |>)) i = Some h ->
    h_ctxs h = [] /\ nr_ctx h = 0 /\ cpumask h = []).
  { intros i h. unfold aget. simpl. case_bool; [done|]. rewrite list_lookup_fmap.
    destruct (queue_hw_ctx q !! Z.to_nat i); intros [= <-]. done. }
  split.
  - etrans; [|exact Hl]. simpl. apply length_fmap.
  - exact Hc.
  - intros c j ctx Hin. by apply elem_of_nil in Hin.
  - intros i h c Hi. destruct (Hh i h Hi) as (-> & _). split; [intros Hin; by apply elem_of_nil in Hin|].
    intros (j & Hin & _). by apply elem_of_nil in Hin.
  - intros i h Hi. destruct (Hh i h Hi) as (-> & _). constructor.
  - intros i h Hi. by destruct (Hh i h Hi) as (-> & -> & _).
  - intros i h c Hi. by destruct (Hh i h Hi) as (-> & _ & ->).
  - intros i h Hi. destruct (Hh i h Hi) as (_ & _ & ->). constructor.
  - intros i h bit c ctx Hi. destruct (Hh i h Hi) as (-> & _). intros Hb%aget_Some. simpl in Hb. lia.
  - intros i h c Hi. destruct (Hh i h Hi) as (-> & _). intros Hin. by apply elem_of_nil in Hin.
  - intros c j Hin. by apply elem_of_nil in Hin.
Qed.

(** ** The last loop *)

(** What becomes of hardware queue [i]. *)
Definition finished (i : Z) (h : blk_mq_hw_ctx) : blk_mq_hw_ctx :=
  if nr_ctx h =? 0 then h <| tags := None |>
  else
    let h := h <| tags := Some i |> <| ctx_map := sbitmap_resize (ctx_map h) (nr_ctx h) |> in
    h <| next_cpu := blk_mq_first_mapped_cpu e h |> <| next_cpu_batch := BLK_MQ_CPU_WORK_BATCH |>.

Lemma free_total s i m : 0 <= i < Z.of_nat (length (ts_tags s)) ->
  exists s' m', blk_mq_free_map_and_requests s i m = Some (s', m') /\
    length (ts_tags s') = length (ts_tags s) /\ forall k, k <> i -> aget (ts_tags s') k = aget (ts_tags s) k.
Proof.
  intros Hi. unfold blk_mq_free_map_and_requests. case_bool_decide as E; [rewrite E in Hi; simpl in Hi; lia|].
  destruct (aget_lt _ _ Hi) as [[t|] Ht]; rewrite Ht; cbn [mbind option_bind]; [|by exists s, m].
  destruct (blk_mq_free_rqs t m) as [t' m']. destruct (aset (ts_tags s) i None) as [l|] eqn:El.
  2: { rewrite aset_lt in El by done. done. }
  cbn [mbind option_bind]. do 2 eexists. split; [reflexivity|]. simpl. split; [by eapply aset_length|].
  intros k Hk. by eapply aget_aset_ne.
Qed.

Lemma finish_loop m q :
  length (queue_hw_ctx q) = nr_hw ->
  exists set' m' q', foldM (finish_hctx e) (set, m, q) (seqZ 0 (Z.of_nat nr_hw)) = Some (set', m', q') /\
    queue_ctx q' = queue_ctx q /\
    (forall i, aget (queue_hw_ctx q') i = finished i <$> aget (queue_hw_ctx q) i).
Proof.
  intros Hlen.
  destruct (foldM_inv (finish_hctx e) (fun dn s => exists set' m' q', s = (set', m', q') /\
    queue_ctx q' = queue_ctx q /\ length (ts_tags set') = length (ts_tags set) /\
    (forall k, k ∉ dn -> aget (ts_tags set') k = aget (ts_tags set) k) /\
    (forall k, aget (queue_hw_ctx q') k = if decide (k ∈ dn) then finished k <$> aget (queue_hw_ctx q) k
                                         else aget (queue_hw_ctx q) k))
    (seqZ 0 (Z.of_nat nr_hw)) (set, m, q)) as (s & E & set' & m' & q' & -> & A1 & _ & _ & A2).
  - exists set, m, q. split_and!; done.
  - intros dn i rest s Eq (set1 & m1 & q1 & -> & B1 & B2 & B3 & B4).
    assert (Hi : 0 <= i < Z.of_nat nr_hw).
    { assert (Hin : i ∈ seqZ 0 (Z.of_nat nr_hw)) by (rewrite Eq; set_solver). apply elem_of_seqZ in Hin. lia. }
    assert (Hni : i ∉ dn).
    { intros Hin. pose proof (NoDup_seqZ 0 (Z.of_nat nr_hw)) as Hnd. rewrite Eq in Hnd.
      apply NoDup_app in Hnd as (_ & Hnd & _). apply (Hnd i Hin). left. }
    destruct (aget_lt (queue_hw_ctx q) i) as [h Hh]; [lia|]. destruct (Htags i Hi) as [t Ht].
    assert (Hh1 : aget (queue_hw_ctx q1) i = Some h) by (by rewrite B4, decide_False).
    unfold finish_hctx. rewrite Hh1. cbn [mbind option_bind]. rewrite B3, Ht by done. cbn [mbind option_bind].
    assert (Hset : forall h', h' = finished i h -> forall k, aget (queue_hw_ctx (set_hctx i h' q1)) k =
      if decide (k ∈ dn ++ [i]) then finished k <$> aget (queue_hw_ctx q) k else aget (queue_hw_ctx q) k).
    { intros h' -> k. rewrite aget_set_hctx by congruence. case_decide as Hk.
      - subst k. rewrite decide_True by set_solver. by rewrite Hh.
      - rewrite B4. destruct (decide (k ∈ dn)) as [Hd|Hd];
          [rewrite decide_True by set_solver|rewrite decide_False by set_solver]; done. }
    unfold finished in Hset at 1. destruct (nr_ctx h =? 0) eqn:En.
    + rewrite bool_decide_eq_true_2 by (by eexists). rewrite andb_true_r.
      assert (Hf : exists s2 m2, (if c_true i then blk_mq_free_map_and_requests set1 i m1 else Some (set1, m1)) = Some (s2, m2)
        /\ length (ts_tags s2) = length (ts_tags set1) /\ forall k, k <> i -> aget (ts_tags s2) k = aget (ts_tags set1) k).
      { case_bool; [apply free_total; rewrite B2; by eapply aget_Some|by exists set1, m1]. }
      destruct Hf as (s2 & m2 & -> & F1 & F2). cbn [mbind option_bind]. eexists. split; [reflexivity|].
      do 3 eexists. split_and!; [reflexivity|done|congruence| |by apply Hset].
      intros k Hk. rewrite F2 by set_solver. apply B3. set_solver.
    + eexists. split; [reflexivity|]. do 3 eexists. split_and!; [reflexivity|done|done| |by apply Hset].
      intros k Hk. apply B3. set_solver.
  - exists set', m', q'. split_and!; [done|done|]. intros i. rewrite A2. case_decide as Hd; [done|].
    destruct (aget (queue_hw_ctx q) i) eqn:Eh; [|done]. apply aget_Some in Eh. exfalso. apply Hd, elem_of_seqZ. lia.
Qed.

(** ** The layout *)

Context {ml : MapEnvLaws me}.

(** The bits of a hardware queue and of its software queues agree. *)
Lemma laid_pending P R q q' i h :
  laid nr_hw P R q -> queue_ctx q' = queue_ctx q -> aget (queue_hw_ctx q) i = Some h ->
  aget (queue_hw_ctx q') i = Some (finished i h) -> h_ctxs h <> [] -> pending_wf i q' (finished i h).
Proof.
  intros H Eq Hi Hi' Hne. pose proof (la_nr _ _ _ _ H i h Hi) as Hnr.
  assert (Hn0 : nr_ctx h <> 0) by (destruct (h_ctxs h); simpl in Hnr; [done|lia]).
  assert (Hf : h_ctxs (finished i h) = h_ctxs h /\ h_type (finished i h) = h_type h /\
    ctx_map (finished i h) = sbitmap_resize (ctx_map h) (nr_ctx h)).
  { unfold finished. rewrite (proj2 (Z.eqb_neq _ _)) by done. done. }
  destruct Hf as (F1 & F2 & F3). split; [done| | |].
  - rewrite F3, F1. pose proof (sbitmap_resize_length (ctx_map h) (nr_ctx h)). lia.
  - rewrite F1. by eapply la_nodup.
  - intros bit c. rewrite F1, F2, Eq. intros Hb.
    assert (Hc : c ∈ h_ctxs h) by (unfold aget in Hb; case_bool_in Hb; [done|]; by eapply list_elem_of_lookup_2).
    destruct (la_type _ _ _ _ H i h c Hi Hc) as (Ho & _). pose proof (own_range _ Ho).
    assert (Hc' : c ∈ possible).
    { apply (la_in _ _ _ _ H i h c Hi) in Hc as (k & Hk & _). by eapply la_cpus. }
    destruct (la_ctx _ _ _ _ H c Hc') as (ctx & I1 & _ & _ & _ & I5).
    exists ctx, []. split_and!; [done|by eapply la_ix| |done]. unfold ctx_list. rewrite I5.
    unfold aget. case_bool; [lia|]. destruct (Z.to_nat (h_type h)) as [|[|[|]]] eqn:En; try done. lia.
Qed.

Lemma laid_next_cpu i h c :
  nr_ctx h <> 0 -> c ∈ cpumask h -> c ∈ cpu_online_mask e -> next_cpu_inv e (finished i h).
Proof.
  intros Hn Hc Ho. unfold finished. rewrite (proj2 (Z.eqb_neq _ _)) by done. unfold next_cpu_inv. simpl.
  split; [|unfold BLK_MQ_CPU_WORK_BATCH; lia]. unfold blk_mq_first_mapped_cpu, cpumask_first_and, active_cpus. simpl.
  destruct (List.filter _ (cpumask h)) as [|d l] eqn:E; simpl; [|left].
  assert (Hin : In c (List.filter (fun x => bool_decide (x ∈ cpu_online_mask e)) (cpumask h))).
  { apply filter_In. split; [by apply list_elem_of_In|by apply bool_decide_eq_true]. }
  rewrite E in Hin. done.
Qed.

(** The hardware queues that the CPUs end up with. *)
Lemma map_swqueue_hctxs m q :
  length (queue_hw_ctx q) = nr_hw -> (forall c, c ∈ possible -> exists ctx, idle_ctx q c ctx) ->
  exists set' m' q', blk_mq_map_swqueue e possible set m q = Some (set', m', q') /\
    forall c, c ∈ possible -> exists ctx, aget (queue_ctx q') c = Some ctx /\
      forall j, 0 <= j < HCTX_MAX_TYPES -> aget (hctxs ctx) j = tgt j c.
Proof.
  intros Hlen Hidle. unfold blk_mq_map_swqueue.
  destruct (map_cpus_laid m _ (laid_start q Hlen Hidle)) as (q1 & E1 & H1). rewrite E1. cbn [mbind option_bind].
  unfold nr_hw_queues. cbn [snd]. rewrite (la_len _ _ _ _ H1).
  destruct (finish_loop m q1 (la_len _ _ _ _ H1)) as (set' & m' & q' & E2 & Ec & Eh).
  exists set', m', q'. split; [done|]. intros c Hc. rewrite Ec.
  destruct (la_ctx _ _ _ _ H1 c Hc) as (ctx & I1 & _). exists ctx. split; [done|].
  intros j Hj. eapply (la_hctxs _ _ _ _ H1); [|done]. by apply elem_of_all_pairs.
Qed.

(** C22: mapping the software queues, without requests in them, when the maps of the
    set name existing hardware queues, two types share either all queues or none
    ([maps_ok]; with another sharing the bits are wrong, [poll_map_breaks_layout] in
    NvmeTcpMapSpec.v), and the tags of every hardware queue are allocated (otherwise
    the mapping allocates those of the default type, or moves the CPU to queue 0,
    and leaves the other types without, [map_swqueue_untagged]).  It gives every CPU
    the hardware queue of each
    type that the maps of the set name, or the default one for a type without
    queues.  A hardware queue is mapped to exactly the CPUs whose maps name it;
    one without CPUs has no tags; one with CPUs has its tags, starts its round
    robin at an online CPU of its mask if there is one, and its pending bitmap
    has one bit per software queue, known to both sides. *)
Theorem map_swqueue_layout m q :
  length (queue_hw_ctx q) = nr_hw -> (forall c, c ∈ possible -> exists ctx, idle_ctx q c ctx) ->
  exists set' m' q', blk_mq_map_swqueue e possible set m q = Some (set', m', q') /\
    (forall c, c ∈ possible -> exists ctx, aget (queue_ctx q') c = Some ctx /\
       forall j, 0 <= j < HCTX_MAX_TYPES -> aget (hctxs ctx) j = tgt j c) /\
    (forall i h, aget (queue_hw_ctx q') i = Some h ->
       (forall c, c ∈ cpumask h <-> c ∈ possible /\ exists j, own j = true /\ T j c = Some i) /\
       StronglySorted Z.lt (cpumask h) /\
       (cpumask h = [] -> tags h = None) /\
       (cpumask h <> [] -> tags h = Some i /\ pending_wf i q' h) /\
       (forall c, c ∈ cpumask h -> c ∈ cpu_online_mask e -> next_cpu_inv e h)).
Proof.
  intros Hlen Hidle. unfold blk_mq_map_swqueue.
  destruct (map_cpus_laid m _ (laid_start q Hlen Hidle)) as (q1 & E1 & H1). rewrite E1. cbn [mbind option_bind].
  unfold nr_hw_queues. cbn [snd]. rewrite (la_len _ _ _ _ H1).
  destruct (finish_loop m q1 (la_len _ _ _ _ H1)) as (set' & m' & q' & E2 & Ec & Eh).
  exists set', m', q'. split; [done|]. split.
  - intros c Hc. rewrite Ec. destruct (la_ctx _ _ _ _ H1 c Hc) as (ctx & I1 & _). exists ctx. split; [done|].
    intros j Hj. eapply (la_hctxs _ _ _ _ H1); [|done]. by apply elem_of_all_pairs.
  - intros i h'. intros Hi'. pose proof Hi' as Hi2. rewrite Eh in Hi'. destruct (aget (queue_hw_ctx q1) i) as [h|] eqn:Hi; [|done].
    injection Hi' as <-. pose proof (la_nr _ _ _ _ H1 i h Hi) as Hnr.
    assert (Hm : cpumask (finished i h) = cpumask h) by (unfold finished; by case_bool).
    assert (Hne : cpumask h <> [] <-> h_ctxs h <> []).
    { pose proof (fun c => la_mask _ _ _ _ H1 i h c Hi) as Hmask. destruct (cpumask h) as [|a l], (h_ctxs h) as [|b k]; try done.
      - exfalso. apply (elem_of_nil b), Hmask. left.
      - exfalso. apply (elem_of_nil a), Hmask. left. }
    assert (Hz : nr_ctx h <> 0 <-> h_ctxs h <> []) by (rewrite Hnr; destruct (h_ctxs h); simpl; split; (done || lia)).
    rewrite Hm. split_and!.
    + intros c. rewrite (la_mask _ _ _ _ H1 i h c Hi), (la_in _ _ _ _ H1 i h c Hi). setoid_rewrite elem_of_all_pairs. split.
      * intros (j & [Hc _] & Ho & Ht). split; [done|]. by exists j.
      * intros (Hc & j & Ho & Ht). exists j. split_and!; try done; unfold own in Ho; lia.
    + by eapply la_sorted.
    + intros Hnil. unfold finished. destruct (Z.eqb_spec (nr_ctx h) 0) as [|Hn]; [done|]. exfalso. by apply Hne; [apply Hz|].
    + intros Hn. split; [|by eapply laid_pending; [..|by apply Hne]].
      unfold finished. rewrite (proj2 (Z.eqb_neq _ _)); [done|]. by apply Hz, Hne.
    + intros c Hc Ho. eapply laid_next_cpu; [|done..]. apply Hz, Hne. intros E. rewrite E in Hc. by apply elem_of_nil in Hc.
Qed.
End layout.
