(* ===== verification/BlkMqShareSpec.v ===== *)
(** * CPUs that go away and queues that share their tags

    [blk_mq_hctx_notify_dead] moves the requests of a dead CPU without losing
    one; the queues of a tag set know whether they share it; and the layout of
    BlkMqMapSpec.v on a concrete machine. *)
From S2P Require Import Prelude MqTypes BlkSwitch BlkMqAlloc BlkMqRun BlkMqRunSpec BlkMqInsert BlkMqInsertSpec.
From S2P Require Import BlkMqTagSet BlkMqTagSetSpec BlkMqTagSetTop BlkMqMap BlkMqMapSpec.
From Stdlib Require Import Sorted.

(** ** A dead CPU *)

Section dead.
Context {sch : MqSched} (e : run_env).

Lemma set_hctx_twice i h h' q : set_hctx i h (set_hctx i h' q) = set_hctx i h q.
Proof. unfold set_hctx, upd. destruct q; simpl. f_equal. apply list_insert_insert_eq. Qed.

(** when a CPU goes away, the requests in its software queue are appended to
    the dispatch list of the hardware queue in their order, the software queue
    is left empty, the other software queues keep their requests, and a hardware
    queue that is not stopped has been scheduled to run if requests were moved. *)
Lemma dead_cpu_keeps_requests i q h bit c :
  pending_wf i q h -> aget (h_ctxs h) bit = Some c -> blk_queue_quiesced q = false ->
  exists q' h' l, blk_mq_hctx_notify_dead e c i q = Some q' /\ aget (queue_hw_ctx q') i = Some h' /\
    lists_of q (h_type h) (h_ctxs h) !! Z.to_nat bit = Some l /\
    dispatch h' = dispatch h ++ l /\
    lists_of q' (h_type h) (h_ctxs h) = <[Z.to_nat bit := []]> (lists_of q (h_type h) (h_ctxs h)) /\
    (l <> [] -> blk_mq_hctx_stopped h = false -> is_Some (run_work h')).
Proof.
  intros Hwf Hc Hq. pose proof (pw_hctx _ _ _ Hwf) as Hh.
  destruct (pw_ctx _ _ _ Hwf bit c Hc) as (ctx & l & E1 & E2 & E3 & E4).
  pose proof (aget_lists q h bit c ctx l Hc E1 E3) as Hl.
  unfold blk_mq_hctx_notify_dead. rewrite Hh. cbn [mbind option_bind]. rewrite E1. cbn [mbind option_bind].
  unfold ctx_list in E3. rewrite E3. cbn [mbind option_bind]. case_bool_decide as En.
  { subst l. exists q, h, []. split_and!; try done; [by rewrite app_nil_r|]. symmetry. by apply list_insert_id. }
  rewrite aset_lt by (by eapply aget_Some). cbn [mbind option_bind].
  set (ctx' := ctx <| rq_lists := _ |>).
  unfold blk_mq_hctx_clear_pending, ctx_bit. change (index_hw ctx') with (index_hw ctx). rewrite E2. cbn [mbind option_bind].
  assert (Hb : 0 <= bit < Z.of_nat (length (ctx_map h))) by (rewrite (pw_len _ _ _ Hwf); by eapply aget_Some).
  destruct (aset (ctx_map h) bit false) as [m'|] eqn:Em; [|by rewrite aset_lt in Em]. cbn [mbind option_bind].
  destruct (replace_list i q h Hwf bit c ctx [] ctx' false m' Hc E1) as [R1 R2]; try done.
  { unfold set_ctx_list. by rewrite aset_lt by (by eapply aget_Some). }
  set (h1 := h <| ctx_map := m' |> <| dispatch ::= _ |>). set (q1 := set_hctx i h1 (set_ctx c ctx' q)).
  assert (Hi : 0 <= i < nr_hw_queues (set_ctx c ctx' q)) by (exact (aget_Some _ _ _ Hh)).
  assert (Hh1 : aget (queue_hw_ctx q1) i = Some h1) by (by apply aget_set_hctx_eq).
  destruct (run_async e i q1 h1 Hq Hh1) as (b & h2 & Er & F1 & F2 & F3 & F4 & F5).
  rewrite Er. cbn [mbind option_bind]. exists (set_hctx i h2 q1), h2, l. split_and!; [done| |done|done| |].
  - unfold q1. rewrite set_hctx_twice. by apply aget_set_hctx_eq.
  - exact R2.
  - intros _ Hst. apply F4; [done|]. unfold has_requests. rewrite bool_decide_eq_false_2; [done|].
    simpl. intros Happ. by apply app_nil in Happ as [_ ?].
Qed.
End dead.

(** ** Sharing *)

(** The flags of the hardware queues of a queue. *)
Definition flags_of (q : request_queue) : list Z := h_flags <$> queue_hw_ctx q.

(** Dispatching does not change the flags of the hardware queues. *)
Class MqSchedFlags (sch : MqSched) : Prop := {
  dispatch_flags : forall i q, flags_of (blk_mq_sched_dispatch_requests i q) = flags_of q;
}.

Section share.
Context {sch : MqSched} {laws : MqSchedFlags sch} (e : run_env).

Lemma flags_length q q' : flags_of q' = flags_of q -> length (queue_hw_ctx q') = length (queue_hw_ctx q).
Proof. intros H. apply (f_equal length) in H. unfold flags_of in H. by rewrite !length_fmap in H. Qed.

Lemma set_hctx_flags i h h' q :
  aget (queue_hw_ctx q) i = Some h -> h_flags h' = h_flags h -> flags_of (set_hctx i h' q) = flags_of q.
Proof.
  intros Hh Hf. unfold flags_of. simpl. rewrite list_fmap_insert, Hf. apply list_insert_id.
  unfold aget in Hh. case_bool_in Hh; [done|]. by rewrite list_lookup_fmap, Hh.
Qed.

Lemma run_hw_flags i async q :
  0 <= i < Z.of_nat (length (queue_hw_ctx q)) ->
  exists b q', blk_mq_run_hw_queue e i async q = Some (b, q') /\ flags_of q' = flags_of q.
Proof.
  intros Hi. destruct (aget_lt (queue_hw_ctx q) i Hi) as [h Hh].
  unfold blk_mq_run_hw_queue. destruct (blk_queue_quiesced q); simpl; [by exists false, q|].
  unfold blk_mq_hctx_has_pending. rewrite Hh. simpl. destruct (_ || _); simpl; [|by exists false, q].
  unfold blk_mq_delay_run_hw_queue_inner. rewrite Hh. simpl.
  destruct (blk_mq_hctx_stopped h); simpl; [by exists true, q|].
  destruct (_ && _ && _); simpl; [eexists true, _; split; [done|]; apply dispatch_flags|].
  destruct (blk_mq_hctx_next_cpu e (nr_hw_queues q) h) as [c h1] eqn:E. simpl.
  eexists true, _. split; [done|]. eapply set_hctx_flags; [done|]. simpl.
  revert E. unfold blk_mq_hctx_next_cpu. repeat case_bool; intros [= _ <-]; done.
Qed.

Lemma freeze_flags q : exists q', blk_freeze_queue_start e q = Some q' /\ flags_of q' = flags_of q.
Proof.
  unfold blk_freeze_queue_start. set (q0 := q <| mq_freeze_depth ::= _ |>). case_bool; [|by exists q0].
  unfold blk_mq_run_hw_queues, for_each_hw. set (q1 := q0 <| q_usage_dead := true |>).
  apply (foldM_inv _ (fun _ q' => flags_of q' = flags_of q)); [done|].
  intros d i rest q2 Hs H2.
  assert (i ∈ seqZ 0 (nr_hw_queues q1)) as Hi%elem_of_seqZ by (rewrite Hs; set_solver).
  assert (Hi2 : 0 <= i < Z.of_nat (length (queue_hw_ctx q2))).
  { rewrite (flags_length q q2 H2). unfold nr_hw_queues, q1, q0 in Hi. simpl in Hi. lia. }
  destruct (aget_lt _ _ Hi2) as [h Hh]. rewrite Hh. cbn [mbind option_bind].
  destruct (blk_mq_hctx_stopped h); [by exists q2|].
  destruct (run_hw_flags i false q2 Hi2) as (b & q3 & -> & H3). cbn [mbind option_bind]. exists q3. split; [done|congruence].
Qed.

Lemma unfreeze_flags q : flags_of (blk_mq_unfreeze_queue q) = flags_of q.
Proof. unfold blk_mq_unfreeze_queue. by case_bool. Qed.

(** Every hardware queue of [q] agrees with [shared]. *)
Definition queue_shared (shared : bool) (q : request_queue) : Prop :=
  Forall (fun f => has_flag f BLK_MQ_F_TAG_SHARED = shared) (flags_of q).

Lemma has_shared_lor f : has_flag (Z.lor f BLK_MQ_F_TAG_SHARED) BLK_MQ_F_TAG_SHARED = true.
Proof.
  rewrite has_flag_lor by (by exists 1). rewrite (has_flag_self BLK_MQ_F_TAG_SHARED) by (by exists 1). apply orb_true_r.
Qed.

Lemma has_shared_ldiff f : has_flag (Z.ldiff f BLK_MQ_F_TAG_SHARED) BLK_MQ_F_TAG_SHARED = false.
Proof.
  change BLK_MQ_F_TAG_SHARED with (2 ^ 1). rewrite has_flag_pow2 by lia.
  rewrite Z.ldiff_spec, Z.pow2_bits_true by lia. apply andb_false_r.
Qed.

Lemma set_shared_queue q shared : queue_shared shared (queue_set_hctx_shared q shared).
Proof.
  unfold queue_shared, flags_of, queue_set_hctx_shared. simpl. rewrite <- list_fmap_compose.
  apply Forall_fmap, Forall_true. intros h. simpl. destruct shared; [apply has_shared_lor|apply has_shared_ldiff].
Qed.

Lemma update_depth_shared l shared :
  exists l', blk_mq_update_tag_set_depth e l shared = Some l' /\ fst <$> l' = fst <$> l /\
    Forall (fun x => queue_shared shared x.2) l'.
Proof.
  unfold blk_mq_update_tag_set_depth. induction l as [|[n q] l (l' & E & A & B)]; [by exists []|].
  destruct (freeze_flags q) as (q1 & E1 & _). cbn [mapM]. rewrite E1. cbn [mbind option_bind]. rewrite E. cbn [mbind option_bind].
  eexists. split; [reflexivity|]. split; [by rewrite !fmap_cons, A|]. constructor; [|done].
  unfold queue_shared. simpl. rewrite unfreeze_flags. apply set_shared_queue.
Qed.

(** A queue joins the set with fresh hardware queues, or leaves it. *)
Inductive share_step : blk_mq_tag_set * list (Z * request_queue) -> blk_mq_tag_set * list (Z * request_queue) -> Prop :=
| share_add set l n q set' l' :
    n ∉ l.*1 -> queue_shared false q -> blk_mq_add_queue_tag_set e set l n q = Some (set', l') ->
    share_step (set, l) (set', l')
| share_del set l n set' l' :
    n ∈ l.*1 -> blk_mq_del_queue_tag_set e set l n = Some (set', l') -> share_step (set, l) (set', l').

Definition share_inv (s : blk_mq_tag_set * list (Z * request_queue)) : Prop :=
  NoDup (s.2.*1) /\ has_flag (set_flags s.1) BLK_MQ_F_TAG_SHARED = bool_decide (2 <= length s.2)%nat /\
  Forall (fun x => queue_shared (bool_decide (2 <= length s.2)%nat) x.2) s.2.

Lemma del_list l n : NoDup (l.*1) -> n ∈ l.*1 ->
  let l' := List.filter (fun x : Z * request_queue => negb (x.1 =? n)) l in
  length l = S (length l') /\ NoDup (l'.*1) /\ forall x, x ∈ l' -> x ∈ l.
Proof.
  induction l as [|[k q] l IH]; intros Hnd Hin; simpl; [by apply elem_of_nil in Hin|].
  rewrite fmap_cons in Hnd, Hin. apply NoDup_cons in Hnd as [Hk Hnd]. simpl in *.
  assert (Hsub : forall x, x ∈ List.filter (fun x : Z * request_queue => negb (x.1 =? n)) l -> x ∈ l).
  { intros x Hx. apply list_elem_of_In in Hx. apply list_elem_of_In. by apply filter_In in Hx as [? _]. }
  destruct (Z.eqb_spec k n) as [-> |Hne]; simpl.
  - assert (Hall : List.filter (fun x : Z * request_queue => negb (x.1 =? n)) l = l).
    { apply List.forallb_filter_id, forallb_forall. intros [k q'] Hx. simpl. apply negb_true_iff, Z.eqb_neq. intros ->.
      apply Hk, list_elem_of_fmap. exists (n, q'). split; [done|]. by apply list_elem_of_In. }
    rewrite Hall. split_and!; try done. intros x Hx. by right.
  - apply elem_of_cons in Hin as [->|Hin]; [done|]. destruct (IH Hnd Hin) as (A & B & C). split_and!; [lia| |].
    + constructor; [|done]. intros Hin'. apply Hk. apply list_elem_of_fmap in Hin' as (y & Ey & Hy).
      apply list_elem_of_fmap. exists y. split; [done|by apply C].
    + intros x [-> |Hx]%elem_of_cons; [left|right; by apply C].
Qed.

Lemma share_step_inv s s' : share_inv s -> share_step s s' -> share_inv s'.
Proof.
  intros (Hnd & Hf & Hq) Hs. destruct Hs as [set l n q set' l' Hn Hnew E|set l n set' l' Hn E]; unfold share_inv; simpl in *.
  - unfold blk_mq_add_queue_tag_set in E. destruct (update_depth_shared l true) as (l1 & E1 & A & B).
    assert (Hl1 : length l1 = length l) by (apply (f_equal length) in A; by rewrite !length_fmap in A).
    destruct (decide (l = [])) as [-> |Hne].
    { simpl in E. rewrite Hf in E. simpl in E. injection E as <- <-. simpl. rewrite Hf.
      split_and!; [apply NoDup_singleton|done|by constructor]. }
    assert (Hpos : (1 <= length l)%nat) by (destruct l; [done|simpl; lia]).
    rewrite (bool_decide_eq_false_2 (l = [])) in E by done. cbn [negb andb] in E.
    destruct (has_flag (set_flags set) BLK_MQ_F_TAG_SHARED) eqn:Es; cbn [negb] in E.
    + cbn [mbind option_bind] in E. rewrite Es in E. injection E as <- <-. rewrite Es. symmetry in Hf. apply bool_decide_eq_true in Hf.
      rewrite length_app. rewrite !bool_decide_eq_true_2 by (simpl in *; lia). rewrite bool_decide_eq_true_2 in Hq by done.
      split_and!; [|done|apply Forall_app; split; [done|]; constructor; [apply set_shared_queue|done]].
      rewrite fmap_app. apply NoDup_app. split_and!; [done| |apply NoDup_singleton]. intros k Hk ->%list_elem_of_singleton. done.
    + rewrite E1 in E. cbn [mbind option_bind] in E.
      assert (Et : has_flag (set_flags (set <| set_flags ::= fun f => Z.lor f BLK_MQ_F_TAG_SHARED |>)) BLK_MQ_F_TAG_SHARED = true)
        by apply has_shared_lor.
      rewrite Et in E. injection E as <- <-. rewrite Et. rewrite length_app, Hl1. rewrite !bool_decide_eq_true_2 by (simpl; lia).
      split_and!; [|done|apply Forall_app; split; [done|]; constructor; [apply set_shared_queue|done]].
      rewrite fmap_app, A. apply NoDup_app. split_and!; [done| |apply NoDup_singleton]. intros k Hk ->%list_elem_of_singleton. done.
  - destruct (del_list l n Hnd Hn) as (D1 & D2 & D3). unfold blk_mq_del_queue_tag_set in E.
    set (l0 := List.filter _ l) in *. destruct (update_depth_shared l0 false) as (l1 & E1 & A & B).
    assert (Hl1 : length l1 = length l0) by (apply (f_equal length) in A; by rewrite !length_fmap in A).
    case_bool_decide as Hone.
    + rewrite E1 in E. cbn [mbind option_bind] in E. injection E as <- <-. rewrite Hl1, Hone. simpl.
      split_and!; [by rewrite A|apply has_shared_ldiff|done].
    + injection E as <- <-. destruct (decide (l0 = [])) as [E0|E0].
      * rewrite E0 in *. simpl in *. rewrite D1 in Hf. split_and!; [done|done|constructor].
      * assert (2 <= length l0)%nat by (destruct l0 as [|? [|]]; [done|done|simpl; lia]).
        rewrite (bool_decide_eq_true_2 (2 <= length l0)%nat) by done. rewrite bool_decide_eq_true_2 in Hf, Hq by lia.
        split_and!; [done|done|]. apply Forall_forall. intros x Hx. by apply (proj1 (Forall_forall _ _) Hq), D3.
Qed.

(** however queues join and leave a tag set, the set is marked as shared
    exactly while it has at least two queues, and the hardware queues of every
    queue on its list carry the same mark. *)
Lemma tag_set_sharing set s :
  has_flag (set_flags set) BLK_MQ_F_TAG_SHARED = false -> rtc share_step (set, []) s ->
  has_flag (set_flags s.1) BLK_MQ_F_TAG_SHARED = bool_decide (2 <= length s.2)%nat /\
  Forall (fun x => queue_shared (bool_decide (2 <= length s.2)%nat) x.2) s.2.
Proof.
  intros Hf Hs. assert (H0 : share_inv (set, [])) by (split_and!; [constructor|done|constructor]).
  assert (H : share_inv s).
  { clear Hf. induction Hs as [|x y z Hxy Hyz IH]; [done|]. apply IH. by eapply share_step_inv. }
  apply H.
Qed.
End share.

(** ** A machine with two CPUs *)

Definition ex_map_env : MapEnv := {|
  sbitmap_resize := fun l n => take (Z.to_nat n) (l ++ replicate (Z.to_nat n) false);
  local_node := fun _ => 0;
|}.

Lemma ex_map_env_laws : MapEnvLaws ex_map_env.
Proof. split. intros l n Hn. simpl. rewrite length_take, length_app, length_replicate. lia. Qed.

Lemma ex_sched_flags : MqSchedFlags ex_sched.
Proof. by split. Qed.

Definition ex_two : run_env := mk_run_env 0 [0; 1] 2 (fun m => m).
Definition ex_ts (i : nat) : tags_mem := mk_tags_mem 1 [None] [Some (Z.of_nat i * 4096)] [(Z.of_nat i * 4096, 0%nat)].

(** Two default queues and two queues for latency-sensitive requests. *)
Definition ex_layout (tagged : list bool) : blk_mq_tag_set :=
  mk_tag_set [mk_queue_map [0; 1] 2 0; mk_queue_map [2; 3] 2 2; mk_queue_map [] 0 0] 2 4 1 0 100 0 0
    (imap (fun i b => if b : bool then Some (ex_ts i) else None) tagged).
Definition ex_laid_queue : request_queue :=
  queue0 <| queue_ctx := [ctx0; ctx0 <| cpu := 1 |>] |> <| queue_hw_ctx := replicate 4 hctx0 |>.

Lemma ex_maps_ok : maps_ok [0; 1] (ex_layout [true; true; true; true]) 4.
Proof.
  assert (Ho : forall j, own (ex_layout [true; true; true; true]) j = true -> j = 0 \/ j = 1).
  { intros j. unfold own. simpl. lia. }
  assert (Hc : forall c, c ∈ [0; 1] -> c = 0 \/ c = 1) by set_solver.
  split; [done|simpl; lia|done|..].
  - intros j c [-> | ->]%Ho [-> | ->]%Hc; eexists; (split; [reflexivity|lia]).
  - intros j j' c c' [-> | ->]%Ho [-> | ->]%Ho [-> | ->]%Hc [-> | ->]%Hc Heq d [-> | ->]%Hc;
      first [reflexivity|vm_compute in Heq; discriminate].
Qed.

Lemma ex_layout_tags i : 0 <= i < 4 -> exists t, aget (ts_tags (ex_layout [true; true; true; true])) i = Some (Some t).
Proof.
  intros Hi. assert (i = 0 \/ i = 1 \/ i = 2 \/ i = 3) as [-> |[-> |[-> | ->]]] by lia; eexists; reflexivity.
Qed.

Lemma map_swqueue_layout_witness : exists set' m' q',
  @blk_mq_map_swqueue (ex_mem (fun _ => false)) ex_map_env ex_two [0; 1] (ex_layout [true; true; true; true]) ex_free ex_laid_queue
    = Some (set', m', q') /\
  exists ctx, aget (queue_ctx q') 1 = Some ctx /\ aget (hctxs ctx) HCTX_TYPE_READ = Some 3.
Proof.
  destruct (@map_swqueue_layout (ex_mem (fun _ => false)) ex_map_env ex_two [0; 1]
    (ex_layout [true; true; true; true]) 4 ex_maps_ok ltac:(apply (bool_decide_unpack _); reflexivity)
    ltac:(simpl; lia) ex_layout_tags ex_map_env_laws ex_free ex_laid_queue) as (set' & m' & q' & E & Hctx & _).
  - reflexivity.
  - intros c Hc. assert (c = 0 \/ c = 1) as [-> | ->] by (revert Hc; set_solver);
      eexists; repeat split.
  - exists set', m', q'. split; [exact E|]. destruct (Hctx 1) as (ctx & H1 & H2); [set_solver|].
    exists ctx. split; [exact H1|]. rewrite (H2 HCTX_TYPE_READ); [reflexivity|]. unfold HCTX_TYPE_READ, HCTX_MAX_TYPES. lia.
Defined.

(** The mapping allocates missing tags for the default type only.  A
    hardware queue of the type for latency-sensitive requests whose tags are
    missing, as after the number of hardware queues has grown, is mapped to its
    CPU and left without tags, although memory is available. *)
Theorem map_swqueue_untagged :
  exists set' m' q' h, @blk_mq_map_swqueue (ex_mem (fun _ => false)) ex_map_env ex_two [0; 1]
      (ex_layout [true; false; true; false]) ex_free ex_laid_queue = Some (set', m', q') /\
    (exists h1, aget (queue_hw_ctx q') 1 = Some h1 /\ tags h1 = Some 1) /\
    aget (queue_hw_ctx q') 3 = Some h /\ cpumask h = [1] /\ tags h = None.
Proof. do 4 eexists. split; [vm_compute; reflexivity|]. split; [by eexists|]. done. Qed.

(** A hardware queue whose second software queue holds two requests. *)
Definition ex_dead_queue : request_queue :=
  queue0 <| queue_ctx := [ctx0; ctx0 <| cpu := 1 |> <| index_hw := [1; 0; 0] |> <| rq_lists := [[7; 8]; []; []] |>] |>
         <| queue_hw_ctx := [hctx0 <| h_ctxs := [0; 1] |> <| ctx_map := [false; true] |> <| dispatch := [5] |>] |>.

Lemma dead_cpu_keeps_requests_witness : exists q' h',
  @blk_mq_hctx_notify_dead ex_sched ex_two 1 0 ex_dead_queue = Some q' /\
  aget (queue_hw_ctx q') 0 = Some h' /\ dispatch h' = [5; 7; 8].
Proof.
  destruct (@dead_cpu_keeps_requests ex_sched ex_two 0 ex_dead_queue
    (hctx0 <| h_ctxs := [0; 1] |> <| ctx_map := [false; true] |> <| dispatch := [5] |>) 1 1) as (q' & h' & l & A & B & C & D & _).
  - split; [reflexivity|reflexivity|apply (bool_decide_unpack _); reflexivity|].
    intros bit c Hb. pose proof (aget_Some _ _ _ Hb) as Hr. simpl in Hr.
    assert (bit = 0 \/ bit = 1) as [-> | ->] by lia; injection Hb as <-; do 2 eexists; (split; [reflexivity|]); split_and!; done.
  - reflexivity.
  - reflexivity.
  - exists q', h'. injection C as <-. split_and!; [exact A|exact B|exact D].
Defined.

Lemma tag_set_sharing_witness : exists s,
  rtc (@share_step ex_sched ex_two) (ex_layout [], []) s /\ length s.2 = 2%nat /\
  has_flag (set_flags s.1) BLK_MQ_F_TAG_SHARED = true.
Proof.
  destruct (@blk_mq_add_queue_tag_set ex_sched ex_two (ex_layout []) [] 1 ex_laid_queue) as [[s1 l1]|] eqn:E1;
    [|vm_compute in E1; discriminate].
  destruct (@blk_mq_add_queue_tag_set ex_sched ex_two s1 l1 2 ex_laid_queue) as [[s2 l2]|] eqn:E2;
    [|vm_compute in E1; injection E1 as <- <-; vm_compute in E2; discriminate].
  assert (Hfl : queue_shared false ex_laid_queue) by (repeat constructor).
  assert (Hl1 : l1.*1 = [1]) by (vm_compute in E1; injection E1 as <- <-; reflexivity).
  assert (Hr : rtc (@share_step ex_sched ex_two) (ex_layout [], []) (s2, l2)).
  { eapply rtc_l; [eapply share_add; [apply not_elem_of_nil|exact Hfl|exact E1]|].
    eapply rtc_l; [eapply share_add; [|exact Hfl|exact E2]|apply rtc_refl]. rewrite Hl1. set_solver. }
  assert (Hl2 : length l2 = 2%nat) by (vm_compute in E1; injection E1 as <- <-; vm_compute in E2; injection E2 as <- <-; reflexivity).
  exists (s2, l2). split; [exact Hr|]. split; [exact Hl2|].
  rewrite (proj1 (@tag_set_sharing ex_sched ex_sched_flags ex_two (ex_layout []) (s2, l2) eq_refl Hr)). simpl. rewrite Hl2. reflexivity.
Defined.
