(* ===== verification/BlkMqHctx.v ===== *)
(** * Hardware queues: allocation, exchange and release

    The part of block/blk-mq.c that creates the hardware queues of a request queue
    and replaces them when their number changes: [blk_mq_alloc_hctx],
    [blk_mq_init_hctx], [blk_mq_exit_hctx], [blk_mq_realloc_hw_ctxs], the set-up of
    a queue in [blk_mq_init_allocated_queue], its release, and
    [__blk_mq_update_nr_hw_queues] with its fallback.  Every allocation is an object
    that has to be in use when it is freed; [None] is undefined behaviour. *)
From S2P Require Import Prelude MqTypes BlkSwitch BlkMqAlloc BlkMqRun BlkMqTagSet BlkMqMap.

(** ** Objects *)

(** What a hardware queue consists of besides its fields: its structure, mask,
    array of software queues, bitmap and flush queue, and whether it is registered
    for CPU hotplug and with the driver and its flush request is initialised. *)
Record hctx_parts := mk_parts {
  hp_self : nat;
  hp_cpumask : nat;
  hp_ctxs : nat;
  hp_ctx_map : nat;
  hp_fq : nat;
  hp_cpuhp : bool;
  hp_driver : bool;
  hp_flush : bool;
}.
#[export] Instance hctx_parts_eta : Settable hctx_parts := {| eta_expand := fun r =>
  mk_parts (hp_self r) (hp_cpumask r) (hp_ctxs r) (hp_ctx_map r) (hp_fq r) (hp_cpuhp r) (hp_driver r) (hp_flush r) |}.

Abbreviation hctx_obj := (hctx_parts * blk_mq_hw_ctx)%type (only parsing).

(** The objects in use, the number of allocations so far, and the memory of tags
    and requests. *)
Record heap := mk_heap {
  hp_live : list nat;
  hp_next : nat;
  hp_mem : mem;
}.
#[export] Instance heap_eta : Settable heap := {| eta_expand := fun r =>
  mk_heap (hp_live r) (hp_next r) (hp_mem r) |}.

(** A request queue with the objects behind it.  The entries of [queue_hw_ctx] of
    [mq_rq] are the first [nr_hw_queues] hardware queues, [mq_parts] their objects;
    the other entries of the array are NULL. *)
Record mq_queue := mk_mqq {
  mq_rq : request_queue;
  mq_parts : list hctx_parts;
  mq_slots : Z;  (* nr_queues, the size of the array queue_hw_ctx *)
  mq_array : option nat;  (* the array *)
  mq_ctxs : option (nat * nat);  (* struct blk_mq_ctxs and its per-CPU memory *)
  mq_poll_cb : option nat;
  mq_unused : list hctx_obj;  (* unused_hctx_list *)
  mq_ops : bool;  (* mq_ops is set *)
  mq_rq_timeout : Z;
}.
#[export] Instance mq_queue_eta : Settable mq_queue := {| eta_expand := fun r =>
  mk_mqq (mq_rq r) (mq_parts r) (mq_slots r) (mq_array r) (mq_ctxs r) (mq_poll_cb r) (mq_unused r)
    (mq_ops r) (mq_rq_timeout r) |}.

(** Code outside the repository: the allocator, by the number of calls before; the
    methods of the driver; the address of the flush request of a flush queue; the
    node of a hardware queue (blk-mq-cpumap.c); [blk_mq_tag_idle] (blk-mq-tag.h), and
    whether it uses the tags; the release handlers of blk-mq-sysfs.c; the switch and
    the first choice of the scheduler (elevator.c); and the wait of a frozen queue. *)
Class HctxEnv := {
  hctx_alloc_ok : nat -> bool;
  drv_init_hctx : option (heap -> Z -> blk_mq_hw_ctx -> Z * blk_mq_hw_ctx);
  flush_rq : nat -> Z;
  hw_queue_to_node : list Z -> Z -> Z;
  tag_idle_hctx : blk_mq_hw_ctx -> blk_mq_hw_ctx;
  tag_idle_uses_tags : blk_mq_hw_ctx -> bool;
  hctx_release : hctx_parts -> heap -> option heap;
  mq_sysfs_deinit : nat * nat -> heap -> option heap;
  elevator_switch : option elv_ops -> request_queue -> request_queue;
  elevator_init_mq : request_queue -> request_queue;
  freeze_wait : request_queue -> request_queue;
  HZ : Z;
}.

Section hctx.
Context {mm : MqMem} {me : MapEnv} {sch : MqSched} {he : HctxEnv}.
Context (e : run_env) (possible : list Z).

Definition h_alloc (s : heap) : option nat * heap :=
  let n := hp_next s in
  if hctx_alloc_ok n then (Some n, s <| hp_live ::= cons n |> <| hp_next ::= S |>)
  else (None, s <| hp_next ::= S |>).

Definition h_free (n : nat) (s : heap) : option heap :=
  if bool_decide (n ∈ hp_live s) then Some (s <| hp_live ::= filter (fun m => m <> n) |>) else None.

(** ** One hardware queue *)

(** [node] is that of the set when none is asked for. *)
Definition new_hctx (set : blk_mq_tag_set) (node : Z) : blk_mq_hw_ctx :=
  hctx0 <| numa_node := if node =? NUMA_NO_NODE then set_numa_node set else node |>
    <| h_flags := Z.ldiff (set_flags set) BLK_MQ_F_TAG_SHARED |>
    <| ctx_map := replicate (Z.to_nat (nr_cpu_ids e)) false |>.

Definition blk_mq_alloc_hctx (set : blk_mq_tag_set) (node : Z) (s : heap) : option (option hctx_obj * heap) :=
  match h_alloc s with
  | (None, s) => Some (None, s)
  | (Some self, s) =>
    let free_hctx s := s ← h_free self s; Some (None, s) in
    match h_alloc s with
    | (None, s) => free_hctx s
    | (Some mask, s) =>
      let free_cpumask s := s ← h_free mask s; free_hctx s in
      match h_alloc s with
      | (None, s) => free_cpumask s
      | (Some cs, s) =>
        let free_ctxs s := s ← h_free cs s; free_cpumask s in
        match h_alloc s with
        | (None, s) => free_ctxs s
        | (Some bitmap, s) =>
          match h_alloc s with
          | (None, s) => s ← h_free bitmap s; free_ctxs s
          | (Some fq, s) => Some (Some (mk_parts self mask cs bitmap fq false false false, new_hctx set node), s)
          end
        end
      end
    end
  end.

(** [blk_mq_init_request] of the flush request. *)
Definition init_flush_rq (p : hctx_parts) (s : heap) : Z * heap :=
  match init_request with
  | Some f => (f (hp_mem s) (flush_rq (hp_fq p)), s <| hp_mem ::= fun m => m <| m_calls ::= S |> |>)
  | None => (0, s)
  end.

(** The result is 0 or -1. *)
Definition blk_mq_init_hctx (set : blk_mq_tag_set) (idx : Z) (ob : hctx_obj) (s : heap)
  : option (Z * hctx_obj * heap) :=
  let '(p, h) := ob in
  let p := p <| hp_cpuhp := true |> in
  o ← aget (ts_tags set) idx;
  let h := h <| queue_num := idx |> <| tags := (_ ← o; Some idx) |> <| blk_switch := false |> in
  let '(ret, h) := match drv_init_hctx with Some f => f s idx h | None => (0, h) end in
  if c_true ret then Some (-1, (p <| hp_cpuhp := false |>, h), s)
  else
    let p := p <| hp_driver := true |> in
    let '(ret, s) := init_flush_rq p s in
    if c_true ret then Some (-1, (p <| hp_driver := false |> <| hp_cpuhp := false |>, h), s)
    else Some (0, (p <| hp_flush := true |>, h), s).

(** The queue is left on the list of unused ones. *)
Definition blk_mq_exit_hctx (set : blk_mq_tag_set) (idx : Z) (ob : hctx_obj) (unused : list hctx_obj) (s : heap)
  : option (list hctx_obj * heap) :=
  let '(p, h) := ob in
  h ← (if blk_mq_hw_queue_mapped h then
         if tag_idle_uses_tags h
         then i ← tags h; o ← aget (ts_tags set) i; _ ← o; Some (tag_idle_hctx h)
         else Some (tag_idle_hctx h)
       else Some h);
  let p := if has_exit_request then p <| hp_flush := false |> else p in
  Some ((p <| hp_driver := false |> <| hp_cpuhp := false |>, h) :: unused, s).

(** The first unused queue of the node and the others. *)
Fixpoint take_unused (node : Z) (l : list hctx_obj) : option (hctx_obj * list hctx_obj) :=
  match l with
  | [] => None
  | ob :: l =>
    if numa_node ob.2 =? node then Some (ob, l)
    else '(x, l) ← take_unused node l; Some (x, ob :: l)
  end.

Definition blk_mq_alloc_and_init_hctx (set : blk_mq_tag_set) (idx node : Z) (unused : list hctx_obj) (s : heap)
  : option (option hctx_obj * list hctx_obj * heap) :=
  '(o, unused, s) ←
    match take_unused node unused with
    | Some (ob, unused) => Some (Some ob, unused, s)
    | None => '(o, s) ← blk_mq_alloc_hctx set node s; Some (o, unused, s)
    end;
  match o with
  | None => Some (None, unused, s)
  | Some ob =>
    '(ret, ob, s) ← blk_mq_init_hctx set idx ob s;
    if c_true ret then s ← hctx_release ob.1 s; Some (None, unused, s)
    else Some (Some ob, unused, s)
  end.

(** ** The hardware queues of a request queue *)

(** The array while it is changed, and the unused queues. *)
Abbreviation slots := (list (option hctx_obj)) (only parsing).

(** The first loop of [blk_mq_realloc_hw_ctxs] from [i] on, with [n] turns left: the
    index at which it stops. *)
Fixpoint realloc_loop (n : nat) (set : blk_mq_tag_set) (i : Z) (a : slots) (unused : list hctx_obj) (s : heap)
  : option (Z * slots * list hctx_obj * heap) :=
  match n with
  | O => Some (i, a, unused, s)
  | S n =>
    mp ← aget (set_map set) HCTX_TYPE_DEFAULT;
    let node := hw_queue_to_node (mq_map mp) i in
    old ← aget a i;
    if match old with Some ob => numa_node ob.2 =? node | None => false end
    then realloc_loop n set (i + 1) a unused s
    else
      '(o, unused, s) ← blk_mq_alloc_and_init_hctx set i node unused s;
      match o, old with
      | Some ob, Some old =>
        '(unused, s) ← blk_mq_exit_hctx set i old unused s;
        a ← aset a i (Some ob); realloc_loop n set (i + 1) a unused s
      | Some ob, None => a ← aset a i (Some ob); realloc_loop n set (i + 1) a unused s
      | None, Some _ => realloc_loop n set (i + 1) a unused s
      | None, None => Some (i, a, unused, s)
      end
  end.

(** The body of the last loop: queue [j] goes. *)
Definition drop_hctx '((set, a, unused, s) : blk_mq_tag_set * slots * list hctx_obj * heap) (j : Z)
  : option (blk_mq_tag_set * slots * list hctx_obj * heap) :=
  o ← aget a j;
  match o with
  | None => Some (set, a, unused, s)
  | Some ob =>
    '(set, s) ← (if bool_decide (is_Some (tags ob.2))
                 then '(set, m) ← blk_mq_free_map_and_requests set j (hp_mem s); Some (set, s <| hp_mem := m |>)
                 else Some (set, s));
    '(unused, s) ← blk_mq_exit_hctx set j ob unused s;
    a ← aset a j None; Some (set, a, unused, s)
  end.

Definition load_slots (q : mq_queue) : slots :=
  (Some <$> zip (mq_parts q) (queue_hw_ctx (mq_rq q)))
    ++ replicate (Z.to_nat (mq_slots q - Z.of_nat (length (mq_parts q)))) None.

(** The first [nr] entries have to be there. *)
Definition store_slots (nr : Z) (a : slots) (unused : list hctx_obj) (q : mq_queue) : option mq_queue :=
  l ← mapM id (take (Z.to_nat nr) a);
  Some (q <| mq_rq ::= fun r => r <| queue_hw_ctx := l.*2 |> |> <| mq_parts := l.*1 |> <| mq_unused := unused |>).

Definition blk_mq_realloc_hw_ctxs (set : blk_mq_tag_set) (q : mq_queue) (s : heap)
  : option (blk_mq_tag_set * mq_queue * heap) :=
  let nr := nr_hw_queues (mq_rq q) in
  '(i, a, unused, s) ← realloc_loop (Z.to_nat (set_nr_hw_queues set)) set 0 (load_slots q) (mq_unused q) s;
  let '(j, last, nr') := if i =? set_nr_hw_queues set then (i, nr, i) else (nr, i, nr) in
  '(set, a, unused, s) ← foldM drop_hctx (set, a, unused, s) (seqZ j (last - j));
  q ← store_slots nr' a unused q;
  Some (set, q, s).

(** ** Set-up and release of a queue *)

Definition blk_mq_alloc_ctxs (q : mq_queue) (s : heap) : option (Z * mq_queue * heap) :=
  match h_alloc s with
  | (None, s) => Some (- ENOMEM, q, s)
  | (Some cs, s) =>
    match h_alloc s with
    | (None, s) => s ← h_free cs s; Some (- ENOMEM, q, s)
    | (Some pc, s) =>
      Some (0, q <| mq_ctxs := Some (cs, pc) |>
                 <| mq_rq ::= fun r => r <| queue_ctx := replicate (Z.to_nat (nr_cpu_ids e)) ctx0 |> |>, s)
    end
  end.

(** The array, the hardware queues and what follows; [tag_list] are the queues that
    use the set, [n] is the identity of the new one. *)
Definition blk_mq_release_hctxs (l : list hctx_obj) (s : heap) : option heap :=
  foldM (fun s ob => hctx_release ob.1 s) s l.

Definition blk_mq_release (q : mq_queue) (s : heap) : option (mq_queue * heap) :=
  s ← blk_mq_release_hctxs (mq_unused q) s;
  s ← match mq_array q with Some a => h_free a s | None => Some s end;
  s ← match mq_ctxs q with Some c => mq_sysfs_deinit c s | None => Some s end;
  Some (q <| mq_unused := [] |> <| mq_array := None |> <| mq_ctxs := None |>, s).

Definition QUEUE_FLAG_MQ_DEFAULT : Z :=
  Z.lor (Z.shiftl 1 QUEUE_FLAG_IO_STAT) (Z.shiftl 1 QUEUE_FLAG_SAME_COMP).
Definition BLK_MQ_POLL_CLASSIC : Z := -1.

(** The labels of [blk_mq_init_allocated_queue], from the last one on. *)
Definition err_exit (q : mq_queue) (s : heap) : option (Z * mq_queue * heap) :=
  Some (- ENOMEM, q <| mq_ops := false |>, s).
Definition err_poll (q : mq_queue) (s : heap) : option (Z * mq_queue * heap) :=
  s ← match mq_poll_cb q with Some p => h_free p s | None => Some s end;
  err_exit (q <| mq_poll_cb := None |>) s.
Definition err_sys_init (q : mq_queue) (s : heap) : option (Z * mq_queue * heap) :=
  s ← match mq_ctxs q with Some c => mq_sysfs_deinit c s | None => Some s end; err_poll q s.
Definition err_hctxs (q : mq_queue) (s : heap) : option (Z * mq_queue * heap) :=
  s ← match mq_array q with Some a => h_free a s | None => Some s end; err_sys_init q s.

(** The fields of the queue once it has hardware queues. *)
Definition init_fields (timeout : Z) (set : blk_mq_tag_set) (q : mq_queue) : option mq_queue :=
  mp ← aget (set_map set) HCTX_TYPE_POLL;
  let poll := (HCTX_TYPE_POLL <? nr_maps set) && c_true (nr_queues mp) in
  Some (q <| mq_rq_timeout := if c_true timeout then timeout else u32 (30 * HZ) |>
          <| mq_rq ::= fun r => r <| queue_flags ::= fun f =>
               let f := Z.lor f QUEUE_FLAG_MQ_DEFAULT in if poll then Z.setbit f QUEUE_FLAG_POLL else f |>
               <| requeue_list := [] |> <| requeue_work := None |> <| nr_requests := queue_depth set |> |>).

(** The queues of a tag set, each with its identity. *)
Definition with_rqs (l : list (Z * mq_queue)) (rqs : list (Z * request_queue)) : list (Z * mq_queue) :=
  zip_with (fun x y => (x.1, x.2 <| mq_rq := y.2 |>)) l rqs.

Definition rqs_of (l : list (Z * mq_queue)) : list (Z * request_queue) :=
  (fun x => (x.1, mq_rq x.2)) <$> l.

(** [blk_mq_map_swqueue] of one queue. *)
Definition map_swqueue (set : blk_mq_tag_set) (q : mq_queue) (s : heap) : option (blk_mq_tag_set * mq_queue * heap) :=
  '(set, m, r) ← blk_mq_map_swqueue e possible set (hp_mem s) (mq_rq q);
  Some (set, q <| mq_rq := r |>, s <| hp_mem := m |>).

(** The new queue is the last one of the list of the set.  [timeout] is that of
    the set.  The result is 0 for the queue and an error number otherwise. *)
Definition blk_mq_init_allocated_queue (elevator_init : bool) (timeout n : Z) (set : blk_mq_tag_set) (l : list (Z * mq_queue)) (q : mq_queue)
    (s : heap) : option (Z * blk_mq_tag_set * list (Z * mq_queue) * mq_queue * heap) :=
  let fail set x := '(ret, q, s) ← (x : option (Z * mq_queue * heap)); Some (ret, set, l, q, s) in
  let q := q <| mq_ops := true |> in
  let '(cb, s) := h_alloc s in
  let q := q <| mq_poll_cb := cb |> in
  if bool_decide (cb = None) then fail set (err_exit q s)
  else
    '(ret, q, s) ← blk_mq_alloc_ctxs q s;
    if c_true ret then fail set (err_poll q s)
    else
      let q := q <| mq_slots := nr_hw_queues_of (nr_cpu_ids e) set |> in
      let '(arr, s) := h_alloc s in
      let q := q <| mq_array := arr |> <| mq_unused := [] |> in
      if bool_decide (arr = None) then fail set (err_sys_init q s)
      else
        '(set, q, s) ← blk_mq_realloc_hw_ctxs set q s;
        if nr_hw_queues (mq_rq q) =? 0 then fail set (err_hctxs q s)
        else
          q ← init_fields timeout set q;
          r ← blk_mq_init_cpu_queues possible set (set_nr_hw_queues set) (mq_rq q);
          '(set, rqs) ← blk_mq_add_queue_tag_set e set (rqs_of l) n r;
          x ← last rqs;
          let l := with_rqs l rqs in
          '(set, q, s) ← map_swqueue set (q <| mq_rq := x.2 |>) s;
          let q := if elevator_init then q <| mq_rq ::= elevator_init_mq |> else q in
          Some (0, set, l ++ [(n, q)], q, s).
End hctx.
