(* ===== verification/BlkMqHctxSpec.v ===== *)
(** * Hardware queues: no leak, no double release

    [blk_mq_realloc_hw_ctxs] always returns: it changes the number of hardware
    queues as asked, or keeps the previous number when it cannot grow; every entry
    of the array is an initialised queue, and the memory in use is exactly that of
    the queues in the array and on the list of unused ones. *)
From S2P Require Import Prelude MqTypes BlkSwitch BlkMqAlloc BlkMqRun BlkMqTagSet BlkMqMap BlkMqHctx.

(** ** The heap *)

(** The objects in use are [L]. *)
Record heap_wf (L : list nat) (s : heap) : Prop := {
  hw_live : hp_live s ≡ₚ L;
  hw_nodup : NoDup L;
  hw_below : forall n, n ∈ L -> (n < hp_next s)%nat;
}.

#[export] Instance heap_wf_perm : Proper ((≡ₚ) ==> eq ==> iff) heap_wf.
Proof.
  intros L L' HL s _ <-. split; intros [H1 H2 H3]; split.
  - by rewrite H1.
  - by rewrite <- HL.
  - intros n Hn. apply H3. by rewrite HL.
  - by rewrite H1.
  - by rewrite HL.
  - intros n Hn. apply H3. by rewrite <- HL.
Qed.

(** Equality of lists up to order, by counting. *)
Ltac perm :=
  apply (Permutation_count_occ Nat.eq_dec); let x := fresh "x" in intros x;
  repeat match goal with
  | H : @Permutation nat _ _ |- _ =>
    pose proof (proj1 (Permutation_count_occ Nat.eq_dec _ _) H x); clear H
  end;
  rewrite ?count_occ_app, ?count_occ_nil in *; lia.

Section heap.
Context {he : HctxEnv}.

Lemma h_alloc_wf L s :
  heap_wf L s ->
  match h_alloc s with
  | (Some n, s') => heap_wf ([n] ++ L) s' /\ hp_mem s' = hp_mem s
  | (None, s') => heap_wf L s' /\ hp_mem s' = hp_mem s /\ hctx_alloc_ok (hp_next s) = false
  end.
Proof.
  intros [H1 H2 H3]. unfold h_alloc. destruct (hctx_alloc_ok (hp_next s)) eqn:E; (split; [|done]); split; simpl.
  - by rewrite H1.
  - apply NoDup_cons. split; [|done]. intros Hn%H3. lia.
  - intros n [->|Hn]%elem_of_cons; [lia|]. apply H3 in Hn. lia.
  - done.
  - done.
  - intros n Hn%H3. lia.
Qed.

Lemma h_free_wf n L s : heap_wf ([n] ++ L) s -> exists s', h_free n s = Some s' /\ heap_wf L s' /\ hp_mem s' = hp_mem s.
Proof.
  intros [H1 H2 H3]. unfold h_free. rewrite bool_decide_true by (rewrite H1; set_solver).
  eexists. split; [done|]. split; [|done]. split; simpl.
  - rewrite H1. simpl. rewrite filter_cons_False by naive_solver. rewrite list_filter_all; [done|].
    intros m Hm ->. apply NoDup_cons in H2 as [H2 _]. done.
  - by apply NoDup_cons in H2 as [_ ?].
  - intros m Hm. apply H3. set_solver.
Qed.

Lemma heap_wf_mem L s m : heap_wf L s -> heap_wf L (s <| hp_mem := m |>).
Proof. intros []. by split. Qed.
Lemma heap_wf_mod L s (f : mem -> mem) : heap_wf L s -> heap_wf L (s <| hp_mem ::= f |>).
Proof. intros []. by split. Qed.
End heap.

(** ** The objects of queues *)

Definition parts_objs (p : hctx_parts) : list nat :=
  [hp_self p; hp_cpumask p; hp_ctxs p; hp_ctx_map p; hp_fq p].
Definition objs (l : list hctx_obj) : list nat := concat ((fun ob => parts_objs ob.1) <$> l).
Definition slot_objs (a : list (option hctx_obj)) : list nat := objs (omap id a).

Definition active (p : hctx_parts) : Prop := hp_cpuhp p = true /\ hp_driver p = true /\ hp_flush p = true.
Definition idle (p : hctx_parts) : Prop := hp_cpuhp p = false /\ hp_driver p = false.

(** Laws of the code outside: [blk_mq_tag_idle] uses the tags only of a queue that
    shares them and is active, and leaves it inactive; the driver changes neither
    flags nor state; the release handler frees the objects of a queue. *)
Class HctxLaws (he : HctxEnv) : Prop := {
  idle_uses h : tag_idle_uses_tags h = true ->
    has_flag (h_flags h) BLK_MQ_F_TAG_SHARED = true /\ test_bit BLK_MQ_S_TAG_ACTIVE (h_state h) = true;
  idle_quiet h : test_bit BLK_MQ_S_TAG_ACTIVE (h_state (tag_idle_hctx h)) = false;
  idle_node h : numa_node (tag_idle_hctx h) = numa_node h;
  init_keeps f s i h : drv_init_hctx = Some f -> let h' := (f s i h).2 in
    h_flags h' = h_flags h /\ h_state h' = h_state h /\ numa_node h' = numa_node h;
  release_spec p L s : heap_wf (parts_objs p ++ L) s ->
    exists s', hctx_release p s = Some s' /\ heap_wf L s' /\ hp_mem s' = hp_mem s;
}.

Lemma objs_cons ob l : objs (ob :: l) = parts_objs ob.1 ++ objs l.
Proof. done. Qed.
Lemma objs_app l1 l2 : objs (l1 ++ l2) = objs l1 ++ objs l2.
Proof. unfold objs. by rewrite fmap_app, concat_app. Qed.

Lemma objs_same (l : list hctx_obj) p h h' (q : hctx_parts) :
  parts_objs p = parts_objs q -> objs ((p, h) :: l) = objs ((q, h') :: l).
Proof. intros E. rewrite !objs_cons. cbn [fst]. by rewrite E. Qed.

Lemma omap_id_app {A} (l1 l2 : list (option A)) : omap id (l1 ++ l2) = omap id l1 ++ omap id l2.
Proof. apply omap_app. Qed.

Lemma slot_put (a : list (option hctx_obj)) i old ob :
  a !! i = Some old ->
  slot_objs (<[i := Some ob]> a) ++ slot_objs [old] ≡ₚ parts_objs ob.1 ++ slot_objs a.
Proof.
  intros Hi. rewrite insert_take_drop by (by eapply lookup_lt_Some).
  assert (slot_objs a = slot_objs (take i a ++ old :: drop (S i) a)) as -> by (by rewrite take_drop_middle).
  unfold slot_objs. rewrite !omap_id_app, !objs_app.
  change (Some ob :: drop (S i) a) with ([Some ob] ++ drop (S i) a).
  change (old :: drop (S i) a) with ([old] ++ drop (S i) a). rewrite !omap_id_app, !objs_app.
  change (omap id [Some ob]) with [ob]. rewrite objs_cons. change (objs []) with (@nil nat). rewrite app_nil_r. perm.
Qed.

Lemma slot_drop (a : list (option hctx_obj)) i old :
  a !! i = Some old -> slot_objs (<[i := None]> a) ++ slot_objs [old] ≡ₚ slot_objs a.
Proof.
  intros Hi. rewrite insert_take_drop by (by eapply lookup_lt_Some).
  assert (slot_objs a = slot_objs (take i a ++ old :: drop (S i) a)) as -> by (by rewrite take_drop_middle).
  unfold slot_objs. rewrite !omap_id_app, !objs_app.
  change (None :: drop (S i) a) with ([None] ++ drop (S i) a).
  change (old :: drop (S i) a) with ([old] ++ drop (S i) a). rewrite !omap_id_app, !objs_app.
  change (objs (omap id [None])) with (@nil nat). perm.
Qed.

Section hctx.
Context {mm : MqMem} {he : HctxEnv} {laws : HctxLaws he} (e : run_env).
Implicit Types (L : list nat) (s : heap) (p : hctx_parts) (h : blk_mq_hw_ctx) (ob : hctx_obj).

(** ** One queue *)

(** An allocation failed. *)
Definition out_of_memory : Prop := exists n, hctx_alloc_ok n = false.

Ltac free_all :=
  repeat match goal with
  | H : heap_wf ([?n] ++ ?L) ?s |- context [h_free ?n ?s] =>
    let s' := fresh "s" in let E := fresh "E" in
    destruct (h_free_wf n L s H) as (s' & E & ? & ?); rewrite E; cbn [mbind option_bind]; clear H
  end.
Ltac alloc_step :=
  match goal with
  | H : heap_wf ?L ?s |- context [h_alloc ?s] =>
    let Ha := fresh "Ha" in
    pose proof (h_alloc_wf L s H) as Ha; destruct (h_alloc s) as [[?|] ?]; [destruct Ha as [? ?]|destruct Ha as (? & ? & ?)]
  end.

Lemma alloc_hctx_wf set node L s :
  heap_wf L s ->
  exists o s', blk_mq_alloc_hctx e set node s = Some (o, s') /\ hp_mem s' = hp_mem s /\
    match o with
    | Some (p, h) => heap_wf (parts_objs p ++ L) s' /\ idle p /\ h = new_hctx e set node
    | None => heap_wf L s' /\ out_of_memory
    end.
Proof.
  intros H. unfold blk_mq_alloc_hctx, out_of_memory.
  alloc_step. 2: { do 2 eexists. split; [done|]. split; [congruence|]. by eauto. }
  alloc_step. 2: { free_all. do 2 eexists. split; [done|]. split; [congruence|]. by eauto. }
  alloc_step. 2: { free_all. do 2 eexists. split; [done|]. split; [congruence|]. by eauto. }
  alloc_step. 2: { free_all. do 2 eexists. split; [done|]. split; [congruence|]. by eauto. }
  alloc_step. 2: { free_all. do 2 eexists. split; [done|]. split; [congruence|]. by eauto. }
  do 2 eexists. split; [done|]. split; [congruence|]. split; [|done].
  match goal with Hw : heap_wf _ ?s |- heap_wf _ ?s => eapply heap_wf_perm; [|reflexivity|exact Hw] end.
  match goal with |- _ ≡ₚ [?x] ++ [?y] ++ [?z] ++ [?u] ++ [?v] ++ L =>
    change (([v] ++ [u] ++ [z] ++ [y] ++ [x]) ++ L ≡ₚ [x] ++ [y] ++ [z] ++ [u] ++ [v] ++ L) end.
  clear. perm.
Qed.
(** A queue that does not share its tags or is not active: [blk_mq_tag_idle] does
    not use them. *)
Definition quiet h : Prop :=
  has_flag (h_flags h) BLK_MQ_F_TAG_SHARED && test_bit BLK_MQ_S_TAG_ACTIVE (h_state h) = false.

Lemma quiet_unused h : quiet h -> tag_idle_uses_tags h = false.
Proof.
  unfold quiet. intros H. destruct (tag_idle_uses_tags h) eqn:E; [|done].
  apply idle_uses in E as [E1 E2]. by rewrite E1, E2 in H.
Qed.

Lemma quiet_idle h : quiet (tag_idle_hctx h).
Proof. unfold quiet. by rewrite idle_quiet, andb_false_r. Qed.

Lemma quiet_same h h' : h_flags h' = h_flags h -> h_state h' = h_state h -> quiet h -> quiet h'.
Proof. unfold quiet. by intros -> ->. Qed.

(** The tags of queue [k] are there whenever [blk_mq_exit_hctx] uses them; only
    queues of [was] may use them. *)
Variable was : nat -> blk_mq_hw_ctx -> Prop.

Definition entry_ok (set : blk_mq_tag_set) (k : nat) h : Prop :=
  quiet h \/ was k h /\ blk_mq_hw_queue_mapped h = true /\ tags h = Some (Z.of_nat k)
              /\ exists t, ts_tags set !! k = Some (Some t).

Definition unused_ok ob : Prop := idle ob.1 /\ quiet ob.2.

Lemma exit_hctx_wf set k p h unused s :
  entry_ok set k h ->
  exists p' h' s', blk_mq_exit_hctx set (Z.of_nat k) (p, h) unused s = Some ((p', h') :: unused, s')
    /\ unused_ok (p', h') /\ parts_objs p' = parts_objs p /\ numa_node h' = numa_node h
    /\ forall L, heap_wf L s -> heap_wf L s'.
Proof.
  intros Hok. unfold blk_mq_exit_hctx.
  assert (exists h', (if blk_mq_hw_queue_mapped h then
         if tag_idle_uses_tags h
         then i ← tags h; o ← aget (ts_tags set) i; _ ← o; Some (tag_idle_hctx h)
         else Some (tag_idle_hctx h) else Some h) = Some h' /\ quiet h' /\ numa_node h' = numa_node h) as (h' & -> & Hq & Hn).
  { destruct Hok as [Hq|(_ & Hm & Ht & t & Hs)].
    - rewrite (quiet_unused h Hq). destruct (blk_mq_hw_queue_mapped h); eexists; (split; [done|]); [|done].
      split; [apply quiet_idle|apply idle_node].
    - rewrite Hm, Ht. cbn [mbind option_bind]. rewrite aget_of_nat, Hs. cbn [mbind option_bind].
      exists (tag_idle_hctx h). split; [by destruct (tag_idle_uses_tags h)|]. split; [apply quiet_idle|apply idle_node]. }
  cbn [mbind option_bind]. destruct has_exit_request; do 3 eexists; (split; [done|]); done.
Qed.

(** Neither the allocator nor the driver fails. *)
Definition env_ok : Prop :=
  (forall n, hctx_alloc_ok n = true) /\ (forall f s i h, drv_init_hctx = Some f -> (f s i h).1 = 0)
  /\ forall f m a, init_request = Some f -> f m a = 0.

Lemma oom_not_ok : out_of_memory -> ~ env_ok.
Proof. intros [n Hn] [H _]. by rewrite H in Hn. Qed.

Lemma init_hctx_wf set k p h s :
  (k < length (ts_tags set))%nat ->
  exists ret p' h' s', blk_mq_init_hctx set (Z.of_nat k) (p, h) s = Some (ret, (p', h'), s')
    /\ parts_objs p' = parts_objs p /\ (quiet h -> quiet h') /\ numa_node h' = numa_node h
    /\ (forall L, heap_wf L s -> heap_wf L s') /\ (if c_true ret then ~ env_ok else active p').
Proof.
  intros Hk. unfold blk_mq_init_hctx. destruct (lookup_lt_is_Some_2 _ _ Hk) as [o Ho].
  rewrite aget_of_nat, Ho. cbn [mbind option_bind].
  set (h1 := h <| queue_num := _ |> <| tags := _ |> <| blk_switch := false |>).
  assert (exists ret h', (match drv_init_hctx with Some f => f s (Z.of_nat k) h1 | None => (0, h1) end) = (ret, h')
    /\ h_flags h' = h_flags h /\ h_state h' = h_state h /\ numa_node h' = numa_node h
    /\ (c_true ret = true -> ~ env_ok)) as (ret & h' & -> & F1 & F2 & F3 & F4).
  { destruct drv_init_hctx as [f|] eqn:Ef; [|by exists 0, h1].
    pose proof (init_keeps f s (Z.of_nat k) h1 Ef) as Hk'. cbv zeta in Hk'.
    destruct (f s (Z.of_nat k) h1) as [ret h'] eqn:Er. exists ret, h'. destruct Hk' as (K1 & K2 & K3).
    split; [done|]. split; [done|]. split; [done|]. split; [done|]. intros Hc [_ [Hf _]].
    specialize (Hf f s (Z.of_nat k) h1 Ef). rewrite Er in Hf. simpl in Hf. subst. done. }
  destruct (c_true ret) eqn:Ec.
  { do 4 eexists. split; [done|]. split; [done|]. split; [intros; by apply (quiet_same h)|]. split; [done|]. split; [done|]. by apply F4. }
  unfold init_flush_rq. change (hp_fq (p <| hp_cpuhp := true |> <| hp_driver := true |>)) with (hp_fq p).
  destruct init_request as [f|] eqn:Ei; cbv beta iota.
  - destruct (c_true (f (hp_mem s) (flush_rq (hp_fq p)))) eqn:Ec2; do 4 eexists; (split; [done|]); (split; [done|]);
      (split; [intros; by apply (quiet_same h)|]); (split; [done|]); (split; [intros; by apply heap_wf_mod|]); [|done].
    intros [_ [_ H]]. by rewrite (H f _ _ Ei) in Ec2.
  - do 4 eexists. split; [done|]. split; [done|]. split; [intros; by apply (quiet_same h)|]. done.
Qed.

Lemma take_unused_perm node l ob l' : take_unused node l = Some (ob, l') -> l ≡ₚ ob :: l' /\ numa_node ob.2 = node.
Proof.
  revert l'. induction l as [|x l IH]; intros l'; simpl; [done|]. case_bool.
  - intros [= -> ->]. split; [done|]. by apply Z.eqb_eq.
  - destruct (take_unused node l) as [[y l1]|]; [|done]. simpl. intros [= -> <-].
    destruct (IH l1 eq_refl) as [-> ?]. split; [|done]. apply Permutation_swap.
Qed.

#[export] Instance objs_perm : Proper ((≡ₚ) ==> (≡ₚ)) objs.
Proof.
  intros l l' H. induction H; rewrite ?objs_cons; [done|by apply Permutation_app_head| |by etrans].
  clear. perm.
Qed.

Lemma alloc_and_init_wf set k node unused L s :
  (k < length (ts_tags set))%nat -> Forall unused_ok unused -> heap_wf (objs unused ++ L) s ->
  exists o unused' s', blk_mq_alloc_and_init_hctx e set (Z.of_nat k) node unused s = Some (o, unused', s')
    /\ Forall unused_ok unused' /\
    match o with
    | Some (p, h) => heap_wf (parts_objs p ++ objs unused' ++ L) s' /\ active p /\ quiet h
    | None => heap_wf (objs unused' ++ L) s' /\ ~ env_ok
    end.
Proof.
  intros Hk Hu Hw. unfold blk_mq_alloc_and_init_hctx.
  assert (exists o unused' s', match take_unused node unused with
      | Some (ob, unused) => Some (Some ob, unused, s)
      | None => '(o, s) ← blk_mq_alloc_hctx e set node s; Some (o, unused, s) end = Some (o, unused', s')
    /\ Forall unused_ok unused' /\ match o with
       | Some (p, h) => heap_wf (parts_objs p ++ objs unused' ++ L) s' /\ quiet h
       | None => heap_wf (objs unused' ++ L) s' /\ ~ env_ok end) as (o & unused' & s' & -> & Hu' & Ho).
  { destruct (take_unused node unused) as [[[p h] l]|] eqn:Et.
    - apply take_unused_perm in Et as [Ep _]. do 3 eexists. split; [done|]. rewrite Ep in Hu.
      apply Forall_cons in Hu as [[_ Hq] Hu]. split; [done|]. split; [|done].
      rewrite Ep, objs_cons, <- app_assoc in Hw. exact Hw.
    - destruct (alloc_hctx_wf set node _ s Hw) as ([[p h]|] & s' & -> & _ & Ho); cbn [mbind option_bind]; do 3 eexists;
        (split; [done|]); (split; [done|]).
      + destruct Ho as (Ho & _ & ->). split; [done|]. unfold quiet, new_hctx. simpl. by rewrite andb_false_r.
      + destruct Ho as [Ho ?]. split; [done|]. by apply oom_not_ok. }
  cbn [mbind option_bind]. destruct o as [[p h]|]; [|by exists None, unused', s'].
  destruct Ho as [Ho Hq]. destruct (init_hctx_wf set k p h s' Hk) as (ret & p' & h' & s2 & -> & P1 & P2 & _ & P3 & P4).
  cbn [mbind option_bind]. destruct (c_true ret) eqn:Ec.
  - cbn [fst]. destruct (release_spec p' (objs unused' ++ L) s2) as (s3 & -> & Hw3 & _).
    { rewrite P1. by apply P3. }
    cbn [mbind option_bind]. by exists None, unused', s3.
  - exists (Some (p', h')), unused', s2. split; [done|]. split; [done|]. split; [rewrite P1; by apply P3|]. split; [done|by apply P2].
Qed.

(** ** The loops *)

(** The array [a] in the first loop: the entries below [m] are there. *)
Record slots_inv (set : blk_mq_tag_set) (slots nr m : nat) L (a : list (option hctx_obj)) (unused : list hctx_obj) s
  : Prop := {
  si_len : length a = slots;
  si_some : forall k, (k < m)%nat -> exists p h, a !! k = Some (Some (p, h)) /\ active p /\ entry_ok set k h
    /\ ((nr <= k)%nat -> quiet h);
  si_none : forall k, (m <= k < slots)%nat -> a !! k = Some None;
  si_unused : Forall unused_ok unused;
  si_heap : heap_wf (slot_objs a ++ objs unused ++ L) s;
}.

(** The node of queue [k]. *)
Definition node_of (set : blk_mq_tag_set) (k : nat) : option Z :=
  mp ← aget (set_map set) HCTX_TYPE_DEFAULT; Some (hw_queue_to_node (mq_map mp) (Z.of_nat k)).

(** Queues on the node they belong to are kept. *)
Definition kept (set : blk_mq_tag_set) (a a' : list (option hctx_obj)) : Prop :=
  forall k ob, a !! k = Some (Some ob) -> node_of set k = Some (numa_node ob.2) -> a' !! k = Some (Some ob).

Lemma slots_put set slots nr m i L a unused unused' s s' p h :
  slots_inv set slots nr m L a unused s -> (i <= m)%nat -> (i < slots)%nat -> active p -> quiet h ->
  Forall unused_ok unused' -> heap_wf (slot_objs (<[i := Some (p, h)]> a) ++ objs unused' ++ L) s' ->
  slots_inv set slots nr (Nat.max m (S i)) L (<[i := Some (p, h)]> a) unused' s'.
Proof.
  intros [S1 S2 S3 S4 S5] Him His Hp Hq Hu Hw. split; try done.
  - by rewrite length_insert.
  - intros k Hk. destruct (decide (k = i)) as [->|Hne].
    + exists p, h. rewrite list_lookup_insert_eq by lia. split; [done|]. split; [done|]. split; [by left|done].
    + rewrite list_lookup_insert_ne by done. apply S2. lia.
  - intros k Hk. rewrite list_lookup_insert_ne by lia. apply S3. lia.
Qed.

Lemma kept_put set a i old (x : option hctx_obj) :
  a !! i = Some old -> (forall ob, old = Some ob -> node_of set i <> Some (numa_node ob.2)) -> kept set a (<[i := x]> a).
Proof.
  intros Hi Hn k ob Hk Ho. destruct (decide (k = i)) as [->|Hne]; [|by rewrite list_lookup_insert_ne].
  rewrite Hi in Hk. injection Hk as ->. by destruct (Hn ob eq_refl).
Qed.

Lemma kept_trans set a b c : kept set a b -> kept set b c -> kept set a c.
Proof. intros H1 H2 k ob Hk Hn. apply H2; [|done]. by apply H1. Qed.

Lemma realloc_loop_wf set slots nr L n i a unused s :
  is_Some (aget (set_map set) HCTX_TYPE_DEFAULT) ->
  slots_inv set slots nr (Nat.max nr i) L a unused s -> (i + n <= slots)%nat -> (i + n <= length (ts_tags set))%nat ->
  exists i' a' unused' s', realloc_loop e n set (Z.of_nat i) a unused s = Some (Z.of_nat i', a', unused', s')
    /\ slots_inv set slots nr (Nat.max nr i') L a' unused' s' /\ kept set a a'
    /\ (forall k, (i + n <= k)%nat -> a' !! k = a !! k)
    /\ (i' = (i + n)%nat \/ (nr <= i' < i + n)%nat /\ ~ env_ok).
Proof.
  intros [mp Hmp]. revert i a unused s. induction n as [|n IH]; intros i a unused s Hinv Hsl Hts.
  { exists i, a, unused, s. split; [done|]. split; [done|]. split; [by intros k ob|]. split; [done|]. left. lia. }
  replace (i + S n)%nat with (S i + n)%nat in * by lia. cbn [realloc_loop]. rewrite Hmp. cbn [mbind option_bind]. set (node := hw_queue_to_node (mq_map mp) (Z.of_nat i)).
  destruct (lookup_lt_is_Some_2 a i) as [old Hold]; [rewrite (si_len _ _ _ _ _ _ _ _ Hinv); lia|].
  rewrite aget_of_nat, Hold. cbn [mbind option_bind]. replace (Z.of_nat i + 1) with (Z.of_nat (S i)) by lia.
  destruct (match old with Some ob => numa_node ob.2 =? node | None => false end) eqn:Esame.
  { destruct old as [ob|]; [|done]. apply IH; [|lia|lia]. destruct (decide (i < nr)%nat).
    - by replace (Nat.max nr (S i)) with (Nat.max nr i) by lia.
    - exfalso. rewrite (si_none _ _ _ _ _ _ _ _ Hinv i) in Hold by lia. done. }
  assert (forall ob, old = Some ob -> node_of set i <> Some (numa_node ob.2)) as Hnode.
  { intros ob ->. apply Z.eqb_neq in Esame. unfold node_of. rewrite Hmp. simpl. fold node. congruence. }
  pose proof (si_heap _ _ _ _ _ _ _ _ Hinv) as Hw.
  destruct (alloc_and_init_wf set i node unused (slot_objs a ++ L) s) as (o & unused1 & s1 & -> & Hu1 & Ho);
    [lia|apply (si_unused _ _ _ _ _ _ _ _ Hinv)|by rewrite Permutation_app_swap_app in Hw|]. cbn [mbind option_bind].
  assert (forall x, aset a (Z.of_nat i) x = Some (<[i := x]> a)) as Haset.
  { intros x. rewrite aset_lt by (rewrite (si_len _ _ _ _ _ _ _ _ Hinv); lia). by rewrite Nat2Z.id. }
  destruct o as [[p h]|]; [|destruct Ho as [Ho Hno]].
  - destruct Ho as (Ho & Hp & Hq). pose proof (slot_put a i old (p, h) Hold) as Hput. cbn [fst] in Hput.
    assert (exists unused2 s2, (match old with
        | Some old0 => '(unused, s) ← blk_mq_exit_hctx set (Z.of_nat i) old0 unused1 s1; Some (unused, s)
        | None => Some (unused1, s1) end) = Some (unused2, s2) /\ Forall unused_ok unused2
        /\ heap_wf (slot_objs (<[i := Some (p, h)]> a) ++ objs unused2 ++ L) s2) as (unused2 & s2 & E2 & Hu2 & Hw2).
    { destruct old as [[p0 h0]|].
      - destruct (si_some _ _ _ _ _ _ _ _ Hinv i) as (p0' & h0' & Hi & _ & Hok & _).
        { destruct (decide (i < nr)%nat); [lia|]. rewrite (si_none _ _ _ _ _ _ _ _ Hinv i) in Hold by lia. done. }
        rewrite Hold in Hi. injection Hi as <- <-.
        destruct (exit_hctx_wf set i p0 h0 unused1 s1 Hok) as (p' & h' & s' & -> & Hun & Hpo & _ & Hwf).
        cbn [mbind option_bind]. do 2 eexists. split; [done|]. split; [by constructor|].
        apply Hwf in Ho. eapply heap_wf_perm; [|reflexivity|exact Ho]. rewrite objs_cons. cbn [fst]. rewrite Hpo.
        change (slot_objs [Some (p0, h0)]) with (parts_objs p0 ++ []) in Hput. clear -Hput. perm.
      - do 2 eexists. split; [done|]. split; [done|]. eapply heap_wf_perm; [|reflexivity|exact Ho].
        change (slot_objs [None]) with (@nil nat) in Hput. clear -Hput. perm. }
    destruct (IH (S i) (<[i := Some (p, h)]> a) unused2 s2) as (i' & a' & unused' & s' & E & Hi' & Hk & Hun & Hr); [|lia|lia|].
    { replace (Nat.max nr (S i)) with (Nat.max (Nat.max nr i) (S i)) by lia. eapply slots_put; eauto; lia. }
    exists i', a', unused', s'. split; [|split; [done|]; split; [by eapply kept_trans, Hk; eapply kept_put|split]].
    + destruct old as [ob|]; [|injection E2 as -> ->; rewrite Haset; cbn [mbind option_bind]; exact E].
      destruct (blk_mq_exit_hctx set (Z.of_nat i) ob unused1 s1) as [[u2 t2]|]; [|done]. injection E2 as -> ->.
      cbn [mbind option_bind]. rewrite Haset. cbn [mbind option_bind]. exact E.
    + intros k Hik. rewrite Hun by lia. apply list_lookup_insert_ne. lia.
    + destruct Hr as [->|[? ?]]; [left; lia|right; split; [lia|done]].
  - assert (slots_inv set slots nr (Nat.max nr i) L a unused1 s1) as Hinv1.
    { destruct Hinv. split; try done. by rewrite Permutation_app_swap_app. }
    destruct old as [ob|].
    + apply IH; [|lia|lia]. destruct (decide (i < nr)%nat).
      * by replace (Nat.max nr (S i)) with (Nat.max nr i) by lia.
      * exfalso. rewrite (si_none _ _ _ _ _ _ _ _ Hinv i) in Hold by lia. done.
    + exists i, a, unused1, s1. split; [done|]. split; [done|]. split; [by intros k ob|]. split; [done|]. right. split; [|done].
      split; [|lia]. destruct (decide (nr <= i)%nat); [done|].
      destruct (si_some _ _ _ _ _ _ _ _ Hinv i) as (p & h & Hi & _); [lia|]. congruence.
Qed.

(** The array in the last loop: the entries from [lo] to [x] are gone. *)
Record drop_inv (set : blk_mq_tag_set) (slots lo x m : nat) L (a : list (option hctx_obj)) (unused : list hctx_obj) s
  : Prop := {
  di_len : length a = slots;
  di_low : forall k, (k < lo)%nat -> exists p h, a !! k = Some (Some (p, h)) /\ active p /\ entry_ok set k h;
  di_some : forall k, (x <= k < m)%nat -> exists p h, a !! k = Some (Some (p, h)) /\ active p /\ quiet h;
  di_none : forall k, (lo <= k < x)%nat \/ (m <= k)%nat -> (k < slots)%nat -> a !! k = Some None;
  di_unused : Forall unused_ok unused;
  di_heap : heap_wf (slot_objs a ++ objs unused ++ L) s;
}.

(** Only the tags of the set change, and only those of queue [k]. *)
Definition tags_changed (P : nat -> Prop) (set set' : blk_mq_tag_set) : Prop :=
  set' = set <| ts_tags := ts_tags set' |> /\ length (ts_tags set') = length (ts_tags set)
  /\ forall k, ~ P k -> ts_tags set' !! k = ts_tags set !! k.

Lemma tags_changed_refl P set : tags_changed P set set.
Proof. split; [by destruct set|done]. Qed.

Lemma tags_changed_trans P set1 set2 set3 : tags_changed P set1 set2 -> tags_changed P set2 set3 -> tags_changed P set1 set3.
Proof.
  intros (A1 & A2 & A3) (B1 & B2 & B3). split; [|split; [congruence|]].
  - rewrite B1, A1. by destruct set1.
  - intros k Hk. by rewrite B3, A3.
Qed.

Lemma free_map_tags (set : blk_mq_tag_set) (k : nat) m :
  (k < length (ts_tags set))%nat ->
  exists set' m', blk_mq_free_map_and_requests set (Z.of_nat k) m = Some (set', m') /\ tags_changed (eq k) set set'.
Proof.
  intros Hk. unfold blk_mq_free_map_and_requests. case_bool_decide as E; [rewrite E in Hk; simpl in Hk; lia|].
  destruct (lookup_lt_is_Some_2 _ _ Hk) as [[t|] Ht]; rewrite aget_of_nat, Ht; cbn [mbind option_bind].
  2: { do 2 eexists. split; [done|]. apply tags_changed_refl. }
  destruct (blk_mq_free_rqs t m) as [t' m']. rewrite aset_lt by lia. cbn [mbind option_bind]. rewrite Nat2Z.id.
  do 2 eexists. split; [done|]. split; [done|]. split; [apply length_insert|]. intros j Hj. simpl. by apply list_lookup_insert_ne.
Qed.

Lemma drop_hctx_wf set slots lo x m L a unused s :
  drop_inv set slots lo x m L a unused s -> (lo <= x < m)%nat -> (m <= slots)%nat -> (m <= length (ts_tags set))%nat ->
  exists set' a' unused' s', drop_hctx (set, a, unused, s) (Z.of_nat x) = Some (set', a', unused', s')
    /\ drop_inv set' slots lo (S x) m L a' unused' s' /\ tags_changed (eq x) set set' /\ take lo a' = take lo a.
Proof.
  intros [D1 D2 D3 D4 D5 D6] Hx Hm Hts. unfold drop_hctx.
  destruct (D3 x) as (p & h & Hax & Hp & Hq); [lia|]. rewrite aget_of_nat, Hax. cbn [mbind option_bind snd].
  assert (exists set' s1, (if bool_decide (is_Some (tags h)) then
      '(set, m) ← blk_mq_free_map_and_requests set (Z.of_nat x) (hp_mem s); Some (set, s <| hp_mem := m |>)
      else Some (set, s)) = Some (set', s1) /\ tags_changed (eq x) set set' /\ forall L, heap_wf L s -> heap_wf L s1)
    as (set' & s1 & -> & Hset & Hs1).
  { case_bool_decide; [|by exists set, s; split; [|split; [apply tags_changed_refl|]]].
    destruct (free_map_tags set x (hp_mem s)) as (set' & m' & -> & ?); [lia|]. cbn [mbind option_bind].
    do 2 eexists. split; [done|]. split; [done|]. intros. by apply heap_wf_mem. }
  cbn [mbind option_bind].
  destruct (exit_hctx_wf set' x p h unused s1) as (p' & h' & s2 & -> & Hun & Hpo & _ & Hs2); [by left|]. cbn [mbind option_bind].
  rewrite aset_lt by lia. rewrite Nat2Z.id. cbn [mbind option_bind]. do 4 eexists. split; [done|].
  split; [|split; [done|by rewrite take_insert_ge by lia]]. destruct Hset as (_ & _ & Hset). split.
  - by rewrite length_insert.
  - intros k Hk. rewrite list_lookup_insert_ne by lia. destruct (D2 k Hk) as (p1 & h1 & E1 & E2 & E3).
    exists p1, h1. split; [done|]. split; [done|]. destruct E3 as [?|(? & ? & ? & ?)]; [by left|]. right.
    by rewrite Hset by lia.
  - intros k Hk. rewrite list_lookup_insert_ne by lia. apply D3. lia.
  - intros k Hk Hks. destruct (decide (k = x)) as [->|]; [by rewrite list_lookup_insert_eq by lia|].
    rewrite list_lookup_insert_ne by lia. apply D4; lia.
  - by constructor.
  - apply Hs2, Hs1. eapply heap_wf_perm; [|reflexivity|exact D6]. rewrite objs_cons. cbn [fst]. rewrite Hpo.
    pose proof (slot_drop a x _ Hax) as Hd. change (slot_objs [Some (p, h)]) with (parts_objs p ++ []) in Hd.
    clear -Hd. perm.
Qed.

Lemma drop_loop_wf n set slots lo x m L a unused s :
  drop_inv set slots lo x m L a unused s -> (lo <= x)%nat -> (x + n = m)%nat -> (m <= slots)%nat ->
  (m <= length (ts_tags set))%nat ->
  exists set' a' unused' s', foldM drop_hctx (set, a, unused, s) (seqZ (Z.of_nat x) (Z.of_nat n)) = Some (set', a', unused', s')
    /\ drop_inv set' slots lo m m L a' unused' s' /\ tags_changed (fun k => lo <= k)%nat set set' /\ take lo a' = take lo a.
Proof.
  revert set x a unused s. induction n as [|n IH]; intros set x a unused s Hd Hx Hn Hm Hts.
  { do 4 eexists. split; [done|]. replace m with x in * by lia. split; [done|]. split; [apply tags_changed_refl|done]. }
  rewrite seqZ_cons by lia. cbn [foldM].
  destruct (drop_hctx_wf set slots lo x m L a unused s) as (set1 & a1 & u1 & s1 & -> & Hd1 & Hc1 & Ht1); [done|lia..|].
  cbn [mbind option_bind]. replace (Z.succ (Z.of_nat x)) with (Z.of_nat (S x)) by lia.
  replace (Z.pred (Z.of_nat (S n))) with (Z.of_nat n) by lia.
  destruct (IH set1 (S x) a1 u1 s1) as (set' & a' & u' & s' & E & Hd' & Hc' & Ht'); [done|lia|lia|lia| |].
  { by rewrite (proj1 (proj2 Hc1)). }
  do 4 eexists. split; [done|]. split; [done|]. split; [|congruence]. eapply tags_changed_trans; [|done].
  destruct Hc1 as (C1 & C2 & C3). split; [done|]. split; [done|]. intros k Hk. apply C3. lia.
Qed.

(** ** All hardware queues *)

Definition hw_objs (q : mq_queue) : list hctx_obj := zip (mq_parts q) (queue_hw_ctx (mq_rq q)).

(** The hardware queues of [q] and the unused ones own their objects; [L] is the
    other memory in use. *)
Record queue_ok (set : blk_mq_tag_set) (q : mq_queue) L s : Prop := {
  qk_len : length (mq_parts q) = length (queue_hw_ctx (mq_rq q));
  qk_slots : Z.of_nat (length (mq_parts q)) <= mq_slots q;
  qk_active : Forall active (mq_parts q);
  qk_entry : forall k h, queue_hw_ctx (mq_rq q) !! k = Some h -> entry_ok set k h;
  qk_unused : Forall unused_ok (mq_unused q);
  qk_heap : heap_wf (objs (hw_objs q) ++ objs (mq_unused q) ++ L) s;
}.

Lemma omap_id_Some {A} (l : list A) : omap id (Some <$> l) = l.
Proof. induction l as [|x l IH]; [done|]. change (x :: omap id (Some <$> l) = x :: l). by rewrite IH. Qed.
Lemma omap_id_None {A} n : omap id (replicate n (@None A)) = [].
Proof. induction n as [|n IH]; simpl; [done|]. exact IH. Qed.

Lemma mapM_id_Some {A} (l : list A) : mapM id (Some <$> l) = Some l.
Proof. induction l as [|x l IH]; [done|]. rewrite fmap_cons. cbn [mapM id mbind option_bind]. by rewrite IH. Qed.

(** An array whose first [n] entries are there and the others are not. *)
Lemma array_split {A} (a : list (option A)) n :
  (n <= length a)%nat -> (forall k, (k < n)%nat -> exists x, a !! k = Some (Some x)) ->
  (forall k, (n <= k < length a)%nat -> a !! k = Some None) ->
  exists l, a = (Some <$> l) ++ replicate (length a - n) None /\ length l = n.
Proof.
  revert a. induction n as [|n IH]; intros a Hn Hs Hx.
  - exists []. split; [|done]. simpl. rewrite Nat.sub_0_r. apply list_eq. intros k.
    destruct (decide (k < length a)%nat).
    + rewrite Hx by lia. by rewrite lookup_replicate_2.
    + by rewrite !lookup_ge_None_2 by (rewrite ?length_replicate; lia).
  - destruct a as [|x a]; [simpl in Hn; lia|]. destruct (Hs 0%nat) as [y [= ->]]; [lia|].
    destruct (IH a) as (l & E & El); [simpl in Hn; lia|intros k Hk; apply (Hs (S k)); lia|intros k Hk; apply (Hx (S k)); simpl; lia|].
    exists (y :: l). split; [|simpl; by f_equal]. rewrite fmap_cons. cbn [length Nat.sub app]. f_equal. exact E.
Qed.

Lemma load_slots_inv set q L s :
  queue_ok set q L s ->
  slots_inv set (Z.to_nat (mq_slots q)) (length (mq_parts q)) (length (mq_parts q)) L (load_slots q) (mq_unused q) s
  /\ forall k, load_slots q !! k = if decide (k < length (mq_parts q))%nat then Some <$> hw_objs q !! k
                                 else if decide (k < Z.to_nat (mq_slots q))%nat then Some None else None.
Proof.
  intros [Q1 Q2 Q3 Q4 Q5 Q6]. unfold load_slots. fold (hw_objs q).
  assert (length (hw_objs q) = length (mq_parts q)) as Hl by (unfold hw_objs; rewrite length_zip; lia).
  assert (forall k, ((Some <$> hw_objs q) ++ replicate (Z.to_nat (mq_slots q - Z.of_nat (length (mq_parts q)))) None) !! k
    = if decide (k < length (mq_parts q))%nat then Some <$> hw_objs q !! k
      else if decide (k < Z.to_nat (mq_slots q))%nat then Some None else None) as Hk.
  { intros k. destruct (decide (k < _)%nat).
    - by rewrite lookup_app_l, list_lookup_fmap by (rewrite length_fmap; lia).
    - rewrite lookup_app_r by (rewrite length_fmap; lia). rewrite length_fmap, Hl.
      destruct (decide (k < _)%nat); [rewrite lookup_replicate_2 by lia; done|].
      apply lookup_ge_None_2. rewrite length_replicate. lia. }
  split; [|done]. split; [| | |done|].
  - rewrite length_app, length_fmap, length_replicate, Hl. lia.
  - intros k Hlt. rewrite Hk, decide_True by done.
    destruct (lookup_lt_is_Some_2 (mq_parts q) k) as [p Hp]; [lia|].
    destruct (lookup_lt_is_Some_2 (queue_hw_ctx (mq_rq q)) k) as [h Hh]; [lia|].
    exists p, h. unfold hw_objs. rewrite lookup_zip_with, Hp. simpl. rewrite Hh. simpl. split; [done|].
    split; [by eapply Forall_lookup_1|]. split; [by apply Q4|]. intros. lia.
  - intros k Hlt. rewrite Hk, decide_False, decide_True by lia. done.
  - unfold slot_objs. by rewrite omap_id_app, omap_id_Some, omap_id_None, app_nil_r.
Qed.

Lemma store_slots_ok set slots lo m L a unused q s :
  drop_inv set slots lo m m L a unused s -> (lo <= m)%nat -> (lo <= slots)%nat -> Z.of_nat slots = mq_slots q ->
  exists q', store_slots (Z.of_nat lo) a unused q = Some q' /\ queue_ok set q' L s
    /\ length (mq_parts q') = lo /\ (forall k, (k < lo)%nat -> Some <$> hw_objs q' !! k = a !! k)
    /\ q' = q <| mq_rq := mq_rq q' |> <| mq_parts := mq_parts q' |> <| mq_unused := mq_unused q' |>
    /\ mq_rq q' = (mq_rq q) <| queue_hw_ctx := queue_hw_ctx (mq_rq q') |>.
Proof.
  intros [D1 D2 D3 D4 D5 D6] Hlm Hls Hsl.
  destruct (array_split a lo) as (l & Ea & El); [lia|intros k Hk; destruct (D2 k Hk) as (p & h & ? & _); by exists (p, h)|
    intros k Hk; apply D4; [|lia]; destruct (decide (k < m)%nat); [left|right]; lia|].
  assert (take lo a = Some <$> l) as Et.
  { rewrite Ea, take_app_le by (rewrite length_fmap; lia). apply take_ge. rewrite length_fmap. lia. }
  unfold store_slots. rewrite Nat2Z.id, Et, mapM_id_Some. cbn [mbind option_bind].
  eexists. split; [done|]. assert (hw_objs (q <| mq_rq ::= fun r => r <| queue_hw_ctx := l.*2 |> |> <| mq_parts := l.*1 |> <| mq_unused := unused |>) = l) as Eh.
  { unfold hw_objs. simpl. apply zip_fst_snd. }
  split; [|split; [simpl; by rewrite length_fmap|split; [|by destruct q]]].
  - split; [| | | |done|].
    + simpl. by rewrite !length_fmap.
    + simpl. rewrite length_fmap. lia.
    + simpl. apply Forall_lookup. intros k p. rewrite list_lookup_fmap. intros ([p' h'] & Hk & ->)%fmap_Some.
      assert (k < lo)%nat as Hlt by (apply lookup_lt_Some in Hk; lia). destruct (D2 k Hlt) as (p1 & h1 & E1 & E2 & _).
      rewrite Ea, lookup_app_l, list_lookup_fmap, Hk in E1 by (rewrite length_fmap; lia). by injection E1 as -> ->.
    + simpl. intros k h. rewrite list_lookup_fmap. intros ([p' h'] & Hk & ->)%fmap_Some.
      assert (k < lo)%nat as Hlt by (apply lookup_lt_Some in Hk; lia). destruct (D2 k Hlt) as (p1 & h1 & E1 & _ & E2).
      rewrite Ea, lookup_app_l, list_lookup_fmap, Hk in E1 by (rewrite length_fmap; lia). by injection E1 as -> ->.
    + rewrite Eh. rewrite Ea in D6. unfold slot_objs in D6. by rewrite omap_id_app, omap_id_Some, omap_id_None, app_nil_r in D6.
  - intros k Hk. rewrite Eh, Ea, lookup_app_l, list_lookup_fmap by (rewrite length_fmap; lia). done.
Qed.

(** Changing the hardware queues of a request queue to those of its tag set.
    [blk_mq_realloc_hw_ctxs] always returns.  It ends with the number the set asks
    for, or, only if it had to grow and an allocation or the driver failed, with the
    previous number.  Every hardware queue below that number is initialised and
    registered, every other one is idle on the list of unused queues, and together
    they own exactly the memory that is in use for queues, so nothing is leaked or
    released twice; queues on the right node are kept.  (Queues that go away must not
    be active users of shared tags, nor does a new one use them.) *)
Lemma realloc_hw_ctxs_ok set q L s :
  is_Some (aget (set_map set) HCTX_TYPE_DEFAULT) -> 0 <= set_nr_hw_queues set <= mq_slots q ->
  set_nr_hw_queues set <= Z.of_nat (length (ts_tags set)) ->
  nr_hw_queues (mq_rq q) <= Z.of_nat (length (ts_tags set)) ->
  queue_ok set q L s ->
  (forall k h, queue_hw_ctx (mq_rq q) !! k = Some h -> set_nr_hw_queues set <= Z.of_nat k -> quiet h) ->
  exists set' q' s', blk_mq_realloc_hw_ctxs e set q s = Some (set', q', s') /\ queue_ok set' q' L s'
    /\ (nr_hw_queues (mq_rq q') = set_nr_hw_queues set
         \/ nr_hw_queues (mq_rq q') = nr_hw_queues (mq_rq q) /\ nr_hw_queues (mq_rq q) < set_nr_hw_queues set /\ ~ env_ok)
    /\ tags_changed (fun k => nr_hw_queues (mq_rq q') <= Z.of_nat k) set set'
    /\ (forall k ob, hw_objs q !! k = Some ob -> Z.of_nat k < nr_hw_queues (mq_rq q') ->
          node_of set k = Some (numa_node ob.2) -> hw_objs q' !! k = Some ob)
    /\ q' = q <| mq_rq := mq_rq q' |> <| mq_parts := mq_parts q' |> <| mq_unused := mq_unused q' |>
    /\ mq_rq q' = (mq_rq q) <| queue_hw_ctx := queue_hw_ctx (mq_rq q') |>.
Proof.
  intros Hmap Hnr Hts1 Hts2 Hq Hdrop. unfold blk_mq_realloc_hw_ctxs.
  set (nr := length (mq_parts q)). set (sn := Z.to_nat (set_nr_hw_queues set)).
  assert (nr_hw_queues (mq_rq q) = Z.of_nat nr) as Enr by (unfold nr_hw_queues; by rewrite <- (qk_len _ _ _ _ Hq)).
  assert (set_nr_hw_queues set = Z.of_nat sn) as Esn by lia. rewrite Esn, Enr in *.
  destruct (load_slots_inv set q L s Hq) as [Hinv Hload]. pose proof (qk_slots _ _ _ _ Hq) as Hsl.
  destruct (realloc_loop_wf set (Z.to_nat (mq_slots q)) nr L sn 0 (load_slots q) (mq_unused q) s)
    as (i' & a & unused & s1 & E1 & Hinv1 & Hkept & Hsame & Hi'); [done|by rewrite Nat.max_0_r|lia|lia|].
  change (Z.of_nat 0) with 0 in E1. rewrite E1. cbn [mbind option_bind]. cbn [Nat.add] in Hi'.
  (* the entries that stay *)
  set (lo := if decide (i' = sn) then sn else nr).
  assert ((if Z.of_nat i' =? Z.of_nat sn then (Z.of_nat i', Z.of_nat nr, Z.of_nat i') else (Z.of_nat nr, Z.of_nat i', Z.of_nat nr))
    = (Z.of_nat lo, Z.of_nat (if decide (i' = sn) then nr else i'), Z.of_nat lo)) as ->.
  { unfold lo. destruct (decide (i' = sn)) as [->|]; [by rewrite Z.eqb_refl|]. by rewrite (proj2 (Z.eqb_neq _ _)) by lia. }
  set (m := Nat.max nr i'). assert (lo <= m)%nat as Hlom by (unfold lo, m; destruct (decide _); lia).
  assert (drop_inv set (Z.to_nat (mq_slots q)) lo lo m L a unused s1) as Hd.
  { destruct Hinv1 as [S1 S2 S3 S4 S5]. split; try done.
    - intros k Hk. destruct (S2 k) as (p & h & ? & ? & ? & _); [unfold m in Hlom; lia|]. by exists p, h.
    - intros k Hk. destruct (S2 k) as (p & h & H1 & H2 & H3 & H4); [unfold m in *; lia|]. exists p, h. split; [done|]. split; [done|].
      unfold lo in Hk. destruct (decide (i' = sn)) as [->|]; [|apply H4; lia].
      destruct (decide (nr <= k)%nat); [by apply H4|]. 
      rewrite Hsame, Hload, decide_True in H1 by lia. apply fmap_Some in H1 as ([p' h'] & H1 & [= <- <-]).
      unfold hw_objs in H1. apply lookup_zip_with_Some in H1 as (p1 & h1 & [= <- <-] & _ & H1). apply (Hdrop k); [done|lia].
    - intros k Hk Hks. apply S3. unfold m in *. lia. }
  assert (seqZ (Z.of_nat lo) (Z.of_nat (if decide (i' = sn) then nr else i') - Z.of_nat lo)
    = seqZ (Z.of_nat lo) (Z.of_nat (m - lo))) as ->.
  { unfold lo, m. destruct (decide (i' = sn)) as [->|].
    - destruct (decide (sn <= nr)%nat); [f_equal; lia|]. rewrite !seqZ_nil by lia. done.
    - f_equal. lia. }
  destruct (drop_loop_wf (m - lo) set (Z.to_nat (mq_slots q)) lo lo m L a unused s1)
    as (set' & a' & unused' & s' & E2 & Hd' & Hc & Ht); [done|lia|lia|unfold m; lia|unfold m; lia|].
  rewrite E2. cbn [mbind option_bind].
  destruct (store_slots_ok set' (Z.to_nat (mq_slots q)) lo m L a' unused' q s') as (q' & E3 & Hq' & Hlen & Hobs & F1 & F2);
    [done|done|unfold lo; destruct (decide _); lia|lia|].
  rewrite E3. cbn [mbind option_bind]. exists set', q', s'. split; [done|]. split; [done|].
  assert (nr_hw_queues (mq_rq q') = Z.of_nat lo) as El by (unfold nr_hw_queues; by rewrite <- (qk_len _ _ _ _ Hq'), Hlen).
  rewrite El. split; [|split; [|split; [|done]]].
  - unfold lo. destruct (decide (i' = sn)); [by left|]. right. destruct Hi' as [?|[? ?]]; [done|]. split; [done|]. split; [lia|done].
  - destruct Hc as (C1 & C2 & C3). split; [done|]. split; [done|]. intros k Hk. apply C3. lia.
  - intros k ob Hk Hlt Hn. assert (a' !! k = a !! k) as Ea.
    { rewrite <- (lookup_take_lt a' lo), <- (lookup_take_lt a lo) by lia. by rewrite Ht. }
    specialize (Hobs k ltac:(lia)). rewrite Ea in Hobs. rewrite (Hkept k ob) in Hobs; [|rewrite Hload, decide_True, Hk; [done|]|done].
    + apply fmap_Some in Hobs as (x & -> & [= ->]). done.
    + apply lookup_lt_Some in Hk. unfold hw_objs in Hk. rewrite length_zip in Hk. lia.
Qed.
End hctx.
