(* ===== verification/BlkMqUpdate.v ===== *)
(** * Creation, deletion and reconfiguration of request queues

    [blk_mq_init_queue], [blk_mq_init_sq_queue], [blk_mq_exit_queue],
    [blk_mq_update_nr_requests] and [blk_mq_update_nr_hw_queues] of block/blk-mq.c
    on the queues of a tag set. *)
From S2P Require Import Prelude MqTypes BlkSwitch BlkMqAlloc BlkMqRun BlkMqTagSet BlkMqMap BlkMqHctx.

(** The queues of a set, each with its identity. *)
Abbreviation queues := (list (Z * mq_queue)) (only parsing).

(** [blk_alloc_queue_node] and [blk_cleanup_queue] of blk-core.c,
    [blk_mq_tag_update_depth] of blk-mq-tag.c (scheduler tags or driver tags of a
    hardware queue), and [depth_updated] of the scheduler. *)
Class UpdateEnv := {
  blk_alloc_queue_node : Z -> mq_queue;
  blk_cleanup_queue : mq_queue -> nat -> heap -> option heap;
  blk_mq_tag_update_depth : Z -> bool -> Z -> request_queue -> Z * request_queue;
  depth_updated : Z -> request_queue -> request_queue;
}.

Section update.
Context {mm : MqMem} {me : MapEnv} {sch : MqSched} {he : HctxEnv} {ue : UpdateEnv}.
Context (e : run_env) (possible : list Z) (is_kdump : bool)
  (blk_mq_map_queues : blk_mq_queue_map -> Z * blk_mq_queue_map)
  (map_queues : option (blk_mq_tag_set -> Z * blk_mq_tag_set))
  (has_queue_rq has_get_budget has_put_budget : bool).

(** ** Creation *)

(** The new queue, its structure and the result. *)
Definition blk_mq_init_queue (timeout n : Z) (set : blk_mq_tag_set) (l : queues) (s : heap)
  : option (Z * blk_mq_tag_set * queues * heap) :=
  match h_alloc s with
  | (None, s) => Some (- ENOMEM, set, l, s)
  | (Some self, s) =>
    '(ret, set, l, q, s) ←
      blk_mq_init_allocated_queue e possible false timeout n set l (blk_alloc_queue_node (set_numa_node set)) s;
    if c_true ret then s ← blk_cleanup_queue q self s; Some (ret, set, l, s)
    else Some (0, set, l, s)
  end.

(** A set of its own for a queue with one hardware queue. *)
Definition blk_mq_init_sq_queue (cmd_size depth flags n : Z) (s : heap)
  : option (Z * blk_mq_tag_set * queues * heap) :=
  let map0 := mk_queue_map [] 0 0 in
  let set := mk_tag_set [map0; map0; map0] 1 1 depth 0 cmd_size NUMA_NO_NODE flags [] in
  '(ret, set, m) ← blk_mq_alloc_tag_set is_kdump (nr_cpu_ids e) blk_mq_map_queues map_queues
                     has_queue_rq has_get_budget has_put_budget set (hp_mem s);
  let s := s <| hp_mem := m |> in
  if c_true ret then Some (ret, set, [], s)
  else
    '(ret, set, l, s) ← blk_mq_init_queue 0 n set [] s;
    if c_true ret then
      '(set, m) ← blk_mq_free_tag_set (nr_cpu_ids e) set (hp_mem s);
      Some (ret, set, l, s <| hp_mem := m |>)
    else Some (0, set, l, s).

(** ** Deletion *)

(** The hardware queues go to the list of unused ones, up to [nr_queue]. *)
Definition blk_mq_exit_hw_queues (set : blk_mq_tag_set) (nr_queue : Z) (q : mq_queue) (s : heap)
  : option (mq_queue * heap) :=
  let obs := take (Z.to_nat nr_queue) (zip (mq_parts q) (queue_hw_ctx (mq_rq q))) in
  '(unused, s) ← foldM (fun '(unused, s) '(i, ob) => blk_mq_exit_hctx set i ob unused s) (mq_unused q, s)
                   (imap (fun i ob => (Z.of_nat i, ob)) obs);
  Some (q <| mq_unused := unused |>, s).

Definition blk_mq_exit_queue (set : blk_mq_tag_set) (l : queues) (n : Z) (q : mq_queue) (s : heap)
  : option (blk_mq_tag_set * queues * mq_queue * heap) :=
  '(set, rqs) ← blk_mq_del_queue_tag_set e set (rqs_of l) n;
  let l := with_rqs (List.filter (fun x => negb (x.1 =? n)) l) rqs in
  '(q, s) ← blk_mq_exit_hw_queues set (set_nr_hw_queues set) q s;
  Some (set, l, q, s).

(** ** The depth of a queue *)

Definition blk_mq_freeze_queue (q : request_queue) : option request_queue :=
  q ← blk_freeze_queue_start e q; Some (freeze_wait q).

(** The loop over the hardware queues, up to the first error. *)
Fixpoint update_depths (n : nat) (i nr : Z) (q : request_queue) : option (Z * request_queue) :=
  match n with
  | O => Some (0, q)
  | S n =>
    h ← aget (queue_hw_ctx q) i;
    if negb (bool_decide (is_Some (tags h))) then update_depths n (i + 1) nr q
    else
      let '(ret, q) := blk_mq_tag_update_depth i (bool_decide (is_Some (sched_tags h))) nr q in
      if c_true ret then Some (ret, q)
      else update_depths n (i + 1) nr (if bool_decide (is_Some (elevator q)) then depth_updated i q else q)
  end.

(** [has_set]: the queue has a tag set. *)
Definition blk_mq_update_nr_requests (has_set : bool) (nr : Z) (q : request_queue) : option (Z * request_queue) :=
  if negb has_set then Some (- EINVAL, q)
  else if nr_requests q =? nr then Some (0, q)
  else
    q ← blk_mq_freeze_queue q;
    let q := (blk_mq_quiesce_queue q).1 in
    '(ret, q) ← update_depths (Z.to_nat (nr_hw_queues q)) 0 nr q;
    let q := if c_true ret then q else q <| nr_requests := nr |> in
    q ← blk_mq_unquiesce_queue e q;
    Some (ret, blk_mq_unfreeze_queue q).

(** ** The number of hardware queues *)

(** struct blk_mq_qe_pair: the queue, its scheduler, and the object. *)
Abbreviation qe_pair := (Z * elv_ops * nat)%type (only parsing).

Definition blk_mq_elv_switch_none (n : Z) (q : mq_queue) (head : list qe_pair) (s : heap)
  : bool * mq_queue * list qe_pair * heap :=
  match elevator (mq_rq q) with
  | None => (true, q, head, s)
  | Some t =>
    match h_alloc s with
    | (None, s) => (false, q, head, s)
    | (Some qe, s) => (true, q <| mq_rq ::= elevator_switch None |>, (n, t, qe) :: head, s)
    end
  end.

(** The first pair of queue [n] and the others. *)
Fixpoint take_pair (n : Z) (l : list qe_pair) : option (elv_ops * nat * list qe_pair) :=
  match l with
  | [] => None
  | (m, t, qe) :: l =>
    if m =? n then Some (t, qe, l) else '(t', qe', l) ← take_pair n l; Some (t', qe', (m, t, qe) :: l)
  end.

Definition blk_mq_elv_switch_back (n : Z) (q : mq_queue) (head : list qe_pair) (s : heap)
  : option (mq_queue * list qe_pair * heap) :=
  match take_pair n head with
  | None => Some (q, head, s)
  | Some (t, qe, head) => s ← h_free qe s; Some (q <| mq_rq ::= elevator_switch (Some t) |>, head, s)
  end.

(** The loop that switches to no scheduler, up to the first failure. *)
Fixpoint switch_none (l : queues) (head : list qe_pair) (s : heap) : bool * queues * list qe_pair * heap :=
  match l with
  | [] => (true, [], head, s)
  | (n, q) :: l =>
    let '(ok, q, head, s) := blk_mq_elv_switch_none n q head s in
    if ok then let '(ok, l, head, s) := switch_none l head s in (ok, (n, q) :: l, head, s)
    else (false, (n, q) :: l, head, s)
  end.

Fixpoint switch_back (l : queues) (head : list qe_pair) (s : heap) : option (queues * list qe_pair * heap) :=
  match l with
  | [] => Some ([], head, s)
  | (n, q) :: l =>
    '(q, head, s) ← blk_mq_elv_switch_back n q head s;
    '(l, head, s) ← switch_back l head s; Some ((n, q) :: l, head, s)
  end.

(** One pass over the queues, up to one that cannot grow ([false]). *)
Fixpoint update_queues (set : blk_mq_tag_set) (l : queues) (s : heap)
  : option (bool * blk_mq_tag_set * queues * heap) :=
  match l with
  | [] => Some (true, set, [], s)
  | (n, q) :: l =>
    '(set, q, s) ← blk_mq_realloc_hw_ctxs e set q s;
    if negb (nr_hw_queues (mq_rq q) =? set_nr_hw_queues set) then Some (false, set, (n, q) :: l, s)
    else
      '(set, q, s) ← map_swqueue e possible set q s;
      '(ok, set, l, s) ← update_queues set l s;
      Some (ok, set, (n, q) :: l, s)
  end.

(** [fallback]: the previous number of hardware queues, and the default map
    computed again. *)
Definition fall_back (prev : Z) (set : blk_mq_tag_set) : option blk_mq_tag_set :=
  let set := set <| set_nr_hw_queues := prev |> in
  x ← aget (set_map set) HCTX_TYPE_DEFAULT;
  mod_map HCTX_TYPE_DEFAULT (fun _ => (blk_mq_map_queues x).2) set.

(** The passes; [None] also when there is no fuel left. *)
Fixpoint update_passes (fuel : nat) (prev : Z) (set : blk_mq_tag_set) (l : queues) (s : heap)
  : option (blk_mq_tag_set * queues * heap) :=
  match fuel with
  | O => None
  | S fuel =>
    '(ok, set, l, s) ← update_queues set l s;
    if ok : bool then Some (set, l, s)
    else set ← fall_back prev set; update_passes fuel prev set l s
  end.

Definition on_rqs (f : request_queue -> option request_queue) (l : queues) : option queues :=
  mapM (fun '(n, q) => r ← f (mq_rq q); Some (n, q <| mq_rq := r |>)) l.

(** The passes from the fallback label on need at most two turns (see
    BlkMqUpdateSpec.v). *)
Definition blk_mq_update_nr_hw_queues (nr : Z) (set : blk_mq_tag_set) (l : queues) (s : heap)
  : option (blk_mq_tag_set * queues * heap) :=
  let nr := if (nr_maps set =? 1) && (nr_cpu_ids e <? nr) then nr_cpu_ids e else nr in
  if (nr <? 1) || (nr =? set_nr_hw_queues set) then Some (set, l, s)
  else
    l ← on_rqs blk_mq_freeze_queue l;
    let '(ok, l, head, s) := switch_none l [] s in
    '(set, l, s) ←
      (if ok : bool then
         let prev := set_nr_hw_queues set in
         '(_, set) ← blk_mq_update_queue_map is_kdump blk_mq_map_queues map_queues
                       (set <| set_nr_hw_queues := nr |>);
         update_passes 2 prev set l s
       else Some (set, l, s));
    '(l, _, s) ← switch_back l head s;
    l ← on_rqs (fun r => Some (blk_mq_unfreeze_queue r)) l;
    Some (set, l, s).
End update.
