(* ===== verification/BlkMqTotal.v ===== *)
(** * blk_mq_map_swqueue is always defined

    BlkMqMapSpec.v describes the layout when every hardware queue has its tags.
    Here the tags may be missing, as after the number of hardware queues has grown:
    with maps that name existing hardware queues, [blk_mq_init_cpu_queues] and
    [blk_mq_map_swqueue] are defined, allocate what is missing or fall back to
    hardware queue 0, and change neither flags nor state of a hardware queue. *)
From S2P Require Import Prelude MqTypes BlkSwitch BlkMqAlloc BlkMqRun BlkMqTagSet BlkMqTagSetSpec BlkMqMap BlkMqMapSpec.

(** A loop of steps that keep an invariant. *)
Lemma foldM_total {A B} (f : B -> A -> option B) (P : B -> Prop) (l : list A) (b : B) :
  (forall x y, x ∈ l -> P y -> exists y', f y x = Some y' /\ P y') -> P b -> exists b', foldM f b l = Some b' /\ P b'.
Proof.
  intros Hf Hb. apply (foldM_inv f (fun _ => P)); [done|]. intros d a r y -> Hy. apply Hf; [set_solver|done].
Qed.

Section total.
Context {mm : MqMem} {ml : MqMemLaws mm} {me : MapEnv} {sch : MqSched}.
Context (e : run_env) (possible : list Z).
Hypothesis Hcpus : Z.of_nat (length possible) <= nr_cpu_ids e < 2 ^ 16.

(** Maps that name hardware queues below [nr_hw]. *)
Record map_ready (nr_hw : Z) (set : blk_mq_tag_set) : Prop := {
  mr_types : length (set_map set) = 3%nat;
  mr_nr : 1 <= nr_maps set <= 3;
  mr_range : forall j c, 0 <= j < nr_maps set -> c ∈ possible ->
    exists i, map_queue_type set j c = Some i /\ 0 <= i < nr_hw;
  mr_tags : nr_hw <= Z.of_nat (length (ts_tags set));
  mr_depth : depth_ok set;
}.

(** Flags, state and node of the hardware queues, and the other fields. *)
Definition hw_frame (q : request_queue) : list (Z * Z * Z) * request_queue :=
  ((fun h => (h_flags h, h_state h, numa_node h)) <$> queue_hw_ctx q, q <| queue_hw_ctx := [] |> <| queue_ctx := [] |>).

(** A software queue for every CPU. *)
Definition ctx_ready (q : request_queue) : Prop :=
  forall c, c ∈ possible -> exists ctx, aget (queue_ctx q) c = Some ctx /\ length (hctxs ctx) = 3%nat
    /\ length (index_hw ctx) = 3%nat.

(** The hardware queues in the loop over the CPUs. *)
Definition hctx_mapping (h : blk_mq_hw_ctx) : Prop :=
  nr_ctx h = Z.of_nat (length (h_ctxs h)) /\ NoDup (h_ctxs h) /\ (forall c, c ∈ h_ctxs h -> c ∈ possible)
  /\ forall c, c ∈ cpumask h <-> c ∈ h_ctxs h.

Record mapping (F : list (Z * Z * Z) * request_queue) (q : request_queue) : Prop := {
  mp_frame : hw_frame q = F;
  mp_ctx : ctx_ready q;
  mp_hw : forall i h, aget (queue_hw_ctx q) i = Some h -> hctx_mapping h;
}.

Lemma frame_length q : length (hw_frame q).1 = length (queue_hw_ctx q).
Proof. apply length_fmap. Qed.

Lemma frame_set i h h' q :
  aget (queue_hw_ctx q) i = Some h -> h_flags h' = h_flags h -> h_state h' = h_state h -> numa_node h' = numa_node h ->
  hw_frame (set_hctx i h' q) = hw_frame q.
Proof.
  intros Hi E1 E2 E3. unfold hw_frame. f_equal. simpl. rewrite list_fmap_insert. apply list_insert_id.
  unfold aget in Hi. case_bool_in Hi; [done|]. rewrite list_lookup_fmap, Hi. simpl. by rewrite E1, E2, E3.
Qed.

Lemma ctx_ready_set c ctx ctx' q :
  ctx_ready q -> aget (queue_ctx q) c = Some ctx -> length (hctxs ctx') = 3%nat -> length (index_hw ctx') = 3%nat ->
  ctx_ready (set_ctx c ctx' q).
Proof.
  intros H Hc L1 L2 d Hd. rewrite aget_set_ctx by congruence. case_decide; [|by apply H]. by exists ctx'.
Qed.

(** ** Steps *)

Lemma store_hctx_total F q c j hi :
  mapping F q -> c ∈ possible -> 0 <= j < 3 ->
  exists q', store_hctx c j hi q = Some q' /\ mapping F q' /\ queue_hw_ctx q' = queue_hw_ctx q.
Proof.
  intros [M1 M2 M3] Hc Hj. destruct (M2 c Hc) as (ctx & H1 & H2 & H3). unfold store_hctx. rewrite H1. cbn [mbind option_bind].
  rewrite aset_lt by lia. cbn [mbind option_bind]. eexists. split; [done|]. split; [|done]. split; [done| |done].
  eapply ctx_ready_set; [done|done|simpl; by rewrite length_insert|done].
Qed.

Lemma add_sw_total F q c j hi h :
  mapping F q -> c ∈ possible -> 0 <= j < 3 -> aget (queue_hw_ctx q) hi = Some h -> c ∉ cpumask h ->
  exists q', add_sw e c j hi h q = Some q' /\ mapping F q'.
Proof.
  intros [M1 M2 M3] Hc Hj Hh Hm. destruct (M2 c Hc) as (ctx & H1 & H2 & H3). destruct (M3 hi h Hh) as (N1 & N2 & N3 & N4).
  unfold add_sw. rewrite H1. cbn [mbind option_bind]. rewrite aset_lt by lia. cbn [mbind option_bind].
  assert (S (length (h_ctxs h)) <= length possible)%nat as Hlt.
  { change (length (c :: h_ctxs h) <= length possible)%nat. apply submseteq_length, NoDup_submseteq.
    - constructor; [|done]. by rewrite <- N4.
    - intros d [-> |Hd]%elem_of_cons; [done|by apply N3]. }
  destruct (Z.leb_spec (nr_cpu_ids e) (nr_ctx h)); [lia|].
  unfold u16. rewrite Z.mod_small by lia. destruct (Z.eqb_spec (nr_ctx h + 1) 0); [lia|].
  eexists. split; [done|]. split.
  - rewrite frame_set with (h := h); done.
  - change (ctx_ready (set_ctx c (ctx <| index_hw := <[Z.to_nat j:=nr_ctx h]> (index_hw ctx) |>) q)).
    eapply ctx_ready_set; [done|done|done|simpl; by rewrite length_insert].
  - intros i h'. rewrite aget_set_hctx by (simpl; congruence). case_decide as Hd; [|apply M3]. intros [= <-].
    split; [|split; [|split]]; simpl.
    + rewrite length_app. simpl. lia.
    + apply NoDup_app. split; [done|]. split; [|apply NoDup_singleton]. intros d Hd1 ->%list_elem_of_singleton. by apply N4 in Hd1.
    + intros d [Hd1| ->%list_elem_of_singleton]%elem_of_app; [by apply N3|done].
    + intros d. rewrite cpumask_set_cpu_elem, elem_of_app, list_elem_of_singleton, N4. tauto.
Qed.

Lemma map_type_total F nr_hw set q c j :
  map_ready nr_hw set -> mapping F q -> Z.of_nat (length F.1) = nr_hw -> c ∈ possible -> 0 <= j < nr_maps set ->
  exists q', map_type e set c q j = Some q' /\ mapping F q'.
Proof.
  intros R M HF Hc Hj. pose proof (mr_nr _ _ R) as Hn. unfold map_type.
  destruct (aget_lt (set_map set) j) as [mp Hmp]; [rewrite (mr_types _ _ R); lia|]. rewrite Hmp. cbn [mbind option_bind].
  case_bool.
  - destruct (mr_range _ _ R HCTX_TYPE_DEFAULT c) as (hi & -> & _); [unfold HCTX_TYPE_DEFAULT; lia|done|]. cbn [mbind option_bind].
    destruct (store_hctx_total F q c j hi M Hc) as (q' & -> & M' & _); [lia|]. by exists q'.
  - destruct (mr_range _ _ R j c Hj Hc) as (hi & -> & Hhi). cbn [mbind option_bind].
    destruct (store_hctx_total F q c j hi M Hc) as (q' & -> & M' & Eh); [lia|]. cbn [mbind option_bind].
    destruct (aget_lt (queue_hw_ctx q') hi) as [h Hh].
    { rewrite <- frame_length, (mp_frame _ _ M'). lia. }
    rewrite Hh. cbn [mbind option_bind]. case_bool_decide as Hm; [by exists q'|]. eapply add_sw_total; eauto. lia.
Qed.

Lemma map_rest_total F nr_hw set q c j :
  map_ready nr_hw set -> mapping F q -> c ∈ possible -> 0 <= j < 3 ->
  exists q', map_rest set c q j = Some q' /\ mapping F q'.
Proof.
  intros R M Hc Hj. pose proof (mr_nr _ _ R) as Hn. unfold map_rest.
  destruct (mr_range _ _ R HCTX_TYPE_DEFAULT c) as (hi & -> & _); [unfold HCTX_TYPE_DEFAULT; lia|done|]. cbn [mbind option_bind].
  destruct (store_hctx_total F q c j hi M Hc) as (q' & -> & M' & _); [lia|]. by exists q'.
Qed.

(** The set keeps its number of queues and maps. *)
Definition set_same (set set' : blk_mq_tag_set) : Prop :=
  nr_maps set' = nr_maps set /\ set_nr_hw_queues set' = set_nr_hw_queues set /\
  length (ts_tags set') = length (ts_tags set) /\ set_flags set' = set_flags set /\ queue_depth set' = queue_depth set.

Lemma alloc_map_total set k m :
  depth_ok set -> 0 <= k < Z.of_nat (length (ts_tags set)) ->
  exists ok o m', alloc_map_and_rqs k set m = Some (ok, set <| ts_tags := <[Z.to_nat k := o]> (ts_tags set) |>, m').
Proof.
  intros [D1 D2 D3] Hi. unfold alloc_map_and_rqs.
  destruct (blk_mq_alloc_rq_map _ _) as [[t|] m1] eqn:E; destruct (alloc_rq_map_cases _ _ _ _ E) as (_ & _ & A3).
  2: { rewrite aset_lt by lia. cbn [mbind option_bind]. by do 3 eexists. }
  destruct A3 as (_ & _ & _ & Ht). unfold blk_mq_alloc_rqs. set (depth := queue_depth set) in *.
  destruct (alloc_rqs_loop_carved (Z.to_nat depth) (rq_size_of set) (Z.to_nat depth) [] _ m1 m1
    (carved_init _ _ _ _ Ht) D1) as (ok & ps & t' & m' & E' & _); [lia|simpl; lia|].
  rewrite Z2Nat.id in E' by lia. change (Z.of_nat (length (@nil Z))) with 0 in E'. rewrite Z.sub_0_r in E'.
  rewrite u64_small by nia. rewrite E'. cbn [mbind option_bind].
  destruct ok; [|destruct (blk_mq_free_rqs t' m')]; cbn -[ENOMEM]; try change (- ENOMEM =? 0) with false;
    cbn iota; rewrite aset_lt by lia; cbn [mbind option_bind]; by do 3 eexists.
Qed.

Lemma ready_tags nr_hw set l :
  map_ready nr_hw set -> length l = length (ts_tags set) -> map_ready nr_hw (set <| ts_tags := l |>).
Proof.
  intros [R1 R2 R3 R4 R5] Hl. split; try done; [simpl; by rewrite Hl|]. destruct R5 as [D1 D2 D3]. by split.
Qed.

(** CPU [c] falls back to hardware queue 0. *)
Lemma ready_remap nr_hw set c mp l :
  map_ready nr_hw set -> 0 < nr_hw -> aget (set_map set) HCTX_TYPE_DEFAULT = Some mp -> aset (mq_map mp) c 0 = Some l ->
  map_ready nr_hw (set <| set_map := <[Z.to_nat HCTX_TYPE_DEFAULT := mp <| mq_map := l |>]> (set_map set) |>).
Proof.
  intros R Hpos Hmp El. assert (aget (mq_map <$> set_map set) HCTX_TYPE_DEFAULT = Some (mq_map mp)) as Emap.
  { unfold aget in *. simpl in *. by rewrite list_lookup_fmap, Hmp. }
  split; [simpl; rewrite length_insert; apply R|apply R| |apply R|destruct R as [_ _ _ _ [D1 D2 D3]]; by split].
  intros j d Hj Hd. unfold map_queue_type, blk_mq_map_queue_type. simpl set_map.
  destruct (decide (j = HCTX_TYPE_DEFAULT)) as [->|Hne].
  - assert (aget (mq_map <$> <[Z.to_nat HCTX_TYPE_DEFAULT := mp <| mq_map := l |>]> (set_map set)) HCTX_TYPE_DEFAULT = Some l) as ->.
    { unfold aget, HCTX_TYPE_DEFAULT. simpl. rewrite list_lookup_fmap, list_lookup_insert_eq; [done|]. rewrite (mr_types _ _ R). lia. }
    cbn [mbind option_bind]. destruct (decide (d = c)) as [->|Hdc].
    + exists 0. split; [by eapply aget_aset_eq|lia].
    + rewrite (aget_aset_ne _ _ _ _ _ El) by done. destruct (mr_range _ _ R HCTX_TYPE_DEFAULT d Hj Hd) as (x & Ex & Hx).
      unfold map_queue_type, blk_mq_map_queue_type in Ex. rewrite Emap in Ex. by exists x.
  - assert (aget (mq_map <$> <[Z.to_nat HCTX_TYPE_DEFAULT := mp <| mq_map := l |>]> (set_map set)) j
      = aget (mq_map <$> set_map set) j) as ->.
    { unfold aget. case_bool; [done|]. rewrite !list_lookup_fmap, list_lookup_insert_ne; [done|].
      unfold HCTX_TYPE_DEFAULT in *. lia. }
    apply (mr_range _ _ R j d Hj Hd).
Qed.

Lemma ensure_tags_total nr_hw set m c :
  map_ready nr_hw set -> 0 < nr_hw -> c ∈ possible ->
  exists set' m', ensure_tags set m c = Some (set', m') /\ map_ready nr_hw set' /\ set_same set set'.
Proof.
  intros R Hpos Hc. pose proof (mr_nr _ _ R) as Hn. pose proof (mr_tags _ _ R) as Ht. unfold ensure_tags.
  destruct (mr_range _ _ R HCTX_TYPE_DEFAULT c) as (hi & Ehi & Hhi); [unfold HCTX_TYPE_DEFAULT; lia|done|].
  rewrite Ehi. cbn [mbind option_bind]. destruct (aget_lt (ts_tags set) hi) as [o Ho]; [lia|]. rewrite Ho. cbn [mbind option_bind].
  destruct o as [t|]; [by exists set, m|].
  destruct (alloc_map_total set hi m (mr_depth _ _ R)) as (ok & o' & m' & ->); [lia|]. cbn [mbind option_bind].
  set (set1 := set <| ts_tags := _ |>).
  assert (map_ready nr_hw set1) as R1 by (apply ready_tags; [done|apply length_insert]).
  assert (set_same set set1) as S1 by (unfold set1; split; [done|]; split; [done|]; split; [simpl; apply length_insert|done]).
  destruct ok; [by exists set1, m'|].
  unfold map_queue_type, blk_mq_map_queue_type in Ehi. unfold mod_map, amod. change (set_map set1) with (set_map set).
  destruct (aget_lt (set_map set) HCTX_TYPE_DEFAULT) as [mp Hmp]; [rewrite (mr_types _ _ R); unfold HCTX_TYPE_DEFAULT; lia|].
  assert (aget (mq_map <$> set_map set) HCTX_TYPE_DEFAULT = Some (mq_map mp)) as Emap.
  { unfold aget in *. simpl in *. by rewrite list_lookup_fmap, Hmp. }
  rewrite Emap in Ehi. cbn [mbind option_bind] in Ehi. pose proof (aget_Some _ _ _ Ehi) as Hcr.
  destruct (aset (mq_map mp) c 0) as [l|] eqn:El; [|by rewrite aset_lt in El].
  pose proof (ready_remap nr_hw set1 c mp l R1 Hpos Hmp El) as R2. rewrite Hmp. cbn [mbind option_bind]. rewrite El. cbn [mbind option_bind].
  rewrite aset_lt by (rewrite (mr_types _ _ R); unfold HCTX_TYPE_DEFAULT; lia). cbn [mbind option_bind].
  do 2 eexists. split; [done|]. split; [exact R2|]. destruct S1 as (? & ? & ? & ? & ?). by split.
Qed.

(** ** The loops *)

Definition cpu_inv nr_hw F set0 (x : blk_mq_tag_set * mem * request_queue) : Prop :=
  map_ready nr_hw x.1.1 /\ set_same set0 x.1.1 /\ mapping F x.2.

Lemma set_same_trans a b c : set_same a b -> set_same b c -> set_same a c.
Proof. unfold set_same. intuition congruence. Qed.

Lemma map_cpu_total nr_hw F set0 x c :
  cpu_inv nr_hw F set0 x -> Z.of_nat (length F.1) = nr_hw -> 0 < nr_hw -> c ∈ possible ->
  exists x', map_cpu e x c = Some x' /\ cpu_inv nr_hw F set0 x'.
Proof.
  destruct x as [[set m] q]. intros (R & S & M) HF Hpos Hc. unfold map_cpu. simpl in R, S, M.
  destruct (ensure_tags_total nr_hw set m c R Hpos Hc) as (set' & m' & -> & R' & S'). cbn [mbind option_bind].
  pose proof (mr_nr _ _ R') as Hn.
  destruct (foldM_total (map_type e set' c) (mapping F) (seqZ 0 (nr_maps set')) q) as (q1 & -> & M1); [|done|].
  { intros j q' Hj Hq. apply elem_of_seqZ in Hj. eapply map_type_total; eauto; lia. }
  cbn [mbind option_bind].
  destruct (foldM_total (map_rest set' c) (mapping F) (seqZ (nr_maps set') (HCTX_MAX_TYPES - nr_maps set')) q1) as (q2 & -> & M2); [|done|].
  { intros j q' Hj Hq. apply elem_of_seqZ in Hj. unfold HCTX_MAX_TYPES in Hj. eapply map_rest_total; eauto; lia. }
  cbn [mbind option_bind]. eexists. split; [done|]. split; [done|]. split; [|done]. by eapply set_same_trans.
Qed.

Definition finish_inv nr_hw F set0 (x : blk_mq_tag_set * mem * request_queue) : Prop :=
  map_ready nr_hw x.1.1 /\ set_same set0 x.1.1 /\ hw_frame x.2 = F /\ ctx_ready x.2.

Lemma finish_total nr_hw F set0 x i :
  finish_inv nr_hw F set0 x -> Z.of_nat (length F.1) = nr_hw -> 0 <= i < nr_hw ->
  exists x', finish_hctx e x i = Some x' /\ finish_inv nr_hw F set0 x'.
Proof.
  destruct x as [[set m] q]. intros (R & S & Fr & C) HF Hi. unfold finish_hctx. simpl in R, S, Fr, C.
  destruct (aget_lt (queue_hw_ctx q) i) as [h Hh]; [rewrite <- frame_length, Fr; lia|]. rewrite Hh. cbn [mbind option_bind].
  pose proof (mr_tags _ _ R) as Ht. destruct (aget_lt (ts_tags set) i) as [o Ho]; [lia|]. rewrite Ho. cbn [mbind option_bind].
  destruct (Z.eqb_spec (nr_ctx h) 0) as [E|E].
  2: { eexists. split; [done|]. split; [done|]. split; [done|]. split; [|done]. cbn [snd]. rewrite frame_set with (h := h); done. }
  destruct (c_true i && bool_decide (is_Some o)) eqn:Eb.
  2: { eexists. split; [done|]. split; [done|]. split; [done|]. split; [|done]. cbn [snd]. rewrite frame_set with (h := h); done. }
  apply andb_true_iff in Eb as [_ [t ->]%bool_decide_eq_true].
  unfold blk_mq_free_map_and_requests. case_bool_decide as El.
  { rewrite El in Ht. simpl in Ht. lia. }
  rewrite Ho. cbn [mbind option_bind].
  destruct (blk_mq_free_rqs t m) as [t' m']. rewrite aset_lt by lia. cbn [mbind option_bind].
  eexists. split; [done|]. split; [apply ready_tags; [done|apply length_insert]|]. split.
  - destruct S as (S1 & S2 & S3 & S4 & S5). split; [done|]. split; [done|]. split; [|done]. simpl. by rewrite length_insert.
  - split; [|done]. cbn [snd]. rewrite frame_set with (h := h); done.
Qed.

(** With maps that name existing hardware queues the layout is always computed:
    flags, state and node of the hardware queues and the shape of the set stay. *)
Lemma map_swqueue_total set m q :
  map_ready (nr_hw_queues q) set -> ctx_ready q -> 0 < nr_hw_queues q ->
  exists set' m' q', blk_mq_map_swqueue e possible set m q = Some (set', m', q')
    /\ map_ready (nr_hw_queues q) set' /\ set_same set set' /\ hw_frame q' = hw_frame q /\ ctx_ready q'.
Proof.
  intros R C Hpos. unfold blk_mq_map_swqueue. set (q0 := q <| queue_hw_ctx ::= _ |>).
  assert (hw_frame q0 = hw_frame q) as E0.
  { unfold hw_frame, q0. f_equal. simpl. rewrite <- list_fmap_compose. by apply list_fmap_ext. }
  assert (Z.of_nat (length (hw_frame q).1) = nr_hw_queues q) as HF by (rewrite frame_length; done).
  destruct (foldM_total (map_cpu e) (cpu_inv (nr_hw_queues q) (hw_frame q) set) possible (set, m, q0)) as (x & -> & I1 & I2 & I3).
  - intros c x Hc Hx. by apply map_cpu_total.
  - split; [done|]. split; [done|]. split; [done|done|]. intros i h. simpl. unfold aget. case_bool; [done|].
    rewrite list_lookup_fmap. intros (h' & _ & ->)%fmap_Some. unfold hctx_mapping. simpl.
    split; [done|]. split; [constructor|]. split; [|done]. intros c Hc. by apply not_elem_of_nil in Hc.
  - cbn [mbind option_bind].
    destruct (foldM_total (finish_hctx e) (finish_inv (nr_hw_queues q) (hw_frame q) set) (seqZ 0 (nr_hw_queues x.2)) x)
      as ([[set' m'] q'] & -> & J1 & J2 & J3 & J4).
    + intros i y Hi Hy. apply elem_of_seqZ in Hi. apply finish_total; [done|done|].
      assert (nr_hw_queues x.2 = nr_hw_queues q) as E; [|lia].
      unfold nr_hw_queues. by rewrite <- !frame_length, (mp_frame _ _ I3).
    + split; [done|]. split; [done|]. split; [apply I3|apply I3].
    + by exists set', m', q'.
Qed.
End total.
