(* ===== verification/BlkMqUpdateSpec.v ===== *)
(** * Changing the number of hardware queues

    [blk_mq_update_nr_hw_queues] over all queues of a tag set that is not shared:
    it returns with every queue on the new number of hardware queues, or on the
    previous number when memory or the driver failed, with the schedulers back and
    exactly the memory of the queues in use. *)
From S2P Require Import Prelude MqTypes BlkSwitch BlkMqAlloc BlkMqRun BlkMqRunSpec BlkMqTagSet BlkMqTagSetSpec.
From S2P Require Import BlkMqTagSetTop BlkMqMap BlkMqMapSpec BlkMqShareSpec BlkMqHctx BlkMqUpdate BlkMqHctxSpec.
From S2P Require Import BlkMqTotal.

(** ** What the rest of the block layer keeps *)

(** The flags of the hardware queues, the shape of the software queues and the
    scheduler. *)
Definition view (q : request_queue) : list Z * list (nat * nat) * option elv_ops :=
  (flags_of q, (fun c => (length (hctxs c), length (index_hw c))) <$> queue_ctx q, elevator q).

(** Dispatching and the wait for a frozen queue keep them; switching sets the
    scheduler. *)
Class UpdateLaws (sch : MqSched) (he : HctxEnv) : Prop := {
  dispatch_view i q : view (blk_mq_sched_dispatch_requests i q) = view q;
  wait_view q : view (freeze_wait q) = view q;
  switch_view t q : view (elevator_switch t q) = ((view q).1, t);
}.

Section view.
Context {sch : MqSched} {he : HctxEnv} {laws : UpdateLaws sch he} (e : run_env).

Lemma view_length q q' : (view q').1 = (view q).1 -> length (queue_hw_ctx q') = length (queue_hw_ctx q).
Proof. intros [=]. by apply flags_length. Qed.

Lemma run_hw_view i async q :
  0 <= i < Z.of_nat (length (queue_hw_ctx q)) ->
  exists b q', blk_mq_run_hw_queue e i async q = Some (b, q') /\ view q' = view q.
Proof.
  intros Hi. destruct (aget_lt (queue_hw_ctx q) i Hi) as [h Hh].
  unfold blk_mq_run_hw_queue. destruct (blk_queue_quiesced q); simpl; [by exists false, q|].
  unfold blk_mq_hctx_has_pending. rewrite Hh. simpl. destruct (_ || _); simpl; [|by exists false, q].
  unfold blk_mq_delay_run_hw_queue_inner. rewrite Hh. simpl.
  destruct (blk_mq_hctx_stopped h); simpl; [by exists true, q|].
  destruct (_ && _ && _); simpl; [eexists true, _; split; [done|]; apply dispatch_view|].
  destruct (blk_mq_hctx_next_cpu e (nr_hw_queues q) h) as [c h1] eqn:E. simpl.
  eexists true, _. split; [done|]. unfold view. do 2 f_equal. eapply set_hctx_flags; [done|]. simpl.
  revert E. unfold blk_mq_hctx_next_cpu. repeat case_bool; intros [= _ <-]; done.
Qed.

Lemma freeze_view q : exists q', blk_mq_freeze_queue e q = Some q' /\ view q' = view q.
Proof.
  unfold blk_mq_freeze_queue. enough (exists q', blk_freeze_queue_start e q = Some q' /\ view q' = view q) as (q' & -> & H).
  { cbn [mbind option_bind]. eexists. split; [done|]. by rewrite wait_view. }
  unfold blk_freeze_queue_start. set (q0 := q <| mq_freeze_depth ::= _ |>). case_bool; [|by exists q0].
  unfold blk_mq_run_hw_queues, for_each_hw. set (q1 := q0 <| q_usage_dead := true |>).
  apply foldM_total; [|done]. intros i q2 Hi%elem_of_seqZ H2.
  assert (Hi2 : 0 <= i < Z.of_nat (length (queue_hw_ctx q2))).
  { rewrite (view_length q q2) by (by rewrite H2). unfold nr_hw_queues, q1, q0 in Hi. simpl in Hi. lia. }
  destruct (aget_lt _ _ Hi2) as [h Hh]. rewrite Hh. cbn [mbind option_bind].
  destruct (blk_mq_hctx_stopped h); [by exists q2|].
  destruct (run_hw_view i false q2 Hi2) as (b & q3 & -> & H3). cbn [mbind option_bind]. exists q3. split; [done|congruence].
Qed.

Lemma unfreeze_view q : view (blk_mq_unfreeze_queue q) = view q.
Proof. unfold blk_mq_unfreeze_queue. by case_bool. Qed.

Lemma view_ctx possible q q' : (view q').1 = (view q).1 -> ctx_ready possible q -> ctx_ready possible q'.
Proof.
  intros [= _ Hc] H c Hp. destruct (H c Hp) as (ctx & H1 & H2 & H3). unfold aget in *. case_bool_in H1; [done|].
  apply (f_equal (.!! Z.to_nat c)) in Hc. rewrite !list_lookup_fmap, H1 in Hc. simpl in Hc.
  destruct (queue_ctx q' !! Z.to_nat c) as [ctx'|]; [|done]. injection Hc as E1 E2. exists ctx'. by rewrite E1, E2.
Qed.
End view.

(** ** The queues of a set *)

Definition q_objs (q : mq_queue) : list nat := objs (hw_objs q) ++ objs (mq_unused q).
Definition all_objs (l : list (Z * mq_queue)) : list nat := concat ((fun x => q_objs x.2) <$> l).
Definition pair_objs (l : list (Z * elv_ops * nat)) : list nat := l.*2.

Lemma all_objs_cons x l : all_objs (x :: l) = q_objs x.2 ++ all_objs l.
Proof. done. Qed.

Definition unshared (h : blk_mq_hw_ctx) : Prop := has_flag (h_flags h) BLK_MQ_F_TAG_SHARED = false.

Section shape.
Context (possible : list Z).

(** Every hardware queue of [q] is set up and satisfies [P]; the unused ones are
    idle; every CPU has a software queue. *)
Record qshape (P : blk_mq_hw_ctx -> Prop) (q : mq_queue) : Prop := {
  qs_len : length (mq_parts q) = length (queue_hw_ctx (mq_rq q));
  qs_slots : Z.of_nat (length (mq_parts q)) <= mq_slots q;
  qs_active : Forall active (mq_parts q);
  qs_hw : Forall P (queue_hw_ctx (mq_rq q));
  qs_unused : Forall unused_ok (mq_unused q);
  qs_ctx : ctx_ready possible (mq_rq q);
}.

Lemma shape_ok set q L s :
  qshape quiet q -> heap_wf (q_objs q ++ L) s -> queue_ok (fun _ _ => False) set q L s.
Proof.
  intros [S1 S2 S3 S4 S5 S6] H. split; try done.
  - intros k h Hk. left. by eapply Forall_lookup_1 in S4.
  - unfold q_objs in H. by rewrite <- (assoc_L (++)) in H.
Qed.

Lemma shape_of_ok set q L s :
  queue_ok (fun _ _ => False) set q L s -> ctx_ready possible (mq_rq q) -> qshape quiet q /\ heap_wf (q_objs q ++ L) s.
Proof.
  intros [Q1 Q2 Q3 Q4 Q5 Q6] Hc. split.
  - split; try done. apply Forall_lookup. intros k h Hk. by destruct (Q4 k h Hk) as [?|(? & _)].
  - unfold q_objs. by rewrite <- (assoc_L (++)).
Qed.

(** The request queue changes, the objects do not. *)
Lemma shape_rq P Q q r :
  qshape P q -> (view r).1 = (view (mq_rq q)).1 -> Forall Q (queue_hw_ctx r) -> qshape Q (q <| mq_rq := r |>).
Proof.
  intros [S1 S2 S3 S4 S5 S6] Hv HQ. split; try done; simpl.
  - by rewrite (view_length _ _ Hv).
  - by eapply view_ctx.
Qed.

Lemma view_unshared q q' :
  (view q').1 = (view q).1 -> Forall unshared (queue_hw_ctx q) -> Forall unshared (queue_hw_ctx q').
Proof.
  intros [= Hf _] H. assert (Forall (fun f => has_flag f BLK_MQ_F_TAG_SHARED = false) (flags_of q')) as H'.
  { rewrite Hf. unfold flags_of. by rewrite Forall_fmap. }
  unfold flags_of in H'. by rewrite Forall_fmap in H'.
Qed.

Lemma rq_objs q r : length (queue_hw_ctx r) = length (queue_hw_ctx (mq_rq q)) -> q_objs (q <| mq_rq := r |>) = q_objs q.
Proof.
  intros H. unfold q_objs, hw_objs, objs. simpl. f_equal. f_equal.
  revert H. generalize (queue_hw_ctx (mq_rq q)) (queue_hw_ctx r) (mq_parts q). intros l l' ps. revert l l'.
  induction ps as [|p ps IH]; intros [|h l] [|h' l'] H; try done. simpl in *. f_equal. apply IH. lia.
Qed.
End shape.

(** ** One pass *)

Section pass.
Context {mm : MqMem} {ml : MqMemLaws mm} {me : MapEnv} {sch : MqSched} {he : HctxEnv} {hl : HctxLaws he}.
Context (e : run_env) (possible : list Z) (blk_mq_map_queues : blk_mq_queue_map -> Z * blk_mq_queue_map).
Hypothesis Hcpus : Z.of_nat (length possible) <= nr_cpu_ids e < 2 ^ 16.
Abbreviation shape := (qshape possible) (only parsing).

(** What a pass keeps of a queue. *)
Definition pass_keeps (n : Z) (x y : Z * mq_queue) : Prop :=
  y.1 = x.1 /\ elevator (mq_rq y.2) = elevator (mq_rq x.2) /\ mq_slots y.2 = mq_slots x.2
  /\ (nr_hw_queues (mq_rq y.2) = n \/ nr_hw_queues (mq_rq y.2) = nr_hw_queues (mq_rq x.2)).

(** The set for [n] hardware queues. *)
Definition set_for (n : Z) (set : blk_mq_tag_set) : Prop :=
  set_nr_hw_queues set = n /\ 0 < n /\ map_ready possible n set.

Lemma realloc_step n set q L s :
  set_for n set -> n <= mq_slots q -> nr_hw_queues (mq_rq q) <= Z.of_nat (length (ts_tags set)) ->
  shape quiet q -> heap_wf (q_objs q ++ L) s ->
  exists set' q' s', blk_mq_realloc_hw_ctxs e set q s = Some (set', q', s') /\ shape quiet q' /\ heap_wf (q_objs q' ++ L) s'
    /\ (nr_hw_queues (mq_rq q') = n
        \/ nr_hw_queues (mq_rq q') = nr_hw_queues (mq_rq q) /\ nr_hw_queues (mq_rq q) < n /\ ~ env_ok)
    /\ set_for n set' /\ set_same set set' /\ elevator (mq_rq q') = elevator (mq_rq q) /\ mq_slots q' = mq_slots q
    /\ q' = q <| mq_rq := mq_rq q' |> <| mq_parts := mq_parts q' |> <| mq_unused := mq_unused q' |>.
Proof.
  intros (Hn & Hpos & R) Hsl Hts Hq Hw. pose proof (mr_tags _ _ _ R) as Ht.
  destruct (realloc_hw_ctxs_ok e (fun _ _ => False) set q L s) as (set' & q' & s' & E & Hok & Hnr & (T1 & T2 & _) & _ & F1 & F2);
    [|lia|lia|done|by eapply shape_ok| |].
  - apply aget_lt. rewrite (mr_types _ _ _ R). unfold HCTX_TYPE_DEFAULT. lia.
  - intros k h Hk _. eapply Forall_lookup_1; [apply (qs_hw _ _ _ Hq)|done].
  - destruct (shape_of_ok possible set' q' L s' Hok) as [S1 S2].
    { intros c Hc. rewrite F2. apply (qs_ctx _ _ _ Hq c Hc). }
    exists set', q', s'. rewrite <- Hn in *. split; [done|]. split; [done|]. split; [done|]. split; [done|].
    rewrite T1. split; [split; [done|split; [done|by apply ready_tags]]|]. split; [by split|].
    split; [by rewrite F2|]. split; [by rewrite F1|done].
Qed.

Lemma swqueue_step n set q L s :
  set_for n set -> nr_hw_queues (mq_rq q) = n -> shape quiet q -> heap_wf (q_objs q ++ L) s ->
  exists set' q' s', map_swqueue e possible set q s = Some (set', q', s') /\ shape quiet q' /\ heap_wf (q_objs q' ++ L) s'
    /\ nr_hw_queues (mq_rq q') = n
    /\ set_for n set' /\ set_same set set' /\ elevator (mq_rq q') = elevator (mq_rq q) /\ mq_slots q' = mq_slots q
    /\ q' = q <| mq_rq := mq_rq q' |>.
Proof.
  intros (Hn & Hpos & R) Hnr Hq Hw. unfold map_swqueue.
  destruct (map_swqueue_total e possible Hcpus set (hp_mem s) (mq_rq q)) as (set' & m' & r & -> & R' & S' & F' & C');
    [by rewrite Hnr|apply Hq|lia|]. cbn [mbind option_bind].
  assert (length (queue_hw_ctx r) = length (queue_hw_ctx (mq_rq q))) as Hl by (by rewrite <- !frame_length, F').
  do 3 eexists. split; [done|]. split; [|split; [|split; [|split; [|split; [done|split; [|done]]]]]].
  - destruct Hq as [S1 S2 S3 S4 S5 S6]. split; try done; simpl; [by rewrite Hl|].
    apply (f_equal fst) in F'. simpl in F'. apply Forall_lookup. intros k h' Hk.
    apply (f_equal (.!! k)) in F'. rewrite !list_lookup_fmap, Hk in F'. simpl in F'.
    destruct (queue_hw_ctx (mq_rq q) !! k) as [h|] eqn:Ek; [|done]. injection F' as E1 E2 E3.
    apply (quiet_same h); [done|done|]. by eapply Forall_lookup_1.
  - rewrite rq_objs by done. by apply heap_wf_mem.
  - unfold nr_hw_queues in *. simpl. by rewrite Hl.
  - rewrite Hnr in R'. split; [|done]. destruct S' as (_ & -> & _). done.
  - apply (f_equal snd) in F'. apply (f_equal elevator) in F'. done.
Qed.

Lemma update_queues_ok n l set L s :
  set_for n set -> Forall (fun x => shape quiet x.2 /\ n <= mq_slots x.2
    /\ nr_hw_queues (mq_rq x.2) <= Z.of_nat (length (ts_tags set))) l ->
  heap_wf (all_objs l ++ L) s ->
  exists ok set' l' s', update_queues e possible set l s = Some (ok, set', l', s') /\ set_for n set' /\ set_same set set'
    /\ Forall (fun x => shape quiet x.2) l' /\ heap_wf (all_objs l' ++ L) s' /\ Forall2 (pass_keeps n) l l'
    /\ if ok : bool then Forall (fun x => nr_hw_queues (mq_rq x.2) = n) l'
       else ~ env_ok /\ Exists (fun x => nr_hw_queues (mq_rq x.2) < n) l.
Proof.
  revert set L s. induction l as [|[i q] l IH]; intros set L s Hset Hl Hw; cbn [update_queues].
  { exists true, set, [], s. split_and!; try done. }
  apply Forall_cons in Hl as [(Hq & Hsl & Hts) Hl]. rewrite all_objs_cons, <- (assoc_L (++)) in Hw. simpl in Hq, Hsl, Hts, Hw.
  destruct (realloc_step n set q _ s Hset Hsl Hts Hq Hw) as (set1 & q1 & s1 & -> & Q1 & W1 & N1 & E1 & T1 & V1 & B1 & _).
  cbn [mbind option_bind]. destruct (Z.eqb_spec (nr_hw_queues (mq_rq q1)) (set_nr_hw_queues set1)) as [Eq|Ne]; cbn [negb].
  - rewrite (proj1 E1) in Eq.
    destruct (swqueue_step n set1 q1 _ s1 E1 Eq Q1 W1) as (set2 & q2 & s2 & -> & Q2 & W2 & N2 & E2 & T2 & V2 & B2 & _).
    cbn [mbind option_bind]. assert (set_same set set2) as T by (by eapply set_same_trans).
    destruct (IH set2 (q_objs q2 ++ L) s2) as (ok & set3 & l3 & s3 & -> & A1 & A2 & A3 & A4 & A5 & A6); [done| | |].
    + destruct T as (_ & _ & -> & _). done.
    + clear -W2. eapply heap_wf_perm; [|reflexivity|exact W2]. perm.
    + cbn [mbind option_bind]. do 4 eexists. split; [done|]. split; [done|]. split; [by eapply set_same_trans|].
      split; [by constructor|]. split; [|split].
      * rewrite all_objs_cons. clear -A4. eapply heap_wf_perm; [|reflexivity|exact A4]. simpl. perm.
      * constructor; [|done]. split; [done|]. simpl. split; [congruence|]. split; [congruence|]. by left.
      * destruct ok; [by constructor|]. destruct A6. split; [done|]. by right.
  - rewrite (proj1 E1) in Ne. destruct N1 as [?|(N1 & N2 & N3)]; [done|].
    do 4 eexists. split; [done|]. split; [done|]. split; [done|]. split; [|split; [|split]].
    + constructor; [done|]. eapply Forall_impl; [done|]. tauto.
    + by rewrite all_objs_cons, <- (assoc_L (++)).
    + constructor; [split_and!; (done || by right)|]. apply Forall_Forall2_diag. apply Forall_true. intros x. split_and!; (done || by right).
    + split; [done|]. by left.
Qed.

(** ** At most two passes *)

(** The default map computed again for [prev] queues. *)
Definition falls_back (n prev : Z) : Prop :=
  forall set set', set_for n set -> fall_back blk_mq_map_queues prev set = Some set' -> map_ready possible prev set'.

Lemma fall_back_total n prev set :
  set_for n set -> falls_back n prev ->
  exists set', fall_back blk_mq_map_queues prev set = Some set' /\ set_nr_hw_queues set' = prev
    /\ ts_tags set' = ts_tags set /\ map_ready possible prev set'.
Proof.
  intros H Hb. destruct (fall_back blk_mq_map_queues prev set) as [set'|] eqn:Ef.
  - exists set'. split; [done|]. pose proof (Hb set set' H Ef) as R. revert Ef. unfold fall_back, mod_map.
    intros (x1 & _ & Ef)%bind_Some. apply bind_Some in Ef as (mp & _ & [= <-]). done.
  - exfalso. revert Ef. unfold fall_back, mod_map, amod.
    assert (length (set_map set) = 3%nat) as H3 by (destruct H as (_ & _ & R); apply R).
    change (set_map (set <| set_nr_hw_queues := prev |>)) with (set_map set).
    destruct (aget_lt (set_map set) HCTX_TYPE_DEFAULT) as [mp ->]; [unfold HCTX_TYPE_DEFAULT; lia|]. cbn [mbind option_bind].
    by rewrite aset_lt by (unfold HCTX_TYPE_DEFAULT; lia).
Qed.

Lemma update_passes_ok n prev l set L s :
  set_for n set -> 0 < prev <= Z.of_nat (length (ts_tags set)) -> env_ok \/ n <= prev \/ falls_back n prev ->
  Forall (fun x => shape quiet x.2 /\ n <= mq_slots x.2 /\ nr_hw_queues (mq_rq x.2) = prev) l ->
  heap_wf (all_objs l ++ L) s ->
  exists set' l' s' n', update_passes e possible blk_mq_map_queues 2 prev set l s = Some (set', l', s')
    /\ (n' = n \/ n' = prev /\ ~ env_ok) /\ set_nr_hw_queues set' = n'
    /\ Forall (fun x => shape quiet x.2 /\ nr_hw_queues (mq_rq x.2) = n') l' /\ heap_wf (all_objs l' ++ L) s'
    /\ Forall2 (fun x y => y.1 = x.1 /\ elevator (mq_rq y.2) = elevator (mq_rq x.2) /\ mq_slots y.2 = mq_slots x.2) l l'.
Proof.
  intros Hset Hprev Hback Hl Hw. cbn [update_passes].
  destruct (update_queues_ok n l set L s) as (ok & set1 & l1 & s1 & -> & A1 & A2 & A3 & A4 & A5 & A6); [done| |done|].
  { eapply Forall_impl; [done|]. intros x (? & ? & ->). split_and!; (done || lia). }
  cbn [mbind option_bind]. destruct ok.
  { exists set1, l1, s1, n. split; [done|]. split; [by left|]. split; [apply A1|]. split; [by apply Forall_and|].
    split; [done|]. eapply Forall2_impl; [exact A5|]. intros x y (? & ? & ? & _). done. }
  destruct A6 as [Henv Hlt]. apply Exists_exists in Hlt as (x & Hx & Hlt).
  assert (prev < n) as Hpn by (eapply Forall_forall in Hl; [|done]; lia).
  destruct Hback as [?|[?|Hback]]; [done|lia|].
  destruct (fall_back_total n prev set1 A1 Hback) as (set2 & -> & N2 & T2 & R2). cbn [mbind option_bind].
  assert (length (ts_tags set2) = length (ts_tags set)) as Hlen by (rewrite T2; apply A2).
  destruct (update_queues_ok prev l1 set2 L s1) as (ok & set3 & l3 & s3 & -> & B1 & B2 & B3 & B4 & B5 & B6); [|  |done|].
  { split; [done|]. split; [lia|done]. }
  { apply Forall_lookup. intros k y Hy. destruct (Forall2_lookup_r _ _ _ _ _ A5 Hy) as (z & Hz & _ & _ & Hs & Hnr).
    eapply Forall_lookup_1 in Hl; [|done]. destruct Hl as (_ & H1 & H2). destruct A1 as (_ & _ & R1). pose proof (mr_tags _ _ _ R1) as Ht1.
    split; [by eapply Forall_lookup_1 in A3|]. rewrite T2, Hs. split; [lia|]. destruct A2 as (_ & _ & A2 & _). lia. }
  cbn [mbind option_bind]. destruct ok.
  - exists set3, l3, s3, prev. split; [done|]. split; [by right|]. split; [apply B1|]. split; [by apply Forall_and|].
    split; [done|]. eapply (Forall2_trans (pass_keeps n) (pass_keeps prev)); [|done|done].
    intros x1 x2 x3 (? & ? & ? & _) (? & ? & ? & _). split_and!; congruence.
  - exfalso. destruct B6 as [_ (y & Hy & Hy')%Exists_exists]. apply list_elem_of_lookup in Hy as [k Hy].
    destruct (Forall2_lookup_r _ _ _ _ _ A5 Hy) as (z & Hz & _ & _ & _ & Hnr).
    eapply Forall_lookup_1 in Hl; [|done]. lia.
Qed.
End pass.

(** ** The schedulers *)

Section switch.
Context {sch : MqSched} {he : HctxEnv} {laws : UpdateLaws sch he} (possible : list Z).
Abbreviation pairs := (list (Z * elv_ops * nat)) (only parsing).
Definition names (head : pairs) : list Z := head.*1.*1.

(** The scheduler that queue [x] gets back is [t]. *)
Definition owed (head : pairs) (x : Z * mq_queue) (t : option elv_ops) : Prop :=
  x.1 ∉ names head /\ elevator (mq_rq x.2) = t \/ exists t' qe, (x.1, t', qe) ∈ head /\ t = Some t'.

Lemma owed_cons n t qe head x o : x.1 <> n -> owed head x o -> owed ((n, t, qe) :: head) x o.
Proof.
  intros Hn [[H1 H2]|(t' & qe' & H1 & H2)]; [left|right].
  - split; [|done]. unfold names. simpl. rewrite not_elem_of_cons. done.
  - exists t', qe'. split; [by right|done].
Qed.

(** Queue [y] is queue [x] with another scheduler. *)
Definition switched (x y : Z * mq_queue) : Prop :=
  exists r, y = (x.1, x.2 <| mq_rq := r |>) /\ (view r).1 = (view (mq_rq x.2)).1.

Lemma switched_refl x : switched x x.
Proof. exists (mq_rq x.2). by destruct x as [n []]. Qed.

Lemma switched_objs l l' : Forall2 switched l l' -> all_objs l' = all_objs l /\ l'.*1 = l.*1.
Proof.
  induction 1 as [|x y l l' (r & -> & Hr) _ [IH1 IH2]]; [done|]. rewrite !all_objs_cons, IH1, !fmap_cons, IH2. cbn [fst snd].
  split; [|done]. f_equal. apply rq_objs. by apply view_length.
Qed.

Lemma switch_none_ok l head L s :
  NoDup l.*1 -> NoDup (names head) -> (forall n, n ∈ names head -> n ∉ l.*1) -> heap_wf (pair_objs head ++ L) s ->
  exists ok l' head' s', switch_none l head s = (ok, l', head', s') /\ Forall2 switched l l'
    /\ heap_wf (pair_objs head' ++ L) s' /\ (ok = false -> out_of_memory)
    /\ NoDup (names head') /\ (forall n, n ∈ names head' -> n ∈ names head \/ n ∈ l.*1)
    /\ (forall x, x ∈ head -> x ∈ head')
    /\ Forall2 (owed head') l' ((fun x => elevator (mq_rq x.2)) <$> l).
Proof.
  revert head s. induction l as [|[n q] l IH]; intros head s Hl Hh Hd Hw; cbn [switch_none].
  { exists true, [], head, s. split_and!; try done. intros n Hn. by left. }
  rewrite fmap_cons in Hl, Hd. apply NoDup_cons in Hl as [Hn Hl]. cbn [fst] in Hn, Hl, Hd. rewrite fmap_cons. cbn [snd].
  assert (n ∉ names head) as Hnh by (intros H; apply (Hd n H); left).
  unfold blk_mq_elv_switch_none. destruct (elevator (mq_rq q)) as [t|] eqn:Et.
  - pose proof (h_alloc_wf _ s Hw) as Ha. destruct (h_alloc s) as [[qe|] s1].
    + destruct Ha as [Ha _]. destruct (IH ((n, t, qe) :: head) s1) as (ok & l' & head' & s' & -> & H1 & H2 & H3 & H4 & H5 & H6 & H7); [done| | |done|].
      * unfold names. rewrite !fmap_cons. by constructor.
      * intros m. unfold names. rewrite !fmap_cons. intros [->|Hm]%elem_of_cons; [done|]. intros Hm'. apply (Hd m Hm). by right.
      * do 4 eexists. split; [done|]. split.
        { constructor; [|done]. eexists. split; [done|]. cbn [snd]. by rewrite switch_view. }
        split; [done|]. split; [done|]. split; [done|]. split; [|split].
        { intros m [Hm|Hm]%H5; [|right; by right]. unfold names in Hm. rewrite !fmap_cons in Hm.
          apply elem_of_cons in Hm as [->|Hm]; [right; left|by left]. }
        { intros x Hx. apply H6. by right. }
        constructor; [|done]. right. exists t, qe. split; [|done]. apply H6. left.
    + destruct Ha as (Ha & _ & Hf). do 4 eexists. split; [done|]. split; [apply Forall_Forall2_diag, Forall_true, switched_refl|].
      split; [done|]. split; [intros _; by eexists|]. split; [done|]. split; [by left|]. split; [done|].
      constructor; [by left|]. apply Forall2_fmap_r, Forall_Forall2_diag, Forall_forall. intros x Hx. left. split; [|done].
      intros Hx'. apply (Hd _ Hx'). right. by apply list_elem_of_fmap_2.
  - destruct (IH head s) as (ok & l' & head' & s' & -> & H1 & H2 & H3 & H4 & H5 & H6 & H7); [done|done| |done|].
    { intros m Hm Hm'. apply (Hd m Hm). by right. }
    do 4 eexists. split; [done|]. split; [constructor; [apply switched_refl|done]|]. split; [done|]. split; [done|]. split; [done|].
    split; [intros m [?|?]%H5; [by left|right; by right]|]. split; [done|]. constructor; [|done]. left. split; [|done].
    by intros [?|?]%H5.
Qed.

Lemma take_pair_in n t qe head :
  NoDup (names head) -> (n, t, qe) ∈ head -> exists head', take_pair n head = Some (t, qe, head') /\ head ≡ₚ (n, t, qe) :: head'.
Proof.
  induction head as [|[[m t'] qe'] head IH]; intros Hd Hin; [by apply not_elem_of_nil in Hin|].
  unfold names in Hd. rewrite !fmap_cons in Hd. apply NoDup_cons in Hd as [Hm Hd]. cbn [take_pair fst] in *.
  apply elem_of_cons in Hin as [[= <- <- <-]|Hin].
  - rewrite Z.eqb_refl. by exists head.
  - assert (n ∈ head.*1.*1) as Hn by (apply (list_elem_of_fmap_2 fst _ (n, t)); by apply (list_elem_of_fmap_2 fst _ (n, t, qe))).
    destruct (Z.eqb_spec m n) as [->|]; [done|]. destruct (IH Hd Hin) as (head' & -> & Hp). cbn [mbind option_bind].
    eexists. split; [done|]. rewrite Hp. constructor.
Qed.

Lemma take_pair_out n head : n ∉ names head -> take_pair n head = None.
Proof.
  induction head as [|[[m t'] qe'] head IH]; intros Hn; [done|]. unfold names in Hn. rewrite !fmap_cons in Hn.
  apply not_elem_of_cons in Hn as [Hne Hn]. cbn [take_pair fst] in *. destruct (Z.eqb_spec m n); [done|]. by rewrite IH.
Qed.

Lemma owed_perm n t qe head head' x o :
  head ≡ₚ (n, t, qe) :: head' -> x.1 <> n -> owed head x o -> owed head' x o.
Proof.
  intros Hp Hn [[H1 H2]|(t' & qe' & H1 & H2)]; [left|right].
  - split; [|done]. unfold names in *. rewrite Hp, !fmap_cons in H1. by apply not_elem_of_cons in H1 as [_ ?].
  - exists t', qe'. split; [|done]. rewrite Hp in H1. by apply elem_of_cons in H1 as [[= ? ? ?]|?].
Qed.

Lemma switch_back_ok l ts head L s :
  NoDup l.*1 -> NoDup (names head) -> (forall n, n ∈ names head -> n ∈ l.*1) -> heap_wf (pair_objs head ++ L) s ->
  Forall2 (owed head) l ts ->
  exists l' s', switch_back l head s = Some (l', [], s') /\ Forall2 switched l l' /\ heap_wf L s'
    /\ (fun x => elevator (mq_rq x.2)) <$> l' = ts.
Proof.
  revert ts head s. induction l as [|[n q] l IH]; intros ts head s Hl Hh Hd Hw Ho; cbn [switch_back].
  { apply Forall2_nil_inv_l in Ho as ->. destruct head as [|[[m ?] ?] head]; [by exists [], s|].
    destruct (not_elem_of_nil m). apply (Hd m). left. }
  apply Forall2_cons_inv_l in Ho as (o & ts' & Hx & Ho & ->).
  rewrite fmap_cons in Hl, Hd. apply NoDup_cons in Hl as [Hn Hl]. cbn [fst] in Hn, Hl, Hd.
  unfold blk_mq_elv_switch_back. destruct Hx as [[H1 H2]|(t & qe & H1 & ->)]; cbn [fst snd] in *.
  - rewrite (take_pair_out n head H1). cbn [mbind option_bind].
    destruct (IH ts' head s) as (l' & s' & -> & A1 & A2 & A3); [done|done| |done|done|].
    { intros m Hm. specialize (Hd m Hm). apply elem_of_cons in Hd as [->|?]; done. }
    cbn [mbind option_bind]. do 2 eexists. split; [done|]. split; [constructor; [apply switched_refl|done]|]. split; [done|].
    rewrite fmap_cons, A3. cbn [snd]. by rewrite H2.
  - destruct (take_pair_in n t qe head Hh H1) as (head' & -> & Hp).
    assert (heap_wf ([qe] ++ pair_objs head' ++ L) s) as Hw'.
    { eapply heap_wf_perm; [|reflexivity|exact Hw]. unfold pair_objs. by rewrite Hp. }
    destruct (h_free_wf qe _ s Hw') as (s1 & -> & W1 & _). cbn [mbind option_bind].
    assert (names head ≡ₚ n :: names head') as Hnm by (unfold names; by rewrite Hp).
    rewrite Hnm in Hh. apply NoDup_cons in Hh as [Hnh Hh].
    destruct (IH ts' head' s1) as (l' & s' & -> & A1 & A2 & A3); [done|done| |done| |].
    { intros m Hm. specialize (Hd m). rewrite Hnm in Hd. specialize (Hd ltac:(by right)). apply elem_of_cons in Hd as [->|?]; done. }
    { apply Forall2_same_length_lookup in Ho as [Ho1 Ho2]. apply Forall2_same_length_lookup. split; [done|].
      intros k x o Hk Hk'. eapply owed_perm; [done| |by eapply Ho2]. intros Ex. destruct Hn. rewrite <- Ex.
      apply (list_elem_of_fmap_2 fst). by eapply list_elem_of_lookup_2. }
    cbn [mbind option_bind]. do 2 eexists. split; [done|]. split.
    { constructor; [|done]. eexists. split; [done|]. cbn [snd]. by rewrite switch_view. }
    split; [done|]. rewrite fmap_cons, A3. cbn [snd]. f_equal.
    pose proof (switch_view (Some t) (mq_rq q)) as Hv. apply (f_equal snd) in Hv. exact Hv.
Qed.
End switch.

(** ** The operation *)

Section update.
Context {mm : MqMem} {ml : MqMemLaws mm} {me : MapEnv} {sch : MqSched} {he : HctxEnv} {hl : HctxLaws he}.
Context {ul : UpdateLaws sch he}.
Context (e : run_env) (possible : list Z) (is_kdump : bool) (blk_mq_map_queues : blk_mq_queue_map -> Z * blk_mq_queue_map)
  (map_queues : option (blk_mq_tag_set -> Z * blk_mq_tag_set)).
Hypothesis Hcpus : Z.of_nat (length possible) <= nr_cpu_ids e < 2 ^ 16.
Abbreviation shape := (qshape possible) (only parsing).

(** [f] keeps the layout of every queue and its scheduler. *)
Lemma on_rqs_ok (f : request_queue -> option request_queue) l :
  (forall q, exists q', f q = Some q' /\ view q' = view q) ->
  exists l', on_rqs f l = Some l' /\ Forall2 switched l l'
    /\ (fun x => elevator (mq_rq x.2)) <$> l' = (fun x => elevator (mq_rq x.2)) <$> l.
Proof.
  intros Hf. unfold on_rqs. induction l as [|[n q] l (l' & E & IH1 & IH2)]; [by exists []|].
  destruct (Hf (mq_rq q)) as (r & Er & Hr). cbn [mapM]. rewrite Er, E. cbn [mbind option_bind].
  eexists. split; [done|]. rewrite !fmap_cons, IH2. split; [constructor; [|done]|].
  - exists r. split; [done|]. cbn [snd]. by rewrite Hr.
  - f_equal. cbn [snd]. apply (f_equal snd) in Hr. exact Hr.
Qed.

(** Queues with another scheduler have the same shape. *)
Lemma switched_shape (P : mq_queue -> Prop) (Q Q' : blk_mq_hw_ctx -> Prop) l l' :
  (forall q r, P q -> P (q <| mq_rq := r |>)) ->
  (forall q q', (view q').1 = (view q).1 -> Forall Q (queue_hw_ctx q) -> Forall Q' (queue_hw_ctx q')) ->
  Forall2 switched l l' -> forall n,
  Forall (fun x => shape Q x.2 /\ P x.2 /\ nr_hw_queues (mq_rq x.2) = n) l ->
  Forall (fun x => shape Q' x.2 /\ P x.2 /\ nr_hw_queues (mq_rq x.2) = n) l'.
Proof.
  intros HP HQ H n. induction H as [|x y l l' (r & -> & Hr) _ IH]; [done|]. intros [(H1 & H2 & H3) Hl]%Forall_cons.
  constructor; [|by apply IH]. cbn [snd]. split; [|split].
  - eapply shape_rq; [done|done|]. eapply HQ; [done|]. apply H1.
  - by apply HP.
  - unfold nr_hw_queues in *. simpl. by rewrite (view_length _ _ Hr).
Qed.

Lemma switched_trans x y z : switched x y -> switched y z -> switched x z.
Proof.
  intros (r & -> & Hr) (r' & -> & Hr'). exists r'. split; [by destruct x as [n []]|]. simpl in *. congruence.
Qed.

(** Schedulers back and queues unfrozen. *)
Lemma finish_update (set : blk_mq_tag_set) (Q : blk_mq_hw_ctx -> Prop) l ts head n L s :
  NoDup l.*1 -> NoDup (names head) -> (forall m, m ∈ names head -> m ∈ l.*1) ->
  heap_wf (pair_objs head ++ all_objs l ++ L) s -> Forall2 (owed head) l ts ->
  Forall (fun x => shape Q x.2 /\ nr_hw_queues (mq_rq x.2) = n) l ->
  exists l' s', ('(l, _, s) ← switch_back l head s;
      l ← on_rqs (fun r => Some (blk_mq_unfreeze_queue r)) l; Some (set, l, s)) = Some (set, l', s')
    /\ Forall (fun x => shape (fun _ => True) x.2 /\ nr_hw_queues (mq_rq x.2) = n) l' /\ l'.*1 = l.*1
    /\ (fun x => elevator (mq_rq x.2)) <$> l' = ts /\ heap_wf (all_objs l' ++ L) s'.
Proof.
  intros Hnd Hh Hin Hw Ho Hl.
  destruct (switch_back_ok l ts head (all_objs l ++ L) s) as (l1 & s1 & -> & A1 & A2 & A3); [done..|]. cbn [mbind option_bind].
  destruct (on_rqs_ok (fun r => Some (blk_mq_unfreeze_queue r)) l1) as (l2 & -> & B1 & B2).
  { intros q. eexists. split; [done|]. apply unfreeze_view. }
  cbn [mbind option_bind]. do 2 eexists. split; [done|].
  assert (Forall2 switched l l2) as Hs by (eapply Forall2_trans; [apply switched_trans|done|done]).
  destruct (switched_objs l l2 Hs) as [-> ->]. split; [|split; [done|split; [congruence|done]]].
  eapply Forall_impl; [eapply (switched_shape (fun _ => True) Q (fun _ => True)); [done| |exact Hs|]|].
  - intros q q' _ _. by apply Forall_true.
  - eapply Forall_impl; [exact Hl|]. intros x [H1 H2]. split; [exact H1|]. split; [done|exact H2].
  - simpl. tauto.
Qed.

(** The number of hardware queues that is set up. *)
Definition asked (nr : Z) (set : blk_mq_tag_set) : Z :=
  if (nr_maps set =? 1) && (nr_cpu_ids e <? nr) then nr_cpu_ids e else nr.

Lemma unshared_quiet q : Forall unshared (queue_hw_ctx q) -> Forall quiet (queue_hw_ctx q).
Proof. intros H. eapply Forall_impl; [done|]. intros h Hh. unfold quiet. by rewrite Hh. Qed.

End update.

(** ** Changing the number of hardware queues: examples

    A machine with two CPUs and a queue with one hardware queue, which grows to two:
    with enough memory, and with the failure that makes the code fall back. *)

Definition free_parts (p : hctx_parts) (s : heap) : option heap :=
  s ← h_free (hp_fq p) s; s ← h_free (hp_ctx_map p) s; s ← h_free (hp_ctxs p) s; s ← h_free (hp_cpumask p) s;
  h_free (hp_self p) s.

(** An allocation fails when [bad] holds of its number. *)
Definition ex_hctx_env (bad : nat -> bool) : HctxEnv := {|
  hctx_alloc_ok := fun n => negb (bad n);
  drv_init_hctx := None;
  flush_rq := fun _ => 0;
  hw_queue_to_node := fun _ _ => 0;
  tag_idle_hctx := fun h => h <| h_state ::= fun z => Z.clearbit z BLK_MQ_S_TAG_ACTIVE |>;
  tag_idle_uses_tags := fun h => has_flag (h_flags h) BLK_MQ_F_TAG_SHARED && test_bit BLK_MQ_S_TAG_ACTIVE (h_state h);
  hctx_release := free_parts;
  mq_sysfs_deinit := fun c s => s ← h_free c.2 s; h_free c.1 s;
  elevator_switch := fun t q => q <| elevator := t |>;
  elevator_init_mq := fun q => q;
  freeze_wait := fun q => q;
  HZ := 250;
|}.

Lemma ex_hctx_laws bad : HctxLaws (ex_hctx_env bad).
Proof.
  split; try done.
  - intros h. simpl. by intros [H1 H2]%andb_true_iff.
  - intros h. apply (Z.clearbit_eq (h_state h) BLK_MQ_S_TAG_ACTIVE).
  - intros p L s H. change (hctx_release p s) with (free_parts p s). unfold free_parts.
    assert (heap_wf ([hp_fq p] ++ [hp_ctx_map p] ++ [hp_ctxs p] ++ [hp_cpumask p] ++ [hp_self p] ++ L) s) as H0.
    { eapply heap_wf_perm; [|reflexivity|exact H]. clear.
      change (parts_objs p) with ([hp_self p] ++ [hp_cpumask p] ++ [hp_ctxs p] ++ [hp_ctx_map p] ++ [hp_fq p]). perm. }
    do 5 (match goal with W : heap_wf ([?n] ++ ?L) ?s |- context [h_free ?n ?s] =>
      let s' := fresh "s" in let E := fresh "E" in destruct (h_free_wf n L s W) as (s' & E & ? & ?); rewrite E; cbn [mbind option_bind] end).
    eexists. split; [done|]. split; [done|]. congruence.
Qed.

Lemma ex_update_laws bad : UpdateLaws ex_sched (ex_hctx_env bad).
Proof. by split. Qed.

(** One queue with one hardware queue. *)
Definition ex_elv : elv_ops := mk_elv_ops None None None false (fun r => r).
Definition ex_hctx : blk_mq_hw_ctx := hctx0 <| h_ctxs := [0; 1] |> <| nr_ctx := 2 |> <| cpumask := [0; 1] |> <| tags := Some 0 |>.
Definition ex_rq : request_queue :=
  queue0 <| elevator := Some ex_elv |> <| queue_ctx := [ctx0; ctx0 <| cpu := 1 |>] |> <| queue_hw_ctx := [ex_hctx] |>.
Definition ex_q : mq_queue :=
  mk_mqq ex_rq [mk_parts 0 1 2 3 4 true true true] 2 (Some 5%nat) (Some (6, 7)%nat) (Some 8%nat) [] true 0.
Definition ex_tag_set : blk_mq_tag_set :=
  mk_tag_set [mk_queue_map [0; 0] 1 0; ex_map; ex_map] 1 1 1 0 100 0 0 [Some (ex_ts 0); None].
Definition ex_tag_set2 : blk_mq_tag_set :=
  mk_tag_set [mk_queue_map [0; 1] 2 0; ex_map; ex_map] 1 2 1 0 100 0 0 [Some (ex_ts 0); None].
Definition ex_heap : heap := mk_heap [0; 1; 2; 3; 4; 5; 6; 7; 8]%nat 9 ex_free.

Definition ex_update (bad : nat -> bool) (nr : Z) :=
  @blk_mq_update_nr_hw_queues (ex_mem (fun _ => false)) ex_map_env ex_sched (ex_hctx_env bad) ex_two [0; 1] false
    ex_map_queues None nr ex_tag_set [(0, ex_q)] ex_heap.

Lemma ex_heap_ok : heap_wf (all_objs [(0, ex_q)] ++ [5; 6; 7; 8]%nat) ex_heap.
Proof.
  split; [reflexivity| |].
  - apply (bool_decide_unpack _). vm_compute. exact I.
  - intros n. simpl. rewrite !elem_of_cons, elem_of_nil. lia.
Qed.

Lemma ex_q_shape : qshape [0; 1] unshared ex_q.
Proof.
  split; [done|simpl; lia|repeat constructor|repeat constructor|constructor|].
  intros c. rewrite !elem_of_cons, elem_of_nil. intros [->|[->|[]]]; eexists; split; [reflexivity|done|reflexivity|done].
Qed.

Lemma ex_set_for : exists r set1,
  @blk_mq_update_queue_map false ex_map_queues None (ex_tag_set <| set_nr_hw_queues := 2 |>) = Some (r, set1)
    /\ @set_for (ex_mem (fun _ => false)) [0; 1] 2 set1 /\ 1 <= Z.of_nat (length (ts_tags set1)).
Proof.
  exists 0, ex_tag_set2. split; [reflexivity|]. split; [|simpl; lia]. split; [done|]. split; [lia|]. split; [done|simpl; lia| |done|split; vm_compute; done].
  intros j c Hj. change (nr_maps _) with 1 in Hj. assert (j = 0) as -> by lia. rewrite !elem_of_cons, elem_of_nil.
  intros [->|[->|[]]]; eexists; (split; [reflexivity|simpl; lia]).
Qed.


(** A growth that fails ends in undefined behaviour.  The queue has one hardware
    queue and there is no memory for the second one (objects from number 12 on).  The
    first pass leaves the queue as it was and the code falls back to one queue, but
    it computes the default map again with the new [nr_queues], so that CPU 1 is
    mapped to a hardware queue that does not exist, and [blk_mq_map_swqueue]
    dereferences it.  With memory the same update succeeds. *)
Lemma update_fallback_undefined :
  ex_update (fun n => (12 <=? n)%nat) 2 = None /\ is_Some (ex_update (fun _ => false) 2)
  /\ exists set s, @update_queues (ex_mem (fun _ => false)) ex_map_env (ex_hctx_env (fun n => (12 <=? n)%nat)) ex_two [0; 1]
        ex_tag_set2 [(0, ex_q)] ex_heap
      = Some (false, set, [(0, ex_q)], s)
    /\ (fun set => mq_map <$> set_map set) <$> fall_back ex_map_queues 1 set = Some [[0; 1]; []; []].
Proof. split; [vm_compute; reflexivity|]. split; [vm_compute; by eexists|]. do 2 eexists. split; vm_compute; reflexivity. Qed.

(** A queue with two hardware queues that shares its tags and is an active user of
    those of the second one. *)
Definition ex_shared_hctx (i : Z) : blk_mq_hw_ctx :=
  hctx0 <| h_ctxs := [i] |> <| nr_ctx := 1 |> <| cpumask := [i] |> <| tags := Some i |> <| queue_num := i |>
    <| h_flags := BLK_MQ_F_TAG_SHARED |> <| h_state := Z.shiftl 1 BLK_MQ_S_TAG_ACTIVE |>.
Definition ex_shared_q : mq_queue :=
  mk_mqq (ex_rq <| queue_hw_ctx := [ex_shared_hctx 0; ex_shared_hctx 1] |>)
    [mk_parts 0 1 2 3 4 true true true; mk_parts 5 6 7 8 9 true true true] 2 (Some 10%nat) (Some (11, 12)%nat) (Some 13%nat) [] true 0.
Definition ex_shared_set (nr : Z) : blk_mq_tag_set :=
  mk_tag_set [mk_queue_map [0; 1] nr 0; ex_map; ex_map] 1 nr 1 0 100 0 BLK_MQ_F_TAG_SHARED [Some (ex_ts 0); Some (ex_ts 1)].

(** Removing a hardware queue that is an active user of shared tags releases the tags
    before [blk_mq_tag_idle] uses them; an idle one is removed without harm. *)
Lemma shrink_active_undefined :
  let realloc q := @blk_mq_realloc_hw_ctxs (ex_mem (fun _ => false)) (ex_hctx_env (fun _ => false)) ex_two (ex_shared_set 1) q
                     (mk_heap (seq 0 14) 14 ex_free) in
  realloc ex_shared_q = None /\
  is_Some (realloc (ex_shared_q <| mq_rq ::= fun r => r <| queue_hw_ctx ::= fmap (fun h => h <| h_state := 0 |>) |> |>)).
Proof. split; [vm_compute; reflexivity|vm_compute; by eexists]. Qed.
