(* ===== verification/BlkMqInitSpec.v ===== *)
(** * Set-up of a request queue

    The memory of [blk_mq_init_allocated_queue]: a queue that is set up owns what was
    allocated for it; after a failure everything is released except the hardware
    queues that had been created. *)
From S2P Require Import Prelude MqTypes BlkSwitch BlkMqAlloc BlkMqRun BlkMqRunSpec BlkMqTagSet BlkMqTagSetSpec BlkMqTagSetTop.
From S2P Require Import BlkMqMap BlkMqMapSpec BlkMqShareSpec BlkMqHctx BlkMqUpdate BlkMqHctxSpec BlkMqTotal BlkMqUpdateSpec.

(** The release of the software queues, and the choice of a scheduler. *)
Class InitLaws (he : HctxEnv) : Prop := {
  deinit_spec cs pc L s : heap_wf ([cs] ++ [pc] ++ L) s ->
    exists s', mq_sysfs_deinit (cs, pc) s = Some s' /\ heap_wf L s' /\ hp_mem s' = hp_mem s;
  elevator_init_view q : (view (elevator_init_mq q)).1 = (view q).1;
}.

Section init.
Context {mm : MqMem} {ml : MqMemLaws mm} {me : MapEnv} {sch : MqSched} {he : HctxEnv} {hl : HctxLaws he}.
Context {ul : UpdateLaws sch he} {il : InitLaws he}.
Context (e : run_env) (possible : list Z).
Hypothesis Hcpus : Z.of_nat (length possible) <= nr_cpu_ids e < 2 ^ 16.
Hypothesis Hids : Forall (fun c => 0 <= c < nr_cpu_ids e) possible.

Lemma init_cpu_total set nr q i :
  map_ready possible (nr_hw_queues q) set -> ctx_ready possible q -> i ∈ possible ->
  exists q', init_cpu_queue set nr q i = Some q' /\ ctx_ready possible q' /\ nr_hw_queues q' = nr_hw_queues q.
Proof.
  intros R C Hi. destruct (C i Hi) as (ctx & H1 & H2 & H3). unfold init_cpu_queue. rewrite H1. cbn [mbind option_bind].
  apply foldM_total.
  - intros j q' Hj%elem_of_seqZ [Hc Hn]. destruct (mr_range _ _ _ R j i) as (hi & -> & Hhi); [lia|done|]. cbn [mbind option_bind].
    destruct (aget_lt (queue_hw_ctx q') hi) as [h ->]; [unfold nr_hw_queues in *; lia|]. cbn [mbind option_bind].
    case_bool; [|by exists q']. eexists. split; [done|]. split; [done|]. rewrite <- Hn. unfold nr_hw_queues. simpl. by rewrite length_insert.
  - split; [|done]. by eapply ctx_ready_set.
Qed.

Lemma init_cpus_total set nr q :
  map_ready possible (nr_hw_queues q) set -> ctx_ready possible q ->
  exists q', blk_mq_init_cpu_queues possible set nr q = Some q' /\ ctx_ready possible q' /\ nr_hw_queues q' = nr_hw_queues q.
Proof.
  intros R C. unfold blk_mq_init_cpu_queues.
  apply (foldM_total _ (fun q' => ctx_ready possible q' /\ nr_hw_queues q' = nr_hw_queues q)); [|done].
  intros i q' Hi [Hc Hn]. destruct (init_cpu_total set nr q' i) as (q2 & E & C2 & N2); [by rewrite Hn|done|done|].
  exists q2. split; [done|]. split; [done|lia].
Qed.

Lemma update_depth_total l shared :
  exists l', blk_mq_update_tag_set_depth e l shared = Some l' /\ l'.*1 = l.*1.
Proof.
  unfold blk_mq_update_tag_set_depth. induction l as [|[n q] l (l' & E & A)]; [by exists []|].
  assert (exists q', blk_freeze_queue_start e q = Some q') as [q' Eq].
  { destruct (freeze_view e q) as (q' & E' & _). unfold blk_mq_freeze_queue in E'. apply bind_Some in E' as (q1 & E1 & _). by exists q1. }
  cbn [mapM]. rewrite Eq. cbn [mbind option_bind]. rewrite E. cbn [mbind option_bind]. eexists. split; [done|]. by rewrite !fmap_cons, A.
Qed.

(** The new queue is the last one; it keeps its queues. *)
Lemma add_queue_total set l n q :
  exists set' l' q', blk_mq_add_queue_tag_set e set l n q = Some (set', l' ++ [(n, q')]) /\ l'.*1 = l.*1
    /\ queue_ctx q' = queue_ctx q /\ nr_hw_queues q' = nr_hw_queues q
    /\ (forall nr, map_ready possible nr set -> map_ready possible nr set') /\ set_nr_hw_queues set' = set_nr_hw_queues set.
Proof.
  unfold blk_mq_add_queue_tag_set.
  assert (exists set' l', (if negb (bool_decide (l = [])) && negb (has_flag (set_flags set) BLK_MQ_F_TAG_SHARED) then
       l ← blk_mq_update_tag_set_depth e l true;
       Some (set <| set_flags ::= fun f => Z.lor f BLK_MQ_F_TAG_SHARED |>, l)
     else Some (set, l)) = Some (set', l') /\ l'.*1 = l.*1
     /\ (forall nr, map_ready possible nr set -> map_ready possible nr set') /\ set_nr_hw_queues set' = set_nr_hw_queues set)
    as (set' & l' & -> & H1 & H2 & H3).
  { destruct (negb _ && _); [|by exists set, l]. destruct (update_depth_total l true) as (l' & -> & H). cbn [mbind option_bind].
    do 2 eexists. split; [done|]. split; [done|]. split; [|done]. intros nr [R1 R2 R3 R4 [D1 D2 D3]]. split; try done. }
  cbn [mbind option_bind]. do 3 eexists. split; [done|]. split; [done|]. destruct (has_flag _ _); (split; [done|]; split; [|done]); [|done].
  unfold nr_hw_queues. simpl. by rewrite length_fmap.
Qed.

Lemma with_rqs_names l rqs : length rqs = length l -> (with_rqs l rqs).*1 = l.*1.
Proof.
  unfold with_rqs. revert rqs. induction l as [|x l IH]; intros [|y rqs] [=]; [done|]. cbn [zip_with]. rewrite !fmap_cons. f_equal. by apply IH.
Qed.

(** The error path from the release of the software queues on. *)
Lemma err_sys_init_ok q cs pc cb L s :
  mq_ctxs q = Some (cs, pc) -> mq_poll_cb q = Some cb -> heap_wf ([cs] ++ [pc] ++ [cb] ++ L) s ->
  exists s', err_sys_init q s = Some (- ENOMEM, q <| mq_poll_cb := None |> <| mq_ops := false |>, s') /\ heap_wf L s'.
Proof.
  intros H1 H2 W. unfold err_sys_init. rewrite H1. destruct (deinit_spec cs pc _ s W) as (s1 & -> & W1 & _). cbn [mbind option_bind].
  unfold err_poll. rewrite H2. destruct (h_free_wf cb L s1 W1) as (s2 & -> & W2 & _). by exists s2.
Qed.

(** What a queue owns besides its hardware queues. *)
Definition aux_objs (q : mq_queue) : list nat :=
  match mq_array q with Some a => [a] | None => [] end ++ match mq_ctxs q with Some (cs, pc) => [cs] ++ [pc] | None => [] end
  ++ match mq_poll_cb q with Some p => [p] | None => [] end.

(** The software queues. *)
Lemma init_ctxs_ok q cb L s :
  heap_wf ([cb] ++ L) s ->
  exists ret q' s', blk_mq_alloc_ctxs e q s = Some (ret, q', s')
    /\ (ret = - ENOMEM /\ q' = q /\ heap_wf ([cb] ++ L) s' /\ out_of_memory
       \/ ret = 0 /\ exists cs pc, q' = q <| mq_ctxs := Some (cs, pc) |>
            <| mq_rq ::= fun r => r <| queue_ctx := replicate (Z.to_nat (nr_cpu_ids e)) ctx0 |> |>
            /\ heap_wf ([cs] ++ [pc] ++ [cb] ++ L) s').
Proof.
  intros W. unfold blk_mq_alloc_ctxs. pose proof (h_alloc_wf _ s W) as A. destruct (h_alloc s) as [[cs|] s1].
  2: { destruct A as (A & _ & F). do 3 eexists. split; [done|]. left. split_and!; try done. by eexists. }
  destruct A as [A _]. pose proof (h_alloc_wf _ s1 A) as B. destruct (h_alloc s1) as [[pc|] s2].
  - destruct B as [B _]. do 3 eexists. split; [done|]. right. split; [done|]. exists cs, pc. split; [done|].
    eapply heap_wf_perm; [|reflexivity|exact B]. clear. perm.
  - destruct B as (B & _ & F). destruct (h_free_wf cs _ s2 B) as (s3 & -> & W3 & _). cbn [mbind option_bind].
    do 3 eexists. split; [done|]. left. split_and!; try done. by eexists.
Qed.

Lemma fresh_ctx q : queue_ctx q = replicate (Z.to_nat (nr_cpu_ids e)) ctx0 -> ctx_ready possible q.
Proof.
  intros E c Hc. eapply Forall_forall in Hids; [|done]. exists ctx0. rewrite E. unfold aget.
  case_bool; [lia|]. rewrite lookup_replicate_2 by lia. done.
Qed.

(** A queue is added to the set and mapped. *)
Lemma init_rest_ok elevator_init timeout n set l q L s :
  set_for possible (nr_hw_queues (mq_rq q)) set -> qshape possible quiet q -> heap_wf (q_objs q ++ L) s ->
  exists set' l' q' s', (q ← init_fields timeout set q;
      r ← blk_mq_init_cpu_queues possible set (set_nr_hw_queues set) (mq_rq q);
      '(set, rqs) ← blk_mq_add_queue_tag_set e set (rqs_of l) n r;
      x ← last rqs;
      let l := with_rqs l rqs in
      '(set, q, s) ← map_swqueue e possible set (q <| mq_rq := x.2 |>) s;
      let q := if elevator_init : bool then q <| mq_rq ::= elevator_init_mq |> else q in
      Some (0, set, l ++ [(n, q)], q, s)) = Some (0, set', l' ++ [(n, q')], q', s')
    /\ l'.*1 = l.*1 /\ nr_hw_queues (mq_rq q') = nr_hw_queues (mq_rq q) /\ aux_objs q' = aux_objs q /\ mq_parts q' = mq_parts q
    /\ ctx_ready possible (mq_rq q') /\ heap_wf (q_objs q' ++ L) s' /\ mq_ops q' = mq_ops q.
Proof.
  intros (Hn & Hpos & R) [S1 S2 S3 S4 S5 S6] W. unfold init_fields.
  destruct (aget_lt (set_map set) HCTX_TYPE_POLL) as [mp ->]; [rewrite (mr_types _ _ _ R); unfold HCTX_TYPE_POLL; lia|].
  cbn [mbind option_bind mq_rq]. set (q1 := q <| mq_rq_timeout := _ |> <| mq_rq ::= _ |>).
  destruct (init_cpus_total set (set_nr_hw_queues set) (mq_rq q1)) as (r & -> & C1 & N1); [done|done|]. cbn [mbind option_bind].
  destruct (add_queue_total set (rqs_of l) n r) as (set' & l' & r' & -> & A1 & A2 & A3 & A4 & A5). cbn [mbind option_bind].
  rewrite last_snoc. cbn [mbind option_bind snd]. unfold map_swqueue.
  destruct (map_swqueue_total e possible Hcpus set' (hp_mem s) r') as (set2 & m2 & r2 & E2 & _ & _ & F2 & C2).
  { rewrite A3, N1. by apply A4. }
  { intros c Hc. rewrite A2. by apply C1. }
  { rewrite A3, N1. exact Hpos. }
  cbn [mq_rq hp_mem]. change (mq_rq (q1 <| mq_rq := r' |>)) with r'. rewrite E2. cbn [mbind option_bind].
  assert (length (queue_hw_ctx r2) = length (queue_hw_ctx (mq_rq q))) as Hl.
  { rewrite <- frame_length, F2, frame_length. unfold nr_hw_queues in A3, N1. change (mq_rq q1) with (mq_rq q1) in N1. simpl in N1. lia. }
  set (q2 := if elevator_init then _ else _). exists set2, (with_rqs l (l' ++ [(n, r')])), q2, (s <| hp_mem := m2 |>). split; [done|].
  assert (length (queue_hw_ctx (mq_rq q2)) = length (queue_hw_ctx (mq_rq q)) /\ ctx_ready possible (mq_rq q2)) as [Hl2 C3].
  { unfold q2. destruct elevator_init; [|done]. simpl.
    rewrite (view_length r2 (elevator_init_mq r2)) by apply elevator_init_view. split; [done|].
    eapply view_ctx; [apply elevator_init_view|done]. }
  split; [|split; [|split; [|split; [|split; [done|split]]]]].
  - assert (with_rqs l (l' ++ [(n, r')]) = with_rqs l l') as ->.
    { apply (f_equal length) in A1. unfold rqs_of in A1. rewrite !length_fmap in A1. unfold with_rqs.
      clear -A1. revert l' A1. induction l as [|x l IH]; intros [|y l'] [=]; [done|]. cbn. f_equal. by apply IH. }
    apply with_rqs_names. apply (f_equal length) in A1. unfold rqs_of in A1. by rewrite !length_fmap in A1.
  - unfold nr_hw_queues. by rewrite Hl2.
  - unfold q2. by destruct elevator_init.
  - unfold q2. by destruct elevator_init.
  - apply heap_wf_mem. replace (q_objs q2) with (q_objs (q <| mq_rq := mq_rq q2 |>)); [by rewrite rq_objs|].
    unfold q2, q_objs, hw_objs. by destruct elevator_init.
  - unfold q2. by destruct elevator_init.
Qed.

(** C24: the memory of [blk_mq_init_allocated_queue].  For a set whose maps name its
    hardware queues it always returns.  Either it succeeds: the queue is the last one
    of the set, it has as many hardware queues as the set, all initialised and
    registered, a software queue for every CPU, and owns what was allocated for it.
    Or an allocation or the driver failed: it returns -ENOMEM without [mq_ops] and
    has released everything, except for the hardware queues created before the
    failure, which stay on the list of unused queues of the queue. *)
Theorem init_allocated_queue_memory elevator_init timeout n set l q L s :
  set_for possible (set_nr_hw_queues set) set -> set_nr_hw_queues set <= nr_hw_queues_of (nr_cpu_ids e) set ->
  queue_hw_ctx (mq_rq q) = [] -> mq_parts q = [] -> mq_unused q = [] -> heap_wf L s ->
  exists ret set' l' q' s', blk_mq_init_allocated_queue e possible elevator_init timeout n set l q s = Some (ret, set', l', q', s')
    /\ (ret = 0 /\ l'.*1 = l.*1 ++ [n] /\ mq_ops q' = true /\ nr_hw_queues (mq_rq q') = set_nr_hw_queues set
          /\ Forall active (mq_parts q') /\ ctx_ready possible (mq_rq q') /\ heap_wf (q_objs q' ++ aux_objs q' ++ L) s'
        \/ ret = - ENOMEM /\ ~ env_ok /\ l' = l /\ mq_ops q' = false /\ nr_hw_queues (mq_rq q') = 0
          /\ heap_wf (objs (mq_unused q') ++ L) s').
Proof.
  intros Hset Hslots Hhw Hparts Hun W. unfold blk_mq_init_allocated_queue.
  pose proof (h_alloc_wf _ s W) as A. destruct (h_alloc s) as [[cb|] s1].
  2: { destruct A as (A & _ & F). cbn. do 5 eexists. split; [done|]. right. split; [done|]. split; [by apply oom_not_ok; eexists|].
    unfold nr_hw_queues. simpl. rewrite Hhw, Hun. done. }
  destruct A as [A _]. rewrite bool_decide_false by done.
  destruct (init_ctxs_ok (q <| mq_ops := true |> <| mq_poll_cb := Some cb |>) cb L s1 A) as (ret & q1 & s2 & -> & Hc).
  cbn [mbind option_bind]. destruct Hc as [(-> & -> & W2 & Ho)|(-> & cs & pc & -> & W2)].
  { change (c_true (- ENOMEM)) with true. cbn iota. unfold err_poll. cbn [mq_poll_cb].
    destruct (h_free_wf cb L s2 W2) as (s3 & E3 & W3 & _). cbn. rewrite E3. cbn [mbind option_bind].
    do 5 eexists. split; [done|]. right. split; [done|]. split; [by apply oom_not_ok|]. unfold nr_hw_queues. simpl. by rewrite Hhw, Hun. }
  change (c_true 0) with false. cbn iota. set (q1 := _ <| mq_slots := _ |>).
  pose proof (h_alloc_wf _ s2 W2) as B. destruct (h_alloc s2) as [[arr|] s3].
  2: { destruct B as (B & _ & F). rewrite bool_decide_true by done.
    destruct (err_sys_init_ok (q1 <| mq_array := None |> <| mq_unused := [] |>) cs pc cb L s3) as (s4 & -> & W4); [done|done|done|].
    cbn [mbind option_bind]. do 5 eexists. split; [done|]. right. split; [done|]. split; [by apply oom_not_ok; eexists|].
    unfold nr_hw_queues. simpl. by rewrite Hhw. }
  destruct B as [B _]. rewrite bool_decide_false by done. set (q2 := q1 <| mq_array := Some arr |> <| mq_unused := [] |>).
  assert (queue_hw_ctx (mq_rq q2) = [] /\ mq_parts q2 = []) as [Hh2 Hp2] by done.
  assert (qshape possible quiet q2) as Q2.
  { destruct Hset as (_ & Hpos & _). split; [by rewrite Hh2, Hp2|rewrite Hp2|by rewrite Hp2|by rewrite Hh2|done|by apply fresh_ctx].
    change (mq_slots q2) with (nr_hw_queues_of (nr_cpu_ids e) set). simpl. lia. }
  destruct (realloc_step e possible (set_nr_hw_queues set) set q2 ([arr] ++ [cs] ++ [pc] ++ [cb] ++ L) s3)
    as (set3 & q3 & s4 & -> & Q3 & W3 & N3 & E3 & _ & _ & _ & F3); [done|done|unfold nr_hw_queues; rewrite Hh2; simpl; lia|done| |].
  { unfold q_objs, hw_objs. rewrite Hp2. exact B. }
  cbn [mbind option_bind]. assert (nr_hw_queues (mq_rq q2) = 0) as N2 by (unfold nr_hw_queues; by rewrite Hh2).
  destruct Hset as (_ & Hpos & _). destruct N3 as [N3|(N3 & _ & Hbad)].
  - rewrite (proj2 (Z.eqb_neq _ _)) by lia. rewrite <- N3 in E3.
    destruct (init_rest_ok elevator_init timeout n set3 l q3 _ s4 E3 Q3 W3) as (set' & l' & q' & s' & E4 & R1 & R2 & R3 & R4 & R5 & R6 & R7).
    do 5 eexists. split; [exact E4|]. left. split; [done|]. split; [by rewrite fmap_app, R1|]. split; [rewrite R7, F3; done|].
    split; [lia|]. split; [rewrite R4; apply Q3|]. split; [done|]. rewrite R3, F3. exact R6.
  - rewrite N2 in N3. rewrite N3. cbn [Z.eqb]. unfold err_hctxs.
    assert (mq_array q3 = Some arr) as -> by (by rewrite F3). unfold q_objs in W3.
    assert (hw_objs q3 = []) as Ho3.
    { unfold hw_objs, nr_hw_queues in *. destruct (queue_hw_ctx (mq_rq q3)); [by destruct (mq_parts q3)|simpl in N3; lia]. }
    rewrite Ho3 in W3.
    destruct (h_free_wf arr (objs (mq_unused q3) ++ [cs] ++ [pc] ++ [cb] ++ L) s4) as (s5 & -> & W5 & _).
    { eapply heap_wf_perm; [|reflexivity|exact W3]. change (objs []) with (@nil nat). clear. perm. }
    cbn [mbind option_bind].
    destruct (err_sys_init_ok q3 cs pc cb (objs (mq_unused q3) ++ L) s5) as (s6 & -> & W6); [by rewrite F3|by rewrite F3| |].
    { eapply heap_wf_perm; [|reflexivity|exact W5]. clear. perm. }
    cbn [mbind option_bind]. do 5 eexists. split; [done|]. right. by split_and!.
Qed.
End init.

Lemma ex_init_laws bad : InitLaws (ex_hctx_env bad).
Proof.
  split; [|done]. intros cs pc L s W.
  destruct (h_free_wf pc ([cs] ++ L) s) as (s1 & E1 & W1 & M1).
  { eapply heap_wf_perm; [|reflexivity|exact W]. clear. perm. }
  destruct (h_free_wf cs L s1 W1) as (s2 & E2 & W2 & M2). exists s2. simpl. rewrite E1. cbn [mbind option_bind].
  rewrite E2. split; [done|]. split; [done|congruence].
Qed.

Definition ex_fresh_q : mq_queue := mk_mqq queue0 [] 0 None None None [] false 0.
Definition ex_init (bad : nat -> bool) :=
  @blk_mq_init_allocated_queue (ex_mem (fun _ => false)) ex_map_env ex_sched (ex_hctx_env bad) ex_two [0; 1] false 0 7
    ex_tag_set2 [] ex_fresh_q (mk_heap [] 0 ex_free).

Lemma ex_set2_for : @set_for (ex_mem (fun _ => false)) [0; 1] 2 ex_tag_set2.
Proof.
  destruct ex_set_for as (r & set1 & E & H & _). assert (Some (r, set1) = Some (0, ex_tag_set2)) as [= -> ->]; [|done].
  rewrite <- E. reflexivity.
Qed.

(** There is memory for the first hardware queue only: its five objects are still in
    use after the failure. *)
Lemma init_allocated_queue_memory_witness : exists ret set' l' q' s', ex_init (fun n => (9 <=? n)%nat) = Some (ret, set', l', q', s')
  /\ ret = - ENOMEM /\ length (mq_unused q') = 1%nat /\ heap_wf (objs (mq_unused q')) s' /\ hp_live s' = [8; 7; 6; 5; 4]%nat.
Proof.
  set (bad := fun n => (9 <=? n)%nat).
  destruct (@init_allocated_queue_memory _ (ex_mem_laws (fun _ => false)) ex_map_env ex_sched _ (ex_hctx_laws bad) (ex_update_laws bad)
    (ex_init_laws bad) ex_two [0; 1] ltac:(simpl; lia) ltac:(repeat constructor; simpl; lia) false 0 7 ex_tag_set2 [] ex_fresh_q []
    (mk_heap [] 0 ex_free)) as (ret & set' & l' & q' & s' & E & H).
  - exact ex_set2_for.
  - vm_compute. done.
  - reflexivity.
  - reflexivity.
  - reflexivity.
  - split; [reflexivity|constructor|]. intros n Hn. by apply not_elem_of_nil in Hn.
  - exists ret, set', l', q', s'. split; [exact E|]. pose proof E as E'. vm_compute in E'. injection E' as <- <- <- <- <-.
    split; [reflexivity|]. split; [reflexivity|]. split; [|reflexivity].
    destruct H as [[? _]|(_ & _ & _ & _ & _ & H)]; [done|]. by rewrite app_nil_r in H.
Defined.
