(* ===== verification/BlkMqPoll.v ===== *)
(** * Polling for completions

    [blk_poll] of block/blk-mq.c with hybrid polling and its statistics.  The rest of
    the machine is a stream: what happens during the n-th nap of a sleep and around
    the n-th call of the driver. *)
From S2P Require Import Prelude MqTypes BlkSwitch BlkMqAlloc BlkMqHctx.

Definition BLK_MQ_POLL_STATS_BKTS : Z := 16.
Definition TASK_RUNNING : Z := 0.

(** struct blk_rq_stat, as far as it is used. *)
Record blk_rq_stat := mk_stat {
  nr_samples : Z;
  mean : Z;
}.

(** A request queue with the fields for polling; [poll_cb] is on the list of
    callbacks of the queue, and its timer is pending. *)
Record poll_queue := mk_pollq {
  pq_q : request_queue;
  poll_nsec : Z;
  poll_stat : list blk_rq_stat;
  cb_added : bool;
  cb_active : option Z;  (* msecs *)
}.
#[export] Instance poll_queue_eta : Settable poll_queue := {| eta_expand := fun r =>
  mk_pollq (pq_q r) (poll_nsec r) (poll_stat r) (cb_added r) (cb_active r) |}.

(** Outside the repository: the encoding of cookies (blk_types.h); the plug of the
    task; what happens to the queue while the task naps, and whether the timer of the
    sleep has not expired yet; the [poll] method of the driver; whether the task was
    woken, has a signal pending, or has to be rescheduled. *)
Class PollEnv := {
  qc_valid : Z -> bool;
  qc_internal : Z -> bool;
  qc_tag : Z -> Z;
  qc_queue_num : Z -> Z;
  flush_plug : request_queue -> request_queue;
  nap : nat -> request_queue -> bool * request_queue;
  signal_pending : nat -> bool;
  drv_poll : nat -> Z -> request_queue -> Z * request_queue;
  woken : nat -> bool;
  signal_pending_state : Z -> nat -> bool;
  need_resched : nat -> bool;
}.

(** ** Statistics *)

(** [ilog2], with the value -1 at 0. *)
Definition ilog2 (n : Z) : Z := if n =? 0 then -1 else Z.log2 n.

(** [rq_data_dir]. *)
Definition rq_data_dir (rq : request) : Z := if Z.testbit (cmd_flags rq) 0 then 1 else 0.

Definition blk_mq_poll_stats_bkt (rq : request) : Z :=
  let ddir := rq_data_dir rq in
  let sectors := stats_sectors rq in
  let bucket := ddir + 2 * ilog2 sectors in
  if bucket <? 0 then -1
  else if BLK_MQ_POLL_STATS_BKTS <=? bucket then ddir + BLK_MQ_POLL_STATS_BKTS - 2
  else bucket.

Definition blk_poll_stats_enable (q : poll_queue) : bool * poll_queue :=
  if test_bit QUEUE_FLAG_POLL_STATS (queue_flags (pq_q q)) then (true, q)
  else
    (false, q <| pq_q ::= fun r => r <| queue_flags ::= fun f => Z.setbit f QUEUE_FLAG_POLL_STATS |> |>
              <| cb_added := true |>).

Definition blk_mq_poll_stats_start (q : poll_queue) : poll_queue :=
  if negb (test_bit QUEUE_FLAG_POLL_STATS (queue_flags (pq_q q))) || bool_decide (is_Some (cb_active q)) then q
  else q <| cb_active := Some 100 |>.

(** [stat] are the statistics of the callback. *)
Definition blk_mq_poll_stats_fn (stat : list blk_rq_stat) (q : poll_queue) : option poll_queue :=
  foldM (fun q bucket =>
    st ← aget stat bucket;
    if c_true (nr_samples st) then l ← aset (poll_stat q) bucket st; Some (q <| poll_stat := l |>)
    else Some q) q (seqZ 0 BLK_MQ_POLL_STATS_BKTS).

Definition blk_mq_poll_nsecs (rq : request) (q : poll_queue) : option (Z * poll_queue) :=
  let '(on, q) := blk_poll_stats_enable q in
  if negb on then Some (0, q)
  else
    let bucket := blk_mq_poll_stats_bkt rq in
    if bucket <? 0 then Some (0, q)
    else
      st ← aget (poll_stat q) bucket;
      if c_true (nr_samples st) then Some (u64 (mean st + 1) / 2, q) else Some (0, q).

Section poll.
Context {pe : PollEnv}.

(** ** Hybrid polling *)

(** The loop that sleeps until the timer expires, the request completes or a signal
    comes, from nap [n] on. *)
Fixpoint sleep_loop (fuel n : nat) (r : rqid) (q : request_queue) : option (nat * request_queue) :=
  match fuel with
  | O => None
  | S fuel =>
    rq ← q_rqs q !! r;
    if bool_decide (rq_state rq = MQ_RQ_COMPLETE) then Some (n, q)
    else
      let '(task, q) := nap n q in
      if task && negb (signal_pending n) then sleep_loop fuel (S n) r q else Some (S n, q)
  end.

(** [None] also when there is no fuel left. *)
Definition blk_mq_poll_hybrid_sleep (fuel : nat) (r : rqid) (q : poll_queue) : option (bool * poll_queue) :=
  rq ← q_rqs (pq_q q) !! r;
  if has_flag (rq_flags rq) RQF_MQ_POLL_SLEPT then Some (false, q)
  else
    '(nsecs, q) ← (if 0 <? poll_nsec q then Some (u32 (poll_nsec q), q)
                   else '(n, q) ← blk_mq_poll_nsecs rq q; Some (u32 n, q));
    if nsecs =? 0 then Some (false, q)
    else
      p ← mod_rq r (fun rq => rq <| rq_flags ::= fun f => Z.lor f RQF_MQ_POLL_SLEPT |>) (pq_q q);
      '(_, p) ← sleep_loop fuel 0 r p;
      Some (true, q <| pq_q := p |>).

(** [blk_mq_tag_to_rq]. *)
Definition tag_to_rq (t : blk_mq_tags) (tag : Z) : option (option rqid) :=
  if tag <? nr_tags t then aget (tag_rqs t) tag else Some None.

(** A request that is not there is dereferenced unless the cookie is an internal one. *)
Definition blk_mq_poll_hybrid (fuel : nat) (h : blk_mq_hw_ctx) (cookie : Z) (q : poll_queue) : option (bool * poll_queue) :=
  if poll_nsec q =? BLK_MQ_POLL_CLASSIC then Some (false, q)
  else if negb (qc_internal cookie) then
    i ← tags h; t ← aget (q_tags (pq_q q)) i; o ← tag_to_rq t (qc_tag cookie);
    r ← o; blk_mq_poll_hybrid_sleep fuel r q
  else
    i ← sched_tags h; t ← aget (q_tags (pq_q q)) i; o ← tag_to_rq t (qc_tag cookie);
    match o with None => Some (false, q) | Some r => blk_mq_poll_hybrid_sleep fuel r q end.

(** ** The poll loop *)

Definition mod_hctx (i : Z) (f : blk_mq_hw_ctx -> blk_mq_hw_ctx) (q : request_queue) : option request_queue :=
  h ← aget (queue_hw_ctx q) i; Some (set_hctx i (f h) q).

(** The loop of [blk_poll] from call [n] of the driver on; [state] is the state of the
    task at its start, [cur] the current one.  The result, the state of the task and
    the queue. *)
Fixpoint poll_loop (fuel n : nat) (spin : bool) (state cur i : Z) (q : request_queue) : option (Z * Z * request_queue) :=
  match fuel with
  | O => None
  | S fuel =>
    q ← mod_hctx i (fun h => h <| poll_invoked ::= fun z => u64 (z + 1) |>) q;
    let '(ret, q) := drv_poll n i q in
    if 0 <? ret then
      q ← mod_hctx i (fun h => h <| poll_success ::= fun z => u64 (z + 1) |>) q;
      Some (ret, TASK_RUNNING, q)
    else
      let cur := if woken n then TASK_RUNNING else cur in
      let cur := if signal_pending_state state n then TASK_RUNNING else cur in
      if cur =? TASK_RUNNING then Some (1, cur, q)
      else if (ret <? 0) || negb spin then Some (0, TASK_RUNNING, q)
      else if negb (need_resched n) then poll_loop fuel (S n) spin state cur i q
      else Some (0, TASK_RUNNING, q)
  end.

(** [plugged]: the task has a plug. *)
Definition blk_poll (fuel : nat) (cookie : Z) (spin plugged : bool) (state : Z) (q : poll_queue) : option (Z * Z * poll_queue) :=
  if negb (qc_valid cookie) || negb (test_bit QUEUE_FLAG_POLL (queue_flags (pq_q q))) then Some (0, state, q)
  else
    let q := if plugged then q <| pq_q ::= flush_plug |> else q in
    let i := qc_queue_num cookie in
    h ← aget (queue_hw_ctx (pq_q q)) i;
    '(slept, q) ← blk_mq_poll_hybrid fuel h cookie q;
    if slept : bool then Some (1, TASK_RUNNING, q)
    else
      p ← mod_hctx i (fun h => h <| poll_considered ::= fun z => u64 (z + 1) |>) (pq_q q);
      '(ret, cur, p) ← poll_loop fuel 0 spin state state i p;
      Some (ret, cur, q <| pq_q := p |>).

Definition blk_mq_rq_cpu (q : request_queue) (rq : request) : option Z :=
  ctx ← aget (queue_ctx q) (mq_ctx rq); Some (cpu ctx).
End poll.
