(* ===== verification/BlkMqPollSpec.v ===== *)
(** * Polling: buckets, sleep and termination

    The statistics always use one of the buckets, a request sleeps at most once, and
    [blk_poll] returns as soon as the driver finds a completion, the task is woken or
    has to give up the processor. *)
From S2P Require Import Prelude MqTypes BlkSwitch BlkMqAlloc BlkMqHctx BlkMqPoll.

(** ** Buckets *)

Lemma bucket_range rq :
  0 <= stats_sectors rq -> -1 <= blk_mq_poll_stats_bkt rq < BLK_MQ_POLL_STATS_BKTS
  /\ (blk_mq_poll_stats_bkt rq = -1 <-> stats_sectors rq = 0)
  /\ (0 < stats_sectors rq -> Z.odd (blk_mq_poll_stats_bkt rq) = Z.testbit (cmd_flags rq) 0).
Proof.
  intros H. unfold blk_mq_poll_stats_bkt, ilog2, rq_data_dir, BLK_MQ_POLL_STATS_BKTS.
  pose proof (Z.log2_nonneg (stats_sectors rq)) as Hl.
  destruct (Z.eqb_spec (stats_sectors rq) 0) as [E|E]; destruct (Z.testbit (cmd_flags rq) 0); repeat case_bool; split_and!; try lia.
  all: intros _; rewrite ?Z.odd_add, ?Z.odd_mul; done.
Qed.

(** Larger requests are not in a lower bucket. *)
Lemma bucket_mono rq rq' :
  Z.testbit (cmd_flags rq) 0 = Z.testbit (cmd_flags rq') 0 -> 0 <= stats_sectors rq <= stats_sectors rq' ->
  blk_mq_poll_stats_bkt rq <= blk_mq_poll_stats_bkt rq'.
Proof.
  intros Hd [H0 H]. unfold blk_mq_poll_stats_bkt, ilog2, rq_data_dir, BLK_MQ_POLL_STATS_BKTS. rewrite Hd.
  pose proof (Z.log2_le_mono _ _ H) as Hl. pose proof (Z.log2_nonneg (stats_sectors rq')) as Hl'.
  destruct (Z.eqb_spec (stats_sectors rq) 0), (Z.eqb_spec (stats_sectors rq') 0), (Z.testbit (cmd_flags rq') 0); repeat case_bool; lia.
Qed.

(** The time to sleep is half of the mean, in 32 bits. *)
Lemma poll_nsecs_ok rq q :
  0 <= stats_sectors rq -> length (poll_stat q) = 16%nat ->
  exists n q', blk_mq_poll_nsecs rq q = Some (n, q') /\ 0 <= n /\ poll_stat q' = poll_stat q /\ poll_nsec q' = poll_nsec q
    /\ test_bit QUEUE_FLAG_POLL_STATS (queue_flags (pq_q q')) = true /\ q_rqs (pq_q q') = q_rqs (pq_q q)
    /\ queue_hw_ctx (pq_q q') = queue_hw_ctx (pq_q q).
Proof.
  intros Hs Hl. unfold blk_mq_poll_nsecs, blk_poll_stats_enable. destruct (test_bit _ _) eqn:Et; cbn [negb].
  - destruct (bucket_range rq Hs) as ([H1 H2] & _). unfold BLK_MQ_POLL_STATS_BKTS in H2. case_bool; [by exists 0, q|].
    destruct (aget_lt (poll_stat q) (blk_mq_poll_stats_bkt rq)) as [st ->]; [lia|]. cbn [mbind option_bind].
    case_bool; [|by exists 0, q]. eexists _, q. split; [done|]. split; [|done]. apply Z.div_pos; [|lia]. unfold u64. apply Z.mod_pos_bound. lia.
  - do 2 eexists. split; [done|]. split; [lia|]. split; [done|]. split; [done|]. split; [|done].
    apply (Z.setbit_eq (queue_flags (pq_q q)) QUEUE_FLAG_POLL_STATS). done.
Qed.

(** The callback copies what has samples. *)
Lemma poll_stats_fn_spec stat q :
  length stat = 16%nat -> length (poll_stat q) = 16%nat ->
  exists q', blk_mq_poll_stats_fn stat q = Some q' /\ length (poll_stat q') = 16%nat
    /\ forall i st, stat !! i = Some st ->
         poll_stat q' !! i = if c_true (nr_samples st) then Some st else poll_stat q !! i.
Proof.
  intros Hs Hq. unfold blk_mq_poll_stats_fn.
  destruct (foldM_inv (fun q bucket => st ← aget stat bucket;
      if c_true (nr_samples st) then l ← aset (poll_stat q) bucket st; Some (q <| poll_stat := l |>) else Some q)
    (fun dn q' => length (poll_stat q') = 16%nat /\ forall i st, stat !! i = Some st ->
       poll_stat q' !! i = if bool_decide (Z.of_nat i ∈ dn) && c_true (nr_samples st) then Some st else poll_stat q !! i)
    (seqZ 0 BLK_MQ_POLL_STATS_BKTS) q) as (q' & E & H1 & H2).
  - split; [done|]. intros i st _. rewrite bool_decide_false; [done|]. apply not_elem_of_nil.
  - intros dn a rest q1 Hsplit [L1 L2].
    assert (a ∈ seqZ 0 BLK_MQ_POLL_STATS_BKTS) as Ha%elem_of_seqZ by (rewrite Hsplit; set_solver). unfold BLK_MQ_POLL_STATS_BKTS in Ha.
    assert (a ∉ dn) as Hn.
    { pose proof (NoDup_seqZ 0 BLK_MQ_POLL_STATS_BKTS) as Hd. rewrite Hsplit in Hd. apply NoDup_app in Hd as (_ & Hd & _).
      intros Hx. apply (Hd a Hx). left. }
    destruct (aget_lt stat a) as [st Hst]; [lia|]. rewrite Hst. cbn [mbind option_bind].
    assert (stat !! Z.to_nat a = Some st) as Hst' by (unfold aget in Hst; by case_bool_in Hst).
    destruct (c_true (nr_samples st)) eqn:Ec.
    + rewrite aset_lt by lia. cbn [mbind option_bind]. eexists. split; [done|]. simpl. rewrite length_insert. split; [done|].
      intros i st' Hi. destruct (decide (i = Z.to_nat a)) as [->|Hne].
      * assert (st' = st) as -> by congruence. rewrite list_lookup_insert_eq by lia.
        rewrite bool_decide_true, Ec by (apply elem_of_app; right; rewrite Z2Nat.id by lia; left). done.
      * rewrite list_lookup_insert_ne by done. rewrite (L2 i st' Hi).
        assert (bool_decide (Z.of_nat i ∈ dn ++ [a]) = bool_decide (Z.of_nat i ∈ dn)) as ->; [|done].
        apply bool_decide_ext. rewrite elem_of_app, list_elem_of_singleton. split; [|tauto]. intros [?|?]; [done|lia].
    + exists q1. split; [done|]. split; [done|]. intros i st' Hi. rewrite (L2 i st' Hi).
      destruct (decide (i = Z.to_nat a)) as [->|Hne].
      * assert (st' = st) as -> by congruence. rewrite Ec, !andb_false_r. done.
      * assert (bool_decide (Z.of_nat i ∈ dn ++ [a]) = bool_decide (Z.of_nat i ∈ dn)) as ->; [|done].
        apply bool_decide_ext. rewrite elem_of_app, list_elem_of_singleton. split; [|tauto]. intros [?|?]; [done|lia].
  - exists q'. split; [exact E|]. split; [done|]. intros i st Hi. rewrite (H2 i st Hi), bool_decide_true; [done|].
    apply elem_of_seqZ. apply lookup_lt_Some in Hi. unfold BLK_MQ_POLL_STATS_BKTS. lia.
Qed.

(** ** Sleeping and polling *)

Definition counters (q : request_queue) : list (Z * Z * Z) :=
  (fun h => (poll_considered h, poll_invoked h, poll_success h)) <$> queue_hw_ctx q.

(** Requests do not disappear from the memory of the queue while the task sleeps, and
    the driver leaves the counters of the poll loop alone. *)
Class PollLaws (pe : PollEnv) : Prop := {
  nap_keeps n q r rq : q_rqs q !! r = Some rq -> exists rq', q_rqs (nap n q).2 !! r = Some rq';
  nap_counters n q : counters (nap n q).2 = counters q;
  poll_counters n i q : counters (drv_poll n i q).2 = counters q;
}.

Section spec.
Context {pe : PollEnv} {pl : PollLaws pe}.

(** By nap [M] the timer has expired or a signal came. *)
Definition sleep_ends (M : nat) : Prop := forall q, (nap M q).1 = false \/ signal_pending M = true.

Lemma sleep_loop_ends M fuel n r q rq :
  sleep_ends M -> (n <= M)%nat -> (M - n < fuel)%nat -> q_rqs q !! r = Some rq ->
  exists k q', (forall f, (M - n < f)%nat -> sleep_loop f n r q = Some (k, q')) /\ (n <= k <= S M)%nat
    /\ counters q' = counters q.
Proof.
  intros HM. revert n q rq. induction fuel as [|fuel IH]; intros n q rq Hn Hf Hr; [lia|].
  destruct (bool_decide (rq_state rq = MQ_RQ_COMPLETE)) eqn:Ec.
  { exists n, q. split; [|split; [lia|done]]. intros [|f] Hf'; [lia|]. cbn [sleep_loop]. rewrite Hr. cbn [mbind option_bind]. by rewrite Ec. }
  destruct (nap n q) as [task q1] eqn:En.
  assert (counters q1 = counters q) as Hc by (pose proof (nap_counters n q) as H; by rewrite En in H).
  destruct (task && negb (signal_pending n)) eqn:Et.
  - destruct (decide (n = M)) as [->|Hne].
    { exfalso. apply andb_true_iff in Et as [E1 E2%negb_true_iff]. destruct (HM q) as [H|H]; [rewrite En in H; simpl in H|]; congruence. }
    destruct (nap_keeps n q r rq Hr) as [rq' Hr']. rewrite En in Hr'.
    destruct (IH (S n) q1 rq') as (k & q' & Hk & Hb & Hc'); [lia|lia|done|].
    exists k, q'. split; [|split; [lia|congruence]]. intros [|f] Hf'; [lia|]. cbn [sleep_loop]. rewrite Hr. cbn [mbind option_bind].
    rewrite Ec, En, Et. apply Hk. lia.
  - exists (S n), q1. split; [|split; [lia|done]]. intros [|f] Hf'; [lia|]. cbn [sleep_loop]. rewrite Hr. cbn [mbind option_bind].
    by rewrite Ec, En, Et.
Qed.

(** A request can be polled: it is there when the statistics or the timer use it. *)
Definition rq_ready (q : poll_queue) (r : rqid) : Prop :=
  exists rq, q_rqs (pq_q q) !! r = Some rq /\ 0 <= stats_sectors rq.

(** A request that did not sleep yet. *)
Definition not_slept (q : request_queue) (r : rqid) : Prop :=
  exists rq, q_rqs q !! r = Some rq /\ has_flag (rq_flags rq) RQF_MQ_POLL_SLEPT = false.

Lemma hybrid_sleep_ends M q r :
  sleep_ends M -> length (poll_stat q) = 16%nat -> rq_ready q r ->
  exists b q', (forall f, (M < f)%nat -> blk_mq_poll_hybrid_sleep f r q = Some (b, q'))
    /\ counters (pq_q q') = counters (pq_q q) /\ (b = true -> not_slept (pq_q q) r).
Proof.
  intros HM Hl (rq & Hr & Hs). destruct (has_flag (rq_flags rq) RQF_MQ_POLL_SLEPT) eqn:Ef.
  { exists false, q. split; [|done]. intros f _. unfold blk_mq_poll_hybrid_sleep. rewrite Hr. cbn [mbind option_bind]. by rewrite Ef. }
  assert (exists nsecs q1, (if 0 <? poll_nsec q then Some (u32 (poll_nsec q), q)
                   else '(n, q) ← blk_mq_poll_nsecs rq q; Some (u32 n, q)) = Some (nsecs, q1)
     /\ q_rqs (pq_q q1) = q_rqs (pq_q q) /\ queue_hw_ctx (pq_q q1) = queue_hw_ctx (pq_q q)) as (nsecs & q1 & E1 & Er & Eh).
  { case_bool; [by do 2 eexists|]. destruct (poll_nsecs_ok rq q Hs Hl) as (n & q1 & -> & _ & _ & _ & _ & A & B). by do 2 eexists. }
  destruct (nsecs =? 0) eqn:En.
  { exists false, q1. split; [|split; [unfold counters; by rewrite Eh|done]]. intros f _. unfold blk_mq_poll_hybrid_sleep. rewrite Hr. cbn [mbind option_bind].
    rewrite Ef, E1. cbn [mbind option_bind]. by rewrite En. }
  set (rq1 := rq <| rq_flags ::= fun f => Z.lor f RQF_MQ_POLL_SLEPT |>).
  destruct (sleep_loop_ends M (S M) 0 r (set_rq r rq1 (pq_q q1)) rq1) as (k & q2 & Hk & _ & Hc);
    [done|lia|lia|simpl; apply lookup_insert_eq|].
  exists true, (q1 <| pq_q := q2 |>). split.
  - intros f Hf. unfold blk_mq_poll_hybrid_sleep. rewrite Hr. cbn [mbind option_bind]. rewrite Ef, E1. cbn [mbind option_bind]. rewrite En.
    unfold mod_rq. cbv beta. rewrite Er, Hr. cbn [mbind option_bind]. fold rq1. rewrite (Hk f) by lia. done.
  - split; [|intros _; by exists rq]. cbn. rewrite Hc. unfold counters. simpl. by rewrite Eh.
Qed.

(** A request that slept does not sleep again. *)
Lemma sleeps_once f r q rq :
  q_rqs (pq_q q) !! r = Some rq -> has_flag (rq_flags rq) RQF_MQ_POLL_SLEPT = true ->
  blk_mq_poll_hybrid_sleep f r q = Some (false, q).
Proof. intros Hr Hf. unfold blk_mq_poll_hybrid_sleep. rewrite Hr. cbn [mbind option_bind]. by rewrite Hf. Qed.

(** By call [N] of the driver the loop is left: it does not spin, the task is woken or
    has to be rescheduled, or the driver always finds something. *)
Definition poll_ends (spin : bool) (N : nat) : Prop :=
  spin = false \/ woken N = true \/ need_resched N = true \/ forall i q, (drv_poll N i q).1 <> 0.

Lemma counters_mod i f h q :
  aget (queue_hw_ctx q) i = Some h ->
  mod_hctx i f q = Some (set_hctx i (f h) q)
  /\ counters (set_hctx i (f h) q)
     = <[Z.to_nat i := (poll_considered (f h), poll_invoked (f h), poll_success (f h))]> (counters q).
Proof.
  intros Hh. unfold mod_hctx. rewrite Hh. split; [done|]. unfold counters. simpl. by rewrite list_fmap_insert.
Qed.

Lemma counters_aget i q c :
  0 <= i -> counters q !! Z.to_nat i = Some c ->
  exists h, aget (queue_hw_ctx q) i = Some h /\ c = (poll_considered h, poll_invoked h, poll_success h).
Proof.
  intros Hi Hc. unfold counters in Hc. rewrite list_lookup_fmap in Hc. apply fmap_Some in Hc as (h & Hh & ->).
  exists h. split; [|done]. unfold aget. case_bool; [lia|done].
Qed.

(** The counters after [k] calls of the driver, the last of which may have [hit]. *)
Definition polled (i : Z) (k : nat) (hit : bool) '((c, a, s) : Z * Z * Z) (q q' : request_queue) : Prop :=
  counters q' = <[Z.to_nat i := (c, u64 (a + Z.of_nat k), if hit then u64 (s + 1) else s)]> (counters q).

Lemma poll_loop_ends N fuel n spin state cur i q c :
  poll_ends spin N -> (n <= N)%nat -> (N - n < fuel)%nat -> 0 <= i -> counters q !! Z.to_nat i = Some c ->
  exists ret k hit q', (forall f, (N - n < f)%nat -> poll_loop f n spin state cur i q = Some (ret, TASK_RUNNING, q'))
    /\ 0 <= ret /\ (1 <= k <= S (N - n))%nat /\ (spin = false -> k = 1%nat)
    /\ (hit = true -> 0 < ret /\ exists qd, ret = (drv_poll (n + k - 1) i qd).1) /\ (hit = false -> ret <= 1)
    /\ polled i k hit c q q'.
Proof.
  intros HN. revert n cur q c. induction fuel as [|fuel IH]; intros n cur q c Hn Hf Hi Hc; [lia|].
  destruct (counters_aget i q c Hi Hc) as (h & Hh & ->).
  destruct (counters_mod i (fun h => h <| poll_invoked ::= fun z => u64 (z + 1) |>) h q Hh) as [E1 C1].
  set (q1 := set_hctx i _ q) in *. destruct (drv_poll n i q1) as [ret q2] eqn:Ed.
  assert (counters q2 = counters q1) as C2 by (pose proof (poll_counters n i q1) as H; by rewrite Ed in H).
  cbn [poll_considered poll_invoked poll_success] in C1.
  set (c2 := (poll_considered h, u64 (poll_invoked h + 1), poll_success h)).
  assert (counters q2 = <[Z.to_nat i := c2]> (counters q)) as C2' by (rewrite C2, C1; done).
  assert (counters q2 !! Z.to_nat i = Some c2) as Hc2.
  { rewrite C2'. apply list_lookup_insert_eq. by eapply lookup_lt_Some. }
  assert (forall r, (forall f, (N - n < f)%nat -> poll_loop f n spin state cur i q = Some (r, TASK_RUNNING, q2)) -> 0 <= r <= 1 ->
    exists ret k hit q', (forall f, (N - n < f)%nat -> poll_loop f n spin state cur i q = Some (ret, TASK_RUNNING, q'))
    /\ 0 <= ret /\ (1 <= k <= S (N - n))%nat /\ (spin = false -> k = 1%nat)
    /\ (hit = true -> 0 < ret /\ exists qd, ret = (drv_poll (n + k - 1) i qd).1) /\ (hit = false -> ret <= 1)
    /\ polled i k hit (poll_considered h, poll_invoked h, poll_success h) q q') as Hstop.
  { intros r Hr Hb. exists r, 1%nat, false, q2. split_and!; try done; lia. }
  destruct (Z.ltb_spec 0 ret) as [Hret|Hret].
  { destruct (counters_aget i q2 c2 Hi Hc2) as (h2 & Hh2 & Ec2).
    destruct (counters_mod i (fun h => h <| poll_success ::= fun z => u64 (z + 1) |>) h2 q2 Hh2) as [E3 C3].
    eexists ret, 1%nat, true, _. split.
    - intros [|f] Hf'; [lia|]. cbn [poll_loop]. rewrite E1. cbn [mbind option_bind]. rewrite Ed, (proj2 (Z.ltb_lt _ _)) by lia. by rewrite E3.
    - split_and!; try done; try lia.
      { intros _. split; [done|]. exists q1. replace (n + 1 - 1)%nat with n by lia. by rewrite Ed. }
      unfold polled. rewrite C3, C2', list_insert_insert_eq. cbn [poll_considered poll_invoked poll_success].
      injection Ec2 as F1 F2 F3. simpl. by rewrite <- F1, <- F2, <- F3. }
  set (cur1 := if signal_pending_state state n then TASK_RUNNING else if woken n then TASK_RUNNING else cur).
  assert (forall f, (N - n < f)%nat -> poll_loop f n spin state cur i q =
    if cur1 =? TASK_RUNNING then Some (1, cur1, q2)
    else if (ret <? 0) || negb spin then Some (0, TASK_RUNNING, q2)
    else if negb (need_resched n) then poll_loop (f - 1) (S n) spin state cur1 i q2 else Some (0, TASK_RUNNING, q2)) as Hstep.
  { intros [|f] Hf'; [lia|]. cbn [poll_loop]. rewrite E1. cbn [mbind option_bind]. rewrite Ed, (proj2 (Z.ltb_ge _ _)) by lia.
    replace (S f - 1)%nat with f by lia. done. }
  destruct (Z.eqb_spec cur1 TASK_RUNNING) as [Ec|Ec].
  { apply (Hstop 1); [|lia]. intros f Hf'. rewrite Hstep by done. by rewrite Ec. }
  destruct ((ret <? 0) || negb spin) eqn:Es; [apply (Hstop 0); [exact Hstep|lia]|].
  destruct (need_resched n) eqn:Er; [apply (Hstop 0); [exact Hstep|lia]|]. cbn [negb] in Hstep.
  apply orb_false_iff in Es as [Es%Z.ltb_ge Esp%negb_false_iff].
  destruct (decide (n = N)) as [->|Hne].
  { exfalso. destruct HN as [?|[Hw|[?|Hd]]]; [congruence| |congruence|].
    - apply Ec. unfold cur1. rewrite Hw. by destruct (signal_pending_state state N).
    - apply (Hd i q1). rewrite Ed. simpl. lia. }
  destruct (IH (S n) cur1 q2 c2) as (r & k & hit & q' & H1 & H2 & H3 & H4 & H5 & H6 & H7); [lia|lia|done|done|].
  exists r, (S k), hit, q'. split; [intros f Hf'; rewrite Hstep by done; apply H1; lia|]. split_and!; try done; try lia; [congruence| |].
  { intros Hh'. destruct (H5 Hh') as (? & qd & ->). split; [done|]. exists qd. do 2 f_equal. lia. }
  unfold polled in *. unfold c2 in H7. rewrite H7, C2', list_insert_insert_eq. f_equal. f_equal. f_equal.
  unfold u64. rewrite Zplus_mod_idemp_l. f_equal. lia.
Qed.

(** The queue of the cookie exists and hybrid polling finds a request. *)
Definition pollable (cookie : Z) (q : poll_queue) : Prop :=
  length (poll_stat q) = 16%nat /\
  exists h, aget (queue_hw_ctx (pq_q q)) (qc_queue_num cookie) = Some h /\
    (poll_nsec q = BLK_MQ_POLL_CLASSIC \/
     exists i t o, (if qc_internal cookie then sched_tags h else tags h) = Some i /\ aget (q_tags (pq_q q)) i = Some t
       /\ tag_to_rq t (qc_tag cookie) = Some o
       /\ match o with Some r => rq_ready q r | None => qc_internal cookie = true end).

(** The request of a cookie. *)
Definition cookie_rq (h : blk_mq_hw_ctx) (cookie : Z) (q : request_queue) : option rqid :=
  i ← (if qc_internal cookie then sched_tags h else tags h); t ← aget (q_tags q) i; mjoin (tag_to_rq t (qc_tag cookie)).

Lemma hybrid_ends M cookie h q :
  sleep_ends M -> pollable cookie q -> aget (queue_hw_ctx (pq_q q)) (qc_queue_num cookie) = Some h ->
  exists b q', (forall f, (M < f)%nat -> blk_mq_poll_hybrid f h cookie q = Some (b, q')) /\ counters (pq_q q') = counters (pq_q q)
    /\ (b = true -> exists r, cookie_rq h cookie (pq_q q) = Some r /\ not_slept (pq_q q) r).
Proof.
  intros HM (Hl & h' & Hh' & Hp) Hh. assert (h' = h) as -> by congruence. unfold blk_mq_poll_hybrid.
  destruct (Z.eqb_spec (poll_nsec q) BLK_MQ_POLL_CLASSIC) as [_|Hne]; [by exists false, q|].
  destruct Hp as [?|(i & t & o & H1 & H2 & H3 & H4)]; [done|].
  assert (forall r, o = Some r -> cookie_rq h cookie (pq_q q) = Some r) as Hck.
  { intros r ->. unfold cookie_rq. rewrite H1. cbn [mbind option_bind]. rewrite H2. cbn [mbind option_bind]. by rewrite H3. }
  destruct (qc_internal cookie); cbn [negb]; rewrite H1; cbn [mbind option_bind]; rewrite H2; cbn [mbind option_bind]; rewrite H3; cbn [mbind option_bind].
  all: destruct o as [r|]; [|done || by exists false, q]; cbn [mbind option_bind].
  all: destruct (hybrid_sleep_ends M q r HM Hl H4) as (b & q' & Hb & Hc & Hn); exists b, q'.
  all: split; [exact Hb|]; split; [exact Hc|]; intros Hbt; exists r; split; [by apply Hck|by apply Hn].
Qed.

(** C30: polling terminates.  The cookie is valid, the queue polls, the hardware queue of
    the cookie exists and, with hybrid polling, so does the request ([pollable]).  When
    the timer of a sleep expires or a signal comes by nap
    [M], and by call [N] of the driver the loop does not spin, the task is woken or
    rescheduled or the driver returns something, [blk_poll] returns, with the same
    result for every fuel above [M] and [N], and leaves the task running.  Either it slept
    for the request of the cookie, which is not marked as one that slept before: then
    the result is 1 and the driver was not called.  Or the driver was
    called between 1 and N+1 times, once without [spin], and the counters say so; when
    the last call found completions the result is what this call returned, a positive
    number, and otherwise it is 0 or 1. *)
Theorem blk_poll_terminates M N cookie spin plugged state q :
  let q0 := if plugged : bool then q <| pq_q ::= flush_plug |> else q in
  let i := qc_queue_num cookie in
  qc_valid cookie = true -> test_bit QUEUE_FLAG_POLL (queue_flags (pq_q q)) = true -> pollable cookie q0 ->
  sleep_ends M -> poll_ends spin N ->
  exists ret q', (forall f, (Nat.max M N < f)%nat -> blk_poll f cookie spin plugged state q = Some (ret, TASK_RUNNING, q'))
    /\ 0 <= ret
    /\ ((ret = 1 /\ counters (pq_q q') = counters (pq_q q0)
         /\ exists h r, aget (queue_hw_ctx (pq_q q0)) i = Some h /\ cookie_rq h cookie (pq_q q0) = Some r
              /\ not_slept (pq_q q0) r)
        \/ exists k hit c a s, counters (pq_q q0) !! Z.to_nat i = Some (c, a, s)
          /\ counters (pq_q q') = <[Z.to_nat i := (u64 (c + 1), u64 (a + Z.of_nat k), if hit : bool then u64 (s + 1) else s)]> (counters (pq_q q0))
          /\ (1 <= k <= S N)%nat /\ (spin = false -> k = 1%nat)
          /\ (hit = true -> 0 < ret /\ exists qd, ret = (drv_poll (k - 1) i qd).1) /\ (hit = false -> ret <= 1)).
Proof.
  intros q0 i Hv Hf Hp HM HN. destruct Hp as (Hl & h & Hh & Hp).
  destruct (hybrid_ends M cookie h q0 HM) as (b & q1 & Hb & Hc1 & Hn1); [split; [done|by exists h]|done|].
  assert (Hstart : forall f, blk_poll f cookie spin plugged state q =
    ('(slept, q1) ← blk_mq_poll_hybrid f h cookie q0;
     if slept : bool then Some (1, TASK_RUNNING, q1)
     else p ← mod_hctx i (fun h => h <| poll_considered ::= fun z => u64 (z + 1) |>) (pq_q q1);
       '(ret, cur, p) ← poll_loop f 0 spin state state i p; Some (ret, cur, q1 <| pq_q := p |>))).
  { intros f. unfold blk_poll. rewrite Hv, Hf. cbn [negb orb]. fold q0. fold i. fold i in Hh. by rewrite Hh. }
  destruct b.
  { exists 1, q1. split; [|split; [lia|left; split; [done|split; [done|]]; destruct (Hn1 eq_refl) as (r & ? & ?); by exists h, r]]. intros f Hf'. rewrite Hstart, Hb by lia. done. }
  assert (counters (pq_q q1) !! Z.to_nat i = Some (poll_considered h, poll_invoked h, poll_success h)) as Hi.
  { rewrite Hc1. unfold counters. rewrite list_lookup_fmap. unfold aget in Hh. case_bool_in Hh; [done|]. fold i in Hh. by rewrite Hh. }
  assert (0 <= i) as Hpos by (by apply aget_Some in Hh; fold i in Hh; lia).
  destruct (counters_aget i _ _ Hpos Hi) as (h1 & Hh1 & Eh).
  destruct (counters_mod i (fun h => h <| poll_considered ::= fun z => u64 (z + 1) |>) h1 _ Hh1) as [E2 C2].
  cbn [poll_considered poll_invoked poll_success] in C2. set (q2 := set_hctx i _ (pq_q q1)) in *. injection Eh as Ec Ea Es.
  simpl in C2. rewrite <- Ec, <- Ea, <- Es in C2.
  destruct (poll_loop_ends N (S N) 0 spin state state i q2 (u64 (poll_considered h + 1), poll_invoked h, poll_success h))
    as (ret & k & hit & q3 & H1 & H2 & H3 & H4 & H5 & H6 & H7); [done|lia|lia|done| |].
  { rewrite C2. apply list_lookup_insert_eq. by eapply lookup_lt_Some. }
  exists ret, (q1 <| pq_q := q3 |>). split; [|split; [done|right]].
  - intros f Hf'. rewrite Hstart, Hb by lia. cbn [mbind option_bind]. rewrite E2. cbn [mbind option_bind]. rewrite H1 by lia. done.
  - exists k, hit, (poll_considered h), (poll_invoked h), (poll_success h). split; [by rewrite <- Hc1|]. split; [|split_and!; (done || lia)].
    cbn [pq_q]. unfold polled in H7. simpl. rewrite H7, C2, list_insert_insert_eq, Hc1. done.
Qed.
End spec.

(** A driver that finds a completion with its third call, and a timer that expires with
    the second nap. *)
Definition ex_poll_env : PollEnv := {|
  qc_valid := fun c => 0 <=? c;
  qc_internal := fun _ => false;
  qc_tag := fun c => c mod 16;
  qc_queue_num := fun c => c / 16;
  flush_plug := fun q => q;
  nap := fun n q => ((n <? 1)%nat, q);
  signal_pending := fun _ => false;
  drv_poll := fun n _ q => (if (n <? 2)%nat then 0 else 5, q);
  woken := fun _ => false;
  signal_pending_state := fun _ _ => false;
  need_resched := fun _ => false;
|}.

Lemma ex_poll_laws : PollLaws ex_poll_env.
Proof. split; [|done|done]. intros n q r rq Hr. by exists rq. Qed.

Definition ex_poll_queue : poll_queue :=
  mk_pollq (queue0 <| queue_flags := Z.shiftl 1 QUEUE_FLAG_POLL |> <| queue_hw_ctx := [hctx0] |>)
    BLK_MQ_POLL_CLASSIC (replicate 16 (mk_stat 0 0)) false None.

Lemma blk_poll_terminates_witness : exists q',
  @blk_poll ex_poll_env 3 3 true false 1 ex_poll_queue = Some (5, TASK_RUNNING, q')
  /\ poll_invoked <$> queue_hw_ctx (pq_q q') = [3].
Proof.
  destruct (@blk_poll_terminates ex_poll_env ex_poll_laws 1 2 3 true false 1 ex_poll_queue) as (ret & q' & H & _).
  - reflexivity.
  - reflexivity.
  - split; [reflexivity|]. exists hctx0. split; [reflexivity|by left].
  - intros q. by left.
  - right. right. right. intros i q. done.
  - exists q'. specialize (H 3%nat ltac:(lia)).
    assert (Some (ret, TASK_RUNNING, q') = @blk_poll ex_poll_env 3 3 true false 1 ex_poll_queue) as E by (symmetry; exact H).
    vm_compute in E. injection E as -> ->. split; reflexivity.
Defined.
