(* ===== verification/NvmeTcpMap.v ===== *)
(** * Queues of an NVMe/TCP controller and their classes

    How many I/O queues a controller gets, how they are divided between the
    types of hardware queue and how the types map the CPUs:
    [nvme_tcp_nr_io_queues], [nvme_tcp_set_io_queues], [nvme_tcp_alloc_tagset],
    [nvme_tcp_map_queues] and [nvme_tcp_init_hctx] of drivers/nvme/host/tcp.c. *)
From S2P Require Import Prelude MqTypes BlkMqTagSet.

(** Two drivers share most of their code: nvme/host/tcp.c, and nvme/host/i10.c, which
    it was extended from.  A definition that stands for both depends on the driver
    where they differ; what only i10.c has is in I10Host.v. *)
Inductive host_driver := NVME_TCP | I10_HOST.

(** The counts of struct nvmf_ctrl_options. *)
Record nvmf_opts := mk_opts {
  o_nr_io_queues : Z;
  o_nr_write_queues : Z;
  o_nr_poll_queues : Z;
}.

Section queues.
Context (num_online_cpus : Z).

Definition nvme_tcp_nr_io_queues (opts : nvmf_opts) : Z :=
  let nr := Z.min (o_nr_io_queues opts) num_online_cpus in
  let nr := u32 (nr + Z.min (o_nr_write_queues opts) num_online_cpus) in
  u32 (nr + Z.min (o_nr_poll_queues opts) num_online_cpus).

(** [io_queues] of the controller: queues of each type. *)
Definition nvme_tcp_set_io_queues (opts : nvmf_opts) (nr_io_queues : Z) (io_queues : list Z) : option (list Z) :=
  '(io_queues, nr_io_queues) ←
    (if c_true (o_nr_write_queues opts) && (o_nr_io_queues opts <? nr_io_queues) then
       io ← aset io_queues HCTX_TYPE_READ (o_nr_io_queues opts);
       let nr := u32 (nr_io_queues - o_nr_io_queues opts) in
       let d := Z.min (o_nr_write_queues opts) nr in
       io ← aset io HCTX_TYPE_DEFAULT d;
       Some (io, u32 (nr - d))
     else
       let d := Z.min (o_nr_io_queues opts) nr_io_queues in
       io ← aset io_queues HCTX_TYPE_DEFAULT d;
       Some (io, u32 (nr_io_queues - d)));
  if c_true (o_nr_poll_queues opts) && c_true nr_io_queues
  then aset io_queues HCTX_TYPE_POLL (Z.min (o_nr_poll_queues opts) nr_io_queues)
  else Some io_queues.

(** [blk_mq_map_queues] of block/blk-mq-cpumap.c. *)
Context (blk_mq_map_queues : blk_mq_queue_map -> Z * blk_mq_queue_map).

Definition set_counts (type nr off : Z) (set : blk_mq_tag_set) : option blk_mq_tag_set :=
  mod_map type (fun x => x <| nr_queues := nr |> <| queue_offset := off |>) set.

Definition map_one (type : Z) (set : blk_mq_tag_set) : option blk_mq_tag_set :=
  mod_map type (fun x => (blk_mq_map_queues x).2) set.

Definition nvme_tcp_map_queues (opts : nvmf_opts) (io_queues : list Z) (set : blk_mq_tag_set)
  : option (Z * blk_mq_tag_set) :=
  d ← aget io_queues HCTX_TYPE_DEFAULT;
  r ← aget io_queues HCTX_TYPE_READ;
  p ← aget io_queues HCTX_TYPE_POLL;
  set ← (if c_true (o_nr_write_queues opts) && c_true r then
           set ← set_counts HCTX_TYPE_DEFAULT d 0 set; set_counts HCTX_TYPE_READ r d set
         else
           set ← set_counts HCTX_TYPE_DEFAULT d 0 set; set_counts HCTX_TYPE_READ d 0 set);
  set ← map_one HCTX_TYPE_DEFAULT set;
  set ← map_one HCTX_TYPE_READ set;
  set ← (if c_true (o_nr_poll_queues opts) && c_true p then
           set ← set_counts HCTX_TYPE_POLL p (u32 (d + r)) set; map_one HCTX_TYPE_POLL set
         else Some set);
  Some (0, set).

(** The fields of the tag set of the I/O queues, before it is allocated. *)
Definition io_tag_set (opts : nvmf_opts) (sqsize queue_count sizeof_tcp_request : Z) : blk_mq_tag_set :=
  mk_tag_set (replicate 3 (mk_queue_map [] 0 0))
    (if c_true (o_nr_poll_queues opts) then HCTX_MAX_TYPES else 2) (queue_count - 1)
    (sqsize + 1) 1 sizeof_tcp_request (-1) BLK_MQ_F_SHOULD_MERGE [].

(** The tag set of the admin queue. *)
Definition admin_tag_set (NVME_AQ_MQ_TAG_DEPTH sizeof_tcp_request : Z) : blk_mq_tag_set :=
  mk_tag_set (replicate 3 (mk_queue_map [] 0 0)) 0 1 NVME_AQ_MQ_TAG_DEPTH 2 sizeof_tcp_request (-1) 0 [].

(** The driver's queue of a hardware queue, by its index in the controller. *)
Definition nvme_tcp_init_hctx (hctx_idx : Z) (h : blk_mq_hw_ctx) : blk_mq_hw_ctx :=
  h <| blk_switch := true |> <| driver_data := hctx_idx + 1 |>.

Definition nvme_tcp_init_admin_hctx (h : blk_mq_hw_ctx) : blk_mq_hw_ctx := h <| driver_data := 0 |>.

(** The class that [nvme_tcp_queue_request] gives to a queue. *)
Definition queue_class (qid : Z) : Z := if qid <=? num_online_cpus then 0 else 1.
End queues.
