(* ===== verification/NvmeTcpMapSpec.v ===== *)
(** * The maps of an NVMe/TCP controller

    The division of the I/O queues fits the queues that the controller granted,
    the maps meet what the layout of a request queue relies on, and requests of
    latency-sensitive applications end in driver queues of the latency class. *)
From S2P Require Import Prelude MqTypes BlkSwitch BlkSwitchSpec BlkMqAlloc BlkMqRun BlkMqRunSpec BlkMqInsert BlkMqInsertSpec.
From S2P Require Import BlkMqTagSet BlkMqTagSetSpec BlkMqTagSetTop BlkMqMap BlkMqMapSpec BlkMqShareSpec NvmeTcpMap.

(** What is documented of [blk_mq_map_queues]: every CPU gets one of the queues
    of the map. *)
Definition map_queues_law (f : blk_mq_queue_map -> Z * blk_mq_queue_map) : Prop :=
  forall x, 0 < nr_queues x ->
    length (mq_map (f x).2) = length (mq_map x) /\ nr_queues (f x).2 = nr_queues x /\
    queue_offset (f x).2 = queue_offset x /\
    Forall (fun i => queue_offset x <= i < queue_offset x + nr_queues x) (mq_map (f x).2).

Section maps.
Context (num_online_cpus : Z) (bmq : blk_mq_queue_map -> Z * blk_mq_queue_map).
Hypothesis Hbmq : map_queues_law bmq.

(** ** Division of the queues *)

(** The division of [nr] granted queues. *)
Definition division (opts : nvmf_opts) (nr : Z) : Z * Z * Z :=
  let '(d, r) := if negb (o_nr_write_queues opts =? 0) && (o_nr_io_queues opts <? nr)
                 then (Z.min (o_nr_write_queues opts) (nr - o_nr_io_queues opts), o_nr_io_queues opts)
                 else (Z.min (o_nr_io_queues opts) nr, 0) in
  (d, r, Z.min (o_nr_poll_queues opts) (nr - d - r)).

Record opts_ok (opts : nvmf_opts) (nr : Z) : Prop := {
  op_io : 1 <= o_nr_io_queues opts;
  op_write : 0 <= o_nr_write_queues opts;
  op_poll : 0 <= o_nr_poll_queues opts;
  op_nr : 1 <= nr < 2 ^ 31;
}.

Lemma division_sum opts nr d r p :
  opts_ok opts nr -> division opts nr = (d, r, p) -> 1 <= d /\ 0 <= r /\ 0 <= p /\ d + r + p <= nr.
Proof. intros [H1 H2 H3 H4]. unfold division. case_bool; intros [= <- <- <-]; lia. Qed.

Lemma aset_counts {A} (a b c x : A) :
  aset [a; b; c] HCTX_TYPE_DEFAULT x = Some [x; b; c] /\ aset [a; b; c] HCTX_TYPE_READ x = Some [a; x; c] /\
  aset [a; b; c] HCTX_TYPE_POLL x = Some [a; b; x].
Proof. done. Qed.

Lemma some_counts (a b c a' b' c' : Z) : a = a' -> b = b' -> c = c' -> Some [a; b; c] = Some [a'; b'; c'].
Proof. by intros -> -> ->. Qed.

(** From zeroed counts, [nvme_tcp_set_io_queues] is that division. *)
Lemma set_io_queues_division opts nr d r p :
  opts_ok opts nr -> division opts nr = (d, r, p) -> nvme_tcp_set_io_queues opts nr [0; 0; 0] = Some [d; r; p].
Proof.
  intros Hok Hd. pose proof (division_sum _ _ _ _ _ Hok Hd) as Hs. destruct Hok as [H1 H2 H3 H4].
  unfold division in Hd. unfold nvme_tcp_set_io_queues, c_true, u32.
  destruct (negb (o_nr_write_queues opts =? 0) && (o_nr_io_queues opts <? nr)) eqn:Hif;
    injection Hd as <- <- <-;
    try rewrite (Z.mod_small (nr - o_nr_io_queues opts)) by lia; rewrite !Z.mod_small by lia;
    repeat (rewrite ?(proj1 (aset_counts _ _ _ _)), ?(proj1 (proj2 (aset_counts _ _ _ _))); cbn [mbind option_bind]);
    case_bool; rewrite ?(proj2 (proj2 (aset_counts _ _ _ _))); apply some_counts; lia.
Qed.

(** ** The maps *)

(** The set when [map_queues] is called: maps of zeros, of the types in use. *)
Record fresh_maps (opts : nvmf_opts) (n : nat) (set : blk_mq_tag_set) : Prop := {
  fm_len : length (set_map set) = 3%nat;
  fm_types : nr_maps set = if o_nr_poll_queues opts =? 0 then 2 else 3;
  fm_zero : forall j x, aget (set_map set) j = Some x -> j < nr_maps set -> mq_map x = replicate n 0;
}.

(** A map that serves the queues from [off] to [off + nr - 1]. *)
Definition serves (n : nat) (off nr : Z) (x : blk_mq_queue_map) : Prop :=
  length (mq_map x) = n /\ nr_queues x = nr /\ Forall (fun i => off <= i < off + nr) (mq_map x).

Lemma bmq_serves n off nr x :
  mq_map x = replicate n 0 -> 0 < nr ->
  serves n off nr (bmq (x <| nr_queues := nr |> <| queue_offset := off |>)).2.
Proof.
  intros Hz Hn. destruct (Hbmq (x <| nr_queues := nr |> <| queue_offset := off |>)) as (A & B & _ & D); [done|].
  simpl in *. split_and!; [by rewrite A, Hz, length_replicate|done|done].
Qed.

Lemma mod_map_default f set a b c :
  mod_map HCTX_TYPE_DEFAULT f (set <| set_map := [a; b; c] |>) = Some (set <| set_map := [f a; b; c] |>).
Proof. done. Qed.
Lemma mod_map_read f set a b c :
  mod_map HCTX_TYPE_READ f (set <| set_map := [a; b; c] |>) = Some (set <| set_map := [a; f b; c] |>).
Proof. done. Qed.
Lemma mod_map_poll f set a b c :
  mod_map HCTX_TYPE_POLL f (set <| set_map := [a; b; c] |>) = Some (set <| set_map := [a; b; f c] |>).
Proof. done. Qed.

Ltac step_maps :=
  repeat (rewrite ?mod_map_default, ?mod_map_read, ?mod_map_poll; cbn [mbind option_bind]).

(** The three maps after [nvme_tcp_map_queues]. *)
Lemma map_queues_result opts n set d r p :
  fresh_maps opts n set -> 1 <= d -> 0 <= r -> 0 <= p -> d + r < 2 ^ 32 ->
  (o_nr_poll_queues opts <> 0 -> p <> 0) ->
  exists x0 x1 x2, nvme_tcp_map_queues bmq opts [d; r; p] set = Some (0, set <| set_map := [x0; x1; x2] |>) /\
    serves n 0 d x0 /\
    (if negb (o_nr_write_queues opts =? 0) && negb (r =? 0) then serves n d r x1 else x1 = x0) /\
    (o_nr_poll_queues opts <> 0 -> serves n (d + r) p x2).
Proof.
  intros [F1 F2 F3] Hd Hr Hp Hw Hpoll. destruct (three _ F1) as (a & b & c & E).
  assert (Ha : mq_map a = replicate n 0) by (apply (F3 0); [by rewrite E|rewrite F2; case_bool; lia]).
  assert (Hb : mq_map b = replicate n 0) by (apply (F3 1); [by rewrite E|rewrite F2; case_bool; lia]).
  assert (Hc : o_nr_poll_queues opts <> 0 -> mq_map c = replicate n 0).
  { intros Hne. apply (F3 2); [by rewrite E|]. rewrite F2. case_bool; lia. }
  assert (Hshare : b <| nr_queues := d |> <| queue_offset := 0 |> = a <| nr_queues := d |> <| queue_offset := 0 |>).
  { destruct a, b; simpl in *. by subst. }
  assert (Es : set = set <| set_map := [a; b; c] |>) by (destruct set; simpl in *; by subst).
  assert (Hg : nvme_tcp_map_queues bmq opts [d; r; p] set
    = nvme_tcp_map_queues bmq opts [d; r; p] (set <| set_map := [a; b; c] |>)) by (by f_equal).
  rewrite Hg. unfold nvme_tcp_map_queues, c_true, set_counts, map_one.
  change (aget [d; r; p] HCTX_TYPE_DEFAULT) with (Some d). change (aget [d; r; p] HCTX_TYPE_READ) with (Some r).
  change (aget [d; r; p] HCTX_TYPE_POLL) with (Some p). cbn [mbind option_bind].
  destruct (negb (o_nr_write_queues opts =? 0) && negb (r =? 0)) eqn:Ew; step_maps;
    destruct (negb (o_nr_poll_queues opts =? 0) && negb (p =? 0)) eqn:Ep; step_maps;
    do 3 eexists; (split; [reflexivity|]); (split; [apply bmq_serves; [done|lia]|]);
    (split; [first [apply bmq_serves; [done|lia]|by rewrite Hshare]|]);
    intros Hne; specialize (Hpoll Hne); try lia; rewrite (u32_small (d + r)) by lia;
    (apply bmq_serves; [by apply Hc|lia]).
Qed.

(** ** What the layout relies on *)

Lemma serves_at n off nr x c : serves n off nr x -> 0 <= c < Z.of_nat n ->
  exists i, aget (mq_map x) c = Some i /\ off <= i < off + nr.
Proof.
  intros (Hl & _ & Hf) Hc. destruct (aget_lt (mq_map x) c) as [i Hi]; [lia|]. exists i. split; [done|].
  apply (proj1 (Forall_forall _ _) Hf i). unfold aget in Hi. case_bool_in Hi; [done|]. by eapply list_elem_of_lookup_2.
Qed.

Context (possible : list Z) (n : nat).
Hypothesis Hpossible : forall c, c ∈ possible -> 0 <= c < Z.of_nat n.

(** The queues of type [j]: offset and number. *)
Definition range (opts : nvmf_opts) (d r p j : Z) : Z * Z :=
  if j =? HCTX_TYPE_DEFAULT then (0, d)
  else if j =? HCTX_TYPE_READ then if negb (o_nr_write_queues opts =? 0) && negb (r =? 0) then (d, r) else (0, d)
  else (d + r, p).

(** The maps of a set that was mapped by the driver. *)
Record driver_maps (opts : nvmf_opts) (d r p : Z) (set : blk_mq_tag_set) : Prop := {
  dm_len : length (set_map set) = 3%nat;
  dm_types : nr_maps set = if o_nr_poll_queues opts =? 0 then 2 else 3;
  dm_own : forall j, 0 <= j < nr_maps set -> exists x, aget (set_map set) j = Some x /\
    serves n (range opts d r p j).1 (range opts d r p j).2 x;
  dm_same : (o_nr_write_queues opts =? 0) || (r =? 0) = true ->
    aget (set_map set) HCTX_TYPE_READ = aget (set_map set) HCTX_TYPE_DEFAULT;
}.

Lemma map_queues_driver opts set d r p :
  fresh_maps opts n set -> 1 <= d -> 0 <= r -> 0 <= p -> d + r < 2 ^ 32 -> (o_nr_poll_queues opts <> 0 -> p <> 0) ->
  exists set', nvme_tcp_map_queues bmq opts [d; r; p] set = Some (0, set') /\
    set' = set <| set_map := set_map set' |> /\ driver_maps opts d r p set'.
Proof.
  intros Hf Hd Hr Hp Hw Hpoll. destruct (map_queues_result opts n set d r p Hf Hd Hr Hp Hw Hpoll) as (x0 & x1 & x2 & E & S0 & S1 & S2).
  eexists. split; [exact E|]. split; [done|]. split; [done|exact (fm_types _ _ _ Hf)|..].
  - simpl. rewrite (fm_types _ _ _ Hf). intros j Hj. unfold range, HCTX_TYPE_DEFAULT, HCTX_TYPE_READ.
    assert (j = 0 \/ j = 1 \/ j = 2 /\ o_nr_poll_queues opts <> 0) as [-> |[-> |[-> Hne]]] by (case_bool_in Hj; lia).
    + by exists x0.
    + exists x1. split; [done|]. simpl. case_bool; [done|by subst].
    + exists x2. split; [done|]. by apply S2.
  - intros Hs. assert (x1 = x0) as ->; [|done]. by destruct (o_nr_write_queues opts =? 0), (r =? 0).
Qed.

Lemma driver_maps_at opts d r p set j c :
  driver_maps opts d r p set -> 0 <= j < nr_maps set -> c ∈ possible ->
  exists i, map_queue_type set j c = Some i /\
    (range opts d r p j).1 <= i < (range opts d r p j).1 + (range opts d r p j).2.
Proof.
  intros H Hj Hc. destruct (dm_own _ _ _ _ _ H j Hj) as (x & Hx & Hs).
  destruct (serves_at _ _ _ _ c Hs (Hpossible c Hc)) as (i & Hi & Hr). exists i. split; [|done].
  unfold map_queue_type, blk_mq_map_queue_type. unfold aget in Hx. case_bool_in Hx; [done|].
  assert (Hm : aget (mq_map <$> set_map set) j = Some (mq_map x)) by (unfold aget; case_bool; [done|]; by rewrite list_lookup_fmap, Hx).
  rewrite Hm. exact Hi.
Qed.

Lemma driver_maps_ok opts d r p set nr :
  driver_maps opts d r p set -> 1 <= d -> 0 <= r -> 0 <= p -> d + r + p <= nr ->
  (o_nr_poll_queues opts <> 0 -> p <> 0) -> maps_ok possible set nr.
Proof.
  intros H Hd Hr Hp Hsum Hpoll. pose proof (dm_types _ _ _ _ _ H) as Ht.
  assert (Hn : 2 <= nr_maps set <= 3) by (rewrite Ht; case_bool; lia).
  assert (Ho : forall j, own set j = true -> 0 <= j < nr_maps set) by (intros j; unfold own; lia).
  assert (Hrange : forall j, 0 <= j < nr_maps set -> 0 <= (range opts d r p j).1 /\ (range opts d r p j).1 + (range opts d r p j).2 <= nr).
  { intros j Hj. unfold range. repeat case_bool; simpl; lia. }
  split; [apply H|lia|..].
  - unfold own. destruct (dm_own _ _ _ _ _ H HCTX_TYPE_DEFAULT) as (x & Hx & Hs); [unfold HCTX_TYPE_DEFAULT; lia|].
    rewrite Hx. destruct Hs as (_ & Hs & _). simpl. unfold HCTX_TYPE_DEFAULT, range in *. simpl in Hs. lia.
  - intros j c Hj%Ho Hc. destruct (driver_maps_at _ _ _ _ _ j c H Hj Hc) as (i & Hi & Hin). exists i. split; [done|].
    pose proof (Hrange j Hj). lia.
  - intros j j' c c' Hj%Ho Hj'%Ho Hc Hc' Heq e He.
    destruct (driver_maps_at _ _ _ _ _ j c H Hj Hc) as (i & Hi & Hin).
    destruct (driver_maps_at _ _ _ _ _ j' c' H Hj' Hc') as (i' & Hi' & Hin'). assert (i' = i) as -> by congruence.
    destruct (decide (j = j')) as [-> |Hne]; [done|].
    assert (Hsame : (o_nr_write_queues opts =? 0) || (r =? 0) = true /\ (j = 0 /\ j' = 1 \/ j = 1 /\ j' = 0)).
    { unfold range, HCTX_TYPE_DEFAULT, HCTX_TYPE_READ in Hin, Hin'. repeat case_bool_in Hin; repeat case_bool_in Hin'; simpl in *; lia. }
    destruct Hsame as [Hs Hjj]. pose proof (dm_same _ _ _ _ _ H Hs) as Hm.
    assert (Hmt : map_queue_type set 1 e = map_queue_type set 0 e).
    { unfold map_queue_type, blk_mq_map_queue_type. unfold aget in *. simpl in *. rewrite !list_lookup_fmap.
      change (Z.to_nat 1) with (Z.to_nat HCTX_TYPE_READ). change (Z.to_nat 0) with (Z.to_nat HCTX_TYPE_DEFAULT). by rewrite Hm. }
    destruct Hjj as [[-> ->]|[-> ->]]; congruence.
Qed.
End maps.

(** ** Properties of the maps *)

Section controller.
Context (num_online_cpus : Z) (bmq : blk_mq_queue_map -> Z * blk_mq_queue_map) (Hbmq : map_queues_law bmq).
Context (possible : list Z) (n : nat) (Hpossible : forall c, c ∈ possible -> 0 <= c < Z.of_nat n).

(** C40: a new controller that was granted [nr] I/O queues, of which at least one is
    left for polling if poll queues were asked for (with none left the poll map stays
    as it was, see [poll_map_breaks_layout]), divides them so that
    the default type has at least one and no queue beyond [nr] is used; every
    CPU maps to queues that exist, two types share either all queues or none,
    and if write queues were asked for and there is a queue left for them, the
    default and the latency type of every CPU use different queues. *)
Theorem controller_maps opts nr set :
  opts_ok opts nr -> fresh_maps opts n set ->
  (o_nr_poll_queues opts <> 0 -> (division opts nr).2 <> 0) ->
  exists io set', nvme_tcp_set_io_queues opts nr [0; 0; 0] = Some io /\
    nvme_tcp_map_queues bmq opts io set = Some (0, set') /\ maps_ok possible set' nr /\
    (o_nr_write_queues opts <> 0 -> o_nr_io_queues opts < nr -> forall c, c ∈ possible ->
       map_queue_type set' HCTX_TYPE_DEFAULT c <> map_queue_type set' HCTX_TYPE_READ c).
Proof.
  intros Hok Hf Hpoll. destruct (division opts nr) as [[d r] p] eqn:Ed.
  pose proof (division_sum opts nr d r p Hok Ed) as Hs. pose proof (op_nr _ _ Hok) as Hnr. simpl in Hpoll.
  destruct (map_queues_driver bmq Hbmq n opts set d r p Hf) as (set' & E & _ & Hm); [lia..|done|].
  exists [d; r; p], set'. split_and!; [by apply set_io_queues_division|done|by apply (driver_maps_ok possible n Hpossible opts d r p); try lia|].
  intros Hw Hio c Hc. pose proof (dm_types _ _ _ _ _ _ Hm) as Ht.
  assert (2 <= nr_maps set') by (rewrite Ht; case_bool; lia).
  destruct (driver_maps_at possible n Hpossible opts d r p set' HCTX_TYPE_DEFAULT c Hm) as (i & Hi & Hir); [unfold HCTX_TYPE_DEFAULT; lia|done|].
  destruct (driver_maps_at possible n Hpossible opts d r p set' HCTX_TYPE_READ c Hm) as (k & Hk & Hkr); [unfold HCTX_TYPE_READ; lia|done|].
  rewrite Hi, Hk. intros [= ->]. unfold division in Ed. pose proof (op_io _ _ Hok).
  unfold range, HCTX_TYPE_DEFAULT, HCTX_TYPE_READ in *. simpl in *. case_bool_in Ed; injection Ed as <- <- <-; [|lia].
  case_bool_in Hkr; simpl in Hkr; lia.
Qed.

(** The class of the driver queue for a bio of a task: polled requests go to the
    poll queues, which come after the others, or to the default ones where there are
    none. *)
Definition egress_class {bt : BlkTypes} (opts : nvmf_opts) (ioc : option Z) (b : bio) : Z :=
  if has_flag (bi_opf b) REQ_HIPRI then if o_nr_poll_queues opts =? 0 then 0 else 1
  else if has_flag (bi_opf b) REQ_FUA then 0
  else if latency_task ioc || has_flag (bi_opf b) REQ_PRIO then 1 else 0.

(** The hardware queues of a CPU by type, where the driver has queues of both classes. *)
Lemma ctx_ranges opts d r p set' ctx c :
  driver_maps n opts d r p set' -> 1 <= d -> 0 < r -> 0 <= p -> o_nr_write_queues opts <> 0 -> c ∈ possible ->
  (forall j, 0 <= j < HCTX_MAX_TYPES -> aget (hctxs ctx) j = tgt set' j c) ->
  exists i0 i1 i2, aget (hctxs ctx) HCTX_TYPE_DEFAULT = Some i0 /\ 0 <= i0 < d
    /\ aget (hctxs ctx) HCTX_TYPE_READ = Some i1 /\ d <= i1 < d + r
    /\ aget (hctxs ctx) HCTX_TYPE_POLL = Some i2 /\ if o_nr_poll_queues opts =? 0 then 0 <= i2 < d else d + r <= i2 < d + r + p.
Proof.
  intros Hm Hd Hr Hp Hw Hc Ht.
  assert (Hty : forall j, 0 <= j < nr_maps set' -> exists i, aget (hctxs ctx) j = Some i /\
    (range opts d r p j).1 <= i < (range opts d r p j).1 + (range opts d r p j).2).
  { intros j Hj. pose proof (dm_types _ _ _ _ _ _ Hm) as Hnm.
    assert (nr_maps set' <= 3) by (rewrite Hnm; case_bool; lia).
    destruct (driver_maps_at possible n Hpossible opts d r p set' j c Hm Hj Hc) as (i & Hi & Hir).
    exists i. split; [|done]. rewrite Ht by (unfold HCTX_MAX_TYPES; lia). unfold tgt. rewrite Hi.
    destruct (dm_own _ _ _ _ _ _ Hm j Hj) as (x & Hx & _ & Hnq & _).
    assert (Ho : own set' j = true); [|by rewrite Ho].
    unfold own. rewrite Hx. simpl. rewrite Hnq. lia. }
  pose proof (dm_types _ _ _ _ _ _ Hm) as Hnm.
  assert (Hpl : exists i, aget (hctxs ctx) HCTX_TYPE_POLL = Some i /\
    if o_nr_poll_queues opts =? 0 then 0 <= i < d else d + r <= i < d + r + p).
  { case_bool_in Hnm.
    - destruct (Hty HCTX_TYPE_DEFAULT) as (i & Hi & Hir); [unfold HCTX_TYPE_DEFAULT; lia|]. exists i. split; [|done].
      rewrite <- Hi, !Ht by (unfold HCTX_TYPE_POLL, HCTX_TYPE_DEFAULT, HCTX_MAX_TYPES; lia).
      unfold tgt. assert (own set' HCTX_TYPE_POLL = false) as -> by (unfold own; by rewrite Hnm).
      by destruct (own set' HCTX_TYPE_DEFAULT).
    - apply (Hty HCTX_TYPE_POLL). unfold HCTX_TYPE_POLL. lia. }
  assert (2 <= nr_maps set') by (rewrite Hnm; case_bool; lia).
  destruct (Hty HCTX_TYPE_DEFAULT) as (i0 & Hi0 & R0); [unfold HCTX_TYPE_DEFAULT; lia|].
  destruct (Hty HCTX_TYPE_READ) as (i1 & Hi1 & R1); [unfold HCTX_TYPE_READ; lia|].
  destruct Hpl as (i2 & Hi2 & R2). exists i0, i1, i2.
  unfold range, HCTX_TYPE_DEFAULT, HCTX_TYPE_READ in R0, R1. simpl in R0, R1. case_bool_in R1; [|lia]. simpl in R1. split_and!; (done || lia).
Qed.

(** C2: from the task to the driver queue.  A new connection with as many write
    queues as online CPUs, as the set-up scripts ask for, enough I/O queues granted for
    these and the others (and a poll queue, if any were asked for, [poll_map_breaks_layout]),
    and the tags of all hardware queues allocated (a hardware queue without tags is
    replaced by queue 0): the mapping of the software queues succeeds, and on any CPU a
    request, neither polled nor FUA, of a latency-sensitive task, or that came with
    REQ_PRIO set, reaches a driver queue of the latency class, and a request of any
    other task one of the throughput class; a FUA request one of the throughput class;
    a polled request one of the latency class if there are poll queues, and of the
    throughput class if there are none. *)
Theorem latency_class_end_to_end {bt : BlkTypes} {mm : MqMem} {me : MapEnv} {ml : MapEnvLaws me}
    (e : run_env) opts nr set io set' m q :
  opts_ok opts nr -> fresh_maps opts n set -> (o_nr_poll_queues opts <> 0 -> (division opts nr).2 <> 0) ->
  o_nr_write_queues opts = num_online_cpus -> 1 <= num_online_cpus -> o_nr_io_queues opts + num_online_cpus <= nr ->
  nvme_tcp_set_io_queues opts nr [0; 0; 0] = Some io -> nvme_tcp_map_queues bmq opts io set = Some (0, set') ->
  NoDup possible -> Z.of_nat (length possible) <= nr_cpu_ids e < 2 ^ 16 ->
  (forall i, 0 <= i < nr -> exists t, aget (ts_tags set') i = Some (Some t)) ->
  Z.of_nat (length (queue_hw_ctx q)) = nr -> (forall c, c ∈ possible -> exists ctx, idle_ctx q c ctx) ->
  exists set2 m2 q2, blk_mq_map_swqueue e possible set' m q = Some (set2, m2, q2) /\
    forall c ioc b, c ∈ possible ->
      exists ctx i, aget (queue_ctx q2) c = Some ctx /\
        blk_mq_map_queue (bi_opf (blk_switch_set_ioprio ioc b)) ctx = Some i /\ 0 <= i < nr /\
        forall h, queue_class num_online_cpus (driver_data (nvme_tcp_init_hctx i h))
          = if has_flag (bi_opf b) REQ_HIPRI then if o_nr_poll_queues opts =? 0 then 0 else 1
            else if has_flag (bi_opf b) REQ_FUA then 0
            else if latency_task ioc || has_flag (bi_opf b) REQ_PRIO then 1 else 0.
Proof.
  intros Hok Hf Hpoll Hw Hcpu Hgr Eio Emap Hnd Hids Htags Hlen Hidle.
  destruct (division opts nr) as [[d r] p] eqn:Ed. pose proof (division_sum opts nr d r p Hok Ed) as Hs.
  pose proof (op_nr _ _ Hok) as Hnr. pose proof (op_io _ _ Hok) as Hio. simpl in Hpoll.
  rewrite (set_io_queues_division opts nr d r p Hok Ed) in Eio. injection Eio as <-.
  assert (Hdr : d = num_online_cpus /\ r = o_nr_io_queues opts).
  { unfold division in Ed. case_bool_in Ed; injection Ed as <- <- <-; lia. }
  destruct (map_queues_driver bmq Hbmq n opts set d r p Hf) as (set1 & E & _ & Hm); [lia..|done|].
  rewrite Emap in E. injection E as <-.
  pose proof (driver_maps_ok possible n Hpossible opts d r p set' nr Hm ltac:(lia) ltac:(lia) ltac:(lia) ltac:(lia) Hpoll) as Hmaps.
  rewrite <- Hlen in Hmaps, Htags.
  destruct (map_swqueue_hctxs e possible set' (length (queue_hw_ctx q)) Hmaps Hnd Hids Htags m q eq_refl Hidle)
    as (set2 & m2 & q2 & E2 & Hctx).
  exists set2, m2, q2. split; [done|]. intros c ioc b Hc. fold (egress_class opts ioc b).
  destruct (Hctx c Hc) as (ctx & Hcx & Ht).
  destruct (ctx_ranges opts d r p set' ctx c Hm) as (i0 & i1 & i2 & Hi0 & R0 & Hi1 & R1 & Hi2 & R2); [lia..|done|done|].
  exists ctx. pose proof (map_queue_egress ioc b ctx) as Hmq. revert Hmq.
  unfold egress_type, egress_class, queue_class, nvme_tcp_init_hctx. simpl.
  destruct (has_flag (bi_opf b) REQ_HIPRI);
    [|destruct (has_flag (bi_opf b) REQ_FUA); [|destruct (latency_task ioc || has_flag (bi_opf b) REQ_PRIO)]]; intros Hmq.
  - exists i2. split; [done|]. split; [by rewrite Hmq|]. case_bool_in R2; (split; [lia|]); intros _; case_bool; lia.
  - exists i0. split; [done|]. split; [by rewrite Hmq|]. split; [lia|]. intros _; case_bool; lia.
  - exists i1. split; [done|]. split; [by rewrite Hmq|]. split; [lia|]. intros _; case_bool; lia.
  - exists i0. split; [done|]. split; [by rewrite Hmq|]. split; [lia|]. intros _; case_bool; lia.
Qed.

(** The counts of a connection outlive it.  When a controller with separate
    queues reconnects and is granted no more queues than it has I/O queues, the
    number of latency queues of the old connection stays in force, and every
    CPU maps its latency type to a hardware queue that does not exist. *)
Lemma reconnect_stale_queues opts nr set d r p :
  opts_ok opts nr -> fresh_maps opts n set -> o_nr_write_queues opts <> 0 -> o_nr_poll_queues opts = 0 ->
  nr <= o_nr_io_queues opts -> 1 <= r -> nr + r < 2 ^ 32 ->
  exists set', nvme_tcp_set_io_queues opts nr [d; r; p] = Some [nr; r; p] /\
    nvme_tcp_map_queues bmq opts [nr; r; p] set = Some (0, set') /\
    forall c, c ∈ possible -> exists i, map_queue_type set' HCTX_TYPE_READ c = Some i /\ nr <= i.
Proof.
  intros Hok Hf Hw Hp Hle Hr Hsum. pose proof (op_nr _ _ Hok).
  assert (Eset : nvme_tcp_set_io_queues opts nr [d; r; p] = Some [nr; r; p]).
  { unfold nvme_tcp_set_io_queues, c_true. rewrite Hp. rewrite (proj2 (Z.ltb_ge _ _)) by lia. rewrite andb_false_r.
    rewrite Z.min_r by lia. by rewrite (proj1 (aset_counts _ _ _ _)). }
  pose proof (map_queues_result bmq Hbmq opts n set nr r 0 Hf ltac:(lia) ltac:(lia) ltac:(lia) ltac:(lia) ltac:(lia)) as (x0 & x1 & x2 & E & S0 & S1 & _).
  assert (Ep : nvme_tcp_map_queues bmq opts [nr; r; p] set = nvme_tcp_map_queues bmq opts [nr; r; 0] set).
  { unfold nvme_tcp_map_queues, c_true. rewrite Hp. done. }
  eexists. split; [done|]. split; [by rewrite Ep|]. intros c Hc.
  rewrite (proj2 (Z.eqb_neq _ _) Hw), (proj2 (Z.eqb_neq r 0) ltac:(lia)) in S1. simpl in S1.
  destruct (serves_at n nr r x1 c S1 (Hpossible c Hc)) as (i & Hi & Hir). exists i. split; [exact Hi|lia].
Qed.
End controller.

(** ** Two CPUs, two queues of each type *)

Lemma ex_map_queues_law : map_queues_law ex_map_queues.
Proof.
  intros x Hx. simpl. split_and!; [apply length_imap|done|done|]. apply Forall_lookup. intros k i Hk.
  rewrite list_lookup_imap in Hk. destruct (mq_map x !! k); [|done]. injection Hk as <-.
  pose proof (Z.mod_pos_bound (Z.of_nat k) (nr_queues x) Hx). lia.
Qed.

Definition ex_opts : nvmf_opts := mk_opts 2 2 0.
Definition ex_unmapped : blk_mq_tag_set :=
  (ex_layout [true; true; true; true]) <| set_map := [mk_queue_map [0; 0] 4 0; mk_queue_map [0; 0] 4 0; mk_queue_map [] 0 0] |>.

Lemma ex_fresh : fresh_maps ex_opts 2 ex_unmapped.
Proof.
  split; [done|done|]. intros j x Hx Hj. pose proof (aget_Some _ _ _ Hx) as Hr. simpl in *.
  assert (j = 0 \/ j = 1) as [-> | ->] by lia; by injection Hx as <-.
Qed.

Lemma ex_opts_ok nr : 1 <= nr < 2 ^ 31 -> opts_ok ex_opts nr.
Proof. intros H. by split. Qed.

Lemma ex_two_possible c : c ∈ [0; 1] -> 0 <= c < Z.of_nat 2.
Proof. intros Hc. assert (c = 0 \/ c = 1) as [-> | ->] by (revert Hc; set_solver); lia. Qed.

Lemma controller_maps_witness : exists io set',
  nvme_tcp_set_io_queues ex_opts 4 [0; 0; 0] = Some io /\
  nvme_tcp_map_queues ex_map_queues ex_opts io ex_unmapped = Some (0, set') /\ maps_ok [0; 1] set' 4.
Proof.
  destruct (@controller_maps ex_map_queues ex_map_queues_law [0; 1] 2 ex_two_possible ex_opts 4 ex_unmapped
    (ex_opts_ok 4 ltac:(lia)) ex_fresh) as (io & set' & A & B & C & _).
  - intros H. exfalso. apply H. reflexivity.
  - exists io, set'. split_and!; [exact A|exact B|exact C].
Defined.

Lemma latency_class_end_to_end_witness : exists set' set2 m2 q2 ctx i,
  nvme_tcp_map_queues ex_map_queues ex_opts [2; 2; 0] ex_unmapped = Some (0, set') /\
  @blk_mq_map_swqueue (ex_mem (fun _ => false)) ex_map_env ex_two [0; 1] set' ex_free ex_laid_queue = Some (set2, m2, q2) /\
  aget (queue_ctx q2) 1 = Some ctx /\
  @blk_mq_map_queue linux_5_4 (bi_opf (@blk_switch_set_ioprio linux_5_4 (Some 8196) (mk_bio 4096 0 0 0))) ctx = Some i /\
  queue_class 2 (driver_data (nvme_tcp_init_hctx i hctx0)) = 1.
Proof.
  destruct (nvme_tcp_map_queues ex_map_queues ex_opts [2; 2; 0] ex_unmapped) as [[z set']|] eqn:E; [|vm_compute in E; discriminate].
  assert (Hz : z = 0 /\ ts_tags set' = ts_tags ex_unmapped).
  { vm_compute in E. injection E as <- <-. split; reflexivity. }
  destruct Hz as [-> Ht].
  destruct (@latency_class_end_to_end 2 ex_map_queues ex_map_queues_law [0; 1] 2 ex_two_possible linux_5_4
    (ex_mem (fun _ => false)) ex_map_env ex_map_env_laws ex_two ex_opts 4 ex_unmapped [2; 2; 0] set' ex_free ex_laid_queue)
    as (set2 & m2 & q2 & F & G).
  - apply ex_opts_ok. lia.
  - exact ex_fresh.
  - intros H. exfalso. apply H. reflexivity.
  - reflexivity.
  - lia.
  - simpl. lia.
  - reflexivity.
  - exact E.
  - apply (bool_decide_unpack _). reflexivity.
  - simpl. lia.
  - intros i Hi. rewrite Ht. apply ex_layout_tags. exact Hi.
  - reflexivity.
  - intros c Hc. assert (c = 0 \/ c = 1) as [-> | ->] by (revert Hc; set_solver); eexists; repeat split.
  - destruct (G 1 (Some 8196) (mk_bio 4096 0 0 0)) as (ctx & i & G1 & G2 & _ & G3); [set_solver|].
    exists set', set2, m2, q2, ctx, i. split; [reflexivity|]. split; [exact F|]. split; [exact G1|].
    split; [exact G2|]. rewrite G3. reflexivity.
Defined.

Lemma reconnect_stale_queues_witness : exists set',
  nvme_tcp_set_io_queues ex_opts 2 [2; 2; 0] = Some [2; 2; 0] /\
  nvme_tcp_map_queues ex_map_queues ex_opts [2; 2; 0] ex_unmapped = Some (0, set') /\
  exists i, map_queue_type set' HCTX_TYPE_READ 0 = Some i /\ 2 <= i.
Proof.
  destruct (@reconnect_stale_queues ex_map_queues ex_map_queues_law [0; 1] 2 ex_two_possible ex_opts 2 ex_unmapped 2 2 0)
    as (set' & A & B & C).
  - apply ex_opts_ok. lia.
  - exact ex_fresh.
  - discriminate.
  - reflexivity.
  - simpl. lia.
  - lia.
  - lia.
  - exists set'. split; [exact A|]. split; [exact B|]. apply C. set_solver.
Defined.

(** ** Poll queues without a queue left *)

(** Four CPUs, two queues, a poll queue asked for and none left: [alloc_tag_set]
    gave every map the number of hardware queues. *)
Definition ex_four : run_env := mk_run_env 0 [0; 1; 2; 3] 4 (fun m => m).
Definition ex_poll_set : blk_mq_tag_set :=
  mk_tag_set (replicate 3 (mk_queue_map [0; 0; 0; 0] 2 0)) 3 2 1 0 100 0 0 [Some (ex_ts 0); Some (ex_ts 1)].
Definition ex_four_queue : request_queue :=
  queue0 <| queue_ctx := imap (fun i _ => ctx0 <| cpu := Z.of_nat i |>) (replicate 4 tt) |>
         <| queue_hw_ctx := replicate 2 hctx0 |>.

(** When poll queues were asked for and the controller granted none, the
    driver leaves the poll map as it is, all zeros with a positive number of
    queues.  The mapping then enters CPUs into hardware queue 0 under two types,
    and CPU 2, whose bit is 2, is left with the number 0, the bit of CPU 0. *)
Theorem poll_map_breaks_layout :
  exists set' set2 m2 q2 h ctx,
    nvme_tcp_set_io_queues (mk_opts 2 0 1) 2 [0; 0; 0] = Some [2; 0; 0] /\
    nvme_tcp_map_queues ex_map_queues (mk_opts 2 0 1) [2; 0; 0] ex_poll_set = Some (0, set') /\
    @blk_mq_map_swqueue (ex_mem (fun _ => false)) ex_map_env ex_four [0; 1; 2; 3] set' ex_free ex_four_queue
      = Some (set2, m2, q2) /\
    aget (queue_hw_ctx q2) 0 = Some h /\ aget (queue_ctx q2) 2 = Some ctx /\
    aget (h_ctxs h) 2 = Some 2 /\ aget (index_hw ctx) (h_type h) = Some 0 /\ ~ pending_wf 0 q2 h.
Proof.
  do 6 eexists. split; [reflexivity|]. split; [vm_compute; reflexivity|]. split; [vm_compute; reflexivity|].
  split; [reflexivity|]. split; [reflexivity|]. split; [reflexivity|]. split; [reflexivity|].
  intros H. destruct (pw_ctx _ _ _ H 2 2 eq_refl) as (ctx & l & E1 & E2 & _).
  injection E1 as <-. discriminate E2.
Qed.
