(* ===== verification/NvmeTcpConn.v ===== *)
(** * Connections of the NVMe/TCP host

    Allocation, connection, start, stop and release of one queue of a
    controller, with every error path (drivers/nvme/host/tcp.c).  What the
    functions allocate is an object of a heap, so that the use or the release of
    something that is not allocated is undefined ([None]).  The results of calls
    outside the repository are read from the class [CtrlEnv], by the number of
    the call. *)
From S2P Require Import Prelude MqTypes BlkMqTagSet NvmeTcpMap.

(** States of a controller. *)
Inductive nvme_ctrl_state :=
| NVME_CTRL_NEW | NVME_CTRL_LIVE | NVME_CTRL_RESETTING | NVME_CTRL_CONNECTING
| NVME_CTRL_DELETING | NVME_CTRL_DEAD.
#[export] Instance ctrl_state_eq_dec : EqDecision nvme_ctrl_state.
Proof. solve_decision. Defined.

(** The fields of an ICResp PDU. *)
Record icresp := mk_icresp {
  ic_type : Z;
  ic_plen : Z;
  ic_pfv : Z;
  ic_digest : Z;
  ic_cpda : Z;
}.

Class CtrlEnv := {
  ext : nat -> Z;  (* result of a call *)
  alloc_ok : nat -> bool;  (* an allocation succeeds *)
  caravan_ok : nat -> bool;  (* an allocation of a caravan array succeeds *)
  ptr_err : nat -> Z;  (* error of a failed call that returns a pointer *)
  icresp_of : nat -> icresp;  (* what kernel_recvmsg stored *)
  identified : nat -> Z * Z * Z;  (* sqsize, icdoff and maxcmd after nvme_init_identify *)
  ioccsz : nat -> Z;  (* capsule size of the controller *)
  granted : nat -> Z -> Z;  (* queues granted by nvme_set_queue_count *)
  change_ok : nvme_ctrl_state -> nvme_ctrl_state -> bool;  (* nvme_change_ctrl_state *)
  should_reconnect : nat -> bool;  (* nvmf_should_reconnect *)
  next_wrap : Z -> Z;  (* cpumask_next_wrap over the online CPUs *)
  online_cpus : Z;
  nvme_tcp_icresp : Z;
  sizeof_icresp : Z;
  NVME_TCP_PFV_1_0 : Z;
  NVME_TCP_HDR_DIGEST_ENABLE : Z;
  NVME_TCP_DATA_DIGEST_ENABLE : Z;
  sizeof_nvme_command : Z;
  NVME_TCP_ADMIN_CCSZ : Z;
  sizeof_tcp_rsp_pdu : Z;
}.

(** ** The heap *)

Record world := mk_world {
  w_live : list Z;
  w_calls : nat;
}.
#[export] Instance world_eta : Settable world := {| eta_expand := fun r => mk_world (w_live r) (w_calls r) |}.

Section heap.
Context {ce : CtrlEnv}.

Definition call (w : world) : Z * world := (ext (w_calls w), w <| w_calls ::= S |>).

Definition new_obj (ok : nat -> bool) (w : world) : option Z * world :=
  if ok (w_calls w)
  then (Some (Z.of_nat (w_calls w)), w <| w_live ::= cons (Z.of_nat (w_calls w)) |> <| w_calls ::= S |>)
  else (None, w <| w_calls ::= S |>).

(** Release of an object that is in use. *)
Definition release (p : option Z) (w : world) : option world :=
  i ← p; if bool_decide (i ∈ w_live w) then Some (w <| w_live ::= filter (fun x => x <> i) |>) else None.

(** An object that is read or written has to be in use. *)
Definition use (p : option Z) (w : world) : option world :=
  i ← p; if bool_decide (i ∈ w_live w) then Some w else None.

(** [kfree], which accepts NULL. *)
Definition kfree (p : option Z) (w : world) : option world :=
  match p with None => Some w | Some _ => release p w end.
End heap.

(** ** Queues *)

(** The part of struct nvme_tcp_queue that a connection starts with: the state
    of sending, of the caravan and of receiving. *)
Record io_state := mk_io_state {
  ios_send_list : list Z;
  ios_request : option Z;
  ios_capsule_len : Z;
  ios_nr_req : Z;
  ios_timer_set : Z;
  ios_nr_iovs : Z;
  ios_nr_caravan_req : Z;
  ios_nr_mapped : Z;
  ios_caravan_len : Z;
  ios_send_now : bool;
  ios_data_remaining : Z;
  ios_ddgst_remaining : Z;
  ios_pdu_remaining : Z;
  ios_pdu_offset : Z;
}.
#[export] Instance io_state_eta : Settable io_state := {| eta_expand := fun r =>
  mk_io_state (ios_send_list r) (ios_request r) (ios_capsule_len r) (ios_nr_req r) (ios_timer_set r)
    (ios_nr_iovs r) (ios_nr_caravan_req r) (ios_nr_mapped r) (ios_caravan_len r) (ios_send_now r)
    (ios_data_remaining r) (ios_ddgst_remaining r) (ios_pdu_remaining r) (ios_pdu_offset r) |}.

(** The life cycle part of struct nvme_tcp_queue. *)
Record tcp_queue := mk_tq {
  tq_allocated : bool;  (* NVME_TCP_Q_ALLOCATED *)
  tq_live : bool;  (* NVME_TCP_Q_LIVE *)
  tq_sock : option Z;
  tq_pdu : option Z;
  tq_iovs : option Z;
  tq_mapped : option Z;
  tq_tfm : option Z;  (* transform of rcv_hash *)
  tq_snd_hash : option Z;
  tq_rcv_hash : option Z;
  tq_hdr_digest : bool;
  tq_data_digest : bool;
  tq_rd_enabled : bool;
  tq_callbacks : bool;  (* the socket calls the driver *)
  tq_io_cpu : Z;
  tq_size : Z;
  tq_io : io_state;
}.
#[export] Instance tcp_queue_eta : Settable tcp_queue := {| eta_expand := fun r =>
  mk_tq (tq_allocated r) (tq_live r) (tq_sock r) (tq_pdu r) (tq_iovs r) (tq_mapped r) (tq_tfm r)
    (tq_snd_hash r) (tq_rcv_hash r) (tq_hdr_digest r) (tq_data_digest r) (tq_rd_enabled r)
    (tq_callbacks r) (tq_io_cpu r) (tq_size r) (tq_io r) |}.

(** A queue of the zeroed array. *)
Definition new_queue : tcp_queue :=
  mk_tq false false None None None None None None None false false false false 0 0
    (mk_io_state [] None 0 0 0 0 0 0 0 false 0 0 0 0).

(** The options of a connection. *)
Record conn_opts := mk_copts {
  co_driver : host_driver;
  co_hdr_digest : bool;
  co_data_digest : bool;
  co_tos : bool;  (* a type of service was given *)
  co_host_traddr : bool;
  co_queues : nvmf_opts;
}.

Section queue.
Context {ce : CtrlEnv} (opts : conn_opts).

Definition uses_digest (q : tcp_queue) : bool := tq_hdr_digest q || tq_data_digest q.

Definition nvme_tcp_free_crypto (q : tcp_queue) (w : world) : option world :=
  w ← release (tq_rcv_hash q) w; w ← release (tq_snd_hash q) w; release (tq_tfm q) w.

(** The result, the queue and the heap. *)
Definition nvme_tcp_alloc_crypto (q : tcp_queue) (w : world) : option (Z * tcp_queue * world) :=
  match new_obj alloc_ok w with
  | (None, w) => Some (ptr_err (w_calls w), q, w)
  | (Some tfm, w) =>
    match new_obj alloc_ok w with
    | (None, w) => w ← release (Some tfm) w; Some (- ENOMEM, q <| tq_snd_hash := None |>, w)
    | (Some s, w) =>
      let q := q <| tq_snd_hash := Some s |> in
      match new_obj alloc_ok w with
      | (None, w) =>
        w ← release (Some s) w; w ← release (Some tfm) w; Some (- ENOMEM, q <| tq_rcv_hash := None |>, w)
      | (Some r, w) => Some (0, q <| tq_rcv_hash := Some r |> <| tq_tfm := Some tfm |>, w)
      end
    end
  end.

(** The checks of [nvme_tcp_init_connection] on the response. *)
Definition check_icresp (q : tcp_queue) (r : icresp) : Z :=
  if negb (ic_type r =? nvme_tcp_icresp) then - EINVAL
  else if negb (ic_plen r =? sizeof_icresp) then - EINVAL
  else if negb (ic_pfv r =? NVME_TCP_PFV_1_0) then - EINVAL
  else
    let ctrl_ddgst := has_flag (ic_digest r) NVME_TCP_DATA_DIGEST_ENABLE in
    if (tq_data_digest q && negb ctrl_ddgst) || (negb (tq_data_digest q) && ctrl_ddgst) then - EINVAL
    else
      let ctrl_hdgst := has_flag (ic_digest r) NVME_TCP_HDR_DIGEST_ENABLE in
      if (tq_hdr_digest q && negb ctrl_hdgst) || (negb (tq_hdr_digest q) && ctrl_hdgst) then - EINVAL
      else if negb (ic_cpda r =? 0) then - EINVAL
      else 0.

Definition nvme_tcp_init_connection (q : tcp_queue) (w : world) : option (Z * world) :=
  match new_obj alloc_ok w with
  | (None, w) => Some (- ENOMEM, w)
  | (Some icreq, w) =>
    match new_obj alloc_ok w with
    | (None, w) => w ← kfree (Some icreq) w; Some (- ENOMEM, w)
    | (Some resp, w) =>
      let '(ret, w) := call w in
      let '(ret, w) :=
        if ret <? 0 then (ret, w)
        else let k := w_calls w in
             let '(ret, w) := call w in
             if ret <? 0 then (ret, w) else (check_icresp q (icresp_of k), w) in
      w ← kfree (Some resp) w; w ← kfree (Some icreq) w; Some (ret, w)
    end
  end.

(** What [nvme_tcp_alloc_queue] resets: first, when the caravan arrays are
    there, when the socket is, and at the end ([nvme_tcp_init_recv_ctx]). *)
Definition reset_queue (qid queue_size : Z) (w : world) (q : tcp_queue) : tcp_queue :=
  q <| tq_size := queue_size |>
    <| tq_io ::= fun s => s <| ios_send_list := [] |>
         <| ios_capsule_len := if 0 <? qid then ioccsz (w_calls w) * 16 else sizeof_nvme_command + NVME_TCP_ADMIN_CCSZ |> |>.
Definition reset_caravan (q : tcp_queue) : tcp_queue :=
  q <| tq_io ::= fun s => s <| ios_nr_req := 0 |> <| ios_timer_set := 0 |> <| ios_nr_iovs := 0 |>
         <| ios_nr_caravan_req := 0 |> <| ios_nr_mapped := 0 |> <| ios_caravan_len := 0 |> <| ios_send_now := false |> |>.
Definition reset_recv (q : tcp_queue) : tcp_queue :=
  q <| tq_io ::= fun s => s <| ios_request := None |> <| ios_data_remaining := 0 |> <| ios_ddgst_remaining := 0 |>
         <| ios_pdu_remaining := 0 |> <| ios_pdu_offset := 0 |> |>.
Definition init_recv_ctx (q : tcp_queue) : tcp_queue :=
  q <| tq_io ::= fun s => s <| ios_pdu_remaining := sizeof_tcp_rsp_pdu + (if tq_hdr_digest q then 4 else 0) |>
         <| ios_pdu_offset := 0 |> <| ios_data_remaining := u64 (-1) |> <| ios_ddgst_remaining := 0 |> |>.

(** [n] calls that have to return 0. *)
Fixpoint calls (n : nat) (w : world) : Z * world :=
  match n with
  | O => (0, w)
  | S n => let '(ret, w) := call w in if ret =? 0 then calls n w else (ret, w)
  end.

(** The error labels of [nvme_tcp_alloc_queue], last to first. *)
Definition err_sock (ret : Z) (q : tcp_queue) (w : world) : option (Z * tcp_queue * world) :=
  w ← release (tq_sock q) w; Some (ret, q <| tq_sock := None |>, w).

(** Only i10.c has labels for the caravan arrays. *)
Definition err_caravan_iovs (ret : Z) (q : tcp_queue) (w : world) : option (Z * tcp_queue * world) :=
  w ← kfree (tq_iovs q) w; err_sock ret q w.

Definition err_caravan_mapped (ret : Z) (q : tcp_queue) (w : world) : option (Z * tcp_queue * world) :=
  match co_driver opts with
  | NVME_TCP => err_sock ret q w
  | I10_HOST => w ← kfree (tq_mapped q) w; err_caravan_iovs ret q w
  end.

Definition err_crypto (ret : Z) (q : tcp_queue) (w : world) : option (Z * tcp_queue * world) :=
  w ← (if uses_digest q then nvme_tcp_free_crypto q w else Some w); err_caravan_mapped ret q w.

Definition err_rcv_pdu (ret : Z) (q : tcp_queue) (w : world) : option (Z * tcp_queue * world) :=
  w ← kfree (tq_pdu q) w; err_crypto ret q w.

(** From the call of [kernel_connect] on. *)
Definition connect_queue (q : tcp_queue) (w : world) : option (Z * tcp_queue * world) :=
  let '(ret, w) := call w in
  if negb (ret =? 0) then err_rcv_pdu ret q w
  else
    '(ret, w) ← nvme_tcp_init_connection q w;
    if negb (ret =? 0) then err_rcv_pdu ret q w
    else Some (0, (init_recv_ctx (q <| tq_rd_enabled := true |> <| tq_allocated := true |>)) <| tq_callbacks := true |>, w).

(** From the digests on. *)
Definition prepare_queue (q : tcp_queue) (w : world) : option (Z * tcp_queue * world) :=
  let q := q <| tq_hdr_digest := co_hdr_digest opts |> <| tq_data_digest := co_data_digest opts |> in
  '(ret, q, w) ← (if uses_digest q then nvme_tcp_alloc_crypto q w else Some (0, q, w));
  if negb (ret =? 0) then err_caravan_mapped ret q w
  else
    let '(pdu, w) := new_obj alloc_ok w in
    let q := q <| tq_pdu := pdu |> in
    match pdu with
    | None => err_crypto (- ENOMEM) q w
    | Some _ => connect_queue q w
    end.

(** i10.c allocates the caravan arrays here. *)
Definition alloc_caravan (q : tcp_queue) (w : world) : option (Z * tcp_queue * world) :=
  let '(iovs, w) := new_obj caravan_ok w in
  let q := q <| tq_iovs := iovs |> in
  match iovs with
  | None => err_sock (- ENOMEM) q w
  | Some _ =>
    let '(mapped, w) := new_obj caravan_ok w in
    let q := q <| tq_mapped := mapped |> in
    match mapped with
    | None => err_caravan_iovs (- ENOMEM) q w
    | Some _ => prepare_queue (reset_caravan q) w
    end
  end.

(** From [sock_create] on. *)
Definition create_socket (qid : Z) (q : tcp_queue) (w : world) : option (Z * tcp_queue * world) :=
  let ret := ext (w_calls w) in
  if negb (ret =? 0) then Some (ret, q, w <| w_calls ::= S |>)
  else
    let '(s, w) := new_obj (fun _ => true) w in
    let q := q <| tq_sock := s |> in
    let '(ret, w) := calls (if co_tos opts then 6 else 5) w in
    if negb (ret =? 0) then err_sock ret q w
    else
      let n := if qid =? 0 then 0 else (qid - 1) mod online_cpus in
      let q := reset_recv (q <| tq_io_cpu := next_wrap (n - 1) |>) in
      let '(ret, w) := calls (if co_host_traddr opts then 1 else 0) w in
      if negb (ret =? 0) then err_sock ret q w
      else match co_driver opts with NVME_TCP => prepare_queue q w | I10_HOST => alloc_caravan q w end.

Definition alloc_queue (qid queue_size : Z) (q : tcp_queue) (w : world) : option (Z * tcp_queue * world) :=
  let q := reset_queue qid queue_size w q in
  match co_driver opts with
  | I10_HOST => create_socket qid q w
  | NVME_TCP =>
    let '(iovs, w) := new_obj caravan_ok w in
    let q := q <| tq_iovs := iovs |> in
    match iovs with
    | None => err_sock (- ENOMEM) q w
    | Some _ =>
      let '(mapped, w) := new_obj caravan_ok w in
      let q := q <| tq_mapped := mapped |> in
      match mapped with
      | None => err_sock (- ENOMEM) q w
      | Some _ => create_socket qid (reset_caravan q) w
      end
    end
  end.

Definition free_queue (q : tcp_queue) (w : world) : option (tcp_queue * world) :=
  if negb (tq_allocated q) then Some (q, w)
  else
    let q := q <| tq_allocated := false |> in
    w ← (if uses_digest q then nvme_tcp_free_crypto q w else Some w);
    w ← release (tq_sock q) w;
    w ← kfree (tq_pdu q) w;
    w ← kfree (tq_iovs q) w;
    w ← kfree (tq_mapped q) w;
    Some (q, w).

(** [__nvme_tcp_stop_queue]: the socket is shut down and gets its own callbacks
    back, the works are cancelled. *)
Definition stop_queue_inner (q : tcp_queue) (w : world) : option (tcp_queue * world) :=
  w ← use (tq_sock q) w; Some (q <| tq_callbacks := false |>, w).

Definition stop_queue (q : tcp_queue) (w : world) : option (tcp_queue * world) :=
  if negb (tq_live q) then Some (q, w) else stop_queue_inner (q <| tq_live := false |>) w.

(** The connect command of the fabrics library is a call. *)
Definition start_queue (q : tcp_queue) (w : world) : option (Z * tcp_queue * world) :=
  let '(ret, w) := call w in
  if ret =? 0 then Some (ret, q <| tq_live := true |>, w)
  else if tq_allocated q then '(q, w) ← stop_queue_inner q w; Some (ret, q, w)
  else Some (ret, q, w).
End queue.

