(* ===== verification/NvmeTcpConnSpec.v ===== *)
(** * Ownership of the objects of a queue

    What a queue owns, and that [alloc_queue] either hands out exactly that or
    gives back everything (i10.c) or everything but the two caravan arrays (tcp.c); that [free_queue] gives it
    back, and that stop and start only touch sockets in use. *)
From S2P Require Import Prelude MqTypes BlkMqTagSet NvmeTcpMap NvmeTcpConn.

(** What the code relies on in the calls outside the repository. *)
Class CtrlLaws (ce : CtrlEnv) := {
  ptr_err_neg : forall k, ptr_err k < 0;  (* an error pointer *)
  granted_le : forall k n, 0 <= n -> 0 <= granted k n <= n;  (* nvme_set_queue_count takes the minimum *)
  online_pos : 0 < online_cpus;
}.

(** The objects in use are those of [l]. *)
Definition holds (w : world) (l : list Z) : Prop :=
  w_live w ≡ₚ l /\ NoDup (w_live w) /\ Forall (fun i => 0 <= i < Z.of_nat (w_calls w)) (w_live w).

(** What a queue that is allocated owns. *)
Definition queue_ptrs (q : tcp_queue) : list (option Z) :=
  (if uses_digest q then [tq_rcv_hash q; tq_snd_hash q; tq_tfm q] else []) ++
  [tq_sock q; tq_pdu q; tq_iovs q; tq_mapped q].
Definition queue_owned (q : tcp_queue) : list Z := if tq_allocated q then omap id (queue_ptrs q) else [].

Definition wf_queue (q : tcp_queue) : Prop :=
  (tq_allocated q = true -> Forall is_Some (queue_ptrs q)) /\ (tq_live q = true -> tq_allocated q = true).

Section heap.
Context {ce : CtrlEnv}.

Lemma holds_perm w l l' : holds w l -> l ≡ₚ l' -> holds w l'.
Proof. intros (H & ? & ?) Hp. by split; [rewrite H|]. Qed.

Lemma holds_later w l : holds w l -> holds (w <| w_calls ::= S |>) l.
Proof.
  intros (H & ? & Hb). split_and!; [done..|]. eapply Forall_impl; [exact Hb|]. simpl. lia.
Qed.

Lemma call_spec w l : holds w l -> exists w', call w = (ext (w_calls w), w') /\ holds w' l.
Proof. intros H. eexists; split; [done|]. by apply holds_later. Qed.

Lemma new_spec ok w l :
  holds w l ->
  (exists w', new_obj ok w = (None, w') /\ ok (w_calls w) = false /\ holds w' l) \/
  (exists i w', new_obj ok w = (Some i, w') /\ holds w' (i :: l)).
Proof.
  intros H. unfold new_obj. destruct (ok (w_calls w)); [right|left].
  - destruct H as (Hp & Hn & Hb). eexists _, _; split; [done|]. split_and!; simpl.
    + by rewrite Hp.
    + constructor; [|done]. intros Hin. rewrite Forall_forall in Hb. specialize (Hb _ Hin). lia.
    + constructor; [lia|]. eapply Forall_impl; [exact Hb|]. simpl. lia.
  - eexists; split_and!; [done..|]. by apply holds_later.
Qed.

Lemma release_spec i w l : holds w (i :: l) -> exists w', release (Some i) w = Some w' /\ holds w' l.
Proof.
  intros (Hp & Hn & Hb). unfold release. cbn [mbind option_bind].
  rewrite bool_decide_true by (rewrite Hp; set_solver). eexists; split; [done|].
  assert (Hf : filter (fun x => x <> i) (w_live w) ≡ₚ l).
  { rewrite Hp in Hn. apply NoDup_cons in Hn as [Hi Hn]. rewrite Hp, filter_cons_False by (intros ?; done).
    rewrite list_filter_all; [done|]. intros x Hx ->. done. }
  split_and!; simpl; [done|by apply NoDup_filter|].
  apply Forall_forall. intros x Hx%list_elem_of_filter. rewrite Forall_forall in Hb. apply Hb, Hx.
Qed.

Lemma kfree_spec i w l : holds w (i :: l) -> exists w', kfree (Some i) w = Some w' /\ holds w' l.
Proof. apply release_spec. Qed.

Lemma use_spec i w l : holds w l -> i ∈ l -> use (Some i) w = Some w.
Proof. intros (Hp & _) Hi. unfold use. cbn. by rewrite bool_decide_true by (rewrite Hp; done). Qed.

Lemma calls_spec n w l : holds w l -> exists ret w', calls n w = (ret, w') /\ holds w' l.
Proof.
  revert w. induction n as [|n IH]; intros w H; [by eexists _, _|]. simpl.
  destruct (ext (w_calls w) =? 0); [apply IH|eexists _, _; split; [done|]]; by apply holds_later.
Qed.
End heap.

(** One step of a run over the heap. *)
Ltac heap_step :=
  match goal with
  | H : holds ?w ?l |- context [new_obj ?ok ?w] =>
    let E := fresh "E" in let Hok := fresh "Hok" in
    destruct (new_spec ok w l H) as [(? & E & Hok & ?)|(? & ? & E & ?)]; rewrite E; clear E H
  | H : holds ?w ?l |- context [call ?w] =>
    let E := fresh "E" in destruct (call_spec w l H) as (? & E & ?); rewrite E; clear E H
  | H : holds ?w (?i :: ?l) |- context [release (Some ?i) ?w] =>
    let E := fresh "E" in destruct (release_spec i w l H) as (? & E & ?); rewrite E; clear E H
  | H : holds ?w (?i :: ?l) |- context [kfree (Some ?i) ?w] =>
    let E := fresh "E" in destruct (kfree_spec i w l H) as (? & E & ?); rewrite E; clear E H
  | H : holds ?w ?l |- context [calls ?n ?w] =>
    let E := fresh "E" in destruct (calls_spec n w l H) as (? & ? & E & ?); rewrite E; clear E H
  end; cbn [mbind option_bind].

(** ** Queues *)

Section queue.
Context {ce : CtrlEnv} {cl : CtrlLaws ce} (opts : conn_opts).

Lemma alloc_crypto_spec q w l :
  holds w l ->
  exists ret q' w', nvme_tcp_alloc_crypto q w = Some (ret, q', w') /\
    (ret <> 0 /\ holds w' l /\
       q' = q <| tq_snd_hash := tq_snd_hash q' |> <| tq_rcv_hash := tq_rcv_hash q' |>
     \/ exists r s t, ret = 0 /\ holds w' (r :: s :: t :: l) /\
       q' = q <| tq_snd_hash := Some s |> <| tq_rcv_hash := Some r |> <| tq_tfm := Some t |>).
Proof.
  intros H. unfold nvme_tcp_alloc_crypto. heap_step.
  { eexists _, _, _; split; [done|]. left. pose proof (ptr_err_neg (w_calls x)). destruct q; simpl. split_and!; [lia|done..]. }
  heap_step.
  { heap_step. eexists _, _, _; split; [done|]. left. by destruct q. }
  heap_step.
  { heap_step. heap_step. eexists _, _, _; split; [done|]. left. by destruct q. }
  eexists _, _, _; split; [done|]. right. by eexists _, _, _.
Qed.

Lemma init_connection_spec q w l :
  holds w l -> exists ret w', nvme_tcp_init_connection q w = Some (ret, w') /\ holds w' l.
Proof.
  intros H. unfold nvme_tcp_init_connection. heap_step; [by eexists _, _|].
  heap_step; [heap_step; by eexists _, _|]. heap_step.
  destruct (_ <? 0); [|heap_step; destruct (_ <? 0)]; do 2 heap_step; by eexists _, _.
Qed.

(** What a queue that could not be allocated leaves behind. *)
Definition not_allocated (q0 : tcp_queue) (l : list Z) (r : option (Z * tcp_queue * world)) : Prop :=
  exists ret q w, r = Some (ret, q, w) /\ ret <> 0 /\ holds w l /\
    tq_allocated q = tq_allocated q0 /\ tq_live q = tq_live q0.

Lemma err_sock_spec ret q w s l :
  ret <> 0 -> tq_sock q = Some s -> holds w (s :: l) -> not_allocated q l (err_sock ret q w).
Proof. intros Hr Hs H. unfold err_sock. rewrite Hs. heap_step. by eexists _, _, _. Qed.

(** The objects of the digests. *)
Definition crypto (q : tcp_queue) (l : list Z) : Prop :=
  if uses_digest q
  then exists r s t, tq_rcv_hash q = Some r /\ tq_snd_hash q = Some s /\ tq_tfm q = Some t /\ l = [r; s; t]
  else l = [].

(** The objects of the caravan, and what is left of them after an error: tcp.c has no
    label that frees them. *)
Definition car (q : tcp_queue) (s i m : Z) : Prop :=
  tq_sock q = Some s /\ tq_iovs q = Some i /\ tq_mapped q = Some m.
Definition car_left (i m : Z) : list Z :=
  match co_driver opts with NVME_TCP => [m; i] | I10_HOST => [] end.

Lemma err_caravan_spec ret q w s i m l :
  ret <> 0 -> car q s i m -> holds w (s :: m :: i :: l) ->
  not_allocated q (car_left i m ++ l) (err_caravan_mapped opts ret q w).
Proof.
  intros Hr (Hs & Hi & Hm) H. unfold err_caravan_mapped, car_left. destruct (co_driver opts).
  - by eapply err_sock_spec.
  - unfold err_caravan_iovs. rewrite Hi, Hm.
    assert (holds w (m :: i :: s :: l)) as H' by (eapply holds_perm; [done|solve_Permutation]). clear H.
    do 2 heap_step. by eapply err_sock_spec.
Qed.

Lemma err_crypto_spec ret q w s i m lc l :
  ret <> 0 -> car q s i m -> crypto q lc -> holds w (lc ++ s :: m :: i :: l) ->
  not_allocated q (car_left i m ++ l) (err_crypto opts ret q w).
Proof.
  intros Hr Hs Hc H. unfold err_crypto, crypto in *. destruct (uses_digest q).
  - destruct Hc as (r & s' & t & E1 & E2 & E3 & ->). unfold nvme_tcp_free_crypto. rewrite E1, E2, E3. simpl in H.
    do 3 heap_step. by eapply err_caravan_spec.
  - subst lc. by eapply err_caravan_spec.
Qed.

Lemma err_rcv_pdu_spec ret q w s i m p lc l :
  ret <> 0 -> car q s i m -> tq_pdu q = Some p -> crypto q lc -> holds w (p :: lc ++ s :: m :: i :: l) ->
  not_allocated q (car_left i m ++ l) (err_rcv_pdu opts ret q w).
Proof. intros. unfold err_rcv_pdu. rewrite H1. heap_step. by eapply err_crypto_spec. Qed.

(** The two results of the allocation: the queue owns its objects, or only the
    objects of [left] are left. *)
Definition allocated_or (q0 : tcp_queue) (left l : list Z) (r : option (Z * tcp_queue * world)) : Prop :=
  (exists q w, r = Some (0, q, w) /\ tq_allocated q = true /\ tq_live q = tq_live q0 /\
     Forall is_Some (queue_ptrs q) /\ holds w (queue_owned q ++ l)) \/
  not_allocated q0 (left ++ l) r.

Lemma allocated_or_same q0 q1 left l r :
  tq_allocated q1 = tq_allocated q0 -> tq_live q1 = tq_live q0 ->
  allocated_or q1 left l r -> allocated_or q0 left l r.
Proof. unfold allocated_or, not_allocated. intros -> ->. done. Qed.

Lemma crypto_ptrs q lc :
  crypto q lc ->
  Forall is_Some (if uses_digest q then [tq_rcv_hash q; tq_snd_hash q; tq_tfm q] else []) /\
  omap id (if uses_digest q then [tq_rcv_hash q; tq_snd_hash q; tq_tfm q] else []) = lc.
Proof.
  unfold crypto. destruct (uses_digest q); [|by intros ->].
  intros (r & s & t & -> & -> & -> & ->). split; [|done]. repeat constructor; eauto.
Qed.

Lemma connect_queue_spec q w s p i m lc l :
  car q s i m -> tq_pdu q = Some p -> crypto q lc ->
  holds w (p :: lc ++ s :: m :: i :: l) -> allocated_or q (car_left i m) l (connect_queue opts q w).
Proof.
  intros Hcar Hp Hc H. pose proof Hcar as (Hs & Hi & Hm). unfold connect_queue. heap_step.
  destruct (Z.eqb_spec (ext (w_calls w)) 0); cbn [negb]; [|right; by eapply err_rcv_pdu_spec].
  destruct (init_connection_spec q x _ H0) as (ret & w' & -> & H'). cbn [mbind option_bind].
  destruct (Z.eqb_spec ret 0); cbn [negb]; [|right; by eapply err_rcv_pdu_spec].
  left. eexists _, _; split; [done|]. destruct (crypto_ptrs q lc Hc) as [Hf Ho].
  assert (E : queue_ptrs ((init_recv_ctx (q <| tq_rd_enabled := true |> <| tq_allocated := true |>)) <| tq_callbacks := true |>) =
              queue_ptrs q) by done.
  split_and!; [done..| |].
  - rewrite E. apply Forall_app. split; [done|]. rewrite Hs, Hp, Hi, Hm. repeat constructor; eauto.
  - match goal with |- holds _ (queue_owned ?q' ++ _) => change (queue_owned q') with (omap id (queue_ptrs q)) end.
    unfold queue_ptrs. rewrite omap_app, Ho, Hs, Hp, Hi, Hm. eapply holds_perm; [exact H'|]. simpl. solve_Permutation.
Qed.

Lemma prepare_queue_spec q w s i m l :
  car q s i m -> holds w (s :: m :: i :: l) -> allocated_or q (car_left i m) l (prepare_queue opts q w).
Proof.
  intros Hcar H. unfold prepare_queue.
  set (q1 := q <| tq_hdr_digest := _ |> <| tq_data_digest := _ |>).
  apply (allocated_or_same q q1); [done..|].
  assert (Hc : exists ret q2 w2,
    (if uses_digest q1 then nvme_tcp_alloc_crypto q1 w else Some (0, q1, w)) = Some (ret, q2, w2) /\
    tq_allocated q2 = tq_allocated q1 /\ tq_live q2 = tq_live q1 /\
    car q2 s i m /\
    (ret <> 0 /\ holds w2 (s :: m :: i :: l) \/
     exists lc, ret = 0 /\ crypto q2 lc /\ holds w2 (lc ++ s :: m :: i :: l))).
  { destruct (uses_digest q1) eqn:Ed.
    - destruct (alloc_crypto_spec q1 w _ H) as (ret & q2 & w2 & -> & Hr). exists ret, q2, w2. split; [done|].
      destruct Hr as [(Hr & H2 & ->)|(r & s' & t & -> & H2 & ->)]; split_and!; try done; [by left|right].
      exists [r; s'; t]. split_and!; [done| |done]. unfold crypto. change (uses_digest _) with (uses_digest q1).
      rewrite Ed. by eexists _, _, _.
    - exists 0, q1, w. split_and!; try done. right. exists []. split_and!; [done| |done]. unfold crypto. by rewrite Ed. }
  clear H. destruct Hc as (ret & q2 & w2 & -> & Ea & El & Ecar & Hr). cbn [mbind option_bind].
  apply (allocated_or_same q1 q2); [done..|]. clear Ea El.
  destruct Hr as [[Hr H]|(lc & -> & Hc & H)].
  { rewrite (proj2 (Z.eqb_neq ret 0) Hr). right. by eapply err_caravan_spec. }
  cbn [negb Z.eqb]. heap_step.
  - apply (allocated_or_same q2 (q2 <| tq_pdu := None |>)); [done..|]. right. by eapply err_crypto_spec.
  - apply (allocated_or_same q2 (q2 <| tq_pdu := Some x |>)); [done..|]. by eapply connect_queue_spec.
Qed.

Lemma alloc_caravan_spec q w s l :
  co_driver opts = I10_HOST -> tq_sock q = Some s -> holds w (s :: l) ->
  allocated_or q [] l (alloc_caravan opts q w).
Proof.
  intros Hd Hs H. unfold alloc_caravan. heap_step.
  { apply (allocated_or_same q (q <| tq_iovs := None |>)); [done..|]. right. by eapply err_sock_spec. }
  heap_step.
  - apply (allocated_or_same q (q <| tq_iovs := Some x |> <| tq_mapped := None |>)); [done..|]. right.
    unfold err_caravan_iovs. match goal with |- context [kfree ?p _] => change p with (Some x) end. heap_step. by eapply err_sock_spec.
  - set (q1 := reset_caravan (q <| tq_iovs := Some x |> <| tq_mapped := Some x1 |>)).
    apply (allocated_or_same q q1); [done..|]. replace [] with (car_left x x1) by (unfold car_left; by rewrite Hd).
    apply (prepare_queue_spec q1 _ s); [done|]. eapply holds_perm; [done|solve_Permutation].
Qed.

(** The socket and what comes after it; [lc] are the caravan arrays of tcp.c. *)
Lemma create_socket_spec qid q w left lc l :
  match co_driver opts with
  | NVME_TCP => exists i m, tq_iovs q = Some i /\ tq_mapped q = Some m /\ left = [m; i] /\ lc = [m; i]
  | I10_HOST => left = [] /\ lc = []
  end ->
  holds w (lc ++ l) -> allocated_or q left l (create_socket opts qid q w).
Proof.
  intros Hd H.
  assert (lc = left) as -> by (destruct (co_driver opts); [by destruct Hd as (? & ? & _ & _ & -> & ->)|by destruct Hd as [-> ->]]).
  unfold create_socket. destruct (Z.eqb_spec (ext (w_calls w)) 0); cbn [negb].
  2:{ right. eexists _, _, _; split_and!; [done..| |done|done]. by apply holds_later. }
  heap_step; [discriminate|]. set (q1 := q <| tq_sock := _ |>). apply (allocated_or_same q q1); [done..|].
  heap_step. destruct (Z.eqb_spec x1 0); cbn [negb]; [|right; by eapply err_sock_spec].
  set (q2 := reset_recv (q1 <| tq_io_cpu := _ |>)). apply (allocated_or_same q1 q2); [done..|].
  heap_step. destruct (Z.eqb_spec x3 0); cbn [negb]; [|right; by eapply err_sock_spec].
  destruct (co_driver opts) eqn:Ed.
  - destruct Hd as (i & m & Hi & Hm & -> & _). replace [m; i] with (car_left i m) by (unfold car_left; by rewrite Ed).
    by apply (prepare_queue_spec q2 _ x).
  - destruct Hd as [-> _]. by eapply alloc_caravan_spec.
Qed.

(** tcp.c relies on the allocation of the caravan arrays. *)
Definition caravan_memory : Prop := co_driver opts = NVME_TCP -> forall k, caravan_ok k = true.
(** The objects that a queue that fails leaves behind. *)
Definition leak_max : nat := match co_driver opts with NVME_TCP => 2 | I10_HOST => 0 end.

Lemma alloc_queue_spec qid size q w l :
  caravan_memory -> holds w l ->
  exists left, (length left <= leak_max)%nat /\ allocated_or q left l (alloc_queue opts qid size q w).
Proof.
  intros Hok H. unfold alloc_queue, leak_max. destruct (co_driver opts) eqn:Ed.
  - heap_step; [by rewrite Hok in Hok0|]. heap_step; [by rewrite Hok in Hok0|]. exists [x1; x]. split; [done|].
    eapply allocated_or_same, (create_socket_spec qid (reset_caravan ((reset_queue qid size w q) <| tq_iovs := _ |> <| tq_mapped := _ |>)) _ _ [x1; x]); [done..| |done].
    rewrite Ed. by exists x, x1.
  - exists []. split; [done|].
    apply (allocated_or_same q (reset_queue qid size w q)), (create_socket_spec qid _ _ _ []); [done..| |done].
    by rewrite Ed.
Qed.

Lemma free_queue_spec q w l :
  wf_queue q -> holds w (queue_owned q ++ l) ->
  exists w', free_queue q w = Some (q <| tq_allocated := false |>, w') /\ holds w' l.
Proof.
  intros [Hs _] H. unfold free_queue, queue_owned in *. destruct (tq_allocated q) eqn:Ea; cbn [negb].
  2:{ exists w. split; [|done]. destruct q; simpl in *. by subst. }
  specialize (Hs eq_refl). unfold queue_ptrs in *. change (uses_digest (q <| _ := _ |>)) with (uses_digest q).
  apply Forall_app in Hs as [Hd Hs]. repeat (apply Forall_cons in Hs as [[? ?] Hs]). unfold nvme_tcp_free_crypto.
  repeat match goal with |- context [?f (q <| tq_allocated := false |>)] =>
    change (f (q <| tq_allocated := false |>)) with (f q) end.
  destruct (uses_digest q); [repeat (apply Forall_cons in Hd as [[? ?] Hd])|];
    repeat match goal with E : ?f q = Some _ |- _ => rewrite E in H |- *; clear E end; simpl in H;
    cbn [mbind option_bind]; repeat heap_step; (eexists; split; [done|done]).
Qed.

Lemma sock_in_use q w l :
  wf_queue q -> tq_allocated q = true -> holds w (queue_owned q ++ l) -> use (tq_sock q) w = Some w.
Proof.
  intros [Hs _] Ha H. specialize (Hs Ha). assert (Hin : tq_sock q ∈ queue_ptrs q).
  { unfold queue_ptrs. rewrite elem_of_app. right. left. }
  rewrite Forall_forall in Hs. destruct (Hs _ Hin) as [s Es]. rewrite Es in *. eapply use_spec; [done|].
  apply elem_of_app. left. unfold queue_owned. rewrite Ha. apply list_elem_of_omap. by exists (Some s).
Qed.

Lemma stop_queue_spec q w l :
  wf_queue q -> holds w (queue_owned q ++ l) ->
  exists q', stop_queue q w = Some (q', w) /\ wf_queue q' /\ queue_owned q' = queue_owned q /\
    tq_allocated q' = tq_allocated q /\ tq_live q' = false.
Proof.
  intros Hw H. unfold stop_queue. destruct (tq_live q) eqn:El; cbn [negb]; [|by eexists].
  destruct Hw as [H1 H2]. unfold stop_queue_inner. change (tq_sock (q <| _ := _ |>)) with (tq_sock q).
  rewrite (sock_in_use q w l) by (done || by apply H2). eexists; split; [done|]. split_and!; [|done..].
  split; [exact H1|done].
Qed.

Lemma start_queue_spec q w l :
  wf_queue q -> tq_allocated q = true -> holds w (queue_owned q ++ l) ->
  exists ret q' w', start_queue q w = Some (ret, q', w') /\ wf_queue q' /\ queue_owned q' = queue_owned q /\
    tq_allocated q' = true /\ tq_live q' = (if ret =? 0 then true else tq_live q) /\ holds w' (queue_owned q ++ l).
Proof.
  intros Hw Ha H. pose proof Hw as [H1 H2]. unfold start_queue. heap_step. case_match eqn:Er.
  - eexists _, _, _; split; [done|]. rewrite Er. split_and!; [|done..]. split; [exact H1|done].
  - rewrite Ha. unfold stop_queue_inner. rewrite (sock_in_use q x l) by done. cbn [mbind option_bind].
    eexists _, _, _; split; [done|]. rewrite Er. split_and!; [|done..]. split; [exact H1|exact H2].
Qed.
End queue.
