(* ===== verification/NvmeTcpCtrl.v ===== *)
(** * Life cycle of an NVMe/TCP controller

    Creation and set-up of a controller with its error paths, tear-down,
    reconnect, reset, error recovery, time-out and deletion
    (drivers/nvme/host/tcp.c).  Each work is one step; works of one controller
    that overlap are not modelled. *)
From S2P Require Import Prelude MqTypes BlkMqTimeout BlkMqTagSet NvmeTcpMap NvmeTcpConn.

Definition EINTR : Z := 4.
Definition EALREADY : Z := 114.

(** The life cycle part of struct nvme_tcp_ctrl and struct nvme_ctrl. *)
Record ctrl := mk_ctrl {
  c_queues : list tcp_queue;
  c_queue_count : Z;
  c_sqsize : Z;
  c_icdoff : Z;
  c_maxcmd : Z;
  c_io_queues : list Z;
  c_state : nvme_ctrl_state;
  c_async : option Z;  (* async_req.pdu *)
  c_tagset : option Z;
  c_connect_q : option Z;
  c_admin_tagset : option Z;
  c_fabrics_q : option Z;
  c_admin_q : option Z;
  c_nr_reconnects : Z;
  c_connect_work : bool;  (* reconnect is scheduled *)
  c_err_work : bool;  (* error recovery is scheduled *)
  c_delete : bool;  (* nvme_delete_ctrl was called *)
  c_self : option Z;  (* the controller itself *)
  c_array : option Z;  (* its array of queues *)
  c_w : world;
}.
#[export] Instance ctrl_eta : Settable ctrl := {| eta_expand := fun r =>
  mk_ctrl (c_queues r) (c_queue_count r) (c_sqsize r) (c_icdoff r) (c_maxcmd r) (c_io_queues r)
    (c_state r) (c_async r) (c_tagset r) (c_connect_q r) (c_admin_tagset r) (c_fabrics_q r)
    (c_admin_q r) (c_nr_reconnects r) (c_connect_work r) (c_err_work r) (c_delete r) (c_self r) (c_array r) (c_w r) |}.

Section ctrl.
Context {ce : CtrlEnv} (opts : conn_opts) (NVME_AQ_DEPTH : Z).

(** Calls through the controller. *)
Definition c_call (c : ctrl) : Z * ctrl := let '(ret, w) := call (c_w c) in (ret, c <| c_w := w |>).
Definition c_new (c : ctrl) : option Z * ctrl :=
  let '(p, w) := new_obj alloc_ok (c_w c) in (p, c <| c_w := w |>).
Definition c_release (p : option Z) (c : ctrl) : option ctrl :=
  w ← release p (c_w c); Some (c <| c_w := w |>).
Definition c_use (p : option Z) (c : ctrl) : option ctrl :=
  w ← use p (c_w c); Some (c <| c_w := w |>).

(** What is stored when a call that returns a pointer may have failed: an error
    pointer, which is not an object in use. *)
Definition ptr (p : option Z) : option Z := Some (default (-1) p).

(** An operation on queue [qid]. *)
Definition on_queue (f : tcp_queue -> world -> option (Z * tcp_queue * world)) (qid : Z) (c : ctrl)
  : option (Z * ctrl) :=
  q ← aget (c_queues c) qid;
  '(ret, q, w) ← f q (c_w c);
  l ← aset (c_queues c) qid q; Some (ret, c <| c_queues := l |> <| c_w := w |>).

(** One that returns nothing. *)
Definition on_queue_void (f : tcp_queue -> world -> option (tcp_queue * world)) (qid : Z) (c : ctrl)
  : option ctrl :=
  '(_, c) ← on_queue (fun q w => '(q, w) ← f q w; Some (0, q, w)) qid c; Some c.

Definition nvme_tcp_alloc_queue (qid queue_size : Z) (c : ctrl) : option (Z * ctrl) :=
  on_queue (alloc_queue opts qid queue_size) qid c.
Definition nvme_tcp_free_queue (qid : Z) (c : ctrl) : option ctrl := on_queue_void free_queue qid c.
Definition nvme_tcp_stop_queue (qid : Z) (c : ctrl) : option ctrl := on_queue_void stop_queue qid c.
Definition nvme_tcp_start_queue (idx : Z) (c : ctrl) : option (Z * ctrl) := on_queue start_queue idx c.

(** [io]: the request is of the I/O tag set; its PDU comes from the page fragments of
    the queue.  The result and the PDU. *)
Definition nvme_tcp_init_request (io : bool) (hctx_idx : Z) (c : ctrl) : option (Z * option Z * ctrl) :=
  _ ← aget (c_queues c) (if io then hctx_idx + 1 else 0);
  let '(p, c) := c_new c in
  Some (match p with Some _ => 0 | None => - ENOMEM end, p, c).
Definition nvme_tcp_exit_request (pdu : option Z) (c : ctrl) : option ctrl := c_release pdu c.

(** [for (i--; i >= 1; i--)]. *)
Fixpoint down (f : Z -> ctrl -> option ctrl) (i : nat) (c : ctrl) : option ctrl :=
  match i with
  | O => Some c
  | S i' => c ← f (Z.of_nat i) c; down f i' c
  end.

(** [for (i = 1; i < queue_count; i++)] with the undo of the queues below the
    one that failed. *)
Fixpoint up_or_undo (f : Z -> ctrl -> option (Z * ctrl)) (undo : Z -> ctrl -> option ctrl)
    (n i : nat) (c : ctrl) : option (Z * ctrl) :=
  match n with
  | O => Some (0, c)
  | S n =>
    '(ret, c) ← f (Z.of_nat i) c;
    if ret =? 0 then up_or_undo f undo n (S i) c
    else c ← down undo (i - 1) c; Some (ret, c)
  end.

Definition nr_io (c : ctrl) : nat := Z.to_nat (c_queue_count c - 1).

Definition nvme_tcp_free_io_queues (c : ctrl) : option ctrl :=
  foldM (fun c i => nvme_tcp_free_queue i c) c (seqZ 1 (c_queue_count c - 1)).

Definition nvme_tcp_stop_io_queues (c : ctrl) : option ctrl :=
  foldM (fun c i => nvme_tcp_stop_queue i c) c (seqZ 1 (c_queue_count c - 1)).

Definition nvme_tcp_start_io_queues (c : ctrl) : option (Z * ctrl) :=
  up_or_undo nvme_tcp_start_queue nvme_tcp_stop_queue (nr_io c) 1 c.

Definition alloc_io_queues_inner (c : ctrl) : option (Z * ctrl) :=
  up_or_undo (fun i => nvme_tcp_alloc_queue i (c_sqsize c + 1)) nvme_tcp_free_queue (nr_io c) 1 c.

Definition nvme_tcp_free_admin_queue (c : ctrl) : option ctrl :=
  c ← (match c_async c with
       | Some _ => c ← c_release (c_async c) c; Some (c <| c_async := None |>)
       | None => Some c
       end);
  nvme_tcp_free_queue 0 c.

Definition nvme_tcp_alloc_async_req (c : ctrl) : Z * ctrl :=
  let '(p, c) := c_new c in
  (match p with Some _ => 0 | None => - ENOMEM end, c <| c_async := p |>).

Definition nvme_tcp_alloc_admin_queue (c : ctrl) : option (Z * ctrl) :=
  '(ret, c) ← nvme_tcp_alloc_queue 0 NVME_AQ_DEPTH c;
  if negb (ret =? 0) then Some (ret, c)
  else
    let '(ret, c) := nvme_tcp_alloc_async_req c in
    if negb (ret =? 0) then c ← nvme_tcp_free_queue 0 c; Some (ret, c) else Some (0, c).

Definition nvme_tcp_alloc_io_queues (c : ctrl) : option (Z * ctrl) :=
  let nr := nvme_tcp_nr_io_queues online_cpus (co_queues opts) in
  let nr := granted (w_calls (c_w c)) nr in
  let '(ret, c) := c_call c in
  if negb (ret =? 0) then Some (ret, c)
  else
    let c := c <| c_queue_count := u32 (nr + 1) |> in
    if c_queue_count c <? 2 then Some (0, c)
    else
      io ← nvme_tcp_set_io_queues (co_queues opts) nr (c_io_queues c);
      alloc_io_queues_inner (c <| c_io_queues := io |>).

Definition nvme_tcp_destroy_io_queues (remove : bool) (c : ctrl) : option ctrl :=
  c ← nvme_tcp_stop_io_queues c;
  c ← (if remove then c ← c_release (c_connect_q c) c; c_release (c_tagset c) c else Some c);
  nvme_tcp_free_io_queues c.

(** The labels of [nvme_tcp_configure_io_queues]. *)
Definition io_free_io_queues (ret : Z) (c : ctrl) : option (Z * ctrl) :=
  c ← nvme_tcp_free_io_queues c; Some (ret, c).
Definition io_free_tag_set (new : bool) (ret : Z) (c : ctrl) : option (Z * ctrl) :=
  c ← (if new then c_release (c_tagset c) c else Some c); io_free_io_queues ret c.

(** From the start of the queues on. *)
Definition io_start (new : bool) (c : ctrl) : option (Z * ctrl) :=
  '(ret, c) ← nvme_tcp_start_io_queues c;
  if negb (ret =? 0)
  then c ← (if new then c_release (c_connect_q c) c else Some c); io_free_tag_set new ret c
  else Some (0, c).

(** [nvme_tcp_alloc_tagset] with the error it returns; a tag set without
    hardware queues is refused by [blk_mq_alloc_tag_set]. *)
Definition alloc_tagset (nr_hw_queues : Z) (c : ctrl) : Z * option Z * ctrl :=
  if nr_hw_queues =? 0 then (- EINVAL, None, c)
  else let '(p, c) := c_new c in (ptr_err (w_calls (c_w c)), p, c).

Definition nvme_tcp_configure_io_queues (new : bool) (c : ctrl) : option (Z * ctrl) :=
  '(ret, c) ← nvme_tcp_alloc_io_queues c;
  if negb (ret =? 0) then Some (ret, c)
  else if new then
    let '(err, p, c) := alloc_tagset (c_queue_count c - 1) c in
    let c := c <| c_tagset := ptr p |> in
    match p with
    | None => io_free_io_queues err c
    | Some _ =>
      let '(p, c) := c_new c in
      let c := c <| c_connect_q := ptr p |> in
      match p with
      | None => io_free_tag_set new (ptr_err (w_calls (c_w c))) c
      | Some _ => io_start new c
      end
    end
  else
    c ← c_use (c_tagset c) c;  (* blk_mq_update_nr_hw_queues *)
    io_start new c.

Definition nvme_tcp_destroy_admin_queue (remove : bool) (c : ctrl) : option ctrl :=
  c ← nvme_tcp_stop_queue 0 c;
  c ← (if remove
       then c ← c_release (c_admin_q c) c; c ← c_release (c_fabrics_q c) c; c_release (c_admin_tagset c) c
       else Some c);
  nvme_tcp_free_admin_queue c.

(** The labels of [nvme_tcp_configure_admin_queue]. *)
Definition adm_free_queue (error : Z) (c : ctrl) : option (Z * ctrl) :=
  c ← nvme_tcp_free_admin_queue c; Some (error, c).
Definition adm_free_tagset (new : bool) (error : Z) (c : ctrl) : option (Z * ctrl) :=
  c ← (if new then c_release (c_admin_tagset c) c else Some c); adm_free_queue error c.
Definition adm_cleanup_fabrics_q (new : bool) (error : Z) (c : ctrl) : option (Z * ctrl) :=
  c ← (if new then c_release (c_fabrics_q c) c else Some c); adm_free_tagset new error c.
Definition adm_cleanup_queue (new : bool) (error : Z) (c : ctrl) : option (Z * ctrl) :=
  c ← (if new then c_release (c_admin_q c) c else Some c); adm_cleanup_fabrics_q new error c.
Definition adm_stop_queue (new : bool) (error : Z) (c : ctrl) : option (Z * ctrl) :=
  c ← nvme_tcp_stop_queue 0 c; adm_cleanup_queue new error c.

(** What the controller reports is stored by [nvme_init_identify]. *)
Definition nvme_init_identify (c : ctrl) : Z * ctrl :=
  let '(sqsize, icdoff, maxcmd) := identified (w_calls (c_w c)) in
  c_call (c <| c_sqsize := sqsize |> <| c_icdoff := icdoff |> <| c_maxcmd := maxcmd |>).

(** From the start of the admin queue on; [nvme_enable_ctrl] is a call. *)
Definition admin_start (new : bool) (c : ctrl) : option (Z * ctrl) :=
  '(error, c) ← nvme_tcp_start_queue 0 c;
  if negb (error =? 0) then adm_cleanup_queue new error c
  else
    let '(error, c) := c_call c in
    if negb (error =? 0) then adm_stop_queue new error c
    else
      c ← c_use (c_admin_q c) c;  (* blk_mq_unquiesce_queue *)
      let '(error, c) := nvme_init_identify c in
      if negb (error =? 0) then adm_stop_queue new error c else Some (0, c).

Definition nvme_tcp_configure_admin_queue (new : bool) (c : ctrl) : option (Z * ctrl) :=
  '(error, c) ← nvme_tcp_alloc_admin_queue c;
  if negb (error =? 0) then Some (error, c)
  else if new then
    let '(err, p, c) := alloc_tagset 1 c in
    let c := c <| c_admin_tagset := ptr p |> in
    match p with
    | None => adm_free_queue err c
    | Some _ =>
      let '(p, c) := c_new c in
      let c := c <| c_fabrics_q := ptr p |> in
      match p with
      | None => adm_free_tagset new (ptr_err (w_calls (c_w c))) c
      | Some _ =>
        let '(p, c) := c_new c in
        let c := c <| c_admin_q := ptr p |> in
        match p with
        | None => adm_cleanup_fabrics_q new (ptr_err (w_calls (c_w c))) c
        | Some _ => admin_start new c
        end
      end
    end
  else admin_start new c.

(** The requests that are outstanding are cancelled if there is a tag set. *)
Definition cancel_requests (tagset : option Z) (c : ctrl) : option ctrl :=
  match tagset with Some _ => c_use tagset c | None => Some c end.

Definition nvme_tcp_teardown_admin_queue (remove : bool) (c : ctrl) : option ctrl :=
  c ← c_use (c_admin_q c) c;  (* blk_mq_quiesce_queue *)
  c ← nvme_tcp_stop_queue 0 c;
  c ← cancel_requests (c_admin_tagset c) c;
  c ← (if remove then c_use (c_admin_q c) c else Some c);
  nvme_tcp_destroy_admin_queue remove c.

Definition nvme_tcp_teardown_io_queues (remove : bool) (c : ctrl) : option ctrl :=
  if c_queue_count c <=? 1 then Some c
  else
    c ← nvme_tcp_stop_io_queues c;
    c ← cancel_requests (c_tagset c) c;
    nvme_tcp_destroy_io_queues remove c.

Definition nvme_change_ctrl_state (new : nvme_ctrl_state) (c : ctrl) : bool * ctrl :=
  if change_ok (c_state c) new then (true, c <| c_state := new |>) else (false, c).

Definition nvme_tcp_reconnect_or_remove (c : ctrl) : ctrl :=
  if negb (bool_decide (c_state c = NVME_CTRL_CONNECTING)) then c
  else if should_reconnect (w_calls (c_w c)) then c <| c_connect_work := true |>
  else c <| c_delete := true |>.

(** The labels [destroy_io] and [destroy_admin] of [nvme_tcp_setup_ctrl]. *)
Definition destroy_admin (new : bool) (ret : Z) (c : ctrl) : option (Z * ctrl) :=
  c ← nvme_tcp_stop_queue 0 c; c ← nvme_tcp_destroy_admin_queue new c; Some (ret, c).
Definition destroy_io (new : bool) (ret : Z) (c : ctrl) : option (Z * ctrl) :=
  c ← (if 1 <? c_queue_count c then nvme_tcp_destroy_io_queues new c else Some c); destroy_admin new ret c.

Definition nvme_tcp_setup_ctrl (new : bool) (c : ctrl) : option (Z * ctrl) :=
  '(ret, c) ← nvme_tcp_configure_admin_queue new c;
  if negb (ret =? 0) then Some (ret, c)
  else if c_true (c_icdoff c) then destroy_admin new ret c
  else
    let c := if c_maxcmd c <? c_sqsize c + 1 then c <| c_sqsize := u16 (c_maxcmd c - 1) |> else c in
    '(ret, c) ← (if 1 <? c_queue_count c then nvme_tcp_configure_io_queues new c else Some (ret, c));
    if negb (ret =? 0) then destroy_admin new ret c
    else
      let '(ok, c) := nvme_change_ctrl_state NVME_CTRL_LIVE c in
      if negb ok then destroy_io new (- EINVAL) c else Some (0, c).

Definition nvme_tcp_reconnect_ctrl_work (c : ctrl) : option ctrl :=
  let c := c <| c_connect_work := false |> <| c_nr_reconnects ::= fun n => s32 (n + 1) |> in
  '(ret, c) ← nvme_tcp_setup_ctrl false c;
  Some (if c_true ret then nvme_tcp_reconnect_or_remove c else c <| c_nr_reconnects := 0 |>).

Definition nvme_tcp_error_recovery_work (c : ctrl) : option ctrl :=
  let c := c <| c_err_work := false |> in
  c ← nvme_tcp_teardown_io_queues false c;
  c ← nvme_tcp_teardown_admin_queue false c;
  c ← c_use (c_admin_q c) c;  (* blk_mq_unquiesce_queue *)
  let '(ok, c) := nvme_change_ctrl_state NVME_CTRL_CONNECTING c in
  Some (if ok then nvme_tcp_reconnect_or_remove c else c).

Definition nvme_tcp_teardown_ctrl (shutdown : bool) (c : ctrl) : option ctrl :=
  let c := c <| c_err_work := false |> <| c_connect_work := false |> in
  c ← nvme_tcp_teardown_io_queues shutdown c;
  c ← c_use (c_admin_q c) c;  (* blk_mq_quiesce_queue *)
  let '(_, c) := c_call c in
  nvme_tcp_teardown_admin_queue shutdown c.

Definition nvme_tcp_delete_ctrl (c : ctrl) : option ctrl := nvme_tcp_teardown_ctrl true c.

(** [nvme_tcp_error_recovery] *)
Definition start_error_recovery (c : ctrl) : ctrl :=
  let '(ok, c) := nvme_change_ctrl_state NVME_CTRL_RESETTING c in
  if ok then c <| c_err_work := true |> else c.

Definition nvme_reset_ctrl_work (c : ctrl) : option ctrl :=
  c ← nvme_tcp_teardown_ctrl false c;
  let '(ok, c) := nvme_change_ctrl_state NVME_CTRL_CONNECTING c in
  if negb ok then Some c
  else
    '(ret, c) ← nvme_tcp_setup_ctrl false c;
    Some (if c_true ret
          then nvme_tcp_reconnect_or_remove (c <| c_nr_reconnects ::= fun n => s32 (n + 1) |>) else c).

Definition nvme_tcp_timeout (c : ctrl) : option (blk_eh_timer_return * ctrl) :=
  if bool_decide (c_state c = NVME_CTRL_RESETTING) then Some (BLK_EH_RESET_TIMER, c)
  else if negb (bool_decide (c_state c = NVME_CTRL_LIVE)) then
    c ← (if c_err_work c then nvme_tcp_error_recovery_work c else Some c);  (* flush_work *)
    c ← nvme_tcp_teardown_io_queues false c;
    c ← nvme_tcp_teardown_admin_queue false c;
    Some (BLK_EH_DONE, c)
  else Some (BLK_EH_RESET_TIMER, start_error_recovery c).

(** [nvme_tcp_free_ctrl], called when the last reference is put: the controller
    leaves the list of controllers if it is on it. *)
Definition nvme_tcp_free_ctrl (ctrls : list Z) (c : ctrl) : option (list Z * world) :=
  w ← kfree (c_array c) (c_w c);
  w ← kfree (c_self c) w;
  Some (filter (fun x => c_self c <> Some x) ctrls, w).

(** [ip_match]: [nvmf_ip_options_match] on a controller of the ctrls. *)
Definition nvme_tcp_existing_controller (ip_match : Z -> bool) (ctrls : list Z) : bool :=
  existsb ip_match ctrls.

(** The label [out_free_ctrl] of [nvme_tcp_create_ctrl]. *)
Definition free_new_ctrl (ret : Z) (self : option Z) (ctrls : list Z) (w : world)
  : option (Z * option ctrl * list Z * world) :=
  w ← kfree self w; Some (ret, None, ctrls, w).

(** From the initialization of the controller on; [nvme_init_ctrl] is a call.
    A controller that fails after it is freed with its last reference. *)
Definition init_new_ctrl (ctrls : list Z) (c : ctrl) : option (Z * option ctrl * list Z * world) :=
  let '(ret, c) := c_call c in
  if negb (ret =? 0) then w ← kfree (c_array c) (c_w c); free_new_ctrl ret (c_self c) ctrls w
  else
    let '(ok, c) := nvme_change_ctrl_state NVME_CTRL_CONNECTING c in
    '(ret, c) ← (if ok then nvme_tcp_setup_ctrl true c else Some (- EINTR, c));
    if negb (ret =? 0) then
      '(ctrls, w) ← nvme_tcp_free_ctrl ctrls c; Some (if 0 <? ret then - EIO else ret, None, ctrls, w)
    else self ← c_self c; Some (0, Some c, ctrls ++ [self], c_w c).

(** [trsvcid]: a port was given; the string allocated otherwise belongs to the
    options. [queue_size] and the counts are those of the options. *)
Definition nvme_tcp_create_ctrl (trsvcid duplicate_connect : bool) (queue_size : Z) (ip_match : Z -> bool)
    (ctrls : list Z) (w : world) : option (Z * option ctrl * list Z * world) :=
  match new_obj alloc_ok w with
  | (None, w) => Some (- ENOMEM, None, ctrls, w)
  | (self, w) =>
    let o := co_queues opts in
    let count := u32 (o_nr_io_queues o + o_nr_write_queues o + o_nr_poll_queues o + 1) in
    let '(port, w) := if trsvcid then (Some 0, w) else new_obj alloc_ok w in
    match port with
    | None => free_new_ctrl (- ENOMEM) self ctrls w
    | Some _ =>
      let '(ret, w) := calls (if co_host_traddr opts then 2 else 1) w in
      if negb (ret =? 0) then free_new_ctrl ret self ctrls w
      else if negb duplicate_connect && nvme_tcp_existing_controller ip_match ctrls
      then free_new_ctrl (- EALREADY) self ctrls w
      else
        let '(array, w) := new_obj alloc_ok w in
        match array with
        | None => free_new_ctrl (- ENOMEM) self ctrls w
        | Some _ =>
          init_new_ctrl ctrls
            (mk_ctrl (replicate (Z.to_nat count) new_queue) count (u16 (queue_size - 1)) 0 0 [0; 0; 0]
               NVME_CTRL_NEW None None None None None None 0 false false false self array w)
        end
    end
  end.

(** The two work queues; the result and what is left allocated. *)
Definition nvme_tcp_init_module (w : world) : Z * world :=
  let '(wq, w) := new_obj alloc_ok w in
  match wq with
  | None => (- ENOMEM, w)
  | Some _ =>
    let '(lat, w) := new_obj alloc_ok w in
    match lat with None => (- ENOMEM, w) | Some _ => (0, w) end
  end.
End ctrl.
