(* ===== verification/NvmeTcpCtrlInv.v ===== *)
(** * Invariant of a controller and its loops over the queues

    The queues of a controller own their objects and nothing else of the heap
    is touched by an operation on one of them; the loops that allocate, start,
    stop and free all I/O queues, with their undo on an error. *)
From S2P Require Import Prelude MqTypes BlkMqTagSet NvmeTcpMap NvmeTcpConn NvmeTcpConnSpec NvmeTcpCtrl.

(** Whether queue [i] is allocated, and whether it is live. *)
Definition flag (c : ctrl) (i : nat) : bool * bool :=
  match c_queues c !! i with Some q => (tq_allocated q, tq_live q) | None => (false, false) end.

(** What the queues own. *)
Definition queue_objs (l : list tcp_queue) : list Z := concat (queue_owned <$> l).

(** Two controllers that differ in their queues and the heap. *)
Definition same (c c' : ctrl) : Prop := c' = c <| c_queues := c_queues c' |> <| c_w := c_w c' |>.

#[global] Instance same_preorder : PreOrder same.
Proof.
  split; [by intros []|]. intros c1 c2 c3 H1 H2. unfold same in *. rewrite H2. simpl. generalize (c_queues c3) (c_w c3).
  intros l w. rewrite H1. done.
Qed.

Section inv.
Context {ce : CtrlEnv} {cl : CtrlLaws ce} (opts : conn_opts) (NVME_AQ_DEPTH : Z).
Context (Hcaravan : caravan_memory opts).

(** The queues are well formed, those past the count are down, and the objects
    in use are those of the queues and of [l]. *)
Record inv (l : list Z) (c : ctrl) : Prop := {
  inv_wf : Forall wf_queue (c_queues c);
  inv_fits : nvme_tcp_nr_io_queues online_cpus (co_queues opts) + 1 <= Z.of_nat (length (c_queues c)) < 2 ^ 31;
  inv_count : 1 <= c_queue_count c <= Z.of_nat (length (c_queues c));
  inv_down : forall i, c_queue_count c <= Z.of_nat i -> flag c i = (false, false);
  inv_io : length (c_io_queues c) = 3%nat;
  inv_heap : holds (c_w c) (queue_objs (c_queues c) ++ l);
}.

Lemma inv_perm l l' c : inv l c -> l ≡ₚ l' -> inv l' c.
Proof. intros [] Hp. split; try done. eapply holds_perm; [done|]. by rewrite Hp. Qed.

Lemma inv_heap_only l l' c w :
  inv l c -> holds w (queue_objs (c_queues c) ++ l') -> inv l' (c <| c_w := w |>).
Proof. intros [] Hw. by split. Qed.

(** ** One queue *)

Lemma queue_objs_at l i q :
  l !! i = Some q -> queue_objs l ≡ₚ queue_owned q ++ queue_objs (take i l) ++ queue_objs (drop (S i) l).
Proof.
  intros H. rewrite <- (take_drop_middle l i q H) at 1. unfold queue_objs.
  rewrite fmap_app, concat_app. simpl. by rewrite Permutation_app_swap_app.
Qed.

Lemma queue_objs_insert l i q q' :
  l !! i = Some q ->
  queue_objs (<[i := q']> l) ≡ₚ queue_owned q' ++ queue_objs (take i l) ++ queue_objs (drop (S i) l).
Proof.
  intros H. pose proof (lookup_lt_Some _ _ _ H). rewrite (queue_objs_at _ i q') by by apply list_lookup_insert_eq.
  rewrite take_insert_ge, drop_insert_lt by lia. done.
Qed.

(** What an operation on queue [i] leaves alone. *)
Definition rest (i : nat) (c : ctrl) : list Z :=
  queue_objs (take i (c_queues c)) ++ queue_objs (drop (S i) (c_queues c)).

Lemma inv_open l c i q :
  inv l c -> c_queues c !! i = Some q -> wf_queue q /\ holds (c_w c) (queue_owned q ++ rest i c ++ l).
Proof.
  intros Hi Hq. split; [eapply Forall_lookup_1; [apply Hi|done]|].
  eapply holds_perm; [apply Hi|]. unfold rest. rewrite (queue_objs_at _ _ _ Hq). solve_Permutation.
Qed.

Definition put (i : nat) (q : tcp_queue) (w : world) (c : ctrl) : ctrl :=
  c <| c_queues := <[i := q]> (c_queues c) |> <| c_w := w |>.

Lemma flag_put i q w c j :
  (i < length (c_queues c))%nat ->
  flag (put i q w c) j = if decide (j = i) then (tq_allocated q, tq_live q) else flag c j.
Proof.
  intros Hi. unfold flag, put. simpl. case_decide; subst.
  - by rewrite list_lookup_insert_eq.
  - by rewrite list_lookup_insert_ne.
Qed.

Lemma inv_close l l' c i q q' w :
  inv l c -> c_queues c !! i = Some q -> wf_queue q' ->
  (c_queue_count c <= Z.of_nat i -> tq_allocated q' = false /\ tq_live q' = false) ->
  holds w (queue_owned q' ++ rest i c ++ l') -> inv l' (put i q' w c).
Proof.
  intros Hi Hq Hw Hd Hh. pose proof (lookup_lt_Some _ _ _ Hq). split.
  - apply Forall_insert; [apply Hi|done].
  - simpl. rewrite length_insert. apply Hi.
  - simpl. rewrite length_insert. apply Hi.
  - intros j Hj. rewrite flag_put by done. case_decide; subst.
    + destruct (Hd Hj) as [-> ->]. done.
    + by apply Hi.
  - apply Hi.
  - eapply holds_perm; [exact Hh|]. simpl. rewrite (queue_objs_insert _ _ _ _ Hq). unfold rest. solve_Permutation.
Qed.

Lemma on_queue_put f i c q ret q' w :
  c_queues c !! i = Some q -> f q (c_w c) = Some (ret, q', w) ->
  on_queue f (Z.of_nat i) c = Some (ret, put i q' w c).
Proof.
  intros Hq Hf. pose proof (lookup_lt_Some _ _ _ Hq). unfold on_queue. rewrite aget_of_nat, Hq. cbn [mbind option_bind].
  rewrite Hf. cbn [mbind option_bind]. rewrite aset_lt by lia. by rewrite Nat2Z.id.
Qed.

(** An operation that always succeeds, where the queue satisfies [pre], and
    changes the flags of the queue by [g]. *)
Definition acts (f : Z -> ctrl -> option ctrl) (pre : bool * bool -> Prop) (g : bool * bool -> bool * bool) : Prop :=
  forall l c i, inv l c -> (i < length (c_queues c))%nat -> pre (flag c i) ->
  exists c', f (Z.of_nat i) c = Some c' /\ same c c' /\ inv l c' /\
    length (c_queues c') = length (c_queues c) /\
    forall j, flag c' j = if decide (j = i) then g (flag c i) else flag c j.

Lemma free_acts : acts nvme_tcp_free_queue (fun x => x.2 = false) (fun _ => (false, false)).
Proof.
  intros l c i Hi Hlt Hpre. apply lookup_lt_is_Some in Hlt as [q Hq]. destruct (inv_open _ _ _ _ Hi Hq) as [Hw Hh].
  destruct (free_queue_spec q _ _ Hw Hh) as (w & Hf & Hh').
  unfold flag in Hpre. rewrite Hq in Hpre. simpl in Hpre. pose proof (lookup_lt_Some _ _ _ Hq).
  exists (put i (q <| tq_allocated := false |>) w c). split_and!.
  - unfold nvme_tcp_free_queue, on_queue_void. erewrite (on_queue_put _ i c q 0); [done..|]. by rewrite Hf.
  - done.
  - eapply inv_close; [done..| |done|done]. split; [done|]. simpl. by rewrite Hpre.
  - apply length_insert.
  - intros j. rewrite flag_put by done. simpl. by rewrite Hpre.
Qed.

Lemma stop_acts : acts nvme_tcp_stop_queue (fun _ => True) (fun x => (x.1, false)).
Proof.
  intros l c i Hi Hlt _. apply lookup_lt_is_Some in Hlt as [q Hq]. destruct (inv_open _ _ _ _ Hi Hq) as [Hw Hh].
  destruct (stop_queue_spec q _ _ Hw Hh) as (q' & Hf & Hw' & Ho & Ha & El). pose proof (lookup_lt_Some _ _ _ Hq).
  exists (put i q' (c_w c) c). split_and!.
  - unfold nvme_tcp_stop_queue, on_queue_void. erewrite (on_queue_put _ i c q 0); [done..|]. by rewrite Hf.
  - done.
  - eapply inv_close; [done..| |by rewrite Ho]. intros Hc. destruct Hi as [_ _ _ Hdown _ _].
    specialize (Hdown i Hc). unfold flag in Hdown. rewrite Hq in Hdown. split; congruence.
  - apply length_insert.
  - intros j. rewrite flag_put by done. unfold flag at 2. rewrite Hq. simpl. by rewrite Ha, El.
Qed.

(** An operation that takes a queue from the flags [b0] to [b1], or fails,
    leaves the flags alone and at most [leak_max] objects behind. *)
Definition tries (f : Z -> ctrl -> option (Z * ctrl)) (b0 b1 : bool * bool) : Prop :=
  forall l c i, inv l c -> Z.of_nat i < c_queue_count c -> flag c i = b0 ->
  exists ret c', f (Z.of_nat i) c = Some (ret, c') /\ same c c' /\ length (c_queues c') = length (c_queues c) /\
    (ret = 0 /\ inv l c' /\ (forall j, flag c' j = if decide (j = i) then b1 else flag c j) \/
     ret <> 0 /\ (forall j, flag c' j = flag c j) /\ exists leak, (length leak <= leak_max opts)%nat /\ inv (leak ++ l) c').

Lemma alloc_tries size : tries (fun i => nvme_tcp_alloc_queue opts i size) (false, false) (true, false).
Proof.
  intros l c i Hi Hc Hfl. assert (Hlt : (i < length (c_queues c))%nat) by (destruct Hi; lia).
  apply lookup_lt_is_Some in Hlt as [q Hq]. destruct (inv_open _ _ _ _ Hi Hq) as [Hw Hh].
  pose proof (lookup_lt_Some _ _ _ Hq). unfold flag in Hfl. rewrite Hq in Hfl. injection Hfl as Hqa Hql.
  unfold queue_owned in Hh. rewrite Hqa in Hh.
  destruct (alloc_queue_spec opts (Z.of_nat i) size q _ _ Hcaravan Hh) as (left & Hleft & Hr).
  assert (E : forall ret q' w, alloc_queue opts (Z.of_nat i) size q (c_w c) = Some (ret, q', w) ->
    nvme_tcp_alloc_queue opts (Z.of_nat i) size c = Some (ret, put i q' w c)).
  { intros ret q' w. apply on_queue_put, Hq. }
  destruct Hr as [(q' & w & Hf & Ha & El & Hs & Hh')|(ret & q' & w & Hf & Hret & Hh' & Ha & El)].
  - eexists _, _. split_and!; [by apply E|done|apply length_insert|left]. split_and!; [done| |].
    + eapply inv_close; [done..| |lia|done]. split; [done|]. congruence.
    + intros j. rewrite flag_put by done. by rewrite Ha, El, Hql.
  - eexists _, _. split_and!; [by apply E|done|apply length_insert|right]. split_and!; [done| |].
    + intros j. rewrite flag_put by done. case_decide; [|done]. subst j. unfold flag. rewrite Hq. by rewrite Ha, El.
    + exists left. split; [done|]. eapply inv_close; [done..| |lia|].
      * split; congruence.
      * unfold queue_owned. rewrite Ha, Hqa. eapply holds_perm; [exact Hh'|]. solve_Permutation.
Qed.

Lemma start_tries : tries nvme_tcp_start_queue (true, false) (true, true).
Proof.
  intros l c i Hi Hc Hfl. assert (Hlt : (i < length (c_queues c))%nat) by (destruct Hi; lia).
  apply lookup_lt_is_Some in Hlt as [q Hq]. destruct (inv_open _ _ _ _ Hi Hq) as [Hw Hh].
  pose proof (lookup_lt_Some _ _ _ Hq). pose proof Hfl as Hfl'. unfold flag in Hfl'. rewrite Hq in Hfl'. injection Hfl' as Hqa Hql.
  destruct (start_queue_spec q _ _ Hw Hqa Hh) as (ret & q' & w & Hf & Hw' & Ho & Ha & El & Hh').
  assert (Hinv : inv l (put i q' w c)) by (eapply inv_close; [done..|lia|by rewrite Ho]).
  eexists _, _. split_and!; [by eapply on_queue_put|done|apply length_insert|].
  destruct (Z.eqb_spec ret 0); [left|right]; split_and!; try done.
  - intros j. rewrite flag_put by done. by rewrite Ha, El.
  - intros j. rewrite flag_put by done. case_decide; [|done]. subst j. rewrite Hfl. by rewrite Ha, El, Hql.
  - exists []. by split; [simpl; lia|].
Qed.

(** ** Loops *)

Lemma each_spec f pre g l n : acts f pre g -> forall i c,
  inv l c -> (i + n <= length (c_queues c))%nat -> (forall j, (i <= j < i + n)%nat -> pre (flag c j)) ->
  exists c', foldM (fun c i => f i c) c (seqZ (Z.of_nat i) (Z.of_nat n)) = Some c' /\ same c c' /\ inv l c' /\
    length (c_queues c') = length (c_queues c) /\
    forall j, flag c' j = if decide (i <= j < i + n)%nat then g (flag c j) else flag c j.
Proof.
  intros Hf. induction n as [|n IH]; intros i c Hi Hl Hpre.
  { exists c. split_and!; [done..|]. intros j. by rewrite decide_False by lia. }
  rewrite seqZ_cons by lia. cbn [foldM]. destruct (Hf l c i) as (c1 & -> & Hs & Hi1 & Hl1 & Hf1); [done|lia|apply Hpre; lia|].
  cbn [mbind option_bind]. replace (Z.succ (Z.of_nat i)) with (Z.of_nat (S i)) by lia.
  replace (Z.pred (Z.of_nat (S n))) with (Z.of_nat n) by lia.
  destruct (IH (S i) c1) as (c2 & -> & Hs2 & Hi2 & Hl2 & Hf2); [done|lia| |].
  { intros j Hj. rewrite Hf1, decide_False by lia. apply Hpre. lia. }
  exists c2. split_and!; [done|by etrans|done|lia|]. intros j. rewrite Hf2, Hf1.
  repeat case_decide; subst; done || lia.
Qed.

Lemma down_spec f pre g l n : acts f pre g -> forall c,
  inv l c -> (n < length (c_queues c))%nat -> (forall j, (1 <= j <= n)%nat -> pre (flag c j)) ->
  exists c', down f n c = Some c' /\ same c c' /\ inv l c' /\ length (c_queues c') = length (c_queues c) /\
    forall j, flag c' j = if decide (1 <= j <= n)%nat then g (flag c j) else flag c j.
Proof.
  intros Hf. induction n as [|n IH]; intros c Hi Hl Hpre.
  { exists c. split_and!; [done..|]. intros j. by rewrite decide_False by lia. }
  cbn [down]. destruct (Hf l c (S n)) as (c1 & -> & Hs & Hi1 & Hl1 & Hf1); [done|lia|apply Hpre; lia|].
  cbn [mbind option_bind]. destruct (IH c1) as (c2 & -> & Hs2 & Hi2 & Hl2 & Hf2); [done|lia| |].
  { intros j Hj. rewrite Hf1, decide_False by lia. apply Hpre. lia. }
  exists c2. split_and!; [done|by etrans|done|lia|]. intros j. rewrite Hf2, Hf1.
  repeat case_decide; subst; done || lia.
Qed.

(** All queues from 1 to [n] get the flags [b1], or after an error [b0]. *)
Lemma up_or_undo_spec f undo b0 b1 pre g l n : tries f b0 b1 -> acts undo pre g -> pre b1 -> g b1 = b0 ->
  forall i c, inv l c -> (1 <= i)%nat -> Z.of_nat (i + n) <= c_queue_count c ->
  (forall j, (1 <= j < i)%nat -> flag c j = b1) -> (forall j, (i <= j < i + n)%nat -> flag c j = b0) ->
  exists ret c', up_or_undo f undo n i c = Some (ret, c') /\ same c c' /\
    (forall j, flag c' j = if decide (1 <= j < i + n)%nat then (if ret =? 0 then b1 else b0) else flag c j) /\
    (ret = 0 /\ inv l c' \/ ret <> 0 /\ exists leak, (length leak <= leak_max opts)%nat /\ inv (leak ++ l) c').
Proof.
  intros Hf Hu Hb Hg. induction n as [|n IH]; intros i c Hi H1 Hc Hd Hn.
  { exists 0, c. split_and!; [done..| |by left]. intros j. case_decide; [|done]. apply Hd. lia. }
  cbn [up_or_undo]. destruct (Hf l c i) as (ret & c1 & -> & Hs & Hl1 & Hr); [done|lia|apply Hn; lia|].
  cbn [mbind option_bind]. assert (Hcnt : c_queue_count c1 = c_queue_count c) by by rewrite Hs.
  destruct Hr as [(-> & Hi1 & Hf1)|(Hr & Hf1 & leak & Hlk & Hi1)].
  - cbn [Z.eqb]. destruct (IH (S i) c1) as (ret & c2 & -> & Hs2 & Hf2 & Hr2); [done|lia|lia| | |].
    + intros j Hj. rewrite Hf1. case_decide; [done|]. apply Hd. lia.
    + intros j Hj. rewrite Hf1, decide_False by lia. apply Hn. lia.
    + exists ret, c2. split_and!; [done|by etrans| |done]. intros j. rewrite Hf2, Hf1.
      repeat case_decide; subst; done || lia.
  - rewrite (proj2 (Z.eqb_neq ret 0) Hr).
    destruct (down_spec undo pre g (leak ++ l) (i - 1) Hu c1) as (c2 & -> & Hs2 & Hi2 & Hl2 & Hf2).
    + done.
    + destruct Hi1; lia.
    + intros j Hj. rewrite Hf1, Hd by lia. done.
    + cbn [mbind option_bind]. exists ret, c2. split_and!; [done|by etrans| |right; split; [done|by exists leak]].
      intros j. rewrite (proj2 (Z.eqb_neq ret 0) Hr). rewrite Hf2, Hf1. repeat case_decide; try done || lia.
      * by rewrite Hd by lia.
      * apply Hn. lia.
Qed.

(** The I/O queues together: [b] their flags. *)
Definition io_flags (c : ctrl) (b : bool * bool) : Prop :=
  forall j, (1 <= j)%nat -> Z.of_nat j < c_queue_count c -> flag c j = b.

Lemma free_io_spec l c :
  inv l c -> (forall j, (1 <= j)%nat -> (flag c j).2 = false) ->
  exists c', nvme_tcp_free_io_queues c = Some c' /\ same c c' /\ inv l c' /\
    flag c' 0 = flag c 0%nat /\ forall j, (1 <= j)%nat -> flag c' j = (false, false).
Proof.
  intros Hi Hp. pose proof (inv_count _ _ Hi) as Hc. pose proof (inv_down _ _ Hi) as Hdn. unfold nvme_tcp_free_io_queues.
  replace (c_queue_count c - 1) with (Z.of_nat (nr_io c)) by (unfold nr_io; lia).
  destruct (each_spec _ _ _ l (nr_io c) free_acts 1 c) as (c' & H & Hs & Hi' & Hl & Hf); [done|unfold nr_io; lia| |].
  { intros j Hj. apply Hp. lia. }
  exists c'. split_and!; [exact H|done..|by rewrite Hf|]. intros j Hj. rewrite Hf. case_decide; [done|].
  apply Hdn. unfold nr_io in *. lia.
Qed.

Lemma stop_io_spec l c :
  inv l c ->
  exists c', nvme_tcp_stop_io_queues c = Some c' /\ same c c' /\ inv l c' /\
    flag c' 0 = flag c 0%nat /\ forall j, (1 <= j)%nat -> flag c' j = ((flag c j).1, false).
Proof.
  intros Hi. pose proof (inv_count _ _ Hi) as Hc. pose proof (inv_down _ _ Hi) as Hdn. unfold nvme_tcp_stop_io_queues.
  replace (c_queue_count c - 1) with (Z.of_nat (nr_io c)) by (unfold nr_io; lia).
  destruct (each_spec _ _ _ l (nr_io c) stop_acts 1 c) as (c' & H & Hs & Hi' & Hl & Hf); [done|unfold nr_io; lia|done|].
  exists c'. split_and!; [exact H|done..|by rewrite Hf|]. intros j Hj. rewrite Hf. case_decide; [done|].
  rewrite Hdn; [done|]. unfold nr_io in *. lia.
Qed.

(** The start of all I/O queues. *)
Lemma start_io_spec l c :
  inv l c -> io_flags c (true, false) ->
  exists ret c', nvme_tcp_start_io_queues c = Some (ret, c') /\ same c c' /\ flag c' 0 = flag c 0%nat /\
    io_flags c' (if ret =? 0 then (true, true) else (true, false)) /\
    (ret = 0 /\ inv l c' \/ ret <> 0 /\ exists leak, (length leak <= leak_max opts)%nat /\ inv (leak ++ l) c').
Proof.
  intros Hi Hio. pose proof (inv_count _ _ Hi) as Hc. unfold nvme_tcp_start_io_queues.
  destruct (up_or_undo_spec _ _ _ _ _ _ l (nr_io c) start_tries stop_acts I eq_refl 1 c) as (ret & c' & H & Hs & Hf & Hr);
    [done|lia|unfold nr_io; lia|lia| |].
  { intros j Hj. apply Hio; unfold nr_io in *; lia. }
  exists ret, c'. split_and!; [done..|by rewrite Hf| |done]. intros j Hj1 Hj.
  rewrite Hs in Hj. simpl in Hj. rewrite Hf, decide_True by (unfold nr_io; lia). done.
Qed.

Lemma alloc_io_spec l c :
  inv l c -> (forall j, (1 <= j)%nat -> flag c j = (false, false)) ->
  exists ret c', alloc_io_queues_inner opts c = Some (ret, c') /\ same c c' /\ flag c' 0 = flag c 0%nat /\
    (ret = 0 /\ inv l c' /\ io_flags c' (true, false) \/
     ret <> 0 /\ (forall j, (1 <= j)%nat -> flag c' j = (false, false)) /\
     exists leak, (length leak <= leak_max opts)%nat /\ inv (leak ++ l) c').
Proof.
  intros Hi Hio. pose proof (inv_count _ _ Hi) as Hc. unfold alloc_io_queues_inner.
  destruct (up_or_undo_spec _ _ _ _ _ _ l (nr_io c) (alloc_tries (c_sqsize c + 1)) free_acts eq_refl eq_refl 1 c)
    as (ret & c' & H & Hs & Hf & Hr); [done|lia|unfold nr_io; lia|lia| |].
  { intros j Hj. apply Hio; unfold nr_io in *; lia. }
  exists ret, c'. split_and!; [done..|by rewrite Hf|]. destruct Hr as [(-> & Hi')|(Hr & Hi')]; [left|right]; split_and!; try done.
  - intros j Hj1 Hj. rewrite Hs in Hj. simpl in Hj. by rewrite Hf, decide_True by (unfold nr_io; lia).
  - intros j Hj. rewrite Hf, (proj2 (Z.eqb_neq ret 0) Hr). case_decide; [done|]. by apply Hio.
Qed.
End inv.

(** ** Set-up and tear-down of the admin queue

    The admin queue is set up completely, or nothing of it is left but what a
    failed allocation of a queue leaves; its tear-down gives everything back. *)

(** The parts of a controller that an operation may leave alone. *)
Definition works (c : ctrl) :=
  (c_connect_work c, c_err_work c, c_delete c, c_self c, c_array c, c_nr_reconnects c).
Definition ctrl_core (c : ctrl) := (c_state c, works c).
Definition io_part (c : ctrl) := (c_queue_count c, c_connect_q c, c_tagset c).
Definition adm_ptrs (c : ctrl) := (c_admin_q c, c_fabrics_q c, c_admin_tagset c).

(** The objects that an error label gives back when the set-up is the first. *)
Definition held (new : bool) (l : list Z) : list Z := if new then l else [].

Section admin.
Context {ce : CtrlEnv} {cl : CtrlLaws ce} (opts : conn_opts) (NVME_AQ_DEPTH : Z).
Context (Hcaravan : caravan_memory opts).
Notation inv := (inv opts).

Lemma inv_ext l c c' :
  inv l c -> c_queues c' = c_queues c -> c_queue_count c' = c_queue_count c -> c_io_queues c' = c_io_queues c ->
  c_w c' = c_w c -> inv l c'.
Proof.
  intros [H1 H2 H3 H4 H5 H6] E1 E2 E3 E4. split; rewrite ?E1, ?E2, ?E3, ?E4; try done.
  intros i Hle. unfold flag in *. rewrite E1. by apply H4.
Qed.

(** ** The heap through the controller *)

Lemma release_at l l' c i :
  inv l c -> l ≡ₚ i :: l' ->
  exists w, c_release (Some i) c = Some (c <| c_w := w |>) /\ inv l' (c <| c_w := w |>).
Proof.
  intros Hi Hp. destruct (release_spec i (c_w c) (queue_objs (c_queues c) ++ l')) as (w & Hr & Hw).
  - eapply holds_perm; [apply Hi|]. rewrite Hp. solve_Permutation.
  - exists w. unfold c_release. rewrite Hr. split; [done|]. by eapply inv_heap_only.
Qed.

Lemma use_at l c i : inv l c -> i ∈ l -> c_use (Some i) c = Some c.
Proof.
  intros Hi Hin. unfold c_use. rewrite (use_spec i _ (queue_objs (c_queues c) ++ l)); [by destruct c|apply Hi|by apply elem_of_app; right].
Qed.

Lemma new_at l c :
  inv l c -> exists w, (c_new c = (None, c <| c_w := w |>) /\ inv l (c <| c_w := w |>)) \/
    exists i, c_new c = (Some i, c <| c_w := w |>) /\ inv (i :: l) (c <| c_w := w |>).
Proof.
  intros Hi. unfold c_new. destruct (new_spec alloc_ok (c_w c) _ (inv_heap _ _ _ Hi)) as [(w & -> & _ & H)|(i & w & -> & H)];
    exists w; [left|right; exists i]; split; try done; eapply inv_heap_only; try done.
  eapply holds_perm; [done|]. solve_Permutation.
Qed.

Lemma call_at l c :
  inv l c -> exists w, c_call c = (ext (w_calls (c_w c)), c <| c_w := w |>) /\ inv l (c <| c_w := w |>).
Proof.
  intros Hi. unfold c_call. destruct (call_spec (c_w c) _ (inv_heap _ _ _ Hi)) as (w & -> & H). exists w. split; [done|].
  by eapply inv_heap_only.
Qed.

Lemma same_parts c c' : same c c' ->
  ctrl_core c' = ctrl_core c /\ io_part c' = io_part c /\ adm_ptrs c' = adm_ptrs c /\ c_async c' = c_async c /\
  c_icdoff c' = c_icdoff c.
Proof. intros ->. done. Qed.

(** ** One operation on the admin queue *)

Lemma inv_0 l c : inv l c -> (0 < length (c_queues c))%nat /\ Z.of_nat 0 < c_queue_count c.
Proof. intros []. lia. Qed.

Lemma free_admin_spec l l' c :
  inv l c -> (flag c 0).2 = false -> l ≡ₚ option_list (c_async c) ++ l' ->
  exists c', nvme_tcp_free_admin_queue c = Some c' /\ inv l' c' /\ ctrl_core c' = ctrl_core c /\ io_part c' = io_part c /\
    adm_ptrs c' = adm_ptrs c /\ c_async c' = None /\ c_icdoff c' = c_icdoff c /\
    flag c' 0 = (false, false) /\ forall j, (1 <= j)%nat -> flag c' j = flag c j.
Proof.
  intros Hi Hf Hp. unfold nvme_tcp_free_admin_queue.
  assert (H : exists c1, match c_async c with
      | Some _ => c ← c_release (c_async c) c; Some (c <| c_async := None |>) | None => Some c end = Some c1 /\
      inv l' c1 /\ c_queues c1 = c_queues c /\ ctrl_core c1 = ctrl_core c /\ io_part c1 = io_part c /\ adm_ptrs c1 = adm_ptrs c /\
      c_async c1 = None /\ c_icdoff c1 = c_icdoff c).
  { destruct (c_async c) as [p|] eqn:Ea; simpl in Hp.
    - destruct (release_at l l' c p Hi Hp) as (w & -> & Hw). cbn [mbind option_bind]. eexists. split_and!; [done|..]; try done.
      by eapply inv_ext.
    - exists c. split_and!; try done. by eapply inv_perm. }
  destruct H as (c1 & -> & Hi1 & Eq & E1 & E2 & E3 & E4 & E5). cbn [mbind option_bind].
  assert (Ef : forall j, flag c1 j = flag c j) by (intros j; unfold flag; by rewrite Eq).
  destruct (free_acts opts l' c1 0%nat Hi1) as (c2 & H & Hs & Hi2 & _ & Hf2); [by apply (inv_0 l')|by rewrite Ef|].
  destruct (same_parts _ _ Hs) as (? & ? & ? & ? & ?). exists c2. split_and!; [exact H|done|..]; try congruence.
  - by rewrite Hf2.
  - intros j Hj. by rewrite Hf2, decide_False, Ef by lia.
Qed.

(** The result of a step of the set-up that failed. *)
Definition adm_failed (new : bool) (c : ctrl) (l : list Z) (r : option (Z * ctrl)) : Prop :=
  exists err c' leak, r = Some (err, c') /\ err <> 0 /\ ctrl_core c' = ctrl_core c /\ io_part c' = io_part c /\
    (new = false -> adm_ptrs c' = adm_ptrs c) /\ c_async c' = None /\ flag c' 0 = (false, false) /\
    (forall j, (1 <= j)%nat -> flag c' j = flag c j) /\ (length leak <= leak_max opts)%nat /\ inv (leak ++ l) c'.

Lemma adm_failed_from new c0 c l r :
  ctrl_core c = ctrl_core c0 -> io_part c = io_part c0 -> (new = false -> adm_ptrs c = adm_ptrs c0) ->
  (forall j, (1 <= j)%nat -> flag c j = flag c0 j) -> adm_failed new c l r -> adm_failed new c0 l r.
Proof.
  intros E1 E2 E3 E4 (err & c' & leak & -> & He & F1 & F2 & F3 & F4 & F5 & F6 & Hl & Hi).
  exists err, c', leak. split_and!; try done; try congruence.
  - intros Hn. rewrite F3, E3 by done. done.
  - intros j Hj. by rewrite F6, E4.
Qed.

(** The labels; [leak] is what a queue that failed has left. *)
Definition label_pre (new : bool) (err : Z) (c : ctrl) (p : Z) (xs leak l : list Z) : Prop :=
  err <> 0 /\ c_async c = Some p /\ (flag c 0).2 = false /\ (length leak <= leak_max opts)%nat /\
  inv (p :: held new xs ++ leak ++ l) c.

Lemma adm_free_queue_spec new err c p leak l :
  label_pre new err c p [] leak l -> adm_failed new c l (adm_free_queue err c).
Proof.
  intros (He & Ha & Hf & Hl & Hi). unfold adm_free_queue.
  destruct (free_admin_spec _ (leak ++ l) c Hi Hf) as (c' & -> & Hi' & E1 & E2 & E3 & E4 & _ & E5 & E6).
  { rewrite Ha. by destruct new. }
  exists err, c', leak. by split_and!.
Qed.

Lemma release_held new x xs p leak l c (ptr : option Z) :
  (new = true -> ptr = Some x) -> inv (p :: held new (x :: xs) ++ leak ++ l) c ->
  exists c', (if new then c_release ptr c else Some c) = Some c' /\ inv (p :: held new xs ++ leak ++ l) c' /\
    exists w, c' = c <| c_w := w |>.
Proof.
  intros Hp Hi. destruct new; [|exists c; split_and!; [done..|]; exists (c_w c); by destruct c].
  rewrite Hp by done. destruct (release_at _ (p :: xs ++ leak ++ l) c x Hi) as (w & -> & Hw); [apply Permutation_swap|].
  eexists; split_and!; eauto.
Qed.

Lemma adm_free_tagset_spec new err c p t leak l :
  (new = true -> c_admin_tagset c = Some t) -> label_pre new err c p [t] leak l ->
  adm_failed new c l (adm_free_tagset new err c).
Proof.
  intros Ht (He & Ha & Hf & Hl & Hi). unfold adm_free_tagset.
  destruct (release_held _ _ _ _ _ _ _ _ Ht Hi) as (c' & -> & Hi' & w & ->). cbn [mbind option_bind].
  apply (adm_failed_from new c (c <| c_w := w |>)); [done..|]. by eapply adm_free_queue_spec.
Qed.

Lemma adm_cleanup_fabrics_q_spec new err c p f t leak l :
  (new = true -> c_fabrics_q c = Some f /\ c_admin_tagset c = Some t) -> label_pre new err c p [f; t] leak l ->
  adm_failed new c l (adm_cleanup_fabrics_q new err c).
Proof.
  intros Ht (He & Ha & Hf & Hl & Hi). unfold adm_cleanup_fabrics_q.
  destruct (release_held new f [t] p leak l c (c_fabrics_q c)) as (c' & -> & Hi' & w & ->); [naive_solver|done|].
  cbn [mbind option_bind]. apply (adm_failed_from new c (c <| c_w := w |>)); [done..|].
  eapply adm_free_tagset_spec; [naive_solver|done].
Qed.

Lemma adm_cleanup_queue_spec new err c p a f t leak l :
  (new = true -> adm_ptrs c = (Some a, Some f, Some t)) -> label_pre new err c p [a; f; t] leak l ->
  adm_failed new c l (adm_cleanup_queue new err c).
Proof.
  intros Ht (He & Ha & Hf & Hl & Hi). unfold adm_cleanup_queue, adm_ptrs in *.
  destruct (release_held new a [f; t] p leak l c (c_admin_q c)) as (c' & -> & Hi' & w & ->); [naive_solver|done|].
  cbn [mbind option_bind]. apply (adm_failed_from new c (c <| c_w := w |>)); [done..|].
  eapply adm_cleanup_fabrics_q_spec; [|done]. intros Hn. specialize (Ht Hn). simplify_eq. done.
Qed.

Lemma stop_0 l c :
  inv l c -> exists c', nvme_tcp_stop_queue 0 c = Some c' /\ same c c' /\ inv l c' /\ (flag c' 0).2 = false /\
    (flag c' 0).1 = (flag c 0).1 /\ forall j, (1 <= j)%nat -> flag c' j = flag c j.
Proof.
  intros Hi. destruct (stop_acts opts l c 0%nat Hi) as (c' & H & Hs & Hi' & _ & Hf); [by apply (inv_0 l)|done|].
  exists c'. split_and!; [exact H|done|done|by rewrite Hf|by rewrite Hf|]. intros j Hj. by rewrite Hf, decide_False by lia.
Qed.

Lemma adm_stop_queue_spec new err c p a f t l :
  (new = true -> adm_ptrs c = (Some a, Some f, Some t)) -> err <> 0 -> c_async c = Some p ->
  inv (p :: held new [a; f; t] ++ l) c -> adm_failed new c l (adm_stop_queue new err c).
Proof.
  intros Ht He Ha Hi. unfold adm_stop_queue. destruct (stop_0 _ _ Hi) as (c' & -> & Hs & Hi' & Hf & _ & Hj).
  destruct (same_parts _ _ Hs) as (E1 & E2 & E3 & E4 & _).
  cbn [mbind option_bind]. apply (adm_failed_from new c c'); try done.
  eapply (adm_cleanup_queue_spec _ _ _ p a f t []); [by rewrite E3|]. split_and!; try done; [congruence|simpl; lia].
Qed.

(** ** Set-up *)

Lemma alloc_admin_spec l c :
  inv l c -> flag c 0 = (false, false) -> c_async c = None ->
  exists ret c', nvme_tcp_alloc_admin_queue opts NVME_AQ_DEPTH c = Some (ret, c') /\ ctrl_core c' = ctrl_core c /\
    io_part c' = io_part c /\ adm_ptrs c' = adm_ptrs c /\ (forall j, (1 <= j)%nat -> flag c' j = flag c j) /\
    (ret = 0 /\ flag c' 0 = (true, false) /\ (exists p, c_async c' = Some p /\ inv (p :: l) c') \/
     ret <> 0 /\ flag c' 0 = (false, false) /\ c_async c' = None /\
       exists leak, (length leak <= leak_max opts)%nat /\ inv (leak ++ l) c').
Proof.
  intros Hi Hf Ha. unfold nvme_tcp_alloc_admin_queue.
  destruct (alloc_tries opts Hcaravan NVME_AQ_DEPTH l c 0%nat Hi) as (ret & c1 & H & Hs & _ & Hr); [by apply (inv_0 l)|done|].
  change (Z.of_nat 0) with 0 in H. rewrite H. cbn [mbind option_bind]. clear H.
  destruct (same_parts _ _ Hs) as (E1 & E2 & E3 & E4 & _).
  destruct Hr as [(-> & Hi1 & Hf1)|(Hr & Hf1 & leak & Hl & Hi1)].
  2:{ rewrite (proj2 (Z.eqb_neq ret 0) Hr). exists ret, c1. split_and!; [done..|by intros; apply Hf1|].
      right. split_and!; [done|by rewrite Hf1|congruence|by exists leak]. }
  cbn [negb Z.eqb]. assert (Hj : forall j, (1 <= j)%nat -> flag c1 j = flag c j).
  { intros j Hj. by rewrite Hf1, decide_False by lia. }
  unfold nvme_tcp_alloc_async_req. destruct (new_at _ _ Hi1) as (w & [[-> Hi2]|(p & -> & Hi2)]).
  - change (negb (- ENOMEM =? 0)) with true. cbv iota.
    set (c2 := c1 <| c_w := w |> <| c_async := None |>).
    destruct (free_acts opts l c2 0%nat) as (c3 & H & Hs3 & Hi3 & _ & Hf3); [by eapply inv_ext|by apply (inv_0 l c1)| |].
    { change (flag c2 0) with (flag c1 0). by rewrite Hf1. }
    change (Z.of_nat 0) with 0 in H. rewrite H. cbn [mbind option_bind]. destruct (same_parts _ _ Hs3) as (F1 & F2 & F3 & F4 & _).
    exists (- ENOMEM), c3. split_and!; [done|exact (eq_trans F1 E1)|exact (eq_trans F2 E2)|exact (eq_trans F3 E3)| |right].
    + intros j Hj1. rewrite Hf3, decide_False by lia. by apply Hj.
    + split_and!; [done|by rewrite Hf3|exact F4|exists []; split; [simpl; lia|done]].
  - cbn [negb Z.eqb]. eexists _, _. split_and!; [done..|left]. split_and!; [done| |].
    + change (flag c1 0 = (true, false)). by rewrite Hf1.
    + exists p. split; [done|]. by eapply inv_ext.
Qed.

(** The result of a set-up of the admin queue: it is up, or it failed. *)
Definition adm_up_or_failed (new : bool) (c : ctrl) (l : list Z) (r : option (Z * ctrl)) : Prop :=
  (exists c' a f t p, r = Some (0, c') /\ ctrl_core c' = ctrl_core c /\ io_part c' = io_part c /\
     adm_ptrs c' = (Some a, Some f, Some t) /\ (new = false -> adm_ptrs c' = adm_ptrs c) /\ c_async c' = Some p /\
     flag c' 0 = (true, true) /\ (forall j, (1 <= j)%nat -> flag c' j = flag c j) /\
     inv (p :: held new [a; f; t] ++ l) c') \/
  adm_failed new c l r.

Lemma adm_up_or_failed_from new c0 c l r :
  ctrl_core c = ctrl_core c0 -> io_part c = io_part c0 -> (new = false -> adm_ptrs c = adm_ptrs c0) ->
  (forall j, (1 <= j)%nat -> flag c j = flag c0 j) -> adm_up_or_failed new c l r -> adm_up_or_failed new c0 l r.
Proof.
  intros E1 E2 E3 E4 [(c' & a & f & t & p & -> & F1 & F2 & F3 & F4 & F5 & F6 & F7 & Hi)|H];
    [left|right; by eapply adm_failed_from].
  exists c', a, f, t, p. split_and!; try done; try congruence.
  - intros Hn. rewrite F4, E3 by done. done.
  - intros j Hj. by rewrite F7, E4.
Qed.

Lemma admin_start_spec new c a f t p l :
  adm_ptrs c = (Some a, Some f, Some t) -> a ∈ held new [a; f; t] ++ l -> c_async c = Some p ->
  flag c 0 = (true, false) -> inv (p :: held new [a; f; t] ++ l) c ->
  adm_up_or_failed new c l (admin_start new c).
Proof.
  intros Ht Hin Ha Hf Hi. unfold admin_start.
  destruct (start_tries opts _ c 0%nat Hi) as (ret & c1 & H & Hs & _ & Hr); [by apply (inv_0 _ _ Hi)|done|].
  change (Z.of_nat 0) with 0 in H. rewrite H. cbn [mbind option_bind]. clear H.
  destruct (same_parts _ _ Hs) as (E1 & E2 & E3 & E4 & _).
  destruct Hr as [(-> & Hi1 & Hf1)|(Hr & Hf1 & leak & Hl & Hi1)].
  2:{ rewrite (proj2 (Z.eqb_neq ret 0) Hr). right. apply (adm_failed_from new c c1); try done.
      eapply (adm_cleanup_queue_spec _ _ _ p a f t leak); [by rewrite E3|]. split_and!; try done; [congruence|by rewrite Hf1, Hf|].
      eapply inv_perm; [exact Hi1|]. solve_Permutation. }
  cbn [negb Z.eqb]. assert (Hj : forall j, (1 <= j)%nat -> flag c1 j = flag c j).
  { intros j Hj. by rewrite Hf1, decide_False by lia. }
  apply (adm_up_or_failed_from new c c1); try done. rewrite <- E3 in Ht. rewrite <- E4 in Ha.
  specialize (Hf1 0%nat). simpl in Hf1. clear Hf Hi Hs E1 E2 E3 E4 Hj.
  destruct (call_at _ _ Hi1) as (w & -> & Hi2). set (c2 := c1 <| c_w := w |>) in *.
  apply (adm_up_or_failed_from new c1 c2); [done..|].
  destruct (Z.eqb_spec (ext (w_calls (c_w c1))) 0); cbn [negb].
  2:{ right. by eapply adm_stop_queue_spec. }
  assert (Hq : c_admin_q c2 = Some a) by (unfold adm_ptrs in Ht; by injection Ht).
  rewrite Hq, (use_at _ _ a Hi2) by set_solver. cbn [mbind option_bind]. unfold nvme_init_identify.
  destruct (identified (w_calls (c_w c2))) as [[sq ic] mx].
  set (c3 := c2 <| c_sqsize := sq |> <| c_icdoff := ic |> <| c_maxcmd := mx |>).
  assert (Hi3 : inv (p :: held new [a; f; t] ++ l) c3) by by eapply inv_ext.
  destruct (call_at _ _ Hi3) as (w' & -> & Hi4). apply (adm_up_or_failed_from new c2 (c3 <| c_w := w' |>)); [done..|].
  destruct (_ =? 0) eqn:E; cbn [negb].
  - left. by eexists _, a, f, t, p.
  - right. apply Z.eqb_neq in E. by eapply adm_stop_queue_spec.
Qed.

(** [pre]: the objects of the admin queue before, none when it is set up first. *)
Lemma configure_admin_spec new c l :
  inv l c -> flag c 0 = (false, false) -> c_async c = None ->
  (new = false -> exists a f t, adm_ptrs c = (Some a, Some f, Some t) /\ a ∈ l) ->
  adm_up_or_failed new c l (nvme_tcp_configure_admin_queue opts NVME_AQ_DEPTH new c).
Proof.
  intros Hi Hf Ha Hnew. unfold nvme_tcp_configure_admin_queue.
  destruct (alloc_admin_spec l c Hi Hf Ha) as (ret & c1 & -> & E1 & E2 & E3 & Hj & Hr). cbn [mbind option_bind].
  apply (adm_up_or_failed_from new c c1); [done..|]. rewrite <- E3 in Hnew. clear Hi Hf Ha E1 E2 E3 Hj.
  destruct Hr as [(-> & Hf & p & Ha & Hi)|(Hr & Hf & Ha & leak & Hl & Hi)].
  2:{ rewrite (proj2 (Z.eqb_neq ret 0) Hr). right. by exists ret, c1, leak. }
  cbn [negb Z.eqb]. destruct new.
  2:{ destruct (Hnew eq_refl) as (a & f & t & Ht & Hin). by eapply (admin_start_spec _ _ a f t p). }
  assert (Hneg : forall k, ptr_err k <> 0) by (intros k; pose proof (ptr_err_neg k); lia).
  change (alloc_tagset 1 c1) with (let '(p, c) := c_new c1 in (ptr_err (w_calls (c_w c)), p, c)).
  destruct (new_at _ _ Hi) as (w & [[-> Hi2]|(t & -> & Hi2)]).
  { set (c2 := c1 <| c_w := w |> <| c_admin_tagset := ptr None |>). right. apply (adm_failed_from true c1 c2); [done..|].
    eapply (adm_free_queue_spec true _ _ p []). split_and!; [done|done|by change (flag c2) with (flag c1); rewrite Hf|simpl; lia|].
    by eapply inv_ext. }
  set (c2 := c1 <| c_w := w |> <| c_admin_tagset := ptr (Some t) |>). apply (adm_up_or_failed_from true c1 c2); [done..|].
  assert (Hi3 : inv (t :: p :: l) c2) by by eapply inv_ext.
  destruct (new_at _ _ Hi3) as (w' & [[-> Hi4]|(f & -> & Hi4)]).
  { set (c3 := c2 <| c_w := w' |> <| c_fabrics_q := ptr None |>). right. apply (adm_failed_from true c2 c3); [done..|].
    eapply (adm_free_tagset_spec true _ _ p t []); [done|]. split_and!; [done|done|by change (flag c3) with (flag c1); rewrite Hf|simpl; lia|].
    eapply inv_perm; [by eapply inv_ext|]. apply Permutation_swap. }
  set (c3 := c2 <| c_w := w' |> <| c_fabrics_q := ptr (Some f) |>). apply (adm_up_or_failed_from true c2 c3); [done..|].
  assert (Hi5 : inv (f :: t :: p :: l) c3) by by eapply inv_ext.
  destruct (new_at _ _ Hi5) as (w'' & [[-> Hi6]|(a & -> & Hi6)]).
  { set (c4 := c3 <| c_w := w'' |> <| c_admin_q := ptr None |>). right. apply (adm_failed_from true c3 c4); [done..|].
    eapply (adm_cleanup_fabrics_q_spec true _ _ p f t []); [done|].
    split_and!; [done|done|by change (flag c4) with (flag c1); rewrite Hf|simpl; lia|].
    eapply inv_perm; [by eapply inv_ext|]. simpl. solve_Permutation. }
  set (c4 := c3 <| c_w := w'' |> <| c_admin_q := ptr (Some a) |>). apply (adm_up_or_failed_from true c3 c4); [done..|].
  eapply (admin_start_spec true c4 a f t p); [done|set_solver|done|done|].
  eapply inv_perm; [by eapply inv_ext|]. simpl. solve_Permutation.
Qed.

(** ** Tear-down *)

Lemma destroy_admin_spec (remove : bool) c l l' :
  inv l c ->
  l ≡ₚ option_list (c_async c) ++ (if remove then omap id [c_admin_q c; c_fabrics_q c; c_admin_tagset c] else []) ++ l' ->
  (remove = true -> exists a f t, adm_ptrs c = (Some a, Some f, Some t)) ->
  exists c', nvme_tcp_destroy_admin_queue remove c = Some c' /\ inv l' c' /\ ctrl_core c' = ctrl_core c /\ io_part c' = io_part c /\
    adm_ptrs c' = adm_ptrs c /\ c_icdoff c' = c_icdoff c /\ c_async c' = None /\
    flag c' 0 = (false, false) /\ forall j, (1 <= j)%nat -> flag c' j = flag c j.
Proof.
  intros Hi Hp Hr. unfold nvme_tcp_destroy_admin_queue. destruct (stop_0 _ _ Hi) as (c1 & -> & Hs & Hi1 & Hf & _ & Hj).
  destruct (same_parts _ _ Hs) as (E1 & E2 & E3 & E4 & E5). cbn [mbind option_bind].
  assert (H : exists w, (if remove
    then c ← c_release (c_admin_q c1) c1; c ← c_release (c_fabrics_q c) c; c_release (c_admin_tagset c) c
    else Some c1) = Some (c1 <| c_w := w |>) /\ inv (option_list (c_async c) ++ l') (c1 <| c_w := w |>)).
  { destruct remove; [|exists (c_w c1); split; [by destruct c1|]; eapply inv_perm; [by eapply inv_ext|exact Hp]].
    destruct (Hr eq_refl) as (a & f & t & Ht). unfold adm_ptrs in *. rewrite <- E3 in Ht. injection Ht as Ea Ef Et.
    injection E3 as F1 F2 F3. rewrite <- F1, <- F2, <- F3, Ea, Ef, Et in Hp. simpl in Hp. rewrite Ea.
    destruct (release_at l (f :: t :: option_list (c_async c) ++ l') c1 a Hi1) as (w1 & -> & Hw1).
    { rewrite Hp. solve_Permutation. }
    cbn [mbind option_bind]. change (c_fabrics_q (c1 <| c_w := w1 |>)) with (c_fabrics_q c1). rewrite Ef.
    destruct (release_at _ _ _ f Hw1 (Permutation_refl _)) as (w2 & -> & Hw2).
    cbn [mbind option_bind]. change (c_admin_tagset (c1 <| c_w := w1 |> <| c_w := w2 |>)) with (c_admin_tagset c1). rewrite Et.
    destruct (release_at _ _ _ t Hw2 (Permutation_refl _)) as (w3 & -> & Hw3). by exists w3. }
  destruct H as (w & -> & Hi2). cbn [mbind option_bind].
  destruct (free_admin_spec _ l' (c1 <| c_w := w |>) Hi2 Hf) as (c2 & H2 & Hi3 & F1 & F2 & F3 & F4 & F5 & F6 & F7).
  { change (c_async (c1 <| c_w := w |>)) with (c_async c1). by rewrite E4. }
  exists c2. split_and!; [done|done|exact (eq_trans F1 E1)|exact (eq_trans F2 E2)|exact (eq_trans F3 E3)|exact (eq_trans F5 E5)|done..|].
  intros j Hj1. rewrite F7 by done. by apply Hj.
Qed.

Lemma teardown_admin_spec (remove : bool) c l l' a f t :
  inv l c -> adm_ptrs c = (Some a, Some f, Some t) -> a ∈ l -> t ∈ l ->
  l ≡ₚ option_list (c_async c) ++ (if remove then omap id [c_admin_q c; c_fabrics_q c; c_admin_tagset c] else []) ++ l' ->
  exists c', nvme_tcp_teardown_admin_queue remove c = Some c' /\ inv l' c' /\ ctrl_core c' = ctrl_core c /\ io_part c' = io_part c /\
    adm_ptrs c' = adm_ptrs c /\ c_async c' = None /\
    flag c' 0 = (false, false) /\ forall j, (1 <= j)%nat -> flag c' j = flag c j.
Proof.
  intros Hi Ht Ha Htin Hp. unfold nvme_tcp_teardown_admin_queue. pose proof Ht as Ht'. unfold adm_ptrs in Ht'. injection Ht' as Ea Ef Et.
  rewrite Ea, (use_at _ _ _ Hi Ha). cbn [mbind option_bind].
  destruct (stop_0 _ _ Hi) as (c1 & -> & Hs & Hi1 & Hf & _ & Hj). cbn [mbind option_bind].
  destruct (same_parts _ _ Hs) as (E1 & E2 & E3 & E4 & E5). pose proof E3 as E3'. unfold adm_ptrs in E3'. injection E3' as G1 G2 G3.
  unfold cancel_requests. rewrite G3, Et, (use_at _ _ _ Hi1 Htin). cbn [mbind option_bind].
  assert (H : (if remove then c_use (c_admin_q c1) c1 else Some c1) = Some c1).
  { destruct remove; [|done]. by rewrite G1, Ea, (use_at _ _ _ Hi1 Ha). }
  rewrite H. cbn [mbind option_bind].
  destruct (destroy_admin_spec remove c1 l l' Hi1) as (c2 & H2 & Hi2 & F1 & F2 & F3 & F4 & F5 & F6 & F7).
  { by rewrite G1, G2, G3, E4. }
  { intros _. exists a, f, t. by rewrite E3. }
  exists c2. split_and!; [done|done|by rewrite F1|by rewrite F2|by rewrite F3|done..|]. intros j Hj1. by rewrite F7, Hj.
Qed.
End admin.
