(* ===== verification/NvmeTcpCtrlSpec.v ===== *)
(** * Set-up of a controller

    The I/O queues are set up completely or not at all; [nvme_tcp_setup_ctrl]
    leaves a controller whose queues are all live, or one whose queues are all
    down and which owns what it owned before, whatever step failed. *)
From S2P Require Import Prelude MqTypes BlkMqTagSet NvmeTcpMap NvmeTcpConn NvmeTcpConnSpec NvmeTcpCtrl NvmeTcpCtrlInv.

(** The objects the controller points to, its queues apart. *)
Definition ctrl_objs (c : ctrl) : list Z :=
  omap id [c_admin_q c; c_fabrics_q c; c_admin_tagset c; c_connect_q c; c_tagset c; c_async c].

(** No queue is allocated or live; all are. *)
Definition all_down (c : ctrl) : Prop := (forall j, flag c j = (false, false)) /\ c_async c = None.
Definition all_up (c : ctrl) : Prop := forall j, Z.of_nat j < c_queue_count c -> flag c j = (true, true).

(** What the set-up of the I/O queues leaves alone. *)
Definition adm_part (c : ctrl) := (ctrl_core c, adm_ptrs c, c_async c, c_icdoff c).
Definition io_ptrs (c : ctrl) := (c_connect_q c, c_tagset c).
Definition io_down (c : ctrl) : Prop := forall j, (1 <= j)%nat -> flag c j = (false, false).

Lemma adm_part_inv c c' :
  adm_part c' = adm_part c ->
  ctrl_core c' = ctrl_core c /\ adm_ptrs c' = adm_ptrs c /\ c_async c' = c_async c /\ c_icdoff c' = c_icdoff c.
Proof.
  intros H. split_and!; [exact (f_equal (fun x => x.1.1.1) H)|exact (f_equal (fun x => x.1.1.2) H)|
    exact (f_equal (fun x => x.1.2) H)|exact (f_equal snd H)].
Qed.

Lemma same_adm_part c c' : same c c' -> adm_part c' = adm_part c /\ io_ptrs c' = io_ptrs c.
Proof. intros ->. done. Qed.

Lemma set_io_queues_total opts nr io :
  length io = 3%nat -> exists io', nvme_tcp_set_io_queues opts nr io = Some io' /\ length io' = 3%nat.
Proof.
  intros Hl. destruct io as [|d [|r [|p [|]]]]; try done. unfold nvme_tcp_set_io_queues.
  repeat case_match; simplify_option_eq; repeat case_match; simplify_eq/=; by eexists.
Qed.

Section setup.
Context {ce : CtrlEnv} {cl : CtrlLaws ce} (opts : conn_opts) (NVME_AQ_DEPTH : Z).
Context (Hcaravan : caravan_memory opts).
Notation inv := (inv opts).

Lemma set_count_inv l c nr io :
  inv l c -> io_down c -> 0 <= nr <= nvme_tcp_nr_io_queues online_cpus (co_queues opts) -> length io = 3%nat ->
  inv l (c <| c_queue_count := u32 (nr + 1) |> <| c_io_queues := io |>).
Proof.
  intros [H1 H2 H3 H4 H5 H6] Hd Hnr Hio. assert (E : u32 (nr + 1) = nr + 1) by (apply Z.mod_small; lia).
  split; simpl; try done; rewrite ?E; [lia|]. intros i Hi. apply Hd. lia.
Qed.

(** The result of a step of the set-up of the I/O queues that failed. *)
Definition io_failed (new : bool) (c : ctrl) (l : list Z) (r : option (Z * ctrl)) : Prop :=
  exists err c' leak, r = Some (err, c') /\ err <> 0 /\ adm_part c' = adm_part c /\
    (new = false -> io_ptrs c' = io_ptrs c) /\ flag c' 0 = flag c 0%nat /\ io_down c' /\
    (length leak <= leak_max opts)%nat /\ inv (leak ++ l) c'.

Lemma io_failed_from new c0 c l r :
  adm_part c = adm_part c0 -> (new = false -> io_ptrs c = io_ptrs c0) -> flag c 0 = flag c0 0%nat ->
  io_failed new c l r -> io_failed new c0 l r.
Proof.
  intros E1 E2 E3 (err & c' & leak & -> & He & F1 & F2 & F3 & F4 & Hl & Hi).
  exists err, c', leak. split_and!; try done; try congruence. intros Hn. rewrite F2, E2 by done. done.
Qed.

Lemma alloc_io_queues_spec l c :
  inv l c -> io_down c ->
  (exists c', nvme_tcp_alloc_io_queues opts c = Some (0, c') /\ adm_part c' = adm_part c /\ io_ptrs c' = io_ptrs c /\
     flag c' 0 = flag c 0%nat /\ io_flags c' (true, false) /\ inv l c') \/
  io_failed false c l (nvme_tcp_alloc_io_queues opts c).
Proof.
  intros Hi Hd. unfold nvme_tcp_alloc_io_queues.
  set (nr0 := nvme_tcp_nr_io_queues online_cpus (co_queues opts)).
  assert (Hn0 : 0 <= nr0) by (apply Z.mod_pos_bound; lia).
  pose proof (granted_le (w_calls (c_w c)) nr0 Hn0) as Hnr. set (nr := granted (w_calls (c_w c)) nr0) in *.
  destruct (call_at opts _ _ Hi) as (w & -> & Hi1). set (c1 := c <| c_w := w |>) in *.
  destruct (Z.eqb_spec (ext (w_calls (c_w c))) 0); cbn [negb].
  2:{ right. eexists _, c1, []. split_and!; try done. simpl; lia. }
  assert (Hio3 : length (c_io_queues c) = 3%nat) by apply Hi.
  assert (Hi2 : forall io, length io = 3%nat -> inv l (c1 <| c_queue_count := u32 (nr + 1) |> <| c_io_queues := io |>)).
  { intros io Hio. by apply set_count_inv. }
  cbv zeta. set (c2 := c1 <| c_queue_count := u32 (nr + 1) |>) in *. destruct (Z.ltb_spec (c_queue_count c2) 2).
  { left. exists c2. split_and!; try done; [intros j Hj Hlt; lia|]. eapply inv_ext; [exact (Hi2 _ Hio3)|done..]. }
  destruct (set_io_queues_total (co_queues opts) nr (c_io_queues c2) Hio3) as (io & -> & Hl). cbn [mbind option_bind].
  destruct (alloc_io_spec opts Hcaravan l (c2 <| c_io_queues := io |>) (Hi2 io Hl) Hd)
    as (ret & c3 & -> & Hs & Hf0 & Hr). destruct (same_adm_part _ _ Hs) as (E1 & E2).
  destruct Hr as [(-> & Hi3 & Hf)|(Hr & Hf & leak & Hlk & Hi3)]; [left|right].
  - exists c3. by split_and!.
  - exists ret, c3, leak. by split_and!.
Qed.

(** ** The error labels *)

Lemma io_free_io_queues_spec new err c leak l :
  err <> 0 -> (length leak <= leak_max opts)%nat -> (forall j, (1 <= j)%nat -> (flag c j).2 = false) -> inv (leak ++ l) c ->
  io_failed new c l (io_free_io_queues err c).
Proof.
  intros He Hl Hf Hi. unfold io_free_io_queues. destruct (free_io_spec opts _ c Hi Hf) as (c' & -> & Hs & Hi' & H0 & Hd).
  destruct (same_adm_part _ _ Hs) as (E1 & E2). exists err, c', leak. by split_and!.
Qed.

Lemma io_release_held new x xs leak l c (ptr : option Z) :
  (new = true -> ptr = Some x) -> inv (held new (x :: xs) ++ leak ++ l) c ->
  exists w, (if new then c_release ptr c else Some c) = Some (c <| c_w := w |>) /\
    inv (held new xs ++ leak ++ l) (c <| c_w := w |>).
Proof.
  intros Hp Hi. destruct new; [|exists (c_w c); split; [by destruct c|by eapply inv_ext]].
  rewrite Hp by done. exact (release_at opts _ _ c x Hi (Permutation_refl _)).
Qed.

Lemma io_free_tag_set_spec new err c t leak l :
  (new = true -> c_tagset c = Some t) -> err <> 0 -> (length leak <= leak_max opts)%nat ->
  (forall j, (1 <= j)%nat -> (flag c j).2 = false) -> inv (held new [t] ++ leak ++ l) c ->
  io_failed new c l (io_free_tag_set new err c).
Proof.
  intros Ht He Hl Hf Hi. unfold io_free_tag_set. destruct (io_release_held _ _ _ _ _ _ _ Ht Hi) as (w & -> & Hi').
  cbn [mbind option_bind]. apply (io_failed_from new c (c <| c_w := w |>)); [done..|].
  eapply (io_free_io_queues_spec _ _ _ leak); try done. by destruct new.
Qed.

(** ** Set-up of the I/O queues *)

Definition io_up_or_failed (new : bool) (c : ctrl) (l : list Z) (r : option (Z * ctrl)) : Prop :=
  (exists c' q t, r = Some (0, c') /\ adm_part c' = adm_part c /\ (new = false -> io_ptrs c' = io_ptrs c) /\
     (new = true -> io_ptrs c' = (Some q, Some t) /\ 1 < c_queue_count c') /\
     flag c' 0 = flag c 0%nat /\ io_flags c' (true, true) /\ inv (held new [q; t] ++ l) c') \/
  io_failed new c l r.

Lemma io_up_or_failed_from new c0 c l r :
  adm_part c = adm_part c0 -> (new = false -> io_ptrs c = io_ptrs c0) -> flag c 0 = flag c0 0%nat ->
  io_up_or_failed new c l r -> io_up_or_failed new c0 l r.
Proof.
  intros E1 E2 E3 [(c' & q & t & -> & F1 & F2 & F3 & F4 & F5 & Hi)|H]; [left|right; by eapply io_failed_from].
  exists c', q, t. split_and!; try done; try congruence. intros Hn. rewrite F2, E2 by done. done.
Qed.

Lemma io_start_spec new c q t l :
  (new = true -> io_ptrs c = (Some q, Some t) /\ 1 < c_queue_count c) -> io_flags c (true, false) ->
  inv (held new [q; t] ++ l) c -> io_up_or_failed new c l (io_start new c).
Proof.
  intros Hp Hf Hi. unfold io_start. destruct (start_io_spec opts _ c Hi Hf) as (ret & c1 & -> & Hs & H0 & Hf1 & Hr).
  cbn [mbind option_bind]. destruct (same_adm_part _ _ Hs) as (E1 & E2).
  assert (Ec : c_queue_count c1 = c_queue_count c) by by rewrite Hs.
  destruct Hr as [(-> & Hi1)|(Hr & leak & Hl & Hi1)].
  - left. exists c1, q, t. rewrite E2, Ec. by split_and!.
  - rewrite (proj2 (Z.eqb_neq ret 0) Hr) in *. cbn [negb]. right. apply (io_failed_from new c c1); [done..|].
    rewrite <- E2 in Hp. unfold io_ptrs in Hp.
    assert (Hlive : forall j, (1 <= j)%nat -> (flag c1 j).2 = false).
    { intros j Hj. destruct (Z.lt_ge_cases (Z.of_nat j) (c_queue_count c1)); [by rewrite Hf1|].
      by rewrite (inv_down _ _ _ Hi1). }
    destruct (io_release_held new q [t] leak l c1 (c_connect_q c1)) as (w & -> & Hi2).
    { intros Hn. destruct (Hp Hn) as [Hp' _]. by simplify_eq. }
    { eapply inv_perm; [exact Hi1|]. solve_Permutation. }
    cbn [mbind option_bind]. apply (io_failed_from new c1 (c1 <| c_w := w |>)); [done..|].
    eapply (io_free_tag_set_spec _ _ _ t leak); try done. intros Hn. destruct (Hp Hn) as [Hp' _].
    change (c_tagset c1 = Some t). by simplify_eq.
Qed.

Lemma configure_io_spec new c l :
  inv l c -> io_down c -> (new = false -> exists t, c_tagset c = Some t /\ t ∈ l) ->
  io_up_or_failed new c l (nvme_tcp_configure_io_queues opts new c).
Proof.
  intros Hi Hd Hnew. unfold nvme_tcp_configure_io_queues.
  destruct (alloc_io_queues_spec l c Hi Hd) as [(c1 & -> & E1 & E2 & E3 & Hf & Hi1)|(err & c' & leak & -> & He & F1 & F2 & F3 & F4 & Hl & Hi')];
    cbn [mbind option_bind].
  2:{ rewrite (proj2 (Z.eqb_neq err 0) He). right. exists err, c', leak. split_and!; try done. intros _. by apply F2. }
  cbn [negb Z.eqb]. apply (io_up_or_failed_from new c c1); [done..|].
  assert (Hnl : forall j, (1 <= j)%nat -> (flag c1 j).2 = false).
  { intros j Hj. destruct (Z.lt_ge_cases (Z.of_nat j) (c_queue_count c1)); [by rewrite Hf|]. by rewrite (inv_down _ _ _ Hi1). }
  assert (Hneg : forall k, ptr_err k <> 0) by (intros k; pose proof (ptr_err_neg k); lia).
  destruct new.
  2:{ destruct (Hnew eq_refl) as (t & Ht & Hin). assert (Ht1 : c_tagset c1 = Some t) by (unfold io_ptrs in E2; congruence).
      rewrite Ht1, (use_at _ _ _ _ Hi1 Hin). cbn [mbind option_bind]. by apply (io_start_spec false c1 0 0 l). }
  unfold alloc_tagset. pose proof (inv_count _ _ _ Hi1) as Hcnt. destruct (Z.eqb_spec (c_queue_count c1 - 1) 0).
  { right. apply (io_failed_from true c1 (c1 <| c_tagset := ptr None |>)); [done..|].
    apply (io_free_io_queues_spec _ _ _ []); [done|simpl; lia|done|by eapply inv_ext]. }
  destruct (new_at opts _ _ Hi1) as (w & [[-> Hi2]|(t & -> & Hi2)]).
  { right. apply (io_failed_from true c1 (c1 <| c_w := w |> <| c_tagset := ptr None |>)); [done..|].
    apply (io_free_io_queues_spec _ _ _ []); [done|simpl; lia|done|by eapply inv_ext]. }
  set (c2 := c1 <| c_w := w |> <| c_tagset := ptr (Some t) |>). apply (io_up_or_failed_from true c1 c2); [done..|].
  assert (Hi3 : inv (t :: l) c2) by by eapply inv_ext.
  destruct (new_at opts _ _ Hi3) as (w' & [[-> Hi4]|(q & -> & Hi4)]).
  { right. apply (io_failed_from true c2 (c2 <| c_w := w' |> <| c_connect_q := ptr None |>)); [done..|].
    apply (io_free_tag_set_spec true _ _ t []); [done|done|simpl; lia|done|by eapply inv_ext]. }
  set (c3 := c2 <| c_w := w' |> <| c_connect_q := ptr (Some q) |>). apply (io_up_or_failed_from true c2 c3); [done..|].
  apply (io_start_spec true c3 q t l); [|done|by eapply inv_ext]. intros _. split; [done|].
  change (1 < c_queue_count c1). lia.
Qed.

(** ** Tear-down of the I/O queues *)

Lemma destroy_io_queues_spec (remove : bool) c l l' :
  inv l c -> l ≡ₚ (if remove then omap id [c_connect_q c; c_tagset c] else []) ++ l' ->
  (remove = true -> exists q t, io_ptrs c = (Some q, Some t)) ->
  exists c', nvme_tcp_destroy_io_queues remove c = Some c' /\ adm_part c' = adm_part c /\ io_part c' = io_part c /\
    flag c' 0 = flag c 0%nat /\ io_down c' /\ inv l' c'.
Proof.
  intros Hi Hp Hr. unfold nvme_tcp_destroy_io_queues. destruct (stop_io_spec opts l c Hi) as (c1 & -> & Hs & Hi1 & H0 & Hj).
  cbn [mbind option_bind]. destruct (same_adm_part _ _ Hs) as (E1 & E2). destruct (same_parts _ _ Hs) as (_ & E3 & _).
  assert (H : exists w, (if remove then c ← c_release (c_connect_q c1) c1; c_release (c_tagset c) c else Some c1)
    = Some (c1 <| c_w := w |>) /\ inv l' (c1 <| c_w := w |>)).
  { destruct remove; [|exists (c_w c1); split; [by destruct c1|]; eapply inv_perm; [by eapply inv_ext|exact Hp]].
    destruct (Hr eq_refl) as (q & t & Ht). unfold io_ptrs in *. injection Ht as Eq Et. rewrite Eq, Et in *. simpl in Hp.
    injection E2 as Fq Ft. rewrite Fq. destruct (release_at _ _ _ _ _ Hi1 Hp) as (w1 & -> & Hw1).
    cbn [mbind option_bind]. change (c_tagset (c1 <| c_w := w1 |>)) with (c_tagset c1). rewrite Ft.
    destruct (release_at _ _ _ _ _ Hw1 (Permutation_refl _)) as (w2 & -> & Hw2). by exists w2. }
  destruct H as (w & -> & Hi2). cbn [mbind option_bind].
  destruct (free_io_spec opts l' (c1 <| c_w := w |>) Hi2) as (c2 & -> & Hs2 & Hi3 & F0 & Fd).
  { intros j Hj1. change ((flag c1 j).2 = false). by rewrite Hj. }
  destruct (same_adm_part _ _ Hs2) as (G1 & G2). destruct (same_parts _ _ Hs2) as (_ & G3 & _).
  exists c2. split_and!; [done|exact (eq_trans G1 E1)|exact (eq_trans G3 E3)|exact (eq_trans F0 H0)|done..].
Qed.

Lemma teardown_io_spec (remove : bool) c l l' :
  inv l c -> (1 < c_queue_count c -> exists q t, io_ptrs c = (Some q, Some t) /\ t ∈ l) ->
  l ≡ₚ (if remove && (1 <? c_queue_count c) then omap id [c_connect_q c; c_tagset c] else []) ++ l' ->
  exists c', nvme_tcp_teardown_io_queues remove c = Some c' /\ adm_part c' = adm_part c /\ io_part c' = io_part c /\
    flag c' 0 = flag c 0%nat /\ io_down c' /\ inv l' c'.
Proof.
  intros Hi Hq Hp. unfold nvme_tcp_teardown_io_queues. destruct (Z.leb_spec (c_queue_count c) 1).
  { rewrite (proj2 (Z.ltb_ge 1 (c_queue_count c))), andb_false_r in Hp by lia.
    exists c. split_and!; [done..| |by eapply inv_perm]. intros j Hj. apply (inv_down _ _ _ Hi). lia. }
  rewrite (proj2 (Z.ltb_lt 1 (c_queue_count c))), andb_true_r in Hp by lia. destruct Hq as (q & t & Ht & Hin); [done|].
  destruct (stop_io_spec opts l c Hi) as (c1 & -> & Hs & Hi1 & H0 & Hj).
  cbn [mbind option_bind]. destruct (same_adm_part _ _ Hs) as (E1 & E2). destruct (same_parts _ _ Hs) as (_ & E3 & _).
  pose proof E2 as E2'. unfold io_ptrs in E2', Ht. injection E2' as Eq Et. injection Ht as Fq Ft.
  unfold cancel_requests. rewrite Et, Ft, (use_at _ _ _ _ Hi1 Hin). cbn [mbind option_bind].
  destruct (destroy_io_queues_spec remove c1 l l' Hi1) as (c2 & -> & G1 & G2 & G3 & G4 & G5).
  { by rewrite Eq, Et. }
  { intros _. exists q, t. unfold io_ptrs. congruence. }
  exists c2. split_and!; [done|exact (eq_trans G1 E1)|exact (eq_trans G2 E3)|exact (eq_trans G3 H0)|done..].
Qed.

(** ** Set-up of the controller *)

(** The pointers of a controller that was created. *)
Definition ptrs_ok (c : ctrl) : Prop :=
  (exists a f t, adm_ptrs c = (Some a, Some f, Some t)) /\
  (1 < c_queue_count c -> exists q t, io_ptrs c = (Some q, Some t)).

Definition io_objs (c : ctrl) : list Z := omap id [c_connect_q c; c_tagset c].

Lemma ctrl_objs_eq c a f t :
  adm_ptrs c = (Some a, Some f, Some t) -> ctrl_objs c = [a; f; t] ++ io_objs c ++ option_list (c_async c).
Proof.
  unfold adm_ptrs. intros H. injection H as E1 E2 E3. unfold ctrl_objs, io_objs. rewrite E1, E2, E3. simpl.
  repeat case_match; done.
Qed.

(** The label [destroy_admin]. *)
Lemma setup_destroy_admin new ret c a f t p leak l :
  adm_ptrs c = (Some a, Some f, Some t) -> c_async c = Some p -> io_down c ->
  inv (p :: held new [a; f; t] ++ leak ++ l) c ->
  exists c', destroy_admin new ret c = Some (ret, c') /\ ctrl_core c' = ctrl_core c /\ io_part c' = io_part c /\
    adm_ptrs c' = adm_ptrs c /\ c_icdoff c' = c_icdoff c /\ all_down c' /\ inv (leak ++ l) c'.
Proof.
  intros Ht Ha Hd Hi. unfold destroy_admin. destruct (stop_0 opts _ _ Hi) as (c1 & -> & Hs & Hi1 & Hf & _ & Hj).
  cbn [mbind option_bind]. destruct (same_parts _ _ Hs) as (E1 & E2 & E3 & E4 & E5). pose proof E3 as Ht'.
  rewrite Ht in Ht'. unfold adm_ptrs in Ht'. injection Ht' as G1 G2 G3.
  destruct (destroy_admin_spec opts new c1 _ (leak ++ l) Hi1) as (c2 & -> & Hi2 & F1 & F2 & F3 & F4 & F5 & F6 & F7).
  { rewrite E4, Ha, G1, G2, G3. by destruct new. }
  { intros _. exists a, f, t. congruence. }
  cbn [mbind option_bind]. exists c2. split_and!; try done; try congruence. split; [|done].
  intros [|j]; [done|]. rewrite F7, Hj by lia. apply Hd. lia.
Qed.

(** The I/O queues within [nvme_tcp_setup_ctrl]. *)
Lemma io_stage new c l :
  inv l c -> io_down c -> (new = true -> io_ptrs c = (None, None)) ->
  (new = false -> 1 < c_queue_count c -> exists q t, io_ptrs c = (Some q, Some t) /\ t ∈ l) ->
  let r := if 1 <? c_queue_count c then nvme_tcp_configure_io_queues opts new c else Some (0, c) in
  (exists c', r = Some (0, c') /\ adm_part c' = adm_part c /\ flag c' 0 = flag c 0%nat /\ io_flags c' (true, true) /\
     (new = false -> io_ptrs c' = io_ptrs c) /\ (1 < c_queue_count c' -> exists q t, io_ptrs c' = (Some q, Some t)) /\
     (new = true -> c_queue_count c' <= 1 -> io_ptrs c' = (None, None)) /\
     inv ((if new then io_objs c' else []) ++ l) c') \/
  io_failed new c l r.
Proof.
  intros Hi Hd Hnew Hold r. subst r. destruct (Z.ltb_spec 1 (c_queue_count c)) as [Hc|Hc].
  2:{ left. exists c. split_and!; try done.
      - intros j Hj Hlt. lia.
      - lia.
      - intros Hn _. by apply Hnew.
      - destruct new; [|done]. specialize (Hnew eq_refl). unfold io_ptrs in Hnew. injection Hnew as E1 E2.
        unfold io_objs. by rewrite E1, E2. }
  destruct (configure_io_spec new c l Hi Hd) as [(c' & q & t & H & F1 & F2 & F3 & F4 & F5 & Hi')|H].
  { intros Hn. destruct (Hold Hn Hc) as (q & t & E & Hin). exists t. unfold io_ptrs in E. by simplify_eq. }
  - left. exists c'. split_and!; try done.
    + intros _. destruct new; [exists q, t; by apply F3|]. destruct (Hold eq_refl Hc) as (q' & t' & E & _).
      exists q', t'. by rewrite F2.
    + intros Hn Hle. destruct (F3 Hn). lia.
    + destruct new; [|done]. destruct (F3 eq_refl) as [E _]. unfold io_ptrs in E. injection E as E1 E2. unfold io_objs.
      by rewrite E1, E2.
  - by right.
Qed.

(** The two results of [nvme_tcp_setup_ctrl]. *)
Definition setup_up (base : list Z) (c : ctrl) (ret : Z) (c' : ctrl) : Prop :=
  ret = 0 /\ c_icdoff c' = 0 /\ c_state c' = NVME_CTRL_LIVE /\ all_up c' /\ ptrs_ok c' /\ inv (ctrl_objs c' ++ base) c'.
Definition setup_down (new : bool) (base : list Z) (c : ctrl) (ret : Z) (c' : ctrl) : Prop :=
  (ret = 0 -> c_icdoff c' <> 0 /\ io_part c' = io_part c) /\ c_state c' = c_state c /\ all_down c' /\ (new = false -> ptrs_ok c') /\
  exists leak, (length leak <= leak_max opts)%nat /\ inv (leak ++ (if new then [] else ctrl_objs c') ++ base) c'.

(** The objects of an existing controller do not change while it is down. *)
Lemma objs_kept c c' a f t :
  adm_ptrs c = (Some a, Some f, Some t) -> adm_ptrs c' = adm_ptrs c -> io_ptrs c' = io_ptrs c -> c_async c' = c_async c ->
  ctrl_objs c' = ctrl_objs c.
Proof.
  intros H1 H2 H3 H4. rewrite (ctrl_objs_eq c a f t H1), (ctrl_objs_eq c' a f t) by congruence. rewrite H4.
  unfold io_ptrs in H3. injection H3 as E1 E2. unfold io_objs. by rewrite E1, E2.
Qed.

(** The label [destroy_io], after which nothing of the set-up is left. *)
Lemma setup_destroy_io new ret c a f t p l :
  adm_ptrs c = (Some a, Some f, Some t) -> c_async c = Some p ->
  (1 < c_queue_count c -> exists q t, io_ptrs c = (Some q, Some t)) ->
  (new = true -> c_queue_count c <= 1 -> io_ptrs c = (None, None)) ->
  inv (p :: held new [a; f; t] ++ (if new then io_objs c else []) ++ l) c ->
  exists c', destroy_io new ret c = Some (ret, c') /\ ctrl_core c' = ctrl_core c /\ io_part c' = io_part c /\
    adm_ptrs c' = adm_ptrs c /\ c_icdoff c' = c_icdoff c /\ all_down c' /\ inv l c'.
Proof.
  intros Ht Ha Hq Hn Hi. unfold destroy_io.
  assert (H : exists c1, (if 1 <? c_queue_count c then nvme_tcp_destroy_io_queues new c else Some c) = Some c1 /\
    adm_part c1 = adm_part c /\ io_part c1 = io_part c /\ io_down c1 /\ inv (p :: held new [a; f; t] ++ l) c1).
  { destruct (Z.ltb_spec 1 (c_queue_count c)) as [Hc|Hc].
    - destruct (destroy_io_queues_spec new c _ (p :: held new [a; f; t] ++ l) Hi) as (c1 & -> & G1 & G2 & G3 & G4 & G5).
      + unfold io_objs. destruct new; simpl; [|done]. solve_Permutation.
      + intros _. by apply Hq.
      + exists c1. by split_and!.
    - exists c. split_and!; try done; [intros j Hj; apply (inv_down _ _ _ Hi); lia|].
      destruct new; [|done]. specialize (Hn eq_refl Hc). unfold io_ptrs in Hn. injection Hn as E1 E2.
      unfold io_objs in Hi. by rewrite E1, E2 in Hi. }
  destruct H as (c1 & -> & G1 & G2 & G3 & G4). cbn [mbind option_bind]. apply adm_part_inv in G1 as (F1 & F2 & F3 & F4).
  destruct (setup_destroy_admin new ret c1 a f t p [] l) as (c2 & -> & K1 & K2 & K3 & K4 & K5 & K6); [congruence|congruence|done|done|].
  exists c2. split_and!; try done; congruence.
Qed.
End setup.

(** ** Life cycle of a controller

    A controller that is created has all its queues live, or nothing of it is
    left but what the allocation of a queue leaves when it fails.  In every
    sequence of error recoveries, resets, reconnects and time-outs no object is
    used or released that is not in use, and deletion gives back what the
    controller owns. *)

Section setup_ctrl.
Context {ce : CtrlEnv} {cl : CtrlLaws ce} (opts : conn_opts) (NVME_AQ_DEPTH : Z).
Context (Hcaravan : caravan_memory opts).
Notation inv := (inv opts).

(** What a set-up that failed gives back to the caller. *)
Lemma setup_back (new : bool) c c' base leak :
  (new = false -> ptrs_ok c) -> c_async c = None -> io_ptrs c' = io_ptrs c \/ new = true ->
  (new = false -> adm_ptrs c' = adm_ptrs c) ->
  (new = false -> 1 < c_queue_count c' -> exists q t, io_ptrs c' = (Some q, Some t)) -> c_async c' = None ->
  inv (leak ++ (if new then [] else ctrl_objs c) ++ base) c' ->
  (new = false -> ptrs_ok c') /\ inv (leak ++ (if new then [] else ctrl_objs c') ++ base) c'.
Proof.
  intros Hok Ha E1 E2 Hc Ha' Hi. destruct new; [done|]. destruct (Hok eq_refl) as [(a & f & t & Ht) Hq].
  specialize (E2 eq_refl). destruct E1 as [E1|]; [|done]. split.
  - intros _. split; [exists a, f, t; congruence|by apply Hc].
  - rewrite (objs_kept c c' a f t) by congruence. done.
Qed.

Lemma ctrl_core_inv c c' : ctrl_core c' = ctrl_core c -> works c' = works c /\ c_state c' = c_state c.
Proof. intros H. split; [exact (f_equal snd H)|exact (f_equal fst H)]. Qed.

Lemma io_part_ptrs c c' : io_part c' = io_part c -> io_ptrs c' = io_ptrs c /\ c_queue_count c' = c_queue_count c.
Proof. unfold io_part, io_ptrs. intros H. injection H as H1 H2 H3. by rewrite H1, H2, H3. Qed.

(** From the I/O queues on: the admin queue is up. *)
Lemma setup_io (new : bool) c0 c a f t p base :
  (new = false -> ptrs_ok c0) -> c_async c0 = None -> (new = true -> io_ptrs c0 = (None, None)) ->
  ctrl_core c = ctrl_core c0 -> io_part c = io_part c0 -> (new = false -> adm_ptrs c = adm_ptrs c0) ->
  adm_ptrs c = (Some a, Some f, Some t) -> c_async c = Some p -> flag c 0 = (true, true) -> io_down c ->
  c_icdoff c = 0 -> inv (p :: held new [a; f; t] ++ (if new then [] else ctrl_objs c0) ++ base) c ->
  exists ret c',
    ('(ret, c) ← (if 1 <? c_queue_count c then nvme_tcp_configure_io_queues opts new c else Some (0, c));
     if negb (ret =? 0) then destroy_admin new ret c
     else
       let '(ok, c) := nvme_change_ctrl_state NVME_CTRL_LIVE c in
       if negb ok then destroy_io new (- EINVAL) c else Some (0, c)) = Some (ret, c') /\ works c' = works c0 /\
    (setup_up opts base c0 ret c' \/ setup_down opts new base c0 ret c').
Proof.
  intros Hok Ha0 Hnew E1 E2 E3 Ht Ha Hf Hd Hic Hi. destruct (io_part_ptrs _ _ E2) as [E4 E5].
  pose proof (io_stage opts Hcaravan new c _ Hi Hd) as Hst. cbv zeta in Hst.
  destruct Hst as [(c1 & -> & F1 & F2 & F3 & F4 & F5 & F6 & Hi1)|(err & c1 & leak & H & He & F1 & F2 & F3 & F4 & Hl & Hi1)].
  { intros Hn. rewrite E4. by apply Hnew. }
  { intros -> Hlt. destruct (Hok eq_refl) as [_ Hq]. destruct Hq as (q & t' & Hqt); [lia|]. exists q, t'. rewrite E4. split; [done|].
    right. simpl. apply elem_of_app. left. unfold io_ptrs in Hqt. injection Hqt as _ Et. unfold ctrl_objs.
    apply list_elem_of_omap. exists (Some t'). split; [|done]. rewrite Et. set_solver. }
  all: destruct (adm_part_inv _ _ F1) as (G1 & G2 & G3 & G4); rewrite <- G2 in Ht; rewrite <- G3 in Ha.
  2:{ assert (Hc : 1 < c_queue_count c0).
      { rewrite <- E5. destruct (Z.ltb_spec 1 (c_queue_count c)); [done|]. by injection H as <- <-. }
      rewrite H. cbn [mbind option_bind]. rewrite (proj2 (Z.eqb_neq err 0) He). cbn [negb].
      destruct (setup_destroy_admin opts new err c1 a f t p leak ((if new then [] else ctrl_objs c0) ++ base))
        as (c2 & -> & K1 & K2 & K3 & K4 & K5 & K6); [done..| |].
      { eapply inv_perm; [exact Hi1|]. solve_Permutation. }
      destruct (ctrl_core_inv c0 c2) as [W1 W2]; [by rewrite K1, G1|].
      exists err, c2. split_and!; [done..|]. right.
      destruct (io_part_ptrs _ _ K2) as [K7 K8]. destruct (setup_back new c0 c2 base leak) as [B1 B2]; try done.
      - destruct new; [by right|left]. rewrite K7, F2 by done. done.
      - intros Hn. rewrite K3, G2. by apply E3.
      - intros Hn _. rewrite K7, F2, E4 by done. by apply (Hok Hn).
      - by destruct K5.
      - split_and!; [done..|by exists leak]. }
  cbn [mbind option_bind negb Z.eqb]. unfold nvme_change_ctrl_state.
  destruct (change_ok (c_state c1) NVME_CTRL_LIVE); cbn [negb].
  - exists 0, (c1 <| c_state := NVME_CTRL_LIVE |>). destruct (ctrl_core_inv c0 c1) as [W1 W2]; [by rewrite G1|].
    split_and!; [done|exact W1|left]. split_and!; [done|exact (eq_trans G4 Hic)|done| | |].
    + intros [|j] Hj; [exact (eq_trans F2 Hf)|]. apply (F3 (S j)); [lia|exact Hj].
    + split; [by exists a, f, t|exact F5].
    + eapply inv_ext; [eapply inv_perm; [exact Hi1|]|done..]. change (ctrl_objs (c1 <| c_state := NVME_CTRL_LIVE |>)) with (ctrl_objs c1).
      rewrite (ctrl_objs_eq c1 a f t Ht), Ha. destruct new; simpl; [solve_Permutation|].
      rewrite (ctrl_objs_eq c0 a f t), Ha0 by (rewrite <- E3, <- G2 by done; done).
      assert (E : io_objs c1 = io_objs c0).
      { specialize (F4 eq_refl). rewrite E4 in F4. unfold io_ptrs in F4. injection F4 as Q1 Q2. unfold io_objs. by rewrite Q1, Q2. }
      rewrite E. simpl. solve_Permutation.
  - destruct (setup_destroy_io opts new (- EINVAL) c1 a f t p ((if new then [] else ctrl_objs c0) ++ base))
      as (c2 & -> & K1 & K2 & K3 & K4 & K5 & K6); [done..| |].
    { eapply inv_perm; [exact Hi1|]. solve_Permutation. }
    destruct (ctrl_core_inv c0 c2) as [W1 W2]; [by rewrite K1, G1|]. destruct (io_part_ptrs _ _ K2) as [K7 K8].
    exists (- EINVAL), c2. split_and!; [done..|right].
    destruct (setup_back new c0 c2 base []) as [B1 B2]; try done.
    + destruct new; [by right|left]. rewrite K7, F4 by done. done.
    + intros Hn. rewrite K3, G2. by apply E3.
    + intros _. rewrite K7, K8. exact F5.
    + by destruct K5.
    + split_and!; [done..|]. exists []. split; [simpl; lia|done].
Qed.

Lemma setup_spec (new : bool) c base :
  inv ((if new then [] else ctrl_objs c) ++ base) c -> all_down c -> (new = true -> io_ptrs c = (None, None)) ->
  (new = false -> ptrs_ok c) ->
  exists ret c', nvme_tcp_setup_ctrl opts NVME_AQ_DEPTH new c = Some (ret, c') /\ works c' = works c /\
    (setup_up opts base c ret c' \/ setup_down opts new base c ret c').
Proof.
  intros Hi [Hd Ha] Hnew Hok. unfold nvme_tcp_setup_ctrl.
  destruct (configure_admin_spec opts NVME_AQ_DEPTH Hcaravan new c _ Hi (Hd 0%nat) Ha) as
    [(c1 & a & f & t & p & -> & F1 & F2 & F3 & F4 & F5 & F6 & F7 & Hi1)
    |(err & c1 & leak & -> & He & F1 & F2 & F3 & F4 & F5 & F6 & Hl & Hi1)]; cbn [mbind option_bind].
  { intros ->. destruct (Hok eq_refl) as [(a & f & t & Ht) _]. exists a, f, t. split; [done|].
    rewrite (ctrl_objs_eq c a f t Ht). left. }
  2:{ rewrite (proj2 (Z.eqb_neq err 0) He). destruct (ctrl_core_inv _ _ F1) as [W1 W2]. destruct (io_part_ptrs _ _ F2) as [E4 E5].
      exists err, c1. split_and!; [done..|right]. destruct (setup_back new c c1 base leak) as [B1 B2]; try done; [by left| |].
      - intros Hn. rewrite E4, E5. by apply (Hok Hn).
      - split_and!; try done; [|by exists leak]. split; [|done]. intros [|j]; [done|]. rewrite F6 by lia. apply Hd. }
  cbn [negb Z.eqb]. assert (Hd1 : io_down c1) by (intros j Hj; rewrite F7 by done; apply Hd).
  unfold c_true. destruct (Z.eqb_spec (c_icdoff c1) 0) as [Hic|Hic]; cbn [negb].
  - set (c2 := if c_maxcmd c1 <? c_sqsize c1 + 1 then c1 <| c_sqsize := u16 (c_maxcmd c1 - 1) |> else c1).
    assert (H : exists sq, c2 = c1 <| c_sqsize := sq |>).
    { subst c2. destruct (_ <? _); [by eexists|]. exists (c_sqsize c1). by destruct c1. }
    destruct H as [sq ->]. eapply (setup_io new c _ a f t p base); try done. by eapply inv_ext.
  - destruct (setup_destroy_admin opts new 0 c1 a f t p [] ((if new then [] else ctrl_objs c) ++ base))
      as (c2 & -> & K1 & K2 & K3 & K4 & K5 & K6); [done..|].
    destruct (ctrl_core_inv c c2) as [W1 W2]; [by rewrite K1|]. destruct (io_part_ptrs c c2) as [E4 E5]; [by rewrite K2|].
    exists 0, c2. split_and!; [done..|right]. destruct (setup_back new c c2 base []) as [B1 B2]; try done; [by left| | |by destruct K5|].
    + intros Hn. rewrite K3. by apply F4.
    + intros Hn. rewrite E4, E5. by apply (Hok Hn).
    + split_and!; [by rewrite K2, K4|done..|]. exists []. split; [simpl; lia|done].
Qed.

End setup_ctrl.

(** ** Works of a controller that was created *)

Section works.
Context {ce : CtrlEnv} {cl : CtrlLaws ce} (opts : conn_opts).
Notation inv := (inv opts).

Definition good (base : list Z) (c : ctrl) : Prop := inv (ctrl_objs c ++ base) c /\ ptrs_ok c.

(** While a reconnect is scheduled the queues are down. *)
Definition settled (base : list Z) (c : ctrl) : Prop := good base c /\ (c_connect_work c = true -> all_down c).

(** A change of what the heap and the pointers do not depend on. *)
Lemma good_ext base c c' :
  good base c -> c_queues c' = c_queues c -> c_io_queues c' = c_io_queues c -> c_w c' = c_w c ->
  io_part c' = io_part c -> adm_ptrs c' = adm_ptrs c -> c_async c' = c_async c -> good base c'.
Proof.
  intros [Hi [(a & f & t & Ht) Hq]] E1 E2 E3 E4 E5 E6. destruct (io_part_ptrs _ _ E4) as [F1 F2]. split.
  - rewrite (objs_kept c c' a f t) by done. by eapply inv_ext.
  - split; [exists a, f, t; congruence|]. by rewrite F1, F2.
Qed.

Lemma good_use_admin base c : good base c -> c_use (c_admin_q c) c = Some c.
Proof.
  intros [Hi [(a & f & t & Ht) _]]. pose proof Ht as Ht'. unfold adm_ptrs in Ht'. injection Ht' as Ea _ _. rewrite Ea.
  eapply use_at; [exact Hi|]. rewrite (ctrl_objs_eq c a f t Ht). left.
Qed.

Lemma teardown_io_good base c :
  good base c -> exists c', nvme_tcp_teardown_io_queues false c = Some c' /\ good base c' /\ ctrl_core c' = ctrl_core c /\ io_down c'.
Proof.
  intros [Hi [(a & f & t & Ht) Hq]].
  destruct (teardown_io_spec opts false c _ (ctrl_objs c ++ base) Hi) as (c' & -> & E1 & E2 & E3 & E4 & E5); [|done|].
  { intros Hlt. destruct (Hq Hlt) as (q & t' & Hqt). exists q, t'. split; [done|]. apply elem_of_app. left.
    rewrite (ctrl_objs_eq c a f t Ht), !elem_of_app. right. left. unfold io_ptrs in Hqt. injection Hqt as Q1 Q2.
    unfold io_objs. rewrite Q1, Q2. simpl. right. left. }
  destruct (adm_part_inv _ _ E1) as (F1 & F2 & F3 & F4). destruct (io_part_ptrs _ _ E2) as [G1 G2].
  exists c'. split_and!; try done. split; [by rewrite (objs_kept c c' a f t)|]. split; [exists a, f, t; congruence|].
  by rewrite G1, G2.
Qed.

Lemma teardown_admin_good base c :
  good base c -> io_down c ->
  exists c', nvme_tcp_teardown_admin_queue false c = Some c' /\ good base c' /\ ctrl_core c' = ctrl_core c /\ all_down c'.
Proof.
  intros [Hi [(a & f & t & Ht) Hq]] Hd. rewrite (ctrl_objs_eq c a f t Ht) in Hi.
  destruct (teardown_admin_spec opts false c _ (([a; f; t] ++ io_objs c) ++ base) a f t Hi Ht)
    as (c' & -> & E1 & E2 & E3 & E4 & E5 & E6 & E7); [set_solver..|solve_Permutation|].
  destruct (io_part_ptrs _ _ E3) as [G1 G2]. exists c'. split_and!; try done.
  - split.
    + rewrite (ctrl_objs_eq c' a f t), E5 by congruence. simpl.
      replace (io_objs c') with (io_objs c); [by rewrite app_nil_r|].
      unfold io_ptrs in G1. injection G1 as Q1 Q2. unfold io_objs. by rewrite Q1, Q2.
    + split; [exists a, f, t; congruence|]. by rewrite G1, G2.
  - split; [|done]. intros [|j]; [done|]. rewrite E7 by lia. apply Hd. lia.
Qed.

Lemma good_call base c :
  good base c -> exists ret c', c_call c = (ret, c') /\ good base c' /\ ctrl_core c' = ctrl_core c /\ forall j, flag c' j = flag c j.
Proof.
  intros [Hi Hp]. destruct (call_at opts _ _ Hi) as (w & -> & Hi'). eexists _, _. by split_and!.
Qed.

Lemma reconnect_or_remove_spec base c :
  settled base c -> all_down c -> settled base (nvme_tcp_reconnect_or_remove c).
Proof.
  intros [Hg _] Hd. unfold nvme_tcp_reconnect_or_remove. repeat case_match; (split; [by eapply good_ext|by intros _]).
Qed.

Lemma error_recovery_good base c :
  good base c -> exists c', nvme_tcp_error_recovery_work c = Some c' /\ settled base c'.
Proof.
  intros Hg. unfold nvme_tcp_error_recovery_work.
  destruct (teardown_io_good base (c <| c_err_work := false |>)) as (c1 & -> & Hg1 & _ & Hd1); [by eapply good_ext|].
  cbn [mbind option_bind]. destruct (teardown_admin_good _ _ Hg1 Hd1) as (c2 & -> & Hg2 & _ & Hd2).
  cbn [mbind option_bind]. rewrite (good_use_admin base) by done. cbn [mbind option_bind]. unfold nvme_change_ctrl_state.
  destruct (change_ok _ _); eexists; (split; [done|]); [|by split].
  apply reconnect_or_remove_spec; [|done]. split; [by eapply good_ext|by intros _].
Qed.

Lemma works_connect c c' : works c' = works c -> c_connect_work c' = c_connect_work c.
Proof. intros H. exact (f_equal (fun x => x.1.1.1.1.1) H). Qed.

Lemma error_recovery_settled base c : settled base c -> settled base (start_error_recovery c).
Proof.
  intros [Hg Hd]. unfold start_error_recovery, nvme_change_ctrl_state. destruct (change_ok _ _); split; try done. by eapply good_ext.
Qed.

Lemma timeout_good base c :
  settled base c -> exists r c', nvme_tcp_timeout c = Some (r, c') /\ settled base c'.
Proof.
  intros Hs. unfold nvme_tcp_timeout. case_match; [by eexists _, _|]. case_match; cycle 1.
  { eexists _, _. split; [done|]. by apply error_recovery_settled. }
  assert (H1 : exists c1, (if c_err_work c then nvme_tcp_error_recovery_work c else Some c) = Some c1 /\ settled base c1).
  { destruct (c_err_work c); [|by exists c]. apply error_recovery_good, Hs. }
  destruct H1 as (c1 & -> & [Hg1 _]). cbn [mbind option_bind].
  destruct (teardown_io_good base c1 Hg1) as (c2 & -> & Hg2 & _ & Hd2). cbn [mbind option_bind].
  destruct (teardown_admin_good base c2 Hg2 Hd2) as (c3 & -> & Hg3 & _ & Hd3). cbn [mbind option_bind].
  eexists _, c3. split; [done|]. by split.
Qed.
End works.

(** ** Works that set the controller up again *)

Section again.
Context {ce : CtrlEnv} {cl : CtrlLaws ce} (opts : conn_opts) (NVME_AQ_DEPTH : Z).
Context (Hcaravan : caravan_memory opts).
Notation settled := (settled opts).
Notation good := (good opts).

(** A set-up again. *)
Lemma setup_again base c :
  good base c -> all_down c -> c_connect_work c = false ->
  exists ret c' leak, nvme_tcp_setup_ctrl opts NVME_AQ_DEPTH false c = Some (ret, c') /\ settled (leak ++ base) c' /\
    (ret <> 0 -> all_down c').
Proof.
  intros [Hi Hp] Hd Hw. destruct (setup_spec opts NVME_AQ_DEPTH Hcaravan false c base) as (ret & c' & -> & W & Hr); [done..|].
  apply works_connect in W. rewrite Hw in W.
  destruct Hr as [(-> & _ & _ & Hu & Hp' & Hi')|(_ & _ & Hd' & Hp' & leak & _ & Hi')].
  - exists 0, c', []. split_and!; [done| |done]. split; [done|by rewrite W].
  - exists ret, c', leak. split_and!; [done| |done]. split; [|by rewrite W]. split; [|by apply Hp'].
    eapply inv_perm; [exact Hi'|]. solve_Permutation.
Qed.

Lemma reconnect_good base c :
  settled base c -> c_connect_work c = true ->
  exists c' leak, nvme_tcp_reconnect_ctrl_work opts NVME_AQ_DEPTH c = Some c' /\ settled (leak ++ base) c'.
Proof.
  intros [Hg Hd] Hw. unfold nvme_tcp_reconnect_ctrl_work. cbv zeta.
  set (c1 := c <| c_connect_work := false |> <| c_nr_reconnects ::= _ |>).
  destruct (setup_again base c1) as (ret & c2 & leak & -> & Hs & Hr); [by eapply good_ext|exact (Hd Hw)|done|].
  cbn [mbind option_bind]. exists (if c_true ret then nvme_tcp_reconnect_or_remove c2 else c2 <| c_nr_reconnects := 0 |>), leak.
  split; [done|]. unfold c_true. destruct (Z.eqb_spec ret 0); cbn [negb].
  - destruct Hs as [Hs1 Hs2]. split; [by eapply good_ext|exact Hs2].
  - apply reconnect_or_remove_spec; [done|by apply Hr].
Qed.

Lemma reset_good base c :
  good base c -> exists c' leak, nvme_reset_ctrl_work opts NVME_AQ_DEPTH c = Some c' /\ settled (leak ++ base) c'.
Proof.
  intros Hg. unfold nvme_reset_ctrl_work, nvme_tcp_teardown_ctrl. cbv zeta.
  set (c0 := c <| c_err_work := false |> <| c_connect_work := false |>).
  destruct (teardown_io_good opts base c0) as (c1 & -> & Hg1 & W1 & Hd1); [by eapply good_ext|].
  cbn [mbind option_bind]. rewrite (good_use_admin opts base) by done. cbn [mbind option_bind].
  destruct (good_call opts base c1 Hg1) as (r & c2 & -> & Hg2 & W2 & Hf2).
  destruct (teardown_admin_good opts base c2 Hg2) as (c3 & -> & Hg3 & W3 & Hd3).
  { intros j Hj. rewrite Hf2. by apply Hd1. }
  cbn [mbind option_bind]. assert (Hw : c_connect_work c3 = false).
  { destruct (ctrl_core_inv c0 c3) as [W _]; [by rewrite W3, W2|]. by apply works_connect in W. }
  unfold nvme_change_ctrl_state. destruct (change_ok _ _); cbn [negb].
  2:{ exists c3, []. split; [done|]. split; [done|by rewrite Hw]. }
  destruct (setup_again base (c3 <| c_state := NVME_CTRL_CONNECTING |>)) as (ret & c4 & leak & -> & Hs & Hr);
    [by eapply good_ext|done..|].
  cbn [mbind option_bind]. eexists _, leak. split; [done|]. unfold c_true. destruct (Z.eqb_spec ret 0); cbn [negb]; [done|].
  apply reconnect_or_remove_spec; [|exact (Hr n)]. destruct Hs as [Hs1 Hs2]. split; [by eapply good_ext|exact Hs2].
Qed.

End again.
