(* ===== verification/NvmeTcpLife.v ===== *)
(** * Creation, deletion and every run of a controller

    [create_all_or_nothing]: what [nvme_tcp_create_ctrl] returns on each branch
    and what it leaves allocated.  [lifecycle_safe]: no run of the works of a
    controller uses or releases an object that is not in use, and deletion
    gives back all it owns.  [icdoff_delete_null]: the controller that is
    returned although its capsule offset is not supported cannot be deleted. *)
From S2P Require Import Prelude MqTypes BlkMqTagSet NvmeTcpMap NvmeTcpConn NvmeTcpConnSpec NvmeTcpCtrl NvmeTcpCtrlInv.
From S2P Require Import NvmeTcpCtrlSpec.

(** The counts of queues fit in an int. *)
Definition counts_ok (o : nvmf_opts) : Prop :=
  0 <= o_nr_io_queues o /\ 0 <= o_nr_write_queues o /\ 0 <= o_nr_poll_queues o /\
  o_nr_io_queues o + o_nr_write_queues o + o_nr_poll_queues o + 1 < 2 ^ 31.

Lemma nr_io_queues_le cpus o :
  0 < cpus -> counts_ok o ->
  nvme_tcp_nr_io_queues cpus o <= o_nr_io_queues o + o_nr_write_queues o + o_nr_poll_queues o.
Proof.
  intros Hc (H1 & H2 & H3 & H4). unfold nvme_tcp_nr_io_queues, u32.
  rewrite (Z.mod_small (Z.min _ _ + Z.min _ _)) by lia. rewrite Z.mod_small by lia. lia.
Qed.

Lemma queue_objs_down c : (forall j, flag c j = (false, false)) -> queue_objs (c_queues c) = [].
Proof.
  intros H. unfold queue_objs. assert (Ha : forall q, q ∈ c_queues c -> queue_owned q = []).
  { intros q [i Hi]%list_elem_of_lookup. specialize (H i). unfold flag in H. rewrite Hi in H. unfold queue_owned.
    by injection H as -> _. }
  induction (c_queues c) as [|q l IH]; [done|]. simpl. rewrite Ha by left. apply IH. intros q' Hq. apply Ha. by right.
Qed.

Section life.
Context {ce : CtrlEnv} {cl : CtrlLaws ce} (opts : conn_opts) (NVME_AQ_DEPTH : Z).
Notation inv := (inv opts).

(** ** Deletion *)

Lemma delete_good base c :
  good opts base c ->
  exists c', nvme_tcp_delete_ctrl c = Some c' /\ all_down c' /\
    inv ((if 1 <? c_queue_count c then [] else io_objs c) ++ base) c'.
Proof.
  intros [Hi [(a & f & t & Ht) Hq]]. unfold nvme_tcp_delete_ctrl, nvme_tcp_teardown_ctrl. cbv zeta.
  set (c0 := c <| c_err_work := false |> <| c_connect_work := false |>).
  set (k := if 1 <? c_queue_count c then [] else io_objs c).
  rewrite (ctrl_objs_eq c a f t Ht) in Hi.
  destruct (teardown_io_spec opts true c0 _ ([a; f; t] ++ option_list (c_async c) ++ k ++ base) ltac:(eapply inv_ext; [exact Hi|done..]))
    as (c1 & -> & E1 & E2 & E3 & E4 & Hi1).
  { intros Hlt. destruct (Hq Hlt) as (q & t' & Hqt). exists q, t'. split; [done|]. unfold io_ptrs in Hqt. injection Hqt as Q1 Q2.
    unfold io_objs. rewrite Q1, Q2. simpl. set_solver. }
  { subst k. change (c_queue_count c0) with (c_queue_count c). change (omap id [c_connect_q c0; c_tagset c0]) with (io_objs c).
    destruct (1 <? c_queue_count c); simpl; solve_Permutation. }
  cbn [mbind option_bind]. destruct (adm_part_inv _ _ E1) as (F1 & F2 & F3 & F4).
  pose proof (eq_trans F2 Ht) as Ht1. pose proof Ht1 as Ht'. unfold adm_ptrs in Ht'. injection Ht' as A1 A2 A3.
  rewrite A1, (use_at opts _ _ _ Hi1) by left. cbn [mbind option_bind].
  destruct (call_at opts _ _ Hi1) as (w & -> & Hi2).
  destruct (teardown_admin_spec opts true (c1 <| c_w := w |>) _ (k ++ base) a f t Hi2 Ht1)
    as (c2 & -> & Hi3 & G1 & G2 & G3 & G4 & G5 & G6); [set_solver..| |].
  { change (c_async (c1 <| c_w := w |>)) with (c_async c1). rewrite F3. simpl. rewrite A1, A2, A3. simpl.
    change (c_async c0) with (c_async c). solve_Permutation. }
  exists c2. split_and!; [done| |done]. split; [|done]. intros [|j]; [done|]. rewrite G6 by lia. apply E4. lia.
Qed.

(** ** Creation *)

(** The controller before it is initialized. *)
Lemma new_ctrl_inv self array w base qsize count :
  counts_ok (co_queues opts) ->
  count = o_nr_io_queues (co_queues opts) + o_nr_write_queues (co_queues opts) + o_nr_poll_queues (co_queues opts) + 1 ->
  holds w base ->
  inv base (mk_ctrl (replicate (Z.to_nat count) new_queue) count qsize 0 0 [0; 0; 0]
    NVME_CTRL_NEW None None None None None None 0 false false false self array w).
Proof.
  intros Hc -> Hw. pose proof (nr_io_queues_le online_cpus _ online_pos Hc). destruct Hc as (H1 & H2 & H3 & H4).
  assert (Hd : forall j qs, flag (mk_ctrl (replicate qs new_queue) 0 0 0 0 [] NVME_CTRL_NEW None None None None None None 0
    false false false None None w) j = (false, false)).
  { intros j qs. unfold flag. simpl. destruct (replicate qs new_queue !! j) eqn:E; [|done].
    apply lookup_replicate_1 in E as [-> _]. done. }
  split; simpl.
  - apply Forall_replicate. by split.
  - rewrite length_replicate. lia.
  - rewrite length_replicate. lia.
  - intros i _. apply (Hd i).
  - done.
  - match goal with |- context [queue_objs ?l] => replace (queue_objs l) with (@nil Z); [done|] end.
    symmetry. exact (queue_objs_down _ (fun j => Hd j _)).
Qed.

(** What a creation that failed leaves: at most [n] objects. *)
Definition create_failed (n : nat) (ctrls live : list Z) (r : option (Z * option ctrl * list Z * world)) : Prop :=
  exists ret w leak, r = Some (ret, None, ctrls, w) /\ ret <> 0 /\ (length leak <= n)%nat /\ w_live w ≡ₚ leak ++ live.

(** What a creation that succeeded owns; [port] is the string of the options. *)
Definition create_done (ctrls port live : list Z) (r : option (Z * option ctrl * list Z * world)) : Prop :=
  exists c self array, r = Some (0, Some c, ctrls ++ [self], c_w c) /\ c_self c = Some self /\ c_array c = Some array /\
    if c_icdoff c =? 0
    then c_state c = NVME_CTRL_LIVE /\ all_up c /\ ptrs_ok c /\ settled opts ([array; self] ++ port ++ live) c
    else all_down c /\ io_ptrs c = (None, None) /\ exists leak, (length leak <= leak_max opts)%nat /\
      inv (leak ++ [array; self] ++ port ++ live) c.

Lemma free_new_ctrl_spec ret self ctrls w port live :
  ret <> 0 -> holds w (self :: port ++ live) -> (length port <= 1)%nat ->
  create_failed (leak_max opts + length port) ctrls live (free_new_ctrl ret (Some self) ctrls w).
Proof.
  intros Hr Hw Hp. unfold free_new_ctrl. destruct (kfree_spec self w _ Hw) as (w' & -> & Hw'). cbn [mbind option_bind].
  exists ret, w', port. split_and!; [done|done|lia|]. apply Hw'.
Qed.

Lemma free_ctrl_spec c array self leak port live ctrls :
  c_self c = Some self -> c_array c = Some array -> self ∉ ctrls -> all_down c ->
  inv (leak ++ [array; self] ++ port ++ live) c ->
  exists w, nvme_tcp_free_ctrl ctrls c = Some (ctrls, w) /\ w_live w ≡ₚ (leak ++ port) ++ live.
Proof.
  intros Es Ea Hn [Hd _] Hi. pose proof (inv_heap _ _ _ Hi) as Hh. rewrite queue_objs_down in Hh by done.
  unfold nvme_tcp_free_ctrl. rewrite Es, Ea.
  destruct (kfree_spec array (c_w c) (self :: leak ++ port ++ live)) as (w1 & -> & Hw1).
  { eapply holds_perm; [exact Hh|]. simpl. solve_Permutation. }
  cbn [mbind option_bind]. destruct (kfree_spec self w1 _ Hw1) as (w2 & -> & Hw2). cbn [mbind option_bind].
  exists w2. split.
  - rewrite list_filter_all; [done|]. intros x Hx H. injection H as ->. done.
  - destruct Hw2 as [-> _]. solve_Permutation.
Qed.

Context (Hcaravan : caravan_memory opts).

Lemma init_new_ctrl_spec c array self port live ctrls :
  c_self c = Some self -> c_array c = Some array -> self ∉ ctrls -> (length port <= 1)%nat ->
  all_down c -> io_ptrs c = (None, None) -> c_connect_work c = false -> inv ([array; self] ++ port ++ live) c ->
  create_failed (leak_max opts + length port) ctrls live (init_new_ctrl opts NVME_AQ_DEPTH ctrls c) \/
  create_done ctrls port live (init_new_ctrl opts NVME_AQ_DEPTH ctrls c).
Proof.
  intros Es Ea Hn Hp Hd Hq Hcw Hi. unfold init_new_ctrl. destruct (call_at opts _ _ Hi) as (w & -> & Hi1).
  destruct (Z.eqb_spec (ext (w_calls (c_w c))) 0); cbn [negb].
  2:{ left. simpl c_array. simpl c_self. simpl c_w. rewrite Es, Ea. pose proof (inv_heap _ _ _ Hi1) as Hh. simpl in Hh.
      rewrite (queue_objs_down c) in Hh by apply Hd.
      destruct (kfree_spec array w _ Hh) as (w1 & -> & Hw1). cbn [mbind option_bind]. by apply free_new_ctrl_spec. }
  unfold nvme_change_ctrl_state. set (c1 := c <| c_w := w |>) in *.
  destruct (change_ok (c_state c1) NVME_CTRL_CONNECTING); cbn [mbind option_bind].
  2:{ change (negb (- EINTR =? 0)) with true. cbv iota.
      destruct (free_ctrl_spec c1 array self [] port live ctrls) as (w' & -> & Hw'); [done..|]. cbn [mbind option_bind].
      left. exists (- EINTR), w', port. split_and!; [done|done|lia|done]. }
  destruct (setup_spec opts NVME_AQ_DEPTH Hcaravan true (c1 <| c_state := NVME_CTRL_CONNECTING |>) ([array; self] ++ port ++ live))
    as (ret & c2 & -> & W & Hr); [by eapply inv_ext|done..|]. cbn [mbind option_bind].
  assert (Es2 : c_self c2 = Some self) by exact (eq_trans (f_equal (fun x => x.1.1.2) W) Es).
  assert (Ea2 : c_array c2 = Some array) by exact (eq_trans (f_equal (fun x => x.1.2) W) Ea).
  assert (Ew2 : c_connect_work c2 = false) by exact (eq_trans (works_connect _ _ W) Hcw).
  destruct Hr as [(-> & Hic & Hst & Hu & Hpt & Hi2)|(Hic & Hst & Hd2 & _ & leak & Hl & Hi2)].
  - right. cbn [negb Z.eqb]. rewrite Es2. cbn [mbind option_bind]. exists c2, self, array. rewrite Hic. split_and!; try done.
    cbn [Z.eqb]. split_and!; try done. split; [done|by rewrite Ew2].
  - destruct (Z.eqb_spec ret 0) as [->|Hr]; cbn [negb].
    + right. destruct (Hic eq_refl) as [Hne Hio]. rewrite Es2. cbn [mbind option_bind]. exists c2, self, array. split_and!; try done.
      rewrite (proj2 (Z.eqb_neq _ 0) Hne). split_and!; [done|by destruct (io_part_ptrs _ _ Hio) as [-> _]|].
      by exists leak.
    + destruct (free_ctrl_spec c2 array self leak port live ctrls) as (w' & -> & Hw'); [done..|]. cbn [mbind option_bind].
      left. eexists _, w', (leak ++ port). split_and!; [done| |rewrite length_app; lia|done]. destruct (0 <? ret); done.
Qed.

Lemma create_spec trsvcid dup qsize ip_match ctrls w :
  holds w (w_live w) -> (forall x, x ∈ ctrls -> x ∈ w_live w) -> counts_ok (co_queues opts) ->
  let r := nvme_tcp_create_ctrl opts NVME_AQ_DEPTH trsvcid dup qsize ip_match ctrls w in
  exists port, (length port <= if trsvcid then 0 else 1)%nat /\
    (create_failed (leak_max opts + length port) ctrls (w_live w) r \/ create_done ctrls port (w_live w) r).
Proof.
  intros Hw Hin Hc r. subst r. unfold nvme_tcp_create_ctrl. set (live := w_live w) in *. heap_step.
  { exists []. split; [simpl; lia|left]. exists (- ENOMEM), x, []. split_and!; [done..|simpl; lia|]. apply H. }
  rename x into self. assert (Hs : self ∉ ctrls).
  { intros Hx%Hin. destruct H as (Hp & Hn & _). rewrite Hp in Hn. by apply NoDup_cons in Hn as [? _]. }
  assert (Hport : exists port w1 pt, (if trsvcid then (Some 0, x0) else new_obj alloc_ok x0) = (pt, w1) /\
    (length port <= if trsvcid then 0 else 1)%nat /\ holds w1 (self :: port ++ live)).
  { destruct trsvcid; [by exists [], x0, (Some 0)|]. heap_step; [exists [], x, None|eexists [_], _, _]; split_and!; try done.
    - simpl; lia.
    - eapply holds_perm; [done|]. apply Permutation_swap. }
  destruct Hport as (port & w1 & pt & -> & Hlen & Hw1). exists port. split; [done|].
  assert (Hlen1 : (length port <= 1)%nat) by (destruct trsvcid; lia).
  destruct pt as [pt|]; [|left; by apply free_new_ctrl_spec]. heap_step.
  destruct (Z.eqb_spec x 0); cbn [negb]; [|left; by apply free_new_ctrl_spec].
  destruct (negb dup && _); [left; by apply free_new_ctrl_spec|]. heap_step; [left; by apply free_new_ctrl_spec|].
  assert (Hcount : u32 (o_nr_io_queues (co_queues opts) + o_nr_write_queues (co_queues opts) + o_nr_poll_queues (co_queues opts) + 1) =
    o_nr_io_queues (co_queues opts) + o_nr_write_queues (co_queues opts) + o_nr_poll_queues (co_queues opts) + 1).
  { destruct Hc as (? & ? & ? & ?). apply Z.mod_small. lia. }
  rewrite Hcount. eapply init_new_ctrl_spec; [done..| | |done|].
  - split; [|done]. intros j. unfold flag. simpl. destruct (replicate _ new_queue !! j) eqn:E; [|done].
    by apply lookup_replicate_1 in E as [-> _].
  - done.
  - apply new_ctrl_inv; done.
Qed.

(** ** Runs *)

(** What can happen to a controller: it is created, its state changes, an error
    is seen, a work that is scheduled runs, a request times out. *)
Inductive reach : ctrl -> Prop :=
| reach_create trsvcid dup qsize ip_match ctrls w ctrls' w' c :
    holds w (w_live w) -> (forall x, x ∈ ctrls -> x ∈ w_live w) ->
    nvme_tcp_create_ctrl opts NVME_AQ_DEPTH trsvcid dup qsize ip_match ctrls w = Some (0, Some c, ctrls', w') ->
    c_icdoff c = 0 -> reach c
| reach_state c s : reach c -> change_ok (c_state c) s = true -> reach (c <| c_state := s |>)
| reach_error c : reach c -> reach (start_error_recovery c)
| reach_err_work c c' : reach c -> c_err_work c = true -> nvme_tcp_error_recovery_work c = Some c' -> reach c'
| reach_connect c c' :
    reach c -> c_connect_work c = true -> nvme_tcp_reconnect_ctrl_work opts NVME_AQ_DEPTH c = Some c' -> reach c'
| reach_reset c c' : reach c -> nvme_reset_ctrl_work opts NVME_AQ_DEPTH c = Some c' -> reach c'
| reach_timeout c r c' : reach c -> nvme_tcp_timeout c = Some (r, c') -> reach c'.

Lemma reach_settled c : counts_ok (co_queues opts) -> reach c -> exists base, settled opts base c.
Proof.
  intros Hok. induction 1 as [trsvcid dup qsize ip ctrls w ctrls' w' c Hw Hin H Hic|c s _ (base & Hg & Hd) _
    |c _ (base & Hs)|c c' _ (base & Hs & _) _ H|c c' _ (base & Hs) Hc H|c c' _ (base & Hs & _) H|c r c' _ (base & Hs) H].
  - destruct (create_spec trsvcid dup qsize ip ctrls w Hw Hin Hok) as (port & _ & [(ret & w1 & l & E & _)|(c1 & s & a & E & _ & _ & Hr)]);
      rewrite H in E; [done|]. injection E as <- _ _. rewrite Hic in Hr. cbn [Z.eqb] in Hr. eexists. apply Hr.
  - exists base. split; [by eapply good_ext|exact Hd].
  - exists base. by apply error_recovery_settled.
  - destruct (error_recovery_good opts base c Hs) as (c1 & E & Hs'). rewrite H in E. injection E as <-. by exists base.
  - destruct (reconnect_good opts NVME_AQ_DEPTH Hcaravan base c Hs Hc) as (c1 & leak & E & Hs'). rewrite H in E. injection E as <-.
    by eexists.
  - destruct (reset_good opts NVME_AQ_DEPTH Hcaravan base c Hs) as (c1 & leak & E & Hs'). rewrite H in E. injection E as <-. by eexists.
  - destruct (timeout_good opts base c Hs) as (r1 & c1 & E & Hs'). rewrite H in E. injection E as <- <-. by exists base.
Qed.

(** The objects in use by the queues are those the controller holds. *)
Lemma deletion_exact base c c' :
  good opts base c -> 1 < c_queue_count c -> nvme_tcp_delete_ctrl c = Some c' ->
  all_down c' /\ w_live (c_w c) ≡ₚ queue_objs (c_queues c) ++ ctrl_objs c ++ w_live (c_w c').
Proof.
  intros Hg Hc H. destruct (delete_good base c Hg) as (c1 & E & Hd & Hi). rewrite H in E. injection E as <-. split; [done|].
  rewrite (proj2 (Z.ltb_lt 1 _) Hc) in Hi. pose proof (inv_heap _ _ _ Hi) as [Hh _]. rewrite queue_objs_down in Hh by apply Hd.
  destruct Hg as [Hi0 _]. pose proof (inv_heap _ _ _ Hi0) as [Hh0 _]. by rewrite Hh0, Hh.
Qed.
End life.

(** C33: [nvme_tcp_create_ctrl] is all or nothing, whichever of its calls fails.
    Either it returns an error, the list of controllers is unchanged and what is
    still allocated is what was before (and the port string, which belongs to the
    options) plus, for tcp.c but not for i10.c, at most the two caravan arrays of a
    queue that failed; or it returns a controller that is on the list: in state live
    with every queue allocated and connected, the objects in use being those of its
    queues, those it points to and what was there before. The exception is a
    controller that reports a capsule offset, which is returned with every queue
    down.  tcp.c needs the caravan arrays to be allocated, i10.c nothing. *)
Theorem create_all_or_nothing {ce : CtrlEnv} (cl : CtrlLaws ce) opts depth (trsvcid : bool) dup qsize ip_match ctrls w :
  caravan_memory opts -> holds w (w_live w) -> (forall x, x ∈ ctrls -> x ∈ w_live w) ->
  counts_ok (co_queues opts) ->
  exists ret oc ctrls' w' port,
    nvme_tcp_create_ctrl opts depth trsvcid dup qsize ip_match ctrls w = Some (ret, oc, ctrls', w') /\
    (length port <= if trsvcid then 0 else 1)%nat /\
    match oc with
    | None => ret <> 0 /\ ctrls' = ctrls /\
        exists leak, (length leak <= leak_max opts + length port)%nat /\ w_live w' ≡ₚ leak ++ w_live w
    | Some c => ret = 0 /\ w' = c_w c /\ exists self array,
        ctrls' = ctrls ++ [self] /\ c_self c = Some self /\ c_array c = Some array /\
        if c_icdoff c =? 0
        then c_state c = NVME_CTRL_LIVE /\ all_up c /\
          w_live w' ≡ₚ queue_objs (c_queues c) ++ ctrl_objs c ++ [array; self] ++ port ++ w_live w
        else all_down c
    end.
Proof.
  intros Hcar Hw Hin Hok. destruct (create_spec opts depth Hcar trsvcid dup qsize ip_match ctrls w Hw Hin Hok)
    as (port & Hp & [(ret & w1 & leak & -> & Hr & Hl & Hh)|(c & self & array & -> & Es & Ea & Hr)]).
  - exists ret, None, ctrls, w1, port. split_and!; try done. by exists leak.
  - exists 0, (Some c), (ctrls ++ [self]), (c_w c), port. split_and!; try done. exists self, array. split_and!; try done.
    destruct (c_icdoff c =? 0); [|by destruct Hr]. destruct Hr as (Hs & Hu & _ & [[Hi _] _]). split_and!; try done.
    apply (inv_heap _ _ _ Hi).
Qed.

(** C25: No run of a controller that reports no capsule offset, and whose caravan
    arrays are allocated, touches memory it does not own. After it is
    created, in every order of state changes, errors, error recovery, reconnects,
    resets and time-outs, with any result of every call outside the driver, each
    of these works is defined: it uses no queue, socket, tag set or buffer that
    was released and releases none twice. A queue that is live is allocated. A
    controller with I/O queues can be deleted at any point: all queues are down
    after it and exactly the objects of the queues and of the controller were
    given back.  The caravan arrays are those of tcp.c, whose failed allocation it does
    not undo; i10.c has none.  A controller with a capsule offset is created without
    queues, and deleting it is undefined ([icdoff_delete_null]). *)
Theorem lifecycle_safe {ce : CtrlEnv} (cl : CtrlLaws ce) opts depth c :
  caravan_memory opts -> counts_ok (co_queues opts) -> reach opts depth c ->
  is_Some (nvme_tcp_error_recovery_work c) /\
  (c_connect_work c = true -> is_Some (nvme_tcp_reconnect_ctrl_work opts depth c)) /\
  is_Some (nvme_reset_ctrl_work opts depth c) /\ is_Some (nvme_tcp_timeout c) /\
  (forall i, (flag c i).2 = true -> (flag c i).1 = true) /\
  exists c', nvme_tcp_delete_ctrl c = Some c' /\ all_down c' /\
    (1 < c_queue_count c -> w_live (c_w c) ≡ₚ queue_objs (c_queues c) ++ ctrl_objs c ++ w_live (c_w c')).
Proof.
  intros Hcar Hok Hr. destruct (reach_settled opts depth Hcar c Hok Hr) as (base & Hs). pose proof Hs as [Hg _].
  destruct (error_recovery_good opts base c Hg) as (c1 & E1 & _).
  destruct (reset_good opts depth Hcar base c Hg) as (c2 & l2 & E2 & _).
  destruct (timeout_good opts base c Hs) as (r3 & c3 & E3 & _). destruct (delete_good opts base c Hg) as (c4 & E4 & Hd & _).
  split_and!; [by eexists| |by eexists|by eexists| |].
  - intros Hc. destruct (reconnect_good opts depth Hcar base c Hs Hc) as (c5 & l5 & E5 & _). by eexists.
  - intros i. unfold flag. destruct (c_queues c !! i) as [q|] eqn:Eq; [|done]. simpl.
    destruct Hg as [Hi _]. eapply Forall_lookup_1 in Eq; [|apply (inv_wf _ _ _ Hi)]. apply Eq.
  - exists c4. split_and!; try done. intros Hc. by eapply deletion_exact.
Qed.

(** The check of the capsule offset loses its error: a controller that
    reports one is returned as if it had been set up, with all its queues down.
    Deleting it, when it was to have I/O queues, is undefined: it cleans up a
    connect queue that was never allocated. *)
Lemma icdoff_delete_null {ce : CtrlEnv} (cl : CtrlLaws ce) opts depth trsvcid dup qsize ip_match ctrls w c ctrls' w' :
  caravan_memory opts -> holds w (w_live w) -> (forall x, x ∈ ctrls -> x ∈ w_live w) ->
  counts_ok (co_queues opts) ->
  nvme_tcp_create_ctrl opts depth trsvcid dup qsize ip_match ctrls w = Some (0, Some c, ctrls', w') ->
  c_icdoff c <> 0 -> 1 < c_queue_count c ->
  all_down c /\ c_connect_q c = None /\ nvme_tcp_delete_ctrl c = None.
Proof.
  intros Hcar Hw Hin Hok H Hic Hc.
  destruct (create_spec opts depth Hcar trsvcid dup qsize ip_match ctrls w Hw Hin Hok)
    as (port & _ & [(ret & w1 & l & E & _)|(c1 & s & a & E & _ & _ & Hr)]); rewrite H in E; [done|].
  injection E as <- _ _. rewrite (proj2 (Z.eqb_neq _ 0) Hic) in Hr. destruct Hr as (Hd & Hq & leak & _ & Hi).
  unfold io_ptrs in Hq. injection Hq as Q1 Q2. split_and!; [done..|].
  unfold nvme_tcp_delete_ctrl, nvme_tcp_teardown_ctrl, nvme_tcp_teardown_io_queues. cbv zeta.
  set (c0 := c <| c_err_work := false |> <| c_connect_work := false |>).
  change (c_queue_count c0) with (c_queue_count c). rewrite (proj2 (Z.leb_gt _ 1) Hc).
  assert (Hi0 : inv opts (leak ++ [a; s] ++ port ++ w_live w) c0) by by eapply inv_ext.
  destruct (stop_io_spec opts _ c0 Hi0) as (c1 & -> & Hs1 & Hi1 & _). cbn [mbind option_bind].
  replace (c_tagset c1) with (@None Z) by (rewrite Hs1; symmetry; exact Q2). cbn [cancel_requests mbind option_bind].
  unfold nvme_tcp_destroy_io_queues. destruct (stop_io_spec opts _ c1 Hi1) as (c2 & -> & Hs2 & _). cbn [mbind option_bind].
  replace (c_connect_q c2) with (@None Z) by (rewrite Hs2, Hs1; symmetry; exact Q1). done.
Qed.

(** ** Examples *)

(** Transitions of the state of a controller as in the NVMe core. *)
Definition ex_change_ok (old new : nvme_ctrl_state) : bool :=
  match new, old with
  | NVME_CTRL_LIVE, (NVME_CTRL_NEW | NVME_CTRL_RESETTING | NVME_CTRL_CONNECTING) => true
  | NVME_CTRL_RESETTING, (NVME_CTRL_NEW | NVME_CTRL_LIVE) => true
  | NVME_CTRL_CONNECTING, (NVME_CTRL_NEW | NVME_CTRL_RESETTING) => true
  | NVME_CTRL_DELETING, (NVME_CTRL_LIVE | NVME_CTRL_RESETTING | NVME_CTRL_CONNECTING) => true
  | NVME_CTRL_DEAD, NVME_CTRL_DELETING => true
  | _, _ => false
  end.

(** Two CPUs; every call succeeds but those of [bad]. *)
Definition life_env (icdoff : Z) (bad : list nat) : CtrlEnv := {|
  ext k := if bool_decide (k ∈ bad) then -111 else 0;
  alloc_ok _ := true;
  caravan_ok _ := true;
  ptr_err _ := -12;
  icresp_of _ := mk_icresp 1 128 0 1 0;
  identified _ := (127, icdoff, 128);
  ioccsz _ := 516;
  granted _ n := n;
  change_ok := ex_change_ok;
  should_reconnect _ := true;
  next_wrap n := (n + 1) mod 2;
  online_cpus := 2;
  nvme_tcp_icresp := 1;
  sizeof_icresp := 128;
  NVME_TCP_PFV_1_0 := 0;
  NVME_TCP_HDR_DIGEST_ENABLE := 1;
  NVME_TCP_DATA_DIGEST_ENABLE := 2;
  sizeof_nvme_command := 64;
  NVME_TCP_ADMIN_CCSZ := 8192;
  sizeof_tcp_rsp_pdu := 24;
|}.

Lemma life_laws icdoff bad : CtrlLaws (life_env icdoff bad).
Proof. split; simpl; lia. Qed.

Definition life_opts : conn_opts := mk_copts NVME_TCP true false false true (mk_opts 2 2 0).
Definition ex_world : world := mk_world [3] 4.

Lemma ex_holds : holds ex_world (w_live ex_world).
Proof. split_and!; [done|by repeat constructor; set_solver|by repeat constructor]. Qed.

Lemma ex_counts : counts_ok (co_queues life_opts).
Proof. unfold counts_ok. simpl. lia. Qed.

Definition ex_create (icdoff : Z) (bad : list nat) : option (Z * option ctrl * list Z * world) :=
  @nvme_tcp_create_ctrl (life_env icdoff bad) life_opts 32 false false 128 (fun _ => false) [3] ex_world.
Definition ex_list (icdoff : Z) (bad : list nat) : list Z :=
  match ex_create icdoff bad with Some (_, _, l, _) => l | None => [] end.
Definition ex_heap (icdoff : Z) (bad : list nat) : world :=
  match ex_create icdoff bad with Some (_, _, _, w) => w | None => ex_world end.
Definition ex_ctrl (icdoff : Z) (bad : list nat) : ctrl :=
  match ex_create icdoff bad with
  | Some (_, Some c, _, _) => c
  | _ => mk_ctrl [] 0 0 0 0 [] NVME_CTRL_DEAD None None None None None None 0 false false false None None ex_world
  end.

(** A creation whose connection of the first I/O queue fails, and one that
    succeeds. *)
Lemma create_all_or_nothing_witness :
  (w_live (ex_heap 0 [40%nat]) = [37; 36; 5; 3] /\
     exists leak, (length leak <= 3)%nat /\ w_live (ex_heap 0 [40%nat]) ≡ₚ leak ++ [3]) /\
  (c_queue_count (ex_ctrl 0 []) = 5 /\ all_up (ex_ctrl 0 [])).
Proof.
  split; (split; [vm_compute; reflexivity|]).
  - destruct (@create_all_or_nothing (life_env 0 [40%nat]) (life_laws 0 _) life_opts 32 false false 128 (fun _ => false) [3] ex_world
      (fun _ _ => eq_refl) ex_holds (fun x H => H) ex_counts) as (ret & oc & ctrls & w & port & E & Hp & H).
    assert (Ev : @nvme_tcp_create_ctrl (life_env 0 [40%nat]) life_opts 32 false false 128 (fun _ => false) [3] ex_world =
      Some (-111, None, [3], ex_heap 0 [40%nat])) by (vm_compute; reflexivity).
    pose proof (eq_trans (eq_sym E) Ev) as Heq. clear E Ev. revert Heq H. generalize (ex_heap 0 [40%nat]). intros w0 Heq H.
    injection Heq as -> -> -> ->. destruct H as (_ & _ & leak & H1 & H2). exists leak. split; [unfold leak_max in H1; simpl in H1; lia|exact H2].
  - destruct (@create_all_or_nothing (life_env 0 []) (life_laws 0 _) life_opts 32 false false 128 (fun _ => false) [3] ex_world
      (fun _ _ => eq_refl) ex_holds (fun x H => H) ex_counts) as (ret & oc & ctrls & w & port & E & Hp & H).
    assert (Ev : @nvme_tcp_create_ctrl (life_env 0 []) life_opts 32 false false 128 (fun _ => false) [3] ex_world =
      Some (0, Some (ex_ctrl 0 []), ex_list 0 [], ex_heap 0 [])) by (vm_compute; reflexivity).
    assert (Ei : (c_icdoff (ex_ctrl 0 []) =? 0) = true) by (vm_compute; reflexivity).
    pose proof (eq_trans (eq_sym E) Ev) as Heq. clear E Ev. revert Heq H Ei.
    generalize (ex_ctrl 0 []) (ex_list 0 []) (ex_heap 0 []). intros c l w0 Heq H Ei.
    injection Heq as -> -> -> ->. destruct H as (_ & _ & self & array & _ & _ & _ & H). rewrite Ei in H. apply H.
Defined.

(** A run: an error, the recovery, a reconnect that fails and one that succeeds. *)
Definition ex_bad : list nat := [150%nat].
Definition run_or (f : ctrl -> option ctrl) (c : ctrl) : ctrl := default c (f c).
Definition ex_error : ctrl := @start_error_recovery (life_env 0 ex_bad) (ex_ctrl 0 ex_bad).
Definition ex_down : ctrl := run_or (@nvme_tcp_error_recovery_work (life_env 0 ex_bad)) ex_error.
Definition ex_failed : ctrl := run_or (@nvme_tcp_reconnect_ctrl_work (life_env 0 ex_bad) life_opts 32) ex_down.
Definition ex_again : ctrl := run_or (@nvme_tcp_reconnect_ctrl_work (life_env 0 ex_bad) life_opts 32) ex_failed.

Lemma ex_reach : @reach (life_env 0 ex_bad) life_opts 32 ex_again.
Proof.
  refine (@reach_connect (life_env 0 ex_bad) life_opts 32 ex_failed ex_again _ _ _); [|vm_compute; reflexivity..].
  refine (@reach_connect (life_env 0 ex_bad) life_opts 32 ex_down ex_failed _ _ _); [|vm_compute; reflexivity..].
  refine (@reach_err_work (life_env 0 ex_bad) life_opts 32 ex_error ex_down _ _ _); [|vm_compute; reflexivity..].
  unfold ex_error. apply reach_error.
  refine (@reach_create (life_env 0 ex_bad) life_opts 32 false false 128 (fun _ => false) [3] ex_world (ex_list 0 ex_bad) (ex_heap 0 ex_bad)
    (ex_ctrl 0 ex_bad) ex_holds (fun x H => H) _ _); vm_compute; reflexivity.
Qed.

Lemma lifecycle_safe_witness :
  c_connect_work ex_failed = true /\ c_state ex_again = NVME_CTRL_LIVE /\ c_queue_count ex_again = 5 /\
  exists c', @nvme_tcp_delete_ctrl (life_env 0 ex_bad) ex_again = Some c' /\ all_down c' /\
    w_live (c_w ex_again) ≡ₚ queue_objs (c_queues ex_again) ++ ctrl_objs ex_again ++ w_live (c_w c').
Proof.
  split_and!; [vm_compute; reflexivity..|].
  destruct (@lifecycle_safe (life_env 0 ex_bad) (life_laws 0 _) life_opts 32 ex_again (fun _ _ => eq_refl) ex_counts ex_reach)
    as (_ & _ & _ & _ & _ & c' & H1 & H2 & H3). exists c'. split_and!; [done..|]. apply H3. vm_compute. reflexivity.
Defined.

Lemma icdoff_delete_null_witness :
  c_icdoff (ex_ctrl 4 []) = 4 /\ all_down (ex_ctrl 4 []) /\ @nvme_tcp_delete_ctrl (life_env 4 []) (ex_ctrl 4 []) = None.
Proof.
  split; [vm_compute; reflexivity|].
  assert (H : @nvme_tcp_create_ctrl (life_env 4 []) life_opts 32 false false 128 (fun _ => false) [3] ex_world =
    Some (0, Some (ex_ctrl 4 []), ex_list 4 [], ex_heap 4 [])) by (vm_compute; reflexivity).
  destruct (@icdoff_delete_null (life_env 4 []) (life_laws 4 _) life_opts 32 false false 128 (fun _ => false) [3] ex_world (ex_ctrl 4 []) _ _
    (fun _ _ => eq_refl) ex_holds (fun x H => H) ex_counts H) as (H1 & _ & H2); [vm_compute; discriminate|vm_compute; reflexivity|].
  split; [exact H1|exact H2].
Defined.
