(* ===== verification/I10HostCtrl.v ===== *)
(** * Controllers of the i10 host

    Connections and controllers of drivers/nvme/host/i10.c.  They are those of tcp.c
    but for the allocation of the caravan arrays, which comes after that of the socket
    and is undone on an error, so the definitions of NvmeTcpConn.v and NvmeTcpCtrl.v
    stand for both: here they are taken for the driver [I10_HOST]. *)
From S2P Require Import Prelude MqTypes BlkMqTimeout BlkMqTagSet NvmeTcpMap NvmeTcpConn NvmeTcpConnSpec.
From S2P Require Import NvmeTcpCtrl NvmeTcpCtrlInv NvmeTcpCtrlSpec NvmeTcpLife.

(** The options as the driver sees them. *)
Definition i10_opts (o : conn_opts) : conn_opts :=
  mk_copts I10_HOST (co_hdr_digest o) (co_data_digest o) (co_tos o) (co_host_traddr o) (co_queues o).

(** The hardware queues of i10 are not those of blk-switch. *)
Definition i10_host_init_hctx (hctx_idx : Z) (h : blk_mq_hw_ctx) : blk_mq_hw_ctx :=
  h <| driver_data := hctx_idx + 1 |>.
Definition i10_host_init_admin_hctx : blk_mq_hw_ctx -> blk_mq_hw_ctx := nvme_tcp_init_admin_hctx.

Definition i10_host_nr_io_queues : Z -> nvmf_opts -> Z := nvme_tcp_nr_io_queues.
Definition i10_host_set_io_queues : nvmf_opts -> Z -> list Z -> option (list Z) := nvme_tcp_set_io_queues.
Definition i10_host_map_queues (blk_mq_map_queues : blk_mq_queue_map -> Z * blk_mq_queue_map) (opts : nvmf_opts)
    (io_queues : list Z) (set : blk_mq_tag_set) : option (Z * blk_mq_tag_set) :=
  nvme_tcp_map_queues blk_mq_map_queues opts io_queues set.
Definition i10_io_tag_set : nvmf_opts -> Z -> Z -> Z -> blk_mq_tag_set := io_tag_set.
Definition i10_admin_tag_set : Z -> Z -> blk_mq_tag_set := admin_tag_set.

Section i10_ctrl.
Context {ce : CtrlEnv} (opts : conn_opts) (NVME_AQ_DEPTH : Z).

(** ** Connections *)

Definition i10_host_free_crypto (q : tcp_queue) (w : world) : option world := nvme_tcp_free_crypto q w.
Definition i10_host_alloc_crypto (q : tcp_queue) (w : world) : option (Z * tcp_queue * world) :=
  nvme_tcp_alloc_crypto q w.
Definition i10_host_init_connection (q : tcp_queue) (w : world) : option (Z * world) :=
  nvme_tcp_init_connection q w.
Definition i10_host_alloc_queue (qid queue_size : Z) (c : ctrl) : option (Z * ctrl) :=
  nvme_tcp_alloc_queue (i10_opts opts) qid queue_size c.
Definition i10_host_free_queue (qid : Z) (c : ctrl) : option ctrl := nvme_tcp_free_queue qid c.
Definition i10_host_stop_queue (qid : Z) (c : ctrl) : option ctrl := nvme_tcp_stop_queue qid c.
Definition i10_host_start_queue (idx : Z) (c : ctrl) : option (Z * ctrl) := nvme_tcp_start_queue idx c.
Definition i10_host_init_request (io : bool) (hctx_idx : Z) (c : ctrl) : option (Z * option Z * ctrl) :=
  nvme_tcp_init_request io hctx_idx c.
Definition i10_host_exit_request (pdu : option Z) (c : ctrl) : option ctrl := nvme_tcp_exit_request pdu c.

(** ** Queues of a controller *)

Definition i10_host_free_io_queues (c : ctrl) : option ctrl := nvme_tcp_free_io_queues c.
Definition i10_host_stop_io_queues (c : ctrl) : option ctrl := nvme_tcp_stop_io_queues c.
Definition i10_host_start_io_queues (c : ctrl) : option (Z * ctrl) := nvme_tcp_start_io_queues c.
Definition i10_host_alloc_async_req (c : ctrl) : Z * ctrl := nvme_tcp_alloc_async_req c.
Definition i10_host_free_admin_queue (c : ctrl) : option ctrl := nvme_tcp_free_admin_queue c.
Definition i10_host_alloc_admin_queue (c : ctrl) : option (Z * ctrl) :=
  nvme_tcp_alloc_admin_queue (i10_opts opts) NVME_AQ_DEPTH c.
Definition i10_alloc_io_queues_inner (c : ctrl) : option (Z * ctrl) := alloc_io_queues_inner (i10_opts opts) c.
Definition i10_host_alloc_io_queues (c : ctrl) : option (Z * ctrl) := nvme_tcp_alloc_io_queues (i10_opts opts) c.
Definition i10_host_destroy_io_queues (remove : bool) (c : ctrl) : option ctrl := nvme_tcp_destroy_io_queues remove c.
Definition i10_host_configure_io_queues (new : bool) (c : ctrl) : option (Z * ctrl) :=
  nvme_tcp_configure_io_queues (i10_opts opts) new c.
Definition i10_host_destroy_admin_queue (remove : bool) (c : ctrl) : option ctrl :=
  nvme_tcp_destroy_admin_queue remove c.
Definition i10_host_configure_admin_queue (new : bool) (c : ctrl) : option (Z * ctrl) :=
  nvme_tcp_configure_admin_queue (i10_opts opts) NVME_AQ_DEPTH new c.

(** ** Life cycle *)

Definition i10_host_teardown_admin_queue (remove : bool) (c : ctrl) : option ctrl :=
  nvme_tcp_teardown_admin_queue remove c.
Definition i10_host_teardown_io_queues (remove : bool) (c : ctrl) : option ctrl :=
  nvme_tcp_teardown_io_queues remove c.
Definition i10_host_reconnect_or_remove (c : ctrl) : ctrl := nvme_tcp_reconnect_or_remove c.
Definition i10_host_setup_ctrl (new : bool) (c : ctrl) : option (Z * ctrl) :=
  nvme_tcp_setup_ctrl (i10_opts opts) NVME_AQ_DEPTH new c.
Definition i10_host_reconnect_ctrl_work (c : ctrl) : option ctrl :=
  nvme_tcp_reconnect_ctrl_work (i10_opts opts) NVME_AQ_DEPTH c.
Definition i10_host_error_recovery (c : ctrl) : ctrl := start_error_recovery c.
Definition i10_host_error_recovery_work (c : ctrl) : option ctrl := nvme_tcp_error_recovery_work c.
Definition i10_host_teardown_ctrl (shutdown : bool) (c : ctrl) : option ctrl := nvme_tcp_teardown_ctrl shutdown c.
Definition i10_host_delete_ctrl (c : ctrl) : option ctrl := nvme_tcp_delete_ctrl c.
Definition i10_reset_ctrl_work (c : ctrl) : option ctrl := nvme_reset_ctrl_work (i10_opts opts) NVME_AQ_DEPTH c.
Definition i10_host_timeout (c : ctrl) : option (blk_eh_timer_return * ctrl) := nvme_tcp_timeout c.
Definition i10_host_free_ctrl (ctrls : list Z) (c : ctrl) : option (list Z * world) := nvme_tcp_free_ctrl ctrls c.
Definition i10_host_existing_controller (ip_match : Z -> bool) (ctrls : list Z) : bool :=
  nvme_tcp_existing_controller ip_match ctrls.
Definition i10_host_create_ctrl (trsvcid duplicate_connect : bool) (queue_size : Z) (ip_match : Z -> bool)
    (ctrls : list Z) (w : world) : option (Z * option ctrl * list Z * world) :=
  nvme_tcp_create_ctrl (i10_opts opts) NVME_AQ_DEPTH trsvcid duplicate_connect queue_size ip_match ctrls w.

(** One work queue; the result and what is left allocated. *)
Definition i10_host_init_module (w : world) : Z * world :=
  let '(wq, w) := new_obj alloc_ok w in
  match wq with None => (- ENOMEM, w) | Some _ => (0, w) end.
End i10_ctrl.

(** [i10_host_create_ctrl] is all or nothing without any assumption on memory.
    Whichever of its calls or allocations fails, it is defined; when it fails the
    list of controllers is unchanged and nothing that it allocated is left, but for
    the port string, which belongs to the options; when it succeeds the controller
    is on the list, live, with every queue allocated and connected. *)
Lemma i10_create_all_or_nothing {ce : CtrlEnv} (cl : CtrlLaws ce) opts depth (trsvcid : bool) dup qsize ip_match ctrls w :
  holds w (w_live w) -> (forall x, x ∈ ctrls -> x ∈ w_live w) -> counts_ok (co_queues opts) ->
  exists ret oc ctrls' w',
    i10_host_create_ctrl opts depth trsvcid dup qsize ip_match ctrls w = Some (ret, oc, ctrls', w') /\
    match oc with
    | None => ret <> 0 /\ ctrls' = ctrls /\
        exists left, (length left <= if trsvcid then 0 else 1)%nat /\ w_live w' ≡ₚ left ++ w_live w
    | Some c => ret = 0 /\ w' = c_w c /\ exists self,
        ctrls' = ctrls ++ [self] /\ c_self c = Some self /\
        if c_icdoff c =? 0 then c_state c = NVME_CTRL_LIVE /\ all_up c else all_down c
    end.
Proof.
  intros Hw Hin Hok.
  destruct (create_spec (i10_opts opts) depth ltac:(by intros [=]) trsvcid dup qsize ip_match ctrls w Hw Hin Hok)
    as (port & Hp & [(ret & w1 & leak & E & Hr & Hl & Hh)|(c & self & array & E & Es & Ea & Hr)]).
  - exists ret, None, ctrls, w1. split_and!; try done. exists leak. split; [|done]. cbn in Hl. lia.
  - exists 0, (Some c), (ctrls ++ [self]), (c_w c). split_and!; try done. exists self. split_and!; try done.
    destruct (c_icdoff c =? 0); [|by destruct Hr]. by destruct Hr as (Hs & Hu & _).
Qed.

(** An allocation of a caravan array fails: that of the second one of an I/O queue. *)
Definition i10_life_env : CtrlEnv :=
  let e := life_env 0 [] in
  {| ext := @ext e; alloc_ok := @alloc_ok e; caravan_ok k := negb (k =? 44)%nat; ptr_err := @ptr_err e;
     icresp_of := @icresp_of e; identified := @identified e; ioccsz := @ioccsz e; granted := @granted e;
     change_ok := @change_ok e; should_reconnect := @should_reconnect e; next_wrap := @next_wrap e;
     online_cpus := @online_cpus e; nvme_tcp_icresp := @nvme_tcp_icresp e; sizeof_icresp := @sizeof_icresp e;
     NVME_TCP_PFV_1_0 := @NVME_TCP_PFV_1_0 e; NVME_TCP_HDR_DIGEST_ENABLE := @NVME_TCP_HDR_DIGEST_ENABLE e;
     NVME_TCP_DATA_DIGEST_ENABLE := @NVME_TCP_DATA_DIGEST_ENABLE e; sizeof_nvme_command := @sizeof_nvme_command e;
     NVME_TCP_ADMIN_CCSZ := @NVME_TCP_ADMIN_CCSZ e; sizeof_tcp_rsp_pdu := @sizeof_tcp_rsp_pdu e |}.

Lemma i10_life_laws : CtrlLaws i10_life_env.
Proof. split; simpl; lia. Qed.

Definition i10_heap : world :=
  match @i10_host_create_ctrl i10_life_env life_opts 32 false false 128 (fun _ => false) [3] ex_world with
  | Some (_, _, _, w) => w
  | None => ex_world
  end.

(** The array before it and everything else is given back. *)
Lemma i10_create_all_or_nothing_witness :
  w_live i10_heap = [5; 3] /\ exists left, (length left <= 1)%nat /\ w_live i10_heap ≡ₚ left ++ [3].
Proof.
  split; [vm_compute; reflexivity|].
  destruct (@i10_create_all_or_nothing i10_life_env i10_life_laws life_opts 32 false false 128 (fun _ => false) [3] ex_world
    ex_holds (fun x H => H) ex_counts) as (ret & oc & ctrls & w & E & H).
  assert (Ev : @i10_host_create_ctrl i10_life_env life_opts 32 false false 128 (fun _ => false) [3] ex_world =
    Some (- ENOMEM, None, [3], i10_heap)) by (vm_compute; reflexivity).
  pose proof (eq_trans (eq_sym E) Ev) as Heq. clear E Ev. revert Heq H. generalize i10_heap. intros w0 Heq H.
  injection Heq as -> -> -> ->. destruct H as (_ & _ & left & H1 & H2). exists left. split; [exact H1|exact H2].
Defined.
