(* ===== verification/NvmeTcp.v ===== *)
(** * Data of the NVMe/TCP host driver

    The structures of drivers/nvme/host/tcp.c and the helper functions that read
    them.  Memory that is put on the wire is identified by the buffer it lies in
    (the PDU of a request, a page, the data digest of a request) and an offset:
    the wire is the sequence of such bytes.  Code outside the repository enters
    through classes: the sizes of the PDU headers and request flags
    ([NvmeTcpProto]), the iterator of <linux/uio.h> ([IovIter]) and the socket
    ([HostSock]). *)
From S2P Require Import Prelude NvmeTcpMap.

(** ** Names defined outside the repository *)

(** <linux/nvme-tcp.h>: sizes of the headers and of a digest;
    <linux/blk_types.h>: the flags of a bio. *)
Class NvmeTcpProto := {
  sizeof_cmd_pdu : Z;
  sizeof_data_pdu : Z;
  sizeof_rsp_pdu : Z;
  sizeof_nvme_command : Z;
  NVME_TCP_DIGEST_LENGTH : Z;
  NVME_TCP_ADMIN_CCSZ : Z;
  REQ_OP_READ : Z;
  REQ_OP_WRITE : Z;
  REQ_DRV : Z;
  REQ_F_RAHEAD : Z;
  REQ_SYNC : Z;
  REQ_IDLE : Z;
  REQ_NOMERGE : Z;
  (* PDU types *)
  nvme_tcp_cmd : Z;
  nvme_tcp_rsp : Z;
  nvme_tcp_h2c_data : Z;
  nvme_tcp_c2h_data : Z;
  nvme_tcp_r2t : Z;
  (* flags of the PDU header *)
  NVME_TCP_F_HDGST : Z;
  NVME_TCP_F_DDGST : Z;
  NVME_TCP_F_DATA_LAST : Z;
  NVME_TCP_F_DATA_SUCCESS : Z;
  sizes_ok : Forall (fun n => 0 < n < 2 ^ 7)
    [sizeof_cmd_pdu; sizeof_data_pdu; sizeof_rsp_pdu; sizeof_nvme_command; NVME_TCP_DIGEST_LENGTH];
}.

Definition I10_CARAVAN_CAPACITY : Z := 65536.
Definition I10_AGGREGATION_SIZE : Z := 16.
Definition I10_MAX_AGGREGATION_SIZE : Z := 32.
Definition I10_MIN_DOORBELL_TIMEOUT : Z := 25.

(** <linux/nvme.h>: depth of the admin queue without the asynchronous events. *)
Definition NVME_AQ_BLK_MQ_DEPTH : Z := 31.

(** ** Memory and the wire *)

(** Buffers: the PDU of a request, a page, the data digest of a request. *)
Inductive buf := BPdu (r : Z) | BPage (p : Z) | BDdgst (r : Z).
#[export] Instance buf_eq_dec : EqDecision buf.
Proof. solve_decision. Defined.

(** A piece of a buffer: [struct kvec], or the arguments of [kernel_sendpage]. *)
Record seg := mk_seg {
  sg_buf : buf;
  sg_off : Z;
  sg_len : Z;
}.
#[export] Instance seg_eta : Settable seg := {| eta_expand := fun r =>
  mk_seg (sg_buf r) (sg_off r) (sg_len r) |}.

(** Its bytes, each by buffer and position. *)
Definition seg_bytes (s : seg) : list (buf * Z) :=
  (fun i => (sg_buf s, sg_off s + i)) <$> seqZ 0 (sg_len s).

Definition total (l : list seg) : Z := foldr (fun s n => sg_len s + n) 0 l.

(** ** Requests *)

Inductive nvme_tcp_send_state :=
| NVME_TCP_SEND_CMD_PDU
| NVME_TCP_SEND_H2C_PDU
| NVME_TCP_SEND_DATA
| NVME_TCP_SEND_DDGST.
#[export] Instance send_state_eq_dec : EqDecision nvme_tcp_send_state.
Proof. solve_decision. Defined.

(** A segment of a bio. *)
Record bio_vec := mk_bvec {
  bv_page : Z;
  bv_len : Z;
  bv_offset : Z;
}.
#[export] Instance bio_vec_eta : Settable bio_vec := {| eta_expand := fun r =>
  mk_bvec (bv_page r) (bv_len r) (bv_offset r) |}.

(** A bio of a request: the segments from its current one on, the bytes of the
    first that are done, the bytes left, and its operation and flags. *)
Record hbio := mk_hbio {
  hb_vecs : list bio_vec;
  hb_done : Z;  (* bi_iter.bi_bvec_done *)
  hb_size : Z;  (* bi_iter.bi_size *)
  hb_opf : Z;
}.
#[export] Instance hbio_eta : Settable hbio := {| eta_expand := fun r =>
  mk_hbio (hb_vecs r) (hb_done r) (hb_size r) (hb_opf r) |}.

(** An iterator over segments. *)
Record iov_iter := mk_iter {
  it_bvec : list bio_vec;
  iov_offset : Z;
  it_count : Z;
}.
#[export] Instance iov_iter_eta : Settable iov_iter := {| eta_expand := fun r =>
  mk_iter (it_bvec r) (iov_offset r) (it_count r) |}.

(** The data pointer of a command: none, in the capsule at an offset, or in host
    memory. *)
Inductive sgl := SG_NULL | SG_INLINE (addr len : Z) | SG_HOST_DATA (len : Z).

(** The fields of a PDU that the driver writes. *)
Record pdu_hdr := mk_hdr {
  h_type : Z;
  h_pflags : Z;
  hlen : Z;
  pdo : Z;
  plen : Z;
  h_ttag : Z;
  h_command_id : Z;
  h_data_offset : Z;
  h_data_length : Z;
  h_sgl : sgl;
}.
#[export] Instance pdu_hdr_eta : Settable pdu_hdr := {| eta_expand := fun r =>
  mk_hdr (h_type r) (h_pflags r) (hlen r) (pdo r) (plen r) (h_ttag r) (h_command_id r)
    (h_data_offset r) (h_data_length r) (h_sgl r) |}.

(** struct nvme_tcp_request, with what is read of its block layer request. *)
Record nvme_tcp_request := mk_req {
  hdr : pdu_hdr;  (* the PDU of the request *)
  is_async : bool;  (* it is the async_req of the controller *)
  is_write : bool;  (* rq_data_dir *)
  special_vec : option bio_vec;  (* payload of a request with RQF_SPECIAL_PAYLOAD *)
  nr_phys : Z;  (* blk_rq_nr_phys_segments *)
  rq_bytes : Z;  (* bytes of the request *)
  rq_bios : list hbio;  (* the bios of the request *)
  rtag : Z;  (* its tag *)
  r_data_len : Z;
  pdu_len : Z;
  pdu_sent : Z;
  ttag : Z;
  curr_bio : list hbio;  (* the chain from the current bio on, [] for NULL *)
  iter : iov_iter;
  offset : Z;
  data_sent : Z;
  state : nvme_tcp_send_state;
  r_ddgst : list seg;  (* what the data digest was computed over *)
  received : list Z;  (* bytes copied to the iterator, in order *)
}.
#[export] Instance nvme_tcp_request_eta : Settable nvme_tcp_request := {| eta_expand := fun r =>
  mk_req (hdr r) (is_async r) (is_write r) (special_vec r) (nr_phys r) (rq_bytes r) (rq_bios r)
    (rtag r) (r_data_len r) (pdu_len r) (pdu_sent r) (ttag r) (curr_bio r) (iter r)
    (offset r) (data_sent r) (state r) (r_ddgst r) (received r) |}.

(** struct nvme_tcp_queue, its receive state aside.  [wire] is what the socket
    has accepted, [sock_calls] the number of calls of the socket. *)
Record nvme_tcp_queue := mk_nq {
  nq_id : Z;  (* index of the queue in the controller *)
  prio_class : Z;
  send_list : list Z;
  nq_request : option Z;  (* field request *)
  cmnd_capsule_len : Z;
  hdr_digest : bool;
  data_digest : bool;
  snd_hash : list seg;  (* input of the running data digest *)
  caravan_iovs : list seg;
  caravan_len : Z;
  nr_iovs : Z;
  send_now : bool;
  nr_caravan_req : Z;
  caravan_mapped : list Z;
  nr_mapped : Z;
  nr_req : Z;
  doorbell_timer : bool;  (* the timer is active *)
  timer_set : Z;
  io_work : bool;  (* queued on nvme_tcp_wq *)
  io_work_lat : bool;  (* queued on nvme_tcp_wq_lat *)
  sock_nospace : bool;  (* SOCK_NOSPACE *)
  sock_short : bool;  (* the last call of the socket took less than it was given *)
  kmaps : list Z;  (* pages that are mapped *)
  wire : list (buf * Z);
  sock_calls : nat;
  failed : list Z;  (* requests ended with NVME_SC_HOST_PATH_ERROR *)
  reqs : gmap Z nvme_tcp_request;
}.
#[export] Instance nvme_tcp_queue_eta : Settable nvme_tcp_queue := {| eta_expand := fun r =>
  mk_nq (nq_id r) (prio_class r) (send_list r) (nq_request r) (cmnd_capsule_len r) (hdr_digest r)
    (data_digest r) (snd_hash r) (caravan_iovs r) (caravan_len r) (nr_iovs r) (send_now r)
    (nr_caravan_req r) (caravan_mapped r) (nr_mapped r) (nr_req r) (doorbell_timer r)
    (timer_set r) (io_work r) (io_work_lat r) (sock_nospace r) (sock_short r) (kmaps r) (wire r)
    (sock_calls r) (failed r) (reqs r) |}.

Definition mod_req (r : Z) (f : nvme_tcp_request -> nvme_tcp_request) (q : nvme_tcp_queue)
  : option nvme_tcp_queue :=
  req ← reqs q !! r; Some (q <| reqs ::= <[r := f req]> |>).

(** <linux/uio.h>: [iov_iter_advance]. *)
Class IovIter := { iov_iter_advance : iov_iter -> Z -> iov_iter }.

(** The socket: results of the calls, by the number of calls before.  The message
    flags only tell TCP whether more follows and are left out. *)
Class HostSock := {
  kernel_sendpage : nat -> seg -> Z;
  sock_no_sendpage : nat -> seg -> Z;
  kernel_sendmsg : nat -> list seg -> Z -> Z;  (* the last: size *)
  sk_stream_wspace : nat -> Z;
  PageSlab : Z -> bool;
}.

(** What a call that returned [ret] has put on the wire. *)
Definition sock_sent (ret : Z) (l : list seg) (q : nvme_tcp_queue) : nvme_tcp_queue :=
  q <| wire ::= fun w => w ++ take (Z.to_nat ret) (concat (seg_bytes <$> l)) |>
    <| sock_short := ret <? total l |> <| sock_calls ::= S |>.

(** The module parameter of the delayed doorbell, the number of CPUs and the driver:
    i10.c has neither latency classes nor caravans of more than
    [I10_AGGREGATION_SIZE] requests. *)
Record host_env := mk_host_env {
  i10_delayed_doorbell_us : Z;
  num_online_cpus : Z;
  driver : host_driver;
}.

(** ** Helpers *)

Section helpers.
Context {pr : NvmeTcpProto} {it : IovIter}.

Definition nvme_tcp_hdgst_len (q : nvme_tcp_queue) : Z :=
  if hdr_digest q then NVME_TCP_DIGEST_LENGTH else 0.
Definition nvme_tcp_ddgst_len (q : nvme_tcp_queue) : Z :=
  if data_digest q then NVME_TCP_DIGEST_LENGTH else 0.
Definition nvme_tcp_inline_data_size (q : nvme_tcp_queue) : Z :=
  u64 (cmnd_capsule_len q - sizeof_nvme_command).

Definition nvme_tcp_has_inline_data (q : nvme_tcp_queue) (req : nvme_tcp_request) : bool :=
  negb (is_async req) && is_write req && c_true (r_data_len req)
  && (r_data_len req <=? nvme_tcp_inline_data_size q).

Definition nvme_tcp_req_cur_page (req : nvme_tcp_request) : option Z :=
  v ← head (it_bvec (iter req)); Some (bv_page v).
Definition nvme_tcp_req_cur_offset (req : nvme_tcp_request) : option Z :=
  v ← head (it_bvec (iter req)); Some (bv_offset v + iov_offset (iter req)).
Definition nvme_tcp_req_cur_length (req : nvme_tcp_request) : option Z :=
  v ← head (it_bvec (iter req));
  Some (Z.min (u64 (bv_len v - iov_offset (iter req))) (u32 (pdu_len req - pdu_sent req))).

Definition nvme_tcp_pdu_data_left (req : nvme_tcp_request) : Z :=
  if is_write req then u32 (pdu_len req - pdu_sent req) else 0.
Definition nvme_tcp_pdu_last_send (req : nvme_tcp_request) (len : Z) : bool :=
  nvme_tcp_pdu_data_left req <=? len.

(** [blk_rq_payload_bytes]. *)
Definition blk_rq_payload_bytes (req : nvme_tcp_request) : Z :=
  match special_vec req with Some v => bv_len v | None => rq_bytes req end.

Definition nvme_tcp_init_iter (req : nvme_tcp_request) : option nvme_tcp_request :=
  match special_vec req with
  | Some v => Some (req <| iter := mk_iter [v] 0 (blk_rq_payload_bytes req) |>)
  | None =>
    b ← head (curr_bio req);
    Some (req <| iter := mk_iter (hb_vecs b) (hb_done b) (hb_size b) |>)
  end.

Definition nvme_tcp_advance_req (req : nvme_tcp_request) (len : Z) : option nvme_tcp_request :=
  let req := req <| data_sent ::= fun n => u64 (n + len) |> <| pdu_sent ::= fun n => u32 (n + len) |>
                 <| iter ::= fun i => iov_iter_advance i len |> in
  if (it_count (iter req) =? 0) && (data_sent req <? r_data_len req) then
    match curr_bio req with
    | [] => None
    | _ :: next => nvme_tcp_init_iter (req <| curr_bio := next |>)
    end
  else Some req.

Definition i10_host_is_latency (q : nvme_tcp_queue) : bool := prio_class q =? 1.

Definition i10_host_legacy_path (e : host_env) (q : nvme_tcp_queue) : bool :=
  (nq_id q =? 0)
  || match driver e with NVME_TCP => i10_host_is_latency q | I10_HOST => false end
  || (i10_delayed_doorbell_us e <? I10_MIN_DOORBELL_TIMEOUT).

Definition I10_ALLOWED_FLAGS : Z :=
  Z.lor (Z.lor (Z.lor (Z.lor (Z.lor (Z.lor REQ_OP_READ REQ_OP_WRITE) REQ_DRV) REQ_F_RAHEAD)
    REQ_SYNC) REQ_IDLE) REQ_NOMERGE.

Definition i10_host_is_nodelay_path (req : nvme_tcp_request) : bool :=
  match curr_bio req with
  | [] => true
  | b :: _ => has_flag (hb_opf b) (Z.lnot I10_ALLOWED_FLAGS)
  end.

(** What the arrays of a caravan are made for. *)
Definition max_aggregation (e : host_env) : Z :=
  match driver e with NVME_TCP => I10_MAX_AGGREGATION_SIZE | I10_HOST => I10_AGGREGATION_SIZE end.

(** The request is held back for a caravan. *)
Definition delayed (e : host_env) (q : nvme_tcp_queue) (req : nvme_tcp_request) : bool :=
  negb (i10_host_legacy_path e q) && negb (i10_host_is_nodelay_path req).
End helpers.
