(* ===== verification/NvmeTcpSend.v ===== *)
(** * NVMe/TCP host: queueing and sending

    [nvme_tcp_queue_request] with the delayed doorbell, the caravans of i10 and
    [nvme_tcp_try_send] of drivers/nvme/host/tcp.c.  The result of a function
    that returns [int] comes with the queue after it; [None] stands for an access
    outside an array or through a null pointer. *)
From S2P Require Import Prelude NvmeTcp.

(** [kunmap]: one mapping of the page less. *)
Fixpoint kunmap (p : Z) (m : list Z) : list Z :=
  match m with
  | [] => []
  | x :: m => if x =? p then m else x :: kunmap p m
  end.

Section send.
Context {pr : NvmeTcpProto} {it : IovIter} {sk : HostSock} (e : host_env).

(** ** Doorbell *)

(** [queue_work_on] for the work of the queue's class. *)
Definition queue_io_work (q : nvme_tcp_queue) : nvme_tcp_queue :=
  if i10_host_is_latency q then q <| io_work_lat := true |> else q <| io_work := true |>.

(** The part of [nvme_tcp_queue_request] up to [spin_unlock]; the result is
    [no_delay]. *)
Definition request_enqueue (r : Z) (q : nvme_tcp_queue) : option (bool * nvme_tcp_queue) :=
  let q := q <| prio_class := if nq_id q <=? num_online_cpus e then 0 else 1 |> in
  req ← reqs q !! r;
  let q := q <| send_list ::= fun l => l ++ [r] |> in
  if delayed e q req then
    let q := q <| nr_req ::= fun n => s32 (n + 1) |> in
    Some (false, if (nr_req q =? 1) && negb (doorbell_timer q)
                 then q <| doorbell_timer := true |> <| timer_set ::= fun n => s32 (n + 1) |>
                 else q)
  else Some (true, q).

(** Cancel the timer and queue the work. *)
Definition ring_now (q : nvme_tcp_queue) : nvme_tcp_queue :=
  queue_io_work (q <| doorbell_timer := false |> <| timer_set := 0 |>).

(** The part after [spin_unlock]. *)
Definition request_ring (no_delay : bool) (q : nvme_tcp_queue) : nvme_tcp_queue :=
  if negb no_delay then if I10_AGGREGATION_SIZE <=? nr_req q then ring_now q else q
  else ring_now q.

Definition nvme_tcp_queue_request (r : Z) (q : nvme_tcp_queue) : option nvme_tcp_queue :=
  '(no_delay, q) ← request_enqueue r q; Some (request_ring no_delay q).

Definition i10_host_doorbell_timeout (q : nvme_tcp_queue) : nvme_tcp_queue :=
  queue_io_work (q <| doorbell_timer := false |> <| timer_set := 0 |>).

(** The next request of the list becomes the current one. *)
Definition nvme_tcp_fetch_request (q : nvme_tcp_queue) : option (option Z * nvme_tcp_queue) :=
  match send_list q with
  | [] => Some (None, q)
  | r :: l =>
    req ← reqs q !! r;
    let q := q <| send_list := l |> in
    Some (Some r, if delayed e q req then q <| nr_caravan_req ::= fun n => s32 (n + 1) |> else q)
  end.

(** ** Caravans *)

Definition i10_host_is_caravan_full (q : nvme_tcp_queue) : bool :=
  (I10_CARAVAN_CAPACITY <=? caravan_len q) || (max_aggregation e * 2 <=? nr_iovs q)
  || (max_aggregation e <=? nr_mapped q).

Definition caravan_add (s : seg) (q : nvme_tcp_queue) : option nvme_tcp_queue :=
  iovs ← aset (caravan_iovs q) (nr_iovs q) s;
  Some (q <| caravan_iovs := iovs |> <| nr_iovs ::= fun n => n + 1 |>
          <| caravan_len ::= fun n => u64 (n + sg_len s) |>).

(** A data page is mapped and remembered. *)
Definition caravan_add_page (page : Z) (s : seg) (q : nvme_tcp_queue) : option nvme_tcp_queue :=
  q ← caravan_add s q; m ← aset (caravan_mapped q) (nr_mapped q) page;
  Some (q <| kmaps ::= cons page |> <| caravan_mapped := m |> <| nr_mapped ::= fun n => n + 1 |>).

Definition nvme_tcp_done_send_req (q : nvme_tcp_queue) : nvme_tcp_queue :=
  q <| nq_request := None |>.

Definition put_req (r : Z) (req : nvme_tcp_request) (q : nvme_tcp_queue) : nvme_tcp_queue :=
  q <| reqs ::= <[r := req]> |>.

(** The loop of [nvme_tcp_try_send_data]. *)
Fixpoint send_data_loop (fuel : nat) (r : Z) (q : nvme_tcp_queue) : option (Z * nvme_tcp_queue) :=
  match fuel with
  | O => None
  | S fuel =>
    req ← reqs q !! r;
    page ← nvme_tcp_req_cur_page req;
    off ← nvme_tcp_req_cur_offset req;
    len ← nvme_tcp_req_cur_length req;
    let last := nvme_tcp_pdu_last_send req len in
    let s := mk_seg (BPage page) off len in
    let legacy := i10_host_legacy_path e q in
    if negb legacy && i10_host_is_caravan_full q then Some (1, q <| send_now := true |>)
    else
      '(ret, q) ← (if legacy
                   then let ret := if PageSlab page then sock_no_sendpage (sock_calls q) s
                                   else kernel_sendpage (sock_calls q) s in
                        Some (ret, sock_sent ret [s] q)
                   else q ← caravan_add_page page s q; Some (len, q));
      if ret <=? 0 then Some (ret, q)
      else
        req ← nvme_tcp_advance_req req ret;
        let q := put_req r req q in
        let q := if data_digest q then q <| snd_hash ::= fun h => h ++ [mk_seg (BPage page) off ret] |>
                 else q in
        if last && (ret =? len) then
          if data_digest q
          then Some (1, put_req r (req <| r_ddgst := snd_hash q |>
                                       <| state := NVME_TCP_SEND_DDGST |> <| offset := 0 |>) q)
          else Some (1, nvme_tcp_done_send_req q)
        else send_data_loop fuel r q
  end.

(** Every turn but the last sends at least one of the bytes that are left. *)
Definition nvme_tcp_try_send_data (r : Z) (q : nvme_tcp_queue) : option (Z * nvme_tcp_queue) :=
  req ← reqs q !! r;
  send_data_loop (S (Z.to_nat (u32 (pdu_len req - pdu_sent req)))) r q.

(** Pointer arithmetic on [pdu] counts in units of the PDU. *)
Definition nvme_tcp_try_send_cmd_pdu (r : Z) (q : nvme_tcp_queue) : option (Z * nvme_tcp_queue) :=
  req ← reqs q !! r;
  let inline_data := nvme_tcp_has_inline_data q req in
  let len := s32 (sizeof_cmd_pdu + nvme_tcp_hdgst_len q - offset req) in
  let legacy := i10_host_legacy_path e q in
  if negb legacy && i10_host_is_caravan_full q then Some (1, q <| send_now := true |>)
  else
    '(ret, q) ← (if legacy
                 then let s := mk_seg (BPdu r) (offset req) len in
                      let ret := kernel_sendpage (sock_calls q) s in
                      Some (ret, sock_sent ret [s] q)
                 else q ← caravan_add (mk_seg (BPdu r) (sizeof_cmd_pdu * offset req) len) q;
                      Some (len, if i10_host_is_nodelay_path req
                                 then q <| send_now := true |> else q));
    if ret <=? 0 then Some (ret, q)
    else if len - ret =? 0 then
      if inline_data then
        let q := if data_digest q then q <| snd_hash := [] |> else q in
        req ← nvme_tcp_init_iter (req <| state := NVME_TCP_SEND_DATA |>);
        Some (1, put_req r req q)
      else Some (1, nvme_tcp_done_send_req q)
    else Some (- EAGAIN, put_req r (req <| offset ::= fun n => n + ret |>) q).

Definition nvme_tcp_try_send_data_pdu (r : Z) (q : nvme_tcp_queue) : option (Z * nvme_tcp_queue) :=
  req ← reqs q !! r;
  let len := s32 (sizeof_data_pdu - offset req + nvme_tcp_hdgst_len q) in
  let legacy := i10_host_legacy_path e q in
  if negb legacy && i10_host_is_caravan_full q then Some (1, q <| send_now := true |>)
  else
    '(ret, q) ← (if legacy
                 then let s := mk_seg (BPdu r) (offset req) len in
                      let ret := kernel_sendpage (sock_calls q) s in
                      Some (ret, sock_sent ret [s] q)
                 else q ← caravan_add (mk_seg (BPdu r) (sizeof_data_pdu * offset req) len) q;
                      Some (len, q));
    if ret <=? 0 then Some (ret, q)
    else if len - ret =? 0 then
      let q := if data_digest q then q <| snd_hash := [] |> else q in
      let req := req <| state := NVME_TCP_SEND_DATA |> in
      req ← (if data_sent req =? 0 then nvme_tcp_init_iter req else Some req);
      Some (1, put_req r req q)
    else Some (- EAGAIN, put_req r (req <| offset ::= fun n => n + ret |>) q).

(** The digest goes to the socket on every path; [&req->ddgst + req->offset]
    counts in units of the digest. *)
Definition nvme_tcp_try_send_ddgst (r : Z) (q : nvme_tcp_queue) : option (Z * nvme_tcp_queue) :=
  req ← reqs q !! r;
  let s := mk_seg (BDdgst r) (4 * offset req) (NVME_TCP_DIGEST_LENGTH - offset req) in
  let ret := kernel_sendmsg (sock_calls q) [s] (sg_len s) in
  let q := sock_sent ret [s] q in
  if ret <=? 0 then Some (ret, q)
  else if offset req + ret =? NVME_TCP_DIGEST_LENGTH then Some (1, nvme_tcp_done_send_req q)
  else Some (- EAGAIN, put_req r (req <| offset ::= fun n => n + ret |>) q).

(** ** [nvme_tcp_try_send] *)

(** The part under the lock, when there is no current request. *)
Definition fetch_or_flush (q : nvme_tcp_queue) : option nvme_tcp_queue :=
  match send_list q with
  | r :: l =>
    req ← reqs q !! r;
    let q := q <| send_list := l |> in
    let q := if delayed e q req then q <| nr_caravan_req ::= fun n => s32 (n + 1) |> else q in
    Some (q <| nq_request := Some r |>)
  | [] =>
    Some (if ((timer_set q =? 0) || negb (doorbell_timer q)) && c_true (caravan_len q)
          then q <| nr_req ::= fun n => s32 (n - nr_caravan_req q) |> <| nr_caravan_req := 0 |>
                 <| timer_set := 0 |> <| send_now := true |>
          else q)
  end.

Definition nvme_tcp_sndbuf_nospace (q : nvme_tcp_queue) (length : Z) : bool :=
  sk_stream_wspace (sock_calls q) <? length.

(** The segments of the caravan. *)
Definition caravan (q : nvme_tcp_queue) : list seg := take (Z.to_nat (nr_iovs q)) (caravan_iovs q).
Definition caravan_pages (q : nvme_tcp_queue) : list Z :=
  take (Z.to_nat (nr_mapped q)) (caravan_mapped q).

(** Send the caravan; [Some ret] when [nvme_tcp_try_send] returns [ret] here. *)
Definition send_caravan (q : nvme_tcp_queue) : option Z * nvme_tcp_queue :=
  if nvme_tcp_sndbuf_nospace q (s32 (caravan_len q))
  then (Some 0, q <| sock_nospace := true |> <| sock_calls ::= S |>)
  else
    let ret := kernel_sendmsg (sock_calls q) (caravan q) (caravan_len q) in
    let q := sock_sent ret (caravan q) q in
    if ret <=? 0 then (Some ret, q)
    else (None, q <| kmaps ::= fun m => foldl (fun m p => kunmap p m) m (caravan_pages q) |>
                  <| nr_iovs := 0 |> <| nr_mapped := 0 |> <| caravan_len := 0 |>
                  <| send_now := false |>).

(** The states of the current request in turn; a step that does not return
    more than 0 is the last. *)
Definition send_step (st : nvme_tcp_send_state)
    (f : Z -> nvme_tcp_queue -> option (Z * nvme_tcp_queue))
    (stop : nvme_tcp_queue -> nvme_tcp_request -> bool) (r : Z)
    (x : bool * Z * nvme_tcp_queue) : option (bool * Z * nvme_tcp_queue) :=
  let '(fin, ret, q) := x in
  req ← reqs q !! r;
  if negb fin && bool_decide (state req = st) then
    '(ret, q) ← f r q; req ← reqs q !! r;
    Some ((ret <=? 0) || stop q req, ret, q)
  else Some x.

Definition send_request (r : Z) (q : nvme_tcp_queue) : option (Z * nvme_tcp_queue) :=
  let no_stop _ _ := false in
  x ← send_step NVME_TCP_SEND_CMD_PDU nvme_tcp_try_send_cmd_pdu
        (fun q req => negb (nvme_tcp_has_inline_data q req)) r (false, 1, q);
  x ← send_step NVME_TCP_SEND_H2C_PDU nvme_tcp_try_send_data_pdu no_stop r x;
  x ← send_step NVME_TCP_SEND_DATA nvme_tcp_try_send_data no_stop r x;
  '(_, ret, q) ← send_step NVME_TCP_SEND_DDGST nvme_tcp_try_send_ddgst no_stop r x;
  Some (if ret =? - EAGAIN then 0 else ret, q).

Definition nvme_tcp_try_send (q : nvme_tcp_queue) : option (Z * nvme_tcp_queue) :=
  q ← match nq_request q with None => fetch_or_flush q | Some _ => Some q end;
  if bool_decide (nq_request q = None) && negb (c_true (caravan_len q)) then Some (0, q)
  else
    let '(o, q) := if send_now q then send_caravan q else (None, q) in
    match o, nq_request q with
    | Some ret, _ => Some (ret, q)
    | None, None => Some (0, q)
    | None, Some r => send_request r q
    end.
End send.
