(* ===== verification/NvmeTcpSendSpec.v ===== *)
(** * NVMe/TCP host: the byte stream

    The bytes that a queue owes to its connection are, in order, what is on the
    wire, what is in the caravan, what is left of the current request and the
    requests of the send list.  [nvme_tcp_try_send] only moves bytes from the
    right to the left. *)
From S2P Require Import Prelude NvmeTcp NvmeTcpSend.

(** ** Bytes of iterators, bios and requests *)

Definition vec_bytes (v : bio_vec) : list (buf * Z) :=
  seg_bytes (mk_seg (BPage (bv_page v)) (bv_offset v) (bv_len v)).
Definition iter_bytes (i : iov_iter) : list (buf * Z) :=
  take (Z.to_nat (it_count i)) (drop (Z.to_nat (iov_offset i)) (concat (vec_bytes <$> it_bvec i))).

Definition vec_total (l : list bio_vec) : Z := foldr (fun v n => bv_len v + n) 0 l.

(** An iterator that covers its segments exactly. *)
Definition wf_iter (i : iov_iter) : Prop :=
  0 < it_count i -> exists v vs, it_bvec i = v :: vs /\ 0 <= iov_offset i < bv_len v
    /\ Forall (fun v => 0 < bv_len v < 2 ^ 32) (v :: vs)
    /\ it_count i + iov_offset i = vec_total (v :: vs).

Definition bio_iter (b : hbio) : iov_iter := mk_iter (hb_vecs b) (hb_done b) (hb_size b).
Definition wf_bio (b : hbio) : Prop := 0 < hb_size b /\ wf_iter (bio_iter b).

(** The documented behaviour of [iov_iter_advance] within the current segment. *)
Class IovIterLaws (it : IovIter) : Prop := {
  advance_ok : forall i v vs n, wf_iter i -> it_bvec i = v :: vs ->
    0 < n <= bv_len v - iov_offset i -> n <= it_count i ->
    wf_iter (iov_iter_advance i n) /\ it_count (iov_iter_advance i n) = it_count i - n
    /\ iter_bytes (iov_iter_advance i n) = drop (Z.to_nat n) (iter_bytes i);
}.

Lemma seg_bytes_length b o n : length (seg_bytes (mk_seg b o n)) = Z.to_nat n.
Proof. unfold seg_bytes. simpl. rewrite length_fmap, length_seqZ. done. Qed.

Lemma seg_bytes_take b o n m :
  0 <= m <= n -> take (Z.to_nat m) (seg_bytes (mk_seg b o n)) = seg_bytes (mk_seg b o m).
Proof.
  intros H. unfold seg_bytes. simpl. apply list_eq. intros i.
  destruct (decide (i < Z.to_nat m)%nat).
  - rewrite lookup_take_lt by lia. rewrite !list_lookup_fmap, !lookup_seqZ_lt by lia. done.
  - rewrite lookup_take_ge by lia. rewrite list_lookup_fmap, lookup_seqZ_ge by lia. done.
Qed.

Lemma seg_bytes_drop b o n m :
  0 <= m <= n -> drop (Z.to_nat m) (seg_bytes (mk_seg b o n)) = seg_bytes (mk_seg b (o + m) (n - m)).
Proof.
  intros H. unfold seg_bytes. simpl. apply list_eq. intros i. rewrite lookup_drop, !list_lookup_fmap.
  destruct (decide (i < Z.to_nat (n - m))%nat).
  - rewrite !lookup_seqZ_lt by lia. simpl. do 2 f_equal. lia.
  - rewrite !lookup_seqZ_ge by lia. done.
Qed.

Lemma vec_bytes_length l :
  Forall (fun v => 0 < bv_len v < 2 ^ 32) l ->
  Z.of_nat (length (concat (vec_bytes <$> l))) = vec_total l.
Proof.
  induction 1 as [|v l Hv _ IH]; [done|].
  rewrite fmap_cons. simpl concat. rewrite length_app, Nat2Z.inj_add, IH.
  unfold vec_bytes. rewrite seg_bytes_length. simpl. unfold vec_total. lia.
Qed.

Lemma iter_bytes_length i : 0 <= it_count i -> wf_iter i -> length (iter_bytes i) = Z.to_nat (it_count i).
Proof.
  intros H0 Hw. destruct (decide (it_count i = 0)) as [E|E].
  { unfold iter_bytes. rewrite E. done. }
  destruct Hw as (v & vs & Hv & Ho & Hf & Ht); [lia|].
  unfold iter_bytes. rewrite length_take, length_drop.
  pose proof (vec_bytes_length (it_bvec i)) as HL. rewrite Hv in *. specialize (HL Hf). lia.
Qed.

(** The current segment is the front of the iterator. *)
Lemma iter_bytes_front i v vs n :
  wf_iter i -> it_bvec i = v :: vs -> 0 < n <= bv_len v - iov_offset i -> n <= it_count i ->
  seg_bytes (mk_seg (BPage (bv_page v)) (bv_offset v + iov_offset i) n)
  = take (Z.to_nat n) (iter_bytes i).
Proof.
  intros Hw Hv Hn Hc. destruct Hw as (v' & vs' & Hv' & Ho & Hf & Ht); [lia|].
  rewrite Hv in Hv'. injection Hv' as <- <-.
  unfold iter_bytes. rewrite take_take, Nat.min_l by lia. rewrite Hv. simpl.
  rewrite drop_app_le by (unfold vec_bytes; rewrite seg_bytes_length; lia).
  unfold vec_bytes at 1. rewrite seg_bytes_drop by lia.
  rewrite take_app_le by (rewrite seg_bytes_length; lia). by rewrite seg_bytes_take by lia.
Qed.

(** The data of a request from its current bio on, what follows the current
    bio, and what is left from the iterator on. *)
Definition bios_bytes (l : list hbio) : list (buf * Z) :=
  concat ((fun b => iter_bytes (bio_iter b)) <$> l).
Definition init_bytes (req : nvme_tcp_request) : list (buf * Z) :=
  match special_vec req with Some v => vec_bytes v | None => bios_bytes (curr_bio req) end.
Definition next_bytes (req : nvme_tcp_request) : list (buf * Z) :=
  match special_vec req with Some _ => [] | None => bios_bytes (tail (curr_bio req)) end.
Definition rest_bytes (req : nvme_tcp_request) : list (buf * Z) :=
  iter_bytes (iter req) ++ next_bytes req.

Definition wf_bios (req : nvme_tcp_request) : Prop :=
  match special_vec req with
  | Some v => 0 < bv_len v < 2 ^ 32
  | None => curr_bio req <> [] /\ Forall wf_bio (curr_bio req)
  end.

(** A request in the middle of its data: the iterator stands before data, and
    what is left of the PDU is within what is left of the request. *)
Record wf_data (req : nvme_tcp_request) : Prop := {
  wd_write : is_write req = true;
  wd_pdu : 0 <= pdu_sent req < pdu_len req;
  wd_sent : 0 <= data_sent req;
  wd_within : pdu_len req - pdu_sent req <= r_data_len req - data_sent req;
  wd_max : r_data_len req < 2 ^ 32 /\ pdu_len req < 2 ^ 32;
  wd_iter : wf_iter (iter req);
  wd_count : 0 < it_count (iter req);
  wd_bios : wf_bios req;
  wd_rest : Z.of_nat (length (rest_bytes req)) = r_data_len req - data_sent req;
}.

Lemma init_iter_ok req :
  wf_bios req ->
  exists i, nvme_tcp_init_iter req = Some (req <| iter := i |>) /\ wf_iter i /\ 0 < it_count i
    /\ rest_bytes (req <| iter := i |>) = init_bytes req.
Proof.
  unfold wf_bios, nvme_tcp_init_iter, rest_bytes, next_bytes, init_bytes. simpl.
  destruct (special_vec req) as [v|] eqn:E.
  - intros Hv. eexists. split; [done|]. unfold blk_rq_payload_bytes. rewrite E. simpl.
    split; [|split; [lia|]].
    + intros _. exists v, []. simpl. split; [done|]. split; [lia|]. split; [by rewrite Forall_singleton|lia].
    + rewrite app_nil_r. unfold iter_bytes. simpl. rewrite app_nil_r.
      apply take_ge. unfold vec_bytes. by rewrite seg_bytes_length.
  - intros [Hne Hall]. destruct (curr_bio req) as [|b l]; [done|]. simpl.
    apply Forall_cons in Hall as [[Hs Hw] _]. eexists. split; [reflexivity|]. split; [exact Hw|].
    split; [done|]. reflexivity.
Qed.

Section data.
Context {pr : NvmeTcpProto} {it : IovIter} {itl : IovIterLaws it}.

Lemma cur_seg_ok req :
  wf_data req ->
  exists v vs len, it_bvec (iter req) = v :: vs
    /\ nvme_tcp_req_cur_page req = Some (bv_page v)
    /\ nvme_tcp_req_cur_offset req = Some (bv_offset v + iov_offset (iter req))
    /\ nvme_tcp_req_cur_length req = Some len
    /\ nvme_tcp_pdu_last_send req len = (pdu_len req - pdu_sent req =? len)
    /\ 0 < len <= bv_len v - iov_offset (iter req) /\ len <= pdu_len req - pdu_sent req
    /\ len <= it_count (iter req) /\ len < 2 ^ 32.
Proof.
  intros [H1 H2 H3 H4 H5 H6 H7 H8 H9]. destruct H6 as (v & vs & Hv & Ho & Hf & Ht); [done|].
  pose proof Hf as Hf'. apply Forall_cons in Hf' as [Hb Hvs].
  unfold nvme_tcp_req_cur_page, nvme_tcp_req_cur_offset, nvme_tcp_req_cur_length,
    nvme_tcp_pdu_last_send, nvme_tcp_pdu_data_left. rewrite Hv, H1. simpl.
  rewrite u32_small by lia. rewrite u64_small by lia.
  exists v, vs, (Z.min (bv_len v - iov_offset (iter req)) (pdu_len req - pdu_sent req)).
  assert (0 <= vec_total vs) as Hvt.
  { clear -Hvs. induction Hvs as [|x l Hx _ IH]; simpl; [done|]. unfold vec_total in *. lia. }
  simpl in Ht. fold (vec_total vs) in Ht. split_and!; try done; lia.
Qed.

Lemma advance_req_ok req n v vs :
  wf_data req -> it_bvec (iter req) = v :: vs -> 0 < n <= bv_len v - iov_offset (iter req) ->
  n <= pdu_len req - pdu_sent req -> n <= it_count (iter req) ->
  exists i cb, nvme_tcp_advance_req req n
      = Some (req <| data_sent := data_sent req + n |> <| pdu_sent := pdu_sent req + n |>
                  <| iter := i |> <| curr_bio := cb |>)
    /\ forall req', req' = req <| data_sent := data_sent req + n |> <| pdu_sent := pdu_sent req + n |>
                  <| iter := i |> <| curr_bio := cb |> ->
       rest_bytes req' = drop (Z.to_nat n) (rest_bytes req)
       /\ (pdu_sent req + n < pdu_len req -> wf_data req').
Proof.
  intros [H1 H2 H3 H4 H5 H6 H7 H8 H9] Hv Hn Hp Hc.
  destruct (advance_ok (iter req) v vs n H6 Hv Hn Hc) as (W1 & W2 & W3).
  set (req1 := req <| data_sent := data_sent req + n |> <| pdu_sent := pdu_sent req + n |>
                   <| iter := iov_iter_advance (iter req) n |>).
  assert (nvme_tcp_advance_req req n
    = if (it_count (iter req) - n =? 0) && (data_sent req + n <? r_data_len req)
      then match curr_bio req with [] => None | _ :: l => nvme_tcp_init_iter (req1 <| curr_bio := l |>) end
      else Some req1) as ->.
  { rewrite <- W2. unfold req1. rewrite <- (u64_small (data_sent req + n)) by lia.
    rewrite <- (u32_small (pdu_sent req + n)) by lia. reflexivity. }
  pose proof (iter_bytes_length (iter req) ltac:(lia) H6) as Hlen.
  unfold rest_bytes in H9. rewrite length_app in H9.
  destruct (it_count (iter req) - n =? 0) eqn:E0; simpl.
  2: { exists (iov_iter_advance (iter req) n), (curr_bio req). split.
       { reflexivity. }
       intros req' ->. unfold rest_bytes, next_bytes, wf_bios. simpl.
       assert (iter_bytes (iov_iter_advance (iter req) n) ++ next_bytes req
         = drop (Z.to_nat n) (iter_bytes (iter req) ++ next_bytes req)) as Hd.
       { rewrite drop_app_le by lia. by rewrite W3. }
       split; [exact Hd|]. intros Hlt. constructor; simpl; try done; try lia.
       unfold rest_bytes at 1. simpl. fold (next_bytes req).
       change (Z.of_nat (length (iter_bytes (iov_iter_advance (iter req) n) ++ next_bytes req))
         = r_data_len req - (data_sent req + n)).
       rewrite Hd, length_drop, length_app. lia. }
  assert (drop (Z.to_nat n) (iter_bytes (iter req) ++ next_bytes req) = next_bytes req) as Hd.
  { rewrite drop_app_ge by lia. replace (Z.to_nat n - _)%nat with O by lia. done. }
  assert (iter_bytes (iov_iter_advance (iter req) n) = []) as Hnil.
  { apply length_zero_iff_nil. rewrite W3, length_drop. lia. }
  destruct (data_sent req + n <? r_data_len req) eqn:E1.
  2: { exists (iov_iter_advance (iter req) n), (curr_bio req). split; [reflexivity|].
       intros req' ->. unfold rest_bytes. simpl. rewrite Hnil. split; [symmetry; exact Hd|]. lia. }
  destruct (special_vec req) as [sv|] eqn:Esp.
  { unfold next_bytes in H9. rewrite Esp in H9. simpl in H9. lia. }
  unfold wf_bios in H8. rewrite Esp in H8. destruct H8 as [Hne Hall].
  assert (next_bytes req = bios_bytes (tail (curr_bio req))) as Hnext
    by (unfold next_bytes; by rewrite Esp).
  destruct (curr_bio req) as [|b l] eqn:Ecb; [done|]. simpl in Hnext.
  apply Forall_cons in Hall as [_ Hall].
  assert (l <> []) as Hl by (intros ->; rewrite Hnext in H9; simpl in H9; lia).
  destruct (init_iter_ok (req1 <| curr_bio := l |>)) as (i & -> & I1 & I2 & I3).
  { unfold wf_bios. simpl. by rewrite Esp. }
  exists i, l. split; [reflexivity|]. intros req' ->.
  assert (init_bytes (req1 <| curr_bio := l |>) = next_bytes req) as Hinit.
  { unfold init_bytes. simpl. by rewrite Esp, Hnext. }
  rewrite Hinit in I3. change (req1 <| curr_bio := l |> <| iter := i |>) with
    (req <| data_sent := data_sent req + n |> <| pdu_sent := pdu_sent req + n |>
         <| iter := i |> <| curr_bio := l |>) in I3.
  split; [by rewrite I3|]. intros Hlt. constructor; simpl; try done; try lia.
  - unfold wf_bios. simpl. by rewrite Esp.
  - rewrite I3. lia.
Qed.
End data.

(** ** The caravan *)

Section stream.
Context {pr : NvmeTcpProto} {it : IovIter} {sk : HostSock} (e : host_env).

(** The arrays have the size they are allocated with and are filled up to
    their counters; the length is that of the segments; the mapped pages are
    those of the caravan; the legacy path has no caravan. *)
Record car_wf (q : nvme_tcp_queue) : Prop := {
  cw_iovs : length (caravan_iovs q) = Z.to_nat (max_aggregation e * 2);
  cw_pages : length (caravan_mapped q) = Z.to_nat (max_aggregation e);
  cw_nr : 0 <= nr_iovs q <= max_aggregation e * 2;
  cw_nr_mapped : 0 <= nr_mapped q <= max_aggregation e /\ nr_mapped q <= nr_iovs q;
  cw_len : caravan_len q = total (caravan q);
  cw_pos : Forall (fun s => 0 < sg_len s) (caravan q);
  cw_kmaps : kmaps q ≡ₚ caravan_pages q;
  cw_legacy : i10_host_legacy_path e q = true -> nr_iovs q = 0;
}.

Definition out_bytes (q : nvme_tcp_queue) : list (buf * Z) :=
  wire q ++ concat (seg_bytes <$> caravan q).

Lemma take_insert_snoc {A} (l : list A) (n : Z) x :
  0 <= n -> (Z.to_nat n < length l)%nat ->
  take (Z.to_nat (n + 1)) (<[Z.to_nat n := x]> l) = take (Z.to_nat n) l ++ [x].
Proof.
  intros Hn Hl. replace (Z.to_nat (n + 1)) with (S (Z.to_nat n)) by lia.
  rewrite (take_S_r _ _ x) by (by rewrite list_lookup_insert_eq).
  by rewrite take_insert_ge by lia.
Qed.

Lemma total_app l1 l2 : total (l1 ++ l2) = total l1 + total l2.
Proof. unfold total. induction l1 as [|s l IH]; simpl; lia. Qed.

Lemma max_aggregation_pos : 0 < max_aggregation e.
Proof. unfold max_aggregation. by destruct (driver e). Qed.

Lemma not_full q :
  i10_host_is_caravan_full e q = false ->
  caravan_len q < I10_CARAVAN_CAPACITY /\ nr_iovs q < max_aggregation e * 2
  /\ nr_mapped q < max_aggregation e.
Proof. unfold i10_host_is_caravan_full. lia. Qed.

Lemma car_len_pos q : car_wf q -> 0 <= caravan_len q.
Proof.
  intros [_ _ _ _ -> Hp _ _]. unfold total. induction Hp as [|s l Hs _ IH]; simpl; lia.
Qed.

Lemma total_pos l : Forall (fun s => 0 < sg_len s) l -> l <> [] -> 0 < total l.
Proof.
  intros Hl Hne. destruct Hl as [|s l Hs Hl]; [done|]. simpl.
  assert (0 <= total l); [|unfold total in *; lia].
  clear Hne. unfold total. induction Hl as [|x l Hx _ IH]; simpl; lia.
Qed.

(** A caravan with a segment has bytes, and so has a full one. *)
Lemma car_nonempty q : car_wf q -> 0 < nr_iovs q -> 0 < caravan_len q.
Proof.
  intros [W1 W2 W3 W4 -> W6 _ _] Hn. apply total_pos; [done|]. intros Hc.
  apply (f_equal length) in Hc. unfold caravan in Hc.
  rewrite length_take, W1 in Hc. cbn [length] in Hc. lia.
Qed.
Lemma full_pos q : car_wf q -> i10_host_is_caravan_full e q = true -> 0 < caravan_len q.
Proof.
  intros Hw Hf. pose proof (cw_nr_mapped _ Hw) as [_ Hm]. unfold i10_host_is_caravan_full in Hf.
  destruct (decide (0 < nr_iovs q)) as [Hn|Hn]; [by apply car_nonempty|].
  unfold I10_CARAVAN_CAPACITY in *. pose proof max_aggregation_pos. lia.
Qed.

Lemma caravan_add_ok s q :
  car_wf q -> i10_host_legacy_path e q = false -> i10_host_is_caravan_full e q = false ->
  0 < sg_len s < 2 ^ 32 ->
  exists iovs q', caravan_add s q = Some q'
    /\ q' = q <| caravan_iovs := iovs |> <| nr_iovs := nr_iovs q + 1 |>
              <| caravan_len := caravan_len q + sg_len s |>
    /\ car_wf q' /\ caravan q' = caravan q ++ [s].
Proof.
  intros Hw Hleg (F1 & F2 & F3)%not_full Hs. pose proof (car_len_pos _ Hw) as Hc.
  destruct Hw as [W1 W2 W3 W4 W5 W8 W6 W7].
  unfold caravan_add. rewrite aset_lt by (rewrite W1; lia). simpl.
  eexists (<[Z.to_nat (nr_iovs q) := s]> (caravan_iovs q)), _. split; [reflexivity|].
  split; [unfold I10_CARAVAN_CAPACITY in F1; rewrite <- (u64_small (caravan_len q + sg_len s)) by lia;
          reflexivity|].
  assert (take (Z.to_nat (nr_iovs q + 1)) (<[Z.to_nat (nr_iovs q) := s]> (caravan_iovs q))
    = caravan q ++ [s]) as Hcar by (apply take_insert_snoc; lia).
  split; [|exact Hcar].
  constructor; simpl; try done.
  - by rewrite length_insert.
  - lia.
  - lia.
  - unfold caravan at 1. simpl. rewrite Hcar, total_app, <- W5. simpl.
    unfold I10_CARAVAN_CAPACITY in F1. rewrite u64_small by lia. lia.
  - unfold caravan at 1. simpl. rewrite Hcar. apply Forall_app. split; [done|]. apply Forall_singleton. lia.
  - intros Hl. change (i10_host_legacy_path e q = true) in Hl. congruence.
Qed.

Lemma caravan_add_page_ok page s q :
  car_wf q -> i10_host_legacy_path e q = false -> i10_host_is_caravan_full e q = false ->
  0 < sg_len s < 2 ^ 32 ->
  exists iovs m q', caravan_add_page page s q = Some q'
    /\ q' = q <| caravan_iovs := iovs |> <| nr_iovs := nr_iovs q + 1 |>
              <| caravan_len := caravan_len q + sg_len s |> <| kmaps := page :: kmaps q |>
              <| caravan_mapped := m |> <| nr_mapped := nr_mapped q + 1 |>
    /\ car_wf q' /\ caravan q' = caravan q ++ [s].
Proof.
  intros Hw Hleg Hf Hs. pose proof (not_full _ Hf) as (_ & _ & F3).
  pose proof (cw_nr_mapped _ Hw) as [_ Hle].
  destruct (caravan_add_ok s q Hw Hleg Hf Hs) as (iovs & q1 & E1 & Eq & [W1 W2 W3 W4 W5 W8 W6 W7] & Ec).
  unfold caravan_add_page. rewrite E1. simpl.
  assert (nr_mapped q1 = nr_mapped q) as Hnm by (by rewrite Eq).
  rewrite aset_lt by (rewrite W2; lia). simpl. subst q1.
  eexists iovs, _, _. split; [reflexivity|]. split; [reflexivity|]. split; [|exact Ec].
  constructor; simpl; try done.
  - by rewrite length_insert.
  - pose proof max_aggregation_pos. lia.
  - unfold caravan_pages. simpl. rewrite take_insert_snoc; simpl in W2, W4; [|lia|].
    + rewrite <- W6. unfold caravan_pages. simpl. by rewrite Permutation_app_comm.
    + rewrite W2. lia.
Qed.

Lemma legacy_caravan q : car_wf q -> i10_host_legacy_path e q = true -> caravan q = [].
Proof. intros Hw Hl. unfold caravan. by rewrite (cw_legacy _ Hw Hl). Qed.

(** What sending leaves alone. *)
Definition static (q : nvme_tcp_queue) :=
  (nq_id q, prio_class q, send_list q, cmnd_capsule_len q, hdr_digest q, data_digest q).
Definition frame (q : nvme_tcp_queue) := (static q, nq_request q, reqs q).

Lemma static_hdgst q q' : static q' = static q -> nvme_tcp_hdgst_len q' = nvme_tcp_hdgst_len q.
Proof. unfold static, nvme_tcp_hdgst_len. by intros [= _ _ _ _ -> _]. Qed.
Lemma static_inline q q' req :
  static q' = static q -> nvme_tcp_has_inline_data q' req = nvme_tcp_has_inline_data q req.
Proof.
  unfold static, nvme_tcp_has_inline_data, nvme_tcp_inline_data_size. by intros [= _ _ _ -> _ _].
Qed.
Lemma static_legacy q q' : static q' = static q -> i10_host_legacy_path e q' = i10_host_legacy_path e q.
Proof. unfold static, i10_host_legacy_path, i10_host_is_latency. by intros [= -> -> _ _ _ _]. Qed.

(** A segment handed to the socket. *)
Lemma sock_sent_ok ret s q :
  car_wf q -> i10_host_legacy_path e q = true ->
  frame (sock_sent ret [s] q) = frame q /\ car_wf (sock_sent ret [s] q)
  /\ out_bytes (sock_sent ret [s] q) = out_bytes q ++ take (Z.to_nat ret) (seg_bytes s).
Proof.
  intros Hw Hl. split; [done|]. split; [by destruct Hw; constructor|].
  unfold out_bytes. change (caravan (sock_sent ret [s] q)) with (caravan q).
  rewrite legacy_caravan by done. simpl. by rewrite !app_nil_r.
Qed.

(** A segment put into the caravan, and the same with the page of the data. *)
Lemma caravan_add_frame s q :
  car_wf q -> i10_host_legacy_path e q = false -> i10_host_is_caravan_full e q = false ->
  0 < sg_len s < 2 ^ 32 ->
  exists q', caravan_add s q = Some q' /\ frame q' = frame q /\ car_wf q' /\ wire q' = wire q
    /\ out_bytes q' = out_bytes q ++ seg_bytes s /\ 0 < caravan_len q'.
Proof.
  intros Hw Hl Hf Hs. destruct (caravan_add_ok s q Hw Hl Hf Hs) as (iovs & q' & E1 & Eq & Hw' & Ec).
  exists q'. split; [done|]. split; [by subst q'|]. split; [done|].
  split; [by subst q'|]. pose proof (cw_nr _ Hw). split.
  2: { apply car_nonempty; [done|]. subst q'. simpl. lia. }
  unfold out_bytes. rewrite Ec, fmap_app, concat_app. simpl. rewrite app_nil_r, app_assoc.
  f_equal. by subst q'.
Qed.
Lemma caravan_add_page_frame page s q :
  car_wf q -> i10_host_legacy_path e q = false -> i10_host_is_caravan_full e q = false ->
  0 < sg_len s < 2 ^ 32 ->
  exists q', caravan_add_page page s q = Some q' /\ frame q' = frame q /\ car_wf q'
    /\ wire q' = wire q /\ out_bytes q' = out_bytes q ++ seg_bytes s /\ 0 < caravan_len q'.
Proof.
  intros Hw Hl Hf Hs.
  destruct (caravan_add_page_ok page s q Hw Hl Hf Hs) as (iovs & m & q' & E1 & Eq & Hw' & Ec).
  exists q'. split; [done|]. split; [by subst q'|]. split; [done|].
  split; [by subst q'|]. pose proof (cw_nr _ Hw). split.
  2: { apply car_nonempty; [done|]. subst q'. simpl. lia. }
  unfold out_bytes. rewrite Ec, fmap_app, concat_app. simpl. rewrite app_nil_r, app_assoc.
  f_equal. by subst q'.
Qed.

(** ** What a request owes *)

Definition req_bytes (q : nvme_tcp_queue) (r : Z) (req : nvme_tcp_request) : list (buf * Z) :=
  let hdr_left size := seg_bytes (mk_seg (BPdu r) (offset req)
                                    (size + nvme_tcp_hdgst_len q - offset req)) in
  let data_left l := take (Z.to_nat (pdu_len req - pdu_sent req)) l in
  match state req with
  | NVME_TCP_SEND_CMD_PDU =>
    hdr_left sizeof_cmd_pdu
    ++ if nvme_tcp_has_inline_data q req then data_left (init_bytes req) else []
  | NVME_TCP_SEND_H2C_PDU =>
    hdr_left sizeof_data_pdu
    ++ data_left (if data_sent req =? 0 then init_bytes req else rest_bytes req)
  | NVME_TCP_SEND_DATA => data_left (rest_bytes req)
  | NVME_TCP_SEND_DDGST => []
  end.

Definition wf_start (req : nvme_tcp_request) : Prop :=
  wf_bios req /\ forall i, wf_iter i -> 0 < it_count i ->
    rest_bytes (req <| iter := i |>) = init_bytes req -> wf_data (req <| iter := i |>).

Definition wf_hdr (q : nvme_tcp_queue) (size : Z) (req : nvme_tcp_request) : Prop :=
  0 <= offset req < size + nvme_tcp_hdgst_len q
  /\ (i10_host_legacy_path e q = false -> offset req = 0).

Definition wf_req (q : nvme_tcp_queue) (req : nvme_tcp_request) : Prop :=
  match state req with
  | NVME_TCP_SEND_CMD_PDU =>
    wf_hdr q sizeof_cmd_pdu req /\ (nvme_tcp_has_inline_data q req = true -> wf_start req)
  | NVME_TCP_SEND_H2C_PDU =>
    wf_hdr q sizeof_data_pdu req /\ (if data_sent req =? 0 then wf_start req else wf_data req)
  | NVME_TCP_SEND_DATA => wf_data req
  | NVME_TCP_SEND_DDGST => False
  end.

Lemma req_bytes_static q q' r req : static q' = static q -> req_bytes q' r req = req_bytes q r req.
Proof.
  intros H. unfold req_bytes. rewrite (static_hdgst _ _ H), (static_inline _ _ req H). done.
Qed.
Lemma wf_req_static q q' req : static q' = static q -> wf_req q' req <-> wf_req q req.
Proof.
  intros H. unfold wf_req, wf_hdr.
  rewrite (static_hdgst _ _ H), (static_inline _ _ req H), (static_legacy _ _ H). done.
Qed.

Definition cur_bytes (q : nvme_tcp_queue) : list (buf * Z) :=
  match nq_request q with
  | Some r => from_option (req_bytes q r) [] (reqs q !! r)
  | None => []
  end.
End stream.
