(* ===== verification/NvmeTcpStream.v ===== *)
(** * NVMe/TCP host: [nvme_tcp_try_send] keeps the byte stream

    Every step of [nvme_tcp_try_send] moves bytes of the stream forward without
    repeating or reordering any, on the legacy path and through caravans, and
    stays within the arrays of the caravan.  Bytes are lost in one case only: the
    driver takes every positive result of [kernel_sendmsg] for a complete send,
    so what a short send of a caravan leaves over is dropped. *)
From S2P Require Import Prelude NvmeTcpMap NvmeTcp NvmeTcpSend NvmeTcpSendSpec.

(** The documented results of the socket: an error or the number of bytes that
    were accepted, which is no more than was given. *)
Class HostSockLaws (sk : HostSock) : Prop := {
  sendpage_le : forall n s, kernel_sendpage n s <= sg_len s;
  no_sendpage_le : forall n s, sock_no_sendpage n s <= sg_len s;
  sendmsg_le : forall n l size, kernel_sendmsg n l size <= size;
}.

Section stream.
Context {pr : NvmeTcpProto} {it : IovIter} {itl : IovIterLaws it} {sk : HostSock}
  {skl : HostSockLaws sk} (e : host_env).

(** One step of sending the current request [r]. *)
Record progress (r : Z) (q q' : nvme_tcp_queue) : Prop := {
  pg_static : static q' = static q;
  pg_req : exists req', reqs q' = <[r := req']> (reqs q) /\ state req' <> NVME_TCP_SEND_DDGST
    /\ (nq_request q' = Some r /\ wf_req e q' req' \/ nq_request q' = None);
  pg_car : car_wf e q';
  pg_wire : wire q `prefix_of` wire q';
  pg_bytes : out_bytes q' ++ cur_bytes q' = out_bytes q ++ cur_bytes q;
}.

Lemma progress_trans r q1 q2 q3 : progress r q1 q2 -> progress r q2 q3 -> progress r q1 q3.
Proof.
  intros [A1 (x & A2 & A3 & A4) A5 A7 A6] [B1 (y & B2 & B3 & B4) B5 B7 B6].
  constructor; [congruence| |done|by etrans|congruence].
  exists y. rewrite B2, A2, insert_insert_eq. done.
Qed.

Lemma frame_inv q st r l : frame q = (st, r, l) -> static q = st /\ nq_request q = r /\ reqs q = l.
Proof.
  intros H. split; [exact (f_equal (fun x => x.1.1) H)|].
  split; [exact (f_equal (fun x => x.1.2) H)|exact (f_equal snd H)].
Qed.

(** The current request goes on as [req'], owing [y] instead of [l ++ y]. *)
Lemma progress_on r q q' req req' l y :
  nq_request q = Some r -> reqs q !! r = Some req -> frame q' = (static q, Some r, <[r := req']> (reqs q)) ->
  wf_req e q' req' -> car_wf e q' -> wire q `prefix_of` wire q' ->
  out_bytes q' = out_bytes q ++ l ->
  req_bytes q r req = l ++ y -> req_bytes q' r req' = y -> progress r q q'.
Proof.
  intros Hr Hreq (H1 & H2 & H3)%frame_inv Hw Hc Hp Ho Hb Hb'.
  constructor; [exact H1| |done|done|].
  - exists req'. split; [done|]. split; [|by left]. intros Hs. unfold wf_req in Hw. by rewrite Hs in Hw.
  - unfold cur_bytes. rewrite Hr, H2, H3, Hreq, lookup_insert_eq. simpl.
    by rewrite Ho, Hb, Hb', app_assoc.
Qed.

(** The current request is done. *)
Lemma progress_done r q q' req req' l :
  nq_request q = Some r -> reqs q !! r = Some req -> frame q' = (static q, None, <[r := req']> (reqs q)) ->
  state req' <> NVME_TCP_SEND_DDGST -> car_wf e q' -> wire q `prefix_of` wire q' ->
  out_bytes q' = out_bytes q ++ l ->
  req_bytes q r req = l -> progress r q q'.
Proof.
  intros Hr Hreq (H1 & H2 & H3)%frame_inv Hs Hc Hp Ho Hb.
  constructor; [exact H1| |done|done|].
  - exists req'. split; [done|]. split; [done|]. by right.
  - unfold cur_bytes. rewrite Hr, H2, Hreq. simpl. by rewrite Ho, Hb, app_nil_r.
Qed.

(** Nothing moves. *)
Lemma progress_stay r q q' req :
  nq_request q = Some r -> reqs q !! r = Some req -> frame q' = frame q ->
  wf_req e q req -> car_wf e q' -> wire q `prefix_of` wire q' -> out_bytes q' = out_bytes q ->
  progress r q q'.
Proof.
  intros Hr Hreq Hf Hw Hc Hp Ho. apply frame_inv in Hf as (H1 & H2 & H3).
  apply (progress_on r q q' req req [] (req_bytes q r req)); try done.
  - unfold frame. by rewrite H1, H2, H3, Hr, insert_id.
  - by rewrite (wf_req_static e q q').
  - by rewrite Ho, app_nil_r.
  - by apply req_bytes_static.
Qed.

(** How a step ends: the legacy path only stops when the socket took less than
    it was given; the other path never stops and leaves bytes in the caravan. *)
Definition outcome (q : nvme_tcp_queue) (ret : Z) (q' : nvme_tcp_queue) : Prop :=
  if i10_host_legacy_path e q then ret <= 0 -> sock_short q' = true
  else 0 < ret /\ 0 < caravan_len q'.

Lemma outcome_static q1 q2 ret q' : static q2 = static q1 -> outcome q2 ret q' -> outcome q1 ret q'.
Proof. intros H. unfold outcome. by rewrite (static_legacy e q1 q2). Qed.

(** The caravan is full. *)
Lemma outcome_full q :
  car_wf e q -> negb (i10_host_legacy_path e q) && i10_host_is_caravan_full e q = true ->
  outcome q 1 (q <| send_now := true |>).
Proof.
  intros Hw H. apply andb_true_iff in H as [H1 H2]. unfold outcome. apply negb_true_iff in H1.
  rewrite H1. split; [lia|]. by apply (full_pos e q).
Qed.

(** The step goes on after a transfer. *)
Lemma outcome_one q ret q1 q2 : outcome q ret q1 -> caravan_len q2 = caravan_len q1 -> outcome q 1 q2.
Proof. unfold outcome. destruct (i10_host_legacy_path e q); [lia|]. intros [] ->. lia. Qed.

(** ** The loop over the data *)

Lemma data_transfer req q v len :
  car_wf e q -> i10_host_legacy_path e q = true \/ i10_host_is_caravan_full e q = false ->
  0 < len < 2 ^ 32 ->
  let s := mk_seg (BPage (bv_page v)) (bv_offset v + iov_offset (iter req)) len in
  exists ret q1, (if i10_host_legacy_path e q
      then let ret := if PageSlab (bv_page v) then sock_no_sendpage (sock_calls q) s
                      else kernel_sendpage (sock_calls q) s in
           Some (ret, sock_sent ret [s] q)
      else q ← caravan_add_page (bv_page v) s q; Some (len, q)) = Some (ret, q1)
    /\ ret <= len /\ frame q1 = frame q /\ car_wf e q1 /\ wire q `prefix_of` wire q1
    /\ out_bytes q1 = out_bytes q ++ take (Z.to_nat ret) (seg_bytes s) /\ outcome q ret q1.
Proof.
  intros Hw Hor Hlen s. destruct (i10_host_legacy_path e q) eqn:El.
  - set (ret := if PageSlab (bv_page v) then _ else _).
    destruct (sock_sent_ok e ret s q Hw El) as (F1 & F2 & F3).
    exists ret, (sock_sent ret [s] q). split; [done|]. split.
    2: { split; [done|]. split; [done|]. split; [by apply prefix_app_r|]. split; [done|].
         unfold outcome. rewrite El. intros Hret. simpl. lia. }
    unfold ret. destruct (PageSlab (bv_page v)); [apply (no_sendpage_le _ s)|apply (sendpage_le _ s)].
  - destruct Hor as [?|Hf]; [done|].
    destruct (caravan_add_page_frame e (bv_page v) s q Hw El Hf) as (q1 & -> & F1 & F2 & F4 & F3 & F5);
      [simpl; lia|].
    exists len, q1. split; [done|]. split; [lia|]. split; [done|]. split; [done|].
    split; [by rewrite F4|]. split; [|unfold outcome; rewrite El; lia].
    rewrite F3. f_equal. rewrite take_ge; [done|]. unfold s. rewrite seg_bytes_length. lia.
Qed.

Lemma take_drop_take {A} (l : list A) (n m : Z) :
  0 <= n <= m -> take (Z.to_nat m) l = take (Z.to_nat n) l ++ take (Z.to_nat (m - n)) (drop (Z.to_nat n) l).
Proof.
  intros H. rewrite <- (take_drop (Z.to_nat n) (take (Z.to_nat m) l)).
  rewrite take_take, Nat.min_l by lia. f_equal. rewrite skipn_firstn_comm. f_equal. lia.
Qed.

(** The bytes of the current segment are the next of the request. *)
Lemma cur_bytes_front req v vs len ret :
  wf_data req -> it_bvec (iter req) = v :: vs -> len <= bv_len v - iov_offset (iter req) ->
  len <= it_count (iter req) -> 0 < ret <= len ->
  take (Z.to_nat ret) (seg_bytes (mk_seg (BPage (bv_page v)) (bv_offset v + iov_offset (iter req)) len))
  = take (Z.to_nat ret) (rest_bytes req).
Proof.
  intros Hd Hv Hb Hc Hr. rewrite seg_bytes_take by lia.
  rewrite (iter_bytes_front _ v vs) by (try apply Hd; try done; lia).
  unfold rest_bytes. rewrite take_app_le; [done|].
  rewrite iter_bytes_length; [lia| |apply Hd]. pose proof (wd_count _ Hd). lia.
Qed.

(** One turn that moved [ret] bytes. *)
Lemma data_turn r q q1 req v vs len ret i cb :
  nq_request q = Some r -> reqs q !! r = Some req -> state req = NVME_TCP_SEND_DATA -> wf_data req ->
  it_bvec (iter req) = v :: vs -> len <= bv_len v - iov_offset (iter req) ->
  len <= it_count (iter req) -> len <= pdu_len req - pdu_sent req -> 0 < ret <= len ->
  frame q1 = frame q -> car_wf e q1 -> wire q `prefix_of` wire q1 ->
  out_bytes q1 = out_bytes q ++ take (Z.to_nat ret)
    (seg_bytes (mk_seg (BPage (bv_page v)) (bv_offset v + iov_offset (iter req)) len)) ->
  let req' := req <| data_sent := data_sent req + ret |> <| pdu_sent := pdu_sent req + ret |>
                  <| iter := i |> <| curr_bio := cb |> in
  rest_bytes req' = drop (Z.to_nat ret) (rest_bytes req) ->
  (pdu_sent req + ret = pdu_len req -> progress r q (nvme_tcp_done_send_req (put_req r req' q1)))
  /\ (wf_data req' -> progress r q (put_req r req' q1)).
Proof.
  intros Hr Hreq Hst Hd Hv Hb Hc Hp Hret Hf Hw Hpre Ho req' Hrest.
  erewrite cur_bytes_front in Ho by done. apply frame_inv in Hf as (F1 & F2 & F3).
  assert (req_bytes q r req = take (Z.to_nat ret) (rest_bytes req)
    ++ take (Z.to_nat (pdu_len req - pdu_sent req - ret)) (rest_bytes req')) as Hreqb.
  { unfold req_bytes. rewrite Hst, Hrest. apply take_drop_take. lia. }
  assert (forall q2, reqs q2 = reqs (put_req r req' q1) -> static q2 = static q1 ->
    frame q2 = (static q, nq_request q2, <[r := req']> (reqs q))) as Hfr.
  { intros q2 E1 E2. unfold frame. rewrite E1, E2, F1. simpl. by rewrite F3. }
  split.
  - intros Hlast. eapply progress_done; [done|done|by apply Hfr| | |exact Hpre|exact Ho|].
    + simpl. by rewrite Hst.
    + by destruct Hw; constructor.
    + rewrite Hreqb. replace (pdu_len req - pdu_sent req - ret) with 0 by lia. apply app_nil_r.
  - intros Hd'. eapply (progress_on r q _ req req'); [done|done| | | |exact Hpre|exact Ho|exact Hreqb|].
    + rewrite Hfr by done. simpl. by rewrite F2, Hr.
    + unfold wf_req. simpl. by rewrite Hst.
    + by destruct Hw; constructor.
    + unfold req_bytes. simpl. rewrite Hst. f_equal. lia.
Qed.

Lemma send_data_loop_ok r fuel q req :
  car_wf e q -> data_digest q = false -> nq_request q = Some r -> reqs q !! r = Some req ->
  state req = NVME_TCP_SEND_DATA -> wf_data req ->
  (Z.to_nat (pdu_len req - pdu_sent req) < fuel)%nat ->
  exists ret q', send_data_loop e fuel r q = Some (ret, q') /\ progress r q q' /\ outcome q ret q'.
Proof.
  revert q req. induction fuel as [|fuel IH]; intros q req Hw Hdg Hr Hreq Hst Hd Hfuel; [lia|].
  destruct (cur_seg_ok req Hd) as (v & vs & len & Hv & E1 & E2 & E3 & E4 & L1 & L2 & L3 & L4).
  simpl. rewrite Hreq. simpl. rewrite E1. simpl. rewrite E2. simpl. rewrite E3. simpl. rewrite E4.
  destruct (negb (i10_host_legacy_path e q) && i10_host_is_caravan_full e q) eqn:Efull.
  { eexists _, _. split; [reflexivity|]. split; [|by apply outcome_full].
    eapply progress_stay; try done.
    - unfold wf_req. by rewrite Hst.
    - by destruct Hw; constructor. }
  destruct (data_transfer req q v len Hw) as (ret & q1 & Et & T1 & T2 & T3 & T6 & T4 & T5); [|lia|].
  { destruct (i10_host_legacy_path e q), (i10_host_is_caravan_full e q); simpl in *; auto. }
  cbv zeta in Et. rewrite Et. cbn [mbind option_bind].
  pose proof (frame_inv _ _ _ _ T2) as (S1 & S2 & S3).
  destruct (ret <=? 0) eqn:E0.
  { eexists _, _. split; [reflexivity|]. split; [|done]. eapply progress_stay; try done.
    - unfold wf_req. by rewrite Hst.
    - rewrite T4. replace (Z.to_nat ret) with O by lia. simpl. apply app_nil_r. }
  destruct (advance_req_ok req ret v vs Hd Hv) as (i & cb & Ea & Hadv); [lia..|].
  rewrite Ea. cbn [mbind option_bind]. destruct (Hadv _ eq_refl) as [Hrest Hnext]. clear Hadv.
  assert (data_digest q1 = false) as Hdg1 by (injection S1 as _ _ _ _ _ ->; done).
  destruct (data_turn r q q1 req v vs len ret i cb) as [Pdone Pon]; try done; try lia.
  match type of Pon with wf_data ?x -> _ => set (req' := x) in * end.
  change (data_digest (put_req r req' q1)) with (data_digest q1). rewrite Hdg1. simpl.
  destruct ((pdu_len req - pdu_sent req =? len) && (ret =? len)) eqn:Elast.
  { change (data_digest (put_req r req' q1)) with (data_digest q1). rewrite Hdg1.
    eexists _, _. split; [reflexivity|]. split; [apply Pdone; lia|].
    by eapply outcome_one. }
  assert (wf_data req') as Hd' by (apply Hnext; lia).
  destruct (IH (put_req r req' q1) req') as (ret2 & q2 & E5 & P5 & O5); try done.
  - by destruct T3; constructor.
  - simpl. congruence.
  - simpl. apply lookup_insert_eq.
  - simpl. lia.
  - exists ret2, q2. split; [exact E5|]. split; [eapply progress_trans; [by apply Pon|exact P5]|].
    by apply (outcome_static q (put_req r req' q1)).
Qed.

(** ** The PDU headers *)

Lemma sizes q :
  0 < sizeof_cmd_pdu < 2 ^ 7 /\ 0 < sizeof_data_pdu < 2 ^ 7 /\ 0 <= nvme_tcp_hdgst_len q < 2 ^ 7.
Proof.
  pose proof sizes_ok as H. rewrite !Forall_cons in H. unfold nvme_tcp_hdgst_len.
  destruct (hdr_digest q); lia.
Qed.

(** Handing what is left of a header to the socket or the caravan. *)
Lemma hdr_transfer r q off unit len (g : nvme_tcp_queue -> nvme_tcp_queue) :
  car_wf e q -> i10_host_legacy_path e q = true \/ i10_host_is_caravan_full e q = false ->
  0 < len < 2 ^ 32 -> (i10_host_legacy_path e q = false -> off = 0) ->
  (forall q, frame (g q) = frame q /\ (car_wf e q -> car_wf e (g q)) /\ wire (g q) = wire q
    /\ out_bytes (g q) = out_bytes q /\ caravan_len (g q) = caravan_len q) ->
  exists ret q1, (if i10_host_legacy_path e q
      then let s := mk_seg (BPdu r) off len in
           let ret := kernel_sendpage (sock_calls q) s in
           Some (ret, sock_sent ret [s] q)
      else q ← caravan_add (mk_seg (BPdu r) (unit * off) len) q; Some (len, g q)) = Some (ret, q1)
    /\ ret <= len /\ (i10_host_legacy_path e q = false -> ret = len)
    /\ frame q1 = frame q /\ car_wf e q1 /\ wire q `prefix_of` wire q1
    /\ out_bytes q1 = out_bytes q ++ take (Z.to_nat ret) (seg_bytes (mk_seg (BPdu r) off len))
    /\ (i10_host_legacy_path e q = true -> ret < len -> sock_short q1 = true) /\ outcome q ret q1.
Proof.
  intros Hw Hor Hlen Hoff Hg. destruct (i10_host_legacy_path e q) eqn:El.
  - cbv zeta. set (s := mk_seg (BPdu r) off len). set (ret := kernel_sendpage _ _).
    destruct (sock_sent_ok e ret s q Hw El) as (F1 & F2 & F3).
    exists ret, (sock_sent ret [s] q). split; [done|]. split; [apply (sendpage_le _ s)|].
    split; [done|]. split; [done|]. split; [done|]. split; [by apply prefix_app_r|]. split; [done|].
    unfold outcome. rewrite El. split; intros; simpl; lia.
  - destruct Hor as [?|Hf]; [done|]. rewrite Hoff by done. rewrite Z.mul_0_r.
    destruct (caravan_add_frame e (mk_seg (BPdu r) 0 len) q Hw El Hf) as (q1 & -> & F1 & F2 & F4 & F3 & F5);
      [simpl; lia|].
    destruct (Hg q1) as (G1 & G2 & G4 & G3 & G5). exists len, (g q1). simpl. split; [done|]. split; [lia|].
    split; [done|]. split; [congruence|]. split; [auto|].
    split; [by rewrite G4, F4|]. split; [|split; [done|]; unfold outcome; rewrite El; lia].
    rewrite G3, F3. f_equal. rewrite take_ge; [done|]. rewrite seg_bytes_length. lia.
Qed.

Lemma wf_data_state req st : wf_data req -> wf_data (req <| state := st |>).
Proof. intros []. by constructor. Qed.

Lemma wf_data_offset req f : wf_data req -> wf_data (req <| offset ::= f |>).
Proof. intros []. by constructor. Qed.
Lemma wf_start_offset req f : wf_start req -> wf_start (req <| offset ::= f |>).
Proof.
  intros [Hb Hd]. split; [exact Hb|]. intros i I1 I2 I3.
  change (wf_data (req <| iter := i |> <| offset ::= f |>)). by apply wf_data_offset, Hd.
Qed.

(** The current request in a header state, after [ret] bytes of its header:
    more of the header follows, or the data. *)
Lemma hdr_turn r q q1 req size y ret :
  nq_request q = Some r -> reqs q !! r = Some req ->
  let len := size + nvme_tcp_hdgst_len q - offset req in
  req_bytes q r req = seg_bytes (mk_seg (BPdu r) (offset req) len) ++ y -> 0 < ret <= len ->
  frame q1 = frame q -> car_wf e q1 -> wire q `prefix_of` wire q1 ->
  out_bytes q1 = out_bytes q ++ take (Z.to_nat ret) (seg_bytes (mk_seg (BPdu r) (offset req) len)) ->
  (ret = len -> y = [] -> state req <> NVME_TCP_SEND_DDGST -> progress r q (nvme_tcp_done_send_req q1))
  /\ (forall req', ret = len -> wf_req e q req' -> req_bytes q r req' = y -> progress r q (put_req r req' q1))
  /\ (forall req', wf_req e q req' ->
       req_bytes q r req' = seg_bytes (mk_seg (BPdu r) (offset req + ret) (len - ret)) ++ y ->
       progress r q (put_req r req' q1)).
Proof.
  intros Hr Hreq len Hb Hret Hf Hw Hpre Ho. apply frame_inv in Hf as (F1 & F2 & F3).
  assert (ret = len -> take (Z.to_nat ret) (seg_bytes (mk_seg (BPdu r) (offset req) len))
    = seg_bytes (mk_seg (BPdu r) (offset req) len)) as Hall.
  { intros ->. apply take_ge. by rewrite seg_bytes_length. }
  assert (forall req', frame (put_req r req' q1) = (static q, Some r, <[r := req']> (reqs q))) as Hfr.
  { intros req'. unfold frame. change (static (put_req r req' q1)) with (static q1). simpl.
    by rewrite F1, F2, F3, Hr. }
  assert (forall req', car_wf e (put_req r req' q1)) as Hw' by (intros; by destruct Hw; constructor).
  split; [|split].
  - intros Hl Hy Hs. eapply (progress_done r q _ req req); [done|done| |done| |exact Hpre|exact Ho|].
    + unfold frame. change (static (nvme_tcp_done_send_req q1)) with (static q1). simpl.
      by rewrite F1, F3, insert_id.
    + by destruct Hw; constructor.
    + rewrite Hall, Hb, Hy by done. apply app_nil_r.
  - intros req' Hl Hwf Hy. eapply (progress_on r q _ req req'); [done|done|apply Hfr| |apply Hw'|exact Hpre|exact Ho| |].
    + by rewrite (wf_req_static e q).
    + rewrite Hall by done. exact Hb.
    + rewrite (req_bytes_static q) by done. exact Hy.
  - intros req' Hwf Hy. eapply (progress_on r q _ req req' _ (req_bytes q r req'));
      [done|done|apply Hfr| |apply Hw'|exact Hpre|exact Ho| |].
    + by rewrite (wf_req_static e q).
    + rewrite Hy, Hb. rewrite <- (take_drop (Z.to_nat ret) (seg_bytes (mk_seg (BPdu r) (offset req) len))) at 1.
      rewrite seg_bytes_drop by lia. by rewrite <- app_assoc.
    + by rewrite (req_bytes_static q).
Qed.

(** The step from the header to the data. *)
Lemma start_data req st :
  wf_start req ->
  exists i, nvme_tcp_init_iter (req <| state := st |>) = Some (req <| state := st |> <| iter := i |>)
    /\ wf_data (req <| state := st |> <| iter := i |>)
    /\ rest_bytes (req <| state := st |> <| iter := i |>) = init_bytes req.
Proof.
  intros [Hb Hd]. destruct (init_iter_ok (req <| state := st |>)) as (i & E & I1 & I2 & I3); [exact Hb|].
  exists i. split; [exact E|]. split; [|exact I3].
  change (wf_data (req <| iter := i |> <| state := st |>)). by apply wf_data_state, Hd.
Qed.

Lemma not_blocked q :
  negb (i10_host_legacy_path e q) && i10_host_is_caravan_full e q = false ->
  i10_host_legacy_path e q = true \/ i10_host_is_caravan_full e q = false.
Proof. destruct (i10_host_legacy_path e q), (i10_host_is_caravan_full e q); simpl; auto. Qed.

Lemma send_now_ok q :
  frame (q <| send_now := true |>) = frame q
  /\ (car_wf e q -> car_wf e (q <| send_now := true |>))
  /\ wire (q <| send_now := true |>) = wire q /\ out_bytes (q <| send_now := true |>) = out_bytes q
  /\ caravan_len (q <| send_now := true |>) = caravan_len q.
Proof. split; [done|]. split; [by intros []; constructor|done]. Qed.

Lemma cmd_pdu_ok r q req :
  car_wf e q -> data_digest q = false -> nq_request q = Some r -> reqs q !! r = Some req ->
  state req = NVME_TCP_SEND_CMD_PDU -> wf_req e q req ->
  exists ret q', nvme_tcp_try_send_cmd_pdu e r q = Some (ret, q') /\ progress r q q' /\ outcome q ret q'
    /\ exists req', reqs q' !! r = Some req'
       /\ (nq_request q' = None -> nvme_tcp_has_inline_data q' req' = false).
Proof.
  intros Hw Hdg Hr Hreq Hst Hwf. pose proof Hwf as Hwf0. pose proof (sizes q) as (Z1 & _ & Z3).
  unfold wf_req in Hwf. rewrite Hst in Hwf. destruct Hwf as [[Hoff Hoff0] Hstart].
  unfold nvme_tcp_try_send_cmd_pdu. rewrite Hreq. simpl. rewrite s32_small by lia.
  destruct (negb (i10_host_legacy_path e q) && i10_host_is_caravan_full e q) eqn:Efull.
  { destruct (send_now_ok q) as (S1 & S2 & S4 & S3 & _). eexists _, _. split; [reflexivity|].
    split; [eapply progress_stay; eauto|]. split; [by apply outcome_full|].
    exists req. simpl. rewrite Hr. done. }
  destruct (hdr_transfer r q (offset req) sizeof_cmd_pdu (sizeof_cmd_pdu + nvme_tcp_hdgst_len q - offset req)
    (fun q => if i10_host_is_nodelay_path req then q <| send_now := true |> else q) Hw)
    as (ret & q1 & Et & T1 & T2 & T3 & T4 & T6 & T5 & T7 & T8); [by apply not_blocked|lia|done| |].
  { intros q0. destruct (i10_host_is_nodelay_path req); [apply send_now_ok|done]. }
  cbv zeta beta in Et. rewrite Et. cbn [mbind option_bind].
  pose proof (frame_inv _ _ _ _ T3) as (S1 & S2 & S3).
  destruct (ret <=? 0) eqn:E0.
  { eexists _, _. split; [reflexivity|]. split; [|split; [done|]].
    - eapply progress_stay; try done. rewrite T5. replace (Z.to_nat ret) with O by lia. apply app_nil_r.
    - exists req. rewrite S2, S3, Hr. done. }
  edestruct (hdr_turn r q q1 req sizeof_cmd_pdu) as (Pdone & Pdata & Pmore); try done;
    [unfold req_bytes; by rewrite Hst|lia|].
  destruct (_ =? 0) eqn:El.
  - destruct (nvme_tcp_has_inline_data q req) eqn:Ein.
    + destruct (start_data req NVME_TCP_SEND_DATA) as (i & Ei & I1 & I2); [auto|]. rewrite Ei.
      assert (data_digest q1 = false) as -> by (injection S1 as _ _ _ _ _ ->; done).
      cbn [mbind option_bind].
      eexists _, _. split; [reflexivity|]. split; [|split; [by eapply outcome_one|]].
      * apply Pdata; [lia|exact I1|]. unfold req_bytes. simpl. f_equal. exact I2.
      * eexists. split; [simpl; apply lookup_insert_eq|]. simpl. by rewrite S2, Hr.
    + eexists _, _. split; [reflexivity|]. split; [apply Pdone; [lia|done|by rewrite Hst]|].
      split; [by eapply outcome_one|]. exists req. split; [simpl; by rewrite S3|]. intros _. by rewrite (static_inline q).
  - assert (i10_host_legacy_path e q = true) as Hleg.
    { destruct (i10_host_legacy_path e q) eqn:?; [done|]. specialize (T2 eq_refl). lia. }
    eexists _, _. split; [reflexivity|]. split; [|split].
    + apply Pmore.
      * unfold wf_req, wf_hdr. simpl. rewrite Hst. split; [split; [lia|congruence]|].
        intros Hin. by apply wf_start_offset, Hstart.
      * unfold req_bytes. simpl. rewrite Hst. f_equal. do 2 f_equal. lia.
    + unfold outcome. rewrite Hleg. intros _. simpl. apply T7; [done|lia].
    + eexists. split; [simpl; apply lookup_insert_eq|]. simpl. by rewrite S2, Hr.
Qed.

Lemma data_pdu_ok r q req :
  car_wf e q -> data_digest q = false -> nq_request q = Some r -> reqs q !! r = Some req ->
  state req = NVME_TCP_SEND_H2C_PDU -> wf_req e q req ->
  exists ret q', nvme_tcp_try_send_data_pdu e r q = Some (ret, q') /\ progress r q q'
    /\ nq_request q' = Some r /\ outcome q ret q'.
Proof.
  intros Hw Hdg Hr Hreq Hst Hwf. pose proof Hwf as Hwf0. pose proof (sizes q) as (_ & Z2 & Z3).
  unfold wf_req in Hwf. rewrite Hst in Hwf. destruct Hwf as [[Hoff Hoff0] Hstart].
  unfold nvme_tcp_try_send_data_pdu. rewrite Hreq. simpl.
  replace (sizeof_data_pdu - offset req + nvme_tcp_hdgst_len q)
    with (sizeof_data_pdu + nvme_tcp_hdgst_len q - offset req) by lia.
  rewrite s32_small by lia.
  destruct (negb (i10_host_legacy_path e q) && i10_host_is_caravan_full e q) eqn:Efull.
  { destruct (send_now_ok q) as (S1 & S2 & S4 & S3 & _). eexists _, _. split; [reflexivity|].
    split; [eapply progress_stay; eauto|]. split; [done|by apply outcome_full]. }
  destruct (hdr_transfer r q (offset req) sizeof_data_pdu
    (sizeof_data_pdu + nvme_tcp_hdgst_len q - offset req) (fun q => q) Hw)
    as (ret & q1 & Et & T1 & T2 & T3 & T4 & T6 & T5 & T7 & T8); [by apply not_blocked|lia|done|done|].
  cbv zeta beta in Et. rewrite Et. cbn [mbind option_bind].
  pose proof (frame_inv _ _ _ _ T3) as (S1 & S2 & S3).
  destruct (ret <=? 0) eqn:E0.
  { eexists _, _. split; [reflexivity|]. split; [|split; [congruence|done]].
    eapply progress_stay; try done. rewrite T5. replace (Z.to_nat ret) with O by lia. apply app_nil_r. }
  edestruct (hdr_turn r q q1 req sizeof_data_pdu) as (_ & Pdata & Pmore); try done;
    [unfold req_bytes; by rewrite Hst|lia|].
  assert (data_digest q1 = false) as Hdg1 by (injection S1 as _ _ _ _ _ ->; done).
  destruct (_ - ret =? 0) eqn:El.
  - rewrite Hdg1. change (data_sent (req <| state := NVME_TCP_SEND_DATA |>)) with (data_sent req).
    destruct (data_sent req =? 0) eqn:Eds.
    + destruct (start_data req NVME_TCP_SEND_DATA) as (i & Ei & I1 & I2); [done|]. rewrite Ei.
      cbn [mbind option_bind]. eexists _, _. split; [reflexivity|].
      split; [|split; [simpl; congruence|by eapply outcome_one]]. apply Pdata; [lia|exact I1|]. unfold req_bytes. simpl. f_equal. exact I2.
    + cbn [mbind option_bind]. eexists _, _. split; [reflexivity|].
      split; [|split; [simpl; congruence|by eapply outcome_one]]. apply Pdata; [lia|by apply wf_data_state|]. reflexivity.
  - assert (i10_host_legacy_path e q = true) as Hleg.
    { destruct (i10_host_legacy_path e q) eqn:?; [done|]. specialize (T2 eq_refl). lia. }
    eexists _, _. split; [reflexivity|]. split; [|split; [simpl; congruence|]].
    2: { unfold outcome. rewrite Hleg. intros _. simpl. apply T7; [done|lia]. }
    apply Pmore.
    + unfold wf_req, wf_hdr. simpl. rewrite Hst. split; [split; [lia|congruence]|].
      destruct (data_sent req =? 0); [by apply wf_start_offset|by apply wf_data_offset].
    + unfold req_bytes. simpl. rewrite Hst. f_equal. do 2 f_equal. lia.
Qed.

(** ** The current request through its states *)

Lemma progress_cur r q0 q :
  progress r q0 q -> data_digest q0 = false -> nq_request q = Some r ->
  exists req, reqs q !! r = Some req /\ wf_req e q req /\ data_digest q = false.
Proof.
  intros [P1 (req & P2 & P3 & [[_ P4]|P4]) _ _ _] Hdg Hr; [|congruence].
  exists req. split; [rewrite P2; apply lookup_insert_eq|]. split; [done|].
  injection P1 as _ _ _ _ _ ->. done.
Qed.

Lemma progress_lookup r q q' :
  progress r q q' -> exists req, reqs q' !! r = Some req /\ state req <> NVME_TCP_SEND_DDGST.
Proof. intros [_ (req & -> & H & _) _ _ _]. rewrite lookup_insert_eq. eauto. Qed.

(** A step that does not apply, and one that does. *)
Lemma send_step_skip st f stop r fin ret q req :
  reqs q !! r = Some req -> fin = true \/ state req <> st ->
  send_step st f stop r (fin, ret, q) = Some (fin, ret, q).
Proof.
  intros Hreq Hor. unfold send_step. rewrite Hreq. simpl. destruct fin; simpl; [done|].
  rewrite bool_decide_false; [done|]. by destruct Hor.
Qed.
Lemma send_step_run st f stop r ret q req ret' q' req' :
  reqs q !! r = Some req -> state req = st -> f r q = Some (ret', q') -> reqs q' !! r = Some req' ->
  send_step st f stop r (false, ret, q) = Some ((ret' <=? 0) || stop q' req', ret', q').
Proof.
  intros Hreq Hst Hf Hreq'. unfold send_step. rewrite Hreq. simpl.
  rewrite bool_decide_true by done. rewrite Hf. simpl. by rewrite Hreq'.
Qed.

(** The queue with a current request. *)
Record sending (r : Z) (q : nvme_tcp_queue) (req : nvme_tcp_request) : Prop := {
  sd_car : car_wf e q;
  sd_digest : data_digest q = false;
  sd_cur : nq_request q = Some r;
  sd_req : reqs q !! r = Some req;
  sd_wf : wf_req e q req;
}.

Lemma sending_next r q req q' :
  sending r q req -> progress r q q' -> nq_request q' = Some r -> exists req', sending r q' req'.
Proof.
  intros [_ Hdg _ _ _] P Hr. destruct (progress_cur _ _ _ P Hdg Hr) as (req' & R1 & R2 & R3).
  exists req'. constructor; try done. apply P.
Qed.
Lemma sending_stay r q req : sending r q req -> progress r q q.
Proof. intros []. by eapply progress_stay. Qed.

(** The last steps, from the state of the data on and from that of the data PDU. *)
Definition from_data (r : Z) (x : bool * Z * nvme_tcp_queue) : option (Z * nvme_tcp_queue) :=
  x ← send_step NVME_TCP_SEND_DATA (nvme_tcp_try_send_data e) (fun _ _ => false) r x;
  '(_, ret, q) ← send_step NVME_TCP_SEND_DDGST nvme_tcp_try_send_ddgst (fun _ _ => false) r x;
  Some (if ret =? - EAGAIN then 0 else ret, q).
Definition from_h2c (r : Z) (x : bool * Z * nvme_tcp_queue) : option (Z * nvme_tcp_queue) :=
  x ← send_step NVME_TCP_SEND_H2C_PDU (nvme_tcp_try_send_data_pdu e) (fun _ _ => false) r x;
  from_data r x.

Lemma from_data_skip r fin ret q req :
  reqs q !! r = Some req ->
  fin = true \/ state req <> NVME_TCP_SEND_DATA /\ state req <> NVME_TCP_SEND_DDGST ->
  from_data r (fin, ret, q) = Some (if ret =? - EAGAIN then 0 else ret, q).
Proof.
  intros Hreq Hor. unfold from_data. rewrite (send_step_skip _ _ _ _ _ _ _ req); [|done|tauto]. cbn [mbind option_bind].
  rewrite (send_step_skip _ _ _ _ _ _ _ req); [|done|tauto]. done.
Qed.

Lemma outcome_eagain q ret q' : outcome q ret q' -> outcome q (if ret =? - EAGAIN then 0 else ret) q'.
Proof.
  unfold outcome, EAGAIN. intros H.
  destruct (i10_host_legacy_path e q); (destruct (_ =? _) eqn:E; [|done]); [|lia].
  intros _. apply H. lia.
Qed.

Local Ltac finish_step :=
  eexists _, _; split; [reflexivity|]; split; [eassumption|by apply outcome_eagain].

Lemma from_data_ok r ret q req :
  sending r q req -> state req = NVME_TCP_SEND_DATA \/ outcome q ret q ->
  exists ret' q', from_data r (false, ret, q) = Some (ret', q') /\ progress r q q' /\ outcome q ret' q'.
Proof.
  intros Hs Hor. pose proof Hs as [Hw Hdg Hr Hreq Hwf]. unfold wf_req in Hwf.
  destruct (decide (state req = NVME_TCP_SEND_DATA)) as [Hst|Hst].
  - rewrite Hst in Hwf. destruct (send_data_loop_ok r (S (Z.to_nat (pdu_len req - pdu_sent req))) q req)
      as (ret1 & q1 & E & P & O); try done; [lia|].
    destruct (progress_lookup _ _ _ P) as (req1 & R1 & S1). unfold from_data.
    erewrite send_step_run; try done.
    2: { unfold nvme_tcp_try_send_data. rewrite Hreq. simpl.
         rewrite u32_small; [exact E|]. destruct Hwf. lia. }
    cbn [mbind option_bind]. erewrite send_step_skip by eauto. simpl.
    finish_step.
  - rewrite (from_data_skip r false ret q req Hreq).
    2: { right. split; [done|]. intros Hst2. by rewrite Hst2 in Hwf. }
    destruct Hor as [?|Ho]; [done|]. pose proof (sending_stay _ _ _ Hs). finish_step.
Qed.

Lemma from_h2c_ok r ret q req :
  sending r q req -> state req <> NVME_TCP_SEND_CMD_PDU \/ outcome q ret q ->
  exists ret' q', from_h2c r (false, ret, q) = Some (ret', q') /\ progress r q q' /\ outcome q ret' q'.
Proof.
  intros Hs Hor. pose proof Hs as [Hw Hdg Hr Hreq Hwf]. unfold from_h2c.
  destruct (decide (state req = NVME_TCP_SEND_H2C_PDU)) as [Hst|Hst].
  - destruct (data_pdu_ok r q req) as (ret1 & q1 & E & P & N & O); try done.
    destruct (sending_next _ _ _ _ Hs P N) as [req1 Hs1].
    erewrite send_step_run by (try done; apply Hs1). cbn [mbind option_bind]. rewrite orb_false_r.
    destruct (ret1 <=? 0).
    + rewrite (from_data_skip r true ret1 q1 req1); [|apply Hs1|by left]. finish_step.
    + destruct (from_data_ok r ret1 q1 req1 Hs1) as (ret2 & q2 & -> & P2 & O2).
      { right. eapply outcome_static; [|exact O]. symmetry. apply P. }
      exists ret2, q2. split; [done|]. split; [by eapply progress_trans|].
      eapply outcome_static; [apply P|done].
  - erewrite send_step_skip by eauto. cbn [mbind option_bind]. eapply from_data_ok; [done|].
    destruct Hor as [Hst2|]; [left|by right]. unfold wf_req in Hwf. by destruct (state req).
Qed.

Lemma send_request_ok r q req :
  sending r q req ->
  exists ret q', send_request e r q = Some (ret, q') /\ progress r q q' /\ outcome q ret q'.
Proof.
  intros Hs. pose proof Hs as [Hw Hdg Hr Hreq Hwf].
  change (send_request e r q) with
    (x ← send_step NVME_TCP_SEND_CMD_PDU (nvme_tcp_try_send_cmd_pdu e)
          (fun q req => negb (nvme_tcp_has_inline_data q req)) r (false, 1, q); from_h2c r x).
  destruct (decide (state req = NVME_TCP_SEND_CMD_PDU)) as [Hst|Hst].
  - destruct (cmd_pdu_ok r q req) as (ret1 & q1 & E & P & O & req1 & R1 & N); try done.
    erewrite send_step_run by done. cbn [mbind option_bind].
    destruct ((ret1 <=? 0) || negb (nvme_tcp_has_inline_data q1 req1)) eqn:Efin.
    + unfold from_h2c. erewrite send_step_skip by eauto. cbn [mbind option_bind].
      rewrite (from_data_skip r true ret1 q1 req1 R1) by (by left). finish_step.
    + apply orb_false_iff in Efin as [_ Hin]. apply negb_false_iff in Hin.
      assert (nq_request q1 = Some r) as N1.
      { destruct P as [_ (x & _ & _ & [[? _]|?]) _ _ _]; [done|]. specialize (N ltac:(done)). congruence. }
      destruct (sending_next _ _ _ _ Hs P N1) as [req2 Hs2].
      destruct (from_h2c_ok r ret1 q1 req2 Hs2) as (ret2 & q2 & -> & P2 & O2).
      { right. eapply outcome_static; [|exact O]. symmetry. apply P. }
      exists ret2, q2. split; [done|]. split; [by eapply progress_trans|].
      eapply outcome_static; [apply P|done].
  - erewrite send_step_skip by eauto. cbn [mbind option_bind]. eapply from_h2c_ok; [done|by left].
Qed.

(** ** The queue *)

Definition list_bytes (q : nvme_tcp_queue) (l : list Z) : list (buf * Z) :=
  concat ((fun r => from_option (req_bytes q r) [] (reqs q !! r)) <$> l).

(** What is in the caravan, and what follows it. *)
Definition caravan_bytes (q : nvme_tcp_queue) : list (buf * Z) := concat (seg_bytes <$> caravan q).
Definition waiting (q : nvme_tcp_queue) : list (buf * Z) := cur_bytes q ++ list_bytes q (send_list q).

(** All that the queue has put on the wire or owes to it, in order. *)
Definition stream (q : nvme_tcp_queue) : list (buf * Z) :=
  out_bytes q ++ cur_bytes q ++ list_bytes q (send_list q).

Lemma stream_split q : stream q = wire q ++ caravan_bytes q ++ waiting q.
Proof. unfold stream, out_bytes, waiting, caravan_bytes. by rewrite !app_assoc. Qed.

(** The socket takes [n] bytes of the caravan, some but not all. *)
Definition short_send (q : nvme_tcp_queue) (n : Z) : Prop :=
  n = kernel_sendmsg (sock_calls q) (caravan q) (caravan_len q) /\ 0 < n < caravan_len q.

(** The stream stays, or a short send has dropped the rest of the caravan. *)
Definition stream_after (q q' : nvme_tcp_queue) : Prop :=
  stream q' = stream q
  \/ exists n, short_send q n
       /\ stream q' = wire q ++ take (Z.to_nat n) (caravan_bytes q) ++ waiting q.

(** Requests that are current or queued are different and well formed. *)
Record queue_wf (q : nvme_tcp_queue) : Prop := {
  qw_car : car_wf e q;
  qw_digest : data_digest q = false;
  qw_nodup : NoDup (option_list (nq_request q) ++ send_list q);
  qw_reqs : forall r, r ∈ option_list (nq_request q) ++ send_list q ->
    exists req, reqs q !! r = Some req /\ wf_req e q req;
}.

Lemma list_bytes_frame q q' l :
  static q' = static q -> (forall r, r ∈ l -> reqs q' !! r = reqs q !! r) ->
  list_bytes q' l = list_bytes q l.
Proof.
  intros Hs Hr. unfold list_bytes. f_equal. apply list_fmap_ext. intros i r Hi.
  rewrite Hr by (by eapply list_elem_of_lookup_2). destruct (reqs q !! r) as [req|]; [|done].
  simpl. by apply req_bytes_static.
Qed.

(** A change outside the requests, and one that keeps the bytes as well. *)
Lemma queue_frame q q' :
  frame q' = frame q -> car_wf e q' -> queue_wf q -> queue_wf q' /\ waiting q' = waiting q.
Proof.
  intros (F1 & F2 & F3)%frame_inv Hc [_ Hdg Hnd Hreq].
  assert (send_list q' = send_list q /\ data_digest q' = data_digest q) as [F4 F5]
    by (injection F1 as _ _ -> _ _ ->; done).
  split.
  - constructor; [done|congruence|congruence|]. rewrite F2, F3, F4. intros r Hr.
    destruct (Hreq r Hr) as (req & R1 & R2). exists req. split; [done|]. by rewrite (wf_req_static e q q').
  - unfold waiting, cur_bytes. rewrite F2, F3, F4. f_equal.
    + destruct (nq_request q) as [r|]; [|done]. destruct (reqs q !! r); [|done]. simpl.
      by apply req_bytes_static.
    + apply list_bytes_frame; [done|]. by intros; rewrite F3.
Qed.
Lemma queue_same q q' :
  frame q' = frame q -> car_wf e q' -> queue_wf q -> out_bytes q' = out_bytes q ->
  queue_wf q' /\ stream q' = stream q.
Proof.
  intros Hf Hc Hq Ho. destruct (queue_frame q q' Hf Hc Hq) as [Hw Hr]. split; [done|].
  unfold stream, waiting in *. by rewrite Ho, Hr.
Qed.

(** Progress of the current request. *)
Lemma queue_progress r q q' :
  nq_request q = Some r -> queue_wf q -> progress r q q' -> queue_wf q' /\ stream q' = stream q.
Proof.
  intros Hr [_ Hdg Hnd Hreq] [P1 (req' & P2 & P3 & P4) P5 P6 P7]. rewrite Hr in *. simpl in *.
  apply NoDup_cons in Hnd as [Hnotin Hnd].
  assert (send_list q' = send_list q /\ data_digest q' = data_digest q) as [F4 F5]
    by (injection P1 as _ _ -> _ _ ->; done).
  assert (forall x, x ∈ send_list q -> reqs q' !! x = reqs q !! x) as Hoth.
  { intros x Hx. rewrite P2, lookup_insert_ne; [done|]. intros ->. done. }
  split.
  - constructor; [done|congruence| |]; rewrite F4.
    + destruct P4 as [[-> _]| ->]; simpl; [|done]. by constructor.
    + intros x Hx. destruct (decide (x ∈ send_list q)) as [Hin|Hin].
      * rewrite Hoth by done. destruct (Hreq x) as (req & R1 & R2); [by right|].
        exists req. split; [done|]. by rewrite (wf_req_static e q q').
      * destruct P4 as [[E W]|E]; rewrite E in Hx; simpl in Hx; [|done].
        apply elem_of_cons in Hx as [->|?]; [|done]. exists req'. rewrite P2, lookup_insert_eq. done.
  - unfold stream. rewrite F4, !app_assoc, P7. f_equal. by apply list_bytes_frame.
Qed.

(** The first request of the list becomes the current one. *)
Lemma next_ok q r l n :
  nq_request q = None -> queue_wf q -> send_list q = r :: l ->
  let q' := q <| send_list := l |> <| nr_caravan_req := n |> <| nq_request := Some r |> in
  queue_wf q' /\ stream q' = stream q.
Proof.
  intros Hr [Hc Hdg Hnd Hreq] El q'. rewrite Hr, El in Hnd, Hreq. simpl in *.
  assert (forall x y, req_bytes q' x y = req_bytes q x y) as Hb by done.
  assert (forall y, wf_req e q' y <-> wf_req e q y) as Hw by done.
  destruct (Hreq r) as (req & R1 & R2); [by left|]. split.
  - constructor; [by destruct Hc; constructor|done|exact Hnd|].
    intros x Hx. apply Hreq in Hx as (rq & G1 & G2). exists rq. done.
  - unfold stream, cur_bytes, list_bytes. simpl. rewrite Hr, El, fmap_cons, R1. simpl. done.
Qed.

Lemma fetch_ok q :
  nq_request q = None -> queue_wf q ->
  exists q', fetch_or_flush e q = Some q' /\ queue_wf q' /\ stream q' = stream q
    /\ (wire q', caravan q', caravan_len q', sock_calls q')
       = (wire q, caravan q, caravan_len q, sock_calls q).
Proof.
  intros Hr Hq. pose proof Hq as [Hc Hdg Hnd Hreq]. rewrite Hr in Hnd, Hreq. simpl in *.
  unfold fetch_or_flush. destruct (send_list q) as [|r l] eqn:El.
  - eexists. split; [reflexivity|].
    edestruct (queue_same q) as [S1 S2]; [| |exact Hq| |split; [exact S1|]; split; [exact S2|by case_bool]];
      [by case_bool| |by case_bool].
    case_bool; [by destruct Hc; constructor|done].
  - destruct (Hreq r) as (req & R1 & R2); [by left|]. rewrite R1. simpl.
    set (q0 := q <| send_list := l |>).
    assert (exists n, (if delayed e q0 req then q0 <| nr_caravan_req ::= fun n => s32 (n + 1) |> else q0)
      = q <| send_list := l |> <| nr_caravan_req := n |>) as (n & ->) by (case_bool; eexists; reflexivity).
    eexists. split; [reflexivity|]. by destruct (next_ok q r l n Hr Hq El).
Qed.

Lemma kunmap_all l m : m ≡ₚ l -> foldl (fun m p => kunmap p m) m l = [].
Proof.
  revert m. induction l as [|p l IH]; intros m Hm; simpl; [by apply Permutation_nil_r in Hm|].
  apply IH. clear IH. revert l Hm. induction m as [|x m IHm]; intros l Hm.
  { by apply Permutation_nil_cons in Hm. }
  simpl. destruct (x =? p) eqn:E.
  - apply Z.eqb_eq in E as ->. by apply Permutation_cons_inv in Hm.
  - apply Z.eqb_neq in E. assert (x ∈ l) as Hx.
    { assert (x ∈ p :: l) as Hx by (rewrite <- Hm; left). by apply elem_of_cons in Hx as [?|?]. }
    apply elem_of_Permutation in Hx as [k Hk]. rewrite Hk. constructor. apply IHm.
    apply (Permutation_cons_inv (a := x)). rewrite Hm, Hk. constructor.
Qed.

Lemma total_bytes l :
  Forall (fun s => 0 < sg_len s) l -> Z.of_nat (length (concat (seg_bytes <$> l))) = total l.
Proof.
  induction 1 as [|s l Hs _ IH]; [done|]. rewrite fmap_cons. simpl concat.
  rewrite length_app, Nat2Z.inj_add, IH. destruct s as [b o n]. rewrite seg_bytes_length. simpl in *.
  unfold total. lia.
Qed.

(** A queue that has the same bytes outside the requests. *)
Lemma stream_after_eq q q1 q2 :
  stream q1 = stream q ->
  (wire q1, caravan q1, caravan_len q1, sock_calls q1) = (wire q, caravan q, caravan_len q, sock_calls q) ->
  stream_after q1 q2 -> stream_after q q2.
Proof.
  intros Hs [= H1 H2 H3 H4] [E|(n & Hn & E)]; [left; congruence|right]. exists n.
  unfold short_send in *. rewrite H2, H3, H4 in Hn. split; [done|].
  rewrite !stream_split in Hs. unfold caravan_bytes in *. rewrite H1, H2 in *.
  apply app_inv_head, app_inv_head in Hs. by rewrite <- Hs.
Qed.
Lemma stream_after_trans q q1 q2 : stream_after q q1 -> stream q2 = stream q1 -> stream_after q q2.
Proof. intros [E|(n & Hn & E)] Hs; [left|right; exists n]; rewrite Hs; done. Qed.

Lemma send_caravan_ok q :
  queue_wf q -> exists o q', send_caravan q = (o, q') /\ queue_wf q' /\ stream_after q q'
    /\ wire q `prefix_of` wire q' /\ nq_request q' = nq_request q.
Proof.
  intros Hq. pose proof (qw_car _ Hq) as Hc. unfold send_caravan.
  destruct (nvme_tcp_sndbuf_nospace q _).
  { eexists _, _. split; [reflexivity|].
    destruct (queue_same q (q <| sock_nospace := true |> <| sock_calls ::= S |>)) as [S1 S2]; try done.
    { by destruct Hc; constructor. } split; [done|]. split; [by left|done]. }
  set (ret := kernel_sendmsg _ _ _). destruct (ret <=? 0) eqn:Eret.
  { eexists _, _. split; [reflexivity|].
    assert (sock_sent ret (caravan q) q
      = q <| sock_short := ret <? total (caravan q) |> <| sock_calls ::= S |>) as Hs.
    { unfold sock_sent. replace (Z.to_nat ret) with O by lia. simpl. destruct q; simpl.
      unfold upd; simpl. by rewrite app_nil_r. }
    rewrite Hs.
    destruct (queue_same q (q <| sock_short := ret <? total (caravan q) |> <| sock_calls ::= S |>))
      as [S1 S2]; try done.
    { by destruct Hc; constructor. } split; [done|]. split; [by left|done]. }
  eexists _, _. split; [reflexivity|].
  match goal with |- queue_wf ?x /\ _ => destruct (queue_frame q x) as [S1 S2]; try done; set (q' := x) in * end.
  - change (caravan_pages (sock_sent ret (caravan q) q)) with (caravan_pages q).
    destruct Hc as [W1 W2 W3 W4 W5 W6 W7 W8]. pose proof (max_aggregation_pos e).
    constructor; try done; simpl; [lia..|by rewrite kunmap_all].
  - split; [done|]. split; [|by split; [apply prefix_app_r|]].
    assert (stream q' = wire q ++ take (Z.to_nat ret) (caravan_bytes q) ++ waiting q) as Hs.
    { rewrite stream_split, S2. unfold caravan_bytes at 1, caravan at 1, q'. simpl. by rewrite <- app_assoc. }
    pose proof (total_bytes _ (cw_pos _ _ Hc)) as Hlen. rewrite <- (cw_len _ _ Hc) in Hlen.
    pose proof (sendmsg_le (sock_calls q) (caravan q) (caravan_len q)) as Hle. fold ret in Hle.
    destruct (decide (ret < caravan_len q)) as [Hlt|Hge]; [right; exists ret; split; [split; [done|lia]|done]|left].
    rewrite Hs, stream_split, take_ge; [done|]. unfold caravan_bytes. lia.
Qed.

(** C3: the host keeps the byte stream.  On a connection without data digest
    ([qw_digest]), [nvme_tcp_try_send] is defined on every well-formed queue (no
    access outside the caravan arrays, no null pointer, an end to the data loop)
    and keeps it well formed; what it has sent stays sent; and the bytes on the
    wire, followed by those of the caravan, of the current request and of the
    requests in the send list, are unchanged, whatever the socket answers on the
    legacy path (complete sends, partial sends, errors), with one exception that
    is described exactly: when [kernel_sendmsg] takes [n] bytes of a caravan, some
    but not all, the bytes after the first [n] of the caravan are dropped from
    the stream, and nothing else.  So every byte is sent once and in the order of
    the send list as long as no caravan is cut short. *)
Theorem host_stream_preserved q :
  queue_wf q ->
  exists ret q', nvme_tcp_try_send e q = Some (ret, q') /\ queue_wf q' /\ wire q `prefix_of` wire q'
    /\ (stream q' = stream q
        \/ exists n, short_send q n /\ stream q = wire q ++ caravan_bytes q ++ waiting q
             /\ stream q' = wire q ++ take (Z.to_nat n) (caravan_bytes q) ++ waiting q).
Proof.
  intros Hq.
  cut (exists ret q', nvme_tcp_try_send e q = Some (ret, q') /\ queue_wf q' /\ wire q `prefix_of` wire q'
    /\ stream_after q q').
  { intros (ret & q' & H1 & H2 & H3 & H4). exists ret, q'. split_and!; [done..|].
    destruct H4 as [?|(n & ? & ?)]; [by left|right]. exists n. by rewrite stream_split. }
  unfold nvme_tcp_try_send.
  assert (exists q1, match nq_request q with None => fetch_or_flush e q | Some _ => Some q end = Some q1
    /\ queue_wf q1 /\ stream q1 = stream q
    /\ (wire q1, caravan q1, caravan_len q1, sock_calls q1)
       = (wire q, caravan q, caravan_len q, sock_calls q)) as (q1 & -> & W1 & S1 & X1).
  { destruct (nq_request q) eqn:Hr; [by exists q|by apply fetch_ok]. }
  assert (wire q1 = wire q) as Hx by congruence.
  cbn [mbind option_bind]. case_bool.
  { exists 0, q1. rewrite Hx. split_and!; try done. by left. }
  assert (exists o q2, (if send_now q1 then send_caravan q1 else (None, q1)) = (o, q2)
    /\ queue_wf q2 /\ stream_after q q2 /\ wire q `prefix_of` wire q2) as (o & q2 & -> & W2 & S2 & X2).
  { destruct (send_now q1); [|exists None, q1; rewrite Hx; split_and!; try done; by left].
    destruct (send_caravan_ok q1 W1) as (o & q2 & -> & A & B & C & _).
    exists o, q2. rewrite <- Hx. split_and!; try done. by apply (stream_after_eq q q1). }
  destruct o as [ret|]; [by exists ret, q2|].
  destruct (nq_request q2) as [r|] eqn:Hr; [|by exists 0, q2].
  destruct (qw_reqs _ W2 r) as (req & R1 & R2); [rewrite Hr; by left|].
  destruct (send_request_ok r q2 req) as (ret & q3 & -> & P & _).
  { constructor; try done; apply W2. }
  destruct (queue_progress r q2 q3 Hr W2 P) as [W3 S3].
  exists ret, q3. split_and!; [done|done|etrans; [exact X2|apply P]|by apply (stream_after_trans q q2)].
Qed.
End stream.

(** ** A concrete connection *)

(** The sizes and flags of Linux 5.4. *)
Definition ex_proto : NvmeTcpProto.
Proof.
  refine {| sizeof_cmd_pdu := 72; sizeof_data_pdu := 24; sizeof_rsp_pdu := 24;
    sizeof_nvme_command := 64; NVME_TCP_DIGEST_LENGTH := 4; NVME_TCP_ADMIN_CCSZ := 8192;
    REQ_OP_READ := 0; REQ_OP_WRITE := 1; REQ_DRV := 2 ^ 26; REQ_F_RAHEAD := 2 ^ 19;
    REQ_SYNC := 2 ^ 11; REQ_IDLE := 2 ^ 15; REQ_NOMERGE := 2 ^ 14;
    nvme_tcp_cmd := 4; nvme_tcp_rsp := 5; nvme_tcp_h2c_data := 6; nvme_tcp_c2h_data := 7;
    nvme_tcp_r2t := 9; NVME_TCP_F_HDGST := 1; NVME_TCP_F_DDGST := 2; NVME_TCP_F_DATA_LAST := 4;
    NVME_TCP_F_DATA_SUCCESS := 8 |}.
  repeat constructor; done.
Defined.

(** An iterator that moves over the segments that are used up. *)
Fixpoint skip_used (vs : list bio_vec) (off : Z) : list bio_vec * Z :=
  match vs with
  | [] => ([], off)
  | v :: vs' => if off <? bv_len v then (vs, off) else skip_used vs' (off - bv_len v)
  end.
Definition ex_advance (i : iov_iter) (n : Z) : iov_iter :=
  let '(vs, off) := skip_used (it_bvec i) (iov_offset i + n) in mk_iter vs off (it_count i - n).
#[export] Instance ex_iov : IovIter := {| iov_iter_advance := ex_advance |}.

#[export] Instance ex_iov_laws : IovIterLaws ex_iov.
Proof.
  constructor. intros i v vs n Hw Hv Hn Hc. simpl. unfold ex_advance. rewrite Hv.
  destruct Hw as (v' & vs' & Hv' & Ho & Hf & Ht); [lia|]. rewrite Hv in Hv'. injection Hv' as <- <-.
  pose proof Hf as Hf'. apply Forall_cons in Hf' as [Hb Hvs]. simpl in Ht. fold (vec_total vs) in Ht.
  pose proof (vec_bytes_length vs Hvs) as Hl.
  assert (drop (Z.to_nat n) (iter_bytes i) = take (Z.to_nat (it_count i - n))
    (drop (Z.to_nat (iov_offset i + n)) (concat (vec_bytes <$> v :: vs)))) as ->.
  { unfold iter_bytes. rewrite Hv, skipn_firstn_comm, drop_drop.
    replace (Z.to_nat (it_count i) - Z.to_nat n)%nat with (Z.to_nat (it_count i - n)) by lia.
    do 2 f_equal. lia. }
  assert ((let '(us, off) := skip_used (v :: vs) (iov_offset i + n) in mk_iter us off (it_count i - n))
    = if iov_offset i + n <? bv_len v then mk_iter (v :: vs) (iov_offset i + n) (it_count i - n)
      else mk_iter vs 0 (it_count i - n)) as ->.
  { simpl. destruct (iov_offset i + n <? bv_len v) eqn:E; [done|].
    replace (iov_offset i + n - bv_len v) with 0 by lia. destruct Hvs as [|w ws Hw Hws]; [done|].
    simpl. destruct (0 <? bv_len w) eqn:E0; [done|lia]. }
  destruct (iov_offset i + n <? bv_len v) eqn:E; (split; [|split; [done|]]).
  - intros _. exists v, vs. simpl. fold (vec_total vs). split_and!; try done; lia.
  - done.
  - intros Hpos. simpl in Hpos. destruct vs as [|w ws]; [simpl in *; lia|].
    exists w, ws. pose proof Hvs as Hvs'. apply Forall_cons in Hvs' as [Hw _].
    split; [done|]. simpl iov_offset. split; [lia|]. split; [done|]. simpl it_count. lia.
  - unfold iter_bytes. simpl it_bvec. simpl it_count. simpl iov_offset. rewrite fmap_cons. simpl concat.
    rewrite drop_app_ge by (unfold vec_bytes; rewrite seg_bytes_length; lia).
    unfold vec_bytes at 2. rewrite seg_bytes_length. do 2 f_equal. lia.
Qed.

(** A socket that takes everything. *)
Definition ex_sock : HostSock := {|
  kernel_sendpage := fun _ s => sg_len s;
  sock_no_sendpage := fun _ s => sg_len s;
  kernel_sendmsg := fun _ _ size => size;
  sk_stream_wspace := fun _ => 2 ^ 20;
  PageSlab := fun _ => false;
|}.
#[export] Instance ex_sock_laws : HostSockLaws ex_sock.
Proof. constructor; intros; simpl; lia. Qed.

Definition ex_host : host_env := mk_host_env 50 4 NVME_TCP.

(** A write of 4096 bytes in two segments, in the state of its command PDU, on
    queue 1, whose capsules take 8192 bytes. *)
Definition ex_hdr : pdu_hdr := mk_hdr 0 0 0 0 0 0 0 0 0 SG_NULL.
Definition ex_bio : hbio := mk_hbio [mk_bvec 7 1024 512; mk_bvec 8 3072 0] 0 4096 1.
Definition ex_write : nvme_tcp_request :=
  mk_req ex_hdr false true None 2 4096 [ex_bio] 5 4096 4096 0 0 [ex_bio] (mk_iter [] 0 0) 0 0
    NVME_TCP_SEND_CMD_PDU [] [].
Definition ex_nq : nvme_tcp_queue :=
  mk_nq 1 0 [5] None 8256 false false []
    (replicate 64 (mk_seg (BPage 0) 0 0)) 0 0 false 0 (replicate 32 0) 0
    1 true 1 false false false false [] [] 0%nat [] {[5 := ex_write]}.

Lemma ex_write_wf : wf_req (pr := ex_proto) ex_host ex_nq ex_write.
Proof.
  split; [by split; [vm_compute; split; congruence|]|]. intros _. split; [split; [done|]|].
  - repeat constructor. intros _. eexists _, _. split; [reflexivity|]. split; [simpl; lia|].
    split; [repeat constructor|reflexivity].
  - intros i I1 I2 I3. constructor; try done; simpl; try lia.
    + split; [done|]. repeat constructor. intros _. eexists _, _. split; [reflexivity|].
      split; [simpl; lia|]. split; [repeat constructor|reflexivity].
    + rewrite I3. reflexivity.
Qed.

Lemma ex_nq_wf : queue_wf (pr := ex_proto) ex_host ex_nq.
Proof.
  constructor; [|done|apply NoDup_singleton|].
  - constructor; try done.
  - intros r Hr. simpl in Hr. apply list_elem_of_singleton in Hr as ->.
    exists ex_write. split; [done|apply ex_write_wf].
Qed.

(** No caravan of the socket above is cut short. *)
Lemma ex_not_short q n : ~ @short_send ex_sock q n.
Proof. intros [-> H]. simpl in H. lia. Qed.

Lemma host_stream_preserved_witness :
  exists ret q', @nvme_tcp_try_send ex_proto ex_iov ex_sock ex_host ex_nq = Some (ret, q')
    /\ @stream ex_proto q' = @stream ex_proto ex_nq /\ length (@stream ex_proto q') = 4168%nat.
Proof.
  destruct (@host_stream_preserved ex_proto ex_iov ex_iov_laws ex_sock ex_sock_laws ex_host ex_nq ex_nq_wf)
    as (ret & q' & H1 & H2 & H3 & [H4|(n & H4 & _)]); [|by destruct (ex_not_short ex_nq n)].
  exists ret, q'. split; [exact H1|]. split; [exact H4|]. rewrite H4. vm_compute. reflexivity.
Defined.

(** A socket that takes 100 bytes of a caravan: the write above is put into the
    caravan, and 4068 of its 4168 bytes never reach the wire. *)
Definition ex_short_sock : HostSock := {|
  kernel_sendpage := fun _ s => sg_len s;
  sock_no_sendpage := fun _ s => sg_len s;
  kernel_sendmsg := fun _ _ size => Z.min size 100;
  sk_stream_wspace := fun _ => 2 ^ 20;
  PageSlab := fun _ => false;
|}.
#[export] Instance ex_short_sock_laws : HostSockLaws ex_short_sock.
Proof. constructor; intros; simpl; lia. Qed.

Definition ex_cut : option nvme_tcp_queue :=
  '(_, q) ← @nvme_tcp_try_send ex_proto ex_iov ex_short_sock ex_host ex_nq;
  '(_, q) ← @nvme_tcp_try_send ex_proto ex_iov ex_short_sock ex_host
              (i10_host_doorbell_timeout q);
  Some q.

(** The bytes after a short send of a caravan are lost. *)
Lemma short_caravan_loses :
  exists q, ex_cut = Some q /\ length (wire q) = 100%nat /\ caravan_len q = 0
    /\ nq_request q = None /\ send_list q = [] /\ length (@stream ex_proto ex_nq) = 4168%nat.
Proof. eexists. split; [vm_compute; reflexivity|]. done. Qed.
