(* ===== verification/NvmeTcpSetup.v ===== *)
(** * NVMe/TCP host: building PDUs

    [nvme_tcp_setup_cmd_pdu], [nvme_tcp_map_data], [nvme_tcp_queue_rq],
    [nvme_tcp_setup_h2c_data_pdu] and [nvme_tcp_submit_async_event] of
    drivers/nvme/host/tcp.c.  What [nvme_setup_cmd] and [nvmf_check_ready] of
    the NVMe core answer is an argument. *)
From S2P Require Import Prelude NvmeTcp NvmeTcpSend NvmeTcpSendSpec NvmeTcpStream.

Section setup.
Context {pr : NvmeTcpProto} {it : IovIter} (e : host_env).

(** The data pointer of the command; [icdoff] is the in-capsule data offset of
    the controller. *)
Definition nvme_tcp_map_data (icdoff : Z) (q : nvme_tcp_queue) (req : nvme_tcp_request) : sgl :=
  if nr_phys req =? 0 then SG_NULL
  else if is_write req && (r_data_len req <=? nvme_tcp_inline_data_size q)
  then SG_INLINE icdoff (r_data_len req)
  else SG_HOST_DATA (r_data_len req).

(** The header of a command PDU for [data] bytes in the capsule. *)
Definition cmd_hdr (q : nvme_tcp_queue) (data : Z) (s : sgl) : pdu_hdr :=
  let flags := if hdr_digest q then NVME_TCP_F_HDGST else 0 in
  let has_ddgst := data_digest q && c_true data in
  let flags := if has_ddgst then Z.lor flags NVME_TCP_F_DDGST else flags in
  let hl := u8 sizeof_cmd_pdu in
  mk_hdr nvme_tcp_cmd flags hl
    (if c_true data then u8 (hl + nvme_tcp_hdgst_len q) else 0)
    (u32 (hl + nvme_tcp_hdgst_len q + data + if has_ddgst then nvme_tcp_ddgst_len q else 0))
    0 0 0 0 s.

(** [status] is the result of [nvme_setup_cmd]. *)
Definition nvme_tcp_setup_cmd_pdu (icdoff status : Z) (r : Z) (q : nvme_tcp_queue)
  : option (Z * nvme_tcp_queue) :=
  req ← reqs q !! r;
  if c_true status then Some (status, q)
  else
    let req := req <| state := NVME_TCP_SEND_CMD_PDU |> <| offset := 0 |> <| data_sent := 0 |>
                   <| pdu_len := 0 |> <| pdu_sent := 0 |>
                   <| r_data_len := if c_true (nr_phys req) then u32 (blk_rq_payload_bytes req) else 0 |>
                   <| curr_bio := rq_bios req |> in
    req ← (if is_write req && (r_data_len req <=? nvme_tcp_inline_data_size q)
           then Some (req <| pdu_len := r_data_len req |>)
           else if bool_decide (curr_bio req = []) then Some req else nvme_tcp_init_iter req);
    let req := req <| hdr := cmd_hdr q (pdu_len req) (nvme_tcp_map_data icdoff q req) |> in
    Some (0, put_req r req q).

(** [ready] is the answer of [nvmf_check_ready], [nonready] that of
    [nvmf_fail_nonready_command]; [BLK_STS_OK] is 0. *)
Definition nvme_tcp_queue_rq (ready : bool) (nonready icdoff status : Z) (r : Z) (q : nvme_tcp_queue)
  : option (Z * nvme_tcp_queue) :=
  if negb ready then Some (nonready, q)
  else
    '(ret, q) ← nvme_tcp_setup_cmd_pdu icdoff status r q;
    if c_true ret then Some (ret, q)
    else q ← nvme_tcp_queue_request e r q; Some (0, q).

(** [r2t_length], [r2t_offset] and [tag] are the fields of the R2T. *)
Definition nvme_tcp_setup_h2c_data_pdu (q : nvme_tcp_queue) (r2t_length r2t_offset tag : Z)
    (req : nvme_tcp_request) : Z * nvme_tcp_request :=
  let req := req <| pdu_len := r2t_length |> <| pdu_sent := 0 |> in
  if r_data_len req <? u64 (data_sent req + pdu_len req) then (- EPROTO, req)
  else if r2t_offset <? data_sent req then (- EPROTO, req)
  else
    let flags := NVME_TCP_F_DATA_LAST in
    let flags := if hdr_digest q then Z.lor flags NVME_TCP_F_HDGST else flags in
    let flags := if data_digest q then Z.lor flags NVME_TCP_F_DDGST else flags in
    let hl := u8 sizeof_data_pdu in
    (0, req <| hdr := mk_hdr nvme_tcp_h2c_data flags hl (u8 (hl + nvme_tcp_hdgst_len q))
          (u32 (hl + nvme_tcp_hdgst_len q + pdu_len req + nvme_tcp_ddgst_len q))
          tag (rtag req) (u32 (data_sent req)) (pdu_len req) SG_NULL |>).

(** The R2T of request [r], once its header has been checked. *)
Definition handle_r2t_req (r2t_length r2t_offset tag : Z) (r : Z) (q : nvme_tcp_queue)
  : option (Z * nvme_tcp_queue) :=
  req ← reqs q !! r;
  let '(ret, req) := nvme_tcp_setup_h2c_data_pdu q r2t_length r2t_offset tag req in
  if c_true ret then Some (ret, put_req r req q)
  else
    q ← nvme_tcp_queue_request e r
          (put_req r (req <| state := NVME_TCP_SEND_H2C_PDU |> <| offset := 0 |>) q);
    Some (0, q).

(** [r] is the asynchronous event request of the controller, on queue 0. *)
Definition nvme_tcp_submit_async_event (r : Z) (q : nvme_tcp_queue) : option nvme_tcp_queue :=
  q ← mod_req r (fun req =>
        req <| hdr := mk_hdr nvme_tcp_cmd (if hdr_digest q then NVME_TCP_F_HDGST else 0)
                        (u8 sizeof_cmd_pdu) 0 (u32 (u8 sizeof_cmd_pdu + nvme_tcp_hdgst_len q))
                        0 NVME_AQ_BLK_MQ_DEPTH 0 0 SG_NULL |>
            <| state := NVME_TCP_SEND_CMD_PDU |> <| offset := 0 |> <| curr_bio := [] |>
            <| r_data_len := 0 |>) q;
  nvme_tcp_queue_request e r q.
End setup.

(** ** NVMe/TCP host: PDUs match what is sent

    The length in the header of a PDU is the number of bytes that the driver
    sends for it, and queueing a request appends exactly those bytes to the
    stream of the queue. *)

Section setup.
Context {pr : NvmeTcpProto} {it : IovIter} {itl : IovIterLaws it} {sk : HostSock}
  {skl : HostSockLaws sk} (e : host_env).

(** A request of the block layer: its bios or its special payload hold exactly
    its payload. *)
Record wf_rq (req : nvme_tcp_request) : Prop := {
  wr_async : is_async req = false;
  wr_phys : nr_phys req = 0 \/ 0 < nr_phys req
    /\ wf_bios (req <| curr_bio := rq_bios req |>)
    /\ Z.of_nat (length (init_bytes (req <| curr_bio := rq_bios req |>))) = blk_rq_payload_bytes req;
  wr_bios : special_vec req = None -> Forall wf_bio (rq_bios req);
  wr_bytes : 0 <= blk_rq_payload_bytes req < 2 ^ 31;
}.

Definition class_of (q : nvme_tcp_queue) : Z := if nq_id q <=? num_online_cpus e then 0 else 1.

(** ** Queueing *)

(** What queueing leaves alone: all but the send list and the doorbell. *)
Definition obs (q : nvme_tcp_queue) :=
  (nq_id q, prio_class q, cmnd_capsule_len q, hdr_digest q, data_digest q, nq_request q, reqs q, wire q,
   (caravan_iovs q, nr_iovs q, caravan_len q, caravan_mapped q, nr_mapped q, kmaps q)).

Lemma ring_obs b q :
  obs (request_ring b q) = obs q /\ send_list (request_ring b q) = send_list q.
Proof. unfold request_ring, ring_now, queue_io_work. repeat case_bool; done. Qed.

Lemma queue_request_obs r q req :
  reqs q !! r = Some req -> prio_class q = class_of q ->
  exists q', nvme_tcp_queue_request e r q = Some q' /\ obs q' = obs q
    /\ send_list q' = send_list q ++ [r].
Proof.
  intros Hreq Hp.
  assert (exists b q1, request_enqueue e r q = Some (b, q1) /\ obs q1 = obs q
    /\ send_list q1 = send_list q ++ [r]) as (b & q1 & E & O1 & O2).
  { unfold request_enqueue. simpl. rewrite Hreq. simpl. unfold obs. rewrite Hp. unfold class_of.
    repeat case_bool; eexists _, _; (split; [reflexivity|]); done. }
  unfold nvme_tcp_queue_request. rewrite E. simpl.
  destruct (ring_obs b q1) as [R1 R2]. exists (request_ring b q1). split; [done|]. by rewrite R1, R2.
Qed.

Lemma obs_wf q q' req : obs q' = obs q -> wf_req e q' req <-> wf_req e q req.
Proof.
  unfold obs. intros [=]. unfold wf_req, wf_hdr, nvme_tcp_hdgst_len, nvme_tcp_has_inline_data,
    nvme_tcp_inline_data_size, i10_host_legacy_path, i10_host_is_latency.
  repeat match goal with H : _ q' = _ |- _ => rewrite H; clear H end. done.
Qed.
Lemma obs_bytes q q' r req : obs q' = obs q -> req_bytes q' r req = req_bytes q r req.
Proof.
  unfold obs. intros [=]. unfold req_bytes, nvme_tcp_hdgst_len, nvme_tcp_has_inline_data,
    nvme_tcp_inline_data_size.
  repeat match goal with H : _ q' = _ |- _ => rewrite H; clear H end. done.
Qed.
Lemma obs_car q q' : obs q' = obs q -> car_wf e q -> car_wf e q' /\ out_bytes q' = out_bytes q.
Proof.
  unfold obs. intros [=] Hc. unfold out_bytes, caravan. split.
  - destruct Hc as [W1 W2 W3 W4 W5 W6 W7 W8].
    constructor; unfold caravan, caravan_pages, i10_host_legacy_path, i10_host_is_latency in *;
    repeat match goal with H : _ q' = _ |- _ => rewrite H; clear H end; done.
  - repeat match goal with H : _ q' = _ |- _ => rewrite H; clear H end; done.
Qed.

(** A well-formed request at the end of the queue. *)
Lemma append_stream r q q' req :
  queue_wf e q -> r ∉ option_list (nq_request q) ++ send_list q ->
  reqs q !! r = Some req -> wf_req e q req -> obs q' = obs q -> send_list q' = send_list q ++ [r] ->
  queue_wf e q' /\ stream q' = stream q ++ req_bytes q r req.
Proof.
  intros [Hc Hdg Hnd Hrq] Hr Hreq Hwf O Sl. destruct (obs_car _ _ O Hc) as [Hc' Ho].
  assert (nq_request q' = nq_request q /\ reqs q' = reqs q /\ data_digest q' = data_digest q)
    as (E1 & E2 & E3) by (unfold obs in O; injection O; intros; done).
  split.
  - constructor; [done|congruence| |].
    + rewrite E1, Sl, app_assoc. apply NoDup_app. split; [done|]. split; [|apply NoDup_singleton].
      intros x Hx ->%list_elem_of_singleton. done.
    + rewrite E1, E2, Sl, app_assoc. intros x [Hx| ->%list_elem_of_singleton]%elem_of_app.
      * destruct (Hrq x Hx) as (y & Y1 & Y2). exists y. split; [done|]. by rewrite (obs_wf q).
      * exists req. split; [done|]. by rewrite (obs_wf q).
  - unfold stream. rewrite Ho, Sl, <- !app_assoc. f_equal. unfold cur_bytes, list_bytes.
    rewrite E1, E2, fmap_app, concat_app. f_equal.
    + destruct (nq_request q) as [x|]; [|done]. destruct (reqs q !! x); [|done]. simpl.
      by apply obs_bytes.
    + rewrite fmap_cons, Hreq. simpl. rewrite app_nil_r. f_equal; [|by apply obs_bytes]. f_equal.
      apply list_fmap_ext. intros i x _. destruct (reqs q !! x); [|done]. simpl. by apply obs_bytes.
Qed.

Lemma queue_request_stream r q req :
  queue_wf e q -> prio_class q = class_of q -> r ∉ option_list (nq_request q) ++ send_list q ->
  reqs q !! r = Some req -> wf_req e q req ->
  exists q', nvme_tcp_queue_request e r q = Some q' /\ queue_wf e q'
    /\ stream q' = stream q ++ req_bytes q r req.
Proof.
  intros Hw Hp Hr Hreq Hwf. destruct (queue_request_obs r q req Hreq Hp) as (q' & E & O & Sl).
  exists q'. split; [done|]. by apply append_stream.
Qed.

Lemma put_req_other r req q :
  queue_wf e q -> r ∉ option_list (nq_request q) ++ send_list q ->
  queue_wf e (put_req r req q) /\ stream (put_req r req q) = stream q.
Proof.
  intros [Hc Hdg Hnd Hrq] Hr.
  assert (forall x, x ∈ option_list (nq_request q) ++ send_list q ->
    reqs (put_req r req q) !! x = reqs q !! x) as Hoth.
  { intros x Hx. simpl. rewrite lookup_insert_ne; [done|]. intros ->. done. }
  split.
  - constructor; [by destruct Hc; constructor|done|done|].
    intros x Hx. destruct (Hrq x Hx) as (y & Y1 & Y2). exists y. split; [by rewrite Hoth|done].
  - unfold stream. f_equal. f_equal.
    + unfold cur_bytes. change (nq_request (put_req r req q)) with (nq_request q).
      destruct (nq_request q) as [x|] eqn:E; [|done]. rewrite Hoth by (by left). done.
    + apply list_bytes_frame; [done|]. intros x Hx. apply Hoth. apply elem_of_app. by right.
Qed.

Lemma cmd_hdr_plen q n s :
  data_digest q = false -> 0 <= n < 2 ^ 31 ->
  plen (cmd_hdr q n s) = sizeof_cmd_pdu + nvme_tcp_hdgst_len q + n.
Proof.
  intros Hdg Hn. pose proof (sizes q) as (Z1 & _ & Z3). unfold cmd_hdr. rewrite Hdg. simpl. unfold u8.
  rewrite Z.mod_small, u32_small; lia.
Qed.

(** A request in the state of the command PDU: the bytes of its header, then
    [pl]. *)
Lemma cmd_request_ok q r req pl :
  data_digest q = false -> state req = NVME_TCP_SEND_CMD_PDU -> offset req = 0 ->
  req_bytes q r req = seg_bytes (mk_seg (BPdu r) 0 (sizeof_cmd_pdu + nvme_tcp_hdgst_len q)) ++ pl ->
  (nvme_tcp_has_inline_data q req = true -> wf_start req) ->
  (exists s, hdr req = cmd_hdr q (Z.of_nat (length pl)) s) -> Z.of_nat (length pl) < 2 ^ 31 ->
  wf_req e q req /\ plen (hdr req) = Z.of_nat (length (req_bytes q r req)).
Proof.
  intros Hdg Hst Hoff Hb Hin [s Hs] Hlen. pose proof (sizes q) as (Z1 & _ & Z3). split.
  - unfold wf_req, wf_hdr. rewrite Hst, Hoff. split; [split; [lia|done]|done].
  - rewrite Hs, cmd_hdr_plen, Hb by (try done; lia). rewrite length_app, seg_bytes_length. lia.
Qed.

(** The request after [nvme_tcp_setup_cmd_pdu]. *)
Lemma setup_cmd_ok icdoff r q req :
  reqs q !! r = Some req -> wf_rq req -> data_digest q = false ->
  exists req', nvme_tcp_setup_cmd_pdu icdoff 0 r q = Some (0, put_req r req' q)
    /\ wf_req e q req' /\ plen (hdr req') = Z.of_nat (length (req_bytes q r req')).
Proof.
  intros Hreq [W1 W2 W3 W4] Hdg.
  unfold nvme_tcp_setup_cmd_pdu. rewrite Hreq. cbn [mbind option_bind]. change (c_true 0) with false.
  cbv iota zeta. rewrite u32_small by lia.
  set (dl := if c_true (nr_phys req) then blk_rq_payload_bytes req else 0).
  set (req1 := req <| state := NVME_TCP_SEND_CMD_PDU |> <| offset := 0 |> <| data_sent := 0 |>
    <| pdu_len := 0 |> <| pdu_sent := 0 |> <| r_data_len := dl |> <| curr_bio := rq_bios req |>).
  assert (0 <= dl < 2 ^ 31) as Hdl by (unfold dl; case_bool; lia).
  destruct (is_write req1 && (r_data_len req1 <=? nvme_tcp_inline_data_size q)) eqn:Ein.
  - cbn [mbind option_bind].
    match goal with |- context [put_req r ?x q] => set (req2 := x) end.
    assert (nvme_tcp_has_inline_data q req2 = c_true dl) as Hin.
    { unfold nvme_tcp_has_inline_data. simpl. rewrite W1.
      change (is_write req && (dl <=? nvme_tcp_inline_data_size q) = true) in Ein.
      apply andb_true_iff in Ein as [-> ->]. simpl. by rewrite andb_true_r. }
    assert (c_true dl = true -> wf_start req2 /\ Z.of_nat (length (init_bytes req2)) = dl) as Hd.
    { intros Hc. assert (c_true (nr_phys req) = true /\ dl = blk_rq_payload_bytes req) as [Hp ->].
      { unfold dl in *. destruct (c_true (nr_phys req)); [done|]. done. }
      destruct W2 as [W2|(W2 & W5 & W6)]; [rewrite W2 in Hp; done|]. split; [|exact W6].
      split; [exact W5|]. intros i I1 I2 I3.
      apply c_true_spec in Hc. constructor; simpl; try done; try lia.
      - by apply andb_true_iff in Ein as [? _].
      - rewrite I3. change (Z.of_nat (length (init_bytes (req <| curr_bio := rq_bios req |>)))
          = blk_rq_payload_bytes req - 0). lia. }
    eexists. split; [reflexivity|].
    apply (cmd_request_ok q r req2 (if c_true dl then init_bytes req2 else [])); try done.
    + unfold req_bytes. simpl. rewrite Z.sub_0_r. f_equal. rewrite Hin. destruct (c_true dl); [|done].
      rewrite Z.sub_0_r. apply take_ge. destruct (Hd eq_refl). lia.
    + rewrite Hin. intros Hc. by apply Hd.
    + eexists. simpl. f_equal. destruct (c_true dl) eqn:Hc; [by destruct (Hd eq_refl) as [_ ->]|].
      by apply c_true_false in Hc.
    + destruct (c_true dl); [destruct (Hd eq_refl) as [_ ->]; lia|done].
  - assert (exists i, (if bool_decide (curr_bio req1 = []) then Some req1 else nvme_tcp_init_iter req1)
      = Some (req1 <| iter := i |>)) as [i Ei].
    { case_bool_decide; [by exists (iter req)|]. unfold nvme_tcp_init_iter. simpl.
      destruct (special_vec req); [by eexists|]. destruct (rq_bios req); [done|].
      by eexists. }
    rewrite Ei. cbn [mbind option_bind].
    match goal with |- context [put_req r ?x q] => set (req2 := x) end.
    assert (nvme_tcp_has_inline_data q req2 = false) as Hin.
    { unfold nvme_tcp_has_inline_data. simpl. rewrite W1.
      change (is_write req && (dl <=? nvme_tcp_inline_data_size q) = false) in Ein.
      simpl. destruct (is_write req); [|done]. simpl in *. rewrite Ein. apply andb_false_r. }
    eexists. split; [reflexivity|].
    apply (cmd_request_ok q r req2 []); try done.
    + unfold req_bytes. simpl. rewrite Z.sub_0_r. by rewrite Hin.
    + by rewrite Hin.
    + by eexists.
Qed.

(** C31: a command PDU announces what is sent for it.  Submitting a request of
    the block layer to a ready queue without data digest succeeds, keeps the
    queue well formed and appends to its stream the command header (with its
    digest) and the data of a small write; the length field of the PDU is the
    number of those bytes. *)
Theorem queue_rq_stream nonready icdoff r q req :
  queue_wf e q -> prio_class q = class_of q -> r ∉ option_list (nq_request q) ++ send_list q ->
  reqs q !! r = Some req -> wf_rq req ->
  exists q' req', nvme_tcp_queue_rq e true nonready icdoff 0 r q = Some (0, q')
    /\ queue_wf e q' /\ reqs q' !! r = Some req' /\ stream q' = stream q ++ req_bytes q' r req'
    /\ plen (hdr req') = Z.of_nat (length (req_bytes q' r req')).
Proof.
  intros Hq Hp Hr Hreq Hwf. unfold nvme_tcp_queue_rq. simpl.
  destruct (setup_cmd_ok icdoff r q req Hreq Hwf (qw_digest _ _ Hq)) as (req' & -> & W1 & W2).
  cbn [mbind option_bind]. change (c_true 0) with false. cbv iota.
  destruct (put_req_other r req' q Hq Hr) as [Hq1 Hs1].
  assert (reqs (put_req r req' q) !! r = Some req') as Hl by apply lookup_insert_eq.
  destruct (queue_request_obs r (put_req r req' q) req' Hl Hp) as (q0 & E0 & O & _).
  destruct (queue_request_stream r (put_req r req' q) req' Hq1 Hp Hr Hl W1) as (q' & E & Hq' & Hs').
  assert (q0 = q') as -> by congruence.
  assert (req_bytes q' r req' = req_bytes q r req') as Hb by exact (obs_bytes _ _ r req' O).
  rewrite E. cbn [mbind option_bind]. exists q', req'. split; [done|]. split; [done|].
  split; [unfold obs in O; injection O; intros; congruence|]. rewrite Hb.
  split; [|done]. by rewrite Hs', Hs1.
Qed.

(** ** Data for an R2T *)

(** A write between two PDUs. *)
Record ready_h2c (req : nvme_tcp_request) : Prop := {
  rh_write : is_write req = true;
  rh_sent : 0 <= data_sent req < r_data_len req;
  rh_max : r_data_len req < 2 ^ 31;
  rh_bios : wf_bios req;
  rh_data : if data_sent req =? 0 then Z.of_nat (length (init_bytes req)) = r_data_len req
            else wf_iter (iter req) /\ 0 < it_count (iter req)
                 /\ Z.of_nat (length (rest_bytes req)) = r_data_len req - data_sent req;
}.

Lemma h2c_request_ok q r req hd n :
  data_digest q = false -> ready_h2c req -> 0 < n <= r_data_len req - data_sent req ->
  let req' := req <| pdu_len := n |> <| pdu_sent := 0 |> <| hdr := hd |>
                  <| state := NVME_TCP_SEND_H2C_PDU |> <| offset := 0 |> in
  wf_req e q req'
  /\ Z.of_nat (length (req_bytes q r req')) = sizeof_data_pdu + nvme_tcp_hdgst_len q + n.
Proof.
  intros Hdg [R1 R2 R3 R4 R5] Hn req'. pose proof (sizes q) as (_ & Z2 & Z3). split.
  - unfold wf_req, wf_hdr. simpl. split; [split; [lia|done]|].
    destruct (data_sent req =? 0) eqn:E.
    + split; [exact R4|]. intros i I1 I2 I3. constructor; simpl; try done; try lia.
      rewrite I3. change (Z.of_nat (length (init_bytes req)) = r_data_len req - data_sent req). lia.
    + destruct R5 as (R5 & R6 & R7). constructor; simpl; try done; lia.
  - unfold req_bytes. simpl. rewrite !Z.sub_0_r, length_app, seg_bytes_length, length_take.
    destruct (data_sent req =? 0) eqn:E.
    + change (init_bytes req') with (init_bytes req). lia.
    + change (rest_bytes req') with (rest_bytes req). destruct R5 as (_ & _ & R7). lia.
Qed.

Lemma handle_r2t_ok len off tag r q req :
  queue_wf e q -> prio_class q = class_of q -> r ∉ option_list (nq_request q) ++ send_list q ->
  reqs q !! r = Some req -> ready_h2c req -> 0 < len < 2 ^ 31 ->
  if (r_data_len req <? data_sent req + len) || (off <? data_sent req)
  then exists q', handle_r2t_req e len off tag r q = Some (- EPROTO, q')
         /\ send_list q' = send_list q /\ stream q' = stream q
  else exists q' req', handle_r2t_req e len off tag r q = Some (0, q')
         /\ queue_wf e q' /\ reqs q' !! r = Some req' /\ stream q' = stream q ++ req_bytes q' r req'
         /\ plen (hdr req') = Z.of_nat (length (req_bytes q' r req'))
         /\ h_data_length (hdr req') = len /\ h_data_offset (hdr req') = data_sent req
         /\ h_ttag (hdr req') = tag
         /\ req_bytes q' r req' = seg_bytes (mk_seg (BPdu r) 0 (sizeof_data_pdu + nvme_tcp_hdgst_len q))
              ++ take (Z.to_nat len) (if data_sent req =? 0 then init_bytes req else rest_bytes req).
Proof.
  intros Hq Hp Hr Hreq Hrd Hlen. pose proof Hrd as [R1 R2 R3 R4 R5].
  unfold handle_r2t_req. rewrite Hreq. cbn [mbind option_bind]. unfold nvme_tcp_setup_h2c_data_pdu.
  cbv zeta. simpl. rewrite u64_small by lia.
  destruct (r_data_len req <? data_sent req + len) eqn:E1; simpl.
  { eexists. split; [reflexivity|]. split; [done|]. by apply put_req_other. }
  destruct (off <? data_sent req) eqn:E2; simpl.
  { eexists. split; [reflexivity|]. split; [done|]. by apply put_req_other. }
  pose proof (qw_digest _ _ Hq) as Hdg. pose proof (sizes q) as (_ & Z2 & Z3).
  match goal with |- context [put_req r ?x q] => set (req' := x) end.
  destruct (h2c_request_ok q r req (hdr req') len Hdg Hrd) as [W1 W2]; [lia|].
  change (req <| pdu_len := len |> <| pdu_sent := 0 |> <| hdr := hdr req' |>
    <| state := NVME_TCP_SEND_H2C_PDU |> <| offset := 0 |>) with req' in W1, W2.
  destruct (put_req_other r req' q Hq Hr) as [Hq1 Hs1].
  assert (reqs (put_req r req' q) !! r = Some req') as Hl by apply lookup_insert_eq.
  destruct (queue_request_obs r (put_req r req' q) req' Hl Hp) as (q0 & E0 & O & _).
  destruct (queue_request_stream r (put_req r req' q) req' Hq1 Hp Hr Hl W1) as (q' & E & Hq' & Hs').
  assert (q0 = q') as -> by congruence.
  assert (req_bytes q' r req' = req_bytes q r req') as Hb by exact (obs_bytes _ _ r req' O).
  rewrite E. cbn [mbind option_bind]. exists q', req'. split; [done|]. split; [done|].
  split; [unfold obs in O; injection O; intros; congruence|]. rewrite Hb, W2.
  split; [by rewrite Hs', Hs1|]. simpl. unfold nvme_tcp_ddgst_len. rewrite Hdg. unfold u8.
  rewrite Z.mod_small, !u32_small by lia. split_and!; [lia|done|done|done|].
  unfold req_bytes. simpl. rewrite !Z.sub_0_r. done.
Qed.

(** The data of a write that was not sent yet, and the bytes of a data header. *)
Definition unsent (req : nvme_tcp_request) : list (buf * Z) :=
  if data_sent req =? 0 then init_bytes req else rest_bytes req.
Definition data_header (q : nvme_tcp_queue) (r : Z) : list (buf * Z) :=
  seg_bytes (mk_seg (BPdu r) 0 (sizeof_data_pdu + nvme_tcp_hdgst_len q)).

(** C32: the answer to an R2T, on a queue without data digests, for a write that is
    between two PDUs and not queued for sending, and an R2T of at least one byte.  A
    request for more than is left, or for an offset before that of the data already
    sent, is refused with [-EPROTO] and queues nothing.  Otherwise the
    request is queued and the stream grows by a data header and the next
    [r2t_length] bytes of the data that was not sent yet, which is what the length, data
    length and offset fields of the header say.  The offset of the R2T is not looked
    at any further: when it is beyond the data already sent, these are not the bytes
    that the controller asked for. *)
Theorem r2t_stream len off tag r q req :
  queue_wf e q -> prio_class q = class_of q -> r ∉ option_list (nq_request q) ++ send_list q ->
  reqs q !! r = Some req -> ready_h2c req -> 0 < len < 2 ^ 31 ->
  if (r_data_len req <? data_sent req + len) || (off <? data_sent req)
  then exists q', handle_r2t_req e len off tag r q = Some (- EPROTO, q')
         /\ send_list q' = send_list q /\ stream q' = stream q
  else exists q' req', handle_r2t_req e len off tag r q = Some (0, q')
         /\ queue_wf e q' /\ reqs q' !! r = Some req'
         /\ stream q' = stream q ++ data_header q r ++ take (Z.to_nat len) (unsent req)
         /\ Z.of_nat (length (take (Z.to_nat len) (unsent req))) = len
         /\ plen (hdr req') = sizeof_data_pdu + nvme_tcp_hdgst_len q + len
         /\ h_data_length (hdr req') = len /\ h_data_offset (hdr req') = data_sent req
         /\ h_ttag (hdr req') = tag.
Proof.
  intros Hq Hp Hr Hreq Hrd Hlen. pose proof (handle_r2t_ok len off tag r q req Hq Hp Hr Hreq Hrd Hlen) as H.
  destruct (_ || _) eqn:Ec; [exact H|]. destruct H as (q' & req' & H1 & H2 & H3 & H4 & H5 & H6 & H7 & H8 & H9).
  apply orb_false_iff in Ec as [Ec%Z.ltb_ge _].
  assert (Z.of_nat (length (take (Z.to_nat len) (unsent req))) = len) as Hl.
  { rewrite length_take. pose proof (rh_data _ Hrd) as Hd. pose proof (rh_sent _ Hrd). unfold unsent.
    destruct (Z.eqb_spec (data_sent req) 0); [|destruct Hd as (_ & _ & Hd)]; lia. }
  exists q', req'. split; [done|]. split; [done|]. split; [done|]. rewrite H4, H5, H9.
  unfold data_header. rewrite length_app, seg_bytes_length, Nat2Z.inj_add, Hl. simpl sg_len.
  pose proof (sizes q) as (_ & Z2 & Z3). split_and!; try done. fold (unsent req). rewrite Hl. lia.
Qed.
End setup.

(** ** A write of the block layer, and one that waits for an R2T *)

Definition ex_idle : nvme_tcp_queue := ex_nq <| send_list := [] |>.

Lemma ex_idle_wf : queue_wf (pr := ex_proto) ex_host ex_idle.
Proof.
  constructor; [|done|apply NoDup_nil_2|].
  - constructor; try done.
  - intros r Hr. simpl in Hr. by apply elem_of_nil in Hr.
Qed.

Lemma ex_bio_wf : Forall wf_bio [ex_bio].
Proof.
  repeat constructor. intros _. eexists _, _. split; [reflexivity|]. split; [simpl; lia|].
  split; [repeat constructor|reflexivity].
Qed.

Lemma queue_rq_stream_witness :
  exists q' req', @nvme_tcp_queue_rq ex_proto ex_host true 9 0 0 5 ex_idle = Some (0, q')
    /\ reqs q' !! 5 = Some req' /\ @stream ex_proto q' = @stream ex_proto ex_idle ++ @req_bytes ex_proto q' 5 req'
    /\ plen (hdr req') = 4168.
Proof.
  destruct (@queue_rq_stream ex_proto ex_host 9 0 5 ex_idle ex_write ex_idle_wf eq_refl)
    as (q' & req' & H1 & H2 & H3 & H4 & H5).
  - simpl. by intros ?%elem_of_nil.
  - reflexivity.
  - constructor; [done| |intros _; apply ex_bio_wf|vm_compute; done].
    right. split; [done|]. split; [split; [done|apply ex_bio_wf]|]. reflexivity.
  - exists q', req'. split; [exact H1|]. split; [exact H3|]. split; [exact H4|].
    vm_compute in H1. injection H1 as <-. vm_compute in H3. injection H3 as <-. reflexivity.
Defined.

Lemma r2t_stream_witness :
  exists q' req', @handle_r2t_req ex_proto ex_host 1024 0 77 5 ex_idle = Some (0, q')
    /\ reqs q' !! 5 = Some req'
    /\ @stream ex_proto q' = @stream ex_proto ex_idle ++ @data_header ex_proto ex_idle 5 ++ take 1024 (unsent ex_write)
    /\ h_data_length (hdr req') = 1024.
Proof.
  destruct (@r2t_stream ex_proto ex_host 1024 0 77 5 ex_idle ex_write ex_idle_wf eq_refl)
    as (q' & req' & H1 & H2 & H3 & H4 & _ & _ & H7 & _).
  - simpl. by intros ?%elem_of_nil.
  - reflexivity.
  - constructor; try done. split; [done|apply ex_bio_wf].
  - lia.
  - exists q', req'. split; [exact H1|]. split; [exact H3|]. split; [exact H4|exact H7].
Defined.
