(* ===== verification/NvmeTcpRecv.v ===== *)
(** * NVMe/TCP host: receiving

    The receive state machine of drivers/nvme/host/tcp.c: [nvme_tcp_recv_pdu],
    [nvme_tcp_recv_data], [nvme_tcp_recv_ddgst] and [nvme_tcp_recv_skb], with the
    handlers of the PDUs.  The part of a buffer from [*offset] on of length
    [*len] is the list of its bytes; a function returns what it has not
    consumed. *)
From S2P Require Import Prelude NvmeTcp NvmeTcpSend NvmeTcpSetup.

(** The layout of the PDUs (<linux/nvme-tcp.h>), the digest algorithm (crc32c of
    the crypto layer), and the result of copying received bytes to an iterator. *)
Class PduLayout := {
  pdu_type : list Z -> Z;
  pdu_flags : list Z -> Z;
  pdu_hlen : list Z -> Z;
  pdu_plen : list Z -> Z;
  rsp_command_id : list Z -> Z;
  rsp_status : list Z -> Z;
  data_command_id : list Z -> Z;
  data_data_length : list Z -> Z;
  r2t_command_id : list Z -> Z;
  r2t_ttag : list Z -> Z;
  r2t_r2t_offset : list Z -> Z;
  r2t_r2t_length : list Z -> Z;
  crc32c : list Z -> list Z;
  skb_copy_ret : list Z -> Z;
}.

(** The receive state of the queue. *)
Record recv_ctx := mk_recv {
  rpdu : list Z;  (* the buffer of the PDU *)
  pdu_remaining : Z;
  pdu_offset : Z;
  data_remaining : Z;
  ddgst_remaining : Z;
  nr_cqe : Z;
  rd_enabled : bool;
  rcv_hash : list Z;  (* input of the running data digest *)
  exp_ddgst : list Z;
  recv_ddgst : list Z;
}.
#[export] Instance recv_ctx_eta : Settable recv_ctx := {| eta_expand := fun r =>
  mk_recv (rpdu r) (pdu_remaining r) (pdu_offset r) (data_remaining r) (ddgst_remaining r) (nr_cqe r)
    (rd_enabled r) (rcv_hash r) (exp_ddgst r) (recv_ddgst r) |}.

(** A queue with its receive state, the requests by tag, the requests ended by a
    completion with their status, the completed asynchronous events, and whether
    error recovery was started. *)
Record host := mk_host {
  h_q : nvme_tcp_queue;
  h_rx : recv_ctx;
  h_tagset : list (option Z);
  h_ended : list (Z * Z);
  h_aen : list Z;
  h_recovery : bool;
}.
#[export] Instance host_eta : Settable host := {| eta_expand := fun r =>
  mk_host (h_q r) (h_rx r) (h_tagset r) (h_ended r) (h_aen r) (h_recovery r) |}.

Inductive nvme_tcp_recv_state_t := NVME_TCP_RECV_PDU | NVME_TCP_RECV_DATA | NVME_TCP_RECV_DDGST.

Definition NVME_SC_SUCCESS : Z := 0.

(** [memcpy(buf + off, bytes, length)]. *)
Definition overwrite (off : Z) (bytes buf : list Z) : option (list Z) :=
  if (0 <=? off) && (off + Z.of_nat (length bytes) <=? Z.of_nat (length buf))
  then Some (take (Z.to_nat off) buf ++ bytes ++ drop (Z.to_nat off + length bytes) buf)
  else None.

(** [buf[off .. off + n)]. *)
Definition slice (off n : Z) (buf : list Z) : option (list Z) :=
  if (0 <=? off) && (0 <=? n) && (off + n <=? Z.of_nat (length buf))
  then Some (take (Z.to_nat n) (drop (Z.to_nat off) buf)) else None.

(** [blk_mq_tag_to_rq]. *)
Definition blk_mq_tag_to_rq (tags : list (option Z)) (tag : Z) : option Z :=
  if tag <? Z.of_nat (length tags) then mjoin (aget tags tag) else None.

Section recv.
Context {pr : NvmeTcpProto} {it : IovIter} {ly : PduLayout} (e : host_env).

Definition nvme_tcp_recv_state (x : recv_ctx) : nvme_tcp_recv_state_t :=
  if c_true (pdu_remaining x) then NVME_TCP_RECV_PDU
  else if c_true (ddgst_remaining x) then NVME_TCP_RECV_DDGST
  else NVME_TCP_RECV_DATA.

Definition nvme_tcp_init_recv_ctx (q : nvme_tcp_queue) (x : recv_ctx) : recv_ctx :=
  x <| pdu_remaining := sizeof_rsp_pdu + nvme_tcp_hdgst_len q |> <| pdu_offset := 0 |>
    <| data_remaining := u64 (-1) |> <| ddgst_remaining := 0 |>.

Definition init_recv (h : host) : host := h <| h_rx ::= nvme_tcp_init_recv_ctx (h_q h) |>.

(** Error recovery is started once. *)
Definition nvme_tcp_error_recovery (h : host) : host := h <| h_recovery := true |>.

Definition nvme_end_request (r status : Z) (h : host) : host :=
  h <| h_ended ::= fun l => l ++ [(r, status)] |>.
Definition count_cqe (h : host) : host :=
  h <| h_rx ::= fun x => x <| nr_cqe ::= fun n => u32 (n + 1) |> |>.

(** ** Checks of a complete header *)

Definition nvme_tcp_verify_hdgst (pdu : list Z) (len : Z) : option (Z * list Z) :=
  if negb (has_flag (pdu_flags pdu) NVME_TCP_F_HDGST) then Some (- EPROTO, pdu)
  else
    recv_digest ← slice (pdu_hlen pdu) NVME_TCP_DIGEST_LENGTH pdu;
    input ← slice 0 len pdu;
    pdu ← overwrite len (crc32c input) pdu;
    exp_digest ← slice (pdu_hlen pdu) NVME_TCP_DIGEST_LENGTH pdu;
    Some (if bool_decide (recv_digest = exp_digest) then 0 else - EIO, pdu).

Definition nvme_tcp_check_ddgst (q : nvme_tcp_queue) (pdu : list Z) : Z :=
  let len := u32 (pdu_plen pdu - pdu_hlen pdu
                  - if has_flag (pdu_flags pdu) NVME_TCP_F_HDGST then nvme_tcp_hdgst_len q else 0) in
  if c_true len && negb (has_flag (pdu_flags pdu) NVME_TCP_F_DDGST) then - EPROTO else 0.

(** ** Handlers *)

Definition nvme_tcp_process_nvme_cqe (h : host) : Z * host :=
  let pdu := rpdu (h_rx h) in
  match blk_mq_tag_to_rq (h_tagset h) (rsp_command_id pdu) with
  | None => (- EINVAL, nvme_tcp_error_recovery h)
  | Some r => (0, count_cqe (nvme_end_request r (rsp_status pdu) h))
  end.

Definition nvme_tcp_handle_comp (h : host) : Z * host :=
  let pdu := rpdu (h_rx h) in
  if (nq_id (h_q h) =? 0) && (NVME_AQ_BLK_MQ_DEPTH <=? rsp_command_id pdu)
  then (0, h <| h_aen ::= fun l => l ++ [rsp_status pdu] |>)
  else nvme_tcp_process_nvme_cqe h.

Definition nvme_tcp_handle_c2h_data (h : host) : option (Z * host) :=
  let pdu := rpdu (h_rx h) in
  match blk_mq_tag_to_rq (h_tagset h) (data_command_id pdu) with
  | None => Some (- ENOENT, h)
  | Some r =>
    req ← reqs (h_q h) !! r;
    if negb (c_true (blk_rq_payload_bytes req)) then Some (- EIO, h)
    else
      let h := h <| h_rx ::= fun x => x <| data_remaining := data_data_length pdu |> |> in
      if has_flag (pdu_flags pdu) NVME_TCP_F_DATA_SUCCESS
         && negb (has_flag (pdu_flags pdu) NVME_TCP_F_DATA_LAST)
      then Some (- EPROTO, nvme_tcp_error_recovery h)
      else Some (0, h)
  end.

Definition nvme_tcp_handle_r2t (h : host) : option (Z * host) :=
  let pdu := rpdu (h_rx h) in
  match blk_mq_tag_to_rq (h_tagset h) (r2t_command_id pdu) with
  | None => Some (- ENOENT, h)
  | Some r =>
    '(ret, q) ← handle_r2t_req e (r2t_r2t_length pdu) (r2t_r2t_offset pdu) (r2t_ttag pdu) r (h_q h);
    Some (ret, h <| h_q := q |>)
  end.

(** The header is complete. *)
Definition pdu_complete (h : host) : option (Z * host) :=
  let q := h_q h in
  '(ret, pdu) ← (if hdr_digest q then nvme_tcp_verify_hdgst (rpdu (h_rx h)) (pdu_hlen (rpdu (h_rx h)))
                 else Some (0, rpdu (h_rx h)));
  let h := h <| h_rx ::= fun x => x <| rpdu := pdu |> |> in
  if c_true ret then Some (ret, h)
  else
    let ret := if data_digest q then nvme_tcp_check_ddgst q pdu else 0 in
    if c_true ret then Some (ret, h)
    else
      let h := if data_digest q then h <| h_rx ::= fun x => x <| rcv_hash := [] |> |> else h in
      if pdu_type pdu =? nvme_tcp_c2h_data then nvme_tcp_handle_c2h_data h
      else if pdu_type pdu =? nvme_tcp_rsp then Some (nvme_tcp_handle_comp (init_recv h))
      else if pdu_type pdu =? nvme_tcp_r2t then nvme_tcp_handle_r2t (init_recv h)
      else Some (- EINVAL, h).

(** ** The states *)

Definition nvme_tcp_recv_pdu (h : host) (l : list Z) : option (Z * host * list Z) :=
  let x := h_rx h in
  let rcv_len := Z.min (Z.of_nat (length l)) (pdu_remaining x) in
  pdu ← overwrite (pdu_offset x) (take (Z.to_nat rcv_len) l) (rpdu x);
  let h := h <| h_rx := x <| rpdu := pdu |> <| pdu_remaining ::= fun n => n - rcv_len |>
                          <| pdu_offset ::= fun n => n + rcv_len |> |> in
  let l := drop (Z.to_nat rcv_len) l in
  if c_true (pdu_remaining (h_rx h)) then Some (0, h, l)
  else '(ret, h) ← pdu_complete h; Some (ret, h, l).

(** Copy [n] bytes of [l] to the iterator of request [r]. *)
Definition copy_to_iter (r : Z) (req : nvme_tcp_request) (bytes : list Z) (h : host) : host :=
  let n := Z.of_nat (length bytes) in
  let req := req <| received ::= fun d => d ++ bytes |> <| iter ::= fun i => iov_iter_advance i n |> in
  let h := h <| h_q ::= put_req r req |> in
  h <| h_rx ::= fun x => (if data_digest (h_q h) then x <| rcv_hash ::= fun d => d ++ bytes |> else x)
                           <| data_remaining ::= fun m => m - n |> |>.

(** The loop of [nvme_tcp_recv_data]; every turn uses up a byte or a bio. *)
Fixpoint recv_data_loop (fuel : nat) (r : Z) (h : host) (l : list Z) : option (Z * host * list Z) :=
  match fuel with
  | O => None
  | S fuel =>
    let recv_len := Z.min (Z.of_nat (length l)) (data_remaining (h_rx h)) in
    if recv_len =? 0 then Some (0, h, l)
    else
      req ← reqs (h_q h) !! r;
      o ← (if it_count (iter req) =? 0 then
             match curr_bio req with
             | [] => None
             | _ :: next =>
               if bool_decide (next = []) then Some (inl (req <| curr_bio := [] |>))
               else req ← nvme_tcp_init_iter (req <| curr_bio := next |>); Some (inr req)
             end
           else Some (inr req));
      match o with
      | inl req => Some (- EIO, init_recv (h <| h_q ::= put_req r req |>), l)
      | inr req =>
        let recv_len := Z.min recv_len (it_count (iter req)) in
        let bytes := take (Z.to_nat recv_len) l in
        if c_true (skb_copy_ret bytes) then Some (skb_copy_ret bytes, h <| h_q ::= put_req r req |>, l)
        else recv_data_loop fuel r (copy_to_iter r req bytes h) (drop (Z.to_nat recv_len) l)
      end
  end.

Definition data_fuel (h : host) (r : Z) (l : list Z) : nat :=
  S (length l + from_option (fun req => length (curr_bio req)) 0%nat (reqs (h_q h) !! r)).

(** The data is complete. *)
Definition data_complete (r : Z) (h : host) : host :=
  if data_digest (h_q h)
  then h <| h_rx ::= fun x => x <| exp_ddgst := crc32c (rcv_hash x) |>
                                <| ddgst_remaining := NVME_TCP_DIGEST_LENGTH |> |>
  else
    init_recv (if has_flag (pdu_flags (rpdu (h_rx h))) NVME_TCP_F_DATA_SUCCESS
               then count_cqe (nvme_end_request r NVME_SC_SUCCESS h) else h).

Definition nvme_tcp_recv_data (h : host) (l : list Z) : option (Z * host * list Z) :=
  match blk_mq_tag_to_rq (h_tagset h) (data_command_id (rpdu (h_rx h))) with
  | None => Some (- ENOENT, h, l)
  | Some r =>
    '(ret, h, l) ← recv_data_loop (data_fuel h r l) r h l;
    if c_true ret then Some (ret, h, l)
    else Some (0, if data_remaining (h_rx h) =? 0 then data_complete r h else h, l)
  end.

(** The data digest is complete. *)
Definition ddgst_complete (h : host) : option (Z * host) :=
  if negb (bool_decide (recv_ddgst (h_rx h) = exp_ddgst (h_rx h))) then Some (- EIO, h)
  else
    h ← (if has_flag (pdu_flags (rpdu (h_rx h))) NVME_TCP_F_DATA_SUCCESS
         then r ← blk_mq_tag_to_rq (h_tagset h) (data_command_id (rpdu (h_rx h)));
              Some (count_cqe (nvme_end_request r NVME_SC_SUCCESS h))
         else Some h);
    Some (0, init_recv h).

Definition nvme_tcp_recv_ddgst (h : host) (l : list Z) : option (Z * host * list Z) :=
  let x := h_rx h in
  let recv_len := Z.min (Z.of_nat (length l)) (ddgst_remaining x) in
  dg ← overwrite (NVME_TCP_DIGEST_LENGTH - ddgst_remaining x) (take (Z.to_nat recv_len) l) (recv_ddgst x);
  let h := h <| h_rx := x <| recv_ddgst := dg |> <| ddgst_remaining ::= fun n => n - recv_len |> |> in
  let l := drop (Z.to_nat recv_len) l in
  if c_true (ddgst_remaining (h_rx h)) then Some (0, h, l)
  else '(ret, h) ← ddgst_complete h; Some (ret, h, l).

Definition recv_step (h : host) (l : list Z) : option (Z * host * list Z) :=
  match nvme_tcp_recv_state (h_rx h) with
  | NVME_TCP_RECV_PDU => nvme_tcp_recv_pdu h l
  | NVME_TCP_RECV_DATA => nvme_tcp_recv_data h l
  | NVME_TCP_RECV_DDGST => nvme_tcp_recv_ddgst h l
  end.

(** The loop of [nvme_tcp_recv_skb]: 0 when the buffer is used up. *)
Fixpoint recv_skb_loop (fuel : nat) (h : host) (l : list Z) : option (Z * host) :=
  match l with
  | [] => Some (0, h)
  | _ =>
    match fuel with
    | O => None
    | S fuel =>
      '(result, h, l) ← recv_step h l;
      if c_true result
      then Some (result, nvme_tcp_error_recovery (h <| h_rx ::= fun x => x <| rd_enabled := false |> |>))
      else recv_skb_loop fuel h l
    end
  end.

(** A turn that uses up no byte is followed by one that does. *)
Definition nvme_tcp_recv_skb (h : host) (l : list Z) : option (Z * host) :=
  '(result, h) ← recv_skb_loop (2 * length l) h l;
  Some (if c_true result then result else Z.of_nat (length l), h).
End recv.
