(* ===== verification/NvmeTcpRecvSpec.v ===== *)
(** * NVMe/TCP host: the receive state machine does not see segments

    TCP delivers a byte stream in pieces of any size.  Receiving two pieces one
    after the other has the same effect as receiving them at once, error paths
    included. *)
From S2P Require Import Prelude NvmeTcp NvmeTcpSend NvmeTcpSetup NvmeTcpRecv.
From S2P Require Import NvmeTcpStream.

(** Documented behaviour of the iterator and of copying to kernel pages, and the
    range of a length field. *)
Class RecvLaws (it : IovIter) (ly : PduLayout) : Prop := {
  advance_count : forall i a, 0 <= a <= it_count i -> it_count (iov_iter_advance i a) = it_count i - a;
  advance_add : forall i a b, 0 <= a -> 0 <= b -> a + b <= it_count i ->
    iov_iter_advance (iov_iter_advance i a) b = iov_iter_advance i (a + b);
  copy_ok : forall l, skb_copy_ret l = 0;
  length_range : forall l, 0 <= data_data_length l;
}.

Section recv.
Context {pr : NvmeTcpProto} {it : IovIter} {ly : PduLayout} {rl : RecvLaws it ly} (e : host_env).

(** ** The data loop *)

(** One turn of the loop: done, out of space, or [n] bytes to copy. *)
Definition turn_req (req : nvme_tcp_request) : option (nvme_tcp_request + nvme_tcp_request) :=
  if it_count (iter req) =? 0 then
    match curr_bio req with
    | [] => None
    | _ :: next =>
      if bool_decide (next = []) then Some (inl (req <| curr_bio := [] |>))
      else req ← nvme_tcp_init_iter (req <| curr_bio := next |>); Some (inr req)
    end
  else Some (inr req).

Definition space (req : nvme_tcp_request) : nat := Z.to_nat (it_count (iter req)).

Lemma loop_unfold fuel r h l :
  recv_data_loop (S fuel) r h l =
  if Z.min (Z.of_nat (length l)) (data_remaining (h_rx h)) =? 0 then Some (0, h, l)
  else
    req ← reqs (h_q h) !! r; o ← turn_req req;
    match o with
    | inl req => Some (- EIO, init_recv (h <| h_q ::= put_req r req |>), l)
    | inr req =>
      let n := Z.min (Z.min (Z.of_nat (length l)) (data_remaining (h_rx h))) (it_count (iter req)) in
      recv_data_loop fuel r (copy_to_iter r req (take (Z.to_nat n) l) h) (drop (Z.to_nat n) l)
    end.
Proof.
  simpl. destruct (_ =? 0); [done|]. destruct (reqs (h_q h) !! r) as [req|]; [|done].
  cbn [mbind option_bind]. unfold turn_req.
  destruct (it_count (iter req) =? 0).
  - destruct (curr_bio req) as [|b next]; [done|]. case_bool_decide; [done|].
    destruct (nvme_tcp_init_iter _) as [req'|]; [|done]. cbn [mbind option_bind].
    by rewrite copy_ok.
  - cbn [mbind option_bind]. by rewrite copy_ok.
Qed.

(** Copying in terms of the request and of the receive state. *)
Definition adv_req (req : nvme_tcp_request) (b : list Z) : nvme_tcp_request :=
  req <| received ::= fun d => d ++ b |> <| iter ::= fun i => iov_iter_advance i (Z.of_nat (length b)) |>.
Definition adv_rx (digest : bool) (b : list Z) (x : recv_ctx) : recv_ctx :=
  (if digest then x <| rcv_hash ::= fun d => d ++ b |> else x)
    <| data_remaining ::= fun m => m - Z.of_nat (length b) |>.

Lemma copy_eq r req b h :
  copy_to_iter r req b h
  = mk_host (put_req r (adv_req req b) (h_q h)) (adv_rx (data_digest (h_q h)) b (h_rx h))
      (h_tagset h) (h_ended h) (h_aen h) (h_recovery h).
Proof. reflexivity. Qed.

Lemma put_put r x y q : put_req r x (put_req r y q) = put_req r x q.
Proof. destruct q. unfold put_req, upd. simpl. by rewrite insert_insert_eq. Qed.

Lemma adv_rx_app d b1 b2 x : adv_rx d b2 (adv_rx d b1 x) = adv_rx d (b1 ++ b2) x.
Proof.
  destruct x. unfold adv_rx, upd. rewrite length_app, Nat2Z.inj_add.
  destruct d; simpl; rewrite ?app_assoc; f_equal; lia.
Qed.

Lemma adv_req_app req b1 b2 :
  Z.of_nat (length b1) + Z.of_nat (length b2) <= it_count (iter req) ->
  adv_req (adv_req req b1) b2 = adv_req req (b1 ++ b2).
Proof.
  intros H. unfold adv_req, upd. cbv beta. simpl. rewrite length_app, Nat2Z.inj_add, advance_add by lia.
  by rewrite app_assoc.
Qed.

(** Copying two pieces in a row. *)
Lemma copy_app r req b1 b2 h :
  Z.of_nat (length b1) + Z.of_nat (length b2) <= it_count (iter req) ->
  copy_to_iter r (adv_req req b1) b2 (copy_to_iter r req b1 h) = copy_to_iter r req (b1 ++ b2) h.
Proof.
  intros H. rewrite !copy_eq. cbn [h_q h_rx h_tagset h_ended h_aen h_recovery].
  rewrite put_put, adv_req_app by done. f_equal. apply adv_rx_app.
Qed.

(** Sizes are unsigned in the code. *)
Definition wf_sizes (req : nvme_tcp_request) : Prop :=
  0 <= it_count (iter req) /\ Forall (fun b => 0 <= hb_size b) (curr_bio req)
  /\ 0 <= blk_rq_payload_bytes req.

Record wf_host (h : host) : Prop := {
  wh_reqs : forall r req, reqs (h_q h) !! r = Some req -> wf_sizes req;
  wh_pdu : 0 <= pdu_remaining (h_rx h);
  wh_data : 0 <= data_remaining (h_rx h);
  wh_ddgst : 0 <= ddgst_remaining (h_rx h);
}.

Definition bios (h : host) (r : Z) : nat :=
  from_option (fun req => length (curr_bio req)) 0%nat (reqs (h_q h) !! r).

Lemma turn_req_ok req req' :
  wf_sizes req -> turn_req req = Some (inr req') ->
  wf_sizes req' /\ (req' = req /\ 0 < it_count (iter req)
                   \/ (length (curr_bio req') < length (curr_bio req))%nat).
Proof.
  intros (W1 & W2 & W3). unfold turn_req. destruct (it_count (iter req) =? 0) eqn:E.
  2: { intros [= <-]. split; [done|]. left. split; [done|lia]. }
  destruct (curr_bio req) as [|b next] eqn:Eb; [done|]. case_bool_decide as En; [done|].
  intros H. apply bind_Some in H as (x & Hx & [= <-]). unfold nvme_tcp_init_iter in Hx. simpl in Hx.
  apply Forall_cons in W2 as [_ W2].
  change (special_vec (req <| curr_bio := next |>)) with (special_vec req) in Hx.
  destruct (special_vec req) as [v|] eqn:Ev; [injection Hx as <-|apply bind_Some in Hx as (b' & Hb & [= <-])].
  - split; [|right; simpl; lia]. split; [exact W3|]. split; [exact W2|exact W3].
  - split; [|right; simpl; lia]. split; [|split; [exact W2|exact W3]].
    destruct next as [|b2 next]; [done|]. injection Hb as <-. by apply Forall_cons in W2 as [? _].
Qed.

Lemma copy_wf r req b h :
  wf_host h -> wf_sizes req -> Z.of_nat (length b) <= it_count (iter req) ->
  Z.of_nat (length b) <= data_remaining (h_rx h) ->
  wf_host (copy_to_iter r req b h) /\ bios (copy_to_iter r req b h) r = length (curr_bio req).
Proof.
  intros [H1 H2 H3 H4] (W1 & W2 & W3) Hb Hd. rewrite copy_eq. split.
  - constructor; simpl.
    + intros r' req'. destruct (decide (r' = r)) as [->|Hne].
      * rewrite lookup_insert_eq. intros [= <-]. split; [|done]. simpl.
        rewrite advance_count; lia.
      * rewrite lookup_insert_ne by done. apply H1.
    + by destruct (data_digest (h_q h)).
    + destruct (data_digest (h_q h)); simpl; lia.
    + by destruct (data_digest (h_q h)).
  - unfold bios. simpl. by rewrite lookup_insert_eq.
Qed.

(** The fuel of the loop is enough. *)
Lemma loop_enough n m r h l x :
  wf_host h -> recv_data_loop n r h l = Some x -> (length l + bios h r < m)%nat ->
  recv_data_loop m r h l = Some x.
Proof.
  revert m h l. induction n as [|n IH]; intros m h l Hw H Hm; [done|].
  destruct m as [|m]; [lia|]. rewrite loop_unfold in H |- *.
  destruct (_ =? 0) eqn:E0; [done|].
  destruct (reqs (h_q h) !! r) as [req|] eqn:Hreq; [|done]. cbn [mbind option_bind] in *.
  destruct (turn_req req) as [[req'|req']|] eqn:Et; [done| |done]. cbn [mbind option_bind] in *.
  destruct (turn_req_ok req req') as [W T]; [by eapply wh_reqs|done|].
  pose proof (wh_data _ Hw) as Hdr.
  match type of H with context [take ?m l] => set (k := m) in * end.
  assert (Z.of_nat (length (take k l)) <= it_count (iter req')
    /\ Z.of_nat (length (take k l)) <= data_remaining (h_rx h)) as [L1 L2].
  { rewrite length_take. destruct W as [W _]. lia. }
  destruct (copy_wf r req' (take k l) h) as [C1 C2]; try done.
  apply (IH m) in H; [done|done|]. rewrite C2, length_drop.
  unfold bios in Hm. rewrite Hreq in Hm. simpl in Hm. destruct T as [[-> T]|T]; lia.
Qed.

(** The loop on the first piece stopped before its end or with the data
    complete, or it used up the first piece and goes on with the second. *)
Definition loop_split (r : Z) (h : host) (l1 l2 : list Z) (ret : Z) (h1 : host) (l1' : list Z) : Prop :=
  (ret <> 0 \/ data_remaining (h_rx h1) = 0)
    /\ (exists m, recv_data_loop m r h (l1 ++ l2) = Some (ret, h1, l1' ++ l2))
  \/ ret = 0 /\ l1' = [] /\ data_remaining (h_rx h1) <> 0
    /\ (forall k x, recv_data_loop k r h1 l2 = Some x -> exists m, recv_data_loop m r h (l1 ++ l2) = Some x).

(** The first piece ends inside a segment of the request. *)
Lemma loop_join n r h req req' l1 l2 x :
  wf_host h -> reqs (h_q h) !! r = Some req -> turn_req req = Some (inr req') ->
  Z.of_nat (length l1) < data_remaining (h_rx h) -> Z.of_nat (length l1) < it_count (iter req') ->
  l1 <> [] -> l2 <> [] ->
  recv_data_loop n r (copy_to_iter r req' l1 h) l2 = Some x ->
  exists m, recv_data_loop m r h (l1 ++ l2) = Some x.
Proof.
  intros Hw Hreq Ht Hd Hc Hl1 Hl2 H. destruct n as [|n]; [done|]. exists (S n).
  assert (0 < length l1)%nat by (destruct l1; simpl; [done|lia]).
  assert (0 < length l2)%nat by (destruct l2; simpl; [done|lia]).
  assert (data_remaining (h_rx (copy_to_iter r req' l1 h))
    = data_remaining (h_rx h) - Z.of_nat (length l1)) as Hdr
    by (rewrite copy_eq; simpl; by destruct (data_digest (h_q h))).
  assert (reqs (h_q (copy_to_iter r req' l1 h)) !! r = Some (adv_req req' l1)) as Hreq1
    by (rewrite copy_eq; apply lookup_insert_eq).
  assert (it_count (iter (adv_req req' l1)) = it_count (iter req') - Z.of_nat (length l1)) as Hcnt
    by (unfold adv_req; simpl; apply advance_count; lia).
  rewrite loop_unfold in H |- *. rewrite Hdr, Hreq1 in H. rewrite Hreq.
  destruct (_ =? 0) eqn:E1 in H; [lia|]. case_bool; [apply Z.eqb_eq in Hif; rewrite length_app in Hif; lia|].
  cbn [mbind option_bind] in *. rewrite Ht. cbn [mbind option_bind].
  assert (turn_req (adv_req req' l1) = Some (inr (adv_req req' l1))) as Ht1.
  { unfold turn_req. rewrite Hcnt. case_bool; [apply Z.eqb_eq in Hif0; lia|done]. }
  rewrite Ht1 in H. cbn [mbind option_bind] in H. rewrite Hcnt in H.
  cbv zeta in *. set (n2 := Z.to_nat _) in H. set (n12 := Z.to_nat _).
  assert (n12 = length l1 + n2)%nat as Hn by (unfold n12, n2; rewrite length_app; lia).
  assert (n2 <= length l2)%nat by (unfold n2; lia).
  rewrite copy_app in H by (rewrite length_take; unfold n2; lia).
  rewrite Hn, take_app_add', drop_app_add' by done. exact H.
Qed.

Lemma loop_app n r h l1 l2 ret h1 l1' :
  wf_host h -> recv_data_loop n r h l1 = Some (ret, h1, l1') -> loop_split r h l1 l2 ret h1 l1'.
Proof.
  revert h l1. induction n as [|n IH]; intros h l1 Hw H; [done|].
  pose proof (wh_data _ Hw) as Hd0. rewrite loop_unfold in H. destruct (_ =? 0) eqn:E0.
  { apply Z.eqb_eq in E0. injection H as <- <- <-. destruct (decide (data_remaining (h_rx h) = 0)) as [Hz|Hz].
    - left. split; [by right|]. exists 1%nat. rewrite loop_unfold, Hz.
      case_bool; [done|apply Z.eqb_neq in Hif; lia].
    - right. assert (l1 = []) as -> by (destruct l1; simpl in *; [done|lia]).
      split_and!; try done. intros k x Hk. by exists k. }
  apply Z.eqb_neq in E0.
  destruct (reqs (h_q h) !! r) as [req|] eqn:Hreq; [|done]. cbn [mbind option_bind] in H.
  destruct (turn_req req) as [[req'|req']|] eqn:Et; [| |done]; cbn [mbind option_bind] in H.
  { injection H as <- <- <-. left. split; [left; done|]. exists 1%nat. rewrite loop_unfold, Hreq.
    case_bool; [apply Z.eqb_eq in Hif; rewrite length_app in Hif; lia|]. cbn [mbind option_bind]. by rewrite Et. }
  destruct (turn_req_ok req req') as [(W1 & W2 & W3) _]; [by eapply wh_reqs|done|].
  cbv zeta in H. set (n1 := Z.min _ (it_count (iter req'))) in H.
  set (n12 := Z.min (Z.min (Z.of_nat (length (l1 ++ l2))) (data_remaining (h_rx h))) (it_count (iter req'))).
  destruct (decide (n12 = n1)) as [En|En].
  - destruct (copy_wf r req' (take (Z.to_nat n1) l1) h) as [C1 _];
      try (rewrite ?length_take; unfold n1; lia); try done.
    assert (forall m y, recv_data_loop m r (copy_to_iter r req' (take (Z.to_nat n1) l1) h)
        (drop (Z.to_nat n1) l1 ++ l2) = Some y -> recv_data_loop (S m) r h (l1 ++ l2) = Some y) as Hup.
    { intros m y Hy. rewrite loop_unfold, Hreq.
      case_bool; [apply Z.eqb_eq in Hif; rewrite length_app in Hif; lia|]. cbn [mbind option_bind]. rewrite Et.
      cbn [mbind option_bind]. cbv zeta. fold n12. rewrite En.
      rewrite take_app_le, drop_app_le by (unfold n1; lia). exact Hy. }
    destruct (IH _ _ C1 H) as [[D [m Hm]]|(D1 & D2 & D3 & D4)].
    + left. split; [done|]. eauto.
    + right. split_and!; try done. intros k x Hk. destruct (D4 k x Hk) as [m Hm]. eauto.
  - assert (n1 = Z.of_nat (length l1) /\ n1 < data_remaining (h_rx h) /\ n1 < it_count (iter req')
      /\ l2 <> []) as (N1 & N2 & N3 & N4).
    { unfold n12, n1 in *. rewrite length_app in *. split_and!; try lia.
      intros ->. simpl in En. lia. }
    rewrite N1, Nat2Z.id, firstn_all, drop_all in H.
    assert (data_remaining (h_rx (copy_to_iter r req' l1 h))
      = data_remaining (h_rx h) - Z.of_nat (length l1)) as Hdr
      by (rewrite copy_eq; simpl; by destruct (data_digest (h_q h))).
    destruct n as [|n]; [done|]. rewrite loop_unfold, Hdr in H. simpl length in H.
    destruct (_ =? 0) eqn:E1 in H; [|apply Z.eqb_neq in E1; lia]. injection H as <- <- <-. right.
    split; [done|]. split; [done|]. split; [lia|].
    intros k x Hk. eapply loop_join; try done; try lia. intros ->. simpl in *. lia.
Qed.

(** ** The states *)

Lemma overwrite_Some off b buf buf1 :
  overwrite off b buf = Some buf1 ->
  0 <= off /\ off + Z.of_nat (length b) <= Z.of_nat (length buf) /\ length buf1 = length buf
  /\ buf1 = take (Z.to_nat off) buf ++ b ++ drop (Z.to_nat off + length b) buf.
Proof.
  unfold overwrite. case_bool; [|done]. intros [= <-]. apply andb_true_iff in Hif as [H1 H2].
  split; [lia|]. split; [lia|]. split; [|done]. rewrite !length_app, length_take, length_drop. lia.
Qed.

Lemma overwrite_app off b1 b2 buf buf1 :
  overwrite off b1 buf = Some buf1 ->
  overwrite (off + Z.of_nat (length b1)) b2 buf1 = overwrite off (b1 ++ b2) buf.
Proof.
  intros H. apply overwrite_Some in H as (H1 & H2 & H3 & H4). unfold overwrite. rewrite H3, length_app.
  replace ((0 <=? off + Z.of_nat (length b1))
    && (off + Z.of_nat (length b1) + Z.of_nat (length b2) <=? Z.of_nat (length buf)))
    with ((0 <=? off) && (off + Z.of_nat (length b1 + length b2) <=? Z.of_nat (length buf)))
    by (apply eq_true_iff_eq; rewrite !andb_true_iff, !Z.leb_le; lia).
  case_bool; [|done]. f_equal. rewrite H4.
  replace (Z.to_nat (off + Z.of_nat (length b1))) with (Z.to_nat off + length b1)%nat by lia.
  assert (length (take (Z.to_nat off) buf) = Z.to_nat off) as Hlt by (rewrite length_take; lia).
  assert (length (take (Z.to_nat off) buf ++ b1) = Z.to_nat off + length b1)%nat as Hl1
    by (rewrite length_app, Hlt; done).
  rewrite (app_assoc _ b1 (drop _ _)). rewrite take_app_length' by done.
  replace (Z.to_nat off + length b1 + length b2)%nat
    with (length (take (Z.to_nat off) buf ++ b1) + length b2)%nat by lia.
  rewrite drop_app_add', drop_drop by done. rewrite <- !app_assoc. do 4 f_equal. lia.
Qed.

Lemma recv_pdu_more h l1 l2 ret h1 l1' :
  0 < pdu_remaining (h_rx h) <= Z.of_nat (length l1) ->
  nvme_tcp_recv_pdu e h l1 = Some (ret, h1, l1') ->
  nvme_tcp_recv_pdu e h (l1 ++ l2) = Some (ret, h1, l1' ++ l2).
Proof.
  intros Hp H. unfold nvme_tcp_recv_pdu in *. cbv zeta in *. rewrite length_app.
  rewrite Z.min_r in H by lia. rewrite Z.min_r by lia.
  rewrite take_app_le, drop_app_le by lia.
  apply bind_Some in H as (pdu & -> & H). cbn [mbind option_bind].
  match type of H with (if ?c then _ else _) = _ => destruct c end.
  - by injection H as <- <- <-.
  - apply bind_Some in H as ([ret' h'] & -> & H). simpl in H |- *. by injection H as <- <- <-.
Qed.

(** The header with some more of its bytes. *)
Definition rx_got (b : list Z) (x : recv_ctx) : option recv_ctx :=
  pdu ← overwrite (pdu_offset x) b (rpdu x);
  Some (x <| rpdu := pdu |> <| pdu_remaining ::= fun n => n - Z.of_nat (length b) |>
          <| pdu_offset ::= fun n => n + Z.of_nat (length b) |>).

Lemma rx_got_app b1 b2 x x1 : rx_got b1 x = Some x1 -> rx_got b2 x1 = rx_got (b1 ++ b2) x.
Proof.
  unfold rx_got. intros H. apply bind_Some in H as (pdu & Ho & [= <-]). simpl.
  rewrite (overwrite_app _ _ _ _ _ Ho). destruct (overwrite _ (b1 ++ b2) _); [|done].
  cbn [mbind option_bind]. f_equal. destruct x. unfold upd. simpl. rewrite length_app, Nat2Z.inj_add.
  f_equal; lia.
Qed.

Lemma recv_pdu_eq h l :
  0 <= pdu_remaining (h_rx h) ->
  nvme_tcp_recv_pdu e h l =
  let n := Z.to_nat (Z.min (Z.of_nat (length l)) (pdu_remaining (h_rx h))) in
  x ← rx_got (take n l) (h_rx h);
  if c_true (pdu_remaining x) then Some (0, h <| h_rx := x |>, drop n l)
  else '(ret, h) ← pdu_complete e (h <| h_rx := x |>); Some (ret, h, drop n l).
Proof.
  intros Hp. unfold nvme_tcp_recv_pdu, rx_got. cbv zeta.
  set (n := Z.min _ _). assert (Z.of_nat (length (take (Z.to_nat n) l)) = n) as Hn.
  { rewrite length_take. unfold n. lia. }
  destruct (overwrite _ _ _); [|done]. cbn [mbind option_bind]. rewrite Hn. reflexivity.
Qed.

Lemma recv_pdu_part h l1 l2 ret h1 l1' :
  Z.of_nat (length l1) < pdu_remaining (h_rx h) -> 0 < pdu_remaining (h_rx h) ->
  nvme_tcp_recv_pdu e h l1 = Some (ret, h1, l1') ->
  ret = 0 /\ l1' = [] /\ pdu_remaining (h_rx h1) = pdu_remaining (h_rx h) - Z.of_nat (length l1)
  /\ nvme_tcp_recv_pdu e h (l1 ++ l2) = nvme_tcp_recv_pdu e h1 l2.
Proof.
  intros Hl Hp H. rewrite recv_pdu_eq in H by lia. cbv zeta in H. rewrite Z.min_l in H by lia.
  rewrite Nat2Z.id, firstn_all, drop_all in H. apply bind_Some in H as (x & Hx & H).
  assert (pdu_remaining x = pdu_remaining (h_rx h) - Z.of_nat (length l1)) as Hr.
  { unfold rx_got in Hx. apply bind_Some in Hx as (pdu & _ & [= <-]). done. }
  assert (c_true (pdu_remaining x) = true) as Hc by (apply c_true_spec; lia).
  rewrite Hc in H. injection H as <- <- <-. split; [done|]. split; [done|]. split; [done|].
  rewrite !recv_pdu_eq by (simpl; lia). cbv zeta. cbn [h_rx]. simpl h_rx. rewrite Hr, length_app.
  set (n2 := Z.to_nat (Z.min (Z.of_nat (length l2)) _)). set (n12 := Z.to_nat _).
  assert (n12 = length l1 + n2)%nat as -> by (unfold n12, n2; lia).
  rewrite take_app_add', drop_app_add' by done. rewrite <- (rx_got_app _ _ _ _ Hx). reflexivity.
Qed.

(** The same for the data digest. *)
Definition dg_got (b : list Z) (x : recv_ctx) : option recv_ctx :=
  dg ← overwrite (NVME_TCP_DIGEST_LENGTH - ddgst_remaining x) b (recv_ddgst x);
  Some (x <| recv_ddgst := dg |> <| ddgst_remaining ::= fun n => n - Z.of_nat (length b) |>).

Lemma dg_got_app b1 b2 x x1 : dg_got b1 x = Some x1 -> dg_got b2 x1 = dg_got (b1 ++ b2) x.
Proof.
  unfold dg_got. intros H. apply bind_Some in H as (dg & Ho & [= <-]). simpl.
  replace (NVME_TCP_DIGEST_LENGTH - (ddgst_remaining x - Z.of_nat (length b1)))
    with (NVME_TCP_DIGEST_LENGTH - ddgst_remaining x + Z.of_nat (length b1)) by lia.
  rewrite (overwrite_app _ _ _ _ _ Ho). destruct (overwrite _ (b1 ++ b2) _); [|done].
  cbn [mbind option_bind]. f_equal. destruct x. unfold upd. simpl. rewrite length_app, Nat2Z.inj_add.
  f_equal; lia.
Qed.

Lemma recv_ddgst_eq h l :
  0 <= ddgst_remaining (h_rx h) ->
  nvme_tcp_recv_ddgst h l =
  let n := Z.to_nat (Z.min (Z.of_nat (length l)) (ddgst_remaining (h_rx h))) in
  x ← dg_got (take n l) (h_rx h);
  if c_true (ddgst_remaining x) then Some (0, h <| h_rx := x |>, drop n l)
  else '(ret, h) ← ddgst_complete (h <| h_rx := x |>); Some (ret, h, drop n l).
Proof.
  intros Hp. unfold nvme_tcp_recv_ddgst, dg_got. cbv zeta.
  set (n := Z.min _ _). assert (Z.of_nat (length (take (Z.to_nat n) l)) = n) as Hn.
  { rewrite length_take. unfold n. lia. }
  destruct (overwrite _ _ _); [|done]. cbn [mbind option_bind]. rewrite Hn. reflexivity.
Qed.

Lemma recv_ddgst_more h l1 l2 ret h1 l1' :
  0 < ddgst_remaining (h_rx h) <= Z.of_nat (length l1) ->
  nvme_tcp_recv_ddgst h l1 = Some (ret, h1, l1') ->
  nvme_tcp_recv_ddgst h (l1 ++ l2) = Some (ret, h1, l1' ++ l2).
Proof.
  intros Hp H. rewrite recv_ddgst_eq in H |- * by lia. cbv zeta in *. rewrite length_app.
  rewrite Z.min_r in H by lia. rewrite Z.min_r by lia. rewrite take_app_le, drop_app_le by lia.
  apply bind_Some in H as (x & -> & H). cbn [mbind option_bind].
  destruct (c_true (ddgst_remaining x)); [by injection H as <- <- <-|].
  apply bind_Some in H as ([ret' h'] & -> & H). simpl in H |- *. by injection H as <- <- <-.
Qed.

Lemma recv_ddgst_part h l1 l2 ret h1 l1' :
  Z.of_nat (length l1) < ddgst_remaining (h_rx h) -> 0 < ddgst_remaining (h_rx h) ->
  nvme_tcp_recv_ddgst h l1 = Some (ret, h1, l1') ->
  ret = 0 /\ l1' = [] /\ ddgst_remaining (h_rx h1) = ddgst_remaining (h_rx h) - Z.of_nat (length l1)
  /\ pdu_remaining (h_rx h1) = pdu_remaining (h_rx h)
  /\ nvme_tcp_recv_ddgst h (l1 ++ l2) = nvme_tcp_recv_ddgst h1 l2.
Proof.
  intros Hl Hp H. rewrite recv_ddgst_eq in H by lia. cbv zeta in H. rewrite Z.min_l in H by lia.
  rewrite Nat2Z.id, firstn_all, drop_all in H. apply bind_Some in H as (x & Hx & H).
  assert (ddgst_remaining x = ddgst_remaining (h_rx h) - Z.of_nat (length l1)
    /\ pdu_remaining x = pdu_remaining (h_rx h)) as [Hr Hr'].
  { unfold dg_got in Hx. apply bind_Some in Hx as (pdu & _ & [= <-]). done. }
  assert (c_true (ddgst_remaining x) = true) as Hc by (apply c_true_spec; lia).
  rewrite Hc in H. injection H as <- <- <-. split; [done|]. split; [done|]. split; [done|]. split; [done|].
  rewrite !recv_ddgst_eq by (simpl; lia). cbv zeta. simpl h_rx. rewrite Hr, length_app.
  set (n2 := Z.to_nat (Z.min (Z.of_nat (length l2)) _)). set (n12 := Z.to_nat _).
  assert (n12 = length l1 + n2)%nat as -> by (unfold n12, n2; lia).
  rewrite take_app_add', drop_app_add' by done. rewrite <- (dg_got_app _ _ _ _ Hx). reflexivity.
Qed.

(** ** The data state *)

(** The loop only touches the data count and the running digest. *)
Definition rx_frame (h : host) :=
  (pdu_remaining (h_rx h), ddgst_remaining (h_rx h), rpdu (h_rx h), h_tagset h).

Lemma loop_frame n r h l h1 l' :
  recv_data_loop n r h l = Some (0, h1, l') -> rx_frame h1 = rx_frame h.
Proof.
  revert h l. induction n as [|n IH]; intros h l H; [done|]. rewrite loop_unfold in H.
  case_bool_in H; [by injection H as <- <-|].
  apply bind_Some in H as (req & _ & H). apply bind_Some in H as (o & _ & H).
  destruct o as [req'|req']; [done|]. cbv zeta in H. apply IH in H. rewrite H, copy_eq.
  unfold rx_frame. simpl. by destruct (data_digest (h_q h)).
Qed.

Lemma copy_remaining r req b h :
  data_remaining (h_rx (copy_to_iter r req b h)) = data_remaining (h_rx h) - Z.of_nat (length b).
Proof. rewrite copy_eq. simpl. by destruct (data_digest (h_q h)). Qed.

(** Every byte that leaves the buffer leaves the count, and the loop ends with
    one of them. *)
Lemma loop_wf n r h l h1 l' :
  wf_host h -> recv_data_loop n r h l = Some (0, h1, l') ->
  wf_host h1 /\ (l' = [] \/ data_remaining (h_rx h1) = 0)
  /\ data_remaining (h_rx h1) + Z.of_nat (length l) = data_remaining (h_rx h) + Z.of_nat (length l').
Proof.
  revert h l. induction n as [|n IH]; intros h l Hw H; [done|]. rewrite loop_unfold in H.
  pose proof (wh_data _ Hw) as Hd0. destruct (_ =? 0) eqn:E in H.
  { injection H as <- <-. apply Z.eqb_eq in E. split; [done|]. split; [|done].
    destruct l; [by left|]. right. simpl in E. lia. }
  apply Z.eqb_neq in E.
  destruct (reqs (h_q h) !! r) as [req|] eqn:Hreq; [|done]. cbn [mbind option_bind] in H.
  destruct (turn_req req) as [[req'|req']|] eqn:Et; [done| |done]; cbn [mbind option_bind] in H.
  destruct (turn_req_ok req req') as [(W1 & W2 & W3) T]; [by eapply wh_reqs|done|].
  cbv zeta in H. set (k := Z.min _ (it_count (iter req'))) in H.
  destruct (copy_wf r req' (take (Z.to_nat k) l) h) as [C1 _];
    try (rewrite ?length_take; unfold k; lia); try done.
  destruct (IH _ _ C1 H) as (I1 & I2 & I3). rewrite copy_remaining, length_take, length_drop in I3.
  split; [done|]. split; [done|]. unfold k in *. lia.
Qed.

(** What a step on the first piece says about both pieces. *)
Definition step_split (h : host) (l1 l2 : list Z) (ret : Z) (h1 : host) (l1' : list Z) : Prop :=
  recv_step e h (l1 ++ l2) = Some (ret, h1, l1' ++ l2)
  \/ ret = 0 /\ l1' = []
     /\ (l2 <> [] -> forall x, recv_step e h1 l2 = Some x -> recv_step e h (l1 ++ l2) = Some x).

Lemma data_fuel_app h r l1 l2 x m :
  wf_host h -> recv_data_loop m r h (l1 ++ l2) = Some x ->
  recv_data_loop (data_fuel h r (l1 ++ l2)) r h (l1 ++ l2) = Some x.
Proof. intros Hw H. eapply loop_enough; [done|done|]. unfold data_fuel, bios. lia. Qed.

Lemma recv_data_split h l1 l2 ret h1 l1' :
  wf_host h -> nvme_tcp_recv_state (h_rx h) = NVME_TCP_RECV_DATA ->
  nvme_tcp_recv_data h l1 = Some (ret, h1, l1') -> step_split h l1 l2 ret h1 l1'.
Proof.
  intros Hw Hst H. unfold step_split, recv_step. rewrite Hst. unfold nvme_tcp_recv_data in H |- * at 1.
  destruct (blk_mq_tag_to_rq _ _) as [r|] eqn:Er; [|injection H as <- <- <-; by left].
  apply bind_Some in H as ([[ret1 ha] la] & Hloop & H).
  destruct (loop_app _ r h l1 l2 ret1 ha la Hw Hloop) as [[Hd [m Hm]]|(D1 & D2 & D3 & D4)].
  - left. rewrite (data_fuel_app _ _ _ _ _ _ Hw Hm). cbn [mbind option_bind].
    destruct (c_true ret1); by injection H as <- <- <-.
  - subst ret1 la. change (c_true 0) with false in H. cbv iota in H.
    destruct (data_remaining (h_rx ha) =? 0) eqn:E0; [apply Z.eqb_eq in E0; done|].
    injection H as <- <- <-. right. split; [done|]. split; [done|]. intros Hl2 x Hx.
    pose proof (loop_frame _ _ _ _ _ _ Hloop) as F. unfold rx_frame in F. injection F as F1 F2 F3 F4.
    assert (nvme_tcp_recv_state (h_rx ha) = NVME_TCP_RECV_DATA) as Hst1
      by (unfold nvme_tcp_recv_state; rewrite F1, F2; exact Hst).
    rewrite Hst1 in Hx. unfold nvme_tcp_recv_data in Hx. rewrite F3, F4, Er in Hx.
    apply bind_Some in Hx as ([[ret2 hb] lb] & Hloop2 & Hx).
    destruct (D4 _ _ Hloop2) as [m Hm]. unfold nvme_tcp_recv_data.
    rewrite Er, (data_fuel_app _ _ _ _ _ _ Hw Hm). exact Hx.
Qed.

Lemma recv_step_split h l1 l2 ret h1 l1' :
  wf_host h -> l1 <> [] -> recv_step e h l1 = Some (ret, h1, l1') -> step_split h l1 l2 ret h1 l1'.
Proof.
  intros Hw Hl H. pose proof H as Hs. unfold recv_step in H.
  destruct (nvme_tcp_recv_state (h_rx h)) eqn:Est; [|by eapply recv_data_split|].
  - assert (0 < pdu_remaining (h_rx h)) as Hp.
    { unfold nvme_tcp_recv_state in Est. destruct (c_true (pdu_remaining _)) eqn:E;
        [|by destruct (c_true (ddgst_remaining _))].
      apply c_true_spec in E. pose proof (wh_pdu _ Hw). lia. }
    destruct (decide (pdu_remaining (h_rx h) <= Z.of_nat (length l1))) as [Hge|Hlt].
    + left. unfold recv_step. rewrite Est. apply recv_pdu_more; [lia|done].
    + right. destruct (recv_pdu_part h l1 l2 ret h1 l1') as (-> & -> & R & E); [lia..|done|].
      split; [done|]. split; [done|]. intros _ x Hx. unfold recv_step in *. rewrite Est, E.
      assert (nvme_tcp_recv_state (h_rx h1) = NVME_TCP_RECV_PDU) as Hst1.
      { unfold nvme_tcp_recv_state. assert (c_true (pdu_remaining (h_rx h1)) = true) as ->;
          [apply c_true_spec; lia|done]. }
      by rewrite Hst1 in Hx.
  - assert (c_true (pdu_remaining (h_rx h)) = false /\ 0 < ddgst_remaining (h_rx h)) as [Hz Hp].
    { unfold nvme_tcp_recv_state in Est. destruct (c_true (pdu_remaining _)); [done|].
      destruct (c_true (ddgst_remaining _)) eqn:E; [|done].
      apply c_true_spec in E. pose proof (wh_ddgst _ Hw). split; [done|lia]. }
    destruct (decide (ddgst_remaining (h_rx h) <= Z.of_nat (length l1))) as [Hge|Hlt].
    + left. unfold recv_step. rewrite Est. apply recv_ddgst_more; [lia|done].
    + right. destruct (recv_ddgst_part h l1 l2 ret h1 l1') as (-> & -> & R & R2 & E); [lia..|done|].
      split; [done|]. split; [done|]. intros _ x Hx. unfold recv_step in *. rewrite Est, E.
      assert (nvme_tcp_recv_state (h_rx h1) = NVME_TCP_RECV_DDGST) as Hst1.
      { unfold nvme_tcp_recv_state. rewrite R2, Hz.
        assert (c_true (ddgst_remaining (h_rx h1)) = true) as ->; [apply c_true_spec; lia|done]. }
      by rewrite Hst1 in Hx.
Qed.

(** ** Invariant and progress of a step *)

Lemma sizes_rx q : 0 < sizeof_rsp_pdu + nvme_tcp_hdgst_len q /\ 0 < NVME_TCP_DIGEST_LENGTH.
Proof.
  pose proof sizes_ok as H. rewrite !Forall_cons in H. unfold nvme_tcp_hdgst_len.
  destruct (hdr_digest q); lia.
Qed.

Lemma init_recv_wf h : wf_host h -> wf_host (init_recv h).
Proof.
  intros [H1 H2 H3 H4]. pose proof (sizes_rx (h_q h)). constructor; simpl; [done|lia|done|done].
Qed.
Lemma init_recv_state h : nvme_tcp_recv_state (h_rx (init_recv h)) = NVME_TCP_RECV_PDU.
Proof.
  unfold nvme_tcp_recv_state, init_recv. simpl. pose proof (sizes_rx (h_q h)).
  assert (c_true (sizeof_rsp_pdu + nvme_tcp_hdgst_len (h_q h)) = true) as ->; [|done].
  apply c_true_spec. lia.
Qed.

Lemma queue_request_reqs r q q' : nvme_tcp_queue_request e r q = Some q' -> reqs q' = reqs q.
Proof.
  unfold nvme_tcp_queue_request. intros H. apply bind_Some in H as ([b q1] & H1 & [= <-]).
  assert (reqs q1 = reqs q) as <-.
  { unfold request_enqueue in H1. cbv zeta in H1. apply bind_Some in H1 as (req & _ & H1).
    destruct (delayed _ _ _); injection H1 as <- <-; [by case_bool|done]. }
  unfold request_ring, ring_now, queue_io_work. repeat case_bool; done.
Qed.

Lemma handle_r2t_wf len off tag r q ret q' :
  handle_r2t_req e len off tag r q = Some (ret, q') ->
  (forall r req, reqs q !! r = Some req -> wf_sizes req) ->
  forall r req, reqs q' !! r = Some req -> wf_sizes req.
Proof.
  unfold handle_r2t_req. intros H Hw. apply bind_Some in H as (req0 & Hreq & H).
  assert (exists ret' hd, nvme_tcp_setup_h2c_data_pdu q len off tag req0
    = (ret', req0 <| pdu_len := len |> <| pdu_sent := 0 |> <| hdr := hd |>)) as (ret' & hd & E).
  { unfold nvme_tcp_setup_h2c_data_pdu. repeat case_bool; eexists _, _; reflexivity. }
  rewrite E in H. pose proof (Hw r req0 Hreq) as W.
  assert (forall x y, (wf_sizes x) -> forall r' req', reqs (put_req r x y) !! r' = Some req' ->
    reqs y = reqs q -> wf_sizes req') as Hput.
  { intros x y Wx r' req' H' Ey. simpl in H'. rewrite Ey in H'. destruct (decide (r' = r)) as [->|Hne].
    - rewrite lookup_insert_eq in H'. by injection H' as <-.
    - rewrite lookup_insert_ne in H' by done. by eapply Hw. }
  destruct (c_true ret').
  - injection H as <- <-. intros r' req' H'. eapply Hput; [|exact H'|done]. exact W.
  - apply bind_Some in H as (q1 & Hq1 & H). injection H as <- <-. apply queue_request_reqs in Hq1.
    intros r' req' H'. rewrite Hq1 in H'. eapply Hput; [|exact H'|done]. exact W.
Qed.

Lemma pdu_complete_wf h ret h1 :
  wf_host h -> pdu_complete e h = Some (ret, h1) -> wf_host h1.
Proof.
  intros Hw H. unfold pdu_complete in H. apply bind_Some in H as ([ret0 pdu] & _ & H).
  assert (wf_host (h <| h_rx ::= fun x => x <| rpdu := pdu |> |>)) as Hw1 by (by destruct Hw; constructor).
  set (h0 := h <| h_rx ::= _ |>) in *. destruct (c_true ret0); [by injection H as <- <-|].
  cbv zeta in H. destruct (c_true (if data_digest (h_q h) then _ else 0)); [by injection H as <- <-|].
  set (h2 := if data_digest (h_q h) then _ else h0) in H.
  assert (wf_host h2) as Hw2 by (unfold h2; destruct (data_digest (h_q h)); [by destruct Hw1; constructor|done]).
  clearbody h2. repeat case_bool_in H.
  - unfold nvme_tcp_handle_c2h_data in H. destruct (blk_mq_tag_to_rq _ _); [|by injection H as <- <-].
    apply bind_Some in H as (req & _ & H). case_bool_in H; [by injection H as <- <-|].
    destruct Hw2 as [A1 A2 A3 A4].
    case_bool_in H; injection H as <- <-; constructor; simpl; try done; apply length_range.
  - injection H as H. unfold nvme_tcp_handle_comp, nvme_tcp_process_nvme_cqe in H.
    apply init_recv_wf in Hw2 as [A1 A2 A3 A4].
    case_bool_in H; [|destruct (blk_mq_tag_to_rq _ _)]; injection H as <- <-; by constructor.
  - unfold nvme_tcp_handle_r2t in H. apply init_recv_wf in Hw2 as [A1 A2 A3 A4].
    destruct (blk_mq_tag_to_rq _ _); [|by injection H as <- <-; constructor].
    apply bind_Some in H as ([ret' q'] & Hr & H). injection H as <- <-.
    constructor; try done. simpl. by eapply handle_r2t_wf.
  - by injection H as <- <-.
Qed.

Lemma ddgst_complete_wf h ret h1 :
  wf_host h -> ddgst_complete h = Some (ret, h1) -> wf_host h1.
Proof.
  intros Hw H. unfold ddgst_complete in H. case_bool_in H; [by injection H as <- <-|].
  apply bind_Some in H as (h2 & H2 & H). injection H as <- <-. apply init_recv_wf.
  case_bool_in H2; [|by injection H2 as <-].
  apply bind_Some in H2 as (r & _ & [= <-]). by destruct Hw; constructor.
Qed.

Lemma data_complete_ok r h :
  wf_host h -> nvme_tcp_recv_state (h_rx h) = NVME_TCP_RECV_DATA ->
  wf_host (data_complete r h)
  /\ nvme_tcp_recv_state (h_rx (data_complete r h)) <> NVME_TCP_RECV_DATA.
Proof.
  intros Hw Hst. unfold data_complete. pose proof (sizes_rx (h_q h)) as [_ Hdg].
  destruct (data_digest (h_q h)).
  - split; [destruct Hw; constructor; simpl; try done; lia|].
    unfold nvme_tcp_recv_state. simpl. case_bool; [done|].
    assert (c_true NVME_TCP_DIGEST_LENGTH = true) as ->; [apply c_true_spec; lia|done].
  - rewrite init_recv_state. split; [|done]. apply init_recv_wf.
    case_bool; [by destruct Hw; constructor|done].
Qed.

(** A step keeps the invariant, and uses up a byte or leaves the data state. *)
Lemma recv_step_ok h l h1 l' :
  wf_host h -> l <> [] -> recv_step e h l = Some (0, h1, l') ->
  wf_host h1
  /\ ((length l' < length l)%nat
      \/ length l' = length l /\ nvme_tcp_recv_state (h_rx h) = NVME_TCP_RECV_DATA
         /\ nvme_tcp_recv_state (h_rx h1) <> NVME_TCP_RECV_DATA).
Proof.
  intros Hw Hl H. assert (0 < length l)%nat as Hlen by (destruct l; simpl; [done|lia]).
  pose proof Hw as [W1 W2 W3 W4]. unfold recv_step in H.
  destruct (nvme_tcp_recv_state (h_rx h)) eqn:Est.
  - assert (0 < pdu_remaining (h_rx h)) as Hp.
    { unfold nvme_tcp_recv_state in Est. destruct (c_true (pdu_remaining _)) eqn:E;
        [|by destruct (c_true (ddgst_remaining _))]. apply c_true_spec in E. lia. }
    rewrite recv_pdu_eq in H by done. cbv zeta in H. apply bind_Some in H as (x & Hx & H).
    assert (wf_host (h <| h_rx := x |>)) as Hwx.
    { unfold rx_got in Hx. apply bind_Some in Hx as (pdu & _ & [= <-]). constructor; simpl; try done.
      rewrite length_take. lia. }
    destruct (c_true (pdu_remaining x)).
    + injection H as <- <-. split; [done|]. left. rewrite length_drop. lia.
    + apply bind_Some in H as ([ret h2] & Hc & [= -> <- <-]). split; [by eapply pdu_complete_wf|].
      left. rewrite length_drop. lia.
  - unfold nvme_tcp_recv_data in H. destruct (blk_mq_tag_to_rq _ _) as [r|]; [|done].
    apply bind_Some in H as ([[ret ha] la] & Hloop & H).
    destruct (c_true ret) eqn:Ec; [injection H as -> _ _; done|]. apply c_true_false in Ec as ->.
    injection H as <- <-. destruct (loop_wf _ _ _ _ _ _ Hw Hloop) as (V1 & V2 & V3).
    pose proof (loop_frame _ _ _ _ _ _ Hloop) as F. unfold rx_frame in F. injection F as F1 F2 F3 F4.
    assert (nvme_tcp_recv_state (h_rx ha) = NVME_TCP_RECV_DATA) as Hst1
      by (unfold nvme_tcp_recv_state; rewrite F1, F2; exact Est).
    destruct (data_complete_ok r ha V1 Hst1) as [K1 K2].
    destruct (data_remaining (h_rx ha) =? 0) eqn:E0.
    + apply Z.eqb_eq in E0. split; [done|]. destruct (decide (length la = length l)) as [El|El].
      * right. done.
      * left. lia.
    + apply Z.eqb_neq in E0. split; [done|]. left. destruct V2 as [-> |?]; [simpl; lia|done].
  - assert (0 < ddgst_remaining (h_rx h)) as Hp.
    { unfold nvme_tcp_recv_state in Est. destruct (c_true (pdu_remaining _)); [done|].
      destruct (c_true (ddgst_remaining _)) eqn:E; [|done]. apply c_true_spec in E. lia. }
    rewrite recv_ddgst_eq in H by done. cbv zeta in H. apply bind_Some in H as (x & Hx & H).
    assert (wf_host (h <| h_rx := x |>)) as Hwx.
    { unfold dg_got in Hx. apply bind_Some in Hx as (pdu & _ & [= <-]). constructor; simpl; try done.
      rewrite length_take. lia. }
    destruct (c_true (ddgst_remaining x)).
    + injection H as <- <-. split; [done|]. left. rewrite length_drop. lia.
    + apply bind_Some in H as ([ret h2] & Hc & [= -> <- <-]). split; [by eapply ddgst_complete_wf|].
      left. rewrite length_drop. lia.
Qed.

(** ** The whole buffer *)

(** Turns that the loop may need. *)
Definition cost (h : host) (l : list Z) : nat :=
  match nvme_tcp_recv_state (h_rx h) with
  | NVME_TCP_RECV_DATA => 2 * length l
  | _ => 2 * length l - 1
  end.

Lemma skb_loop_enough n m h l x :
  wf_host h -> recv_skb_loop e n h l = Some x -> (cost h l <= m)%nat -> recv_skb_loop e m h l = Some x.
Proof.
  revert m h l. induction n as [|n IH]; intros m h l Hw H Hm; [destruct l; [by destruct m|done]|].
  destruct l as [|b l]; [by destruct m|].
  destruct m as [|m]; [unfold cost in Hm; simpl in Hm; destruct (nvme_tcp_recv_state _); lia|].
  cbn [recv_skb_loop] in H |- *. apply bind_Some in H as ([[ret h1] l'] & Hs & H). rewrite Hs.
  cbn [mbind option_bind]. destruct (c_true ret) eqn:Ec; [done|]. apply c_true_false in Ec as ->.
  destruct (recv_step_ok h (b :: l) h1 l' Hw ltac:(done) Hs) as [Hw1 Hor].
  apply IH; [done|done|]. unfold cost in *.
  destruct Hor as [Hlt|(Heq & S1 & S2)].
  - destruct (nvme_tcp_recv_state (h_rx h)), (nvme_tcp_recv_state (h_rx h1)); simpl in *; lia.
  - rewrite S1 in Hm. destruct (nvme_tcp_recv_state (h_rx h1)); [|done|]; simpl in *; lia.
Qed.

Lemma skb_loop_app n h l1 l2 res h1 :
  wf_host h -> recv_skb_loop e n h l1 = Some (res, h1) ->
  (res <> 0 -> exists m, recv_skb_loop e m h (l1 ++ l2) = Some (res, h1))
  /\ (res = 0 -> wf_host h1 /\ forall k y, recv_skb_loop e k h1 l2 = Some y ->
        exists m, recv_skb_loop e m h (l1 ++ l2) = Some y).
Proof.
  revert h l1. induction n as [|n IH]; intros h l1 Hw H.
  { destruct l1; [|done]. injection H as <- <-. split; [done|]. eauto. }
  destruct l1 as [|b l1]; [injection H as <- <-; split; [done|]; eauto|].
  cbn [recv_skb_loop] in H. apply bind_Some in H as ([[ret ha] la] & Hs & H).
  pose proof (recv_step_split h (b :: l1) l2 ret ha la Hw ltac:(done) Hs) as Hsp.
  assert (forall m, recv_skb_loop e (S m) h ((b :: l1) ++ l2)
    = '(result, h, l) ← recv_step e h ((b :: l1) ++ l2);
      if c_true result
      then Some (result, nvme_tcp_error_recovery (h <| h_rx ::= fun x => x <| rd_enabled := false |> |>))
      else recv_skb_loop e m h l) as Hun by done.
  destruct (c_true ret) eqn:Ec.
  { apply c_true_spec in Ec as Hne. injection H as <- <-. split; [|done]. intros _. exists 1%nat.
    rewrite Hun. destruct Hsp as [-> |(? & _)]; [|done]. cbn [mbind option_bind]. by rewrite Ec. }
  apply c_true_false in Ec as ->.
  destruct (recv_step_ok h (b :: l1) ha la Hw ltac:(done) Hs) as [Hwa _].
  destruct Hsp as [Hsp|(_ & -> & Hsp)].
  - destruct (IH ha la Hwa H) as [I1 I2]. split.
    + intros Hne. destruct (I1 Hne) as [m Hm]. exists (S m). rewrite Hun, Hsp. exact Hm.
    + intros Hz. destruct (I2 Hz) as [I3 I4]. split; [done|]. intros k y Hk.
      destruct (I4 k y Hk) as [m Hm]. exists (S m). rewrite Hun, Hsp. exact Hm.
  - assert (res = 0 /\ h1 = ha) as [-> ->] by (destruct n; by injection H as <- <-).
    split; [done|]. intros _. split; [done|]. intros k y Hk. destruct l2 as [|c l2].
    + rewrite app_nil_r. exists (S n). cbn [recv_skb_loop]. rewrite Hs. cbn [mbind option_bind].
      rewrite H. destruct k; exact Hk.
    + destruct k as [|k]; [done|]. exists (S k). rewrite Hun. cbn [recv_skb_loop] in Hk.
      apply bind_Some in Hk as (x & Hx & Hk). rewrite (Hsp ltac:(done) x Hx). exact Hk.
Qed.

(** Errors are negative. *)
Lemma data_loop_neg n r h l ret h1 l' : recv_data_loop n r h l = Some (ret, h1, l') -> ret <= 0.
Proof.
  revert h l. induction n as [|n IH]; intros h l H; [done|]. rewrite loop_unfold in H.
  case_bool_in H; [by injection H as <- _ _|].
  apply bind_Some in H as (req & _ & H). apply bind_Some in H as ([o|o] & _ & H).
  - by injection H as <- _ _.
  - by eapply IH.
Qed.

Lemma pdu_complete_neg h ret h1 : pdu_complete e h = Some (ret, h1) -> ret <= 0.
Proof.
  unfold pdu_complete. intros H. apply bind_Some in H as ([ret0 pdu] & H0 & H). cbv zeta in H.
  assert (ret0 <= 0).
  { destruct (hdr_digest (h_q h)); [|by injection H0 as <- _]. unfold nvme_tcp_verify_hdgst in H0.
    case_bool_in H0; [by injection H0 as <- _|]. inv_some. subst ret0. destruct (bool_decide _); done. }
  destruct (c_true ret0); [by injection H as <- _|].
  destruct (c_true (if data_digest _ then _ else _)).
  { injection H as <- _. destruct (data_digest (h_q h)); [|done]. unfold nvme_tcp_check_ddgst. by destruct (_ && _). }
  repeat case_bool_in H.
  all: try (by injection H as <- _).
  all: try (injection H as H; unfold nvme_tcp_handle_comp, nvme_tcp_process_nvme_cqe in H;
    case_bool_in H; [|destruct (blk_mq_tag_to_rq _ _)]; by injection H as <- _).
  all: unfold nvme_tcp_handle_c2h_data, nvme_tcp_handle_r2t, handle_r2t_req,
    nvme_tcp_setup_h2c_data_pdu in H; destruct (blk_mq_tag_to_rq _ _); try (by injection H as <- _);
    apply bind_Some in H as (y & Hy & H).
  all: try (repeat case_bool_in H; by injection H as <- _).
  all: destruct y as [ret1 q1]; injection H as <- _; apply bind_Some in Hy as (rq0 & _ & Hy);
    repeat case_bool_in Hy; try (by injection Hy as <- _);
    apply bind_Some in Hy as (w & _ & Hy); by injection Hy as <- _.
Qed.

Lemma recv_step_neg h l ret h1 l' : recv_step e h l = Some (ret, h1, l') -> ret <= 0.
Proof.
  unfold recv_step. intros H. destruct (nvme_tcp_recv_state (h_rx h)).
  - unfold nvme_tcp_recv_pdu in H. apply bind_Some in H as (pdu & _ & H). cbv zeta in H.
    case_bool_in H; [by injection H as <- _|]. apply bind_Some in H as ([ret1 h2] & Hp & H).
    injection H as <- _ _. by eapply pdu_complete_neg.
  - unfold nvme_tcp_recv_data in H. destruct (blk_mq_tag_to_rq _ _); [|by injection H as <- _].
    apply bind_Some in H as ([[ret1 h2] l2] & Hl & H). apply data_loop_neg in Hl.
    by case_bool_in H; injection H as <- _.
  - unfold nvme_tcp_recv_ddgst in H. apply bind_Some in H as (pdu & _ & H). cbv zeta in H.
    case_bool_in H; [by injection H as <- _|]. apply bind_Some in H as ([ret1 h2] & Hp & H).
    injection H as <- _ _. unfold ddgst_complete in Hp. case_bool_in Hp; [by injection Hp as <- _|].
    apply bind_Some in Hp as (h3 & _ & Hp). by injection Hp as <- _.
Qed.

Lemma skb_loop_neg n h l res h1 : recv_skb_loop e n h l = Some (res, h1) -> res <= 0.
Proof.
  revert h l. induction n as [|n IH]; intros h l H; destruct l as [|b l];
    try (by injection H as <- _); [done|].
  cbn [recv_skb_loop] in H. apply bind_Some in H as ([[ret h2] l2] & Hs & H).
  apply recv_step_neg in Hs. case_bool_in H; [by injection H as <- _|by eapply IH].
Qed.

Lemma recv_skb_loop_iff h l n h1 :
  nvme_tcp_recv_skb e h l = Some (n, h1) <->
  exists res, recv_skb_loop e (2 * length l) h l = Some (res, h1)
    /\ n = if c_true res then res else Z.of_nat (length l).
Proof.
  unfold nvme_tcp_recv_skb. split.
  - intros H. apply bind_Some in H as ([res h2] & Hl & [= <- <-]). eauto.
  - intros (res & -> & ->). done.
Qed.

(** C16: segmentation does not matter.  When the receive function fails on a
    buffer, it fails in the same way, with the same state, on the buffer
    followed by anything; when it succeeds, receiving the two pieces at once
    has the result and the state of receiving the second after the first. *)
Theorem recv_segmentation h l1 l2 n1 h1 :
  wf_host h -> nvme_tcp_recv_skb e h l1 = Some (n1, h1) ->
  (n1 < 0 -> nvme_tcp_recv_skb e h (l1 ++ l2) = Some (n1, h1))
  /\ (0 <= n1 -> wf_host h1 /\ forall n2 h2, nvme_tcp_recv_skb e h1 l2 = Some (n2, h2) ->
       nvme_tcp_recv_skb e h (l1 ++ l2) = Some (if n2 <? 0 then n2 else n1 + n2, h2)).
Proof.
  intros Hw H. apply recv_skb_loop_iff in H as (res & Hl & ->).
  pose proof (skb_loop_neg _ _ _ _ _ Hl) as Hneg.
  assert (forall m y, recv_skb_loop e m h (l1 ++ l2) = Some y ->
    recv_skb_loop e (2 * length (l1 ++ l2)) h (l1 ++ l2) = Some y) as Hen.
  { intros m y Hm. eapply skb_loop_enough; [done|done|]. unfold cost.
    destruct (nvme_tcp_recv_state _); lia. }
  destruct (skb_loop_app _ h l1 l2 res h1 Hw Hl) as [Herr Hok].
  destruct (c_true res) eqn:Ec.
  - apply c_true_spec in Ec as Hne. split; [|lia]. intros _. destruct (Herr Hne) as [m Hm].
    apply recv_skb_loop_iff. exists res. split; [by eapply Hen|]. by rewrite Ec.
  - apply c_true_false in Ec as ->. split; [lia|]. intros _. destruct (Hok eq_refl) as [Hw1 Hgo].
    split; [done|]. intros n2 h2 H2. apply recv_skb_loop_iff in H2 as (res2 & Hl2 & ->).
    pose proof (skb_loop_neg _ _ _ _ _ Hl2) as Hneg2. destruct (Hgo _ _ Hl2) as [m Hm].
    apply recv_skb_loop_iff. exists res2. split; [by eapply Hen|].
    destruct (c_true res2) eqn:Ec2.
    + apply c_true_spec in Ec2. case_bool; [done|lia].
    + case_bool; [lia|]. rewrite length_app. lia.
Qed.
End recv.

(** ** A read of eight bytes *)

Definition le (off n : nat) (l : list Z) : Z :=
  foldr (fun b acc => b + 256 * acc) 0 (u8 <$> take n (drop off l)).

Lemma le_pos off n l : 0 <= le off n l.
Proof.
  unfold le. induction (take n (drop off l)) as [|x k IH]; [done|]. rewrite fmap_cons. simpl foldr.
  assert (0 <= u8 x) by (apply Z.mod_pos_bound; lia). lia.
Qed.

(** The PDUs of NVMe/TCP, with a digest of zeros. *)
Definition ex_layout : PduLayout := {|
  pdu_type := le 0 1; pdu_flags := le 1 1; pdu_hlen := le 2 1; pdu_plen := le 4 4;
  rsp_command_id := le 20 2; rsp_status := le 22 2;
  data_command_id := le 8 2; data_data_length := le 16 4;
  r2t_command_id := le 8 2; r2t_ttag := le 10 2; r2t_r2t_offset := le 12 4; r2t_r2t_length := le 16 4;
  crc32c := fun _ => [0; 0; 0; 0]; skb_copy_ret := fun _ => 0;
|}.

Lemma skip_used_add vs a b :
  0 <= b -> skip_used (skip_used vs a).1 ((skip_used vs a).2 + b) = skip_used vs (a + b).
Proof.
  intros Hb. revert a. induction vs as [|v vs IH]; intros a; [done|]. simpl.
  destruct (a <? bv_len v) eqn:E; [done|]. rewrite IH.
  destruct (a + b <? bv_len v) eqn:E2; [lia|]. f_equal. lia.
Qed.

#[export] Instance ex_recv_laws : RecvLaws ex_iov ex_layout.
Proof.
  constructor.
  - intros i a Ha. simpl. unfold ex_advance. by destruct (skip_used _ _).
  - intros i a b Ha Hb Hab. simpl. unfold ex_advance.
    pose proof (skip_used_add (it_bvec i) (iov_offset i + a) b Hb) as H.
    destruct (skip_used (it_bvec i) (iov_offset i + a)) as [us o]. simpl in H |- *.
    rewrite H. replace (iov_offset i + (a + b)) with (iov_offset i + a + b) by lia.
    clear H. destruct (skip_used _ _). f_equal. lia.
  - done.
  - intros l. apply le_pos.
Qed.

Definition ex_read : nvme_tcp_request :=
  mk_req ex_hdr false false None 1 8 [mk_hbio [mk_bvec 3 8 0] 0 8 0] 5 8 0 0 0
    [mk_hbio [mk_bvec 3 8 0] 0 8 0] (mk_iter [mk_bvec 3 8 0] 0 8) 0 0 NVME_TCP_SEND_CMD_PDU [] [].
Definition ex_recv_host : host :=
  mk_host (ex_nq <| send_list := [] |> <| reqs := {[5 := ex_read]} |>)
    (mk_recv (replicate 28 0) 24 0 (2 ^ 64 - 1) 0 0 true [] [] [0; 0; 0; 0])
    [None; None; None; None; None; Some 5] [] [] false.

(** A data PDU that completes command 5, and its eight bytes. *)
Definition ex_c2h : list Z :=
  [7; 12; 24; 24; 32; 0; 0; 0; 5; 0; 0; 0; 0; 0; 0; 0; 8; 0; 0; 0; 0; 0; 0; 0]
  ++ [11; 12; 13; 14; 15; 16; 17; 18].

Lemma ex_recv_wf : wf_host ex_recv_host.
Proof.
  constructor; try done. intros r req H. simpl in H. apply lookup_singleton_Some in H as [_ <-].
  split; [done|]. split; [|done]. by repeat constructor.
Qed.

(** In one piece or in two, the read ends with its eight bytes. *)
Lemma recv_segmentation_witness :
  exists h1 h2, @nvme_tcp_recv_skb ex_proto ex_iov ex_layout ex_host ex_recv_host (take 27 ex_c2h) = Some (27, h1)
    /\ @nvme_tcp_recv_skb ex_proto ex_iov ex_layout ex_host ex_recv_host ex_c2h = Some (32, h2)
    /\ h_ended h2 = [(5, 0)].
Proof.
  destruct (@nvme_tcp_recv_skb ex_proto ex_iov ex_layout ex_host ex_recv_host (take 27 ex_c2h))
    as [[n1 h1]|] eqn:E1; [|by vm_compute in E1].
  destruct (@recv_segmentation ex_proto ex_iov ex_layout ex_recv_laws ex_host ex_recv_host
    (take 27 ex_c2h) (drop 27 ex_c2h) n1 h1 ex_recv_wf E1) as [_ H].
  assert (n1 = 27) as -> by (vm_compute in E1; by injection E1 as <- _).
  destruct (H ltac:(lia)) as [_ H2].
  destruct (@nvme_tcp_recv_skb ex_proto ex_iov ex_layout ex_host h1 (drop 27 ex_c2h))
    as [[n2 h2]|] eqn:E2; [|vm_compute in E1; injection E1 as <-; by vm_compute in E2].
  exists h1, h2. split; [done|].
  assert (n2 = 5 /\ h_ended h2 = [(5, 0)]) as [-> He]
    by (vm_compute in E1; injection E1 as <-; vm_compute in E2; by injection E2 as <- <-).
  split; [|done]. exact (H2 _ _ eq_refl).
Defined.
