(* ===== verification/NvmeTcpWork.v ===== *)
(** * NVMe/TCP host: the I/O work and the callbacks of the socket

    [nvme_tcp_io_work], [nvme_tcp_io_work_lat] and the callbacks that queue them,
    of drivers/nvme/host/tcp.c.  A work item that runs is no longer queued; the
    time slice of one millisecond is a number of turns. *)
From S2P Require Import Prelude NvmeTcp NvmeTcpSend NvmeTcpSetup NvmeTcpRecv.

(** <net/tcp_states.h>. *)
Inductive sock_state :=
  | TCP_ESTABLISHED | TCP_SYN_SENT | TCP_SYN_RECV | TCP_FIN_WAIT1 | TCP_FIN_WAIT2 | TCP_TIME_WAIT
  | TCP_CLOSE | TCP_CLOSE_WAIT | TCP_LAST_ACK | TCP_LISTEN | TCP_CLOSING | TCP_NEW_SYN_RECV.

(** [sock->ops->read_sock]: hands the received data to the function it is given;
    the result is the number of bytes used or an error. *)
Class ReadSock := {
  read_sock : (host -> list Z -> option (Z * host)) -> host -> option (Z * host);
}.

(** ** Callbacks of the socket *)

Definition nvme_tcp_data_ready (rd_enabled : bool) (q : nvme_tcp_queue) : nvme_tcp_queue :=
  if rd_enabled then queue_io_work q else q.

(** There is room again: the socket stops waiting for it. *)
Definition nvme_tcp_write_space (writeable : bool) (q : nvme_tcp_queue) : nvme_tcp_queue :=
  if writeable then queue_io_work (q <| sock_nospace := false |> <| sock_short := false |>) else q.

Definition nvme_tcp_state_change (st : sock_state) (h : host) : host :=
  match st with
  | TCP_CLOSE | TCP_CLOSE_WAIT | TCP_LAST_ACK | TCP_FIN_WAIT1 | TCP_FIN_WAIT2 =>
    nvme_tcp_error_recovery h
  | _ => h
  end.

(** ** The work *)

Section work.
Context {pr : NvmeTcpProto} {it : IovIter} {sk : HostSock} (e : host_env).

(** The request is ended with an error; there is none behind a null pointer. *)
Definition nvme_tcp_fail_request (o : option Z) (q : nvme_tcp_queue) : option nvme_tcp_queue :=
  r ← o; Some (q <| failed ::= cons r |>).

(** The sending half of a turn: whether something was sent, or [None] when the
    work returns because of an error. *)
Definition io_work_send (q : nvme_tcp_queue) : option (option bool * nvme_tcp_queue) :=
  '(result, q) ← nvme_tcp_try_send e q;
  if 0 <? result then Some (Some true, q)
  else if result <? 0 then
    q ← (if negb (result =? - EPIPE) && negb (result =? - ECONNRESET)
         then nvme_tcp_fail_request (nq_request q) q else Some q);
    Some (None, nvme_tcp_done_send_req q)
  else Some (Some false, q).

Context {ly : PduLayout} {rs : ReadSock}.

Definition nvme_tcp_try_recv (h : host) : option (Z * host) :=
  read_sock (nvme_tcp_recv_skb e) (h <| h_rx ::= fun x => x <| nr_cqe := 0 |> |>).

(** [sk_busy_loop] only fills the receive queue of the socket. *)
Definition nvme_tcp_poll (h : host) : option (Z * host) :=
  '(_, h) ← nvme_tcp_try_recv h; Some (nr_cqe (h_rx h), h).

(** The loop; [true] when the time slice is used up. *)
Fixpoint io_work_loop (turns : nat) (h : host) : option (bool * host) :=
  '(o, q) ← io_work_send (h_q h);
  let h := h <| h_q := q |> in
  match o with
  | None => Some (false, h)
  | Some pending =>
    '(result, h) ← nvme_tcp_try_recv h;
    if negb (pending || (0 <? result)) then Some (false, h)
    else match turns with O => Some (true, h) | S n => io_work_loop n h end
  end.

Definition nvme_tcp_io_work (turns : nat) (h : host) : option host :=
  '(again, h) ← io_work_loop turns (h <| h_q ::= fun q => q <| io_work := false |> |>);
  Some (if again : bool then h <| h_q ::= fun q => q <| io_work := true |> |> else h).

Definition nvme_tcp_io_work_lat (turns : nat) (h : host) : option host :=
  '(again, h) ← io_work_loop turns (h <| h_q ::= fun q => q <| io_work_lat := false |> |>);
  Some (if again : bool then h <| h_q ::= fun q => q <| io_work_lat := true |> |> else h).
End work.
