(* ===== verification/NvmeTcpBell.v ===== *)
(** * NVMe/TCP host: the delayed doorbell loses no request

    A request that is held back for a caravan is sent because the doorbell timer
    is running, because the I/O work is queued or running, or because the socket
    will report room.  The counters [nr_req] and [nr_caravan_req], the timer and
    [send_now] are kept consistent for that by [nvme_tcp_queue_request] and
    [nvme_tcp_try_send].  A submission is the part under the lock followed by the
    single actions on the timer and the work, a turn of the work the part under the
    lock and the sending; everything else may happen in between.  One interleaving
    breaks the doorbell: the work takes the lock while the submission of a request
    that must not be delayed has released it and not yet cleared [timer_set]. *)
From S2P Require Import Prelude NvmeTcp NvmeTcpSend NvmeTcpSendSpec NvmeTcpStream.
From S2P Require Import NvmeTcpSetup NvmeTcpRecv NvmeTcpWork.

Section bell.
Context {pr : NvmeTcpProto} {it : IovIter} {itl : IovIterLaws it} {sk : HostSock}
  {skl : HostSockLaws sk} (e : host_env).

(** ** What sending does to the doorbell *)

Definition bell (q : nvme_tcp_queue) :=
  (nr_req q, nr_caravan_req q, doorbell_timer q, timer_set q, io_work q, io_work_lat q, sock_nospace q).

(** A request in the state of its command PDU has not moved on, and none gets to
    the state of the digest. *)
Definition keeps_cmd (req req' : nvme_tcp_request) : Prop :=
  (state req' = NVME_TCP_SEND_CMD_PDU ->
   state req = NVME_TCP_SEND_CMD_PDU /\ curr_bio req' = curr_bio req)
  /\ (state req' = NVME_TCP_SEND_DDGST -> state req = NVME_TCP_SEND_DDGST).
Definition keeps (r : Z) (q q' : nvme_tcp_queue) : Prop :=
  bell q' = bell q /\ static q' = static q
  /\ forall req', reqs q' !! r = Some req' -> exists req, reqs q !! r = Some req /\ keeps_cmd req req'.

(** Nothing but the caravan and the socket changes. *)
Definition calm (q q' : nvme_tcp_queue) : Prop :=
  bell q' = bell q /\ frame q' = frame q /\ send_now q' = send_now q.

Lemma keeps_calm r q q' : bell q' = bell q -> frame q' = frame q -> keeps r q q'.
Proof.
  intros Hb (F1 & F2 & F3)%frame_inv. split; [done|]. split; [done|]. rewrite F3.
  intros req' ?. exists req'. done.
Qed.
Lemma keeps_trans r q1 q2 q3 : keeps r q1 q2 -> keeps r q2 q3 -> keeps r q1 q3.
Proof.
  intros (A1 & A2 & A3) (B1 & B2 & B3). split; [congruence|]. split; [congruence|].
  intros x (y & Hy & K1)%B3. apply A3 in Hy as (z & Hz & K2). exists z. split; [done|].
  destruct K1 as [K1 K1'], K2 as [K2 K2']. split; [|by auto]. intros Hc.
  destruct (K1 Hc) as [C1 C2]. destruct (K2 C1) as [C3 C4]. split; [done|congruence].
Qed.
Lemma keeps_put r q q1 req req' :
  bell q1 = bell q -> frame q1 = frame q -> reqs q !! r = Some req -> keeps_cmd req req' ->
  keeps r q (put_req r req' q1).
Proof.
  intros Hb (F1 & F2 & F3)%frame_inv Hq K. split; [done|]. split; [done|]. simpl.
  rewrite lookup_insert_eq. intros x [= <-]. by exists req.
Qed.
Lemma keeps_done r q q1 :
  bell q1 = bell q -> frame q1 = frame q -> keeps r q (nvme_tcp_done_send_req q1).
Proof.
  intros Hb (F1 & F2 & F3)%frame_inv. split; [done|]. split; [done|]. simpl. rewrite F3.
  intros req' ?. exists req'. done.
Qed.

Lemma caravan_add_calm s q q' : caravan_add s q = Some q' -> calm q q'.
Proof. unfold caravan_add. intros H. inv_some. by subst q'. Qed.
Lemma caravan_add_page_calm p s q q' : caravan_add_page p s q = Some q' -> calm q q'.
Proof.
  unfold caravan_add_page. intros H. inv_some. apply caravan_add_calm in Hx as (A & B & C). by subst q'.
Qed.

Lemma init_iter_state req req' : nvme_tcp_init_iter req = Some req' -> state req' = state req.
Proof. unfold nvme_tcp_init_iter. destruct (special_vec req); intros H; inv_some; by subst. Qed.
Lemma advance_state req n req' : nvme_tcp_advance_req req n = Some req' -> state req' = state req.
Proof.
  unfold nvme_tcp_advance_req. intros H. case_bool_in H; [|by inv_some; subst].
  destruct (curr_bio _); [done|]. by apply init_iter_state in H.
Qed.

(** How a step sets [send_now]. *)
Definition now_after (q q' : nvme_tcp_queue) : Prop :=
  send_now q' = send_now q \/ i10_host_legacy_path e q = false /\ nq_request q' = nq_request q.

Lemma data_loop_keeps fuel r q ret q' :
  (forall req, reqs q !! r = Some req -> state req <> NVME_TCP_SEND_CMD_PDU) ->
  data_digest q = false -> send_data_loop e fuel r q = Some (ret, q') ->
  keeps r q q' /\ now_after q q'.
Proof.
  revert q. induction fuel as [|fuel IH]; intros q Hst Hdg H; [done|]. simpl in H.
  apply bind_Some in H as (req & Hreq & H). specialize (Hst _ Hreq) as Hs.
  apply bind_Some in H as (page & _ & H). apply bind_Some in H as (off & _ & H).
  apply bind_Some in H as (len & _ & H). cbv zeta in H.
  destruct (negb (i10_host_legacy_path e q) && i10_host_is_caravan_full e q) eqn:Efull.
  { inv_some. subst. split; [by apply keeps_calm|]. right. split; [|done].
    by destruct (i10_host_legacy_path e q). }
  apply bind_Some in H as ([ret1 q1] & Et & H). cbv beta iota in H.
  assert (calm q q1) as (C1 & C2 & C3).
  { case_bool_in Et; inv_some; [by subst|]. apply caravan_add_page_calm in Hx. by subst. }
  pose proof (frame_inv _ _ _ _ C2) as (F1 & F2 & F3).
  destruct (ret1 <=? 0). { inv_some. subst. split; [by apply keeps_calm|by left]. }
  apply bind_Some in H as (req1 & Ea & H). apply advance_state in Ea.
  assert (keeps_cmd req req1) as Hk by (split; intros Hc; congruence).
  cbv zeta in H. match type of H with context [data_digest (if ?b then ?x else ?y)] =>
    set (q2 := if b then x else y) in H end.
  assert (calm (put_req r req1 q1) q2) as (D1 & D2 & D3) by (unfold q2; by case_bool).
  pose proof (frame_inv _ _ _ _ D2) as (G1 & G2 & G3).
  assert (keeps r q q2) as Hkq2 by (eapply keeps_trans; [by apply (keeps_put r q q1 req)|by apply keeps_calm]).
  assert (reqs q2 !! r = Some req1) as Hr2 by (rewrite G3; apply lookup_insert_eq).
  assert (data_digest q2 = false) as Hdg2.
  { destruct Hkq2 as (_ & S2 & _). injection S2 as _ _ _ _ _ ->. done. }
  destruct (nvme_tcp_pdu_last_send req len && (ret1 =? len)).
  { rewrite Hdg2 in H. inv_some. subst q' ret. split; [|left; etrans; [exact D3|exact C3]].
    eapply keeps_trans; [done|by apply keeps_done]. }
  apply IH in H as [K N]; [|intros x Hx; congruence|done].
  split; [by eapply keeps_trans|]. destruct Hkq2 as (_ & S2 & _).
  destruct N as [N|[N1 N2]]; [left; by rewrite N, D3|right]. rewrite (static_legacy e q q2) in N1 by done.
  split; [done|]. rewrite N2, G2. simpl. by rewrite F2.
Qed.

(** Handing over a header, with the [send_now] of a request without delay. *)
Lemma hdr_calm q q1 legacy s1 s2 ret len (g : nvme_tcp_queue -> nvme_tcp_queue) :
  (forall q, bell (g q) = bell q /\ frame (g q) = frame q) ->
  (if legacy : bool
   then let ret := kernel_sendpage (sock_calls q) s1 in Some (ret, sock_sent ret [s1] q)
   else q ← caravan_add s2 q; Some (len, g q)) = Some (ret, q1) ->
  bell q1 = bell q /\ frame q1 = frame q
  /\ (send_now q1 = send_now q \/ exists q0, q1 = g q0 /\ send_now q0 = send_now q /\ legacy = false).
Proof.
  intros Hg H. destruct legacy; cbv zeta in H; inv_some; subst.
  - by split_and!; [..|left].
  - apply caravan_add_calm in Hx as (A & B & C). destruct (Hg x) as [G1 G2].
    split; [congruence|]. split; [congruence|]. right. eauto.
Qed.

Lemma cmd_keeps r q req ret q' :
  reqs q !! r = Some req -> state req = NVME_TCP_SEND_CMD_PDU ->
  nvme_tcp_try_send_cmd_pdu e r q = Some (ret, q') ->
  keeps r q q'
  /\ (forall req', reqs q' !! r = Some req' -> state req' <> NVME_TCP_SEND_CMD_PDU ->
      nq_request q' = nq_request q)
  /\ (send_now q' = send_now q
      \/ i10_host_legacy_path e q = false /\ (i10_host_is_nodelay_path req = true \/ q' = q <| send_now := true |>)).
Proof.
  intros Hreq Hst H. unfold nvme_tcp_try_send_cmd_pdu in H. rewrite Hreq in H. cbn [mbind option_bind] in H.
  cbv zeta in H. destruct (negb (i10_host_legacy_path e q) && i10_host_is_caravan_full e q) eqn:Efull.
  { inv_some. subst. split; [by apply keeps_calm|]. split; [done|]. right. split; [|by right].
    by destruct (i10_host_legacy_path e q). }
  apply bind_Some in H as ([ret1 q1] & Et & H). cbv beta iota in H.
  apply (hdr_calm q q1 (i10_host_legacy_path e q) _ _ ret1 _
    (fun q => if i10_host_is_nodelay_path req then q <| send_now := true |> else q)) in Et
    as (C1 & C2 & C3); [|by intros; case_bool].
  assert (send_now q1 = send_now q
    \/ i10_host_legacy_path e q = false /\ i10_host_is_nodelay_path req = true) as Hn.
  { destruct C3 as [?|(q0 & E & C3 & Hl)]; [by left|]. subst q1. destruct (i10_host_is_nodelay_path req); auto. }
  assert (forall q2, send_now q2 = send_now q1 -> send_now q2 = send_now q
    \/ i10_host_legacy_path e q = false
       /\ (i10_host_is_nodelay_path req = true \/ q2 = q <| send_now := true |>)) as Hn2.
  { intros q2 ->. destruct Hn as [?|[??]]; auto. }
  pose proof (frame_inv _ _ _ _ C2) as (F1 & F2 & F3).
  destruct (ret1 <=? 0). { inv_some. subst. split; [by apply keeps_calm|]. split; [done|by apply Hn2]. }
  destruct (_ - ret1 =? 0).
  2: { inv_some. subst. split; [|split; [done|by apply Hn2]]. eapply keeps_put; try done. }
  case_bool_in H.
  - apply bind_Some in H as (req1 & Ei & H). inv_some. subst. apply init_iter_state in Ei.
    split; [|split; [simpl; by case_bool|apply Hn2; simpl; by case_bool]].
    eapply keeps_put; [..|exact Hreq|]; [by case_bool..|]. split; intros Hc; by rewrite Ei in Hc.
  - inv_some. subst. split; [by apply keeps_done|]. split; [|by apply Hn2].
    simpl. rewrite F3. intros x Hx. congruence.
Qed.

Lemma h2c_keeps r q req ret q' :
  reqs q !! r = Some req -> state req = NVME_TCP_SEND_H2C_PDU ->
  nvme_tcp_try_send_data_pdu e r q = Some (ret, q') ->
  keeps r q q' /\ nq_request q' = nq_request q
  /\ (send_now q' = send_now q \/ i10_host_legacy_path e q = false /\ q' = q <| send_now := true |>).
Proof.
  intros Hreq Hst H. unfold nvme_tcp_try_send_data_pdu in H. rewrite Hreq in H. cbn [mbind option_bind] in H.
  cbv zeta in H. destruct (negb (i10_host_legacy_path e q) && i10_host_is_caravan_full e q) eqn:Efull.
  { inv_some. subst. split; [by apply keeps_calm|]. split; [done|]. right. split; [|done].
    by destruct (i10_host_legacy_path e q). }
  apply bind_Some in H as ([ret1 q1] & Et & H). cbv beta iota in H.
  apply (hdr_calm q q1 (i10_host_legacy_path e q) _ _ ret1 _ (fun q => q)) in Et as (C1 & C2 & C3); [|done].
  assert (send_now q1 = send_now q) as Hn by (destruct C3 as [?|(q0 & -> & ? & _)]; done).
  pose proof (frame_inv _ _ _ _ C2) as (F1 & F2 & F3).
  destruct (ret1 <=? 0). { inv_some. subst. split; [by apply keeps_calm|]. split; [done|by left]. }
  destruct (_ - ret1 =? 0).
  - apply bind_Some in H as (req1 & Ei & H). inv_some. subst.
    assert (state req1 = NVME_TCP_SEND_DATA) as Hs1.
    { case_bool_in Ei; [by apply init_iter_state in Ei|by inv_some; subst]. }
    split; [|split; [simpl; by case_bool|left; simpl; by case_bool]].
    eapply keeps_put; [..|exact Hreq|]; [by case_bool..|]. split; intros Hc; congruence.
  - inv_some. subst. split; [|split; [done|by left]]. eapply keeps_put; try done.
Qed.

Lemma ddgst_skip r q x : (forall req, reqs q !! r = Some req -> state req <> NVME_TCP_SEND_DDGST) ->
  forall fin ret y, send_step NVME_TCP_SEND_DDGST nvme_tcp_try_send_ddgst (fun _ _ => false) r (fin, ret, q)
    = Some (x, y) -> x = (fin, ret) /\ y = q.
Proof.
  intros Hst fin ret y H. unfold send_step in H. apply bind_Some in H as (req & Hr & H).
  rewrite bool_decide_false in H by auto. rewrite andb_false_r in H. by inv_some.
Qed.

(** The end of a turn, from the data on and from the data PDU on. *)
Lemma from_data_keeps r q req ret ret' q' fin :
  reqs q !! r = Some req -> state req <> NVME_TCP_SEND_CMD_PDU \/ fin = true ->
  state req <> NVME_TCP_SEND_DDGST -> data_digest q = false ->
  from_data e r (fin, ret, q) = Some (ret', q') -> keeps r q q' /\ now_after q q'.
Proof.
  intros Hreq Hst Hdd Hdg H. unfold from_data in H. apply bind_Some in H as ([[fin1 ret1] q1] & E1 & H).
  assert (keeps r q q1 /\ now_after q q1) as [K N].
  { unfold send_step in E1. rewrite Hreq in E1. simpl in E1.
    case_bool_in E1; [|inv_some; subst; split; [by apply keeps_calm|by left]].
    apply andb_true_iff in Hif as [Hf Hs]. apply bool_decide_eq_true in Hs. apply negb_true_iff in Hf.
    apply bind_Some in E1 as ([ret2 q2] & El & E1). cbv beta iota in E1.
    apply bind_Some in E1 as (req2 & _ & E1). inv_some. subst.
    unfold nvme_tcp_try_send_data in El. rewrite Hreq in El. cbn [mbind option_bind] in El.
    apply data_loop_keeps in El; [done| |done]. intros y Hy. destruct Hst; congruence. }
  apply bind_Some in H as ([[fin2 ret2] q2] & E2 & H). apply ddgst_skip in E2 as [_ ->].
  2: { intros x Hx Hc. destruct K as (_ & _ & K). destruct (K x Hx) as (z & Hz & _ & Hk). apply Hdd.
       rewrite Hreq in Hz. injection Hz as ->. by apply Hk. }
  inv_some. by subst.
Qed.

(** A step that is skipped or taken. *)
Lemma send_step_inv st f stop r fin ret q req x :
  reqs q !! r = Some req -> send_step st f stop r (fin, ret, q) = Some x ->
  (x = (fin, ret, q) /\ (fin = true \/ state req <> st))
  \/ fin = false /\ state req = st /\ exists ret' q' req', f r q = Some (ret', q')
     /\ reqs q' !! r = Some req' /\ x = ((ret' <=? 0) || stop q' req', ret', q').
Proof.
  intros Hreq H. unfold send_step in H. rewrite Hreq in H. cbn [mbind option_bind] in H.
  destruct fin; simpl in H; [left; inv_some; auto|].
  case_bool_decide as Hs; [|left; inv_some; auto]. right. split; [done|]. split; [done|].
  apply bind_Some in H as ([ret' q'] & E & H). cbv beta iota in H.
  apply bind_Some in H as (req' & E' & H). inv_some. subst. eauto 10.
Qed.

Lemma from_h2c_keeps r q req ret ret' q' :
  reqs q !! r = Some req -> state req <> NVME_TCP_SEND_CMD_PDU -> state req <> NVME_TCP_SEND_DDGST ->
  data_digest q = false -> from_h2c e r (false, ret, q) = Some (ret', q') ->
  keeps r q q' /\ (send_now q = false -> send_now q' = true ->
    i10_host_legacy_path e q = false /\ nq_request q' = nq_request q).
Proof.
  intros Hreq Hst Hdd Hdg H. unfold from_h2c in H. apply bind_Some in H as (x & E & H).
  apply (send_step_inv _ _ _ _ _ _ _ req) in E
    as [[-> _]|(_ & Hs & ret1 & q1 & req1 & E & Hr1 & ->)]; [| |done].
  - apply (from_data_keeps _ _ req) in H as [K N]; [|auto..]. split; [done|].
    intros Hnow Hn. destruct N as [N|N]; [congruence|done].
  - apply (h2c_keeps _ _ req) in E as (K & Hq & N); [|done..].
    pose proof K as (_ & KS & K3). destruct (K3 _ Hr1) as (z & Hz & Kc & Kd).
    assert (z = req) as -> by congruence.
    assert (data_digest q1 = false) as Hdg1 by (injection KS as _ _ _ _ _ ->; done).
    assert (state req1 <> NVME_TCP_SEND_CMD_PDU) as Hst1 by (intros Hc; by destruct (Kc Hc)).
    destruct N as [N|[Hl ->]].
    + apply (from_data_keeps _ _ req1) in H as [K' N']; [|auto..].
      split; [by eapply keeps_trans|]. intros Hnow Hn. destruct N' as [N'|[N1 N2]]; [congruence|].
      rewrite (static_legacy e q q1) in N1 by done. split; congruence.
    + simpl in Hr1. assert (req1 = req) as -> by congruence.
      rewrite (from_data_skip e r _ _ _ req) in H; [|done|right; by rewrite Hs].
      inv_some. subst. split; [done|]. done.
Qed.

Lemma send_request_keeps r q req ret q' :
  reqs q !! r = Some req -> state req <> NVME_TCP_SEND_DDGST -> data_digest q = false ->
  nq_request q = Some r -> send_now q = false -> send_request e r q = Some (ret, q') ->
  keeps r q q'
  /\ (send_now q' = true -> i10_host_legacy_path e q = false
      /\ (nq_request q' = Some r
          \/ state req = NVME_TCP_SEND_CMD_PDU /\ i10_host_is_nodelay_path req = true)).
Proof.
  intros Hreq Hdd Hdg Hr Hnow H. unfold send_request in H. apply bind_Some in H as (x & E & H).
  change (from_h2c e r x = Some (ret, q')) in H.
  apply (send_step_inv _ _ _ _ _ _ _ req) in E
    as [[-> [?|Hs]]|(_ & Hs & ret1 & q1 & req1 & E & Hr1 & ->)]; [done| | |done].
  - apply (from_h2c_keeps _ _ req) in H as [K N]; [|auto..]. split; [done|].
    intros Hn. destruct (N Hnow Hn) as [N1 N2]. split; [done|left; congruence].
  - apply (cmd_keeps _ _ req) in E as (K & Hq & N); [|done..].
    pose proof K as (_ & KS & K3). destruct (K3 _ Hr1) as (z & Hz & Kc & Kd).
    assert (z = req) as -> by congruence.
    assert (data_digest q1 = false) as Hdg1 by (injection KS as _ _ _ _ _ ->; done).
    destruct (decide ((ret1 <=? 0) || negb (nvme_tcp_has_inline_data q1 req1) = true
      \/ state req1 = NVME_TCP_SEND_CMD_PDU)) as [Hfin|Hfin].
    + assert (q' = q1) as ->.
      { unfold from_h2c in H. rewrite (send_step_skip _ _ _ _ _ _ _ req1) in H;
          [|done|destruct Hfin as [?| ->]; auto]. cbn [mbind option_bind] in H.
        rewrite (from_data_skip e r _ _ _ req1) in H; [by inv_some|done|destruct Hfin as [?| ->]; auto]. }
      split; [done|]. intros Hn. destruct N as [?|(Hl & [?| ->])]; [congruence|auto|auto].
    + apply Decidable.not_or in Hfin as [Hf Hs1]. apply not_true_iff_false in Hf. rewrite Hf in H.
      apply (from_h2c_keeps _ _ req1) in H as [K' N']; [|auto..].
      split; [by eapply keeps_trans|]. intros Hn.
      destruct N as [N|(Hl & [?| ->])]; [|by auto|].
      * destruct (N' ltac:(congruence) Hn) as [N1 N2]. rewrite (static_legacy e q q1) in N1 by done.
        split; [done|]. left. rewrite N2, (Hq _ Hr1) by done. done.
      * simpl in Hr1. congruence.
Qed.

(** ** The invariant *)

Definition dl (q : nvme_tcp_queue) (r : Z) : bool := from_option (delayed e q) false (reqs q !! r).
Definition ndelayed (q : nvme_tcp_queue) (l : list Z) : Z :=
  Z.of_nat (length (filter (fun r => dl q r = true) l)).

Definition timer_on (q : nvme_tcp_queue) : bool := negb (timer_set q =? 0) && doorbell_timer q.

(** The caravan is about to be sent without waiting for the timer. *)
Definition urgent (q : nvme_tcp_queue) : Prop :=
  (exists r req, nq_request q = Some r /\ reqs q !! r = Some req
     /\ state req = NVME_TCP_SEND_CMD_PDU /\ i10_host_is_nodelay_path req = true)
  \/ send_now q = true /\ nq_request q = None.

(** [nr_req] counts the delayed requests of the list and those taken since the
    last flush; those are in the caravan or being put there.  While the timer
    runs, delayed requests come after all others in the list, and none is in a
    caravan that is sent before the timer, unless a submission is about to stop
    the timer ([h]). *)
Record bell_inv (h : bool) (q : nvme_tcp_queue) : Prop := {
  bi_wf : queue_wf e q;
  bi_class : prio_class q = class_of e q;
  bi_count : nr_req q = nr_caravan_req q + ndelayed q (send_list q);
  bi_range : 0 <= nr_caravan_req q /\ nr_req q < 2 ^ 31;
  bi_flush : 0 < nr_caravan_req q -> nq_request q = None -> 0 < caravan_len q;
  bi_now : send_now q = true -> 0 < caravan_len q;
  bi_legacy : i10_host_legacy_path e q = true -> nr_caravan_req q = 0 /\ send_now q = false;
  bi_order : h = false -> timer_on q = true -> exists ns ds, send_list q = ns ++ ds
    /\ Forall (fun r => dl q r = false) ns /\ Forall (fun r => dl q r = true) ds
    /\ (ns <> [] \/ urgent q -> nr_caravan_req q = 0);
}.

Lemma ndelayed_nonneg q l : 0 <= ndelayed q l.
Proof. unfold ndelayed. lia. Qed.
Lemma ndelayed_cons q r l : ndelayed q (r :: l) = (if dl q r then 1 else 0) + ndelayed q l.
Proof.
  unfold ndelayed. rewrite filter_cons. destruct (dl q r).
  - rewrite decide_True by done. simpl. lia.
  - rewrite decide_False by done. lia.
Qed.
Lemma ndelayed_app q l1 l2 : ndelayed q (l1 ++ l2) = ndelayed q l1 + ndelayed q l2.
Proof. unfold ndelayed. rewrite filter_app, length_app. lia. Qed.
Lemma ndelayed_zero q l : ndelayed q l = 0 -> Forall (fun r => dl q r = false) l.
Proof.
  induction l as [|r l IH]; [constructor|]. rewrite ndelayed_cons. pose proof (ndelayed_nonneg q l).
  destruct (dl q r) eqn:E; [lia|]. constructor; [done|]. apply IH. lia.
Qed.

(** The delayed requests of the list in a queue that has the same ones. *)
Definition same_list (q q' : nvme_tcp_queue) : Prop :=
  nq_id q' = nq_id q /\ prio_class q' = prio_class q
  /\ forall r, r ∈ send_list q -> reqs q' !! r = reqs q !! r.

Lemma same_dl q q' r : same_list q q' -> r ∈ send_list q -> dl q' r = dl q r.
Proof.
  intros (H1 & H2 & H3) Hr. unfold dl. rewrite (H3 r Hr).
  unfold delayed, i10_host_legacy_path, i10_host_is_latency. by rewrite H1, H2.
Qed.
Lemma same_ndelayed q q' l : same_list q q' -> (forall r, r ∈ l -> r ∈ send_list q) ->
  ndelayed q' l = ndelayed q l.
Proof.
  intros Hs Hl. induction l as [|r l IH]; [done|]. rewrite !ndelayed_cons, IH.
  - rewrite (same_dl q q'); [done|done|apply Hl; by left].
  - intros x Hx. apply Hl. by right.
Qed.
Lemma same_forall q q' l b : same_list q q' -> (forall r, r ∈ l -> r ∈ send_list q) ->
  Forall (fun r => dl q r = b) l -> Forall (fun r => dl q' r = b) l.
Proof.
  intros Hs Hl H. rewrite Forall_forall in *. intros r Hr. rewrite (same_dl q q'); auto.
Qed.

(** A change that keeps the list, its requests and the counters. *)
Lemma bell_inv_keep h q q' :
  bell_inv h q -> queue_wf e q' -> same_list q q' -> send_list q' = send_list q ->
  (nr_req q', nr_caravan_req q') = (nr_req q, nr_caravan_req q) ->
  (0 < nr_caravan_req q -> nq_request q' = None -> 0 < caravan_len q') ->
  (send_now q' = true -> 0 < caravan_len q' /\ i10_host_legacy_path e q = false) ->
  (timer_on q' = true -> timer_on q = true) ->
  (h = false -> timer_on q' = true -> urgent q' -> nr_caravan_req q = 0) -> bell_inv h q'.
Proof.
  intros [W1 W2 W3 W4 W5 W6 W7 W8] Hw Hs Hl [= Hc1 Hc2] Hf Hn Ht Hu. pose proof Hs as (S1 & S2 & _).
  assert (i10_host_legacy_path e q' = i10_host_legacy_path e q) as Hleg.
  { unfold i10_host_legacy_path, i10_host_is_latency. by rewrite S1, S2. }
  constructor; [done| | | | | | |].
  - unfold class_of in *. by rewrite S1, S2.
  - rewrite Hc1, Hc2, Hl, (same_ndelayed q q'); done.
  - by rewrite Hc1, Hc2.
  - by rewrite Hc2.
  - intros H. by apply Hn.
  - rewrite Hleg, Hc2. intros H. destruct (W7 H) as [Z1 Z2]. split; [done|].
    destruct (send_now q'); [|done]. by destruct (Hn eq_refl) as [_ ?]; congruence.
  - intros Hh H. destruct (W8 Hh (Ht H)) as (ns & ds & E & F1 & F2 & F3).
    exists ns, ds. rewrite Hl, Hc2. split; [done|].
    split; [eapply same_forall; [done| |done]; rewrite E; intros; apply elem_of_app; auto|].
    split; [eapply same_forall; [done| |done]; rewrite E; intros; apply elem_of_app; auto|].
    intros [?|?]; [by apply F3; left|by apply Hu].
Qed.

(** ** Sending keeps it *)

(** After the part under the lock: without a request the list is empty, and
    the caravan is sent now, empty, or waits for the timer. *)
Definition fetched (q : nvme_tcp_queue) : Prop :=
  nq_request q = None -> send_list q = []
    /\ (send_now q = true -> nr_caravan_req q = 0)
    /\ (send_now q = false -> caravan_len q = 0 \/ doorbell_timer q = true).

Lemma caravan_not_legacy q : queue_wf e q -> 0 < caravan_len q -> i10_host_legacy_path e q = false.
Proof.
  intros Hw Hlen. destruct (i10_host_legacy_path e q) eqn:Hl; [|done].
  rewrite (cw_len _ _ (qw_car _ _ Hw)), (legacy_caravan e q) in Hlen; [done|apply Hw|done].
Qed.

(** The list is empty. *)
Lemma flush_inv q q1 :
  bell_inv false q -> queue_wf e q1 -> send_list q = [] -> fetch_or_flush e q = Some q1 ->
  nq_request q = None -> bell_inv false q1 /\ fetched q1.
Proof.
  intros [W1 W2 W3 W4 W5 W6 W7 W8] Hw El H Hr.
  assert (((timer_set q =? 0) || negb (doorbell_timer q)) = negb (timer_on q)) as Ht
    by (unfold timer_on; rewrite negb_andb, negb_involutive; done).
  unfold fetch_or_flush in H. rewrite El, Ht in H. rewrite El in W3.
  change (ndelayed q []) with 0 in W3. case_bool_in H; inv_some; subst q1.
  - apply andb_true_iff in Hif as [Ht1 Hlen]. apply c_true_spec in Hlen.
    pose proof (car_len_pos e q (qw_car _ _ W1)) as Hpos.
    split; [|intros _; simpl; split; [done|]; split; [done|by intros [=]]].
    assert (s32 (nr_req q - nr_caravan_req q) = 0) as Hz by (rewrite s32_small; lia).
    constructor; simpl; [done|done| | |done|lia| |].
    + rewrite El, Hz. done.
    + rewrite Hz. lia.
    + intros Hl. pose proof (caravan_not_legacy q W1 ltac:(lia)) as Hf.
      change (i10_host_legacy_path e q = true) in Hl. congruence.
    + by intros.
  - split; [constructor; try done; by rewrite El|]. intros _. split; [done|].
    apply andb_false_iff in Hif. split.
    + intros Hn. destruct Hif as [Hif|Hif].
      * apply negb_false_iff in Hif. destruct (W8 eq_refl Hif) as (ns & ds & _ & _ & _ & Hu).
        apply Hu. right. right. done.
      * apply c_true_false in Hif. specialize (W6 Hn). lia.
    + intros _. destruct Hif as [Hif|Hif]; [|left; by apply c_true_false in Hif].
      right. apply negb_false_iff, andb_true_iff in Hif. apply Hif.
Qed.

(** The first request of the list becomes the current one. *)
Lemma next_inv q q1 r l req :
  bell_inv false q -> queue_wf e q1 -> send_list q = r :: l -> reqs q !! r = Some req ->
  same_list q q1 -> reqs q1 !! r = Some req -> send_list q1 = l -> nq_request q1 = Some r ->
  nr_req q1 = nr_req q -> nr_caravan_req q1 = nr_caravan_req q + (if delayed e q req then 1 else 0) ->
  (send_now q1, caravan_len q1, timer_on q1) = (send_now q, caravan_len q, timer_on q) -> bell_inv false q1.
Proof.
  intros [W1 W2 W3 W4 W5 W6 W7 W8] Hw El Hreq Hs Hreq1 El1 Hr1 En Hcar [= E6 E7 E8].
  pose proof Hs as (E4 & E5 & _).
  assert (dl q r = delayed e q req) as Hd by (unfold dl; by rewrite Hreq).
  rewrite El, ndelayed_cons, Hd in W3. pose proof (ndelayed_nonneg q l) as Hnn.
  assert (forall x, x ∈ l -> x ∈ send_list q) as Hsub by (rewrite El; intros; by right).
  constructor; [done| | | |by rewrite Hr1|by rewrite E6, E7| |].
  - unfold class_of in *. by rewrite E4, E5.
  - rewrite En, El1, Hcar, (same_ndelayed q q1) by done. lia.
  - rewrite En, Hcar. destruct (delayed e q req); lia.
  - unfold i10_host_legacy_path, i10_host_is_latency in *. rewrite E4, E5, E6, Hcar. intros Hl.
    destruct (W7 Hl) as [Z1 Z2]. split; [|done]. rewrite Z1.
    unfold delayed, i10_host_legacy_path, i10_host_is_latency. by rewrite Hl.
  - rewrite E8, El1. intros _ Ht. destruct (W8 eq_refl Ht) as (ns & ds & Ens & F1 & F2 & F3). rewrite El in Ens.
    destruct ns as [|n ns].
    + simpl in Ens. subst ds. apply Forall_cons in F2 as [Fr F2]. exists [], l.
      split; [done|]. split; [constructor|]. split; [by apply (same_forall q)|].
      intros [?|[(r' & rq & Hr' & Hq & _ & Hnd)|[_ ?]]]; [done| |congruence].
      assert (rq = req) as -> by congruence. rewrite Hd in Fr.
      unfold delayed in Fr. rewrite Hnd in Fr. by rewrite andb_false_r in Fr.
    + injection Ens as <- Ens. apply Forall_cons in F1 as [Fr F1]. exists ns, ds. split; [done|].
      split; [|split].
      1,2: eapply (same_forall q); [done| |done]; intros; apply Hsub; rewrite Ens; apply elem_of_app; auto.
      intros _. rewrite Hcar, <- Hd, Fr. rewrite F3; [done|by left].
Qed.

Lemma fetch_inv q q1 :
  bell_inv false q -> nq_request q = None -> fetch_or_flush e q = Some q1 ->
  bell_inv false q1 /\ fetched q1.
Proof.
  intros Hi Hr H. destruct (fetch_ok e q Hr (bi_wf _ _ Hi)) as (q1' & E & Hw & _).
  rewrite H in E. injection E as <-. destruct (send_list q) as [|r l] eqn:El; [by eapply flush_inv|].
  pose proof H as H0. unfold fetch_or_flush in H. rewrite El in H.
  apply bind_Some in H as (req & Hreq & H). cbv zeta in H. injection H as <-.
  change (delayed e (q <| send_list := l |>) req) with (delayed e q req) in *.
  split; [|by intros [=]].
  pose proof (bi_count _ _ Hi) as Hc. rewrite El, ndelayed_cons in Hc.
  assert (dl q r = delayed e q req) as Hd by (unfold dl; by rewrite Hreq). rewrite Hd in Hc.
  pose proof (ndelayed_nonneg q l). pose proof (bi_range _ _ Hi).
  apply (next_inv q _ r l req); try done; simpl; try (by case_bool).
  destruct (delayed e q req); simpl; [rewrite s32_small; lia|lia].
Qed.

(** ** The rest of a turn *)

Definition parked (q : nvme_tcp_queue) : bool := doorbell_timer q || sock_nospace q || sock_short q.
Definition outstanding (q : nvme_tcp_queue) : Prop :=
  send_list q <> [] \/ nq_request q <> None \/ caravan_len q <> 0.

(** The work is queued or the timer will queue it. *)
Definition ringing (q : nvme_tcp_queue) : bool := io_work q || io_work_lat q || doorbell_timer q.

(** Between the two parts of a turn requests may arrive: what is then left to
    send without a current request is announced ([rd]). *)
Definition mid (rd : Prop) (q : nvme_tcp_queue) : Prop :=
  nq_request q = None ->
  (send_now q = true -> nr_caravan_req q = 0 /\ (send_list q <> [] -> rd))
  /\ (send_now q = false -> outstanding q -> rd).

Lemma fetched_mid (rd : Prop) q :
  bell_inv false q -> (ringing q = true -> rd) -> fetched q -> mid rd q.
Proof.
  intros Hi Hrd Hf Hr. destruct (Hf Hr) as (F1 & F2 & F3). split.
  - intros Hn. split; [by apply F2|]. by rewrite F1.
  - intros Hn [?|[?|Ho]]; [congruence..|]. destruct (F3 Hn) as [?|Ht]; [done|].
    apply Hrd. unfold ringing. rewrite Ht. apply orb_true_r.
Qed.

Lemma caravan_inv h (rd : Prop) q o q2 :
  bell_inv h q -> mid rd q -> send_now q = true -> send_caravan q = (o, q2) ->
  bell_inv h q2 /\ nq_request q2 = nq_request q /\ send_list q2 = send_list q /\ ringing q2 = ringing q
  /\ match o with
     | None => send_now q2 = false /\ caravan_len q2 = 0
     | Some ret => ret = 0 -> parked q2 = true
     end.
Proof.
  intros Hi Hf Hn H. pose proof (bi_wf _ _ Hi) as Hw.
  destruct (send_caravan_ok e q Hw) as (o' & q2' & E & Hw2 & _ & _ & Hr2).
  rewrite H in E. injection E as <- <-.
  assert (0 < caravan_len q) as Hlen by (by apply (bi_now _ _ Hi)).
  pose proof (caravan_not_legacy q Hw Hlen) as Hleg.
  unfold send_caravan in H. destruct (nvme_tcp_sndbuf_nospace q _).
  { injection H as <- <-.
    split; [|split_and!; try done; intros _; unfold parked; simpl; by rewrite orb_true_r].
    apply (bell_inv_keep h q); try done.
    intros Hh Ht Hu. destruct (bi_order _ _ Hi Hh Ht) as (? & ? & _ & _ & _ & F). apply F. by right. }
  case_bool_in H; injection H as <- <-.
  - split.
    2: { split_and!; try done. intros Hz. unfold parked. simpl. rewrite Hz.
         rewrite <- (cw_len _ _ (qw_car _ _ Hw)).
         replace (0 <? caravan_len q) with true by lia. by rewrite orb_true_r. }
    apply (bell_inv_keep h q); try done.
    intros Hh Ht Hu. destruct (bi_order _ _ Hi Hh Ht) as (? & ? & _ & _ & _ & F). apply F. by right.
  - split; [|done]. apply (bell_inv_keep h q); try done; simpl.
    + intros Hc Hnone. destruct (Hf Hnone) as [F _]. destruct (F Hn). lia.
    + intros Hh Ht [Hu|[[=] _]]. destruct (bi_order _ _ Hi Hh Ht) as (? & ? & _ & _ & _ & F).
      apply F. right. by left.
Qed.

Lemma request_inv h q r ret q' :
  bell_inv h q -> nq_request q = Some r -> send_now q = false -> send_request e r q = Some (ret, q') ->
  bell_inv h q' /\ (ret = 0 -> parked q' = true).
Proof.
  intros Hi Hr Hn H. pose proof (bi_wf _ _ Hi) as Hw.
  destruct (qw_reqs _ _ Hw r) as (req & Hreq & Hwf); [rewrite Hr; by left|].
  destruct (send_request_ok e r q req) as (ret' & q2 & E & P & O); [by constructor; try apply Hw|].
  rewrite H in E. injection E as <- <-.
  destruct (queue_progress e r q q' Hr Hw P) as [Hw' _].
  assert (state req <> NVME_TCP_SEND_DDGST) as Hdd by (intros Hs; unfold wf_req in Hwf; by rewrite Hs in Hwf).
  destruct (send_request_keeps r q req ret q' Hreq Hdd (qw_digest _ _ Hw) Hr Hn H) as [(K1 & K2 & K3) N].
  pose proof P as [_ (req' & P2 & P3 & P4) _ _ _].
  assert (r ∉ send_list q) as Hnot.
  { pose proof (qw_nodup _ _ Hw) as Hnd. rewrite Hr in Hnd. by apply NoDup_cons in Hnd as [? _]. }
  unfold bell in K1. injection K1 as B1 B2 B3 B4 B5 B6 B7. unfold static in K2.
  injection K2 as S1 S2 S3 S4 S5 S6.
  assert (i10_host_legacy_path e q = false -> 0 < ret /\ 0 < caravan_len q') as Hout.
  { intros Hl. unfold outcome in O. by rewrite Hl in O. }
  assert (timer_on q' = timer_on q) as Ht by (unfold timer_on; by rewrite B3, B4).
  split.
  - apply (bell_inv_keep h q); try done.
    + split_and!; [done|done|]. intros x Hx. rewrite P2, lookup_insert_ne; [done|]. by intros ->.
    + congruence.
    + intros Hc _. apply Hout. destruct (i10_host_legacy_path e q) eqn:Hl; [|done].
      destruct (bi_legacy _ _ Hi Hl) as [? _]. lia.
    + intros Hn'. destruct (N Hn') as [Hl _]. split; [by apply Hout|done].
    + by rewrite Ht.
    + rewrite Ht. intros Hh Ht1 Hu. destruct (bi_order _ _ Hi Hh Ht1) as (? & ? & _ & _ & _ & F).
      apply F. right. left.
      exists r, req. split; [done|]. split; [done|].
      destruct Hu as [(r' & rq & U1 & U2 & U3 & U4)|[U1 U2]].
      * assert (r' = r) as -> by (destruct P4 as [[? _]|?]; congruence).
        destruct (K3 _ U2) as (z & Hz & Kc & _). assert (z = req) as -> by congruence.
        destruct (Kc U3) as [C1 C2]. split; [done|]. unfold i10_host_is_nodelay_path in *. by rewrite <- C2.
      * destruct (N U1) as [_ [?|?]]; [congruence|done].
  - intros ->. unfold outcome in O. unfold parked. destruct (i10_host_legacy_path e q); [|lia].
    rewrite O by done. apply orb_true_r.
Qed.

(** [nvme_tcp_try_send] is the part under the lock and the rest. *)
Definition try_send_locked (q : nvme_tcp_queue) : option nvme_tcp_queue :=
  match nq_request q with None => fetch_or_flush e q | Some _ => Some q end.

Definition try_send_rest (q : nvme_tcp_queue) : option (Z * nvme_tcp_queue) :=
  if bool_decide (nq_request q = None) && negb (c_true (caravan_len q)) then Some (0, q)
  else
    let '(o, q) := if send_now q then send_caravan q else (None, q) in
    match o, nq_request q with
    | Some ret, _ => Some (ret, q)
    | None, None => Some (0, q)
    | None, Some r => send_request e r q
    end.

Lemma try_send_parts q : nvme_tcp_try_send e q = (q ← try_send_locked q; try_send_rest q).
Proof. done. Qed.

(** The rest keeps the invariant, and when it ends with 0 what is left is parked
    or announced. *)
Lemma try_send_inv h (rd : Prop) q ret q' :
  bell_inv h q -> mid rd q -> try_send_rest q = Some (ret, q') ->
  bell_inv h q' /\ (ret = 0 -> outstanding q' -> parked q' = true \/ rd).
Proof.
  intros Hi Hm H. unfold try_send_rest in H. case_bool_in H.
  { apply andb_true_iff in Hif as [Hnone Hlen]. apply bool_decide_eq_true in Hnone.
    apply negb_true_iff, c_true_false in Hlen. inv_some. subst. split; [done|].
    destruct (Hm Hnone) as [_ F]. intros _ Ho. right. apply F; [|done].
    destruct (send_now q') eqn:Hn; [|done]. pose proof (bi_now _ _ Hi Hn). lia. }
  destruct (send_now q) eqn:Hn.
  - destruct (send_caravan q) as [o q2] eqn:Ec.
    destruct (caravan_inv h rd q o q2 Hi Hm Hn Ec) as (Hi2 & Hr2 & Hl2 & _ & Ho). destruct o as [ret1|].
    { inv_some. subst. split; [done|]. intros ? _. left. by apply Ho. }
    destruct Ho as [Hn2 Hlen2]. destruct (nq_request q2) as [r|] eqn:Hr.
    + destruct (request_inv h q2 r ret q') as [? ?]; try done. split; auto.
    + inv_some. subst. split; [done|]. intros _ [?|[?|?]]; [|congruence..]. right.
      destruct (Hm ltac:(congruence)) as [F _]. destruct (F Hn) as [_ G]. apply G. congruence.
  - destruct (nq_request q) as [r|] eqn:Hr.
    + destruct (request_inv h q r ret q') as [? ?]; try done. split; auto.
    + inv_some. subst. split; [done|]. intros _ Ho. right. destruct (Hm Hr) as [_ F]. auto.
Qed.

(** The rest does not touch the timer and the queued works. *)
Lemma try_send_ringing h (rd : Prop) q ret q' :
  bell_inv h q -> mid rd q -> try_send_rest q = Some (ret, q') -> ringing q' = ringing q.
Proof.
  intros Hi Hm H. unfold try_send_rest in H. case_bool_in H; [by inv_some; subst|].
  assert (forall q2 r, bell_inv h q2 -> nq_request q2 = Some r -> send_now q2 = false ->
    send_request e r q2 = Some (ret, q') -> ringing q' = ringing q2) as Hreq.
  { intros q2 r Hi2 Hr Hn E. pose proof (bi_wf _ _ Hi2) as Hw.
    destruct (qw_reqs _ _ Hw r) as (req & Hq & Hwf); [rewrite Hr; by left|].
    assert (state req <> NVME_TCP_SEND_DDGST) as Hdd by (intros Hs; unfold wf_req in Hwf; by rewrite Hs in Hwf).
    destruct (send_request_keeps r q2 req ret q' Hq Hdd (qw_digest _ _ Hw) Hr Hn E) as [(K1 & _) _].
    unfold bell in K1. injection K1 as _ _ B3 _ B5 B6 _. unfold ringing. by rewrite B3, B5, B6. }
  destruct (send_now q) eqn:Hn.
  - destruct (send_caravan q) as [o q2] eqn:Ec.
    destruct (caravan_inv h rd q o q2 Hi Hm Hn Ec) as (Hi2 & Hr2 & Hl2 & <- & Ho).
    destruct o as [ret1|]; [by inv_some; subst|]. destruct Ho as [Hn2 _].
    destruct (nq_request q2) as [r|] eqn:Hr; [by eapply Hreq|by inv_some; subst].
  - destruct (nq_request q) as [r|] eqn:Hr; [by eapply Hreq|by inv_some; subst].
Qed.

(** ** Queueing a request keeps it *)

Definition armed (q : nvme_tcp_queue) : bool := io_work q || io_work_lat q || parked q.

Definition busy (q : nvme_tcp_queue) : list Z := option_list (nq_request q) ++ send_list q.

Lemma ringing_armed q : ringing q = true -> armed q = true.
Proof. unfold ringing, armed, parked. intros H. apply orb_true_iff in H as [->| ->]; [done|]. apply orb_true_r. Qed.

Lemma append_inv h h' q q' r :
  bell_inv h q -> queue_wf e q' -> nq_id q' = nq_id q -> prio_class q' = prio_class q -> reqs q' = reqs q ->
  send_list q' = send_list q ++ [r] ->
  (nq_request q', caravan_len q', send_now q', nr_caravan_req q')
  = (nq_request q, caravan_len q, send_now q, nr_caravan_req q) ->
  nr_req q' = nr_req q + (if dl q r then 1 else 0) -> nr_req q' < 2 ^ 31 ->
  (h' = false -> timer_on q' = true ->
   dl q r = true /\ (h = false /\ timer_on q = true \/ nr_req q = 0)) -> bell_inv h' q'.
Proof.
  intros [W1 W2 W3 W4 W5 W6 W7 W8] Hw E1 E2 E3 El [= E4 E5 E6 E7] En Hb Ht.
  assert (forall x, dl q' x = dl q x) as Hdl.
  { intros x. unfold dl. rewrite E3. unfold delayed, i10_host_legacy_path, i10_host_is_latency. by rewrite E1, E2. }
  assert (forall l, ndelayed q' l = ndelayed q l) as Hnd.
  { intros l. induction l as [|x l IH]; [done|]. by rewrite !ndelayed_cons, IH, Hdl. }
  pose proof (ndelayed_nonneg q (send_list q)).
  constructor; [done| | | | | | |].
  - unfold class_of in *. by rewrite E1, E2.
  - rewrite Hnd, El, ndelayed_app, E7, En, ndelayed_cons. change (ndelayed q []) with 0. lia.
  - rewrite E7. lia.
  - by rewrite E4, E5, E7.
  - by rewrite E5, E6.
  - unfold i10_host_legacy_path, i10_host_is_latency in *. by rewrite E1, E2, E6, E7.
  - intros Hh Hon. destruct (Ht Hh Hon) as [Hr [[Hh0 Ho]|Hz]].
    + destruct (W8 Hh0 Ho) as (ns & ds & Es & F1 & F2 & F3). exists ns, (ds ++ [r]).
      rewrite El, Es, app_assoc, E7. split; [done|].
      split; [by setoid_rewrite Hdl|]. split; [setoid_rewrite Hdl; by apply Forall_app_2; [|constructor]|].
      intros Hu. apply F3. unfold urgent in *. by rewrite E3, E4, E6 in Hu.
    + exists (send_list q), [r]. rewrite E7. split; [done|]. setoid_rewrite Hdl.
      split; [apply ndelayed_zero; lia|]. split; [by constructor|]. lia.
Qed.

Lemma enqueue_cases q r req nd q' :
  prio_class q = class_of e q -> reqs q !! r = Some req -> request_enqueue e r q = Some (nd, q') ->
  nd = negb (delayed e q req) /\ obs q' = obs q /\ send_list q' = send_list q ++ [r]
  /\ (nr_caravan_req q', send_now q', sock_nospace q', sock_short q', io_work q', io_work_lat q')
     = (nr_caravan_req q, send_now q, sock_nospace q, sock_short q, io_work q, io_work_lat q)
  /\ if delayed e q req
     then let n := s32 (nr_req q + 1) in nr_req q' = n
       /\ (n = 1 /\ doorbell_timer q' = true
           \/ n <> 1 /\ doorbell_timer q' = doorbell_timer q /\ timer_set q' = timer_set q)
     else (nr_req q', doorbell_timer q', timer_set q') = (nr_req q, doorbell_timer q, timer_set q).
Proof.
  intros Hp Hreq H. unfold request_enqueue in H. cbv zeta in H. simpl in H. rewrite Hreq in H. simpl in H.
  match type of H with context [delayed e ?x req] => set (q0 := x) in H end.
  assert (delayed e q0 req = delayed e q req) as Hd.
  { unfold delayed, i10_host_legacy_path, i10_host_is_latency. simpl. unfold class_of in Hp. by rewrite <- Hp. }
  rewrite Hd in H. destruct (delayed e q req); inv_some; subst nd q'.
  - split; [done|]. split; [case_bool; unfold obs; simpl; rewrite Hp; done|]. split; [by case_bool|].
    split; [by case_bool|].
    cbv zeta. split; [by case_bool|].
    destruct (s32 (nr_req q + 1) =? 1) eqn:E1, (doorbell_timer q) eqn:E2; simpl; rewrite ?E2.
    all: lia || (left; split; [lia|done]) || (right; split; [lia|done]).
  - split; [done|]. split; [unfold obs; simpl; rewrite Hp; done|done].
Qed.

(** Requests that are counted are in the list or left to be sent. *)
Lemma counted_outstanding h q :
  bell_inv h q -> 0 < nr_req q -> outstanding q /\ (nr_caravan_req q = 0 -> send_list q <> []).
Proof.
  intros Hi Hn. pose proof (bi_count _ _ Hi) as Hc. pose proof (bi_range _ _ Hi) as Hrg. split.
  - destruct (decide (0 < nr_caravan_req q)) as [Hcar|Hcar].
    + pose proof (bi_flush _ _ Hi Hcar) as Hf. destruct (nq_request q) eqn:E; [right; left; congruence|].
      specialize (Hf eq_refl). right. right. lia.
    + left. intros Hnil. rewrite Hnil in Hc. change (ndelayed q []) with 0 in Hc. lia.
  - intros Hz Hnil. rewrite Hnil in Hc. change (ndelayed q []) with 0 in Hc. lia.
Qed.

Lemma enqueue_inv h q r req nd q' :
  bell_inv h q -> r ∉ busy q -> reqs q !! r = Some req -> wf_req e q req -> nr_req q < 2 ^ 31 - 1 ->
  request_enqueue e r q = Some (nd, q') ->
  bell_inv (h || nd) q' /\ (ringing q = true -> ringing q' = true) /\ (armed q = true -> armed q' = true)
  /\ (nq_request q', nr_caravan_req q', send_now q', caravan_len q')
     = (nq_request q, nr_caravan_req q, send_now q, caravan_len q)
  /\ (nd = true \/ ringing q' = true \/ 0 < nr_req q).
Proof.
  intros Hi Hr Hreq Hwf Hb H. pose proof (bi_class _ _ Hi) as Hp.
  destruct (enqueue_cases q r req nd q' Hp Hreq H) as (End & O & El & [= C1 C2 C3 C4 C5 C6] & Hd).
  destruct (append_stream e r q q' req (bi_wf _ _ Hi) Hr Hreq Hwf O El) as [Hw _].
  unfold obs in O. injection O as O1 O2 O3 O4 O5 O6 O7 O8 O9 O10 O11 O12 O13 O14.
  pose proof (bi_count _ _ Hi) as Hn. pose proof (bi_range _ _ Hi) as Hrg.
  pose proof (ndelayed_nonneg q (send_list q)) as Hnn.
  assert (dl q r = delayed e q req) as Hdl by (unfold dl; by rewrite Hreq).
  split; [|split; [|split; [|split; [congruence|]]]].
  - apply (append_inv h (h || nd) q q' r); try done; try congruence.
    + rewrite Hdl. case_bool; [destruct Hd as [-> _]; rewrite s32_small; lia|injection Hd; lia].
    + case_bool_in Hd; [destruct Hd as [-> _]; rewrite s32_small; lia|injection Hd; lia].
    + intros Hh. apply orb_false_iff in Hh as [Hh Hnd]. rewrite Hdl. rewrite Hnd in End.
      destruct (delayed e q req); [|done]. intros Hon. split; [done|].
      destruct Hd as [_ Ht]. rewrite s32_small in Ht by lia.
      destruct Ht as [[? _]|(_ & T1 & T2)]; [right; lia|left]. unfold timer_on in *. by rewrite T1, T2 in Hon.
  - unfold ringing. rewrite C5, C6. intros Hg. case_bool_in Hd.
    + destruct Hd as [_ [[_ ->]|(_ & -> & _)]]; [apply orb_true_r|done].
    + injection Hd as _ -> _. done.
  - unfold armed, parked. rewrite C3, C4, C5, C6. intros Hg. case_bool_in Hd.
    + destruct Hd as [_ [[_ ->]|(_ & -> & _)]]; [apply orb_true_r|done].
    + injection Hd as _ -> _. done.
  - rewrite End. destruct (delayed e q req); [right|by left]. destruct Hd as [_ Ht].
    rewrite s32_small in Ht by lia. unfold ringing.
    destruct Ht as [[_ ->]|[? _]]; [left; apply orb_true_r|right; lia].
Qed.

(** ** The driver at work *)

(** Where a submission stands after it has released the lock, with its
    [no_delay]: before it looks at [nr_req], before it looks at the timer, before
    it cancels the timer, before it clears [timer_set], before it queues the work. *)
Inductive ring_pc :=
  | R_CHECK (no_delay : bool)
  | R_TEST (no_delay : bool)
  | R_CANCEL (no_delay : bool)
  | R_CLEAR (no_delay : bool)
  | R_WORK.

(** Its next action, and where it stands then, if it has not ended. *)
Definition ring_step (p : ring_pc) (q : nvme_tcp_queue) : option ring_pc * nvme_tcp_queue :=
  match p with
  | R_CHECK nd => (if nd || (I10_AGGREGATION_SIZE <=? nr_req q) then Some (R_TEST nd) else None, q)
  | R_TEST nd => (Some (if doorbell_timer q then R_CANCEL nd else R_CLEAR nd), q)
  | R_CANCEL nd => (Some (R_CLEAR nd), q <| doorbell_timer := false |>)
  | R_CLEAR _ => (Some R_WORK, q <| timer_set := 0 |>)
  | R_WORK => (None, queue_io_work q)
  end.

(** Without interruption the actions are the second half of the submission. *)
Fixpoint ring_run (n : nat) (o : option ring_pc) (q : nvme_tcp_queue) : nvme_tcp_queue :=
  match n, o with
  | S n, Some p => let '(o, q) := ring_step p q in ring_run n o q
  | _, _ => q
  end.
Lemma ring_run_request nd q : ring_run 5 (Some (R_CHECK nd)) q = request_ring nd q.
Proof.
  assert (ring_run 4 (Some (R_TEST nd)) q = ring_now q) as Hnow.
  { unfold ring_now. cbn [ring_run ring_step]. destruct (doorbell_timer q) eqn:E; cbn [ring_run ring_step]; [done|].
    f_equal. destruct q. simpl in *. unfold upd. simpl. by subst. }
  unfold request_ring. rewrite <- Hnow. cbn [ring_run ring_step]. destruct nd; cbn [orb negb]; [done|].
  by case_bool.
Qed.

(** The submission will queue the work. *)
Definition committed (p : ring_pc) : bool := match p with R_CHECK nd => nd | _ => true end.

(** The submission of a request that must not be delayed, with [timer_set] not
    yet cleared. *)
Definition hasty (p : ring_pc) : bool :=
  match p with R_CHECK nd | R_TEST nd | R_CANCEL nd | R_CLEAR nd => nd | R_WORK => false end.

(** The I/O work does not run, is about to take the lock, or is after it. *)
Inductive worker := W_IDLE | W_LOCK | W_SEND.

(** The work, the submissions that have released the lock, and the queue. *)
Record db_state := mk_db {
  db_work : worker;
  db_rings : list ring_pc;
  db_q : nvme_tcp_queue;
}.

(** [io_work_send] after the part under the lock. *)
Definition io_work_rest (q : nvme_tcp_queue) : option (option bool * nvme_tcp_queue) :=
  '(result, q) ← try_send_rest q;
  if 0 <? result then Some (Some true, q)
  else if result <? 0 then
    q ← (if negb (result =? - EPIPE) && negb (result =? - ECONNRESET)
         then nvme_tcp_fail_request (nq_request q) q else Some q);
    Some (None, nvme_tcp_done_send_req q)
  else Some (Some false, q).

Lemma io_work_parts q : io_work_send e q = (q ← try_send_locked q; io_work_rest q).
Proof.
  unfold io_work_send, io_work_rest. rewrite try_send_parts. by destruct (try_send_locked q).
Qed.

(** A request that is neither queued nor current may be set up or change by what
    is received.  Submissions, the actions after their locks, the timer, the
    callbacks of the socket and the parts of the turns of the work alternate in
    any order, but for the race below: the work takes the lock only when no
    submission is [hasty].  No send fails (a turn that ends the work because of an
    error is not a step). *)
Inductive db_step : db_state -> db_state -> Prop :=
  | db_prepare w rs q r req : r ∉ busy q -> db_step (mk_db w rs q) (mk_db w rs (put_req r req q))
  | db_enqueue w rs q r req nd q' :
      r ∉ busy q -> reqs q !! r = Some req -> wf_req e q req -> nr_req q < 2 ^ 31 - 1 ->
      request_enqueue e r q = Some (nd, q') -> db_step (mk_db w rs q) (mk_db w (R_CHECK nd :: rs) q')
  | db_ring w rs1 rs2 p q o q' :
      ring_step p q = (o, q') ->
      db_step (mk_db w (rs1 ++ p :: rs2) q) (mk_db w (rs1 ++ option_list o ++ rs2) q')
  | db_timer w rs q :
      doorbell_timer q = true -> db_step (mk_db w rs q) (mk_db w rs (i10_host_doorbell_timeout q))
  | db_data_ready w rs q rd : db_step (mk_db w rs q) (mk_db w rs (nvme_tcp_data_ready rd q))
  | db_write_space w rs q b : db_step (mk_db w rs q) (mk_db w rs (nvme_tcp_write_space b q))
  | db_start rs q :
      io_work q = true -> db_step (mk_db W_IDLE rs q) (mk_db W_LOCK rs (q <| io_work := false |>))
  | db_start_lat rs q :
      io_work_lat q = true ->
      db_step (mk_db W_IDLE rs q) (mk_db W_LOCK rs (q <| io_work_lat := false |>))
  | db_lock rs q q' :
      existsb hasty rs = false -> try_send_locked q = Some q' ->
      db_step (mk_db W_LOCK rs q) (mk_db W_SEND rs q')
  | db_send rs q pending received q' :
      io_work_rest q = Some (Some pending, q') ->
      db_step (mk_db W_SEND rs q) (mk_db (if pending || received then W_LOCK else W_IDLE) rs q')
  | db_quota rs q : db_step (mk_db W_LOCK rs q) (mk_db W_IDLE rs (queue_io_work q)).

Definition will_ring (rs : list ring_pc) (q : nvme_tcp_queue) : Prop :=
  ringing q = true \/ existsb committed rs = true.

Definition wakeup_inv (x : db_state) : Prop :=
  let 'mk_db w rs q := x in
  bell_inv (existsb hasty rs) q
  /\ match w with
     | W_IDLE => outstanding q -> armed q = true \/ existsb committed rs = true
     | W_LOCK => True
     | W_SEND => mid (will_ring rs q) q
     end.

(** A change of the doorbell alone. *)
Lemma bell_inv_flags h h' q q' :
  bell_inv h q -> obs q' = obs q -> send_list q' = send_list q ->
  (nr_req q', nr_caravan_req q', send_now q') = (nr_req q, nr_caravan_req q, send_now q) ->
  (h' = false -> timer_on q' = true -> h = false /\ timer_on q = true) -> bell_inv h' q'.
Proof.
  intros Hi O El [= C1 C2 C3] Ht. pose proof (bi_wf _ _ Hi) as [Hc Hdg Hnd Hrq].
  destruct (obs_car e _ _ O Hc) as [Hc' _]. assert (forall x, wf_req e q' x <-> wf_req e q x) as Hwf
    by (intros; by apply obs_wf).
  unfold obs in O. injection O as O1 O2 O3 O4 O5 O6 O7 O8 O9 O10 O11 O12 O13 O14.
  destruct Hi as [W1 W2 W3 W4 W5 W6 W7 W8].
  assert (forall x, dl q' x = dl q x) as Hdl.
  { intros x. unfold dl. rewrite O7. unfold delayed, i10_host_legacy_path, i10_host_is_latency. by rewrite O1, O2. }
  assert (forall l, ndelayed q' l = ndelayed q l) as Hnl.
  { intros l. induction l as [|x l IH]; [done|]. by rewrite !ndelayed_cons, IH, Hdl. }
  constructor.
  - constructor; [done|congruence|congruence|]. rewrite O6, El, O7. intros r Hr.
    destruct (Hrq r Hr) as (x & X1 & X2). exists x. by rewrite Hwf.
  - unfold class_of in *. by rewrite O1, O2.
  - by rewrite C1, C2, El, Hnl.
  - by rewrite C1, C2.
  - by rewrite C2, O6, O11.
  - by rewrite C3, O11.
  - unfold i10_host_legacy_path, i10_host_is_latency in *. by rewrite O1, O2, C2, C3.
  - intros Hh Hon. destruct (Ht Hh Hon) as [Hh0 Hon0]. destruct (W8 Hh0 Hon0) as (ns & ds & F).
    exists ns, ds. setoid_rewrite Hdl. rewrite El, C2. unfold urgent in *. by rewrite O6, O7, C3.
Qed.

Lemma queue_io_work_ringing q : ringing (queue_io_work q) = true.
Proof. unfold ringing, queue_io_work. case_bool; simpl; [by rewrite orb_true_r|done]. Qed.

(** What is announced stays announced. *)
Lemma mid_weaken (rd rd' : Prop) q q' :
  (nq_request q', nr_caravan_req q', send_now q', caravan_len q', send_list q')
  = (nq_request q, nr_caravan_req q, send_now q, caravan_len q, send_list q) ->
  (rd -> rd') -> mid rd q -> mid rd' q'.
Proof.
  intros [= E1 E2 E3 E4 E5] Hrd Hm Hr. rewrite E1 in Hr. destruct (Hm Hr) as [A B].
  unfold outstanding in *. rewrite E1, E2, E3, E4, E5. naive_solver.
Qed.

(** A step that only changes the doorbell and keeps the announcement. *)
Lemma flags_step w rs rs' q q' :
  wakeup_inv (mk_db w rs q) -> obs q' = obs q -> send_list q' = send_list q ->
  (nr_req q', nr_caravan_req q', send_now q') = (nr_req q, nr_caravan_req q, send_now q) ->
  (existsb hasty rs' = false -> timer_on q' = true -> existsb hasty rs = false /\ timer_on q = true) ->
  (will_ring rs q -> will_ring rs' q') ->
  (armed q = true \/ existsb committed rs = true -> armed q' = true \/ existsb committed rs' = true) ->
  wakeup_inv (mk_db w rs' q').
Proof.
  intros [Hi Hw] O El Hc Ht Hr Ha. split; [by eapply bell_inv_flags|].
  assert (nq_request q' = nq_request q /\ caravan_len q' = caravan_len q) as [O1 O2]
    by (unfold obs in O; by injection O).
  injection Hc as C1 C2 C3. destruct w; [|done|].
  - intros Ho. apply Ha, Hw. unfold outstanding in *. by rewrite O1, O2, El in Ho.
  - eapply mid_weaken; [|exact Hr|exact Hw]. by rewrite O1, O2, C2, C3, El.
Qed.

(** The work is queued. *)
Lemma work_step w rs q q1 :
  wakeup_inv (mk_db w rs q) -> obs q1 = obs q -> send_list q1 = send_list q ->
  (nr_req q1, nr_caravan_req q1, send_now q1) = (nr_req q, nr_caravan_req q, send_now q) ->
  (timer_on q1 = true -> timer_on q = true) -> wakeup_inv (mk_db w rs (queue_io_work q1)).
Proof.
  intros Hi O El Hc Ht. pose proof (queue_io_work_ringing q1) as Hr.
  apply (flags_step w rs rs q); [done|..]; try (unfold queue_io_work; by case_bool).
  - intros Hh Hon. split; [done|]. apply Ht. by unfold queue_io_work in Hon; case_bool_in Hon.
  - intros _. by left.
  - intros _. left. by apply ringing_armed.
Qed.

(** An action of a submission. *)
Lemma ring_step_inv w rs1 rs2 p q o q' :
  wakeup_inv (mk_db w (rs1 ++ p :: rs2) q) -> ring_step p q = (o, q') ->
  wakeup_inv (mk_db w (rs1 ++ option_list o ++ rs2) q').
Proof.
  intros Hi H.
  assert (forall o, existsb hasty (rs1 ++ option_list o ++ rs2)
    = existsb hasty rs1 || (from_option hasty false o || existsb hasty rs2)) as Hh.
  { intros o0. rewrite !existsb_app. destruct o0; simpl; by rewrite ?orb_false_r. }
  assert (forall o, existsb committed (rs1 ++ option_list o ++ rs2)
    = existsb committed rs1 || (from_option committed false o || existsb committed rs2)) as Hc.
  { intros o0. rewrite !existsb_app. destruct o0; simpl; by rewrite ?orb_false_r. }
  change (rs1 ++ p :: rs2) with (rs1 ++ option_list (Some p) ++ rs2) in Hi.
  assert (forall p', o = Some p' -> committed p' = true ->
    existsb committed (rs1 ++ option_list o ++ rs2) = true) as Hcom.
  { intros p' -> Hp. rewrite Hc. simpl. rewrite Hp. apply orb_true_r. }
  destruct p as [nd|nd|nd|nd|]; simpl in H; injection H as <- <-.
  - apply (flags_step w _ _ q q Hi); try done; rewrite ?Hh; unfold will_ring; rewrite ?Hc; simpl.
    + destruct nd; simpl; [done|]. by case_bool.
    + destruct nd; simpl; [done|]. case_bool; simpl; [|done]. right. apply orb_true_r.
    + destruct nd; simpl; [done|]. case_bool; simpl; [|done]. right. apply orb_true_r.
  - apply (flags_step w _ _ q q Hi); try done; rewrite ?Hh; unfold will_ring; rewrite ?Hc; simpl;
      by destruct (doorbell_timer q).
  - apply (flags_step w _ _ q _ Hi); try done.
    + unfold timer_on. simpl. by rewrite andb_false_r.
    + intros _. right. by eapply Hcom.
    + intros _. right. by eapply Hcom.
  - apply (flags_step w _ _ q _ Hi); try done.
    + intros _. right. by eapply Hcom.
    + intros _. right. by eapply Hcom.
  - pose proof (queue_io_work_ringing q) as Hr.
    apply (flags_step w _ _ q _ Hi); try (unfold queue_io_work; by case_bool).
    + rewrite !Hh. simpl. intros ? Hon. split; [done|]. by unfold queue_io_work in Hon; case_bool_in Hon.
    + intros _. by left.
    + intros _. left. by apply ringing_armed.
Qed.

(** A request arrives. *)
Lemma enqueue_step w rs q r req nd q' :
  wakeup_inv (mk_db w rs q) -> r ∉ busy q -> reqs q !! r = Some req -> wf_req e q req ->
  nr_req q < 2 ^ 31 - 1 -> request_enqueue e r q = Some (nd, q') -> wakeup_inv (mk_db w (R_CHECK nd :: rs) q').
Proof.
  intros [Hi Hw] Hr Hreq Hwf Hb H.
  destruct (enqueue_inv _ q r req nd q' Hi Hr Hreq Hwf Hb H) as (Hi' & Hrg & Har & [= E1 E2 E3 E4] & Hd).
  split; [simpl; by rewrite orb_comm|].
  assert (will_ring rs q -> will_ring (R_CHECK nd :: rs) q') as Hwr.
  { intros [?|Hcm]; [left; auto|right]. simpl. rewrite Hcm. apply orb_true_r. }
  assert (nd = true \/ ringing q' = true -> will_ring (R_CHECK nd :: rs) q') as Hnow.
  { intros [->|?]; [by right|by left]. }
  destruct w; [|done|].
  - intros _. destruct Hd as [->|[Hg|Hn]]; [by right|left; by apply ringing_armed|].
    destruct (counted_outstanding _ q Hi Hn) as [Ho _].
    destruct (Hw Ho) as [?|Hcm]; [left; auto|right]. simpl. rewrite Hcm. apply orb_true_r.
  - intros Hnone. rewrite E1 in Hnone. destruct (Hw Hnone) as [A B]. rewrite E2, E3. split.
    + intros Hn. destruct (A Hn) as [Hz Hl]. split; [done|]. intros _.
      destruct Hd as [?|[?|Hc]]; [by apply Hnow; auto..|]. apply Hwr, Hl.
      by apply (counted_outstanding _ q Hi Hc).
    + intros Hn _. destruct Hd as [?|[?|Hc]]; [by apply Hnow; auto..|]. apply Hwr, B; [done|].
      by apply (counted_outstanding _ q Hi Hc).
Qed.

(** A request that the queue does not know changes. *)
Lemma prepare_step w rs q r req :
  wakeup_inv (mk_db w rs q) -> r ∉ busy q -> wakeup_inv (mk_db w rs (put_req r req q)).
Proof.
  intros [Hi Hw] Hr. destruct (put_req_other e r req q (bi_wf _ _ Hi) Hr) as [Hwf _].
  assert (same_list q (put_req r req q)) as Hsl.
  { split_and!; [done|done|]. intros k Hk. simpl. rewrite lookup_insert_ne; [done|].
    intros ->. apply Hr. apply elem_of_app. by right. }
  split; [|exact Hw]. apply (bell_inv_keep _ q); try done.
  - apply (bi_flush _ _ Hi).
  - intros Hn. pose proof (bi_now _ _ Hi Hn). split; [done|]. apply caravan_not_legacy; [apply Hi|done].
  - intros Hh Ht Hu. destruct (bi_order _ _ Hi Hh Ht) as (? & ? & _ & _ & _ & F). apply F. right.
    destruct Hu as [(k & rq & U1 & U2 & U3)|U]; [left|by right]. exists k, rq. split; [done|].
    simpl in U1, U2. rewrite lookup_insert_ne in U2; [done|]. intros ->. apply Hr. unfold busy. rewrite U1. by left.
Qed.

(** The part of a turn under the lock, and the rest. *)
Lemma lock_step rs q q' :
  wakeup_inv (mk_db W_LOCK rs q) -> existsb hasty rs = false -> try_send_locked q = Some q' ->
  wakeup_inv (mk_db W_SEND rs q').
Proof.
  intros [Hi _] Hh H. rewrite Hh in Hi. unfold try_send_locked in H.
  assert (bell_inv false q' /\ fetched q') as [Hi' Hf].
  { destruct (nq_request q) eqn:Hr; [|by eapply fetch_inv]. injection H as <-. split; [done|].
    intros ?. congruence. }
  split; [by rewrite Hh|]. apply fetched_mid; [done| |done]. intros ?. by left.
Qed.

Lemma send_step_wakeup rs q pending received q' :
  wakeup_inv (mk_db W_SEND rs q) -> io_work_rest q = Some (Some pending, q') ->
  wakeup_inv (mk_db (if pending || received then W_LOCK else W_IDLE) rs q').
Proof.
  intros [Hi Hm] H. unfold io_work_rest in H. apply bind_Some in H as ([ret q1] & E & H). cbv beta iota in H.
  destruct (try_send_inv _ _ q ret q1 Hi Hm E) as [Hi1 Hz].
  pose proof (try_send_ringing _ _ q ret q1 Hi Hm E) as Hg.
  case_bool_in H; [inv_some; subst; by split|]. case_bool_in H; [by inv_some|]. inv_some. subst.
  split; [done|]. simpl. destruct received; [done|]. intros Ho.
  destruct (Hz ltac:(lia) Ho) as [Hp|[Hr|Hc]].
  - left. unfold armed. rewrite Hp. apply orb_true_r.
  - left. apply ringing_armed. by rewrite Hg.
  - by right.
Qed.

Lemma wakeup_step x y : wakeup_inv x -> db_step x y -> wakeup_inv y.
Proof.
  intros Hi Hs. destruct Hs as [w rs q r req Hr|w rs q r req nd q' Hr Hreq Hwf Hb Hq|w rs1 rs2 p q o q' Hq
    |w rs q Ht|w rs q rd|w rs q b|rs q Hq|rs q Hq|rs q q' Hh Hq|rs q pd rc q' Hq|rs q].
  - by apply prepare_step.
  - by eapply enqueue_step.
  - by eapply ring_step_inv.
  - by apply (work_step w rs q).
  - unfold nvme_tcp_data_ready. destruct rd; [by apply (work_step w rs q)|done].
  - unfold nvme_tcp_write_space. destruct b; [by apply (work_step w rs q)|done].
  - destruct Hi as [Hi _]. split; [by apply (bell_inv_flags (existsb hasty rs) _ q)|done].
  - destruct Hi as [Hi _]. split; [by apply (bell_inv_flags (existsb hasty rs) _ q)|done].
  - by eapply lock_step.
  - by eapply send_step_wakeup.
  - destruct Hi as [Hi _].
    apply (work_step W_IDLE rs (q <| io_work := true |>)); try done.
    split; [by apply (bell_inv_flags (existsb hasty rs) _ q)|]. by left.
Qed.

Lemma wakeup_run x y : rtc db_step x y -> wakeup_inv x -> wakeup_inv y.
Proof. induction 1 as [|x y z Hs _ IH]; [done|]. intros Hi. by apply IH, (wakeup_step x). Qed.

(** A queue that has just been set up. *)
Definition fresh (q : nvme_tcp_queue) : Prop :=
  queue_wf e q /\ prio_class q = class_of e q /\ ~ outstanding q
  /\ (nr_req q, nr_caravan_req q, send_now q) = (0, 0, false).

(** C6: no wake-up is lost outside one race.  On a connection without data
    digest, let requests arrive on any CPUs, the timer expire, the socket call
    back and the I/O work run in any order, with every action of a submission
    after its lock and the two parts of a turn of the work as separate steps, as
    long as no send fails and the work does not take the lock while the
    submission of a request that must not be delayed has released it and not yet
    cleared [timer_set] ([doorbell_race] shows what happens then).  A queue that
    owes bytes has its I/O work running or queued, its doorbell timer active, a
    socket that will call back, or a submission in progress that will queue the
    work; and [nr_req] is the number of delayed requests in the send list and
    taken from it since the last flush.  The handler of the timer is one step. *)
Theorem doorbell_no_lost_wakeup q0 w rs q :
  fresh q0 -> rtc db_step (mk_db W_IDLE [] q0) (mk_db w rs q) ->
  (outstanding q -> w <> W_IDLE \/ armed q = true \/ exists p, p ∈ rs /\ committed p = true)
  /\ nr_req q = nr_caravan_req q + ndelayed q (send_list q).
Proof.
  intros (Hw & Hp & Ho & [= H1 H2 H3]) Hr.
  assert (wakeup_inv (mk_db W_IDLE [] q0)) as Hi.
  { assert (send_list q0 = []) as El by (destruct (send_list q0) eqn:E; [done|]; destruct Ho; by left; rewrite E).
    split; [|done]. constructor; simpl; try done.
    - by rewrite H1, H2, El.
    - rewrite H1, H2. lia.
    - by rewrite H2.
    - by rewrite H3.
    - intros _ _. exists [], []. by rewrite El, H2. }
  destruct (wakeup_run _ _ Hr Hi) as [Hq Ha].
  split; [|apply Hq]. intros Hout. destruct w; [right|by left|by left].
  destruct (Ha Hout) as [?|Hc]; [by left|right].
  apply existsb_exists in Hc as (p & Hin & Hc). exists p. split; [by apply list_elem_of_In|done].
Qed.
End bell.

(** ** A concrete queue *)

Definition ex_idle : nvme_tcp_queue :=
  ex_nq <| send_list := [] |> <| nr_req := 0 |> <| doorbell_timer := false |> <| timer_set := 0 |>.

Lemma ex_idle_fresh : fresh (pr := ex_proto) ex_host ex_idle.
Proof.
  split; [|split; [done|split; [|done]]].
  - constructor; [|done|constructor|by intros r Hr; apply not_elem_of_nil in Hr].
    constructor; try done.
  - intros [?|[?|?]]; done.
Qed.

(** A delayed request is queued and its submission ends. *)
Lemma doorbell_no_lost_wakeup_witness :
  exists q, @request_enqueue ex_proto ex_host 5 ex_idle = Some (false, q) /\ outstanding q
    /\ (outstanding q -> W_IDLE <> W_IDLE \/ armed q = true \/ exists p, p ∈ [] /\ committed p = true)
    /\ nr_req q = nr_caravan_req q + @ndelayed ex_proto ex_host q (send_list q).
Proof.
  destruct (@request_enqueue ex_proto ex_host 5 ex_idle) as [[nd q]|] eqn:E; [|discriminate E].
  assert (nd = false) as -> by (vm_compute in E; by injection E as <- _).
  assert (nr_req q = 1 /\ send_list q = [5]) as [Hn Hl] by (vm_compute in E; by injection E as <-).
  exists q. split; [done|].
  destruct (@doorbell_no_lost_wakeup ex_proto ex_iov ex_iov_laws ex_sock ex_sock_laws ex_host ex_idle W_IDLE [] q
    ex_idle_fresh) as [H1 H2].
  { eapply rtc_l.
    - eapply (db_enqueue _ W_IDLE [] ex_idle 5 ex_write); [apply not_elem_of_nil|done|apply ex_write_wf|done|exact E].
    - apply rtc_once. apply (db_ring _ W_IDLE [] [] (R_CHECK false) q None q). unfold ring_step. by rewrite Hn. }
  split; [left; by rewrite Hl|]. split; [exact H1|exact H2].
Defined.

(** ** A race

    A request [R] that may be delayed starts the timer; a request [N] that may
    not be delayed is put into the list; the I/O work, running because of
    received data, takes both and sends them, which does not reset [nr_req]
    because the timer is active; only then does the submission of [N] cancel
    the timer and queue the work, which finds nothing to flush.  [nr_req] stays
    at 1, and the next delayed request neither starts the timer nor queues the
    work. *)
Definition ex_read (tag : Z) (opf : Z) : nvme_tcp_request :=
  ex_write <| is_write := false |> <| rtag := tag |>
    <| curr_bio := [mk_hbio [mk_bvec 7 1024 512; mk_bvec 8 3072 0] 0 4096 opf] |>.

Definition ex_reads : nvme_tcp_queue :=
  ex_idle <| reqs := <[1 := ex_read 1 0]> (<[2 := ex_read 2 (2 ^ 17)]> (<[3 := ex_read 3 0]> ∅)) |>.

(** The I/O work until it stops. *)
Fixpoint ex_drain (n : nat) (q : nvme_tcp_queue) : option nvme_tcp_queue :=
  match n with
  | O => None
  | S n =>
    '(o, q) ← @io_work_send ex_proto ex_iov ex_sock ex_host q;
    match o with Some true => ex_drain n q | Some false => Some q | None => None end
  end.

Definition race : option nvme_tcp_queue :=
  q ← @nvme_tcp_queue_request ex_proto ex_host 1 ex_reads;
  '(no_delay, q) ← @request_enqueue ex_proto ex_host 2 q;
  q ← ex_drain 10 q;
  let q := request_ring no_delay q in
  q ← ex_drain 10 (q <| io_work := false |>);
  @nvme_tcp_queue_request ex_proto ex_host 3 q.

(** The one interleaving that [db_step] leaves out.  When the I/O work runs
    between the halves of the submission of a request that must not be delayed, a
    later request is left in the send list with no timer, no work and no
    call-back of the socket that would send it. *)
Lemma doorbell_race :
  exists q, race = Some q /\ send_list q = [3] /\ armed q = false /\ nr_req q = 2
    /\ nr_caravan_req q = 1 /\ caravan_len q = 0 /\ nq_request q = None.
Proof. eexists. split; [vm_compute; reflexivity|]. done. Qed.
