(* ===== verification/I10Host.v ===== *)
(** * The i10 host: queueing and sending

    drivers/nvme/host/i10.c is the driver that nvme/host/tcp.c was extended from for
    blk-switch.  Its requests, queues, PDUs and socket are those of NvmeTcp.v; of
    [nvme_tcp_queue] it does not have the fields [prio_class], [nr_caravan_req],
    [timer_set] and [io_work_lat].  It has one work item, counts requests outside the
    lock and resets the count with every caravan. *)
From S2P Require Import Prelude NvmeTcp NvmeTcpSend NvmeTcpSetup NvmeTcpRecv NvmeTcpWork.

(** ** What is the same in both drivers

    The code of these functions of i10.c is, up to the prefix of the names, that of
    tcp.c. *)
Section same.
Context {pr : NvmeTcpProto} {it : IovIter} {sk : HostSock} {ly : PduLayout}.

Definition i10_host_hdgst_len (q : nvme_tcp_queue) : Z := nvme_tcp_hdgst_len q.
Definition i10_host_ddgst_len (q : nvme_tcp_queue) : Z := nvme_tcp_ddgst_len q.
Definition i10_host_inline_data_size (q : nvme_tcp_queue) : Z := nvme_tcp_inline_data_size q.
Definition i10_host_has_inline_data (q : nvme_tcp_queue) (req : nvme_tcp_request) : bool :=
  nvme_tcp_has_inline_data q req.
Definition i10_host_req_cur_page (req : nvme_tcp_request) : option Z := nvme_tcp_req_cur_page req.
Definition i10_host_req_cur_offset (req : nvme_tcp_request) : option Z := nvme_tcp_req_cur_offset req.
Definition i10_host_req_cur_length (req : nvme_tcp_request) : option Z := nvme_tcp_req_cur_length req.
Definition i10_host_pdu_data_left (req : nvme_tcp_request) : Z := nvme_tcp_pdu_data_left req.
Definition i10_host_pdu_last_send (req : nvme_tcp_request) (len : Z) : bool := nvme_tcp_pdu_last_send req len.
Definition i10_host_init_iter (req : nvme_tcp_request) : option nvme_tcp_request := nvme_tcp_init_iter req.
Definition i10_host_advance_req (req : nvme_tcp_request) (len : Z) : option nvme_tcp_request :=
  nvme_tcp_advance_req req len.
Definition i10_nodelay_path (req : nvme_tcp_request) : bool := i10_host_is_nodelay_path req.
Definition i10_host_done_send_req (q : nvme_tcp_queue) : nvme_tcp_queue := nvme_tcp_done_send_req q.
Definition i10_host_fail_request (o : option Z) (q : nvme_tcp_queue) : option nvme_tcp_queue :=
  nvme_tcp_fail_request o q.
Definition i10_host_sndbuf_nospace (q : nvme_tcp_queue) (length : Z) : bool := nvme_tcp_sndbuf_nospace q length.

Definition i10_host_map_data (icdoff : Z) (q : nvme_tcp_queue) (req : nvme_tcp_request) : sgl :=
  nvme_tcp_map_data icdoff q req.
Definition i10_host_setup_cmd_pdu (icdoff status : Z) (r : Z) (q : nvme_tcp_queue) : option (Z * nvme_tcp_queue) :=
  nvme_tcp_setup_cmd_pdu icdoff status r q.
Definition i10_host_setup_h2c_data_pdu (q : nvme_tcp_queue) (r2t_length r2t_offset tag : Z)
    (req : nvme_tcp_request) : Z * nvme_tcp_request :=
  nvme_tcp_setup_h2c_data_pdu q r2t_length r2t_offset tag req.

Definition i10_host_recv_state (x : recv_ctx) : nvme_tcp_recv_state_t := nvme_tcp_recv_state x.
Definition i10_host_init_recv_ctx (q : nvme_tcp_queue) (x : recv_ctx) : recv_ctx := nvme_tcp_init_recv_ctx q x.
Definition i10_host_verify_hdgst (pdu : list Z) (len : Z) : option (Z * list Z) := nvme_tcp_verify_hdgst pdu len.
Definition i10_host_check_ddgst (q : nvme_tcp_queue) (pdu : list Z) : Z := nvme_tcp_check_ddgst q pdu.
Definition i10_host_process_nvme_cqe (h : host) : Z * host := nvme_tcp_process_nvme_cqe h.
Definition i10_host_handle_c2h_data (h : host) : option (Z * host) := nvme_tcp_handle_c2h_data h.
Definition i10_host_handle_comp (h : host) : Z * host := nvme_tcp_handle_comp h.
Definition i10_host_end_request (r status : Z) (h : host) : host := nvme_end_request r status h.
Definition i10_host_recv_data (h : host) (l : list Z) : option (Z * host * list Z) := nvme_tcp_recv_data h l.
Definition i10_host_recv_ddgst (h : host) (l : list Z) : option (Z * host * list Z) := nvme_tcp_recv_ddgst h l.
Definition i10_host_state_change (st : sock_state) (h : host) : host := nvme_tcp_state_change st h.
End same.

Section i10.
Context {pr : NvmeTcpProto} {it : IovIter} {sk : HostSock} (e : host_env).

(** ** Doorbell *)

Definition i10_host_legacy_path (q : nvme_tcp_queue) : bool :=
  (nq_id q =? 0) || (i10_delayed_doorbell_us e <? I10_MIN_DOORBELL_TIMEOUT).

Definition i10_delayed (q : nvme_tcp_queue) (req : nvme_tcp_request) : bool :=
  negb (i10_host_legacy_path q) && negb (i10_host_is_nodelay_path req).

(** The four pieces of [i10_host_queue_request]: under the lock, the count, the
    doorbell of a delayed request, and that of another one. *)
Definition i10_enqueue (r : Z) (q : nvme_tcp_queue) : nvme_tcp_queue := q <| send_list ::= fun l => l ++ [r] |>.

Definition i10_count (q : nvme_tcp_queue) : nvme_tcp_queue := q <| nr_req ::= fun n => s32 (n + 1) |>.

Definition i10_ring_now (q : nvme_tcp_queue) : nvme_tcp_queue := q <| doorbell_timer := false |> <| io_work := true |>.

Definition i10_ring (q : nvme_tcp_queue) : nvme_tcp_queue :=
  if negb (doorbell_timer q) && (nr_req q =? 1) then q <| doorbell_timer := true |>
  else if I10_AGGREGATION_SIZE <=? nr_req q then i10_ring_now q
  else q.

Definition i10_host_queue_request (r : Z) (q : nvme_tcp_queue) : option nvme_tcp_queue :=
  req ← reqs q !! r;
  let q := i10_enqueue r q in
  Some (if i10_delayed q req then i10_ring (i10_count q) else i10_ring_now q).

Definition i10_host_fetch_request (q : nvme_tcp_queue) : option Z * nvme_tcp_queue :=
  match send_list q with
  | [] => (None, q)
  | r :: l => (Some r, q <| send_list := l |>)
  end.

Definition i10_host_doorbell_timeout (q : nvme_tcp_queue) : nvme_tcp_queue :=
  q <| doorbell_timer := false |> <| io_work := true |>.

Definition i10_host_data_ready (rd_enabled : bool) (q : nvme_tcp_queue) : nvme_tcp_queue :=
  if rd_enabled then q <| io_work := true |> else q.

Definition i10_host_write_space (writeable : bool) (q : nvme_tcp_queue) : nvme_tcp_queue :=
  if writeable then q <| sock_nospace := false |> <| sock_short := false |> <| io_work := true |> else q.

(** ** Caravans *)

Definition i10_host_is_caravan_full (q : nvme_tcp_queue) : bool :=
  (I10_CARAVAN_CAPACITY <=? caravan_len q) || (I10_AGGREGATION_SIZE * 2 <=? nr_iovs q)
  || (I10_AGGREGATION_SIZE <=? nr_mapped q).

(** The loop of [i10_host_try_send_data]. *)
Fixpoint i10_send_data_loop (fuel : nat) (r : Z) (q : nvme_tcp_queue) : option (Z * nvme_tcp_queue) :=
  match fuel with
  | O => None
  | S fuel =>
    req ← reqs q !! r;
    page ← i10_host_req_cur_page req;
    off ← i10_host_req_cur_offset req;
    len ← i10_host_req_cur_length req;
    let last := i10_host_pdu_last_send req len in
    let s := mk_seg (BPage page) off len in
    let legacy := i10_host_legacy_path q in
    if negb legacy && i10_host_is_caravan_full q then Some (1, q <| send_now := true |>)
    else
      '(ret, q) ← (if legacy
                   then let ret := if PageSlab page then sock_no_sendpage (sock_calls q) s
                                   else kernel_sendpage (sock_calls q) s in
                        Some (ret, sock_sent ret [s] q)
                   else q ← caravan_add_page page s q; Some (len, q));
      if ret <=? 0 then Some (ret, q)
      else
        req ← i10_host_advance_req req ret;
        let q := put_req r req q in
        let q := if data_digest q then q <| snd_hash ::= fun h => h ++ [mk_seg (BPage page) off ret] |>
                 else q in
        if last && (ret =? len) then
          if data_digest q
          then Some (1, put_req r (req <| r_ddgst := snd_hash q |>
                                       <| state := NVME_TCP_SEND_DDGST |> <| offset := 0 |>) q)
          else Some (1, i10_host_done_send_req q)
        else i10_send_data_loop fuel r q
  end.

Definition i10_host_try_send_data (r : Z) (q : nvme_tcp_queue) : option (Z * nvme_tcp_queue) :=
  req ← reqs q !! r;
  i10_send_data_loop (S (Z.to_nat (u32 (pdu_len req - pdu_sent req)))) r q.

(** A header of [size] bytes goes to the socket or to the caravan: the bytes taken, or
    [None] when the caravan is full. *)
Definition i10_send_hdr (r size len : Z) (req : nvme_tcp_request) (now : bool) (q : nvme_tcp_queue)
  : option (option Z * nvme_tcp_queue) :=
  if i10_host_legacy_path q then
    let s := mk_seg (BPdu r) (offset req) len in
    let ret := kernel_sendpage (sock_calls q) s in
    Some (Some ret, sock_sent ret [s] q)
  else if i10_host_is_caravan_full q then Some (None, q <| send_now := true |>)
  else
    q ← caravan_add (mk_seg (BPdu r) (size * offset req) len) q;
    Some (Some len, if now then q <| send_now := true |> else q).

Definition i10_host_try_send_cmd_pdu (r : Z) (q : nvme_tcp_queue) : option (Z * nvme_tcp_queue) :=
  req ← reqs q !! r;
  let inline_data := i10_host_has_inline_data q req in
  let len := s32 (sizeof_cmd_pdu + i10_host_hdgst_len q - offset req) in
  '(o, q) ← i10_send_hdr r sizeof_cmd_pdu len req (i10_host_is_nodelay_path req) q;
  match o with
  | None => Some (1, q)
  | Some ret =>
    if ret <=? 0 then Some (ret, q)
    else if len - ret =? 0 then
      if inline_data then
        let q := if data_digest q then q <| snd_hash := [] |> else q in
        req ← i10_host_init_iter (req <| state := NVME_TCP_SEND_DATA |>);
        Some (1, put_req r req q)
      else Some (1, i10_host_done_send_req q)
    else Some (- EAGAIN, put_req r (req <| offset ::= fun n => n + ret |>) q)
  end.

Definition i10_host_try_send_data_pdu (r : Z) (q : nvme_tcp_queue) : option (Z * nvme_tcp_queue) :=
  req ← reqs q !! r;
  let len := s32 (sizeof_data_pdu - offset req + i10_host_hdgst_len q) in
  '(o, q) ← i10_send_hdr r sizeof_data_pdu len req false q;
  match o with
  | None => Some (1, q)
  | Some ret =>
    if ret <=? 0 then Some (ret, q)
    else if len - ret =? 0 then
      let q := if data_digest q then q <| snd_hash := [] |> else q in
      let req := req <| state := NVME_TCP_SEND_DATA |> in
      req ← (if data_sent req =? 0 then i10_host_init_iter req else Some req);
      Some (1, put_req r req q)
    else Some (- EAGAIN, put_req r (req <| offset ::= fun n => n + ret |>) q)
  end.

Definition i10_host_try_send_ddgst (r : Z) (q : nvme_tcp_queue) : option (Z * nvme_tcp_queue) :=
  req ← reqs q !! r;
  let s := mk_seg (BDdgst r) (4 * offset req) (NVME_TCP_DIGEST_LENGTH - offset req) in
  let ret := kernel_sendmsg (sock_calls q) [s] (sg_len s) in
  let q := sock_sent ret [s] q in
  if ret <=? 0 then Some (ret, q)
  else if offset req + ret =? NVME_TCP_DIGEST_LENGTH then Some (1, i10_host_done_send_req q)
  else Some (- EAGAIN, put_req r (req <| offset ::= fun n => n + ret |>) q).

(** ** [i10_host_try_send] *)

(** The caravan is to be sent. *)
Definition i10_host_send_caravan (q : nvme_tcp_queue) : bool :=
  send_now q || (negb (doorbell_timer q) && bool_decide (nq_request q = None) && c_true (caravan_len q)).

(** [Some ret] when [i10_host_try_send] returns [ret] here. *)
Definition i10_push_caravan (q : nvme_tcp_queue) : option Z * nvme_tcp_queue :=
  if i10_host_sndbuf_nospace q (s32 (caravan_len q))
  then (Some 0, q <| sock_nospace := true |> <| sock_calls ::= S |>)
  else
    let ret := kernel_sendmsg (sock_calls q) (caravan q) (caravan_len q) in
    let q := sock_sent ret (caravan q) q in
    if ret <=? 0 then (Some ret, q)
    else (None, q <| kmaps ::= fun m => foldl (fun m p => kunmap p m) m (caravan_pages q) |>
                  <| nr_req := 0 |> <| nr_iovs := 0 |> <| nr_mapped := 0 |> <| caravan_len := 0 |>
                  <| send_now := false |>).

(** The states of the current request in turn. *)
Definition i10_send_request (r : Z) (q : nvme_tcp_queue) : option (Z * nvme_tcp_queue) :=
  let no_stop _ _ := false in
  x ← send_step NVME_TCP_SEND_CMD_PDU i10_host_try_send_cmd_pdu
        (fun q req => negb (i10_host_has_inline_data q req)) r (false, 1, q);
  x ← send_step NVME_TCP_SEND_H2C_PDU i10_host_try_send_data_pdu no_stop r x;
  x ← send_step NVME_TCP_SEND_DATA i10_host_try_send_data no_stop r x;
  '(_, ret, q) ← send_step NVME_TCP_SEND_DDGST i10_host_try_send_ddgst no_stop r x;
  Some (if ret =? - EAGAIN then 0 else ret, q).

Definition i10_next (q : nvme_tcp_queue) : nvme_tcp_queue :=
  match nq_request q with
  | Some _ => q
  | None => let '(o, q) := i10_host_fetch_request q in q <| nq_request := o |>
  end.

Definition i10_host_try_send (q : nvme_tcp_queue) : option (Z * nvme_tcp_queue) :=
  let q := i10_next q in
  if bool_decide (nq_request q = None) && negb (c_true (caravan_len q)) then Some (0, q)
  else
    let '(o, q) := if i10_host_send_caravan q then i10_push_caravan q else (None, q) in
    match o, nq_request q with
    | Some ret, _ => Some (ret, q)
    | None, None => Some (0, q)
    | None, Some r => i10_send_request r q
    end.

(** ** Submission *)

(** [ready], [nonready], [icdoff] and [status] as in [nvme_tcp_queue_rq]. *)
Definition i10_host_queue_rq (ready : bool) (nonready icdoff status : Z) (r : Z) (q : nvme_tcp_queue)
  : option (Z * nvme_tcp_queue) :=
  if negb ready then Some (nonready, q)
  else
    '(ret, q) ← i10_host_setup_cmd_pdu icdoff status r q;
    if c_true ret then Some (ret, q)
    else q ← i10_host_queue_request r q; Some (0, q).

Definition i10_host_submit_async_event (r : Z) (q : nvme_tcp_queue) : option nvme_tcp_queue :=
  q ← mod_req r (fun req =>
        req <| hdr := mk_hdr nvme_tcp_cmd (if hdr_digest q then NVME_TCP_F_HDGST else 0)
                        (u8 sizeof_cmd_pdu) 0 (u32 (u8 sizeof_cmd_pdu + i10_host_hdgst_len q))
                        0 NVME_AQ_BLK_MQ_DEPTH 0 0 SG_NULL |>
            <| state := NVME_TCP_SEND_CMD_PDU |> <| offset := 0 |> <| curr_bio := [] |>
            <| r_data_len := 0 |>) q;
  i10_host_queue_request r q.

(** ** Receiving

    The functions on the way to [i10_host_handle_r2t], which queues the request
    again. *)
Context {ly : PduLayout}.

Definition i10_handle_r2t_req (r2t_length r2t_offset tag : Z) (r : Z) (q : nvme_tcp_queue)
  : option (Z * nvme_tcp_queue) :=
  req ← reqs q !! r;
  let '(ret, req) := i10_host_setup_h2c_data_pdu q r2t_length r2t_offset tag req in
  if c_true ret then Some (ret, put_req r req q)
  else
    q ← i10_host_queue_request r
          (put_req r (req <| state := NVME_TCP_SEND_H2C_PDU |> <| offset := 0 |>) q);
    Some (0, q).

Definition i10_host_handle_r2t (h : host) : option (Z * host) :=
  let pdu := rpdu (h_rx h) in
  match blk_mq_tag_to_rq (h_tagset h) (r2t_command_id pdu) with
  | None => Some (- ENOENT, h)
  | Some r =>
    '(ret, q) ← i10_handle_r2t_req (r2t_r2t_length pdu) (r2t_r2t_offset pdu) (r2t_ttag pdu) r (h_q h);
    Some (ret, h <| h_q := q |>)
  end.

(** The header is complete. *)
Definition i10_pdu_complete (h : host) : option (Z * host) :=
  let q := h_q h in
  '(ret, pdu) ← (if hdr_digest q then i10_host_verify_hdgst (rpdu (h_rx h)) (pdu_hlen (rpdu (h_rx h)))
                 else Some (0, rpdu (h_rx h)));
  let h := h <| h_rx ::= fun x => x <| rpdu := pdu |> |> in
  if c_true ret then Some (ret, h)
  else
    let ret := if data_digest q then i10_host_check_ddgst q pdu else 0 in
    if c_true ret then Some (ret, h)
    else
      let h := if data_digest q then h <| h_rx ::= fun x => x <| rcv_hash := [] |> |> else h in
      if pdu_type pdu =? nvme_tcp_c2h_data then i10_host_handle_c2h_data h
      else if pdu_type pdu =? nvme_tcp_rsp then Some (i10_host_handle_comp (init_recv h))
      else if pdu_type pdu =? nvme_tcp_r2t then i10_host_handle_r2t (init_recv h)
      else Some (- EINVAL, h).

Definition i10_host_recv_pdu (h : host) (l : list Z) : option (Z * host * list Z) :=
  let x := h_rx h in
  let rcv_len := Z.min (Z.of_nat (length l)) (pdu_remaining x) in
  pdu ← overwrite (pdu_offset x) (take (Z.to_nat rcv_len) l) (rpdu x);
  let h := h <| h_rx := x <| rpdu := pdu |> <| pdu_remaining ::= fun n => n - rcv_len |>
                          <| pdu_offset ::= fun n => n + rcv_len |> |> in
  let l := drop (Z.to_nat rcv_len) l in
  if c_true (pdu_remaining (h_rx h)) then Some (0, h, l)
  else '(ret, h) ← i10_pdu_complete h; Some (ret, h, l).

Definition i10_recv_step (h : host) (l : list Z) : option (Z * host * list Z) :=
  match i10_host_recv_state (h_rx h) with
  | NVME_TCP_RECV_PDU => i10_host_recv_pdu h l
  | NVME_TCP_RECV_DATA => i10_host_recv_data h l
  | NVME_TCP_RECV_DDGST => i10_host_recv_ddgst h l
  end.

(** The loop of [i10_host_recv_skb]: 0 when the buffer is used up. *)
Fixpoint i10_recv_skb_loop (fuel : nat) (h : host) (l : list Z) : option (Z * host) :=
  match l with
  | [] => Some (0, h)
  | _ =>
    match fuel with
    | O => None
    | S fuel =>
      '(result, h, l) ← i10_recv_step h l;
      if c_true result
      then Some (result, nvme_tcp_error_recovery (h <| h_rx ::= fun x => x <| rd_enabled := false |> |>))
      else i10_recv_skb_loop fuel h l
    end
  end.

Definition i10_host_recv_skb (h : host) (l : list Z) : option (Z * host) :=
  '(result, h) ← i10_recv_skb_loop (2 * length l) h l;
  Some (if c_true result then result else Z.of_nat (length l), h).

(** ** The work *)

Definition i10_io_work_send (q : nvme_tcp_queue) : option (option bool * nvme_tcp_queue) :=
  '(result, q) ← i10_host_try_send q;
  if 0 <? result then Some (Some true, q)
  else if result <? 0 then
    q ← (if negb (result =? - EPIPE) && negb (result =? - ECONNRESET)
         then i10_host_fail_request (nq_request q) q else Some q);
    Some (None, i10_host_done_send_req q)
  else Some (Some false, q).

Context {rs : ReadSock}.

Definition i10_host_try_recv (h : host) : option (Z * host) :=
  read_sock i10_host_recv_skb (h <| h_rx ::= fun x => x <| nr_cqe := 0 |> |>).

Definition i10_host_poll (h : host) : option (Z * host) :=
  '(_, h) ← i10_host_try_recv h; Some (nr_cqe (h_rx h), h).

(** The loop; [true] when the time slice is used up. *)
Fixpoint i10_io_work_loop (turns : nat) (h : host) : option (bool * host) :=
  '(o, q) ← i10_io_work_send (h_q h);
  let h := h <| h_q := q |> in
  match o with
  | None => Some (false, h)
  | Some pending =>
    '(result, h) ← i10_host_try_recv h;
    if negb (pending || (0 <? result)) then Some (false, h)
    else match turns with O => Some (true, h) | S n => i10_io_work_loop n h end
  end.

Definition i10_host_io_work (turns : nat) (h : host) : option host :=
  '(again, h) ← i10_io_work_loop turns (h <| h_q ::= fun q => q <| io_work := false |> |>);
  Some (if again : bool then h <| h_q ::= fun q => q <| io_work := true |> |> else h).
End i10.
