(* ===== verification/I10HostSpec.v ===== *)
(** * The i10 host keeps the byte stream and loses no wake-up

    The senders of drivers/nvme/host/i10.c are those of tcp.c for the driver
    [I10_HOST], so what NvmeTcpSendSpec.v, NvmeTcpStream.v and NvmeTcpBell.v show of
    one request holds here.  The turns of the work and the doorbell are i10's own: a
    caravan goes out as soon as the timer is not active, and [nr_req] is 0 after
    it. *)
From S2P Require Import Prelude NvmeTcpMap NvmeTcp NvmeTcpSend NvmeTcpSendSpec NvmeTcpStream.
From S2P Require Import NvmeTcpSetup NvmeTcpRecv NvmeTcpWork NvmeTcpBell I10Host.

Section i10.
Context {pr : NvmeTcpProto} {it : IovIter} {itl : IovIterLaws it} {sk : HostSock}
  {skl : HostSockLaws sk} (e : host_env).
Hypothesis He : driver e = I10_HOST.

(** ** The senders *)

Lemma i10_legacy q : i10_host_legacy_path e q = NvmeTcp.i10_host_legacy_path e q.
Proof. unfold i10_host_legacy_path, NvmeTcp.i10_host_legacy_path. rewrite He. by rewrite orb_false_r. Qed.

Lemma i10_full q : i10_host_is_caravan_full q = NvmeTcpSend.i10_host_is_caravan_full e q.
Proof.
  unfold i10_host_is_caravan_full, NvmeTcpSend.i10_host_is_caravan_full, max_aggregation. by rewrite He.
Qed.

Lemma i10_send_data_loop_eq fuel r q : i10_send_data_loop e fuel r q = send_data_loop e fuel r q.
Proof.
  revert q. induction fuel as [|fuel IH]; intros q; [done|]. cbn [i10_send_data_loop send_data_loop].
  unfold i10_host_req_cur_page, i10_host_req_cur_offset, i10_host_req_cur_length, i10_host_pdu_last_send,
    i10_host_advance_req, i10_host_done_send_req.
  apply option_bind_ext_fun. intros req. apply option_bind_ext_fun. intros page.
  apply option_bind_ext_fun. intros off. apply option_bind_ext_fun. intros len. cbv zeta.
  rewrite i10_legacy, i10_full. case_bool; [done|]. apply option_bind_ext_fun. intros [ret q1].
  case_bool; [done|]. apply option_bind_ext_fun. intros req1. case_bool; [done|]. apply IH.
Qed.

Lemma i10_cmd_pdu_eq r q : i10_host_try_send_cmd_pdu e r q = nvme_tcp_try_send_cmd_pdu e r q.
Proof.
  unfold i10_host_try_send_cmd_pdu, nvme_tcp_try_send_cmd_pdu, i10_send_hdr.
  apply option_bind_ext_fun. intros req. cbv zeta. rewrite i10_legacy, i10_full.
  destruct (NvmeTcp.i10_host_legacy_path e q); [done|]. cbn [negb andb].
  destruct (NvmeTcpSend.i10_host_is_caravan_full e q); [done|]. by destruct (caravan_add _ q).
Qed.

Lemma i10_data_pdu_eq r q : i10_host_try_send_data_pdu e r q = nvme_tcp_try_send_data_pdu e r q.
Proof.
  unfold i10_host_try_send_data_pdu, nvme_tcp_try_send_data_pdu, i10_send_hdr.
  apply option_bind_ext_fun. intros req. cbv zeta. rewrite i10_legacy, i10_full.
  destruct (NvmeTcp.i10_host_legacy_path e q); [done|]. cbn [negb andb].
  destruct (NvmeTcpSend.i10_host_is_caravan_full e q); [done|]. by destruct (caravan_add _ q).
Qed.

Lemma send_step_ext st f g stop r x :
  (forall q, f r q = g r q) -> send_step st f stop r x = send_step st g stop r x.
Proof.
  intros H. destruct x as [[fin ret] q]. unfold send_step. apply option_bind_ext_fun. intros req.
  case_bool; [by rewrite H|done].
Qed.

Lemma i10_send_request_eq r q : i10_send_request e r q = send_request e r q.
Proof.
  unfold i10_send_request, send_request. cbv zeta.
  rewrite (send_step_ext _ _ _ _ _ _ (i10_cmd_pdu_eq r)). apply option_bind_ext_fun. intros x.
  rewrite (send_step_ext _ _ _ _ _ _ (i10_data_pdu_eq r)). apply option_bind_ext_fun. intros y.
  rewrite (send_step_ext _ (i10_host_try_send_data e) (nvme_tcp_try_send_data e)); [done|].
  intros q1. unfold i10_host_try_send_data, nvme_tcp_try_send_data. apply option_bind_ext_fun.
  intros req. apply i10_send_data_loop_eq.
Qed.

(** The caravan goes out as in tcp.c, and the count of the requests is 0 after it. *)
Lemma i10_push_eq q :
  i10_push_caravan q = let '(o, q') := send_caravan q in
                       (o, match o with None => q' <| nr_req := 0 |> | Some _ => q' end).
Proof.
  unfold i10_push_caravan, send_caravan, i10_host_sndbuf_nospace, nvme_tcp_sndbuf_nospace. case_bool; [done|]. cbv zeta. by case_bool.
Qed.

(** ** A turn *)

Lemma i10_next_ok q :
  queue_wf e q ->
  queue_wf e (i10_next q) /\ stream (i10_next q) = stream q 
  /\ (wire (i10_next q), caravan (i10_next q), caravan_len (i10_next q), sock_calls (i10_next q))
     = (wire q, caravan q, caravan_len q, sock_calls q)
  /\ bell (i10_next q) = bell q /\ nq_id (i10_next q) = nq_id q
  /\ (send_now (i10_next q), caravan_len (i10_next q)) = (send_now q, caravan_len q)
  /\ busy (i10_next q) = busy q /\ (nq_request (i10_next q) = None -> busy q = []).
Proof.
  intros Hw. unfold i10_next, i10_host_fetch_request. destruct (nq_request q) as [r|] eqn:Hr.
  { split_and!; try done. by rewrite Hr. }
  destruct (send_list q) as [|r l] eqn:El.
  - assert (q <| nq_request := None |> = q) as -> by (by destruct q; simpl in Hr; subst).
    unfold busy. rewrite Hr, El. done.
  - destruct (next_ok e q r l (nr_caravan_req q) Hr Hw El) as [N1 N2].
    assert (q <| send_list := l |> <| nr_caravan_req := nr_caravan_req q |> = q <| send_list := l |>) as E by done.
    rewrite E in N1, N2. unfold busy. simpl. rewrite Hr, El. done.
Qed.

Lemma i10_push_ok q :
  queue_wf e q -> exists o q', i10_push_caravan q = (o, q') /\ queue_wf e q' /\ stream_after q q'
    /\ wire q `prefix_of` wire q' /\ nq_request q' = nq_request q.
Proof.
  intros Hw. destruct (send_caravan_ok e q Hw) as (o & q1 & E & W1 & W2 & W3 & W4).
  rewrite i10_push_eq, E. destruct o as [ret|]; [by eauto 10|].
  eexists _, _. split; [reflexivity|].
  destruct (queue_same e q1 (q1 <| nr_req := 0 |>)) as [S1 S2]; try done.
  { by destruct (qw_car _ _ W1); constructor. }
Qed.

(** C7: the i10 host keeps the byte stream.  On a connection without data digest
    ([qw_digest]) [i10_host_try_send] is defined on every well-formed queue, keeps
    it well formed with the caravan arrays of i10, which are half the size of those
    of tcp.c, never takes back what is on the wire, and keeps the bytes on the wire
    followed by those that the queue owes, with one exception that is described
    exactly: when [kernel_sendmsg] takes [n] bytes of a caravan, some but not all,
    the bytes after the first [n] of the caravan are dropped, and nothing else. *)
Theorem i10_host_stream_preserved q :
  queue_wf e q ->
  exists ret q', i10_host_try_send e q = Some (ret, q') /\ queue_wf e q' /\ wire q `prefix_of` wire q'
    /\ (stream q' = stream q
        \/ exists n, short_send q n /\ stream q = wire q ++ caravan_bytes q ++ waiting q
             /\ stream q' = wire q ++ take (Z.to_nat n) (caravan_bytes q) ++ waiting q).
Proof.
  intros Hw.
  cut (exists ret q', i10_host_try_send e q = Some (ret, q') /\ queue_wf e q' /\ wire q `prefix_of` wire q'
    /\ stream_after q q').
  { intros (ret & q' & H1 & H2 & H3 & H4). exists ret, q'. split_and!; [done..|].
    destruct H4 as [?|(n & ? & ?)]; [by left|right]. exists n. by rewrite stream_split. }
  destruct (i10_next_ok q Hw) as (W1 & S1 & X1 & _). unfold i10_host_try_send.
  set (q1 := i10_next q) in *. assert (wire q1 = wire q) as Hx by congruence.
  case_bool; [exists 0, q1; rewrite Hx; split_and!; try done; by left|].
  assert (exists o q2, (if i10_host_send_caravan q1 then i10_push_caravan q1 else (None, q1)) = (o, q2)
    /\ queue_wf e q2 /\ stream_after q q2 /\ wire q `prefix_of` wire q2) as (o & q2 & -> & W2 & S2 & X2).
  { destruct (i10_host_send_caravan q1); [|exists None, q1; rewrite Hx; split_and!; try done; by left].
    destruct (i10_push_ok q1 W1) as (o & q2 & -> & A & B & C & _). exists o, q2. rewrite <- Hx.
    split_and!; try done. by apply (stream_after_eq q q1). }
  destruct o as [ret|]; [by exists ret, q2|].
  destruct (nq_request q2) as [r|] eqn:Hr; [|by exists 0, q2].
  destruct (qw_reqs _ _ W2 r) as (req & R1 & R2); [rewrite Hr; by left|]. rewrite i10_send_request_eq.
  destruct (send_request_ok e r q2 req) as (ret & q3 & -> & P & _).
  { constructor; try done; apply W2. }
  destruct (queue_progress e r q2 q3 Hr W2 P) as [W3 S3].
  exists ret, q3. split_and!; [done|done|etrans; [exact X2|apply P]|by apply (stream_after_trans q q2)].
Qed.

(** ** The doorbell *)

(** [nr_req] is only positive while something is left to send. *)
Record i10_inv (q : nvme_tcp_queue) : Prop := {
  ii_wf : queue_wf e q;
  ii_range : 0 <= nr_req q < 2 ^ 31;
  ii_count : 0 < nr_req q -> outstanding q;
  ii_now : send_now q = true -> 0 < caravan_len q;
  ii_legacy : NvmeTcp.i10_host_legacy_path e q = true -> nr_req q = 0;
}.

Lemma outstanding_busy q : outstanding q <-> busy q <> [] \/ caravan_len q <> 0.
Proof.
  unfold outstanding, busy. destruct (nq_request q), (send_list q); simpl; naive_solver.
Qed.

Lemma legacy_id q q' : nq_id q' = nq_id q -> NvmeTcp.i10_host_legacy_path e q' = NvmeTcp.i10_host_legacy_path e q.
Proof. rewrite <- !i10_legacy. unfold i10_host_legacy_path. by intros ->. Qed.

Lemma i10_next_inv q : i10_inv q -> i10_inv (i10_next q).
Proof.
  intros [W1 W2 W3 W4 W5].
  destruct (i10_next_ok q W1) as (N1 & _ & _ & [= B1 _ _ _ _ _ _] & N5 & [= N6 N7] & N8 & _).
  constructor; [done|by rewrite B1| |by rewrite N6, N7|by rewrite (legacy_id q), B1].
  rewrite B1, outstanding_busy, N7, N8, <- outstanding_busy. done.
Qed.

Lemma i10_push_inv q o q2 :
  i10_inv q -> 0 < caravan_len q -> i10_push_caravan q = (o, q2) ->
  i10_inv q2 /\ busy q2 = busy q /\ nq_request q2 = nq_request q
  /\ match o with
     | None => send_now q2 = false /\ caravan_len q2 = 0
     | Some ret => ret = 0 -> parked q2 = true
     end.
Proof.
  intros [W1 W2 W3 W4 W5] Hlen H. destruct (i10_push_ok q W1) as (o' & q2' & E & Hw2 & _ & _ & Hr2).
  rewrite H in E. injection E as <- <-. unfold i10_push_caravan in H. case_bool_in H.
  { injection H as <- <-. split; [by constructor|]. split; [done|]. split; [done|]. intros _.
    unfold parked. simpl. by rewrite orb_true_r. }
  case_bool_in H; injection H as <- <-.
  - split; [by constructor|]. split; [done|]. split; [done|]. intros Hz. unfold parked. simpl. rewrite Hz.
    rewrite <- (cw_len _ _ (qw_car _ _ W1)). replace (0 <? caravan_len q) with true by lia. by rewrite orb_true_r.
  - split; [|done]. constructor; simpl; done || lia.
Qed.

Lemma i10_request_inv q r ret q' :
  i10_inv q -> nq_request q = Some r -> send_now q = false -> i10_send_request e r q = Some (ret, q') ->
  i10_inv q' /\ (ret = 0 -> parked q' = true).
Proof.
  intros [W1 W2 W3 W4 W5] Hr Hn H. rewrite i10_send_request_eq in H.
  destruct (qw_reqs _ _ W1 r) as (req & Hreq & Hwf); [rewrite Hr; by left|].
  destruct (send_request_ok e r q req) as (ret' & q2 & E & P & O); [by constructor; try apply W1|].
  rewrite H in E. injection E as <- <-. destruct (queue_progress e r q q' Hr W1 P) as [Hw' _].
  assert (state req <> NVME_TCP_SEND_DDGST) as Hdd by (intros Hs; unfold wf_req in Hwf; by rewrite Hs in Hwf).
  destruct (send_request_keeps e r q req ret q' Hreq Hdd (qw_digest _ _ W1) Hr Hn H) as [(K1 & K2 & _) N].
  unfold bell in K1. injection K1 as B1 _ _ _ _ _ _. unfold outcome in O.
  assert (NvmeTcp.i10_host_legacy_path e q' = NvmeTcp.i10_host_legacy_path e q) as Hl
    by (apply legacy_id; by injection K2).
  split.
  - constructor; [done|by rewrite B1| | |by rewrite Hl, B1].
    + rewrite B1. intros Hc. right. right. case_bool_in O; [specialize (W5 eq_refl)|]; lia.
    + intros [Hf _]%N. rewrite Hf in O. apply O.
  - intros ->. unfold parked. case_bool_in O; [|lia]. rewrite O by done. apply orb_true_r.
Qed.

(** A turn keeps the invariant, and when it ends with 0 what is left is parked. *)
Lemma i10_try_send_inv q ret q' :
  i10_inv q -> i10_host_try_send e q = Some (ret, q') ->
  i10_inv q' /\ (ret = 0 -> outstanding q' -> parked q' = true).
Proof.
  intros Hi H. destruct (i10_next_ok q (ii_wf _ Hi)) as (_ & _ & _ & _ & _ & _ & Eb & Hb).
  apply i10_next_inv in Hi. unfold i10_host_try_send in H. cbv zeta in H. set (q1 := i10_next q) in *.
  rewrite <- Eb in Hb. clear Eb.
  case_bool_in H.
  { apply andb_true_iff in Hif as [Hr Hlen]. apply bool_decide_eq_true in Hr.
    apply negb_true_iff, c_true_false in Hlen. inv_some. subst. split; [done|].
    intros _ [?|?]%outstanding_busy; [|done]. by rewrite Hb in *. }
  assert (nq_request q1 = None -> caravan_len q1 <> 0) as Hne.
  { intros Hnone Hlen. rewrite Hnone, Hlen in Hif. done. }
  pose proof (car_len_pos e q1 (qw_car _ _ (ii_wf _ Hi))) as Hpos.
  destruct (i10_host_send_caravan q1) eqn:Hs.
  - destruct (i10_push_caravan q1) as [o q2] eqn:Ec.
    destruct (i10_push_inv q1 o q2 Hi) as (Hi2 & Eb & Er & Ho); [|done|].
    { unfold i10_host_send_caravan in Hs. apply orb_true_iff in Hs as [Hs|Hs]; [by apply Hi|].
      apply andb_true_iff in Hs as [_ Hs%c_true_spec]. lia. }
    destruct o as [ret1|]; [inv_some; subst; by eauto|]. destruct Ho as [Hn2 Hl2].
    destruct (nq_request q2) as [r|] eqn:Hr.
    + destruct (i10_request_inv q2 r ret q') as [? ?]; try done. split; auto.
    + inv_some. subst. split; [done|]. intros _ [?|?]%outstanding_busy; [|done].
      rewrite Eb, Hb in *; done.
  - unfold i10_host_send_caravan in Hs. apply orb_false_iff in Hs as [Hn Hs].
    destruct (nq_request q1) as [r|] eqn:Hr.
    + destruct (i10_request_inv q1 r ret q') as [? ?]; try done. split; auto.
    + inv_some. subst. split; [done|]. intros _ _. unfold parked. specialize (Hne eq_refl).
      destruct (doorbell_timer q1); [done|]. rewrite bool_decide_true in Hs by done.
      apply c_true_false in Hs. done.
Qed.

(** ** Queueing a request *)

Lemma i10_request_cases q r req :
  reqs q !! r = Some req ->
  exists q', i10_host_queue_request e r q = Some q' /\ obs q' = obs q /\ send_list q' = send_list q ++ [r]
    /\ (send_now q', sock_nospace q', sock_short q') = (send_now q, sock_nospace q, sock_short q)
    /\ if i10_delayed e q req
       then nr_req q' = s32 (nr_req q + 1)
         /\ (armed q' = true \/ nr_req q' <> 1 /\ armed q' = armed q)
       else nr_req q' = nr_req q /\ armed q' = true.
Proof.
  intros Hreq. unfold i10_host_queue_request. rewrite Hreq. cbn [mbind option_bind].
  eexists. split; [reflexivity|].
  change (i10_delayed e (i10_enqueue r q) req) with (i10_delayed e q req).
  unfold i10_ring, i10_ring_now, i10_count, i10_enqueue, armed, parked. simpl.
  destruct (i10_delayed e q req); simpl; [|done].
  destruct (doorbell_timer q) eqn:Ht, (s32 (nr_req q + 1) =? 1) eqn:E1; simpl; rewrite ?Ht;
    repeat case_bool; simpl; rewrite ?Ht, ?orb_true_r; split_and!; try done; first [by left|right; split; [lia|done]].
Qed.

Lemma i10_submit_inv q r req q' :
  i10_inv q -> r ∉ busy q -> reqs q !! r = Some req -> wf_req e q req -> nr_req q < 2 ^ 31 - 1 ->
  i10_host_queue_request e r q = Some q' ->
  i10_inv q' /\ ((outstanding q -> armed q = true) -> armed q' = true).
Proof.
  intros [W1 W2 W3 W4 W5] Hr Hreq Hwf Hb H.
  destruct (i10_request_cases q r req Hreq) as (q1 & E & O & El & [= C1 C2 C3] & Hd).
  rewrite H in E. injection E as <-. destruct (append_stream e r q q' req) as [Hw _]; try done.
  assert (nq_id q' = nq_id q /\ caravan_len q' = caravan_len q) as [O1 O2]
    by (unfold obs in O; by injection O).
  assert (0 <= nr_req q' < 2 ^ 31 /\ (i10_host_legacy_path e q = true -> nr_req q' = nr_req q)) as [Hrg Hl].
  { destruct (i10_delayed e q req) eqn:Ed.
    - destruct Hd as [-> _]. rewrite s32_small by lia. split; [lia|].
      unfold i10_delayed in Ed. intros Hf. by rewrite Hf in Ed.
    - destruct Hd as [-> _]. done. }
  split.
  - constructor; [done|done| |by rewrite C1, O2|].
    + intros _. left. rewrite El. by destruct (send_list q).
    + rewrite (legacy_id q) by done. intros Hf. rewrite Hl by (by rewrite i10_legacy). auto.
  - intros Ha. destruct (i10_delayed e q req); [|by destruct Hd].
    destruct Hd as [En [?|[Hn ->]]]; [done|]. rewrite s32_small in En by lia. apply Ha, W3. lia.
Qed.

(** ** The driver at work *)

(** Whole submissions, the timer, the callbacks of the socket and turns of the work,
    none of which fails; there is one work item. *)
Inductive i10_step : bool * nvme_tcp_queue -> bool * nvme_tcp_queue -> Prop :=
  | i10_prepare b q r req : r ∉ busy q -> i10_step (b, q) (b, put_req r req q)
  | i10_submit b q r req q' :
      r ∉ busy q -> reqs q !! r = Some req -> wf_req e q req -> nr_req q < 2 ^ 31 - 1 ->
      i10_host_queue_request e r q = Some q' -> i10_step (b, q) (b, q')
  | i10_timer b q : doorbell_timer q = true -> i10_step (b, q) (b, i10_host_doorbell_timeout q)
  | i10_data_ready b q rd : i10_step (b, q) (b, i10_host_data_ready rd q)
  | i10_write_space b q w : i10_step (b, q) (b, i10_host_write_space w q)
  | i10_start q : io_work q = true -> i10_step (false, q) (true, q <| io_work := false |>)
  | i10_turn q pending received q' :
      i10_io_work_send e q = Some (Some pending, q') -> i10_step (true, q) (pending || received, q')
  | i10_quota q : i10_step (true, q) (false, q <| io_work := true |>).

Definition i10_wakeup (x : bool * nvme_tcp_queue) : Prop :=
  i10_inv x.2 /\ (x.1 = false -> outstanding x.2 -> armed x.2 = true).

(** A change of the doorbell alone. *)
Lemma i10_inv_flags q q' :
  i10_inv q -> obs q' = obs q -> send_list q' = send_list q ->
  (nr_req q', send_now q') = (nr_req q, send_now q) -> i10_inv q'.
Proof.
  intros [[Hc Hdg Hnd Hrq] W2 W3 W4 W5] O El [= C1 C2]. destruct (obs_car e _ _ O Hc) as [Hc' _].
  assert (forall x, wf_req e q' x <-> wf_req e q x) as Hwf by (intros; by apply obs_wf).
  unfold obs in O. injection O as O1 O2 O3 O4 O5 O6 O7 O8 O9 O10 O11 O12 O13 O14.
  constructor.
  - constructor; [done|congruence|congruence|]. rewrite O6, El, O7. intros r Hr.
    destruct (Hrq r Hr) as (x & X1 & X2). exists x. by rewrite Hwf.
  - by rewrite C1.
  - unfold outstanding. by rewrite C1, El, O6, O11.
  - by rewrite C2, O11.
  - by rewrite (legacy_id q), C1.
Qed.

Lemma i10_wakeup_step x y : i10_wakeup x -> i10_step x y -> i10_wakeup y.
Proof.
  intros [Hi Hw] Hs.
  destruct Hs as [b q r req Hr|b q r req q' Hr Hreq Hwf Hb Hq|b q Ht|b q rd|b q w|q Hq|q p rc q' Hq|q];
    simpl in *.
  - destruct (put_req_other e r req q (ii_wf _ Hi) Hr) as [Hwf _]. split; [|exact Hw]. simpl.
    by destruct Hi; constructor.
  - destruct (i10_submit_inv q r req q' Hi Hr Hreq Hwf Hb Hq) as [Hi' Ha]. split; [done|].
    simpl. intros -> _. apply Ha. by apply Hw.
  - split; [by apply (i10_inv_flags q)|done].
  - destruct rd; [|done]. split; [by apply (i10_inv_flags q)|done].
  - destruct w; [|done]. split; [by apply (i10_inv_flags q)|done].
  - split; [by apply (i10_inv_flags q)|done].
  - unfold i10_io_work_send in Hq. apply bind_Some in Hq as ([ret q1] & E & Hq). cbv beta iota in Hq.
    destruct (i10_try_send_inv q ret q1 Hi E) as [Hi1 Hz]. case_bool_in Hq; [inv_some; by subst|].
    case_bool_in Hq; [by inv_some|]. inv_some. subst. split; [done|]. simpl. intros _ Ho.
    unfold armed. rewrite Hz; [apply orb_true_r|lia|done].
  - split; [by apply (i10_inv_flags q)|done].
Qed.

(** A queue that has just been set up. *)
Definition i10_fresh (q : nvme_tcp_queue) : Prop :=
  queue_wf e q /\ ~ outstanding q /\ (nr_req q, send_now q) = (0, false).

End i10.

(** ** A concrete queue *)

Definition ex_i10 : host_env := mk_host_env 50 4 I10_HOST.

(** The arrays are half as long. *)
Definition i10_arrays (q : nvme_tcp_queue) : nvme_tcp_queue :=
  q <| caravan_iovs := replicate 32 (mk_seg (BPage 0) 0 0) |> <| caravan_mapped := replicate 16 0 |>.
Definition ex_i10_nq : nvme_tcp_queue := i10_arrays ex_nq.
Definition ex_i10_idle : nvme_tcp_queue := i10_arrays ex_idle.

Lemma ex_i10_write_wf : wf_req (pr := ex_proto) ex_i10 ex_i10_idle ex_write.
Proof. exact ex_write_wf. Qed.

Lemma ex_i10_nq_wf : queue_wf (pr := ex_proto) ex_i10 ex_i10_nq.
Proof.
  constructor; [|done|apply NoDup_singleton|].
  - constructor; done.
  - intros r Hr. simpl in Hr. apply list_elem_of_singleton in Hr as ->.
    exists ex_write. split; [done|exact ex_write_wf].
Qed.

Lemma i10_host_stream_preserved_witness :
  exists ret q', @i10_host_try_send ex_proto ex_iov ex_sock ex_i10 ex_i10_nq = Some (ret, q')
    /\ @stream ex_proto q' = @stream ex_proto ex_i10_nq /\ length (@stream ex_proto q') = 4168%nat.
Proof.
  destruct (@i10_host_stream_preserved ex_proto ex_iov ex_iov_laws ex_sock ex_sock_laws ex_i10 eq_refl
    ex_i10_nq ex_i10_nq_wf) as (ret & q' & H1 & H2 & H3 & [H4|(n & H4 & _)]);
    [|by destruct (ex_not_short ex_i10_nq n)].
  exists ret, q'. split; [exact H1|]. split; [exact H4|]. rewrite H4. vm_compute. reflexivity.
Defined.

Definition ex_i10_queued : option nvme_tcp_queue := @i10_host_queue_request ex_proto ex_i10 5 ex_i10_idle.


(** ** A race

    A request is put into the list; the I/O work, running because of received data,
    takes it, sends it and sets [nr_req] to 0; only then does the submission count it
    and start the timer.  The timer finds nothing to send, so [nr_req] stays at 1,
    and the next request neither starts the timer nor queues the work. *)
Fixpoint ex_i10_drain (n : nat) (q : nvme_tcp_queue) : option nvme_tcp_queue :=
  match n with
  | O => None
  | S n =>
    '(o, q) ← @i10_io_work_send ex_proto ex_iov ex_sock ex_i10 q;
    match o with Some true => ex_i10_drain n q | Some false => Some q | None => None end
  end.

Definition i10_race : option nvme_tcp_queue :=
  q ← ex_i10_drain 10 (i10_enqueue 1 (i10_arrays ex_reads));
  let q := i10_host_doorbell_timeout (i10_ring (i10_count q)) in
  q ← ex_i10_drain 10 (q <| io_work := false |>);
  @i10_host_queue_request ex_proto ex_i10 3 q.

(** The count must not come after the lock.  When the I/O work runs between the
    unlocking and the count of a submission of i10, the next request is left in the
    send list with no timer, no work and no call-back of the socket that would send
    it. *)
Lemma i10_count_race :
  exists q, i10_race = Some q /\ send_list q = [3] /\ armed q = false /\ nr_req q = 2
    /\ caravan_len q = 0 /\ nq_request q = None.
Proof. eexists. split; [vm_compute; reflexivity|]. done. Qed.
