(* ===== verification/NvmetTcp.v ===== *)
(** * Data of the NVMe/TCP target driver

    The structures of drivers/nvme/target/tcp.c, the helper functions that read
    them, the mapping of data buffers and the construction of PDUs.  A command is
    identified by its index in [queue->cmds]; [connect_id] stands for
    [&queue->connect].  As on the host the wire is a sequence of bytes named by
    buffer and position.  Scatter lists and arrays that the driver allocates are
    live objects: reading a scatter list that has been freed, and freeing
    anything twice, is [None].  The nvmet core, the sockets and the allocators
    are not in the repository and enter through the classes [NvmetProto] and
    [NvmetEnv]. *)
From S2P Require Import Prelude NvmeTcp NvmeTcpSend NvmeTcpRecv.

(** ** Names defined outside the repository *)

(** <linux/nvme-tcp.h> and the page size. *)
Class NvmetProto := {
  sizeof_r2t_pdu : Z;
  sizeof_icreq_pdu : Z;
  sizeof_icresp_pdu : Z;
  sizeof_tcp_hdr : Z;
  nvme_tcp_icreq : Z;
  nvme_tcp_icresp : Z;
  NVME_TCP_PFV_1_0 : Z;
  NVME_TCP_HDR_DIGEST_ENABLE : Z;
  NVME_TCP_DATA_DIGEST_ENABLE : Z;
  PAGE_SIZE : Z;
}.

(** A piece of memory with its place in a page. *)
Record scatterlist := mk_sg {
  sl_page : Z;
  sl_offset : Z;
  sl_length : Z;
}.
#[export] Instance scatterlist_eta : Settable scatterlist := {| eta_expand := fun r =>
  mk_sg (sl_page r) (sl_offset r) (sl_length r) |}.

(** Buffers that reach the wire: the PDUs of a command, a page, the data digest
    of a command, and the PDU buffer of the queue. *)
Inductive tbuf := TData (c : Z) | TR2t (c : Z) | TRsp (c : Z) | TPage (p : Z) | TDdgst (c : Z) | TIcresp.
#[export] Instance tbuf_eq_dec : EqDecision tbuf.
Proof. solve_decision. Defined.

Record kvec := mk_kvec {
  iov_base : tbuf * Z;
  iov_len : Z;
}.

Definition kvec_bytes (v : kvec) : list (tbuf * Z) :=
  (fun i => ((iov_base v).1, (iov_base v).2 + i)) <$> seqZ 0 (iov_len v).

(** ** Commands *)

(** <linux/nvme.h>: the fields of a command that the driver reads. *)
Record nvme_command := mk_nvme_cmd {
  opcode : Z;
  fctype : Z;
  command_id : Z;
  sgl_type : Z;
  sgl_length : Z;
}.

Definition nvme_fabrics_command : Z := 127.
Definition NVME_SGL_FMT_OFFSET : Z := 1.
Definition NVME_SGL_FMT_DATA_DESC : Z := 0.
Definition NVME_SC_INVALID_FIELD : Z := 2.
Definition NVME_SC_INTERNAL : Z := 6.
Definition NVME_SC_SGL_INVALID_OFFSET : Z := 22.
Definition NVME_SC_DNR : Z := 16384.

Definition nvme_is_fabrics (cmd : nvme_command) : bool := opcode cmd =? nvme_fabrics_command.
Definition nvme_is_write (cmd : nvme_command) : bool :=
  if nvme_is_fabrics cmd then has_flag (fctype cmd) 1 else has_flag (opcode cmd) 1.

Inductive nvmet_tcp_send_state :=
| NVMET_TCP_SEND_DATA_PDU
| NVMET_TCP_SEND_DATA
| NVMET_TCP_SEND_R2T
| NVMET_TCP_SEND_DDGST
| NVMET_TCP_SEND_RESPONSE.
#[export] Instance nvmet_send_state_eq_dec : EqDecision nvmet_tcp_send_state.
Proof. solve_decision. Defined.

Inductive nvmet_tcp_recv_state :=
| NVMET_TCP_RECV_PDU
| NVMET_TCP_RECV_DATA
| NVMET_TCP_RECV_DDGST
| NVMET_TCP_RECV_ERR.
#[export] Instance nvmet_recv_state_eq_dec : EqDecision nvmet_tcp_recv_state.
Proof. solve_decision. Defined.

Inductive nvmet_tcp_queue_state :=
| NVMET_TCP_Q_CONNECTING
| NVMET_TCP_Q_LIVE
| NVMET_TCP_Q_DISCONNECTING.
#[export] Instance nvmet_queue_state_eq_dec : EqDecision nvmet_tcp_queue_state.
Proof. solve_decision. Defined.

Definition NVMET_TCP_F_INIT_FAILED : Z := 1.

(** struct nvmet_tcp_cmd with its struct nvmet_req ([nr_]). *)
Record nvmet_tcp_cmd := mk_ncmd {
  nc_cmd_buf : option nat;  (* memory of the PDUs *)
  nc_rsp_buf : option nat;
  nc_data_buf : option nat;
  nc_r2t_buf : option nat;
  nr_cmd : nvme_command;
  nr_cqe_status : Z;
  nr_cqe_command_id : Z;
  nr_data_len : Z;
  nr_transfer_len : Z;
  nr_sg : option nat;  (* the scatter list *)
  nc_rsp_pdu : pdu_hdr;
  nc_data_pdu : pdu_hdr;
  nc_r2t_pdu : pdu_hdr;
  nc_rbytes_done : Z;
  nc_wbytes_done : Z;
  nc_pdu_len : Z;
  nc_pdu_recv : Z;
  nc_sg_idx : Z;
  nc_nr_mapped : Z;
  nc_recv_msg : list (Z * Z);  (* places of the iterator that are to be filled *)
  nc_msg_left : Z;  (* msg_data_left(&cmd->recv_msg) *)
  nc_iov : option nat;
  nc_flags : Z;
  nc_offset : Z;
  nc_cur_sg : option nat;  (* index in the scatter list *)
  nc_state : nvmet_tcp_send_state;
  nc_exp_ddgst : list Z;
  nc_recv_ddgst : list Z;
}.
#[export] Instance nvmet_tcp_cmd_eta : Settable nvmet_tcp_cmd := {| eta_expand := fun r =>
  mk_ncmd (nc_cmd_buf r) (nc_rsp_buf r) (nc_data_buf r) (nc_r2t_buf r) (nr_cmd r)
    (nr_cqe_status r) (nr_cqe_command_id r) (nr_data_len r) (nr_transfer_len r) (nr_sg r)
    (nc_rsp_pdu r) (nc_data_pdu r) (nc_r2t_pdu r) (nc_rbytes_done r) (nc_wbytes_done r)
    (nc_pdu_len r) (nc_pdu_recv r) (nc_sg_idx r) (nc_nr_mapped r) (nc_recv_msg r) (nc_msg_left r)
    (nc_iov r) (nc_flags r) (nc_offset r) (nc_cur_sg r) (nc_state r) (nc_exp_ddgst r)
    (nc_recv_ddgst r) |}.

Definition connect_id : Z := -1.

(** struct nvme_tcp_icresp_pdu. *)
Record icresp_pdu := mk_icresp_pdu {
  ir_type : Z;
  ir_hlen : Z;
  ir_pdo : Z;
  ir_plen : Z;
  ir_pfv : Z;
  ir_maxdata : Z;
  ir_digest : Z;
  ir_cpda : Z;
}.

(** ** Queues *)

(** struct nvmet_tcp_queue, and what surrounds it: the socket ([nt_rx] holds the
    bytes received and not read, [nt_wire] what was accepted for sending), the
    memory, the work items, and the requests the nvmet core holds. *)
Record nvmet_tcp_queue := mk_nt {
  nt_self : nat;  (* memory of the structure *)
  nt_sock : option nat;
  nt_idx : Z;
  nt_cpu : Z;
  nt_orig_cpu : Z;
  nt_numa_node : Z;
  nt_metric : Z;
  nt_qid : Z;  (* nvme_sq.qid *)
  nt_ctrl : option Z;  (* nvme_sq.ctrl *)
  nt_sqhd_disabled : bool;  (* nvme_sq.sqhd_disabled *)
  nt_inline_data_size : Z;  (* of the port *)
  nt_prio_class : Z;
  nt_cmds_buf : option nat;  (* the pointer cmds *)
  nt_cmds : gmap Z nvmet_tcp_cmd;
  nt_nr_cmds : Z;
  nt_free_list : list Z;
  nt_resp_list : list Z;
  nt_resp_send_list : list Z;
  nt_send_list_len : Z;
  nt_snd_cmd : option Z;
  nt_iovs_buf : option nat;  (* memory of the arrays of the caravan *)
  nt_ccmds_buf : option nat;
  nt_mapped_buf : option nat;
  nt_caravan_iovs : list kvec;
  nt_nr_iovs : Z;
  nt_caravan_len : Z;
  nt_caravan_cmds : list Z;
  nt_nr_caravan_cmds : Z;
  nt_send_now : bool;
  nt_caravan_mapped : list Z;
  nt_nr_caravan_mapped : Z;
  nt_offset : Z;
  nt_left : Z;
  nt_rcv_state : nvmet_tcp_recv_state;
  nt_cmd : option Z;
  nt_pdu : list Z;
  nt_hdr_digest : bool;
  nt_data_digest : bool;
  nt_snd_hash : option nat;
  nt_rcv_hash : option (nat * nat);  (* the request and its transform *)
  nt_state : nvmet_tcp_queue_state;
  (* surroundings *)
  nt_live : list nat;  (* objects in use *)
  nt_sgls : gmap nat (list scatterlist);  (* scatter lists in use *)
  nt_allocs : nat;  (* allocations so far *)
  nt_mem : gmap (Z * Z) Z;  (* bytes stored in pages *)
  nt_kmaps : list Z;  (* pages that are mapped *)
  nt_wire : list (tbuf * Z);
  nt_icresp : option icresp_pdu;  (* the connection response that was sent *)
  nt_calls : nat;  (* calls of the socket *)
  nt_nospace : bool;  (* SOCK_NOSPACE *)
  nt_rx : list Z;
  nt_rx_end : Z;  (* what reading returns when nothing is there *)
  nt_rmem : Z;  (* sk_rmem_alloc *)
  nt_user_data : bool;  (* sk_user_data points to the queue *)
  nt_callbacks : bool;  (* the socket calls the driver *)
  nt_io_work : option Z;  (* the CPU the work is queued on *)
  nt_io_work_lat : option Z;
  nt_release_work : bool;
  nt_core : list (Z * option Z);  (* requests executed, or completed with a status *)
  nt_uninit : list Z;  (* requests given back with nvmet_req_uninit *)
  nt_ctrl_error : bool;  (* nvmet_ctrl_fatal_error was called *)
  nt_shutdown : bool;  (* kernel_sock_shutdown was called *)
}.
#[export] Instance nvmet_tcp_queue_eta : Settable nvmet_tcp_queue := {| eta_expand := fun r =>
  mk_nt (nt_self r) (nt_sock r) (nt_idx r) (nt_cpu r) (nt_orig_cpu r) (nt_numa_node r)
    (nt_metric r) (nt_qid r) (nt_ctrl r) (nt_sqhd_disabled r) (nt_inline_data_size r)
    (nt_prio_class r) (nt_cmds_buf r) (nt_cmds r) (nt_nr_cmds r) (nt_free_list r) (nt_resp_list r)
    (nt_resp_send_list r) (nt_send_list_len r) (nt_snd_cmd r) (nt_iovs_buf r) (nt_ccmds_buf r)
    (nt_mapped_buf r) (nt_caravan_iovs r) (nt_nr_iovs r) (nt_caravan_len r) (nt_caravan_cmds r)
    (nt_nr_caravan_cmds r) (nt_send_now r) (nt_caravan_mapped r) (nt_nr_caravan_mapped r)
    (nt_offset r) (nt_left r) (nt_rcv_state r) (nt_cmd r) (nt_pdu r) (nt_hdr_digest r)
    (nt_data_digest r) (nt_snd_hash r) (nt_rcv_hash r) (nt_state r) (nt_live r) (nt_sgls r)
    (nt_allocs r) (nt_mem r) (nt_kmaps r) (nt_wire r) (nt_icresp r) (nt_calls r) (nt_nospace r)
    (nt_rx r) (nt_rx_end r) (nt_rmem r) (nt_user_data r) (nt_callbacks r) (nt_io_work r)
    (nt_io_work_lat r) (nt_release_work r) (nt_core r) (nt_uninit r)
    (nt_ctrl_error r) (nt_shutdown r) |}.

(** The allocators by number of the allocation, the socket by number of the
    call, the error of [crypto_alloc_ahash], the contents of a page that the driver
    has not written, and [nvmet_req_init]: the status it rejects a command with,
    if it does, and the length of the data. *)
Class NvmetEnv := {
  sgl_alloc : nat -> Z -> option (list scatterlist);
  kmalloc_ok : nat -> bool;
  tgt_sendpage : nat -> kvec -> Z;
  tgt_sendmsg : nat -> list kvec -> Z -> Z;
  tgt_wspace : nat -> Z;
  ahash_err : nat -> Z;
  page_data : Z -> Z -> Z;
  nvmet_req_init : nvme_command -> option Z * Z;
}.

Definition put_ncmd (c : Z) (cmd : nvmet_tcp_cmd) (q : nvmet_tcp_queue) : nvmet_tcp_queue :=
  q <| nt_cmds ::= <[c := cmd]> |>.

(** ** Memory *)

Section memory.
Context {pt : NvmetProto} {ne : NvmetEnv}.

Definition kmalloc (q : nvmet_tcp_queue) : option nat * nvmet_tcp_queue :=
  let n := nt_allocs q in
  if kmalloc_ok n then (Some n, q <| nt_live ::= cons n |> <| nt_allocs ::= S |>)
  else (None, q <| nt_allocs ::= S |>).

Definition obj_free (p : option nat) (q : nvmet_tcp_queue) : option nvmet_tcp_queue :=
  match p with
  | None => Some q
  | Some n => if bool_decide (n ∈ nt_live q) then Some (q <| nt_live ::= filter (fun m => m <> n) |>)
              else None
  end.

Definition sgl_free (p : option nat) (q : nvmet_tcp_queue) : option nvmet_tcp_queue :=
  match p with
  | None => Some q
  | Some n => _ ← nt_sgls q !! n; Some (q <| nt_sgls ::= delete n |>)
  end.

(** The scatter list of a request. *)
Definition req_sg (cmd : nvmet_tcp_cmd) (q : nvmet_tcp_queue) : option (list scatterlist) :=
  n ← nr_sg cmd; nt_sgls q !! n.

(** The pages of scatter lists in use. *)
Definition live_pages (q : nvmet_tcp_queue) : list Z :=
  concat ((fun p : nat * list scatterlist => sl_page <$> p.2) <$> map_to_list (nt_sgls q)).

(** A buffer whose memory is in use; PDUs live as long as the queue. *)
Definition buf_live (q : nvmet_tcp_queue) (b : tbuf) : bool :=
  match b with TPage p => bool_decide (p ∈ live_pages q) | _ => true end.

Definition load (q : nvmet_tcp_queue) (p o : Z) : Z := default (page_data p o) (nt_mem q !! (p, o)).

(** The first [len] bytes a scatter list describes. *)
Definition sg_places (l : list scatterlist) : list (Z * Z) :=
  concat ((fun s => (fun i => (sl_page s, sl_offset s + i)) <$> seqZ 0 (sl_length s)) <$> l).
Definition sg_data (q : nvmet_tcp_queue) (l : list scatterlist) (len : Z) : list Z :=
  (fun x => load q x.1 x.2) <$> take (Z.to_nat len) (sg_places l).

(** [cmd->cur_sg] and its successor. *)
Definition cur_sg (cmd : nvmet_tcp_cmd) (q : nvmet_tcp_queue) : option scatterlist :=
  i ← nc_cur_sg cmd; l ← req_sg cmd q; l !! i.
Definition sg_next (i : nat) (l : list scatterlist) : option nat :=
  if (S i <? length l)%nat then Some (S i) else None.
End memory.

(** ** Helpers *)

Section helpers.
Context {pr : NvmeTcpProto}.

(** The difference to [queue->cmds] has no defined value for [&queue->connect]. *)
Definition nvmet_tcp_cmd_tag (c : Z) : option Z := if c =? connect_id then None else Some (u16 c).

Definition nvmet_tcp_has_data_in (cmd : nvmet_tcp_cmd) : bool :=
  nvme_is_write (nr_cmd cmd) && (nc_rbytes_done cmd <? nr_transfer_len cmd).
Definition nvmet_tcp_need_data_in (cmd : nvmet_tcp_cmd) : bool :=
  nvmet_tcp_has_data_in cmd && negb (c_true (nr_cqe_status cmd)).
Definition nvmet_tcp_need_data_out (cmd : nvmet_tcp_cmd) : bool :=
  negb (nvme_is_write (nr_cmd cmd)) && (0 <? nr_transfer_len cmd)
  && negb (c_true (nr_cqe_status cmd)).
Definition nvmet_tcp_has_inline_data (cmd : nvmet_tcp_cmd) : bool :=
  nvme_is_write (nr_cmd cmd) && c_true (nc_pdu_len cmd) && (nc_rbytes_done cmd =? 0).

Definition nvmet_tcp_get_cmd (q : nvmet_tcp_queue) : option (option Z * nvmet_tcp_queue) :=
  match nt_free_list q with
  | [] => Some (None, q)
  | c :: l =>
    cmd ← nt_cmds q !! c;
    Some (Some c, put_ncmd c (cmd <| nc_rbytes_done := 0 |> <| nc_wbytes_done := 0 |>
                                  <| nc_pdu_len := 0 |> <| nc_pdu_recv := 0 |> <| nc_iov := None |>
                                  <| nc_flags := 0 |>) (q <| nt_free_list := l |>))
  end.

Definition nvmet_tcp_put_cmd (c : Z) (q : nvmet_tcp_queue) : nvmet_tcp_queue :=
  if c =? connect_id then q else q <| nt_free_list ::= fun l => l ++ [c] |>.

Definition nvmet_tcp_hdgst_len (q : nvmet_tcp_queue) : Z :=
  if nt_hdr_digest q then NVME_TCP_DIGEST_LENGTH else 0.
Definition nvmet_tcp_ddgst_len (q : nvmet_tcp_queue) : Z :=
  if nt_data_digest q then NVME_TCP_DIGEST_LENGTH else 0.

Definition i10_target_is_latency (q : nvmet_tcp_queue) : bool := nt_prio_class q =? 1.
Definition i10_target_is_admin_queue (q : nvmet_tcp_queue) : bool :=
  (nt_qid q =? 0) || (nt_prio_class q =? 1).

(** [queue_work_on]: a work item that is queued stays where it is. *)
Definition queue_work_on (cpu : Z) (w : option Z) : option Z :=
  match w with None => Some cpu | Some _ => w end.

(** The work of the class of the queue, on the CPU of the queue. *)
Definition queue_nvmet_work (q : nvmet_tcp_queue) : nvmet_tcp_queue :=
  if i10_target_is_latency q then q <| nt_io_work_lat ::= queue_work_on (nt_cpu q) |>
  else q <| nt_io_work ::= queue_work_on (nt_cpu q) |>.

Definition nvmet_tcp_fatal_error (q : nvmet_tcp_queue) : nvmet_tcp_queue :=
  let q := q <| nt_rcv_state := NVMET_TCP_RECV_ERR |> in
  match nt_ctrl q with
  | Some _ => q <| nt_ctrl_error := true |>
  | None => q <| nt_shutdown := true |>
  end.

(** The nvmet core hands the request of command [c] back. *)
Definition nvmet_tcp_queue_response (c : Z) (q : nvmet_tcp_queue) : nvmet_tcp_queue :=
  queue_nvmet_work (q <| nt_resp_list ::= cons c |>).

(** What a call that returned [ret] has put on the wire. *)
Definition tgt_sent (ret : Z) (l : list kvec) (q : nvmet_tcp_queue) : nvmet_tcp_queue :=
  q <| nt_wire ::= fun w => w ++ take (Z.to_nat ret) (concat (kvec_bytes <$> l)) |>
    <| nt_calls ::= S |>.

(** Calls of the nvmet core: it answers later through
    [nvmet_tcp_queue_response]. *)
Definition nvmet_req_execute (c : Z) (q : nvmet_tcp_queue) : nvmet_tcp_queue :=
  q <| nt_core ::= fun l => l ++ [(c, None)] |>.
Definition nvmet_req_complete (c status : Z) (q : nvmet_tcp_queue) : nvmet_tcp_queue :=
  q <| nt_core ::= fun l => l ++ [(c, Some status)] |>.
End helpers.

(** ** Mapping of data *)

Section data.
Context {pr : NvmeTcpProto} {pt : NvmetProto} {ne : NvmetEnv} {ly : PduLayout}.

Definition DIV_ROUND_UP (n d : Z) : Z := (n + d - 1) / d.

(** The loop of [nvmet_tcp_unmap_pdu_iovec]. *)
Fixpoint unmap_pages (n : nat) (l : list scatterlist) (m : list Z) : option (list Z) :=
  match n with
  | O => Some m
  | S n => match l with [] => None | s :: l => unmap_pages n l (kunmap (sl_page s) m) end
  end.

Definition nvmet_tcp_unmap_pdu_iovec (c : Z) (q : nvmet_tcp_queue) : option nvmet_tcp_queue :=
  cmd ← nt_cmds q !! c;
  if nc_nr_mapped cmd <=? 0 then Some q
  else
    l ← req_sg cmd q;
    m ← unmap_pages (Z.to_nat (nc_nr_mapped cmd)) (drop (Z.to_nat (nc_sg_idx cmd)) l) (nt_kmaps q);
    Some (q <| nt_kmaps := m |>).

(** The loop of [nvmet_tcp_map_pdu_iovec]: pages and places, from the entry [l]
    starts with; [sg_next] is NULL at the end of the list. *)
Fixpoint map_iovec (l : list scatterlist) (len sg_offset : Z) : option (list (list (Z * Z))) :=
  if len =? 0 then Some []
  else match l with
  | [] => None
  | sg :: l =>
    let n := Z.min len (u32 (sl_length sg - sg_offset)) in
    rest ← map_iovec l (len - n) sg_offset;
    Some (((fun i => (sl_page sg, sl_offset sg + sg_offset + i)) <$> seqZ 0 n) :: rest)
  end.

Definition nvmet_tcp_map_pdu_iovec (c : Z) (q : nvmet_tcp_queue) : option nvmet_tcp_queue :=
  cmd ← nt_cmds q !! c;
  let len := nc_pdu_len cmd in
  let cmd := cmd <| nc_nr_mapped := DIV_ROUND_UP len PAGE_SIZE |>
                 <| nc_sg_idx := DIV_ROUND_UP (nc_rbytes_done cmd) PAGE_SIZE |> in
  let sg_offset := nc_rbytes_done cmd mod PAGE_SIZE in
  if len =? 0 then Some (put_ncmd c (cmd <| nc_recv_msg := [] |> <| nc_msg_left := 0 |>) q)
  else
    iov ← nc_iov cmd;
    l ← req_sg cmd q;
    let l := drop (Z.to_nat (nc_sg_idx cmd)) l in
    if negb (bool_decide (iov ∈ nt_live q)) then None
    else
      v ← map_iovec l len sg_offset;
      Some (put_ncmd c (cmd <| nc_recv_msg := concat (take (Z.to_nat (nc_nr_mapped cmd)) v) |>
                            <| nc_msg_left := len |>)
              (q <| nt_kmaps ::= fun m => (sl_page <$> take (length v) l) ++ m |>)).

(** Results are NVMe status codes. *)
Definition nvmet_tcp_map_data (c : Z) (q : nvmet_tcp_queue) : option (Z * nvmet_tcp_queue) :=
  cmd ← nt_cmds q !! c;
  let len := sgl_length (nr_cmd cmd) in
  let inl := sgl_type (nr_cmd cmd) =? Z.lor (Z.shiftl NVME_SGL_FMT_DATA_DESC 4) NVME_SGL_FMT_OFFSET in
  if nr_data_len cmd =? 0 then Some (0, q)
  else if inl && negb (nvme_is_write (nr_cmd cmd))
  then Some (Z.lor NVME_SC_INVALID_FIELD NVME_SC_DNR, q)
  else if inl && (u32 (nt_inline_data_size q) <? len)
  then Some (Z.lor NVME_SC_SGL_INVALID_OFFSET NVME_SC_DNR, q)
  else
    let cmd := if inl then cmd <| nc_pdu_len := len |> else cmd in
    let cmd := cmd <| nr_transfer_len ::= fun n => u64 (n + len) |> in
    let n := nt_allocs q in
    let q := q <| nt_allocs ::= S |> in
    match sgl_alloc n len with
    | None => Some (NVME_SC_INTERNAL, put_ncmd c (cmd <| nr_sg := None |>) q)
    | Some l =>
      let q := q <| nt_sgls ::= <[n := l]> |> in
      let cmd := cmd <| nr_sg := Some n |> <| nc_cur_sg := Some 0%nat |> in
      if nvmet_tcp_has_data_in cmd then
        let '(iov, q) := kmalloc q in
        let q := put_ncmd c (cmd <| nc_iov := iov |>) q in
        match iov with
        | Some _ => Some (0, q)
        | None => q ← sgl_free (Some n) q; Some (NVME_SC_INTERNAL, q)
        end
      else Some (0, put_ncmd c cmd q)
    end.

(** The digest of the data of a request. *)
Definition nvmet_tcp_ddgst (c : Z) (q : nvmet_tcp_queue) : option nvmet_tcp_queue :=
  cmd ← nt_cmds q !! c; l ← req_sg cmd q;
  Some (put_ncmd c (cmd <| nc_exp_ddgst := crc32c (sg_data q l (nr_transfer_len cmd)) |>) q).

(** ** PDUs *)

Definition nvmet_setup_c2h_data_pdu (c : Z) (q : nvmet_tcp_queue) : option nvmet_tcp_queue :=
  cmd ← nt_cmds q !! c;
  let hdgst := nvmet_tcp_hdgst_len q in
  let ddgst := nvmet_tcp_ddgst_len q in
  let flags := Z.lor NVME_TCP_F_DATA_LAST (if nt_sqhd_disabled q then NVME_TCP_F_DATA_SUCCESS else 0) in
  let flags := if nt_data_digest q then Z.lor flags NVME_TCP_F_DDGST else flags in
  let flags := if nt_hdr_digest q then Z.lor flags NVME_TCP_F_HDGST else flags in
  let hl := u8 sizeof_data_pdu in
  let pdu := (nc_data_pdu cmd) <| h_type := nvme_tcp_c2h_data |> <| h_pflags := u8 flags |>
    <| hlen := hl |> <| pdo := u8 (hl + hdgst) |>
    <| plen := u32 (hl + hdgst + nr_transfer_len cmd + ddgst) |>
    <| h_command_id := nr_cqe_command_id cmd |> <| h_data_length := u32 (nr_transfer_len cmd) |>
    <| h_data_offset := nc_wbytes_done cmd |> in
  let q := put_ncmd c (cmd <| nc_offset := 0 |> <| nc_state := NVMET_TCP_SEND_DATA_PDU |>
                           <| nc_data_pdu := pdu |>) q in
  if nt_data_digest q then nvmet_tcp_ddgst c q else Some q.

Definition nvmet_setup_r2t_pdu (c : Z) (q : nvmet_tcp_queue) : option nvmet_tcp_queue :=
  cmd ← nt_cmds q !! c;
  tag ← nvmet_tcp_cmd_tag c;
  let hl := u8 sizeof_r2t_pdu in
  let pdu := (nc_r2t_pdu cmd) <| h_type := nvme_tcp_r2t |>
    <| h_pflags := if nt_hdr_digest q then NVME_TCP_F_HDGST else 0 |>
    <| hlen := hl |> <| pdo := 0 |> <| plen := u32 (hl + nvmet_tcp_hdgst_len q) |>
    <| h_command_id := command_id (nr_cmd cmd) |> <| h_ttag := tag |>
    <| h_data_length := u32 (nr_transfer_len cmd - nc_rbytes_done cmd) |>
    <| h_data_offset := nc_rbytes_done cmd |> in
  Some (put_ncmd c (cmd <| nc_offset := 0 |> <| nc_state := NVMET_TCP_SEND_R2T |>
                        <| nc_r2t_pdu := pdu |>) q).

Definition nvmet_setup_response_pdu (c : Z) (q : nvmet_tcp_queue) : option nvmet_tcp_queue :=
  cmd ← nt_cmds q !! c;
  let hl := u8 sizeof_rsp_pdu in
  let pdu := (nc_rsp_pdu cmd) <| h_type := nvme_tcp_rsp |>
    <| h_pflags := if nt_hdr_digest q then NVME_TCP_F_HDGST else 0 |>
    <| hlen := hl |> <| pdo := 0 |> <| plen := u32 (hl + nvmet_tcp_hdgst_len q) |> in
  Some (put_ncmd c (cmd <| nc_offset := 0 |> <| nc_state := NVMET_TCP_SEND_RESPONSE |>
                        <| nc_rsp_pdu := pdu |>) q).
End data.
