(* ===== verification/NvmetTcpSend.v ===== *)
(** * NVMe/TCP target: sending

    Responses from the nvmet core, the choice of the next command, the send state
    machine with the caravans of i10, and [nvmet_tcp_try_send] of
    drivers/nvme/target/tcp.c.  A function that returns [int] yields the result
    and the queue after it. *)
From S2P Require Import Prelude NvmeTcp NvmeTcpSend NvmeTcpRecv NvmetTcp.

(** The parameters of the module. *)
Record nvmet_params := mk_params {
  nvmet_tcp_io_recv_budget : Z;
  nvmet_tcp_io_send_budget : Z;
  nvmet_tcp_io_work_budget : Z;
  nvmet_tcp_aggr : bool;
  i10_target_steering : bool;
  i10_thru_printk : bool;
}.

Definition I10_TARGET_SEND_BUDGET : Z := 16.

Section send.
Context {pr : NvmeTcpProto} {pt : NvmetProto} {ne : NvmetEnv} {ly : PduLayout} (pm : nvmet_params).

(** ** Responses *)

Definition nvmet_tcp_process_resp_list (q : nvmet_tcp_queue) : nvmet_tcp_queue :=
  foldl (fun q c => q <| nt_resp_send_list ::= cons c |>
                      <| nt_send_list_len ::= fun n => s32 (n + 1) |>)
    (q <| nt_resp_list := [] |>) (nt_resp_list q).

Definition nvmet_tcp_fetch_cmd (q : nvmet_tcp_queue) : option (option Z * nvmet_tcp_queue) :=
  let q := match nt_resp_send_list q with [] => nvmet_tcp_process_resp_list q | _ => q end in
  match nt_resp_send_list q with
  | [] => Some (None, q <| nt_snd_cmd := None |>)
  | c :: l =>
    let q := q <| nt_snd_cmd := Some c |> <| nt_resp_send_list := l |>
               <| nt_send_list_len ::= fun n => s32 (n - 1) |> in
    cmd ← nt_cmds q !! c;
    q ← (if nvmet_tcp_need_data_out cmd then nvmet_setup_c2h_data_pdu c q
         else if nvmet_tcp_need_data_in cmd then nvmet_setup_r2t_pdu c q
         else nvmet_setup_response_pdu c q);
    Some (Some c, q)
  end.

(** ** Caravans *)

Definition i10_target_is_caravan_full (q : nvmet_tcp_queue) : bool :=
  (I10_CARAVAN_CAPACITY <=? nt_caravan_len q) || (I10_TARGET_SEND_BUDGET * 3 <=? nt_nr_iovs q)
  || (I10_TARGET_SEND_BUDGET <=? nt_nr_caravan_cmds q)
  || (I10_TARGET_SEND_BUDGET <=? nt_nr_caravan_mapped q).

(** PDUs of this queue are aggregated. *)
Definition aggregated (q : nvmet_tcp_queue) : bool :=
  nvmet_tcp_aggr pm && negb (i10_target_is_admin_queue q).

Definition tgt_caravan_add (v : kvec) (q : nvmet_tcp_queue) : option nvmet_tcp_queue :=
  iovs ← aset (nt_caravan_iovs q) (nt_nr_iovs q) v;
  Some (q <| nt_caravan_iovs := iovs |> <| nt_nr_iovs ::= fun n => n + 1 |>
          <| nt_caravan_len ::= fun n => u64 (n + iov_len v) |>).

Definition tgt_kernel_sendpage (v : kvec) (q : nvmet_tcp_queue) : Z * nvmet_tcp_queue :=
  let ret := tgt_sendpage (nt_calls q) v in (ret, tgt_sent ret [v] q).

(** ** The send states *)

(** A PDU of [size] bytes: [left] bytes of it go to the caravan, or to the
    socket.  [inl] is the early return of a full caravan.  Pointer arithmetic on
    the PDU counts in units of the PDU. *)
Definition send_pdu (b : tbuf) (size left : Z) (cmd : nvmet_tcp_cmd) (q : nvmet_tcp_queue)
  : option (nvmet_tcp_queue + Z * nvmet_tcp_queue) :=
  if aggregated q then
    if i10_target_is_caravan_full q then Some (inl (q <| nt_send_now := true |>))
    else q ← tgt_caravan_add (mk_kvec (b, size * nc_offset cmd) left) q; Some (inr (left, q))
  else Some (inr (tgt_kernel_sendpage (mk_kvec (b, nc_offset cmd) left) q)).

Definition nvmet_try_send_data_pdu (c : Z) (q : nvmet_tcp_queue) : option (Z * nvmet_tcp_queue) :=
  cmd ← nt_cmds q !! c;
  let left := s32 (sizeof_data_pdu - nc_offset cmd + nvmet_tcp_hdgst_len q) in
  x ← send_pdu (TData c) sizeof_data_pdu left cmd q;
  match x with
  | inl q => Some (1, q)
  | inr (ret, q) =>
    if ret <=? 0 then Some (ret, q)
    else if c_true (left - ret)
    then Some (- EAGAIN, put_ncmd c (cmd <| nc_offset ::= fun n => u32 (n + ret) |>) q)
    else Some (1, put_ncmd c (cmd <| nc_state := NVMET_TCP_SEND_DATA |> <| nc_offset := 0 |>) q)
  end.

(** The loop over the scatter list.  [true]: the list is at its end. *)
Fixpoint send_sgs (fuel : nat) (c : Z) (q : nvmet_tcp_queue) : option (bool * Z * nvmet_tcp_queue) :=
  cmd ← nt_cmds q !! c;
  match nc_cur_sg cmd, fuel with
  | None, _ => Some (true, 1, q)
  | Some _, O => None
  | Some i, S fuel =>
    l ← req_sg cmd q;
    sg ← l !! i;
    let left := u32 (sl_length sg - nc_offset cmd) in
    let v := mk_kvec (TPage (sl_page sg), nc_offset cmd) left in
    if aggregated q && i10_target_is_caravan_full q
    then Some (false, 1, q <| nt_send_now := true |>)
    else
      '(ret, q) ← (if aggregated q
                   then q ← tgt_caravan_add v q;
                        m ← aset (nt_caravan_mapped q) (nt_nr_caravan_mapped q) (sl_page sg);
                        Some (s32 left, q <| nt_kmaps ::= cons (sl_page sg) |> <| nt_caravan_mapped := m |>
                                          <| nt_nr_caravan_mapped ::= fun n => n + 1 |>)
                   else Some (tgt_kernel_sendpage v q));
      if ret <=? 0 then Some (false, ret, q)
      else
        let cmd := cmd <| nc_offset ::= fun n => u32 (n + ret) |>
                       <| nc_wbytes_done ::= fun n => u32 (n + ret) |> in
        let cmd := if nc_offset cmd =? sl_length sg
                   then cmd <| nc_cur_sg := sg_next i l |> <| nc_offset := 0 |> else cmd in
        send_sgs fuel c (put_ncmd c cmd q)
  end.

(** Every turn sends at least one of the bytes of the list. *)
Definition sgs_fuel (c : Z) (q : nvmet_tcp_queue) : nat :=
  from_option (fun l => S (Z.to_nat (foldr (fun s n => sl_length s + n) 0 l))) O
    (cmd ← nt_cmds q !! c; req_sg cmd q).

Definition nvmet_try_send_data (c : Z) (q : nvmet_tcp_queue) : option (Z * nvmet_tcp_queue) :=
  '(fin, ret, q) ← send_sgs (sgs_fuel c q) c q;
  if negb fin then Some (ret, q)
  else
    cmd ← nt_cmds q !! c;
    q ← (if nt_data_digest q
         then Some (put_ncmd c (cmd <| nc_state := NVMET_TCP_SEND_DDGST |> <| nc_offset := 0 |>) q)
         else if nt_sqhd_disabled q then Some (nvmet_tcp_put_cmd c (q <| nt_snd_cmd := None |>))
         else nvmet_setup_response_pdu c q);
    q ← (if nt_sqhd_disabled q
         then cmd ← nt_cmds q !! c; q ← obj_free (nc_iov cmd) q; sgl_free (nr_sg cmd) q
         else Some q);
    Some (1, q).

(** Free the buffers of a command and give it back. *)
Definition release_cmd (c : Z) (q : nvmet_tcp_queue) : option nvmet_tcp_queue :=
  cmd ← nt_cmds q !! c;
  q ← obj_free (nc_iov cmd) q; q ← sgl_free (nr_sg cmd) q;
  Some (nvmet_tcp_put_cmd c q).

Definition nvmet_try_send_response (c : Z) (q : nvmet_tcp_queue) : option (Z * nvmet_tcp_queue) :=
  cmd ← nt_cmds q !! c;
  let left := s32 (sizeof_rsp_pdu - nc_offset cmd + nvmet_tcp_hdgst_len q) in
  x ← send_pdu (TRsp c) sizeof_rsp_pdu left cmd q;
  match x with
  | inl q => Some (1, q)
  | inr (ret, q) =>
    if aggregated q then
      l ← aset (nt_caravan_cmds q) (nt_nr_caravan_cmds q) c;
      Some (1, put_ncmd c (cmd <| nc_offset ::= fun n => u32 (n + left) |>)
                 (q <| nt_caravan_cmds := l |> <| nt_nr_caravan_cmds ::= fun n => n + 1 |>
                    <| nt_snd_cmd := None |>))
    else if ret <=? 0 then Some (ret, q)
    else
      let q := put_ncmd c (cmd <| nc_offset ::= fun n => u32 (n + ret) |>) q in
      if c_true (left - ret) then Some (- EAGAIN, q)
      else q ← release_cmd c (q <| nt_snd_cmd := None |>); Some (1, q)
  end.

Definition nvmet_try_send_r2t (c : Z) (q : nvmet_tcp_queue) : option (Z * nvmet_tcp_queue) :=
  cmd ← nt_cmds q !! c;
  let left := s32 (sizeof_r2t_pdu - nc_offset cmd + nvmet_tcp_hdgst_len q) in
  x ← send_pdu (TR2t c) sizeof_r2t_pdu left cmd q;
  match x with
  | inl q => Some (1, q)
  | inr (ret, q) =>
    if ret <=? 0 then Some (ret, q)
    else
      let q := put_ncmd c (cmd <| nc_offset ::= fun n => u32 (n + ret) |>) q in
      if c_true (left - ret) then Some (- EAGAIN, q)
      else Some (1, q <| nt_snd_cmd := None |>)
  end.

(** The digest goes to the socket on every path, and whatever the socket takes of
    it counts as all of it; [&cmd->exp_ddgst + cmd->offset] counts in units of
    the digest. *)
Definition nvmet_try_send_ddgst (c : Z) (q : nvmet_tcp_queue) : option (Z * nvmet_tcp_queue) :=
  cmd ← nt_cmds q !! c;
  let v := mk_kvec (TDdgst c, 4 * nc_offset cmd) (NVME_TCP_DIGEST_LENGTH - nc_offset cmd) in
  let ret := tgt_sendmsg (nt_calls q) [v] (iov_len v) in
  let q := tgt_sent ret [v] q in
  if ret <=? 0 then Some (ret, q)
  else
    let q := put_ncmd c (cmd <| nc_offset ::= fun n => u32 (n + ret) |>) q in
    q ← (if nt_sqhd_disabled q then Some (nvmet_tcp_put_cmd c (q <| nt_snd_cmd := None |>))
         else nvmet_setup_response_pdu c q);
    Some (1, q).

(** The states in turn; a step that returns at most 0 is the last. *)
Definition try_send_state (st : nvmet_tcp_send_state)
    (f : Z -> nvmet_tcp_queue -> option (Z * nvmet_tcp_queue)) (c : Z)
    (x : bool * Z * nvmet_tcp_queue) : option (bool * Z * nvmet_tcp_queue) :=
  let '(fin, ret, q) := x in
  cmd ← nt_cmds q !! c;
  if negb fin && bool_decide (nc_state cmd = st)
  then '(ret, q) ← f c q; Some (ret <=? 0, ret, q)
  else Some x.

Definition try_send_cmd (c : Z) (q : nvmet_tcp_queue) : option (Z * nvmet_tcp_queue) :=
  x ← try_send_state NVMET_TCP_SEND_DATA_PDU nvmet_try_send_data_pdu c (false, 0, q);
  x ← try_send_state NVMET_TCP_SEND_DATA nvmet_try_send_data c x;
  x ← try_send_state NVMET_TCP_SEND_DDGST nvmet_try_send_ddgst c x;
  x ← try_send_state NVMET_TCP_SEND_R2T nvmet_try_send_r2t c x;
  '(_, ret, q) ← try_send_state NVMET_TCP_SEND_RESPONSE nvmet_try_send_response c x;
  Some (if ret <? 0 then if ret =? - EAGAIN then 0 else ret else 1, q).

Definition nvmet_tcp_try_send_one (q : nvmet_tcp_queue) : option (Z * nvmet_tcp_queue) :=
  '(o, q) ← (if bool_decide (nt_snd_cmd q = None) || bool_decide (nt_state q = NVMET_TCP_Q_DISCONNECTING)
             then nvmet_tcp_fetch_cmd q else Some (nt_snd_cmd q, q));
  match o with
  | None => Some (0, q)
  | Some c => try_send_cmd c q
  end.

(** ** [nvmet_tcp_try_send] *)

Definition i10_target_sndbuf_nospace (q : nvmet_tcp_queue) (length : Z) : bool :=
  tgt_wspace (nt_calls q) <? length.

Definition tgt_caravan (q : nvmet_tcp_queue) : list kvec :=
  take (Z.to_nat (nt_nr_iovs q)) (nt_caravan_iovs q).
Definition tgt_caravan_owners (q : nvmet_tcp_queue) : list Z :=
  take (Z.to_nat (nt_nr_caravan_cmds q)) (nt_caravan_cmds q).
Definition tgt_caravan_pages (q : nvmet_tcp_queue) : list Z :=
  take (Z.to_nat (nt_nr_caravan_mapped q)) (nt_caravan_mapped q).

(** Send the caravan, whatever the socket answers; [true] when there is no room
    and [nvmet_tcp_try_send] returns. *)
Definition send_tgt_caravan (q : nvmet_tcp_queue) : option (bool * nvmet_tcp_queue) :=
  if i10_target_sndbuf_nospace q (s32 (nt_caravan_len q))
  then Some (true, q <| nt_nospace := true |> <| nt_calls ::= S |>)
  else if negb (forallb (fun v => buf_live q (iov_base v).1) (tgt_caravan q)) then None
  else
    let ret := tgt_sendmsg (nt_calls q) (tgt_caravan q) (nt_caravan_len q) in
    let q := tgt_sent ret (tgt_caravan q) q in
    q ← foldM (fun q c => release_cmd c q) q (tgt_caravan_owners q);
    Some (false, q <| nt_kmaps ::= fun m => foldl (fun m p => kunmap p m) m (tgt_caravan_pages q) |>
                   <| nt_nr_iovs := 0 |> <| nt_nr_caravan_cmds := 0 |> <| nt_nr_caravan_mapped := 0 |>
                   <| nt_caravan_len := 0 |> <| nt_send_now := false |>).

(** The loop, with the turns that are left and [*sends]. *)
Fixpoint try_send_loop (turns : nat) (ret sends : Z) (q : nvmet_tcp_queue)
  : option (Z * Z * nvmet_tcp_queue) :=
  match turns with
  | O => Some (ret, sends, q)
  | S n =>
    '(ret, q) ← nvmet_tcp_try_send_one q;
    '(full, q) ← (if nvmet_tcp_aggr pm && c_true (nt_caravan_len q)
                     && (nt_send_now q || (ret <=? 0) || (n =? 0)%nat)
                  then send_tgt_caravan q else Some (false, q));
    if full : bool then Some (0, sends, q)
    else if ret <=? 0 then Some (ret, sends, q)
    else try_send_loop n ret (s32 (sends + 1)) q
  end.

Definition nvmet_tcp_try_send (budget sends : Z) (q : nvmet_tcp_queue) : option (Z * Z * nvmet_tcp_queue) :=
  try_send_loop (Z.to_nat budget) 0 sends q.
End send.
