(* ===== verification/NvmetTcpRecv.v ===== *)
(** * NVMe/TCP target: receiving

    The receive state machine of drivers/nvme/target/tcp.c: connection request,
    command capsules, data PDUs and digests.  [kernel_recvmsg] takes what has
    arrived, at most what it is asked for; when nothing is there it returns
    [nt_rx_end] (-EAGAIN, 0 at the end of the stream, or an error). *)
From S2P Require Import Prelude NvmeTcp NvmeTcpSend NvmeTcpRecv NvmetTcp.

(** The layout of what the host sends (<linux/nvme-tcp.h>, <linux/nvme.h>) and of
    the connection response. *)
Class CmdLayout := {
  cmd_nvme : list Z -> nvme_command;
  data_ttag : list Z -> Z;
  data_data_offset : list Z -> Z;
  icreq_pfv : list Z -> Z;
  icreq_hpda : list Z -> Z;
  icreq_digest : list Z -> Z;
  icresp_bytes : icresp_pdu -> list Z;
}.

Section recv.
Context {pr : NvmeTcpProto} {pt : NvmetProto} {ne : NvmetEnv} {ly : PduLayout} {cl : CmdLayout}.

Definition tgt_recvmsg (n : Z) (q : nvmet_tcp_queue) : Z * list Z * nvmet_tcp_queue :=
  match take (Z.to_nat n) (nt_rx q) with
  | [] => (nt_rx_end q, [], q)
  | l => (Z.of_nat (length l), l, q <| nt_rx ::= drop (Z.to_nat n) |>)
  end.

(** ** Checks of a header *)

(** [nvmet_tcp_hdgst]: the digest of [len] bytes is stored behind them. *)
Definition nvmet_tcp_hdgst (pdu : list Z) (len : Z) : option (list Z) :=
  input ← slice 0 len pdu; overwrite len (crc32c input) pdu.

Definition nvmet_tcp_verify_hdgst (pdu : list Z) (len : Z) : option (Z * list Z) :=
  if negb (has_flag (pdu_flags pdu) NVME_TCP_F_HDGST) then Some (- EPROTO, pdu)
  else
    let hl := pdu_hlen pdu in
    recv_digest ← slice hl NVME_TCP_DIGEST_LENGTH pdu;
    pdu ← nvmet_tcp_hdgst pdu len;
    exp_digest ← slice hl NVME_TCP_DIGEST_LENGTH pdu;
    Some (if bool_decide (recv_digest = exp_digest) then 0 else - EPROTO, pdu).

Definition nvmet_tcp_check_ddgst (q : nvmet_tcp_queue) (pdu : list Z) : Z :=
  let len := u32 (pdu_plen pdu - pdu_hlen pdu
                  - if has_flag (pdu_flags pdu) NVME_TCP_F_HDGST then nvmet_tcp_hdgst_len q else 0) in
  if c_true len && negb (has_flag (pdu_flags pdu) NVME_TCP_F_DDGST) then - EPROTO else 0.

Definition nvmet_prepare_receive_pdu (q : nvmet_tcp_queue) : nvmet_tcp_queue :=
  q <| nt_offset := 0 |> <| nt_left := sizeof_tcp_hdr |> <| nt_cmd := None |>
    <| nt_rcv_state := NVMET_TCP_RECV_PDU |>.

(** ** Connection request *)

Definition nvmet_tcp_free_crypto (q : nvmet_tcp_queue) : option nvmet_tcp_queue :=
  '(rcv, tfm) ← nt_rcv_hash q;
  q ← obj_free (Some rcv) q; q ← obj_free (nt_snd_hash q) q; obj_free (Some tfm) q.

Definition nvmet_tcp_alloc_crypto (q : nvmet_tcp_queue) : option (Z * nvmet_tcp_queue) :=
  let err := ahash_err (nt_allocs q) in
  let '(tfm, q) := kmalloc q in
  match tfm with
  | None => Some (err, q)
  | Some tfm =>
    let '(snd_hash, q) := kmalloc q in
    let q := q <| nt_snd_hash := snd_hash |> in
    match snd_hash with
    | None => q ← obj_free (Some tfm) q; Some (- ENOMEM, q)
    | Some _ =>
      let '(rcv_hash, q) := kmalloc q in
      let q := q <| nt_rcv_hash := r ← rcv_hash; Some (r, tfm) |> in
      match rcv_hash with
      | None => q ← obj_free snd_hash q; q ← obj_free (Some tfm) q; Some (- ENOMEM, q)
      | Some _ => Some (0, q)
      end
    end
  end.

(** The response to a connection request. *)
Definition make_icresp (q : nvmet_tcp_queue) : icresp_pdu :=
  let hl := u8 sizeof_icresp_pdu in
  let digest := if nt_hdr_digest q then NVME_TCP_HDR_DIGEST_ENABLE else 0 in
  let digest := if nt_data_digest q then Z.lor digest NVME_TCP_DATA_DIGEST_ENABLE else digest in
  mk_icresp_pdu nvme_tcp_icresp hl 0 hl NVME_TCP_PFV_1_0 4194304 digest 0.

Definition nvmet_tcp_handle_icreq (q : nvmet_tcp_queue) : option (Z * nvmet_tcp_queue) :=
  let icreq := nt_pdu q in
  let q := if negb (pdu_plen icreq =? sizeof_icreq_pdu) then nvmet_tcp_fatal_error q else q in
  if negb (icreq_pfv icreq =? NVME_TCP_PFV_1_0) then Some (- EPROTO, q)
  else if negb (icreq_hpda icreq =? 0) then Some (- EPROTO, q)
  else
    let q := q <| nt_hdr_digest := has_flag (icreq_digest icreq) NVME_TCP_HDR_DIGEST_ENABLE |>
               <| nt_data_digest := has_flag (icreq_digest icreq) NVME_TCP_DATA_DIGEST_ENABLE |> in
    let digests := nt_hdr_digest q || nt_data_digest q in
    '(ret, q) ← (if digests then nvmet_tcp_alloc_crypto q else Some (0, q));
    if c_true ret then Some (ret, q)
    else
      let r := make_icresp q in
      pdu ← overwrite 0 (icresp_bytes r) (nt_pdu q);
      let v := mk_kvec (TIcresp, 0) sizeof_icresp_pdu in
      let ret := tgt_sendmsg (nt_calls q) [v] (iov_len v) in
      let q := tgt_sent ret [v] (q <| nt_pdu := pdu |>) in
      if ret <? 0 then q ← (if digests then nvmet_tcp_free_crypto q else Some q); Some (ret, q)
      else Some (0, nvmet_prepare_receive_pdu (q <| nt_icresp := Some r |>
                                                 <| nt_state := NVMET_TCP_Q_LIVE |>)).

(** ** Commands and data *)

(** [nvmet_req_init] rejected the command; data in the capsule is read all the
    same. *)
Definition nvmet_tcp_handle_req_failure (c : Z) (q : nvmet_tcp_queue) : option nvmet_tcp_queue :=
  cmd ← nt_cmds q !! c;
  let data_len := sgl_length (nr_cmd cmd) in
  let q := put_ncmd c (cmd <| nr_data_len := data_len |>) q in
  if negb (nvme_is_write (nr_cmd cmd)) || (u64 (nt_inline_data_size q) <? data_len)
  then Some (nvmet_prepare_receive_pdu q)
  else
    '(ret, q) ← nvmet_tcp_map_data c q;
    if c_true ret then Some (nvmet_tcp_fatal_error q)
    else
      q ← nvmet_tcp_map_pdu_iovec c (q <| nt_rcv_state := NVMET_TCP_RECV_DATA |>);
      cmd ← nt_cmds q !! c;
      Some (put_ncmd c (cmd <| nc_flags ::= fun f => Z.lor f NVMET_TCP_F_INIT_FAILED |>) q).

Definition nvmet_tcp_handle_h2c_data_pdu (q : nvmet_tcp_queue) : option (Z * nvmet_tcp_queue) :=
  let c := data_ttag (nt_pdu q) in
  cmd ← nt_cmds q !! c;
  if negb (data_data_offset (nt_pdu q) =? nc_rbytes_done cmd)
  then Some (- EPROTO, nvmet_req_complete c (Z.lor NVME_SC_INVALID_FIELD NVME_SC_DNR) q)
  else
    let cmd := cmd <| nc_pdu_len := data_data_length (nt_pdu q) |> <| nc_pdu_recv := 0 |> in
    q ← nvmet_tcp_map_pdu_iovec c (put_ncmd c cmd q);
    Some (0, q <| nt_cmd := Some c |> <| nt_rcv_state := NVMET_TCP_RECV_DATA |>).

(** A new command [c] with the contents of the PDU: what follows a successful
    [nvmet_req_init]. *)
Definition start_cmd (c : Z) (q : nvmet_tcp_queue) : option (Z * nvmet_tcp_queue) :=
  '(ret, q) ← nvmet_tcp_map_data c q;
  cmd ← nt_cmds q !! c;
  if c_true ret then
    let q := if nvmet_tcp_has_inline_data cmd then nvmet_tcp_fatal_error q
             else nvmet_req_complete c ret q in
    Some (- EAGAIN, nvmet_prepare_receive_pdu q)
  else if nvmet_tcp_need_data_in cmd then
    if nvmet_tcp_has_inline_data cmd then
      q ← nvmet_tcp_map_pdu_iovec c (q <| nt_rcv_state := NVMET_TCP_RECV_DATA |>);
      Some (0, q)
    else Some (0, nvmet_prepare_receive_pdu (nvmet_tcp_queue_response c q))
  else Some (0, nvmet_prepare_receive_pdu (nvmet_req_execute c q)).

Definition nvmet_tcp_done_recv_pdu (q : nvmet_tcp_queue) : option (Z * nvmet_tcp_queue) :=
  let type := pdu_type (nt_pdu q) in
  if bool_decide (nt_state q = NVMET_TCP_Q_CONNECTING) then
    if negb (type =? nvme_tcp_icreq) then Some (- EPROTO, nvmet_tcp_fatal_error q)
    else nvmet_tcp_handle_icreq q
  else if type =? nvme_tcp_h2c_data then nvmet_tcp_handle_h2c_data_pdu q
  else
    '(o, q) ← nvmet_tcp_get_cmd q;
    let q := q <| nt_cmd := o |> in
    match o with
    | None => Some (- ENOMEM, nvmet_tcp_fatal_error q)
    | Some c =>
      cmd ← nt_cmds q !! c;
      let nvme_cmd := cmd_nvme (nt_pdu q) in
      let '(rejected, data_len) := nvmet_req_init nvme_cmd in
      let q := put_ncmd c (cmd <| nr_cmd := nvme_cmd |> <| nr_cqe_status := 0 |>
                               <| nr_data_len := data_len |> <| nr_transfer_len := 0 |>
                               <| nr_sg := None |>) q in
      match rejected with
      | Some status => q ← nvmet_tcp_handle_req_failure c (nvmet_req_complete c status q); Some (- EAGAIN, q)
      | None => start_cmd c q
      end
    end.

Definition nvmet_tcp_pdu_size (type : Z) : Z :=
  if type =? nvme_tcp_icreq then sizeof_icreq_pdu
  else if type =? nvme_tcp_cmd then sizeof_cmd_pdu
  else if type =? nvme_tcp_h2c_data then sizeof_data_pdu
  else 0.

Definition nvmet_tcp_pdu_valid (type : Z) : bool :=
  (type =? nvme_tcp_icreq) || (type =? nvme_tcp_cmd) || (type =? nvme_tcp_h2c_data).

(** Digests of a complete PDU, then its handler. *)
Definition recv_pdu_done (q : nvmet_tcp_queue) : option (Z * nvmet_tcp_queue) :=
  '(ret, pdu) ← (if nt_hdr_digest q then nvmet_tcp_verify_hdgst (nt_pdu q) (nt_offset q)
                 else Some (0, nt_pdu q));
  let q := q <| nt_pdu := pdu |> in
  if c_true ret then Some (- EPROTO, nvmet_tcp_fatal_error q)
  else if nt_data_digest q && c_true (nvmet_tcp_check_ddgst q (nt_pdu q))
  then Some (- EPROTO, nvmet_tcp_fatal_error q)
  else nvmet_tcp_done_recv_pdu q.

(** The header comes first, then the rest of the PDU: [recv] is reached twice at
    most. *)
Fixpoint try_recv_pdu (fuel : nat) (q : nvmet_tcp_queue) : option (Z * nvmet_tcp_queue) :=
  match fuel with
  | O => None
  | S fuel =>
    let '(len, bytes, q) := tgt_recvmsg (nt_left q) q in
    if len <? 0 then Some (len, q)
    else
      pdu ← overwrite (nt_offset q) bytes (nt_pdu q);
      let q := q <| nt_pdu := pdu |> <| nt_offset ::= fun n => n + len |>
                 <| nt_left ::= fun n => n - len |> in
      if c_true (nt_left q) then Some (- EAGAIN, q)
      else if nt_offset q =? sizeof_tcp_hdr then
        if negb (nvmet_tcp_pdu_valid (pdu_type pdu)) then Some (- EIO, nvmet_tcp_fatal_error q)
        else if negb (pdu_hlen pdu =? nvmet_tcp_pdu_size (pdu_type pdu)) then Some (- EIO, q)
        else try_recv_pdu fuel (q <| nt_left := pdu_hlen pdu - nt_offset q + nvmet_tcp_hdgst_len q |>)
      else recv_pdu_done q
  end.
Definition nvmet_tcp_try_recv_pdu (q : nvmet_tcp_queue) : option (Z * nvmet_tcp_queue) :=
  try_recv_pdu 2 q.

Definition nvmet_tcp_prep_recv_ddgst (c : Z) (q : nvmet_tcp_queue) : option nvmet_tcp_queue :=
  q ← nvmet_tcp_ddgst c q;
  Some (q <| nt_offset := 0 |> <| nt_left := NVME_TCP_DIGEST_LENGTH |>
          <| nt_rcv_state := NVMET_TCP_RECV_DDGST |>).

(** Store bytes at the places of an iterator. *)
Definition store (places : list (Z * Z)) (bytes : list Z) (m : gmap (Z * Z) Z) : gmap (Z * Z) Z :=
  foldl (fun m x => <[x.1 := x.2]> m) m (zip places bytes).

(** The loop of [nvmet_tcp_try_recv_data]; [true] when all data is there.  An
    iterator that promises more than its places is used beyond its end. *)
Fixpoint recv_data (fuel : nat) (c : Z) (q : nvmet_tcp_queue) : option (bool * Z * nvmet_tcp_queue) :=
  cmd ← nt_cmds q !! c;
  if nc_msg_left cmd =? 0 then Some (true, 0, q)
  else match fuel with
  | O => None
  | S fuel =>
    let '(ret, bytes, q) := tgt_recvmsg (nc_msg_left cmd) q in
    if ret <=? 0 then Some (false, ret, q)
    else if (length (nc_recv_msg cmd) <? length bytes)%nat
            || negb (forallb (fun x => buf_live q (TPage x.1)) (take (length bytes) (nc_recv_msg cmd)))
    then None
    else
      let q := q <| nt_mem ::= store (nc_recv_msg cmd) bytes |> in
      let cmd := cmd <| nc_recv_msg ::= drop (length bytes) |> <| nc_msg_left ::= fun n => n - ret |>
                     <| nc_pdu_recv ::= fun n => u32 (n + ret) |>
                     <| nc_rbytes_done ::= fun n => u32 (n + ret) |> in
      recv_data fuel c (put_ncmd c cmd q)
  end.

Definition nvmet_tcp_try_recv_data (q : nvmet_tcp_queue) : option (Z * nvmet_tcp_queue) :=
  c ← nt_cmd q;
  '(all, ret, q) ← recv_data (S (length (nt_rx q))) c q;
  if negb all then Some (ret, q)
  else
    q ← nvmet_tcp_unmap_pdu_iovec c q;
    cmd ← nt_cmds q !! c;
    if negb (has_flag (nc_flags cmd) NVMET_TCP_F_INIT_FAILED)
       && (nc_rbytes_done cmd =? nr_transfer_len cmd) then
      if nt_data_digest q then q ← nvmet_tcp_prep_recv_ddgst c q; Some (0, q)
      else Some (0, nvmet_prepare_receive_pdu (nvmet_req_execute c q))
    else Some (0, nvmet_prepare_receive_pdu q).

(** The buffers of a command whose request is given up. *)
Definition nvmet_tcp_finish_cmd (c : Z) (q : nvmet_tcp_queue) : option nvmet_tcp_queue :=
  q ← nvmet_tcp_unmap_pdu_iovec c (q <| nt_uninit ::= cons c |>);
  cmd ← nt_cmds q !! c;
  q ← obj_free (nc_iov cmd) q; sgl_free (nr_sg cmd) q.

Definition nvmet_tcp_try_recv_ddgst (q : nvmet_tcp_queue) : option (Z * nvmet_tcp_queue) :=
  c ← nt_cmd q;
  let '(ret, bytes, q) := tgt_recvmsg (nt_left q) q in
  if ret <? 0 then Some (ret, q)
  else
    cmd ← nt_cmds q !! c;
    dg ← overwrite (nt_offset q) bytes (nc_recv_ddgst cmd);
    let cmd := cmd <| nc_recv_ddgst := dg |> in
    let q := put_ncmd c cmd (q <| nt_offset ::= fun n => n + ret |> <| nt_left ::= fun n => n - ret |>) in
    if c_true (nt_left q) then Some (- EAGAIN, q)
    else if nt_data_digest q && negb (bool_decide (nc_exp_ddgst cmd = nc_recv_ddgst cmd)) then
      q ← nvmet_tcp_finish_cmd c q;
      Some (- EPROTO, nvmet_prepare_receive_pdu (nvmet_tcp_fatal_error q))
    else
      let q := if negb (has_flag (nc_flags cmd) NVMET_TCP_F_INIT_FAILED)
                  && (nc_rbytes_done cmd =? nr_transfer_len cmd) then nvmet_req_execute c q else q in
      Some (0, nvmet_prepare_receive_pdu q).

(** ** One PDU and a batch of them *)

Definition try_recv_state (st : nvmet_tcp_recv_state)
    (f : nvmet_tcp_queue -> option (Z * nvmet_tcp_queue))
    (x : Z * nvmet_tcp_queue) : option (Z * nvmet_tcp_queue) :=
  let '(result, q) := x in
  if (result =? 0) && bool_decide (nt_rcv_state q = st) then f q else Some x.

Definition nvmet_tcp_try_recv_one (q : nvmet_tcp_queue) : option (Z * nvmet_tcp_queue) :=
  if bool_decide (nt_rcv_state q = NVMET_TCP_RECV_ERR) then Some (0, q)
  else
    x ← try_recv_state NVMET_TCP_RECV_PDU nvmet_tcp_try_recv_pdu (0, q);
    x ← try_recv_state NVMET_TCP_RECV_DATA nvmet_tcp_try_recv_data x;
    '(result, q) ← try_recv_state NVMET_TCP_RECV_DDGST nvmet_tcp_try_recv_ddgst x;
    Some (if result <? 0 then if result =? - EAGAIN then 0 else result else 1, q).

Fixpoint try_recv_loop (turns : nat) (ret recvs : Z) (q : nvmet_tcp_queue)
  : option (Z * Z * nvmet_tcp_queue) :=
  match turns with
  | O => Some (ret, recvs, q)
  | S n =>
    '(ret, q) ← nvmet_tcp_try_recv_one q;
    if ret <=? 0 then Some (ret, recvs, q) else try_recv_loop n ret (s32 (recvs + 1)) q
  end.

Definition nvmet_tcp_try_recv (budget recvs : Z) (q : nvmet_tcp_queue) : option (Z * Z * nvmet_tcp_queue) :=
  try_recv_loop (Z.to_nat budget) 0 recvs q.
End recv.
