(* ===== verification/NvmetTcpWork.v ===== *)
(** * NVMe/TCP target: the I/O work and the callbacks of the socket

    [nvmet_tcp_io_work], [nvmet_tcp_io_work_lat], [nvmet_tcp_write_space],
    [nvmet_tcp_state_change] and the release they schedule, of
    drivers/nvme/target/tcp.c.  A work item that runs is no longer queued. *)
From S2P Require Import Prelude NvmeTcp NvmeTcpSend NvmeTcpRecv NvmeTcpWork NvmetTcp NvmetTcpSend NvmetTcpRecv.

Definition nvmet_tcp_schedule_release_queue (q : nvmet_tcp_queue) : nvmet_tcp_queue :=
  if bool_decide (nt_state q = NVMET_TCP_Q_DISCONNECTING) then q
  else q <| nt_state := NVMET_TCP_Q_DISCONNECTING |> <| nt_release_work := true |>.

(** ** Callbacks *)

(** Before the connection is established the callback of the socket itself runs. *)
Definition nvmet_tcp_write_space (writeable : bool) (q : nvmet_tcp_queue) : nvmet_tcp_queue :=
  if negb (nt_user_data q) || bool_decide (nt_state q = NVMET_TCP_Q_CONNECTING) then q
  else if writeable then queue_nvmet_work (q <| nt_nospace := false |>) else q.

Definition nvmet_tcp_state_change (st : sock_state) (q : nvmet_tcp_queue) : nvmet_tcp_queue :=
  if negb (nt_user_data q) then q
  else match st with
  | TCP_FIN_WAIT1 | TCP_CLOSE_WAIT | TCP_CLOSE =>
    nvmet_tcp_schedule_release_queue (q <| nt_user_data := false |>)
  | _ => q
  end.

(** ** The work *)

Section work.
Context {pr : NvmeTcpProto} {pt : NvmetProto} {ne : NvmetEnv} {ly : PduLayout} {cl : CmdLayout}
  (pm : nvmet_params).

(** A negative result ends the work. *)
Definition io_work_error (ret : Z) (q : nvmet_tcp_queue) : nvmet_tcp_queue :=
  if (ret =? - EPIPE) || (ret =? - ECONNRESET) then q <| nt_shutdown := true |>
  else nvmet_tcp_fatal_error q.

(** One turn: [None] in the first place when the work returns, else [pending]. *)
Definition nvmet_io_turn (ops : Z) (q : nvmet_tcp_queue) : option (option bool * Z * nvmet_tcp_queue) :=
  '(ret, ops, q) ← nvmet_tcp_try_recv (nvmet_tcp_io_recv_budget pm) ops q;
  if ret <? 0 then Some (None, ops, io_work_error ret q)
  else
    let pending := 0 <? ret in
    '(ret, ops, q) ← nvmet_tcp_try_send pm (nvmet_tcp_io_send_budget pm) ops q;
    if ret <? 0 then Some (None, ops, io_work_error ret q)
    else Some (Some (pending || (0 <? ret)), ops, q).

(** The loop; [true] when the work has to be queued again. *)
Fixpoint nvmet_io_loop (fuel : nat) (ops : Z) (q : nvmet_tcp_queue) : option (bool * nvmet_tcp_queue) :=
  match fuel with
  | O => None
  | S fuel =>
    '(o, ops, q) ← nvmet_io_turn ops q;
    match o with
    | None => Some (false, q)
    | Some pending =>
      if pending && (ops <? nvmet_tcp_io_work_budget pm) then nvmet_io_loop fuel ops q
      else Some (pending, q)
    end
  end.

(** A turn that is followed by another one counts at least one operation. *)
Definition io_fuel : nat := S (Z.to_nat (nvmet_tcp_io_work_budget pm)).

Definition nvmet_tcp_io_work (q : nvmet_tcp_queue) : option nvmet_tcp_queue :=
  '(again, q) ← nvmet_io_loop io_fuel 0 (q <| nt_io_work := None |>);
  Some (if again : bool then q <| nt_io_work ::= queue_work_on (nt_cpu q) |> else q).

Definition nvmet_tcp_io_work_lat (q : nvmet_tcp_queue) : option nvmet_tcp_queue :=
  '(again, q) ← nvmet_io_loop io_fuel 0 (q <| nt_io_work_lat := None |>);
  Some (if again : bool then q <| nt_io_work_lat ::= queue_work_on (nt_cpu q) |> else q).
End work.

(** ** NVMe/TCP target: the I/O work ends

    Every turn after which the loop of the work goes on has received or sent
    something and counted it, so that the loop ends within its budget: the bound
    [io_fuel] on the number of turns is never what stops it. *)

Section work.
Context {pr : NvmeTcpProto} {pt : NvmetProto} {ne : NvmetEnv} {ly : PduLayout} {cl : CmdLayout}
  (pm : nvmet_params).

Lemma try_recv_count n : forall ret0 ops q ret ops' q',
  0 <= ops -> ops + Z.of_nat n < 2 ^ 31 -> try_recv_loop n ret0 ops q = Some (ret, ops', q') ->
  ops <= ops' <= ops + Z.of_nat n /\ (ret0 <= 0 -> 0 < ret -> ops < ops').
Proof.
  induction n as [|n IH]; intros ret0 ops q ret ops' q' H0 Hb; cbn [try_recv_loop].
  { intros [= <- <- <-]. lia. }
  intros H. apply bind_Some in H as ([r q1] & _ & H). destruct (Z.leb_spec r 0).
  - injection H as <- <- <-. lia.
  - rewrite s32_small in H by lia. apply IH in H; lia.
Qed.

Lemma try_send_count n : forall ret0 ops q ret ops' q',
  0 <= ops -> ops + Z.of_nat n < 2 ^ 31 -> try_send_loop pm n ret0 ops q = Some (ret, ops', q') ->
  ops <= ops' <= ops + Z.of_nat n /\ (ret0 <= 0 -> 0 < ret -> ops < ops').
Proof.
  induction n as [|n IH]; intros ret0 ops q ret ops' q' H0 Hb; cbn [try_send_loop].
  { intros [= <- <- <-]. lia. }
  intros H. apply bind_Some in H as ([r q1] & _ & H). apply bind_Some in H as ([full q2] & _ & H).
  destruct full; [injection H as <- <- <-; lia|]. destruct (Z.leb_spec r 0).
  - injection H as <- <- <-. lia.
  - rewrite s32_small in H by lia. apply IH in H; lia.
Qed.

(** The operations of one turn. *)
Definition turn_max : Z := Z.max 0 (nvmet_tcp_io_recv_budget pm) + Z.max 0 (nvmet_tcp_io_send_budget pm).

Lemma turn_count ops q o ops' q' :
  0 <= ops -> ops + turn_max < 2 ^ 31 -> nvmet_io_turn pm ops q = Some (o, ops', q') ->
  ops <= ops' /\ (o = Some true -> ops < ops').
Proof.
  unfold turn_max, nvmet_io_turn, nvmet_tcp_try_recv, nvmet_tcp_try_send. intros H0 Hb H.
  apply bind_Some in H as ([[r1 ops1] q1] & H1 & H). apply try_recv_count in H1 as [C1 C2]; [|lia..].
  destruct (r1 <? 0); [injection H as <- <- <-; split; [lia|done]|].
  apply bind_Some in H as ([[r2 ops2] q2] & H2 & H). apply try_send_count in H2 as [D1 D2]; [|lia..].
  destruct (r2 <? 0); injection H as <- <- <-; (split; [lia|]); [done|]. intros [= E].
  apply orb_true_iff in E as [E%Z.ltb_lt|E%Z.ltb_lt]; lia.
Qed.

(** More turns than the budget allows are never needed. *)
Lemma io_loop_fuel k : forall n ops q,
  0 <= ops -> nvmet_tcp_io_work_budget pm + turn_max < 2 ^ 31 ->
  ops < nvmet_tcp_io_work_budget pm \/ (0 < n)%nat /\ ops + turn_max < 2 ^ 31 ->
  nvmet_tcp_io_work_budget pm - ops < Z.of_nat n ->
  nvmet_io_loop pm (n + k) ops q = nvmet_io_loop pm n ops q.
Proof.
  induction n as [|n IH]; intros ops q H0 Hb Hlt Hn; [lia|]. cbn [nvmet_io_loop Nat.add].
  destruct (nvmet_io_turn pm ops q) as [[[o ops'] q']|] eqn:E; [|done]. cbn [mbind option_bind].
  apply turn_count in E as [C1 C2]; [|lia|lia]. destruct o as [[]|]; [|done..]. cbn [andb].
  destruct (Z.ltb_spec ops' (nvmet_tcp_io_work_budget pm)); [|done]. specialize (C2 eq_refl). apply IH; lia.
Qed.

Lemma io_work_terminates fuel q :
  turn_max + Z.max 0 (nvmet_tcp_io_work_budget pm) < 2 ^ 31 -> (io_fuel pm <= fuel)%nat ->
  nvmet_io_loop pm fuel 0 q = nvmet_io_loop pm (io_fuel pm) 0 q.
Proof.
  intros Hb Hf. replace fuel with (io_fuel pm + (fuel - io_fuel pm))%nat by lia. unfold io_fuel, turn_max in *.
  apply io_loop_fuel; unfold turn_max; lia.
Qed.
End work.
