(* ===== verification/NvmetTcpSteer.v ===== *)
(** * NVMe/TCP target: target steering

    [nvmet_tcp_data_ready] of drivers/nvme/target/tcp.c: when data arrives, the
    load of the cores of the NUMA node of the queue is estimated from the receive
    buffers and the queue may move to another core of the node.  The arrays of
    metrics are on the stack and not initialised: reading an element that was not
    written, and any access outside them, is [None]. *)
From S2P Require Import Prelude NvmeTcp NvmeTcpSend NvmetTcp NvmetTcpSend.

(** The part of struct nvmet_tcp_port that steering uses. *)
Record nvmet_tcp_port := mk_port {
  reset_metric : Z;
  print_time : Z;
}.
#[export] Instance nvmet_tcp_port_eta : Settable nvmet_tcp_port := {| eta_expand := fun r =>
  mk_port (reset_metric r) (print_time r) |}.

(** The machine: online CPUs and nodes, jiffies, and 50 and 200 ms in jiffies. *)
Record steer_env := mk_steer_env {
  nr_cpus : Z;
  nr_nodes : Z;
  jiffies : Z;
  msecs_50 : Z;
  msecs_200 : Z;
}.

Definition NR_METRIC : nat := 6.
Definition NR_NODE_METRIC : nat := 4.

(** An uninitialised array of the stack, and its accesses. *)
Definition uninit (n : nat) : list (option Z) := replicate n None.
Definition aread (l : list (option Z)) (i : Z) : option Z := mjoin (aget l i).
Definition aadd (l : list (option Z)) (i z : Z) : option (list (option Z)) :=
  x ← aread l i; aset l i (Some (s32 (x + z))).

Section steer.
Context (pm : nvmet_params) (se : steer_env).

Definition cores : Z := nr_cpus se / nr_nodes se.
Definition core_of (q : nvmet_tcp_queue) : Z := nt_cpu q / nr_nodes se.

(** ** Reset after a pause *)

Definition reset_queue (q : nvmet_tcp_queue) : nvmet_tcp_queue :=
  if nt_qid q =? 0 then q else q <| nt_metric := 0 |> <| nt_cpu := nt_orig_cpu q |>.

Definition reset_metrics (q : nvmet_tcp_queue) (p : nvmet_tcp_port) (l : list nvmet_tcp_queue)
  : list nvmet_tcp_queue :=
  if negb (nt_qid q =? 0) && ((reset_metric p =? 0) || time_after (jiffies se) (reset_metric p))
  then reset_queue <$> l else l.

(** ** The table that is printed *)

(** [qo] and [core] of one class, by node and core. *)
Definition grid := list (list (option Z)).
Definition gset0 (g : grid) (i j : Z) : option grid :=
  row ← aget g i; row ← aset row j (Some 0); aset g i row.
Definition gadd (g : grid) (i j z : Z) : option grid :=
  row ← aget g i; row ← aadd row j z; aset g i row.

Record qo_table := mk_table {
  lat_qo : grid;
  thru_qo : grid;
  lat_core : grid;
  thru_core : grid;
}.

Definition new_grid : grid := replicate NR_NODE_METRIC (uninit NR_METRIC).

Definition clear_cell (t : qo_table) (ij : Z * Z) : option qo_table :=
  let '(i, j) := ij in
  a ← gset0 (lat_qo t) i j; b ← gset0 (lat_core t) i j;
  c ← gset0 (thru_qo t) i j; d ← gset0 (thru_core t) i j;
  Some (mk_table a c b d).

Definition count_cell (t : qo_table) (q : nvmet_tcp_queue) : option qo_table :=
  if nr_cpus se <? nt_idx q then
    a ← gadd (lat_qo t) (nt_numa_node q) (core_of q) (nt_metric q);
    b ← gadd (lat_core t) (nt_numa_node q) (core_of q) 1;
    Some (mk_table a (thru_qo t) b (thru_core t))
  else
    a ← gadd (thru_qo t) (nt_numa_node q) (core_of q) (nt_metric q);
    b ← gadd (thru_core t) (nt_numa_node q) (core_of q) 1;
    Some (mk_table (lat_qo t) a (lat_core t) b).

Definition print_table (l : list nvmet_tcp_queue) : option qo_table :=
  t ← foldM clear_cell (mk_table new_grid new_grid new_grid new_grid)
        (i ← seqZ 0 (nr_nodes se); j ← seqZ 0 cores; [(i, j)]);
  foldM count_cell t l.

(** Whether the table is printed now. *)
Definition print_due (q : nvmet_tcp_queue) (p : nvmet_tcp_port) : bool :=
  i10_thru_printk pm && negb (nt_qid q =? 0) && (nt_cpu q =? 0)
  && ((print_time p =? 0) || time_after (jiffies se) (print_time p)).

(** ** Load *)

Definition metric_sample (metric sample : Z) : Z :=
  let m := if metric =? 0 then u32 sample
           else u32 (u32 (metric - Z.shiftr metric 3) + Z.shiftr sample 3) in
  if m <? 10 then 0 else m.

Definition update_metric (node : Z) (q : nvmet_tcp_queue) : nvmet_tcp_queue :=
  if negb (nt_qid q =? 0) && (nt_numa_node q =? node)
  then q <| nt_metric ::= fun m => metric_sample m (nt_rmem q) |> else q.

(** The metrics of the cores: [lat_metric] and [thru_metric]. *)
Definition add_metric (node : Z) (x : list (option Z) * list (option Z)) (q : nvmet_tcp_queue)
  : option (list (option Z) * list (option Z)) :=
  let '(lat, thru) := x in
  if negb (nt_qid q =? 0) && (nt_numa_node q =? node) then
    if nr_cpus se <? nt_idx q
    then lat ← aadd lat (core_of q) (nt_metric q); Some (lat, thru)
    else thru ← aadd thru (core_of q) (nt_metric q); Some (lat, thru)
  else Some (lat, thru).

Definition clear_metrics : option (list (option Z)) :=
  foldM (fun a i => aset a i (Some 0)) (uninit NR_METRIC) (seqZ 0 cores).

Definition core_metrics (node : Z) (l : list nvmet_tcp_queue)
  : option (list (option Z) * list (option Z)) :=
  lat ← clear_metrics; thru ← clear_metrics; foldM (add_metric node) (lat, thru) l.

(** ** The choice *)

(** [target_cpu] and [min_metric]. *)
Definition lat_candidate (lat thru : list (option Z)) (local node : Z) (x : Z * Z) (i : Z)
  : option (Z * Z) :=
  let '(target_cpu, min_metric) := x in
  if i =? local then Some x
  else
    li ← aread lat i;
    if li =? 0 then Some x
    else
      tl ← aread thru local;
      if tl =? 0 then Some x
      else
        ti ← aread thru i; ll ← aread lat local;
        if (s32 (li + ti) <? s32 (ll + tl)) && (s32 (li + ti) <? min_metric)
        then Some (s32 (i * nr_nodes se + node), s32 (li + ti)) else Some x.

Definition thru_candidate (lat : list (option Z)) (local node : Z) (x : Z * Z) (i : Z) : option (Z * Z) :=
  let '(target_cpu, min_metric) := x in
  if i =? local then Some x
  else
    ll ← aread lat local;
    if ll =? 0 then Some x
    else
      li ← aread lat i;
      if li <? min_metric then Some (s32 (i * nr_nodes se + node), li) else Some x.

Definition choose_cpu (lat thru : list (option Z)) (local : Z) (q : nvmet_tcp_queue) : option Z :=
  let f := if i10_target_is_latency q then lat_candidate lat thru local (nt_numa_node q)
           else thru_candidate lat local (nt_numa_node q) in
  '(target_cpu, _) ← foldM f (-1, 1000000) (seqZ 0 cores);
  Some (if 0 <=? target_cpu then target_cpu else nt_cpu q).

(** ** [nvmet_tcp_data_ready] *)

(** Steering of queue [k] of the list.  The core it is on is read before the
    reset. *)
Definition steer (k : nat) (l : list nvmet_tcp_queue) (p : nvmet_tcp_port)
  : option (list nvmet_tcp_queue * nvmet_tcp_port) :=
  q ← l !! k;
  let local := core_of q in
  let l := reset_metrics q p l in
  let p := p <| reset_metric := u64 (jiffies se + msecs_200 se) |> in
  q ← l !! k;
  p ← (if print_due q p
       then _ ← print_table l; Some (p <| print_time := u64 (jiffies se + msecs_50 se) |>)
       else Some p);
  let l := update_metric (nt_numa_node q) <$> l in
  '(lat, thru) ← core_metrics (nt_numa_node q) l;
  q ← l !! k;
  cpu ← choose_cpu lat thru local q;
  Some (<[k := queue_nvmet_work (q <| nt_cpu := cpu |>)]> l, p).

Definition nvmet_tcp_data_ready (k : nat) (l : list nvmet_tcp_queue) (p : nvmet_tcp_port)
  : option (list nvmet_tcp_queue * nvmet_tcp_port) :=
  q ← l !! k;
  if negb (nt_user_data q) then Some (l, p)
  else if i10_target_steering pm then steer k l p
  else Some (<[k := queue_nvmet_work q]> l, p).
End steer.
