(* ===== verification/NvmetTcpQueue.v ===== *)
(** * NVMe/TCP target: connections, ports and the module

    Allocation and release of commands and queues, the accept work, ports, and
    loading and unloading of drivers/nvme/target/tcp.c, with every error path.
    Memory, sockets and hash requests are objects that have to be in use when they
    are released; [page_frag_free] and [sock_release] do not accept NULL.  Results
    of calls outside the repository are read from [TgtEnv]. *)
From S2P Require Import Prelude NvmeTcp NvmeTcpSend NvmeTcpRecv NvmeTcpWork.
From S2P Require Import NvmetTcp NvmetTcpSend NvmetTcpRecv NvmetTcpWork.

(** nvme/target/tcp.c, and nvme/target/i10.c, which it was extended from: the
    definitions stand for both and depend on the driver where they differ. *)
Inductive target_driver := NVMET_TCP | I10_TARGET.

Class TgtEnv := {
  tgt_driver : target_driver;
  tgt_ret : nat -> Z;  (* result of a call, by the number of calls before *)
  rcv_tos : Z;
  ida_simple_get : nat -> list Z -> Z;  (* an unused number, or an error *)
  cpumask_next_wrap : Z -> Z;  (* over the online CPUs *)
  num_online_cpus : Z;
  num_online_nodes : Z;
  sizeof_pdu_union : nat;  (* union nvme_tcp_pdu *)
  nvmet_sq_destroy : nvmet_tcp_queue -> nvmet_tcp_queue;
  flush_io_works : nvmet_tcp_queue -> nvmet_tcp_queue;
}.

(** A port of the target. *)
Record tgt_port := mk_tport {
  pt_self : nat;
  pt_sock : option nat;
  pt_last_cpu : Z;
  pt_inline_data_size : Z;  (* nport->inline_data_size *)
  pt_callbacks : bool;
  pt_accept_work : bool;
}.
#[export] Instance tgt_port_eta : Settable tgt_port := {| eta_expand := fun r =>
  mk_tport (pt_self r) (pt_sock r) (pt_last_cpu r) (pt_inline_data_size r) (pt_callbacks r)
    (pt_accept_work r) |}.

(** The driver: objects in use, numbers in use, the list of queues, the work
    queues and whether the transport is registered. *)
Record target := mk_target {
  tg_live : list nat;
  tg_allocs : nat;
  tg_calls : nat;
  tg_ida : list Z;
  tg_queues : list nvmet_tcp_queue;
  tg_wq : option nat;
  tg_wq_lat : option nat;
  tg_registered : bool;
}.
#[export] Instance target_eta : Settable target := {| eta_expand := fun r =>
  mk_target (tg_live r) (tg_allocs r) (tg_calls r) (tg_ida r) (tg_queues r) (tg_wq r) (tg_wq_lat r)
    (tg_registered r) |}.

(** The memory as a queue sees it, and back. *)
Definition see_heap (g : target) (q : nvmet_tcp_queue) : nvmet_tcp_queue :=
  q <| nt_live := tg_live g |> <| nt_allocs := tg_allocs g |>.
Definition keep_heap (q : nvmet_tcp_queue) (g : target) : target :=
  g <| tg_live := nt_live q |> <| tg_allocs := nt_allocs q |>.

(** Zeroed memory. *)
Definition zero_hdr : pdu_hdr := mk_hdr 0 0 0 0 0 0 0 0 0 SG_NULL.
Definition zero_cmd : nvmet_tcp_cmd :=
  {| nc_cmd_buf := None; nc_rsp_buf := None; nc_data_buf := None; nc_r2t_buf := None;
     nr_cmd := mk_nvme_cmd 0 0 0 0 0; nr_cqe_status := 0; nr_cqe_command_id := 0;
     nr_data_len := 0; nr_transfer_len := 0; nr_sg := None; nc_rsp_pdu := zero_hdr;
     nc_data_pdu := zero_hdr; nc_r2t_pdu := zero_hdr; nc_rbytes_done := 0; nc_wbytes_done := 0;
     nc_pdu_len := 0; nc_pdu_recv := 0; nc_sg_idx := 0; nc_nr_mapped := 0; nc_recv_msg := [];
     nc_msg_left := 0; nc_iov := None; nc_flags := 0; nc_offset := 0; nc_cur_sg := None;
     nc_state := NVMET_TCP_SEND_DATA_PDU; nc_exp_ddgst := [0; 0; 0; 0];
     nc_recv_ddgst := [0; 0; 0; 0] |}.
Definition zero_queue (sizeof_pdu_union self : nat) : nvmet_tcp_queue :=
  {| nt_self := self; nt_sock := None; nt_idx := 0; nt_cpu := 0; nt_orig_cpu := 0;
     nt_numa_node := 0; nt_metric := 0; nt_qid := 0; nt_ctrl := None; nt_sqhd_disabled := false;
     nt_inline_data_size := 0; nt_prio_class := 0; nt_cmds_buf := None;
     nt_cmds := {[connect_id := zero_cmd]}; nt_nr_cmds := 0; nt_free_list := [];
     nt_resp_list := []; nt_resp_send_list := []; nt_send_list_len := 0; nt_snd_cmd := None;
     nt_iovs_buf := None; nt_ccmds_buf := None; nt_mapped_buf := None; nt_caravan_iovs := [];
     nt_nr_iovs := 0; nt_caravan_len := 0; nt_caravan_cmds := []; nt_nr_caravan_cmds := 0;
     nt_send_now := false; nt_caravan_mapped := []; nt_nr_caravan_mapped := 0; nt_offset := 0;
     nt_left := 0; nt_rcv_state := NVMET_TCP_RECV_PDU; nt_cmd := None;
     nt_pdu := replicate sizeof_pdu_union 0; nt_hdr_digest := false; nt_data_digest := false;
     nt_snd_hash := None; nt_rcv_hash := None; nt_state := NVMET_TCP_Q_CONNECTING; nt_live := [];
     nt_sgls := ∅; nt_allocs := 0; nt_mem := ∅; nt_kmaps := []; nt_wire := []; nt_icresp := None;
     nt_calls := 0; nt_nospace := false; nt_rx := []; nt_rx_end := - EAGAIN; nt_rmem := 0;
     nt_user_data := false; nt_callbacks := false; nt_io_work := None; nt_io_work_lat := None;
     nt_release_work := false; nt_core := []; nt_uninit := []; nt_ctrl_error := false;
     nt_shutdown := false |}.

Section queue.
Context {pr : NvmeTcpProto} {pt : NvmetProto} {ne : NvmetEnv} {ly : PduLayout} {cl : CmdLayout}
  {te : TgtEnv}.

(** [page_frag_free], [sock_release]: the object has to be there. *)
Definition obj_put (p : option nat) (q : nvmet_tcp_queue) : option nvmet_tcp_queue :=
  _ ← p; obj_free p q.

(** ** Commands *)

Definition nvmet_tcp_alloc_cmd (c : Z) (q : nvmet_tcp_queue) : option (Z * nvmet_tcp_queue) :=
  cmd ← nt_cmds q !! c;
  let '(cmd_buf, q) := kmalloc q in
  let cmd := cmd <| nc_cmd_buf := cmd_buf |> in
  match cmd_buf with
  | None => Some (- ENOMEM, put_ncmd c cmd q)
  | Some _ =>
    let '(rsp_buf, q) := kmalloc q in
    let cmd := cmd <| nc_rsp_buf := rsp_buf |> in
    match rsp_buf with
    | None => q ← obj_put cmd_buf q; Some (- ENOMEM, put_ncmd c cmd q)
    | Some _ =>
      let '(data_buf, q) := kmalloc q in
      let cmd := cmd <| nc_data_buf := data_buf |> in
      match data_buf with
      | None => q ← obj_put rsp_buf q; q ← obj_put cmd_buf q; Some (- ENOMEM, put_ncmd c cmd q)
      | Some _ =>
        let '(r2t_buf, q) := kmalloc q in
        let cmd := cmd <| nc_r2t_buf := r2t_buf |> in
        match r2t_buf with
        | None =>
          q ← obj_put data_buf q; q ← obj_put rsp_buf q; q ← obj_put cmd_buf q;
          Some (- ENOMEM, put_ncmd c cmd q)
        | Some _ => Some (0, put_ncmd c cmd q <| nt_free_list ::= fun l => l ++ [c] |>)
        end
      end
    end
  end.

Definition nvmet_tcp_free_cmd (c : Z) (q : nvmet_tcp_queue) : option nvmet_tcp_queue :=
  cmd ← nt_cmds q !! c;
  q ← obj_put (nc_r2t_buf cmd) q; q ← obj_put (nc_data_buf cmd) q;
  q ← obj_put (nc_rsp_buf cmd) q; obj_put (nc_cmd_buf cmd) q.

(** The loop of [nvmet_tcp_alloc_cmds]: the result and the number of commands
    before the one that failed. *)
Fixpoint alloc_cmds_loop (n : nat) (i : Z) (q : nvmet_tcp_queue) : option (Z * Z * nvmet_tcp_queue) :=
  match n with
  | O => Some (0, i, q)
  | S n =>
    '(ret, q) ← nvmet_tcp_alloc_cmd i (put_ncmd i zero_cmd q);
    if c_true ret then Some (ret, i, q) else alloc_cmds_loop n (i + 1) q
  end.

(** The memory of the commands is gone. *)
Definition drop_cmds (n : Z) (q : nvmet_tcp_queue) : nvmet_tcp_queue :=
  q <| nt_cmds ::= fun m => foldr delete m (seqZ 0 n) |>.

Definition nvmet_tcp_alloc_cmds (q : nvmet_tcp_queue) : option (Z * nvmet_tcp_queue) :=
  let nr_cmds := nt_nr_cmds q in
  let '(cmds, q) := kmalloc q in
  match cmds with
  | None => Some (- EINVAL, q)
  | Some _ =>
    '(ret, i, q) ← alloc_cmds_loop (Z.to_nat nr_cmds) 0 q;
    if c_true ret then
      q ← foldM (fun q j => nvmet_tcp_free_cmd j q) q (reverse (seqZ 0 i));
      q ← obj_free cmds q;
      Some (ret, drop_cmds nr_cmds q)
    else Some (0, q <| nt_cmds_buf := cmds |>)
  end.

Definition nvmet_tcp_free_cmds (q : nvmet_tcp_queue) : option nvmet_tcp_queue :=
  q ← foldM (fun q i => nvmet_tcp_free_cmd i q) q (seqZ 0 (nt_nr_cmds q));
  q ← nvmet_tcp_free_cmd connect_id q;
  obj_free (nt_cmds_buf q) q.

(** [sq->size * 2] commands. *)
Definition nvmet_tcp_install_queue (size : Z) (q : nvmet_tcp_queue) : option (Z * nvmet_tcp_queue) :=
  let q := q <| nt_nr_cmds := u32 (size * 2) |> in
  '(ret, q) ← nvmet_tcp_alloc_cmds q;
  Some (if c_true ret then NVME_SC_INTERNAL else 0, q).

(** ** Release of a queue *)

Definition nvmet_tcp_restore_socket_callbacks (q : nvmet_tcp_queue) : nvmet_tcp_queue :=
  q <| nt_callbacks := false |> <| nt_user_data := false |>.

Definition uninit_cmd (c : Z) (q : nvmet_tcp_queue) : option nvmet_tcp_queue :=
  cmd ← nt_cmds q !! c;
  if nvmet_tcp_need_data_in cmd then nvmet_tcp_finish_cmd c q else Some q.

Definition nvmet_tcp_uninit_data_in_cmds (q : nvmet_tcp_queue) : option nvmet_tcp_queue :=
  q ← foldM (fun q i => uninit_cmd i q) q (seqZ 0 (nt_nr_cmds q));
  if nt_nr_cmds q =? 0 then uninit_cmd connect_id q else Some q.

(** [cancel_work_sync] of both works. *)
Definition cancel_io_works (q : nvmet_tcp_queue) : nvmet_tcp_queue :=
  q <| nt_io_work := None |> <| nt_io_work_lat := None |>.

(** Only i10.c frees the arrays of the caravan. *)
Definition free_arrays (q : nvmet_tcp_queue) : option nvmet_tcp_queue :=
  match tgt_driver with
  | NVMET_TCP => Some q
  | I10_TARGET => q ← obj_free (nt_iovs_buf q) q; q ← obj_free (nt_ccmds_buf q) q; obj_free (nt_mapped_buf q) q
  end.

(** The queue is taken from the list; [q] is its state. *)
Definition nvmet_tcp_release_queue_work (q : nvmet_tcp_queue) (g : target) : option target :=
  let g := g <| tg_queues ::= filter (fun p => nt_idx p <> nt_idx q) |> in
  let q := see_heap g q in
  let q := flush_io_works (nvmet_tcp_restore_socket_callbacks q) in
  q ← nvmet_tcp_uninit_data_in_cmds q;
  let q := cancel_io_works (nvmet_sq_destroy q) in
  q ← obj_put (nt_sock q) q;
  q ← nvmet_tcp_free_cmds q;
  q ← (if nt_hdr_digest q || nt_data_digest q then nvmet_tcp_free_crypto q else Some q);
  let g := g <| tg_ida ::= filter (fun i => i <> nt_idx q) |> in
  q ← free_arrays q;
  q ← obj_free (Some (nt_self q)) q;
  Some (keep_heap q g).

(** ** Allocation of a queue *)

Definition tcall (g : target) : Z * target := (tgt_ret (tg_calls g), g <| tg_calls ::= S |>).

(** Names of the socket, linger, type of service; then the callbacks. *)
Definition nvmet_tcp_set_queue_sock (q : nvmet_tcp_queue) (g : target) : Z * nvmet_tcp_queue * target :=
  let '(ret, g) := tcall g in
  if ret <? 0 then (ret, q, g)
  else
    let '(ret, g) := tcall g in
    if ret <? 0 then (ret, q, g)
    else
      let '(ret, g) := tcall g in
      if c_true ret then (ret, q, g)
      else
        let '(ret, g) := if 0 <? rcv_tos then tcall g else (0, g) in
        if c_true ret then (ret, q, g)
        else (0, q <| nt_user_data := true |> <| nt_callbacks := true |>, g).

(** The CPU and the class of a new queue. *)
Definition place_queue (p : tgt_port) (q : nvmet_tcp_queue) : tgt_port * nvmet_tcp_queue :=
  let p := if nt_idx q =? 1 then p else p <| pt_last_cpu ::= cpumask_next_wrap |> in
  let q := q <| nt_cpu := pt_last_cpu p |> in
  let q := if num_online_cpus <? nt_idx q then q <| nt_cpu ::= Z.succ |> <| nt_prio_class := 1 |>
           else q <| nt_prio_class := 0 |> in
  let q := if num_online_cpus <=? nt_cpu q then q <| nt_cpu := 0 |> else q in
  (p, q <| nt_orig_cpu := nt_cpu q |> <| nt_numa_node := nt_cpu q mod num_online_nodes |>
        <| nt_metric := 0 |>).

(** i10.c takes the next CPU and has no classes. *)
Definition i10_place_queue (p : tgt_port) (q : nvmet_tcp_queue) : tgt_port * nvmet_tcp_queue :=
  let p := p <| pt_last_cpu ::= cpumask_next_wrap |> in (p, q <| nt_cpu := pt_last_cpu p |>).

Definition place (p : tgt_port) (q : nvmet_tcp_queue) : tgt_port * nvmet_tcp_queue :=
  match tgt_driver with NVMET_TCP => place_queue p q | I10_TARGET => i10_place_queue p q end.

(** The labels of [nvmet_tcp_alloc_queue], from the last one on. *)
Definition out_free_queue (q : nvmet_tcp_queue) : option nvmet_tcp_queue := obj_free (Some (nt_self q)) q.
Definition out_free_iovs (q : nvmet_tcp_queue) : option nvmet_tcp_queue :=
  q ← obj_free (nt_iovs_buf q) q; out_free_queue q.
Definition out_free_cmds (q : nvmet_tcp_queue) : option nvmet_tcp_queue :=
  q ← obj_free (nt_ccmds_buf q) q; out_free_iovs q.
Definition out_free_mapped (q : nvmet_tcp_queue) : option nvmet_tcp_queue :=
  q ← obj_free (nt_mapped_buf q) q; out_free_cmds q.

(** The callbacks of the socket and the first run of the work. *)
Definition start_queue (idx : Z) (p : tgt_port) (q : nvmet_tcp_queue) (g : target)
  : option (Z * option nvmet_tcp_queue * tgt_port * target) :=
  let '(ret, q, g) := nvmet_tcp_set_queue_sock q g in
  if c_true ret then
    q ← nvmet_tcp_free_cmd connect_id (nvmet_sq_destroy q);
    q ← out_free_mapped q;
    Some (ret, None, p, keep_heap q (g <| tg_ida ::= filter (fun i => i <> idx) |>))
  else
    let q := queue_nvmet_work q in
    Some (0, Some q, p, keep_heap q (g <| tg_queues ::= fun l => l ++ [q] |>)).

(** From [ida_simple_get] on, with the arrays of the caravan in place. *)
Definition alloc_queue_tail (p : tgt_port) (q : nvmet_tcp_queue) (g : target)
  : option (Z * option nvmet_tcp_queue * tgt_port * target) :=
  let idx := ida_simple_get (tg_calls g) (tg_ida g) in
  let g := g <| tg_calls ::= S |> in
  let q := q <| nt_idx := idx |> in
  if idx <? 0 then q ← out_free_mapped q; Some (idx, None, p, keep_heap q g)
  else
    let g := g <| tg_ida ::= cons idx |> in
    let out_ida_remove ret q g :=
      q ← out_free_mapped q;
      Some (ret, None, p, keep_heap q (g <| tg_ida ::= filter (fun i => i <> idx) |>)) in
    '(ret, q) ← nvmet_tcp_alloc_cmd connect_id q;
    if c_true ret then out_ida_remove ret q g
    else
      let '(ret, g) := tcall g in
      if c_true ret then q ← nvmet_tcp_free_cmd connect_id q; out_ida_remove ret q g
      else
        let '(p, q) := place p q in
        start_queue idx p (nvmet_prepare_receive_pdu q) g.

(** The arrays of the caravan. *)
Definition alloc_arrays (p : tgt_port) (q : nvmet_tcp_queue) (g : target)
  : option (Z * option nvmet_tcp_queue * tgt_port * target) :=
  let '(iovs, q) := kmalloc q in
  let q := q <| nt_iovs_buf := iovs |> in
  if bool_decide (iovs = None) then q ← out_free_queue q; Some (- ENOMEM, None, p, keep_heap q g)
  else
    let '(ccmds, q) := kmalloc q in
    let q := q <| nt_ccmds_buf := ccmds |> in
    if bool_decide (ccmds = None) then q ← out_free_iovs q; Some (- ENOMEM, None, p, keep_heap q g)
    else
      let '(mapped, q) := kmalloc q in
      let q := q <| nt_mapped_buf := mapped |> in
      if bool_decide (mapped = None) then q ← out_free_cmds q; Some (- ENOMEM, None, p, keep_heap q g)
      else
        let zero_kvec := mk_kvec (TIcresp, 0) 0 in
        let q := q <| nt_caravan_iovs := replicate (Z.to_nat (I10_TARGET_SEND_BUDGET * 3)) zero_kvec |>
                   <| nt_caravan_cmds := replicate (Z.to_nat I10_TARGET_SEND_BUDGET) 0 |>
                   <| nt_caravan_mapped := replicate (Z.to_nat I10_TARGET_SEND_BUDGET) 0 |> in
        alloc_queue_tail p q g.

Definition nvmet_tcp_alloc_queue (p : tgt_port) (newsock : nat) (g : target)
  : option (Z * option nvmet_tcp_queue * tgt_port * target) :=
  let self := tg_allocs g in
  let '(o, q) := kmalloc (see_heap g (zero_queue sizeof_pdu_union self)) in
  match o with
  | None => Some (- ENOMEM, None, p, keep_heap q g)
  | Some _ =>
    alloc_arrays p (q <| nt_sock := Some newsock |> <| nt_inline_data_size := pt_inline_data_size p |>) g
  end.

(** ** Ports *)

(** [socks] are the connections that [kernel_accept] returns before it fails. *)
Fixpoint nvmet_tcp_accept_work (socks : list nat) (p : tgt_port) (g : target)
  : option (tgt_port * target) :=
  match socks with
  | [] => Some (p, g)
  | s :: socks =>
    '(ret, _, p, g) ← nvmet_tcp_alloc_queue p s g;
    g ← (if c_true ret
         then q ← obj_put (Some s) (see_heap g (zero_queue 0 0)); Some (keep_heap q g)
         else Some g);
    nvmet_tcp_accept_work socks p g
  end.

Definition nvmet_tcp_listen_data_ready (user_data : bool) (st : sock_state) (p : tgt_port) : tgt_port :=
  if negb user_data then p
  else match st with TCP_LISTEN => p <| pt_accept_work := true |> | _ => p end.

Definition gfree (p : option nat) (g : target) : option target :=
  q ← obj_put p (see_heap g (zero_queue 0 0)); Some (keep_heap q g).
Definition gmalloc (g : target) : option nat * target :=
  let '(o, q) := kmalloc (see_heap g (zero_queue 0 0)) in (o, keep_heap q g).

(** The calls on the new socket, up to the first that fails: TCP_NODELAY,
    SO_REUSEADDR, SO_RCVBUFFORCE, SO_SNDBUFFORCE, bind and listen. *)
Fixpoint sock_calls_until (n : nat) (g : target) : Z * target :=
  match n with
  | O => (0, g)
  | S n => let '(ret, g) := tcall g in if c_true ret then (ret, g) else sock_calls_until n g
  end.

Inductive adrfam := NVMF_ADDR_FAMILY_IP4 | NVMF_ADDR_FAMILY_IP6 | NVMF_ADDR_FAMILY_OTHER.

(** [inline_data_size] is that of the configuration, negative when not set. *)
Definition nvmet_tcp_add_port (af : adrfam) (inline_data_size : Z) (g : target)
  : option (Z * option tgt_port * target) :=
  let self := tg_allocs g in
  let '(o, g) := gmalloc g in
  match o with
  | None => Some (- ENOMEM, None, g)
  | Some _ =>
    let err_port ret g := g ← gfree (Some self) g; Some (ret, None, g) in
    match af with
    | NVMF_ADDR_FAMILY_OTHER => err_port (- EINVAL) g
    | _ =>
      let '(ret, g) := tcall g in
      if c_true ret then err_port ret g
      else
        let size := if inline_data_size <? 0 then 4 * PAGE_SIZE else inline_data_size in
        let '(ret, g) := tcall g in
        if c_true ret then err_port ret g
        else
          let sock := tg_allocs g in
          let g := g <| tg_live ::= cons sock |> <| tg_allocs ::= S |> in
          let '(ret, g) := sock_calls_until 6 g in
          if c_true ret then g ← gfree (Some sock) g; err_port ret g
          else Some (0, Some (mk_tport self (Some sock) (-1) size true false), g)
    end
  end.

Definition nvmet_tcp_remove_port (p : tgt_port) (g : target) : option target :=
  g ← gfree (pt_sock p) g; gfree (Some (pt_self p)) g.

(** ** Controllers and addresses *)

Definition nvmet_tcp_delete_ctrl (ctrl : Z) (g : target) : target :=
  g <| tg_queues ::= fmap (fun q =>
    if bool_decide (nt_ctrl q = Some ctrl) then q <| nt_shutdown := true |> else q) |>.

(** The address a discovery log page shows. *)
Definition nvmet_tcp_disc_port_addr {A} (addr_is_any : bool) (queue_sockaddr disc_traddr : A) : A :=
  if addr_is_any then queue_sockaddr else disc_traddr.

(** ** The module *)

Definition nvmet_tcp_init (g : target) : option (Z * target) :=
  let '(wq, g) := gmalloc g in
  let g := g <| tg_wq := wq |> in
  match wq with
  | None => Some (- ENOMEM, g)
  | Some _ =>
    let '(wq_lat, g) := gmalloc g in
    let g := g <| tg_wq_lat := wq_lat |> in
    match wq_lat with
    | None => Some (- ENOMEM, g)
    | Some _ =>
      let '(ret, g) := tcall g in
      if c_true ret then g ← gfree wq g; g ← gfree wq_lat g; Some (ret, g)
      else Some (0, g <| tg_registered := true |>)
    end
  end.

(** Closing a connection schedules its release, which [flush_scheduled_work]
    waits for. *)
Definition shutdown_all (g : target) : target :=
  g <| tg_queues ::= fmap (fun q => q <| nt_shutdown := true |>) |>.

Definition nvmet_tcp_exit (flush_scheduled_work : target -> option target) (g : target) : option target :=
  g ← flush_scheduled_work (g <| tg_registered := false |>);
  g ← flush_scheduled_work (shutdown_all g);
  g ← gfree (tg_wq g) g; gfree (tg_wq_lat g) g.
End queue.
