(* ===== verification/NvmetTcpOwn.v ===== *)
(** * NVMe/TCP target: who owns the buffers

    Every command that is not free owns its scatter list and its array of [kvec];
    two commands never share one.  [bufs_inv] states this for a list of active
    commands, and the lemmas give its preservation by the operations that move,
    change, start or release a command. *)
From S2P Require Import Prelude NvmeTcp NvmeTcpSend NvmeTcpRecv NvmetTcp NvmetTcpSend.

(** The documented sizes of the PDUs and of a page. *)
Class NvmetProtoLaws (pr : NvmeTcpProto) (pt : NvmetProto) : Prop := {
  r2t_size : 0 < sizeof_r2t_pdu < 2 ^ 7;
  hdr_size : 0 < sizeof_tcp_hdr /\ sizeof_tcp_hdr < sizeof_cmd_pdu /\ sizeof_tcp_hdr < sizeof_data_pdu
    /\ sizeof_tcp_hdr < sizeof_icreq_pdu;
  page_size : 0 < PAGE_SIZE < 2 ^ 20;
}.

Section own.
Context {pr : NvmeTcpProto} {pt : NvmetProto} {ne : NvmetEnv} {ly : PduLayout}.
Implicit Types (q : nvmet_tcp_queue) (cmd : nvmet_tcp_cmd) (act : list Z).

(** The buffers of a command are in use; two commands have different ones. *)
Definition buf_ok q cmd : Prop :=
  (forall n, nr_sg cmd = Some n -> is_Some (nt_sgls q !! n))
  /\ (forall n, nc_iov cmd = Some n -> n ∈ nt_live q).
Definition apart (a b : nvmet_tcp_cmd) : Prop :=
  (nr_sg a = nr_sg b -> nr_sg a = None) /\ (nc_iov a = nc_iov b -> nc_iov a = None).

Record bufs_inv act q : Prop := {
  bi_nodup : NoDup (nt_free_list q ++ act);
  bi_cmd : forall c, c ∈ nt_free_list q ++ act -> is_Some (nt_cmds q !! c);
  bi_buf : forall c cmd, c ∈ act -> nt_cmds q !! c = Some cmd -> buf_ok q cmd;
  bi_excl : forall c d a b, c ∈ act -> d ∈ act -> c <> d ->
    nt_cmds q !! c = Some a -> nt_cmds q !! d = Some b -> apart a b;
  bi_sg_fresh : forall n, is_Some (nt_sgls q !! n) -> (n < nt_allocs q)%nat;
  bi_iov_fresh : forall n, n ∈ nt_live q -> (n < nt_allocs q)%nat;
}.

(** The fields the invariant reads. *)
Definition own_view q :=
  (nt_free_list q, nt_cmds q, nt_sgls q, nt_live q, nt_allocs q).

Lemma own_view_inv q q' :
  own_view q' = own_view q -> nt_free_list q' = nt_free_list q /\ nt_cmds q' = nt_cmds q
    /\ nt_sgls q' = nt_sgls q /\ nt_live q' = nt_live q /\ nt_allocs q' = nt_allocs q.
Proof. unfold own_view. intros H. by injection H. Qed.

Lemma bufs_view act q q' : own_view q' = own_view q -> bufs_inv act q -> bufs_inv act q'.
Proof.
  intros (E1 & E2 & E3 & E4 & E5)%own_view_inv [H1 H2 H3 H4 H5 H6].
  constructor; unfold buf_ok in *; rewrite ?E1, ?E2, ?E3, ?E4, ?E5; done.
Qed.

Lemma bufs_perm act act' q : act ≡ₚ act' -> bufs_inv act q -> bufs_inv act' q.
Proof.
  intros Hp [H1 H2 H3 H4 H5 H6]. constructor; try done.
  - by rewrite <- Hp.
  - intros c. rewrite <- Hp. apply H2.
  - intros c cmd. rewrite <- Hp. apply H3.
  - intros c d a b. rewrite <- Hp. apply H4.
Qed.

(** Fewer commands are active: what the others own is lost. *)
Lemma bufs_drop c act q : bufs_inv (c :: act) q -> bufs_inv act q.
Proof.
  intros [H1 H2 H3 H4 H5 H6]. constructor; try done.
  - apply NoDup_app in H1 as (A & B & D). apply NoDup_cons in D as [_ D].
    apply NoDup_app. split; [done|]. split; [set_solver|done].
  - intros d Hd. apply H2. set_solver.
  - intros d cmd Hd. apply H3. set_solver.
  - intros d1 d2 a b Hd1 Hd2. apply H4; set_solver.
Qed.

Lemma bufs_lookup c act q : bufs_inv act q -> c ∈ act -> exists cmd, nt_cmds q !! c = Some cmd.
Proof. intros H Hc. apply (bi_cmd _ _ H). set_solver. Qed.

(** A command changes, its buffers do not. *)
Lemma bufs_put act q q' c cmd cmd' :
  bufs_inv act q -> nt_cmds q !! c = Some cmd ->
  nr_sg cmd' = nr_sg cmd -> nc_iov cmd' = nc_iov cmd ->
  own_view q' = own_view (put_ncmd c cmd' q) -> bufs_inv act q'.
Proof.
  intros [H1 H2 H3 H4 H5 H6] Hc Es Ei (E1 & E2 & E3 & E4 & E5)%own_view_inv.
  unfold put_ncmd in *. simpl in *.
  assert (forall d x, nt_cmds q' !! d = Some x ->
    exists y, nt_cmds q !! d = Some y /\ nr_sg x = nr_sg y /\ nc_iov x = nc_iov y) as Hback.
  { intros d x. rewrite E2. destruct (decide (c = d)) as [->|Hne].
    - rewrite lookup_insert_eq. intros [= <-]. by exists cmd.
    - rewrite lookup_insert_ne by done. intros Hx. by exists x. }
  constructor; rewrite ?E1, ?E3, ?E4, ?E5; try done.
  - intros d Hd. rewrite E2, lookup_insert_is_Some'. right. by apply H2.
  - intros d x Hd (y & Hy & F1 & F2)%Hback. destruct (H3 d y Hd Hy) as [A B].
    unfold buf_ok. rewrite E3, E4, F1, F2. done.
  - intros d1 d2 a b Hd1 Hd2 Hne (a' & Ha & F1 & F2)%Hback (b' & Hb & F3 & F4)%Hback.
    unfold apart. rewrite F1, F2, F3, F4. by apply (H4 d1 d2).
Qed.

(** ** Release *)

(** What does not change when commands are released. *)
Definition outer q : nvmet_tcp_queue :=
  q <| nt_live := [] |> <| nt_sgls := ∅ |> <| nt_free_list := [] |>.

Definition gives_back (c : Z) : list Z := if c =? connect_id then [] else [c].

Lemma obj_free_ok n q :
  n ∈ nt_live q ->
  obj_free (Some n) q = Some (q <| nt_live ::= filter (fun m => m <> n) |>).
Proof. intros H. unfold obj_free. by rewrite bool_decide_true. Qed.

Lemma sgl_free_ok n q : is_Some (nt_sgls q !! n) -> sgl_free (Some n) q = Some (q <| nt_sgls ::= delete n |>).
Proof. intros [l H]. unfold sgl_free. by rewrite H. Qed.

(** Freeing the buffers of a command whose own they are. *)
Lemma free_bufs_ok act q c cmd :
  bufs_inv (c :: act) q -> nt_cmds q !! c = Some cmd ->
  exists q', (q ← obj_free (nc_iov cmd) q; sgl_free (nr_sg cmd) q) = Some q'
    /\ outer q' = outer q /\ nt_free_list q' = nt_free_list q /\ bufs_inv act q'
    /\ (forall d x, d ∈ act -> nt_cmds q !! d = Some x -> req_sg x q' = req_sg x q).
Proof.
  intros Hi Hc. pose proof Hi as [H1 H2 H3 H4 H5 H6].
  destruct (H3 c cmd) as [Hs Hv]; [set_solver|done|].
  set (q1 := match nc_iov cmd with Some n => q <| nt_live ::= filter (fun m => m <> n) |> | None => q end).
  set (q2 := match nr_sg cmd with Some n => q1 <| nt_sgls ::= delete n |> | None => q1 end).
  assert (obj_free (nc_iov cmd) q = Some q1) as E1.
  { unfold q1. destruct (nc_iov cmd) as [n|]; [|done]. apply obj_free_ok. auto. }
  assert (nt_sgls q1 = nt_sgls q) as G1 by (unfold q1; by destruct (nc_iov cmd)).
  assert (sgl_free (nr_sg cmd) q1 = Some q2) as E2.
  { unfold q2. destruct (nr_sg cmd) as [n|]; [|done]. apply sgl_free_ok. rewrite G1. auto. }
  assert (outer q2 = outer q /\ nt_free_list q2 = nt_free_list q /\ nt_cmds q2 = nt_cmds q
    /\ nt_allocs q2 = nt_allocs q) as (O1 & O2 & O3 & O4).
  { unfold q2, q1. by destruct (nc_iov cmd), (nr_sg cmd). }
  assert (forall n, nr_sg cmd <> Some n -> nt_sgls q2 !! n = nt_sgls q !! n) as Gs.
  { intros n Hn. unfold q2. destruct (nr_sg cmd) as [m|]; [|by rewrite G1]. simpl.
    rewrite lookup_delete_ne by congruence. by rewrite G1. }
  assert (forall n, nc_iov cmd <> Some n -> n ∈ nt_live q -> n ∈ nt_live q2) as Gv.
  { intros n Hn Hin. assert (nt_live q2 = nt_live q1) as -> by (unfold q2; by destruct (nr_sg cmd)).
    unfold q1. destruct (nc_iov cmd) as [m|]; [|done]. simpl. apply list_elem_of_filter. split; [congruence|done]. }
  assert (forall d x, d ∈ act -> nt_cmds q !! d = Some x -> apart cmd x) as Hap.
  { intros d x Hd Hx. apply (H4 c d); [set_solver|set_solver| |done|done].
    intros ->. apply NoDup_app in H1 as (_ & _ & D). apply NoDup_cons in D as [D _]. done. }
  exists q2. rewrite E1. simpl. split; [done|]. split; [done|]. split; [done|]. split.
  - apply bufs_drop in Hi as [K1 K2 K3 K4 K5 K6]. constructor; rewrite ?O2, ?O3, ?O4; try done.
    + intros d x Hd Hx. destruct (K3 d x Hd Hx) as [A B]. destruct (Hap d x Hd Hx) as [F1 F2]. split.
      * intros n Hn. rewrite Gs; [auto|]. intros E. rewrite F1 in E; [done|]. congruence.
      * intros n Hn. apply Gv; [|auto]. intros E. rewrite F2 in E; [done|]. congruence.
    + intros n Hn. apply K5. destruct (decide (nr_sg cmd = Some n)) as [E|E].
      * rewrite E in E2. auto.
      * by rewrite <- Gs.
    + intros n Hn. apply K6. assert (nt_live q2 = nt_live q1) as G by (unfold q2; by destruct (nr_sg cmd)).
      rewrite G in Hn. unfold q1 in Hn. destruct (nc_iov cmd); [|done]. simpl in Hn.
      by apply list_elem_of_filter in Hn as [_ ?].
  - intros d x Hd Hx. unfold req_sg. destruct (nr_sg x) as [n|] eqn:En; [|done]. simpl. apply Gs.
    intros E. destruct (Hap d x Hd Hx) as [F1 _]. rewrite F1 in E; [done|]. congruence.
Qed.

Lemma release_ok act q c :
  bufs_inv (c :: act) q ->
  exists q', release_cmd c q = Some q' /\ outer q' = outer q
    /\ nt_free_list q' = nt_free_list q ++ gives_back c /\ bufs_inv act q'
    /\ (forall d x, d ∈ act -> nt_cmds q !! d = Some x -> req_sg x q' = req_sg x q).
Proof.
  intros Hi. destruct (bufs_lookup c _ _ Hi) as [cmd Hc]; [set_solver|].
  destruct (free_bufs_ok act q c cmd Hi Hc) as (q1 & E & Ho & Hf & Hb & Hr).
  apply bind_Some in E as (q0 & E0 & E1).
  exists (nvmet_tcp_put_cmd c q1). split.
  { unfold release_cmd. rewrite Hc. simpl. rewrite E0. simpl. by rewrite E1. }
  assert (nt_cmds q1 = nt_cmds q) as Ecm by exact (f_equal nt_cmds Ho).
  unfold nvmet_tcp_put_cmd, gives_back. destruct (Z.eqb_spec c connect_id) as [->|Hne].
  { rewrite app_nil_r. done. }
  split; [exact Ho|]. split; [simpl; by rewrite Hf|]. split.
  - destruct Hb as [K1 K2 K3 K4 K5 K6]. constructor; simpl; try done.
    + rewrite Hf. pose proof (bi_nodup _ _ Hi) as Hn. rewrite <- app_assoc. done.
    + rewrite Hf, Ecm. intros d Hd. apply (bi_cmd _ _ Hi). rewrite <- app_assoc in Hd. done.
  - intros d x Hd Hx. exact (Hr d x Hd Hx).
Qed.

Lemma release_all_ok l act q :
  bufs_inv (l ++ act) q ->
  exists q', foldM (fun q c => release_cmd c q) q l = Some q' /\ outer q' = outer q
    /\ nt_free_list q' = nt_free_list q ++ concat (gives_back <$> l) /\ bufs_inv act q'
    /\ (forall d x, d ∈ act -> nt_cmds q !! d = Some x -> req_sg x q' = req_sg x q).
Proof.
  revert q. induction l as [|c l IH]; intros q Hi.
  { exists q. simpl. rewrite app_nil_r. done. }
  destruct (release_ok (l ++ act) q c Hi) as (q1 & E1 & Ho1 & Hf1 & Hb1 & Hr1).
  destruct (IH q1 Hb1) as (q2 & E2 & Ho2 & Hf2 & Hb2 & Hr2).
  exists q2. simpl. rewrite E1. simpl. rewrite E2. split; [done|]. split; [congruence|].
  split; [rewrite Hf2, Hf1, app_assoc; done|]. split; [done|].
  intros d x Hd Hx. rewrite (Hr2 d x); [apply (Hr1 d x); [set_solver|done]|done|].
  change (nt_cmds (outer q1) !! d = Some x). by rewrite Ho1.
Qed.
End own.
