(* ===== verification/NvmetTcpSendSpec.v ===== *)
(** * NVMe/TCP target: the byte stream and the order of the answers

    The bytes that a queue owes are, in order, what is on the wire, what is in
    the caravan, what is left of the current command, and the answers to the
    commands that were handed back.  This file defines the invariant and the
    bytes; the steps are in NvmetTcpStream. *)
From S2P Require Import Prelude NvmeTcp NvmeTcpSend NvmeTcpRecv NvmetTcp NvmetTcpSend NvmetTcpOwn.

(** ** Bytes of buffers *)

Lemma kvec_bytes_length v : length (kvec_bytes v) = Z.to_nat (iov_len v).
Proof. unfold kvec_bytes. by rewrite length_fmap, length_seqZ. Qed.

Lemma kvec_bytes_take b o n m :
  0 <= m <= n -> take (Z.to_nat m) (kvec_bytes (mk_kvec (b, o) n)) = kvec_bytes (mk_kvec (b, o) m).
Proof.
  intros H. unfold kvec_bytes. simpl. apply list_eq. intros i.
  destruct (decide (i < Z.to_nat m)%nat).
  - rewrite lookup_take_lt by lia. rewrite !list_lookup_fmap, !lookup_seqZ_lt by lia. done.
  - rewrite lookup_take_ge by lia. rewrite list_lookup_fmap, lookup_seqZ_ge by lia. done.
Qed.

Lemma kvec_bytes_drop b o n m :
  0 <= m <= n ->
  drop (Z.to_nat m) (kvec_bytes (mk_kvec (b, o) n)) = kvec_bytes (mk_kvec (b, o + m) (n - m)).
Proof.
  intros H. unfold kvec_bytes. simpl. apply list_eq. intros i. rewrite lookup_drop, !list_lookup_fmap.
  destruct (decide (i < Z.to_nat (n - m))%nat).
  - rewrite !lookup_seqZ_lt by lia. simpl. do 2 f_equal. lia.
  - rewrite !lookup_seqZ_ge by lia. done.
Qed.

(** Sending [m] of [n] bytes leaves the rest. *)
Lemma kvec_bytes_split b o n m :
  0 <= m <= n ->
  kvec_bytes (mk_kvec (b, o) n)
  = kvec_bytes (mk_kvec (b, o) m) ++ kvec_bytes (mk_kvec (b, o + m) (n - m)).
Proof.
  intros H. rewrite <- (take_drop (Z.to_nat m) (kvec_bytes (mk_kvec (b, o) n))).
  by rewrite kvec_bytes_take, kvec_bytes_drop.
Qed.

Lemma kvec_bytes_buf v x : x ∈ kvec_bytes v -> x.1 = (iov_base v).1.
Proof. unfold kvec_bytes. intros (i & -> & _)%list_elem_of_fmap. done. Qed.

Definition kv_total (l : list kvec) : Z := foldr (fun v n => iov_len v + n) 0 l.

Lemma kv_total_app l1 l2 : kv_total (l1 ++ l2) = kv_total l1 + kv_total l2.
Proof. induction l1 as [|v l IH]; simpl; [done|]. rewrite IH. lia. Qed.

Lemma kv_total_length l :
  Forall (fun v => 0 < iov_len v) l -> Z.of_nat (length (concat (kvec_bytes <$> l))) = kv_total l.
Proof.
  induction 1 as [|v l Hv _ IH]; [done|].
  rewrite fmap_cons. simpl. rewrite length_app, kvec_bytes_length. lia.
Qed.

(** The data of a scatter list, as it is sent: the offset of an entry is not
    used. *)
Definition sg_kvec (s : scatterlist) : kvec := mk_kvec (TPage (sl_page s), 0) (sl_length s).
Definition sg_out (l : list scatterlist) : list (tbuf * Z) := concat (kvec_bytes <$> (sg_kvec <$> l)).

Definition sg_pos (l : list scatterlist) : Prop :=
  l <> [] /\ Forall (fun s => 0 < sl_length s < 2 ^ 20) l.

(** The scatter list of [len] bytes: full pages and the rest. *)
Definition sg_ok {pt : NvmetProto} (l : list scatterlist) (len : Z) : Prop :=
  Z.of_nat (length l) = DIV_ROUND_UP len PAGE_SIZE /\
  forall i s, l !! i = Some s ->
    sl_offset s = 0 /\ sl_length s = Z.min PAGE_SIZE (len - Z.of_nat i * PAGE_SIZE).

Section spec.
Context {pr : NvmeTcpProto} {pt : NvmetProto} {ne : NvmetEnv} {ly : PduLayout} (pm : nvmet_params).
Implicit Types (q : nvmet_tcp_queue) (cmd : nvmet_tcp_cmd).

(** ** What is owed *)

(** The response that ends a command, unless the data PDU says it all. *)
Definition rsp_bytes q (c : Z) : list (tbuf * Z) :=
  kvec_bytes (mk_kvec (TRsp c, 0) (sizeof_rsp_pdu + nvmet_tcp_hdgst_len q)).
Definition tail_bytes q (c : Z) : list (tbuf * Z) := if nt_sqhd_disabled q then [] else rsp_bytes q c.

(** What is left to send of command [c]. *)
Definition cmd_bytes q (c : Z) cmd : list (tbuf * Z) :=
  let o := nc_offset cmd in
  let h := nvmet_tcp_hdgst_len q in
  let l := default [] (req_sg cmd q) in
  match nc_state cmd with
  | NVMET_TCP_SEND_DATA_PDU =>
    kvec_bytes (mk_kvec (TData c, o) (sizeof_data_pdu + h - o)) ++ sg_out l ++ tail_bytes q c
  | NVMET_TCP_SEND_DATA =>
    drop (Z.to_nat o) (sg_out (drop (default 0%nat (nc_cur_sg cmd)) l)) ++ tail_bytes q c
  | NVMET_TCP_SEND_R2T => kvec_bytes (mk_kvec (TR2t c, o) (sizeof_r2t_pdu + h - o))
  | NVMET_TCP_SEND_DDGST => []
  | NVMET_TCP_SEND_RESPONSE => kvec_bytes (mk_kvec (TRsp c, o) (sizeof_rsp_pdu + h - o))
  end.

(** The answer to a command that was handed back. *)
Definition answer q (c : Z) : list (tbuf * Z) :=
  match nt_cmds q !! c with
  | None => []
  | Some cmd =>
    let h := nvmet_tcp_hdgst_len q in
    if nvmet_tcp_need_data_out cmd
    then kvec_bytes (mk_kvec (TData c, 0) (sizeof_data_pdu + h))
         ++ sg_out (default [] (req_sg cmd q)) ++ tail_bytes q c
    else if nvmet_tcp_need_data_in cmd then kvec_bytes (mk_kvec (TR2t c, 0) (sizeof_r2t_pdu + h))
    else rsp_bytes q c
  end.

Definition out_bytes q : list (tbuf * Z) := nt_wire q ++ concat (kvec_bytes <$> tgt_caravan q).
Definition cur_bytes q : list (tbuf * Z) :=
  match nt_snd_cmd q with
  | None => []
  | Some c => from_option (cmd_bytes q c) [] (nt_cmds q !! c)
  end.

(** ** Commands on their way out *)

(** In the order in which they were handed back. *)
Definition fifo q : list Z := nt_resp_send_list q ++ reverse (nt_resp_list q).
Definition snd_list q : list Z := option_list (nt_snd_cmd q).
Definition sending q : list Z := tgt_caravan_owners q ++ snd_list q ++ fifo q.

(** The data of a command can be sent, from its first byte. *)
Definition data_ready q cmd : Prop :=
  nc_cur_sg cmd = Some 0%nat /\ exists l, req_sg cmd q = Some l /\ sg_pos l.

(** The command can wait for data from the host: there is room for all of it. *)
Record awaitable q (c : Z) cmd : Prop := {
  aw_tag : c <> connect_id;
  aw_write : nvme_is_write (nr_cmd cmd) = true;
  aw_status : nr_cqe_status cmd = 0;
  aw_flags : has_flag (nc_flags cmd) NVMET_TCP_F_INIT_FAILED = false;
  aw_range : 0 <= nc_rbytes_done cmd < nr_transfer_len cmd /\ nr_transfer_len cmd < 2 ^ 32;
  aw_iov : nc_iov cmd <> None;
  aw_sg : exists l, req_sg cmd q = Some l /\ sg_ok l (nr_transfer_len cmd);
}.

Definition ready q (c : Z) cmd : Prop :=
  (nvmet_tcp_need_data_out cmd = true -> data_ready q cmd)
  /\ (nvmet_tcp_need_data_in cmd = true -> awaitable q c cmd).

(** The position in a PDU of [n] bytes. *)
Definition at_pdu q cmd (n : Z) : Prop :=
  0 <= nc_offset cmd < n + nvmet_tcp_hdgst_len q /\ (aggregated pm q = true -> nc_offset cmd = 0).

(** The current command. *)
Definition snd_wf q (c : Z) cmd : Prop :=
  match nc_state cmd with
  | NVMET_TCP_SEND_DATA_PDU => at_pdu q cmd sizeof_data_pdu /\ data_ready q cmd
  | NVMET_TCP_SEND_DATA =>
    (aggregated pm q = true -> nc_offset cmd = 0)
    /\ exists l i s, req_sg cmd q = Some l /\ sg_pos l /\ nc_cur_sg cmd = Some i /\ l !! i = Some s
      /\ 0 <= nc_offset cmd < sl_length s
  | NVMET_TCP_SEND_R2T => at_pdu q cmd sizeof_r2t_pdu /\ awaitable q c cmd
  | NVMET_TCP_SEND_DDGST => False
  | NVMET_TCP_SEND_RESPONSE => at_pdu q cmd sizeof_rsp_pdu
  end.

(** ** The caravan *)

Record car_wf q : Prop := {
  cw_iovs : Z.of_nat (length (nt_caravan_iovs q)) = I10_TARGET_SEND_BUDGET * 3;
  cw_cmds : Z.of_nat (length (nt_caravan_cmds q)) = I10_TARGET_SEND_BUDGET;
  cw_mapped : Z.of_nat (length (nt_caravan_mapped q)) = I10_TARGET_SEND_BUDGET;
  cw_nr : 0 <= nt_nr_iovs q <= I10_TARGET_SEND_BUDGET * 3;
  cw_nrc : 0 <= nt_nr_caravan_cmds q <= I10_TARGET_SEND_BUDGET;
  cw_nrm : 0 <= nt_nr_caravan_mapped q <= I10_TARGET_SEND_BUDGET;
  cw_len : nt_caravan_len q = kv_total (tgt_caravan q);
  cw_pos : Forall (fun v => 0 < iov_len v) (tgt_caravan q);
  cw_max : nt_caravan_len q < I10_CARAVAN_CAPACITY + 2 ^ 20;
  cw_aggr : aggregated pm q = false -> nt_nr_iovs q = 0;
  cw_empty : nt_nr_iovs q = 0 -> nt_nr_caravan_cmds q = 0 /\ nt_nr_caravan_mapped q = 0;
}.

(** The pages of the current command may be in the caravan. *)
Definition sent_pages cmd : bool :=
  match nc_state cmd with NVMET_TCP_SEND_DATA | NVMET_TCP_SEND_RESPONSE => true | _ => false end.

(** A page of the caravan belongs to a command that still waits for it. *)
Definition page_owned q (p : Z) : Prop :=
  exists c cmd l, (c ∈ tgt_caravan_owners q \/ nt_snd_cmd q = Some c /\ sent_pages cmd = true)
    /\ nt_cmds q !! c = Some cmd /\ req_sg cmd q = Some l /\ p ∈ sl_page <$> l.

(** ** The invariant

    [others] are the active commands that are not on their way out: they are
    received, executed, or wait for data. *)
Record send_inv (others : list Z) q : Prop := {
  si_state : nt_state q = NVMET_TCP_Q_LIVE;
  si_digest : nt_data_digest q = false;
  si_success : aggregated pm q = true -> nt_sqhd_disabled q = false;
  si_bufs : bufs_inv (sending q ++ others) q;
  si_car : car_wf q;
  si_pages : forall v p, v ∈ tgt_caravan q -> (iov_base v).1 = TPage p -> page_owned q p;
  si_ready : forall c cmd, c ∈ fifo q -> nt_cmds q !! c = Some cmd -> ready q c cmd;
  si_snd : forall c cmd, nt_snd_cmd q = Some c -> nt_cmds q !! c = Some cmd -> snd_wf q c cmd;
}.

(** ** Steps *)

(** What sending does not touch. *)
Definition fixed q : nvmet_tcp_queue :=
  q <| nt_cmds := ∅ |> <| nt_free_list := [] |> <| nt_resp_list := [] |> <| nt_resp_send_list := [] |>
    <| nt_send_list_len := 0 |> <| nt_snd_cmd := None |> <| nt_caravan_iovs := [] |> <| nt_nr_iovs := 0 |>
    <| nt_caravan_len := 0 |> <| nt_caravan_cmds := [] |> <| nt_nr_caravan_cmds := 0 |>
    <| nt_send_now := false |> <| nt_caravan_mapped := [] |> <| nt_nr_caravan_mapped := 0 |>
    <| nt_live := [] |> <| nt_sgls := ∅ |> <| nt_kmaps := [] |> <| nt_wire := [] |> <| nt_calls := 0%nat |>
    <| nt_nospace := false |>.

(** The socket takes every message of the calls between the two states for which
    it has room as a whole. *)
Definition accepted q q' : Prop :=
  forall n l size, (nt_calls q <= n < nt_calls q')%nat -> size <= tgt_wspace n ->
    tgt_sendmsg n l size = size.

(** The bytes [bs] are added to those that were given out or owed.  Nothing is
    added, repeated or moved; when the socket takes every caravan as a whole,
    nothing is missing. *)
Definition grows (bs : list (tbuf * Z)) q q' : Prop :=
  out_bytes q' ++ cur_bytes q' `sublist_of` out_bytes q ++ cur_bytes q ++ bs
  /\ (accepted q q' -> out_bytes q' ++ cur_bytes q' = out_bytes q ++ cur_bytes q ++ bs).

(** The commands [l] were fetched and the commands [r] now wait for data. *)
Record send_step (others : list Z) (l r : list Z) q q' : Prop := {
  ss_inv : send_inv (r ++ others) q';
  ss_fixed : fixed q' = fixed q;
  ss_fifo : fifo q = l ++ fifo q';
  ss_bytes : grows (concat (answer q <$> l)) q q';
  ss_calls : (nt_calls q <= nt_calls q')%nat;
  ss_wire : nt_wire q `prefix_of` nt_wire q';
  ss_frame : forall c cmd, c ∈ fifo q' ++ others -> nt_cmds q !! c = Some cmd ->
    nt_cmds q' !! c = Some cmd /\ req_sg cmd q' = req_sg cmd q;
}.

(** What the bytes of a command depend on. *)
Definition bview q := (nt_hdr_digest q, nt_sqhd_disabled q, aggregated pm q).

Lemma fixed_bview q q' : fixed q' = fixed q -> bview q' = bview q.
Proof.
  intros H. unfold bview. f_equal; [f_equal|].
  - exact (f_equal nt_hdr_digest H).
  - exact (f_equal nt_sqhd_disabled H).
  - exact (f_equal (aggregated pm) H).
Qed.

Lemma bview_inv q q' :
  bview q' = bview q -> nvmet_tcp_hdgst_len q' = nvmet_tcp_hdgst_len q
    /\ nt_sqhd_disabled q' = nt_sqhd_disabled q /\ aggregated pm q' = aggregated pm q.
Proof. unfold bview, nvmet_tcp_hdgst_len. intros H. injection H as -> -> ->. done. Qed.

Lemma tail_bytes_view q q' c : bview q' = bview q -> tail_bytes q' c = tail_bytes q c /\ rsp_bytes q' c = rsp_bytes q c.
Proof. intros (E1 & E2 & E3)%bview_inv. unfold tail_bytes, rsp_bytes. by rewrite E1, E2. Qed.

Lemma cmd_bytes_view q q' c cmd :
  bview q' = bview q -> req_sg cmd q' = req_sg cmd q -> cmd_bytes q' c cmd = cmd_bytes q c cmd.
Proof.
  intros Hv Hs. destruct (tail_bytes_view q q' c Hv) as [E _]. apply bview_inv in Hv as (E1 & _).
  unfold cmd_bytes. by rewrite E, E1, Hs.
Qed.

Lemma answer_view q q' c cmd :
  bview q' = bview q -> nt_cmds q !! c = Some cmd -> nt_cmds q' !! c = Some cmd ->
  req_sg cmd q' = req_sg cmd q -> answer q' c = answer q c.
Proof.
  intros Hv Hc Hc' Hs. destruct (tail_bytes_view q q' c Hv) as [E E0]. apply bview_inv in Hv as (E1 & _).
  unfold answer. by rewrite Hc, Hc', E, E0, E1, Hs.
Qed.

Lemma awaitable_view q q' c cmd : req_sg cmd q' = req_sg cmd q -> awaitable q c cmd -> awaitable q' c cmd.
Proof. intros Hs []. constructor; try done. by rewrite Hs. Qed.

Lemma snd_wf_view q q' c cmd :
  bview q' = bview q -> req_sg cmd q' = req_sg cmd q -> snd_wf q c cmd -> snd_wf q' c cmd.
Proof.
  intros (E1 & _ & E3)%bview_inv Hs. unfold snd_wf, at_pdu, data_ready. rewrite E1, E3, Hs.
  destruct (nc_state cmd); try done. intros [H1 H2]. split; [done|]. by apply (awaitable_view q).
Qed.

Lemma ready_view q q' c cmd : req_sg cmd q' = req_sg cmd q -> ready q c cmd -> ready q' c cmd.
Proof.
  intros Hs [H1 H2]. split; [unfold data_ready; by rewrite Hs|]. intros H. apply (awaitable_view q); auto.
Qed.

Lemma answers_view l q q' :
  bview q' = bview q ->
  (forall c, c ∈ l -> exists cmd, nt_cmds q !! c = Some cmd /\ nt_cmds q' !! c = Some cmd
     /\ req_sg cmd q' = req_sg cmd q) ->
  concat (answer q' <$> l) = concat (answer q <$> l).
Proof.
  intros Hv H. f_equal. apply list_fmap_ext. intros i c Hc%list_elem_of_lookup_2.
  destruct (H c Hc) as (cmd & H1 & H2 & H3). by apply (answer_view q q' c cmd).
Qed.

Lemma send_inv_lookup others q c :
  send_inv others q -> c ∈ sending q ++ others -> exists cmd, nt_cmds q !! c = Some cmd.
Proof. intros H. apply bufs_lookup. apply (si_bufs _ _ H). Qed.

Lemma grows_eq bs q q' :
  out_bytes q' ++ cur_bytes q' = out_bytes q ++ cur_bytes q ++ bs -> grows bs q q'.
Proof. intros E. unfold grows. by rewrite E. Qed.

Lemma grows_trans b1 b2 q q1 q2 :
  (nt_calls q <= nt_calls q1)%nat -> (nt_calls q1 <= nt_calls q2)%nat ->
  grows b1 q q1 -> grows b2 q1 q2 -> grows (b1 ++ b2) q q2.
Proof.
  intros L1 L2 [A1 A2] [B1 B2]. split.
  - etrans; [exact B1|]. rewrite !app_assoc. rewrite <- (app_assoc _ _ b1). by apply sublist_app.
  - intros Ha. rewrite B2, (app_assoc (out_bytes q1)), A2, <- !app_assoc; [done| |].
    + intros n l size Hn. apply Ha. lia.
    + intros n l size Hn. apply Ha. lia.
Qed.

Lemma send_step_refl others q : send_inv others q -> send_step others [] [] q q.
Proof. intros H. constructor; try done. apply grows_eq. simpl. by rewrite app_nil_r. Qed.

Lemma send_step_trans others l1 l2 r1 r2 q q1 q2 :
  send_inv others q -> send_step others l1 r1 q q1 -> send_step (r1 ++ others) l2 r2 q1 q2 ->
  send_step others (l1 ++ l2) (r2 ++ r1) q q2.
Proof.
  intros Hi [A1 A2 A3 A4 A7 A5 A6] [B1 B2 B3 B4 B7 B5 B6].
  assert (forall c, c ∈ fifo q1 -> exists cmd, nt_cmds q !! c = Some cmd /\ nt_cmds q1 !! c = Some cmd
    /\ req_sg cmd q1 = req_sg cmd q) as Hl.
  { intros c Hc. destruct (send_inv_lookup others q c Hi) as [cmd Hcmd].
    { unfold sending. rewrite A3. set_solver. }
    exists cmd. split; [done|]. apply A6; [set_solver|done]. }
  constructor.
  - by rewrite <- app_assoc.
  - congruence.
  - by rewrite A3, B3, app_assoc.
  - rewrite fmap_app, concat_app. apply (grows_trans _ _ q q1 q2); try done.
    rewrite <- (answers_view l2 q q1); [done|by apply fixed_bview|].
    intros c Hc. apply Hl. rewrite B3. set_solver.
  - lia.
  - by etrans.
  - intros c cmd Hc Hcmd. destruct (A6 c cmd) as [H1 H2]; [rewrite B3; set_solver|done|].
    destruct (B6 c cmd) as [H3 H4]; [set_solver|done|]. split; [done|congruence].
Qed.

(** ** R2Ts *)

(** The R2T of the command has been given out. *)
Definition r2t_done q cmd : Prop :=
  nc_state cmd = NVMET_TCP_SEND_R2T /\ nc_offset cmd = sizeof_r2t_pdu + nvmet_tcp_hdgst_len q.

Definition waits (r : list Z) q : Prop :=
  forall d x, d ∈ r -> nt_cmds q !! d = Some x -> awaitable q d x.

(** The R2Ts that a step which fetched [l] has given out are those of [r]. *)
Record r2t_post (l r : list Z) q q' : Prop := {
  rp_done : forall d x, nt_cmds q' !! d = Some x -> r2t_done q' x ->
    d ∈ r \/ d ∉ l /\ nt_cmds q !! d = Some x;
  rp_wait : waits r q';
}.

Lemma r2t_done_view q q' x : bview q' = bview q -> r2t_done q' x -> r2t_done q x.
Proof. intros (E1 & _)%bview_inv [H1 H2]. split; [done|]. by rewrite <- E1. Qed.

Lemma waits_step others l r r1 q q' :
  send_inv (r1 ++ others) q -> send_step (r1 ++ others) l r q q' -> waits r1 q -> waits r1 q'.
Proof.
  intros Hi [S1 S2 S3 S4 S7 S5 S6] Hw d x Hd Hx.
  destruct (send_inv_lookup _ q d Hi) as [y Hy]; [set_solver|].
  destruct (S6 d y) as [H1 H2]; [set_solver|done|]. assert (x = y) as -> by congruence.
  apply (awaitable_view q); [done|]. by apply Hw.
Qed.

Lemma r2t_post_trans others l1 l2 r1 r2 q q1 q2 :
  send_step others l1 r1 q q1 -> send_step (r1 ++ others) l2 r2 q1 q2 ->
  r2t_post l1 r1 q q1 -> r2t_post l2 r2 q1 q2 -> r2t_post (l1 ++ l2) (r2 ++ r1) q q2.
Proof.
  intros S1 S2 [A1 A2] [B1 B2]. constructor.
  - intros d x Hx Hd. destruct (B1 d x Hx Hd) as [H|[H1 H2]]; [set_solver|].
    assert (r2t_done q1 x) as Hd1 by (apply (r2t_done_view q1 q2); [by apply fixed_bview, S2|done]).
    destruct (A1 d x H2 Hd1) as [H|[H3 H4]]; [set_solver|]. right. split; [set_solver|done].
  - intros d x [Hd|Hd]%elem_of_app Hx; [by apply B2|].
    apply (waits_step others l2 r2 r1 q1 q2); try done. apply S1.
Qed.

Lemma snd_wf_not_done q c cmd : snd_wf q c cmd -> ~ r2t_done q cmd.
Proof. unfold snd_wf, r2t_done. intros H [E1 E2]. rewrite E1 in H. destruct H as [[H _] _]. lia. Qed.
End spec.
