(* ===== verification/NvmetTcpStream.v ===== *)
(** * NVMe/TCP target: every send step keeps the byte stream

    The steps of the send state machine, with caravans and without: each is
    defined, stays within the arrays of the caravan, frees no buffer twice or too
    early, and moves bytes from what is owed to the wire in order. *)
From S2P Require Import Prelude NvmeTcp NvmeTcpSend NvmeTcpRecv NvmetTcp NvmetTcpSend NvmetTcpOwn NvmetTcpSendSpec.

(** The socket takes no more than it is given. *)
Class NvmetSockLaws (ne : NvmetEnv) : Prop := {
  tgt_sendpage_le : forall n v, tgt_sendpage n v <= iov_len v;
}.

Section stream.
Context {pr : NvmeTcpProto} {pt : NvmetProto} {pl : NvmetProtoLaws pr pt} {ne : NvmetEnv}
  {sl : NvmetSockLaws ne} {ly : PduLayout} (pm : nvmet_params).
Implicit Types (q : nvmet_tcp_queue) (cmd : nvmet_tcp_cmd).

(** ** Giving bytes to the socket or the caravan *)

Definition still q : nvmet_tcp_queue :=
  q <| nt_caravan_iovs := [] |> <| nt_nr_iovs := 0 |> <| nt_caravan_len := 0 |>
    <| nt_caravan_mapped := [] |> <| nt_nr_caravan_mapped := 0 |> <| nt_kmaps := [] |>
    <| nt_wire := [] |> <| nt_calls := 0%nat |> <| nt_send_now := false |>.

Record emit (bs : list (tbuf * Z)) q q' : Prop := {
  em_still : still q' = still q;
  em_car : car_wf pm q';
  em_out : out_bytes q' = out_bytes q ++ bs;
  em_wire : nt_wire q `prefix_of` nt_wire q';
  em_calls : (nt_calls q <= nt_calls q')%nat;
  em_pages : forall v, v ∈ tgt_caravan q' ->
    v ∈ tgt_caravan q \/ exists x, x ∈ bs /\ x.1 = (iov_base v).1;
}.

Lemma still_aggr q q' : still q' = still q -> aggregated pm q' = aggregated pm q.
Proof. intros H. exact (f_equal (aggregated pm) H). Qed.

Lemma full_false q :
  i10_target_is_caravan_full q = false ->
  nt_caravan_len q < I10_CARAVAN_CAPACITY /\ nt_nr_iovs q < I10_TARGET_SEND_BUDGET * 3
  /\ nt_nr_caravan_cmds q < I10_TARGET_SEND_BUDGET /\ nt_nr_caravan_mapped q < I10_TARGET_SEND_BUDGET.
Proof. unfold i10_target_is_caravan_full. intros H. repeat apply orb_false_elim in H as [H ?]. lia. Qed.

Lemma take_insert_end {A} (l : list A) n x :
  (n < length l)%nat -> take (S n) (<[n := x]> l) = take n l ++ [x].
Proof.
  intros H. rewrite (take_S_r _ _ x) by by apply list_lookup_insert_eq.
  by rewrite take_insert_ge by lia.
Qed.

Lemma caravan_total_nonneg q : car_wf pm q -> 0 <= nt_caravan_len q.
Proof.
  intros Hw. rewrite (cw_len _ _ Hw). pose proof (cw_pos _ _ Hw) as Hp. revert Hp.
  generalize (tgt_caravan q). induction 1; simpl; lia.
Qed.

Lemma tgt_caravan_add_ok v q :
  car_wf pm q -> aggregated pm q = true -> i10_target_is_caravan_full q = false ->
  0 < iov_len v < 2 ^ 20 ->
  exists q', tgt_caravan_add v q = Some q' /\ still q' = still q /\ car_wf pm q'
    /\ tgt_caravan q' = tgt_caravan q ++ [v]
    /\ (nt_wire q', nt_calls q') = (nt_wire q, nt_calls q)
    /\ nt_caravan_mapped q' = nt_caravan_mapped q /\ nt_nr_caravan_mapped q' = nt_nr_caravan_mapped q.
Proof.
  intros Hw Ha Hf Hv. pose proof (caravan_total_nonneg q Hw) as H0.
  pose proof Hw as [H1 H2 H3 H4 H5 H6 H7 H8 H9 H10 H11].
  apply full_false in Hf as (F1 & F2 & F3 & F4).
  unfold tgt_caravan_add. rewrite aset_lt by lia. simpl.
  set (iovs := <[Z.to_nat (nt_nr_iovs q) := v]> (nt_caravan_iovs q)).
  assert (take (Z.to_nat (nt_nr_iovs q + 1)) iovs = tgt_caravan q ++ [v]) as E.
  { rewrite Z2Nat.inj_add by lia. rewrite Nat.add_1_r. apply take_insert_end. lia. }
  assert (u64 (nt_caravan_len q + iov_len v) = nt_caravan_len q + iov_len v) as El.
  { apply u64_small. unfold I10_CARAVAN_CAPACITY in *. lia. }
  eexists. split; [done|]. split; [done|]. split; [|done].
  constructor; simpl; try done.
  - unfold iovs. by rewrite length_insert.
  - lia.
  - unfold tgt_caravan. simpl. rewrite E, kv_total_app, El, H7. simpl. lia.
  - unfold tgt_caravan. simpl. rewrite E. apply Forall_app. split; [done|]. apply Forall_singleton. lia.
  - rewrite El. lia.
  - intros Hx. change (aggregated pm q = false) in Hx. congruence.
  - lia.
Qed.

(** The caravan path. *)
Lemma emit_caravan v q q' :
  0 < iov_len v -> still q' = still q -> car_wf pm q' -> tgt_caravan q' = tgt_caravan q ++ [v] ->
  (nt_wire q', nt_calls q') = (nt_wire q, nt_calls q) -> emit (kvec_bytes v) q q'.
Proof.
  intros Hv Hs Hw Hc [= Hwire Hcalls]. constructor; try done.
  - unfold out_bytes. rewrite Hwire, Hc, fmap_app, concat_app. simpl. by rewrite app_nil_r, app_assoc.
  - by rewrite Hwire.
  - by rewrite Hcalls.
  - intros x. rewrite Hc. intros [Hx|Hx]%elem_of_app; [by left|]. right.
    apply list_elem_of_singleton in Hx as ->.
    destruct (kvec_bytes v) as [|y l] eqn:E.
    + apply (f_equal length) in E. rewrite kvec_bytes_length in E. simpl in E. lia.
    + exists y. split; [set_solver|]. apply kvec_bytes_buf. rewrite E. set_solver.
Qed.

(** The socket path. *)
Lemma emit_socket b o n q :
  0 < n -> car_wf pm q -> aggregated pm q = false ->
  let ret := (tgt_kernel_sendpage (mk_kvec (b, o) n) q).1 in
  let q' := (tgt_kernel_sendpage (mk_kvec (b, o) n) q).2 in
  ret <= n /\ emit (kvec_bytes (mk_kvec (b, o) (Z.max 0 ret))) q q'.
Proof.
  intros Hn Hw Ha ret q'. unfold ret, q', tgt_kernel_sendpage. simpl.
  set (r := tgt_sendpage (nt_calls q) (mk_kvec (b, o) n)).
  assert (r <= n) as Hr by apply (tgt_sendpage_le (nt_calls q) (mk_kvec (b, o) n)).
  split; [done|].
  assert (take (Z.to_nat r) (concat (kvec_bytes <$> [mk_kvec (b, o) n]))
    = kvec_bytes (mk_kvec (b, o) (Z.max 0 r))) as E.
  { simpl. rewrite app_nil_r. replace (Z.to_nat r) with (Z.to_nat (Z.max 0 r)) by lia.
    apply kvec_bytes_take. lia. }
  assert (tgt_caravan q = []) as Ec.
  { unfold tgt_caravan. by rewrite (cw_aggr _ _ Hw Ha). }
  constructor; [done| | | |simpl; lia|].
  - destruct Hw. constructor; done.
  - unfold out_bytes. change (tgt_caravan (tgt_sent r [mk_kvec (b, o) n] q)) with (tgt_caravan q).
    rewrite Ec. simpl. rewrite !app_nil_r. f_equal. rewrite <- E. simpl. by rewrite app_nil_r.
  - simpl. apply prefix_app_r. done.
  - intros v Hv. change (v ∈ tgt_caravan q) in Hv. by left.
Qed.

(** A full caravan is only marked. *)
Lemma emit_now q : car_wf pm q -> emit [] q (q <| nt_send_now := true |>).
Proof.
  intros []. constructor; try done; [by rewrite app_nil_r|]. intros v Hv. by left.
Qed.

(** A PDU of [n] bytes and its digest, from its current position on. *)
Lemma send_pdu_ok b n cmd q :
  car_wf pm q -> at_pdu pm q cmd n -> 0 < n < 2 ^ 7 ->
  let left := s32 (n - nc_offset cmd + nvmet_tcp_hdgst_len q) in
  left = n + nvmet_tcp_hdgst_len q - nc_offset cmd /\
  exists x, send_pdu pm b n left cmd q = Some x /\
    match x with
    | inl q' => emit [] q q'
    | inr (ret, q') => ret <= left /\ (aggregated pm q = true -> ret = left)
      /\ emit (kvec_bytes (mk_kvec (b, nc_offset cmd) (Z.max 0 ret))) q q'
    end.
Proof.
  intros Hw [Ho Ha] Hn left.
  assert (0 <= nvmet_tcp_hdgst_len q < 2 ^ 7) as Hh.
  { unfold nvmet_tcp_hdgst_len. pose proof sizes_ok as H.
    rewrite !Forall_cons in H. destruct (nt_hdr_digest q); lia. }
  assert (left = n + nvmet_tcp_hdgst_len q - nc_offset cmd) as El.
  { unfold left. rewrite s32_small by lia. lia. }
  split; [done|]. unfold send_pdu. destruct (aggregated pm q) eqn:Eg.
  - destruct (i10_target_is_caravan_full q) eqn:Ef.
    { eexists. split; [done|]. by apply emit_now. }
    destruct (tgt_caravan_add_ok (mk_kvec (b, n * nc_offset cmd) left) q) as (q' & E & E1 & E2 & E3 & E4 & _);
      [done|done|done|simpl; lia|].
    rewrite E. simpl. eexists. split; [done|]. simpl. split; [lia|]. split; [done|].
    rewrite Z.max_r by lia.
    replace (nc_offset cmd) with (n * nc_offset cmd) by (rewrite Ha by done; lia).
    apply emit_caravan; simpl; [lia|done|done|done|done].
  - eexists. split; [done|].
    destruct (emit_socket b (nc_offset cmd) left q) as [H1 H2]; [lia|done|done|].
    unfold tgt_kernel_sendpage in *. simpl in *. split; [done|]. split; [done|]. done.
Qed.

(** ** Progress of the current command *)

Lemma still_fixed q q' : still q' = still q -> fixed q' = fixed q.
Proof. intros H. exact (f_equal fixed H). Qed.

Lemma still_own q q' : still q' = still q -> own_view q' = own_view q.
Proof. intros H. exact (f_equal own_view H). Qed.

Lemma own_req_sg q q' cmd : nt_sgls q' = nt_sgls q -> req_sg cmd q' = req_sg cmd q.
Proof. intros H. unfold req_sg. by rewrite H. Qed.

Lemma snd_not_other others q c d :
  send_inv pm others q -> nt_snd_cmd q = Some c -> d ∈ fifo q ++ others -> d <> c.
Proof.
  intros Hi Hc Hd ->. pose proof (bi_nodup _ _ (si_bufs _ _ _ Hi)) as Hn.
  apply NoDup_app in Hn as (_ & _ & Hn). unfold sending, snd_list in Hn. rewrite Hc in Hn. simpl in Hn.
  rewrite <- !app_assoc in Hn. apply NoDup_app in Hn as (_ & _ & Hn).
  apply NoDup_cons in Hn as [Hn _]. done.
Qed.

(** The current command [c] has given out [bs] and is now [cmd'], in its old
    place or a new one ([r]: among those that wait for data). *)
Lemma step_gen others r q q1 q' c cmd cmd' bs rest :
  send_inv pm others q -> nt_snd_cmd q = Some c -> nt_cmds q !! c = Some cmd -> emit bs q q1 ->
  nr_sg cmd' = nr_sg cmd -> nc_iov cmd' = nc_iov cmd ->
  fixed q' = fixed q1 -> own_view q' = own_view (put_ncmd c cmd' q1) ->
  tgt_caravan q' = tgt_caravan q1 -> (nt_wire q', nt_calls q') = (nt_wire q1, nt_calls q1) -> car_wf pm q' ->
  fifo q' = fifo q -> sending q' ++ r ++ others ≡ₚ sending q ++ others ->
  (forall v p, v ∈ tgt_caravan q' -> (iov_base v).1 = TPage p -> page_owned q' p) ->
  (nt_snd_cmd q' = None /\ rest = [] \/ nt_snd_cmd q' = Some c /\ snd_wf pm q c cmd' /\ rest = cmd_bytes q c cmd') ->
  cmd_bytes q c cmd = bs ++ rest ->
  send_step pm others [] r q q'.
Proof.
  intros Hi Hs Hc [M1 M2 M3 M4 M6 M5] Hsg Hiov Hf Hv Hcar [= Hwire Hcalls] Hw Hfifo Hp Hpages Hsnd Hbytes.
  assert (fixed q' = fixed q) as Hfx by (rewrite Hf; by apply still_fixed).
  pose proof (fixed_bview pm _ _ Hfx) as Hbv.
  pose proof (still_own _ _ M1) as (_ & Ecm1 & Esg1 & _ & _)%own_view_inv.
  pose proof Hv as (_ & Ecm & Esg & _ & _)%own_view_inv. simpl in Ecm, Esg.
  rewrite Esg1 in Esg. rewrite Ecm1 in Ecm.
  assert (forall x, req_sg x q' = req_sg x q) as Hrs by (intros x; by apply own_req_sg).
  assert (forall d x, d ∈ fifo q ++ others -> nt_cmds q !! d = Some x -> nt_cmds q' !! d = Some x) as Hoth.
  { intros d x Hd Hx. rewrite Ecm, lookup_insert_ne; [done|].
    intros <-. by apply (snd_not_other others q c c Hi Hs). }
  constructor.
  - constructor.
    + rewrite <- (si_state _ _ _ Hi). exact (f_equal nt_state Hfx).
    + rewrite <- (si_digest _ _ _ Hi). exact (f_equal nt_data_digest Hfx).
    + intros Ha. apply bview_inv in Hbv as (_ & E2 & E3). rewrite E2. apply (si_success _ _ _ Hi). congruence.
    + apply (bufs_perm (sending q ++ others)); [by symmetry|].
      apply (bufs_put (sending q ++ others) q q' c cmd cmd'); try done; [apply (si_bufs _ _ _ Hi)|].
      rewrite Hv. exact (f_equal (fun x => own_view (put_ncmd c cmd' x)) M1).
    + done.
    + done.
    + intros d x Hd Hx. rewrite Hfifo in Hd.
      destruct (send_inv_lookup pm others q d Hi) as [y Hy]; [unfold sending; set_solver|].
      assert (x = y) as -> by (pose proof (Hoth d y) as E; rewrite E in Hx; [congruence|set_solver|done]).
      apply (ready_view q); [done|]. by apply (si_ready _ _ _ Hi).
    + intros d x Hd Hx. destruct Hsnd as [[E _]|(E & Hwf & _)]; [congruence|].
      assert (d = c) as -> by congruence. rewrite Ecm, lookup_insert_eq in Hx. injection Hx as <-.
      by apply (snd_wf_view pm q).
  - done.
  - by rewrite Hfifo.
  - apply grows_eq. simpl. rewrite app_nil_r. unfold out_bytes. rewrite Hcar, Hwire.
    change (out_bytes q1 ++ cur_bytes q' = out_bytes q ++ cur_bytes q). rewrite M3, <- app_assoc. f_equal.
    unfold cur_bytes at 2. rewrite Hs, Hc. simpl. rewrite Hbytes. f_equal. unfold cur_bytes.
    destruct Hsnd as [[-> ->]|(-> & _ & ->)]; [done|].
    rewrite Ecm, lookup_insert_eq. simpl. by apply (cmd_bytes_view pm).
  - by rewrite Hcalls.
  - by rewrite Hwire.
  - intros d x Hd Hx. rewrite Hfifo in Hd. auto.
Qed.

Lemma owner_ne others q c d : send_inv pm others q -> nt_snd_cmd q = Some c -> d ∈ tgt_caravan_owners q -> d <> c.
Proof.
  intros Hi Hc Hd ->. pose proof (bi_nodup _ _ (si_bufs _ _ _ Hi)) as Hn.
  apply NoDup_app in Hn as (_ & _ & Hn). unfold sending, snd_list in Hn. rewrite Hc in Hn. simpl in Hn.
  rewrite <- !app_assoc in Hn. apply NoDup_app in Hn as (_ & Hn & _). apply (Hn c Hd). set_solver.
Qed.

(** The pages of the caravan after a step of [c]. *)
Lemma pages_gen others q q1 q' c cmd cmd' bs :
  send_inv pm others q -> nt_snd_cmd q = Some c -> nt_cmds q !! c = Some cmd -> emit bs q q1 ->
  nr_sg cmd' = nr_sg cmd -> nt_cmds q' = <[c := cmd']> (nt_cmds q) -> nt_sgls q' = nt_sgls q ->
  tgt_caravan q' = tgt_caravan q1 -> (forall d, d ∈ tgt_caravan_owners q -> d ∈ tgt_caravan_owners q') ->
  (sent_pages cmd = true \/ (exists x p, x ∈ bs /\ x.1 = TPage p) ->
    c ∈ tgt_caravan_owners q' \/ nt_snd_cmd q' = Some c /\ sent_pages cmd' = true) ->
  (forall x p, x ∈ bs -> x.1 = TPage p -> exists l, req_sg cmd q = Some l /\ p ∈ sl_page <$> l) ->
  forall v p, v ∈ tgt_caravan q' -> (iov_base v).1 = TPage p -> page_owned q' p.
Proof.
  intros Hi Hs Hc Hm Hsg Hcm Hsgl Hcar Hown Hcur Hbs v p Hv Hp. rewrite Hcar in Hv.
  assert (forall x, nr_sg x = nr_sg cmd -> req_sg x q' = req_sg cmd q) as Hrs.
  { intros x Hx. unfold req_sg. by rewrite Hsgl, Hx. }
  destruct (em_pages _ _ _ Hm v Hv) as [Hold|(x & Hx & Ex)].
  - destruct (si_pages _ _ _ Hi v p Hold Hp) as (d & y & l & Hd & Hy & Hl & Hin).
    destruct Hd as [Hd|[Hd Hsp]].
    + exists d, y, l. split; [by left; apply Hown|].
      split; [rewrite Hcm, lookup_insert_ne; [done|]; intros <-; by apply (owner_ne others q c c)|].
      split; [|done]. rewrite <- Hl. unfold req_sg. by rewrite Hsgl.
    + assert (d = c) as -> by congruence. assert (y = cmd) as -> by congruence.
      exists c, cmd', l. split; [auto|]. split; [by rewrite Hcm, lookup_insert_eq|].
      split; [by rewrite Hrs|done].
  - destruct (Hbs x p Hx) as (l & Hl & Hin); [congruence|].
    exists c, cmd', l. split; [apply Hcur; right; exists x, p; split; [done|congruence]|].
    split; [by rewrite Hcm, lookup_insert_eq|]. split; [by rewrite Hrs|done].
Qed.

(** It stays the current command. *)
Lemma step_on others q q1 c cmd cmd' bs :
  send_inv pm others q -> nt_snd_cmd q = Some c -> nt_cmds q !! c = Some cmd -> emit bs q q1 ->
  nr_sg cmd' = nr_sg cmd -> nc_iov cmd' = nc_iov cmd -> snd_wf pm q c cmd' ->
  (sent_pages cmd = true \/ (exists x p, x ∈ bs /\ x.1 = TPage p) -> sent_pages cmd' = true) ->
  (forall x p, x ∈ bs -> x.1 = TPage p -> exists l, req_sg cmd q = Some l /\ p ∈ sl_page <$> l) ->
  cmd_bytes q c cmd = bs ++ cmd_bytes q c cmd' ->
  send_step pm others [] [] q (put_ncmd c cmd' q1).
Proof.
  intros Hi Hs Hc Hm Hsg Hiov Hwf Hsp Hbs Hb. pose proof (em_still _ _ _ Hm) as M1.
  assert (nt_snd_cmd q1 = Some c) as Hs1 by (rewrite <- Hs; exact (f_equal nt_snd_cmd M1)).
  assert (nt_cmds q1 = nt_cmds q) as Ecm by exact (f_equal nt_cmds M1).
  assert (tgt_caravan_owners q1 = tgt_caravan_owners q) as Eo by exact (f_equal tgt_caravan_owners M1).
  assert (sending q1 = sending q) as Ese by exact (f_equal sending M1).
  apply (step_gen others [] q q1 _ c cmd cmd' bs (cmd_bytes q c cmd')); try done.
  - destruct (em_car _ _ _ Hm). constructor; done.
  - exact (f_equal fifo M1).
  - simpl. apply Permutation_app_tail. by rewrite <- Ese.
  - apply (pages_gen others q q1 _ c cmd cmd' bs); try done.
    + unfold put_ncmd. simpl. by rewrite Ecm.
    + exact (f_equal nt_sgls M1).
    + intros d Hd. by rewrite <- Eo in Hd.
    + auto.
  - right. done.
Qed.

Lemma put_same c cmd q : nt_cmds q !! c = Some cmd -> put_ncmd c cmd q = q.
Proof.
  intros H. change (q <| nt_cmds := <[c := cmd]> (nt_cmds q) |> = q). rewrite insert_id by done. by destruct q.
Qed.

(** Nothing was given out. *)
Lemma step_stay others q q1 c :
  send_inv pm others q -> nt_snd_cmd q = Some c -> emit [] q q1 -> send_step pm others [] [] q q1.
Proof.
  intros Hi Hs Hm. destruct (send_inv_lookup pm others q c Hi) as [cmd Hc].
  { unfold sending, snd_list. rewrite Hs. set_solver. }
  rewrite <- (put_same c cmd q1).
  - apply (step_on others q q1 c cmd cmd []); try done.
    + by apply (si_snd _ _ _ Hi c).
    + intros [H|(x & p & H & _)]; [done|]. by apply elem_of_nil in H.
    + intros x p H. by apply elem_of_nil in H.
  - rewrite <- Hc. exact (f_equal (fun x => nt_cmds x !! c) (em_still _ _ _ Hm)).
Qed.

(** Its last bytes are given out and it waits for data. *)
Lemma step_await others q q1 c cmd cmd' bs :
  send_inv pm others q -> nt_snd_cmd q = Some c -> nt_cmds q !! c = Some cmd -> emit bs q q1 ->
  nr_sg cmd' = nr_sg cmd -> nc_iov cmd' = nc_iov cmd ->
  (sent_pages cmd = false /\ (forall x p, x ∈ bs -> x.1 <> TPage p) \/ aggregated pm q = false) ->
  cmd_bytes q c cmd = bs ->
  send_step pm others [] [c] q (put_ncmd c cmd' q1 <| nt_snd_cmd := None |>).
Proof.
  intros Hi Hs Hc Hm Hsg Hiov Hsp Hb. pose proof (em_still _ _ _ Hm) as M1.
  assert (nt_cmds q1 = nt_cmds q) as Ecm by exact (f_equal nt_cmds M1).
  assert (tgt_caravan_owners q1 = tgt_caravan_owners q) as Eo by exact (f_equal tgt_caravan_owners M1).
  assert (fifo q1 = fifo q) as Ef by exact (f_equal fifo M1).
  apply (step_gen others [c] q q1 _ c cmd cmd' bs []); try done.
  - destruct (em_car _ _ _ Hm). constructor; done.
  - unfold sending, snd_list. rewrite Hs. simpl.
    change (tgt_caravan_owners (put_ncmd c cmd' (q1 <| nt_snd_cmd := None |>))) with (tgt_caravan_owners q1).
    change (fifo (put_ncmd c cmd' (q1 <| nt_snd_cmd := None |>))) with (fifo q1).
    rewrite Eo, Ef. solve_Permutation.
  - destruct Hsp as [[Hsp Hbs]|Ha].
    + apply (pages_gen others q q1 _ c cmd cmd' bs); try done.
      * unfold put_ncmd. simpl. by rewrite Ecm.
      * exact (f_equal nt_sgls M1).
      * intros d Hd. by rewrite <- Eo in Hd.
      * intros [H|(x & p & H1 & H2)]; [congruence|]. by apply (Hbs x p) in H1.
      * intros x p H1 H2. by apply (Hbs x p) in H1.
    + intros v p Hv. unfold tgt_caravan in Hv. simpl in Hv.
      rewrite (cw_aggr _ _ (em_car _ _ _ Hm)) in Hv; [by apply elem_of_nil in Hv|].
      by rewrite (still_aggr _ _ M1).
  - by left.
  - by rewrite app_nil_r.
Qed.

(** The response is in the caravan, which now owns the command. *)
Lemma step_owner others q q1 c cmd cmd' bs :
  send_inv pm others q -> nt_snd_cmd q = Some c -> nt_cmds q !! c = Some cmd -> emit bs q q1 ->
  nr_sg cmd' = nr_sg cmd -> nc_iov cmd' = nc_iov cmd -> nt_nr_iovs q1 <> 0 ->
  (forall x p, x ∈ bs -> x.1 <> TPage p) -> cmd_bytes q c cmd = bs ->
  nt_nr_caravan_cmds q < I10_TARGET_SEND_BUDGET ->
  exists l, aset (nt_caravan_cmds q1) (nt_nr_caravan_cmds q1) c = Some l /\
    send_step pm others [] [] q
      (put_ncmd c cmd' (q1 <| nt_caravan_cmds := l |> <| nt_nr_caravan_cmds ::= fun n => n + 1 |>
                           <| nt_snd_cmd := None |>)).
Proof.
  intros Hi Hs Hc Hm Hsg Hiov Hnz Hbs Hb Hroom. pose proof (em_still _ _ _ Hm) as M1.
  assert (nt_cmds q1 = nt_cmds q) as Ecm by exact (f_equal nt_cmds M1).
  assert (tgt_caravan_owners q1 = tgt_caravan_owners q) as Eo by exact (f_equal tgt_caravan_owners M1).
  assert (fifo q1 = fifo q) as Ef by exact (f_equal fifo M1).
  assert (nt_nr_caravan_cmds q1 = nt_nr_caravan_cmds q) as En by exact (f_equal nt_nr_caravan_cmds M1).
  destruct (em_car _ _ _ Hm) as [C1 C2 C3 C4 C5 C6 C7 C8 C9 C10 C11].
  rewrite aset_lt by lia. eexists. split; [done|].
  set (l := <[Z.to_nat (nt_nr_caravan_cmds q1) := c]> (nt_caravan_cmds q1)).
  assert (take (Z.to_nat (nt_nr_caravan_cmds q1 + 1)) l = tgt_caravan_owners q ++ [c]) as El.
  { rewrite Z2Nat.inj_add by lia. rewrite Nat.add_1_r, <- Eo. apply take_insert_end. lia. }
  apply (step_gen others [] q q1 _ c cmd cmd' bs []); try done.
  - constructor; simpl; try done; [unfold l; by rewrite length_insert|lia].
  - unfold sending at 1, snd_list. unfold tgt_caravan_owners. simpl. rewrite El.
    unfold sending, snd_list. rewrite Hs. simpl.
    change (fifo (put_ncmd c cmd' _)) with (fifo q1). rewrite Ef. rewrite <- !app_assoc. done.
  - apply (pages_gen others q q1 _ c cmd cmd' bs); try done.
    + unfold put_ncmd. simpl. by rewrite Ecm.
    + exact (f_equal nt_sgls M1).
    + intros d Hd. unfold tgt_caravan_owners. simpl. rewrite El. set_solver.
    + intros _. left. unfold tgt_caravan_owners. simpl. rewrite El. set_solver.
    + intros x p H1 H2. by apply (Hbs x p) in H1.
  - by left.
  - by rewrite app_nil_r.
Qed.
End stream.
