(* ===== verification/NvmetTcpFlow.v ===== *)
(** * NVMe/TCP target: fetching, flushing and releasing

    The steps of sending that are not those of the current command: the next
    command is fetched, the caravan is sent and the buffers of its commands are
    returned. *)
From S2P Require Import Prelude NvmeTcp NvmeTcpSend NvmeTcpRecv NvmetTcp NvmetTcpSend NvmetTcpOwn NvmetTcpSendSpec.
From S2P Require Import NvmetTcpStream.

Section flow.
Context {pr : NvmeTcpProto} {pt : NvmetProto} {pl : NvmetProtoLaws pr pt} {ne : NvmetEnv}
  {sl : NvmetSockLaws ne} {ly : PduLayout} (pm : nvmet_params).
Implicit Types (q : nvmet_tcp_queue) (cmd : nvmet_tcp_cmd).

(** The commands have not changed. *)
Lemma r2t_post_same q q' : nt_cmds q' = nt_cmds q -> r2t_post [] [] q q'.
Proof.
  intros E. constructor; [|intros d x Hd; by apply elem_of_nil in Hd].
  intros d x Hx _. right. split; [set_solver|]. by rewrite <- E.
Qed.

(** ** Release *)

Definition car_view q := (nt_caravan_iovs q, nt_caravan_cmds q, nt_caravan_mapped q, nt_nr_iovs q,
  nt_nr_caravan_cmds q, nt_nr_caravan_mapped q, nt_caravan_len q, aggregated pm q).

Lemma car_wf_view q q' : car_view q' = car_view q -> car_wf pm q -> car_wf pm q'.
Proof.
  unfold car_view. intros H. injection H as E1 E2 E3 E4 E5 E6 E7 E8.
  intros [C1 C2 C3 C4 C5 C6 C7 C8 C9 C10 C11].
  constructor; unfold tgt_caravan in *; rewrite ?E1, ?E2, ?E3, ?E4, ?E5, ?E6, ?E7, ?E8; done.
Qed.

(** The buffers of commands that are not on their way out are returned. *)
Lemma send_inv_release c others q q' :
  send_inv pm (c :: others) q -> outer q' = outer q -> bufs_inv (sending q ++ others) q' ->
  (forall d x, d ∈ sending q ++ others -> nt_cmds q !! d = Some x -> req_sg x q' = req_sg x q) ->
  send_inv pm others q'.
Proof.
  intros Hi Ho Hb Hr.
  assert (sending q' = sending q) as Es by exact (f_equal sending Ho).
  assert (nt_cmds q' = nt_cmds q) as Ec by exact (f_equal nt_cmds Ho).
  assert (fifo q' = fifo q) as Ef by exact (f_equal fifo Ho).
  assert (nt_snd_cmd q' = nt_snd_cmd q) as En by exact (f_equal nt_snd_cmd Ho).
  assert (tgt_caravan_owners q' = tgt_caravan_owners q) as Eo by exact (f_equal tgt_caravan_owners Ho).
  assert (bview pm q' = bview pm q) as Eb by exact (f_equal (bview pm) Ho).
  destruct Hi as [I1 I2 I3 I4 I5 I6 I7 I8]. constructor.
  - rewrite <- I1. exact (f_equal nt_state Ho).
  - rewrite <- I2. exact (f_equal nt_data_digest Ho).
  - apply bview_inv in Eb as (_ & E2 & E3). rewrite E2, E3. done.
  - by rewrite Es.
  - apply (car_wf_view q); [exact (f_equal car_view Ho)|done].
  - intros v p Hv Hp.
    destruct (I6 v p) as (d & y & l & Hd & Hy & Hl & Hin); [|done|].
    { change (v ∈ tgt_caravan (outer q')) in Hv. by rewrite Ho in Hv. }
    exists d, y, l. rewrite Eo, En, Ec. split; [done|]. split; [done|]. split; [|done].
    rewrite <- Hl. apply (Hr d); [|done]. unfold sending, snd_list.
    destruct Hd as [Hd|[Hd _]]; [set_solver|]. rewrite Hd. set_solver.
  - intros d x Hd Hx. rewrite Ef in Hd. rewrite Ec in Hx. apply (ready_view q); [|auto].
    apply (Hr d); [unfold sending; set_solver|done].
  - intros d x Hd Hx. rewrite En in Hd. rewrite Ec in Hx. apply (snd_wf_view pm q); [done| |by apply (I8 d)].
    apply (Hr d); [|done]. unfold sending, snd_list. rewrite Hd. set_solver.
Qed.

Lemma step_release others l c r q q2 :
  send_step pm others l (c :: r) q q2 ->
  exists q3, release_cmd c q2 = Some q3 /\ send_step pm others l r q q3 /\ outer q3 = outer q2.
Proof.
  intros [S1 S2 S3 S4 S7 S5 S6]. pose proof (si_bufs _ _ _ S1) as Hb. simpl in Hb.
  apply (bufs_perm _ (c :: sending q2 ++ r ++ others)) in Hb; [|by rewrite <- Permutation_middle].
  destruct (release_ok _ _ _ Hb) as (q3 & E & Ho & Hf & Hb3 & Hr3).
  assert (nt_cmds q3 = nt_cmds q2) as Ec by exact (f_equal nt_cmds Ho).
  exists q3. split; [done|]. split; [|done]. constructor.
  - by apply (send_inv_release c _ q2).
  - rewrite <- S2. exact (f_equal fixed Ho).
  - rewrite S3. f_equal. exact (f_equal fifo (eq_sym Ho)).
  - assert (out_bytes q3 ++ cur_bytes q3 = out_bytes q2 ++ cur_bytes q2) as Eb.
    2: { unfold grows, accepted in *. rewrite Eb, (f_equal nt_calls Ho : nt_calls q3 = nt_calls q2). done. }
    f_equal; [exact (f_equal out_bytes Ho)|]. unfold cur_bytes.
    rewrite Ec, (f_equal nt_snd_cmd Ho : nt_snd_cmd q3 = nt_snd_cmd q2).
    destruct (nt_snd_cmd q2) as [d|] eqn:Ed; [|done]. destruct (nt_cmds q2 !! d) as [x|] eqn:Ex; [|done].
    simpl. apply (cmd_bytes_view pm); [exact (f_equal (bview pm) Ho)|]. apply (Hr3 d); [|done].
    unfold sending, snd_list. rewrite Ed. set_solver.
  - rewrite (f_equal nt_calls Ho : nt_calls q3 = nt_calls q2). done.
  - rewrite (f_equal nt_wire Ho : nt_wire q3 = nt_wire q2). done.
  - intros d x Hd Hx. change (fifo q3) with (fifo (outer q3)) in Hd. rewrite Ho in Hd.
    destruct (S6 d x Hd Hx) as [A B]. rewrite Ec. split; [done|]. rewrite <- B.
    apply (Hr3 d); [|done]. unfold sending. change (fifo (outer q2)) with (fifo q2) in Hd. set_solver.
Qed.

(** ** The caravan is sent *)

Lemma live_pages_spec q n l p : nt_sgls q !! n = Some l -> p ∈ sl_page <$> l -> p ∈ live_pages q.
Proof.
  intros Hl Hp. unfold live_pages. apply list_elem_of_In, in_concat. exists (sl_page <$> l).
  split; [|by apply list_elem_of_In]. apply list_elem_of_In, list_elem_of_fmap. exists (n, l).
  split; [done|]. by apply elem_of_map_to_list.
Qed.

Lemma caravan_live others q :
  send_inv pm others q -> forallb (fun v => buf_live q (iov_base v).1) (tgt_caravan q) = true.
Proof.
  intros Hi. apply forallb_forall. intros v Hv%list_elem_of_In. unfold buf_live.
  destruct (iov_base v).1 as [c|c|c|p|c|] eqn:E; try done.
  apply bool_decide_eq_true_2.
  destruct (si_pages _ _ _ Hi v p Hv E) as (c & cmd & l & _ & _ & Hl & Hin).
  unfold req_sg in Hl. destruct (nr_sg cmd) as [n|]; [|done]. by apply (live_pages_spec q n l).
Qed.

Lemma wspace_full q : car_wf pm q -> s32 (nt_caravan_len q) = nt_caravan_len q.
Proof.
  intros Hw. pose proof (caravan_total_nonneg pm q Hw). pose proof (cw_max _ _ Hw).
  unfold I10_CARAVAN_CAPACITY in *. apply s32_small. lia.
Qed.

(** The socket has room: as much of the caravan as the socket takes reaches the
    wire, which is everything when it takes the message as a whole. *)
Lemma sent_caravan others q :
  send_inv pm others q -> i10_target_sndbuf_nospace q (s32 (nt_caravan_len q)) = false ->
  let ret := tgt_sendmsg (nt_calls q) (tgt_caravan q) (nt_caravan_len q) in
  let q' := tgt_sent ret (tgt_caravan q) q in
  nt_wire q `prefix_of` nt_wire q' /\ nt_wire q' `sublist_of` out_bytes q
  /\ (accepted q q' -> nt_wire q' = out_bytes q).
Proof.
  intros Hi Hr ret q'. pose proof (si_car _ _ _ Hi) as Hw. unfold i10_target_sndbuf_nospace in Hr.
  rewrite (wspace_full q Hw) in Hr. split; [by apply prefix_app_r|]. split.
  - apply sublist_app; [done|apply sublist_take].
  - intros Ha. unfold q', ret. rewrite Ha by (simpl; lia). simpl.
    unfold out_bytes. f_equal. apply take_ge. rewrite (cw_len _ _ Hw), <- kv_total_length; [lia|].
    apply (cw_pos _ _ Hw).
Qed.

Lemma nospace_ok others q q' :
  send_inv pm others q -> q' = q <| nt_nospace := true |> <| nt_calls ::= S |> ->
  send_step pm others [] [] q q'.
Proof.
  intros Hi ->. constructor; try done.
  - destruct Hi as [I1 I2 I3 I4 I5 I6 I7 I8]. constructor; try done; [|by apply (car_wf_view q)| |].
    + by apply (bufs_view _ q).
    + intros d x Hd Hx. apply (ready_view q); [done|]. by apply I7.
    + intros d x Hd Hx. apply (snd_wf_view pm q); [done|done|]. by apply I8.
  - apply grows_eq. simpl. rewrite app_nil_r. done.
  - simpl. lia.
Qed.

(** [clear] is what is left when the caravan has been sent. *)
Definition clear_caravan (pages : list Z) q : nvmet_tcp_queue :=
  q <| nt_kmaps ::= fun m => foldl (fun m p => kunmap p m) m pages |>
    <| nt_nr_iovs := 0 |> <| nt_nr_caravan_cmds := 0 |> <| nt_nr_caravan_mapped := 0 |>
    <| nt_caravan_len := 0 |> <| nt_send_now := false |>.

Lemma tgt_flush_ok others q :
  send_inv pm others q ->
  exists full q', send_tgt_caravan q = Some (full, q') /\ send_step pm others [] [] q q'
    /\ nt_snd_cmd q' = nt_snd_cmd q /\ nt_cmds q' = nt_cmds q
    /\ (full = true <-> i10_target_sndbuf_nospace q (nt_caravan_len q) = true)
    /\ (full = false -> nt_caravan_len q' = 0 /\ nt_send_now q' = false)
    /\ (full = true -> nt_nospace q' = true).
Proof.
  intros Hi. unfold send_tgt_caravan.
  destruct (i10_target_sndbuf_nospace q (s32 (nt_caravan_len q))) eqn:Er.
  { eexists _, _. split; [done|]. split; [by apply (nospace_ok others q)|].
    rewrite (wspace_full q (si_car _ _ _ Hi)) in Er. rewrite Er. done. }
  rewrite (caravan_live others q Hi). simpl negb. cbv iota.
  destruct (sent_caravan others q Hi Er) as (Hw1 & Hw2 & Hw3). cbv zeta in Hw1, Hw2, Hw3 |- *.
  set (ret := tgt_sendmsg (nt_calls q) (tgt_caravan q) (nt_caravan_len q)) in *.
  set (q1 := tgt_sent ret (tgt_caravan q) q) in *.
  assert (bufs_inv (tgt_caravan_owners q ++ snd_list q ++ fifo q ++ others) q1) as Hb.
  { apply (bufs_view _ q); [done|]. pose proof (si_bufs _ _ _ Hi) as H. unfold sending in H.
    by rewrite <- !app_assoc in H. }
  change (tgt_caravan_owners q1) with (tgt_caravan_owners q).
  destruct (release_all_ok _ _ _ Hb) as (q2 & E & Ho & _ & Hb2 & Hr2). rewrite E. simpl.
  eexists false, _. split; [done|].
  change (tgt_caravan_pages q2) with (tgt_caravan_pages (outer q2)). rewrite Ho.
  change (tgt_caravan_pages (outer q1)) with (tgt_caravan_pages q).
  change (q2 <| nt_kmaps ::= _ |> <| nt_nr_iovs := 0 |> <| nt_nr_caravan_cmds := 0 |>
    <| nt_nr_caravan_mapped := 0 |> <| nt_caravan_len := 0 |> <| nt_send_now := false |>)
    with (clear_caravan (tgt_caravan_pages q) q2).
  set (q3 := clear_caravan (tgt_caravan_pages q) q2).
  assert (nt_cmds q3 = nt_cmds q) as Ec by exact (f_equal nt_cmds Ho).
  assert (nt_snd_cmd q3 = nt_snd_cmd q) as En by exact (f_equal nt_snd_cmd Ho).
  assert (fifo q3 = fifo q) as Ef by exact (f_equal fifo Ho).
  assert (bview pm q3 = bview pm q) as Ev by exact (f_equal (bview pm) Ho).
  assert (nt_wire q3 = nt_wire q1) as Ew by exact (f_equal nt_wire Ho).
  assert (nt_calls q3 = nt_calls q1) as Ecl by exact (f_equal nt_calls Ho).
  assert (sending q3 = snd_list q ++ fifo q) as Es.
  { unfold sending, snd_list. rewrite En, Ef. done. }
  assert (forall d x, d ∈ snd_list q ++ fifo q ++ others -> nt_cmds q !! d = Some x ->
    req_sg x q3 = req_sg x q) as Hr by (intros d x Hd Hx; by apply (Hr2 d)).
  split; [|split; [done|]; split; [done|]; split;
    [rewrite (wspace_full q (si_car _ _ _ Hi)) in Er; rewrite Er; done|done]].
  constructor.
  - pose proof (si_car _ _ _ Hi) as Hw. destruct Hi as [I1 I2 I3 I4 I5 I6 I7 I8]. constructor.
    + rewrite <- I1. exact (f_equal nt_state Ho).
    + rewrite <- I2. exact (f_equal nt_data_digest Ho).
    + apply bview_inv in Ev as (_ & E2 & E3). rewrite E2, E3. done.
    + rewrite Es, <- app_assoc. by apply (bufs_view _ q2).
    + destruct Hw as [C1 C2 C3 C4 C5 C6 C7 C8 C9 C10 C11].
      assert (nt_caravan_iovs q3 = nt_caravan_iovs q) as G1 by exact (f_equal nt_caravan_iovs Ho).
      assert (nt_caravan_cmds q3 = nt_caravan_cmds q) as G2 by exact (f_equal nt_caravan_cmds Ho).
      assert (nt_caravan_mapped q3 = nt_caravan_mapped q) as G3 by exact (f_equal nt_caravan_mapped Ho).
      constructor; rewrite ?G1, ?G2, ?G3; try done; apply Forall_nil; done.
    + intros v p Hv. by apply elem_of_nil in Hv.
    + intros d x Hd Hx. rewrite Ef in Hd. rewrite Ec in Hx. apply (ready_view q); [|auto].
      apply (Hr d); [set_solver|done].
    + intros d x Hd Hx. rewrite En in Hd. rewrite Ec in Hx.
      apply (snd_wf_view pm q); [done| |by apply (I8 d)].
      apply (Hr d); [|done]. unfold snd_list. rewrite Hd. set_solver.
  - exact (f_equal fixed Ho).
  - by rewrite Ef.
  - assert (cur_bytes q3 = cur_bytes q) as Ecur.
    { unfold cur_bytes. rewrite En, Ec. destruct (nt_snd_cmd q) as [d|] eqn:Ed; [|done].
      destruct (nt_cmds q !! d) as [x|] eqn:Ex; [|done]. simpl. apply (cmd_bytes_view pm); [done|].
      apply (Hr d); [|done]. unfold snd_list. rewrite Ed. set_solver. }
    assert (out_bytes q3 = nt_wire q1) as Eout by (unfold out_bytes; rewrite Ew; apply app_nil_r).
    unfold grows, accepted in *. rewrite Ecur, Eout, Ecl. simpl. rewrite app_nil_r. split.
    + by apply sublist_app.
    + intros Ha. f_equal. by apply Hw3.
  - rewrite Ecl. simpl. lia.
  - by rewrite Ew.
  - intros d x Hd Hx. rewrite Ef in Hd. rewrite Ec. split; [done|]. apply (Hr d); [set_solver|done].
Qed.

(** ** Fetching *)

(** The lists are only rearranged. *)
Definition resp_lists l1 l2 n q : nvmet_tcp_queue :=
  q <| nt_resp_list := l1 |> <| nt_resp_send_list := l2 |> <| nt_send_list_len := n |>.

Lemma process_resp_ok q :
  exists n, nvmet_tcp_process_resp_list q
    = resp_lists [] (reverse (nt_resp_list q) ++ nt_resp_send_list q) n q.
Proof.
  unfold nvmet_tcp_process_resp_list.
  enough (forall l acc n, exists m,
    foldl (fun q c => q <| nt_resp_send_list ::= cons c |>
                        <| nt_send_list_len ::= fun n => s32 (n + 1) |>) (resp_lists [] acc n q) l
    = resp_lists [] (reverse l ++ acc) m q) as H.
  { destruct (H (nt_resp_list q) (nt_resp_send_list q) (nt_send_list_len q)) as [m E]. exists m.
    rewrite <- E. f_equal; by destruct q. }
  induction l as [|c l IH]; intros acc n; simpl foldl; [by exists n|].
  destruct (IH (c :: acc) (s32 (n + 1))) as [m E]. exists m.
  rewrite reverse_cons, <- app_assoc. exact E.
Qed.

(** The set-up of the PDU of a fetched command. *)
Definition setup_pdu (c : Z) cmd q : option nvmet_tcp_queue :=
  if nvmet_tcp_need_data_out cmd then nvmet_setup_c2h_data_pdu c q
  else if nvmet_tcp_need_data_in cmd then nvmet_setup_r2t_pdu c q
  else nvmet_setup_response_pdu c q.

Lemma setup_ok others q c cmd :
  send_inv pm others q -> c ∈ fifo q -> nt_cmds q !! c = Some cmd ->
  exists cmd', (forall q1, nt_cmds q1 !! c = Some cmd -> fixed q1 = fixed q ->
      setup_pdu c cmd q1 = Some (put_ncmd c cmd' q1))
    /\ nr_sg cmd' = nr_sg cmd /\ nc_iov cmd' = nc_iov cmd /\ snd_wf pm q c cmd'
    /\ cmd_bytes q c cmd' = answer q c.
Proof.
  intros Hi Hin Hc. destruct (si_ready _ _ _ Hi c cmd Hin Hc) as [R1 R2].
  assert (forall q1, fixed q1 = fixed q -> nt_data_digest q1 = false /\ nt_hdr_digest q1 = nt_hdr_digest q
    /\ nt_sqhd_disabled q1 = nt_sqhd_disabled q) as Hfx.
  { intros q1 H. split; [rewrite <- (si_digest _ _ _ Hi); exact (f_equal nt_data_digest H)|].
    split; [exact (f_equal nt_hdr_digest H)|exact (f_equal nt_sqhd_disabled H)]. }
  assert (0 <= nvmet_tcp_hdgst_len q /\ 0 < sizeof_data_pdu /\ 0 < sizeof_rsp_pdu) as Hh.
  { pose proof sizes_ok as H. rewrite !Forall_cons in H. unfold nvmet_tcp_hdgst_len.
    destruct (nt_hdr_digest q); lia. }
  unfold answer, setup_pdu. rewrite Hc. destruct (nvmet_tcp_need_data_out cmd) eqn:Eo.
  { destruct (R1 eq_refl) as (Hcur & l & Hl & Hpos). unfold nvmet_setup_c2h_data_pdu.
    eexists. split.
    { intros q1 Hc1 H1. rewrite Hc1. simpl. destruct (Hfx q1 H1) as (E1 & E2 & E3).
      unfold nvmet_tcp_hdgst_len, nvmet_tcp_ddgst_len. rewrite E1, E2, E3. reflexivity. }
    split; [done|]. split; [done|]. split.
    - simpl. split; [split; [simpl; lia|done]|]. split; [done|]. by exists l.
    - unfold cmd_bytes. simpl. rewrite Z.sub_0_r. done. }
  destruct (nvmet_tcp_need_data_in cmd) eqn:Ei.
  { unfold nvmet_setup_r2t_pdu, nvmet_tcp_cmd_tag. rewrite (proj2 (Z.eqb_neq _ _) (aw_tag _ _ _ (R2 eq_refl))).
    eexists. split.
    { intros q1 Hc1 H1. rewrite Hc1. simpl. destruct (Hfx q1 H1) as (E1 & E2 & E3).
      unfold nvmet_tcp_hdgst_len. rewrite E2. reflexivity. }
    split; [done|]. split; [done|]. split.
    - split; [split; [simpl; pose proof r2t_size; lia|done]|]. destruct (R2 eq_refl). by constructor.
    - unfold cmd_bytes. simpl. rewrite Z.sub_0_r. done. }
  unfold nvmet_setup_response_pdu. eexists. split.
  { intros q1 Hc1 H1. rewrite Hc1. simpl. destruct (Hfx q1 H1) as (E1 & E2 & E3).
    unfold nvmet_tcp_hdgst_len. rewrite E2. reflexivity. }
  split; [done|]. split; [done|]. split.
  - simpl. split; [simpl; lia|done].
  - unfold cmd_bytes, rsp_bytes. simpl. rewrite Z.sub_0_r. done.
Qed.

(** The next command becomes the current one. *)
Lemma fetch_step others q c l l1 n :
  send_inv pm others q -> nt_snd_cmd q = None -> fifo q = c :: l ++ reverse l1 ->
  let q1 := resp_lists l1 l n q <| nt_snd_cmd := Some c |> in
  exists cmd q', nt_cmds q !! c = Some cmd /\
    setup_pdu c cmd q1 = Some q'
    /\ send_step pm others [c] [] q q' /\ nt_snd_cmd q' = Some c /\ r2t_post [c] [] q q'.
Proof.
  intros Hi Hn Hf q1.
  destruct (send_inv_lookup pm others q c Hi) as [cmd Hc]; [unfold sending; rewrite Hf; set_solver|].
  destruct (setup_ok others q c cmd Hi) as (cmd' & Hset & Hsg & Hiov & Hwf & Hb); [rewrite Hf; set_solver|done|].
  exists cmd, (put_ncmd c cmd' q1). split; [done|]. split; [by apply Hset|].
  assert (r2t_post [c] [] q (put_ncmd c cmd' q1)) as Hpost.
  { constructor; [|intros d x Hd; by apply elem_of_nil in Hd].
    intros d x Hx Hd. simpl in Hx. destruct (decide (d = c)) as [->|Hne].
    - rewrite lookup_insert_eq in Hx. injection Hx as <-. by destruct (snd_wf_not_done pm q c cmd' Hwf).
    - rewrite lookup_insert_ne in Hx by done. right. split; [set_solver|done]. }
  split; [|done].
  assert (fifo (put_ncmd c cmd' q1) = l ++ reverse l1) as Ef by done.
  assert (sending (put_ncmd c cmd' q1) = sending q) as Es.
  { unfold sending, snd_list. rewrite Ef, Hf, Hn. done. }
  assert (forall d x, d ∈ l ++ reverse l1 ++ others -> nt_cmds q !! d = Some x ->
    nt_cmds (put_ncmd c cmd' q1) !! d = Some x) as Hoth.
  { intros d x Hd Hx. simpl. rewrite lookup_insert_ne; [done|]. intros <-.
    pose proof (bi_nodup _ _ (si_bufs _ _ _ Hi)) as Hnd. apply NoDup_app in Hnd as (_ & _ & Hnd).
    unfold sending, snd_list in Hnd. rewrite Hf, Hn in Hnd. simpl in Hnd.
    rewrite <- !app_assoc in Hnd. apply NoDup_app in Hnd as (_ & _ & Hnd). simpl in Hnd.
    apply NoDup_cons in Hnd as [Hnd _]. rewrite <- app_assoc in Hnd. done. }
  constructor; try done.
  - pose proof Hi as [I1 I2 I3 I4 I5 I6 I7 I8]. constructor; try done.
    + rewrite Es. by apply (bufs_put (sending q ++ others) q _ c cmd cmd').
    + by apply (car_wf_view q).
    + intros v p Hv Hp. destruct (I6 v p Hv Hp) as (d & y & k & Hd & Hy & Hk & Hin).
      destruct Hd as [Hd|[Hd _]]; [|congruence]. exists d, y, k. split; [by left|]. split; [|done].
      simpl. rewrite lookup_insert_ne; [done|]. intros <-.
      pose proof (bi_nodup _ _ I4) as Hnd. apply NoDup_app in Hnd as (_ & _ & Hnd).
      unfold sending in Hnd. rewrite Hf in Hnd. rewrite <- !app_assoc in Hnd.
      apply NoDup_app in Hnd as (_ & Hnd & _). apply (Hnd c Hd). set_solver.
    + intros d x Hd Hx. rewrite Ef in Hd.
      destruct (send_inv_lookup pm others q d Hi) as [y Hy]; [unfold sending; rewrite Hf; set_solver|].
      rewrite (Hoth d y) in Hx by (done || set_solver). injection Hx as <-.
      apply (ready_view q); [done|]. apply I7; [rewrite Hf; set_solver|done].
    + intros d x [= <-] Hx. simpl in Hx. rewrite lookup_insert_eq in Hx. injection Hx as <-.
      by apply (snd_wf_view pm q).
  - apply grows_eq. simpl. rewrite app_nil_r. unfold cur_bytes. rewrite Hn. simpl. rewrite lookup_insert_eq. simpl.
    by rewrite <- Hb.
  - intros d x Hd Hx. rewrite Ef in Hd. split; [|done]. apply (Hoth d x); [set_solver|done].
Qed.

Lemma tgt_fetch_ok others q :
  send_inv pm others q -> nt_snd_cmd q = None ->
  exists o q', nvmet_tcp_fetch_cmd q = Some (o, q') /\ nt_snd_cmd q' = o
    /\ match o with
       | None => fifo q = [] /\ send_step pm others [] [] q q' /\ r2t_post [] [] q q'
       | Some c => send_step pm others [c] [] q q' /\ r2t_post [c] [] q q'
       end.
Proof.
  intros Hi Hn. unfold nvmet_tcp_fetch_cmd. destruct (nt_resp_send_list q) as [|c l] eqn:El.
  - destruct (process_resp_ok q) as [n ->]. rewrite El, app_nil_r. simpl.
    destruct (reverse (nt_resp_list q)) as [|c l] eqn:Er.
    + eexists None, _. split; [done|]. split; [done|].
      assert (fifo q = []) as Ef by (unfold fifo; by rewrite El, Er). split; [done|].
      split; [|by apply r2t_post_same].
      constructor; try done.
      * destruct Hi as [I1 I2 I3 I4 I5 I6 I7 I8].
        assert (nt_snd_cmd q = None -> sending (resp_lists [] [] n q <| nt_snd_cmd := None |>) = sending q) as Es.
        { intros E. unfold sending, snd_list. rewrite E, Ef. done. }
        constructor; try done; [|by apply (car_wf_view q)| |intros d x Hd; by apply elem_of_nil in Hd].
        { change (bufs_inv (sending (resp_lists [] [] n q <| nt_snd_cmd := None |>) ++ others)
            (resp_lists [] [] n q <| nt_snd_cmd := None |>)). rewrite Es by done. by apply (bufs_view _ q). }
        intros v p Hv Hp. destruct (I6 v p Hv Hp) as (d & y & k & Hd & Hy & Hk & Hin).
        destruct Hd as [Hd|[Hd _]]; [|congruence]. exists d, y, k. split; [by left|done].
      * apply grows_eq. simpl. unfold cur_bytes. by rewrite Hn, !app_nil_r.
    + destruct (fetch_step others q c l [] (s32 (n - 1)) Hi Hn) as (cmd & q' & Hc & E & Hs & Hsnd & Hrp).
      { unfold fifo. rewrite El, Er. simpl. by rewrite app_nil_r. }
      exists (Some c), q'. split; [|done].
      transitivity (cmd ← nt_cmds q !! c;
        x ← setup_pdu c cmd (resp_lists [] l (s32 (n - 1)) (q <| nt_snd_cmd := Some c |>));
        Some (Some c, x)); [done|]. rewrite Hc. simpl. by rewrite E.
  - rewrite El. destruct (fetch_step others q c l (nt_resp_list q) (s32 (nt_send_list_len q - 1)) Hi Hn)
      as (cmd & q' & Hc & E & Hs & Hsnd & Hrp); [unfold fifo; by rewrite El|].
    exists (Some c), q'. split; [|done].
    transitivity (cmd ← nt_cmds q !! c;
      x ← setup_pdu c cmd (resp_lists (nt_resp_list q) l (s32 (nt_send_list_len q - 1))
        (q <| nt_snd_cmd := Some c |>)); Some (Some c, x)); [done|]. rewrite Hc. simpl. by rewrite E.
Qed.
End flow.
