(* ===== verification/NvmetTcpTrySend.v ===== *)
(** * NVMe/TCP target: [nvmet_tcp_try_send]

    The states of the current command, composed with fetching and flushing into
    [nvmet_tcp_try_send]: it always returns, answers the commands in the order in
    which they were handed back, byte by byte, and returns every buffer once. *)
From S2P Require Import Prelude NvmeTcp NvmeTcpSend NvmeTcpRecv NvmetTcp NvmetTcpSend NvmetTcpOwn NvmetTcpSendSpec.
From S2P Require Import NvmetTcpStream NvmetTcpFlow.

Section ops.
Context {pr : NvmeTcpProto} {pt : NvmetProto} {pl : NvmetProtoLaws pr pt} {ne : NvmetEnv}
  {sl : NvmetSockLaws ne} {ly : PduLayout} (pm : nvmet_params).
Implicit Types (q : nvmet_tcp_queue) (cmd : nvmet_tcp_cmd).

(** The order in which [nvmet_tcp_try_send_one] tries the states. *)
Definition rank (st : nvmet_tcp_send_state) : Z :=
  match st with
  | NVMET_TCP_SEND_DATA_PDU => 0 | NVMET_TCP_SEND_DATA => 1 | NVMET_TCP_SEND_DDGST => 2
  | NVMET_TCP_SEND_R2T => 3 | NVMET_TCP_SEND_RESPONSE => 4
  end.

(** After a step in state [st] the command is still the current one, or it is
    done and its state is tried no more. *)
Definition op_post (others : list Z) (c : Z) (st : nvmet_tcp_send_state) q q' : Prop :=
  exists r cmd', send_step pm others [] r q q' /\ nt_cmds q' !! c = Some cmd'
    /\ (nt_snd_cmd q' = Some c \/ nt_snd_cmd q' = None /\ rank (nc_state cmd') <= rank st)
    /\ r2t_post [] r q q'.

Definition op_ok (st : nvmet_tcp_send_state) (f : Z -> nvmet_tcp_queue -> option (Z * nvmet_tcp_queue)) : Prop :=
  forall others q c cmd, send_inv pm others q -> nt_snd_cmd q = Some c -> nt_cmds q !! c = Some cmd ->
    nc_state cmd = st -> exists ret q', f c q = Some (ret, q') /\ op_post others c st q q'
      /\ (aggregated pm q = true -> 0 < ret).

Lemma emit_lookup bs q q1 c : emit pm bs q q1 -> nt_cmds q1 !! c = nt_cmds q !! c.
Proof. intros H. exact (f_equal (fun x => nt_cmds x !! c) (em_still _ _ _ _ H)). Qed.
Lemma emit_snd bs q q1 : emit pm bs q q1 -> nt_snd_cmd q1 = nt_snd_cmd q.
Proof. intros H. exact (f_equal nt_snd_cmd (em_still _ _ _ _ H)). Qed.

(** Nothing was given out. *)
Lemma post_stay others q q1 c cmd st :
  send_inv pm others q -> nt_snd_cmd q = Some c -> nt_cmds q !! c = Some cmd -> emit pm [] q q1 ->
  op_post others c st q q1.
Proof.
  intros Hi Hs Hc Hm. exists [], cmd. split; [by apply (step_stay pm others q q1 c)|].
  split; [by rewrite (emit_lookup [] q)|]. split; [left; by rewrite (emit_snd [] q)|].
  apply r2t_post_same. exact (f_equal nt_cmds (em_still _ _ _ _ Hm)).
Qed.

(** Only [c] has changed. *)
Lemma r2t_post_put q q' c cmd' r :
  nt_cmds q' = <[c := cmd']> (nt_cmds q) ->
  (~ r2t_done q' cmd' /\ r = [] \/ r = [c] /\ awaitable q' c cmd') -> r2t_post [] r q q'.
Proof.
  intros E Hr. constructor.
  - intros d x. rewrite E. destruct (decide (d = c)) as [->|Hne].
    + rewrite lookup_insert_eq. intros [= <-] Hd. destruct Hr as [[H _]|[-> _]]; [done|]. left. set_solver.
    + rewrite lookup_insert_ne by done. intros Hx _. right. split; [set_solver|done].
  - destruct Hr as [[_ ->]|[-> Hw]]; intros d x Hd; [by apply elem_of_nil in Hd|].
    apply list_elem_of_singleton in Hd as ->. rewrite E, lookup_insert_eq. by intros [= <-].
Qed.

(** Part of a PDU was given out. *)
Lemma post_on others q q1 c cmd cmd' st bs :
  send_inv pm others q -> nt_snd_cmd q = Some c -> nt_cmds q !! c = Some cmd -> emit pm bs q q1 ->
  nr_sg cmd' = nr_sg cmd -> nc_iov cmd' = nc_iov cmd -> snd_wf pm q c cmd' ->
  (sent_pages cmd = true \/ (exists x p, x ∈ bs /\ x.1 = TPage p) -> sent_pages cmd' = true) ->
  (forall x p, x ∈ bs -> x.1 = TPage p -> exists l, req_sg cmd q = Some l /\ p ∈ sl_page <$> l) ->
  cmd_bytes q c cmd = bs ++ cmd_bytes q c cmd' ->
  op_post others c st q (put_ncmd c cmd' q1).
Proof.
  intros Hi Hs Hc Hm H1 H2 H3 H4 H5 H6. exists [], cmd'.
  split; [by apply (step_on pm others q q1 c cmd cmd' bs)|].
  split; [simpl; apply lookup_insert_eq|]. split; [left; simpl; by rewrite (emit_snd bs q)|].
  pose proof (em_still _ _ _ _ Hm) as M1.
  apply (r2t_post_put q _ c cmd').
  - simpl. by rewrite (f_equal nt_cmds M1 : nt_cmds q1 = nt_cmds q).
  - left. split; [|done]. intros Hd. apply (snd_wf_not_done pm q c cmd' H3).
    apply (r2t_done_view pm q (put_ncmd c cmd' q1)); [exact (f_equal (bview pm) M1)|done].
Qed.

Lemma kvec_nil b o n : n <= 0 -> kvec_bytes (mk_kvec (b, o) n) = [].
Proof. intros H. apply length_zero_iff_nil. rewrite kvec_bytes_length. simpl. lia. Qed.

Lemma kvec_no_page b o n x p :
  (forall p', b <> TPage p') -> x ∈ kvec_bytes (mk_kvec (b, o) n) -> x.1 <> TPage p.
Proof. intros Hb Hx E. apply kvec_bytes_buf in Hx. simpl in Hx. apply (Hb p). congruence. Qed.

Lemma hdgst_range q : 0 <= nvmet_tcp_hdgst_len q < 2 ^ 7 /\ 0 < sizeof_data_pdu < 2 ^ 7
  /\ 0 < sizeof_rsp_pdu < 2 ^ 7.
Proof.
  pose proof sizes_ok as H. rewrite !Forall_cons in H. unfold nvmet_tcp_hdgst_len.
  destruct (nt_hdr_digest q); lia.
Qed.

(** A PDU in buffer [b] of [size] bytes, followed by [rest]: nothing, a part, or
    all of what is left of it is given out. *)
Lemma pdu_cases others q c cmd b size rest :
  send_inv pm others q -> nt_snd_cmd q = Some c -> nt_cmds q !! c = Some cmd ->
  (forall p, b <> TPage p) -> at_pdu pm q cmd size -> 0 < size < 2 ^ 7 ->
  (forall o, cmd_bytes q c (cmd <| nc_offset := o |>)
     = kvec_bytes (mk_kvec (b, o) (size + nvmet_tcp_hdgst_len q - o)) ++ rest) ->
  (forall o, at_pdu pm q (cmd <| nc_offset := o |>) size -> snd_wf pm q c (cmd <| nc_offset := o |>)) ->
  let left := s32 (size - nc_offset cmd + nvmet_tcp_hdgst_len q) in
  0 < left < 2 ^ 20 /\ exists x, send_pdu pm b size left cmd q = Some x /\
    match x with
    | inl q1 => op_post others c (nc_state cmd) q q1
    | inr (ret, q1) =>
      (ret <= 0 -> aggregated pm q = false /\ op_post others c (nc_state cmd) q q1)
      /\ (0 < ret -> left - ret <> 0 -> aggregated pm q = false
          /\ op_post others c (nc_state cmd) q (put_ncmd c (cmd <| nc_offset ::= fun n => u32 (n + ret) |>) q1))
      /\ (left - ret = 0 -> exists bs, emit pm bs q q1 /\ (forall x p, x ∈ bs -> x.1 <> TPage p)
          /\ cmd_bytes q c cmd = bs ++ rest)
    end.
Proof.
  intros Hi Hs Hc Hb Hat Hsz Hbytes Hwf left. pose proof (hdgst_range q) as (Hh & _).
  assert (cmd_bytes q c cmd = kvec_bytes (mk_kvec (b, nc_offset cmd)
    (size + nvmet_tcp_hdgst_len q - nc_offset cmd)) ++ rest) as Hcmd.
  { rewrite <- Hbytes. by destruct cmd. }
  destruct (send_pdu_ok pm b size cmd q) as (El & x & E & Hx); [apply (si_car _ _ _ Hi)|done|done|].
  fold left in El, E, Hx. pose proof Hat as [Ho Ha0].
  split; [lia|]. exists x. split; [done|]. destruct x as [q1|[ret q1]].
  { by apply (post_stay others q q1 c cmd). }
  destruct Hx as (Hr & Ha & Hm).
  assert (forall x p, x ∈ kvec_bytes (mk_kvec (b, nc_offset cmd) (Z.max 0 ret)) -> x.1 <> TPage p) as Hnp.
  { intros x p. by apply kvec_no_page. }
  assert (ret <> left -> aggregated pm q = false) as Hag.
  { intros Hne. destruct (aggregated pm q); [|done]. by destruct (Hne (Ha eq_refl)). }
  split; [|split].
  - intros H0. split; [apply Hag; lia|]. apply (post_stay others q q1 c cmd); try done.
    by rewrite kvec_nil in Hm by lia.
  - intros H0 Hne. split; [apply Hag; lia|]. rewrite Z.max_r in Hm, Hnp by lia.
    assert (u32 (nc_offset cmd + ret) = nc_offset cmd + ret) as Eo by (apply u32_small; lia).
    apply (post_on others q q1 c cmd _ _ _ Hi Hs Hc Hm); try done.
    + apply Hwf. split; simpl; [lia|]. rewrite Hag by lia. done.
    + intros [H|(x & p & H1 & H2)]; [done|]. by apply (Hnp x p) in H1.
    + intros x p H1 H2. by apply (Hnp x p) in H1.
    + rewrite Hcmd. rewrite (kvec_bytes_split _ _ _ ret) by lia. rewrite <- app_assoc. f_equal.
      etrans; [|symmetry; apply Hbytes]. simpl. rewrite Eo. do 3 f_equal. lia.
  - intros Hz. rewrite Z.max_r in Hm, Hnp by lia. eexists. split; [done|]. split; [done|].
    rewrite Hcmd. do 3 f_equal. lia.
Qed.

(** ** The data PDU *)

Lemma tgt_data_pdu_ok : op_ok NVMET_TCP_SEND_DATA_PDU (nvmet_try_send_data_pdu pm).
Proof.
  intros others q c cmd Hi Hs Hc Hst. pose proof (si_snd _ _ _ Hi c cmd Hs Hc) as Hwf.
  unfold snd_wf in Hwf. rewrite Hst in Hwf. destruct Hwf as [Hat Hdr].
  destruct (pdu_cases others q c cmd (TData c) sizeof_data_pdu
    (sg_out (default [] (req_sg cmd q)) ++ tail_bytes q c)) as (Hl & x & E & Hx); try done.
  { apply (hdgst_range q). }
  { intros o. unfold cmd_bytes. simpl. by rewrite Hst. }
  { intros o Ho. unfold snd_wf. simpl. by rewrite Hst. }
  unfold nvmet_try_send_data_pdu. rewrite Hc. cbn [mbind option_bind]. rewrite E.
  cbn [mbind option_bind]. rewrite Hst in Hx. destruct x as [q1|[ret q1]]; [eexists _, _; split; [done|]; by split|].
  destruct Hx as (Hx0 & Hx1 & Hx2). destruct (Z.leb_spec ret 0) as [H0|H0].
  { eexists _, _. split; [done|]. destruct (Hx0 H0) as [Hag Hp]. split; [done|]. by rewrite Hag. }
  destruct (c_true (_ - ret)) eqn:Ez.
  { apply c_true_spec in Ez. eexists _, _. split; [done|]. destruct (Hx1 H0 Ez) as [Hag Hp].
    split; [done|]. by rewrite Hag. }
  apply c_true_false in Ez. destruct (Hx2 Ez) as (bs & Hm & Hnp & Hb).
  eexists _, _. split; [done|]. split; [|done]. destruct Hdr as (Hcur & l & Hsg & Hpos).
  apply (post_on others q q1 c cmd _ _ _ Hi Hs Hc Hm); try done.
  - split; [done|]. destruct l as [|s l]; [by destruct Hpos as [Hpos _]|].
    exists (s :: l), 0%nat, s. split; [done|]. split; [done|]. split; [done|]. split; [done|].
    destruct Hpos as [_ Hpos]. apply Forall_cons in Hpos as [Hpos _]. simpl. lia.
  - intros x p H1 H2. by destruct (Hnp x p).
  - rewrite Hb. unfold cmd_bytes. simpl. rewrite Hcur. simpl. by rewrite drop_0.
Qed.

(** ** The R2T *)

Lemma r2t_ok : op_ok NVMET_TCP_SEND_R2T (nvmet_try_send_r2t pm).
Proof.
  intros others q c cmd Hi Hs Hc Hst. pose proof (si_snd _ _ _ Hi c cmd Hs Hc) as Hat.
  unfold snd_wf in Hat. rewrite Hst in Hat. destruct Hat as [Hat Haw].
  destruct (pdu_cases others q c cmd (TR2t c) sizeof_r2t_pdu []) as (Hl & x & E & Hx); try done.
  { apply r2t_size. }
  { intros o. unfold cmd_bytes. simpl. by rewrite Hst, app_nil_r. }
  { intros o Ho. unfold snd_wf. simpl. rewrite Hst. split; [done|]. destruct Haw. by constructor. }
  unfold nvmet_try_send_r2t. rewrite Hc. cbn [mbind option_bind]. rewrite E.
  cbn [mbind option_bind]. rewrite Hst in Hx. destruct x as [q1|[ret q1]]; [eexists _, _; split; [done|]; by split|].
  destruct Hx as (Hx0 & Hx1 & Hx2). destruct (Z.leb_spec ret 0) as [H0|H0].
  { eexists _, _. split; [done|]. destruct (Hx0 H0) as [Hag Hp]. split; [done|]. by rewrite Hag. }
  destruct (c_true (_ - ret)) eqn:Ez.
  { apply c_true_spec in Ez. eexists _, _. split; [done|]. destruct (Hx1 H0 Ez) as [Hag Hp].
    split; [done|]. by rewrite Hag. }
  apply c_true_false in Ez. destruct (Hx2 Ez) as (bs & Hm & Hnp & Hb). rewrite app_nil_r in Hb.
  eexists _, _. split; [done|]. split; [|done].
  exists [c], (cmd <| nc_offset ::= fun n => u32 (n + ret) |>). split; [|split].
  - apply (step_await pm others q q1 c cmd _ _ Hi Hs Hc Hm); try done.
    left. split; [|done]. unfold sent_pages. by rewrite Hst.
  - simpl. apply lookup_insert_eq.
  - split; [right; split; [done|]; simpl; by rewrite Hst|].
    pose proof (em_still _ _ _ _ Hm) as M1.
    assert (nt_cmds q1 = nt_cmds q) as Ecm by exact (f_equal nt_cmds M1).
    eapply (r2t_post_put q _ c); [simpl; by rewrite Ecm|]. right. split; [done|].
    apply (awaitable_view q); [|destruct Haw; by constructor].
    apply own_req_sg. exact (f_equal nt_sgls M1).
Qed.

(** ** The response *)

Lemma response_ok : op_ok NVMET_TCP_SEND_RESPONSE (nvmet_try_send_response pm).
Proof.
  intros others q c cmd Hi Hs Hc Hst. pose proof (si_snd _ _ _ Hi c cmd Hs Hc) as Hat.
  unfold snd_wf in Hat. rewrite Hst in Hat. pose proof (si_car _ _ _ Hi) as Hw.
  destruct (pdu_cases others q c cmd (TRsp c) sizeof_rsp_pdu []) as (Hl & x & E & Hx); try done.
  { apply (hdgst_range q). }
  { intros o. unfold cmd_bytes. simpl. by rewrite Hst, app_nil_r. }
  { intros o Ho. unfold snd_wf. simpl. by rewrite Hst. }
  unfold nvmet_try_send_response. rewrite Hc. cbn [mbind option_bind]. rewrite E.
  cbn [mbind option_bind]. rewrite Hst in Hx. destruct x as [q1|[ret q1]]; [eexists _, _; split; [done|]; by split|].
  destruct Hx as (Hx0 & Hx1 & Hx2).
  assert (aggregated pm q1 = aggregated pm q) as Eag.
  { unfold send_pdu in E. destruct (aggregated pm q) eqn:Ea.
    - destruct (i10_target_is_caravan_full q); [done|]. apply bind_Some in E as (q0 & E0 & E1).
      injection E1 as _ <-. apply bind_Some in E0 as (l & _ & E0). injection E0 as <-. exact Ea.
    - injection E as _ <-. exact Ea. }
  rewrite Eag. destruct (aggregated pm q) eqn:Ea.
  - assert (exists bs, emit pm bs q q1 /\ (forall x p, x ∈ bs -> x.1 <> TPage p)
      /\ cmd_bytes q c cmd = bs ++ []) as (bs & Hm & Hnp & Hb).
    { apply Hx2. destruct (decide (ret <= 0)) as [H0|H0]; [by destruct (Hx0 H0)|].
      destruct (decide (s32 (sizeof_rsp_pdu - nc_offset cmd + nvmet_tcp_hdgst_len q) - ret = 0)); [done|].
      destruct (Hx1 ltac:(lia)); done. }
    rewrite app_nil_r in Hb. unfold send_pdu in E. rewrite Ea in E.
    destruct (i10_target_is_caravan_full q) eqn:Ef; [done|]. apply full_false in Ef as (_ & _ & F3 & _).
    destruct (step_owner pm others q q1 c cmd
      (cmd <| nc_offset ::= fun n => u32 (n + s32 (sizeof_rsp_pdu - nc_offset cmd + nvmet_tcp_hdgst_len q)) |>)
      bs Hi Hs Hc Hm) as (l & El & Hstep); try done.
    { apply bind_Some in E as (q0 & E0 & E1). injection E1 as _ <-.
      apply bind_Some in E0 as (l & _ & E0). injection E0 as <-. simpl. pose proof (cw_nr _ _ Hw). lia. }
    rewrite El. simpl. eexists _, _. split; [done|]. split; [|done]. eexists [], _. split; [done|].
    split; [simpl; apply lookup_insert_eq|]. split; [right; split; [done|]; simpl; by rewrite Hst|].
    assert (nt_cmds q1 = nt_cmds q) as Ecm by exact (f_equal nt_cmds (em_still _ _ _ _ Hm)).
    eapply (r2t_post_put q _ c); [simpl; by rewrite Ecm|]. left. split; [|done].
    intros [Hd _]. simpl in Hd. congruence.
  - destruct (Z.leb_spec ret 0) as [H0|H0].
    { eexists _, _. split; [done|]. destruct (Hx0 H0) as [Hag Hp]. done. }
    destruct (c_true (_ - ret)) eqn:Ez.
    { apply c_true_spec in Ez. eexists _, _. split; [done|]. destruct (Hx1 H0 Ez) as [Hag Hp].
    done. }
    apply c_true_false in Ez. destruct (Hx2 Ez) as (bs & Hm & Hnp & Hb). rewrite app_nil_r in Hb.
    destruct (step_release pm others [] c [] q
      (put_ncmd c (cmd <| nc_offset ::= fun n => u32 (n + ret) |>) (q1 <| nt_snd_cmd := None |>)))
      as (q3 & E3 & Hs3 & Ho3).
    { apply (step_await pm others q q1 c cmd _ _ Hi Hs Hc Hm); try done. by right. }
    exists 1, q3. split.
    { transitivity (x ← release_cmd c (put_ncmd c (cmd <| nc_offset ::= fun n => u32 (n + ret) |>)
        (q1 <| nt_snd_cmd := None |>)); Some (1, x)); [done|by rewrite E3]. }
    split; [|done]. exists [], (cmd <| nc_offset ::= fun n => u32 (n + ret) |>). split; [done|]. split.
    + change (nt_cmds (outer q3) !! c = Some (cmd <| nc_offset ::= fun n => u32 (n + ret) |>)).
      rewrite Ho3. simpl. apply lookup_insert_eq.
    + split; [right; split; [exact (f_equal nt_snd_cmd Ho3)|]; simpl; by rewrite Hst|].
      assert (nt_cmds q3 = <[c := cmd <| nc_offset ::= fun n => u32 (n + ret) |>]> (nt_cmds q)) as Ecm.
      { etrans; [exact (f_equal nt_cmds Ho3)|]. simpl. f_equal. exact (f_equal nt_cmds (em_still _ _ _ _ Hm)). }
      apply (r2t_post_put q q3 c _ [] Ecm). left. split; [|done]. intros [Hd _]. simpl in Hd. congruence.
Qed.

(** ** The data *)

Lemma emit_trans b1 b2 q q1 q2 : emit pm b1 q q1 -> emit pm b2 q1 q2 -> emit pm (b1 ++ b2) q q2.
Proof.
  intros [A1 A2 A3 A4 A6 A5] [B1 B2 B3 B4 B6 B5]. constructor; [congruence|done| |by etrans|lia|].
  - by rewrite B3, A3, app_assoc.
  - intros v Hv. destruct (B5 v Hv) as [H|(x & Hx & E)]; [|right; exists x; set_solver].
    destruct (A5 v H) as [H'|(x & Hx & E)]; [by left|]. right. exists x. set_solver.
Qed.

(** Giving out bytes does not look at the commands. *)
Lemma emit_put b c x q1 q2 :
  emit pm b (put_ncmd c x q1) q2 ->
  emit pm b q1 (q2 <| nt_cmds := nt_cmds q1 |>) /\ q2 = put_ncmd c x (q2 <| nt_cmds := nt_cmds q1 |>).
Proof.
  intros [M1 M2 M3 M4 M6 M5]. split.
  - constructor; try done.
    + pose proof (f_equal (fun y => y <| nt_cmds := nt_cmds q1 |>) M1) as E.
      etrans; [exact E|]. destruct q1. reflexivity.
    + by apply (car_wf_view pm q2).
  - assert (nt_cmds q2 = <[c := x]> (nt_cmds q1)) as E by exact (f_equal nt_cmds M1).
    change (q2 = q2 <| nt_cmds := <[c := x]> (nt_cmds q1) |>). rewrite <- E. destruct q2. reflexivity.
Qed.

Lemma ncmd_put_put c x y q : put_ncmd c y (put_ncmd c x q) = put_ncmd c y q.
Proof.
  change (q <| nt_cmds := <[c := y]> (<[c := x]> (nt_cmds q)) |> = q <| nt_cmds := <[c := y]> (nt_cmds q) |>).
  by rewrite insert_insert_eq.
Qed.

Definition give_page (p : Z) (v : kvec) q : option (Z * nvmet_tcp_queue) :=
  if aggregated pm q
  then q ← tgt_caravan_add v q;
       m ← aset (nt_caravan_mapped q) (nt_nr_caravan_mapped q) p;
       Some (s32 (iov_len v), q <| nt_kmaps ::= cons p |> <| nt_caravan_mapped := m |>
                         <| nt_nr_caravan_mapped ::= fun n => n + 1 |>)
  else Some (tgt_kernel_sendpage v q).

Lemma give_page_ok p o n q :
  car_wf pm q -> 0 < n < 2 ^ 20 -> aggregated pm q && i10_target_is_caravan_full q = false ->
  exists ret q1, give_page p (mk_kvec (TPage p, o) n) q = Some (ret, q1) /\ ret <= n
    /\ (aggregated pm q = true -> ret = n)
    /\ emit pm (kvec_bytes (mk_kvec (TPage p, o) (Z.max 0 ret))) q q1.
Proof.
  intros Hw Hn Hf. unfold give_page. destruct (aggregated pm q) eqn:Ea.
  - simpl in Hf. destruct (tgt_caravan_add_ok pm (mk_kvec (TPage p, o) n) q)
      as (q1 & E & E1 & E2 & E3 & E4 & E5 & E6); [done|done|done|done|].
    rewrite E. simpl. rewrite E5, E6. apply full_false in Hf as (_ & _ & _ & F4).
    rewrite aset_lt by (pose proof (cw_mapped _ _ Hw); pose proof (cw_nrm _ _ Hw); lia). simpl.
    rewrite s32_small by lia. eexists _, _. split; [done|]. split; [lia|]. split; [done|].
    rewrite Z.max_r by lia. apply emit_caravan; try done; [simpl; lia|].
    destruct E2 as [C1 C2 C3 C4 C5 C6 C7 C8 C9 C10 C11]. pose proof (cw_mapped _ _ Hw).
    pose proof (cw_nrm _ _ Hw).
    constructor; simpl; try done; [by rewrite length_insert|lia|].
    intros Hz. exfalso. assert (length (tgt_caravan q1) = 0%nat) as HL by (unfold tgt_caravan; by rewrite Hz).
    rewrite E3, length_app in HL. simpl in HL. lia.
  - eexists _, _. split; [done|]. destruct (emit_socket pm (TPage p) o n q) as [H1 H2]; [lia|done|done|].
    split; [done|]. split; [done|]. done.
Qed.

(** The position in the scatter list [l] and what is left from it on. *)
Definition data_pos q cmd (l : list scatterlist) : Prop :=
  match nc_cur_sg cmd with
  | None => nc_offset cmd = 0
  | Some i => exists s, l !! i = Some s /\ 0 <= nc_offset cmd < sl_length s
      /\ (aggregated pm q = true -> nc_offset cmd = 0)
  end.
Definition data_rest cmd (l : list scatterlist) : list (tbuf * Z) :=
  match nc_cur_sg cmd with
  | None => []
  | Some i => drop (Z.to_nat (nc_offset cmd)) (sg_out (drop i l))
  end.

Lemma data_rest_cons cmd l i s :
  nc_cur_sg cmd = Some i -> l !! i = Some s -> 0 <= nc_offset cmd < sl_length s ->
  data_rest cmd l = kvec_bytes (mk_kvec (TPage (sl_page s), nc_offset cmd) (sl_length s - nc_offset cmd))
    ++ sg_out (drop (S i) l).
Proof.
  intros Hi Hl Ho. unfold data_rest. rewrite Hi, (drop_S l s i Hl). unfold sg_out. rewrite !fmap_cons.
  simpl concat. rewrite drop_app_le by (rewrite kvec_bytes_length; simpl; lia).
  unfold sg_kvec at 1. rewrite kvec_bytes_drop by lia. done.
Qed.

(** The command after a turn that gave out [ret] bytes of entry [i]. *)
Definition data_next (ret : Z) (i : nat) (s : scatterlist) (l : list scatterlist) cmd : nvmet_tcp_cmd :=
  let cmd := cmd <| nc_offset ::= fun n => u32 (n + ret) |> <| nc_wbytes_done ::= fun n => u32 (n + ret) |> in
  if nc_offset cmd =? sl_length s then cmd <| nc_cur_sg := sg_next i l |> <| nc_offset := 0 |> else cmd.

Lemma data_next_ok q ret i s l cmd :
  Forall (fun s => 0 < sl_length s < 2 ^ 20) l -> nc_cur_sg cmd = Some i -> l !! i = Some s ->
  0 <= nc_offset cmd -> 0 < ret <= sl_length s - nc_offset cmd ->
  (aggregated pm q = true -> ret = sl_length s - nc_offset cmd) ->
  let cmd' := data_next ret i s l cmd in
  data_pos q cmd' l /\ data_rest cmd l
    = kvec_bytes (mk_kvec (TPage (sl_page s), nc_offset cmd) ret) ++ data_rest cmd' l
  /\ nr_sg cmd' = nr_sg cmd /\ nc_iov cmd' = nc_iov cmd /\ nc_state cmd' = nc_state cmd.
Proof.
  intros Hpos Hi Hl Ho Hr Ha cmd'.
  assert (0 < sl_length s < 2 ^ 20) as Hs by (rewrite Forall_lookup in Hpos; by apply (Hpos i)).
  rewrite (data_rest_cons cmd l i s) by (done || lia).
  unfold cmd', data_next. simpl. rewrite u32_small by lia.
  destruct (Z.eqb_spec (nc_offset cmd + ret) (sl_length s)) as [E|E].
  - split; [|split; [|done]].
    + unfold data_pos. simpl. unfold sg_next. destruct (Nat.ltb_spec (S i) (length l)) as [Hlt|Hge]; [|done].
      destruct (lookup_lt_is_Some_2 l (S i) Hlt) as [s' Hs']. exists s'. split; [done|].
      rewrite Forall_lookup in Hpos. specialize (Hpos (S i) s' Hs'). split; [lia|done].
    + unfold data_rest. simpl. replace (sl_length s - nc_offset cmd) with ret by lia. f_equal.
      unfold sg_next. destruct (Nat.ltb_spec (S i) (length l)) as [Hlt|Hge]; [done|].
      by rewrite drop_ge by lia.
  - split; [|split; [|done]].
    + unfold data_pos. simpl. rewrite Hi. exists s. split; [done|]. rewrite u32_small by lia. split; [lia|].
      intros Hag. specialize (Ha Hag). lia.
    + rewrite (kvec_bytes_split _ _ _ ret) by lia. rewrite <- app_assoc. f_equal.
      set (cmd2 := cmd <| nc_offset ::= fun n => u32 (n + ret) |> <| nc_wbytes_done ::= fun n => u32 (n + ret) |>).
      assert (nc_offset cmd2 = nc_offset cmd + ret) as E2 by (apply u32_small; lia).
      rewrite (data_rest_cons cmd2 l i s) by (done || rewrite E2; lia). rewrite E2. do 2 f_equal. f_equal. lia.
Qed.

(** The command [cmd] of the state [q] has become [k] after giving out [bs]. *)
Record data_run q (c : Z) cmd (l : list scatterlist) (bs : list (tbuf * Z)) k q1 : Prop := {
  dr_emit : emit pm bs q q1;
  dr_sg : nr_sg k = nr_sg cmd;
  dr_iov : nc_iov k = nc_iov cmd;
  dr_state : nc_state k = NVMET_TCP_SEND_DATA;
  dr_pos : data_pos q k l;
  dr_rest : data_rest cmd l = bs ++ data_rest k l;
  dr_pages : forall x p, x ∈ bs -> x.1 = TPage p -> p ∈ sl_page <$> l;
}.

Lemma data_run_req q c cmd l bs k q1 :
  data_run q c cmd l bs k q1 -> req_sg cmd q = Some l -> req_sg k (put_ncmd c k q1) = Some l.
Proof.
  intros Hd Hl. unfold req_sg in *. rewrite (dr_sg _ _ _ _ _ _ _ Hd).
  change (nt_sgls (put_ncmd c k q1)) with (nt_sgls q1).
  by rewrite (f_equal nt_sgls (em_still _ _ _ _ (dr_emit _ _ _ _ _ _ _ Hd)) : nt_sgls q1 = nt_sgls q).
Qed.

(** One turn. *)
Lemma tgt_data_turn q c cmd l bs k q1 i s :
  sg_pos l -> data_run q c cmd l bs k q1 -> nc_cur_sg k = Some i -> l !! i = Some s ->
  let q0 := put_ncmd c k q1 in
  aggregated pm q0 && i10_target_is_caravan_full q0 = false ->
  exists ret q2,
    give_page (sl_page s) (mk_kvec (TPage (sl_page s), nc_offset k) (sl_length s - nc_offset k)) q0
      = Some (ret, put_ncmd c k q2)
    /\ (ret <= 0 -> data_run q c cmd l bs k q2 /\ aggregated pm q = false)
    /\ (0 < ret -> exists bs', data_run q c cmd l bs' (data_next ret i s l k) q2
        /\ (length (data_rest (data_next ret i s l k) l) < length (data_rest k l))%nat).
Proof.
  intros [_ Hpos] [D1 D2 D3 D4 D5 D6 D7] Hcur Hl q0 Hf.
  assert (0 < sl_length s < 2 ^ 20) as Hs by (rewrite Forall_lookup in Hpos; by apply (Hpos i)).
  pose proof D5 as D5'. unfold data_pos in D5'. rewrite Hcur in D5'.
  destruct D5' as (s' & Hs' & Ho & Ha). assert (s' = s) as -> by congruence.
  destruct (give_page_ok (sl_page s) (nc_offset k) (sl_length s - nc_offset k) q0) as (ret & q2 & E & Hr & Hra & Hm);
    [apply (car_wf_view pm q1); [done|apply (em_car _ _ _ _ D1)]|lia|done|].
  destruct (emit_put _ _ _ _ _ Hm) as [Hm1 E1]. set (q2' := q2 <| nt_cmds := nt_cmds q1 |>) in *.
  pose proof (emit_trans _ _ _ _ _ D1 Hm1) as Hm2.
  exists ret, q2'. split; [by rewrite <- E1|]. split.
  - intros H0. rewrite kvec_nil, app_nil_r in Hm2 by lia. split; [by constructor|].
    assert (aggregated pm q0 = aggregated pm q) as Eag by exact (f_equal (aggregated pm) (em_still _ _ _ _ D1)).
    rewrite <- Eag. destruct (aggregated pm q0); [|done]. specialize (Hra eq_refl). lia.
  - intros H0. rewrite Z.max_r in Hm2 by lia.
    assert (aggregated pm q0 = aggregated pm q) as Eag by exact (f_equal (aggregated pm) (em_still _ _ _ _ D1)).
    destruct (data_next_ok q ret i s l k) as (N1 & N2 & N3 & N4 & N5); [done|done|done|lia|lia|by rewrite <- Eag|].
    eexists. split.
    + constructor; [exact Hm2|congruence|congruence|congruence|done| |].
      * by rewrite D6, N2, app_assoc.
      * intros x p [Hx|Hx]%elem_of_app Hp; [by apply (D7 x)|]. apply kvec_bytes_buf in Hx. simpl in Hx.
        apply list_elem_of_fmap. exists s. split; [congruence|]. by apply list_elem_of_lookup_2 in Hl.
    + rewrite N2, length_app, kvec_bytes_length. simpl. lia.
Qed.

Lemma send_sgs_ok q c cmd l fuel :
  req_sg cmd q = Some l -> sg_pos l ->
  forall bs k q1, data_run q c cmd l bs k q1 -> (length (data_rest k l) <= fuel)%nat ->
  exists fin ret bs' k' q2, send_sgs pm fuel c (put_ncmd c k q1) = Some (fin, ret, put_ncmd c k' q2)
    /\ data_run q c cmd l bs' k' q2 /\ (fin = true <-> nc_cur_sg k' = None)
    /\ (aggregated pm q = true -> 0 < ret).
Proof.
  intros Hl Hpos. induction fuel as [|fuel IH]; intros bs k q1 Hd Hf;
    (assert (nt_cmds (put_ncmd c k q1) !! c = Some k) as Hk by (simpl; apply lookup_insert_eq)).
  - cbn [send_sgs]. rewrite Hk. cbn [mbind option_bind]. destruct (nc_cur_sg k) as [i|] eqn:Ek.
    + pose proof (dr_pos _ _ _ _ _ _ _ Hd) as Hp. unfold data_pos in Hp. rewrite Ek in Hp.
      destruct Hp as (s & Hs & Ho & _). rewrite (data_rest_cons k l i s) in Hf by done.
      rewrite length_app, kvec_bytes_length in Hf. simpl in Hf. lia.
    + exists true, 1, bs, k, q1. done.
  - cbn [send_sgs]. rewrite Hk. cbn [mbind option_bind]. destruct (nc_cur_sg k) as [i|] eqn:Ek;
      [|exists true, 1, bs, k, q1; done].
    rewrite (data_run_req q c cmd l bs k q1 Hd Hl). cbn [mbind option_bind].
    pose proof (dr_pos _ _ _ _ _ _ _ Hd) as Hp. unfold data_pos in Hp. rewrite Ek in Hp.
    destruct Hp as (s & Hs & Ho & _). rewrite Hs. cbn [mbind option_bind].
    assert (0 < sl_length s < 2 ^ 20) as Hsl by (destruct Hpos as [_ H]; rewrite Forall_lookup in H; by apply (H i)).
    rewrite u32_small by lia.
    destruct (aggregated pm (put_ncmd c k q1) && i10_target_is_caravan_full (put_ncmd c k q1)) eqn:Efull.
    { exists false, 1, bs, k, (q1 <| nt_send_now := true |>). split; [done|]. split; [|by rewrite Ek].
      destruct Hd as [D1 D2 D3 D4 D5 D6 D7]. constructor; try done.
      rewrite <- (app_nil_r bs). apply (emit_trans _ _ _ q1); [done|]. apply emit_now. apply (em_car _ _ _ _ D1). }
    destruct (tgt_data_turn q c cmd l bs k q1 i s Hpos Hd Ek Hs Efull) as (ret & q2 & E & H0 & H1).
    change (s32 (sl_length s - nc_offset k)) with
      (s32 (iov_len (mk_kvec (TPage (sl_page s), nc_offset k) (sl_length s - nc_offset k)))).
    change (if aggregated pm (put_ncmd c k q1) then _ else _) with
      (give_page (sl_page s) (mk_kvec (TPage (sl_page s), nc_offset k) (sl_length s - nc_offset k))
        (put_ncmd c k q1)). rewrite E. cbn [mbind option_bind].
    destruct (Z.leb_spec ret 0) as [Hr|Hr].
    { exists false, ret, bs, k, q2. split; [done|]. destruct (H0 Hr) as [Hd' Hag]. split; [done|].
      by rewrite Ek, Hag. }
    destruct (H1 Hr) as (bs' & Hd' & Hlt). rewrite ncmd_put_put.
    apply (IH bs' (data_next ret i s l k) q2 Hd'). lia.
Qed.

Lemma sg_out_length l :
  Forall (fun s => 0 < sl_length s < 2 ^ 20) l ->
  length (sg_out l) = Z.to_nat (foldr (fun s n => sl_length s + n) 0 l)
  /\ 0 <= foldr (fun s n => sl_length s + n) 0 l.
Proof.
  induction 1 as [|s l Hs _ [IH1 IH2]]; [done|]. unfold sg_out in *. rewrite !fmap_cons. simpl.
  rewrite length_app, kvec_bytes_length, IH1. simpl. lia.
Qed.

Lemma sgs_fuel_ok q c cmd l :
  nt_cmds q !! c = Some cmd -> req_sg cmd q = Some l -> sg_pos l ->
  (length (data_rest cmd l) <= sgs_fuel c q)%nat.
Proof.
  intros Hc Hl [_ Hpos]. unfold sgs_fuel. rewrite Hc. cbn [mbind option_bind]. rewrite Hl. cbn [from_option].
  destruct (sg_out_length l Hpos) as [E _]. rewrite <- E. unfold data_rest.
  destruct (nc_cur_sg cmd) as [i|]; [|simpl; lia]. rewrite length_drop.
  assert (length (sg_out (drop i l)) <= length (sg_out l))%nat; [|lia].
  rewrite <- (take_drop i l) at 2. unfold sg_out. rewrite !fmap_app, concat_app, length_app. lia.
Qed.

(** Returning the command before its buffers makes no difference. *)
Lemma obj_free_put n c q : obj_free n (nvmet_tcp_put_cmd c q) = nvmet_tcp_put_cmd c <$> obj_free n q.
Proof.
  unfold nvmet_tcp_put_cmd. destruct (c =? connect_id); [by destruct (obj_free n q)|].
  unfold obj_free. destruct n as [n|]; [|reflexivity]. simpl. destruct (bool_decide (n ∈ nt_live q)); reflexivity.
Qed.
Lemma sgl_free_put n c q : sgl_free n (nvmet_tcp_put_cmd c q) = nvmet_tcp_put_cmd c <$> sgl_free n q.
Proof.
  unfold nvmet_tcp_put_cmd. destruct (c =? connect_id); [by destruct (sgl_free n q)|].
  unfold sgl_free. destruct n as [n|]; [|reflexivity]. simpl. destruct (nt_sgls q !! n); reflexivity.
Qed.

Lemma free_after_put c k q q3 :
  nt_cmds q !! c = Some k -> release_cmd c q = Some q3 ->
  (x ← nt_cmds (nvmet_tcp_put_cmd c q) !! c;
   y ← obj_free (nc_iov x) (nvmet_tcp_put_cmd c q); sgl_free (nr_sg x) y) = Some q3.
Proof.
  intros Hk. unfold release_cmd. rewrite Hk. cbn [mbind option_bind].
  assert (nt_cmds (nvmet_tcp_put_cmd c q) = nt_cmds q) as ->
    by (unfold nvmet_tcp_put_cmd; by destruct (c =? connect_id)).
  rewrite Hk. cbn [mbind option_bind]. intros (y & Hy & (z & Hz & Eq)%bind_Some)%bind_Some.
  rewrite obj_free_put, Hy. cbn [mbind option_bind fmap option_fmap option_map].
  rewrite sgl_free_put, Hz. cbn [fmap option_fmap option_map]. done.
Qed.

Lemma data_ok : op_ok NVMET_TCP_SEND_DATA (nvmet_try_send_data pm).
Proof.
  intros others q c cmd Hi Hs Hc Hst. pose proof (si_snd _ _ _ Hi c cmd Hs Hc) as Hwf.
  unfold snd_wf in Hwf. rewrite Hst in Hwf. destruct Hwf as (Ha & l & i & s & Hl & Hpos & Hcur & Hls & Ho).
  assert (forall k, nc_state k = NVMET_TCP_SEND_DATA -> nr_sg k = nr_sg cmd -> nc_cur_sg k <> None ->
    cmd_bytes q c k = data_rest k l ++ tail_bytes q c) as Hcb.
  { intros k E1 E2 E3. unfold cmd_bytes, data_rest. rewrite E1.
    assert (req_sg k q = Some l) as -> by (rewrite <- Hl; unfold req_sg; by rewrite E2).
    by destruct (nc_cur_sg k). }
  destruct (send_sgs_ok q c cmd l (sgs_fuel c q) Hl Hpos [] cmd q) as (fin & ret & bs & k & q2 & E & Hd & Hfin & Hra).
  { constructor; try done.
    - constructor; try done; [apply (si_car _ _ _ Hi)|by rewrite app_nil_r|by left].
    - unfold data_pos. rewrite Hcur. by exists s.
    - intros x p Hx. by apply elem_of_nil in Hx. }
  { by apply (sgs_fuel_ok q). }
  rewrite put_same in E by done. unfold nvmet_try_send_data. rewrite E. cbn [mbind option_bind].
  pose proof Hd as [D1 D2 D3 D4 D5 D6 D7].
  assert (cmd_bytes q c cmd = bs ++ data_rest k l ++ tail_bytes q c) as Hb.
  { rewrite (Hcb cmd) by (done || by rewrite Hcur). by rewrite D6, app_assoc. }
  assert (forall x p, x ∈ bs -> x.1 = TPage p -> exists l, req_sg cmd q = Some l /\ p ∈ sl_page <$> l) as Hpg.
  { intros x p Hx Hp. exists l. split; [done|]. by apply (D7 x). }
  destruct fin; cbn [negb].
  2:{ eexists _, _. split; [done|]. split; [|done]. assert (nc_cur_sg k <> None) as Hk by (intros Hk; by apply Hfin in Hk).
      apply (post_on others q q2 c cmd k _ bs Hi Hs Hc D1); try done.
      - unfold snd_wf. rewrite D4. unfold data_pos in D5. destruct (nc_cur_sg k) as [j|] eqn:Ek; [|done].
        destruct D5 as (s' & E1 & E2 & E3). split; [done|]. exists l, j, s'.
        split; [rewrite <- Hl; unfold req_sg; by rewrite D2|done].
      - intros _. unfold sent_pages. by rewrite D4.
      - by rewrite (Hcb k). }
  assert (nc_cur_sg k = None) as Hk by by apply Hfin.
  assert (data_rest k l = []) as Hrest by (unfold data_rest; by rewrite Hk). rewrite Hrest in Hb. simpl in Hb.
  assert (nt_cmds (put_ncmd c k q2) !! c = Some k) as Hkk by (simpl; apply lookup_insert_eq).
  rewrite Hkk. cbn [mbind option_bind].
  assert (fixed q2 = fixed q) as Hfx by exact (f_equal fixed (em_still _ _ _ _ D1)).
  change (nt_data_digest (put_ncmd c k q2)) with (nt_data_digest (fixed q2)).
  change (nt_sqhd_disabled (put_ncmd c k q2)) with (nt_sqhd_disabled (fixed q2)). rewrite Hfx.
  change (nt_data_digest (fixed q)) with (nt_data_digest q).
  change (nt_sqhd_disabled (fixed q)) with (nt_sqhd_disabled q). rewrite (si_digest _ _ _ Hi).
  destruct (nt_sqhd_disabled q) eqn:Esq; cbn [mbind option_bind].
  - assert (aggregated pm q = false) as Hag.
    { destruct (aggregated pm q) eqn:Eag; [|done]. rewrite (si_success _ _ _ Hi Eag) in Esq. done. }
    destruct (step_release pm others [] c [] q (put_ncmd c k (q2 <| nt_snd_cmd := None |>))) as (q3 & E3 & Hs3 & Ho3).
    { apply (step_await pm others q q2 c cmd k bs Hi Hs Hc D1); try done; [by right|].
      rewrite Hb. unfold tail_bytes. rewrite Esq. by rewrite app_nil_r. }
    exists 1, q3. split.
    + assert (nt_sqhd_disabled (nvmet_tcp_put_cmd c ((put_ncmd c k q2) <| nt_snd_cmd := None |>)) = true) as ->.
      { rewrite <- Esq. unfold nvmet_tcp_put_cmd.
        destruct (c =? connect_id); exact (f_equal nt_sqhd_disabled Hfx). }
      assert (nt_cmds (put_ncmd c k (q2 <| nt_snd_cmd := None |>)) !! c = Some k) as Hk3 by (simpl; apply lookup_insert_eq).
      pose proof (free_after_put c k _ q3 Hk3 E3) as Hfree.
      transitivity (x ← Some q3; Some (1, x)); [|done]. rewrite <- Hfree. done.
    + split; [|done]. exists [], k. split; [done|]. split.
      * change (nt_cmds (outer q3) !! c = Some k). rewrite Ho3. simpl. apply lookup_insert_eq.
      * split; [right; split; [exact (f_equal nt_snd_cmd Ho3)|]; by rewrite D4|].
        assert (nt_cmds q3 = <[c := k]> (nt_cmds q)) as Ecm.
        { etrans; [exact (f_equal nt_cmds Ho3)|]. simpl. f_equal. exact (f_equal nt_cmds (em_still _ _ _ _ D1)). }
        apply (r2t_post_put q q3 c _ [] Ecm). left. split; [|done]. intros [Hd' _]. congruence.
  - unfold nvmet_setup_response_pdu. rewrite Hkk. cbn [mbind option_bind]. rewrite ncmd_put_put.
    change (nt_sqhd_disabled (put_ncmd c _ q2)) with (nt_sqhd_disabled (fixed q2)). rewrite Hfx.
    change (nt_sqhd_disabled (fixed q)) with (nt_sqhd_disabled q). rewrite Esq. cbn [mbind option_bind].
    eexists _, _. split; [done|]. split; [|done].
    apply (post_on others q q2 c cmd _ _ bs Hi Hs Hc D1); try done.
    + pose proof (hdgst_range q). unfold snd_wf. simpl. split; [simpl; lia|done].
    + rewrite Hb. unfold tail_bytes. rewrite Esq. unfold cmd_bytes, rsp_bytes. simpl. by rewrite Z.sub_0_r.
Qed.

Lemma ddgst_ok : op_ok NVMET_TCP_SEND_DDGST nvmet_try_send_ddgst.
Proof.
  intros others q c cmd Hi Hs Hc Hst. pose proof (si_snd _ _ _ Hi c cmd Hs Hc) as Hwf.
  unfold snd_wf in Hwf. by rewrite Hst in Hwf.
Qed.

(** ** The states in turn *)

Definition chain_inv (others : list Z) q0 (c : Z) (n : Z) (x : bool * Z * nvmet_tcp_queue) : Prop :=
  let '(_, ret, q) := x in
  exists r cmd, send_step pm others [] r q0 q /\ nt_cmds q !! c = Some cmd
    /\ (nt_snd_cmd q = Some c \/ nt_snd_cmd q = None /\ rank (nc_state cmd) <= n)
    /\ (aggregated pm q0 = true -> 0 <= ret) /\ r2t_post [] r q0 q.

Lemma chain_step others q0 c n x st f :
  send_inv pm others q0 -> op_ok st f -> n < rank st -> chain_inv others q0 c n x ->
  exists x', try_send_state st f c x = Some x' /\ chain_inv others q0 c (rank st) x'.
Proof.
  intros Hi Hop Hn. destruct x as [[fin ret] q]. intros (r & cmd & Hstep & Hc & Hsnd & Hret & Hrp).
  unfold try_send_state. rewrite Hc. cbn [mbind option_bind].
  destruct (negb fin && bool_decide (nc_state cmd = st)) eqn:E.
  - apply andb_true_iff in E as [_ E%bool_decide_eq_true].
    destruct Hsnd as [Hsnd|[_ Hr]]; [|rewrite E in Hr; lia].
    destruct (Hop (r ++ others) q c cmd) as (ret' & q' & Ef & Hp & Hag); try done; [apply (ss_inv _ _ _ _ _ _ Hstep)|].
    rewrite Ef. cbn [mbind option_bind]. eexists. split; [done|].
    destruct Hp as (r' & cmd' & Hs' & Hc' & Hsnd' & Hrp'). exists (r' ++ r), cmd'.
    split; [by apply (send_step_trans pm others [] [] r r' q0 q q')|]. split; [done|]. split; [done|].
    split; [|by apply (r2t_post_trans pm others [] [] r r' q0 q q')]. intros Ha. assert (aggregated pm q = aggregated pm q0) as Eq
      by exact (f_equal (aggregated pm) (ss_fixed _ _ _ _ _ _ Hstep)).
    rewrite Eq in Hag. specialize (Hag Ha). lia.
  - eexists. split; [done|]. exists r, cmd. split; [done|]. split; [done|]. split; [|by split].
    destruct Hsnd as [?|[? ?]]; [by left|]. right. split; [done|]. lia.
Qed.

Lemma try_send_cmd_ok others q c :
  send_inv pm others q -> nt_snd_cmd q = Some c ->
  exists ret q' r, try_send_cmd pm c q = Some (ret, q') /\ send_step pm others [] r q q'
    /\ (aggregated pm q = true -> ret = 1) /\ r2t_post [] r q q'.
Proof.
  intros Hi Hs. destruct (send_inv_lookup pm others q c Hi) as [cmd Hc].
  { unfold sending, snd_list. rewrite Hs. set_solver. }
  unfold try_send_cmd.
  destruct (chain_step others q c (-1) (false, 0, q) _ _ Hi tgt_data_pdu_ok) as (x1 & E1 & H1); [done| |].
  { exists [], cmd. split; [by apply send_step_refl|]. split; [done|]. split; [by left|].
    split; [lia|by apply r2t_post_same]. }
  rewrite E1. cbn [mbind option_bind].
  destruct (chain_step others q c (rank NVMET_TCP_SEND_DATA_PDU) x1 _ _ Hi data_ok ltac:(done) H1) as (x2 & E2 & H2). rewrite E2.
  cbn [mbind option_bind].
  destruct (chain_step others q c (rank NVMET_TCP_SEND_DATA) x2 _ _ Hi ddgst_ok ltac:(done) H2) as (x3 & E3 & H3). rewrite E3.
  cbn [mbind option_bind].
  destruct (chain_step others q c (rank NVMET_TCP_SEND_DDGST) x3 _ _ Hi r2t_ok ltac:(done) H3) as (x4 & E4 & H4). rewrite E4.
  cbn [mbind option_bind].
  destruct (chain_step others q c (rank NVMET_TCP_SEND_R2T) x4 _ _ Hi response_ok ltac:(done) H4) as ([[fin ret] q'] & E5 & H5).
  rewrite E5. cbn [mbind option_bind]. destruct H5 as (r & cmd' & Hstep & _ & _ & Hret & Hrp).
  eexists _, q', r. split; [done|]. split; [done|]. split; [|done]. intros Ha. specialize (Hret Ha).
  destruct (Z.ltb_spec ret 0); [lia|done].
Qed.

(** Nothing is left to fetch. *)
Definition idle q : Prop := nt_snd_cmd q = None /\ fifo q = [].

Lemma try_send_one_ok others q :
  send_inv pm others q ->
  exists ret q' l r, nvmet_tcp_try_send_one pm q = Some (ret, q') /\ send_step pm others l r q q'
    /\ (aggregated pm q = true -> ret = 1 \/ ret = 0 /\ idle q') /\ r2t_post l r q q'.
Proof.
  intros Hi. unfold nvmet_tcp_try_send_one. rewrite (si_state _ _ _ Hi).
  destruct (nt_snd_cmd q) as [c|] eqn:Es; simpl.
  - destruct (try_send_cmd_ok others q c Hi Es) as (ret & q' & r & E & Hs & Hr & Hrp).
    exists ret, q', [], r. rewrite E. split; [done|]. split; [done|]. split; [|done]. intros Ha. left. auto.
  - destruct (tgt_fetch_ok pm others q Hi Es) as (o & q1 & E & Hsnd & Ho). rewrite E. cbn [mbind option_bind].
    destruct o as [c|].
    + destruct Ho as [Ho Hp1].
      destruct (try_send_cmd_ok others q1 c) as (ret & q' & r & E' & Hs & Hr & Hrp); [apply (ss_inv _ _ _ _ _ _ Ho)|done|].
      exists ret, q', [c], r. rewrite E'. split; [done|]. split.
      { rewrite <- (app_nil_r [c]), <- (app_nil_r r). by apply (send_step_trans pm others [c] [] [] r q q1 q'). }
      split; [|rewrite <- (app_nil_r [c]), <- (app_nil_r r);
               by apply (r2t_post_trans pm others [c] [] [] r q q1 q')].
      intros Ha. left. apply Hr. rewrite <- Ha. exact (f_equal (aggregated pm) (ss_fixed _ _ _ _ _ _ Ho)).
    + destruct Ho as (Hf & Ho & Hrp). exists 0, q1, [], []. split; [done|]. split; [done|]. split; [|done].
      intros _. right.
      split; [done|]. split; [done|]. pose proof (ss_fifo _ _ _ _ _ _ Ho) as Hff. rewrite Hf in Hff. done.
Qed.

(** ** Batches *)

(** The work need not run again before the socket has room or a command is
    handed back. *)
Definition drained q : Prop := nt_nospace q = true \/ idle q /\ nt_caravan_len q = 0.

Lemma turn_flush_ok others q ret (n : nat) :
  send_inv pm others q ->
  exists full q', (if nvmet_tcp_aggr pm && c_true (nt_caravan_len q)
                      && (nt_send_now q || (ret <=? 0) || (n =? 0)%nat)
                   then send_tgt_caravan q else Some (false, q)) = Some (full, q')
    /\ send_step pm others [] [] q q'
    /\ (aggregated pm q = true -> ret = 0 -> idle q -> drained q')
    /\ (full = true -> drained q') /\ r2t_post [] [] q q'.
Proof.
  intros Hi. destruct (_ && _) eqn:Ec.
  - destruct (tgt_flush_ok pm others q Hi) as (full & q' & E & Hs & Hsnd & Hcm & _ & Hf & Hn).
    exists full, q'. split; [done|]. split; [done|].
    split; [|split; [intros ->; left; auto|by apply r2t_post_same]].
    intros _ _ [I1 I2]. destruct full; [left; auto|]. right. destruct (Hf eq_refl) as (? & _). split; [|done].
    split; [congruence|]. pose proof (ss_fifo _ _ _ _ _ _ Hs) as Hff. rewrite I2 in Hff. done.
  - exists false, q. split; [done|]. split; [by apply send_step_refl|].
    split; [|split; [done|by apply r2t_post_same]]. intros Ha -> Hidle. right. split; [done|]. unfold aggregated in Ha. apply andb_true_iff in Ha as [Ha _].
    rewrite Ha in Ec. simpl in Ec. rewrite orb_true_r, andb_true_r in Ec. by apply c_true_false in Ec.
Qed.

Lemma try_send_loop_ok turns : forall others q ret0 sends,
  send_inv pm others q ->
  exists ret sends' q' l r, try_send_loop pm turns ret0 sends q = Some (ret, sends', q')
    /\ send_step pm others l r q q' /\ r2t_post l r q q'
    /\ (aggregated pm q = true -> ret <= 0 -> turns = 0%nat /\ ret0 <= 0 \/ drained q').
Proof.
  induction turns as [|n IH]; intros others q ret0 sends Hi.
  { exists ret0, sends, q, [], []. split; [done|]. split; [by apply send_step_refl|].
    split; [by apply r2t_post_same|]. intros _ H. by left. }
  cbn [try_send_loop].
  destruct (try_send_one_ok others q Hi) as (ret & q1 & l1 & r1 & E1 & S1 & A1 & P1). rewrite E1. cbn [mbind option_bind].
  pose proof (ss_inv _ _ _ _ _ _ S1) as Hi1.
  assert (aggregated pm q1 = aggregated pm q) as Eg1 by exact (f_equal (aggregated pm) (ss_fixed _ _ _ _ _ _ S1)).
  destruct (turn_flush_ok (r1 ++ others) q1 ret n Hi1) as (full & q2 & E2 & S2 & A2 & F2 & P2).
  rewrite E2. cbn [mbind option_bind].
  assert (send_step pm others l1 r1 q q2) as S12.
  { rewrite <- (app_nil_r l1). change r1 with ([] ++ r1). by apply (send_step_trans pm others l1 [] r1 [] q q1 q2). }
  assert (r2t_post l1 r1 q q2) as P12.
  { rewrite <- (app_nil_r l1). change r1 with ([] ++ r1). by apply (r2t_post_trans pm others l1 [] r1 [] q q1 q2). }
  destruct full.
  { exists 0, sends, q2, l1, r1. split; [done|]. split; [done|]. split; [done|]. intros _ _. right. auto. }
  destruct (Z.leb_spec ret 0) as [Hr|Hr].
  { exists ret, sends, q2, l1, r1. split; [done|]. split; [done|]. split; [done|]. intros Ha _. right.
    destruct (A1 Ha) as [->|[-> Hidle]]; [lia|]. apply A2; [congruence|done|done]. }
  destruct (IH (r1 ++ others) q2 ret (s32 (sends + 1)) (ss_inv _ _ _ _ _ _ S12))
    as (ret' & sends' & q' & l2 & r2 & E3 & S3 & P3 & A3).
  exists ret', sends', q', (l1 ++ l2), (r2 ++ r1). split; [done|].
  split; [by apply (send_step_trans pm others l1 l2 r1 r2 q q2 q')|].
  split; [by apply (r2t_post_trans pm others l1 l2 r1 r2 q q2 q')|]. intros Ha Hr'. right.
  assert (aggregated pm q2 = aggregated pm q) as Eg2 by exact (f_equal (aggregated pm) (ss_fixed _ _ _ _ _ _ S12)).
  destruct (A3 ltac:(congruence) Hr') as [[_ ?]|?]; [lia|done].
Qed.

Lemma caravan_empty q : car_wf pm q -> nt_caravan_len q = 0 -> tgt_caravan q = [].
Proof.
  intros Hw H. rewrite (cw_len _ _ Hw) in H. pose proof (cw_pos _ _ Hw) as Hp.
  destruct (tgt_caravan q) as [|v l]; [done|]. exfalso. apply Forall_cons in Hp as [Hv Hl]. simpl in H.
  assert (0 <= kv_total l) by (clear -Hl; induction Hl; simpl; lia). lia.
Qed.
End ops.

(** C4: The target answers exactly, in order and without losing memory.  On a live
    connection without data digest, with responses to all commands when PDUs are
    aggregated ([send_inv]: [si_state], [si_digest], [si_success]), whatever the send
    budget and whatever the socket answers (a part of what it is given, nothing, an
    error), [nvmet_tcp_try_send] returns; the commands it fetches are those handed
    back first, in that order; the caravan stays within its arrays, no buffer is
    freed twice, and no page is freed while it is in the caravan ([None] otherwise,
    and [send_inv] holds again).  What is on the wire stays; the bytes on the wire,
    in the caravan and left of the current command are never more than before
    followed by the answers to the fetched commands (data PDU, data and response; or
    R2T; or response), in that order and without repetition; and they are exactly
    those when the socket takes each caravan of this call for which it has room as a
    whole ([accepted]; the driver releases a caravan whatever the socket took of it).
    On an aggregated queue a result of at most 0 means that the socket has no room
    or that nothing is left to send, and then everything that was owed is on the
    wire if the socket took the caravans as a whole. *)
Theorem target_stream_preserved {pr : NvmeTcpProto} {pt : NvmetProto} {pl : NvmetProtoLaws pr pt}
    {ne : NvmetEnv} {sl : NvmetSockLaws ne} {ly : PduLayout} (pm : nvmet_params) others budget sends q :
  send_inv pm others q ->
  exists ret sends' q' l r, nvmet_tcp_try_send pm budget sends q = Some (ret, sends', q')
    /\ send_inv pm (r ++ others) q' /\ fifo q = l ++ fifo q' /\ nt_wire q `prefix_of` nt_wire q'
    /\ out_bytes q' ++ cur_bytes q' `sublist_of` out_bytes q ++ cur_bytes q ++ concat (answer q <$> l)
    /\ (accepted q q' ->
        out_bytes q' ++ cur_bytes q' = out_bytes q ++ cur_bytes q ++ concat (answer q <$> l))
    /\ (aggregated pm q = true -> 0 < budget -> ret <= 0 ->
        nt_nospace q' = true
        \/ nt_snd_cmd q' = None /\ fifo q' = [] /\ nt_caravan_len q' = 0
          /\ (accepted q q' -> nt_wire q' = out_bytes q ++ cur_bytes q ++ concat (answer q <$> fifo q))).
Proof.
  intros Hi. unfold nvmet_tcp_try_send.
  destruct (try_send_loop_ok pm (Z.to_nat budget) others q 0 sends Hi)
    as (ret & sends' & q' & l & r & E & [S1 S2 S3 [S4 S4'] S7 S5 S6] & _ & A).
  exists ret, sends', q', l, r. split_and!; [done..|].
  intros Ha Hb Hr. destruct (A Ha Hr) as [[? _]|[?|[[I1 I2] Hc]]]; [lia|by left|]. right.
  split_and!; [done..|]. intros Hac.
  rewrite I2, app_nil_r in S3. rewrite S3, <- S4' by done. unfold cur_bytes. rewrite I1, app_nil_r. unfold out_bytes.
  rewrite (caravan_empty pm q') by (done || apply (si_car _ _ _ S1)). by rewrite app_nil_r.
Qed.
