(* ===== verification/NvmetTcpRecvSpec.v ===== *)
(** * NVMe/TCP target: buffers of the receive path

    The scatter list of a command covers the data it announces, the iterator that
    is set up for a data PDU covers exactly the bytes of the PDU, and starting a
    command gives it buffers of its own. *)
From S2P Require Import Prelude NvmeTcp NvmeTcpSend NvmeTcpRecv NvmetTcp NvmetTcpSend NvmetTcpRecv.
From S2P Require Import NvmetTcpOwn NvmetTcpSendSpec.

(** [sgl_alloc] fails or allocates single pages (order 0), as many as needed.  A
    command is rejected with a status that is not 0. *)
Class NvmetAllocLaws {pt : NvmetProto} (ne : NvmetEnv) : Prop := {
  sgl_alloc_ok : forall n len l, 0 < len -> sgl_alloc n len = Some l -> sg_ok l len;
  rejected_status : forall nc st n, nvmet_req_init nc = (Some st, n) -> st <> 0;
}.

(** Lengths in a command are 32 bits wide. *)
Class CmdLayoutLaws (cl : CmdLayout) : Prop := {
  sgl_length_range : forall p, 0 <= sgl_length (cmd_nvme p) < 2 ^ 32;
}.

Section places.
Context {pr : NvmeTcpProto} {pt : NvmetProto} {pl : NvmetProtoLaws pr pt}.

Lemma div_round_up_range n : 0 <= n -> (DIV_ROUND_UP n PAGE_SIZE - 1) * PAGE_SIZE < n \/ DIV_ROUND_UP n PAGE_SIZE = 0 /\ n = 0.
Proof.
  intros Hn. pose proof page_size as Hp. unfold DIV_ROUND_UP.
  pose proof (Z.div_mod (n + PAGE_SIZE - 1) PAGE_SIZE) as E.
  pose proof (Z.mod_pos_bound (n + PAGE_SIZE - 1) PAGE_SIZE) as B.
  destruct (decide (n = 0)) as [->|]; [right; split; [apply Z.div_small; lia|done]|]. left. nia.
Qed.

Lemma div_round_up_le n : 0 <= n -> n <= DIV_ROUND_UP n PAGE_SIZE * PAGE_SIZE.
Proof.
  intros Hn. pose proof page_size as Hp. unfold DIV_ROUND_UP.
  pose proof (Z.div_mod (n + PAGE_SIZE - 1) PAGE_SIZE) as E.
  pose proof (Z.mod_pos_bound (n + PAGE_SIZE - 1) PAGE_SIZE) as B. nia.
Qed.

Lemma div_round_up_eq n k : 0 <= n -> (k - 1) * PAGE_SIZE < n <= k * PAGE_SIZE -> DIV_ROUND_UP n PAGE_SIZE = k.
Proof.
  intros Hn H. pose proof page_size as Hp. unfold DIV_ROUND_UP.
  symmetry. apply (Z.div_unique _ _ _ (n + PAGE_SIZE - 1 - k * PAGE_SIZE)); lia.
Qed.

Lemma div_round_up_zero : DIV_ROUND_UP 0 PAGE_SIZE = 0.
Proof. pose proof page_size as Hp. unfold DIV_ROUND_UP. apply Z.div_small. lia. Qed.

Lemma div_round_up_mono a b : 0 <= a <= b -> DIV_ROUND_UP a PAGE_SIZE <= DIV_ROUND_UP b PAGE_SIZE.
Proof. intros H. pose proof page_size. unfold DIV_ROUND_UP. apply Z.div_le_mono; lia. Qed.

Lemma div_round_up_add n k : DIV_ROUND_UP (n + k * PAGE_SIZE) PAGE_SIZE = DIV_ROUND_UP n PAGE_SIZE + k.
Proof.
  pose proof page_size. unfold DIV_ROUND_UP.
  replace (n + k * PAGE_SIZE + PAGE_SIZE - 1) with (n + PAGE_SIZE - 1 + k * PAGE_SIZE) by lia.
  apply Z.div_add. lia.
Qed.

(** The list that is left behind [k] pages. *)
Lemma sg_ok_drop l len k :
  sg_ok l len -> 0 <= Z.of_nat k * PAGE_SIZE <= len -> sg_ok (drop k l) (len - Z.of_nat k * PAGE_SIZE).
Proof.
  intros [H1 H2] Hk. pose proof page_size as Hp.
  assert (DIV_ROUND_UP len PAGE_SIZE
    = DIV_ROUND_UP (len - Z.of_nat k * PAGE_SIZE) PAGE_SIZE + Z.of_nat k) as E.
  { rewrite <- div_round_up_add. f_equal. lia. }
  assert (0 <= DIV_ROUND_UP (len - Z.of_nat k * PAGE_SIZE) PAGE_SIZE) as E0.
  { rewrite <- div_round_up_zero. apply div_round_up_mono. lia. }
  split; [rewrite length_drop; lia|]. intros i s Hs. rewrite lookup_drop in Hs.
  destruct (H2 _ _ Hs) as [A B]. split; [done|]. rewrite B. f_equal. lia.
Qed.

Lemma sg_ok_cons s l len :
  sg_ok (s :: l) len -> 0 < len ->
  sl_offset s = 0 /\ sl_length s = Z.min PAGE_SIZE len /\
  sg_ok l (len - sl_length s).
Proof.
  intros Hok Hlen. pose proof page_size as Hp. pose proof Hok as [H1 H2].
  destruct (H2 0%nat s eq_refl) as [A B]. simpl in B. rewrite Z.sub_0_r in B.
  split; [done|]. split; [done|]. destruct (decide (PAGE_SIZE <= len)) as [Hge|Hlt].
  - rewrite B, Z.min_l by done. pose proof (sg_ok_drop (s :: l) len 1 Hok) as Hd. simpl in Hd.
    rewrite Z.mul_1_l in Hd. apply Hd. lia.
  - assert (DIV_ROUND_UP len PAGE_SIZE = 1) as E by (apply div_round_up_eq; lia).
    simpl in H1. destruct l as [|s2 l]; [|simpl in H1; lia]. rewrite B, Z.min_r by lia. rewrite Z.sub_diag.
    split; [by rewrite div_round_up_zero|]. intros i x Hx. done.
Qed.

Lemma sg_ok_nil len : 0 <= len -> sg_ok [] len -> len = 0.
Proof. intros H [E _]. simpl in E. pose proof (div_round_up_le len H). nia. Qed.

Lemma sg_ok_pos l len : 0 < len -> sg_ok l len -> sg_pos l.
Proof.
  intros Hlen Hok. pose proof page_size as Hp. split.
  { intros ->. apply sg_ok_nil in Hok; lia. }
  revert len Hlen Hok. induction l as [|s l IH]; intros len Hlen Hok; [done|].
  destruct (sg_ok_cons s l len Hok Hlen) as (_ & B & Hl). apply Forall_cons. split; [lia|].
  destruct (decide (len - sl_length s = 0)) as [E|E].
  - rewrite E in Hl. destruct Hl as [Hl _]. rewrite div_round_up_zero in Hl. by destruct l.
  - apply (IH (len - sl_length s)); [lia|done].
Qed.

Lemma sg_places_cons s l :
  sg_places (s :: l) = ((fun i => (sl_page s, sl_offset s + i)) <$> seqZ 0 (sl_length s)) ++ sg_places l.
Proof. done. Qed.

Lemma sg_places_page l x : x ∈ sg_places l -> x.1 ∈ sl_page <$> l.
Proof.
  unfold sg_places. intros Hx%list_elem_of_In. apply in_concat in Hx as (y & Hy & Hx).
  apply list_elem_of_In, list_elem_of_fmap in Hy as (s & -> & Hs).
  apply list_elem_of_In, list_elem_of_fmap in Hx as (i & -> & _). simpl.
  apply list_elem_of_fmap. by exists s.
Qed.

Lemma fmap_seqZ_take {A} (f : Z -> A) n m :
  0 <= m <= n -> f <$> seqZ 0 m = take (Z.to_nat m) (f <$> seqZ 0 n).
Proof.
  intros H. rewrite <- fmap_take. f_equal. apply list_eq. intros i.
  destruct (decide (i < Z.to_nat m)%nat).
  - rewrite lookup_take_lt by lia. by rewrite !lookup_seqZ_lt by lia.
  - rewrite lookup_take_ge by lia. by rewrite lookup_seqZ_ge by lia.
Qed.

(** The iterator covers the first [len] bytes of the list. *)
Lemma map_iovec_ok l rem len :
  sg_ok l rem -> 0 <= len <= rem -> rem < 2 ^ 32 ->
  exists v, map_iovec l len 0 = Some v /\ Z.of_nat (length v) = DIV_ROUND_UP len PAGE_SIZE
    /\ concat v = take (Z.to_nat len) (sg_places l).
Proof.
  pose proof page_size as Hp. revert rem len. induction l as [|s l IH]; intros rem len Hok Hlen Hrem.
  { apply sg_ok_nil in Hok; [|lia]. assert (len = 0) as -> by lia. exists []. by rewrite div_round_up_zero. }
  destruct (decide (len = 0)) as [->|Hne].
  { exists []. by rewrite div_round_up_zero. }
  destruct (sg_ok_cons s l rem Hok) as (A & B & Hl); [lia|].
  unfold map_iovec; fold map_iovec. rewrite (proj2 (Z.eqb_neq len 0) Hne).
  rewrite Z.sub_0_r, u32_small by lia.
  set (n := Z.min len (sl_length s)).
  destruct (IH (rem - sl_length s) (len - n)) as (v & E & Ev & Ec); [done|lia|lia|].
  rewrite E. simpl. eexists. split; [done|]. split.
  - simpl. rewrite Nat2Z.inj_succ, Ev. symmetry. destruct (decide (len <= PAGE_SIZE)).
    + replace (len - n) with 0 by lia. rewrite div_round_up_zero. apply div_round_up_eq; lia.
    + replace len with (len - n + 1 * PAGE_SIZE) at 1 by lia. rewrite div_round_up_add. lia.
  - simpl. rewrite Ec, A. simpl. rewrite sg_places_cons.
    rewrite (fmap_seqZ_take _ (sl_length s) n) by lia. rewrite take_app, length_fmap, length_seqZ, A. f_equal.
    + destruct (decide (len <= sl_length s)).
      * f_equal. lia.
      * rewrite !take_ge; [done|rewrite length_fmap, length_seqZ; lia..].
    + f_equal. lia.
Qed.

Lemma sg_places_length l len : 0 <= len -> sg_ok l len -> Z.of_nat (length (sg_places l)) = len.
Proof.
  pose proof page_size as Hp. revert len. induction l as [|s l IH]; intros len Hlen Hok.
  { apply sg_ok_nil in Hok; [|done]. by subst. }
  destruct (decide (len = 0)) as [->|Hne].
  { destruct Hok as [E _]. rewrite div_round_up_zero in E. done. }
  destruct (sg_ok_cons s l len Hok) as (A & B & Hl); [lia|].
  rewrite sg_places_cons, length_app, length_fmap, length_seqZ.
  specialize (IH (len - sl_length s) ltac:(lia) Hl). lia.
Qed.
End places.

(** ** Buffers of a new command *)

Section start.
Context {pr : NvmeTcpProto} {pt : NvmetProto} {pl : NvmetProtoLaws pr pt}.
Context {ne : NvmetEnv} {nl : NvmetAllocLaws ne} {ly : PduLayout}.
Implicit Types (q : nvmet_tcp_queue) (cmd : nvmet_tcp_cmd) (act : list Z).

(** A command is taken from the free list; it owns nothing yet. *)
Lemma bufs_take act c l q q' cmd' :
  bufs_inv act q -> nt_free_list q = c :: l -> nr_sg cmd' = None -> nc_iov cmd' = None ->
  own_view q' = own_view (put_ncmd c cmd' (q <| nt_free_list := l |>)) -> bufs_inv (c :: act) q'.
Proof.
  intros [H1 H2 H3 H4 H5 H6] Hl Hs Hi (E1 & E2 & E3 & E4 & E5)%own_view_inv.
  unfold put_ncmd in *. simpl in *. rewrite Hl in H1, H2.
  assert (c ∉ act) as Hc by (apply NoDup_cons in H1 as [H1 _]; set_solver).
  assert (forall d x, d ∈ c :: act -> nt_cmds q' !! d = Some x ->
    d = c /\ x = cmd' \/ d ∈ act /\ d <> c /\ nt_cmds q !! d = Some x) as Hback.
  { intros d x Hd. rewrite E2. destruct (decide (c = d)) as [->|Hne].
    - rewrite lookup_insert_eq. intros [= <-]. by left.
    - rewrite lookup_insert_ne by done. intros Hx. right. set_solver. }
  constructor; rewrite ?E1, ?E3, ?E4, ?E5; try done.
  - rewrite <- Permutation_middle. done.
  - intros d Hd. rewrite E2, lookup_insert_is_Some'. right. apply H2. set_solver.
  - intros d x Hd Hx. destruct (Hback d x Hd Hx) as [[-> ->]|(A & B & C)].
    + unfold buf_ok. rewrite Hs, Hi. done.
    + unfold buf_ok. rewrite E3, E4. by apply (H3 d).
  - intros d1 d2 a b Hd1 Hd2 Hne Ha Hb. unfold apart.
    destruct (Hback d1 a Hd1 Ha) as [[-> ->]|(A & B & C)]; [by rewrite Hs, Hi|].
    destruct (Hback d2 b Hd2 Hb) as [[-> ->]|(A' & B' & C')]; [rewrite Hs, Hi; naive_solver|].
    by apply (H4 d1 d2).
Qed.

(** A scatter list of its own. *)
Lemma bufs_add_sg act c q q' cmd cmd' l :
  bufs_inv (c :: act) q -> nt_cmds q !! c = Some cmd ->
  nr_sg cmd' = Some (nt_allocs q) -> nc_iov cmd' = nc_iov cmd ->
  own_view q' = own_view (put_ncmd c cmd' (q <| nt_sgls ::= <[nt_allocs q := l]> |> <| nt_allocs ::= S |>)) ->
  bufs_inv (c :: act) q'.
Proof.
  intros [H1 H2 H3 H4 H5 H6] Hc Hs Hi (E1 & E2 & E3 & E4 & E5)%own_view_inv.
  unfold put_ncmd in *. simpl in *.
  assert (forall d x n, d ∈ c :: act -> nt_cmds q !! d = Some x -> nr_sg x = Some n -> n <> nt_allocs q) as Hold.
  { intros d x n Hd Hx Hn ->. destruct (H3 d x Hd Hx) as [A _]. specialize (H5 _ (A _ Hn)). lia. }
  assert (forall d x, nt_cmds q' !! d = Some x -> d = c /\ x = cmd' \/ d <> c /\ nt_cmds q !! d = Some x) as Hback.
  { intros d x. rewrite E2. destruct (decide (c = d)) as [->|Hne].
    - rewrite lookup_insert_eq. intros [= <-]. by left.
    - rewrite lookup_insert_ne by done. by right. }
  constructor; rewrite ?E1, ?E3, ?E4, ?E5; try done.
  - intros d Hd. rewrite E2, lookup_insert_is_Some'. right. by apply H2.
  - intros d x Hd Hx. unfold buf_ok. rewrite E3, E4.
    destruct (Hback d x Hx) as [[-> ->]|[Hne Hx0]].
    + rewrite Hs, Hi. split; [|by apply (H3 c cmd)]. intros n [= <-]. by rewrite lookup_insert_eq.
    + destruct (H3 d x Hd Hx0) as [A B]. split; [|done]. intros n Hn.
      rewrite lookup_insert_ne; [by apply A|]. intros <-. by apply (Hold d x (nt_allocs q)).
  - intros d1 d2 a b Hd1 Hd2 Hne Ha Hb. unfold apart.
    destruct (Hback d1 a Ha) as [[-> ->]|[N1 A1]], (Hback d2 b Hb) as [[-> ->]|[N2 A2]]; [done| | |].
    + destruct (H4 c d2 cmd b) as [_ F]; try done. rewrite Hs, Hi. split; [|done].
      intros E. exfalso. by apply (Hold d2 b (nt_allocs q) Hd2 A2).
    + destruct (H4 d1 c a cmd) as [_ F]; try done. rewrite Hs, Hi. split; [|done].
      intros E. exfalso. by apply (Hold d1 a (nt_allocs q) Hd1 A1).
    + by apply (H4 d1 d2).
  - intros n [->|[_ Hn]]%lookup_insert_is_Some; [lia|]. specialize (H5 n Hn). lia.
  - intros n Hn. specialize (H6 n Hn). lia.
Qed.

(** An array of [kvec] of its own. *)
Lemma bufs_add_iov act c q q' cmd cmd' :
  bufs_inv (c :: act) q -> nt_cmds q !! c = Some cmd ->
  nr_sg cmd' = nr_sg cmd -> nc_iov cmd' = Some (nt_allocs q) ->
  own_view q' = own_view (put_ncmd c cmd' (q <| nt_live ::= cons (nt_allocs q) |> <| nt_allocs ::= S |>)) ->
  bufs_inv (c :: act) q'.
Proof.
  intros [H1 H2 H3 H4 H5 H6] Hc Hs Hi (E1 & E2 & E3 & E4 & E5)%own_view_inv.
  unfold put_ncmd in *. simpl in *.
  assert (forall d x n, d ∈ c :: act -> nt_cmds q !! d = Some x -> nc_iov x = Some n -> n <> nt_allocs q) as Hold.
  { intros d x n Hd Hx Hn ->. destruct (H3 d x Hd Hx) as [_ A]. specialize (H6 _ (A _ Hn)). lia. }
  assert (forall d x, nt_cmds q' !! d = Some x -> d = c /\ x = cmd' \/ d <> c /\ nt_cmds q !! d = Some x) as Hback.
  { intros d x. rewrite E2. destruct (decide (c = d)) as [->|Hne].
    - rewrite lookup_insert_eq. intros [= <-]. by left.
    - rewrite lookup_insert_ne by done. by right. }
  constructor; rewrite ?E1, ?E3, ?E4, ?E5; try done.
  - intros d Hd. rewrite E2, lookup_insert_is_Some'. right. by apply H2.
  - intros d x Hd Hx. unfold buf_ok. rewrite E3, E4.
    destruct (Hback d x Hx) as [[-> ->]|[Hne Hx0]].
    + rewrite Hs, Hi. split; [by apply (H3 c cmd)|]. intros n [= <-]. set_solver.
    + destruct (H3 d x Hd Hx0) as [A B]. split; [done|]. set_solver.
  - intros d1 d2 a b Hd1 Hd2 Hne Ha Hb. unfold apart.
    destruct (Hback d1 a Ha) as [[-> ->]|[N1 A1]], (Hback d2 b Hb) as [[-> ->]|[N2 A2]]; [done| | |].
    + destruct (H4 c d2 cmd b) as [F _]; try done. rewrite Hs, Hi. split; [done|].
      intros E. exfalso. by apply (Hold d2 b (nt_allocs q) Hd2 A2).
    + destruct (H4 d1 c a cmd) as [F _]; try done. rewrite Hs, Hi. split; [done|].
      intros E. exfalso. by apply (Hold d1 a (nt_allocs q) Hd1 A1).
    + by apply (H4 d1 d2).
  - intros n Hn. specialize (H5 n Hn). lia.
  - intros n [->|Hn]%elem_of_cons; [lia|]. specialize (H6 n Hn). lia.
Qed.

(** An allocation that failed. *)
Lemma bufs_skip act c q q' cmd cmd' :
  bufs_inv (c :: act) q -> nt_cmds q !! c = Some cmd ->
  nr_sg cmd' = nr_sg cmd -> nc_iov cmd' = nc_iov cmd ->
  own_view q' = own_view (put_ncmd c cmd' (q <| nt_allocs ::= S |>)) -> bufs_inv (c :: act) q'.
Proof.
  intros Hb Hc Hs Hi Hv. apply (bufs_put _ (q <| nt_allocs ::= S |>) _ c cmd cmd'); try done.
  destruct Hb as [H1 H2 H3 H4 H5 H6]. constructor; simpl; try done.
  - intros n Hn. specialize (H5 n Hn). lia.
  - intros n Hn. specialize (H6 n Hn). lia.
Qed.
End start.

(** ** Header digests *)

Section hdgst.
Context {pr : NvmeTcpProto} {pt : NvmetProto} {ne : NvmetEnv} {ly : PduLayout}.

Lemma take_drop_app {A} (n m : nat) (l1 l2 : list A) :
  (n + m <= length l1)%nat -> take m (drop n (l1 ++ l2)) = take m (drop n l1).
Proof. intros H. rewrite drop_app_le by lia. rewrite take_app_le; [done|]. rewrite length_drop. lia. Qed.

(** The target never detects a corrupted header.  With header digests
    [nvmet_tcp_try_recv_pdu] passes the length of the header and its digest, so that
    [nvmet_tcp_verify_hdgst] stores the digest it computes behind the received one
    and then compares the received digest with itself: whatever the bytes are, the
    check succeeds. *)
Lemma target_hdgst_unchecked pdu :
  has_flag (pdu_flags pdu) NVME_TCP_F_HDGST = true ->
  (forall l, Z.of_nat (length (crc32c l)) = NVME_TCP_DIGEST_LENGTH) ->
  0 <= pdu_hlen pdu -> pdu_hlen pdu + 2 * NVME_TCP_DIGEST_LENGTH <= Z.of_nat (length pdu) ->
  exists pdu', nvmet_tcp_verify_hdgst pdu (pdu_hlen pdu + NVME_TCP_DIGEST_LENGTH) = Some (0, pdu').
Proof.
  intros Hf Hcrc Hh Hlen. set (n := NVME_TCP_DIGEST_LENGTH) in *. set (hl := pdu_hlen pdu) in *.
  assert (0 <= n) as Hn by (rewrite <- (Hcrc []); lia).
  unfold nvmet_tcp_verify_hdgst. rewrite Hf. cbn [negb]. fold hl n.
  assert (forall buf, length buf = length pdu -> slice hl n buf = Some (take (Z.to_nat n) (drop (Z.to_nat hl) buf))) as Hsl.
  { intros buf E. unfold slice. rewrite E.
    rewrite (proj2 (Z.leb_le 0 hl)), (proj2 (Z.leb_le 0 n)), (proj2 (Z.leb_le (hl + n) _)) by lia. done. }
  rewrite Hsl by done. cbn [mbind option_bind].
  set (crc := crc32c (take (Z.to_nat (hl + n)) (drop (Z.to_nat 0) pdu))).
  assert (Z.of_nat (length crc) = n) as Hc by apply Hcrc.
  assert (nvmet_tcp_hdgst pdu (hl + n)
    = Some (take (Z.to_nat (hl + n)) pdu ++ crc ++ drop (Z.to_nat (hl + n) + length crc) pdu)) as ->.
  { unfold nvmet_tcp_hdgst, slice.
    rewrite (proj2 (Z.leb_le 0 (hl + n))), (proj2 (Z.leb_le (0 + (hl + n)) _)) by lia. cbn [andb Z.leb Z.compare mbind option_bind].
    unfold overwrite. fold crc.
    by rewrite (proj2 (Z.leb_le 0 (hl + n))), (proj2 (Z.leb_le (hl + n + _) _)) by lia. }
  cbn [mbind option_bind]. rewrite Hsl. 2: { rewrite !length_app, length_take, length_drop. lia. }
  cbn [mbind option_bind]. rewrite take_drop_app by (rewrite length_take; lia).
  rewrite bool_decide_true; [by eexists|]. rewrite skipn_firstn_comm, take_take. f_equal. lia.
Qed.
End hdgst.
