(* ===== verification/NvmetTcpMap.v ===== *)
(** * NVMe/TCP target: mapping and receiving the data of a command

    [nvmet_tcp_map_data] gives a command buffers of its own, the iterator that
    [nvmet_tcp_map_pdu_iovec] sets up covers exactly the bytes of a data PDU, and
    [recv_data] stores what arrives at these places, in order. *)
From S2P Require Import Prelude NvmeTcp NvmeTcpSend NvmeTcpRecv NvmetTcp NvmetTcpSend NvmetTcpRecv.
From S2P Require Import NvmetTcpOwn NvmetTcpSendSpec NvmetTcpStream NvmetTcpFlow NvmetTcpRecvSpec.

Section map.
Context {pr : NvmeTcpProto} {pt : NvmetProto} {pl : NvmetProtoLaws pr pt}.
Context {ne : NvmetEnv} {nl : NvmetAllocLaws ne} {ly : PduLayout}.
Implicit Types (q : nvmet_tcp_queue) (cmd : nvmet_tcp_cmd) (act : list Z).

(** ** Buffers for the data *)

(** What changes when buffers are allocated. *)
Definition mfixed q : nvmet_tcp_queue :=
  q <| nt_cmds := ∅ |> <| nt_live := [] |> <| nt_sgls := ∅ |> <| nt_allocs := 0%nat |>.

(** Command [c] of a new capsule. *)
Definition new_cmd cmd : Prop :=
  nr_sg cmd = None /\ nc_iov cmd = None /\ nr_transfer_len cmd = 0 /\ nc_rbytes_done cmd = 0
  /\ nc_pdu_len cmd = 0 /\ 0 <= sgl_length (nr_cmd cmd) < 2 ^ 32.

(** The fields of a command that [nvmet_tcp_map_data] leaves alone. *)
Definition mcmd cmd : nvmet_tcp_cmd :=
  cmd <| nr_sg := None |> <| nc_iov := None |> <| nr_transfer_len := 0 |> <| nc_pdu_len := 0 |>
      <| nc_cur_sg := None |>.

Definition inline_sgl (nc : nvme_command) : bool :=
  sgl_type nc =? Z.lor (Z.shiftl NVME_SGL_FMT_DATA_DESC 4) NVME_SGL_FMT_OFFSET.

Record mapped act c q cmd (ret : Z) q' cmd' : Prop := {
  mp_fixed : mfixed q' = mfixed q;
  mp_cmds : nt_cmds q' = <[c := cmd']> (nt_cmds q);
  mp_sgls : forall n l, nt_sgls q !! n = Some l -> nt_sgls q' !! n = Some l;
  mp_bufs : bufs_inv (c :: act) q';
  mp_cmd : mcmd cmd' = mcmd cmd;
  mp_len : ret = 0 -> 0 <= nr_transfer_len cmd' < 2 ^ 32
    /\ nc_pdu_len cmd' = (if inline_sgl (nr_cmd cmd) then nr_transfer_len cmd' else 0);
  mp_sg : ret = 0 -> 0 < nr_transfer_len cmd' -> nc_cur_sg cmd' = Some 0%nat
    /\ exists l, req_sg cmd' q' = Some l /\ sg_ok l (nr_transfer_len cmd');
  mp_iov : ret = 0 -> 0 < nr_transfer_len cmd' -> nvme_is_write (nr_cmd cmd) = true -> nc_iov cmd' <> None;
}.

(** Nothing was allocated. *)
Lemma mapped_none act c q cmd ret :
  bufs_inv (c :: act) q -> nt_cmds q !! c = Some cmd -> new_cmd cmd -> mapped act c q cmd ret q cmd.
Proof.
  intros Hb Hc (_ & _ & E & _ & Ep & _). constructor; try done; intros.
  - by rewrite insert_id.
  - rewrite E, Ep. by destruct (inline_sgl _).
  - lia.
  - lia.
Qed.

(** The array of [kvec] is the allocation after the scatter list. *)
Lemma map_data_ok act c q cmd :
  bufs_inv (c :: act) q -> nt_cmds q !! c = Some cmd -> new_cmd cmd -> kmalloc_ok (S (nt_allocs q)) = true ->
  exists ret q' cmd', nvmet_tcp_map_data c q = Some (ret, q') /\ mapped act c q cmd ret q' cmd'.
Proof.
  intros Hb Hc Hnew Hkm. pose proof Hnew as (Es & Ei & Et & Er & Ep & Hlen).
  unfold nvmet_tcp_map_data. rewrite Hc. simpl. fold (inline_sgl (nr_cmd cmd)).
  pose proof (fun ret => mapped_none act c q cmd ret Hb Hc Hnew) as Hnone.
  destruct (nr_data_len cmd =? 0); [by eauto|].
  destruct (inline_sgl (nr_cmd cmd) && negb _); [by eauto|].
  destruct (inline_sgl (nr_cmd cmd) && (u32 _ <? _)); [by eauto|].
  set (cmd1 := (if inline_sgl (nr_cmd cmd) then cmd <| nc_pdu_len := sgl_length (nr_cmd cmd) |> else cmd)
                 <| nr_transfer_len ::= fun n => u64 (n + sgl_length (nr_cmd cmd)) |>).
  assert (nr_transfer_len cmd1 = sgl_length (nr_cmd cmd)) as Et1.
  { unfold cmd1. destruct (inline_sgl _); simpl; rewrite Et, Z.add_0_l; apply u64_small; lia. }
  assert (nc_pdu_len cmd1 = if inline_sgl (nr_cmd cmd) then nr_transfer_len cmd1 else 0) as Ep1.
  { rewrite Et1. unfold cmd1. by destruct (inline_sgl _). }
  assert (mcmd cmd1 = mcmd cmd) as Em by (unfold cmd1; by destruct (inline_sgl _)).
  assert (nr_sg cmd1 = nr_sg cmd /\ nc_iov cmd1 = nc_iov cmd) as [Es1 Ei1].
  { unfold cmd1. by destruct (inline_sgl _). }
  assert (nr_cmd cmd1 = nr_cmd cmd) as En1 by exact (f_equal nr_cmd Em).
  clearbody cmd1. destruct (sgl_alloc _ _) as [l|] eqn:Ea.
  2: { do 3 eexists. split; [done|]. constructor; try done.
       - apply (bufs_skip act c q _ cmd (cmd1 <| nr_sg := None |>)); try done. }
  assert (forall n l0, nt_sgls q !! n = Some l0 -> <[nt_allocs q := l]> (nt_sgls q) !! n = Some l0) as Hsg.
  { intros n l0 Hn. rewrite lookup_insert_ne; [done|]. intros <-.
    pose proof (bi_sg_fresh _ _ Hb _ (mk_is_Some _ _ Hn)). lia. }
  set (cmd2 := cmd1 <| nr_sg := Some (nt_allocs q) |> <| nc_cur_sg := Some 0%nat |>).
  set (q2 := q <| nt_allocs ::= S |> <| nt_sgls ::= <[nt_allocs q := l]> |>).
  assert (forall cmd3, nr_sg cmd3 = Some (nt_allocs q) -> nc_iov cmd3 = None ->
    bufs_inv (c :: act) (put_ncmd c cmd3 q2)) as Hb2.
  { intros cmd3 F1 F2. apply (bufs_add_sg act c q _ cmd cmd3 l); try done. congruence. }
  assert (0 < nr_transfer_len cmd2 -> sg_ok l (nr_transfer_len cmd2)) as Hok.
  { simpl. rewrite Et1. intros H. by apply (sgl_alloc_ok (nt_allocs q)). }
  destruct (nvmet_tcp_has_data_in cmd2) eqn:Ein.
  - unfold kmalloc. simpl nt_allocs. rewrite Hkm. simpl. do 3 eexists. split; [done|].
    constructor; try done.
    + apply (bufs_add_iov act c (put_ncmd c cmd2 q2) _ cmd2 (cmd2 <| nc_iov := Some (S (nt_allocs q)) |>)).
      * apply Hb2; [done|]. simpl. congruence.
      * simpl. by rewrite lookup_insert_eq.
      * done.
      * done.
      * unfold own_view, put_ncmd. simpl. by rewrite insert_insert_eq.
    + intros _. simpl. rewrite Ep1, Et1. split; [lia|done].
    + intros _ H. simpl. split; [done|]. exists l. unfold req_sg. simpl. rewrite lookup_insert_eq. split; [done|].
      by apply Hok.
  - do 3 eexists. split; [done|]. constructor; try done.
    + apply Hb2; [done|]. simpl. congruence.
    + intros _. simpl. rewrite Ep1, Et1. split; [lia|done].
    + intros _ H. simpl. split; [done|]. exists l. unfold req_sg. simpl. rewrite lookup_insert_eq. split; [done|].
      by apply Hok.
    + intros _ H Hw. exfalso. unfold nvmet_tcp_has_data_in in Ein. simpl in Ein, H.
      assert (nc_rbytes_done cmd1 = 0) as E0 by (rewrite <- Er; exact (f_equal nc_rbytes_done Em)).
      rewrite En1, Hw, E0 in Ein. simpl in Ein. apply Z.ltb_ge in Ein. lia.
Qed.

(** ** Places for the data *)

(** The iterator of [c] covers [left] bytes of its scatter list [l] from the
    position [nc_rbytes_done]. *)
Record receiving q c cmd (l : list scatterlist) : Prop := {
  rv_sg : req_sg cmd q = Some l;
  rv_ok : sg_ok l (nr_transfer_len cmd);
  rv_msg : nc_msg_left cmd = Z.of_nat (length (nc_recv_msg cmd));
  rv_places : nc_recv_msg cmd = take (Z.to_nat (nc_msg_left cmd)) (drop (Z.to_nat (nc_rbytes_done cmd)) (sg_places l));
  rv_range : 0 <= nc_rbytes_done cmd /\ nc_rbytes_done cmd + nc_msg_left cmd <= nr_transfer_len cmd;
  rv_max : nr_transfer_len cmd < 2 ^ 32;
  rv_map : 0 <= nc_sg_idx cmd /\ 0 <= nc_nr_mapped cmd
    /\ nc_sg_idx cmd + nc_nr_mapped cmd <= Z.of_nat (length l);
  rv_write : nvme_is_write (nr_cmd cmd) = true;
  rv_status : nr_cqe_status cmd = 0;
  rv_flags : has_flag (nc_flags cmd) NVMET_TCP_F_INIT_FAILED = false;
  rv_iov : nc_iov cmd <> None;
  rv_tag : nc_rbytes_done cmd + nc_msg_left cmd < nr_transfer_len cmd -> c <> connect_id;
}.

Lemma sg_places_drop l len k :
  sg_ok l len -> 0 <= Z.of_nat k * PAGE_SIZE <= len ->
  sg_places (drop k l) = drop (Z.to_nat (Z.of_nat k * PAGE_SIZE)) (sg_places l).
Proof.
  pose proof page_size as Hp. revert l len. induction k as [|k IH]; intros l len Hok Hk; [by rewrite drop_0|].
  destruct l as [|s l]; [symmetry; apply drop_nil|].
  destruct (sg_ok_cons s l len Hok) as (A & B & Hl); [lia|].
  rewrite Z.min_l in B by lia. cbn [drop]. rewrite (IH l (len - sl_length s)); [|done|lia].
  rewrite sg_places_cons, drop_app_ge by (rewrite length_fmap, length_seqZ; lia).
  f_equal. rewrite length_fmap, length_seqZ. lia.
Qed.

Definition kfixed q : nvmet_tcp_queue := q <| nt_cmds := ∅ |> <| nt_kmaps := [] |>.

(** The fields of a command that setting up the iterator leaves alone. *)
Definition kcmd cmd : nvmet_tcp_cmd :=
  cmd <| nc_nr_mapped := 0 |> <| nc_sg_idx := 0 |> <| nc_recv_msg := [] |> <| nc_msg_left := 0 |>.

Lemma aligned_page n k : 0 <= n -> n = k * PAGE_SIZE -> DIV_ROUND_UP n PAGE_SIZE = k.
Proof. pose proof page_size. intros. apply div_round_up_eq; lia. Qed.

Lemma map_pdu_iovec_ok q c cmd l :
  nt_cmds q !! c = Some cmd -> req_sg cmd q = Some l -> sg_ok l (nr_transfer_len cmd) ->
  nr_transfer_len cmd < 2 ^ 32 -> 0 <= nc_rbytes_done cmd -> nc_rbytes_done cmd mod PAGE_SIZE = 0 ->
  0 <= nc_pdu_len cmd -> nc_rbytes_done cmd + nc_pdu_len cmd <= nr_transfer_len cmd ->
  (exists n, nc_iov cmd = Some n /\ n ∈ nt_live q) ->
  nvme_is_write (nr_cmd cmd) = true -> nr_cqe_status cmd = 0 ->
  has_flag (nc_flags cmd) NVMET_TCP_F_INIT_FAILED = false ->
  (nc_rbytes_done cmd + nc_pdu_len cmd < nr_transfer_len cmd -> c <> connect_id) ->
  exists q' cmd', nvmet_tcp_map_pdu_iovec c q = Some q' /\ kfixed q' = kfixed q
    /\ nt_cmds q' = <[c := cmd']> (nt_cmds q) /\ kcmd cmd' = kcmd cmd /\ receiving q' c cmd' l
    /\ nc_msg_left cmd' = nc_pdu_len cmd.
Proof.
  intros Hc Hl Hok Hmax Hr Hal Hp Hrng (n & Hn & Hlive) Hw Hst Hfl Htag. pose proof page_size as Hps.
  unfold nvmet_tcp_map_pdu_iovec. rewrite Hc. simpl.
  set (k := nc_rbytes_done cmd / PAGE_SIZE).
  assert (nc_rbytes_done cmd = k * PAGE_SIZE) as Ek.
  { assert (PAGE_SIZE <> 0) as H0 by lia. pose proof (Z.div_mod (nc_rbytes_done cmd) PAGE_SIZE H0). unfold k. lia. }
  assert (0 <= k) as Hk by (apply Z.div_pos; lia).
  clearbody k.
  rewrite (aligned_page _ k) by lia.
  assert (0 <= DIV_ROUND_UP (nc_pdu_len cmd) PAGE_SIZE
    /\ k + DIV_ROUND_UP (nc_pdu_len cmd) PAGE_SIZE <= Z.of_nat (length l)) as [G1 G2].
  { split; [rewrite <- div_round_up_zero; apply div_round_up_mono; lia|].
    rewrite (proj1 Hok). rewrite Z.add_comm, <- div_round_up_add. apply div_round_up_mono. lia. }
  destruct (Z.eqb_spec (nc_pdu_len cmd) 0) as [E0|Hne].
  { do 2 eexists. split; [done|]. split; [done|]. split; [done|]. split; [done|]. split; [|done].
    constructor; simpl; try done; try lia. congruence. }
  rewrite Hn. simpl. assert (req_sg (cmd <| nc_nr_mapped := DIV_ROUND_UP (nc_pdu_len cmd) PAGE_SIZE |>
    <| nc_sg_idx := k |>) q = Some l) as -> by exact Hl.
  simpl. rewrite bool_decide_true by done. simpl. rewrite Hal.
  assert (0 <= Z.of_nat (Z.to_nat k) * PAGE_SIZE <= nr_transfer_len cmd) as Hkl by lia.
  destruct (map_iovec_ok (drop (Z.to_nat k) l) (nr_transfer_len cmd - Z.of_nat (Z.to_nat k) * PAGE_SIZE) (nc_pdu_len cmd))
    as (v & E & Ev & Ec); [by apply sg_ok_drop|lia|lia|].
  rewrite E. simpl. rewrite <- Ev, Nat2Z.id, firstn_all.
  do 2 eexists. split; [done|]. split; [done|]. split; [done|]. split; [done|]. split; [|done].
  rewrite (sg_places_drop l (nr_transfer_len cmd)), Z2Nat.id, <- Ek in Ec by (done || lia).
  assert (Z.of_nat (length (concat v)) = nc_pdu_len cmd) as El.
  { rewrite Ec, length_take, length_drop. pose proof (sg_places_length l (nr_transfer_len cmd) ltac:(lia) Hok). lia. }
  constructor; simpl; try done; try lia. congruence.
Qed.

(** ** Data arrives *)

Definition dfixed q : nvmet_tcp_queue := q <| nt_cmds := ∅ |> <| nt_mem := ∅ |> <| nt_rx := [] |>.
Definition dcmd cmd : nvmet_tcp_cmd :=
  cmd <| nc_recv_msg := [] |> <| nc_msg_left := 0 |> <| nc_pdu_recv := 0 |> <| nc_rbytes_done := 0 |>.

Lemma store_app p1 p2 b1 b2 m :
  length p1 = length b1 -> store (p1 ++ p2) (b1 ++ b2) m = store p2 b2 (store p1 b1 m).
Proof. intros H. unfold store. by rewrite zip_with_app, foldl_app. Qed.

Lemma store_take p b m : store p b m = store (take (length b) p) b m.
Proof.
  unfold store. f_equal. revert p. induction b as [|x b IH]; intros [|y p]; simpl; try done. by rewrite <- IH.
Qed.

(** [n] bytes were received. *)
Record received q c cmd l (n : nat) q' cmd' : Prop := {
  rd_fixed : dfixed q' = dfixed q;
  rd_cmds : nt_cmds q' = <[c := cmd']> (nt_cmds q);
  rd_cmd : dcmd cmd' = dcmd cmd;
  rd_wf : receiving q' c cmd' l;
  rd_n : (n <= length (nt_rx q))%nat /\ Z.of_nat n <= nc_msg_left cmd;
  rd_done : nc_rbytes_done cmd' = nc_rbytes_done cmd + Z.of_nat n;
  rd_left : nc_msg_left cmd' = nc_msg_left cmd - Z.of_nat n;
  rd_rx : nt_rx q' = drop n (nt_rx q);
  rd_mem : nt_mem q' = store (take n (nc_recv_msg cmd)) (take n (nt_rx q)) (nt_mem q);
}.

Lemma received_none q c cmd l :
  nt_cmds q !! c = Some cmd -> receiving q c cmd l -> received q c cmd l 0 q cmd.
Proof.
  intros Hc Hr. pose proof (rv_msg _ _ _ _ Hr). constructor; try done; try lia.
  by rewrite insert_id.
Qed.

Lemma received_trans q c cmd l n1 q1 cmd1 n2 q2 cmd2 :
  receiving q c cmd l ->
  received q c cmd l n1 q1 cmd1 -> received q1 c cmd1 l n2 q2 cmd2 -> received q c cmd l (n1 + n2) q2 cmd2.
Proof.
  intros Hr [A1 A2 A3 A4 A5 A6 A7 A8 A9] [B1 B2 B3 B4 B5 B6 B7 B8 B9].
  rewrite A8, length_drop in B5.
  constructor; try congruence; try lia.
  - by rewrite B2, A2, insert_insert_eq.
  - by rewrite B8, A8, drop_drop.
  - rewrite B9, A9, A8. rewrite <- !take_take_drop.
    assert (nc_recv_msg cmd1 = drop n1 (nc_recv_msg cmd)) as ->.
    { rewrite (rv_places _ _ _ _ A4), (rv_places _ _ _ _ Hr), A6, A7. rewrite skipn_firstn_comm, drop_drop.
      pose proof (rv_range _ _ _ _ Hr). f_equal; [lia|]. f_equal. lia. }
    rewrite store_app; [done|]. rewrite !length_take. pose proof (rv_msg _ _ _ _ Hr). lia.
Qed.

(** The next bytes. *)
Lemma received_some q c cmd l bytes :
  nt_cmds q !! c = Some cmd -> receiving q c cmd l ->
  take (Z.to_nat (nc_msg_left cmd)) (nt_rx q) = bytes -> bytes <> [] ->
  let ret := Z.of_nat (length bytes) in
  let cmd' := cmd <| nc_recv_msg ::= drop (length bytes) |> <| nc_msg_left ::= fun n => n - ret |>
                  <| nc_pdu_recv ::= fun n => u32 (n + ret) |>
                  <| nc_rbytes_done ::= fun n => u32 (n + ret) |> in
  received q c cmd l (length bytes)
    (put_ncmd c cmd' (q <| nt_rx ::= drop (Z.to_nat (nc_msg_left cmd)) |>
                        <| nt_mem ::= store (nc_recv_msg cmd) bytes |>)) cmd'.
Proof.
  intros Hc Hr Hb Hne ret cmd'. pose proof Hr as [R1 R2 R3 R4 R5 R6 R7 R8 R9 R10 R11 R12].
  assert (length bytes = Nat.min (Z.to_nat (nc_msg_left cmd)) (length (nt_rx q))) as El.
  { by rewrite <- Hb, length_take. }
  assert (bytes = take (length bytes) (nt_rx q)) as Eb.
  { rewrite <- Hb at 1. rewrite El. destruct (decide (Z.to_nat (nc_msg_left cmd) <= length (nt_rx q))%nat).
    - f_equal. lia.
    - rewrite !take_ge; [done|lia..]. }
  assert (nc_rbytes_done cmd' = nc_rbytes_done cmd + ret) as Ed by (simpl; apply u32_small; lia).
  assert (nc_msg_left cmd' = nc_msg_left cmd - ret) as Em by done.
  constructor; try done.
  - constructor; try done; rewrite ?Ed, ?Em; try lia.
    + simpl. rewrite length_drop. lia.
    + simpl. rewrite R4, skipn_firstn_comm, drop_drop. f_equal; [lia|]. f_equal. lia.
    + change (nr_transfer_len cmd') with (nr_transfer_len cmd). lia.
    + change (nr_transfer_len cmd') with (nr_transfer_len cmd). intros H. apply R12. lia.
  - lia.
  - simpl. destruct (decide (Z.to_nat (nc_msg_left cmd) <= length (nt_rx q))%nat).
    + f_equal. lia.
    + rewrite !drop_ge; [done|lia..].
  - simpl. rewrite store_take. by rewrite <- Eb.
Qed.

Lemma recv_data_ok fuel q c cmd l :
  (length (nt_rx q) < fuel)%nat -> nt_rx_end q <= 0 -> nt_cmds q !! c = Some cmd -> receiving q c cmd l ->
  exists all ret n q' cmd', recv_data fuel c q = Some (all, ret, q') /\ received q c cmd l n q' cmd'
    /\ (all = true -> nc_msg_left cmd' = 0 /\ ret = 0) /\ (all = false -> nt_rx q' = [] /\ ret = nt_rx_end q /\ 0 < nc_msg_left cmd').
Proof.
  revert q cmd. induction fuel as [|fuel IH]; intros q cmd Hf He Hc Hr; [lia|].
  pose proof Hr as [R1 R2 R3 R4 R5 R6 R7 R8 R9 R10 R11 R12].
  cbn [recv_data]. rewrite Hc. cbn [mbind option_bind].
  destruct (Z.eqb_spec (nc_msg_left cmd) 0) as [E0|Hne].
  { exists true, 0, 0%nat, q, cmd. split; [done|]. split; [by apply received_none|]. done. }
  unfold tgt_recvmsg. destruct (take (Z.to_nat (nc_msg_left cmd)) (nt_rx q)) as [|x b] eqn:Eb.
  { cbv beta iota zeta. rewrite (proj2 (Z.leb_le _ _)) by done. exists false, (nt_rx_end q), 0%nat, q, cmd.
    split; [done|]. split; [by apply received_none|]. split; [done|]. intros _. split; [|split; [done|lia]].
    destruct (Z.to_nat (nc_msg_left cmd)) eqn:En; [lia|]. by destruct (nt_rx q). }
  set (bytes := x :: b) in *.
  cbv beta iota zeta. rewrite (proj2 (Z.leb_gt _ _)) by (simpl; lia).
  assert (length bytes <= length (nc_recv_msg cmd))%nat as Hle.
  { rewrite <- Eb, length_take. lia. }
  assert (forallb (fun y : Z * Z => buf_live (q <| nt_rx ::= drop (Z.to_nat (nc_msg_left cmd)) |>) (TPage y.1))
    (take (length bytes) (nc_recv_msg cmd)) = true) as ->.
  { apply forallb_forall. intros y Hy. apply bool_decide_eq_true_2.
    apply list_elem_of_In, elem_of_take in Hy as (i & Hy & _).
    apply list_elem_of_lookup_2 in Hy. rewrite R4 in Hy. apply elem_of_take in Hy as (j & Hy & _).
    rewrite lookup_drop in Hy. apply list_elem_of_lookup_2, sg_places_page in Hy.
    unfold req_sg in R1. apply bind_Some in R1 as (m & _ & R1). apply (live_pages_spec _ m l); done. }
  rewrite (proj2 (Nat.ltb_ge _ _)) by done. cbn [orb negb].
  pose proof (received_some q c cmd l bytes Hc Hr Eb ltac:(done)) as Hs. cbv zeta in Hs.
  match type of Hs with received _ _ _ _ _ ?q1 ?c1 => set (q1' := q1) in *; set (cmd1 := c1) in * end.
  destruct (IH q1' cmd1) as (all & ret & n & q2 & cmd2 & E & Hrec & Ht & Hfl).
  - rewrite (rd_rx _ _ _ _ _ _ _ Hs), length_drop. pose proof (rd_n _ _ _ _ _ _ _ Hs) as [Hn _].
    assert (0 < length bytes)%nat by (simpl; lia). lia.
  - exact He.
  - rewrite (rd_cmds _ _ _ _ _ _ _ Hs). by rewrite lookup_insert_eq.
  - apply (rd_wf _ _ _ _ _ _ _ Hs).
  - exists all, ret, (length bytes + n)%nat, q2, cmd2. split; [exact E|].
    split; [by apply (received_trans q c cmd l _ q1' cmd1)|]. split; [done|]. exact Hfl.
Qed.
End map.
