(* ===== verification/NvmetTcpSafe.v ===== *)
(** * NVMe/TCP target: the life of a command

    A command is received, executed by the nvmet core, answered, and between them
    it may wait for data; [tgt_inv] follows it through these places and says what
    its buffers are in each of them.  Under it no step of the target uses memory
    that is not its own. *)
From S2P Require Import Prelude NvmeTcp NvmeTcpSend NvmeTcpRecv NvmetTcp NvmetTcpSend NvmetTcpRecv.
From S2P Require Import NvmetTcpOwn NvmetTcpSendSpec NvmetTcpStream NvmetTcpFlow NvmetTcpTrySend.
From S2P Require Import NvmetTcpRecvSpec NvmetTcpMap.

(** Membership in concatenations. *)
Ltac in_app :=
  repeat match goal with
  | H : context [_ ∈ _ ++ _] |- _ => rewrite elem_of_app in H
  | |- context [_ ∈ _ ++ _] => rewrite elem_of_app
  end; tauto.

Section safe.
Context {pr : NvmeTcpProto} {pt : NvmetProto} {pl : NvmetProtoLaws pr pt}.
Context {ne : NvmetEnv} {sl : NvmetSockLaws ne} {nl : NvmetAllocLaws ne} {ly : PduLayout}.
Context {cl : CmdLayout} {cll : CmdLayoutLaws cl} (pm : nvmet_params).
Implicit Types (q : nvmet_tcp_queue) (cmd : nvmet_tcp_cmd) (A : list Z).

(** ** Where commands are *)

Definition rcv_list q : list Z :=
  match nt_rcv_state q with NVMET_TCP_RECV_DATA => option_list (nt_cmd q) | _ => [] end.
(** [A] are the commands that wait for data. *)
Definition places A q : list Z := A ++ rcv_list q ++ (nt_core q).*1.

(** The nvmet core has the request: all data is there, or it was rejected. *)
Definition core_ok q cmd (st : option Z) : Prop :=
  match st with
  | None => nvmet_tcp_has_data_in cmd = false
            /\ (nvme_is_write (nr_cmd cmd) = false -> 0 < nr_transfer_len cmd -> data_ready q cmd)
  | Some st => st <> 0
  end.

Definition rcv_ok q : Prop :=
  nt_rcv_state q = NVMET_TCP_RECV_DATA ->
  exists c cmd l, nt_cmd q = Some c /\ nt_cmds q !! c = Some cmd /\ receiving q c cmd l.

Record tgt_inv A q : Prop := {
  ti_send : send_inv pm (places A q) q;
  ti_await : waits A q;
  ti_rcv : rcv_ok q;
  ti_core : forall c st cmd, (c, st) ∈ nt_core q -> nt_cmds q !! c = Some cmd -> core_ok q cmd st;
  ti_r2t : forall c cmd, nt_cmds q !! c = Some cmd -> r2t_done q cmd -> c ∈ places A q ++ fifo q;
  ti_nodigest : nt_rcv_state q <> NVMET_TCP_RECV_DDGST;
}.

Lemma core_ok_view q q' cmd st : req_sg cmd q' = req_sg cmd q -> core_ok q cmd st -> core_ok q' cmd st.
Proof. intros Hs. destruct st; [done|]. unfold core_ok, data_ready. by rewrite Hs. Qed.

Lemma receiving_view q q' c cmd l : req_sg cmd q' = req_sg cmd q -> receiving q c cmd l -> receiving q' c cmd l.
Proof. intros Hs []. constructor; try done. by rewrite Hs. Qed.

Lemma send_inv_perm l l' q : l ≡ₚ l' -> send_inv pm l q -> send_inv pm l' q.
Proof. intros Hp []. constructor; try done. by apply (bufs_perm (sending q ++ l)); [rewrite Hp|]. Qed.

Lemma rcv_ok_view q q' :
  nt_cmds q' = nt_cmds q -> nt_sgls q' = nt_sgls q -> nt_rcv_state q' = nt_rcv_state q -> nt_cmd q' = nt_cmd q ->
  rcv_ok q -> rcv_ok q'.
Proof.
  intros E1 E2 E3 E4 H Hs. rewrite E3 in Hs. destruct (H Hs) as (c & cmd & l & H1 & H2 & H3).
  exists c, cmd, l. rewrite E1, E4. split; [done|]. split; [done|]. apply (receiving_view q); [|done].
  unfold req_sg. by rewrite E2.
Qed.

(** ** Sending *)

(** What sending leaves alone, by field. *)
Lemma fixed_places A q q' : fixed q' = fixed q -> places A q' = places A q.
Proof.
  intros H. unfold places, rcv_list. f_equal. f_equal.
  - assert (nt_rcv_state q' = nt_rcv_state q) as -> by exact (f_equal nt_rcv_state H).
    by assert (nt_cmd q' = nt_cmd q) as -> by exact (f_equal nt_cmd H).
  - by assert (nt_core q' = nt_core q) as -> by exact (f_equal nt_core H).
Qed.

Lemma send_tgt_inv A l r q q' :
  tgt_inv A q -> send_step pm (places A q) l r q q' -> r2t_post l r q q' -> tgt_inv (r ++ A) q'.
Proof.
  intros [I1 I2 I3 I4 I5 I6] S [P1 P2]. pose proof (ss_fixed _ _ _ _ _ _ S) as Hf.
  pose proof (ss_frame _ _ _ _ _ _ S) as Hfr.
  assert (nt_rcv_state q' = nt_rcv_state q) as Es by exact (f_equal nt_rcv_state Hf).
  assert (nt_cmd q' = nt_cmd q) as Ec by exact (f_equal nt_cmd Hf).
  assert (nt_core q' = nt_core q) as Eo by exact (f_equal nt_core Hf).
  assert (forall d x, d ∈ places A q -> nt_cmds q' !! d = Some x ->
    nt_cmds q !! d = Some x /\ req_sg x q' = req_sg x q) as Hback.
  { intros d x Hd Hx. destruct (send_inv_lookup pm _ q d I1) as [y Hy]; [in_app|].
    destruct (Hfr d y) as [H1 H2]; [in_app|done|]. assert (x = y) as -> by congruence. done. }
  constructor.
  - apply (send_inv_perm (r ++ places A q)); [|apply (ss_inv _ _ _ _ _ _ S)].
    rewrite (fixed_places (r ++ A) q q' Hf). unfold places. by rewrite <- app_assoc.
  - intros d x [Hd|Hd]%elem_of_app Hx; [by apply P2|].
    destruct (Hback d x) as [H1 H2]; [unfold places; set_solver|done|].
    apply (awaitable_view q); [done|]. by apply I2.
  - intros Hs. rewrite Es in Hs. destruct (I3 Hs) as (c & cmd & sg & H1 & H2 & H3).
    destruct (Hfr c cmd) as [H4 H5]; [|done|].
    { unfold places, rcv_list. rewrite Hs, H1. simpl. set_solver. }
    exists c, cmd, sg. rewrite Ec. split; [done|]. split; [done|]. by apply (receiving_view q).
  - intros c st x Hc Hx. rewrite Eo in Hc. destruct (Hback c x) as [H1 H2]; [|done|].
    { unfold places. apply elem_of_app. right. apply elem_of_app. right. apply list_elem_of_fmap. by exists (c, st). }
    apply (core_ok_view q); [done|]. by apply (I4 c).
  - intros c x Hx Hd. rewrite (fixed_places (r ++ A) q q' Hf). unfold places.
    destruct (P1 c x Hx Hd) as [H|[H1 H2]]; [set_solver|].
    specialize (I5 c x H2). rewrite (ss_fifo _ _ _ _ _ _ S) in I5. unfold places in I5.
    assert (r2t_done q x) by (apply (r2t_done_view pm q q'); [by apply fixed_bview|done]). set_solver.
  - by rewrite Es.
Qed.

Lemma try_send_safe A budget sends q :
  tgt_inv A q -> exists ret sends' q' r, nvmet_tcp_try_send pm budget sends q = Some (ret, sends', q')
    /\ tgt_inv (r ++ A) q'.
Proof.
  intros Hi. destruct (try_send_loop_ok pm (Z.to_nat budget) (places A q) q 0 sends (ti_send _ _ Hi))
    as (ret & sends' & q' & l & r & E & S & P & _).
  exists ret, sends', q', r. split; [exact E|]. by apply (send_tgt_inv A l r q).
Qed.

(** ** Receiving *)

(** What receiving does not touch. *)
Definition rfixed q : nvmet_tcp_queue :=
  q <| nt_cmds := ∅ |> <| nt_free_list := [] |> <| nt_resp_list := [] |> <| nt_offset := 0 |> <| nt_left := 0 |>
    <| nt_rcv_state := NVMET_TCP_RECV_PDU |> <| nt_cmd := None |> <| nt_pdu := [] |> <| nt_live := [] |>
    <| nt_sgls := ∅ |> <| nt_allocs := 0%nat |> <| nt_mem := ∅ |> <| nt_kmaps := [] |> <| nt_rx := [] |>
    <| nt_rx_end := 0 |> <| nt_io_work := None |> <| nt_io_work_lat := None |> <| nt_core := [] |>
    <| nt_uninit := [] |> <| nt_ctrl_error := false |> <| nt_shutdown := false |>.

(** A step that changes command [c] alone, which is not on its way out. *)
Record recv_frame c q q' : Prop := {
  rf_fixed : rfixed q' = rfixed q;
  rf_out : c ∉ sending q;
  rf_cmds : forall d, d <> c -> nt_cmds q' !! d = nt_cmds q !! d;
  rf_sgls : forall n l, nt_sgls q !! n = Some l -> nt_sgls q' !! n = Some l;
  rf_fifo : forall d, d ∈ fifo q' -> d <> c -> d ∈ fifo q;
  rf_entry : forall d st, (d, st) ∈ nt_core q' -> d <> c -> (d, st) ∈ nt_core q;
}.

Lemma recv_frame_keep c q q' act d x :
  bufs_inv act q -> recv_frame c q q' -> d ∈ act -> d <> c -> nt_cmds q !! d = Some x ->
  nt_cmds q' !! d = Some x /\ req_sg x q' = req_sg x q.
Proof.
  intros Hb Hf Hd Hne Hx. split; [by rewrite (rf_cmds _ _ _ Hf)|].
  destruct (bi_buf _ _ Hb d x Hd Hx) as [Hs _]. unfold req_sg. destruct (nr_sg x) as [n|]; [|done]. simpl.
  destruct (Hs n eq_refl) as [l Hl]. by rewrite Hl, (rf_sgls _ _ _ Hf n l).
Qed.

Lemma recv_send_inv others others' c q q' :
  send_inv pm others q -> recv_frame c q q' -> bufs_inv (sending q' ++ others') q' ->
  (forall cmd, c ∈ fifo q' -> nt_cmds q' !! c = Some cmd -> ready q' c cmd) -> send_inv pm others' q'.
Proof.
  intros [I1 I2 I3 I4 I5 I6 I7 I8] Hf Hb Hr. pose proof (rf_fixed _ _ _ Hf) as Hx.
  assert (aggregated pm q' = aggregated pm q) as Eg by exact (f_equal (aggregated pm) Hx).
  assert (nt_sqhd_disabled q' = nt_sqhd_disabled q) as Eq by exact (f_equal nt_sqhd_disabled Hx).
  assert (nt_snd_cmd q' = nt_snd_cmd q) as Esn by exact (f_equal nt_snd_cmd Hx).
  assert (tgt_caravan q' = tgt_caravan q) as Ecar by exact (f_equal tgt_caravan Hx).
  assert (tgt_caravan_owners q' = tgt_caravan_owners q) as Eo by exact (f_equal tgt_caravan_owners Hx).
  pose proof (rf_out _ _ _ Hf) as Hout. unfold sending in Hout.
  assert (forall d x, d ∈ sending q -> nt_cmds q !! d = Some x ->
    nt_cmds q' !! d = Some x /\ req_sg x q' = req_sg x q) as Hk.
  { intros d x Hd. apply (recv_frame_keep c q q' _ d x I4 Hf); [set_solver|]. intros ->. done. }
  constructor; try done.
  - rewrite <- I1. exact (f_equal nt_state Hx).
  - rewrite <- I2. exact (f_equal nt_data_digest Hx).
  - rewrite Eg, Eq. done.
  - apply (car_wf_view pm q); [exact (f_equal (car_view pm) Hx)|done].
  - intros v p. rewrite Ecar. intros Hv Hp. destruct (I6 v p Hv Hp) as (d & x & l & Hd & H1 & H2 & H3).
    destruct (Hk d x) as [K1 K2]; [|done|].
    { unfold sending, snd_list. destruct Hd as [Hd|[Hd _]]; [set_solver|]. rewrite Hd. set_solver. }
    exists d, x, l. rewrite Eo, Esn, K2. done.
  - intros d x Hd Hx'. destruct (decide (d = c)) as [->|Hne]; [by apply Hr|].
    pose proof (rf_fifo _ _ _ Hf d Hd Hne) as Hd0.
    assert (nt_cmds q !! d = Some x) as Hx0 by (by rewrite <- (rf_cmds _ _ _ Hf)).
    destruct (Hk d x) as [K1 K2]; [unfold sending; in_app|done|].
    apply (ready_view q); [done|]. by apply I7.
  - intros d x Hd Hx'. rewrite Esn in Hd.
    assert (d ∈ sending q) as Hin by (unfold sending, snd_list; rewrite Hd; set_solver).
    assert (d <> c) as Hne by (intros ->; done).
    assert (nt_cmds q !! d = Some x) as Hx0 by (by rewrite <- (rf_cmds _ _ _ Hf)).
    destruct (Hk d x Hin Hx0) as [K1 K2].
    apply (snd_wf_view pm q); [exact (f_equal (bview pm) Hx)|done|]. by apply I8.
Qed.

(** What command [c] must be like where it now is. *)
Record settled A' q' c cmd : Prop := {
  st_ready : c ∈ fifo q' -> ready q' c cmd;
  st_await : c ∈ A' -> awaitable q' c cmd;
  st_core : forall st, (c, st) ∈ nt_core q' -> core_ok q' cmd st;
  st_r2t : r2t_done q' cmd -> c ∈ places A' q' ++ fifo q';
}.

Lemma recv_tgt_inv A A' c q q' :
  tgt_inv A q -> recv_frame c q q' -> bufs_inv (sending q' ++ places A' q') q' ->
  (forall d, d ∈ A' -> d <> c -> d ∈ A) ->
  (forall d, d ∈ places A q ++ fifo q -> d <> c -> d ∈ places A' q' ++ fifo q') ->
  (forall cmd', nt_cmds q' !! c = Some cmd' -> settled A' q' c cmd') ->
  rcv_ok q' -> nt_rcv_state q' <> NVMET_TCP_RECV_DDGST -> tgt_inv A' q'.
Proof.
  intros [I1 I2 I3 I4 I5 I6] Hf Hb Ha Hp Hset Hr Hs.
  assert (forall d x, d ∈ places A q -> d <> c -> nt_cmds q' !! d = Some x ->
    nt_cmds q !! d = Some x /\ req_sg x q' = req_sg x q) as Hk.
  { intros d x Hd Hne Hx. assert (nt_cmds q !! d = Some x) as Hx0 by (by rewrite <- (rf_cmds _ _ _ Hf)).
    split; [done|]. apply (recv_frame_keep c q q' _ d x (si_bufs _ _ _ I1) Hf); [in_app|done..]. }
  constructor; try done.
  - apply (recv_send_inv (places A q) _ c q); try done. intros cmd Hin Hx. by apply (st_ready _ _ _ _ (Hset cmd Hx)).
  - intros d x Hd Hx. destruct (decide (d = c)) as [->|Hne].
    { by apply (st_await _ _ _ _ (Hset x Hx)). }
    destruct (Hk d x) as [K1 K2]; [unfold places; rewrite ?elem_of_app; auto|done..|].
    apply (awaitable_view q); [done|]. apply I2; auto.
  - intros d st x Hd Hx. destruct (decide (d = c)) as [->|Hne].
    { by apply (st_core _ _ _ _ (Hset x Hx)). }
    pose proof (rf_entry _ _ _ Hf d st Hd Hne) as Hd0.
    destruct (Hk d x) as [K1 K2]; [|done..|].
    { unfold places. apply elem_of_app. right. apply elem_of_app. right. apply list_elem_of_fmap. by exists (d, st). }
    apply (core_ok_view q); [done|]. by apply (I4 d).
  - intros d x Hx Hd. destruct (decide (d = c)) as [->|Hne].
    { by apply (st_r2t _ _ _ _ (Hset x Hx)). }
    apply Hp; [|done]. apply (I5 d x); [by rewrite <- (rf_cmds _ _ _ Hf)|].
    apply (r2t_done_view pm q q'); [exact (f_equal (bview pm) (rf_fixed _ _ _ Hf))|done].
Qed.

(** ** New commands *)

(** Command [c] was taken from the free list and has its buffers. *)
Record begun A c q q2 cmd2 : Prop := {
  bg_fixed : rfixed q2 = rfixed q;
  bg_cmds : forall d, d <> c -> nt_cmds q2 !! d = nt_cmds q !! d;
  bg_cmd : nt_cmds q2 !! c = Some cmd2;
  bg_sgls : forall n l, nt_sgls q !! n = Some l -> nt_sgls q2 !! n = Some l;
  bg_bufs : bufs_inv (c :: sending q ++ places A q) q2;
  bg_new : c ∉ sending q ++ places A q;
  bg_r2t : ~ r2t_done q2 cmd2;
}.

(** It goes to one place: it is handed back ([F]), received ([R]) or given to the
    core ([E]); when it goes nowhere it is lost. *)
Lemma begun_inv A c q q2 cmd2 q3 cmd3 F R E :
  tgt_inv A q -> rcv_list q = [] -> begun A c q q2 cmd2 -> rfixed q3 = rfixed q2 ->
  own_view q3 = own_view (put_ncmd c cmd3 q2) ->
  nr_sg cmd3 = nr_sg cmd2 -> nc_iov cmd3 = nc_iov cmd2 ->
  nc_state cmd3 = nc_state cmd2 -> nc_offset cmd3 = nc_offset cmd2 ->
  nt_core q3 = nt_core q ++ E -> nt_resp_list q3 = F ++ nt_resp_list q -> rcv_list q3 = R ->
  F ++ R ++ E.*1 = [c] \/ F ++ R ++ E.*1 = [] ->
  (c ∈ F -> ready q3 c cmd3) -> (forall st, (c, st) ∈ E -> core_ok q3 cmd3 st) ->
  rcv_ok q3 -> nt_rcv_state q3 <> NVMET_TCP_RECV_DDGST -> tgt_inv A q3.
Proof.
  intros Hi Hrl [B1 B2 B3 B4 B5 B6 B7] Hx Hv E1 E2 E3 E4 Ec Er ER Hone Hrd Hcore Hrcv Hdd.
  pose proof (own_view_inv _ _ Hv) as (V1 & V2 & V3 & V4 & V5).
  unfold put_ncmd in V1, V2, V3, V4, V5. simpl in V1, V2, V3, V4, V5.
  assert (fifo q3 = fifo q ++ reverse F) as Ef.
  { unfold fifo. assert (nt_resp_send_list q3 = nt_resp_send_list q) as ->.
    { transitivity (nt_resp_send_list q2); [exact (f_equal nt_resp_send_list Hx)|exact (f_equal nt_resp_send_list B1)]. }
    by rewrite Er, reverse_app, app_assoc. }
  assert (sending q3 = sending q ++ reverse F) as Esd.
  { unfold sending. rewrite Ef. rewrite <- !app_assoc. f_equal; [|f_equal].
    - transitivity (tgt_caravan_owners q2); [exact (f_equal tgt_caravan_owners Hx)|exact (f_equal tgt_caravan_owners B1)].
    - transitivity (snd_list q2); [exact (f_equal snd_list Hx)|exact (f_equal snd_list B1)]. }
  assert (sending q3 ++ places A q3 ≡ₚ (F ++ R ++ E.*1) ++ sending q ++ places A q) as Hperm.
  { unfold places. rewrite Esd, Hrl, ER, Ec, fmap_app, (reverse_Permutation F). solve_Permutation. }
  assert (forall d, d <> c -> d ∉ F ++ R ++ E.*1) as Hout by (intros d Hd; destruct Hone as [-> | ->]; rewrite ?elem_of_nil, ?list_elem_of_singleton; tauto).
  apply (recv_tgt_inv A A c q); try done.
  - constructor.
    + congruence.
    + in_app.
    + intros d Hd. rewrite V2, lookup_insert_ne by done. by apply B2.
    + intros n l Hn. rewrite V3. by apply B4.
    + intros d. rewrite Ef. intros Hd Hne. specialize (Hout d Hne). apply elem_of_app in Hd as [Hd|Hd]; [done|].
      rewrite elem_of_reverse in Hd. in_app.
    + intros d st. rewrite Ec. intros [Hd|Hd]%elem_of_app Hne; [done|]. exfalso. apply (Hout d Hne).
      apply elem_of_app. right. apply elem_of_app. right. apply list_elem_of_fmap. by exists (d, st).
  - assert (bufs_inv (c :: sending q ++ places A q) q3) as Hb by by apply (bufs_put _ q2 _ c cmd2 cmd3).
    destruct Hone as [Ho|Ho]; rewrite Ho in Hperm; [by apply (bufs_perm (c :: sending q ++ places A q))|].
    apply (bufs_perm (sending q ++ places A q)); [done|]. by apply (bufs_drop c).
  - intros d Hd Hne. unfold places in *. rewrite Ec, fmap_app, Ef. rewrite Hrl in Hd.
    rewrite ?elem_of_app, ?elem_of_nil in *. tauto.
  - intros x. rewrite V2, lookup_insert_eq. intros [= <-]. constructor.
    + intros Hc. apply Hrd. rewrite Ef in Hc. apply elem_of_app in Hc as [Hc|Hc]; [|by apply elem_of_reverse].
      exfalso. apply B6. unfold sending. in_app.
    + intros Hc. exfalso. apply B6. unfold places. in_app.
    + intros st. rewrite Ec. intros [Hc|Hc]%elem_of_app; [|by apply Hcore]. exfalso. apply B6.
      unfold places. do 3 (apply elem_of_app; right). apply list_elem_of_fmap. by exists (c, st).
    + intros [D1 D2]. exfalso. apply B7. split; [congruence|].
      rewrite <- E4, D2. f_equal. exact (f_equal nvmet_tcp_hdgst_len Hx).
Qed.

(** [nvmet_tcp_get_cmd] and [nvmet_req_init]: the command is new. *)
Definition fresh_cmd cmd (nc : nvme_command) (data_len : Z) : nvmet_tcp_cmd :=
  cmd <| nc_rbytes_done := 0 |> <| nc_wbytes_done := 0 |> <| nc_pdu_len := 0 |> <| nc_pdu_recv := 0 |>
      <| nc_iov := None |> <| nc_flags := 0 |> <| nr_cmd := nc |> <| nr_cqe_status := 0 |>
      <| nr_data_len := data_len |> <| nr_transfer_len := 0 |> <| nr_sg := None |>.

Lemma taken_begun A c l q cmd nc n q1 :
  tgt_inv A q -> nt_free_list q = c :: l -> nt_cmds q !! c = Some cmd -> rfixed q1 = rfixed q ->
  own_view q1 = own_view (put_ncmd c (fresh_cmd cmd nc n) (q <| nt_free_list := l |>)) ->
  begun A c q q1 (fresh_cmd cmd nc n).
Proof.
  intros Hi Hl Hc Hx Hv. pose proof (si_bufs _ _ _ (ti_send _ _ Hi)) as Hb.
  assert (c ∉ sending q ++ places A q) as Hnew.
  { pose proof (bi_nodup _ _ Hb) as Hn. rewrite Hl in Hn. apply NoDup_cons in Hn as [Hn _]. set_solver. }
  pose proof (own_view_inv _ _ Hv) as (V1 & V2 & V3 & V4 & V5). simpl in V2, V3.
  constructor; try done.
  - intros d Hd. by rewrite V2, lookup_insert_ne.
  - by rewrite V2, lookup_insert_eq.
  - intros m sg. by rewrite V3.
  - by apply (bufs_take _ c l q _ (fresh_cmd cmd nc n)).
  - intros [D1 D2]. apply Hnew.
    assert (r2t_done q cmd) as Hd.
    { split; [exact D1|]. transitivity (sizeof_r2t_pdu + nvmet_tcp_hdgst_len q1); [exact D2|]. f_equal.
      exact (f_equal nvmet_tcp_hdgst_len Hx). }
    pose proof (ti_r2t _ _ Hi c cmd Hc Hd) as H. unfold sending. set_solver.
Qed.

(** The buffers of the command do not change where it is. *)
Lemma mapped_begun A c q q1 cmd1 ret q2 cmd2 :
  begun A c q q1 cmd1 -> mapped (sending q ++ places A q) c q1 cmd1 ret q2 cmd2 -> begun A c q q2 cmd2.
Proof.
  intros [B1 B2 B3 B4 B5 B6 B7] [M1 M2 M3 M4 M5 M6 M7 M8]. constructor; try done.
  - rewrite <- B1. exact (f_equal rfixed M1).
  - intros d Hd. rewrite M2, lookup_insert_ne by done. by apply B2.
  - by rewrite M2, lookup_insert_eq.
  - intros n l Hn. by apply M3, B4.
  - intros [D1 D2]. apply B7. split; [rewrite <- D1; symmetry; exact (f_equal nc_state M5)|].
    transitivity (nc_offset cmd2); [symmetry; exact (f_equal nc_offset M5)|]. rewrite D2. f_equal.
    exact (f_equal nvmet_tcp_hdgst_len M1).
Qed.

(** The places of the queue before and after [nvmet_tcp_map_data]. *)
Lemma mapped_queues act c q cmd ret q' cmd' :
  mapped act c q cmd ret q' cmd' ->
  nt_core q' = nt_core q /\ nt_resp_list q' = nt_resp_list q /\ nt_cmd q' = nt_cmd q.
Proof.
  intros M. pose proof (mp_fixed _ _ _ _ _ _ _ M) as Hx. split; [exact (f_equal nt_core Hx)|].
  split; [exact (f_equal nt_resp_list Hx)|exact (f_equal nt_cmd Hx)].
Qed.

Lemma prepare_rcv_ok q : rcv_ok (nvmet_prepare_receive_pdu q).
Proof. done. Qed.
#[local] Hint Resolve prepare_rcv_ok : core.

Lemma put_own_view c cmd q : nt_cmds q !! c = Some cmd -> own_view q = own_view (put_ncmd c cmd q).
Proof. intros H. unfold own_view, put_ncmd. simpl. by rewrite insert_id. Qed.

Lemma kfixed_own c cmd' q q' :
  kfixed q' = kfixed q -> nt_cmds q' = <[c := cmd']> (nt_cmds q) -> own_view q' = own_view (put_ncmd c cmd' q).
Proof.
  intros H E. assert (nt_free_list q' = nt_free_list q) as E1 by exact (f_equal nt_free_list H).
  assert (nt_sgls q' = nt_sgls q) as E2 by exact (f_equal nt_sgls H).
  assert (nt_live q' = nt_live q) as E3 by exact (f_equal nt_live H).
  assert (nt_allocs q' = nt_allocs q) as E4 by exact (f_equal nt_allocs H).
  unfold own_view, put_ncmd. simpl. by rewrite E, E1, E2, E3, E4.
Qed.

(** A new command whose buffers are there. *)
Lemma start_mapped A c q q1 cmd1 q2 cmd2 :
  tgt_inv A q -> rcv_list q = [] -> begun A c q q2 cmd2 ->
  mapped (sending q ++ places A q) c q1 cmd1 0 q2 cmd2 ->
  nr_cqe_status cmd2 = 0 -> nc_flags cmd2 = 0 -> nc_rbytes_done cmd2 = 0 ->
  (c = connect_id -> inline_sgl (nr_cmd cmd1) = true) ->
  nt_core q2 = nt_core q -> nt_resp_list q2 = nt_resp_list q -> nt_cmd q2 = Some c ->
  exists ret q',
    (if nvmet_tcp_need_data_in cmd2 then
       if nvmet_tcp_has_inline_data cmd2 then
         q ← nvmet_tcp_map_pdu_iovec c (q2 <| nt_rcv_state := NVMET_TCP_RECV_DATA |>);
         Some (0, q)
       else Some (0, nvmet_prepare_receive_pdu (nvmet_tcp_queue_response c q2))
     else Some (0, nvmet_prepare_receive_pdu (nvmet_req_execute c q2))) = Some (ret, q') /\ tgt_inv A q'.
Proof.
  intros Hi Hrl Hbg [M1 M2 M3 M4 M5 M6 M7 M8] Hst Hfl Hrb Hcon Ec Er En.
  pose proof (bg_cmd _ _ _ _ _ Hbg) as Hc2. pose proof (put_own_view c cmd2 q2 Hc2) as Hv2.
  assert (nr_cmd cmd2 = nr_cmd cmd1) as Ecm by exact (f_equal nr_cmd M5).
  specialize (M6 eq_refl) as [Hrng Hpl]. specialize (M7 eq_refl). specialize (M8 eq_refl). rewrite <- Ecm in *.
  destruct (nvmet_tcp_need_data_in cmd2) eqn:Ein.
  - pose proof Ein as Ein'. unfold nvmet_tcp_need_data_in, nvmet_tcp_has_data_in in Ein'.
    rewrite Hrb, Hst in Ein'. simpl in Ein'. rewrite andb_true_r in Ein'.
    apply andb_true_iff in Ein' as [Hw Hlt%Z.ltb_lt]. destruct (M7 Hlt) as (Hcs & l & Hl & Hok).
    specialize (M8 Hlt Hw).
    destruct (nvmet_tcp_has_inline_data cmd2) eqn:Einl.
    + unfold nvmet_tcp_has_inline_data in Einl. rewrite Hw, Hrb, andb_true_r in Einl. simpl in Einl.
      apply c_true_spec in Einl. destruct (inline_sgl (nr_cmd cmd2)); [|done].
      destruct (nc_iov cmd2) as [n|] eqn:Eiov; [|done].
      destruct (map_pdu_iovec_ok (q2 <| nt_rcv_state := NVMET_TCP_RECV_DATA |>) c cmd2 l)
        as (q3 & cmd3 & E & K1 & K2 & K3 & K4 & _); try done; try lia.
      { rewrite Hrb. apply Z.mod_0_l. pose proof page_size. lia. }
      { exists n. split; [done|]. apply (bi_buf _ _ (bg_bufs _ _ _ _ _ Hbg) c cmd2); [set_solver|done..]. }
      { by rewrite Hfl. }
      rewrite E. cbn [mbind option_bind]. do 2 eexists. split; [done|].
      assert (nt_cmd q3 = Some c) as En3 by (rewrite <- En; exact (f_equal nt_cmd K1)).
      assert (nt_rcv_state q3 = NVMET_TCP_RECV_DATA) as Es3 by exact (f_equal nt_rcv_state K1).
      apply (begun_inv A c q q2 cmd2 _ cmd3 [] [c] []); try done.
      * exact (f_equal rfixed K1).
      * by apply (kfixed_own c cmd3) in K1.
      * exact (f_equal nr_sg K3).
      * exact (f_equal nc_iov K3).
      * exact (f_equal nc_state K3).
      * exact (f_equal nc_offset K3).
      * rewrite app_nil_r, <- Ec. exact (f_equal nt_core K1).
      * rewrite <- Er. exact (f_equal nt_resp_list K1).
      * unfold rcv_list. by rewrite Es3, En3.
      * by left.
      * set_solver.
      * set_solver.
      * intros _. exists c, cmd3, l. split; [done|]. split; [by rewrite K2, lookup_insert_eq|done].
      * by rewrite Es3.
    + do 2 eexists. split; [done|].
      apply (begun_inv A c q q2 cmd2 _ cmd2 [c] [] []); try done.
      * unfold nvmet_tcp_queue_response, queue_nvmet_work. by destruct (i10_target_is_latency _).
      * rewrite <- Hv2. unfold nvmet_tcp_queue_response, queue_nvmet_work. by destruct (i10_target_is_latency _).
      * rewrite app_nil_r, <- Ec. unfold nvmet_tcp_queue_response, queue_nvmet_work. by destruct (i10_target_is_latency _).
      * rewrite <- Er. unfold nvmet_tcp_queue_response, queue_nvmet_work. by destruct (i10_target_is_latency _).
      * by left.
      * intros _. split.
        { unfold nvmet_tcp_need_data_out. by rewrite Hw. }
        intros _. constructor; try done.
        { intros ->. rewrite Hcon in Hpl by done. unfold nvmet_tcp_has_inline_data in Einl.
          rewrite Hw, Hrb, Hpl, andb_true_r in Einl. simpl in Einl. apply c_true_false in Einl. lia. }
        { by rewrite Hfl. }
        { rewrite Hrb. lia. }
        { exists l. split; [|done]. rewrite <- Hl. unfold req_sg. f_equal.
          unfold nvmet_tcp_queue_response, queue_nvmet_work. by destruct (i10_target_is_latency _). }
      * set_solver.
  - do 2 eexists. split; [done|]. apply (begun_inv A c q q2 cmd2 _ cmd2 [] [] [(c, None)]); try done.
    * simpl. by rewrite Ec.
    * by left.
    * set_solver.
    * intros st [= ->]%list_elem_of_singleton. split.
      { unfold nvmet_tcp_need_data_in in Ein. by rewrite Hst, andb_true_r in Ein. }
      intros _ Hlt. destruct (M7 Hlt) as (Hcs & l & Hl & Hok). split; [done|]. exists l.
      split; [exact Hl|]. by apply (sg_ok_pos l (nr_transfer_len cmd2)).
Qed.

Lemma start_cmd_safe A c q q1 cmd1 :
  tgt_inv A q -> rcv_list q = [] -> begun A c q q1 cmd1 -> new_cmd cmd1 ->
  nr_cqe_status cmd1 = 0 -> nc_flags cmd1 = 0 ->
  (c = connect_id -> inline_sgl (nr_cmd cmd1) = true) ->
  nt_core q1 = nt_core q -> nt_resp_list q1 = nt_resp_list q -> nt_cmd q1 = Some c ->
  kmalloc_ok (S (nt_allocs q1)) = true ->
  exists ret q', start_cmd c q1 = Some (ret, q') /\ tgt_inv A q'.
Proof.
  intros Hi Hrl Hbg Hnew Hst Hfl Hcon Ec1 Er1 En1 Hkm.
  destruct (map_data_ok _ c q1 cmd1 (bg_bufs _ _ _ _ _ Hbg) (bg_cmd _ _ _ _ _ Hbg) Hnew Hkm)
    as (ret & q2 & cmd2 & Em & M).
  pose proof (mapped_begun _ _ _ _ _ _ _ _ Hbg M) as Hbg2.
  destruct (mapped_queues _ _ _ _ _ _ _ M) as (Ec2 & Er2 & En2).
  pose proof (bg_cmd _ _ _ _ _ Hbg2) as Hc2. pose proof (put_own_view c cmd2 q2 Hc2) as Hv2.
  pose proof (mp_cmd _ _ _ _ _ _ _ M) as M5.
  unfold start_cmd. rewrite Em. cbn [mbind option_bind]. rewrite Hc2. cbn [mbind option_bind].
  destruct (decide (ret = 0)) as [->|Hne].
  - apply (start_mapped A c q q1 cmd1 q2 cmd2); try done; try congruence.
    + rewrite <- Hst. exact (f_equal nr_cqe_status M5).
    + rewrite <- Hfl. exact (f_equal nc_flags M5).
    + destruct Hnew as (_ & _ & _ & <- & _). exact (f_equal nc_rbytes_done M5).
  - rewrite (proj2 (c_true_spec ret) Hne). do 2 eexists. split; [done|].
    destruct (nvmet_tcp_has_inline_data cmd2).
    + apply (begun_inv A c q q2 cmd2 _ cmd2 [] [] []); try done.
      * unfold nvmet_tcp_fatal_error. by destruct (nt_ctrl _).
      * rewrite <- Hv2. unfold nvmet_tcp_fatal_error. by destruct (nt_ctrl _).
      * rewrite app_nil_r, <- Ec1, <- Ec2. unfold nvmet_tcp_fatal_error. by destruct (nt_ctrl _).
      * simpl. rewrite <- Er1, <- Er2. unfold nvmet_tcp_fatal_error. by destruct (nt_ctrl _).
      * by right.
      * set_solver.
      * set_solver.
    + apply (begun_inv A c q q2 cmd2 _ cmd2 [] [] [(c, Some ret)]); try done.
      * simpl. by rewrite Ec2, Ec1.
      * simpl. by rewrite Er2, Er1.
      * by left.
      * set_solver.
      * intros st [= ->]%list_elem_of_singleton. done.
Qed.

(** A step that gives no command up and starts none. *)
Lemma same_inv A q q' :
  tgt_inv A q -> rfixed q' = rfixed q -> own_view q' = own_view q -> nt_core q' = nt_core q ->
  nt_resp_list q' = nt_resp_list q -> rcv_list q' = rcv_list q -> rcv_ok q' ->
  nt_rcv_state q' <> NVMET_TCP_RECV_DDGST -> tgt_inv A q'.
Proof.
  intros Hi Hx Hv Ec Er R1 Hr Hd. pose proof (infinite_is_fresh (sending q ++ places A q)) as Hc.
  set (c := fresh (sending q ++ places A q)) in Hc. clearbody c.
  pose proof (own_view_inv _ _ Hv) as (V1 & V2 & V3 & V4 & V5).
  assert (places A q' = places A q) as Ep by (unfold places; by rewrite R1, Ec).
  assert (fifo q' = fifo q) as Ef.
  { unfold fifo. rewrite Er. f_equal. exact (f_equal nt_resp_send_list Hx). }
  assert (sending q' = sending q) as Es.
  { unfold sending. rewrite Ef. f_equal; [exact (f_equal tgt_caravan_owners Hx)|]. f_equal.
    exact (f_equal snd_list Hx). }
  apply (recv_tgt_inv A A c q); try done.
  - constructor; try done.
    + in_app.
    + intros d _. by rewrite V2.
    + intros n l. by rewrite V3.
    + intros d. by rewrite Ef.
    + intros d st. by rewrite Ec.
  - rewrite Ep, Es. apply (bufs_view _ q); [done|]. apply (si_bufs _ _ _ (ti_send _ _ Hi)).
  - by rewrite Ep, Ef.
  - intros x Hx'. constructor.
    + rewrite Ef. intros H. exfalso. apply Hc. unfold sending. in_app.
    + intros H. exfalso. apply Hc. unfold places. in_app.
    + intros st. rewrite Ec. intros H. exfalso. apply Hc. unfold places.
      do 3 (apply elem_of_app; right). apply list_elem_of_fmap. by exists (c, st).
    + rewrite V2 in Hx'. rewrite Ep, Ef. intros Hdn. apply (ti_r2t _ _ Hi c x Hx').
      apply (r2t_done_view pm q q'); [exact (f_equal (bview pm) Hx)|done].
Qed.

(** What the host may send.  A command capsule: a command that is rejected has no
    data in its capsule, and the data of the connect command is in its capsule.
    A data PDU answers an R2T, at the start of a page, and does not exceed what
    the R2T asks for. *)
Definition capsule_ok q (nc : nvme_command) : Prop :=
  (forall st n, nvmet_req_init nc = (Some st, n) ->
     nvme_is_write nc = false \/ u64 (nt_inline_data_size q) < sgl_length nc)
  /\ (head (nt_free_list q) = Some connect_id -> inline_sgl nc = true).

Lemma rejected_safe A c q q1 cmd1 st :
  tgt_inv A q -> rcv_list q = [] -> begun A c q q1 cmd1 -> st <> 0 ->
  nvme_is_write (nr_cmd cmd1) = false \/ u64 (nt_inline_data_size q) < sgl_length (nr_cmd cmd1) ->
  nt_core q1 = nt_core q -> nt_resp_list q1 = nt_resp_list q ->
  exists ret q', (q ← nvmet_tcp_handle_req_failure c (nvmet_req_complete c st q1); Some (- EAGAIN, q)) = Some (ret, q')
    /\ tgt_inv A q'.
Proof.
  intros Hi Hrl Hbg Hst Hrej Ec Er. pose proof (bg_cmd _ _ _ _ _ Hbg) as Hc1.
  assert (nt_inline_data_size q1 = nt_inline_data_size q) as Ei
    by exact (f_equal nt_inline_data_size (bg_fixed _ _ _ _ _ Hbg)).
  unfold nvmet_tcp_handle_req_failure. change (nt_cmds (nvmet_req_complete c st q1)) with (nt_cmds q1).
  rewrite Hc1. cbn [mbind option_bind].
  match goal with |- context [if ?b then Some (nvmet_prepare_receive_pdu _) else _] => assert (b = true) as -> end.
  { apply orb_true_iff. simpl. rewrite Ei. destruct Hrej as [H|H]; [left; by rewrite H|right; by apply Z.ltb_lt]. }
  cbn [mbind option_bind]. do 2 eexists. split; [done|].
  apply (begun_inv A c q q1 cmd1 _ (cmd1 <| nr_data_len := sgl_length (nr_cmd cmd1) |>) [] [] [(c, Some st)]); try done.
  - simpl. by rewrite Ec.
  - by left.
  - set_solver.
  - intros st' [= ->]%list_elem_of_singleton. done.
Qed.

Lemma capsule_safe A q :
  tgt_inv A q -> nt_rcv_state q = NVMET_TCP_RECV_PDU -> pdu_type (nt_pdu q) <> nvme_tcp_h2c_data ->
  capsule_ok q (cmd_nvme (nt_pdu q)) -> kmalloc_ok (S (nt_allocs q)) = true ->
  exists ret q', nvmet_tcp_done_recv_pdu q = Some (ret, q') /\ tgt_inv A q'.
Proof.
  intros Hi Hs Ht [Hrej Hcon] Hkm. unfold nvmet_tcp_done_recv_pdu.
  assert (rcv_list q = []) as Hrl by (unfold rcv_list; by rewrite Hs).
  rewrite (si_state _ _ _ (ti_send _ _ Hi)), bool_decide_false by done.
  rewrite (proj2 (Z.eqb_neq _ _)) by done. unfold nvmet_tcp_get_cmd.
  destruct (nt_free_list q) as [|c l] eqn:El; cbn [mbind option_bind].
  { do 2 eexists. split; [done|]. apply (same_inv A q); try done.
    all: rewrite ?Hrl; unfold nvmet_tcp_fatal_error, rcv_ok, rcv_list; by destruct (nt_ctrl _). }
  destruct (bi_cmd _ _ (si_bufs _ _ _ (ti_send _ _ Hi)) c) as [cmd Hc]; [rewrite El; set_solver|].
  rewrite Hc. cbn [mbind option_bind]. 
  match goal with |- context [nt_cmds ((put_ncmd c ?x ?y) <| nt_cmd := _ |>) !! c] =>
    assert (nt_cmds ((put_ncmd c x y) <| nt_cmd := Some c |>) !! c = Some x) as ->
      by apply lookup_insert_eq end. cbn [mbind option_bind].
  change (nt_pdu ((put_ncmd c _ _) <| nt_cmd := Some c |>)) with (nt_pdu q). destruct (nvmet_req_init (cmd_nvme (nt_pdu q))) as [rej n] eqn:Eri.
  match goal with |- context [put_ncmd c ?x (?y <| nt_cmd := Some c |>)] =>
    set (q1 := put_ncmd c x (y <| nt_cmd := Some c |>)) end.
  assert (begun A c q q1 (fresh_cmd cmd (cmd_nvme (nt_pdu q)) n)) as Hbg.
  { apply (taken_begun A c l q cmd); try done. unfold own_view, put_ncmd. simpl. by rewrite insert_insert_eq. }
  assert (nt_core q1 = nt_core q /\ nt_resp_list q1 = nt_resp_list q /\ nt_cmd q1 = Some c
    /\ nt_allocs q1 = nt_allocs q) as (Ec & Er & En & Eal) by done.
  pose proof (bg_cmd _ _ _ _ _ Hbg) as Hc1. clearbody q1.
  destruct rej as [st|].
  - apply (rejected_safe A c q q1 _ st Hi Hrl Hbg); try done.
    + by apply (rejected_status (cmd_nvme (nt_pdu q)) _ n).
    + by apply (Hrej st n).
  - apply (start_cmd_safe A c q q1 (fresh_cmd cmd (cmd_nvme (nt_pdu q)) n)); try done.
    + repeat split; try done; apply sgl_length_range.
    + intros ->. by apply Hcon.
    + by rewrite Eal.
Qed.
End safe.
