(* ===== verification/NvmetTcpTarget.v ===== *)
(** * NVMe/TCP target: memory safety of a queue

    The steps of a live queue, in any order: a PDU is received, data arrives, the
    nvmet core answers a request, the work sends.  As long as the host keeps to the
    protocol, each step is defined: no buffer is used before it is allocated, after
    it was freed or outside its bounds, and none is freed twice. *)
From S2P Require Import Prelude NvmeTcp NvmeTcpSend NvmeTcpRecv NvmetTcp NvmetTcpSend NvmetTcpRecv NvmetTcpOwn.
From S2P Require Import NvmetTcpSendSpec NvmetTcpStream NvmetTcpFlow NvmetTcpTrySend NvmetTcpRecvSpec NvmetTcpMap.
From S2P Require Import NvmetTcpSafe.

Section target.
Context {pr : NvmeTcpProto} {pt : NvmetProto} {pl : NvmetProtoLaws pr pt}.
Context {ne : NvmetEnv} {sl : NvmetSockLaws ne} {nl : NvmetAllocLaws ne} {ly : PduLayout}.
Context {cl : CmdLayout} {cll : CmdLayoutLaws cl} (pm : nvmet_params).
Implicit Types (q : nvmet_tcp_queue) (cmd : nvmet_tcp_cmd) (A : list Z).

(** Command [c] moves from one place to another. *)
Record moved A A' c q q' cmd cmd' : Prop := {
  mv_lookup : nt_cmds q !! c = Some cmd;
  mv_out : c ∉ sending q;
  mv_fixed : rfixed q' = rfixed q;
  mv_own : own_view q' = own_view (put_ncmd c cmd' q);
  mv_sg : nr_sg cmd' = nr_sg cmd;
  mv_iov : nc_iov cmd' = nc_iov cmd;
  mv_perm : fifo q' ++ places A' q' ≡ₚ fifo q ++ places A q;
  mv_in : c ∈ fifo q' ++ places A' q';
  mv_fifo : forall d, d ∈ fifo q' -> d <> c -> d ∈ fifo q;
  mv_core : forall d st, (d, st) ∈ nt_core q' -> d <> c -> (d, st) ∈ nt_core q;
  mv_await : forall d, d ∈ A' -> d <> c -> d ∈ A;
}.

Lemma moved_inv A A' c q q' cmd cmd' :
  tgt_inv pm A q -> moved A A' c q q' cmd cmd' ->
  (c ∈ fifo q' -> ready q' c cmd') -> (c ∈ A' -> awaitable q' c cmd') ->
  (forall st, (c, st) ∈ nt_core q' -> core_ok q' cmd' st) ->
  rcv_ok q' -> nt_rcv_state q' <> NVMET_TCP_RECV_DDGST -> tgt_inv pm A' q'.
Proof.
  intros Hi [M1 M2 M3 M4 M5 M6 M7 M8 M9 M10 M11] Hr Ha Hc Hrcv Hd.
  pose proof (own_view_inv _ _ M4) as (V1 & V2 & V3 & V4 & V5). simpl in V2, V3.
  apply (recv_tgt_inv pm A A' c q); try done.
  - constructor; try done.
    + intros d Hne. by rewrite V2, lookup_insert_ne.
    + intros n l. by rewrite V3.
  - apply (bufs_perm (sending q ++ places A q)).
    + unfold sending. rewrite <- !app_assoc, <- M7.
      assert (tgt_caravan_owners q' = tgt_caravan_owners q) as -> by exact (f_equal tgt_caravan_owners M3).
      by assert (snd_list q' = snd_list q) as -> by exact (f_equal snd_list M3).
    + apply (bufs_put _ q _ c cmd cmd'); try done. apply (si_bufs _ _ _ (ti_send _ _ _ Hi)).
  - intros d Hdin _. assert (d ∈ fifo q' ++ places A' q') by (rewrite M7; in_app). in_app.
  - intros x. rewrite V2, lookup_insert_eq. intros [= <-]. constructor; try done. intros _. in_app.
Qed.

Lemma places_not_sending A q c : tgt_inv pm A q -> c ∈ places A q -> c ∉ sending q.
Proof.
  intros Hi Hc Hs. pose proof (bi_nodup _ _ (si_bufs _ _ _ (ti_send _ _ _ Hi))) as Hn.
  apply NoDup_app in Hn as (_ & _ & Hn). apply NoDup_app in Hn as (_ & Hn & _). by apply (Hn c).
Qed.

Lemma places_nodup A q : tgt_inv pm A q -> NoDup (places A q).
Proof.
  intros Hi. pose proof (bi_nodup _ _ (si_bufs _ _ _ (ti_send _ _ _ Hi))) as Hn.
  apply NoDup_app in Hn as (_ & _ & Hn). by apply NoDup_app in Hn as (_ & _ & Hn).
Qed.

(** ** Data PDUs *)

(** The R2T of [c] is out and its answer has not come. *)
Definition awaiting q c cmd : Prop :=
  nt_cmds q !! c = Some cmd /\ r2t_done q cmd /\ c ∉ rcv_list q ++ (nt_core q).*1 ++ fifo q.

Definition h2c_pdu_ok q : Prop :=
  exists cmd, awaiting q (data_ttag (nt_pdu q)) cmd
    /\ nc_rbytes_done cmd mod PAGE_SIZE = 0
    /\ 0 <= data_data_length (nt_pdu q) <= nr_transfer_len cmd - nc_rbytes_done cmd.

Lemma awaiting_in A q c cmd : tgt_inv pm A q -> awaiting q c cmd -> c ∈ A.
Proof.
  intros Hi (H1 & H2 & H3). pose proof (ti_r2t _ _ _ Hi c cmd H1 H2) as H. unfold places in H. in_app.
Qed.

(** A data PDU at another position than the next one: the command is given up. *)
Lemma h2c_reject A A' c q cmd st :
  tgt_inv pm A q -> nt_rcv_state q = NVMET_TCP_RECV_PDU -> awaiting q c cmd -> A ≡ₚ c :: A' -> st <> 0 ->
  c ∉ sending q -> tgt_inv pm A' (nvmet_req_complete c st q).
Proof.
  intros Hi Hs (Hc & Hd & Hnot) HA Hst Hns. apply (moved_inv A A' c q _ cmd cmd); try done.
  - constructor; try done.
    + transitivity (own_view q); [done|]. by apply put_own_view.
    + unfold places, rcv_list. simpl. rewrite Hs, HA, fmap_app. simpl. apply Permutation_app_head.
      rewrite app_assoc. symmetry. apply Permutation_cons_append.
    + unfold places. simpl. rewrite fmap_app. set_solver.
    + intros d st'. simpl. intros [H|[= -> ->]%list_elem_of_singleton]%elem_of_app Hne; done.
    + intros d Hd' _. rewrite HA. set_solver.
  - intros H. exfalso. apply Hns. unfold sending. assert (c ∈ fifo q) by exact H. in_app.
  - intros H. exfalso. pose proof (places_nodup A q Hi) as Hn. unfold places in Hn. rewrite HA in Hn.
    apply NoDup_app in Hn as (Hn & _). by apply NoDup_cons in Hn as [? _].
  - intros st'. simpl. intros [H|[= ->]%list_elem_of_singleton]%elem_of_app; [|done].
    exfalso. apply Hnot. rewrite !elem_of_app. right. left. apply list_elem_of_fmap. by exists (c, st').
  - intros E. exfalso. change (nt_rcv_state q = NVMET_TCP_RECV_DATA) in E. congruence.
  - simpl. by rewrite Hs.
Qed.

(** The places for the data are set up. *)
Lemma h2c_accept A A' c q q1 cmd cmd1 cmd2 l :
  tgt_inv pm A q -> rcv_list q = [] -> awaiting q c cmd -> A ≡ₚ c :: A' -> c ∉ sending q ->
  nr_sg cmd1 = nr_sg cmd -> nc_iov cmd1 = nc_iov cmd ->
  kfixed q1 = kfixed (put_ncmd c cmd1 q) -> nt_cmds q1 = <[c := cmd2]> (nt_cmds (put_ncmd c cmd1 q)) ->
  kcmd cmd2 = kcmd cmd1 -> receiving q1 c cmd2 l ->
  tgt_inv pm A' (q1 <| nt_cmd := Some c |> <| nt_rcv_state := NVMET_TCP_RECV_DATA |>).
Proof.
  intros Hi Hrl (Hc & Hd & Hnot) HA Hns Es Ei K1 K2 K3 K4.
  assert (fifo q1 = fifo q) as Ef by exact (f_equal fifo K1).
  assert (nt_core q1 = nt_core q) as Ec by exact (f_equal nt_core K1).
  apply (moved_inv A A' c q _ cmd cmd2); try done.
  - constructor; try done.
    + exact (f_equal rfixed K1).
    + transitivity (own_view q1); [done|]. rewrite (kfixed_own c cmd2 _ q1 K1 K2).
      unfold own_view, put_ncmd. simpl. by rewrite insert_insert_eq.
    + rewrite <- Es. exact (f_equal nr_sg K3).
    + rewrite <- Ei. exact (f_equal nc_iov K3).
    + unfold places. rewrite Hrl, HA. unfold rcv_list. simpl. rewrite Ec. apply Permutation_app; [by rewrite <- Ef|].
      symmetry. apply Permutation_middle.
    + unfold places, rcv_list. simpl. set_solver.
    + intros d H _. rewrite <- Ef. exact H.
    + intros d st. simpl. by rewrite Ec.
    + intros d Hd' _. rewrite HA. set_solver.
  - intros H. exfalso. apply Hns. unfold sending.
    assert (c ∈ fifo q) by (rewrite <- Ef; exact H). in_app.
  - intros H. exfalso. pose proof (places_nodup A q Hi) as Hn. unfold places in Hn. rewrite HA in Hn.
    apply NoDup_app in Hn as (Hn & _). by apply NoDup_cons in Hn as [? _].
  - intros st. simpl. rewrite Ec. intros H.
    exfalso. apply Hnot. rewrite !elem_of_app. right. left. apply list_elem_of_fmap. by exists (c, st).
  - intros _. exists c, cmd2, l. split; [done|]. split; [simpl; by rewrite K2, lookup_insert_eq|].
    by apply (receiving_view q1).
Qed.

Lemma h2c_safe A q :
  tgt_inv pm A q -> nt_rcv_state q = NVMET_TCP_RECV_PDU -> pdu_type (nt_pdu q) = nvme_tcp_h2c_data ->
  h2c_pdu_ok q ->
  exists ret q' A', nvmet_tcp_done_recv_pdu q = Some (ret, q') /\ tgt_inv pm A' q'.
Proof.
  intros Hi Hs Ht (cmd & Haw & Hal & Hlen). pose proof Haw as (Hc & Hd & Hnot).
  pose proof (awaiting_in A q _ cmd Hi Haw) as Hin. set (c := data_ttag (nt_pdu q)) in *.
  assert (rcv_list q = []) as Hrl by (unfold rcv_list; by rewrite Hs).
  pose proof (ti_await _ _ _ Hi c cmd Hin Hc) as [A1 A2 A3 A4 A5 A6 (l & A7 & A8)].
  apply elem_of_Permutation in Hin as (A' & HA).
  assert (c ∉ sending q) as Hns by (apply (places_not_sending A q c Hi); unfold places; rewrite HA; set_solver).
  unfold nvmet_tcp_done_recv_pdu. rewrite (si_state _ _ _ (ti_send _ _ _ Hi)), bool_decide_false by done.
  rewrite (proj2 (Z.eqb_eq _ _)) by done. unfold nvmet_tcp_handle_h2c_data_pdu. fold c. rewrite Hc. cbn [mbind option_bind].
  destruct (negb _).
  - do 2 eexists. exists A'. split; [done|]. by apply (h2c_reject A A' c q cmd).
  - set (cmd1 := cmd <| nc_pdu_len := data_data_length (nt_pdu q) |> <| nc_pdu_recv := 0 |>).
    destruct (nc_iov cmd) as [n|] eqn:Eiov; [|done].
    destruct (map_pdu_iovec_ok (put_ncmd c cmd1 q) c cmd1 l) as (q1 & cmd2 & E & K1 & K2 & K3 & K4 & _); try done.
    { simpl. by rewrite lookup_insert_eq. }
    { apply A5. }
    { apply A5. }
    { simpl. lia. }
    { simpl. lia. }
    { exists n. split; [done|]. apply (bi_buf _ _ (si_bufs _ _ _ (ti_send _ _ _ Hi)) c cmd); [|done|done].
      unfold places. rewrite HA. set_solver. }
    rewrite E. cbn [mbind option_bind]. do 2 eexists. exists A'. split; [done|].
    by apply (h2c_accept A A' c q q1 cmd cmd1 cmd2 l).
Qed.

(** ** Data *)

Lemma unmap_pages_ok n l m : (n <= length l)%nat -> is_Some (unmap_pages n l m).
Proof.
  revert l m. induction n as [|n IH]; intros l m H; [by eexists|]. destruct l as [|s l]; [simpl in H; lia|].
  simpl. apply IH. simpl in H. lia.
Qed.

Lemma unmap_ok c q cmd l :
  nt_cmds q !! c = Some cmd -> receiving q c cmd l ->
  exists m, nvmet_tcp_unmap_pdu_iovec c q = Some (q <| nt_kmaps := m |>).
Proof.
  intros Hc [R1 _ _ _ _ _ R7 _ _ _ _ _]. unfold nvmet_tcp_unmap_pdu_iovec. rewrite Hc. cbn [mbind option_bind].
  destruct (_ <=? 0); [exists (nt_kmaps q); by destruct q|]. rewrite R1. cbn [mbind option_bind].
  destruct (unmap_pages_ok (Z.to_nat (nc_nr_mapped cmd)) (drop (Z.to_nat (nc_sg_idx cmd)) l) (nt_kmaps q)) as [m ->].
  { rewrite length_drop. lia. }
  by exists m.
Qed.

(** Command [c] is received; it stays, is executed ([E]) or waits again ([W]). *)
Lemma data_moved A c q q' cmd cmd' W E :
  tgt_inv pm A q -> nt_rcv_state q = NVMET_TCP_RECV_DATA -> nt_cmd q = Some c -> nt_cmds q !! c = Some cmd ->
  rfixed q' = rfixed q -> own_view q' = own_view (put_ncmd c cmd' q) -> nr_sg cmd' = nr_sg cmd ->
  nc_iov cmd' = nc_iov cmd -> nt_resp_list q' = nt_resp_list q -> nt_core q' = nt_core q ++ E ->
  rcv_list q' ++ W ++ E.*1 = [c] ->
  (c ∈ W -> awaitable q' c cmd') -> (forall st, (c, st) ∈ E -> core_ok q' cmd' st) -> rcv_ok q' ->
  nt_rcv_state q' <> NVMET_TCP_RECV_DDGST -> tgt_inv pm (W ++ A) q'.
Proof.
  intros Hi Hs Hcur Hc Hx Hv Es Ei Er Ec Hone HW HE Hrcv Hdd.
  assert (rcv_list q = [c]) as Hrl by (unfold rcv_list; by rewrite Hs, Hcur).
  assert (fifo q' = fifo q) as Ef.
  { unfold fifo. rewrite Er. f_equal. exact (f_equal nt_resp_send_list Hx). }
  assert (c ∉ sending q) as Hns by (apply (places_not_sending A q c Hi); unfold places; rewrite Hrl; set_solver).
  assert (c ∉ A /\ c ∉ (nt_core q).*1) as [HcA HcC].
  { pose proof (places_nodup A q Hi) as Hn. unfold places in Hn. rewrite Hrl in Hn. cbn [app] in Hn.
    rewrite <- Permutation_middle in Hn. apply NoDup_cons in Hn as [Hn _]. split; in_app. }
  assert (forall d, d <> c -> d ∉ rcv_list q' ++ W ++ E.*1) as Hout.
  { intros d Hd. rewrite Hone, list_elem_of_singleton. done. }
  apply (moved_inv A (W ++ A) c q _ cmd cmd'); try done.
  - constructor; try done.
    + rewrite Ef. unfold places. rewrite Hrl, <- Hone, Ec, fmap_app. solve_Permutation.
    + assert (c ∈ rcv_list q' ++ W ++ E.*1) by (rewrite Hone; set_solver).
      unfold places. rewrite Ec, fmap_app. in_app.
    + intros d. by rewrite Ef.
    + intros d st. rewrite Ec. intros [H|H]%elem_of_app Hne; [done|]. exfalso. apply (Hout d Hne).
      rewrite !elem_of_app. right. right. apply list_elem_of_fmap. by exists (d, st).
    + intros d Hd Hne. specialize (Hout d Hne). in_app.
  - rewrite Ef. intros H. exfalso. apply Hns. unfold sending. in_app.
  - intros [H|H]%elem_of_app; [by apply HW|done].
  - intros st. rewrite Ec. intros [H|H]%elem_of_app; [|by apply HE]. exfalso. apply HcC.
    apply list_elem_of_fmap. by exists (c, st).
Qed.

Lemma dfixed_own c cmd' q q' :
  dfixed q' = dfixed q -> nt_cmds q' = <[c := cmd']> (nt_cmds q) -> own_view q' = own_view (put_ncmd c cmd' q).
Proof.
  intros H E. assert (nt_free_list q' = nt_free_list q) as E1 by exact (f_equal nt_free_list H).
  assert (nt_sgls q' = nt_sgls q) as E2 by exact (f_equal nt_sgls H).
  assert (nt_live q' = nt_live q) as E3 by exact (f_equal nt_live H).
  assert (nt_allocs q' = nt_allocs q) as E4 by exact (f_equal nt_allocs H).
  unfold own_view, put_ncmd. simpl. by rewrite E, E1, E2, E3, E4.
Qed.

(** A command that has what was announced and not all it needs. *)
Lemma receiving_awaitable q q' c cmd l :
  receiving q c cmd l -> nc_msg_left cmd = 0 -> nc_rbytes_done cmd <> nr_transfer_len cmd ->
  req_sg cmd q' = req_sg cmd q -> awaitable q' c cmd.
Proof.
  intros [R1 R2 R3 R4 R5 R6 R7 R8 R9 R10 R11 R12] Hm Hne Hsg. constructor; try done.
  - apply R12. lia.
  - lia.
  - exists l. by rewrite Hsg.
Qed.

Lemma data_safe A q rx e :
  tgt_inv pm A q -> nt_rcv_state q = NVMET_TCP_RECV_DATA -> e <= 0 ->
  exists ret q' A', nvmet_tcp_try_recv_data (q <| nt_rx := rx |> <| nt_rx_end := e |>) = Some (ret, q')
    /\ tgt_inv pm A' q'.
Proof.
  intros Hi Hs He. destruct (ti_rcv _ _ _ Hi Hs) as (c & cmd & l & Hcur & Hc & Hr).
  set (qr := q <| nt_rx := rx |> <| nt_rx_end := e |>).
  unfold nvmet_tcp_try_recv_data. change (nt_cmd qr) with (nt_cmd q). rewrite Hcur. cbn [mbind option_bind].
  destruct (recv_data_ok (S (length (nt_rx qr))) qr c cmd l) as (all & ret & n & q2 & cmd2 & E & D & Hall & Hnone);
    [lia|done|done|by apply (receiving_view q)|].
  rewrite E. cbn [mbind option_bind]. destruct D as [D1 D2 D3 D4 _ _ _ _ _].
  assert (rfixed q2 = rfixed q) as Hx by exact (f_equal rfixed D1).
  pose proof (dfixed_own c cmd2 qr q2 D1 D2) as Hv.
  assert (nr_sg cmd2 = nr_sg cmd) as Es by exact (f_equal nr_sg D3).
  assert (nc_iov cmd2 = nc_iov cmd) as Ei by exact (f_equal nc_iov D3).
  assert (nt_resp_list q2 = nt_resp_list q) as Er by exact (f_equal nt_resp_list D1).
  assert (nt_core q2 = nt_core q) as Eo by exact (f_equal nt_core D1).
  assert (nt_cmd q2 = Some c) as Ec2 by (rewrite <- Hcur; exact (f_equal nt_cmd D1)).
  assert (nt_rcv_state q2 = NVMET_TCP_RECV_DATA) as Es2 by (rewrite <- Hs; exact (f_equal nt_rcv_state D1)).
  assert (nt_cmds q2 !! c = Some cmd2) as Hc2 by (by rewrite D2, lookup_insert_eq).
  destruct all; cbn [negb].
  2: { do 2 eexists. exists A. split; [done|]. apply (data_moved A c q q2 cmd cmd2 [] []); try done.
       - by rewrite Eo, app_nil_r.
       - unfold rcv_list. by rewrite Es2, Ec2.
       - set_solver.
       - set_solver.
       - intros _. exists c, cmd2, l. done.
       - by rewrite Es2. }
  destruct (Hall eq_refl) as [Hm _]. destruct (unmap_ok c q2 cmd2 l Hc2 D4) as [m Em].
  rewrite Em. cbn [mbind option_bind]. change (nt_cmds (q2 <| nt_kmaps := m |>)) with (nt_cmds q2).
  rewrite Hc2. cbn [mbind option_bind]. rewrite (rv_flags _ _ _ _ D4). cbn [negb andb].
  assert (nt_data_digest q2 = false) as Edg.
  { rewrite <- (si_digest _ _ _ (ti_send _ _ _ Hi)). exact (f_equal nt_data_digest D1). }
  change (nt_data_digest (q2 <| nt_kmaps := m |>)) with (nt_data_digest q2). rewrite Edg.
  destruct (Z.eqb_spec (nc_rbytes_done cmd2) (nr_transfer_len cmd2)) as [Eq|Hne]; do 2 eexists.
  - exists A. split; [done|]. apply (data_moved A c q _ cmd cmd2 [] [(c, None)]); try done.
    + simpl. by rewrite Eo.
    + set_solver.
    + intros st [= ->]%list_elem_of_singleton. split.
      * unfold nvmet_tcp_has_data_in. rewrite Eq, Z.ltb_irrefl. apply andb_false_r.
      * by rewrite (rv_write _ _ _ _ D4).
  - exists ([c] ++ A). split; [done|]. apply (data_moved A c q _ cmd cmd2 [c] []); try done.
    + simpl. by rewrite Eo, app_nil_r.
    + intros _. by apply (receiving_awaitable q2 _ c cmd2 l).
    + set_solver.
Qed.

(** ** The nvmet core *)

(** The core answers the request of entry [(c, st)]: it stores the status and calls
    [nvmet_tcp_queue_response]. *)
Definition core_respond (l1 l2 : list (Z * option Z)) c (status : Z) q : option nvmet_tcp_queue :=
  cmd ← nt_cmds q !! c;
  Some (nvmet_tcp_queue_response c (put_ncmd c (cmd <| nr_cqe_status := status |>
    <| nr_cqe_command_id := command_id (nr_cmd cmd) |>) (q <| nt_core := l1 ++ l2 |>))).

(** What the core may answer makes the command ready to be sent. *)
Lemma core_ready q q' c cmd st status :
  core_ok q cmd st -> st = None \/ st = Some status ->
  let cmd' := cmd <| nr_cqe_status := status |> <| nr_cqe_command_id := command_id (nr_cmd cmd) |> in
  req_sg cmd' q' = req_sg cmd q -> ready q' c cmd'.
Proof.
  intros Hok Hst cmd' Hsg. split.
  - intros Ho. unfold nvmet_tcp_need_data_out in Ho. simpl in Ho. apply andb_true_iff in Ho as [Ho H0].
    apply andb_true_iff in Ho as [Hw Hlt%Z.ltb_lt]. apply negb_true_iff in Hw, H0. apply c_true_false in H0.
    destruct Hst as [-> | ->]; [|by destruct Hok]. destruct Hok as [_ Hok].
    destruct (Hok Hw Hlt) as [H1 (l & H2 & H3)]. split; [done|]. exists l. by rewrite Hsg.
  - intros Hin'. exfalso. unfold nvmet_tcp_need_data_in in Hin'. simpl in Hin'. apply andb_true_iff in Hin' as [Hd H0].
    apply negb_true_iff, c_true_false in H0. destruct Hst as [-> | ->]; [|by destruct Hok]. destruct Hok as [Hok _].
    change (nvmet_tcp_has_data_in cmd = true) in Hd. congruence.
Qed.

Lemma respond_moved A q l1 c st l2 cmd status :
  tgt_inv pm A q -> nt_core q = l1 ++ (c, st) :: l2 -> st = None \/ st = Some status ->
  nt_cmds q !! c = Some cmd ->
  tgt_inv pm A ((put_ncmd c (cmd <| nr_cqe_status := status |>
    <| nr_cqe_command_id := command_id (nr_cmd cmd) |>) (q <| nt_core := l1 ++ l2 |>)) <| nt_resp_list ::= cons c |>).
Proof.
  intros Hi Hcore Hst Hc. assert ((c, st) ∈ nt_core q) as Hin by (rewrite Hcore; set_solver).
  assert (c ∈ places A q) as Hp.
  { unfold places. rewrite !elem_of_app. right. right. apply list_elem_of_fmap. by exists (c, st). }
  pose proof (places_not_sending A q c Hi Hp) as Hns.
  pose proof (ti_core _ _ _ Hi c st cmd Hin Hc) as Hok.
  set (cmd' := cmd <| nr_cqe_status := status |> <| nr_cqe_command_id := command_id (nr_cmd cmd) |>).
  set (q1 := (put_ncmd c cmd' (q <| nt_core := l1 ++ l2 |>)) <| nt_resp_list ::= cons c |>).
  pose proof (places_nodup A q Hi) as Hn. unfold places in Hn. rewrite Hcore, fmap_app in Hn. cbn [fmap list_fmap fst] in Hn.
  rewrite <- !Permutation_middle in Hn. apply NoDup_cons in Hn as [Hn _].
  apply (moved_inv A A c q _ cmd cmd'); try done.
  - constructor; try done.
    + unfold fifo, places. simpl. rewrite Hcore, !fmap_app, reverse_cons. simpl.
      change (rcv_list q1) with (rcv_list q). solve_Permutation.
    + unfold fifo. simpl. rewrite reverse_cons. set_solver.
    + intros d. unfold fifo. simpl. rewrite reverse_cons. set_solver.
    + intros d st' Hd _. rewrite Hcore. simpl in Hd. set_solver.
  - intros _. by apply (core_ready q q1 c cmd st).
  - intros H. exfalso. apply Hn. in_app.
  - intros st' H. exfalso. apply Hn. rewrite !elem_of_app. right. right. rewrite <- elem_of_app, <- fmap_app.
    apply list_elem_of_fmap. by exists (c, st').
  - intros Hs. change (nt_rcv_state q = NVMET_TCP_RECV_DATA) in Hs. destruct (ti_rcv _ _ _ Hi Hs) as (d & x & l & H1 & H2 & H3).
    assert (d <> c) as Hdc. { intros ->. apply Hn. unfold rcv_list. rewrite Hs, H1. set_solver. }
    exists d, x, l. split; [done|]. split; [simpl; by rewrite lookup_insert_ne|]. by apply (receiving_view q).
  - apply (ti_nodigest _ _ _ Hi).
Qed.

Lemma respond_safe A q l1 c st l2 status :
  tgt_inv pm A q -> nt_core q = l1 ++ (c, st) :: l2 -> st = None \/ st = Some status ->
  exists q', core_respond l1 l2 c status q = Some q' /\ tgt_inv pm A q'.
Proof.
  intros Hi Hcore Hst.
  destruct (send_inv_lookup pm _ q c (ti_send _ _ _ Hi)) as [cmd Hc].
  { unfold places. rewrite Hcore, !elem_of_app. right. right. right. rewrite fmap_app. set_solver. }
  pose proof (respond_moved A q l1 c st l2 cmd status Hi Hcore Hst Hc) as Hi1.
  unfold core_respond. rewrite Hc. cbn [mbind option_bind]. eexists. split; [done|].
  unfold nvmet_tcp_queue_response. match type of Hi1 with tgt_inv _ _ ?x => set (q1 := x) in * end.
  apply (same_inv pm A q1); try done.
  all: unfold queue_nvmet_work; destruct (i10_target_is_latency _); try done.
  all: first [apply (ti_nodigest _ _ _ Hi1)|apply (rcv_ok_view q1); try done; apply (ti_rcv _ _ _ Hi1)].
Qed.

(** ** Any sequence of steps *)

(** What the host may send: see [capsule_ok] and [h2c_pdu_ok]. *)
Definition pdu_ok q : Prop :=
  if pdu_type (nt_pdu q) =? nvme_tcp_h2c_data then h2c_pdu_ok q else capsule_ok q (cmd_nvme (nt_pdu q)).

(** A step of a live queue, and its result: [None] would be an undefined access.
    The allocation of the [kvec] array of a command succeeds (it is the second of
    the step); that of its scatter list may fail. *)
Inductive tgt_step : nvmet_tcp_queue -> option nvmet_tcp_queue -> Prop :=
| ts_pdu q p :
    nt_rcv_state q = NVMET_TCP_RECV_PDU -> pdu_ok (q <| nt_pdu := p |>) ->
    (pdu_type p <> nvme_tcp_h2c_data -> kmalloc_ok (S (nt_allocs q)) = true) ->
    tgt_step q (snd <$> nvmet_tcp_done_recv_pdu (q <| nt_pdu := p |>))
| ts_data q rx e :
    nt_rcv_state q = NVMET_TCP_RECV_DATA -> e <= 0 ->
    tgt_step q (snd <$> nvmet_tcp_try_recv_data (q <| nt_rx := rx |> <| nt_rx_end := e |>))
| ts_respond q l1 c st l2 status :
    nt_core q = l1 ++ (c, st) :: l2 -> st = None \/ st = Some status ->
    tgt_step q (core_respond l1 l2 c status q)
| ts_send q budget sends :
    tgt_step q (snd <$> nvmet_tcp_try_send pm budget sends q).

Inductive tgt_reach (q0 : nvmet_tcp_queue) : nvmet_tcp_queue -> Prop :=
| tr_refl : tgt_reach q0 q0
| tr_step q q' : tgt_reach q0 q -> tgt_step q (Some q') -> tgt_reach q0 q'.

(** A queue whose connection was just accepted: all its commands are free. *)
Record tgt_init q : Prop := {
  in_state : nt_state q = NVMET_TCP_Q_LIVE;
  in_digest : nt_data_digest q = false;
  in_success : aggregated pm q = true -> nt_sqhd_disabled q = false;
  in_free : NoDup (nt_free_list q) /\ forall c, c ∈ nt_free_list q -> is_Some (nt_cmds q !! c);
  in_mem : (forall n, is_Some (nt_sgls q !! n) -> (n < nt_allocs q)%nat)
    /\ forall n, n ∈ nt_live q -> (n < nt_allocs q)%nat;
  in_car : nt_nr_iovs q = 0 /\ nt_nr_caravan_cmds q = 0 /\ nt_nr_caravan_mapped q = 0 /\ nt_caravan_len q = 0
    /\ Z.of_nat (length (nt_caravan_iovs q)) = I10_TARGET_SEND_BUDGET * 3
    /\ Z.of_nat (length (nt_caravan_cmds q)) = I10_TARGET_SEND_BUDGET
    /\ Z.of_nat (length (nt_caravan_mapped q)) = I10_TARGET_SEND_BUDGET;
  in_lists : nt_snd_cmd q = None /\ nt_resp_list q = [] /\ nt_resp_send_list q = [] /\ nt_core q = []
    /\ nt_rcv_state q = NVMET_TCP_RECV_PDU;
  in_r2t : forall c cmd, nt_cmds q !! c = Some cmd -> ~ r2t_done q cmd;
}.

Lemma init_inv q : tgt_init q -> tgt_inv pm [] q.
Proof.
  intros [I1 I2 I3 [I4 I4'] [I5 I5'] (C1 & C2 & C3 & C4 & C5 & C6 & C7) (L1 & L2 & L3 & L4 & L5) I8].
  assert (tgt_caravan q = [] /\ tgt_caravan_owners q = []) as [Ec Eo].
  { unfold tgt_caravan, tgt_caravan_owners. by rewrite C1, C2. }
  assert (fifo q = [] /\ places [] q = []) as [Ef Ep].
  { unfold fifo, places, rcv_list. by rewrite L2, L3, L4, L5. }
  assert (sending q = []) as Es by (unfold sending, snd_list; by rewrite Eo, L1, Ef).
  constructor.
  - constructor; try done.
    + rewrite Es, Ep. constructor; rewrite ?app_nil_r; try done; set_solver.
    + constructor; rewrite ?Ec, ?C1, ?C2, ?C3, ?C4; try done.
    + rewrite Ec. set_solver.
    + rewrite Ef. set_solver.
    + by rewrite L1.
  - intros d x Hd. set_solver.
  - intros H. congruence.
  - rewrite L4. set_solver.
  - intros c cmd Hc Hd. exfalso. by apply (I8 c cmd).
  - by rewrite L5.
Qed.

Lemma step_safe A q r : tgt_inv pm A q -> tgt_step q r -> exists A' q', r = Some q' /\ tgt_inv pm A' q'.
Proof.
  intros Hi Hs. destruct Hs as [q p Hs Hok Hkm|q rx e Hs He|q l1 c st l2 status Hc Hst|q budget sends].
  - assert (tgt_inv pm A (q <| nt_pdu := p |>)) as Hi'.
    { apply (same_inv pm A q); try done; [apply (rcv_ok_view q); try done; apply (ti_rcv _ _ _ Hi)|apply (ti_nodigest _ _ _ Hi)]. }
    unfold pdu_ok in Hok. destruct (Z.eqb_spec (pdu_type (nt_pdu (q <| nt_pdu := p |>))) nvme_tcp_h2c_data) as [Ht|Ht].
    + destruct (h2c_safe A (q <| nt_pdu := p |>) Hi' Hs Ht Hok) as (ret & q' & A' & E & H). exists A', q'. by rewrite E.
    + destruct (capsule_safe pm A (q <| nt_pdu := p |>) Hi' Hs Ht Hok (Hkm Ht)) as (ret & q' & E & H). exists A, q'. by rewrite E.
  - destruct (data_safe A q rx e Hi Hs He) as (ret & q' & A' & E & H). exists A', q'. by rewrite E.
  - destruct (respond_safe A q l1 c st l2 status Hi Hc Hst) as (q' & E & H). exists A, q'. by rewrite E.
  - destruct (try_send_safe pm A budget sends q Hi) as (ret & sends' & q' & r & E & H). exists (r ++ A), q'. by rewrite E.
Qed.

Lemma reach_inv q0 q : tgt_init q0 -> tgt_reach q0 q -> exists A, tgt_inv pm A q.
Proof.
  intros Hi. induction 1 as [|q q' _ [A IH] Hs]; [exists []; by apply init_inv|].
  destruct (step_safe A q _ IH Hs) as (A' & q'' & [= <-] & H). by exists A'.
Qed.

End target.

(** ** NVMe/TCP target: received data ends up where it belongs

    However the data of a write is cut into segments, each byte is stored at the
    place of its offset, nothing else changes, and the request is executed when
    its last byte is there and not before. *)

(** ** Stores *)

Lemma store_ne p b m x : x ∉ p -> store p b m !! x = m !! x.
Proof.
  unfold store. revert b m. induction p as [|y p IH]; intros b m Hx; [done|]. destruct b as [|z b]; [done|].
  apply not_elem_of_cons in Hx as [Hne Hx]. simpl. rewrite IH by done. by rewrite lookup_insert_ne.
Qed.

Lemma store_eq p b m i x y :
  NoDup p -> p !! i = Some x -> b !! i = Some y -> store p b m !! x = Some y.
Proof.
  revert b m i. induction p as [|z p IH]; intros b m i Hn Hp Hb; [done|]. destruct b as [|w b]; [done|].
  apply NoDup_cons in Hn as [Hz Hn]. destruct i as [|i]; simpl in Hp, Hb.
  - injection Hp as ->. injection Hb as ->. transitivity (<[x := y]> m !! x).
    + exact (store_ne p b (<[x := y]> m) x Hz).
    + by rewrite lookup_insert_eq.
  - exact (IH b (<[z := w]> m) i Hn Hp Hb).
Qed.

Section data.
Context {pr : NvmeTcpProto} {pt : NvmetProto} {pl : NvmetProtoLaws pr pt}.
Context {ne : NvmetEnv} {ly : PduLayout} {cl : CmdLayout}.
Implicit Types (q : nvmet_tcp_queue) (cmd : nvmet_tcp_cmd).

(** Storing the next [n] bytes extends the data by them. *)
Lemma store_data q q' l (d n : nat) bytes :
  NoDup (sg_places l) -> length bytes = n -> (d + n <= length (sg_places l))%nat ->
  nt_mem q' = store (take n (drop d (sg_places l))) bytes (nt_mem q) ->
  sg_data q' l (Z.of_nat (d + n)) = sg_data q l (Z.of_nat d) ++ bytes.
Proof.
  intros Hn Hb Hle Em. unfold sg_data. rewrite !Nat2Z.id, <- take_take_drop, fmap_app.
  assert (NoDup (take d (sg_places l) ++ take n (drop d (sg_places l)))) as Hnd.
  { rewrite take_take_drop. exact (sublist_NoDup _ _ Hn (sublist_take _ _)). }
  apply NoDup_app in Hnd as (_ & Hsep & Hnd). f_equal.
  - apply list_fmap_ext. intros i x Hx%list_elem_of_lookup_2. unfold load. destruct x as [p o]. simpl.
    rewrite Em, store_ne; [done|]. by apply Hsep.
  - apply list_eq. intros i. rewrite list_lookup_fmap.
    destruct (take n (drop d (sg_places l)) !! i) as [x|] eqn:Ex; simpl.
    + assert (i < n)%nat as Hi by (apply lookup_lt_Some in Ex; rewrite length_take in Ex; lia).
      destruct (lookup_lt_is_Some_2 bytes i) as [y Hy]; [lia|]. rewrite Hy. unfold load. destruct x as [p o]. simpl.
      by rewrite Em, (store_eq _ bytes _ i (p, o) y).
    + apply lookup_ge_None in Ex. rewrite length_take, length_drop in Ex. symmetry. apply lookup_ge_None. lia.
Qed.

(** One call of [nvmet_tcp_try_recv_data]: with [n] bytes taken off the stream. *)
Lemma try_recv_data_ok q c cmd l rx e :
  nt_rcv_state q = NVMET_TCP_RECV_DATA -> nt_cmd q = Some c -> nt_cmds q !! c = Some cmd ->
  receiving q c cmd l -> NoDup (sg_places l) -> e <= 0 ->
  let n := Nat.min (Z.to_nat (nc_msg_left cmd)) (length rx) in
  exists ret q' cmd',
    nvmet_tcp_try_recv_data (q <| nt_rx := rx |> <| nt_rx_end := e |>) = Some (ret, q')
    /\ nt_cmds q' !! c = Some cmd' /\ nc_rbytes_done cmd' = nc_rbytes_done cmd + Z.of_nat n
    /\ nr_transfer_len cmd' = nr_transfer_len cmd /\ nt_data_digest q' = nt_data_digest q
    /\ nt_rx q' = drop n rx
    /\ sg_data q' l (nc_rbytes_done cmd') = sg_data q l (nc_rbytes_done cmd) ++ take n rx
    /\ (Z.of_nat n < nc_msg_left cmd -> receiving q' c cmd' l /\ nt_cmd q' = Some c
         /\ nc_msg_left cmd' = nc_msg_left cmd - Z.of_nat n
         /\ nt_core q' = nt_core q /\ nt_rcv_state q' = NVMET_TCP_RECV_DATA)
    /\ (Z.of_nat n = nc_msg_left cmd -> nc_rbytes_done cmd' <> nr_transfer_len cmd ->
         nt_core q' = nt_core q /\ nt_rcv_state q' = NVMET_TCP_RECV_PDU)
    /\ (Z.of_nat n = nc_msg_left cmd -> nc_rbytes_done cmd' = nr_transfer_len cmd ->
         if nt_data_digest q then nt_core q' = nt_core q /\ nt_rcv_state q' = NVMET_TCP_RECV_DDGST
           /\ nc_exp_ddgst cmd' = crc32c (sg_data q' l (nc_rbytes_done cmd'))
         else nt_core q' = nt_core q ++ [(c, None)] /\ nt_rcv_state q' = NVMET_TCP_RECV_PDU).
Proof.
  intros Hs Hcur Hc Hr Hnd He n. set (qr := q <| nt_rx := rx |> <| nt_rx_end := e |>).
  destruct (recv_data_ok (S (length (nt_rx qr))) qr c cmd l) as (all & ret & m & q2 & cmd2 & E & D & Hall & Hnone);
    [lia|done|done|by apply (receiving_view q)|].
  destruct D as [D1 D2 D3 D4 D5 D6 D7 D8 D9]. change (nt_rx qr) with rx in *.
  pose proof (rv_range _ _ _ _ Hr) as Hrng. pose proof (rv_msg _ _ _ _ Hr) as Hmsg.
  assert (m = n) as ->.
  { unfold n. destruct all; [destruct (Hall eq_refl); lia|]. destruct (Hnone eq_refl) as (H1 & _).
    rewrite D8 in H1. apply (f_equal length) in H1. rewrite length_drop in H1. simpl in H1. lia. }
  assert (Z.of_nat (length (sg_places l)) = nr_transfer_len cmd) as El.
  { apply sg_places_length; [lia|]. apply (rv_ok _ _ _ _ Hr). }
  assert (sg_data q2 l (nc_rbytes_done cmd2) = sg_data q l (nc_rbytes_done cmd) ++ take n rx) as Hdata.
  { replace (nc_rbytes_done cmd2) with (Z.of_nat (Z.to_nat (nc_rbytes_done cmd) + n)) by lia.
    rewrite (store_data qr q2 l _ n (take n rx)); [|done|rewrite length_take; lia|lia|].
    - rewrite Z2Nat.id by lia. done.
    - rewrite D9, (rv_places _ _ _ _ Hr), take_take. f_equal. f_equal. lia. }
  assert (nt_cmds q2 !! c = Some cmd2) as Hc2 by (by rewrite D2, lookup_insert_eq).
  assert (nt_core q2 = nt_core q) as Eo by exact (f_equal nt_core D1).
  assert (nt_data_digest q2 = nt_data_digest q) as Edg by exact (f_equal nt_data_digest D1).
  assert (nr_transfer_len cmd2 = nr_transfer_len cmd) as Et by exact (f_equal nr_transfer_len D3).
  unfold nvmet_tcp_try_recv_data. change (nt_cmd qr) with (nt_cmd q). change (nt_rx qr) with rx.
  rewrite Hcur. cbn [mbind option_bind]. rewrite E. cbn [mbind option_bind].
  destruct all; cbn [negb].
  2: { destruct (Hnone eq_refl) as (_ & _ & Hpos). exists ret, q2, cmd2. do 7 (split; [done|]).
       split; [|split; lia]. intros _. split; [done|]. split; [rewrite <- Hcur; exact (f_equal nt_cmd D1)|].
       split; [done|]. split; [done|]. rewrite <- Hs. exact (f_equal nt_rcv_state D1). }
  destruct (Hall eq_refl) as [Hm _]. destruct (unmap_ok c q2 cmd2 l Hc2 D4) as [km Em].
  rewrite Em. cbn [mbind option_bind]. change (nt_cmds (q2 <| nt_kmaps := km |>)) with (nt_cmds q2).
  rewrite Hc2. cbn [mbind option_bind]. rewrite (rv_flags _ _ _ _ D4). cbn [negb andb].
  change (nt_data_digest (q2 <| nt_kmaps := km |>)) with (nt_data_digest q2). rewrite Edg, Et.
  destruct (Z.eqb_spec (nc_rbytes_done cmd2) (nr_transfer_len cmd)) as [Eq|Hne].
  2: { do 2 eexists. exists cmd2. do 7 (split; [done|]). split; [lia|]. done. }
  destruct (nt_data_digest q) eqn:Edq.
  - unfold nvmet_tcp_prep_recv_ddgst, nvmet_tcp_ddgst. change (nt_cmds (q2 <| nt_kmaps := km |>)) with (nt_cmds q2).
    rewrite Hc2. cbn [mbind option_bind].
    change (req_sg cmd2 (q2 <| nt_kmaps := km |>)) with (req_sg cmd2 q2). rewrite (rv_sg _ _ _ _ D4). cbn [mbind option_bind].
    do 3 eexists. split; [done|]. split; [apply lookup_insert_eq|]. do 5 (split; [done|]). split; [lia|].
    split; [done|]. intros _ _. split; [done|]. split; [done|]. simpl. rewrite Et, Eq. done.
  - do 2 eexists. exists cmd2. do 7 (split; [done|]). split; [lia|]. split; [done|]. intros _ _. simpl. by rewrite Eo.
Qed.

(** The segments of the stream arrive one after the other, each followed by a
    receive that finds nothing more ([e]). *)
Fixpoint recv_segments (segs : list (list Z)) (e : Z) (q : nvmet_tcp_queue) : option nvmet_tcp_queue :=
  match segs with
  | [] => Some q
  | rx :: segs =>
      '(_, q) ← nvmet_tcp_try_recv_data (q <| nt_rx := rx |> <| nt_rx_end := e |>);
      recv_segments segs e q
  end.

Lemma recv_segments_app segs1 segs2 e q :
  recv_segments (segs1 ++ segs2) e q = q' ← recv_segments segs1 e q; recv_segments segs2 e q'.
Proof.
  revert q. induction segs1 as [|rx segs1 IH]; intros q; [done|]. simpl.
  destruct (nvmet_tcp_try_recv_data _) as [[ret q1]|]; [|done]. apply IH.
Qed.

(** While the PDU is not complete. *)
Lemma recv_segments_more segs e q c cmd l :
  nt_rcv_state q = NVMET_TCP_RECV_DATA -> nt_cmd q = Some c -> nt_cmds q !! c = Some cmd ->
  receiving q c cmd l -> NoDup (sg_places l) -> e <= 0 ->
  (segs = [] \/ Z.of_nat (length (concat segs)) < nc_msg_left cmd) ->
  exists q' cmd', recv_segments segs e q = Some q' /\ nt_cmds q' !! c = Some cmd' /\ receiving q' c cmd' l
    /\ nt_cmd q' = Some c /\ nt_rcv_state q' = NVMET_TCP_RECV_DATA /\ nt_core q' = nt_core q
    /\ nt_data_digest q' = nt_data_digest q /\ nr_transfer_len cmd' = nr_transfer_len cmd
    /\ nc_rbytes_done cmd' = nc_rbytes_done cmd + Z.of_nat (length (concat segs))
    /\ nc_msg_left cmd' = nc_msg_left cmd - Z.of_nat (length (concat segs))
    /\ sg_data q' l (nc_rbytes_done cmd') = sg_data q l (nc_rbytes_done cmd) ++ concat segs.
Proof.
  intros Hs Hcur Hc Hr Hnd He. revert q cmd Hs Hcur Hc Hr.
  induction segs as [|rx segs IH]; intros q cmd Hs Hcur Hc Hr Hlen.
  { exists q, cmd. simpl. rewrite app_nil_r, Z.add_0_r, Z.sub_0_r. by repeat (split; [done|]). }
  destruct Hlen as [?|Hlen]; [done|]. simpl in Hlen. rewrite length_app in Hlen.
  destruct (try_recv_data_ok q c cmd l rx e) as (ret & q1 & cmd1 & E & A1 & A2 & A3 & A4 & _ & A5 & A6 & _); try done.
  rewrite Nat.min_r in A2, A5, A6 by lia. rewrite take_ge in A5 by lia.
  destruct (A6 ltac:(lia)) as (B1 & B2 & B3 & B4 & B5).
  destruct (IH q1 cmd1) as (q2 & cmd2 & E2 & C1 & C2 & C3 & C4 & C5 & C6 & C7 & C8 & C9 & C10); try done; [right; lia|].
  exists q2, cmd2. simpl. rewrite E. simpl. rewrite length_app.
  split; [done|]. do 4 (split; [done|]). split; [congruence|]. split; [congruence|]. split; [congruence|].
  split; [lia|]. split; [lia|]. by rewrite C10, A5, app_assoc.
Qed.

(** C17: Receiving data for a write command.  A data PDU of [nc_pdu_len] bytes is
    accepted for a write whose data so far ends at a page boundary (with another
    start the iterator would point to the wrong page, [map_iovec_misplaced]), and its
    bytes arrive in segments cut anywhere, the last of which may reach into the next
    PDU.  The core has accepted the write (no failed initialisation, status 0), its
    buffers are well formed and its array of [kvec] allocated; the connect command has
    its data in one PDU.  Then setting up the iterator and receiving are defined; exactly the bytes of
    the PDU are taken off the stream; the data of the request is what it was, followed
    by exactly these bytes; and the request is given to the nvmet core if and only if
    its last byte has arrived and the queue has no data digest.  With one, the CRC of
    the whole data is computed and the digest awaited. *)
Theorem target_write_data q c cmd l segs rx e :
  nt_cmds q !! c = Some cmd -> req_sg cmd q = Some l -> sg_ok l (nr_transfer_len cmd) -> NoDup (sg_places l) ->
  nr_transfer_len cmd < 2 ^ 32 -> 0 <= nc_rbytes_done cmd -> nc_rbytes_done cmd mod PAGE_SIZE = 0 ->
  0 <= nc_pdu_len cmd -> nc_rbytes_done cmd + nc_pdu_len cmd <= nr_transfer_len cmd ->
  (exists n, nc_iov cmd = Some n /\ n ∈ nt_live q) ->
  nvme_is_write (nr_cmd cmd) = true -> nr_cqe_status cmd = 0 ->
  has_flag (nc_flags cmd) NVMET_TCP_F_INIT_FAILED = false ->
  (nc_rbytes_done cmd + nc_pdu_len cmd < nr_transfer_len cmd -> c <> connect_id) ->
  (segs = [] \/ Z.of_nat (length (concat segs)) < nc_pdu_len cmd) -> e <= 0 ->
  let bytes := concat segs ++ rx in
  let n := Nat.min (Z.to_nat (nc_pdu_len cmd)) (length bytes) in
  exists q1 q' cmd',
    nvmet_tcp_map_pdu_iovec c q = Some q1
    /\ recv_segments (segs ++ [rx]) e (q1 <| nt_cmd := Some c |> <| nt_rcv_state := NVMET_TCP_RECV_DATA |>) = Some q'
    /\ nt_cmds q' !! c = Some cmd' /\ nc_rbytes_done cmd' = nc_rbytes_done cmd + Z.of_nat n
    /\ nt_rx q' = drop n bytes
    /\ sg_data q' l (nc_rbytes_done cmd') = sg_data q l (nc_rbytes_done cmd) ++ take n bytes
    /\ let all := bool_decide (Z.of_nat n = nc_pdu_len cmd) in
       let last := bool_decide (nc_rbytes_done cmd' = nr_transfer_len cmd) in
       nt_core q' = nt_core q ++ (if all && last && negb (nt_data_digest q) then [(c, None)] else [])
       /\ nt_rcv_state q' = (if all then if last && nt_data_digest q then NVMET_TCP_RECV_DDGST else NVMET_TCP_RECV_PDU
                              else NVMET_TCP_RECV_DATA)
       /\ (nt_rcv_state q' = NVMET_TCP_RECV_DDGST -> nc_exp_ddgst cmd' = crc32c (sg_data q' l (nr_transfer_len cmd))).
Proof.
  intros Hc Hl Hok Hnd Hmax Hr0 Hal Hp Hrng Hiov Hw Hst Hfl Htag Hlen He bytes n.
  destruct (map_pdu_iovec_ok q c cmd l) as (q1 & cmd1 & E1 & K1 & K2 & K3 & K4 & K5); try done.
  set (q2 := q1 <| nt_cmd := Some c |> <| nt_rcv_state := NVMET_TCP_RECV_DATA |>).
  assert (nt_core q1 = nt_core q /\ nt_data_digest q1 = nt_data_digest q /\ nt_mem q1 = nt_mem q) as (F1 & F2 & F3).
  { split; [exact (f_equal nt_core K1)|]. split; [exact (f_equal nt_data_digest K1)|exact (f_equal nt_mem K1)]. }
  assert (nc_rbytes_done cmd1 = nc_rbytes_done cmd /\ nr_transfer_len cmd1 = nr_transfer_len cmd) as [F4 F5].
  { split; [exact (f_equal nc_rbytes_done K3)|exact (f_equal nr_transfer_len K3)]. }
  destruct (recv_segments_more segs e q2 c cmd1 l) as (q3 & cmd3 & E3 & C1 & C2 & C3 & C4 & C5 & C6 & C7 & C8 & C9 & C10);
    try done; [simpl; by rewrite K2, lookup_insert_eq|by apply (receiving_view q1)|by rewrite K5|].
  destruct (try_recv_data_ok q3 c cmd3 l rx e) as (ret & q4 & cmd4 & E & A1 & A2 & A3 & A4 & A5 & A6 & A7 & A8 & A9); try done.
  set (m := Nat.min (Z.to_nat (nc_msg_left cmd3)) (length rx)) in *.
  assert (length (concat segs) <= Z.to_nat (nc_pdu_len cmd))%nat as Hle by (destruct Hlen as [->|Hlen]; simpl; lia).
  assert (n = length (concat segs) + m)%nat as En by (unfold n, m, bytes; rewrite length_app; lia).
  exists q1, q4, cmd4. split; [done|]. split.
  { fold q2. rewrite recv_segments_app, E3. simpl. by rewrite E. }
  split; [done|]. split; [lia|]. split.
  { rewrite A5, En. unfold bytes. by rewrite drop_app_add. }
  assert (sg_data q2 l (nc_rbytes_done cmd1) = sg_data q l (nc_rbytes_done cmd)) as Esg.
  { rewrite F4. unfold sg_data. apply list_fmap_ext. intros i [p o] _. unfold load. simpl. by rewrite F3. }
  split.
  { rewrite A6, C10, Esg, En. unfold bytes. by rewrite take_app_add, app_assoc. }
  change (nt_core q2) with (nt_core q1) in C5. change (nt_data_digest q2) with (nt_data_digest q1) in C6.
  rewrite C7, F5 in A8, A9. rewrite C5, F1 in A7, A8, A9. rewrite C6, F2 in A9. cbv zeta.
  destruct (decide (Z.of_nat n = nc_pdu_len cmd)) as [Ha|Ha].
  2: { rewrite (bool_decide_false _ Ha). destruct A7 as (_ & _ & _ & -> & ->); [lia|]. by rewrite app_nil_r. }
  rewrite (bool_decide_true _ Ha).
  destruct (decide (nc_rbytes_done cmd4 = nr_transfer_len cmd)) as [Hb|Hb].
  2: { rewrite (bool_decide_false _ Hb). destruct (A8 ltac:(lia) Hb) as [-> ->]. by rewrite app_nil_r. }
  rewrite (bool_decide_true _ Hb). specialize (A9 ltac:(lia) Hb). destruct (nt_data_digest q); simpl.
  - destruct A9 as (-> & -> & X). rewrite app_nil_r. split; [done|]. split; [done|]. intros _. by rewrite X, Hb.
  - by destruct A9 as (-> & ->).
Qed.
End data.
