(* ===== verification/NvmetTcpSteerSpec.v ===== *)
(** * NVMe/TCP target: target steering chooses the least loaded core

    On a machine of at most four nodes with at most six cores each, steering is
    defined; the core it chooses is the least loaded one that qualifies, and no
    queue ever leaves its NUMA node. *)
From S2P Require Import Prelude NvmeTcp NvmeTcpSend NvmeTcpMap NvmetTcp NvmetTcpSend NvmetTcpSteer NvmetTcpQueue.

(** ** The first smallest element that qualifies *)

Section argmin.
Context (good : Z -> bool) (key cpu : Z -> Z).

(** The choice among [l]: nothing below the bound, or the smallest. *)
Definition argmin (l : list Z) (t0 m0 : Z) (x : Z * Z) : Prop :=
  x = (t0, m0) /\ (forall i, i ∈ l -> good i = true -> m0 <= key i)
  \/ exists j, j ∈ l /\ good j = true /\ x = (cpu j, key j) /\ key j < m0
       /\ forall i, i ∈ l -> good i = true -> key j <= key i.

Lemma argmin_fold f l t0 m0 :
  (forall x i, i ∈ l -> f x i = Some (if good i && (key i <? x.2) then (cpu i, key i) else x)) ->
  exists x, foldM f (t0, m0) l = Some x /\ argmin l t0 m0 x.
Proof.
  intros Hf. apply (foldM_inv f (fun done x => argmin done t0 m0 x)).
  { left. split; [done|]. intros i Hi. by apply elem_of_nil in Hi. }
  intros l1 a l2 x -> Hx. rewrite Hf by set_solver. eexists. split; [done|].
  destruct (good a && (key a <? x.2)) eqn:E.
  - apply andb_true_iff in E as [Hg Hlt%Z.ltb_lt]. right. exists a. split; [set_solver|]. split; [done|]. split; [done|].
    destruct Hx as [[-> Hall]|(j & Hj & Hgj & -> & Hm & Hall)]; simpl in Hlt.
    + split; [done|]. intros i [Hi| ->%list_elem_of_singleton]%elem_of_app Hgi; [|lia]. specialize (Hall i Hi Hgi). lia.
    + split; [lia|]. intros i [Hi| ->%list_elem_of_singleton]%elem_of_app Hgi; [|lia]. specialize (Hall i Hi Hgi). lia.
  - assert (good a = true -> x.2 <= key a) as Ha.
    { intros Hg. rewrite Hg in E. by apply Z.ltb_ge in E. }
    destruct Hx as [[-> Hall]|(j & Hj & Hgj & -> & Hm & Hall)]; simpl in Ha.
    + left. split; [done|]. intros i [Hi| ->%list_elem_of_singleton]%elem_of_app Hgi; auto.
    + right. exists j. split; [set_solver|]. split; [done|]. split; [done|]. split; [done|].
      intros i [Hi| ->%list_elem_of_singleton]%elem_of_app Hgi; auto.
Qed.
End argmin.

Section steer.
Context (pm : nvmet_params) (se : steer_env).
Implicit Types (q : nvmet_tcp_queue) (l : list nvmet_tcp_queue).

(** ** The machine and where queues are *)

Record machine_ok : Prop := {
  mc_nodes : 0 < nr_nodes se <= Z.of_nat NR_NODE_METRIC;
  mc_cpus : nr_cpus se = cores se * nr_nodes se;
  mc_cores : 0 < cores se <= Z.of_nat NR_METRIC;
}.

Record placed q : Prop := {
  pq_cpu : 0 <= nt_cpu q < nr_cpus se;
  pq_node : nt_cpu q mod nr_nodes se = nt_numa_node q;
  pq_orig : 0 <= nt_orig_cpu q < nr_cpus se;
  pq_home : nt_orig_cpu q mod nr_nodes se = nt_numa_node q;
  pq_metric : 0 <= nt_metric q;
}.

Context (Hm : machine_ok).

Lemma core_range q : placed q -> 0 <= core_of se q < cores se.
Proof.
  intros [H _ _ _ _]. destruct Hm as [M1 M2 M3]. unfold core_of. split; [apply Z.div_pos; lia|].
  apply Z.div_lt_upper_bound; [lia|]. rewrite Z.mul_comm, <- M2. lia.
Qed.

Lemma node_range q : placed q -> 0 <= nt_numa_node q < nr_nodes se.
Proof. intros [_ <- _ _ _]. destruct Hm as [M1 M2 M3]. apply Z.mod_pos_bound. lia. Qed.

(** The CPU of core [i] of a node is on the node. *)
Lemma node_cpu i node :
  0 <= i < cores se -> 0 <= node < nr_nodes se ->
  0 <= i * nr_nodes se + node < nr_cpus se /\ (i * nr_nodes se + node) mod nr_nodes se = node
  /\ s32 (i * nr_nodes se + node) = i * nr_nodes se + node.
Proof.
  intros Hi Hn. destruct Hm as [M1 M2 M3]. unfold NR_METRIC, NR_NODE_METRIC in *.
  assert (0 <= i * nr_nodes se + node < nr_cpus se) as H by nia. split; [done|]. split.
  - rewrite Z.add_comm, Z.mod_add by lia. by apply Z.mod_small.
  - apply s32_small. nia.
Qed.

(** ** Loads *)

(** The load of core [i] of the node: the metrics of the lanes of a class. *)
Definition on_core (node : Z) (lat : bool) (i : Z) q : bool :=
  negb (nt_qid q =? 0) && (nt_numa_node q =? node) && Bool.eqb (nr_cpus se <? nt_idx q) lat && (core_of se q =? i).
Definition load_of (node : Z) (lat : bool) (i : Z) l : Z :=
  foldr (fun q n => if on_core node lat i q then nt_metric q + n else n) 0 l.

Definition metrics_ok l : Prop :=
  Forall (fun q => 0 <= nt_metric q) l /\ foldr (fun q n => nt_metric q + n) 0 l < 2 ^ 31.

Lemma load_range node lat i l :
  Forall (fun q => 0 <= nt_metric q) l -> 0 <= load_of node lat i l <= foldr (fun q n => nt_metric q + n) 0 l.
Proof. induction 1 as [|q l Hq _ IH]; simpl; [lia|]. destruct (on_core _ _ _ _); lia. Qed.

Lemma load_app node lat i l1 l2 : load_of node lat i (l1 ++ l2) = load_of node lat i l1 + load_of node lat i l2.
Proof. induction l1 as [|q l IH]; simpl; [done|]. rewrite IH. destruct (on_core _ _ _ _); lia. Qed.

(** An array that holds [f] at the cores. *)
Definition holds (a : list (option Z)) (f : Z -> Z) : Prop :=
  length a = NR_METRIC /\ forall i, 0 <= i < cores se -> aread a i = Some (f i).

Lemma aset_read (a : list (option Z)) i j x a' :
  aset a i (Some x) = Some a' -> aread a' j = if j =? i then Some x else aread a j.
Proof.
  intros E. unfold aread. destruct (Z.eqb_spec j i) as [->|Hne].
  - by rewrite (aget_aset_eq _ _ _ _ E).
  - by rewrite (aget_aset_ne _ _ _ _ _ E).
Qed.

Lemma clear_row n (a : list (option Z)) :
  length a = NR_METRIC -> n <= Z.of_nat NR_METRIC ->
  exists a', foldM (fun a i => aset a i (Some 0)) a (seqZ 0 n) = Some a' /\ length a' = NR_METRIC
    /\ forall i, 0 <= i < n -> aread a' i = Some 0.
Proof.
  intros Hl Hn. destruct (foldM_inv (fun (a : list (option Z)) i => aset a i (Some 0))
    (fun done a => length a = NR_METRIC /\ forall i, i ∈ done -> aread a i = Some 0) (seqZ 0 n) a)
    as (a' & E & H1 & H2).
  - split; [done|]. intros i Hi. by apply elem_of_nil in Hi.
  - intros l1 i l2 b Eq [Hb Hr]. assert (i ∈ seqZ 0 n) as Hi by (rewrite Eq; set_solver).
    apply elem_of_seqZ in Hi. rewrite aset_lt by lia. eexists. split; [done|]. split; [by rewrite length_insert|].
    intros j Hj. assert (aset b i (Some 0) = Some (<[Z.to_nat i := Some 0]> b)) as Es by (apply aset_lt; lia).
    rewrite (aset_read _ _ j _ _ Es). destruct (Z.eqb_spec j i); [done|]. apply Hr. set_solver.
  - exists a'. split; [done|]. split; [done|]. intros i Hi. apply H2. apply elem_of_seqZ. lia.
Qed.

Lemma clear_metrics_ok : exists a, clear_metrics se = Some a /\ holds a (fun _ => 0).
Proof.
  destruct (clear_row (cores se) (uninit NR_METRIC)) as (a & E & H1 & H2); [done|apply (mc_cores Hm)|].
  exists a. split; [exact E|]. split; [done|]. exact H2.
Qed.

Lemma aadd_ok a f j z :
  holds a f -> 0 <= j < cores se -> - 2 ^ 31 <= f j + z < 2 ^ 31 ->
  exists a', aadd a j z = Some a' /\ holds a' (fun i => if i =? j then f j + z else f i).
Proof.
  intros [Hl Ha] Hj Hz. destruct Hm as [M1 M2 M3].
  unfold aadd. rewrite Ha by done. simpl. rewrite s32_small by done.
  assert (aset a j (Some (f j + z)) = Some (<[Z.to_nat j := Some (f j + z)]> a)) as E by (apply aset_lt; lia).
  rewrite E. eexists. split; [done|]. split; [by rewrite length_insert|].
  intros i Hi. rewrite (aset_read _ _ i _ _ E). destruct (i =? j); [done|]. by apply Ha.
Qed.

Lemma holds_ext a f g : holds a f -> (forall i, 0 <= i < cores se -> f i = g i) -> holds a g.
Proof. intros [H1 H2] E. split; [done|]. intros i Hi. rewrite <- E by done. by apply H2. Qed.

Lemma core_metrics_ok node l :
  Forall placed l -> metrics_ok l ->
  exists lat thru, core_metrics se node l = Some (lat, thru)
    /\ holds lat (fun i => load_of node true i l) /\ holds thru (fun i => load_of node false i l).
Proof.
  intros Hp [Hpos Hsum]. unfold core_metrics. destruct clear_metrics_ok as (a & E & Ha). rewrite E. simpl.
  destruct (foldM_inv (add_metric se node) (fun done x =>
    holds x.1 (fun i => load_of node true i done) /\ holds x.2 (fun i => load_of node false i done)) l (a, a))
    as ([lat thru] & E2 & H1 & H2); [done| |by exists lat, thru].
  intros l1 q l2 [lat thru] -> [H1 H2]. simpl in H1, H2.
  apply Forall_app in Hp as [_ [Hq _]%Forall_cons]. pose proof Hpos as [P1 [Pq P2]%Forall_cons]%Forall_app.
  assert (forall lt i, load_of node lt i (l1 ++ [q])
    = load_of node lt i l1 + if on_core node lt i q then nt_metric q else 0) as Ha2.
  { intros lt i. rewrite load_app. simpl. destruct (on_core _ _ _ _); lia. }
  assert (forall lt i, - 2 ^ 31 <= load_of node lt i l1 + nt_metric q < 2 ^ 31) as Hb.
  { intros lt i. pose proof (load_range node lt i l1 P1). pose proof (load_range node lt i l2 P2).
    rewrite foldr_app in Hsum. simpl in Hsum.
    assert (forall n, 0 <= n -> foldr (fun q n => nt_metric q + n) n l1 = foldr (fun q n => nt_metric q + n) 0 l1 + n) as Hf.
    { clear. intros n _. induction l1 as [|x l IH]; simpl; lia. }
    rewrite Hf in Hsum by lia. lia. }
  unfold add_metric. unfold on_core in Ha2.
  destruct (negb (nt_qid q =? 0) && (nt_numa_node q =? node)) eqn:Eon.
  2: { eexists. split; [done|]. simpl. split; (eapply holds_ext; [done|]); intros i Hi; cbv beta; rewrite Ha2; simpl; lia. }
  destruct (nr_cpus se <? nt_idx q) eqn:El.
  - destruct (aadd_ok lat _ (core_of se q) (nt_metric q) H1 (core_range q Hq) (Hb true _)) as (a' & E' & H').
    rewrite E'. simpl. eexists. split; [done|]. simpl. split; (eapply holds_ext; [done|]); intros i Hi; cbv beta; rewrite Ha2; simpl.
    + rewrite (Z.eqb_sym (core_of se q)). destruct (Z.eqb_spec i (core_of se q)) as [->|]; lia.
    + lia.
  - destruct (aadd_ok thru _ (core_of se q) (nt_metric q) H2 (core_range q Hq) (Hb false _)) as (a' & E' & H').
    rewrite E'. simpl. eexists. split; [done|]. simpl. split; (eapply holds_ext; [done|]); intros i Hi; cbv beta; rewrite Ha2; simpl.
    + lia.
    + rewrite (Z.eqb_sym (core_of se q)). destruct (Z.eqb_spec i (core_of se q)) as [->|]; lia.
Qed.

Lemma load_both node i l :
  Forall (fun q => 0 <= nt_metric q) l ->
  0 <= load_of node true i l + load_of node false i l <= foldr (fun q n => nt_metric q + n) 0 l.
Proof.
  induction 1 as [|q l Hq _ IH]; simpl; [lia|]. unfold on_core.
  destruct (negb (nt_qid q =? 0) && (nt_numa_node q =? node)), (nr_cpus se <? nt_idx q), (core_of se q =? i);
    simpl; lia.
Qed.

(** ** The choice *)

(** A latency lane goes to a core that serves latency lanes, when its own core
    serves throughput lanes and the other one has less to do; a throughput lane
    leaves a core that serves latency lanes. *)
Definition lat_good (lat thru : Z -> Z) (local i : Z) : bool :=
  negb (i =? local) && negb (lat i =? 0) && negb (thru local =? 0)
  && (lat i + thru i <? lat local + thru local).
Definition thru_good (lat : Z -> Z) (local i : Z) : bool := negb (i =? local) && negb (lat local =? 0).

(** The queue stays when no core qualifies, or goes to the best one. *)
Definition moves_to (good : Z -> bool) (key : Z -> Z) (node cpu cpu' : Z) : Prop :=
  cpu' = cpu /\ (forall i, 0 <= i < cores se -> good i = true -> 1000000 <= key i)
  \/ exists j, 0 <= j < cores se /\ good j = true /\ cpu' = j * nr_nodes se + node /\ key j < 1000000
       /\ forall i, 0 <= i < cores se -> good i = true -> key j <= key i.

Definition steer_to (lat thru : Z -> Z) (local : Z) q (cpu' : Z) : Prop :=
  if i10_target_is_latency q
  then moves_to (lat_good lat thru local) (fun i => lat i + thru i) (nt_numa_node q) (nt_cpu q) cpu'
  else moves_to (thru_good lat local) lat (nt_numa_node q) (nt_cpu q) cpu'.

Lemma argmin_moves good key node q x :
  0 <= node < nr_nodes se ->
  argmin good key (fun i => s32 (i * nr_nodes se + node)) (seqZ 0 (cores se)) (-1) 1000000 x ->
  moves_to good key node (nt_cpu q) (if 0 <=? x.1 then x.1 else nt_cpu q).
Proof.
  intros Hn [[-> H]|(j & Hj & Hg & -> & Hk & H)]; simpl.
  - left. split; [done|]. intros i Hi. apply H. apply elem_of_seqZ. lia.
  - right. apply elem_of_seqZ in Hj. exists j. destruct (node_cpu j node) as (R1 & R2 & R3); [lia|done|].
    rewrite R3. rewrite (proj2 (Z.leb_le _ _)) by lia. split; [lia|]. split; [done|]. split; [done|]. split; [done|].
    intros i Hi. apply H. apply elem_of_seqZ. lia.
Qed.

Lemma choose_cpu_ok lat thru l local q :
  let node := nt_numa_node q in
  let la i := load_of node true i l in let th i := load_of node false i l in
  holds lat la -> holds thru th -> metrics_ok l -> 0 <= local < cores se -> 0 <= node < nr_nodes se ->
  exists cpu, choose_cpu se lat thru local q = Some cpu /\ steer_to la th local q cpu.
Proof.
  intros node la th [_ Hl] [_ Ht] [Hpos Hsum] Hloc Hn.
  assert (forall i, s32 (la i + th i) = la i + th i) as Hs.
  { intros i. apply s32_small. pose proof (load_both node i l Hpos). unfold la, th. lia. }
  unfold choose_cpu, steer_to. destruct (i10_target_is_latency q).
  - destruct (argmin_fold (lat_good la th local) (fun i => la i + th i) (fun i => s32 (i * nr_nodes se + node))
      (lat_candidate se lat thru local node) (seqZ 0 (cores se)) (-1) 1000000) as (x & E & Hx).
    { intros [t m] i Hi%elem_of_seqZ. unfold lat_candidate, lat_good.
      destruct (i =? local); [done|]. rewrite !Hl, !Ht by lia. simpl. destruct (la i =? 0); [done|]. simpl.
      destruct (th local =? 0); [done|]. simpl. rewrite !Hs.
      destruct (la i + th i <? la local + th local), (la i + th i <? m); done. }
    fold node. rewrite E. destruct x as [t m]. simpl. eexists. split; [done|].
    apply (argmin_moves _ _ node q (t, m) Hn Hx).
  - destruct (argmin_fold (thru_good la local) la (fun i => s32 (i * nr_nodes se + node))
      (thru_candidate se lat local node) (seqZ 0 (cores se)) (-1) 1000000) as (x & E & Hx).
    { intros [t m] i Hi%elem_of_seqZ. unfold thru_candidate, thru_good.
      destruct (i =? local); [done|]. rewrite !Hl by lia. simpl. destruct (la local =? 0); [done|]. simpl.
      by destruct (_ <? _). }
    fold node. rewrite E. destruct x as [t m]. simpl. eexists. split; [done|].
    apply (argmin_moves _ _ node q (t, m) Hn Hx).
Qed.

(** ** The table *)

Definition grid_ok (g : grid) (P : Z -> Z -> Prop) : Prop :=
  length g = NR_NODE_METRIC /\
  forall i, 0 <= i < nr_nodes se -> exists row, aget g i = Some row /\ length row = NR_METRIC
    /\ forall j, P i j -> is_Some (aread row j).

Definition table_ok (t : qo_table) (P : Z -> Z -> Prop) : Prop :=
  grid_ok (lat_qo t) P /\ grid_ok (thru_qo t) P /\ grid_ok (lat_core t) P /\ grid_ok (thru_core t) P.

Definition cell_ok (i j : Z) : Prop := 0 <= i < nr_nodes se /\ 0 <= j < cores se.

Lemma grid_put g P i j x row row' :
  grid_ok g P -> 0 <= i < nr_nodes se -> aget g i = Some row -> aset row j (Some x) = Some row' ->
  exists g', aset g i row' = Some g' /\ grid_ok g' (fun a b => P a b \/ a = i /\ b = j).
Proof.
  intros [Hl Hg] Hi Hrow Er. destruct Hm as [M1 M2 M3].
  assert (aset g i row' = Some (<[Z.to_nat i := row']> g)) as E by (apply aset_lt; lia).
  exists (<[Z.to_nat i := row']> g). split; [done|]. split; [rewrite <- Hl; apply length_insert|]. intros a Ha.
  destruct (Hg a Ha) as (r & Hr & Hlr & Hc). destruct (decide (a = i)) as [->|Hne].
  - assert (r = row) as -> by congruence. exists row'. split; [by apply (aget_aset_eq g i)|].
    split; [by rewrite (aset_length _ _ _ _ Er)|]. intros b Hb. rewrite (aset_read _ _ b _ _ Er).
    destruct (Z.eqb_spec b j); [by eexists|]. apply Hc. naive_solver.
  - exists r. split; [by rewrite (aget_aset_ne g i _ _ _ E)|]. split; [done|]. intros b Hb. apply Hc. naive_solver.
Qed.

Lemma gset0_ok g P i j :
  grid_ok g P -> cell_ok i j -> exists g', gset0 g i j = Some g' /\ grid_ok g' (fun a b => P a b \/ a = i /\ b = j).
Proof.
  intros Hg [Hi Hj]. destruct Hm as [M1 M2 M3]. destruct (proj2 Hg i Hi) as (row & Hr & Hl & _).
  unfold gset0. rewrite Hr. simpl. assert (aset row j (Some 0) = Some (<[Z.to_nat j := Some 0]> row)) as E by (apply aset_lt; lia).
  rewrite E. simpl. by apply (grid_put g P i j 0 row).
Qed.

Lemma gadd_ok g i j z : grid_ok g cell_ok -> cell_ok i j -> exists g', gadd g i j z = Some g' /\ grid_ok g' cell_ok.
Proof.
  intros Hg Hc. pose proof Hc as [Hi Hj]. destruct Hm as [M1 M2 M3]. destruct (proj2 Hg i Hi) as (row & Hr & Hl & Hf).
  destruct (Hf j Hc) as [x Hx]. unfold gadd. rewrite Hr. simpl. unfold aadd. rewrite Hx. simpl.
  assert (aset row j (Some (s32 (x + z))) = Some (<[Z.to_nat j := Some (s32 (x + z))]> row)) as E by (apply aset_lt; lia).
  rewrite E. simpl. destruct (grid_put g cell_ok i j _ row _ Hg Hi Hr E) as (g' & E' & H1 & H2).
  exists g'. split; [done|]. split; [done|]. intros a Ha. destruct (H2 a Ha) as (r & R1 & R2 & R3).
  exists r. split; [done|]. split; [done|]. auto.
Qed.

Lemma clear_cell_ok t P i j :
  table_ok t P -> cell_ok i j ->
  exists t', clear_cell t (i, j) = Some t' /\ table_ok t' (fun a b => P a b \/ a = i /\ b = j).
Proof.
  intros (H1 & H2 & H3 & H4) Hc. unfold clear_cell.
  destruct (gset0_ok _ P i j H1 Hc) as (g1 & -> & K1), (gset0_ok _ P i j H2 Hc) as (g2 & -> & K2).
  destruct (gset0_ok _ P i j H3 Hc) as (g3 & -> & K3), (gset0_ok _ P i j H4 Hc) as (g4 & -> & K4). simpl.
  eexists. split; [done|]. unfold table_ok. by split_and!.
Qed.

Lemma count_cell_ok t q :
  table_ok t cell_ok -> placed q -> exists t', count_cell se t q = Some t' /\ table_ok t' cell_ok.
Proof.
  intros (H1 & H2 & H3 & H4) Hq. assert (cell_ok (nt_numa_node q) (core_of se q)) as Hc.
  { split; [by apply node_range|by apply core_range]. }
  unfold count_cell. destruct (_ <? _).
  - destruct (gadd_ok _ _ _ (nt_metric q) H1 Hc) as (g1 & -> & K1), (gadd_ok _ _ _ 1 H3 Hc) as (g2 & -> & K2).
    simpl. eexists. split; [done|]. unfold table_ok. by split_and!.
  - destruct (gadd_ok _ _ _ (nt_metric q) H2 Hc) as (g1 & -> & K1), (gadd_ok _ _ _ 1 H4 Hc) as (g2 & -> & K2).
    simpl. eexists. split; [done|]. unfold table_ok. by split_and!.
Qed.

Lemma new_grid_ok : grid_ok new_grid (fun _ _ => False).
Proof.
  destruct Hm as [M1 M2 M3]. split; [done|]. intros i Hi. exists (uninit NR_METRIC). split; [|done].
  unfold aget. rewrite (proj2 (Z.ltb_ge _ _)) by lia. apply lookup_replicate_2. lia.
Qed.

Lemma table_ext t (P Q : Z -> Z -> Prop) : table_ok t P -> (forall i j, Q i j -> P i j) -> table_ok t Q.
Proof.
  intros (H1 & H2 & H3 & H4) E.
  assert (forall g, grid_ok g P -> grid_ok g Q) as Hg.
  { intros g [G1 G2]. split; [done|]. intros i Hi. destruct (G2 i Hi) as (r & R1 & R2 & R3). exists r. eauto. }
  unfold table_ok. split_and!; by apply Hg.
Qed.

Lemma print_table_ok l : Forall placed l -> is_Some (print_table se l).
Proof.
  intros Hp. unfold print_table.
  destruct (foldM_inv clear_cell (fun done t => table_ok t (fun i j => (i, j) ∈ done))
    (i ← seqZ 0 (nr_nodes se); j ← seqZ 0 (cores se); [(i, j)]) (mk_table new_grid new_grid new_grid new_grid))
    as (t & E & Ht).
  - pose proof new_grid_ok. apply (table_ext _ (fun _ _ => False)); [unfold table_ok; by split_and!|]. intros i j Hd. by apply elem_of_nil in Hd.
  - intros l1 [i j] l2 t Eq Ht.
    assert ((i, j) ∈ (i ← seqZ 0 (nr_nodes se); j ← seqZ 0 (cores se); [(i, j)])) as Hin by (rewrite Eq; set_solver).
    apply list_elem_of_bind in Hin as (a & Hin & Ha). apply list_elem_of_bind in Hin as (b & Hin & Hb).
    apply list_elem_of_singleton in Hin as [= -> ->]. apply elem_of_seqZ in Ha, Hb.
    destruct (clear_cell_ok t _ a b Ht) as (t' & E & Ht'); [split; lia|]. exists t'. split; [done|].
    apply (table_ext _ _ _ Ht'). intros i j [H|[= -> ->]%list_elem_of_singleton]%elem_of_app; auto.
  - rewrite E. simpl.
    destruct (foldM_inv (count_cell se) (fun _ t => table_ok t cell_ok) l t) as (t' & E' & _).
    + apply (table_ext _ _ _ Ht). intros i j [Hi Hj]. apply list_elem_of_bind. exists i. split; [|apply elem_of_seqZ; lia].
      apply list_elem_of_bind. exists j. split; [set_solver|apply elem_of_seqZ; lia].
    + intros l1 q l2 t1 -> Ht1. apply Forall_app in Hp as [_ [Hq _]%Forall_cons]. by apply count_cell_ok.
    + rewrite E'. by eexists.
Qed.

(** ** Steering *)

Lemma reset_placed q p l : Forall placed l -> Forall placed (reset_metrics se q p l).
Proof.
  intros Hp. unfold reset_metrics. destruct (_ && _); [|done]. apply Forall_fmap. apply (Forall_impl _ _ _ Hp).
  intros x [H1 H2 H3 H4 H5]. simpl. unfold reset_queue. destruct (_ =? 0); [by constructor|].
  constructor; simpl; done || lia.
Qed.

Lemma reset_lookup q p l k x :
  l !! k = Some x ->
  exists y, reset_metrics se q p l !! k = Some y /\ nt_numa_node y = nt_numa_node x /\ nt_qid y = nt_qid x
    /\ nt_prio_class y = nt_prio_class x.
Proof.
  intros Hx. unfold reset_metrics. destruct (_ && _); [|by exists x]. rewrite list_lookup_fmap, Hx. simpl.
  eexists. split; [done|]. unfold reset_queue. by destruct (_ =? 0).
Qed.

Lemma update_placed node l : Forall placed l -> Forall placed (update_metric node <$> l).
Proof.
  intros Hp. apply Forall_fmap. apply (Forall_impl _ _ _ Hp). intros x [H1 H2 H3 H4 H5]. simpl.
  unfold update_metric. destruct (_ && _); [|by constructor]. constructor; simpl; try done.
  unfold metric_sample. destruct (_ <? 10); [done|]. destruct (_ =? 0); apply u32_range.
Qed.

Lemma steer_placed q cpu lat thru local :
  placed q -> steer_to lat thru local q cpu -> placed (q <| nt_cpu := cpu |>).
Proof.
  intros Hq Hs. pose proof (node_range q Hq) as Hn. pose proof Hq as [H1 H2 H3 H4 H5].
  assert (0 <= cpu < nr_cpus se /\ cpu mod nr_nodes se = nt_numa_node q) as [R1 R2]; [|by constructor].
  unfold steer_to in Hs. destruct (i10_target_is_latency q), Hs as [[-> _]|(j & Hj & _ & -> & _)]; try done.
  all: by destruct (node_cpu j (nt_numa_node q) Hj Hn) as (A & B & _).
Qed.

Lemma work_placed q : placed q -> placed (queue_nvmet_work q).
Proof. intros []. unfold queue_nvmet_work. destruct (i10_target_is_latency q); by constructor. Qed.

(** C14: Target steering.  When data arrives for queue [k], on a machine of at most 4
    NUMA nodes with the same number of cores each, at most 6 (the arrays of the driver;
    more cores are written beyond their end, [steering_overflow]), and while the metrics
    of all lanes sum up to less than 2^31, the driver samples the receive buffers of the
    lanes of the node and moves the queue.  Its own core is the one it is on before a
    reset of the metrics.  A latency lane whose own core carries throughput load goes,
    of the other cores that carry latency load and less load in all than its own, to the
    one with the least; a throughput lane whose own core carries latency load goes, of
    the other cores, to the one with the least latency load, whatever that is.  A core
    with a load of 1000000 or more is never chosen, and when no core qualifies the queue
    stays.  The work is queued on the chosen core, and every queue stays on its NUMA
    node. *)
Theorem target_steering_choice k l p q :
  Forall placed l -> l !! k = Some q ->
  let node := nt_numa_node q in
  let l2 := update_metric node <$> reset_metrics se q p l in
  foldr (fun x n => nt_metric x + n) 0 l2 < 2 ^ 31 ->
  exists p' q2 cpu,
    l2 !! k = Some q2
    /\ steer_to (fun i => load_of node true i l2) (fun i => load_of node false i l2) (core_of se q) q2 cpu
    /\ steer pm se k l p = Some (<[k := queue_nvmet_work (q2 <| nt_cpu := cpu |>)]> l2, p')
    /\ Forall placed (<[k := queue_nvmet_work (q2 <| nt_cpu := cpu |>)]> l2).
Proof.
  intros Hp Hq node l2 Hsum. unfold steer. rewrite Hq. cbn [mbind option_bind].
  destruct (reset_lookup q p l k q Hq) as (q1 & E1 & N1 & N2 & N3). rewrite E1. cbn [mbind option_bind].
  pose proof (reset_placed q p l Hp) as Hp1. rewrite N1. fold node.
  assert (forall p0, exists p', (if print_due pm se q1 p0
    then _ ← print_table se (reset_metrics se q p l);
         Some (p0 <| print_time := u64 (jiffies se + msecs_50 se) |>) else Some p0) = Some p') as Hprint.
  { intros p0. destruct (print_due _ _ _ _); [|by eexists].
    destruct (print_table_ok _ Hp1) as [t ->]. by eexists. }
  match goal with |- context [print_due pm se q1 ?p0] => destruct (Hprint p0) as [p' ->] end. cbn [mbind option_bind].
  fold l2. pose proof (update_placed node _ Hp1) as Hp2. fold l2 in Hp2.
  assert (metrics_ok l2) as Hmt by (split; [apply (Forall_impl _ _ _ Hp2); by intros x []|done]).
  destruct (core_metrics_ok node l2 Hp2 Hmt) as (lat & thru & -> & Hl & Ht). cbn [mbind option_bind].
  assert (exists q2, l2 !! k = Some q2 /\ nt_numa_node q2 = node) as (q2 & E2 & N4).
  { unfold l2. rewrite list_lookup_fmap, E1. simpl. eexists. split; [done|]. unfold update_metric. by destruct (_ && _). }
  rewrite E2. cbn [mbind option_bind]. pose proof (Forall_lookup_1 _ _ _ _ Hp2 E2) as Hpq2.
  pose proof (Forall_lookup_1 _ _ _ _ Hp Hq) as Hpq.
  destruct (choose_cpu_ok lat thru l2 (core_of se q) q2) as (cpu & -> & Hto);
    [by rewrite N4|by rewrite N4|done|by apply core_range|by apply node_range|].
  rewrite N4 in Hto. cbn [mbind option_bind]. exists p', q2, cpu. split; [done|]. split; [done|]. split; [done|].
  apply Forall_insert; [done|]. apply work_placed. by apply (steer_placed q2 cpu _ _ _ Hpq2 Hto).
Qed.
End steer.

(** More cores than the arrays have entries are written beyond their end. *)
Lemma steering_overflow pm se k l p :
  Z.of_nat NR_METRIC < cores se -> steer pm se k l p = None.
Proof.
  intros Hc. unfold NR_METRIC in Hc. unfold steer. destruct (l !! k) as [q|]; [|done]. cbn [mbind option_bind].
  destruct (reset_metrics se q p l !! k) as [q1|]; [|done]. cbn [mbind option_bind].
  assert (clear_metrics se = None) as Hn.
  { unfold clear_metrics. replace (cores se) with (6 + (cores se - 6)) by lia.
    rewrite seqZ_app by lia. rewrite foldM_app. simpl. rewrite seqZ_cons by (simpl in Hc; lia). done. }
  match goal with |- context [if ?b then _ else Some ?x] => destruct (if b then _ else Some x) as [p'|]; [|done] end.
  cbn [mbind option_bind]. unfold core_metrics. by rewrite Hn.
Qed.

(** ** NVMe/TCP target: lanes and cores

    The first controller that connects to a target gets one throughput lane and
    one latency lane per core, of the classes its host gave to them, and all of
    them where target steering expects them. *)

(** [cpumask_next_wrap(n, cpu_online_mask, -1, false)] with all CPUs online. *)
Class TgtCpuLaws (te : TgtEnv) : Prop := {
  cpus_pos : 0 < num_online_cpus;
  nodes_pos : 0 < num_online_nodes;
  next_wrap_spec : forall n, -1 <= n < num_online_cpus ->
    cpumask_next_wrap n = if n + 1 <? num_online_cpus then n + 1 else 0;
}.

Section place.
Context {te : TgtEnv} {tl : TgtCpuLaws te}.
Notation n := num_online_cpus.

(** The queues are placed one after the other. *)
Fixpoint place_all (p : tgt_port) (l : list nvmet_tcp_queue) : list nvmet_tcp_queue :=
  match l with
  | [] => []
  | q :: l => let '(p, q) := place_queue p q in q :: place_all p l
  end.

(** The core and the class of the queue with number [i]. *)
Definition lane_cpu (i : Z) : Z := if i <=? n then Z.max 0 (i - 1) else i mod n.
Definition lane_class (i : Z) : Z := if n <? i then 1 else 0.

(** [last_cpu] before the queue with number [i] is placed. *)
Definition last_before (i : Z) : Z :=
  if i =? 0 then -1 else if i =? 1 then 0 else (i - 2) mod n.

Lemma mod_succ a : 0 <= a -> (a + 1) mod n = if a mod n + 1 <? n then a mod n + 1 else 0.
Proof.
  pose proof cpus_pos as Hn. intros Ha. rewrite <- Z.add_mod_idemp_l by lia.
  pose proof (Z.mod_pos_bound a n Hn). destruct (Z.ltb_spec (a mod n + 1) n).
  - apply Z.mod_small. lia.
  - replace (a mod n + 1) with n by lia. apply Z.mod_same. lia.
Qed.

Lemma place_queue_ok p q :
  0 <= nt_idx q -> pt_last_cpu p = last_before (nt_idx q) ->
  let '(p', q') := place_queue p q in
  pt_last_cpu p' = last_before (nt_idx q + 1) /\ nt_cpu q' = lane_cpu (nt_idx q)
  /\ nt_orig_cpu q' = lane_cpu (nt_idx q) /\ nt_numa_node q' = lane_cpu (nt_idx q) mod num_online_nodes
  /\ nt_prio_class q' = lane_class (nt_idx q) /\ nt_metric q' = 0 /\ nt_idx q' = nt_idx q.
Proof.
  pose proof cpus_pos as Hn. intros Hi Hp. unfold place_queue, lane_class. set (i := nt_idx q) in *.
  assert (pt_last_cpu (if i =? 1 then p else p <| pt_last_cpu ::= cpumask_next_wrap |>) = last_before (i + 1)) as E.
  { unfold last_before in *. destruct (Z.eqb_spec i 1) as [E1|E1].
    - rewrite E1 in *. rewrite Hp. simpl. by rewrite Z.mod_0_l by lia.
    - simpl. rewrite Hp. destruct (Z.eqb_spec i 0) as [E0|E0].
      + rewrite E0. rewrite next_wrap_spec by lia. simpl. rewrite (proj2 (Z.ltb_lt _ _)) by lia. done.
      + rewrite (proj2 (Z.eqb_neq (i + 1) 0)), (proj2 (Z.eqb_neq (i + 1) 1)) by lia.
        pose proof (Z.mod_pos_bound (i - 2) n Hn). rewrite next_wrap_spec by lia.
        rewrite <- mod_succ by lia. f_equal. lia. }
  assert (i = 0 /\ last_before (i + 1) = 0 \/ 1 <= i /\ last_before (i + 1) = (i - 1) mod n) as Hl.
  { unfold last_before. rewrite (proj2 (Z.eqb_neq (i + 1) 0)) by lia.
    destruct (Z.eqb_spec (i + 1) 1); [left; split; [lia|done]|right]. split; [lia|]. f_equal. lia. }
  assert (0 <= last_before (i + 1) < n) as Hr.
  { destruct Hl as [[_ ->]|[_ ->]]; [lia|]. apply Z.mod_pos_bound. lia. }
  assert ((if n <=? (if n <? i then last_before (i + 1) + 1 else last_before (i + 1)) then 0
           else if n <? i then last_before (i + 1) + 1 else last_before (i + 1)) = lane_cpu i) as Ec.
  { unfold lane_cpu. destruct (Z.ltb_spec n i) as [H|H], (Z.leb_spec i n) as [H'|H']; try lia.
    - destruct Hl as [[? _]|[_ El]]; [lia|]. replace i with (i - 1 + 1) at 3 by lia. rewrite mod_succ by lia. rewrite <- El.
      destruct (Z.leb_spec n (last_before (i + 1) + 1)), (Z.ltb_spec (last_before (i + 1) + 1) n); lia.
    - rewrite (proj2 (Z.leb_gt _ _)) by lia. destruct Hl as [[-> ->]|[H1 ->]]; [done|]. rewrite Z.mod_small by lia. lia. }
  set (p' := if i =? 1 then p else _) in *. change (nt_idx (q <| nt_cpu := pt_last_cpu p' |>)) with i.
  rewrite E. destruct (n <? i); cbv zeta iota beta.
  - match goal with |- context [n <=? ?x] => change x with (Z.succ (last_before (i + 1))) end. unfold Z.succ.
    destruct (n <=? last_before (i + 1) + 1); simpl; unfold Z.succ; rewrite <- ?Ec; done.
  - match goal with |- context [n <=? ?x] => change x with (last_before (i + 1)) end.
    destruct (n <=? last_before (i + 1)); simpl; rewrite <- ?Ec; done.
Qed.

Lemma place_all_ok l : forall p i0,
  0 <= i0 -> (forall i q, l !! i = Some q -> nt_idx q = i0 + Z.of_nat i) -> pt_last_cpu p = last_before i0 ->
  forall i q', place_all p l !! i = Some q' ->
    let k := i0 + Z.of_nat i in
    nt_idx q' = k /\ nt_cpu q' = lane_cpu k /\ nt_orig_cpu q' = lane_cpu k
    /\ nt_numa_node q' = lane_cpu k mod num_online_nodes /\ nt_prio_class q' = lane_class k /\ nt_metric q' = 0.
Proof.
  induction l as [|q l IH]; intros p i0 H0 Hidx Hp i q' Hq; [done|].
  assert (nt_idx q = i0) as Hi by (rewrite (Hidx 0%nat q eq_refl); lia).
  cbn [place_all] in Hq. pose proof (place_queue_ok p q) as Hpl. rewrite Hi in Hpl. specialize (Hpl H0 Hp).
  destruct (place_queue p q) as [p1 q1]. destruct Hpl as (P1 & P2 & P3 & P4 & P5 & P6 & P7).
  destruct i as [|i]; simpl in Hq.
  - injection Hq as <-. cbv zeta. replace (i0 + Z.of_nat 0) with i0 by lia. split_and!; done || congruence.
  - destruct (IH p1 (i0 + 1)) with (i := i) (q' := q') as (Q1 & Q2 & Q3 & Q4 & Q5 & Q6); try done; [lia| |].
    + intros j x Hx. rewrite (Hidx (S j) x Hx). lia.
    + replace (i0 + Z.of_nat (S i)) with (i0 + 1 + Z.of_nat i) by lia. done.
Qed.

Lemma lane_cpu_range i : 0 <= i -> 0 <= lane_cpu i < n.
Proof.
  pose proof cpus_pos as Hn. intros Hi. unfold lane_cpu. destruct (Z.leb_spec i n); [lia|]. apply Z.mod_pos_bound. lia.
Qed.

(** The throughput lane of core [c] and its latency lane. *)
Lemma thru_lane i c : 1 <= i <= n -> lane_cpu i = c <-> i = c + 1.
Proof. intros Hi. unfold lane_cpu. rewrite (proj2 (Z.leb_le _ _)) by lia. lia. Qed.

Lemma lat_lane i c : n < i <= 2 * n -> 0 <= c < n -> lane_cpu i = c <-> i = if c =? 0 then 2 * n else n + c.
Proof.
  pose proof cpus_pos as Hn. intros Hi Hc. unfold lane_cpu. rewrite (proj2 (Z.leb_gt _ _)) by lia.
  assert (i mod n = if i =? 2 * n then 0 else i - n) as ->.
  { destruct (Z.eqb_spec i (2 * n)) as [->|Hne]; [apply Z.mod_mul; lia|].
    symmetry. apply (Z.mod_unique i n 1); lia. }
  destruct (Z.eqb_spec i (2 * n)), (Z.eqb_spec c 0); lia.
Qed.

(** C15: The lanes of the first controller.  A target with n online CPUs accepts the
    queues 0 (admin), 1, 2, ... of a host one after the other in this order, none of
    another controller before or between them (their numbers are counted over all
    controllers).  Then every queue is on the NUMA node it is recorded for, as target
    steering requires; queue [i] has the class that a host with n online CPUs, too, gives
    to it; and of the queues up to 2n core [c] gets as throughput lane exactly the I/O
    queue c+1, and as latency lane exactly the queue n+c (2n for core 0). *)
Theorem target_lane_placement p l se :
  pt_last_cpu p = -1 -> (forall i q, l !! i = Some q -> nt_idx q = Z.of_nat i) ->
  nr_cpus se = n -> nr_nodes se = num_online_nodes ->
  Forall (placed se) (place_all p l)
  /\ (forall i q, place_all p l !! i = Some q -> nt_prio_class q = queue_class n (Z.of_nat i))
  /\ forall c, 0 <= c < n ->
       (forall i q, 1 <= Z.of_nat i <= 2 * n -> place_all p l !! i = Some q ->
          nt_cpu q = c /\ nt_prio_class q = 0 <-> Z.of_nat i = c + 1)
       /\ (forall i q, Z.of_nat i <= 2 * n -> place_all p l !! i = Some q ->
          nt_cpu q = c /\ nt_prio_class q = 1 <-> Z.of_nat i = if c =? 0 then 2 * n else n + c).
Proof.
  pose proof cpus_pos as Hn. pose proof nodes_pos as Hnn. intros Hp Hidx Ec En.
  assert (forall i q', place_all p l !! i = Some q' -> let k := Z.of_nat i in
    nt_idx q' = k /\ nt_cpu q' = lane_cpu k /\ nt_orig_cpu q' = lane_cpu k
    /\ nt_numa_node q' = lane_cpu k mod num_online_nodes /\ nt_prio_class q' = lane_class k /\ nt_metric q' = 0) as Hall.
  { intros i q'. apply (place_all_ok l p 0 ltac:(lia) Hidx Hp). }
  split; [|split].
  - apply Forall_lookup. intros i q Hq. destruct (Hall i q Hq) as (Q1 & Q2 & Q3 & Q4 & Q5 & Q6).
    pose proof (lane_cpu_range (Z.of_nat i) ltac:(lia)). constructor; rewrite ?Q2, ?Q3, ?Q4, ?Q6, ?Ec, ?En; done || lia.
  - intros i q Hq. destruct (Hall i q Hq) as (_ & _ & _ & _ & -> & _). unfold lane_class, queue_class.
    destruct (Z.ltb_spec n (Z.of_nat i)), (Z.leb_spec (Z.of_nat i) n); done || lia.
  - intros c Hc. split; intros i q.
    + intros Hi Hq. destruct (Hall i q Hq) as (_ & -> & _ & _ & -> & _). unfold lane_class.
      destruct (Z.ltb_spec n (Z.of_nat i)); [lia|]. rewrite thru_lane by lia. cbv iota. tauto.
    + intros Hi Hq. destruct (Hall i q Hq) as (_ & -> & _ & _ & -> & _). unfold lane_class.
      destruct (Z.ltb_spec n (Z.of_nat i)); [rewrite lat_lane by lia; tauto|]. destruct (Z.eqb_spec c 0); lia.
Qed.
End place.
