(* ===== verification/NvmetTcpQueueSpec.v ===== *)
(** * NVMe/TCP target: connections are accepted completely or not at all

    When [nvmet_tcp_alloc_queue] fails at any point, memory, numbers and the list
    of queues are what they were; when it succeeds the queue owns exactly what
    was allocated for it.  Releasing it gives everything back, but tcp.c, unlike
    i10.c, keeps the arrays of the caravan. *)
From S2P Require Import Prelude NvmeTcp NvmeTcpSend NvmeTcpRecv NvmeTcpWork.
From S2P Require Import NvmetTcp NvmetTcpSend NvmetTcpRecv NvmetTcpWork NvmetTcpQueue.

(** What the calls outside the driver do to a queue that has nothing to do. *)
Class TgtIdleLaws (te : TgtEnv) : Prop := {
  ida_unused : forall n l, ida_simple_get n l < 0 \/ ida_simple_get n l ∉ l;
  flush_idle : forall q, nt_rx q = [] -> nt_core q = [] -> nt_resp_list q = [] ->
    flush_io_works q = q <| nt_io_work := None |> <| nt_io_work_lat := None |>;
  destroy_idle : forall q, nt_core q = [] -> nvmet_sq_destroy q = q <| nt_ctrl := None |>;
}.

Section queue.
Context {pr : NvmeTcpProto} {pt : NvmetProto} {ne : NvmetEnv} {ly : PduLayout} {cl : CmdLayout}
  {te : TgtEnv} {ti : TgtIdleLaws te}.
Implicit Types (q : nvmet_tcp_queue) (g : target).

(** ** Memory *)

Definition below (n : nat) (l : list nat) : Prop := forall m, m ∈ l -> (m < n)%nat.

Lemma below_nil n : below n [].
Proof. intros m Hm. by apply elem_of_nil in Hm. Qed.

Lemma below_cons n m l : (m < n)%nat -> below m l -> below n (m :: l).
Proof. intros Hm Hl k [->|Hk]%elem_of_cons; [done|]. specialize (Hl k Hk). lia. Qed.

Lemma below_S n l : below n l -> below (S n) l.
Proof. intros Hl k Hk. specialize (Hl k Hk). lia. Qed.

(** Freeing what was allocated last. *)
Lemma free_top n l q : nt_live q = n :: l -> below n l -> obj_free (Some n) q = Some (q <| nt_live := l |>).
Proof.
  intros E Hl. unfold obj_free. rewrite bool_decide_true by (rewrite E; set_solver).
  assert (filter (fun m => m <> n) (nt_live q) = l) as Ef.
  { rewrite E, filter_cons_False by auto. apply list_filter_all. intros m Hm. specialize (Hl m Hm). lia. }
  transitivity (Some (q <| nt_live := filter (fun m => m <> n) (nt_live q) |>)); [done|]. by rewrite Ef.
Qed.

Lemma put_top n l q : nt_live q = n :: l -> below n l -> obj_put (Some n) q = Some (q <| nt_live := l |>).
Proof. apply free_top. Qed.

(** ** The command for connecting *)

Definition hfixed q : nvmet_tcp_queue :=
  q <| nt_live := [] |> <| nt_allocs := 0%nat |> <| nt_cmds := ∅ |> <| nt_free_list := [] |>.

(** The command [cmd] with the PDUs that were allocated from [a] on. *)
Definition with_pdus cmd (a : nat) : nvmet_tcp_cmd :=
  cmd <| nc_cmd_buf := Some a |> <| nc_rsp_buf := Some (S a) |> <| nc_data_buf := Some (S (S a)) |>
      <| nc_r2t_buf := Some (S (S (S a))) |>.

Lemma alloc_cmd_ok c q cmd :
  below (nt_allocs q) (nt_live q) -> nt_cmds q !! c = Some cmd ->
  let a := nt_allocs q in
  exists ret q', nvmet_tcp_alloc_cmd c q = Some (ret, q') /\ hfixed q' = hfixed q
    /\ (ret <> 0 -> nt_live q' = nt_live q)
    /\ (ret = 0 -> nt_live q' = [S (S (S a)); S (S a); S a; a] ++ nt_live q
        /\ nt_cmds q' = <[c := with_pdus cmd a]> (nt_cmds q) /\ nt_free_list q' = nt_free_list q ++ [c]
        /\ nt_allocs q' = S (S (S (S a)))).
Proof.
  intros Hb Hc a. unfold nvmet_tcp_alloc_cmd, kmalloc. rewrite Hc. cbn [mbind option_bind].
  assert (below a (nt_live q)) as B0 by exact Hb.
  assert (below (S a) (a :: nt_live q)) as B1 by (apply below_cons; [lia|done]).
  assert (below (S (S a)) (S a :: a :: nt_live q)) as B2 by (apply below_cons; [lia|done]).
  fold a. destruct (kmalloc_ok a); [|by do 2 eexists]. cbn [nt_allocs]. simpl nt_allocs.
  fold a. destruct (kmalloc_ok (S a)).
  2: { rewrite (put_top a (nt_live q)) by done. by do 2 eexists. }
  simpl nt_allocs. fold a. destruct (kmalloc_ok (S (S a))).
  2: { rewrite (put_top (S a) (a :: nt_live q)) by done. cbn [mbind option_bind].
       rewrite (put_top a (nt_live q)) by done. by do 2 eexists. }
  simpl nt_allocs. fold a. destruct (kmalloc_ok (S (S (S a)))).
  2: { rewrite (put_top (S (S a)) (S a :: a :: nt_live q)) by done. cbn [mbind option_bind].
       rewrite (put_top (S a) (a :: nt_live q)) by done. cbn [mbind option_bind].
       rewrite (put_top a (nt_live q)) by done. by do 2 eexists. }
  do 2 eexists. by split.
Qed.

Lemma free_cmd_ok c q cmd a l :
  nt_cmds q !! c = Some (with_pdus cmd a) -> nt_live q = [S (S (S a)); S (S a); S a; a] ++ l -> below a l ->
  nvmet_tcp_free_cmd c q = Some (q <| nt_live := l |>).
Proof.
  intros Hc El Hb. unfold nvmet_tcp_free_cmd. rewrite Hc. cbn [mbind option_bind]. simpl in El.
  assert (below (S a) (a :: l)) as B1 by (apply below_cons; [lia|done]).
  assert (below (S (S a)) (S a :: a :: l)) as B2 by (apply below_cons; [lia|done]).
  assert (below (S (S (S a))) (S (S a) :: S a :: a :: l)) as B3 by (apply below_cons; [lia|done]).
  rewrite (put_top (S (S (S a))) (S (S a) :: S a :: a :: l)) by done. cbn [mbind option_bind].
  rewrite (put_top (S (S a)) (S a :: a :: l)) by done. cbn [mbind option_bind].
  rewrite (put_top (S a) (a :: l)) by done. cbn [mbind option_bind].
  by rewrite (put_top a l).
Qed.

(** ** Queues *)

(** A queue whose structure and arrays were allocated from [a] on. *)
Record framed q (a : nat) : Prop := {
  fr_self : nt_self q = a;
  fr_iovs : nt_iovs_buf q = Some (S a);
  fr_cmds : nt_ccmds_buf q = Some (S (S a));
  fr_mapped : nt_mapped_buf q = Some (S (S (S a)));
}.
Definition frame_objs (a : nat) : list nat := [S (S (S a)); S (S a); S a; a].

Lemma framed_view q q' a : hfixed q' = hfixed q -> framed q a -> framed q' a.
Proof.
  intros H [F1 F2 F3 F4]. constructor.
  - rewrite <- F1. exact (f_equal nt_self H).
  - rewrite <- F2. exact (f_equal nt_iovs_buf H).
  - rewrite <- F3. exact (f_equal nt_ccmds_buf H).
  - rewrite <- F4. exact (f_equal nt_mapped_buf H).
Qed.

Lemma out_free_mapped_ok q a l :
  framed q a -> nt_live q = frame_objs a ++ l -> below a l -> out_free_mapped q = Some (q <| nt_live := l |>).
Proof.
  intros [F1 F2 F3 F4] El Hb. simpl in El.
  assert (below (S a) (a :: l)) as B1 by (apply below_cons; [lia|done]).
  assert (below (S (S a)) (S a :: a :: l)) as B2 by (apply below_cons; [lia|done]).
  assert (below (S (S (S a))) (S (S a) :: S a :: a :: l)) as B3 by (apply below_cons; [lia|done]).
  unfold out_free_mapped, out_free_cmds, out_free_iovs, out_free_queue. rewrite F4.
  rewrite (free_top (S (S (S a))) (S (S a) :: S a :: a :: l)) by done. cbn [mbind option_bind].
  change (nt_ccmds_buf (q <| nt_live := _ |>)) with (nt_ccmds_buf q). rewrite F3.
  rewrite (free_top (S (S a)) (S a :: a :: l)) by done. cbn [mbind option_bind].
  change (nt_iovs_buf (q <| nt_live := _ |> <| nt_live := _ |>)) with (nt_iovs_buf q). rewrite F2.
  rewrite (free_top (S a) (a :: l)) by done. cbn [mbind option_bind].
  change (nt_self (q <| nt_live := _ |> <| nt_live := _ |> <| nt_live := _ |>)) with (nt_self q). rewrite F1.
  by rewrite (free_top a l).
Qed.

(** The calls on the socket. *)
Lemma set_queue_sock_ok q g :
  exists ret q' g' n, nvmet_tcp_set_queue_sock q g = (ret, q', g') /\ g' = g <| tg_calls := n |>
    /\ (ret = 0 -> q' = q <| nt_user_data := true |> <| nt_callbacks := true |>) /\ (ret <> 0 -> q' = q).
Proof.
  set (k := tg_calls g).
  unfold nvmet_tcp_set_queue_sock, tcall. simpl tg_calls. fold k.
  destruct (tgt_ret k <? 0) eqn:E1.
  { exists (tgt_ret k), q, (g <| tg_calls := S k |>), (S k). split_and!; try done. intros H. by rewrite H in E1. }
  destruct (tgt_ret (S k) <? 0) eqn:E2.
  { exists (tgt_ret (S k)), q, (g <| tg_calls := S (S k) |>), (S (S k)). split_and!; try done. intros H. by rewrite H in E2. }
  destruct (c_true (tgt_ret (S (S k)))) eqn:E3.
  { apply c_true_spec in E3. by exists (tgt_ret (S (S k))), q, (g <| tg_calls := S (S (S k)) |>), (S (S (S k))). }
  destruct (0 <? rcv_tos).
  - destruct (c_true (tgt_ret (S (S (S k))))) eqn:E4; simpl.
    { apply c_true_spec in E4.
      by exists (tgt_ret (S (S (S k)))), q, (g <| tg_calls := S (S (S (S k))) |>), (S (S (S (S k)))). }
    by exists 0, (q <| nt_user_data := true |> <| nt_callbacks := true |>),
      (g <| tg_calls := S (S (S (S k))) |>), (S (S (S (S k)))).
  - by exists 0, (q <| nt_user_data := true |> <| nt_callbacks := true |>),
      (g <| tg_calls := S (S (S k)) |>), (S (S (S k))).
Qed.

(** What a failed attempt leaves. *)
Record alloc_failed g ret (o : option nvmet_tcp_queue) g' : Prop := {
  af_ret : ret <> 0;
  af_none : o = None;
  af_live : tg_live g' = tg_live g;
  af_ida : tg_ida g' = tg_ida g;
  af_queues : tg_queues g' = tg_queues g;
}.

(** What a new connection owns: the structure and the arrays of the caravan, and
    the PDUs of the command for connecting. *)
Record alloc_done (s a : nat) g ret (o : option nvmet_tcp_queue) g' : Prop := {
  ad_ret : ret = 0;
  ad_queue : exists q, o = Some q /\ tg_queues g' = tg_queues g ++ [q] /\ tg_ida g' = nt_idx q :: tg_ida g
    /\ nt_idx q ∉ tg_ida g /\ framed q a /\ nt_sock q = Some s
    /\ nt_cmds q = {[connect_id := with_pdus zero_cmd (S (S (S (S a))))]} /\ nt_nr_cmds q = 0
    /\ nt_cmds_buf q = None /\ nt_free_list q = [connect_id] /\ nt_state q = NVMET_TCP_Q_CONNECTING
    /\ nt_rcv_state q = NVMET_TCP_RECV_PDU /\ nt_left q = sizeof_tcp_hdr
    /\ nt_rx q = [] /\ nt_core q = [] /\ nt_resp_list q = []
    /\ nt_hdr_digest q = false /\ nt_data_digest q = false /\ nt_user_data q = true
    /\ (if i10_target_is_latency q then nt_io_work_lat q else nt_io_work q) = Some (nt_cpu q);
  ad_live : tg_live g' = frame_objs (S (S (S (S a)))) ++ frame_objs a ++ tg_live g;
}.

(** The queue before its number is assigned. *)
Record arrayed_queue (s a : nat) g q : Prop := {
  nq_framed : framed q a;
  nq_live : nt_live q = frame_objs a ++ tg_live g;
  nq_allocs : nt_allocs q = S (S (S (S a)));
  nq_sock : nt_sock q = Some s;
  nq_cmds : nt_cmds q = {[connect_id := zero_cmd]} /\ nt_nr_cmds q = 0 /\ nt_cmds_buf q = None /\ nt_free_list q = [];
  nq_state : nt_state q = NVMET_TCP_Q_CONNECTING;
  nq_idle : nt_rx q = [] /\ nt_core q = [] /\ nt_resp_list q = [] /\ nt_io_work q = None /\ nt_io_work_lat q = None;
  nq_digest : nt_hdr_digest q = false /\ nt_data_digest q = false;
}.

Lemma ida_remove idx l : idx ∉ l -> filter (fun i : Z => i <> idx) (idx :: l) = l.
Proof. intros H. rewrite filter_cons_False by auto. apply list_filter_all. intros x Hx ->. done. Qed.

(** A queue with its command, undone. *)
Lemma undo_ok q a l :
  framed q a -> nt_live q = frame_objs (S (S (S (S a)))) ++ frame_objs a ++ l ->
  nt_cmds q !! connect_id = Some (with_pdus zero_cmd (S (S (S (S a))))) -> below a l ->
  exists q', (q ← nvmet_tcp_free_cmd connect_id q; out_free_mapped q) = Some q' /\ nt_live q' = l.
Proof.
  intros Hf El Hc Hb. rewrite (free_cmd_ok connect_id q zero_cmd (S (S (S (S a)))) (frame_objs a ++ l)); [|done|done|].
  - cbn [mbind option_bind]. rewrite (out_free_mapped_ok _ a l); [by eexists|by destruct Hf|done|done].
  - do 4 (apply below_cons; [lia|]). done.
Qed.

Definition pfixed q : nvmet_tcp_queue :=
  q <| nt_cpu := 0 |> <| nt_orig_cpu := 0 |> <| nt_numa_node := 0 |> <| nt_metric := 0 |> <| nt_prio_class := 0 |>.

Lemma place_fixed p q : pfixed (place p q).2 = pfixed q.
Proof.
  unfold place. destruct tgt_driver; [|done]. unfold place_queue. simpl. destruct (num_online_cpus <? nt_idx q).
  - by destruct (num_online_cpus <=? _).
  - by destruct (num_online_cpus <=? _).
Qed.

(** A queue with its number and its command. *)
Record cmd_queue (s a : nat) (l : list nat) (idx : Z) q : Prop := {
  cq_framed : framed q a;
  cq_live : nt_live q = frame_objs (S (S (S (S a)))) ++ frame_objs a ++ l;
  cq_sock : nt_sock q = Some s;
  cq_idx : nt_idx q = idx;
  cq_cmds : nt_cmds q = {[connect_id := with_pdus zero_cmd (S (S (S (S a))))]} /\ nt_nr_cmds q = 0
    /\ nt_cmds_buf q = None /\ nt_free_list q = [connect_id];
  cq_state : nt_state q = NVMET_TCP_Q_CONNECTING;
  cq_idle : nt_rx q = [] /\ nt_core q = [] /\ nt_resp_list q = [] /\ nt_io_work q = None /\ nt_io_work_lat q = None;
  cq_digest : nt_hdr_digest q = false /\ nt_data_digest q = false;
}.

Lemma place_cmd_queue s a l idx p q :
  cmd_queue s a l idx q -> cmd_queue s a l idx (nvmet_prepare_receive_pdu (place p q).2).
Proof.
  pose proof (place_fixed p q) as H. destruct (place p q) as [p2 q2]. cbn [snd] in *.
  assert (forall {A} (f : nvmet_tcp_queue -> A) x, f (pfixed q) = x -> f (pfixed q2) = x) as T by (intros; by rewrite H).
  intros [[F1 F2 F3 F4] C2 C3 C4 (C5 & C6 & C7 & C8) C9 (I1 & I2 & I3 & I4 & I5) [D1 D2]].
  constructor; [constructor| | | |split_and!| |split_and!|split].
  - exact (T _ nt_self _ F1).
  - exact (T _ nt_iovs_buf _ F2).
  - exact (T _ nt_ccmds_buf _ F3).
  - exact (T _ nt_mapped_buf _ F4).
  - exact (T _ nt_live _ C2).
  - exact (T _ nt_sock _ C3).
  - exact (T _ nt_idx _ C4).
  - exact (T _ nt_cmds _ C5).
  - exact (T _ nt_nr_cmds _ C6).
  - exact (T _ nt_cmds_buf _ C7).
  - exact (T _ nt_free_list _ C8).
  - exact (T _ nt_state _ C9).
  - exact (T _ nt_rx _ I1).
  - exact (T _ nt_core _ I2).
  - exact (T _ nt_resp_list _ I3).
  - exact (T _ nt_io_work _ I4).
  - exact (T _ nt_io_work_lat _ I5).
  - exact (T _ nt_hdr_digest _ D1).
  - exact (T _ nt_data_digest _ D2).
Qed.

(** The last steps: the callbacks of the socket and the first run of the work. *)
Lemma alloc_last_ok s a l idx p q g g1 :
  cmd_queue s a l idx q -> nt_rcv_state q = NVMET_TCP_RECV_PDU -> nt_left q = sizeof_tcp_hdr ->
  below a l -> tg_live g = l -> tg_ida g1 = idx :: tg_ida g -> tg_queues g1 = tg_queues g -> idx ∉ tg_ida g ->
  exists ret o p' g',
    start_queue idx p q g1 = Some (ret, o, p', g')
    /\ (alloc_failed g ret o g' \/ alloc_done s a g ret o g').
Proof.
  intros [C1 C2 C3 C4 (C5 & C6 & C7 & C8) C9 (I1 & I2 & I3 & I4 & I5) [D1 D2]] Hrs Hleft Hb Hl Hida Hqs Hidx.
  unfold start_queue. destruct (set_queue_sock_ok q g1) as (ret & q3 & g3 & n3 & -> & -> & Hok & Hko). cbv beta iota zeta.
  destruct (c_true ret) eqn:Er.
  - apply c_true_spec in Er. rewrite (Hko Er), destroy_idle by done.
    destruct (undo_ok (q <| nt_ctrl := None |>) a l) as (q2 & E2 & E3);
      [by destruct C1|done|change (nt_cmds (q <| nt_ctrl := None |>)) with (nt_cmds q); by rewrite C5, lookup_singleton_eq|done|].
    apply bind_Some in E2 as (q' & E2 & E2'). rewrite E2. cbn [mbind option_bind]. rewrite E2'. cbn [mbind option_bind].
    do 4 eexists. split; [done|]. left. constructor; try done; simpl; [congruence|]. rewrite Hida. by apply ida_remove.
  - apply c_true_false in Er. rewrite (Hok Er). do 4 eexists. split; [done|]. right.
    unfold queue_nvmet_work. set (q4 := q <| nt_user_data := true |> <| nt_callbacks := true |>).
    change (i10_target_is_latency q4) with (i10_target_is_latency q).
    constructor; [done| |].
    + eexists. split; [done|]. destruct (i10_target_is_latency q) eqn:El; simpl; rewrite ?C4.
      all: split_and!; try done; try congruence; [by destruct C1|].
      * change (i10_target_is_latency _) with (i10_target_is_latency q). by rewrite El, I5.
      * change (i10_target_is_latency _) with (i10_target_is_latency q). by rewrite El, I4.
    + rewrite Hl, <- C2. by destruct (i10_target_is_latency q).
Qed.

Lemma alloc_tail_ok p q g s a :
  below a (tg_live g) -> arrayed_queue s a g q ->
  exists ret o p' g', alloc_queue_tail p q g = Some (ret, o, p', g')
    /\ (alloc_failed g ret o g' \/ alloc_done s a g ret o g').
Proof.
  intros Hb [N1 N2 N3 N4 (N5 & N6 & N7 & N8) N9 (I1 & I2 & I3 & I4 & I5) (D1 & D2)].
  unfold alloc_queue_tail. set (idx := ida_simple_get (tg_calls g) (tg_ida g)).
  set (q0 := q <| nt_idx := idx |>). assert (framed q0 a) as Hf0 by (destruct N1; by constructor).
  destruct (Z.ltb_spec idx 0) as [Hlt|Hge].
  { rewrite (out_free_mapped_ok q0 a (tg_live g)) by done. cbn [mbind option_bind].
    do 4 eexists. split; [done|]. left. constructor; try done. lia. }
  assert (idx ∉ tg_ida g) as Hidx by (destruct (ida_unused (tg_calls g) (tg_ida g)); [lia|done]).
  assert (below (nt_allocs q0) (nt_live q0)) as Hb0.
  { change (nt_allocs q0) with (nt_allocs q). change (nt_live q0) with (nt_live q). rewrite N2, N3.
    do 4 (apply below_cons; [lia|]). done. }
  assert (nt_cmds q0 !! connect_id = Some zero_cmd) as Hc0 by (change (nt_cmds q0) with (nt_cmds q); by rewrite N5).
  destruct (alloc_cmd_ok connect_id q0 zero_cmd Hb0 Hc0) as (ret & q1 & E1 & Hx1 & Hfail & Hdone).
  rewrite E1. cbn [mbind option_bind]. pose proof (framed_view q0 q1 a Hx1 Hf0) as Hf1.
  destruct (c_true ret) eqn:Er.
  { apply c_true_spec in Er. rewrite (out_free_mapped_ok q1 a (tg_live g)) by (done || by rewrite Hfail).
    cbn [mbind option_bind]. do 4 eexists. split; [done|]. left. constructor; try done. simpl. by apply ida_remove. }
  apply c_true_false in Er. destruct (Hdone Er) as (L1 & C1 & F1 & A1). clear Hfail Hdone.
  change (nt_allocs q0) with (nt_allocs q) in *. change (nt_live q0) with (nt_live q) in *. rewrite N3 in *. rewrite N2 in L1.
  change (nt_cmds q0) with (nt_cmds q) in C1. change (nt_free_list q0) with (nt_free_list q) in F1.
  rewrite N5, insert_singleton_eq in C1. rewrite N8 in F1. cbn [tcall].
  set (b := S (S (S (S a)))) in *. unfold tcall. cbv beta iota zeta.
  destruct (c_true _) eqn:Es.
  { apply c_true_spec in Es. destruct (undo_ok q1 a (tg_live g) Hf1 L1) as (q2 & E2 & E3); [by rewrite C1, lookup_singleton_eq|done|].
    apply bind_Some in E2 as (q' & E2 & E2'). rewrite E2. cbn [mbind option_bind]. rewrite E2'. cbn [mbind option_bind].
    do 4 eexists. split; [done|]. left. constructor; try done. simpl. by apply ida_remove. }
  assert (cmd_queue s a (tg_live g) idx q1) as Hcq.
  { constructor; try done.
    - rewrite <- N4. exact (f_equal nt_sock Hx1).
    - exact (f_equal nt_idx Hx1).
    - split_and!; [done|rewrite <- N6; exact (f_equal nt_nr_cmds Hx1)|rewrite <- N7; exact (f_equal nt_cmds_buf Hx1)|done].
    - rewrite <- N9. exact (f_equal nt_state Hx1).
    - split_and!; [rewrite <- I1; exact (f_equal nt_rx Hx1)|rewrite <- I2; exact (f_equal nt_core Hx1)
        |rewrite <- I3; exact (f_equal nt_resp_list Hx1)|rewrite <- I4; exact (f_equal nt_io_work Hx1)
        |rewrite <- I5; exact (f_equal nt_io_work_lat Hx1)].
    - split; [rewrite <- D1; exact (f_equal nt_hdr_digest Hx1)|rewrite <- D2; exact (f_equal nt_data_digest Hx1)]. }
  apply (place_cmd_queue s a (tg_live g) idx p) in Hcq. destruct (place p q1) as [p2 q2]. cbn [snd] in Hcq.
  by apply (alloc_last_ok s a (tg_live g) idx).
Qed.

(** The queue before the arrays of the caravan are allocated. *)
Record bare_queue (s a : nat) g q : Prop := {
  bq_self : nt_self q = a;
  bq_live : nt_live q = a :: tg_live g;
  bq_allocs : nt_allocs q = S a;
  bq_sock : nt_sock q = Some s;
  bq_cmds : nt_cmds q = {[connect_id := zero_cmd]} /\ nt_nr_cmds q = 0 /\ nt_cmds_buf q = None /\ nt_free_list q = [];
  bq_state : nt_state q = NVMET_TCP_Q_CONNECTING;
  bq_idle : nt_rx q = [] /\ nt_core q = [] /\ nt_resp_list q = [] /\ nt_io_work q = None /\ nt_io_work_lat q = None;
  bq_digest : nt_hdr_digest q = false /\ nt_data_digest q = false;
}.

Lemma alloc_arrays_ok p q g s a :
  below a (tg_live g) -> bare_queue s a g q ->
  exists ret o p' g', alloc_arrays p q g = Some (ret, o, p', g')
    /\ (alloc_failed g ret o g' \/ alloc_done s a g ret o g').
Proof.
  intros Hb [Q1 Q2 Q3 Q4 Q5 Q6 Q7 Q8]. unfold alloc_arrays, kmalloc. rewrite Q3.
  assert (below (S a) (a :: tg_live g)) as B1 by (apply below_cons; [lia|done]).
  assert (below (S (S a)) (S a :: a :: tg_live g)) as B2 by (apply below_cons; [lia|done]).
  destruct (kmalloc_ok (S a)); rewrite ?bool_decide_false, ?bool_decide_true by done.
  2: { unfold out_free_queue. simpl nt_self. rewrite Q1, (free_top a (tg_live g)) by done. by do 4 eexists; split; [done|left]. }
  match goal with |- context [kmalloc_ok (nt_allocs ?x)] => change (nt_allocs x) with (S (nt_allocs q)); set (q1 := x) end.
  rewrite Q3. assert (nt_live q1 = S a :: a :: tg_live g) as L1.
  { change (S a :: nt_live q = S a :: a :: tg_live g). by rewrite Q2. }
  destruct (kmalloc_ok (S (S a))); rewrite ?bool_decide_false, ?bool_decide_true by done.
  2: { unfold out_free_iovs, out_free_queue.
       rewrite (free_top (S a) (a :: tg_live g)) by done.
       cbn [mbind option_bind]. simpl nt_self. rewrite Q1, (free_top a (tg_live g)) by done. by do 4 eexists; split; [done|left]. }
  match goal with |- context [kmalloc_ok (nt_allocs ?x)] => change (nt_allocs x) with (S (S (nt_allocs q))); set (q2 := x) end.
  rewrite Q3. assert (nt_live q2 = S (S a) :: S a :: a :: tg_live g) as L2.
  { change (S (S a) :: nt_live q1 = S (S a) :: S a :: a :: tg_live g). by rewrite L1. }
  destruct (kmalloc_ok (S (S (S a)))); rewrite ?bool_decide_false, ?bool_decide_true by done.
  2: { unfold out_free_cmds, out_free_iovs, out_free_queue.
       rewrite (free_top (S (S a)) (S a :: a :: tg_live g)) by done. cbn [mbind option_bind].
       rewrite (free_top (S a) (a :: tg_live g)) by done.
       cbn [mbind option_bind]. simpl nt_self. rewrite Q1, (free_top a (tg_live g)) by done. by do 4 eexists; split; [done|left]. }
  apply (alloc_tail_ok p _ g s a Hb). constructor; try done.
  - change (S (S (S a)) :: nt_live q2 = frame_objs a ++ tg_live g). by rewrite L2.
  - simpl. by rewrite Q3.
Qed.

Lemma alloc_queue_cases p s g :
  below (tg_allocs g) (tg_live g) ->
  exists ret o p' g', nvmet_tcp_alloc_queue p s g = Some (ret, o, p', g')
    /\ (alloc_failed g ret o g' \/ alloc_done s (tg_allocs g) g ret o g').
Proof.
  intros Hb. set (a := tg_allocs g). unfold nvmet_tcp_alloc_queue, kmalloc.
  change (nt_allocs (see_heap g (zero_queue sizeof_pdu_union (tg_allocs g)))) with a.
  destruct (kmalloc_ok a); [|by do 4 eexists; split; [done|left]].
  apply (alloc_arrays_ok p _ g s a Hb). by constructor.
Qed.

(** C35: Accepting a connection is all or nothing.  [nvmet_tcp_alloc_queue] always
    returns; wherever it fails (one of the eight allocations, the number, the NVMe
    queue, a call on the socket) nothing stays allocated, no number is in use and
    the list of queues is unchanged; when it succeeds there is one more queue with an
    unused number, which owns its structure, the three arrays of the caravan and the
    PDUs of the command for connecting, waits for the header of the first PDU, and
    whose work of its class is queued on its CPU. *)
Theorem target_queue_alloc p s g :
  below (tg_allocs g) (tg_live g) ->
  exists ret o p' g', nvmet_tcp_alloc_queue p s g = Some (ret, o, p', g')
    /\ (alloc_failed g ret o g' \/ alloc_done s (tg_allocs g) g ret o g').
Proof. apply alloc_queue_cases. Qed.

(** ** Release *)

Lemma uninit_idle q cmd :
  nt_nr_cmds q = 0 -> nt_cmds q !! connect_id = Some cmd -> nr_transfer_len cmd = 0 -> nc_rbytes_done cmd = 0 ->
  nvmet_tcp_uninit_data_in_cmds q = Some q.
Proof.
  intros Hn Hc Ht Hr. unfold nvmet_tcp_uninit_data_in_cmds. rewrite Hn. simpl. rewrite Hn. simpl.
  unfold uninit_cmd. rewrite Hc. simpl. unfold nvmet_tcp_need_data_in, nvmet_tcp_has_data_in.
  by rewrite Ht, Hr, andb_false_r.
Qed.

(** What is in use after the socket and the command for connecting are gone. *)
Lemma release_conn s a l q :
  cmd_queue s a l (nt_idx q) q -> s ∈ l -> below a l ->
  exists q', (q ← obj_put (nt_sock q) q; nvmet_tcp_free_cmds q) = Some q'
    /\ nt_live q' = frame_objs a ++ filter (fun m => m <> s) l /\ framed q' a
    /\ nt_hdr_digest q' = false /\ nt_data_digest q' = false /\ nt_idx q' = nt_idx q.
Proof.
  intros [C1 C2 C3 C4 (C5 & C6 & C7 & C8) C9 _ [D1 D2]] Hs Hb. pose proof (Hb s Hs) as Hlt. rewrite C3.
  unfold obj_put at 1, obj_free at 1. cbn [mbind option_bind]. rewrite bool_decide_true by (rewrite C2; set_solver).
  cbn [mbind option_bind]. set (q1 := q <| nt_live ::= filter (fun m => m <> s) |>).
  assert (nt_live q1 = frame_objs (S (S (S (S a)))) ++ frame_objs a ++ filter (fun m => m <> s) l) as L1.
  { change (nt_live q1) with (filter (fun m => m <> s) (nt_live q)). rewrite C2.
    unfold frame_objs. simpl app. rewrite !filter_cons_True by lia. done. }
  assert (below a (filter (fun m => m <> s) l)) as Hb1.
  { intros m Hm%list_elem_of_filter. apply Hb, Hm. }
  unfold nvmet_tcp_free_cmds. change (nt_nr_cmds q1) with (nt_nr_cmds q). rewrite C6. change (seqZ 0 0) with (@nil Z). cbn [foldM mbind option_bind].
  rewrite (free_cmd_ok connect_id q1 zero_cmd (S (S (S (S a)))) (frame_objs a ++ filter (fun m => m <> s) l)); [|change (nt_cmds q1) with (nt_cmds q); by rewrite C5, lookup_singleton_eq|done|].
  - cbn [mbind option_bind]. change (nt_cmds_buf (q1 <| nt_live := _ |>)) with (nt_cmds_buf q). rewrite C7. simpl obj_free.
    eexists. split; [done|]. destruct C1. by split_and!.
  - do 4 (apply below_cons; [lia|]). done.
Qed.

(** The three arrays of the caravan, which tcp.c does not free. *)
Definition arrays_left (q : nvmet_tcp_queue) : list nat :=
  match tgt_driver with
  | NVMET_TCP => omap id [nt_mapped_buf q; nt_ccmds_buf q; nt_iovs_buf q]
  | I10_TARGET => []
  end.

Lemma free_mid n l1 l2 q :
  nt_live q = l1 ++ n :: l2 -> n ∉ l1 -> n ∉ l2 -> obj_free (Some n) q = Some (q <| nt_live := l1 ++ l2 |>).
Proof.
  intros E H1 H2. unfold obj_free. rewrite bool_decide_true by (rewrite E; set_solver).
  assert (filter (fun m => m <> n) (nt_live q) = l1 ++ l2) as Ef.
  { rewrite E, filter_app, filter_cons_False by auto. f_equal; apply list_filter_all; by intros x Hx ->. }
  by rewrite <- Ef.
Qed.

(** The arrays and the structure. *)
Lemma release_arrays q a l :
  framed q a -> nt_live q = frame_objs a ++ l -> below a l ->
  exists q', (q ← free_arrays q; obj_free (Some (nt_self q)) q) = Some q' /\ nt_live q' = arrays_left q ++ l.
Proof.
  intros [F1 F2 F3 F4] L Hb. unfold free_arrays, arrays_left, frame_objs in *.
  assert (forall n, (a <= n)%nat -> n ∉ l) as Hout by (intros n Hn Hin; specialize (Hb n Hin); lia).
  rewrite F2, F3, F4. simpl app in L. destruct tgt_driver; cbn [mbind option_bind].
  - rewrite F1, (free_mid a [S (S (S a)); S (S a); S a] l) by (done || set_solver by lia || by apply Hout).
    by eexists.
  - rewrite (free_mid (S a) [S (S (S a)); S (S a)] (a :: l)) by (done || set_solver by lia). cbn [mbind option_bind].
    simpl nt_ccmds_buf. rewrite F3, (free_mid (S (S a)) [S (S (S a))] (a :: l)) by (done || set_solver by lia).
    cbn [mbind option_bind]. simpl nt_mapped_buf. rewrite F4, (free_mid (S (S (S a))) [] (a :: l)) by (done || set_solver by lia).
    cbn [mbind option_bind]. simpl nt_self. rewrite F1, (free_mid a [] l) by (done || set_solver). by eexists.
Qed.

(** The life of a connection that was accepted and closed before anything was
    received.  The release gives back the structure, the socket, the PDUs of the
    command for connecting and the number, and takes the queue from the list; with
    i10.c nothing is left, with tcp.c the three arrays of the caravan stay
    allocated. *)
Lemma target_release_leaks_caravan p s g ret o p' g' :
  below (tg_allocs g) (tg_live g) -> s ∈ tg_live g -> (forall q, q ∈ tg_queues g -> nt_idx q ∈ tg_ida g) ->
  nvmet_tcp_alloc_queue p s g = Some (ret, o, p', g') -> ret = 0 ->
  exists q g'', o = Some q /\ nvmet_tcp_release_queue_work q g' = Some g''
    /\ tg_live g'' = arrays_left q ++ filter (fun m => m <> s) (tg_live g)
    /\ tg_ida g'' = tg_ida g /\ tg_queues g'' = tg_queues g.
Proof.
  intros Hb Hs Hids E Hret. set (a := tg_allocs g) in *.
  assert (alloc_done s a g ret o g') as [_ (q & -> & Eq & Ei & Hi & Hf & Hsk & Hc & Hn & Hcb & Hfl & Hst & Hrs & Hle & Hrx & Hco & Hre & Hh & Hd & Hu & Hw) Hl].
  { destruct (alloc_queue_cases p s g Hb) as (r1 & o1 & p1 & g1 & E1 & H1). rewrite E in E1. injection E1 as -> -> -> ->.
    destruct H1 as [[]|]; done. }
  set (g1 := g' <| tg_queues ::= filter (fun p => nt_idx p <> nt_idx q) |>).
  set (q1 := nvmet_tcp_restore_socket_callbacks (see_heap g1 q)).
  set (q2 := q1 <| nt_io_work := None |> <| nt_io_work_lat := None |>).
  set (q3 := cancel_io_works (q2 <| nt_ctrl := None |>)).
  assert (cmd_queue s a (tg_live g) (nt_idx q3) q3) as Hq3 by (destruct Hf; by constructor).
  destruct (release_conn s a (tg_live g) q3 Hq3 Hs Hb) as (q4 & E4 & L4 & S4 & H4 & D4 & I4).
  apply bind_Some in E4 as (q4' & E4 & E4').
  destruct (release_arrays q4 a (filter (fun m => m <> s) (tg_live g)) S4 L4) as (q5 & E5 & L5).
  { intros m [_ Hm]%list_elem_of_filter. by apply Hb. }
  apply bind_Some in E5 as (q5' & E5 & E5').
  exists q. eexists. split; [done|]. unfold nvmet_tcp_release_queue_work. fold g1. fold q1.
  rewrite flush_idle by done. fold q2.
  rewrite (uninit_idle q2 (with_pdus zero_cmd (S (S (S (S a)))))); [|done| |done|done].
  2: { change (nt_cmds q2) with (nt_cmds q). by rewrite Hc, lookup_singleton_eq. }
  cbn [mbind option_bind]. rewrite (destroy_idle q2) by done. fold q3. rewrite E4. cbn [mbind option_bind].
  rewrite E4'. cbn [mbind option_bind]. rewrite H4, D4. cbn [orb mbind option_bind]. rewrite I4.
  rewrite E5. cbn [mbind option_bind]. rewrite E5'. cbn [mbind option_bind].
  assert (arrays_left q4 = arrays_left q) as Ea.
  { unfold arrays_left. destruct Hf as [_ -> -> ->], S4 as [_ -> -> ->]. done. }
  split; [done|]. split; [|split].
  - rewrite <- Ea. exact L5.
  - change (filter (fun i => i <> nt_idx q) (tg_ida g') = tg_ida g). rewrite Ei. by apply ida_remove.
  - change (filter (fun p => nt_idx p <> nt_idx q) (tg_queues g') = tg_queues g). rewrite Eq, filter_app.
    rewrite (filter_cons_False _ q) by auto. rewrite app_nil_r. apply list_filter_all.
    intros x Hx Hne. apply Hi. rewrite <- Hne. by apply Hids.
Qed.

(** ** Installing a queue *)

Lemma obj_free_nr o q q' : obj_free o q = Some q' -> nt_nr_cmds q' = nt_nr_cmds q.
Proof. unfold obj_free. destruct o; [destruct (bool_decide _)|]; intros H; by simplify_eq. Qed.

Lemma obj_put_nr o q q' : obj_put o q = Some q' -> nt_nr_cmds q' = nt_nr_cmds q.
Proof. unfold obj_put. destruct o; [|done]. apply obj_free_nr. Qed.

Lemma kmalloc_nr q : nt_nr_cmds (kmalloc q).2 = nt_nr_cmds q.
Proof. unfold kmalloc. by destruct (kmalloc_ok _). Qed.

Lemma free_cmd_nr c q q' : nvmet_tcp_free_cmd c q = Some q' -> nt_nr_cmds q' = nt_nr_cmds q.
Proof.
  unfold nvmet_tcp_free_cmd. intros H.
  apply bind_Some in H as (cmd & _ & H). apply bind_Some in H as (q1 & H1%obj_put_nr & H).
  apply bind_Some in H as (q2 & H2%obj_put_nr & H). apply bind_Some in H as (q3 & H3%obj_put_nr & H%obj_put_nr).
  congruence.
Qed.

Lemma alloc_cmd_nr c q ret q' : nvmet_tcp_alloc_cmd c q = Some (ret, q') -> nt_nr_cmds q' = nt_nr_cmds q.
Proof.
  unfold nvmet_tcp_alloc_cmd. intros H. apply bind_Some in H as (cmd & _ & H).
  pose proof (kmalloc_nr q) as K1. destruct (kmalloc q) as [[b1|] q1]; cbn [snd] in K1; [|by simplify_eq].
  pose proof (kmalloc_nr q1) as K2. destruct (kmalloc q1) as [[b2|] q2]; cbn [snd] in K2.
  2: { apply bind_Some in H as (x & X%obj_put_nr & H). simplify_eq. simpl. congruence. }
  pose proof (kmalloc_nr q2) as K3. destruct (kmalloc q2) as [[b3|] q3]; cbn [snd] in K3.
  2: { apply bind_Some in H as (x & X%obj_put_nr & H). apply bind_Some in H as (y & Y%obj_put_nr & H).
       simplify_eq. simpl. congruence. }
  pose proof (kmalloc_nr q3) as K4. destruct (kmalloc q3) as [[b4|] q4]; cbn [snd] in K4.
  - simplify_eq. simpl. congruence.
  - apply bind_Some in H as (x & X%obj_put_nr & H). apply bind_Some in H as (y & Y%obj_put_nr & H).
    apply bind_Some in H as (z & Z%obj_put_nr & H). simplify_eq. simpl. congruence.
Qed.

Lemma alloc_loop_nr n : forall i q ret k q',
  alloc_cmds_loop n i q = Some (ret, k, q') -> nt_nr_cmds q' = nt_nr_cmds q.
Proof.
  induction n as [|n IH]; intros i q ret k q'; cbn [alloc_cmds_loop]; [intros H; by simplify_eq|].
  intros H. apply bind_Some in H as ([r q1] & H1%alloc_cmd_nr & H). destruct (c_true r); [by simplify_eq|].
  apply IH in H. rewrite H, H1. done.
Qed.

Lemma free_loop_nr l : forall q q',
  foldM (fun q j => nvmet_tcp_free_cmd j q) q l = Some q' -> nt_nr_cmds q' = nt_nr_cmds q.
Proof.
  induction l as [|i l IH]; intros q q'; cbn [foldM]; [intros H; by simplify_eq|].
  intros H. apply bind_Some in H as (q1 & H1%free_cmd_nr & H%IH). congruence.
Qed.

Lemma drop_cmds_zero n q : 0 < n -> nt_cmds (drop_cmds n q) !! 0 = None.
Proof.
  intros Hn. unfold drop_cmds. simpl. rewrite seqZ_cons by lia. simpl. apply lookup_delete_eq.
Qed.

(** A queue whose commands could not be allocated cannot be released: the number of
    its commands is set and there are none. *)
Lemma install_failure_undefined size q ret q' :
  0 < u32 (size * 2) -> nt_cmds q !! 0 = None ->
  nvmet_tcp_install_queue size q = Some (ret, q') -> ret <> 0 -> nvmet_tcp_free_cmds q' = None.
Proof.
  intros Hsize Hnone H Hret. unfold nvmet_tcp_install_queue in H. set (q0 := q <| nt_nr_cmds := u32 (size * 2) |>) in H.
  apply bind_Some in H as ([r q1] & H & H1). injection H1 as <- <-.
  assert (r <> 0) as Hr by (intros ->; done).
  assert (nt_nr_cmds q1 = u32 (size * 2) /\ nt_cmds q1 !! 0 = None) as [En Ec].
  { unfold nvmet_tcp_alloc_cmds, kmalloc in H. destruct (kmalloc_ok _); [|by simplify_eq].
    apply bind_Some in H as ([[r2 k] q2] & H2%alloc_loop_nr & H). destruct (c_true r2); [|by simplify_eq].
    apply bind_Some in H as (q3 & H3%free_loop_nr & H). apply bind_Some in H as (q4 & H4%obj_free_nr & H).
    injection H as <- <-. split; [|by apply drop_cmds_zero].
    change (nt_nr_cmds (drop_cmds _ q4)) with (nt_nr_cmds q4). rewrite H4, H3, H2. done. }
  unfold nvmet_tcp_free_cmds. rewrite En. rewrite seqZ_cons by done. cbn [foldM].
  assert (nvmet_tcp_free_cmd 0 q1 = None) as -> by (unfold nvmet_tcp_free_cmd; by rewrite Ec). done.
Qed.
End queue.
