(* ===== verification/NvmetTcpPair.v ===== *)
(** * Host and target together

    The connection request of the host is accepted by the target and its response
    by the host, with the same digests on both sides; and an R2T of the target is
    answered by the host with a data PDU that the target accepts. *)
From S2P Require Import Prelude NvmeTcp NvmeTcpSend NvmeTcpRecv NvmeTcpConn NvmeTcpSendSpec NvmeTcpStream NvmeTcpSetup.
From S2P Require Import NvmetTcp NvmetTcpSend NvmetTcpRecv NvmetTcpOwn NvmetTcpSendSpec NvmetTcpRecvSpec NvmetTcpMap.

(** Both sides include the same <linux/nvme-tcp.h>. *)
Class SameHeader (ce : CtrlEnv) (pt : NvmetProto) : Prop := {
  same_icresp : NvmeTcpConn.nvme_tcp_icresp = NvmetTcp.nvme_tcp_icresp;
  same_icresp_size : sizeof_icresp = sizeof_icresp_pdu;
  same_pfv : NvmeTcpConn.NVME_TCP_PFV_1_0 = NvmetTcp.NVME_TCP_PFV_1_0;
  same_hdr : NvmeTcpConn.NVME_TCP_HDR_DIGEST_ENABLE = NvmetTcp.NVME_TCP_HDR_DIGEST_ENABLE;
  same_data : NvmeTcpConn.NVME_TCP_DATA_DIGEST_ENABLE = NvmetTcp.NVME_TCP_DATA_DIGEST_ENABLE;
  hdr_enable : NvmetTcp.NVME_TCP_HDR_DIGEST_ENABLE = 1;
  data_enable : NvmetTcp.NVME_TCP_DATA_DIGEST_ENABLE = 2;
  icreq_small : 0 <= sizeof_icreq_pdu < 2 ^ 8;
  icresp_small : 0 <= sizeof_icresp_pdu < 2 ^ 8;
}.

(** ** The connection request of the host *)

Record icreq_pdu := mk_icreq_pdu {
  iq_type : Z;
  iq_hlen : Z;
  iq_pdo : Z;
  iq_plen : Z;
  iq_pfv : Z;
  iq_maxr2t : Z;
  iq_hpda : Z;
  iq_digest : Z;
}.

Section pair.
Context {pr : NvmeTcpProto} {pt : NvmetProto} {ce : CtrlEnv} {sh : SameHeader ce pt}.
Context {ne : NvmetEnv} {ly : PduLayout} {cl : CmdLayout}.

(** What [nvme_tcp_init_connection] of the host sends. *)
Definition make_icreq (hq : tcp_queue) : icreq_pdu :=
  let hl := u8 sizeof_icreq_pdu in
  let digest := if tq_hdr_digest hq then NvmetTcp.NVME_TCP_HDR_DIGEST_ENABLE else 0 in
  let digest := if tq_data_digest hq then Z.lor digest NvmetTcp.NVME_TCP_DATA_DIGEST_ENABLE else digest in
  mk_icreq_pdu nvme_tcp_icreq hl 0 hl NvmetTcp.NVME_TCP_PFV_1_0 0 0 digest.

(** The bytes [p] are the request [r]. *)
Record icreq_in (p : list Z) (r : icreq_pdu) : Prop := {
  ii_type : pdu_type p = iq_type r;
  ii_plen : pdu_plen p = iq_plen r;
  ii_pfv : icreq_pfv p = iq_pfv r;
  ii_hpda : icreq_hpda p = iq_hpda r;
  ii_digest : icreq_digest p = iq_digest r;
}.

(** The response as the host reads it. *)
Definition seen_icresp (r : icresp_pdu) : icresp :=
  mk_icresp (ir_type r) (ir_plen r) (ir_pfv r) (ir_digest r) (ir_cpda r).

Lemma digest_flags (h d : bool) :
  let f := if h then NvmetTcp.NVME_TCP_HDR_DIGEST_ENABLE else 0 in
  let f := if d then Z.lor f NvmetTcp.NVME_TCP_DATA_DIGEST_ENABLE else f in
  has_flag f NvmetTcp.NVME_TCP_HDR_DIGEST_ENABLE = h /\ has_flag f NvmetTcp.NVME_TCP_DATA_DIGEST_ENABLE = d.
Proof. rewrite hdr_enable, data_enable. by destruct h, d. Qed.

(** Nothing is refused when the hashes can be allocated. *)
Lemma alloc_crypto_ok q :
  (forall n, kmalloc_ok n = true) -> exists q', nvmet_tcp_alloc_crypto q = Some (0, q')
    /\ nt_pdu q' = nt_pdu q /\ nt_hdr_digest q' = nt_hdr_digest q /\ nt_data_digest q' = nt_data_digest q
    /\ nt_calls q' = nt_calls q /\ nt_rcv_state q' = nt_rcv_state q.
Proof.
  intros Hk. unfold nvmet_tcp_alloc_crypto, kmalloc. rewrite !Hk. by eexists.
Qed.

(** C19: The handshake.  The target accepts the connection request that a host
    builds and becomes live with the header and data digests the host wants; the
    response it sends passes every check of the host: type, length, version, both
    digests and alignment. *)
Theorem handshake_agrees (hq : tcp_queue) (t : nvmet_tcp_queue) :
  nt_state t = NVMET_TCP_Q_CONNECTING -> icreq_in (nt_pdu t) (make_icreq hq) ->
  (forall n, kmalloc_ok n = true) -> (forall n v, 0 <= tgt_sendmsg n v sizeof_icresp_pdu) ->
  (forall r, Z.of_nat (length (icresp_bytes r)) <= Z.of_nat (length (nt_pdu t))) ->
  exists t' r, nvmet_tcp_done_recv_pdu t = Some (0, t') /\ nt_state t' = NVMET_TCP_Q_LIVE
    /\ nt_hdr_digest t' = tq_hdr_digest hq /\ nt_data_digest t' = tq_data_digest hq
    /\ nt_rcv_state t' = NVMET_TCP_RECV_PDU /\ nt_icresp t' = Some r /\ check_icresp hq (seen_icresp r) = 0.
Proof.
  intros Hst [I1 I2 I3 I4 I5] Hk Hsend Hlen. unfold nvmet_tcp_done_recv_pdu.
  rewrite Hst, bool_decide_true by done. rewrite I1. simpl. rewrite Z.eqb_refl. simpl.
  unfold nvmet_tcp_handle_icreq. rewrite I2, I3, I4, I5. simpl.
  unfold u8. rewrite Z.mod_small by (apply icreq_small). rewrite !Z.eqb_refl. simpl.
  destruct (digest_flags (tq_hdr_digest hq) (tq_data_digest hq)) as [F1 F2]. cbv zeta in F1, F2. rewrite F1, F2.
  set (t1 := t <| nt_hdr_digest := tq_hdr_digest hq |> <| nt_data_digest := tq_data_digest hq |>).
  assert (exists t2, (if tq_hdr_digest hq || tq_data_digest hq then nvmet_tcp_alloc_crypto t1 else Some (0, t1)) = Some (0, t2)
    /\ nt_pdu t2 = nt_pdu t /\ nt_hdr_digest t2 = tq_hdr_digest hq /\ nt_data_digest t2 = tq_data_digest hq) as (t2 & E2 & P2 & H2 & D2).
  { destruct (_ || _); [|by exists t1]. destruct (alloc_crypto_ok t1 Hk) as (t2 & E & A1 & A2 & A3 & _). exists t2. done. }
  rewrite E2. cbn [mbind option_bind]. simpl c_true. cbv iota.
  set (r := make_icresp t2). unfold overwrite. rewrite P2.
  assert ((0 <=? 0) && (0 + Z.of_nat (length (icresp_bytes r)) <=? Z.of_nat (length (nt_pdu t))) = true) as ->.
  { apply andb_true_iff. split; [done|]. apply Z.leb_le. specialize (Hlen r). lia. }
  cbn [mbind option_bind]. rewrite (proj2 (Z.ltb_ge _ _)) by apply Hsend.
  do 2 eexists. split; [done|]. split; [done|]. split; [done|]. split; [done|]. split; [done|]. split; [done|].
  unfold check_icresp, seen_icresp, r, make_icresp. simpl. rewrite H2, D2.
  rewrite same_icresp, same_icresp_size, same_pfv, same_hdr, same_data. unfold u8.
  rewrite Z.mod_small by apply icresp_small. rewrite !Z.eqb_refl. simpl. rewrite F1, F2.
  by destruct (tq_hdr_digest hq), (tq_data_digest hq).
Qed.
End pair.

(** ** Data on request *)

Section r2t.
Context {pr : NvmeTcpProto} {it : IovIter} {itl : IovIterLaws it} {sk : HostSock} {skl : HostSockLaws sk} (e : host_env).
Context {pt : NvmetProto} {pl : NvmetProtoLaws pr pt} {ne : NvmetEnv} {ly : PduLayout} {cl : CmdLayout}.

(** C18: An R2T and its answer, on a connection whose host uses no data digest
    ([queue_wf]).  A write of which both sides have the same number of bytes behind
    them, a whole number of pages (the target stores a data PDU with another start in
    the wrong page, [map_iovec_misplaced]), and which the host is not sending: the R2T
    that the target builds is accepted by the host, and the data PDU that the host
    queues for it names the command and the position that the target expects; the
    target then receives into exactly the part of its buffers that is missing, up to
    the last byte of the request. *)
Theorem r2t_answered q r req t c cmd :
  queue_wf e q -> prio_class q = class_of e q -> r ∉ option_list (nq_request q) ++ send_list q ->
  reqs q !! r = Some req -> ready_h2c req ->
  nt_cmds t !! c = Some cmd -> awaitable t c cmd -> 0 <= c < 2 ^ 16 ->
  nc_rbytes_done cmd mod PAGE_SIZE = 0 -> (exists n, nc_iov cmd = Some n /\ n ∈ nt_live t) ->
  r_data_len req = nr_transfer_len cmd -> data_sent req = nc_rbytes_done cmd ->
  exists t1 cmd1 q' req',
    nvmet_setup_r2t_pdu c t = Some t1 /\ nt_cmds t1 !! c = Some cmd1
    /\ handle_r2t_req e (h_data_length (nc_r2t_pdu cmd1)) (h_data_offset (nc_r2t_pdu cmd1))
         (h_ttag (nc_r2t_pdu cmd1)) r q = Some (0, q')
    /\ reqs q' !! r = Some req'
    /\ forall p, data_ttag p = h_ttag (hdr req') -> data_data_offset p = h_data_offset (hdr req') ->
         data_data_length p = h_data_length (hdr req') ->
         exists t2 cmd2 l, nvmet_tcp_handle_h2c_data_pdu (t1 <| nt_pdu := p |>) = Some (0, t2)
           /\ nt_cmd t2 = Some c /\ nt_rcv_state t2 = NVMET_TCP_RECV_DATA /\ nt_cmds t2 !! c = Some cmd2
           /\ receiving t2 c cmd2 l /\ nc_rbytes_done cmd2 = nc_rbytes_done cmd
           /\ nc_rbytes_done cmd2 + nc_msg_left cmd2 = nr_transfer_len cmd2.
Proof.
  intros Hq Hp Hr Hreq Hrd Hc [A1 A2 A3 A4 A5 A6 (l & A7 & A8)] Hcr Hal (n & Hn & Hlive) Hlen Hsent.
  pose proof (rh_max _ Hrd) as Hmax. unfold nvmet_setup_r2t_pdu, nvmet_tcp_cmd_tag. rewrite Hc. cbn [mbind option_bind].
  rewrite (proj2 (Z.eqb_neq _ _)) by done. cbn [mbind option_bind].
  match goal with |- context [put_ncmd c ?x t] => set (cmd1 := x) end. exists (put_ncmd c cmd1 t), cmd1.
  pose proof (handle_r2t_ok e (nr_transfer_len cmd - nc_rbytes_done cmd) (nc_rbytes_done cmd) (u16 c) r q req
    Hq Hp Hr Hreq Hrd ltac:(lia)) as Hh.
  rewrite (proj2 (Z.ltb_ge _ _)), (proj2 (Z.ltb_ge _ _)) in Hh by lia.
  destruct Hh as (q' & req' & E & _ & Hreq' & _ & _ & H1 & H2 & H3 & _). exists q', req'.
  split; [done|]. split; [apply lookup_insert_eq|]. split.
  { simpl. rewrite u32_small by lia. exact E. }
  split; [done|]. intros p P1 P2 P3. unfold nvmet_tcp_handle_h2c_data_pdu.
  set (t1 := (put_ncmd c cmd1 t) <| nt_pdu := p |>). change (nt_pdu t1) with p.
  assert (data_ttag p = c) as -> by (rewrite P1, H3; unfold u16; by apply Z.mod_small).
  assert (nt_cmds t1 !! c = Some cmd1) as Hc1 by apply lookup_insert_eq. rewrite Hc1. cbn [mbind option_bind].
  rewrite P2, H2, Hsent. change (nc_rbytes_done cmd1) with (nc_rbytes_done cmd). rewrite Z.eqb_refl. cbn [negb].
  set (cmd2 := cmd1 <| nc_pdu_len := data_data_length p |> <| nc_pdu_recv := 0 |>).
  assert (nc_pdu_len cmd2 = nr_transfer_len cmd - nc_rbytes_done cmd) as El by (simpl; congruence).
  destruct (map_pdu_iovec_ok (put_ncmd c cmd2 t1) c cmd2 l) as (t2 & cmd3 & E3 & K1 & K2 & K3 & K4 & K5);
    try done; try (rewrite El); try (change (nr_transfer_len cmd2) with (nr_transfer_len cmd));
    try (change (nc_rbytes_done cmd2) with (nc_rbytes_done cmd)); try lia.
  { simpl. by rewrite lookup_insert_eq. }
  { by exists n. }
  rewrite E3. cbn [mbind option_bind]. do 2 eexists. exists l. split; [done|]. split; [done|]. split; [done|].
  split; [simpl; by rewrite K2, lookup_insert_eq|]. split; [by destruct K4; constructor|].
  assert (nc_rbytes_done cmd3 = nc_rbytes_done cmd) as -> by exact (f_equal nc_rbytes_done K3).
  assert (nr_transfer_len cmd3 = nr_transfer_len cmd) as -> by exact (f_equal nr_transfer_len K3).
  rewrite K5, El. lia.
Qed.
End r2t.
