(* ===== verification/NvmetTcpEx.v ===== *)
(** * NVMe/TCP target: concrete runs

    A machine with working allocators and sockets, a queue of two commands, and the
    theorems about the target applied to them: a write whose data comes with its
    capsule, a read that is answered, two cores between which a lane moves, the
    connections of a host with two CPUs, and a handshake. *)
From S2P Require Import Prelude NvmeTcp NvmeTcpSend NvmeTcpRecv NvmeTcpConn NvmeTcpSendSpec NvmeTcpStream.
From S2P Require Import NvmeTcpSetup NvmeTcpRecvSpec NvmeTcpLife.
From S2P Require Import NvmetTcp NvmetTcpSend NvmetTcpRecv NvmetTcpWork NvmetTcpSteer NvmetTcpQueue.
From S2P Require Import NvmetTcpOwn NvmetTcpSendSpec NvmetTcpStream NvmetTcpFlow NvmetTcpTrySend NvmetTcpRecvSpec.
From S2P Require Import NvmetTcpMap NvmetTcpSafe NvmetTcpTarget NvmetTcpSteerSpec.
From S2P Require Import NvmetTcpQueueSpec NvmetTcpPair.

(** ** The environment *)

Definition ex_nproto : NvmetProto := {|
  sizeof_r2t_pdu := 24; sizeof_icreq_pdu := 128; sizeof_icresp_pdu := 128; sizeof_tcp_hdr := 8;
  nvme_tcp_icreq := 0; NvmetTcp.nvme_tcp_icresp := 1; NvmetTcp.NVME_TCP_PFV_1_0 := 0;
  NvmetTcp.NVME_TCP_HDR_DIGEST_ENABLE := 1; NvmetTcp.NVME_TCP_DATA_DIGEST_ENABLE := 2; PAGE_SIZE := 4096;
|}.

Lemma ex_nproto_laws : NvmetProtoLaws ex_proto ex_nproto.
Proof. split; simpl; lia. Qed.

(** Page [i] of allocation [n]. *)
Definition ex_sgl (n : nat) (len : Z) : list scatterlist :=
  (fun i => mk_sg (1000000 * Z.of_nat n + i) 0 (Z.min 4096 (len - i * 4096))) <$> seqZ 0 ((len + 4095) / 4096).

(** Everything succeeds; a command announces as much data as its SGL. *)
Definition ex_nenv : NvmetEnv := {|
  sgl_alloc n len := Some (ex_sgl n len);
  kmalloc_ok _ := true;
  tgt_sendpage _ v := iov_len v;
  tgt_sendmsg _ _ size := size;
  tgt_wspace _ := 4194304;
  ahash_err _ := -2;
  page_data _ _ := 0;
  nvmet_req_init nc := (None, sgl_length nc);
|}.

Lemma ex_nsock_laws : NvmetSockLaws ex_nenv.
Proof. split. simpl. lia. Qed.

Lemma ex_nalloc_laws : @NvmetAllocLaws ex_nproto ex_nenv.
Proof.
  split; [|done]. intros n len l Hlen [= <-]. unfold sg_ok, ex_sgl. split.
  - rewrite length_fmap, length_seqZ. unfold DIV_ROUND_UP. simpl PAGE_SIZE. rewrite Z2Nat.id.
    + f_equal. lia.
    + apply Z.div_pos; lia.
  - intros i s Hs. rewrite list_lookup_fmap in Hs. apply fmap_Some in Hs as (j & Hj & ->).
    apply lookup_seqZ in Hj as [-> _]. simpl. done.
Qed.

(** A capsule: type, opcode, command identifier, type and length of the SGL. *)
Definition ex_cmd_layout : CmdLayout := {|
  cmd_nvme p := mk_nvme_cmd (le 8 1 p) (le 12 1 p) (le 10 2 p) (le 47 1 p) (u32 (le 40 4 p));
  data_ttag := le 10 2; data_data_offset := le 12 4;
  icreq_pfv := le 8 2; icreq_hpda := le 10 1; icreq_digest := le 11 1;
  icresp_bytes _ := replicate 128 0;
|}.

Lemma ex_cmd_laws : CmdLayoutLaws ex_cmd_layout.
Proof. split. intros p. apply u32_range. Qed.

#[local] Existing Instance ex_proto.
#[local] Existing Instance ex_nproto.
#[local] Existing Instance ex_nproto_laws.
#[local] Existing Instance ex_nenv.
#[local] Existing Instance ex_nsock_laws.
#[local] Existing Instance ex_nalloc_laws.
#[local] Existing Instance ex_layout.
#[local] Existing Instance ex_cmd_layout.
#[local] Existing Instance ex_cmd_laws.

Definition ex_params : nvmet_params := mk_params 8 8 64 true true false.

(** A live queue with two commands. *)
Definition ex_tq : nvmet_tcp_queue :=
  (zero_queue 128 0) <| nt_state := NVMET_TCP_Q_LIVE |> <| nt_qid := 1 |> <| nt_idx := 1 |>
    <| nt_cmds := {[0 := zero_cmd; 1 := zero_cmd]} |> <| nt_nr_cmds := 2 |> <| nt_free_list := [0; 1] |>
    <| nt_inline_data_size := 16384 |>
    <| nt_caravan_iovs := replicate 48 (mk_kvec (TIcresp, 0) 0) |>
    <| nt_caravan_cmds := replicate 16 0 |> <| nt_caravan_mapped := replicate 16 0 |>.

Lemma ex_tq_init : tgt_init ex_params ex_tq.
Proof.
  constructor; try done.
  - split; [repeat constructor; set_solver|]. intros c Hc. repeat (apply elem_of_cons in Hc as [->|Hc]; [by eexists|]).
    by apply elem_of_nil in Hc.
  - split; [intros n [? H]; done|]. intros n Hn. by apply elem_of_nil in Hn.
  - intros c cmd Hc [H _]. simpl in Hc. rewrite lookup_insert_Some, lookup_singleton_Some in Hc.
    destruct Hc as [[_ <-]|[_ [_ <-]]]; done.
Qed.

(** A write of eight bytes with its data in the capsule. *)
Definition ex_write_pdu : list Z :=
  [4; 0; 72; 24; 80; 0; 0; 0;  1; 0; 7; 0] ++ replicate 28 0 ++ [8; 0; 0; 0; 0; 0; 0; 1] ++ replicate 80 0.
Definition ex_bytes : list Z := [10; 11; 12; 13; 14; 15; 16; 17].

Definition ex_w1 : nvmet_tcp_queue :=
  default ex_tq (snd <$> nvmet_tcp_done_recv_pdu (ex_tq <| nt_pdu := ex_write_pdu |>)).
Definition ex_w2 : nvmet_tcp_queue :=
  default ex_w1 (snd <$> nvmet_tcp_try_recv_data (ex_w1 <| nt_rx := ex_bytes |> <| nt_rx_end := - EAGAIN |>)).
Definition ex_w3 : nvmet_tcp_queue := default ex_w2 (core_respond [] [] 0 0 ex_w2).

Lemma ex_w1_run : nvmet_tcp_done_recv_pdu (ex_tq <| nt_pdu := ex_write_pdu |>) = Some (0, ex_w1).
Proof. vm_compute. reflexivity. Qed.
Lemma ex_w2_run :
  nvmet_tcp_try_recv_data (ex_w1 <| nt_rx := ex_bytes |> <| nt_rx_end := - EAGAIN |>) = Some (0, ex_w2).
Proof. vm_compute. reflexivity. Qed.
Lemma ex_w3_run : core_respond [] [] 0 0 ex_w2 = Some ex_w3.
Proof. vm_compute. reflexivity. Qed.

Lemma ex_w3_reach : tgt_reach ex_params ex_tq ex_w3.
Proof.
  apply (tr_step _ _ ex_w2); [apply (tr_step _ _ ex_w1); [apply (tr_step _ _ ex_tq); [apply tr_refl|]|]|].
  - pose proof (ts_pdu ex_params ex_tq ex_write_pdu eq_refl) as H. rewrite ex_w1_run in H. apply H; [|done].
    unfold pdu_ok. assert (pdu_type ex_write_pdu =? nvme_tcp_h2c_data = false) as E by (vm_compute; reflexivity).
    change (nt_pdu (ex_tq <| nt_pdu := ex_write_pdu |>)) with ex_write_pdu. rewrite E. split; [|done].
    intros st n Hr. discriminate Hr.
  - assert (nt_rcv_state ex_w1 = NVMET_TCP_RECV_DATA) as Hs by (vm_compute; reflexivity).
    pose proof (ts_data ex_params ex_w1 ex_bytes (- EAGAIN) Hs) as H. rewrite ex_w2_run in H. apply H. done.
  - assert (nt_core ex_w2 = [] ++ (0, None) :: []) as Hc by (vm_compute; reflexivity).
    pose proof (ts_respond ex_params ex_w2 [] 0 None [] 0 Hc (or_introl eq_refl)) as H. rewrite ex_w3_run in H. apply H.
Qed.


Lemma ex_send_inv : exists others, send_inv ex_params others ex_w3.
Proof. destruct (reach_inv ex_params ex_tq ex_w3 ex_tq_init ex_w3_reach) as [A H]. exists (places A ex_w3). apply H. Qed.

(** This socket takes everything. *)
Lemma target_stream_preserved_witness :
  exists others ret sends' q' l r, nvmet_tcp_try_send ex_params 8 0 ex_w3 = Some (ret, sends', q')
    /\ send_inv ex_params (r ++ others) q' /\ fifo ex_w3 = l ++ fifo q'
    /\ out_bytes q' ++ cur_bytes q' = out_bytes ex_w3 ++ cur_bytes ex_w3 ++ concat (answer ex_w3 <$> l).
Proof.
  destruct ex_send_inv as [others H].
  destruct (target_stream_preserved ex_params others 8 0 ex_w3 H) as (ret & sends' & q' & l & r & H1 & H2 & H3 & _ & _ & H4 & _).
  exists others, ret, sends', q', l, r. refine (conj H1 (conj H2 (conj H3 (H4 _)))).
  intros n v size _ _. exact eq_refl.
Defined.

(** The eight bytes of the write arrive. *)
Lemma ex_w1_recv : exists cmd, nt_cmds ex_w1 !! 0 = Some cmd /\ receiving ex_w1 0 cmd [mk_sg 0 0 8].
Proof.
  destruct (reach_inv ex_params ex_tq ex_w1 ex_tq_init) as [A H].
  { apply (tr_step _ _ ex_tq); [apply tr_refl|].
    pose proof (ts_pdu ex_params ex_tq ex_write_pdu eq_refl) as H. rewrite ex_w1_run in H. apply H; [|done].
    unfold pdu_ok. assert (pdu_type ex_write_pdu =? nvme_tcp_h2c_data = false) as E by (vm_compute; reflexivity).
    change (nt_pdu (ex_tq <| nt_pdu := ex_write_pdu |>)) with ex_write_pdu. rewrite E. split; [|done].
    intros st n Hr. discriminate Hr. }
  assert (nt_rcv_state ex_w1 = NVMET_TCP_RECV_DATA) as Hs by (vm_compute; reflexivity).
  destruct (ti_rcv _ _ _ H Hs) as (c & cmd & l & H1 & H2 & H3).
  assert (nt_cmd ex_w1 = Some 0) as E1 by (vm_compute; reflexivity). assert (c = 0) as -> by congruence.
  exists cmd. split; [exact H2|]. assert (l = [mk_sg 0 0 8]) as <-; [|exact H3].
  assert (forall x, nt_cmds ex_w1 !! 0 = Some x -> req_sg x ex_w1 = Some [mk_sg 0 0 8]) as Hx.
  { intros x Hx. assert (nt_cmds ex_w1 !! 0 = nt_cmds ex_w1 !! 0) as E by reflexivity.
    rewrite Hx in E at 1. vm_compute in E. injection E as ->. vm_compute. reflexivity. }
  specialize (Hx cmd H2). rewrite (rv_sg _ _ _ _ H3) in Hx. congruence.
Qed.

(** In two segments, with the first byte of the next PDU. *)
Lemma target_write_data_witness :
  exists cmd q1 q' cmd', nt_cmds ex_w1 !! 0 = Some cmd
    /\ nvmet_tcp_map_pdu_iovec 0 ex_w1 = Some q1
    /\ recv_segments [[10; 11; 12]; [13; 14; 15; 16; 17; 4]] (- EAGAIN)
         (q1 <| nt_cmd := Some 0 |> <| nt_rcv_state := NVMET_TCP_RECV_DATA |>) = Some q'
    /\ nt_cmds q' !! 0 = Some cmd'
    /\ nt_rx q' = drop (Nat.min (Z.to_nat (nc_pdu_len cmd)) 9) (ex_bytes ++ [4]).
Proof.
  destruct ex_w1_recv as (cmd & Hc & Hr).
  assert (exists y, nt_cmds ex_w1 !! 0 = Some y /\ nc_rbytes_done y = 0 /\ nc_pdu_len y = 8 /\ nr_transfer_len y = 8
    /\ nc_iov y = Some 1%nat) as (y & Hy & Y1 & Y2 & Y3 & Y4).
  { eexists. split; [vm_compute; reflexivity|]. repeat split. }
  assert (y = cmd) as -> by congruence.
  destruct (target_write_data ex_w1 0 cmd [mk_sg 0 0 8] [[10; 11; 12]] [13; 14; 15; 16; 17; 4] (- EAGAIN))
    as (q1 & q' & cmd' & H1 & H2 & H3 & _ & H4 & _).
  - exact Hc.
  - exact (rv_sg _ _ _ _ Hr).
  - exact (rv_ok _ _ _ _ Hr).
  - apply (bool_decide_unpack _). vm_compute. exact I.
  - exact (rv_max _ _ _ _ Hr).
  - rewrite Y1. lia.
  - rewrite Y1. reflexivity.
  - rewrite Y2. lia.
  - rewrite Y1, Y2, Y3. lia.
  - exists 1%nat. split; [exact Y4|]. apply (bool_decide_unpack _). vm_compute. exact I.
  - exact (rv_write _ _ _ _ Hr).
  - exact (rv_status _ _ _ _ Hr).
  - exact (rv_flags _ _ _ _ Hr).
  - rewrite Y1, Y2, Y3. lia.
  - right. rewrite Y2. simpl. lia.
  - done.
  - exists cmd, q1, q', cmd'. exact (conj Hc (conj H1 (conj H2 (conj H3 H4)))).
Defined.

(** ** Failures that the theorems leave out *)

(** No memory for the array of [kvec] of a command. *)
Definition ex_nomem_env : NvmetEnv := {|
  sgl_alloc n len := Some (ex_sgl n len);
  kmalloc_ok _ := false;
  tgt_sendpage _ v := iov_len v;
  tgt_sendmsg _ _ size := size;
  tgt_wspace _ := 4194304;
  ahash_err _ := -2;
  page_data _ _ := 0;
  nvmet_req_init nc := (None, sgl_length nc);
|}.

(** A write of eight bytes that are not in the capsule. *)
Definition ex_r2t_pdu : list Z :=
  [4; 0; 72; 24; 72; 0; 0; 0;  1; 0; 7; 0] ++ replicate 28 0 ++ [8; 0; 0; 0; 0; 0; 0; 90] ++ replicate 80 0.

(** The command is received, and the core answers it with the error. *)
Definition ex_nomem : option nvmet_tcp_queue :=
  '(_, q) ← nvmet_tcp_done_recv_pdu (ne := ex_nomem_env) (ex_tq <| nt_pdu := ex_r2t_pdu |>);
  core_respond [] [] 0 NVME_SC_INTERNAL q.

(** [nvmet_tcp_map_data] freed the scatter list and failed; after the answer was
    sent the scatter list would be freed again. *)
Lemma iovec_failure_double_free :
  exists q cmd, ex_nomem = Some q /\ fifo q = [0] /\ nt_cmds q !! 0 = Some cmd
    /\ nr_sg cmd = Some 0%nat /\ nt_sgls q !! 0%nat = None
    /\ nvmet_tcp_try_send (ne := ex_nomem_env) ex_params 8 0 q = None.
Proof. do 2 eexists. split; [vm_compute; reflexivity|]. repeat split. Qed.

(** A socket that fails although it reports room. *)
Definition ex_reset_env : NvmetEnv := {|
  sgl_alloc n len := Some (ex_sgl n len);
  kmalloc_ok _ := true;
  tgt_sendpage _ v := iov_len v;
  tgt_sendmsg _ _ _ := -104;
  tgt_wspace _ := 4194304;
  ahash_err _ := -2;
  page_data _ _ := 0;
  nvmet_req_init nc := (None, sgl_length nc);
|}.

(** The response is gone: nothing was sent, nothing is left to send. *)
Lemma failed_caravan_lost :
  exists ret sends' q', nvmet_tcp_try_send (ne := ex_reset_env) ex_params 8 0 ex_w3 = Some (ret, sends', q')
    /\ fifo ex_w3 = [0] /\ length (answer ex_w3 0) = 24%nat
    /\ nt_wire q' = nt_wire ex_w3 /\ fifo q' = [] /\ nt_snd_cmd q' = None /\ nt_caravan_len q' = 0.
Proof. do 3 eexists. split; [vm_compute; reflexivity|]. repeat split. Qed.

(** A write of two pages, of which 100 bytes have arrived: a data PDU with the next
    four bytes. *)
Definition ex_unaligned : nvmet_tcp_cmd :=
  zero_cmd <| nr_cmd := mk_nvme_cmd 1 0 7 0 8192 |> <| nr_data_len := 8192 |> <| nr_transfer_len := 8192 |>
    <| nr_sg := Some 5%nat |> <| nc_iov := Some 6%nat |> <| nc_cur_sg := Some 0%nat |>
    <| nc_rbytes_done := 100 |> <| nc_pdu_len := 4 |>.

(** The iterator points into the second page, not to byte 100 of the first. *)
Lemma map_iovec_misplaced :
  exists q' cmd', nvmet_tcp_map_pdu_iovec 0 (ex_tq <| nt_cmds := {[0 := ex_unaligned]} |>
      <| nt_sgls := {[5%nat := ex_sgl 5 8192]} |> <| nt_live := [6]%nat |>) = Some q'
    /\ nt_cmds q' !! 0 = Some cmd'
    /\ take 1 (nc_recv_msg cmd') = [(5000001, 100)]
    /\ take 1 (drop 100 (sg_places (ex_sgl 5 8192))) = [(5000000, 100)].
Proof. do 2 eexists. split; [vm_compute; reflexivity|]. repeat split. Qed.

(** ** Steering between two cores *)

Definition ex_steer : steer_env := mk_steer_env 2 1 1000 50 200.
Definition ex_lane (idx cpu rmem class : Z) : nvmet_tcp_queue :=
  (zero_queue 0 0) <| nt_idx := idx |> <| nt_qid := idx |> <| nt_cpu := cpu |> <| nt_orig_cpu := cpu |>
    <| nt_rmem := rmem |> <| nt_prio_class := class |>.
Definition ex_lanes : list nvmet_tcp_queue := [ex_lane 3 0 2000 1; ex_lane 1 0 100000 0; ex_lane 4 1 500 1].

Lemma ex_machine : machine_ok ex_steer.
Proof. by split. Qed.

(** The cores of the lanes afterwards. *)
Definition steered_cpus : list Z :=
  match steer ex_params ex_steer 0 ex_lanes (mk_port 0 0) with Some (l, _) => nt_cpu <$> l | None => [] end.

Lemma ex_steered : steered_cpus = [1; 0; 1].
Proof. vm_compute. reflexivity. Qed.

Lemma ex_lanes_placed : Forall (placed ex_steer) ex_lanes.
Proof. repeat constructor; simpl; lia || done. Qed.

Lemma target_steering_choice_witness :
  exists l' p', steer ex_params ex_steer 0 ex_lanes (mk_port 0 0) = Some (l', p') /\ Forall (placed ex_steer) l'.
Proof.
  destruct (target_steering_choice ex_params ex_steer ex_machine 0 ex_lanes (mk_port 0 0) (ex_lane 3 0 2000 1)
    ex_lanes_placed eq_refl ltac:(vm_compute; reflexivity)) as (p' & q2 & cpu & _ & _ & H3 & H4).
  exact (ex_intro _ _ (ex_intro _ p' (conj H3 H4))).
Defined.

(** ** Connections *)

Definition ex_ida (l : list Z) : Z := foldr (fun x m => Z.max (x + 1) m) 0 l.
Definition ex_tenv : TgtEnv := {|
  tgt_driver := NVMET_TCP; tgt_ret _ := 0; rcv_tos := 0; ida_simple_get _ l := ex_ida l;
  cpumask_next_wrap n := if n + 1 <? 2 then n + 1 else 0;
  NvmetTcpQueue.num_online_cpus := 2; num_online_nodes := 1; sizeof_pdu_union := 128;
  nvmet_sq_destroy q := q <| nt_ctrl := None |>;
  flush_io_works q := q <| nt_io_work := None |> <| nt_io_work_lat := None |>;
|}.

Lemma ex_tidle_laws : TgtIdleLaws ex_tenv.
Proof.
  split; [|done|done]. intros n l. right. simpl. intros H.
  assert (forall x, x ∈ l -> x < ex_ida l) as Hall; [|specialize (Hall _ H); lia].
  clear. induction l as [|y l IH]; intros x Hx; [by apply elem_of_nil in Hx|]. simpl.
  apply elem_of_cons in Hx as [->|Hx]; [lia|]. specialize (IH x Hx). lia.
Qed.

Lemma ex_tcpu_laws : TgtCpuLaws ex_tenv.
Proof. by split. Qed.

#[local] Existing Instance ex_tenv.
#[local] Existing Instance ex_tidle_laws.
#[local] Existing Instance ex_tcpu_laws.

(** A port (object 0) that accepted a connection (object 1). *)
Definition ex_target : target := mk_target [1; 0]%nat 2 0 [] [] None None true.
Definition ex_tport : tgt_port := mk_tport 0 None (-1) 16384 true false.

Lemma ex_below : below (tg_allocs ex_target) (tg_live ex_target).
Proof. intros m Hm. simpl in Hm |- *. set_solver by lia. Qed.

Lemma target_queue_alloc_witness :
  exists ret o p' g', nvmet_tcp_alloc_queue ex_tport 1 ex_target = Some (ret, o, p', g')
    /\ (alloc_failed ex_target ret o g' \/ alloc_done 1 2 ex_target ret o g').
Proof. apply (target_queue_alloc ex_tport 1 ex_target). apply ex_below. Defined.

Lemma target_release_leaks_caravan_witness :
  exists q p' g' g'', nvmet_tcp_alloc_queue ex_tport 1 ex_target = Some (0, Some q, p', g')
    /\ nvmet_tcp_release_queue_work q g' = Some g'' /\ tg_live g'' = [5; 4; 3; 0]%nat.
Proof.
  destruct (nvmet_tcp_alloc_queue ex_tport 1 ex_target) as [[[[ret o] p'] g']|] eqn:E; [|vm_compute in E; discriminate E].
  assert (ret = 0) as -> by (vm_compute in E; congruence).
  destruct (target_release_leaks_caravan ex_tport 1 ex_target 0 o p' g') as (q & g'' & -> & H1 & H2 & _).
  - apply ex_below.
  - clear. apply list_elem_of_here.
  - clear. intros q Hq. apply elem_of_nil in Hq. destruct Hq.
  - exact E.
  - reflexivity.
  - exists q, p', g', g''. split; [done|]. split; [done|]. rewrite H2.
    assert (arrays_left q = [5; 4; 3]%nat) as ->; [|reflexivity].
    vm_compute in E. injection E as <- _ _. vm_compute. reflexivity.
Defined.

(** ** The lanes of a host with two CPUs *)

Definition ex_accepted : list nvmet_tcp_queue := (fun i => (zero_queue 0 0) <| nt_idx := i |>) <$> [0; 1; 2; 3; 4].

Lemma target_lane_placement_witness :
  Forall (placed ex_steer) (place_all ex_tport ex_accepted)
  /\ (nt_cpu <$> place_all ex_tport ex_accepted) = [0; 0; 1; 1; 0]
  /\ (nt_prio_class <$> place_all ex_tport ex_accepted) = [0; 0; 0; 1; 1].
Proof.
  destruct (target_lane_placement ex_tport ex_accepted ex_steer) as [H _].
  - reflexivity.
  - intros i q Hq. do 5 (destruct i as [|i]; [injection Hq as <-; reflexivity|]). discriminate Hq.
  - reflexivity.
  - reflexivity.
  - split; [exact H|]. split; vm_compute; reflexivity.
Defined.

(** ** A handshake with both digests *)

#[local] Existing Instance ex_iov.
#[local] Existing Instance ex_iov_laws.
#[local] Existing Instance ex_sock.
#[local] Existing Instance ex_sock_laws.

Definition ex_ctrl_env : CtrlEnv := life_env 0 [].

Lemma ex_same_header : SameHeader ex_ctrl_env ex_nproto.
Proof. by split. Qed.

#[local] Existing Instance ex_ctrl_env.
#[local] Existing Instance ex_same_header.

Definition ex_hq : tcp_queue := NvmeTcpConn.new_queue <| tq_hdr_digest := true |> <| tq_data_digest := true |>.
Definition ex_icreq_bytes : list Z := [0; 0; 128; 0; 128; 0; 0; 0; 0; 0; 0; 3] ++ replicate 116 0.
Definition ex_connecting : nvmet_tcp_queue := (zero_queue 128 0) <| nt_pdu := ex_icreq_bytes |>.

Lemma handshake_agrees_witness :
  exists t' r, nvmet_tcp_done_recv_pdu ex_connecting = Some (0, t') /\ nt_state t' = NVMET_TCP_Q_LIVE
    /\ nt_hdr_digest t' = true /\ nt_data_digest t' = true /\ nt_icresp t' = Some r
    /\ check_icresp ex_hq (seen_icresp r) = 0.
Proof.
  destruct (handshake_agrees ex_hq ex_connecting) as (t' & r & H1 & H2 & H3 & H4 & _ & H5 & H6).
  - reflexivity.
  - split; vm_compute; reflexivity.
  - reflexivity.
  - intros n v. simpl. lia.
  - intros r. vm_compute. discriminate.
  - exists t', r. exact (conj H1 (conj H2 (conj H3 (conj H4 (conj H5 H6))))).
Defined.

(** ** A write of a page that waits for its data *)

Definition ex_wait : nvmet_tcp_cmd :=
  zero_cmd <| nr_cmd := mk_nvme_cmd 1 0 7 0 4096 |> <| nr_data_len := 4096 |> <| nr_transfer_len := 4096 |>
    <| nr_sg := Some 5%nat |> <| nc_iov := Some 6%nat |> <| nc_cur_sg := Some 0%nat |>.
Definition ex_waiting : nvmet_tcp_queue :=
  ex_tq <| nt_cmds := {[0 := ex_wait]} |> <| nt_sgls := {[5%nat := ex_sgl 5 4096]} |> <| nt_live := [6]%nat |>
    <| nt_allocs := 7%nat |>.

Lemma ex_awaitable : awaitable ex_waiting 0 ex_wait.
Proof.
  constructor; try done. exists (ex_sgl 5 4096). split; [reflexivity|].
  apply (@sgl_alloc_ok _ _ ex_nalloc_laws 5 4096); [lia|reflexivity].
Qed.

Lemma r2t_answered_witness :
  exists t1 cmd1 q' req',
    nvmet_setup_r2t_pdu 0 ex_waiting = Some t1 /\ nt_cmds t1 !! 0 = Some cmd1
    /\ handle_r2t_req ex_host (h_data_length (nc_r2t_pdu cmd1)) (h_data_offset (nc_r2t_pdu cmd1))
         (h_ttag (nc_r2t_pdu cmd1)) 5 ex_idle = Some (0, q')
    /\ reqs q' !! 5 = Some req'.
Proof.
  destruct (r2t_answered ex_host ex_idle 5 ex_write ex_waiting 0 ex_wait) as (t1 & cmd1 & q' & req' & H1 & H2 & H3 & H4 & _).
  - apply ex_idle_wf.
  - reflexivity.
  - simpl. by intros ?%elem_of_nil.
  - reflexivity.
  - constructor; try done. split; [done|apply ex_bio_wf].
  - reflexivity.
  - apply ex_awaitable.
  - lia.
  - reflexivity.
  - exists 6%nat. split; [reflexivity|]. simpl. set_solver.
  - reflexivity.
  - reflexivity.
  - exists t1, cmd1, q', req'. exact (conj H1 (conj H2 (conj H3 H4))).
Defined.

(** ** A header with a wrong digest *)

Definition ex_corrupt : list Z := [4; 1; 8; 0; 0; 0; 0; 0;  222; 173; 190; 239;  0; 0; 0; 0].

Lemma target_hdgst_unchecked_witness :
  exists pdu', nvmet_tcp_verify_hdgst ex_corrupt (pdu_hlen ex_corrupt + NVME_TCP_DIGEST_LENGTH) = Some (0, pdu').
Proof. apply (target_hdgst_unchecked ex_corrupt); [reflexivity|reflexivity|vm_compute; discriminate|vm_compute; discriminate]. Defined.
