(* ===== verification/I10Target.v ===== *)
(** * The i10 target

    drivers/nvme/target/i10.c is the driver that nvme/target/tcp.c was extended from
    for blk-switch.  Its queues are those of NvmetTcp.v without class ([nt_prio_class]
    is 0), steering and second work item; it always aggregates and its budgets are
    constants.  Most of its code is, up to the prefix of the names, that of tcp.c, and
    stands here for the parameters [i10_params]; the definitions of NvmetTcpQueue.v
    that differ are those of the driver [I10_TARGET]. *)
From S2P Require Import Prelude NvmeTcp NvmeTcpSend NvmeTcpRecv NvmeTcpWork.
From S2P Require Import NvmetTcp NvmetTcpSend NvmetTcpRecv NvmetTcpSteer NvmetTcpWork NvmetTcpQueue.

Definition I10_TARGET_RECV_BUDGET : Z := 16.
Definition I10_TARGET_IO_WORK_BUDGET : Z := 64.
Definition i10_params : nvmet_params :=
  mk_params I10_TARGET_RECV_BUDGET I10_TARGET_SEND_BUDGET I10_TARGET_IO_WORK_BUDGET true false false.

(** ** Commands and PDUs *)

Section cmds.
Context {pr : NvmeTcpProto} {pt : NvmetProto} {ne : NvmetEnv} {ly : PduLayout} {cl : CmdLayout}.

Definition i10_target_cmd_tag (c : Z) : option Z := nvmet_tcp_cmd_tag c.
Definition i10_target_has_data_in (cmd : nvmet_tcp_cmd) : bool := nvmet_tcp_has_data_in cmd.
Definition i10_target_need_data_in (cmd : nvmet_tcp_cmd) : bool := nvmet_tcp_need_data_in cmd.
Definition i10_target_need_data_out (cmd : nvmet_tcp_cmd) : bool := nvmet_tcp_need_data_out cmd.
Definition i10_target_has_inline_data (cmd : nvmet_tcp_cmd) : bool := nvmet_tcp_has_inline_data cmd.
Definition i10_target_get_cmd (q : nvmet_tcp_queue) : option (option Z * nvmet_tcp_queue) := nvmet_tcp_get_cmd q.
Definition i10_target_put_cmd (c : Z) (q : nvmet_tcp_queue) : nvmet_tcp_queue := nvmet_tcp_put_cmd c q.
Definition i10_target_hdgst_len (q : nvmet_tcp_queue) : Z := nvmet_tcp_hdgst_len q.
Definition i10_target_ddgst_len (q : nvmet_tcp_queue) : Z := nvmet_tcp_ddgst_len q.
Definition i10_target_hdgst (pdu : list Z) (len : Z) : option (list Z) := nvmet_tcp_hdgst pdu len.
Definition i10_target_verify_hdgst (pdu : list Z) (len : Z) : option (Z * list Z) := nvmet_tcp_verify_hdgst pdu len.
Definition i10_target_check_ddgst (q : nvmet_tcp_queue) (pdu : list Z) : Z := nvmet_tcp_check_ddgst q pdu.
Definition i10_target_unmap_pdu_iovec (c : Z) (q : nvmet_tcp_queue) : option nvmet_tcp_queue :=
  nvmet_tcp_unmap_pdu_iovec c q.
Definition i10_target_map_pdu_iovec (c : Z) (q : nvmet_tcp_queue) : option nvmet_tcp_queue :=
  nvmet_tcp_map_pdu_iovec c q.
Definition i10_target_fatal_error (q : nvmet_tcp_queue) : nvmet_tcp_queue := nvmet_tcp_fatal_error q.
Definition i10_target_map_data (c : Z) (q : nvmet_tcp_queue) : option (Z * nvmet_tcp_queue) := nvmet_tcp_map_data c q.
Definition i10_target_ddgst (c : Z) (q : nvmet_tcp_queue) : option nvmet_tcp_queue := nvmet_tcp_ddgst c q.
Definition i10_target_setup_c2h_data_pdu (c : Z) (q : nvmet_tcp_queue) : option nvmet_tcp_queue :=
  nvmet_setup_c2h_data_pdu c q.
Definition i10_target_setup_r2t_pdu (c : Z) (q : nvmet_tcp_queue) : option nvmet_tcp_queue := nvmet_setup_r2t_pdu c q.
Definition i10_target_setup_response_pdu (c : Z) (q : nvmet_tcp_queue) : option nvmet_tcp_queue :=
  nvmet_setup_response_pdu c q.

(** ** Sending *)

Definition i10_target_process_resp_list (q : nvmet_tcp_queue) : nvmet_tcp_queue := nvmet_tcp_process_resp_list q.
Definition i10_target_is_admin_queue (q : nvmet_tcp_queue) : bool := nt_qid q =? 0.
Definition i10_target_is_caravan_full (q : nvmet_tcp_queue) : bool := NvmetTcpSend.i10_target_is_caravan_full q.
Definition i10_target_fetch_cmd (q : nvmet_tcp_queue) : option (option Z * nvmet_tcp_queue) := nvmet_tcp_fetch_cmd q.
Definition i10_target_queue_response (c : Z) (q : nvmet_tcp_queue) : nvmet_tcp_queue :=
  q <| nt_resp_list ::= cons c |> <| nt_io_work ::= queue_work_on (nt_cpu q) |>.
Definition i10_target_try_send_data_pdu (c : Z) (q : nvmet_tcp_queue) : option (Z * nvmet_tcp_queue) :=
  nvmet_try_send_data_pdu i10_params c q.
Definition i10_target_try_send_data (c : Z) (q : nvmet_tcp_queue) : option (Z * nvmet_tcp_queue) :=
  nvmet_try_send_data i10_params c q.
Definition i10_target_try_send_response (c : Z) (q : nvmet_tcp_queue) : option (Z * nvmet_tcp_queue) :=
  nvmet_try_send_response i10_params c q.
Definition i10_target_try_send_r2t (c : Z) (q : nvmet_tcp_queue) : option (Z * nvmet_tcp_queue) :=
  nvmet_try_send_r2t i10_params c q.
Definition i10_target_try_send_ddgst (c : Z) (q : nvmet_tcp_queue) : option (Z * nvmet_tcp_queue) :=
  nvmet_try_send_ddgst c q.
Definition i10_target_try_send_one (q : nvmet_tcp_queue) : option (Z * nvmet_tcp_queue) :=
  nvmet_tcp_try_send_one i10_params q.
Definition i10_target_sndbuf_nospace (q : nvmet_tcp_queue) (length : Z) : bool :=
  NvmetTcpSend.i10_target_sndbuf_nospace q length.
Definition i10_target_try_send (budget sends : Z) (q : nvmet_tcp_queue) : option (Z * Z * nvmet_tcp_queue) :=
  nvmet_tcp_try_send i10_params budget sends q.

(** ** Receiving *)

Definition i10_target_prepare_receive_pdu (q : nvmet_tcp_queue) : nvmet_tcp_queue := nvmet_prepare_receive_pdu q.
Definition i10_target_free_crypto (q : nvmet_tcp_queue) : option nvmet_tcp_queue := nvmet_tcp_free_crypto q.
Definition i10_target_alloc_crypto (q : nvmet_tcp_queue) : option (Z * nvmet_tcp_queue) := nvmet_tcp_alloc_crypto q.
Definition i10_target_handle_icreq (q : nvmet_tcp_queue) : option (Z * nvmet_tcp_queue) := nvmet_tcp_handle_icreq q.
Definition i10_target_handle_req_failure (c : Z) (q : nvmet_tcp_queue) : option nvmet_tcp_queue :=
  nvmet_tcp_handle_req_failure c q.
Definition i10_target_handle_h2c_data_pdu (q : nvmet_tcp_queue) : option (Z * nvmet_tcp_queue) :=
  nvmet_tcp_handle_h2c_data_pdu q.
Definition i10_target_done_recv_pdu (q : nvmet_tcp_queue) : option (Z * nvmet_tcp_queue) := nvmet_tcp_done_recv_pdu q.
Definition i10_target_pdu_size (type : Z) : Z := nvmet_tcp_pdu_size type.
Definition i10_target_pdu_valid (type : Z) : bool := nvmet_tcp_pdu_valid type.
Definition i10_target_try_recv_pdu (q : nvmet_tcp_queue) : option (Z * nvmet_tcp_queue) := nvmet_tcp_try_recv_pdu q.
Definition i10_target_prep_recv_ddgst (c : Z) (q : nvmet_tcp_queue) : option nvmet_tcp_queue :=
  nvmet_tcp_prep_recv_ddgst c q.
Definition i10_target_try_recv_data (q : nvmet_tcp_queue) : option (Z * nvmet_tcp_queue) := nvmet_tcp_try_recv_data q.
Definition i10_target_finish_cmd (c : Z) (q : nvmet_tcp_queue) : option nvmet_tcp_queue := nvmet_tcp_finish_cmd c q.
Definition i10_target_try_recv_ddgst (q : nvmet_tcp_queue) : option (Z * nvmet_tcp_queue) := nvmet_tcp_try_recv_ddgst q.
Definition i10_target_try_recv_one (q : nvmet_tcp_queue) : option (Z * nvmet_tcp_queue) := nvmet_tcp_try_recv_one q.
Definition i10_target_try_recv (budget recvs : Z) (q : nvmet_tcp_queue) : option (Z * Z * nvmet_tcp_queue) :=
  nvmet_tcp_try_recv budget recvs q.

(** ** The work and the callbacks of the socket *)

Definition i10_target_schedule_release_queue (q : nvmet_tcp_queue) : nvmet_tcp_queue :=
  nvmet_tcp_schedule_release_queue q.
Definition i10_target_io_work (q : nvmet_tcp_queue) : option nvmet_tcp_queue := nvmet_tcp_io_work i10_params q.

Definition i10_target_data_ready (q : nvmet_tcp_queue) : nvmet_tcp_queue :=
  if nt_user_data q then q <| nt_io_work ::= queue_work_on (nt_cpu q) |> else q.

Definition i10_target_write_space (writeable : bool) (q : nvmet_tcp_queue) : nvmet_tcp_queue :=
  if negb (nt_user_data q) || bool_decide (nt_state q = NVMET_TCP_Q_CONNECTING) then q
  else if writeable then q <| nt_nospace := false |> <| nt_io_work ::= queue_work_on (nt_cpu q) |> else q.

Definition i10_target_state_change (st : sock_state) (q : nvmet_tcp_queue) : nvmet_tcp_queue :=
  nvmet_tcp_state_change st q.

(** ** Connections, ports and the module *)

Context {te : TgtEnv}.

Definition i10_target_alloc_cmd (c : Z) (q : nvmet_tcp_queue) : option (Z * nvmet_tcp_queue) := nvmet_tcp_alloc_cmd c q.
Definition i10_target_free_cmd (c : Z) (q : nvmet_tcp_queue) : option nvmet_tcp_queue := nvmet_tcp_free_cmd c q.
Definition i10_target_alloc_cmds (q : nvmet_tcp_queue) : option (Z * nvmet_tcp_queue) := nvmet_tcp_alloc_cmds q.
Definition i10_target_free_cmds (q : nvmet_tcp_queue) : option nvmet_tcp_queue := nvmet_tcp_free_cmds q.
Definition i10_target_install_queue (size : Z) (q : nvmet_tcp_queue) : option (Z * nvmet_tcp_queue) :=
  nvmet_tcp_install_queue size q.
Definition i10_target_restore_socket_callbacks (q : nvmet_tcp_queue) : nvmet_tcp_queue :=
  nvmet_tcp_restore_socket_callbacks q.
Definition i10_target_uninit_data_in_cmds (q : nvmet_tcp_queue) : option nvmet_tcp_queue :=
  nvmet_tcp_uninit_data_in_cmds q.
Definition i10_target_set_queue_sock (q : nvmet_tcp_queue) (g : target) : Z * nvmet_tcp_queue * target :=
  nvmet_tcp_set_queue_sock q g.

(** The environment with this driver. *)
Definition i10_tenv : TgtEnv :=
  {| tgt_driver := I10_TARGET; tgt_ret := tgt_ret; rcv_tos := rcv_tos; ida_simple_get := ida_simple_get;
     cpumask_next_wrap := cpumask_next_wrap; num_online_cpus := NvmetTcpQueue.num_online_cpus;
     num_online_nodes := num_online_nodes; sizeof_pdu_union := sizeof_pdu_union;
     nvmet_sq_destroy := nvmet_sq_destroy; flush_io_works := flush_io_works |}.

Definition i10_target_release_queue_work (q : nvmet_tcp_queue) (g : target) : option target :=
  nvmet_tcp_release_queue_work (te := i10_tenv) q g.
Definition i10_target_alloc_queue (p : tgt_port) (newsock : nat) (g : target)
  : option (Z * option nvmet_tcp_queue * tgt_port * target) := nvmet_tcp_alloc_queue (te := i10_tenv) p newsock g.
Definition i10_target_accept_work (socks : list nat) (p : tgt_port) (g : target) : option (tgt_port * target) :=
  nvmet_tcp_accept_work (te := i10_tenv) socks p g.
Definition i10_target_listen_data_ready (user_data : bool) (st : sock_state) (p : tgt_port) : tgt_port :=
  nvmet_tcp_listen_data_ready user_data st p.
Definition i10_target_add_port (af : adrfam) (inline_data_size : Z) (g : target) : option (Z * option tgt_port * target) :=
  nvmet_tcp_add_port af inline_data_size g.
Definition i10_target_remove_port (p : tgt_port) (g : target) : option target := nvmet_tcp_remove_port p g.
Definition i10_target_delete_ctrl (ctrl : Z) (g : target) : target := nvmet_tcp_delete_ctrl ctrl g.
Definition i10_target_disc_port_addr {A} (addr_is_any : bool) (queue_sockaddr disc_traddr : A) : A :=
  nvmet_tcp_disc_port_addr addr_is_any queue_sockaddr disc_traddr.

Definition i10_target_init (g : target) : option (Z * target) :=
  let '(wq, g) := gmalloc g in
  let g := g <| tg_wq := wq |> in
  match wq with
  | None => Some (- ENOMEM, g)
  | Some _ =>
    let '(ret, g) := tcall g in
    if c_true ret then g ← gfree wq g; Some (ret, g) else Some (0, g <| tg_registered := true |>)
  end.

Definition i10_target_exit (flush_scheduled_work : target -> option target) (g : target) : option target :=
  g ← flush_scheduled_work (g <| tg_registered := false |>);
  g ← flush_scheduled_work (shutdown_all g);
  gfree (tg_wq g) g.
End cmds.

(** ** A queue without class *)

Section class.
Context {pr : NvmeTcpProto} {pt : NvmetProto} {ne : NvmetEnv} {ly : PduLayout} {te : TgtEnv}.
Implicit Types q : nvmet_tcp_queue.

(** On such a queue the conditions of tcp.c are those of i10.c. *)
Lemma i10_aggregated q : nt_prio_class q = 0 -> aggregated i10_params q = negb (i10_target_is_admin_queue q).
Proof.
  intros Hc. unfold aggregated, NvmetTcp.i10_target_is_admin_queue. rewrite Hc. simpl. by rewrite orb_false_r.
Qed.

Lemma i10_queue_work q :
  nt_prio_class q = 0 -> queue_nvmet_work q = q <| nt_io_work ::= queue_work_on (nt_cpu q) |>.
Proof. intros Hc. unfold queue_nvmet_work, i10_target_is_latency. by rewrite Hc. Qed.

Lemma i10_queue_response_eq c q :
  nt_prio_class q = 0 -> nvmet_tcp_queue_response c q = i10_target_queue_response c q.
Proof. intros Hc. unfold nvmet_tcp_queue_response. by rewrite i10_queue_work. Qed.

Lemma i10_write_space_eq w q :
  nt_prio_class q = 0 -> nvmet_tcp_write_space w q = i10_target_write_space w q.
Proof.
  intros Hc. unfold nvmet_tcp_write_space, i10_target_write_space. by rewrite i10_queue_work.
Qed.

(** A new queue has none. *)
Lemma i10_place_class p q : nt_prio_class (place (te := i10_tenv) p q).2 = nt_prio_class q.
Proof. done. Qed.
End class.
