(* ===== verification/NvmeRdmaConn.v ===== *)
(** * Connections of the NVMe/RDMA host

    Devices with their references, the ring of answers, the RDMA objects of a queue,
    the handler of connection events and the allocation, start, stop and release of a
    queue (drivers/nvme/host/rdma.c), over the heap of NvmeTcpConn.v.  The connection
    manager is the class [RdmaCm]: it delivers the events of [cm_events] that it may
    deliver after the last call that succeeded. *)
From S2P Require Import Prelude MqTypes BlkMqTagSet NvmeTcpMap NvmeTcpConn.

Definition NVME_RDMA_MAX_SEGMENTS : Z := 256.
Definition MAX_INLINE_SEGMENTS : Z := 4.
Definition ECONNREFUSED : Z := 111.
Definition ETIMEDOUT : Z := 110.

(** struct nvme_rdma_device; [rd_self] is the object itself. *)
Record rdma_device := mk_rdev {
  rd_self : Z;
  rd_pd : Z;
  rd_guid : Z;
  rd_ref : Z;
  rd_inline : Z;  (* num_inline_segments *)
}.
#[export] Instance rdma_device_eta : Settable rdma_device := {| eta_expand := fun r =>
  mk_rdev (rd_self r) (rd_pd r) (rd_guid r) (rd_ref r) (rd_inline r) |}.

(** The list of devices and the heap. *)
Record rdma_world := mk_rw {
  rw_devs : list rdma_device;  (* device_list *)
  rw_w : world;
}.
#[export] Instance rdma_world_eta : Settable rdma_world := {| eta_expand := fun r => mk_rw (rw_devs r) (rw_w r) |}.

(** The last call of the connection manager that succeeded and is not answered. *)
Inductive cm_call := CM_NONE | CM_RESOLVE_ADDR | CM_RESOLVE_ROUTE | CM_CONNECT.

Inductive cm_event :=
| ADDR_RESOLVED | ADDR_ERROR | ROUTE_RESOLVED | ROUTE_ERROR | CONNECT_ERROR | UNREACHABLE | REJECTED | ESTABLISHED
| DISCONNECTED | ADDR_CHANGE | TIMEWAIT_EXIT | DEVICE_REMOVAL | OTHER_EVENT.

Class RdmaCm := {
  cm_guid : nat -> Z;  (* device of the address *)
  dev_max_sge : Z -> Z;  (* attributes of a device *)
  dev_mem_mgt : Z -> bool;
  dev_fr_len : Z -> Z;
  cm_events : nat -> list cm_event;
  cm_deliverable : cm_call -> cm_event -> bool;
  cm_wait : nat -> bool -> Z;  (* wait_for_completion_interruptible_timeout *)
}.

(** struct nvme_rdma_qe: the buffer and its mapping. *)
Record rdma_qe := mk_qe {
  qe_data : option Z;
  qe_dma : option Z;
}.

(** The parameters of [rdma_create_qp] and of [ib_alloc_cq]. *)
Record qp_attr := mk_attr {
  max_send_wr : Z;
  max_recv_wr : Z;
  max_send_sge : Z;
  nr_cqe : Z;
  cq_vector : Z;
  cq_direct : bool;
}.

Record rdma_queue := mk_rdq {
  rq_allocated : bool;
  rq_live : bool;
  rq_tr_ready : bool;
  rq_size : Z;
  rq_capsule_len : Z;
  rq_device : option Z;
  rq_cq : option Z;
  rq_qp : option Z;
  rq_ring : option Z;
  rq_elems : list rdma_qe;  (* elements of the ring *)
  rq_pool : option Z;  (* qp->rdma_mrs *)
  rq_attr : qp_attr;
  rq_cm_id : option Z;
  rq_asked : cm_call;
  rq_cm_error : Z;
  rq_cm_done : bool;
  rq_recovery : bool;  (* error recovery was asked for *)
}.
#[export] Instance rdma_queue_eta : Settable rdma_queue := {| eta_expand := fun r =>
  mk_rdq (rq_allocated r) (rq_live r) (rq_tr_ready r) (rq_size r) (rq_capsule_len r) (rq_device r) (rq_cq r) (rq_qp r)
    (rq_ring r) (rq_elems r) (rq_pool r) (rq_attr r) (rq_cm_id r) (rq_asked r) (rq_cm_error r) (rq_cm_done r) (rq_recovery r) |}.

(** What a queue reads of its controller. *)
Record rdma_ctx := mk_rctx {
  rx_idx : Z;
  rx_io_queues : list Z;
  rx_ioccsz : Z;
  rx_sqsize : Z;
  rx_tos : bool;
  rx_command_size : Z;
  rx_aq_depth : Z;
}.

Section conn.
Context {ce : CtrlEnv} {cm : RdmaCm} (cx : rdma_ctx).

(** ** The heap *)

Definition rw_new (ok : nat -> bool) (m : rdma_world) : option Z * rdma_world :=
  let '(p, w) := new_obj ok (rw_w m) in (p, m <| rw_w := w |>).
Definition rw_release (p : option Z) (m : rdma_world) : option rdma_world :=
  w ← release p (rw_w m); Some (m <| rw_w := w |>).
Definition rw_use (p : option Z) (m : rdma_world) : option rdma_world :=
  w ← use p (rw_w m); Some (m <| rw_w := w |>).
Definition rw_call (m : rdma_world) : Z * rdma_world :=
  let '(ret, w) := call (rw_w m) in (ret, m <| rw_w := w |>).

(** ** Elements and the ring of answers *)

Definition nvme_rdma_free_qe (e : rdma_qe) (m : rdma_world) : option rdma_world :=
  m ← rw_release (qe_dma e) m; rw_release (qe_data e) m.

Definition nvme_rdma_alloc_qe (m : rdma_world) : option (option rdma_qe * rdma_world) :=
  let '(data, m) := rw_new alloc_ok m in
  match data with
  | None => Some (None, m)
  | Some _ =>
    let '(dma, m) := rw_new alloc_ok m in
    match dma with
    | None => m ← rw_release data m; Some (None, m)
    | Some _ => Some (Some (mk_qe data dma), m)
    end
  end.

Fixpoint free_elems (l : list rdma_qe) (m : rdma_world) : option rdma_world :=
  match l with [] => Some m | e :: l => m ← nvme_rdma_free_qe e m; free_elems l m end.

(** The first [n] elements; there have to be as many. *)
Definition nvme_rdma_free_ring (ring : option Z) (l : list rdma_qe) (n : Z) (m : rdma_world) : option rdma_world :=
  if Z.of_nat (length l) <? n then None
  else m ← free_elems (take (Z.to_nat n) l) m; rw_release ring m.

(** The loop over the elements that are left, with those allocated so far. *)
Fixpoint alloc_elems (n : nat) (l : list rdma_qe) (m : rdma_world) : option (bool * list rdma_qe * rdma_world) :=
  match n with
  | O => Some (true, l, m)
  | S n =>
    '(e, m) ← nvme_rdma_alloc_qe m;
    match e with None => Some (false, l, m) | Some e => alloc_elems n (l ++ [e]) m end
  end.

Definition nvme_rdma_alloc_ring (n : Z) (m : rdma_world) : option (option Z * list rdma_qe * rdma_world) :=
  let '(ring, m) := rw_new alloc_ok m in
  match ring with
  | None => Some (None, [], m)
  | Some _ =>
    '(ok, l, m) ← alloc_elems (Z.to_nat n) [] m;
    if ok : bool then Some (ring, l, m)
    else m ← nvme_rdma_free_ring ring l (Z.of_nat (length l)) m; Some (None, [], m)
  end.

(** ** Devices *)

Definition nvme_rdma_dev_get (d : rdma_device) : bool := c_true (rd_ref d).

(** [nvme_rdma_dev_put] with [nvme_rdma_free_dev] for the last reference. *)
Fixpoint dev_put (self : Z) (l : list rdma_device) : option (list rdma_device * option rdma_device) :=
  match l with
  | [] => None
  | d :: l =>
    if rd_self d =? self
    then if rd_ref d =? 1 then Some (l, Some d) else Some (d <| rd_ref ::= Z.pred |> :: l, None)
    else '(l, o) ← dev_put self l; Some (d :: l, o)
  end.

Definition nvme_rdma_free_dev (d : rdma_device) (m : rdma_world) : option rdma_world :=
  m ← rw_release (Some (rd_pd d)) m; rw_release (Some (rd_self d)) m.

Definition nvme_rdma_dev_put (p : option Z) (m : rdma_world) : option rdma_world :=
  self ← p;
  '(l, last) ← dev_put self (rw_devs m);
  let m := m <| rw_devs := l |> in
  match last with None => Some m | Some d => nvme_rdma_free_dev d m end.

(** A device of the list with this identifier gets another reference. *)
Fixpoint find_get (guid : Z) (l : list rdma_device) : option (Z * list rdma_device) :=
  match l with
  | [] => None
  | d :: l =>
    if (rd_guid d =? guid) && nvme_rdma_dev_get d then Some (rd_self d, d <| rd_ref ::= Z.succ |> :: l)
    else '(p, l) ← find_get guid l; Some (p, d :: l)
  end.

Definition nvme_rdma_find_get_device (guid : Z) (m : rdma_world) : option (option Z * rdma_world) :=
  match find_get guid (rw_devs m) with
  | Some (p, l) => Some (Some p, m <| rw_devs := l |>)
  | None =>
    let '(self, m) := rw_new alloc_ok m in
    match self with
    | None => Some (None, m)
    | Some i =>
      let '(pd, m) := rw_new alloc_ok m in
      match pd with
      | None => m ← rw_release self m; Some (None, m)
      | Some p =>
        if negb (dev_mem_mgt guid) then m ← rw_release pd m; m ← rw_release self m; Some (None, m)
        else Some (self, m <| rw_devs ::= cons (mk_rdev i p guid 1 (Z.min MAX_INLINE_SEGMENTS (dev_max_sge guid - 1))) |>)
      end
    end
  end.

(** ** The RDMA objects of a queue *)

Definition nvme_rdma_poll_queue : option bool :=
  d ← aget (rx_io_queues cx) HCTX_TYPE_DEFAULT; r ← aget (rx_io_queues cx) HCTX_TYPE_READ;
  Some (u32 (d + r) <? rx_idx cx).

Definition nvme_rdma_get_max_fr_pages (guid : Z) : Z := Z.min NVME_RDMA_MAX_SEGMENTS (u32 (dev_fr_len guid - 1)).

Definition nvme_rdma_destroy_queue_ib (q : rdma_queue) (m : rdma_world) : option (rdma_queue * rdma_world) :=
  if negb (rq_tr_ready q) then Some (q, m)
  else
    let q := q <| rq_tr_ready := false |> in
    m ← rw_release (rq_pool q) m;
    m ← rw_release (rq_qp q) m;
    m ← rw_release (rq_cq q) m;
    m ← nvme_rdma_free_ring (rq_ring q) (rq_elems q) (rq_size q) m;
    m ← nvme_rdma_dev_put (rq_device q) m;
    Some (q, m).

(** The attributes of the queue pair and of the completion queue; a request needs up to
    three send work requests. *)
Definition send_wr_factor : Z := 3.
Definition attr_of (inline : Z) (poll : bool) (q : rdma_queue) : qp_attr :=
  mk_attr (send_wr_factor * rq_size q + 1) (rq_size q + 1) (1 + inline) ((send_wr_factor + 1) * rq_size q + 1)
    (if rx_idx cx =? 0 then 0 else rx_idx cx - 1) poll.

Definition inline_of (p : option Z) (m : rdma_world) : option Z :=
  self ← p; rd_inline <$> find (fun d => rd_self d =? self) (rw_devs m).

(** The result and the queue pair. *)
Definition nvme_rdma_create_qp (q : rdma_queue) (m : rdma_world) : option (Z * rdma_queue * rdma_world) :=
  m ← rw_use (rq_cm_id q) m;
  let '(ret, m) := rw_call m in
  if negb (ret =? 0) then Some (ret, q <| rq_qp := None |>, m)
  else let '(qp, m) := rw_new (fun _ => true) m in Some (0, q <| rq_qp := qp |>, m).

(** The labels of [nvme_rdma_create_queue_ib]. *)
Definition out_put_dev (ret : Z) (q : rdma_queue) (m : rdma_world) : option (Z * rdma_queue * rdma_world) :=
  m ← nvme_rdma_dev_put (rq_device q) m; Some (ret, q, m).
Definition out_destroy_ib_cq (ret : Z) (q : rdma_queue) (m : rdma_world) : option (Z * rdma_queue * rdma_world) :=
  m ← rw_release (rq_cq q) m; out_put_dev ret q m.
Definition out_destroy_qp (ret : Z) (q : rdma_queue) (m : rdma_world) : option (Z * rdma_queue * rdma_world) :=
  m ← rw_use (rq_cm_id q) m; m ← rw_release (rq_qp q) m; out_destroy_ib_cq ret q m.
Definition out_destroy_ring (ret : Z) (q : rdma_queue) (m : rdma_world) : option (Z * rdma_queue * rdma_world) :=
  m ← nvme_rdma_free_ring (rq_ring q) (rq_elems q) (rq_size q) m; out_destroy_qp ret q m.

Definition nvme_rdma_create_queue_ib (q : rdma_queue) (m : rdma_world) : option (Z * rdma_queue * rdma_world) :=
  let guid := cm_guid (w_calls (rw_w m)) in
  '(dev, m) ← nvme_rdma_find_get_device guid m;
  let q := q <| rq_device := dev |> in
  match dev with
  | None => Some (- ECONNREFUSED, q, m)
  | Some _ =>
    poll ← nvme_rdma_poll_queue;
    inline ← inline_of dev m;
    let q := q <| rq_attr := attr_of inline poll q |> in
    let '(cq, m) := rw_new alloc_ok m in
    match cq with
    | None => out_put_dev (ptr_err (w_calls (rw_w m))) (q <| rq_cq := Some (-1) |>) m
    | Some _ =>
      '(ret, q, m) ← nvme_rdma_create_qp (q <| rq_cq := cq |>) m;
      if negb (ret =? 0) then out_destroy_ib_cq ret q m
      else
        '(ring, l, m) ← nvme_rdma_alloc_ring (rq_size q) m;
        let q := q <| rq_ring := ring |> <| rq_elems := l |> in
        match ring with
        | None => out_destroy_qp (- ENOMEM) q m
        | Some _ =>
          let '(ret, m) := rw_call m in
          if negb (ret =? 0) then out_destroy_ring ret q m
          else
            let '(pool, m) := rw_new (fun _ => true) m in  (* ib_mr_pool_init *)
            Some (0, q <| rq_pool := pool |> <| rq_tr_ready := true |>, m)
        end
    end
  end.

(** ** Connection events *)

(** [nvme_rdma_post_recv] of the elements of the ring. *)
Fixpoint post_ring (l : list rdma_qe) (m : rdma_world) : Z * rdma_world :=
  match l with
  | [] => (0, m)
  | _ :: l => let '(ret, m) := rw_call m in if ret =? 0 then post_ring l m else (ret, m)
  end.

Definition nvme_rdma_conn_established (q : rdma_queue) (m : rdma_world) : option (Z * rdma_queue * rdma_world) :=
  if Z.of_nat (length (rq_elems q)) <? rq_size q then None
  else
    m ← rw_use (rq_qp q) m;
    let '(ret, m) := post_ring (take (Z.to_nat (rq_size q)) (rq_elems q)) m in
    if ret =? 0 then Some (0, q, m)
    else '(q, m) ← nvme_rdma_destroy_queue_ib q m; Some (ret, q, m).

(** The reason is printed. *)
Definition nvme_rdma_conn_rejected : Z := - ECONNRESET.

Definition nvme_rdma_addr_resolved (q : rdma_queue) (m : rdma_world) : option (Z * rdma_queue * rdma_world) :=
  '(ret, q, m) ← nvme_rdma_create_queue_ib q m;
  if negb (ret =? 0) then Some (ret, q, m)
  else
    let '(ret, m) := rw_call m in  (* rdma_resolve_route *)
    if negb (ret =? 0) then '(q, m) ← nvme_rdma_destroy_queue_ib q m; Some (ret, q, m)
    else Some (0, q <| rq_asked := CM_RESOLVE_ROUTE |>, m).

(** The private data of the connect request: queue, size of the receive and of the send queue. *)
Definition cm_req_of (q : rdma_queue) : Z * Z * Z :=
  let qid := u16 (rx_idx cx) in
  if qid =? 0 then (qid, u16 (rx_aq_depth cx), u16 (rx_aq_depth cx - 1)) else (qid, u16 (rq_size q), u16 (rx_sqsize cx)).

Definition nvme_rdma_route_resolved (q : rdma_queue) (m : rdma_world) : option (Z * rdma_queue * rdma_world) :=
  m ← rw_use (rq_qp q) m;
  let '(ret, m) := rw_call m in  (* rdma_connect *)
  if negb (ret =? 0) then '(q, m) ← nvme_rdma_destroy_queue_ib q m; Some (ret, q, m)
  else Some (0, q <| rq_asked := CM_CONNECT |>, m).

Definition set_error (cm_error : Z) (q : rdma_queue) : rdma_queue :=
  if c_true cm_error then q <| rq_cm_error := cm_error |> <| rq_cm_done := true |> else q.

Definition nvme_rdma_cm_handler (ev : cm_event) (q : rdma_queue) (m : rdma_world) : option (rdma_queue * rdma_world) :=
  match ev with
  | ADDR_RESOLVED => '(e, q, m) ← nvme_rdma_addr_resolved q m; Some (set_error e q, m)
  | ROUTE_RESOLVED => '(e, q, m) ← nvme_rdma_route_resolved q m; Some (set_error e q, m)
  | ESTABLISHED => '(e, q, m) ← nvme_rdma_conn_established q m; Some (q <| rq_cm_error := e |> <| rq_cm_done := true |>, m)
  | REJECTED => '(q, m) ← nvme_rdma_destroy_queue_ib q m; Some (set_error nvme_rdma_conn_rejected q, m)
  | ROUTE_ERROR | CONNECT_ERROR | UNREACHABLE =>
    '(q, m) ← nvme_rdma_destroy_queue_ib q m; Some (set_error (- ECONNRESET) q, m)
  | ADDR_ERROR => Some (set_error (- ECONNRESET) q, m)
  | DISCONNECTED | ADDR_CHANGE | TIMEWAIT_EXIT | OTHER_EVENT => Some (q <| rq_recovery := true |>, m)
  | DEVICE_REMOVAL => Some (q, m)
  end.

(** An event is delivered when it may come, and answers the call. *)
Definition deliver '((q, m) : rdma_queue * rdma_world) (ev : cm_event) : option (rdma_queue * rdma_world) :=
  if cm_deliverable (rq_asked q) ev then
    nvme_rdma_cm_handler ev
      (match ev with DISCONNECTED | ADDR_CHANGE | TIMEWAIT_EXIT | DEVICE_REMOVAL | OTHER_EVENT => q | _ => q <| rq_asked := CM_NONE |> end) m
  else Some (q, m).

Definition deliver_all (q : rdma_queue) (m : rdma_world) : option (rdma_queue * rdma_world) :=
  foldM deliver (q, m <| rw_w ::= fun w => w <| w_calls ::= S |> |>) (cm_events (w_calls (rw_w m))).

(** ** Queues *)

(** The events come while the caller waits. *)
Definition nvme_rdma_wait_for_cm (q : rdma_queue) (m : rdma_world) : option (Z * rdma_queue * rdma_world) :=
  '(q, m) ← deliver_all q m;
  let ret := cm_wait (w_calls (rw_w m)) (rq_cm_done q) in
  Some (if ret <? 0 then ret else if ret =? 0 then - ETIMEDOUT else rq_cm_error q, q, m).

(** Events may come until the identifier is destroyed. *)
Definition out_destroy_cm_id (ret : Z) (q : rdma_queue) (m : rdma_world) : option (Z * rdma_queue * rdma_world) :=
  '(q, m) ← deliver_all q m;
  m ← rw_release (rq_cm_id q) m;
  '(q, m) ← nvme_rdma_destroy_queue_ib (q <| rq_asked := CM_NONE |>) m;
  Some (ret, q, m).

Definition nvme_rdma_alloc_queue (queue_size : Z) (q : rdma_queue) (m : rdma_world) : option (Z * rdma_queue * rdma_world) :=
  let q := q <| rq_cm_done := false |>
             <| rq_capsule_len := if 0 <? rx_idx cx then rx_ioccsz cx * 16 else rx_command_size cx |>
             <| rq_size := queue_size |> in
  let '(id, m) := rw_new alloc_ok m in
  match id with
  | None => Some (ptr_err (w_calls (rw_w m)), q <| rq_cm_id := Some (-1) |>, m)
  | Some _ =>
    let q := q <| rq_cm_id := id |> <| rq_asked := CM_NONE |> <| rq_cm_error := - ETIMEDOUT |> in
    let '(ret, m) := rw_call m in  (* rdma_resolve_addr *)
    if negb (ret =? 0) then out_destroy_cm_id ret q m
    else
      '(ret, q, m) ← nvme_rdma_wait_for_cm (q <| rq_asked := CM_RESOLVE_ADDR |>) m;
      if negb (ret =? 0) then out_destroy_cm_id ret q m
      else Some (0, q <| rq_allocated := true |>, m)
  end.

(** [__nvme_rdma_stop_queue]: disconnect and drain. *)
Definition rdma_stop_inner (q : rdma_queue) (m : rdma_world) : option rdma_world :=
  m ← rw_use (rq_cm_id q) m; rw_use (rq_qp q) m.

Definition nvme_rdma_stop_queue (q : rdma_queue) (m : rdma_world) : option (rdma_queue * rdma_world) :=
  if negb (rq_live q) then Some (q, m)
  else let q := q <| rq_live := false |> in m ← rdma_stop_inner q m; Some (q, m).

Definition nvme_rdma_free_queue (q : rdma_queue) (m : rdma_world) : option (rdma_queue * rdma_world) :=
  if negb (rq_allocated q) then Some (q, m)
  else
    '(q, m) ← nvme_rdma_destroy_queue_ib (q <| rq_allocated := false |>) m;
    m ← rw_release (rq_cm_id q) m; Some (q, m).

Definition nvme_rdma_start_queue (q : rdma_queue) (m : rdma_world) : option (Z * rdma_queue * rdma_world) :=
  _ ← nvme_rdma_poll_queue;
  let '(ret, m) := rw_call m in  (* the connect command *)
  if ret =? 0 then Some (ret, q <| rq_live := true |>, m)
  else if rq_allocated q then m ← rdma_stop_inner q m; Some (ret, q, m)
  else Some (ret, q, m).
End conn.
