(* ===== verification/NvmeRdmaConnSpec.v ===== *)
(** * Ownership of the objects of an RDMA queue

    Whatever events the connection manager delivers, a queue is either connected and
    owns its objects and one reference of its device, or everything is given back; the
    references of a device are those of the queues that use it. *)
From S2P Require Import Prelude MqTypes BlkMqTagSet NvmeTcpMap NvmeTcpConn NvmeTcpConnSpec NvmeTcpLife NvmeRdmaConn.

(** Events that answer a call come once, after that call; a wait ends with success
    only when the completion was signalled. *)
Class RdmaCmLaws (cm : RdmaCm) := {
  deliver_addr : forall c, cm_deliverable c ADDR_RESOLVED = true -> c = CM_RESOLVE_ADDR;
  deliver_route : forall c, cm_deliverable c ROUTE_RESOLVED = true -> c = CM_RESOLVE_ROUTE;
  deliver_established : forall c, cm_deliverable c ESTABLISHED = true -> c = CM_CONNECT;
  wait_done : forall k, cm_wait k false <= 0;
}.

(** ** Devices *)

Definition refs_to (p : Z) (refs : list Z) : nat := length (filter (fun x => x = p) refs).
Definition dev_objs (l : list rdma_device) : list Z := concat ((fun d => [rd_self d; rd_pd d]) <$> l).

(** Every device has as many references as there are users. *)
Definition dev_ok (devs : list rdma_device) (refs : list Z) : Prop :=
  NoDup (rd_self <$> devs) /\ Forall (fun d => 0 < rd_ref d /\ rd_ref d = Z.of_nat (refs_to (rd_self d) refs)) devs
  /\ Forall (fun p => p ∈ rd_self <$> devs) refs.

Definition rheld (m : rdma_world) (refs l : list Z) : Prop :=
  dev_ok (rw_devs m) refs /\ holds (rw_w m) (dev_objs (rw_devs m) ++ l).

Lemma dev_self_in d l : d ∈ l -> rd_self d ∈ dev_objs l.
Proof.
  unfold dev_objs. induction l as [|x l IH]; [by intros ?%elem_of_nil|]. rewrite fmap_cons, concat_cons.
  intros [->|Hd]%elem_of_cons; set_solver.
Qed.

Lemma refs_to_cons p x refs : refs_to p (x :: refs) = ((if decide (x = p) then 1 else 0) + refs_to p refs)%nat.
Proof. unfold refs_to. rewrite filter_cons. by case_decide. Qed.

Lemma refs_to_nin p refs : p ∉ refs <-> refs_to p refs = 0%nat.
Proof.
  induction refs as [|x refs IH]; [by split; [|intros _ ?%elem_of_nil]|]. rewrite refs_to_cons, not_elem_of_cons, IH. case_decide; naive_solver lia.
Qed.

Lemma find_get_ok guid devs p l' refs :
  find_get guid devs = Some (p, l') ->
  p ∈ rd_self <$> devs /\ rd_self <$> l' = rd_self <$> devs /\ dev_objs l' = dev_objs devs
  /\ (NoDup (rd_self <$> devs) -> Forall (fun d => 0 < rd_ref d /\ rd_ref d = Z.of_nat (refs_to (rd_self d) refs)) devs ->
      Forall (fun d => 0 < rd_ref d /\ rd_ref d = Z.of_nat (refs_to (rd_self d) (p :: refs))) l').
Proof.
  revert l'. induction devs as [|d devs IH]; intros l' H; simpl in H; [done|]. case_bool_in H.
  - injection H as <- <-. split; [left|]. split; [done|]. split; [done|]. simpl.
    intros [Hn _]%NoDup_cons [Hd Hf]%Forall_cons. constructor.
    + simpl. rewrite refs_to_cons, decide_True by done. lia.
    + apply Forall_forall. intros x Hx. rewrite Forall_forall in Hf. specialize (Hf x Hx). rewrite refs_to_cons, decide_False; [done|].
      intros E. apply Hn. rewrite E. by apply list_elem_of_fmap_2.
  - destruct (find_get guid devs) as [[p' l]|] eqn:E; [|done]. injection H as <- <-.
    destruct (IH l eq_refl) as (H1 & H2 & H3 & H4). split; [by right|]. split; [by rewrite !fmap_cons, H2|]. split; [unfold dev_objs in *; rewrite !fmap_cons, !concat_cons; by rewrite H3|].
    simpl. intros [Hn Hn']%NoDup_cons [Hd Hf]%Forall_cons. constructor; [|by apply H4].
    rewrite refs_to_cons, decide_False; [done|]. intros E'. apply Hn. by rewrite <- E'.
Qed.

Lemma dev_put_ok p devs refs :
  NoDup (rd_self <$> devs) -> Forall (fun d => 0 < rd_ref d /\ rd_ref d = Z.of_nat (refs_to (rd_self d) (p :: refs))) devs ->
  p ∈ rd_self <$> devs ->
  exists l' o, dev_put p devs = Some (l', o) /\ NoDup (rd_self <$> l') /\ (forall x, x ∈ rd_self <$> l' -> x ∈ rd_self <$> devs)
    /\ Forall (fun d => 0 < rd_ref d /\ rd_ref d = Z.of_nat (refs_to (rd_self d) refs)) l'
    /\ match o with
       | None => rd_self <$> l' = rd_self <$> devs /\ dev_objs l' = dev_objs devs
       | Some d => refs_to p refs = 0%nat /\ (forall x, x <> p -> x ∈ rd_self <$> devs -> x ∈ rd_self <$> l')
                   /\ dev_objs devs ≡ₚ rd_pd d :: rd_self d :: dev_objs l'
       end.
Proof.
  induction devs as [|d devs IH]; intros Hn Hf Hp; [by apply elem_of_nil in Hp|]. rewrite fmap_cons in *. cbn [dev_put].
  apply NoDup_cons in Hn as [Hn Hn']. apply Forall_cons in Hf as [Hd Hf].
  assert (Hrest : rd_self d = p -> Forall (fun d => 0 < rd_ref d /\ rd_ref d = Z.of_nat (refs_to (rd_self d) refs)) devs).
  { intros <-. apply Forall_forall. intros x Hx. rewrite Forall_forall in Hf. specialize (Hf x Hx). rewrite refs_to_cons, decide_False in Hf; [done|].
    intros E. apply Hn. rewrite E. by apply list_elem_of_fmap_2. }
  destruct (Z.eqb_spec (rd_self d) p) as [E|E].
  - rewrite E, refs_to_cons, decide_True in Hd by done. specialize (Hrest E). destruct (Z.eqb_spec (rd_ref d) 1) as [E1|E1].
    + exists devs, (Some d). split; [done|]. split; [done|]. split; [set_solver|]. split; [done|]. split; [lia|].
      split; [set_solver|]. unfold dev_objs. simpl. apply Permutation_swap.
    + eexists _, None. split; [done|]. split; [by constructor|]. split; [done|]. split; [|done]. constructor; [|done]. simpl. rewrite E. lia.
  - apply elem_of_cons in Hp as [Hp|Hp]; [congruence|]. destruct (IH Hn' Hf Hp) as (l' & o & -> & H1 & H2 & H3 & H4).
    rewrite refs_to_cons, decide_False in Hd by congruence.
    eexists _, o. split; [done|]. rewrite fmap_cons. split; [constructor; [|done]; intros Hin; by apply Hn, H2|].
    split; [set_solver|]. split; [by constructor|]. destruct o as [d'|].
    + destruct H4 as (H4 & H5 & H6). split; [done|]. split; [set_solver|]. unfold dev_objs in *. rewrite !fmap_cons, !concat_cons, H6. solve_Permutation.
    + destruct H4 as [H4 H5]. unfold dev_objs in *. rewrite !fmap_cons, !concat_cons. by rewrite H4, H5.
Qed.

Section held.
Context {ce : CtrlEnv} {cl : CtrlLaws ce} {cm : RdmaCm}.
Implicit Types (m : rdma_world) (refs l : list Z).

Lemma rheld_perm m refs l l' : rheld m refs l -> l ≡ₚ l' -> rheld m refs l'.
Proof. intros [H1 H2] Hp. split; [done|]. eapply holds_perm; [done|]. by rewrite Hp. Qed.

Lemma rheld_later m refs l : rheld m refs l -> rheld (m <| rw_w ::= fun w => w <| w_calls ::= S |> |>) refs l.
Proof. intros [H1 H2]. split; [done|]. by apply holds_later. Qed.

Lemma rw_new_ok ok m refs l :
  rheld m refs l ->
  (exists m', rw_new ok m = (None, m') /\ rheld m' refs l) \/
  (exists i m', rw_new ok m = (Some i, m') /\ rheld m' refs (i :: l) /\ rw_devs m' = rw_devs m).
Proof.
  intros [H1 H2]. unfold rw_new. destruct (new_spec ok _ _ H2) as [(w & -> & _ & Hw)|(i & w & -> & Hw)].
  - left. by eexists.
  - right. eexists _, _. split; [done|]. split; [|done]. split; [done|]. eapply holds_perm; [exact Hw|]. simpl. solve_Permutation.
Qed.

Lemma rw_release_ok i m refs l :
  rheld m refs (i :: l) -> exists m', rw_release (Some i) m = Some m' /\ rheld m' refs l.
Proof.
  intros [H1 H2]. unfold rw_release.
  destruct (release_spec i (rw_w m) (dev_objs (rw_devs m) ++ l)) as (w & -> & Hw); [eapply holds_perm; [exact H2|]; solve_Permutation|].
  eexists. by split.
Qed.

Lemma rw_use_ok i m refs l : rheld m refs l -> i ∈ l -> rw_use (Some i) m = Some m.
Proof. intros [H1 H2] Hi. unfold rw_use. rewrite (use_spec i _ _ H2) by set_solver. by destruct m. Qed.

Lemma rw_call_ok m refs l : rheld m refs l -> exists ret m', rw_call m = (ret, m') /\ rheld m' refs l.
Proof. intros [H1 H2]. unfold rw_call. destruct (call_spec _ _ H2) as (w & -> & Hw). by eexists _, _. Qed.

Lemma find_device_ok guid m refs l :
  rheld m refs l ->
  exists o m', nvme_rdma_find_get_device guid m = Some (o, m') /\
    match o with None => rheld m' refs l | Some p => rheld m' (p :: refs) l end.
Proof.
  intros H. unfold nvme_rdma_find_get_device. destruct (find_get guid (rw_devs m)) as [[p l']|] eqn:E.
  { destruct H as [(D1 & D2 & D3) H2]. destruct (find_get_ok guid _ p l' refs E) as (F1 & F2 & F3 & F4).
    eexists _, _. split; [done|]. split; [|simpl; by rewrite F3]. split; [simpl; by rewrite F2|]. split; [by apply F4|].
    simpl. rewrite F2. by constructor. }
  destruct (rw_new_ok alloc_ok m refs l H) as [(m1 & -> & H1)|(i & m1 & -> & H1 & E1)]; [by eexists _, _|].
  destruct (rw_new_ok alloc_ok m1 refs _ H1) as [(m2 & -> & H2)|(p & m2 & -> & H2 & E2)].
  { destruct (rw_release_ok _ _ _ _ H2) as (m3 & -> & H3). by eexists _, _. }
  case_bool.
  { destruct (rw_release_ok _ _ _ _ H2) as (m3 & -> & H3). cbn [mbind option_bind].
    destruct (rw_release_ok _ _ _ _ H3) as (m4 & -> & H4). by eexists _, _. }
  eexists _, _. split; [done|]. destruct H2 as [(D1 & D2 & D3) (P1 & P2 & P3)].
  assert (Hfresh : i ∉ rd_self <$> rw_devs m2).
  { rewrite P1 in P2. intros Hi. apply NoDup_app in P2 as (_ & P2 & _). apply (P2 i); [|set_solver].
    apply list_elem_of_fmap in Hi as (d & -> & Hd). by apply dev_self_in. }
  assert (Hz : refs_to i refs = 0%nat).
  { apply refs_to_nin. intros Hx. rewrite Forall_forall in D3. by apply Hfresh, D3. }
  split; [|split; [|done]; simpl; rewrite P1; unfold dev_objs; simpl; solve_Permutation].
  split; [simpl; by constructor|]. split.
  - constructor; [simpl; rewrite refs_to_cons, decide_True, Hz by done; lia|].
    apply Forall_forall. intros d Hd. rewrite Forall_forall in D2. rewrite refs_to_cons, decide_False; [by apply D2|].
    intros ->. apply Hfresh. by apply list_elem_of_fmap_2.
  - constructor; [left|]. eapply Forall_impl; [exact D3|]. simpl. intros x Hx. by right.
Qed.

Lemma dev_put_spec p m refs l : rheld m (p :: refs) l -> exists m', nvme_rdma_dev_put (Some p) m = Some m' /\ rheld m' refs l.
Proof.
  intros [(D1 & D2 & D3) H]. apply Forall_cons in D3 as [D3 D4]. unfold nvme_rdma_dev_put. cbn [mbind option_bind].
  destruct (dev_put_ok p (rw_devs m) refs D1 D2 D3) as (l' & o & -> & F1 & F2 & F3 & F4). cbn [mbind option_bind].
  destruct o as [d|].
  - destruct F4 as (F4 & F5 & F6). unfold nvme_rdma_free_dev.
    assert (H0 : rheld (m <| rw_devs := l' |>) refs (rd_pd d :: rd_self d :: l)).
    { split; [split; [done|]; split; [done|]|].
      - apply Forall_forall. intros x Hx. rewrite Forall_forall in D4. apply F5; [|by apply D4]. intros ->. by apply refs_to_nin in F4.
      - simpl. eapply holds_perm; [exact H|]. rewrite F6. solve_Permutation. }
    destruct (rw_release_ok _ _ _ _ H0) as (m1 & -> & H1). cbn [mbind option_bind]. by apply rw_release_ok.
  - destruct F4 as [F4 F5]. eexists; split; [done|]. split; [split; [done|]; split; [done|]; simpl; by rewrite F4|]. simpl. by rewrite F5.
Qed.

Lemma inline_ok p m refs l : rheld m (p :: refs) l -> exists n, inline_of (Some p) m = Some n.
Proof.
  intros [(_ & _ & D3) _]. apply Forall_cons in D3 as [D3 _]. unfold inline_of. cbn [mbind option_bind].
  apply list_elem_of_fmap in D3 as (d & -> & Hd). destruct (find _ (rw_devs m)) as [x|] eqn:E; [by eexists|].
  apply list_elem_of_In, (find_none _ _ E) in Hd. lia.
Qed.
End held.

(** ** The objects of a queue *)

Definition elem_objs (e : rdma_qe) : list Z := omap id [qe_dma e; qe_data e].
Definition wf_elem (e : rdma_qe) : Prop := is_Some (qe_data e) /\ is_Some (qe_dma e).
Definition elems_objs (l : list rdma_qe) : list Z := concat (elem_objs <$> l).

Definition ib_objs (q : rdma_queue) : list Z :=
  omap id [rq_pool q; rq_qp q; rq_cq q] ++ elems_objs (rq_elems q) ++ omap id [rq_ring q].
Definition wf_ib (q : rdma_queue) : Prop :=
  is_Some (rq_pool q) /\ is_Some (rq_qp q) /\ is_Some (rq_cq q) /\ is_Some (rq_ring q) /\ is_Some (rq_device q)
  /\ Forall wf_elem (rq_elems q) /\ Z.of_nat (length (rq_elems q)) = rq_size q.

(** What is held with the RDMA objects of the queue, if it has them. *)
Definition ib_held (q : rdma_queue) (m : rdma_world) (refs l : list Z) : Prop :=
  if rq_tr_ready q then wf_ib q /\ rheld m (option_list (rq_device q) ++ refs) (ib_objs q ++ l) else rheld m refs l.

(** What the events of the connection manager leave alone. *)
Definition same_queue (q q' : rdma_queue) : Prop :=
  rq_allocated q' = rq_allocated q /\ rq_live q' = rq_live q /\ rq_size q' = rq_size q /\ rq_cm_id q' = rq_cm_id q.

#[global] Instance same_queue_preorder : PreOrder same_queue.
Proof. split; [done|]. intros q1 q2 q3 (?&?&?&?) (?&?&?&?). unfold same_queue. split_and!; congruence. Qed.

Definition same_cm (q q' : rdma_queue) : Prop :=
  rq_asked q' = rq_asked q /\ rq_cm_done q' = rq_cm_done q /\ rq_cm_error q' = rq_cm_error q.

Section queue.
Context {ce : CtrlEnv} {cl : CtrlLaws ce} {cm : RdmaCm} {cml : RdmaCmLaws cm} (cx : rdma_ctx).
Context (Hio : length (rx_io_queues cx) = 3%nat).
Implicit Types (m : rdma_world) (refs l : list Z) (q : rdma_queue).

Lemma free_qe_ok e m refs l : wf_elem e -> rheld m refs (elem_objs e ++ l) -> exists m', nvme_rdma_free_qe e m = Some m' /\ rheld m' refs l.
Proof.
  intros [[d Hd] [a Ha]] H. unfold nvme_rdma_free_qe, elem_objs in *. rewrite Hd, Ha in *.
  destruct (rw_release_ok _ _ _ _ H) as (m1 & -> & H1). cbn [mbind option_bind]. by apply rw_release_ok.
Qed.

Lemma free_elems_ok es m refs l :
  Forall wf_elem es -> rheld m refs (elems_objs es ++ l) -> exists m', free_elems es m = Some m' /\ rheld m' refs l.
Proof.
  revert m. induction es as [|e es IH]; intros m Hw H; [by eexists|]. apply Forall_cons in Hw as [Hw Hws]. cbn [free_elems].
  unfold elems_objs in H. rewrite fmap_cons, concat_cons, <- app_assoc in H.
  destruct (free_qe_ok e m refs _ Hw H) as (m1 & -> & H1). by apply IH.
Qed.

Lemma free_ring_ok g es n m refs l :
  Forall wf_elem es -> Z.of_nat (length es) = n -> rheld m refs (elems_objs es ++ g :: l) ->
  exists m', nvme_rdma_free_ring (Some g) es n m = Some m' /\ rheld m' refs l.
Proof.
  intros Hw <- H. unfold nvme_rdma_free_ring. rewrite Z.ltb_irrefl, Nat2Z.id, firstn_all.
  destruct (free_elems_ok es m refs _ Hw H) as (m1 & -> & H1). cbn [mbind option_bind]. by apply rw_release_ok.
Qed.

Lemma alloc_qe_ok m refs l :
  rheld m refs l ->
  exists o m', nvme_rdma_alloc_qe m = Some (o, m') /\
    match o with None => rheld m' refs l | Some e => wf_elem e /\ rheld m' refs (elem_objs e ++ l) end.
Proof.
  intros H. unfold nvme_rdma_alloc_qe. destruct (rw_new_ok alloc_ok m refs l H) as [(m1 & -> & H1)|(d & m1 & -> & H1 & _)]; [by eexists _, _|].
  destruct (rw_new_ok alloc_ok m1 refs _ H1) as [(m2 & -> & H2)|(a & m2 & -> & H2 & _)].
  - destruct (rw_release_ok _ _ _ _ H2) as (m3 & -> & H3). by eexists _, _.
  - eexists _, _. split; [done|]. split; [by split; eexists|done].
Qed.

Lemma alloc_elems_ok n es m refs l :
  Forall wf_elem es -> rheld m refs (elems_objs es ++ l) ->
  exists ok es' m', alloc_elems n es m = Some (ok, es', m') /\ Forall wf_elem es' /\ rheld m' refs (elems_objs es' ++ l)
    /\ (ok = true -> length es' = (length es + n)%nat).
Proof.
  revert es m. induction n as [|n IH]; intros es m Hw H; cbn [alloc_elems].
  { eexists true, es, m. rewrite Nat.add_0_r. done. }
  destruct (alloc_qe_ok m refs _ H) as ([e|] & m1 & -> & H1); cbn [mbind option_bind].
  - destruct H1 as [He H1]. destruct (IH (es ++ [e]) m1) as (ok & es' & m' & -> & Hw' & H' & Hl).
    + apply Forall_app. by split; [|constructor].
    + eapply rheld_perm; [exact H1|]. unfold elems_objs. rewrite fmap_app, concat_app. simpl. rewrite app_nil_r. solve_Permutation.
    + eexists ok, es', m'. split; [done|]. split; [done|]. split; [done|]. intros Hok. rewrite Hl, length_app by done. simpl. lia.
  - by eexists false, es, m1.
Qed.

Lemma alloc_ring_ok n m refs l :
  0 <= n -> rheld m refs l ->
  exists o es m', nvme_rdma_alloc_ring n m = Some (o, es, m') /\
    match o with
    | None => rheld m' refs l
    | Some g => Forall wf_elem es /\ Z.of_nat (length es) = n /\ rheld m' refs (elems_objs es ++ g :: l)
    end.
Proof.
  intros Hn H. unfold nvme_rdma_alloc_ring.
  destruct (rw_new_ok alloc_ok m refs l H) as [(m1 & -> & H1)|(g & m1 & -> & H1 & _)]; [by eexists _, _, _|].
  destruct (alloc_elems_ok (Z.to_nat n) [] m1 refs (g :: l)) as (ok & es & m2 & -> & Hw & H2 & Hl); [done|done|].
  cbn [mbind option_bind]. destruct ok.
  - eexists _, _, _. split; [done|]. split; [done|]. split; [|done]. rewrite Hl by done. simpl. lia.
  - destruct (free_ring_ok g es _ m2 refs l Hw eq_refl H2) as (m3 & -> & H3). by eexists _, _, _.
Qed.

Lemma destroy_ib_ok q m refs l :
  ib_held q m refs l ->
  exists m', nvme_rdma_destroy_queue_ib q m = Some (q <| rq_tr_ready := false |>, m') /\ rheld m' refs l.
Proof.
  unfold ib_held, nvme_rdma_destroy_queue_ib. destruct (rq_tr_ready q) eqn:Ht; cbn [negb].
  2: { intros H. exists m. split; [|done]. destruct q; simpl in *; by subst. }
  intros [([a Ha] & [b Hb] & [c Hc] & [g Hg] & [d Hd] & He & Hl) H]. unfold ib_objs in H. simpl. rewrite Ha, Hb, Hc, Hg, Hd in *. simpl in H.
  destruct (rw_release_ok _ _ _ _ H) as (m1 & -> & H1). cbn [mbind option_bind].
  destruct (rw_release_ok _ _ _ _ H1) as (m2 & -> & H2). cbn [mbind option_bind].
  destruct (rw_release_ok _ _ _ _ H2) as (m3 & -> & H3). cbn [mbind option_bind]. rewrite <- app_assoc in H3.
  destruct (free_ring_ok g _ _ m3 _ l He Hl H3) as (m4 & -> & H4). cbn [mbind option_bind].
  destruct (dev_put_spec d m4 refs l H4) as (m5 & -> & H5). by exists m5.
Qed.

(** An error of [nvme_rdma_create_queue_ib]. *)
Definition not_created (q : rdma_queue) (refs l : list Z) (r : option (Z * rdma_queue * rdma_world)) : Prop :=
  exists ret q' m', r = Some (ret, q', m') /\ ret <> 0 /\ q' = q /\ rheld m' refs l.

Lemma out_put_dev_ok ret q m d refs l :
  ret <> 0 -> rq_device q = Some d -> rheld m (d :: refs) l -> not_created q refs l (out_put_dev ret q m).
Proof.
  intros Hr Hd H. unfold out_put_dev. rewrite Hd. destruct (dev_put_spec d m refs l H) as (m1 & -> & H1). by eexists _, _, _.
Qed.

Lemma out_destroy_ib_cq_ok ret q m d c refs l :
  ret <> 0 -> rq_device q = Some d -> rq_cq q = Some c -> rheld m (d :: refs) (c :: l) ->
  not_created q refs l (out_destroy_ib_cq ret q m).
Proof.
  intros Hr Hd Hc H. unfold out_destroy_ib_cq. rewrite Hc. destruct (rw_release_ok _ _ _ _ H) as (m1 & -> & H1). by eapply out_put_dev_ok.
Qed.

Lemma out_destroy_qp_ok ret q m d c p i refs l :
  ret <> 0 -> rq_device q = Some d -> rq_cq q = Some c -> rq_qp q = Some p -> rq_cm_id q = Some i -> i ∈ l ->
  rheld m (d :: refs) (p :: c :: l) -> not_created q refs l (out_destroy_qp ret q m).
Proof.
  intros Hr Hd Hc Hp Hi Hin H. unfold out_destroy_qp. rewrite Hi, Hp, (rw_use_ok i m _ _ H) by set_solver. cbn [mbind option_bind].
  destruct (rw_release_ok _ _ _ _ H) as (m1 & -> & H1). by eapply out_destroy_ib_cq_ok.
Qed.

Lemma create_qp_ok q m i refs l :
  rq_cm_id q = Some i -> i ∈ l -> rheld m refs l ->
  exists ret m', (ret <> 0 /\ nvme_rdma_create_qp q m = Some (ret, q <| rq_qp := None |>, m') /\ rheld m' refs l)
    \/ exists p, nvme_rdma_create_qp q m = Some (0, q <| rq_qp := Some p |>, m') /\ rheld m' refs (p :: l).
Proof.
  intros Hi Hin H. unfold nvme_rdma_create_qp. rewrite Hi, (rw_use_ok i m _ _ H) by done. cbn [mbind option_bind].
  destruct (rw_call_ok m refs l H) as (ret & m1 & -> & H1). destruct (Z.eqb_spec ret 0) as [->|Hne]; cbn [negb].
  - unfold rw_new, new_obj. eexists 0, _. right. eexists. split; [done|]. destruct H1 as [D H1].
    destruct (new_spec (fun _ => true) _ _ H1) as [(w & E & Hf & _)|(p & w & E & Hw)]; [done|]. unfold new_obj in E. injection E as <- <-.
    split; [done|]. simpl. eapply holds_perm; [exact Hw|]. solve_Permutation.
  - eexists ret, _. left. done.
Qed.

Lemma poll_queue_ok : exists b, nvme_rdma_poll_queue cx = Some b.
Proof.
  unfold nvme_rdma_poll_queue, HCTX_TYPE_DEFAULT, HCTX_TYPE_READ.
  destruct (aget_lt (rx_io_queues cx) 0) as [d ->]; [lia|]. destruct (aget_lt (rx_io_queues cx) 1) as [r ->]; [lia|]. by eexists.
Qed.

Lemma create_ib_ok q m i refs l :
  rq_tr_ready q = false -> 0 <= rq_size q -> rq_cm_id q = Some i -> i ∈ l -> rheld m refs l ->
  exists ret q' m', nvme_rdma_create_queue_ib cx q m = Some (ret, q', m') /\ same_queue q q' /\ same_cm q q'
    /\ rq_tr_ready q' = (ret =? 0) /\ ib_held q' m' refs l.
Proof.
  intros Ht Hs Hi Hin H. unfold nvme_rdma_create_queue_ib.
  assert (Herr : forall q' r, same_queue q q' -> same_cm q q' -> rq_tr_ready q' = false -> not_created q' refs l r ->
    exists ret q' m', r = Some (ret, q', m') /\ same_queue q q' /\ same_cm q q' /\ rq_tr_ready q' = (ret =? 0) /\ ib_held q' m' refs l).
  { intros q' r Hsame Hcm Ht' (ret & q1 & m' & -> & Hne & -> & Hh). exists ret, q', m'. split; [done|]. split; [done|]. split; [done|].
    rewrite (proj2 (Z.eqb_neq _ _) Hne). split; [done|]. unfold ib_held. by rewrite Ht'. }
  destruct (find_device_ok (cm_guid (w_calls (rw_w m))) m refs l H) as ([d|] & m1 & -> & H1); cbn [mbind option_bind].
  2: { eexists _, _, _. split; [done|]. split; [done|]. split; [done|]. split; [done|]. unfold ib_held. simpl. by rewrite Ht. }
  destruct poll_queue_ok as [b ->]. destruct (inline_ok d m1 refs l H1) as [n ->]. cbn [mbind option_bind].
  match goal with |- context [q <| rq_device := Some d |> <| rq_attr := ?a |>] => set (q1 := q <| rq_device := Some d |> <| rq_attr := a |>) end.
  destruct (rw_new_ok alloc_ok m1 _ l H1) as [(m2 & -> & H2)|(c & m2 & -> & H2 & _)].
  { eapply Herr; [| | |eapply out_put_dev_ok; [|done|exact H2]; pose proof (ptr_err_neg (w_calls (rw_w m2))); lia]; done. }
  destruct (create_qp_ok (q1 <| rq_cq := Some c |>) m2 i (d :: refs) (c :: l)) as (ret & m3 & [(Hne & -> & H3)|(p & -> & H3)]); [done|set_solver|done| |]; cbn [mbind option_bind].
  { rewrite (proj2 (Z.eqb_neq _ _) Hne). cbn [negb]. eapply Herr; [| | |eapply out_destroy_ib_cq_ok; [done|done|done|exact H3]]; done. }
  cbn [Z.eqb negb]. match goal with |- context [nvme_rdma_alloc_ring ?n m3] => change n with (rq_size q) end.
  destruct (alloc_ring_ok (rq_size q) m3 _ _ Hs H3) as ([g|] & es & m4 & -> & H4); cbn [mbind option_bind].
  2: { eapply Herr; [| | |eapply (out_destroy_qp_ok _ _ _ d c p i); try done]; done. }
  destruct H4 as (Hw & Hl & H4). clear ret. destruct (rw_call_ok _ _ _ H4) as (ret & m5 & -> & H5).
  destruct (Z.eqb_spec ret 0) as [->|Hne]; cbn [negb].
  - destruct (rw_new_ok (fun _ => true) m5 _ _ H5) as [(m6 & E & _)|(a & m6 & -> & H6 & _)]; [by unfold rw_new, new_obj in E|].
    eexists 0, _, m6. split; [done|]. split; [done|]. split; [done|]. split; [done|]. unfold ib_held. simpl. split.
    + unfold wf_ib. simpl. by eauto 10.
    + unfold ib_objs. simpl. eapply rheld_perm; [exact H6|]. solve_Permutation.
  - unfold out_destroy_ring.
    match goal with |- context [nvme_rdma_free_ring ?a ?b ?c m5] => change (nvme_rdma_free_ring a b c m5) with (nvme_rdma_free_ring (Some g) es (rq_size q) m5) end.
    destruct (free_ring_ok g es _ m5 _ _ Hw Hl H5) as (m6 & -> & H6). cbn [mbind option_bind].
    eapply Herr; [| | |eapply (out_destroy_qp_ok _ _ _ d c p i); try done]; done.
Qed.

(** A queue with a connection identifier. *)
Definition conn (q : rdma_queue) (m : rdma_world) (refs l : list Z) : Prop :=
  (exists i, rq_cm_id q = Some i /\ ib_held q m refs (i :: l)) /\ 0 <= rq_size q
  /\ match rq_asked q with
     | CM_NONE => True
     | CM_RESOLVE_ADDR => rq_tr_ready q = false
     | CM_RESOLVE_ROUTE | CM_CONNECT => rq_tr_ready q = true
     end
  /\ (rq_cm_done q = true -> rq_cm_error q = 0 -> rq_tr_ready q = true).

(** The result of a handler. *)
Definition handled (q : rdma_queue) (refs l : list Z) (r : option (rdma_queue * rdma_world)) : Prop :=
  exists q' m', r = Some (q', m') /\ same_queue q q' /\ conn q' m' refs l.

Lemma handled_error e q m refs l : e <> 0 -> rq_asked q = CM_NONE -> conn q m refs l -> handled q refs l (Some (set_error e q, m)).
Proof.
  intros He Ha (H1 & H2 & H3 & H4). unfold set_error. rewrite (proj2 (c_true_spec e) He). eexists _, _. split; [done|]. split; [done|].
  split; [exact H1|]. split; [done|]. simpl. by rewrite Ha.
Qed.

Lemma destroyed q m refs l :
  conn q m refs l -> rq_asked q = CM_NONE ->
  exists m', nvme_rdma_destroy_queue_ib q m = Some (q <| rq_tr_ready := false |>, m')
    /\ forall e, e <> 0 -> handled q refs l (Some (set_error e (q <| rq_tr_ready := false |>), m')).
Proof.
  intros ((i & Hi & H1) & H2 & H3 & H4) Ha. destruct (destroy_ib_ok q m refs _ H1) as (m' & -> & H'). exists m'. split; [done|].
  intros e He. unfold set_error. rewrite (proj2 (c_true_spec e) He). eexists _, _. split; [done|]. split; [done|].
  split; [by exists i|]. split; [done|]. simpl. by rewrite Ha.
Qed.

Lemma addr_resolved_ok q m refs l :
  conn q m refs l -> rq_asked q = CM_NONE -> rq_tr_ready q = false ->
  handled q refs l ('(e, q, m) ← nvme_rdma_addr_resolved cx q m; Some (set_error e q, m)).
Proof.
  intros ((i & Hi & H1) & H2 & H3 & H4) Ha Ht. unfold ib_held in H1. rewrite Ht in H1. unfold nvme_rdma_addr_resolved.
  destruct (create_ib_ok q m i refs (i :: l)) as (ret & q1 & m1 & -> & Hs & (C1 & C2 & C3) & Ht1 & Hh1); [done|done|done|left|done|]. cbn [mbind option_bind].
  pose proof Hs as (S1 & S2 & S3 & S4).
  assert (Hc : forall m1, ib_held q1 m1 refs (i :: l) -> conn q1 m1 refs l).
  { intros m2 Hm2. split; [exists i; split; [congruence|done]|]. split; [lia|]. rewrite C1, Ha. split; [done|]. rewrite C2, C3. intros E1 E2. rewrite H4 in Ht by done. done. }
  destruct (Z.eqb_spec ret 0) as [->|Hne]; cbn [negb mbind option_bind].
  - unfold ib_held in Hh1. rewrite Ht1 in Hh1. destruct Hh1 as [Hwf Hh1]. destruct (rw_call_ok _ _ _ Hh1) as (ret & m2 & -> & Hh2).
    assert (Hib : ib_held q1 m2 refs (i :: l)) by (unfold ib_held; by rewrite Ht1).
    destruct (Z.eqb_spec ret 0) as [->|Hne]; cbn [negb mbind option_bind].
    + eexists _, _. split; [done|]. split; [done|]. destruct (Hc _ Hib) as (A1 & A2 & A3 & A4). done.
    + destruct (destroyed q1 m2 refs l (Hc _ Hib)) as (m3 & -> & Hd); [congruence|]. cbn [mbind option_bind].
      destruct (Hd ret Hne) as (q' & m' & E & Hs' & Hc'). exists q', m'. split; [done|]. split; [eapply transitivity; [exact Hs|done]|done].
  - destruct (handled_error ret q1 m1 refs l Hne) as (q' & m' & E & Hs' & Hc'); [congruence|by apply Hc|].
    exists q', m'. split; [done|]. split; [eapply transitivity; [exact Hs|done]|done].
Qed.

Lemma qp_in q p l : rq_qp q = Some p -> p ∈ ib_objs q ++ l.
Proof.
  intros Hp. unfold ib_objs. rewrite Hp. destruct (rq_pool q) as [a|]; simpl; [right|]; left.
Qed.

Lemma route_resolved_ok q m refs l :
  conn q m refs l -> rq_asked q = CM_NONE -> rq_tr_ready q = true ->
  handled q refs l ('(e, q, m) ← nvme_rdma_route_resolved q m; Some (set_error e q, m)).
Proof.
  intros ((i & Hi & H1) & H2 & H3 & H4) Ha Ht. pose proof H1 as Hib. unfold ib_held in Hib. rewrite Ht in Hib. destruct Hib as [Hw Hh].
  pose proof Hw as (_ & [p Hp] & _). unfold nvme_rdma_route_resolved.
  rewrite Hp, (rw_use_ok p m _ _ Hh) by (by apply qp_in). cbn [mbind option_bind].
  destruct (rw_call_ok _ _ _ Hh) as (ret & m1 & -> & Hh1).
  assert (Hib1 : ib_held q m1 refs (i :: l)) by (unfold ib_held; by rewrite Ht).
  destruct (Z.eqb_spec ret 0) as [->|Hne]; cbn [negb mbind option_bind].
  - eexists _, _. split; [done|]. split; [done|]. split; [by exists i|]. done.
  - destruct (destroyed q m1 refs l) as (m2 & -> & Hd); [|done|]; [split; [by exists i|]; done|]. cbn [mbind option_bind]. by apply Hd.
Qed.

Lemma post_ring_ok es m refs l : rheld m refs l -> exists ret m', post_ring es m = (ret, m') /\ rheld m' refs l.
Proof.
  revert m. induction es as [|e es IH]; intros m H; [by eexists _, _|]. cbn [post_ring].
  destruct (rw_call_ok _ _ _ H) as (ret & m1 & -> & H1). destruct (ret =? 0); [by apply IH|by eexists _, _].
Qed.

Lemma established_ok q m refs l :
  conn q m refs l -> rq_asked q = CM_NONE -> rq_tr_ready q = true ->
  handled q refs l ('(e, q, m) ← nvme_rdma_conn_established q m; Some (q <| rq_cm_error := e |> <| rq_cm_done := true |>, m)).
Proof.
  intros ((i & Hi & H1) & H2 & H3 & H4) Ha Ht. pose proof H1 as Hib. unfold ib_held in Hib. rewrite Ht in Hib. destruct Hib as [Hw Hh].
  pose proof Hw as (_ & [p Hp] & _ & _ & _ & _ & Hl). unfold nvme_rdma_conn_established. rewrite Hl, Z.ltb_irrefl.
  rewrite Hp, (rw_use_ok p m _ _ Hh) by (by apply qp_in). cbn [mbind option_bind].
  destruct (post_ring_ok (take (Z.to_nat (rq_size q)) (rq_elems q)) m _ _ Hh) as (ret & m1 & -> & Hh1).
  assert (Hib1 : ib_held q m1 refs (i :: l)) by (unfold ib_held; by rewrite Ht).
  destruct (Z.eqb_spec ret 0) as [->|Hne]; cbn [negb mbind option_bind].
  - eexists _, _. split; [done|]. split; [done|]. split; [by exists i|]. simpl. by rewrite Ha.
  - destruct (destroy_ib_ok q m1 refs _ Hib1) as (m2 & -> & H'). cbn [mbind option_bind].
    eexists _, _. split; [done|]. split; [done|]. split; [by exists i|]. simpl. by rewrite Ha.
Qed.

Lemma deliver_ok q m refs l ev : conn q m refs l -> handled q refs l (deliver cx (q, m) ev).
Proof.
  intros H. unfold deliver. destruct (cm_deliverable (rq_asked q) ev) eqn:Hd; [|by eexists _, _].
  pose proof H as (H1 & H2 & H3 & H4).
  assert (Hc : conn (q <| rq_asked := CM_NONE |>) m refs l) by done.
  assert (Hs : same_queue q (q <| rq_asked := CM_NONE |>)) by done.
  assert (Hh : forall r, handled (q <| rq_asked := CM_NONE |>) refs l r -> handled q refs l r) by done.
  assert (Hde : forall e, e <> 0 -> handled (q <| rq_asked := CM_NONE |>) refs l
    ('(q, m) ← nvme_rdma_destroy_queue_ib (q <| rq_asked := CM_NONE |>) m; Some (set_error e q, m))).
  { intros e He. destruct (destroyed _ _ _ _ Hc eq_refl) as (m1 & -> & Hx). by apply Hx. }
  destruct ev; cbn [nvme_rdma_cm_handler]; apply Hh.
  - apply deliver_addr in Hd. rewrite Hd in H3. by apply addr_resolved_ok.
  - by apply handled_error.
  - apply deliver_route in Hd. rewrite Hd in H3. by apply route_resolved_ok.
  - by apply Hde.
  - by apply Hde.
  - by apply Hde.
  - by apply Hde.
  - apply deliver_established in Hd. rewrite Hd in H3. by apply established_ok.
  - by eexists _, _.
  - by eexists _, _.
  - by eexists _, _.
  - by eexists _, _.
  - by eexists _, _.
Qed.

Lemma deliver_all_ok q m refs l : conn q m refs l -> handled q refs l (deliver_all cx q m).
Proof.
  intros H. unfold deliver_all.
  assert (H0 : conn q (m <| rw_w ::= fun w => w <| w_calls ::= S |> |>) refs l).
  { destruct H as ((i & Hi & H1) & H2). split; [|done]. exists i. split; [done|]. unfold ib_held in *.
    destruct (rq_tr_ready q); [destruct H1; split; [done|]|]; by apply rheld_later. }
  generalize (cm_events (w_calls (rw_w m))) as evs. revert H0. generalize (m <| rw_w ::= fun w => w <| w_calls ::= S |> |>). clear m H.
  intros m H evs. revert q m H. induction evs as [|ev evs IH]; intros q m H; [by eexists _, _|]. cbn [foldM].
  destruct (deliver_ok q m refs l ev H) as (q1 & m1 & -> & Hs & H1). cbn [mbind option_bind].
  destruct (IH q1 m1 H1) as (q2 & m2 & E & Hs2 & H2). exists q2, m2. split; [done|]. split; [eapply transitivity; [exact Hs|done]|done].
Qed.

(** What a queue owns, and how its flags and pointers fit. *)
Definition q_objs (q : rdma_queue) : list Z := if rq_allocated q then ib_objs q ++ option_list (rq_cm_id q) else [].
Definition q_refs (q : rdma_queue) : list Z := if rq_allocated q then option_list (rq_device q) else [].
Definition wf_rq (q : rdma_queue) : Prop :=
  rq_tr_ready q = rq_allocated q /\ (rq_allocated q = true -> wf_ib q /\ is_Some (rq_cm_id q)) /\ (rq_live q = true -> rq_allocated q = true).

Lemma destroy_cm_id_ok ret q m refs l :
  conn q m refs l ->
  exists q' m', out_destroy_cm_id cx ret q m = Some (ret, q', m') /\ rq_allocated q' = rq_allocated q /\ rq_live q' = rq_live q
    /\ rq_tr_ready q' = false /\ rheld m' refs l.
Proof.
  intros H. unfold out_destroy_cm_id. destruct (deliver_all_ok q m refs l H) as (q1 & m1 & -> & (S1 & S2 & _) & ((i & Hi & H1) & _)).
  cbn [mbind option_bind]. rewrite Hi.
  assert (exists m2, rw_release (Some i) m1 = Some m2 /\ ib_held (q1 <| rq_asked := CM_NONE |>) m2 refs l) as (m2 & -> & H2).
  { unfold ib_held in *. simpl. destruct (rq_tr_ready q1).
    - destruct H1 as [Hw H1]. destruct (rw_release_ok i m1 (option_list (rq_device q1) ++ refs) (ib_objs q1 ++ l)) as (m2 & -> & H2).
      + eapply rheld_perm; [exact H1|]. solve_Permutation.
      + by exists m2.
    - by apply rw_release_ok. }
  cbn [mbind option_bind]. destruct (destroy_ib_ok _ m2 refs l H2) as (m3 & -> & H3). cbn [mbind option_bind]. by eexists _, _.
Qed.

Lemma alloc_queue_ok size q m refs l :
  0 <= size -> rq_tr_ready q = false -> rq_allocated q = false -> rq_live q = false -> rheld m refs l ->
  exists ret q' m', nvme_rdma_alloc_queue cx size q m = Some (ret, q', m') /\ rq_live q' = false /\ rq_allocated q' = (ret =? 0)
    /\ wf_rq q' /\ rheld m' (q_refs q' ++ refs) (q_objs q' ++ l).
Proof.
  intros Hs Ht Ha Hl H. unfold nvme_rdma_alloc_queue.
  assert (Hfail : forall ret q' m', ret <> 0 -> rq_allocated q' = false -> rq_live q' = false -> rq_tr_ready q' = false -> rheld m' refs l ->
    rq_live q' = false /\ rq_allocated q' = (ret =? 0) /\ wf_rq q' /\ rheld m' (q_refs q' ++ refs) (q_objs q' ++ l)).
  { intros ret q' m' Hne E1 E2 E3 Hm. rewrite (proj2 (Z.eqb_neq _ _) Hne). unfold wf_rq, q_refs, q_objs. rewrite E1, E2, E3. done. }

  destruct (rw_new_ok alloc_ok m refs l H) as [(m1 & -> & H1)|(i & m1 & -> & H1 & _)].
  { eexists _, _, _. split; [done|]. apply Hfail; try done. pose proof (ptr_err_neg (w_calls (rw_w m1))). lia. }
  match goal with |- context [rw_call m1] => idtac end. destruct (rw_call_ok _ _ _ H1) as (ret & m2 & -> & H2).
  match goal with |- context [out_destroy_cm_id cx ret ?x m2] => set (q1 := x) end.
  assert (Hc : forall a, a <> CM_RESOLVE_ROUTE -> a <> CM_CONNECT -> conn (q1 <| rq_asked := a |>) m2 refs l).
  { intros a Hna Hnb. split; [exists i; split; [done|]; unfold ib_held; simpl; by rewrite Ht|]. split; [done|]. simpl. split; [by destruct a|done]. }
  destruct (Z.eqb_spec ret 0) as [->|Hne]; cbn [negb].
  2: { destruct (destroy_cm_id_ok ret q1 m2 refs l) as (q' & m' & -> & E1 & E2 & E3 & H3); [by apply (Hc CM_NONE)|].
    eexists _, _, _. split; [done|]. apply Hfail; [done|rewrite E1; exact Ha|rewrite E2; exact Hl|done|done]. }
  unfold nvme_rdma_wait_for_cm.
  match goal with |- context [deliver_all cx ?x m2] => change x with (q1 <| rq_asked := CM_RESOLVE_ADDR |>) end.
  destruct (deliver_all_ok (q1 <| rq_asked := CM_RESOLVE_ADDR |>) m2 refs l) as (q2 & m3 & -> & (S1 & S2 & S3 & S4) & H3); [by apply Hc|].
  cbn [mbind option_bind]. set (r := if cm_wait _ _ <? 0 then _ else _).
  assert (Hok : r = 0 -> rq_tr_ready q2 = true).
  { unfold r. intros Hr. destruct H3 as (_ & _ & _ & H4). pose proof (wait_done (w_calls (rw_w m3))) as Hw.
    destruct (rq_cm_done q2) eqn:Hd.
    - apply H4; [done|]. case_bool_in Hr; [lia|]. case_bool_in Hr; [unfold ETIMEDOUT in Hr; lia|done].
    - case_bool_in Hr; [lia|]. case_bool_in Hr; [unfold ETIMEDOUT in Hr; lia|lia]. }
  destruct (Z.eqb_spec r 0) as [->|Hne]; cbn [negb].
  - specialize (Hok eq_refl). destruct H3 as ((j & Hj & H3) & _). unfold ib_held in H3. rewrite Hok in H3. destruct H3 as [Hwf H3].
    eexists 0, _, m3. split; [done|]. split; [etransitivity; [exact S2|exact Hl]|]. split; [done|]. unfold wf_rq, q_refs, q_objs. simpl. split.
    + split; [done|]. split; [|done]. intros _. split; [done|]. rewrite Hj. by eexists.
    + rewrite Hj. eapply rheld_perm; [exact H3|]. simpl. unfold ib_objs. simpl. solve_Permutation.
  - destruct (destroy_cm_id_ok r q2 m3 refs l H3) as (q' & m' & -> & E1 & E2 & E3 & H4).
    eexists _, _, _. split; [done|]. apply Hfail; [done|rewrite E1, S1; exact Ha|rewrite E2, S2; exact Hl|done|done].
Qed.

Lemma free_queue_ok q m refs l :
  wf_rq q -> rq_live q = false -> rheld m (q_refs q ++ refs) (q_objs q ++ l) ->
  exists q' m', nvme_rdma_free_queue q m = Some (q', m') /\ rq_allocated q' = false /\ rq_live q' = false /\ rq_tr_ready q' = false
    /\ rheld m' refs l.
Proof.
  intros (Hw1 & Hw2 & Hw3) Hl H. unfold nvme_rdma_free_queue, q_refs, q_objs in *. destruct (rq_allocated q) eqn:Ha; cbn [negb].
  2: { eexists _, _. split; [done|]. by rewrite Ha, Hl. }
  destruct (Hw2 eq_refl) as [Hwf [i Hi]]. rewrite Hi in H. simpl in H. rewrite <- app_assoc in H.
  destruct (destroy_ib_ok (q <| rq_allocated := false |>) m refs (i :: l)) as (m1 & -> & H1).
  { unfold ib_held. simpl. by rewrite Hw1. }
  cbn [mbind option_bind]. match goal with |- context [rw_release ?x m1] => change x with (rq_cm_id q) end. rewrite Hi.
  destruct (rw_release_ok _ _ _ _ H1) as (m2 & -> & H2). by eexists _, _.
Qed.

Lemma stop_inner_ok q m refs l :
  wf_rq q -> rq_allocated q = true -> rheld m refs (q_objs q ++ l) -> rdma_stop_inner q m = Some m.
Proof.
  intros (_ & Hw & _) Ha H. destruct (Hw Ha) as [(_ & [p Hp] & _) [i Hi]]. unfold rdma_stop_inner, q_objs in *. rewrite Ha in H. rewrite Hi, Hp in *.
  assert (i ∈ ((ib_objs q ++ option_list (Some i)) ++ l)) as H1 by (apply elem_of_app; left; apply elem_of_app; right; left).
  assert (p ∈ ((ib_objs q ++ option_list (Some i)) ++ l)) as H2 by (rewrite <- app_assoc; by apply qp_in).
  rewrite (rw_use_ok i m _ _ H H1). cbn [mbind option_bind]. by rewrite (rw_use_ok p m _ _ H H2).
Qed.

Lemma stop_queue_ok q m refs l :
  wf_rq q -> rheld m refs (q_objs q ++ l) ->
  exists q', nvme_rdma_stop_queue q m = Some (q', m) /\ q' = q <| rq_live := false |> /\ wf_rq q'.
Proof.
  intros Hw H. unfold nvme_rdma_stop_queue. exists (q <| rq_live := false |>). pose proof Hw as (W1 & W2 & W3).
  assert (Hw' : wf_rq (q <| rq_live := false |>)) by (split; [done|]; split; [done|]; done).
  destruct (rq_live q) eqn:Hl; cbn [negb].
  - assert (rdma_stop_inner (q <| rq_live := false |>) m = Some m) as ->; [|done]. eapply stop_inner_ok; [done|by apply W3|done].
  - split; [|done]. destruct q; simpl in *; by subst.
Qed.

Lemma start_queue_ok q m refs l :
  wf_rq q -> rq_allocated q = true -> rheld m refs (q_objs q ++ l) ->
  exists ret q' m', nvme_rdma_start_queue cx q m = Some (ret, q', m') /\ wf_rq q' /\ q' = q <| rq_live := rq_live q' |>
    /\ (ret = 0 -> rq_live q' = true) /\ (ret <> 0 -> q' = q) /\ rheld m' refs (q_objs q ++ l).
Proof.
  intros Hw Ha H. unfold nvme_rdma_start_queue. destruct poll_queue_ok as [b ->]. cbn [mbind option_bind].
  destruct (rw_call_ok _ _ _ H) as (ret & m1 & -> & H1). pose proof Hw as (W1 & W2 & W3). destruct (Z.eqb_spec ret 0) as [->|Hne].
  - eexists 0, _, _. split; [done|]. split; [by split; [|split]|]. split; [by destruct q|]. done.
  - rewrite Ha. rewrite (stop_inner_ok q m1 refs l Hw Ha H1). cbn [mbind option_bind]. eexists ret, q, m1. split; [done|]. split; [done|]. split; [by destruct q|]. done.
Qed.

(** C36: allocation of a queue of the RDMA driver.  Whatever events the connection manager
    delivers while the caller waits and after it has given up, and whatever allocation
    or call fails, [nvme_rdma_alloc_queue] is defined.  When it succeeds the queue owns
    its queue pair, completion queue, memory regions, ring of mapped elements,
    identifier and one reference of its device, and [nvme_rdma_free_queue] gives all of
    it back; when it fails nothing is left and no reference is held. *)
Theorem rdma_queue_alloc size q m refs l :
  0 <= size -> rq_tr_ready q = false -> rq_allocated q = false -> rq_live q = false -> rheld m refs l ->
  exists ret q' m', nvme_rdma_alloc_queue cx size q m = Some (ret, q', m') /\ rq_allocated q' = (ret =? 0) /\ wf_rq q'
    /\ rheld m' (q_refs q' ++ refs) (q_objs q' ++ l)
    /\ exists q'' m'', nvme_rdma_free_queue q' m' = Some (q'', m'') /\ rq_allocated q'' = false /\ rheld m'' refs l.
Proof.
  intros Hs Ht Ha Hl H. destruct (alloc_queue_ok size q m refs l Hs Ht Ha Hl H) as (ret & q' & m' & E & H1 & H2 & H3 & H4).
  exists ret, q', m'. split; [done|]. split; [done|]. split; [done|]. split; [done|].
  destruct (free_queue_ok q' m' refs l H3 H1 H4) as (q'' & m'' & E' & ? & _ & _ & ?). by exists q'', m''.
Qed.
End queue.

(** A connection that is established; one whose connect command is rejected. *)
Definition ex_deliverable (c : cm_call) (e : cm_event) : bool :=
  match c, e with
  | CM_RESOLVE_ADDR, (ADDR_RESOLVED | ADDR_ERROR) => true
  | CM_RESOLVE_ROUTE, (ROUTE_RESOLVED | ROUTE_ERROR) => true
  | CM_CONNECT, (ESTABLISHED | REJECTED | UNREACHABLE | CONNECT_ERROR) => true
  | _, _ => false
  end.
Definition ex_cm (last : cm_event) : RdmaCm := {|
  cm_guid _ := 5;
  dev_max_sge _ := 16;
  dev_mem_mgt _ := true;
  dev_fr_len _ := 512;
  cm_events _ := [ADDR_RESOLVED; ROUTE_RESOLVED; last];
  cm_deliverable := ex_deliverable;
  cm_wait _ done := if done : bool then 1 else 0;
|}.

Lemma ex_cm_laws last : RdmaCmLaws (ex_cm last).
Proof. split; simpl; try lia; intros c; by destruct c. Qed.

Definition ex_cx : rdma_ctx := mk_rctx 1 [2; 2; 0] 516 127 false 64 32.
Definition ex_queue : rdma_queue :=
  mk_rdq false false false 32 0 None None None None [] None (mk_attr 0 0 0 0 0 false) None CM_NONE 0 false false.
Definition ex_rw : rdma_world := mk_rw [] ex_world.
Definition ex_alloc (last : cm_event) : Z * rdma_queue * rdma_world :=
  default (1, ex_queue, ex_rw) (@nvme_rdma_alloc_queue (life_env 0 []) (ex_cm last) ex_cx 2 ex_queue ex_rw).

Lemma ex_rheld : rheld ex_rw [] [3].
Proof. split; [|apply ex_holds]. split_and!; constructor. Qed.

Lemma rdma_queue_alloc_witness :
  (ex_alloc ESTABLISHED).1.1 = 0 /\ (ex_alloc REJECTED).1.1 = - ECONNRESET
  /\ length (w_live (rw_w (ex_alloc ESTABLISHED).2)) = 12%nat /\ w_live (rw_w (ex_alloc REJECTED).2) = [3]
  /\ rheld (ex_alloc ESTABLISHED).2 (q_refs (ex_alloc ESTABLISHED).1.2 ++ []) (q_objs (ex_alloc ESTABLISHED).1.2 ++ [3])
  /\ rheld (ex_alloc REJECTED).2 (q_refs (ex_alloc REJECTED).1.2 ++ []) (q_objs (ex_alloc REJECTED).1.2 ++ [3]).
Proof.
  do 4 (split; [vm_compute; reflexivity|]). split.
  - destruct (@rdma_queue_alloc (life_env 0 []) (life_laws 0 []) (ex_cm ESTABLISHED) (ex_cm_laws _) ex_cx eq_refl 2 ex_queue ex_rw [] [3]
      ltac:(lia) eq_refl eq_refl eq_refl ex_rheld) as (ret & q & m & E & _ & _ & H & _). unfold ex_alloc. rewrite E. exact H.
  - destruct (@rdma_queue_alloc (life_env 0 []) (life_laws 0 []) (ex_cm REJECTED) (ex_cm_laws _) ex_cx eq_refl 2 ex_queue ex_rw [] [3]
      ltac:(lia) eq_refl eq_refl eq_refl ex_rheld) as (ret & q & m & E & _ & _ & H & _). unfold ex_alloc. rewrite E. exact H.
Defined.
