(* ===== verification/NvmeRdmaIo.v ===== *)
(** * Data path of the NVMe/RDMA host

    Mapping of the data of a request, submission, completions of work requests and
    the end of requests (drivers/nvme/host/rdma.c).  DMA mappings and tables are
    objects of the heap of NvmeTcpConn.v, the memory regions of a queue pair are a
    list, and a request ends when both its send and its answer are done.  The RDMA
    stack, the DMA layer and the NVMe core are the class [RdmaEnv], read by the number
    of the call; a call of [ib_post_send] that fails posts nothing. *)
From stdpp Require Import gmap.
From S2P Require Import Prelude MqTypes BlkMqTagSet NvmeTcpMap NvmeTcpConn NvmetTcp.

Definition NVME_RDMA_MAX_INLINE_SEGMENTS : Z := 4.
Definition NVME_KEY_SGL_FMT_DATA_DESC : Z := 4.
Definition NVME_SGL_FMT_INVALIDATE : Z := 15.
Definition NVME_CMD_SGL_METABUF : Z := 64.
Definition NVME_AQ_BLK_MQ_DEPTH : Z := 31.
Definition nvme_admin_async_event : Z := 12.

Record ib_mr := mk_mr {
  mr_id : Z;
  mr_rkey : Z;
  mr_iova : Z;
  mr_length : Z;
}.
#[export] Instance ib_mr_eta : Settable ib_mr := {| eta_expand := fun r =>
  mk_mr (mr_id r) (mr_rkey r) (mr_iova r) (mr_length r) |}.

Record ib_sge := mk_sge {
  sge_addr : Z;
  sge_length : Z;
  sge_lkey : Z;
}.

(** The data pointer of a command; the length of a keyed descriptor has three bytes. *)
Inductive dptr :=
| DPTR_NONE
| DPTR_SGL (addr length type : Z)
| DPTR_KSGL (addr : Z) (length : list Z) (key type : Z).

Record rdma_cmd := mk_rcmd {
  rcmd_opcode : Z;
  rcmd_id : Z;
  rcmd_flags : Z;
  rcmd_dptr : dptr;
}.
#[export] Instance rdma_cmd_eta : Settable rdma_cmd := {| eta_expand := fun r =>
  mk_rcmd (rcmd_opcode r) (rcmd_id r) (rcmd_flags r) (rcmd_dptr r) |}.

(** A request with its struct nvme_rdma_request. *)
Record rdma_request := mk_rreq {
  rr_segs : Z;  (* blk_rq_nr_phys_segments *)
  rr_write : bool;
  rr_payload : Z;  (* blk_rq_payload_bytes *)
  rr_state : mq_rq_state;
  rr_special : option Z;  (* payload of nvme_setup_cmd *)
  rr_cmd : rdma_cmd;  (* *sqe.data *)
  rr_dma : option Z;  (* mapping of sqe.data *)
  rr_table : option Z;  (* sg_table *)
  rr_mapped : option Z;  (* mapping of the table *)
  rr_mr : option ib_mr;
  rr_sge : list ib_sge;
  rr_num_sge : Z;
  rr_ref : Z;
  rr_status : Z;
  rr_result : Z;
}.
#[export] Instance rdma_request_eta : Settable rdma_request := {| eta_expand := fun r =>
  mk_rreq (rr_segs r) (rr_write r) (rr_payload r) (rr_state r) (rr_special r) (rr_cmd r) (rr_dma r) (rr_table r)
    (rr_mapped r) (rr_mr r) (rr_sge r) (rr_num_sge r) (rr_ref r) (rr_status r) (rr_result r) |}.

(** Work requests that are posted and have not completed. *)
Inductive send_wr := WR_SEND (tag : Z) | WR_LOCAL_INV (tag : Z) | WR_ASYNC.
#[export] Instance send_wr_eq_dec : EqDecision send_wr.
Proof. solve_decision. Defined.

(** What the completion queue and the message say about an answer. *)
Record rdma_rsp := mk_rsp {
  rsp_id : Z;
  rsp_status : Z;
  rsp_result : Z;
  rsp_invalidated : option Z;  (* key of a remote invalidation *)
}.

(** A queue as the data path sees it. *)
Record rdma_io := mk_rio {
  ri_reqs : gmap Z rdma_request;
  ri_live : bool;  (* NVME_RDMA_Q_LIVE *)
  ri_mrs : list ib_mr;  (* qp->rdma_mrs *)
  ri_sends : list send_wr;
  ri_recvs : list Z;  (* elements of rsp_ring that are posted *)
  ri_sent : list Z;  (* commands that the target has not answered *)
  ri_ended : list (Z * Z * Z);  (* calls of nvme_end_request *)
  ri_events : list (Z * Z);  (* calls of nvme_complete_async_event *)
  ri_recovery : bool;  (* error recovery or tear-down *)
  ri_w : world;
}.
#[export] Instance rdma_io_eta : Settable rdma_io := {| eta_expand := fun r =>
  mk_rio (ri_reqs r) (ri_live r) (ri_mrs r) (ri_sends r) (ri_recvs r) (ri_sent r) (ri_ended r) (ri_events r)
    (ri_recovery r) (ri_w r) |}.

(** What does not change while a queue is connected. *)
Record rdma_conf := mk_rconf {
  rc_idx : Z;
  rc_capsule_len : Z;  (* cmnd_capsule_len *)
  rc_inline_segments : Z;  (* num_inline_segments of the device *)
  rc_use_inline : bool;  (* use_inline_data of the controller *)
  rc_icdoff : Z;
  rc_lkey : Z;  (* local_dma_lkey *)
  rc_rkey : Z;  (* unsafe_global_rkey *)
  rc_unsafe : bool;  (* IB_PD_UNSAFE_GLOBAL_RKEY *)
}.

Class RdmaEnv := {
  dma_ok : nat -> bool;  (* ib_dma_map_single succeeds *)
  dma_map : nat -> list (Z * Z);  (* segments of blk_rq_map_sg and ib_dma_map_sg; none on failure *)
  map_mr : nat -> Z * Z * Z;  (* ib_map_mr_sg: result, iova, length *)
  ib_inc_rkey : Z -> Z;
  post_ret : nat -> Z;  (* ib_post_send, ib_post_recv *)
  setup_cmd : nat -> rdma_request -> Z * rdma_cmd * bool;  (* nvme_setup_cmd: status, command, payload of its own *)
  check_ready : nat -> bool -> bool;  (* nvmf_check_ready *)
  fail_nonready : nat -> Z;  (* nvmf_fail_nonready_command *)
  rdma_command_size : Z;  (* sizeof(struct nvme_command) *)
  STS_RESOURCE : Z;
  STS_IOERR : Z;
}.

Section io.
Context {ce : CtrlEnv} {re : RdmaEnv} (conf : rdma_conf).

(** ** Data *)

Definition put_unaligned_le24 (val : Z) : list Z := [u8 val; u8 (Z.shiftr val 8); u8 (Z.shiftr val 16)].

Definition nvme_rdma_inline_data_size : Z := u64 (rc_capsule_len conf - rdma_command_size).

Definition nvme_rdma_set_sg_null (c : rdma_cmd) : rdma_cmd :=
  c <| rcmd_dptr := DPTR_KSGL 0 (put_unaligned_le24 0) 0 (Z.shiftl NVME_KEY_SGL_FMT_DATA_DESC 4) |>.

(** The loop of [nvme_rdma_map_sg_inline] over the segments. *)
Definition inline_sge (sgl : list (Z * Z)) '((sge, len) : list ib_sge * Z) (i : Z) : option (list ib_sge * Z) :=
  '(addr, n) ← aget sgl i;
  sge ← aset sge (1 + i) (mk_sge addr n (rc_lkey conf));
  Some (sge, u32 (len + n)).

Definition nvme_rdma_map_sg_inline (sgl : list (Z * Z)) (count : Z) (req : rdma_request) : option rdma_request :=
  '(sge, len) ← foldM (inline_sge sgl) (rr_sge req, 0) (seqZ 0 count);
  Some (req <| rr_sge := sge |> <| rr_num_sge ::= fun n => u32 (n + count) |>
            <| rr_cmd ::= fun c => c <| rcmd_dptr := DPTR_SGL (u64 (rc_icdoff conf)) len
                 (Z.lor (Z.shiftl NVME_SGL_FMT_DATA_DESC 4) NVME_SGL_FMT_OFFSET) |> |>).

Definition nvme_rdma_map_sg_single (sgl : list (Z * Z)) (req : rdma_request) : option rdma_request :=
  '(addr, n) ← aget sgl 0;
  Some (req <| rr_cmd ::= fun c => c <| rcmd_dptr :=
         DPTR_KSGL addr (put_unaligned_le24 n) (rc_rkey conf) (Z.shiftl NVME_KEY_SGL_FMT_DATA_DESC 4) |> |>).

(** The result, the request and the pool of regions. *)
Definition nvme_rdma_map_sg_fr (k : nat) (count : Z) (mrs : list ib_mr) (req : rdma_request)
  : Z * rdma_request * list ib_mr :=
  match mrs with
  | [] => (- EAGAIN, req <| rr_mr := None |>, [])
  | mr :: mrs' =>
    let '(nr, iova, len) := map_mr k in
    if nr <? count then (if nr <? 0 then nr else - EINVAL, req <| rr_mr := None |>, mr :: mrs')
    else
      let mr := mk_mr (mr_id mr) (ib_inc_rkey (mr_rkey mr)) iova len in
      (0, req <| rr_mr := Some mr |>
              <| rr_cmd ::= fun c => c <| rcmd_dptr := DPTR_KSGL iova (put_unaligned_le24 len) (mr_rkey mr)
                   (Z.lor (Z.shiftl NVME_KEY_SGL_FMT_DATA_DESC 4) NVME_SGL_FMT_INVALIDATE) |> |>, mrs')
  end.

(** What kind of descriptor [nvme_rdma_map_data] builds. *)
Definition map_sgl (k : nat) (sgl : list (Z * Z)) (mrs : list ib_mr) (req : rdma_request)
  : option (Z * rdma_request * list ib_mr) :=
  let count := Z.of_nat (length sgl) in
  if (count <=? rc_inline_segments conf) && rr_write req && c_true (rc_idx conf) && rc_use_inline conf
     && (rr_payload req <=? nvme_rdma_inline_data_size)
  then req ← nvme_rdma_map_sg_inline sgl count req; Some (0, req, mrs)
  else if (count <=? rc_inline_segments conf) && (count =? 1) && rc_unsafe conf
  then req ← nvme_rdma_map_sg_single sgl req; Some (0, req, mrs)
  else Some (nvme_rdma_map_sg_fr k count mrs req).

Definition nvme_rdma_map_data (req : rdma_request) (s : rdma_io) : option (Z * rdma_request * rdma_io) :=
  let req := req <| rr_num_sge := 1 |> <| rr_ref := 2 |>
                 <| rr_cmd ::= fun c => c <| rcmd_flags ::= fun f => Z.lor f NVME_CMD_SGL_METABUF |> |> in
  if rr_segs req =? 0 then Some (0, req <| rr_cmd ::= nvme_rdma_set_sg_null |>, s)
  else
    let '(table, w) := new_obj alloc_ok (ri_w s) in
    match table with
    | None => Some (- ENOMEM, req, s <| ri_w := w |>)
    | Some _ =>
      let k := w_calls w in
      let sgl := dma_map k in
      let '(map, w) := new_obj (fun k => negb (bool_decide (dma_map k = []))) w in
      match map with
      | None => w ← release table w; Some (- EIO, req, s <| ri_w := w |>)
      | Some _ =>
        '(ret, req, mrs) ← map_sgl k sgl (ri_mrs s) req;
        let s := s <| ri_mrs := mrs |> in
        if negb (ret =? 0) then
          w ← release map w; w ← release table w; Some (ret, req, s <| ri_w := w |>)
        else Some (0, req <| rr_table := table |> <| rr_mapped := map |>, s <| ri_w := w |>)
      end
    end.

(** [nvme_cleanup_cmd]. *)
Definition cleanup_cmd (req : rdma_request) (w : world) : option (rdma_request * world) :=
  w ← kfree (rr_special req) w; Some (req <| rr_special := None |>, w).

Definition nvme_rdma_unmap_data (req : rdma_request) (s : rdma_io) : option (rdma_request * rdma_io) :=
  if rr_segs req =? 0 then Some (req, s)
  else
    let s := match rr_mr req with Some mr => s <| ri_mrs ::= cons mr |> | None => s end in
    w ← release (rr_mapped req) (ri_w s);
    '(req, w) ← cleanup_cmd (req <| rr_mr := None |> <| rr_mapped := None |>) w;
    w ← release (rr_table req) w;
    Some (req <| rr_table := None |>, s <| ri_w := w |>).

(** ** Submission *)

(** [ib_post_send] of [wr]. *)
Definition ib_post_send (wr : send_wr) (s : rdma_io) : Z * rdma_io :=
  let ret := post_ret (w_calls (ri_w s)) in
  let s := s <| ri_w ::= fun w => w <| w_calls ::= S |> |> in
  (ret, if ret =? 0 then s <| ri_sends ::= cons wr |> else s).

(** The first segment is the command itself; a registration is posted with it. *)
Definition nvme_rdma_post_send (tag : Z) (req : rdma_request) (s : rdma_io) : option (Z * rdma_request * rdma_io) :=
  dma ← rr_dma req;
  sge ← aset (rr_sge req) 0 (mk_sge dma rdma_command_size (rc_lkey conf));
  let '(ret, s) := ib_post_send (WR_SEND tag) s in
  Some (ret, req <| rr_sge := sge |>, if ret =? 0 then s <| ri_sent ::= cons tag |> else s).

(** The labels of [nvme_rdma_queue_rq]. *)
Definition rq_unmap_qe (ret tag : Z) (req : rdma_request) (s : rdma_io) : option (Z * rdma_io) :=
  w ← release (rr_dma req) (ri_w s);
  Some (ret, s <| ri_reqs ::= <[tag := req <| rr_dma := None |>]> |> <| ri_w := w |>).
Definition rq_err (err tag : Z) (req : rdma_request) (s : rdma_io) : option (Z * rdma_io) :=
  rq_unmap_qe (if (err =? - ENOMEM) || (err =? - EAGAIN) then STS_RESOURCE else STS_IOERR) tag req s.

Definition nvme_rdma_queue_rq (tag : Z) (s : rdma_io) : option (Z * rdma_io) :=
  req ← ri_reqs s !! tag;
  let k := w_calls (ri_w s) in
  if negb (check_ready k (ri_live s)) then Some (fail_nonready k, s)
  else
    let '(dma, w) := new_obj dma_ok (ri_w s) in
    match dma with
    | None => Some (STS_RESOURCE, s <| ri_w := w |>)
    | Some _ =>
      let req := req <| rr_dma := dma |> in
      let '(ret, cmd, special) := setup_cmd (w_calls w) req in
      if negb (ret =? 0) then rq_unmap_qe ret tag req (s <| ri_w := w |>)
      else
        let '(sp, w) := new_obj (fun _ => special) w in
        let req := req <| rr_cmd := cmd |> <| rr_special := sp |> <| rr_state := MQ_RQ_IN_FLIGHT |> in
        '(err, req, s) ← nvme_rdma_map_data req (s <| ri_w := w |>);
        if err <? 0 then '(req, w) ← cleanup_cmd req (ri_w s); rq_err err tag req (s <| ri_w := w |>)
        else
          '(err, req, s) ← nvme_rdma_post_send tag req s;
          if negb (err =? 0) then '(req, s) ← nvme_rdma_unmap_data req s; rq_err err tag req s
          else Some (0, s <| ri_reqs ::= <[tag := req]> |>)
    end.

(** The command of an asynchronous event has no request. *)
Definition async_event_cmd : rdma_cmd :=
  nvme_rdma_set_sg_null (mk_rcmd nvme_admin_async_event NVME_AQ_BLK_MQ_DEPTH NVME_CMD_SGL_METABUF DPTR_NONE).

Definition nvme_rdma_submit_async_event (s : rdma_io) : rdma_cmd * rdma_io := (async_event_cmd, (ib_post_send WR_ASYNC s).2).

(** ** Completions *)

Definition nvme_rdma_error_recovery (s : rdma_io) : rdma_io := s <| ri_recovery := true |>.

(** The error is reported while the controller is live. *)
Definition nvme_rdma_wr_error (s : rdma_io) : rdma_io := nvme_rdma_error_recovery s.

(** [refcount_dec_and_test], which does not go below zero. *)
Definition refcount_dec_and_test (ref : Z) : bool * Z := if ref =? 0 then (false, 0) else (ref =? 1, ref - 1).

Definition end_request (tag : Z) (req : rdma_request) (s : rdma_io) : rdma_io :=
  s <| ri_reqs ::= <[tag := req <| rr_state := MQ_RQ_COMPLETE |>]> |>
    <| ri_ended ::= cons (tag, rr_status req, rr_result req) |>.

Definition put_request (tag : Z) (req : rdma_request) (s : rdma_io) : rdma_io :=
  let '(last, ref) := refcount_dec_and_test (rr_ref req) in
  let req := req <| rr_ref := ref |> in
  if last then end_request tag req s else s <| ri_reqs ::= <[tag := req]> |>.

Definition nvme_rdma_memreg_done (ok : bool) (s : rdma_io) : rdma_io := if ok then s else nvme_rdma_wr_error s.
Definition nvme_rdma_async_done (ok : bool) (s : rdma_io) : rdma_io := if ok then s else nvme_rdma_wr_error s.

Definition nvme_rdma_inv_rkey_done (ok : bool) (tag : Z) (s : rdma_io) : option rdma_io :=
  req ← ri_reqs s !! tag; Some (if ok then put_request tag req s else nvme_rdma_wr_error s).

Definition nvme_rdma_send_done (ok : bool) (tag : Z) (s : rdma_io) : option rdma_io :=
  req ← ri_reqs s !! tag; Some (if ok then put_request tag req s else nvme_rdma_wr_error s).

Definition nvme_rdma_inv_rkey (tag : Z) (s : rdma_io) : Z * rdma_io := ib_post_send (WR_LOCAL_INV tag) s.

Definition nvme_rdma_process_nvme_rsp (rsp : rdma_rsp) (s : rdma_io) : option rdma_io :=
  let tag := rsp_id rsp in
  match ri_reqs s !! tag with
  | None => Some (nvme_rdma_error_recovery s)
  | Some req =>
    let req := req <| rr_status := rsp_status rsp |> <| rr_result := rsp_result rsp |> in
    match rsp_invalidated rsp with
    | Some key =>
      mr ← rr_mr req;
      let s := if negb (key =? mr_rkey mr) then nvme_rdma_error_recovery s else s in
      Some (put_request tag req s)
    | None =>
      match rr_mr req with
      | Some _ =>
        let s := s <| ri_reqs ::= <[tag := req]> |> in
        let '(ret, s) := nvme_rdma_inv_rkey tag s in
        Some (if ret <? 0 then nvme_rdma_error_recovery s else s)
      | None => Some (put_request tag req s)
      end
    end
  end.

Definition nvme_rdma_post_recv (i : Z) (s : rdma_io) : Z * rdma_io :=
  let ret := post_ret (w_calls (ri_w s)) in
  let s := s <| ri_w ::= fun w => w <| w_calls ::= S |> |> in
  (ret, if ret =? 0 then s <| ri_recvs ::= cons i |> else s).

(** The answer in element [i] of the ring, which is posted again. *)
Definition nvme_rdma_recv_done (ok : bool) (i : Z) (rsp : rdma_rsp) (s : rdma_io) : option rdma_io :=
  if negb ok then Some (nvme_rdma_wr_error s)
  else
    s ← (if (rc_idx conf =? 0) && (NVME_AQ_BLK_MQ_DEPTH <=? rsp_id rsp)
         then Some (s <| ri_events ::= cons (rsp_status rsp, rsp_result rsp) |>)
         else nvme_rdma_process_nvme_rsp rsp s);
    Some (nvme_rdma_post_recv i s).2.

(** The request goes back to the block layer, which may use it again. *)
Definition nvme_rdma_complete_rq (tag : Z) (s : rdma_io) : option rdma_io :=
  req ← ri_reqs s !! tag;
  '(req, s) ← nvme_rdma_unmap_data req s;
  w ← release (rr_dma req) (ri_w s);
  Some (s <| ri_reqs ::= <[tag := req <| rr_dma := None |> <| rr_state := MQ_RQ_IDLE |>]> |> <| ri_w := w |>).

(** The receives that are posted when the connection is established. *)
Fixpoint post_recvs (n : nat) (i : Z) (s : rdma_io) : Z * rdma_io :=
  match n with
  | O => (0, s)
  | S n => let '(ret, s) := nvme_rdma_post_recv i s in if ret =? 0 then post_recvs n (i + 1) s else (ret, s)
  end.
End io.
