(* ===== verification/NvmeRdmaIoSpec.v ===== *)
(** * Requests of the NVMe/RDMA host end exactly once

    A step relation over submissions, completions, answers, tear-down and the return
    of requests to the block layer, with an invariant: the references of a request are
    the work requests and the answer it waits for, its objects and memory region are
    its own, and whatever is not owned by a request is free. *)
From stdpp Require Import gmap.
From S2P Require Import Prelude MqTypes BlkMqTagSet NvmeTcpMap NvmeTcpConn NvmeTcpConnSpec NvmetTcp NvmeRdmaIo.

(** What the code relies on. *)
Class RdmaLaws (re : RdmaEnv) := {
  post_errno : forall k, post_ret k <= 0;  (* an error number or 0 *)
  sts_errors : STS_RESOURCE <> 0 /\ STS_IOERR <> 0;  (* BLK_STS_OK is 0 *)
  special_segs : forall k r, (setup_cmd k r).2 = true -> rr_segs r <> 0;  (* the payload is a segment *)
}.

(** [l] without the first [x]. *)
Fixpoint remove_one {A} `{EqDecision A} (x : A) (l : list A) : option (list A) :=
  match l with
  | [] => None
  | y :: l => if decide (x = y) then Some l else cons y <$> remove_one x l
  end.

Lemma remove_one_spec {A} `{EqDecision A} (x : A) l :
  x ∈ l -> NoDup l ->
  exists k, remove_one x l = Some k /\ NoDup k /\ x ∉ k /\ forall y, y <> x -> (y ∈ k <-> y ∈ l).
Proof.
  induction l as [|y l IH]; intros Hx Hn; [by apply elem_of_nil in Hx|]. apply NoDup_cons in Hn as [Hy Hn]. simpl.
  destruct (decide (x = y)) as [->|Hne]; [exists l; set_solver|]. apply elem_of_cons in Hx as [?|Hx]; [done|].
  destruct (IH Hx Hn) as (k & -> & Hk & Hxk & Hm). exists (y :: k). split; [done|]. split.
  - constructor; [|done]. rewrite Hm by done. done.
  - split; [set_solver|]. intros z Hz. rewrite !elem_of_cons, Hm by done. done.
Qed.

Inductive rdma_event :=
| EV_SUBMIT (tag segs : Z) (write : bool) (payload : Z)
| EV_SEND (ok : bool) (tag : Z)
| EV_INV (ok : bool) (tag : Z)
| EV_MEMREG
| EV_ASYNC_SUBMIT
| EV_ASYNC (ok : bool)
| EV_RECV (ok : bool) (i : Z) (rsp : rdma_rsp)
| EV_COMPLETE (tag : Z)
| EV_LIVE
| EV_DRAIN
| EV_CANCEL (tag : Z).

Section step.
Context {ce : CtrlEnv} {re : RdmaEnv} (conf : rdma_conf).

(** A request that the block layer gives to the driver. *)
Definition prepare (segs : Z) (write : bool) (payload : Z) (r : rdma_request) : rdma_request :=
  r <| rr_segs := segs |> <| rr_write := write |> <| rr_payload := payload |>.

(** A request that was refused is requeued or failed. *)
Definition take_back (tag : Z) (s : rdma_io) : rdma_io :=
  match ri_reqs s !! tag with
  | Some r => s <| ri_reqs ::= <[tag := r <| rr_state := MQ_RQ_IDLE |>]> |>
  | None => s
  end.

Definition take_send (wr : send_wr) (s : rdma_io) : option rdma_io :=
  l ← remove_one wr (ri_sends s); Some (s <| ri_sends := l |>).

(** An answer to a command or an asynchronous event of the admin queue; an answer whose
    tag belongs to no request. *)
Definition is_event (rsp : rdma_rsp) : bool := (rc_idx conf =? 0) && (NVME_AQ_BLK_MQ_DEPTH <=? rsp_id rsp).
Definition stray (rsp : rdma_rsp) (s : rdma_io) : bool := bool_decide (ri_reqs s !! rsp_id rsp = None).

Definition take_answer (ok : bool) (rsp : rdma_rsp) (s : rdma_io) : option rdma_io :=
  if negb ok || is_event rsp || stray rsp s then Some s
  else l ← remove_one (rsp_id rsp) (ri_sent s); Some (s <| ri_sent := l |>).

(** The steps; [None] is undefined behaviour. *)
Definition rdma_step (e : rdma_event) (s : rdma_io) : option rdma_io :=
  match e with
  | EV_SUBMIT tag segs write payload =>
    r ← ri_reqs s !! tag;
    '(ret, s) ← nvme_rdma_queue_rq conf tag (s <| ri_reqs ::= <[tag := prepare segs write payload r]> |>);
    Some (if ret =? 0 then s else take_back tag s)
  | EV_SEND ok tag => s ← take_send (WR_SEND tag) s; nvme_rdma_send_done ok tag s
  | EV_INV ok tag => s ← take_send (WR_LOCAL_INV tag) s; nvme_rdma_inv_rkey_done ok tag s
  | EV_MEMREG => Some (nvme_rdma_memreg_done false s)
  | EV_ASYNC_SUBMIT => Some (nvme_rdma_submit_async_event s).2
  | EV_ASYNC ok => s ← take_send WR_ASYNC s; Some (nvme_rdma_async_done ok s)
  | EV_RECV ok i rsp =>
    l ← remove_one i (ri_recvs s);
    s ← take_answer ok rsp (s <| ri_recvs := l |>); nvme_rdma_recv_done conf ok i rsp s
  | EV_COMPLETE tag => nvme_rdma_complete_rq tag s
  | EV_LIVE => Some (s <| ri_live := true |>)
  | EV_DRAIN => Some (s <| ri_live := false |> <| ri_sends := [] |> <| ri_recvs := [] |> <| ri_sent := [] |>
                        <| ri_recovery := true |>)
  | EV_CANCEL tag => r ← ri_reqs s !! tag; Some (s <| ri_reqs ::= <[tag := r <| rr_state := MQ_RQ_COMPLETE |>]> |>)
  end.

Definition state_of (tag : Z) (s : rdma_io) : option mq_rq_state := rr_state <$> ri_reqs s !! tag.

(** No work request and no answer is pending for [tag]. *)
Definition quiet (tag : Z) (s : rdma_io) : Prop :=
  WR_SEND tag ∉ ri_sends s /\ WR_LOCAL_INV tag ∉ ri_sends s /\ tag ∉ ri_sent s.

(** When the block layer, the RDMA stack and the target may take a step.  A command
    that was sent is answered once, and a region is invalidated, with whatever key, only
    by the answer to a request that has one; an answer may also carry a tag of no
    request. *)
Definition enabled (e : rdma_event) (s : rdma_io) : Prop :=
  match e with
  | EV_SUBMIT tag segs _ _ => state_of tag s = Some MQ_RQ_IDLE
  | EV_SEND _ tag => WR_SEND tag ∈ ri_sends s
  | EV_INV _ tag => WR_LOCAL_INV tag ∈ ri_sends s
  | EV_ASYNC_SUBMIT => rc_idx conf = 0 /\ WR_ASYNC ∉ ri_sends s
  | EV_ASYNC _ => WR_ASYNC ∈ ri_sends s
  | EV_RECV ok i rsp =>
    i ∈ ri_recvs s /\
    (ok = true -> is_event rsp = false ->
      ri_reqs s !! rsp_id rsp = None \/
      (rsp_id rsp ∈ ri_sent s /\
       (is_Some (rsp_invalidated rsp) -> exists r, ri_reqs s !! rsp_id rsp = Some r /\ is_Some (rr_mr r))))
  | EV_COMPLETE tag => state_of tag s = Some MQ_RQ_COMPLETE
  | EV_CANCEL tag => ri_recovery s = true /\ state_of tag s = Some MQ_RQ_IN_FLIGHT /\ quiet tag s
  | EV_MEMREG | EV_LIVE | EV_DRAIN => True
  end.

(** What a run has done: submissions that were accepted, answers, cancelled requests. *)
Record rdma_log := mk_rlog {
  lg_accepted : list Z;
  lg_answers : list (Z * Z * Z);
  lg_cancelled : list Z;
}.
#[export] Instance rdma_log_eta : Settable rdma_log := {| eta_expand := fun r =>
  mk_rlog (lg_accepted r) (lg_answers r) (lg_cancelled r) |}.

Definition log (e : rdma_event) (s' : rdma_io) (g : rdma_log) : rdma_log :=
  match e with
  | EV_SUBMIT tag _ _ _ =>
    if bool_decide (state_of tag s' = Some MQ_RQ_IN_FLIGHT) then g <| lg_accepted ::= cons tag |> else g
  | EV_RECV true _ rsp =>
    if is_event rsp || stray rsp s' then g else g <| lg_answers ::= cons (rsp_id rsp, rsp_status rsp, rsp_result rsp) |>
  | EV_CANCEL tag => g <| lg_cancelled ::= cons tag |>
  | _ => g
  end.

Inductive rdma_run (s0 : rdma_io) : rdma_log -> rdma_io -> Prop :=
| run_start : rdma_run s0 (mk_rlog [] [] []) s0
| run_step g s e s' : rdma_run s0 g s -> enabled e s -> rdma_step e s = Some s' -> rdma_run s0 (log e s' g) s'.

(** A queue that is connected and has no work. *)
Definition idle_request (r : rdma_request) : Prop :=
  rr_state r = MQ_RQ_IDLE /\ rr_dma r = None /\ rr_table r = None /\ rr_mapped r = None /\ rr_special r = None
  /\ rr_mr r = None /\ length (rr_sge r) = 5%nat.

Definition connected (L : list Z) (s : rdma_io) : Prop :=
  map_Forall (fun _ => idle_request) (ri_reqs s) /\ (size (ri_reqs s) <= length (ri_mrs s))%nat
  /\ ri_sends s = [] /\ ri_sent s = [] /\ ri_ended s = [] /\ NoDup (ri_recvs s) /\ holds (ri_w s) L.

(** ** The invariant *)

Definition of_tag (tag : Z) (l : list (Z * Z * Z)) : list (Z * Z * Z) := filter (fun x => x.1.1 = tag) l.
Definition occ (tag : Z) (l : list Z) : nat := length (filter (fun x => x = tag) l).

(** What a run says about one tag. *)
Record view := mk_view {
  v_send : bool;
  v_inv : bool;
  v_sent : bool;
  v_answers : list (Z * Z * Z);
  v_ended : list (Z * Z * Z);
  v_accepted : nat;
  v_cancelled : nat;
}.

Definition view_of (tag : Z) (g : rdma_log) (s : rdma_io) : view :=
  mk_view (bool_decide (WR_SEND tag ∈ ri_sends s)) (bool_decide (WR_LOCAL_INV tag ∈ ri_sends s))
    (bool_decide (tag ∈ ri_sent s)) (of_tag tag (lg_answers g)) (of_tag tag (ri_ended s))
    (occ tag (lg_accepted g)) (occ tag (lg_cancelled g)).

(** The objects of a request that is in use. *)
Definition owns (r : rdma_request) : Prop :=
  is_Some (rr_dma r) /\
  (if rr_segs r =? 0 then rr_table r = None /\ rr_mapped r = None /\ rr_special r = None /\ rr_mr r = None
   else is_Some (rr_table r) /\ is_Some (rr_mapped r)).

Definition answered (tag : Z) (r : rdma_request) (v : view) : Prop :=
  exists rest, v_answers v = (tag, rr_status r, rr_result r) :: rest /\ v_ended v `sublist_of` rest.

(** The completions that a request waits for. *)
Definition waits (v : view) : Z := Z.b2z (v_send v) + Z.b2z (v_inv v || v_sent v).

(** A reference is lost only when a work request failed. *)
Definition request_ok (recovery : bool) (tag : Z) (v : view) (r : rdma_request) : Prop :=
  length (rr_sge r) = 5%nat /\ v_ended v `sublist_of` v_answers v /\
  match rr_state r with
  | MQ_RQ_IDLE => idle_request r /\ v_accepted v = (length (v_ended v) + v_cancelled v)%nat
                  /\ v_send v = false /\ v_inv v = false /\ v_sent v = false
  | MQ_RQ_COMPLETE => owns r /\ v_accepted v = (length (v_ended v) + v_cancelled v)%nat
                  /\ v_send v = false /\ v_inv v = false /\ v_sent v = false
  | MQ_RQ_IN_FLIGHT => owns r /\ v_accepted v = S (length (v_ended v) + v_cancelled v)
                  /\ v_inv v && v_sent v = false /\ waits v <= rr_ref r /\ 1 <= rr_ref r <= 2
                  /\ (rr_ref r = waits v \/ recovery = true)
                  /\ (v_inv v = true \/ rr_ref r = Z.b2z (v_send v) -> answered tag r v)
  end.

(** What the requests have of some kind. *)
Definition collect {A} (f : rdma_request -> list A) (m : gmap Z rdma_request) : list A :=
  concat (f <$> (map_to_list m).*2).
Definition req_objs (r : rdma_request) : list Z := omap id [rr_special r; rr_mapped r; rr_table r; rr_dma r].
Definition req_mrs (r : rdma_request) : list Z := mr_id <$> option_list (rr_mr r).

(** The tag of a work request belongs to a request. *)
Definition wr_known (s : rdma_io) (wr : send_wr) : Prop :=
  match wr with WR_SEND t | WR_LOCAL_INV t => is_Some (ri_reqs s !! t) | WR_ASYNC => rc_idx conf = 0 end.

Record rio_inv (L M : list Z) (D : gset Z) (g : rdma_log) (s : rdma_io) : Prop := {
  ri_ok : forall t r, ri_reqs s !! t = Some r -> request_ok (ri_recovery s) t (view_of t g s) r;
  ri_heap : holds (ri_w s) (collect req_objs (ri_reqs s) ++ L);
  ri_regions : collect req_mrs (ri_reqs s) ++ (mr_id <$> ri_mrs s) ≡ₚ M;
  ri_sends_ok : NoDup (ri_sends s) /\ Forall (wr_known s) (ri_sends s);
  ri_sent_ok : NoDup (ri_sent s) /\ Forall (fun t => is_Some (ri_reqs s !! t)) (ri_sent s);
  ri_recvs_ok : NoDup (ri_recvs s);
  ri_tags : dom (ri_reqs s) = D;
}.
End step.

(** ** Requests of a map *)

Section collect.
Context {A : Type} (f : rdma_request -> list A).

Lemma collect_insert_fresh m t r : m !! t = None -> collect f (<[t := r]> m) ≡ₚ f r ++ collect f m.
Proof. intros H. unfold collect. rewrite map_to_list_insert by done. reflexivity. Qed.

Lemma collect_delete m t r : m !! t = Some r -> collect f m ≡ₚ f r ++ collect f (delete t m).
Proof.
  intros H. rewrite <- collect_insert_fresh by apply lookup_delete_eq. by rewrite insert_delete_id.
Qed.

Lemma collect_insert m t r : collect f (<[t := r]> m) ≡ₚ f r ++ collect f (delete t m).
Proof. rewrite <- insert_delete_eq. apply collect_insert_fresh, lookup_delete_eq. Qed.

Lemma collect_same m t r r' : m !! t = Some r -> f r' = f r -> collect f (<[t := r']> m) ≡ₚ collect f m.
Proof. intros H Hf. by rewrite collect_insert, Hf, <- collect_delete. Qed.

Lemma collect_nil m : map_Forall (fun _ r => f r = []) m -> collect f m = [].
Proof.
  intros H. unfold collect. apply concat_nil_Forall, Forall_fmap, Forall_fmap, Forall_forall.
  intros [t r] Hr%elem_of_map_to_list. by apply (H t r).
Qed.

Lemma collect_length n m : map_Forall (fun _ r => (length (f r) <= n)%nat) m -> (length (collect f m) <= n * size m)%nat.
Proof.
  induction m as [|t r m Hm IH] using map_ind; intros H; [unfold collect; rewrite map_to_list_empty; simpl; lia|].
  rewrite collect_insert_fresh, length_app, map_size_insert_None by done.
  apply map_Forall_insert in H as [H1 H2]; [|done]. specialize (IH H2). lia.
Qed.
End collect.

(** ** Mapping of data *)

Definition sgl_bytes (sgl : list (Z * Z)) : Z := foldr (fun x n => x.2 + n) 0 sgl.

Lemma sgl_bytes_app l l' : sgl_bytes (l ++ l') = sgl_bytes l + sgl_bytes l'.
Proof. induction l as [|x l IH]; simpl; [done|]. rewrite IH. lia. Qed.

Section map.
Context {ce : CtrlEnv} {re : RdmaEnv} {rl : RdmaLaws re} (conf : rdma_conf).
Context (Hinline : rc_inline_segments conf <= NVME_RDMA_MAX_INLINE_SEGMENTS).

Lemma map_inline_ok sgl req :
  Z.of_nat (length sgl) <= NVME_RDMA_MAX_INLINE_SEGMENTS -> length (rr_sge req) = 5%nat ->
  exists sge len, nvme_rdma_map_sg_inline conf sgl (Z.of_nat (length sgl)) req =
    Some (req <| rr_sge := sge |> <| rr_num_sge ::= fun n => u32 (n + Z.of_nat (length sgl)) |>
            <| rr_cmd ::= fun c => c <| rcmd_dptr := DPTR_SGL (u64 (rc_icdoff conf)) len
                 (Z.lor (Z.shiftl NVME_SGL_FMT_DATA_DESC 4) NVME_SGL_FMT_OFFSET) |> |>)
    /\ length sge = 5%nat /\ len = u32 (sgl_bytes sgl).
Proof.
  intros Hc Hl. unfold nvme_rdma_map_sg_inline.
  destruct (foldM_inv (inline_sge conf sgl) (fun d x => length x.1 = 5%nat /\ x.2 = u32 (sgl_bytes (take (length d) sgl)))
    (seqZ 0 (Z.of_nat (length sgl))) (rr_sge req, 0)) as ([sge len] & -> & H1 & H2).
  - by rewrite take_0.
  - intros d i rest [sge len] Hd [H1 H2]. simpl in *.
    assert (i = Z.of_nat (length d) /\ (length d < length sgl)%nat) as [-> Hi].
    { assert (seqZ 0 (Z.of_nat (length sgl)) !! length d = Some i) as Hi by (by rewrite Hd, list_lookup_middle).
      apply lookup_seqZ in Hi. lia. }
    rewrite aget_of_nat. destruct (lookup_lt_is_Some_2 sgl _ Hi) as [[a n] Ha]. rewrite Ha. cbn [mbind option_bind].
    rewrite aset_lt by (rewrite H1; unfold NVME_RDMA_MAX_INLINE_SEGMENTS in Hc; lia). cbn [mbind option_bind].
    eexists; split; [done|]. simpl. rewrite length_insert. split; [done|].
    rewrite length_app. simpl. rewrite Nat.add_1_r, (take_S_r _ _ _ Ha), sgl_bytes_app. simpl.
    rewrite H2. unfold u32. rewrite Zplus_mod_idemp_l. f_equal. lia.
  - cbn [mbind option_bind]. exists sge, len. simpl in *. rewrite length_seqZ, Nat2Z.id, firstn_all in H2. done.
Qed.

(** The fields that mapping the data of a request may change. *)
Definition remapped (req req' : rdma_request) : Prop :=
  req' = req <| rr_sge := rr_sge req' |> <| rr_num_sge := rr_num_sge req' |> <| rr_cmd := rr_cmd req' |>
             <| rr_mr := rr_mr req' |> <| rr_table := rr_table req' |> <| rr_mapped := rr_mapped req' |> <| rr_ref := rr_ref req' |>.

Lemma map_sgl_ok k sgl mrs req :
  sgl <> [] -> length (rr_sge req) = 5%nat -> rr_mr req = None ->
  exists ret req' mrs', map_sgl conf k sgl mrs req = Some (ret, req', mrs')
    /\ req' = req <| rr_sge := rr_sge req' |> <| rr_num_sge := rr_num_sge req' |> <| rr_cmd := rr_cmd req' |> <| rr_mr := rr_mr req' |>
    /\ length (rr_sge req') = 5%nat /\ rr_ref req' = rr_ref req
    /\ (ret = 0 /\ req_mrs req' ++ (mr_id <$> mrs') = mr_id <$> mrs
        \/ ret < 0 /\ rr_mr req' = None /\ mrs' = mrs).
Proof.
  intros Hs Hl Hm. unfold map_sgl. case_bool.
  { destruct (map_inline_ok sgl req) as (sge & len & -> & H1 & _); [lia|done|]. cbn [mbind option_bind].
    eexists _, _, _; split; [done|]. split; [by destruct req|]. split; [done|]. split; [done|]. left. unfold req_mrs. simpl. by rewrite Hm. }
  case_bool.
  { destruct sgl as [|[a n] sgl]; [done|]. unfold nvme_rdma_map_sg_single. cbn [aget Z.ltb Z.compare lookup list_lookup Z.to_nat mbind option_bind].
    eexists _, _, _; split; [done|]. split; [by destruct req|]. split; [done|]. split; [done|]. left. unfold req_mrs. simpl. by rewrite Hm. }
  unfold nvme_rdma_map_sg_fr. destruct mrs as [|mr mrs].
  { eexists _, _, _; split; [done|]. split; [by destruct req|]. split; [done|]. split; [done|]. right. done. }
  destruct (map_mr k) as [[nr iova] len]. case_bool.
  { eexists _, _, _; split; [done|]. split; [by destruct req|]. split; [done|]. split; [done|]. right.
    unfold EINVAL. split; [|done]. case_bool; lia. }
  eexists _, _, _; split; [done|]. split; [by destruct req|]. split; [done|]. split; [done|]. left. done.
Qed.

Lemma rdma_map_data_ok req s l :
  length (rr_sge req) = 5%nat -> rr_mr req = None -> rr_table req = None -> rr_mapped req = None -> holds (ri_w s) l ->
  exists ret req' mrs' w', nvme_rdma_map_data conf req s = Some (ret, req', s <| ri_mrs := mrs' |> <| ri_w := w' |>)
    /\ remapped req req' /\ length (rr_sge req') = 5%nat /\ rr_ref req' = 2
    /\ req_mrs req' ++ (mr_id <$> mrs') = mr_id <$> ri_mrs s
    /\ (ret = 0 /\ (if rr_segs req =? 0 then rr_table req' = None /\ rr_mapped req' = None /\ rr_mr req' = None
                     else is_Some (rr_table req') /\ is_Some (rr_mapped req'))
         /\ holds w' (omap id [rr_mapped req'; rr_table req'] ++ l)
        \/ ret < 0 /\ rr_mr req' = None /\ rr_table req' = None /\ rr_mapped req' = None /\ holds w' l).
Proof.
  intros Hl Hm Ht Hp H. unfold nvme_rdma_map_data.
  set (req0 := req <| rr_num_sge := 1 |> <| rr_ref := 2 |> <| rr_cmd ::= _ |>).
  assert (H0 : remapped req req0 /\ rr_segs req0 = rr_segs req /\ length (rr_sge req0) = 5%nat /\ rr_mr req0 = None
    /\ rr_table req0 = None /\ rr_mapped req0 = None /\ rr_ref req0 = 2) by (by destruct req).
  clearbody req0. destruct H0 as (Hr & Hsegs & H1 & H2 & H3 & H4 & H5). rewrite Hsegs. destruct (rr_segs req =? 0) eqn:Hz.
  { exists 0, (req0 <| rr_cmd ::= nvme_rdma_set_sg_null |>), (ri_mrs s), (ri_w s). split; [by destruct s|].
    split. { unfold remapped in *. rewrite Hr. by destruct req. }
    split; [done|]. split; [done|]. split; [unfold req_mrs; simpl; by rewrite H2|]. left. simpl. rewrite H3, H4. done. }
  heap_step.
  { exists (- ENOMEM), req0, (ri_mrs s), x. split; [by destruct s|]. split; [done|]. split; [done|]. split; [done|].
    split; [unfold req_mrs; simpl; by rewrite H2|]. right. done. }
  destruct (new_spec (fun k => negb (bool_decide (dma_map k = []))) x0 _ H0) as [(w' & E & Hok & Hw)|(i & w' & E & Hw)]; rewrite E; cbn beta iota zeta.
  { destruct (release_spec _ _ _ Hw) as (w2 & -> & Hw2). cbn [mbind option_bind].
    exists (- EIO), req0, (ri_mrs s), w2. split; [by destruct s|]. split; [done|]. split; [done|]. split; [done|].
    split; [unfold req_mrs; simpl; by rewrite H2|]. right. done. }
  assert (dma_map (w_calls x0) <> []) as Hd.
  { unfold new_obj in E. intros Hd. rewrite Hd in E. by inversion E. }
  destruct (map_sgl_ok (w_calls x0) (dma_map (w_calls x0)) (ri_mrs s) req0 Hd H1 H2)
    as (ret & req1 & mrs' & -> & Hr1 & Hl1 & Href & Hc).
  cbn [mbind option_bind].
  assert (remapped req req1) as Hr2 by (unfold remapped in *; rewrite Hr1, Hr; by destruct req).
  assert (rr_table req1 = None /\ rr_mapped req1 = None) as [Ht1 Hm1] by (rewrite Hr1; by destruct req0).
  destruct Hc as [(-> & Hc)|(Hneg & Hmr & ->)].
  - eexists 0, _, mrs', w'. split; [by destruct s|]. split; [unfold remapped in *; rewrite Hr2; by destruct req|].
    split; [done|]. split; [simpl; congruence|]. split; [done|]. left. simpl. split; [done|]. split; [by split; eexists|done].
  - rewrite (proj2 (Z.eqb_neq ret 0)) by lia. cbn [negb].
    destruct (release_spec _ _ _ Hw) as (w2 & -> & Hw2). cbn [mbind option_bind].
    destruct (release_spec _ _ _ Hw2) as (w3 & -> & Hw3). cbn [mbind option_bind].
    eexists ret, req1, (ri_mrs s), w3. split; [by destruct s|]. split; [done|]. split; [done|]. split; [congruence|].
    split; [unfold req_mrs; by rewrite Hmr|]. right. done.
Qed.

Lemma idle_prepare segs write payload r : idle_request r -> idle_request (prepare segs write payload r).
Proof. by destruct r. Qed.

(** A refused request goes back as it came. *)
Definition refused (tag : Z) (s : rdma_io) (l : list Z) (res : option rdma_io) : Prop :=
  exists r' mrs' w', res = Some (s <| ri_reqs ::= <[tag := r']> |> <| ri_mrs := mrs' |> <| ri_w := w' |>)
    /\ idle_request r' /\ mr_id <$> mrs' = mr_id <$> ri_mrs s /\ holds w' l.

Lemma rq_unmap_refused ret tag r s mrs' w l d :
  ret <> 0 -> rr_dma r = Some d -> idle_request (r <| rr_dma := None |> <| rr_state := MQ_RQ_IDLE |>) ->
  mr_id <$> mrs' = mr_id <$> ri_mrs s -> holds w (d :: l) ->
  exists s', rq_unmap_qe ret tag r (s <| ri_mrs := mrs' |> <| ri_w := w |>) = Some (ret, s')
    /\ refused tag s l (Some (if ret =? 0 then s' else take_back tag s')).
Proof.
  intros Hr Hd Hi Hm H. unfold rq_unmap_qe. rewrite Hd.
  change (ri_w (s <| ri_mrs := mrs' |> <| ri_w := w |>)) with w. heap_step. eexists; split; [done|].
  rewrite (proj2 (Z.eqb_neq _ _) Hr). unfold take_back. simpl. rewrite lookup_insert_eq. eexists _, _, _; split; [|done].
  f_equal. destruct s; unfold upd; simpl. by rewrite insert_insert_eq.
Qed.

(** An accepted request waits for its send and its answer. *)
Definition accepted (tag : Z) (s : rdma_io) (l : list Z) (res : option rdma_io) : Prop :=
  exists r' mrs' w', res = Some (s <| ri_reqs ::= <[tag := r']> |> <| ri_mrs := mrs' |> <| ri_w := w' |>
                                   <| ri_sends ::= cons (WR_SEND tag) |> <| ri_sent ::= cons tag |>)
    /\ rr_state r' = MQ_RQ_IN_FLIGHT /\ owns r' /\ length (rr_sge r') = 5%nat /\ rr_ref r' = 2
    /\ req_mrs r' ++ (mr_id <$> mrs') = mr_id <$> ri_mrs s /\ holds w' (req_objs r' ++ l).

Definition outcome (tag : Z) (s : rdma_io) (l : list Z) (res : option (Z * rdma_io)) : Prop :=
  let res := '(ret, s') ← res; Some (if ret =? 0 then s' else take_back tag s') in
  accepted tag s l res \/ refused tag s l res.

Lemma outcome_refused ret tag r s mrs' w l d :
  ret <> 0 -> rr_dma r = Some d -> idle_request (r <| rr_dma := None |> <| rr_state := MQ_RQ_IDLE |>) ->
  mr_id <$> mrs' = mr_id <$> ri_mrs s -> holds w (d :: l) ->
  outcome tag s l (rq_unmap_qe ret tag r (s <| ri_mrs := mrs' |> <| ri_w := w |>)).
Proof.
  intros Hr Hd Hi Hm H. destruct (rq_unmap_refused ret tag r s mrs' w l d) as (s' & -> & Hs); [done..|]. by right.
Qed.

Lemma rq_err_refused err tag r s mrs' w l d :
  rr_dma r = Some d -> idle_request (r <| rr_dma := None |> <| rr_state := MQ_RQ_IDLE |>) ->
  mr_id <$> mrs' = mr_id <$> ri_mrs s -> holds w (d :: l) ->
  outcome tag s l (rq_err err tag r (s <| ri_mrs := mrs' |> <| ri_w := w |>)).
Proof. intros Hd Hi Hm H. eapply outcome_refused; [|done..]. destruct sts_errors. by case_bool. Qed.

(** From the data on. *)
Definition send_mapped (tag : Z) (req : rdma_request) (s : rdma_io) : option (Z * rdma_io) :=
  '(err, req, s) ← nvme_rdma_post_send conf tag req s;
  if negb (err =? 0) then '(req, s) ← nvme_rdma_unmap_data req s; rq_err err tag req s
  else Some (0, s <| ri_reqs ::= <[tag := req]> |>).

Lemma rdma_unmap_ok r s l :
  owns r -> holds (ri_w s) (req_objs r ++ l) ->
  exists d mrs' w', nvme_rdma_unmap_data r s =
      Some (r <| rr_mr := None |> <| rr_mapped := None |> <| rr_special := None |> <| rr_table := None |>,
            s <| ri_mrs := mrs' |> <| ri_w := w' |>)
    /\ rr_dma r = Some d /\ mr_id <$> mrs' = req_mrs r ++ (mr_id <$> ri_mrs s) /\ holds w' (d :: l).
Proof.
  intros [[d Hd] Hr] H. unfold nvme_rdma_unmap_data. exists d. destruct (rr_segs r =? 0).
  { destruct Hr as (H1 & H2 & H3 & H4). exists (ri_mrs s), (ri_w s). unfold req_objs, req_mrs in *. rewrite H1, H2, H3, Hd, ?H4 in *.
    split; [|done]. f_equal. destruct r, s; simpl in *; subst. done. }
  destruct Hr as [[t Ht] [m Hm]]. unfold req_objs in H. rewrite Ht, Hm, Hd in H.
  set (s1 := match rr_mr r with Some mr => _ | None => s end).
  assert (Hs1 : s1 = s <| ri_mrs := ri_mrs s1 |> /\ mr_id <$> ri_mrs s1 = req_mrs r ++ (mr_id <$> ri_mrs s)).
  { unfold s1, req_mrs. destruct (rr_mr r); [done|]. by destruct s. }
  destruct Hs1 as [Hs1 Hids]. exists (ri_mrs s1). rewrite Hs1. change (ri_w (s <| ri_mrs := ri_mrs s1 |>)) with (ri_w s).
  clearbody s1. rewrite Hm. unfold cleanup_cmd.
  destruct (rr_special r) as [p|] eqn:Hp; simpl in H.
  - assert (holds (ri_w s) (m :: p :: t :: d :: l)) as H' by (eapply holds_perm; [exact H|]; apply Permutation_swap).
    heap_step. change (rr_special (r <| rr_mr := None |> <| rr_mapped := None |>)) with (rr_special r). rewrite Hp. heap_step.
    change (rr_table (r <| rr_mr := None |> <| rr_mapped := None |> <| rr_special := None |>)) with (rr_table r). rewrite Ht. heap_step.
    eexists; split; [done|]. done.
  - heap_step. change (rr_special (r <| rr_mr := None |> <| rr_mapped := None |>)) with (rr_special r). rewrite Hp. cbn [kfree mbind option_bind].
    change (rr_table (r <| rr_mr := None |> <| rr_mapped := None |> <| rr_special := None |>)) with (rr_table r). rewrite Ht. heap_step.
    eexists; split; [done|]. done.
Qed.

Lemma send_mapped_ok tag r s mrs' w l :
  rr_state r = MQ_RQ_IN_FLIGHT -> owns r -> length (rr_sge r) = 5%nat -> rr_ref r = 2 ->
  req_mrs r ++ (mr_id <$> mrs') = mr_id <$> ri_mrs s -> holds w (req_objs r ++ l) ->
  outcome tag s l (send_mapped tag r (s <| ri_mrs := mrs' |> <| ri_w := w |>)).
Proof.
  intros Hst Ho Hl Href Hm H. unfold send_mapped, nvme_rdma_post_send. pose proof Ho as [[d Hd] _]. rewrite Hd. cbn [mbind option_bind].
  rewrite aset_lt by (rewrite Hl; lia). cbn [mbind option_bind]. set (r1 := r <| rr_sge := _ |>). unfold ib_post_send. cbn [ri_w].
  change (ri_w (s <| ri_mrs := mrs' |> <| ri_w := w |>)) with w.
  assert (H1 : holds (w <| w_calls ::= S |>) (req_objs r1 ++ l)) by (by apply holds_later).
  assert (Ho1 : owns r1) by (by destruct r).
  destruct (post_ret (w_calls w) =? 0) eqn:Hp.
  - cbn [negb mbind option_bind]. left. eexists r1, mrs', (w <| w_calls ::= S |>).
    split; [rewrite Hp; by destruct s|]. split; [done|]. split; [done|]. split; [simpl; by rewrite length_insert|]. done.
  - cbn [negb mbind option_bind].
    set (s1 := s <| ri_mrs := mrs' |> <| ri_w ::= fun _ => w <| w_calls ::= S |> |>).
    destruct (rdma_unmap_ok r1 s1 l Ho1) as (d' & mrs2 & w2 & E & Hd' & Hm2 & Hw2).
    { cbn. exact H1. }
    rewrite Hp. cbn [negb].
    match goal with |- context [nvme_rdma_unmap_data r1 ?x] => change x with s1 end. rewrite E. cbn [mbind option_bind].
    apply (rq_err_refused _ _ _ s mrs2 w2 l d'); [done| |by rewrite Hm2|done].
    unfold idle_request. simpl. rewrite length_insert. done.
Qed.

Lemma queue_rq_ok tag s r l :
  ri_reqs s !! tag = Some r -> idle_request r -> holds (ri_w s) l -> outcome tag s l (nvme_rdma_queue_rq conf tag s).
Proof.
  intros Hr Hi H. unfold nvme_rdma_queue_rq. rewrite Hr. cbn [mbind option_bind].
  assert (Hself : forall ret w, holds w l -> outcome tag s l (Some (ret, s <| ri_w := w |>))).
  { intros ret w Hw. right. cbn [mbind option_bind]. destruct (ret =? 0).
    - exists r, (ri_mrs s), w. split; [|done]. cbn. f_equal. destruct s; unfold upd; simpl in *. by rewrite insert_id.
    - exists r, (ri_mrs s), w. split; [|done]. unfold take_back. cbn. rewrite Hr. f_equal. destruct s; unfold upd; simpl in *.
      f_equal. destruct Hi as [Hi _]. destruct r; simpl in *; by subst. }
  destruct Hi as (H1 & H2 & H3 & H4 & H5 & H6 & H7).
  case_bool. { specialize (Hself (fail_nonready (w_calls (ri_w s))) (ri_w s) H). by destruct s. }
  destruct (new_spec dma_ok (ri_w s) l H) as [(w1 & -> & _ & Hw1)|(d & w1 & -> & Hw1)]; [by apply Hself|].
  pose proof (special_segs (w_calls w1) (r <| rr_dma := Some d |>)) as Hsp.
  destruct (setup_cmd (w_calls w1) (r <| rr_dma := Some d |>)) as [[ret cmd] special]. simpl in Hsp. case_bool.
  { apply (outcome_refused ret tag _ s (ri_mrs s) w1 l d); [lia|done| |done|done]. by unfold idle_request. }
  destruct (new_obj (fun _ => special) w1) as [sp w2] eqn:E2.
  assert (Hw2 : holds w2 (omap id [sp] ++ d :: l) /\ (rr_segs r = 0 -> sp = None)).
  { destruct (new_spec (fun _ => special) w1 _ Hw1) as [(w & E & _ & Hw)|(p & w & E & Hw)]; rewrite E2 in E; inversion E; subst; [done|].
    split; [done|]. intros Hz. destruct special; [by destruct Hsp|]. by unfold new_obj in E2. }
  destruct Hw2 as [Hw2 Hspz]. set (r1 := r <| rr_dma := _ |> <| rr_cmd := _ |> <| rr_special := _ |> <| rr_state := _ |>).
  set (s1 := s <| ri_w := w2 |>).
  destruct (rdma_map_data_ok r1 s1 _ H7 H6 H3 H4 Hw2) as (err & r2 & mrs' & w3 & -> & Hre & Hl2 & Hf2 & Hm2 & Hc).
  cbn [mbind option_bind].
  assert (Hdma : rr_dma r2 = Some d /\ rr_special r2 = sp /\ rr_state r2 = MQ_RQ_IN_FLIGHT /\ rr_segs r2 = rr_segs r) by (by rewrite Hre).
  destruct Hdma as (Hd2 & Hs2 & Hst2 & Hg2). change (rr_segs r1) with (rr_segs r) in Hc.
  destruct Hc as [(-> & Hc & Hw3)|(Hneg & Hmr & Ht & Hmp & Hw3)].
  - cbn [Z.ltb Z.compare]. apply (send_mapped_ok tag r2 s mrs' w3 l); [done| |done|done|done|].
    + split; [by eexists|]. rewrite Hg2. destruct (Z.eqb_spec (rr_segs r) 0); [|done].
      destruct Hc as (? & ? & ?). rewrite Hs2. split_and!; [done|done|by apply Hspz|done].
    + unfold req_objs. rewrite Hs2, Hd2. eapply holds_perm; [exact Hw3|].
      destruct sp, (rr_mapped r2), (rr_table r2); simpl; try done; solve_Permutation.
  - rewrite (proj2 (Z.ltb_lt err 0)) by done. match goal with |- context [cleanup_cmd r2 ?x] => change x with w3 end. unfold cleanup_cmd. rewrite Hs2.
    assert (exists w4, kfree sp w3 = Some w4 /\ holds w4 (d :: l)) as (w4 & -> & Hw4).
    { destruct sp; [by apply kfree_spec|by exists w3]. }
    cbn [mbind option_bind]. apply (rq_err_refused err tag _ s mrs' w4 l d); [done| | |done].
    + unfold idle_request. simpl. done.
    + unfold req_mrs in Hm2. rewrite Hmr in Hm2. done.
Qed.

Lemma submit_ok tag segs write payload s r l :
  ri_reqs s !! tag = Some r -> idle_request r -> holds (ri_w s) l ->
  accepted tag s l (rdma_step conf (EV_SUBMIT tag segs write payload) s)
  \/ refused tag s l (rdma_step conf (EV_SUBMIT tag segs write payload) s).
Proof.
  intros Hr Hi H. cbn [rdma_step]. rewrite Hr. cbn [mbind option_bind].
  set (s1 := s <| ri_reqs ::= _ |>). assert (E : forall r', <[tag := r']> (ri_reqs s1) = <[tag := r']> (ri_reqs s)).
  { intros r'. simpl. by rewrite insert_insert_eq. }
  destruct (queue_rq_ok tag s1 (prepare segs write payload r) l) as [(r' & mrs' & w' & -> & A)|(r' & mrs' & w' & -> & A)].
  - apply lookup_insert_eq.
  - by apply idle_prepare.
  - done.
  - left. exists r', mrs', w'. split; [|done]. unfold upd. simpl. by rewrite insert_insert_eq.
  - right. exists r', mrs', w'. split; [|done]. unfold upd. simpl. by rewrite insert_insert_eq.
Qed.
End map.
