(* ===== verification/NvmeRdmaRun.v ===== *)
(** * Runs of the NVMe/RDMA data path

    Every step of NvmeRdmaIoSpec.v is defined and keeps the invariant. *)
From stdpp Require Import gmap.
From S2P Require Import Prelude MqTypes BlkMqTagSet NvmeTcpMap NvmeTcpConn NvmeTcpConnSpec NvmetTcp NvmeTcpLife NvmeRdmaConn NvmeRdmaConnSpec NvmeRdmaIo NvmeRdmaIoSpec.

Section run.
Context {ce : CtrlEnv} {re : RdmaEnv} {rl : RdmaLaws re} (conf : rdma_conf).
Context (Hinline : rc_inline_segments conf <= NVME_RDMA_MAX_INLINE_SEGMENTS).
Context (L M : list Z) (D : gset Z).
Implicit Types (s : rdma_io) (g : rdma_log) (r : rdma_request) (v : view) (t : Z).

Notation inv := (rio_inv conf L M D).

Lemma request_ok_mono rec rec' t v r : (rec = true -> rec' = true) -> request_ok rec t v r -> request_ok rec' t v r.
Proof. intros Hr (H1 & H2 & H3). split; [done|]. split; [done|]. destruct (rr_state r); [done| |done]. naive_solver. Qed.

Lemma holds_unique w l l' : holds w l -> holds w l' -> l ≡ₚ l'.
Proof. intros (H & _) (H' & _). by rewrite <- H. Qed.

(** Only request [t] changes. *)
Lemma inv_update g s g' s' t r r' :
  inv g s -> ri_reqs s !! t = Some r -> ri_reqs s' = <[t := r']> (ri_reqs s) ->
  (forall t', t' <> t -> view_of t' g' s' = view_of t' g s) -> (ri_recovery s = true -> ri_recovery s' = true) ->
  request_ok (ri_recovery s') t (view_of t g' s') r' ->
  (forall l, holds (ri_w s) (req_objs r ++ l) -> holds (ri_w s') (req_objs r' ++ l)) ->
  req_mrs r' ++ (mr_id <$> ri_mrs s') ≡ₚ req_mrs r ++ (mr_id <$> ri_mrs s) ->
  NoDup (ri_sends s') -> (forall wr, wr ∈ ri_sends s' -> wr ∈ ri_sends s \/ wr = WR_SEND t \/ wr = WR_LOCAL_INV t) ->
  NoDup (ri_sent s') -> (forall t', t' ∈ ri_sent s' -> t' ∈ ri_sent s \/ t' = t) -> NoDup (ri_recvs s') ->
  inv g' s'.
Proof.
  intros [I1 I2 I3 [I4 I4'] [I5 I5'] I6 I7] Ht Hreqs Hv Hrec Hok Hheap Hm Hns Hs Hnt Hst Hrv.
  assert (Hin : forall t', is_Some (ri_reqs s !! t') -> is_Some (ri_reqs s' !! t')).
  { intros t' Ht'. rewrite Hreqs, lookup_insert_is_Some'. by right. }
  split.
  - intros t' r1. rewrite Hreqs. destruct (decide (t' = t)) as [->|Hne]; [rewrite lookup_insert_eq; by intros [= <-]|].
    rewrite lookup_insert_ne by done. intros H. rewrite Hv by done. eapply request_ok_mono; [done|]. by apply I1.
  - eapply (holds_perm _ (req_objs r' ++ collect req_objs (delete t (ri_reqs s)) ++ L)).
    + apply Hheap. eapply holds_perm; [done|]. by rewrite (collect_delete _ _ _ _ Ht), app_assoc.
    + by rewrite Hreqs, collect_insert, app_assoc.
  - rewrite Hreqs, collect_insert. rewrite <- I3, (collect_delete _ (ri_reqs s) _ _ Ht).
    rewrite <- !app_assoc, (Permutation_app_comm (collect _ _)), !app_assoc, Hm, <- !app_assoc. f_equiv. apply Permutation_app_comm.
  - split; [done|]. apply Forall_forall. intros wr [Hw|[-> | ->]]%Hs; [|apply Hin; by eexists..].
    rewrite Forall_forall in I4'. specialize (I4' wr Hw). destruct wr; simpl in *; auto.
  - split; [done|]. apply Forall_forall. intros t' [Ht'| ->]%Hst; [|apply Hin; by eexists].
    rewrite Forall_forall in I5'. apply Hin. by apply I5'.
  - done.
  - rewrite Hreqs, dom_insert_lookup_L by done. done.
Qed.

(** No request changes. *)
Lemma inv_frame g s g' s' :
  inv g s -> ri_reqs s' = ri_reqs s -> (forall t, view_of t g' s' = view_of t g s) ->
  (ri_recovery s = true -> ri_recovery s' = true) ->
  (forall l, holds (ri_w s) l -> holds (ri_w s') l) -> ri_mrs s' = ri_mrs s ->
  NoDup (ri_sends s') -> (forall wr, wr ∈ ri_sends s' -> wr ∈ ri_sends s \/ wr = WR_ASYNC /\ rc_idx conf = 0) ->
  ri_sent s' = ri_sent s -> NoDup (ri_recvs s') -> inv g' s'.
Proof.
  intros [I1 I2 I3 [I4 I4'] [I5 I5'] I6 I7] Hreqs Hv Hrec Hheap Hm Hns Hs Hst Hrv. split.
  - intros t r. rewrite Hreqs, Hv. intros H. eapply request_ok_mono; [done|]. by apply I1.
  - rewrite Hreqs. by apply Hheap.
  - by rewrite Hreqs, Hm.
  - split; [done|]. apply Forall_forall. intros wr [Hw|[-> ?]]%Hs; [|done].
    rewrite Forall_forall in I4'. specialize (I4' wr Hw). unfold wr_known in *. by rewrite Hreqs.
  - rewrite Hst. split; [done|]. by rewrite Hreqs.
  - done.
  - by rewrite Hreqs.
Qed.

Lemma take_send_ok wr s :
  wr ∈ ri_sends s -> NoDup (ri_sends s) ->
  exists l, take_send wr s = Some (s <| ri_sends := l |>) /\ NoDup l /\ wr ∉ l /\ forall y, y <> wr -> (y ∈ l <-> y ∈ ri_sends s).
Proof.
  intros H1 H2. unfold take_send. destruct (remove_one_spec wr (ri_sends s) H1 H2) as (l & -> & Hl). by exists l.
Qed.

(** A request that something is pending for is in flight. *)
Lemma pending_in_flight g s t :
  inv g s -> WR_SEND t ∈ ri_sends s \/ WR_LOCAL_INV t ∈ ri_sends s \/ t ∈ ri_sent s ->
  exists r, ri_reqs s !! t = Some r /\ rr_state r = MQ_RQ_IN_FLIGHT.
Proof.
  intros [I1 _ _ [_ I4] [_ I5] _ _] H. rewrite Forall_forall in I4; rewrite Forall_forall in I5.
  assert (is_Some (ri_reqs s !! t)) as [r Hr].
  { destruct H as [H|[H|H]]; [exact (I4 _ H)|exact (I4 _ H)|exact (I5 _ H)]. }
  exists r. split; [done|]. destruct (I1 t r Hr) as (_ & _ & Hst).
  destruct (rr_state r); [|done|]; destruct Hst as (_ & _ & Hst); unfold view_of in Hst; simpl in Hst;
    rewrite !bool_decide_eq_false in Hst; naive_solver.
Qed.

(** One of the completions that a request waits for has come. *)
Definition may_put (rec : bool) (t : Z) (v : view) (r : rdma_request) : Prop :=
  length (rr_sge r) = 5%nat /\ owns r /\ rr_state r = MQ_RQ_IN_FLIGHT
  /\ v_ended v `sublist_of` v_answers v /\ v_accepted v = S (length (v_ended v) + v_cancelled v)
  /\ v_inv v && v_sent v = false /\ waits v + 1 <= rr_ref r <= 2 /\ (rr_ref r = waits v + 1 \/ rec = true)
  /\ (v_inv v = true \/ rr_ref r = Z.b2z (v_send v) + 1 -> answered t r v).

Lemma waits_pos v : 0 <= waits v.
Proof. unfold waits. destruct (v_send v), (v_inv v), (v_sent v); simpl; lia. Qed.

Lemma put_ok rec t v r :
  may_put rec t v r ->
  if rr_ref r =? 1
  then request_ok rec t (mk_view (v_send v) (v_inv v) (v_sent v) (v_answers v) ((t, rr_status r, rr_result r) :: v_ended v)
         (v_accepted v) (v_cancelled v)) (r <| rr_ref := 0 |> <| rr_state := MQ_RQ_COMPLETE |>)
  else request_ok rec t v (r <| rr_ref := rr_ref r - 1 |>).
Proof.
  intros (Hl & Ho & Hst & Hsub & Hacc & Hex & Href & Hrec & Hans). destruct (Z.eqb_spec (rr_ref r) 1) as [Heq|Hne].
  - unfold waits in *. destruct (v_send v) eqn:E1, (v_inv v) eqn:E2, (v_sent v) eqn:E3; simpl in *; try lia.
    destruct Hans as (rest & Ha & Hr); [right; lia|]. split; [done|]. simpl. split; [rewrite Ha; by apply sublist_skip|].
    split; [by destruct r|]. done.
  - split; [done|]. split; [done|]. simpl. rewrite Hst. split; [by destruct r|]. split; [done|]. split; [done|].
    pose proof (waits_pos v). split; [lia|]. split; [lia|]. split; [destruct Hrec; [left; lia|by right]|].
    intros Hi. destruct Hans as (rest & Ha); [destruct Hi; [by left|right; lia]|]. by exists rest.
Qed.

Lemma put_step g s g' s1 t r r1 :
  inv g s -> ri_reqs s !! t = Some r ->
  ri_reqs s1 = ri_reqs s -> ri_mrs s1 = ri_mrs s -> ri_w s1 = ri_w s -> ri_ended s1 = ri_ended s ->
  (ri_recovery s = true -> ri_recovery s1 = true) -> req_objs r1 = req_objs r -> req_mrs r1 = req_mrs r ->
  (forall t', t' <> t -> view_of t' g' s1 = view_of t' g s) -> may_put (ri_recovery s1) t (view_of t g' s1) r1 ->
  NoDup (ri_sends s1) -> (forall wr, wr ∈ ri_sends s1 -> wr ∈ ri_sends s) ->
  NoDup (ri_sent s1) -> (forall t', t' ∈ ri_sent s1 -> t' ∈ ri_sent s) -> NoDup (ri_recvs s1) ->
  inv g' (put_request t r1 s1).
Proof.
  intros I Hr E1 E2 E3 E4 Hrec Ho Hm Hv Hput Hn1 Hs1 Hn2 Hs2 Hn3.
  pose proof (put_ok _ _ _ _ Hput) as Hok. unfold put_request, refcount_dec_and_test.
  destruct Hput as (_ & _ & _ & _ & _ & _ & Href & _). pose proof (waits_pos (view_of t g' s1)).
  rewrite (proj2 (Z.eqb_neq (rr_ref r1) 0)) by lia. destruct (Z.eqb_spec (rr_ref r1) 1) as [Hone|Hone].
  - rewrite Hone. change (1 - 1) with 0. unfold end_request.
    eapply (inv_update g s g' _ t r (r1 <| rr_ref := 0 |> <| rr_state := MQ_RQ_COMPLETE |>)); simpl; try done.
    + by rewrite E1.
    + intros t' Hne. rewrite <- Hv by done. unfold view_of, of_tag. simpl. rewrite filter_cons_False by naive_solver. done.
    + unfold view_of, of_tag in *. simpl in *. rewrite filter_cons_True by done. done.
    + rewrite E3. intros l. by rewrite <- Ho.
    + rewrite E2. by rewrite <- Hm.
    + naive_solver.
    + naive_solver.
  - eapply (inv_update g s g' _ t r (r1 <| rr_ref := rr_ref r1 - 1 |>)); simpl; try done.
    + by rewrite E1.
    + rewrite E3. intros l. by rewrite <- Ho.
    + rewrite E2. by rewrite <- Hm.
    + naive_solver.
    + naive_solver.
Qed.

(** Views that agree. *)
Lemma view_same t g s s' :
  (WR_SEND t ∈ ri_sends s' <-> WR_SEND t ∈ ri_sends s) -> (WR_LOCAL_INV t ∈ ri_sends s' <-> WR_LOCAL_INV t ∈ ri_sends s) ->
  (t ∈ ri_sent s' <-> t ∈ ri_sent s) -> ri_ended s' = ri_ended s -> view_of t g s' = view_of t g s.
Proof.
  intros H1 H2 H3 H4. unfold view_of. rewrite H4. by rewrite (bool_decide_ext _ _ H1), (bool_decide_ext _ _ H2), (bool_decide_ext _ _ H3).
Qed.

(** The completion of a work request fails: its reference is lost. *)
Lemma lost_step g s s' t r :
  inv g s -> ri_reqs s !! t = Some r -> rr_state r = MQ_RQ_IN_FLIGHT ->
  ri_reqs s' = ri_reqs s -> ri_mrs s' = ri_mrs s -> (forall l, holds (ri_w s) l -> holds (ri_w s') l) ->
  ri_ended s' = ri_ended s -> ri_recovery s' = true ->
  NoDup (ri_sends s') -> (forall wr, wr <> WR_SEND t -> wr <> WR_LOCAL_INV t -> wr ∈ ri_sends s' <-> wr ∈ ri_sends s) ->
  (WR_SEND t ∈ ri_sends s' -> WR_SEND t ∈ ri_sends s) -> (WR_LOCAL_INV t ∈ ri_sends s' -> WR_LOCAL_INV t ∈ ri_sends s) ->
  ri_sent s' = ri_sent s -> NoDup (ri_recvs s') -> inv g s'.
Proof.
  intros I Hr Hst E1 E2 Hh E4 Hrec Hn Hw Hw1 Hw2 E5 Hrv.
  destruct (ri_ok _ _ _ _ _ _ I t r Hr) as (Hl & Hsub & Hok). rewrite Hst in Hok.
  destruct Hok as (Ho & Hacc & Hex & Hle & Href & _ & Hans).
  assert (Hv : forall t', t' <> t -> view_of t' g s' = view_of t' g s).
  { intros t' Hne. apply view_same; [apply Hw; congruence|apply Hw; congruence|by rewrite E5|done]. }
  eapply (inv_update g s g s' t r r I Hr); try done.
  - rewrite E1. by rewrite insert_id.
  - rewrite Hrec. split; [done|]. unfold view_of, answered, waits in *. simpl in *. rewrite E4, E5. split; [done|]. rewrite Hst.
    repeat case_bool_decide; simpl in *; try tauto; (split; [done|]); (split; [done|]); (split; [done|]); (split; [lia|]);
      (split; [lia|]); (split; [by right|]); (intros [?|?]; [try done|try lia]); apply Hans; auto.
  - intros l. apply Hh.
  - by rewrite E2.
  - intros wr Hin. destruct (decide (wr = WR_SEND t)) as [->|]; [auto|]. destruct (decide (wr = WR_LOCAL_INV t)) as [->|]; [auto|].
    left. by apply Hw.
  - rewrite E5. by apply I.
  - rewrite E5. auto.
Qed.

Lemma wr_step ok t wr g s :
  wr = WR_SEND t \/ wr = WR_LOCAL_INV t -> inv g s -> wr ∈ ri_sends s ->
  exists s', (s ← take_send wr s; req ← ri_reqs s !! t; Some (if ok : bool then put_request t req s else nvme_rdma_wr_error s)) = Some s'
    /\ inv g s'.
Proof.
  intros Hwr I Hin. destruct (pending_in_flight g s t I) as (r & Hr & Hst); [naive_solver|].
  destruct (take_send_ok wr s Hin) as (l & -> & Hn & Hnin & Hl); [by apply I|]. cbn [mbind option_bind].
  change (ri_reqs (s <| ri_sends := l |>)) with (ri_reqs s). rewrite Hr. cbn [mbind option_bind]. eexists; split; [done|].
  assert (Hsub : forall y, y ∈ l -> y ∈ ri_sends s) by (intros y Hy; apply Hl; [congruence|done]).
  assert (Hoth : forall y, y <> WR_SEND t -> y <> WR_LOCAL_INV t -> y ∈ l <-> y ∈ ri_sends s) by (intros y ??; apply Hl; naive_solver).
  destruct ok.
  - destruct (ri_ok _ _ _ _ _ _ I t r Hr) as (H1 & H2 & Hok). rewrite Hst in Hok.
    destruct Hok as (Ho & Hacc & Hex & Hle & Href & Heq & Hans).
    eapply (put_step g s g _ t r r I Hr); simpl; try done; [| |by apply I|by apply I].
    + intros t' Hne. apply view_same; simpl; [apply Hoth; congruence|apply Hoth; congruence|done|done].
    + unfold may_put, view_of, waits, answered in *. simpl in *.
      destruct Hwr as [-> | ->]; rewrite (bool_decide_false _ Hnin).
      * rewrite (bool_decide_true _ Hin) in *. assert (WR_LOCAL_INV t ∈ l <-> WR_LOCAL_INV t ∈ ri_sends s) as Hx by (apply Hl; congruence). rewrite (bool_decide_ext _ _ Hx).
        simpl in *. split_and!; try done; try lia. destruct Heq; [left; lia|by right].
      * rewrite (bool_decide_true _ Hin) in *. assert (WR_SEND t ∈ l <-> WR_SEND t ∈ ri_sends s) as Hx by (apply Hl; congruence). rewrite (bool_decide_ext _ _ Hx). simpl in *.
        rewrite Hex in *. simpl in *. split_and!; try done; try lia; [destruct Heq; [left; lia|by right]|]. intros _. apply Hans. by left.
  - eapply (lost_step g s _ t r I Hr Hst); try done; [intros Hy; by apply Hsub..|by apply I].
Qed.

(** The answer to a command that was sent. *)
Lemma rsp_step rsp g s k :
  inv g s -> rsp_id rsp ∈ ri_sent s -> NoDup k ->
  (is_Some (rsp_invalidated rsp) -> exists r, ri_reqs s !! rsp_id rsp = Some r /\ is_Some (rr_mr r)) ->
  exists l s', remove_one (rsp_id rsp) (ri_sent s) = Some l
    /\ nvme_rdma_process_nvme_rsp rsp (s <| ri_recvs := k |> <| ri_sent := l |>) = Some s' /\ ri_recvs s' = k
    /\ inv (g <| lg_answers ::= cons (rsp_id rsp, rsp_status rsp, rsp_result rsp) |>) s'.
Proof.
  intros I Hin Hk Hinv. destruct (pending_in_flight g s (rsp_id rsp) I) as (r & Hr & Hst); [auto|].
  destruct (remove_one_spec (rsp_id rsp) (ri_sent s) Hin) as (l & -> & Hn & Hnin & Hl); [by apply I|]. exists l.
  set (g' := g <| lg_answers ::= _ |>). set (s1 := s <| ri_recvs := k |> <| ri_sent := l |>). set (t := rsp_id rsp) in *.
  destruct (ri_ok _ _ _ _ _ _ I t r Hr) as (H1 & H2 & Hok). rewrite Hst in Hok.
  destruct Hok as (Ho & Hacc & Hex & Hle & Href & Heq & Hans).
  set (r1 := r <| rr_status := rsp_status rsp |> <| rr_result := rsp_result rsp |>).
  assert (Hv : forall t', t' <> t -> view_of t' g' s1 = view_of t' g s).
  { intros t' Hne. unfold view_of, of_tag. simpl. rewrite filter_cons_False by (intros E; exact (Hne (eq_sym E))).
    by rewrite (bool_decide_ext _ _ (Hl t' Hne)). }
  assert (Hsub : forall t', t' ∈ l -> t' ∈ ri_sent s) by (intros t' Ht'; apply Hl; [congruence|done]).
  unfold view_of, waits in Hex, Hle, Heq. simpl in *. rewrite (bool_decide_true _ Hin) in *. rewrite andb_true_r in Hex. rewrite Hex in *. simpl in *.
  assert (Hans' : answered t r1 (view_of t g' s1)).
  { exists (of_tag t (lg_answers g)). unfold view_of, of_tag. simpl. rewrite filter_cons_True by done. done. }
  assert (Hsub' : v_ended (view_of t g' s1) `sublist_of` v_answers (view_of t g' s1)).
  { destruct Hans' as (rest & -> & ?). by apply sublist_cons. }
  assert (Hput : forall rec, (ri_recovery s = true -> rec = true) -> may_put rec t (view_of t g' s1) r1).
  { intros rec Hrec. unfold may_put. split_and!; try done; unfold view_of, waits; simpl; rewrite ?(bool_decide_false _ Hnin), ?Hex; simpl; try lia.
    destruct Heq; [left; lia|right; auto]. }
  assert (Hputs : forall rec, (ri_recovery s = true -> rec = true) -> inv g' (put_request t r1 (s1 <| ri_recovery := rec |>))).
  { intros rec Hrec. eapply (put_step g s g' _ t r r1 I Hr); try done; try (by apply Hput); by apply I. }
  assert (Hkeep : forall s', ri_recvs (put_request t r1 s') = ri_recvs s').
  { intros s'. unfold put_request, end_request. by destruct (refcount_dec_and_test _) as [[] ?]. }
  unfold nvme_rdma_process_nvme_rsp. fold t. change (ri_reqs s1) with (ri_reqs s). rewrite Hr. fold r1.
  destruct (rsp_invalidated rsp) as [key|].
  { destruct (Hinv ltac:(by eexists)) as (r2 & Hr2 & mr & Hmr). assert (r2 = r) as -> by congruence.
    change (rr_mr r1) with (rr_mr r). rewrite Hmr. cbn [mbind option_bind].
    eexists; split; [done|]. split; [done|]. destruct (key =? mr_rkey mr); cbn [negb]; (split; [by rewrite Hkeep|]).
    - exact (Hputs (ri_recovery s) (fun H => H)).
    - exact (Hputs true (fun _ => eq_refl)). }
  change (rr_mr r1) with (rr_mr r). destruct (rr_mr r) as [mr|] eqn:Hmr.
  2: { eexists; split; [done|]. split; [done|]. split; [by rewrite Hkeep|]. exact (Hputs (ri_recovery s) (fun H => H)). }
  unfold nvme_rdma_inv_rkey, ib_post_send. cbn beta iota zeta. set (s2 := s1 <| ri_reqs ::= _ |> <| ri_w ::= _ |>).
  change (ri_w (s1 <| ri_reqs ::= <[t := r1]> |>)) with (ri_w s).
  pose proof (post_errno (w_calls (ri_w s))) as Hpost.
  destruct (Z.eqb_spec (post_ret (w_calls (ri_w s))) 0) as [Hz|Hz].
  - rewrite Hz. cbn [Z.ltb Z.compare]. eexists; split; [done|]. split; [done|]. split; [done|].
    apply bool_decide_eq_false in Hex.
    eapply (inv_update g s g' _ t r r1 I Hr); simpl; try done; try by apply I.
    + intros t' Hne. rewrite <- Hv by done. apply view_same; simpl; [set_solver|set_solver|done|done].
    + unfold request_ok. split; [done|]. split; [done|]. simpl. rewrite Hst. unfold waits. simpl.
      rewrite (bool_decide_ext (WR_SEND t ∈ _ :: _) (WR_SEND t ∈ ri_sends s)) by set_solver.
      rewrite (bool_decide_true (WR_LOCAL_INV t ∈ _)) by set_solver. rewrite (bool_decide_false _ Hnin). split_and!; try done; lia.
    + intros ls. apply holds_later.
    + constructor; [done|by apply I].
    + set_solver.
    + set_solver.
  - rewrite (proj2 (Z.ltb_lt _ 0)) by lia. eexists; split; [done|]. split; [done|]. split; [done|].
    eapply (inv_update g s g' _ t r r1 I Hr); simpl; try done; try by apply I.
    + unfold request_ok. split; [done|]. split; [done|]. simpl. rewrite Hst. unfold waits. simpl.
      rewrite (bool_decide_false _ Hnin), Hex. simpl. split_and!; try done; try lia.
    + intros ls. apply holds_later.
    + set_solver.
    + set_solver.
Qed.

Lemma submit_step t segs write payload g s :
  inv g s -> state_of t s = Some MQ_RQ_IDLE ->
  exists s', rdma_step conf (EV_SUBMIT t segs write payload) s = Some s' /\ inv (log conf (EV_SUBMIT t segs write payload) s' g) s'.
Proof.
  intros I Hst. unfold state_of in Hst. destruct (ri_reqs s !! t) as [r|] eqn:Hr; [|done]. injection Hst as Hst.
  destruct (ri_ok _ _ _ _ _ _ I t r Hr) as (H1 & H2 & Hok). rewrite Hst in Hok. destruct Hok as (Hi & Hacc & Hv1 & Hv2 & Hv3).
  assert (Hobj : req_objs r = [] /\ req_mrs r = []).
  { destruct Hi as (_ & E1 & E2 & E3 & E4 & E5 & _). unfold req_objs, req_mrs. by rewrite E1, E2, E3, E4, E5. }
  destruct Hobj as [Hobj Hmr]. unfold view_of in Hv1, Hv2, Hv3. simpl in Hv1, Hv2, Hv3.
  apply bool_decide_eq_false in Hv1, Hv2, Hv3.
  assert (Hfresh : forall l, holds (ri_w s) l -> accepted t s l (rdma_step conf (EV_SUBMIT t segs write payload) s)
    \/ refused t s l (rdma_step conf (EV_SUBMIT t segs write payload) s)) by (intros l Hl; by eapply submit_ok).
  destruct (Hfresh _ (ri_heap _ _ _ _ _ _ I)) as [(r' & mrs' & w' & -> & A1 & A2 & A3 & A4 & A5 & A6)|(r' & mrs' & w' & -> & A1 & A2 & A3)].
  - eexists; split; [done|]. unfold log, state_of. simpl. rewrite lookup_insert_eq. simpl. rewrite A1, bool_decide_true by done.
    eapply (inv_update g s _ _ t r r' I Hr); simpl; try done; try by apply I.
    + intros t' Hne. unfold view_of, occ. simpl. rewrite filter_cons_False by congruence.
      f_equal; apply bool_decide_ext; set_solver.
    + split; [done|]. split; [done|]. rewrite A1. unfold view_of, waits, occ in *. simpl in *. rewrite filter_cons_True by done.
      rewrite (bool_decide_true (WR_SEND t ∈ _)), (bool_decide_true (t ∈ _)), (bool_decide_false (WR_LOCAL_INV t ∈ _)) by set_solver.
      simpl. rewrite A4. split_and!; try done; try lia.
    + intros l Hl. eapply holds_perm; [exact A6|]. rewrite Hobj in Hl. by rewrite (holds_unique _ _ _ Hl (ri_heap _ _ _ _ _ _ I)).
    + by rewrite A5, Hmr.
    + constructor; [done|by apply I].
    + set_solver.
    + constructor; [done|by apply I].
    + set_solver.
  - eexists; split; [done|]. unfold log, state_of. simpl. rewrite lookup_insert_eq. simpl.
    pose proof A1 as (B1 & B2 & B3 & B4 & B5 & B6 & B7). rewrite B1, bool_decide_false by done.
    eapply (inv_update g s _ _ t r r' I Hr); simpl; try done; try by apply I.
    + split; [done|]. split; [done|]. rewrite B1. unfold view_of in *. simpl in *.
      rewrite !bool_decide_false by done. done.
    + intros l Hl. rewrite Hobj in Hl. unfold req_objs. rewrite B2, B3, B4, B5. eapply holds_perm; [exact A3|].
      by rewrite (holds_unique _ _ _ Hl (ri_heap _ _ _ _ _ _ I)).
    + rewrite A2, Hmr. unfold req_mrs. by rewrite B6.
    + auto.
    + auto.
Qed.

Lemma complete_step t g s :
  inv g s -> state_of t s = Some MQ_RQ_COMPLETE -> exists s', nvme_rdma_complete_rq t s = Some s' /\ inv g s'.
Proof.
  intros I Hst. unfold state_of in Hst. destruct (ri_reqs s !! t) as [r|] eqn:Hr; [|done]. injection Hst as Hst.
  destruct (ri_ok _ _ _ _ _ _ I t r Hr) as (H1 & H2 & Hok). rewrite Hst in Hok. destruct Hok as (Ho & Hacc & Hv).
  set (rest := collect req_objs (delete t (ri_reqs s)) ++ L).
  assert (Hh : holds (ri_w s) (req_objs r ++ rest)).
  { eapply holds_perm; [apply I|]. unfold rest. by rewrite (collect_delete _ _ _ _ Hr), app_assoc. }
  unfold nvme_rdma_complete_rq. rewrite Hr. cbn [mbind option_bind].
  destruct (rdma_unmap_ok r s rest Ho Hh) as (d & mrs' & w' & -> & Hd & Hm & Hw). cbn [mbind option_bind].
  match goal with |- context [release ?x _] => change x with (rr_dma r) end. rewrite Hd.
  match goal with |- context [release _ ?x] => change x with w' end.
  destruct (release_spec _ _ _ Hw) as (w2 & -> & Hw2). cbn [mbind option_bind]. eexists; split; [done|].
  eapply (inv_update g s g _ t r _ I Hr); simpl; try done; try by apply I.
  - intros l Hl. simpl. eapply holds_perm; [exact Hw2|]. apply (Permutation_app_inv_l (req_objs r)).
    by apply (holds_unique (ri_w s)).
  - by rewrite Hm.
  - auto.
  - auto.
Qed.

Lemma cancel_step t g s :
  inv g s -> ri_recovery s = true -> state_of t s = Some MQ_RQ_IN_FLIGHT -> quiet t s ->
  exists s', rdma_step conf (EV_CANCEL t) s = Some s' /\ inv (g <| lg_cancelled ::= cons t |>) s'.
Proof.
  intros I _ Hst (Q1 & Q2 & Q3). unfold state_of in Hst. destruct (ri_reqs s !! t) as [r|] eqn:Hr; [|done]. injection Hst as Hst.
  destruct (ri_ok _ _ _ _ _ _ I t r Hr) as (H1 & H2 & Hok). rewrite Hst in Hok. destruct Hok as (Ho & Hacc & _).
  simpl. rewrite Hr. cbn [mbind option_bind]. eexists; split; [done|].
  eapply (inv_update g s _ _ t r _ I Hr); simpl; try done; try by apply I.
  - intros t' Hne. unfold view_of, occ. simpl. by rewrite filter_cons_False by congruence.
  - split; [done|]. split; [done|]. simpl. unfold view_of, occ in *. simpl in *. rewrite filter_cons_True by done.
    rewrite !bool_decide_false by done. split; [by destruct r|]. split; [simpl; lia|done].
  - auto.
  - auto.
Qed.

Lemma drain_step g s : inv g s -> inv g (s <| ri_live := false |> <| ri_sends := [] |> <| ri_recvs := [] |> <| ri_sent := [] |> <| ri_recovery := true |>).
Proof.
  intros [I1 I2 I3 I4 I5 I6 I7]. split; simpl; [|done|done|split; constructor|split; constructor|constructor|done].
  intros t r Hr. destruct (I1 t r Hr) as (H1 & H2 & Hok). split; [done|]. split; [done|].
  unfold waits, view_of in *. simpl in *. destruct (rr_state r); [naive_solver| |naive_solver].
  destruct Hok as (Ho & Hacc & _ & _ & Href & _). simpl. split_and!; try done; try lia.
Qed.

Lemma post_recv_step i g s : inv g s -> i ∉ ri_recvs s -> inv g (nvme_rdma_post_recv i s).2.
Proof.
  intros I Hi. unfold nvme_rdma_post_recv. simpl. eapply (inv_frame g s g _ I); case_bool; simpl; try done; try by apply I.
  all: try (intros l; apply holds_later); auto. constructor; [done|apply I].
Qed.

Lemma post_recv_reqs i s : ri_reqs (nvme_rdma_post_recv i s).2 = ri_reqs s.
Proof. unfold nvme_rdma_post_recv. simpl. by case_bool. Qed.

Lemma async_submit_step g s :
  inv g s -> rc_idx conf = 0 -> WR_ASYNC ∉ ri_sends s -> inv g (nvme_rdma_submit_async_event s).2.
Proof.
  intros I Hx Hn. unfold nvme_rdma_submit_async_event, ib_post_send. simpl. eapply (inv_frame g s g _ I); case_bool; simpl; try done; try by apply I.
  all: try (intros l; apply holds_later); auto.
  - intros t. apply view_same; simpl; [set_solver|set_solver|done|done].
  - constructor; [done|apply I].
  - set_solver.
Qed.

Lemma async_step ok g s :
  inv g s -> WR_ASYNC ∈ ri_sends s -> exists s', rdma_step conf (EV_ASYNC ok) s = Some s' /\ inv g s'.
Proof.
  intros I Hin. cbn [rdma_step]. destruct (take_send_ok WR_ASYNC s Hin) as (l & -> & Hn & Hnin & Hl); [by apply I|].
  cbn [mbind option_bind]. eexists; split; [done|].
  assert (Hsub : forall y, y ∈ l -> y ∈ ri_sends s) by (intros y Hy; apply Hl; [congruence|done]).
  eapply (inv_frame g s g _ I); destruct ok; simpl; try done; try by apply I.
  all: try (intros t; apply view_same; simpl; try done; apply Hl; done); auto.
Qed.

Lemma recv_step ok i rsp g s :
  inv g s -> enabled conf (EV_RECV ok i rsp) s ->
  exists s', rdma_step conf (EV_RECV ok i rsp) s = Some s' /\ inv (log conf (EV_RECV ok i rsp) s' g) s'.
Proof.
  intros I [Hi Hans]. cbn [rdma_step]. destruct (remove_one_spec i (ri_recvs s) Hi) as (k & -> & Hk & Hnin & _); [by apply I|].
  cbn [mbind option_bind]. unfold take_answer, nvme_rdma_recv_done.
  assert (Hf : forall ev rec, (ri_recovery s = true -> rec = true) -> inv g (s <| ri_recvs := k |> <| ri_events := ev |> <| ri_recovery := rec |>)).
  { intros ev rec Hrec. eapply (inv_frame g s g _ I); simpl; try done; auto; by apply I. }
  destruct ok; cbn [negb orb].
  2: { eexists; split; [done|]. cbn [log]. exact (Hf (ri_events s) true (fun _ => eq_refl)). }
  fold (is_event conf rsp). unfold log. destruct (is_event conf rsp) eqn:Hev.
  - cbn [mbind option_bind]. eexists; split; [done|].
    apply post_recv_step; [|done]. exact (Hf ((rsp_status rsp, rsp_result rsp) :: ri_events s) (ri_recovery s) (fun H => H)).
  - unfold stray. change (ri_reqs (s <| ri_recvs := k |>)) with (ri_reqs s). destruct (Hans eq_refl eq_refl) as [Hnone|[Hsent Hinv]].
    + rewrite (bool_decide_true _ Hnone). unfold nvme_rdma_process_nvme_rsp. cbn [orb mbind option_bind].
      change (ri_reqs (s <| ri_recvs := k |>)) with (ri_reqs s). rewrite Hnone. cbn [mbind option_bind]. eexists; split; [done|].
      rewrite post_recv_reqs, (bool_decide_true _ Hnone). apply post_recv_step; [|done]. exact (Hf (ri_events s) true (fun _ => eq_refl)).
    + destruct (rsp_step rsp g s k I Hsent Hk Hinv) as (l & s' & E & Hp & Hr & Hs').
      destruct (pending_in_flight g s (rsp_id rsp) I) as (r & Hreq & _); [auto|].
      rewrite bool_decide_false by (by rewrite Hreq). cbn [orb].
      change (ri_sent (s <| ri_recvs := k |>)) with (ri_sent s). rewrite E. cbn [mbind option_bind].
      rewrite Hp. cbn [mbind option_bind]. eexists; split; [done|].
      rewrite post_recv_reqs, bool_decide_false; [apply post_recv_step; [done|by rewrite Hr]|].
      assert (Hd : rsp_id rsp ∈ dom (ri_reqs s')) by (rewrite (ri_tags _ _ _ _ _ _ Hs'), <- (ri_tags _ _ _ _ _ _ I); apply elem_of_dom; by eexists).
      apply elem_of_dom in Hd as [r' ->]. done.
Qed.

Lemma step_ok e g s : inv g s -> enabled conf e s -> exists s', rdma_step conf e s = Some s' /\ inv (log conf e s' g) s'.
Proof.
  intros I He. destruct e; simpl in He.
  - by apply submit_step.
  - apply (wr_step ok tag (WR_SEND tag) g s); auto.
  - apply (wr_step ok tag (WR_LOCAL_INV tag) g s); auto.
  - eexists; split; [done|]. eapply (inv_frame g s g _ I); simpl; try done; auto; by apply I.
  - eexists; split; [done|]. destruct He; by apply async_submit_step.
  - by apply (async_step ok g s).
  - by apply recv_step.
  - by apply (complete_step tag g s).
  - eexists; split; [done|]. eapply (inv_frame g s g _ I); simpl; try done; auto; by apply I.
  - eexists; split; [done|]. by apply drain_step.
  - destruct He as (? & ? & ?). by apply (cancel_step tag g s).
Qed.

Lemma run_inv s0 g s : inv (mk_rlog [] [] []) s0 -> rdma_run conf s0 g s -> inv g s.
Proof.
  intros I H. induction H as [|g s e s' _ IH He Hs]; [done|]. destruct (step_ok e g s IH He) as (s2 & E & I2).
  rewrite Hs in E. injection E as <-. done.
Qed.
End run.

(** ** What holds in every run *)

Section facts.
Context {ce : CtrlEnv} {re : RdmaEnv} {rl : RdmaLaws re} (conf : rdma_conf).

Lemma connected_inv L s : connected L s -> rio_inv conf L (mr_id <$> ri_mrs s) (dom (ri_reqs s)) (mk_rlog [] [] []) s.
Proof.
  intros (H1 & H2 & H3 & H4 & H5 & H6 & H7). split.
  - intros t r Hr. pose proof (H1 t r Hr) as Hi. pose proof Hi as (I1 & I2 & I3 & I4 & I5 & I6 & I7). split; [done|].
    unfold view_of. rewrite H3, H4, H5, I1. simpl. done.
  - rewrite collect_nil; [done|]. intros t r Hr. destruct (H1 t r Hr) as (_ & I2 & I3 & I4 & I5 & _). unfold req_objs. by rewrite I2, I3, I4, I5.
  - rewrite collect_nil; [done|]. intros t r Hr. destruct (H1 t r Hr) as (_ & _ & _ & _ & _ & I6 & _). unfold req_mrs. by rewrite I6.
  - rewrite H3. split; constructor.
  - rewrite H4. split; constructor.
  - done.
  - done.
Qed.

Lemma in_flight_waits L M D g s t :
  rio_inv conf L M D g s -> ri_recovery s = false -> state_of t s = Some MQ_RQ_IN_FLIGHT ->
  WR_SEND t ∈ ri_sends s \/ WR_LOCAL_INV t ∈ ri_sends s \/ t ∈ ri_sent s.
Proof.
  intros I Hrec Hst. unfold state_of in Hst. destruct (ri_reqs s !! t) as [r|] eqn:Hr; [|done]. injection Hst as Hst.
  destruct (ri_ok _ _ _ _ _ _ I t r Hr) as (_ & _ & Hok). rewrite Hst, Hrec in Hok.
  destruct Hok as (_ & _ & _ & _ & Href & [Heq|?] & _); [|done]. unfold waits, view_of in Heq. simpl in Heq.
  repeat case_bool_decide; simpl in *; try lia; auto.
Qed.

(** The send queue: a work request for every send and invalidation, and a registration
    for every request with a region, which is retired with its send. *)
Definition send_slots (s : rdma_io) : Z :=
  Z.of_nat (length (ri_sends s) + length (collect req_mrs (ri_reqs s))).

Lemma sends_bound L M D g s :
  rio_inv conf L M D g s ->
  (length (ri_sends s) <= 2 * size (ri_reqs s) + (if (rc_idx conf =? 0)%Z then 1 else 0))%nat.
Proof.
  intros I. destruct (ri_sends_ok _ _ _ _ _ _ I) as [Hn Hf]. rewrite Forall_forall in Hf.
  set (tags := (map_to_list (ri_reqs s)).*1).
  assert (Hsub : ri_sends s ⊆+ (WR_SEND <$> tags) ++ (WR_LOCAL_INV <$> tags) ++ (if rc_idx conf =? 0 then [WR_ASYNC] else [])).
  { apply NoDup_submseteq; [done|]. intros wr Hwr. specialize (Hf wr Hwr). rewrite !elem_of_app, !list_elem_of_fmap.
    destruct wr as [t|t|]; simpl in Hf.
    - left. exists t. split; [done|]. destruct Hf as [r Hr]. apply list_elem_of_fmap. exists (t, r). by rewrite elem_of_map_to_list.
    - right; left. exists t. split; [done|]. destruct Hf as [r Hr]. apply list_elem_of_fmap. exists (t, r). by rewrite elem_of_map_to_list.
    - right; right. rewrite Hf. left. }
  apply submseteq_length in Hsub. rewrite !length_app, !length_fmap in Hsub. unfold tags in Hsub. rewrite length_fmap, length_map_to_list in Hsub.
  destruct (rc_idx conf =? 0); simpl in *; lia.
Qed.

Lemma regions_bound s : (length (collect req_mrs (ri_reqs s)) <= size (ri_reqs s))%nat.
Proof.
  rewrite <- (Nat.mul_1_l (size _)). apply collect_length. intros t r _. unfold req_mrs. rewrite length_fmap. by destruct (rr_mr r); simpl; lia.
Qed.

(** A request that is idle finds a memory region. *)
Lemma region_left L M D g s t :
  rio_inv conf L M D g s -> state_of t s = Some MQ_RQ_IDLE -> (size (ri_reqs s) <= length M)%nat -> ri_mrs s <> [].
Proof.
  intros I Hst Hsz Hnil. unfold state_of in Hst. destruct (ri_reqs s !! t) as [r|] eqn:Hr; [|done]. injection Hst as Hst.
  destruct (ri_ok _ _ _ _ _ _ I t r Hr) as (_ & _ & Hok). rewrite Hst in Hok. destruct Hok as ((_ & _ & _ & _ & _ & Hm & _) & _).
  pose proof (Permutation_length (ri_regions _ _ _ _ _ _ I)) as Hl. rewrite Hnil, app_nil_r in Hl.
  rewrite (collect_delete _ _ _ _ Hr) in Hl. unfold req_mrs at 1 in Hl. rewrite Hm in Hl. simpl in Hl.
  assert (length (collect req_mrs (delete t (ri_reqs s))) <= 1 * size (delete t (ri_reqs s)))%nat.
  { apply collect_length. intros t' r' _. unfold req_mrs. rewrite length_fmap. destruct (rr_mr r'); simpl; lia. }
  rewrite map_size_delete_Some in H by by eexists.
  assert (size (ri_reqs s) <> 0)%nat by (intros E; apply map_size_empty_inv in E; rewrite E in Hr; done). lia.
Qed.
End facts.

(** C9: a request of the RDMA driver ends exactly once.  A run starts on a connected
    queue with nothing pending.  The block layer submits only idle requests; the stack
    completes only work requests that were posted; the target answers a command that was
    sent, once, and invalidates a region only of a request that has one, with the right
    key or another one, or it answers with a tag that belongs to no request.  (An answer
    that invalidates for a request without region makes the driver dereference a null
    pointer, [bogus_invalidation_undefined].)  In every such run no step is undefined.
    For every tag the requests
    that the driver accepted are those that ended, those that were cancelled by a
    tear-down and the one in flight; every end carries the status and result of an
    answer of its own, in the order of the answers.  While no work request has failed,
    a request in flight waits for its send, for its local invalidation or for its
    answer: when all of them have come, no request is left behind. *)
Theorem rdma_requests_end_once {ce : CtrlEnv} {re : RdmaEnv} (rl : RdmaLaws re) conf L s0 g s :
  rc_inline_segments conf <= NVME_RDMA_MAX_INLINE_SEGMENTS -> connected L s0 -> rdma_run conf s0 g s ->
  (forall e, enabled conf e s -> is_Some (rdma_step conf e s))
  /\ (forall t, is_Some (ri_reqs s0 !! t) ->
      of_tag t (ri_ended s) `sublist_of` of_tag t (lg_answers g)
      /\ occ t (lg_accepted g) = (length (of_tag t (ri_ended s)) + occ t (lg_cancelled g)
           + (if decide (state_of t s = Some MQ_RQ_IN_FLIGHT) then 1 else 0))%nat)
  /\ (ri_recovery s = false -> forall t, state_of t s = Some MQ_RQ_IN_FLIGHT ->
      WR_SEND t ∈ ri_sends s \/ WR_LOCAL_INV t ∈ ri_sends s \/ t ∈ ri_sent s).
Proof.
  intros Hin Hc Hrun. pose proof (run_inv conf Hin _ _ _ s0 g s (connected_inv conf L s0 Hc) Hrun) as I. split_and!.
  - intros e He. destruct (step_ok conf Hin _ _ _ e g s I He) as (s' & -> & _). by eexists.
  - intros t Ht. apply elem_of_dom in Ht. rewrite <- (ri_tags _ _ _ _ _ _ I) in Ht. apply elem_of_dom in Ht as [r Hr].
    destruct (ri_ok _ _ _ _ _ _ I t r Hr) as (_ & H2 & Hok). split; [done|]. unfold state_of. rewrite Hr. simpl.
    destruct (rr_state r); case_decide; simplify_eq; destruct Hok as (_ & Hacc & _); unfold view_of in Hacc; simpl in Hacc; lia.
  - intros Hrec t Hst. by eapply in_flight_waits.
Qed.

(** C37: resources of the RDMA data path.  In every run the objects in use are those of
    the requests, DMA mappings, tables and payloads, and the memory regions of the queue
    pair are those of the requests and the free ones; so nothing is leaked when all
    requests are back.  A request that is submitted always finds a memory region, and
    the work requests fit the send queue that [nvme_rdma_create_qp] asks for, with one
    slot left to drain it. *)
Theorem rdma_resources {ce : CtrlEnv} {re : RdmaEnv} (rl : RdmaLaws re) conf cx inline poll q L s0 g s :
  rc_inline_segments conf <= NVME_RDMA_MAX_INLINE_SEGMENTS -> connected L s0 -> rdma_run conf s0 g s ->
  holds (ri_w s) (collect req_objs (ri_reqs s) ++ L)
  /\ collect req_mrs (ri_reqs s) ++ (mr_id <$> ri_mrs s) ≡ₚ mr_id <$> ri_mrs s0
  /\ (map_Forall (fun _ r => rr_state r = MQ_RQ_IDLE) (ri_reqs s) -> holds (ri_w s) L /\ mr_id <$> ri_mrs s ≡ₚ mr_id <$> ri_mrs s0)
  /\ (forall t, state_of t s = Some MQ_RQ_IDLE -> ri_mrs s <> [])
  /\ (Z.of_nat (size (ri_reqs s0)) + (if rc_idx conf =? 0 then 1 else 0) <= rq_size q ->
      send_slots s + 1 <= max_send_wr (attr_of cx inline poll q)).
Proof.
  intros Hin Hc Hrun. pose proof (run_inv conf Hin _ _ _ s0 g s (connected_inv conf L s0 Hc) Hrun) as I.
  assert (Hsz : size (ri_reqs s) = size (ri_reqs s0)) by (by rewrite <- !size_dom, (ri_tags _ _ _ _ _ _ I)).
  split_and!; [apply I|apply I| | |].
  - intros Hidle.
    assert (Hall : forall t r, ri_reqs s !! t = Some r -> idle_request r).
    { intros t r Hr. destruct (ri_ok _ _ _ _ _ _ I t r Hr) as (_ & _ & Hok). rewrite (Hidle t r Hr) in Hok. apply Hok. }
    pose proof (ri_heap _ _ _ _ _ _ I) as H1. pose proof (ri_regions _ _ _ _ _ _ I) as H2. rewrite collect_nil in H1, H2; [done|..].
    + intros t r Hr. destruct (Hall t r Hr) as (_ & _ & _ & _ & _ & I6 & _). unfold req_mrs. by rewrite I6.
    + intros t r Hr. destruct (Hall t r Hr) as (_ & I2 & I3 & I4 & I5 & _). unfold req_objs. by rewrite I2, I3, I4, I5.
  - intros t Hst. eapply (region_left conf); [done|done|]. rewrite Hsz, length_fmap. apply Hc.
  - intros Hq. pose proof (sends_bound conf _ _ _ _ _ I) as H1. pose proof (regions_bound s) as H2. rewrite Hsz in *.
    unfold send_slots, attr_of, send_wr_factor. simpl. destruct (rc_idx conf =? 0); lia.
Qed.

(** ** An example *)

(** A target that invalidates a key which the request has not got makes the driver
    dereference a null pointer. *)
Lemma bogus_invalidation_undefined {ce : CtrlEnv} {re : RdmaEnv} conf i rsp key req s :
  is_event conf rsp = false -> rsp_invalidated rsp = Some key ->
  ri_reqs s !! rsp_id rsp = Some req -> rr_mr req = None -> nvme_rdma_recv_done conf true i rsp s = None.
Proof.
  unfold is_event, nvme_rdma_recv_done. intros -> Hk Hr Hm. simpl. unfold nvme_rdma_process_nvme_rsp. rewrite Hr, Hk. simpl. by rewrite Hm.
Qed.

(** A command of one segment that is registered, sent, answered, invalidated, ended
    and given back; then a command without data whose send fails, and which is
    cancelled by the tear-down. *)
Definition ex_rdma : RdmaEnv := {|
  dma_ok _ := true;
  dma_map _ := [(4096, 8192)];
  map_mr _ := (1, 4096, 8192);
  ib_inc_rkey k := k + 1;
  post_ret _ := 0;
  setup_cmd _ _ := (0, mk_rcmd 1 0 0 DPTR_NONE, false);
  check_ready _ live := live;
  fail_nonready _ := 9;
  rdma_command_size := 64;
  STS_RESOURCE := 9;
  STS_IOERR := 10;
|}.

Lemma ex_rdma_laws : RdmaLaws ex_rdma.
Proof. split; simpl; [lia|lia|done]. Qed.

Definition ex_conf : rdma_conf := mk_rconf 1 4160 4 true 0 7 8 false.
Definition ex_req : rdma_request :=
  mk_rreq 0 false 0 MQ_RQ_IDLE None (mk_rcmd 0 0 0 DPTR_NONE) None None None None (replicate 5 (mk_sge 0 0 0)) 0 0 0 0.
Definition ex_io : rdma_io :=
  mk_rio {[0 := ex_req; 1 := ex_req]} true [mk_mr 0 100 0 0; mk_mr 1 200 0 0] [] [0; 1; 2] [] [] [] false (mk_world [3] 4).
Definition ex_events : list rdma_event :=
  [EV_SUBMIT 0 1 false 8192; EV_SEND true 0; EV_RECV true 1 (mk_rsp 0 0 77 None); EV_INV true 0; EV_COMPLETE 0;
   EV_SUBMIT 1 0 false 0; EV_SEND false 1; EV_DRAIN; EV_CANCEL 1].

Fixpoint run_events {ce : CtrlEnv} {re : RdmaEnv} (l : list rdma_event) (x : rdma_log * rdma_io) : rdma_log * rdma_io :=
  match l with
  | [] => x
  | e :: l => match rdma_step ex_conf e x.2 with
              | Some s => run_events l (log ex_conf e s x.1, s)
              | None => x
              end
  end.

Definition ex_end (n : nat) : rdma_log * rdma_io :=
  @run_events (life_env 0 []) ex_rdma (take n ex_events) (mk_rlog [] [] [], ex_io).

Lemma ex_connected : connected [3] ex_io.
Proof.
  split_and!; [|vm_compute; lia|done|done|done|by repeat constructor; set_solver|apply ex_holds].
  intros t r Hr. unfold ex_io in Hr. simpl in Hr. rewrite lookup_insert_Some, lookup_singleton_Some in Hr. by destruct Hr as [[_ <-]|(_ & _ & <-)].
Qed.

Lemma ex_next n e :
  @rdma_run (life_env 0 []) ex_rdma ex_conf ex_io (ex_end n).1 (ex_end n).2 -> enabled ex_conf e (ex_end n).2 ->
  @rdma_step (life_env 0 []) ex_rdma ex_conf e (ex_end n).2 = Some (ex_end (S n)).2 ->
  (ex_end (S n)).1 = log ex_conf e (ex_end (S n)).2 (ex_end n).1 ->
  @rdma_run (life_env 0 []) ex_rdma ex_conf ex_io (ex_end (S n)).1 (ex_end (S n)).2.
Proof. intros H1 H2 H3 ->. by eapply run_step. Qed.

Lemma ex_run : @rdma_run (life_env 0 []) ex_rdma ex_conf ex_io (ex_end 9).1 (ex_end 9).2.
Proof.
  refine (ex_next 8 (EV_CANCEL 1) _ _ _ _); [|split_and!; vm_compute; set_solver|vm_compute; reflexivity..].
  refine (ex_next 7 EV_DRAIN _ _ _ _); [|done|vm_compute; reflexivity..].
  refine (ex_next 6 (EV_SEND false 1) _ _ _ _); [|cbn [enabled]; apply (bool_decide_unpack _); vm_compute; done|vm_compute; reflexivity..].
  refine (ex_next 5 (EV_SUBMIT 1 0 false 0) _ _ _ _); [|vm_compute; reflexivity..].
  refine (ex_next 4 (EV_COMPLETE 0) _ _ _ _); [|vm_compute; reflexivity..].
  refine (ex_next 3 (EV_INV true 0) _ _ _ _); [|cbn [enabled]; apply (bool_decide_unpack _); vm_compute; done|vm_compute; reflexivity..].
  refine (ex_next 2 (EV_RECV true 1 (mk_rsp 0 0 77 None)) _ _ _ _); [| |vm_compute; reflexivity..].
  2: { split; [apply (bool_decide_unpack _); vm_compute; done|]. intros _ _. right. split; [apply (bool_decide_unpack _); vm_compute; done|by intros []]. }
  refine (ex_next 1 (EV_SEND true 0) _ _ _ _); [|cbn [enabled]; apply (bool_decide_unpack _); vm_compute; done|vm_compute; reflexivity..].
  refine (ex_next 0 (EV_SUBMIT 0 1 false 8192) _ _ _ _); [apply run_start|vm_compute; reflexivity..].
Qed.

Lemma rdma_requests_end_once_witness :
  lg_accepted (ex_end 9).1 = [1; 0] /\ ri_ended (ex_end 9).2 = [(0, 0, 77)] /\ lg_cancelled (ex_end 9).1 = [1]
  /\ [(0, 0, 77)] `sublist_of` of_tag 0 (lg_answers (ex_end 9).1)
  /\ occ 1 (lg_accepted (ex_end 9).1) = (0 + 1 + 0)%nat.
Proof.
  do 3 (split; [vm_compute; reflexivity|]).
  destruct (@rdma_requests_end_once (life_env 0 []) ex_rdma ex_rdma_laws ex_conf [3] ex_io _ _ ltac:(vm_compute; discriminate) ex_connected ex_run)
    as (_ & H & _). split; [apply (H 0); vm_compute; by eexists|]. apply (H 1). vm_compute; by eexists.
Defined.

(** In the middle of the first command a region is taken and four of the ninety-seven
    slots are in use at most; at its end all is back. *)
Lemma rdma_resources_witness :
  w_live (ri_w (ex_end 1).2) <> [3] /\ w_live (ri_w (ex_end 5).2) = [3] /\ length (ri_mrs (ex_end 9).2) = 2%nat
  /\ holds (ri_w (ex_end 9).2) (collect req_objs (ri_reqs (ex_end 9).2) ++ [3]).
Proof.
  split; [vm_compute; discriminate|]. do 2 (split; [vm_compute; reflexivity|]).
  destruct (@rdma_resources (life_env 0 []) ex_rdma ex_rdma_laws ex_conf ex_cx 4 false ex_queue [3] ex_io _ _ ltac:(vm_compute; discriminate) ex_connected ex_run)
    as (H & _). exact H.
Defined.
