(* ===== verification/NvmeRdmaCtrl.v ===== *)
(** * Life cycle of an NVMe/RDMA controller

    Number and set-up of the I/O queues, set-up of the admin queue, creation,
    tear-down, reconnect, reset, error recovery, time-out and deletion of a controller,
    the operations of its tag sets and the removal of a device
    (drivers/nvme/host/rdma.c).  Each work is one step; works of one controller that
    overlap are not modelled. *)
From S2P Require Import Prelude MqTypes BlkMqTimeout BlkMqTagSet NvmeTcpMap NvmeTcpConn NvmeRdmaConn.

Definition EALREADY_rdma : Z := 114.
Definition BLK_MQ_F_NO_SCHED : Z := 64.

(** The life cycle part of struct nvme_rdma_ctrl and struct nvme_ctrl. *)
Record rctrl := mk_rctrl {
  k_queues : list rdma_queue;
  k_queue_count : Z;
  k_sqsize : Z;
  k_icdoff : Z;
  k_maxcmd : Z;
  k_sgls : Z;
  k_io_queues : list Z;
  k_state : nvme_ctrl_state;
  k_device : option Z;
  k_async : option rdma_qe;  (* async_event_sqe *)
  k_numa_node : Z;
  k_max_fr_pages : Z;
  k_limits : Z * Z;  (* max_segments and max_hw_sectors *)
  k_inline : bool;  (* use_inline_data *)
  k_tagset : option Z;
  k_connect_q : option Z;
  k_admin_tagset : option Z;
  k_fabrics_q : option Z;
  k_admin_q : option Z;
  k_nr_reconnects : Z;
  k_connect_work : bool;  (* reconnect is scheduled *)
  k_err_work : bool;  (* error recovery is scheduled *)
  k_delete : bool;  (* nvme_delete_ctrl was called *)
  k_self : option Z;  (* the controller itself *)
  k_array : option Z;  (* its array of queues *)
  k_m : rdma_world;
}.
#[export] Instance rctrl_eta : Settable rctrl := {| eta_expand := fun r =>
  mk_rctrl (k_queues r) (k_queue_count r) (k_sqsize r) (k_icdoff r) (k_maxcmd r) (k_sgls r) (k_io_queues r) (k_state r)
    (k_device r) (k_async r) (k_numa_node r) (k_max_fr_pages r) (k_limits r) (k_inline r) (k_tagset r) (k_connect_q r) (k_admin_tagset r)
    (k_fabrics_q r) (k_admin_q r) (k_nr_reconnects r) (k_connect_work r) (k_err_work r) (k_delete r) (k_self r) (k_array r)
    (k_m r) |}.

(** A queue of the array that [kcalloc] returned. *)
Definition new_rqueue : rdma_queue :=
  mk_rdq false false false 0 0 None None None None [] None (mk_attr 0 0 0 0 0 false) None CM_NONE 0 false false.

(** The options, the controller that answers and the device. *)
Record rdma_opts := mk_ropts {
  ro_queues : nvmf_opts;
  ro_queue_size : Z;
  ro_tos : bool;
  ro_trsvcid : bool;
  ro_host_traddr : bool;
  ro_duplicate_connect : bool;
}.
Class RdmaCore := {
  sgls_of : nat -> Z;  (* what nvme_init_identify read *)
  comp_vectors : Z -> Z;  (* num_comp_vectors of a device *)
  rdma_cmd_size : Z;  (* sizeof(struct nvme_command) *)
  rdma_aq_depth : Z;  (* NVME_AQ_DEPTH *)
  rdma_aq_tags : Z;  (* NVME_AQ_MQ_TAG_DEPTH *)
  rdma_request_size : Z;  (* struct nvme_rdma_request with its first segments *)
  device_node : Z -> Z;  (* dev_to_node of a device *)
}.

Section ctrl.
Context {ce : CtrlEnv} {cm : RdmaCm} {rc : RdmaCore} (opts : rdma_opts).

(** ** Access to the heap and to a queue *)

Definition k_call (c : rctrl) : Z * rctrl := let '(ret, m) := rw_call (k_m c) in (ret, c <| k_m := m |>).
Definition k_new (c : rctrl) : option Z * rctrl := let '(p, m) := rw_new alloc_ok (k_m c) in (p, c <| k_m := m |>).
Definition k_release (p : option Z) (c : rctrl) : option rctrl := m ← rw_release p (k_m c); Some (c <| k_m := m |>).
Definition k_use (p : option Z) (c : rctrl) : option rctrl := m ← rw_use p (k_m c); Some (c <| k_m := m |>).
Definition k_calls (c : rctrl) : nat := w_calls (rw_w (k_m c)).

(** An error pointer is not an object in use. *)
Definition k_ptr (p : option Z) : option Z := Some (default (-1) p).

(** ctrl->device->dev; the device has to be in use. *)
Definition device_guid (p : option Z) (m : rdma_world) : option Z :=
  self ← p; rd_guid <$> find (fun d => rd_self d =? self) (rw_devs m).

Definition ctx_of (idx : Z) (c : rctrl) : rdma_ctx :=
  mk_rctx idx (k_io_queues c) (ioccsz (k_calls c)) (k_sqsize c) (ro_tos opts) rdma_cmd_size rdma_aq_depth.

Definition on_rqueue (f : rdma_queue -> rdma_world -> option (Z * rdma_queue * rdma_world)) (idx : Z) (c : rctrl)
  : option (Z * rctrl) :=
  q ← aget (k_queues c) idx;
  '(ret, q, m) ← f q (k_m c);
  l ← aset (k_queues c) idx q; Some (ret, c <| k_queues := l |> <| k_m := m |>).
Definition on_rqueue_void (f : rdma_queue -> rdma_world -> option (rdma_queue * rdma_world)) (idx : Z) (c : rctrl)
  : option rctrl :=
  '(_, c) ← on_rqueue (fun q m => '(q, m) ← f q m; Some (0, q, m)) idx c; Some c.

Definition rdma_alloc_queue (size idx : Z) (c : rctrl) : option (Z * rctrl) :=
  on_rqueue (nvme_rdma_alloc_queue (ctx_of idx c) size) idx c.
Definition rdma_free_queue (idx : Z) (c : rctrl) : option rctrl := on_rqueue_void nvme_rdma_free_queue idx c.
Definition rdma_stop_queue (idx : Z) (c : rctrl) : option rctrl := on_rqueue_void nvme_rdma_stop_queue idx c.
Definition rdma_start_queue (idx : Z) (c : rctrl) : option (Z * rctrl) :=
  on_rqueue (nvme_rdma_start_queue (ctx_of idx c)) idx c.

(** ** The I/O queues *)

(** [for (i--; i >= 1; i--)]. *)
Fixpoint rdown (f : Z -> rctrl -> option rctrl) (i : nat) (c : rctrl) : option rctrl :=
  match i with
  | O => Some c
  | S i' => c ← f (Z.of_nat i) c; rdown f i' c
  end.

(** [for (i = 1; i < queue_count; i++)] with the undo of the queues below the one that
    failed. *)
Fixpoint rup_or_undo (f : Z -> rctrl -> option (Z * rctrl)) (undo : Z -> rctrl -> option rctrl)
    (n i : nat) (c : rctrl) : option (Z * rctrl) :=
  match n with
  | O => Some (0, c)
  | S n =>
    '(ret, c) ← f (Z.of_nat i) c;
    if ret =? 0 then rup_or_undo f undo n (S i) c
    else c ← rdown undo (i - 1) c; Some (ret, c)
  end.

Definition nr_rio (c : rctrl) : nat := Z.to_nat (k_queue_count c - 1).

Definition nvme_rdma_free_io_queues (c : rctrl) : option rctrl :=
  foldM (fun c i => rdma_free_queue i c) c (seqZ 1 (k_queue_count c - 1)).

Definition nvme_rdma_stop_io_queues (c : rctrl) : option rctrl :=
  foldM (fun c i => rdma_stop_queue i c) c (seqZ 1 (k_queue_count c - 1)).

Definition nvme_rdma_start_io_queues (c : rctrl) : option (Z * rctrl) :=
  rup_or_undo rdma_start_queue rdma_stop_queue (nr_rio c) 1 c.

(** The numbers of read, default and poll queues that are asked for. *)
Definition rdma_nr_queues (vectors : Z) : Z * Z * Z :=
  let o := ro_queues opts in
  (Z.min (u32 vectors) (Z.min (o_nr_io_queues o) online_cpus), Z.min (u32 vectors) (Z.min (o_nr_write_queues o) online_cpus),
   Z.min (o_nr_poll_queues o) online_cpus).

(** The queues that were granted are divided over the types. *)
Definition rdma_set_io_queues (nrs : Z * Z * Z) (nr : Z) (io : list Z) : option (list Z) :=
  let '(read, dflt, poll) := nrs in
  '(io, nr) ←
    (if c_true (o_nr_write_queues (ro_queues opts)) && (read <? nr) then
       io ← aset io HCTX_TYPE_READ read;
       let nr := u32 (nr - read) in
       io ← aset io HCTX_TYPE_DEFAULT (Z.min dflt nr);
       Some (io, u32 (nr - Z.min dflt nr))
     else
       io ← aset io HCTX_TYPE_DEFAULT (Z.min read nr); Some (io, u32 (nr - Z.min read nr)));
  if c_true (o_nr_poll_queues (ro_queues opts)) && c_true nr then aset io HCTX_TYPE_POLL (Z.min poll nr) else Some io.

Definition alloc_rio_queues (c : rctrl) : option (Z * rctrl) :=
  rup_or_undo (rdma_alloc_queue (k_sqsize c + 1)) rdma_free_queue (nr_rio c) 1 c.

Definition nvme_rdma_alloc_io_queues (c : rctrl) : option (Z * rctrl) :=
  guid ← device_guid (k_device c) (k_m c);
  let '(read, dflt, poll) := rdma_nr_queues (comp_vectors guid) in
  let nr := granted (k_calls c) (u32 (u32 (read + dflt) + poll)) in
  let '(ret, c) := k_call c in
  if negb (ret =? 0) then Some (ret, c)
  else
    let c := c <| k_queue_count := u32 (nr + 1) |> in
    if k_queue_count c <? 2 then Some (0, c)
    else
      io ← rdma_set_io_queues (read, dflt, poll) nr (k_io_queues c);
      alloc_rio_queues (c <| k_io_queues := io |>).

(** ** Tag sets *)

(** The fields of the tag set before it is allocated. *)
Definition rdma_tag_set (admin : bool) (c : rctrl) : blk_mq_tag_set :=
  if admin
  then mk_tag_set (replicate 3 (mk_queue_map [] 0 0)) 0 1 rdma_aq_tags 2 rdma_request_size (k_numa_node c) BLK_MQ_F_NO_SCHED []
  else mk_tag_set (replicate 3 (mk_queue_map [] 0 0))
         (if c_true (o_nr_poll_queues (ro_queues opts)) then HCTX_MAX_TYPES else 2) (u32 (k_queue_count c - 1))
         (k_sqsize c + 1) 1 rdma_request_size (k_numa_node c) BLK_MQ_F_SHOULD_MERGE [].

(** [blk_mq_alloc_tag_set] refuses a tag set without hardware queues; the error, the
    tag set and the controller. *)
Definition nvme_rdma_alloc_tagset (admin : bool) (c : rctrl) : Z * option Z * rctrl :=
  if set_nr_hw_queues (rdma_tag_set admin c) =? 0 then (- EINVAL, None, c)
  else let '(p, c) := k_new c in (ptr_err (k_calls c), p, c).

(** A request has a command of its own; the result and the command. *)
Definition nvme_rdma_init_request (io : bool) (hctx_idx : Z) (c : rctrl) : option (Z * option Z * rctrl) :=
  _ ← aget (k_queues c) (if io then hctx_idx + 1 else 0);
  let '(p, c) := k_new c in
  Some (match p with Some _ => 0 | None => - ENOMEM end, p, c).
Definition nvme_rdma_exit_request (data : option Z) (c : rctrl) : option rctrl :=
  match data with None => Some c | Some _ => k_release data c end.

(** [BUG_ON] is undefined; the flag of blk-switch is a bool. *)
Definition nvme_rdma_init_hctx (hctx_idx : Z) (c : rctrl) (h : blk_mq_hw_ctx) : option blk_mq_hw_ctx :=
  if k_queue_count c <=? hctx_idx then None
  else Some (h <| blk_switch := c_true 2 |> <| driver_data := hctx_idx + 1 |>).
Definition nvme_rdma_init_admin_hctx (hctx_idx : Z) (h : blk_mq_hw_ctx) : option blk_mq_hw_ctx :=
  if negb (hctx_idx =? 0) then None else Some (h <| driver_data := 0 |>).

(** The maps of the I/O queues; [by_device] is [blk_mq_rdma_map_queues]. *)
Definition nvme_rdma_map_queues (by_device : Z -> blk_mq_queue_map -> blk_mq_queue_map)
    (by_cpu : blk_mq_queue_map -> Z * blk_mq_queue_map) (c : rctrl) (set : blk_mq_tag_set) : option (Z * blk_mq_tag_set) :=
  d ← aget (k_io_queues c) HCTX_TYPE_DEFAULT; r ← aget (k_io_queues c) HCTX_TYPE_READ; p ← aget (k_io_queues c) HCTX_TYPE_POLL;
  set ← set_counts HCTX_TYPE_DEFAULT d 0 set;
  set ← (if c_true (o_nr_write_queues (ro_queues opts)) && c_true r then set_counts HCTX_TYPE_READ r d set
         else set_counts HCTX_TYPE_READ d 0 set);
  guid ← device_guid (k_device c) (k_m c);
  set ← mod_map HCTX_TYPE_DEFAULT (by_device guid) set;
  set ← mod_map HCTX_TYPE_READ (by_device guid) set;
  set ← (if c_true (o_nr_poll_queues (ro_queues opts)) && c_true p then
           set ← set_counts HCTX_TYPE_POLL p (u32 (d + r)) set; map_one by_cpu HCTX_TYPE_POLL set
         else Some set);
  Some (0, set).

(** ** The admin queue *)

(** The command of asynchronous events, if there is one. *)
Definition free_async (c : rctrl) : option rctrl :=
  match k_async c with
  | None => Some c
  | Some e =>
    _ ← device_guid (k_device c) (k_m c);
    m ← nvme_rdma_free_qe e (k_m c); Some (c <| k_async := None |> <| k_m := m |>)
  end.

Definition nvme_rdma_destroy_admin_queue (remove : bool) (c : rctrl) : option rctrl :=
  c ← (if remove
       then c ← k_release (k_admin_q c) c; c ← k_release (k_fabrics_q c) c; k_release (k_admin_tagset c) c
       else Some c);
  c ← free_async c;
  rdma_free_queue 0 c.

(** The labels of [nvme_rdma_configure_admin_queue]. *)
Definition radm_free_queue (error : Z) (c : rctrl) : option (Z * rctrl) := c ← rdma_free_queue 0 c; Some (error, c).
Definition radm_free_async_qe (error : Z) (c : rctrl) : option (Z * rctrl) := c ← free_async c; radm_free_queue error c.
Definition radm_free_tagset (new : bool) (error : Z) (c : rctrl) : option (Z * rctrl) :=
  c ← (if new then k_release (k_admin_tagset c) c else Some c); radm_free_async_qe error c.
Definition radm_cleanup_fabrics_q (new : bool) (error : Z) (c : rctrl) : option (Z * rctrl) :=
  c ← (if new then k_release (k_fabrics_q c) c else Some c); radm_free_tagset new error c.
Definition radm_cleanup_queue (new : bool) (error : Z) (c : rctrl) : option (Z * rctrl) :=
  c ← (if new then k_release (k_admin_q c) c else Some c); radm_cleanup_fabrics_q new error c.
Definition radm_stop_queue (new : bool) (error : Z) (c : rctrl) : option (Z * rctrl) :=
  c ← rdma_stop_queue 0 c; radm_cleanup_queue new error c.

(** What the controller reports is stored by [nvme_init_identify]. *)
Definition rdma_init_identify (c : rctrl) : Z * rctrl :=
  let '(sqsize, icdoff, maxcmd) := identified (k_calls c) in
  k_call (c <| k_sqsize := sqsize |> <| k_icdoff := icdoff |> <| k_maxcmd := maxcmd |> <| k_sgls := sgls_of (k_calls c) |>).

(** From the start of the admin queue on; [nvme_enable_ctrl] is a call. *)
Definition radmin_start (new : bool) (c : rctrl) : option (Z * rctrl) :=
  '(error, c) ← rdma_start_queue 0 c;
  if negb (error =? 0) then radm_cleanup_queue new error c
  else
    let '(error, c) := k_call c in
    if negb (error =? 0) then radm_stop_queue new error c
    else
      let c := c <| k_limits := (u32 (k_max_fr_pages c), u32 (Z.shiftl (k_max_fr_pages c) (12 - 9))) |> in
      c ← k_use (k_admin_q c) c;  (* blk_mq_unquiesce_queue *)
      let '(error, c) := rdma_init_identify c in
      if negb (error =? 0) then radm_stop_queue new error c else Some (0, c).

(** The tag set and the queues of the admin commands. *)
Definition radmin_queues (c : rctrl) : option (Z * rctrl) :=
  let '(err, p, c) := nvme_rdma_alloc_tagset true c in
  let c := c <| k_admin_tagset := k_ptr p |> in
  match p with
  | None => radm_free_async_qe err c
  | Some _ =>
    let '(p, c) := k_new c in
    let c := c <| k_fabrics_q := k_ptr p |> in
    match p with
    | None => radm_free_tagset true (ptr_err (k_calls c)) c
    | Some _ =>
      let '(p, c) := k_new c in
      let c := c <| k_admin_q := k_ptr p |> in
      match p with
      | None => radm_cleanup_fabrics_q true (ptr_err (k_calls c)) c
      | Some _ => radmin_start true c
      end
    end
  end.

Definition nvme_rdma_configure_admin_queue (new : bool) (c : rctrl) : option (Z * rctrl) :=
  '(error, c) ← rdma_alloc_queue rdma_aq_depth 0 c;
  if negb (error =? 0) then Some (error, c)
  else
    q ← aget (k_queues c) 0;
    let c := c <| k_device := rq_device q |> in
    guid ← device_guid (k_device c) (k_m c);
    let c := c <| k_numa_node := device_node guid |> <| k_max_fr_pages := nvme_rdma_get_max_fr_pages guid |> in
    '(e, m) ← nvme_rdma_alloc_qe (k_m c);
    let c := c <| k_async := e |> <| k_m := m |> in
    match e with
    | None => radm_free_queue (- ENOMEM) c
    | Some _ => if new then radmin_queues c else radmin_start false c
    end.

(** ** Set-up and tear-down *)

(** The I/O queues are not stopped. *)
Definition nvme_rdma_destroy_io_queues (remove : bool) (c : rctrl) : option rctrl :=
  c ← (if remove then c ← k_release (k_connect_q c) c; k_release (k_tagset c) c else Some c);
  nvme_rdma_free_io_queues c.

(** The labels of [nvme_rdma_configure_io_queues]. *)
Definition rio_free_io_queues (ret : Z) (c : rctrl) : option (Z * rctrl) :=
  c ← nvme_rdma_free_io_queues c; Some (ret, c).
Definition rio_free_tag_set (new : bool) (ret : Z) (c : rctrl) : option (Z * rctrl) :=
  c ← (if new then k_release (k_tagset c) c else Some c); rio_free_io_queues ret c.

(** From the start of the queues on. *)
Definition rio_start (new : bool) (c : rctrl) : option (Z * rctrl) :=
  '(ret, c) ← nvme_rdma_start_io_queues c;
  if negb (ret =? 0)
  then c ← (if new then k_release (k_connect_q c) c else Some c); rio_free_tag_set new ret c
  else Some (0, c).

Definition nvme_rdma_configure_io_queues (new : bool) (c : rctrl) : option (Z * rctrl) :=
  '(ret, c) ← nvme_rdma_alloc_io_queues c;
  if negb (ret =? 0) then Some (ret, c)
  else if new then
    let '(err, p, c) := nvme_rdma_alloc_tagset false c in
    let c := c <| k_tagset := k_ptr p |> in
    match p with
    | None => rio_free_io_queues err c
    | Some _ =>
      let '(p, c) := k_new c in
      let c := c <| k_connect_q := k_ptr p |> in
      match p with
      | None => rio_free_tag_set new (ptr_err (k_calls c)) c
      | Some _ => rio_start new c
      end
    end
  else
    c ← k_use (k_tagset c) c;  (* blk_mq_update_nr_hw_queues *)
    rio_start new c.

(** The requests that are outstanding are cancelled if there is a tag set. *)
Definition rcancel_requests (tagset : option Z) (c : rctrl) : option rctrl :=
  match tagset with Some _ => k_use tagset c | None => Some c end.

Definition nvme_rdma_teardown_admin_queue (remove : bool) (c : rctrl) : option rctrl :=
  c ← k_use (k_admin_q c) c;  (* blk_mq_quiesce_queue *)
  c ← rdma_stop_queue 0 c;
  c ← rcancel_requests (k_admin_tagset c) c;
  c ← (if remove then k_use (k_admin_q c) c else Some c);
  nvme_rdma_destroy_admin_queue remove c.

Definition nvme_rdma_teardown_io_queues (remove : bool) (c : rctrl) : option rctrl :=
  if k_queue_count c <=? 1 then Some c
  else
    c ← nvme_rdma_stop_io_queues c;
    c ← rcancel_requests (k_tagset c) c;
    nvme_rdma_destroy_io_queues remove c.

Definition rdma_change_state (new : nvme_ctrl_state) (c : rctrl) : bool * rctrl :=
  if change_ok (k_state c) new then (true, c <| k_state := new |>) else (false, c).

Definition nvme_rdma_reconnect_or_remove (c : rctrl) : rctrl :=
  if negb (bool_decide (k_state c = NVME_CTRL_CONNECTING)) then c
  else if should_reconnect (k_calls c) then c <| k_connect_work := true |>
  else c <| k_delete := true |>.

(** The labels [destroy_io] and [destroy_admin] of [nvme_rdma_setup_ctrl]. *)
Definition rdestroy_admin (new : bool) (ret : Z) (c : rctrl) : option (Z * rctrl) :=
  c ← rdma_stop_queue 0 c; c ← nvme_rdma_destroy_admin_queue new c; Some (ret, c).
Definition rdestroy_io (new : bool) (ret : Z) (c : rctrl) : option (Z * rctrl) :=
  c ← (if 1 <? k_queue_count c then nvme_rdma_destroy_io_queues new c else Some c); rdestroy_admin new ret c.

(** The sizes are clamped; in-capsule data is used if the controller takes it. *)
Definition rdma_clamp (c : rctrl) : rctrl :=
  let c := if k_maxcmd c <? k_sqsize c + 1 then c <| k_sqsize := u16 (k_maxcmd c - 1) |> else c in
  if Z.testbit (k_sgls c) 20 then c <| k_inline := true |> else c.

Definition nvme_rdma_setup_ctrl (new : bool) (c : rctrl) : option (Z * rctrl) :=
  '(ret, c) ← nvme_rdma_configure_admin_queue new c;
  if negb (ret =? 0) then Some (ret, c)
  else if c_true (k_icdoff c) then rdestroy_admin new ret c
  else if negb (Z.testbit (k_sgls c) 2) then rdestroy_admin new ret c
  else
    let c := rdma_clamp c in
    '(ret, c) ← (if 1 <? k_queue_count c then nvme_rdma_configure_io_queues new c else Some (ret, c));
    if negb (ret =? 0) then rdestroy_admin new ret c
    else
      let '(ok, c) := rdma_change_state NVME_CTRL_LIVE c in
      if negb ok then rdestroy_io new (- EINVAL) c else Some (0, c).

(** ** Works *)

Definition nvme_rdma_reconnect_ctrl_work (c : rctrl) : option rctrl :=
  let c := c <| k_connect_work := false |> <| k_nr_reconnects ::= fun n => s32 (n + 1) |> in
  '(ret, c) ← nvme_rdma_setup_ctrl false c;
  Some (if c_true ret then nvme_rdma_reconnect_or_remove c else c <| k_nr_reconnects := 0 |>).

Definition nvme_rdma_error_recovery_work (c : rctrl) : option rctrl :=
  let c := c <| k_err_work := false |> in
  c ← nvme_rdma_teardown_io_queues false c;
  c ← nvme_rdma_teardown_admin_queue false c;
  c ← k_use (k_admin_q c) c;  (* blk_mq_unquiesce_queue *)
  let '(ok, c) := rdma_change_state NVME_CTRL_CONNECTING c in
  Some (if ok then nvme_rdma_reconnect_or_remove c else c).

(** [nvme_rdma_error_recovery]. *)
Definition rdma_start_recovery (c : rctrl) : rctrl :=
  let '(ok, c) := rdma_change_state NVME_CTRL_RESETTING c in
  if ok then c <| k_err_work := true |> else c.

Definition nvme_rdma_shutdown_ctrl (shutdown : bool) (c : rctrl) : option rctrl :=
  let c := c <| k_err_work := false |> <| k_connect_work := false |> in
  c ← nvme_rdma_teardown_io_queues shutdown c;
  c ← k_use (k_admin_q c) c;  (* blk_mq_quiesce_queue *)
  let '(_, c) := k_call c in
  nvme_rdma_teardown_admin_queue shutdown c.

Definition nvme_rdma_delete_ctrl (c : rctrl) : option rctrl := nvme_rdma_shutdown_ctrl true c.

Definition nvme_rdma_reset_ctrl_work (c : rctrl) : option rctrl :=
  c ← nvme_rdma_shutdown_ctrl false c;
  let '(ok, c) := rdma_change_state NVME_CTRL_CONNECTING c in
  if negb ok then Some c
  else
    '(ret, c) ← nvme_rdma_setup_ctrl false c;
    Some (if c_true ret
          then nvme_rdma_reconnect_or_remove (c <| k_nr_reconnects ::= fun n => s32 (n + 1) |>) else c).

Definition nvme_rdma_timeout (c : rctrl) : option (blk_eh_timer_return * rctrl) :=
  if bool_decide (k_state c = NVME_CTRL_RESETTING) then Some (BLK_EH_RESET_TIMER, c)
  else if negb (bool_decide (k_state c = NVME_CTRL_LIVE)) then
    c ← (if k_err_work c then nvme_rdma_error_recovery_work c else Some c);  (* flush_work *)
    c ← nvme_rdma_teardown_io_queues false c;
    c ← nvme_rdma_teardown_admin_queue false c;
    Some (BLK_EH_DONE, c)
  else Some (BLK_EH_RESET_TIMER, rdma_start_recovery c).

(** ** Creation and release *)

(** A controller that is on the list leaves it. *)
Definition nvme_rdma_free_ctrl (ctrls : list Z) (c : rctrl) : option (list Z * rdma_world) :=
  w ← kfree (k_array c) (rw_w (k_m c));
  w ← kfree (k_self c) w;
  Some (filter (fun x => k_self c <> Some x) ctrls, (k_m c) <| rw_w := w |>).

(** [ip_match]: [nvmf_ip_options_match] on a controller of the list. *)
Definition nvme_rdma_existing_controller (ip_match : Z -> bool) (ctrls : list Z) : bool := existsb ip_match ctrls.

(** The label [out_free_ctrl] of [nvme_rdma_create_ctrl]. *)
Definition free_new_rctrl (ret : Z) (self : option Z) (ctrls : list Z) (m : rdma_world)
  : option (Z * option rctrl * list Z * rdma_world) :=
  m ← rw_release self m; Some (ret, None, ctrls, m).

(** From the initialization of the controller on; [nvme_init_ctrl] is a call.  A
    controller that fails after it is freed with its last reference. *)
Definition init_new_rctrl (ctrls : list Z) (c : rctrl) : option (Z * option rctrl * list Z * rdma_world) :=
  let '(ret, c) := k_call c in
  if negb (ret =? 0) then m ← rw_release (k_array c) (k_m c); free_new_rctrl ret (k_self c) ctrls m
  else
    let '(_, c) := rdma_change_state NVME_CTRL_CONNECTING c in
    '(ret, c) ← nvme_rdma_setup_ctrl true c;
    if negb (ret =? 0) then
      '(ctrls, m) ← nvme_rdma_free_ctrl ctrls c; Some (if 0 <? ret then - EIO else ret, None, ctrls, m)
    else self ← k_self c; Some (0, Some c, ctrls ++ [self], k_m c).

(** A string for the port that was not given belongs to the options; the addresses are
    parsed by calls. *)
Definition nvme_rdma_create_ctrl (ip_match : Z -> bool) (ctrls : list Z) (m : rdma_world)
  : option (Z * option rctrl * list Z * rdma_world) :=
  match rw_new alloc_ok m with
  | (None, m) => Some (- ENOMEM, None, ctrls, m)
  | (self, m) =>
    let o := ro_queues opts in
    let count := u32 (o_nr_io_queues o + o_nr_write_queues o + o_nr_poll_queues o + 1) in
    let '(port, m) := if ro_trsvcid opts then (Some 0, m) else rw_new alloc_ok m in
    match port with
    | None => free_new_rctrl (- ENOMEM) self ctrls m
    | Some _ =>
      let '(ret, w) := calls (if ro_host_traddr opts then 2 else 1) (rw_w m) in
      let m := m <| rw_w := w |> in
      if negb (ret =? 0) then free_new_rctrl ret self ctrls m
      else if negb (ro_duplicate_connect opts) && nvme_rdma_existing_controller ip_match ctrls
      then free_new_rctrl (- EALREADY_rdma) self ctrls m
      else
        let '(array, m) := rw_new alloc_ok m in
        match array with
        | None => free_new_rctrl (- ENOMEM) self ctrls m
        | Some _ =>
          init_new_rctrl ctrls
            (mk_rctrl (replicate (Z.to_nat count) new_rqueue) count (u16 (ro_queue_size opts - 1)) 0 0 0 [0; 0; 0]
               NVME_CTRL_NEW None None 0 0 (0, 0) false None None None None None 0 false false false self array m)
        end
    end
  end.

(** ** Devices and the module *)

(** Every controller that uses the device is deleted; [k_device] of each of them is
    read. *)
Definition nvme_rdma_remove_one (guid : Z) (m : rdma_world) (ctrls : list rctrl) : option (list rctrl) :=
  if negb (existsb (fun d => rd_guid d =? guid) (rw_devs m)) then Some ctrls
  else mapM (fun c => g ← device_guid (k_device c) m; Some (if g =? guid then c <| k_delete := true |> else c)) ctrls.

(** The client of the devices and the transport; the result and which of them is
    registered. *)
Definition nvme_rdma_init_module (w : world) : Z * bool * bool * world :=
  let '(ret, w) := call w in
  if negb (ret =? 0) then (ret, false, false, w)
  else
    let '(ret, w) := call w in
    if negb (ret =? 0) then (ret, false, false, w) else (0, true, true, w).
Definition nvme_rdma_cleanup_module (ctrls : list rctrl) : list rctrl := map (fun c => c <| k_delete := true |>) ctrls.
End ctrl.
