(* ===== verification/NvmeRdmaCtrlInv.v ===== *)
(** * Invariant of an RDMA controller and its loops over the queues

    The queues of a controller own their objects and references of devices, and an
    operation on one of them touches nothing else; the loops that allocate, start, stop
    and free all I/O queues, with their undo on an error. *)
From S2P Require Import Prelude MqTypes BlkMqTagSet NvmeTcpMap NvmeTcpConn NvmeTcpConnSpec NvmeRdmaConn NvmeRdmaConnSpec NvmeRdmaCtrl.

(** What the NVMe core promises: the size of a queue is unsigned. *)
Class RdmaCoreLaws (ce : CtrlEnv) (rc : RdmaCore) := {
  sqsize_nonneg : forall k, 0 <= (identified k).1.1;
  aq_depth_nonneg : 0 <= rdma_aq_depth;
}.

(** Whether queue [i] is allocated, and whether it is live. *)
Definition rflag (c : rctrl) (i : nat) : bool * bool :=
  match k_queues c !! i with Some q => (rq_allocated q, rq_live q) | None => (false, false) end.

(** What the queues own. *)
Definition rqs_objs (l : list rdma_queue) : list Z := concat (q_objs <$> l).
Definition rqs_refs (l : list rdma_queue) : list Z := concat (q_refs <$> l).

(** Two controllers that differ in their queues and the heap. *)
Definition rsame (c c' : rctrl) : Prop := c' = c <| k_queues := k_queues c' |> <| k_m := k_m c' |>.

#[global] Instance rsame_preorder : PreOrder rsame.
Proof.
  split; [by intros []|]. intros c1 c2 c3 H1 H2. unfold rsame in *. rewrite H2. simpl. generalize (k_queues c3) (k_m c3).
  intros l w. rewrite H1. done.
Qed.

Lemma refs_to_perm p refs refs' : refs ≡ₚ refs' -> refs_to p refs = refs_to p refs'.
Proof. intros H. unfold refs_to. by rewrite H. Qed.

Lemma rheld_perm2 m refs refs' l l' : rheld m refs l -> refs ≡ₚ refs' -> l ≡ₚ l' -> rheld m refs' l'.
Proof.
  intros [(H1 & H2 & H3) H4] Hr Hl. split; [|eapply holds_perm; [done|by rewrite Hl]]. split; [done|]. split; [|by rewrite <- Hr].
  eapply Forall_impl; [exact H2|]. intros d. simpl. by rewrite (refs_to_perm _ _ _ Hr).
Qed.

(** The number of queues that the options ask for. *)
Definition asked (o : nvmf_opts) : Z := o_nr_io_queues o + o_nr_write_queues o + o_nr_poll_queues o.

Section inv.
Context {ce : CtrlEnv} {cl : CtrlLaws ce} {cm : RdmaCm} {cml : RdmaCmLaws cm} {rc : RdmaCore} (opts : rdma_opts).
Implicit Types (R l : list Z) (c : rctrl).

(** The queues are well formed, those past the count are down, and the objects and
    references in use are those of the queues and of [l] and [R]. *)
Record kinv R l c : Prop := {
  ki_wf : Forall wf_rq (k_queues c);
  ki_fits : asked (ro_queues opts) + 1 <= Z.of_nat (length (k_queues c)) < 2 ^ 31;
  ki_count : 1 <= k_queue_count c <= Z.of_nat (length (k_queues c));
  ki_down : forall i, k_queue_count c <= Z.of_nat i -> rflag c i = (false, false);
  ki_io : length (k_io_queues c) = 3%nat;
  ki_sq : 0 <= k_sqsize c;
  ki_heap : rheld (k_m c) (rqs_refs (k_queues c) ++ R) (rqs_objs (k_queues c) ++ l);
}.

Lemma kinv_perm R l l' c : kinv R l c -> l ≡ₚ l' -> kinv R l' c.
Proof. intros [] Hp. split; try done. eapply rheld_perm2; [done|done|]. by rewrite Hp. Qed.

Lemma kinv_heap_only R l l' c m :
  kinv R l c -> rheld m (rqs_refs (k_queues c) ++ R) (rqs_objs (k_queues c) ++ l') -> kinv R l' (c <| k_m := m |>).
Proof. intros [] Hw. by split. Qed.

(** ** One queue *)

Lemma rqs_at {A} (f : rdma_queue -> list A) (l : list rdma_queue) i q :
  l !! i = Some q -> concat (f <$> l) ≡ₚ f q ++ concat (f <$> take i l) ++ concat (f <$> drop (S i) l).
Proof.
  intros H. rewrite <- (take_drop_middle l i q H) at 1. rewrite fmap_app, concat_app. simpl. by rewrite Permutation_app_swap_app.
Qed.

Lemma rqs_insert {A} (f : rdma_queue -> list A) (l : list rdma_queue) i q q' :
  l !! i = Some q ->
  concat (f <$> <[i := q']> l) ≡ₚ f q' ++ concat (f <$> take i l) ++ concat (f <$> drop (S i) l).
Proof.
  intros H. pose proof (lookup_lt_Some _ _ _ H). rewrite (rqs_at f _ i q') by by apply list_lookup_insert_eq.
  rewrite take_insert_ge, drop_insert_lt by lia. done.
Qed.

(** What an operation on queue [i] leaves alone. *)
Definition others {A} (f : rdma_queue -> list A) (i : nat) (c : rctrl) : list A :=
  concat (f <$> take i (k_queues c)) ++ concat (f <$> drop (S i) (k_queues c)).

Lemma kinv_open R l c i q :
  kinv R l c -> k_queues c !! i = Some q ->
  wf_rq q /\ rheld (k_m c) (q_refs q ++ others q_refs i c ++ R) (q_objs q ++ others q_objs i c ++ l).
Proof.
  intros Hi Hq. split; [eapply Forall_lookup_1; [apply Hi|done]|].
  eapply rheld_perm2; [apply Hi|..]; unfold others, rqs_refs, rqs_objs; rewrite (rqs_at _ _ _ _ Hq); solve_Permutation.
Qed.

Definition rput (i : nat) (q : rdma_queue) (m : rdma_world) (c : rctrl) : rctrl :=
  c <| k_queues := <[i := q]> (k_queues c) |> <| k_m := m |>.

Lemma rflag_put i q m c j :
  (i < length (k_queues c))%nat ->
  rflag (rput i q m c) j = if decide (j = i) then (rq_allocated q, rq_live q) else rflag c j.
Proof.
  intros Hi. unfold rflag, rput. simpl. case_decide; subst.
  - by rewrite list_lookup_insert_eq.
  - by rewrite list_lookup_insert_ne.
Qed.

Lemma kinv_close R l l' c i q q' m :
  kinv R l c -> k_queues c !! i = Some q -> wf_rq q' ->
  (k_queue_count c <= Z.of_nat i -> rq_allocated q' = false /\ rq_live q' = false) ->
  rheld m (q_refs q' ++ others q_refs i c ++ R) (q_objs q' ++ others q_objs i c ++ l') -> kinv R l' (rput i q' m c).
Proof.
  intros Hi Hq Hw Hd Hh. pose proof (lookup_lt_Some _ _ _ Hq). split; try apply Hi.
  - apply Forall_insert; [apply Hi|done].
  - simpl. rewrite length_insert. apply Hi.
  - simpl. rewrite length_insert. apply Hi.
  - intros j Hj. rewrite rflag_put by done. case_decide; subst.
    + destruct (Hd Hj) as [-> ->]. done.
    + by apply Hi.
  - eapply rheld_perm2; [exact Hh|..]; simpl; unfold rqs_refs, rqs_objs, others; rewrite (rqs_insert _ _ _ _ _ Hq); solve_Permutation.
Qed.

Lemma on_rqueue_put f i c q ret q' m :
  k_queues c !! i = Some q -> f q (k_m c) = Some (ret, q', m) -> on_rqueue f (Z.of_nat i) c = Some (ret, rput i q' m c).
Proof.
  intros Hq Hf. pose proof (lookup_lt_Some _ _ _ Hq). unfold on_rqueue. rewrite aget_of_nat, Hq. cbn [mbind option_bind].
  rewrite Hf. cbn [mbind option_bind]. rewrite aset_lt by lia. by rewrite Nat2Z.id.
Qed.

(** Only queue [i] and the heap differ. *)
Definition only (i : nat) (c c' : rctrl) : Prop :=
  rsame c c' /\ length (k_queues c') = length (k_queues c) /\ forall j, j <> i -> k_queues c' !! j = k_queues c !! j.

Lemma only_put i q m c : only i c (rput i q m c).
Proof. split_and!; [done|apply length_insert|]. intros j Hj. by apply list_lookup_insert_ne. Qed.

Lemma only_flag i c c' j : only i c c' -> j <> i -> rflag c' j = rflag c j.
Proof. intros (_ & _ & H) Hj. unfold rflag. by rewrite H. Qed.

(** An operation that always succeeds, where the queue satisfies [pre], and changes the
    flags of the queue by [g]. *)
Definition racts (f : Z -> rctrl -> option rctrl) (pre : bool * bool -> Prop) (g : bool * bool -> bool * bool) : Prop :=
  forall R l c i, kinv R l c -> (i < length (k_queues c))%nat -> pre (rflag c i) ->
  exists c', f (Z.of_nat i) c = Some c' /\ only i c c' /\ kinv R l c' /\ rflag c' i = g (rflag c i).

Lemma rfree_acts : racts rdma_free_queue (fun x => x.2 = false) (fun _ => (false, false)).
Proof.
  intros R l c i Hi Hlt Hpre. apply lookup_lt_is_Some in Hlt as [q Hq]. destruct (kinv_open _ _ _ _ _ Hi Hq) as [Hw Hh].
  unfold rflag in Hpre. rewrite Hq in Hpre. simpl in Hpre. pose proof (lookup_lt_Some _ _ _ Hq).
  destruct (free_queue_ok q _ _ _ Hw Hpre Hh) as (q' & m' & Hf & Ha & El & Ht & Hh').
  exists (rput i q' m' c). split_and!.
  - unfold rdma_free_queue, on_rqueue_void. erewrite (on_rqueue_put _ i c q 0); [done..|]. by rewrite Hf.
  - apply only_put.
  - eapply kinv_close; [done..| |done|by unfold q_refs, q_objs; rewrite Ha]. split_and!; congruence.
  - rewrite rflag_put by done. by rewrite decide_True, Ha, El.
Qed.

(** A stop keeps everything else of the queue. *)
Lemma rstop_one R l c i q :
  kinv R l c -> k_queues c !! i = Some q ->
  exists c', rdma_stop_queue (Z.of_nat i) c = Some c' /\ only i c c' /\ kinv R l c' /\ rflag c' i = ((rflag c i).1, false)
    /\ k_queues c' !! i = Some (q <| rq_live := false |>).
Proof.
  intros Hi Hq. destruct (kinv_open _ _ _ _ _ Hi Hq) as [Hw Hh].
  destruct (stop_queue_ok q _ _ _ Hw Hh) as (q' & Hf & Ho & Hw'). pose proof (lookup_lt_Some _ _ _ Hq).
  exists (rput i q' (k_m c) c). split_and!.
  - unfold rdma_stop_queue, on_rqueue_void. erewrite (on_rqueue_put _ i c q 0); [done..|]. by rewrite Hf.
  - apply only_put.
  - subst q'. eapply kinv_close; [done..| |done]. intros Hc. pose proof (ki_down _ _ _ Hi i Hc) as Hd. unfold rflag in Hd.
    rewrite Hq in Hd. by injection Hd.
  - rewrite rflag_put, decide_True by done. unfold rflag. rewrite Hq. by subst q'.
  - subst q'. by apply list_lookup_insert_eq.
Qed.

Lemma rstop_acts : racts rdma_stop_queue (fun _ => True) (fun x => (x.1, false)).
Proof.
  intros R l c i Hi Hlt _. apply lookup_lt_is_Some in Hlt as [q Hq].
  destruct (rstop_one _ _ _ _ _ Hi Hq) as (c' & ? & ? & ? & ? & _). by exists c'.
Qed.

(** An operation that takes a queue from the flags [b0] to [b1], or fails and leaves the
    flags alone. *)
Definition rtries (f : Z -> rctrl -> option (Z * rctrl)) (b0 b1 : bool * bool) : Prop :=
  forall R l c i, kinv R l c -> Z.of_nat i < k_queue_count c -> rflag c i = b0 ->
  exists ret c', f (Z.of_nat i) c = Some (ret, c') /\ only i c c' /\ kinv R l c' /\ rflag c' i = (if ret =? 0 then b1 else b0).

Lemma ralloc_tries size : 0 <= size -> rtries (rdma_alloc_queue opts size) (false, false) (true, false).
Proof.
  intros Hs R l c i Hi Hc Hfl. assert (Hlt : (i < length (k_queues c))%nat) by (destruct Hi; lia).
  apply lookup_lt_is_Some in Hlt as [q Hq]. destruct (kinv_open _ _ _ _ _ Hi Hq) as [Hw Hh].
  pose proof (lookup_lt_Some _ _ _ Hq). unfold rflag in Hfl. rewrite Hq in Hfl. injection Hfl as Hqa Hql.
  unfold q_objs, q_refs in Hh. rewrite Hqa in Hh. pose proof Hw as (Ht & _). rewrite Hqa in Ht.
  destruct (alloc_queue_ok (ctx_of opts (Z.of_nat i) c) (ki_io _ _ _ Hi) size q _ _ _ Hs Ht Hqa Hql Hh) as (ret & q' & m' & Hf & El & Ea & Hw' & Hh').
  exists ret, (rput i q' m' c). split_and!.
  - by apply (on_rqueue_put _ i c q).
  - apply only_put.
  - eapply kinv_close; [done..|lia|exact Hh'].
  - rewrite rflag_put, decide_True by done. rewrite Ea, El. by destruct (ret =? 0).
Qed.

Lemma rstart_tries : rtries (rdma_start_queue opts) (true, false) (true, true).
Proof.
  intros R l c i Hi Hc Hfl. assert (Hlt : (i < length (k_queues c))%nat) by (destruct Hi; lia).
  apply lookup_lt_is_Some in Hlt as [q Hq]. destruct (kinv_open _ _ _ _ _ Hi Hq) as [Hw Hh].
  pose proof (lookup_lt_Some _ _ _ Hq). unfold rflag in Hfl. rewrite Hq in Hfl. injection Hfl as Hqa Hql.
  destruct (start_queue_ok (ctx_of opts (Z.of_nat i) c) (ki_io _ _ _ Hi) q _ _ _ Hw Hqa Hh) as (ret & q' & m' & Hf & Hw' & Hq' & H1 & H2 & Hh').
  exists ret, (rput i q' m' c). split_and!.
  - by apply (on_rqueue_put _ i c q).
  - apply only_put.
  - eapply kinv_close; [done..|lia|]. by rewrite Hq'.
  - rewrite rflag_put, decide_True by done. destruct (Z.eqb_spec ret 0); [rewrite (H1 ltac:(done)), Hq'; simpl; by rewrite Hqa|].
    by rewrite H2, Hqa, Hql.
Qed.

(** ** Loops *)

(** Queue 0 and everything that is not a queue is left alone. *)
Definition io_only (c c' : rctrl) : Prop :=
  rsame c c' /\ length (k_queues c') = length (k_queues c) /\ k_queues c' !! 0%nat = k_queues c !! 0%nat.

#[global] Instance io_only_preorder : PreOrder io_only.
Proof. split; [by split|]. intros c1 c2 c3 (H1 & H2 & H3) (H4 & H5 & H6). split_and!; [by etrans|congruence..]. Qed.

Lemma only_io i c c' : only i c c' -> (1 <= i)%nat -> io_only c c'.
Proof. intros (H1 & H2 & H3) Hi. split_and!; [done|done|]. apply H3. lia. Qed.

Lemma reach_each f pre g R l n : racts f pre g -> forall i c,
  (1 <= i)%nat -> kinv R l c -> (i + n <= length (k_queues c))%nat -> (forall j, (i <= j < i + n)%nat -> pre (rflag c j)) ->
  exists c', foldM (fun c i => f i c) c (seqZ (Z.of_nat i) (Z.of_nat n)) = Some c' /\ io_only c c' /\ kinv R l c' /\
    forall j, rflag c' j = if decide (i <= j < i + n)%nat then g (rflag c j) else rflag c j.
Proof.
  intros Hf. induction n as [|n IH]; intros i c H1 Hi Hl Hpre.
  { exists c. split_and!; [done..|]. intros j. by rewrite decide_False by lia. }
  rewrite seqZ_cons by lia. cbn [foldM]. destruct (Hf R l c i) as (c1 & -> & Ho & Hi1 & Hf1); [done|lia|apply Hpre; lia|].
  cbn [mbind option_bind]. replace (Z.succ (Z.of_nat i)) with (Z.of_nat (S i)) by lia.
  replace (Z.pred (Z.of_nat (S n))) with (Z.of_nat n) by lia. pose proof (only_io _ _ _ Ho H1) as Hio. pose proof Hio as (_ & Hl1 & _).
  destruct (IH (S i) c1) as (c2 & -> & Ho2 & Hi2 & Hf2); [lia|done|lia| |].
  { intros j Hj. rewrite (only_flag i c) by (done || lia). apply Hpre. lia. }
  exists c2. split_and!; [done|by etrans|done|]. intros j. rewrite Hf2. destruct (decide (j = i)) as [->|Hne].
  - rewrite Hf1, decide_False, decide_True by lia. done.
  - rewrite (only_flag i c) by done. repeat case_decide; done || lia.
Qed.

Lemma rdown_spec f pre g R l n : racts f pre g -> forall c,
  kinv R l c -> (n < length (k_queues c))%nat -> (forall j, (1 <= j <= n)%nat -> pre (rflag c j)) ->
  exists c', rdown f n c = Some c' /\ io_only c c' /\ kinv R l c' /\
    forall j, rflag c' j = if decide (1 <= j <= n)%nat then g (rflag c j) else rflag c j.
Proof.
  intros Hf. induction n as [|n IH]; intros c Hi Hl Hpre.
  { exists c. split_and!; [done..|]. intros j. by rewrite decide_False by lia. }
  cbn [rdown]. destruct (Hf R l c (S n)) as (c1 & -> & Ho & Hi1 & Hf1); [done|lia|apply Hpre; lia|].
  cbn [mbind option_bind]. pose proof (only_io _ _ _ Ho ltac:(lia)) as Hio. pose proof Hio as (_ & Hl1 & _).
  destruct (IH c1) as (c2 & -> & Ho2 & Hi2 & Hf2); [done|lia| |].
  { intros j Hj. rewrite (only_flag (S n) c) by (done || lia). apply Hpre. lia. }
  exists c2. split_and!; [done|by etrans|done|]. intros j. rewrite Hf2. destruct (decide (j = S n)) as [->|Hne].
  - rewrite Hf1, decide_False, decide_True by lia. done.
  - rewrite (only_flag (S n) c) by done. repeat case_decide; done || lia.
Qed.

(** All queues from 1 to [n] get the flags [b1], or after an error [b0]. *)
Lemma rup_or_undo_spec f undo b0 b1 pre g R l n : rtries f b0 b1 -> racts undo pre g -> pre b1 -> g b1 = b0 ->
  forall i c, kinv R l c -> (1 <= i)%nat -> Z.of_nat (i + n) <= k_queue_count c ->
  (forall j, (1 <= j < i)%nat -> rflag c j = b1) -> (forall j, (i <= j < i + n)%nat -> rflag c j = b0) ->
  exists ret c', rup_or_undo f undo n i c = Some (ret, c') /\ io_only c c' /\ kinv R l c' /\
    forall j, rflag c' j = if decide (1 <= j < i + n)%nat then (if ret =? 0 then b1 else b0) else rflag c j.
Proof.
  intros Hf Hu Hb Hg. induction n as [|n IH]; intros i c Hi H1 Hc Hd Hn.
  { exists 0, c. split_and!; [done..|]. intros j. case_decide; [|done]. apply Hd. lia. }
  cbn [rup_or_undo]. destruct (Hf R l c i) as (ret & c1 & -> & Ho & Hi1 & Hf1); [done|lia|apply Hn; lia|].
  cbn [mbind option_bind]. pose proof (only_io _ _ _ Ho H1) as Hio. pose proof Hio as (Hs & Hl1 & _).
  assert (Hcnt : k_queue_count c1 = k_queue_count c) by by rewrite Hs.
  destruct (Z.eqb_spec ret 0) as [->|Hr].
  - destruct (IH (S i) c1) as (ret & c2 & -> & Ho2 & Hi2 & Hf2); [done|lia|lia| | |].
    + intros j Hj. destruct (decide (j = i)) as [->|]; [done|]. rewrite (only_flag i c) by done. apply Hd. lia.
    + intros j Hj. rewrite (only_flag i c) by (done || lia). apply Hn. lia.
    + exists ret, c2. split_and!; [done|by etrans|done|]. intros j. rewrite Hf2. destruct (decide (j = i)) as [->|].
      * by rewrite !decide_True by lia.
      * rewrite (only_flag i c) by done. repeat case_decide; done || lia.
  - destruct (rdown_spec undo pre g R l (i - 1) Hu c1) as (c2 & -> & Ho2 & Hi2 & Hf2).
    + done.
    + destruct Hi1; lia.
    + intros j Hj. rewrite (only_flag i c), Hd by (done || lia). done.
    + cbn [mbind option_bind]. exists ret, c2. split_and!; [done|by etrans|done|].
      intros j. rewrite (proj2 (Z.eqb_neq ret 0) Hr), Hf2. destruct (decide (j = i)) as [->|].
      * by rewrite decide_False, decide_True by lia.
      * rewrite (only_flag i c) by done. repeat case_decide; try done || lia; [by rewrite Hd by lia|apply Hn; lia].
Qed.

(** The I/O queues together: [b] their flags. *)
Definition rio_flags (c : rctrl) (b : bool * bool) : Prop :=
  forall j, (1 <= j)%nat -> Z.of_nat j < k_queue_count c -> rflag c j = b.
Definition rio_down (c : rctrl) : Prop := forall j, (1 <= j)%nat -> rflag c j = (false, false).

Lemma rfree_io_spec R l c :
  kinv R l c -> (forall j, (1 <= j)%nat -> (rflag c j).2 = false) ->
  exists c', nvme_rdma_free_io_queues c = Some c' /\ io_only c c' /\ kinv R l c' /\ rio_down c'.
Proof.
  intros Hi Hp. pose proof (ki_count _ _ _ Hi) as Hc. pose proof (ki_down _ _ _ Hi) as Hdn. unfold nvme_rdma_free_io_queues.
  replace (k_queue_count c - 1) with (Z.of_nat (nr_rio c)) by (unfold nr_rio; lia).
  destruct (reach_each _ _ _ R l (nr_rio c) rfree_acts 1 c) as (c' & H & Ho & Hi' & Hf); [lia|done|unfold nr_rio; lia| |].
  { intros j Hj. apply Hp. lia. }
  exists c'. split_and!; [exact H|done..|]. intros j Hj. rewrite Hf. case_decide; [done|]. apply Hdn. unfold nr_rio in *. lia.
Qed.

Lemma rstop_io_spec R l c :
  kinv R l c ->
  exists c', nvme_rdma_stop_io_queues c = Some c' /\ io_only c c' /\ kinv R l c' /\
    forall j, (1 <= j)%nat -> rflag c' j = ((rflag c j).1, false).
Proof.
  intros Hi. pose proof (ki_count _ _ _ Hi) as Hc. pose proof (ki_down _ _ _ Hi) as Hdn. unfold nvme_rdma_stop_io_queues.
  replace (k_queue_count c - 1) with (Z.of_nat (nr_rio c)) by (unfold nr_rio; lia).
  destruct (reach_each _ _ _ R l (nr_rio c) rstop_acts 1 c) as (c' & H & Ho & Hi' & Hf); [lia|done|unfold nr_rio; lia|done|].
  exists c'. split_and!; [exact H|done..|]. intros j Hj. rewrite Hf. case_decide; [done|]. rewrite Hdn; [done|]. unfold nr_rio in *. lia.
Qed.

Lemma rstart_io_spec R l c :
  kinv R l c -> rio_flags c (true, false) ->
  exists ret c', nvme_rdma_start_io_queues opts c = Some (ret, c') /\ io_only c c' /\ kinv R l c' /\
    rio_flags c' (if ret =? 0 then (true, true) else (true, false)).
Proof.
  intros Hi Hio. pose proof (ki_count _ _ _ Hi) as Hc. unfold nvme_rdma_start_io_queues.
  destruct (rup_or_undo_spec _ _ _ _ _ _ R l (nr_rio c) rstart_tries rstop_acts I eq_refl 1 c) as (ret & c' & H & Ho & Hi' & Hf);
    [done|lia|unfold nr_rio; lia|lia| |].
  { intros j Hj. apply Hio; unfold nr_rio in *; lia. }
  exists ret, c'. split_and!; [done..|]. intros j Hj1 Hj. destruct Ho as (Hs & _). rewrite Hs in Hj. simpl in Hj.
  rewrite Hf, decide_True by (unfold nr_rio; lia). done.
Qed.

Lemma ralloc_io_spec R l c :
  kinv R l c -> rio_down c ->
  exists ret c', alloc_rio_queues opts c = Some (ret, c') /\ io_only c c' /\ kinv R l c' /\
    (ret = 0 /\ rio_flags c' (true, false) \/ ret <> 0 /\ rio_down c').
Proof.
  intros Hi Hio. pose proof (ki_count _ _ _ Hi) as Hc. pose proof (ki_sq _ _ _ Hi) as Hsq. unfold alloc_rio_queues.
  destruct (rup_or_undo_spec _ _ _ _ _ _ R l (nr_rio c) (ralloc_tries (k_sqsize c + 1) ltac:(lia)) rfree_acts eq_refl eq_refl 1 c)
    as (ret & c' & H & Ho & Hi' & Hf); [done|lia|unfold nr_rio; lia|lia| |].
  { intros j Hj. apply Hio; unfold nr_rio in *; lia. }
  exists ret, c'. split_and!; [done..|]. destruct (Z.eqb_spec ret 0); [left|right]; split; try done.
  - intros j Hj1 Hj. destruct Ho as (Hs & _). rewrite Hs in Hj. simpl in Hj. by rewrite Hf, decide_True by (unfold nr_rio; lia).
  - intros j Hj. rewrite Hf. case_decide; [done|]. by apply Hio.
Qed.
End inv.
