(* ===== verification/NvmeRdmaCtrlAdmin.v ===== *)
(** * Set-up and tear-down of the admin queue of an RDMA controller

    The admin queue is set up completely or nothing of it is left; its tear-down gives
    everything back.  While the command of asynchronous events exists, the controller
    points to a device that its admin queue holds a reference of. *)
From S2P Require Import Prelude MqTypes BlkMqTagSet NvmeTcpMap NvmeTcpConn NvmeTcpConnSpec NvmeRdmaConn NvmeRdmaConnSpec.
From S2P Require Import NvmeRdmaCtrl NvmeRdmaCtrlInv.

(** The parts of a controller that an operation may leave alone. *)
Definition kworks (c : rctrl) :=
  (k_connect_work c, k_err_work c, k_delete c, k_self c, k_array c, k_nr_reconnects c).
Definition kcore (c : rctrl) := (k_state c, kworks c).
Definition kio_part (c : rctrl) := (k_queue_count c, k_connect_q c, k_tagset c).
Definition kadm_ptrs (c : rctrl) := (k_admin_q c, k_fabrics_q c, k_admin_tagset c).
Definition kcaps (c : rctrl) := (k_icdoff c, k_sgls c).

(** The objects that an error label gives back when the set-up is the first. *)
Definition rheld_new (new : bool) (l : list Z) : list Z := if new then l else [].

(** The device of the controller is the one of its admin queue. *)
Definition dev_held (c : rctrl) : Prop :=
  exists q, k_queues c !! 0%nat = Some q /\ rq_allocated q = true /\ k_device c = rq_device q.
Definition adm_async (c : rctrl) (e : rdma_qe) : Prop := k_async c = Some e /\ wf_elem e /\ dev_held c.

(** Whether the capabilities of the controller are those the driver needs. *)
Definition caps_ok (c : rctrl) : bool := (k_icdoff c =? 0) && Z.testbit (k_sgls c) 2.

Lemma rsame_parts c c' : rsame c c' ->
  kcore c' = kcore c /\ kio_part c' = kio_part c /\ kadm_ptrs c' = kadm_ptrs c /\ k_async c' = k_async c
  /\ k_device c' = k_device c /\ kcaps c' = kcaps c.
Proof. intros ->. done. Qed.

Section admin.
Context {ce : CtrlEnv} {cl : CtrlLaws ce} {cm : RdmaCm} {cml : RdmaCmLaws cm} {rc : RdmaCore} {rcl : RdmaCoreLaws ce rc}.
Context (opts : rdma_opts) (R : list Z).
Notation kinv := (kinv opts R).

Lemma kinv_ext l c c' :
  kinv l c -> k_queues c' = k_queues c -> k_queue_count c' = k_queue_count c -> k_io_queues c' = k_io_queues c ->
  k_m c' = k_m c -> 0 <= k_sqsize c' -> kinv l c'.
Proof.
  intros [H1 H2 H3 H4 H5 H6 H7] E1 E2 E3 E4 E5. split; rewrite ?E1, ?E2, ?E3, ?E4; try done.
  intros i Hle. unfold rflag in *. rewrite E1. by apply H4.
Qed.

(** ** The heap through the controller *)

Lemma k_release_at l l' c i :
  kinv l c -> l ≡ₚ i :: l' -> exists m, k_release (Some i) c = Some (c <| k_m := m |>) /\ kinv l' (c <| k_m := m |>).
Proof.
  intros Hi Hp. destruct (rw_release_ok i (k_m c) (rqs_refs (k_queues c) ++ R) (rqs_objs (k_queues c) ++ l')) as (m & Hr & Hw).
  - eapply rheld_perm; [apply Hi|]. rewrite Hp. solve_Permutation.
  - exists m. unfold k_release. rewrite Hr. split; [done|]. by eapply kinv_heap_only.
Qed.

Lemma k_use_at l c i : kinv l c -> i ∈ l -> k_use (Some i) c = Some c.
Proof.
  intros Hi Hin. unfold k_use. rewrite (rw_use_ok i (k_m c) (rqs_refs (k_queues c) ++ R) (rqs_objs (k_queues c) ++ l)); [by destruct c|apply Hi|by apply elem_of_app; right].
Qed.

Lemma k_new_at l c :
  kinv l c -> exists m, (k_new c = (None, c <| k_m := m |>) /\ kinv l (c <| k_m := m |>)) \/
    exists i, k_new c = (Some i, c <| k_m := m |>) /\ kinv (i :: l) (c <| k_m := m |>).
Proof.
  intros Hi. unfold k_new. destruct (rw_new_ok alloc_ok (k_m c) _ _ (ki_heap _ _ _ _ Hi)) as [(m & -> & H)|(i & m & -> & H & _)];
    exists m; [left|right; exists i]; (split; [done|]); (eapply kinv_heap_only; [done|]); [done|].
  eapply rheld_perm; [done|]. solve_Permutation.
Qed.

Lemma k_call_at l c :
  kinv l c -> exists ret m, k_call c = (ret, c <| k_m := m |>) /\ kinv l (c <| k_m := m |>).
Proof.
  intros Hi. unfold k_call. destruct (rw_call_ok (k_m c) _ _ (ki_heap _ _ _ _ Hi)) as (ret & m & -> & H). exists ret, m. split; [done|].
  by eapply kinv_heap_only.
Qed.

Lemma held_guid l c : kinv l c -> dev_held c -> exists g, device_guid (k_device c) (k_m c) = Some g.
Proof.
  intros Hi (q & Hq & Ha & ->). destruct (kinv_open _ _ _ _ _ _ Hi Hq) as [(_ & Hw & _) [(_ & _ & Hd) _]].
  destruct (Hw Ha) as [(_ & _ & _ & _ & [d Hdev] & _) _]. unfold q_refs in Hd. rewrite Ha, Hdev in *. simpl in Hd. apply Forall_cons in Hd as [Hd _].
  unfold device_guid. cbn [mbind option_bind]. apply list_elem_of_fmap in Hd as (x & -> & Hx).
  destruct (find (fun d => rd_self d =? rd_self x) (rw_devs (k_m c))) eqn:E; [by eexists|].
  eapply find_none in E; [|by apply list_elem_of_In]. by rewrite Z.eqb_refl in E.
Qed.

(** ** The admin queue *)

Lemma kinv_0 l c : kinv l c -> (0 < length (k_queues c))%nat /\ Z.of_nat 0 < k_queue_count c.
Proof. intros []. lia. Qed.

(** The I/O queues are not touched. *)
Definition io_kept (c c' : rctrl) : Prop := forall j, (1 <= j)%nat -> k_queues c' !! j = k_queues c !! j.
Lemma io_kept_flag c c' j : io_kept c c' -> (1 <= j)%nat -> rflag c' j = rflag c j.
Proof. intros H Hj. unfold rflag. by rewrite H. Qed.
Lemma only_kept c c' : only 0 c c' -> io_kept c c'.
Proof. intros (_ & _ & H) j Hj. apply H. lia. Qed.

Lemma free_0 l c :
  kinv l c -> (rflag c 0).2 = false ->
  exists c', rdma_free_queue 0 c = Some c' /\ rsame c c' /\ io_kept c c' /\ kinv l c' /\ rflag c' 0 = (false, false).
Proof.
  intros Hi Hf. destruct (rfree_acts opts R l c 0%nat Hi) as (c' & H & Ho & Hi' & Hf'); [by apply (kinv_0 l)|done|].
  exists c'. split_and!; [exact H|apply Ho|by apply only_kept|done..].
Qed.

Lemma stop_0r l c :
  kinv l c -> exists c', rdma_stop_queue 0 c = Some c' /\ rsame c c' /\ io_kept c c' /\ kinv l c' /\ rflag c' 0 = ((rflag c 0).1, false)
    /\ (dev_held c -> dev_held c').
Proof.
  intros Hi. destruct (kinv_0 _ _ Hi) as [Hl _]. apply lookup_lt_is_Some in Hl as [q Hq].
  destruct (rstop_one opts R l c 0%nat q Hi Hq) as (c' & H & Ho & Hi' & Hf & Hq'). pose proof Ho as (Hs & _).
  exists c'. split_and!; [exact H|done|by apply only_kept|done|done|]. intros (q0 & Hq0 & Ha & Hd). rewrite Hq in Hq0. injection Hq0 as <-.
  exists (q <| rq_live := false |>). split_and!; [done|done|]. rewrite Hs. simpl. done.
Qed.

Lemma free_async_ok l e c :
  kinv (elem_objs e ++ l) c -> adm_async c e ->
  exists m, free_async c = Some (c <| k_async := None |> <| k_m := m |>) /\ kinv l (c <| k_async := None |> <| k_m := m |>).
Proof.
  intros Hi (Ha & Hw & Hd). destruct (held_guid _ _ Hi Hd) as [g Hg]. unfold free_async. rewrite Ha, Hg. cbn [mbind option_bind].
  destruct (free_qe_ok e (k_m c) (rqs_refs (k_queues c) ++ R) (rqs_objs (k_queues c) ++ l) Hw) as (m & -> & Hm).
  { eapply rheld_perm; [apply Hi|]. solve_Permutation. }
  exists m. split; [done|]. eapply (kinv_ext l (c <| k_m := m |>)); [by eapply kinv_heap_only|done..|apply Hi].
Qed.

(** The result of a step of the set-up that failed. *)
Definition radm_failed (new : bool) (c : rctrl) (l : list Z) (r : option (Z * rctrl)) : Prop :=
  exists err c', r = Some (err, c') /\ err <> 0 /\ kcore c' = kcore c /\ kio_part c' = kio_part c /\
    (new = false -> kadm_ptrs c' = kadm_ptrs c) /\ k_async c' = None /\ rflag c' 0 = (false, false) /\
    io_kept c c' /\ kinv l c'.

Lemma radm_failed_from new c0 c l r :
  kcore c = kcore c0 -> kio_part c = kio_part c0 -> (new = false -> kadm_ptrs c = kadm_ptrs c0) -> io_kept c0 c ->
  radm_failed new c l r -> radm_failed new c0 l r.
Proof.
  intros E1 E2 E3 E4 (err & c' & -> & He & F1 & F2 & F3 & F4 & F5 & F6 & Hi).
  exists err, c'. split_and!; try done; try congruence.
  - intros Hn. rewrite F3, E3 by done. done.
  - intros j Hj. rewrite F6, E4 by done. done.
Qed.

(** The labels. *)
Definition rlabel_pre (new : bool) (err : Z) (c : rctrl) (e : rdma_qe) (xs l : list Z) : Prop :=
  err <> 0 /\ adm_async c e /\ (rflag c 0).2 = false /\ kinv (elem_objs e ++ rheld_new new xs ++ l) c.

Lemma radm_free_queue_spec new err c l :
  err <> 0 -> k_async c = None -> (rflag c 0).2 = false -> kinv l c -> radm_failed new c l (radm_free_queue err c).
Proof.
  intros He Ha Hf Hi. unfold radm_free_queue. destruct (free_0 _ _ Hi Hf) as (c' & -> & Hs & Hk & Hi' & Hf').
  destruct (rsame_parts _ _ Hs) as (? & ? & ? & ? & ?). exists err, c'. split_and!; try done; congruence.
Qed.

Lemma radm_free_async_spec new err c e l :
  rlabel_pre new err c e [] l -> radm_failed new c l (radm_free_async_qe err c).
Proof.
  intros (He & Ha & Hf & Hi). unfold radm_free_async_qe.
  assert (Hi' : kinv (elem_objs e ++ l) c) by by destruct new. destruct (free_async_ok l e c Hi' Ha) as (m & -> & Hm).
  cbn [mbind option_bind]. apply (radm_failed_from new c (c <| k_async := None |> <| k_m := m |>)); [done..|].
  by apply radm_free_queue_spec.
Qed.

Lemma rrelease_held new x xs e l c (ptr : option Z) :
  (new = true -> ptr = Some x) -> kinv (elem_objs e ++ rheld_new new (x :: xs) ++ l) c ->
  exists c', (if new then k_release ptr c else Some c) = Some c' /\ kinv (elem_objs e ++ rheld_new new xs ++ l) c' /\
    exists m, c' = c <| k_m := m |>.
Proof.
  intros Hp Hi. destruct new; [|exists c; split_and!; [done..|]; exists (k_m c); by destruct c].
  rewrite Hp by done. destruct (k_release_at _ (elem_objs e ++ xs ++ l) c x Hi) as (m & -> & Hm); [simpl; solve_Permutation|].
  eexists; split_and!; eauto.
Qed.

Lemma radm_free_tagset_spec new err c e t l :
  (new = true -> k_admin_tagset c = Some t) -> rlabel_pre new err c e [t] l ->
  radm_failed new c l (radm_free_tagset new err c).
Proof.
  intros Ht (He & Ha & Hf & Hi). unfold radm_free_tagset.
  destruct (rrelease_held _ _ _ _ _ _ _ Ht Hi) as (c' & -> & Hi' & m & ->). cbn [mbind option_bind].
  apply (radm_failed_from new c (c <| k_m := m |>)); [done..|]. by eapply radm_free_async_spec.
Qed.

Lemma radm_cleanup_fabrics_q_spec new err c e f t l :
  (new = true -> k_fabrics_q c = Some f /\ k_admin_tagset c = Some t) -> rlabel_pre new err c e [f; t] l ->
  radm_failed new c l (radm_cleanup_fabrics_q new err c).
Proof.
  intros Ht (He & Ha & Hf & Hi). unfold radm_cleanup_fabrics_q.
  destruct (rrelease_held new f [t] e l c (k_fabrics_q c)) as (c' & -> & Hi' & m & ->); [naive_solver|done|].
  cbn [mbind option_bind]. apply (radm_failed_from new c (c <| k_m := m |>)); [done..|].
  eapply radm_free_tagset_spec; [naive_solver|done].
Qed.

Lemma radm_cleanup_queue_spec new err c e a f t l :
  (new = true -> kadm_ptrs c = (Some a, Some f, Some t)) -> rlabel_pre new err c e [a; f; t] l ->
  radm_failed new c l (radm_cleanup_queue new err c).
Proof.
  intros Ht (He & Ha & Hf & Hi). unfold radm_cleanup_queue, kadm_ptrs in *.
  destruct (rrelease_held new a [f; t] e l c (k_admin_q c)) as (c' & -> & Hi' & m & ->); [naive_solver|done|].
  cbn [mbind option_bind]. apply (radm_failed_from new c (c <| k_m := m |>)); [done..|].
  eapply radm_cleanup_fabrics_q_spec; [|done]. intros Hn. specialize (Ht Hn). simplify_eq. done.
Qed.

Lemma radm_stop_queue_spec new err c e a f t l :
  (new = true -> kadm_ptrs c = (Some a, Some f, Some t)) -> err <> 0 -> adm_async c e ->
  kinv (elem_objs e ++ rheld_new new [a; f; t] ++ l) c -> radm_failed new c l (radm_stop_queue new err c).
Proof.
  intros Ht He (Ha & Hw & Hd) Hi. unfold radm_stop_queue. destruct (stop_0r _ _ Hi) as (c' & -> & Hs & Hk & Hi' & Hf & Hd').
  destruct (rsame_parts _ _ Hs) as (E1 & E2 & E3 & E4 & E5 & _).
  cbn [mbind option_bind]. apply (radm_failed_from new c c'); try done.
  eapply (radm_cleanup_queue_spec _ _ _ e a f t); [by rewrite E3|]. split_and!; try done; [|by rewrite Hf].
  split_and!; [congruence|done|by apply Hd'].
Qed.

(** ** Set-up *)

(** The result of a set-up of the admin queue: it is up, or it failed. *)
Definition radm_up_or_failed (new : bool) (c : rctrl) (l : list Z) (r : option (Z * rctrl)) : Prop :=
  (exists c' a f t e, r = Some (0, c') /\ kcore c' = kcore c /\ kio_part c' = kio_part c /\
     kadm_ptrs c' = (Some a, Some f, Some t) /\ (new = false -> kadm_ptrs c' = kadm_ptrs c) /\ adm_async c' e /\
     rflag c' 0 = (true, true) /\ io_kept c c' /\ kinv (elem_objs e ++ rheld_new new [a; f; t] ++ l) c') \/
  radm_failed new c l r.

Lemma radm_up_or_failed_from new c0 c l r :
  kcore c = kcore c0 -> kio_part c = kio_part c0 -> (new = false -> kadm_ptrs c = kadm_ptrs c0) -> io_kept c0 c ->
  radm_up_or_failed new c l r -> radm_up_or_failed new c0 l r.
Proof.
  intros E1 E2 E3 E4 [(c' & a & f & t & e & -> & F1 & F2 & F3 & F4 & F5 & F6 & F7 & Hi)|H];
    [left|right; by eapply radm_failed_from].
  exists c', a, f, t, e. split_and!; try done; try congruence.
  - intros Hn. rewrite F4, E3 by done. done.
  - intros j Hj. rewrite F7, E4 by done. done.
Qed.

(** A start keeps the device of the queue. *)
Lemma start_0 l c :
  kinv l c -> rflag c 0 = (true, false) ->
  exists ret c', rdma_start_queue opts 0 c = Some (ret, c') /\ rsame c c' /\ io_kept c c' /\ kinv l c' /\
    rflag c' 0 = (if ret =? 0 then (true, true) else (true, false)) /\ (dev_held c -> dev_held c').
Proof.
  intros Hi Hf. destruct (kinv_0 _ _ Hi) as [Hl _]. apply lookup_lt_is_Some in Hl as [q Hq].
  destruct (kinv_open _ _ _ _ _ _ Hi Hq) as [Hw Hh]. pose proof Hf as Hf'. unfold rflag in Hf'. rewrite Hq in Hf'. injection Hf' as Hqa Hql.
  destruct (rstart_tries opts R l c 0%nat Hi) as (ret & c' & H & Ho & Hi' & Hf'); [by apply (kinv_0 l)|done|].
  exists ret, c'. split_and!; [exact H|apply Ho|by apply only_kept|done|done|].
  intros (q0 & Hq0 & Ha & Hd). rewrite Hq in Hq0. injection Hq0 as <-.
  destruct (start_queue_ok (ctx_of opts 0 c) (ki_io _ _ _ _ Hi) q _ _ _ Hw Hqa Hh) as (ret' & q' & m' & E & _ & Hq' & _).
  pose proof (on_rqueue_put (nvme_rdma_start_queue (ctx_of opts 0 c)) 0 c q ret' q' m' Hq E) as E2.
  change (Z.of_nat 0) with 0 in H, E2. unfold rdma_start_queue in H. rewrite E2 in H. injection H as <- <-.
  exists q'. split_and!.
  - simpl. apply list_lookup_insert_eq. by eapply lookup_lt_Some.
  - by rewrite Hq'.
  - rewrite Hq'. done.
Qed.

Lemma radmin_start_spec new c a f t e l :
  kadm_ptrs c = (Some a, Some f, Some t) -> a ∈ rheld_new new [a; f; t] ++ l -> adm_async c e ->
  rflag c 0 = (true, false) -> kinv (elem_objs e ++ rheld_new new [a; f; t] ++ l) c ->
  radm_up_or_failed new c l (radmin_start opts new c).
Proof.
  intros Ht Hin (Ha & Hw & Hd) Hf Hi. unfold radmin_start.
  destruct (start_0 _ _ Hi Hf) as (ret & c1 & -> & Hs & Hk & Hi1 & Hf1 & Hd1). cbn [mbind option_bind]. specialize (Hd1 Hd).
  destruct (rsame_parts _ _ Hs) as (E1 & E2 & E3 & E4 & _). assert (Ha1 : adm_async c1 e) by (split_and!; congruence).
  apply (radm_up_or_failed_from new c c1); try done. rewrite <- E3 in Ht. clear Hf Hi Hs E1 E2 E3 E4 Hk Hd Ha.
  destruct (Z.eqb_spec ret 0) as [->|Hr]; cbn [negb].
  2:{ right. eapply (radm_cleanup_queue_spec _ _ _ e a f t); [done|]. split_and!; try done. by rewrite Hf1. }
  destruct (k_call_at _ _ Hi1) as (ret & m & -> & Hi2). set (c2 := c1 <| k_m := m |>) in *.
  apply (radm_up_or_failed_from new c1 c2); [done..|].
  destruct (Z.eqb_spec ret 0); cbn [negb]; [|right; by eapply radm_stop_queue_spec]. cbv zeta.
  set (c3 := c2 <| k_limits := _ |>).
  assert (Hi3 : kinv (elem_objs e ++ rheld_new new [a; f; t] ++ l) c3) by (eapply kinv_ext; [exact Hi2|done..|apply Hi2]).
  assert (Hq : k_admin_q c3 = Some a) by (unfold kadm_ptrs in Ht; by injection Ht).
  rewrite Hq, (k_use_at _ _ a Hi3) by set_solver. cbn [mbind option_bind]. unfold rdma_init_identify.
  pose proof (sqsize_nonneg (k_calls c3)) as Hsq. destruct (identified (k_calls c3)) as [[sq ic] mx]. simpl in Hsq.
  set (c4 := c3 <| k_sqsize := sq |> <| k_icdoff := ic |> <| k_maxcmd := mx |> <| k_sgls := sgls_of (k_calls c3) |>).
  assert (Hi4 : kinv (elem_objs e ++ rheld_new new [a; f; t] ++ l) c4) by by eapply kinv_ext.
  destruct (k_call_at _ _ Hi4) as (ret' & m' & -> & Hi5). apply (radm_up_or_failed_from new c2 (c4 <| k_m := m' |>)); [done..|].
  destruct (Z.eqb_spec ret' 0) as [->|Hr]; cbn [negb].
  - left. by eexists _, a, f, t, e.
  - right. by eapply radm_stop_queue_spec.
Qed.

Lemma radmin_queues_spec c e l :
  adm_async c e -> rflag c 0 = (true, false) -> kinv (elem_objs e ++ l) c -> radm_up_or_failed true c l (radmin_queues opts c).
Proof.
  intros Ha Hf Hi. unfold radmin_queues.
  assert (Hneg : forall k, ptr_err k <> 0) by (intros k; pose proof (ptr_err_neg k); lia).
  change (nvme_rdma_alloc_tagset opts true c) with (let '(p, c) := k_new c in (ptr_err (k_calls c), p, c)).
  assert (Hsq : 0 <= k_sqsize c) by apply Hi.
  destruct (k_new_at _ _ Hi) as (w & [[-> Hi2]|(t & -> & Hi2)]).
  { set (c2 := c <| k_m := w |> <| k_admin_tagset := k_ptr None |>). right. apply (radm_failed_from true c c2); [done..|].
    eapply (radm_free_async_spec true _ _ e). split_and!; [done|done|by change (rflag c2) with (rflag c); rewrite Hf|]. by eapply kinv_ext. }
  set (c2 := c <| k_m := w |> <| k_admin_tagset := k_ptr (Some t) |>). apply (radm_up_or_failed_from true c c2); [done..|].
  assert (Hi3 : kinv (t :: elem_objs e ++ l) c2) by by eapply kinv_ext.
  destruct (k_new_at _ _ Hi3) as (w' & [[-> Hi4]|(f & -> & Hi4)]).
  { set (c3 := c2 <| k_m := w' |> <| k_fabrics_q := k_ptr None |>). right. apply (radm_failed_from true c2 c3); [done..|].
    eapply (radm_free_tagset_spec true _ _ e t); [done|]. split_and!; [done|done|by change (rflag c3) with (rflag c); rewrite Hf|].
    eapply kinv_perm; [by eapply kinv_ext|]. simpl. solve_Permutation. }
  set (c3 := c2 <| k_m := w' |> <| k_fabrics_q := k_ptr (Some f) |>). apply (radm_up_or_failed_from true c2 c3); [done..|].
  assert (Hi5 : kinv (f :: t :: elem_objs e ++ l) c3) by by eapply kinv_ext.
  destruct (k_new_at _ _ Hi5) as (w'' & [[-> Hi6]|(a & -> & Hi6)]).
  { set (c4 := c3 <| k_m := w'' |> <| k_admin_q := k_ptr None |>). right. apply (radm_failed_from true c3 c4); [done..|].
    eapply (radm_cleanup_fabrics_q_spec true _ _ e f t); [done|].
    split_and!; [done|done|by change (rflag c4) with (rflag c); rewrite Hf|].
    eapply kinv_perm; [by eapply kinv_ext|]. simpl. solve_Permutation. }
  set (c4 := c3 <| k_m := w'' |> <| k_admin_q := k_ptr (Some a) |>). apply (radm_up_or_failed_from true c3 c4); [done..|].
  eapply (radmin_start_spec true c4 a f t e); [done|set_solver|done|done|].
  eapply kinv_perm; [by eapply kinv_ext|]. simpl. solve_Permutation.
Qed.

Lemma rconfigure_admin_spec new c l :
  kinv l c -> rflag c 0 = (false, false) ->
  (new = false -> exists a f t, kadm_ptrs c = (Some a, Some f, Some t) /\ a ∈ l) ->  k_async c = None ->
  radm_up_or_failed new c l (nvme_rdma_configure_admin_queue opts new c).
Proof.
  intros Hi Hf Hnew Has. unfold nvme_rdma_configure_admin_queue.
  destruct (ralloc_tries opts _ aq_depth_nonneg R l c 0%nat Hi) as (ret & c1 & H & Ho & Hi1 & Hf1); [by apply (kinv_0 l)|done|].
  change (Z.of_nat 0) with 0 in H. rewrite H. cbn [mbind option_bind]. clear H. pose proof Ho as (Hs & _ & _). apply only_kept in Ho.
  destruct (rsame_parts _ _ Hs) as (E1 & E2 & E3 & E4 & _). apply (radm_up_or_failed_from new c c1); [done..|]. rewrite <- E3 in Hnew.
  rewrite Has in E4. clear Hi Hf Hs E1 E2 E3 Ho Has. assert (Hsq : 0 <= k_sqsize c1) by apply Hi1.
  destruct (Z.eqb_spec ret 0) as [->|Hr]; cbn [negb].
  2:{ right. exists ret, c1. split_and!; done. }
  destruct (k_queues c1 !! 0%nat) as [q|] eqn:Hq; [|unfold rflag in Hf1; by rewrite Hq in Hf1].
  pose proof (aget_of_nat (k_queues c1) 0) as Hg. change (Z.of_nat 0) with 0 in Hg. rewrite Hg, Hq. cbn [mbind option_bind].
  cbv zeta. set (c2 := c1 <| k_device := rq_device q |>).
  assert (Hi2 : kinv l c2) by by eapply kinv_ext.
  assert (Hd2 : dev_held c2). { exists q. split_and!; [done| |done]. unfold rflag in Hf1. rewrite Hq in Hf1. by injection Hf1. }
  destruct (held_guid _ _ Hi2 Hd2) as [g Hguid]. rewrite Hguid. cbn [mbind option_bind].
  set (c3 := c2 <| k_numa_node := _ |> <| k_max_fr_pages := _ |>).
  destruct (alloc_qe_ok (k_m c3) _ _ (ki_heap _ _ _ _ Hi2)) as (o & m & -> & Ho). cbn [mbind option_bind].
  destruct o as [e|].
  - destruct Ho as [Hw Hm]. set (c4 := c3 <| k_async := Some e |> <| k_m := m |>).
    assert (Hi4 : kinv (elem_objs e ++ l) c4).
    { eapply (kinv_ext _ (c2 <| k_m := m |>)); [|done..]. eapply kinv_heap_only; [done|]. eapply rheld_perm; [exact Hm|]. solve_Permutation. }
    apply (radm_up_or_failed_from new c1 c4); [done..|]. destruct new.
    + by apply (radmin_queues_spec c4 e).
    + destruct (Hnew eq_refl) as (a & f & t & Ht & Hin). by apply (radmin_start_spec false c4 a f t e).
  - right. set (c4 := c3 <| k_async := None |> <| k_m := m |>). apply (radm_failed_from new c1 c4); [done..|].
    apply radm_free_queue_spec; [done|done|by change (rflag c4) with (rflag c1); rewrite Hf1|].
    eapply (kinv_ext _ (c2 <| k_m := m |>)); [|done..]. by eapply kinv_heap_only.
Qed.

(** ** Tear-down *)

(** The command of asynchronous events, if there is one. *)
Definition async_objs (c : rctrl) : list Z := match k_async c with Some e => elem_objs e | None => [] end.
Definition async_ok (c : rctrl) : Prop := match k_async c with Some e => wf_elem e /\ dev_held c | None => True end.

Lemma rdestroy_admin_spec (remove : bool) c l l' :
  kinv l c -> async_ok c -> (rflag c 0).2 = false ->
  l ≡ₚ async_objs c ++ (if remove then omap id [k_admin_q c; k_fabrics_q c; k_admin_tagset c] else []) ++ l' ->
  (remove = true -> exists a f t, kadm_ptrs c = (Some a, Some f, Some t)) ->
  exists c', nvme_rdma_destroy_admin_queue remove c = Some c' /\ kinv l' c' /\ kcore c' = kcore c /\ kio_part c' = kio_part c /\
    kadm_ptrs c' = kadm_ptrs c /\ kcaps c' = kcaps c /\ k_async c' = None /\ rflag c' 0 = (false, false) /\ io_kept c c'.
Proof.
  intros Hi Hok Hf Hp Hr. unfold nvme_rdma_destroy_admin_queue.
  assert (H : exists m, (if remove
    then c ← k_release (k_admin_q c) c; c ← k_release (k_fabrics_q c) c; k_release (k_admin_tagset c) c
    else Some c) = Some (c <| k_m := m |>) /\ kinv (async_objs c ++ l') (c <| k_m := m |>)).
  { destruct remove; [|exists (k_m c); split; [by destruct c|]; eapply kinv_perm; [eapply kinv_ext; [exact Hi|done..|apply Hi]|exact Hp]].
    destruct (Hr eq_refl) as (a & f & t & Ht). unfold kadm_ptrs in Ht. injection Ht as Ea Ef Et. rewrite Ea, Ef, Et in *. simpl in Hp.
    destruct (k_release_at l (f :: t :: async_objs c ++ l') c a Hi) as (w1 & -> & Hw1).
    { rewrite Hp. solve_Permutation. }
    cbn [mbind option_bind]. change (k_fabrics_q (c <| k_m := w1 |>)) with (k_fabrics_q c). rewrite Ef.
    destruct (k_release_at _ _ _ f Hw1 (Permutation_refl _)) as (w2 & -> & Hw2).
    cbn [mbind option_bind]. change (k_admin_tagset (c <| k_m := w1 |> <| k_m := w2 |>)) with (k_admin_tagset c). rewrite Et.
    destruct (k_release_at _ _ _ t Hw2 (Permutation_refl _)) as (w3 & -> & Hw3). by exists w3. }
  destruct H as (m & -> & Hi2). cbn [mbind option_bind].
  assert (H : exists c1, free_async (c <| k_m := m |>) = Some c1 /\ kinv l' c1 /\ k_queues c1 = k_queues c /\ kcore c1 = kcore c
    /\ kio_part c1 = kio_part c /\ kadm_ptrs c1 = kadm_ptrs c /\ kcaps c1 = kcaps c /\ k_async c1 = None).
  { unfold async_ok, async_objs in *. destruct (k_async c) as [e|] eqn:Ea.
    - destruct (free_async_ok l' e (c <| k_m := m |>) Hi2) as (m' & -> & Hm'); [by destruct Hok|]. eexists. split_and!; [done|exact Hm'|done..].
    - exists (c <| k_m := m |>). split_and!; try done. unfold free_async. simpl. by rewrite Ea. }
  destruct H as (c1 & -> & Hi3 & Eq & E1 & E2 & E3 & E4 & E5). cbn [mbind option_bind].
  destruct (free_0 l' c1 Hi3) as (c2 & -> & Hs & Hk & Hi4 & Hf4); [unfold rflag; by rewrite Eq|].
  destruct (rsame_parts _ _ Hs) as (F1 & F2 & F3 & F4 & _ & F5). exists c2. split_and!; try done; try congruence.
  intros j Hj. rewrite Hk, Eq by done. done.
Qed.

Lemma rteardown_admin_spec (remove : bool) c l l' a f t :
  kinv l c -> async_ok c -> kadm_ptrs c = (Some a, Some f, Some t) -> a ∈ l -> t ∈ l ->
  l ≡ₚ async_objs c ++ (if remove then [a; f; t] else []) ++ l' ->
  exists c', nvme_rdma_teardown_admin_queue remove c = Some c' /\ kinv l' c' /\ kcore c' = kcore c /\ kio_part c' = kio_part c /\
    kadm_ptrs c' = kadm_ptrs c /\ k_async c' = None /\ rflag c' 0 = (false, false) /\ io_kept c c'.
Proof.
  intros Hi Hok Ht Ha Htin Hp. unfold nvme_rdma_teardown_admin_queue. pose proof Ht as Ht'. unfold kadm_ptrs in Ht'. injection Ht' as Ea Ef Et.
  rewrite Ea, (k_use_at _ _ _ Hi Ha). cbn [mbind option_bind].
  destruct (stop_0r _ _ Hi) as (c1 & -> & Hs & Hk & Hi1 & Hf & Hd). cbn [mbind option_bind].
  destruct (rsame_parts _ _ Hs) as (E1 & E2 & E3 & E4 & E5 & E6). pose proof E3 as E3'. unfold kadm_ptrs in E3'. injection E3' as G1 G2 G3.
  unfold rcancel_requests. rewrite G3, Et, (k_use_at _ _ _ Hi1 Htin). cbn [mbind option_bind].
  assert (H : (if remove then k_use (k_admin_q c1) c1 else Some c1) = Some c1).
  { destruct remove; [|done]. by rewrite G1, Ea, (k_use_at _ _ _ Hi1 Ha). }
  rewrite H. cbn [mbind option_bind].
  destruct (rdestroy_admin_spec remove c1 l l' Hi1) as (c2 & H2 & Hi2 & F1 & F2 & F3 & F4 & F5 & F6 & F7).
  { unfold async_ok in *. rewrite E4. destruct (k_async c); [|done]. destruct Hok. by split; [|apply Hd]. }
  { by rewrite Hf. }
  { unfold async_objs in *. by rewrite G1, G2, G3, Ea, Ef, Et, E4. }
  { intros _. exists a, f, t. by rewrite E3. }
  exists c2. split_and!; [done|done|by rewrite F1|by rewrite F2|by rewrite F3|done..|]. intros j Hj1. rewrite F7, Hk by done. done.
Qed.
End admin.
