(* ===== verification/NvmeRdmaCtrlSetup.v ===== *)
(** * Set-up of an RDMA controller and its works

    The I/O queues are set up completely or not at all; [nvme_rdma_setup_ctrl] leaves a
    controller whose queues are all live, or one whose queues are all down and which owns
    what it owned before.  Error recovery, reset, reconnect and time-out keep what the
    controller owns. *)
From S2P Require Import Prelude MqTypes BlkMqTagSet NvmeTcpMap NvmeTcpConn NvmeTcpConnSpec NvmeRdmaConn NvmeRdmaConnSpec.
From S2P Require Import NvmeRdmaCtrl NvmeRdmaCtrlInv NvmeRdmaCtrlAdmin.

(** The objects the controller points to, its queues apart. *)
Definition rio_objs (c : rctrl) : list Z := omap id [k_connect_q c; k_tagset c].
Definition rctrl_objs (c : rctrl) : list Z :=
  omap id [k_admin_q c; k_fabrics_q c; k_admin_tagset c] ++ rio_objs c ++ async_objs c.

(** No queue is allocated or live; all are. *)
Definition rall_down (c : rctrl) : Prop := (forall j, rflag c j = (false, false)) /\ k_async c = None.
Definition rall_up (c : rctrl) : Prop := forall j, Z.of_nat j < k_queue_count c -> rflag c j = (true, true).

(** What the set-up of the I/O queues leaves alone. *)
Definition kadm_part (c : rctrl) := (kcore c, kadm_ptrs c, k_async c, k_device c, kcaps c, k_queues c !! 0%nat).
Definition kio_ptrs (c : rctrl) := (k_connect_q c, k_tagset c).

Lemma kadm_part_inv c c' :
  kadm_part c' = kadm_part c ->
  kcore c' = kcore c /\ kadm_ptrs c' = kadm_ptrs c /\ k_async c' = k_async c /\ kcaps c' = kcaps c
  /\ rflag c' 0 = rflag c 0%nat /\ (dev_held c -> dev_held c').
Proof.
  intros H.
  pose proof (f_equal snd H) as Hq. pose proof (f_equal (fun x => x.1.1.2) H) as Hd. simpl in Hq, Hd.
  split_and!; [exact (f_equal (fun x => x.1.1.1.1.1) H)|exact (f_equal (fun x => x.1.1.1.1.2) H)|
    exact (f_equal (fun x => x.1.1.1.2) H)|exact (f_equal (fun x => x.1.2) H)|unfold rflag; by rewrite Hq|].
  intros (q & Hq' & Ha & Hd'). exists q. split_and!; congruence.
Qed.

Lemma io_only_parts c c' : io_only c c' -> kadm_part c' = kadm_part c /\ kio_part c' = kio_part c.
Proof. intros (-> & _ & H). unfold kadm_part. simpl in *. by rewrite H. Qed.

Lemma kio_part_ptrs c c' : kio_part c' = kio_part c -> kio_ptrs c' = kio_ptrs c /\ k_queue_count c' = k_queue_count c.
Proof. unfold kio_part, kio_ptrs. intros H. injection H as H1 H2 H3. by rewrite H1, H2, H3. Qed.

Lemma kcore_inv c c' : kcore c' = kcore c -> kworks c' = kworks c /\ k_state c' = k_state c.
Proof. intros H. split; [exact (f_equal snd H)|exact (f_equal fst H)]. Qed.

(** The counts of queues fit in an int. *)
Definition rcounts_ok (o : nvmf_opts) : Prop :=
  0 <= o_nr_io_queues o /\ 0 <= o_nr_write_queues o /\ 0 <= o_nr_poll_queues o /\ asked o + 1 < 2 ^ 31.

Lemma rset_io_total opts nrs nr io :
  length io = 3%nat -> exists io', rdma_set_io_queues opts nrs nr io = Some io' /\ length io' = 3%nat.
Proof.
  intros Hl. destruct io as [|d [|r [|p [|]]]]; try done. destruct nrs as [[read dflt] poll]. unfold rdma_set_io_queues.
  repeat case_match; simplify_option_eq; repeat case_match; simplify_eq/=; by eexists.
Qed.

(** While a set-up runs, the state change to live succeeds unless deletion started. *)
Class RdmaStateLaws (ce : CtrlEnv) := {
  new_connecting : change_ok NVME_CTRL_NEW NVME_CTRL_CONNECTING = true;
  connecting_live : change_ok NVME_CTRL_CONNECTING NVME_CTRL_LIVE = true;
}.

Section setup.
Context {ce : CtrlEnv} {cl : CtrlLaws ce} {cm : RdmaCm} {cml : RdmaCmLaws cm} {rc : RdmaCore} {rcl : RdmaCoreLaws ce rc}.
Context (opts : rdma_opts) (R : list Z) (Hcounts : rcounts_ok (ro_queues opts)).
Notation kinv := (kinv opts R).

Lemma nr_queues_le v :
  let '(read, dflt, poll) := rdma_nr_queues opts v in 0 <= u32 (u32 (read + dflt) + poll) <= asked (ro_queues opts).
Proof.
  destruct Hcounts as (H1 & H2 & H3 & H4). pose proof online_pos. pose proof (u32_range v). unfold rdma_nr_queues, asked in *.
  set (a := Z.min (u32 v) (Z.min (o_nr_io_queues _) _)). set (b := Z.min (u32 v) (Z.min (o_nr_write_queues _) _)).
  rewrite (u32_small (a + b)) by lia. rewrite u32_small by lia. lia.
Qed.

Lemma rset_count_inv l c nr io :
  kinv l c -> rio_down c -> 0 <= nr <= asked (ro_queues opts) -> length io = 3%nat ->
  kinv l (c <| k_queue_count := u32 (nr + 1) |> <| k_io_queues := io |>).
Proof.
  intros [H1 H2 H3 H4 H5 H6 H7] Hd Hnr Hio. assert (E : u32 (nr + 1) = nr + 1) by (apply u32_small; lia).
  split; simpl; try done; rewrite ?E; [lia|]. intros i Hi. apply Hd. lia.
Qed.

(** The result of a step of the set-up of the I/O queues that failed. *)
Definition rio_failed (new : bool) (c : rctrl) (l : list Z) (r : option (Z * rctrl)) : Prop :=
  exists err c', r = Some (err, c') /\ err <> 0 /\ kadm_part c' = kadm_part c /\
    (new = false -> kio_ptrs c' = kio_ptrs c) /\ rio_down c' /\ kinv l c'.

Lemma rio_failed_from new c0 c l r :
  kadm_part c = kadm_part c0 -> (new = false -> kio_ptrs c = kio_ptrs c0) -> rio_failed new c l r -> rio_failed new c0 l r.
Proof.
  intros E1 E2 (err & c' & -> & He & F1 & F2 & F3 & Hi).
  exists err, c'. split_and!; try done; try congruence. intros Hn. rewrite F2, E2 by done. done.
Qed.

Lemma ralloc_io_queues_spec l c :
  kinv l c -> dev_held c -> rio_down c ->
  (exists c', nvme_rdma_alloc_io_queues opts c = Some (0, c') /\ kadm_part c' = kadm_part c /\ kio_ptrs c' = kio_ptrs c /\
     rio_flags c' (true, false) /\ kinv l c') \/
  rio_failed false c l (nvme_rdma_alloc_io_queues opts c).
Proof.
  intros Hi Hdev Hd. unfold nvme_rdma_alloc_io_queues. destruct (held_guid _ _ _ _ Hi Hdev) as [g ->]. cbn [mbind option_bind].
  pose proof (nr_queues_le (comp_vectors g)) as Hle. destruct (rdma_nr_queues opts (comp_vectors g)) as [[read dflt] poll].
  set (nr0 := u32 (u32 (read + dflt) + poll)) in *.
  pose proof (granted_le (k_calls c) nr0 ltac:(lia)) as Hnr. set (nr := granted (k_calls c) nr0) in *.
  destruct (k_call_at opts _ _ _ Hi) as (ret & m & -> & Hi1). set (c1 := c <| k_m := m |>) in *.
  destruct (Z.eqb_spec ret 0); cbn [negb]; [|right; by exists ret, c1].
  assert (Hio3 : length (k_io_queues c) = 3%nat) by apply Hi.
  assert (Hi2 : forall io, length io = 3%nat -> kinv l (c1 <| k_queue_count := u32 (nr + 1) |> <| k_io_queues := io |>)).
  { intros io Hio. apply rset_count_inv; [done|done|lia|done]. }
  cbv zeta. set (c2 := c1 <| k_queue_count := u32 (nr + 1) |>) in *. destruct (Z.ltb_spec (k_queue_count c2) 2).
  { left. exists c2. split_and!; try done; [intros j Hj Hlt; lia|]. eapply kinv_ext; [exact (Hi2 _ Hio3)|done..|apply Hi]. }
  destruct (rset_io_total opts (read, dflt, poll) nr (k_io_queues c2) Hio3) as (io & -> & Hl). cbn [mbind option_bind].
  destruct (ralloc_io_spec opts R l (c2 <| k_io_queues := io |>) (Hi2 io Hl) Hd) as (ret' & c3 & -> & Ho & Hi3 & Hr).
  destruct (io_only_parts _ _ Ho) as (E1 & E2). apply kio_part_ptrs in E2 as [E2 _].
  destruct Hr as [(-> & Hf)|(Hr & Hf)]; [left|right].
  - exists c3. by split_and!.
  - exists ret', c3. by split_and!.
Qed.

(** ** The error labels *)

Lemma rio_free_io_queues_spec new err c l :
  err <> 0 -> (forall j, (1 <= j)%nat -> (rflag c j).2 = false) -> kinv l c -> rio_failed new c l (rio_free_io_queues err c).
Proof.
  intros He Hf Hi. unfold rio_free_io_queues. destruct (rfree_io_spec opts R _ c Hi Hf) as (c' & -> & Ho & Hi' & Hd).
  destruct (io_only_parts _ _ Ho) as (E1 & E2). apply kio_part_ptrs in E2 as [E2 _]. exists err, c'. by split_and!.
Qed.

Lemma rio_release_held new x xs l c (ptr : option Z) :
  (new = true -> ptr = Some x) -> kinv (rheld_new new (x :: xs) ++ l) c ->
  exists m, (if new then k_release ptr c else Some c) = Some (c <| k_m := m |>) /\ kinv (rheld_new new xs ++ l) (c <| k_m := m |>).
Proof.
  intros Hp Hi. destruct new; [|exists (k_m c); split; [by destruct c|eapply kinv_ext; [done..|apply Hi]]].
  rewrite Hp by done. exact (k_release_at opts R _ _ c x Hi (Permutation_refl _)).
Qed.

Lemma rio_free_tag_set_spec new err c t l :
  (new = true -> k_tagset c = Some t) -> err <> 0 -> (forall j, (1 <= j)%nat -> (rflag c j).2 = false) ->
  kinv (rheld_new new [t] ++ l) c -> rio_failed new c l (rio_free_tag_set new err c).
Proof.
  intros Ht He Hf Hi. unfold rio_free_tag_set. destruct (rio_release_held _ _ _ _ _ _ Ht Hi) as (m & -> & Hi').
  cbn [mbind option_bind]. apply (rio_failed_from new c (c <| k_m := m |>)); [done..|].
  apply rio_free_io_queues_spec; try done. by destruct new.
Qed.

(** ** Set-up of the I/O queues *)

Definition rio_up_or_failed (new : bool) (c : rctrl) (l : list Z) (r : option (Z * rctrl)) : Prop :=
  (exists c' q t, r = Some (0, c') /\ kadm_part c' = kadm_part c /\ (new = false -> kio_ptrs c' = kio_ptrs c) /\
     (new = true -> kio_ptrs c' = (Some q, Some t) /\ 1 < k_queue_count c') /\
     rio_flags c' (true, true) /\ kinv (rheld_new new [q; t] ++ l) c') \/
  rio_failed new c l r.

Lemma rio_up_or_failed_from new c0 c l r :
  kadm_part c = kadm_part c0 -> (new = false -> kio_ptrs c = kio_ptrs c0) ->
  rio_up_or_failed new c l r -> rio_up_or_failed new c0 l r.
Proof.
  intros E1 E2 [(c' & q & t & -> & F1 & F2 & F3 & F4 & Hi)|H]; [left|right; by eapply rio_failed_from].
  exists c', q, t. split_and!; try done; try congruence. intros Hn. rewrite F2, E2 by done. done.
Qed.

Lemma not_live l c b : kinv l c -> rio_flags c (b, false) -> forall j, (1 <= j)%nat -> (rflag c j).2 = false.
Proof.
  intros Hi Hf j Hj. destruct (Z.lt_ge_cases (Z.of_nat j) (k_queue_count c)); [by rewrite Hf|]. by rewrite (ki_down _ _ _ _ Hi).
Qed.

Lemma rio_start_spec new c q t l :
  (new = true -> kio_ptrs c = (Some q, Some t) /\ 1 < k_queue_count c) -> rio_flags c (true, false) ->
  kinv (rheld_new new [q; t] ++ l) c -> rio_up_or_failed new c l (rio_start opts new c).
Proof.
  intros Hp Hf Hi. unfold rio_start. destruct (rstart_io_spec opts R _ c Hi Hf) as (ret & c1 & -> & Ho & Hi1 & Hf1).
  cbn [mbind option_bind]. destruct (io_only_parts _ _ Ho) as (E1 & E2). apply kio_part_ptrs in E2 as [E2 Ec].
  destruct (Z.eqb_spec ret 0) as [->|Hr]; cbn [negb].
  - left. exists c1, q, t. rewrite E2, Ec. by split_and!.
  - right. apply (rio_failed_from new c c1); [done..|]. rewrite <- E2 in Hp. unfold kio_ptrs in Hp.
    pose proof (not_live _ _ _ Hi1 Hf1) as Hlive.
    destruct (rio_release_held new q [t] l c1 (k_connect_q c1)) as (m & -> & Hi2).
    { intros Hn. destruct (Hp Hn) as [Hp' _]. by simplify_eq. }
    { done. }
    cbn [mbind option_bind]. apply (rio_failed_from new c1 (c1 <| k_m := m |>)); [done..|].
    eapply (rio_free_tag_set_spec _ _ _ t); try done. intros Hn. destruct (Hp Hn) as [Hp' _].
    change (k_tagset c1 = Some t). by simplify_eq.
Qed.

Lemma rconfigure_io_spec new c l :
  kinv l c -> dev_held c -> rio_down c -> (new = false -> exists t, k_tagset c = Some t /\ t ∈ l) ->
  rio_up_or_failed new c l (nvme_rdma_configure_io_queues opts new c).
Proof.
  intros Hi Hdev Hd Hnew. unfold nvme_rdma_configure_io_queues.
  destruct (ralloc_io_queues_spec l c Hi Hdev Hd) as [(c1 & -> & E1 & E2 & Hf & Hi1)|(err & c' & -> & He & F1 & F2 & F3 & Hi')];
    cbn [mbind option_bind].
  2:{ rewrite (proj2 (Z.eqb_neq err 0) He). right. exists err, c'. split_and!; try done. intros _. by apply F2. }
  cbn [negb Z.eqb]. apply (rio_up_or_failed_from new c c1); [done..|]. pose proof (not_live _ _ _ Hi1 Hf) as Hnl.
  assert (Hneg : forall k, ptr_err k <> 0) by (intros k; pose proof (ptr_err_neg k); lia).
  assert (Hsq : 0 <= k_sqsize c1) by apply Hi1. destruct new.
  2:{ destruct (Hnew eq_refl) as (t & Ht & Hin). assert (Ht1 : k_tagset c1 = Some t) by (unfold kio_ptrs in E2; congruence).
      rewrite Ht1, (k_use_at _ _ _ _ _ Hi1 Hin). cbn [mbind option_bind]. by apply (rio_start_spec false c1 0 0 l). }
  unfold nvme_rdma_alloc_tagset. pose proof (ki_count _ _ _ _ Hi1) as Hcnt. pose proof (ki_fits _ _ _ _ Hi1) as Hfit. cbn [rdma_tag_set set_nr_hw_queues].
  rewrite (u32_small (k_queue_count c1 - 1)) by lia. destruct (Z.eqb_spec (k_queue_count c1 - 1) 0).
  { right. apply (rio_failed_from true c1 (c1 <| k_tagset := k_ptr None |>)); [done..|].
    apply rio_free_io_queues_spec; [done|done|by eapply kinv_ext]. }
  destruct (k_new_at opts _ _ _ Hi1) as (w & [[-> Hi2]|(t & -> & Hi2)]).
  { right. apply (rio_failed_from true c1 (c1 <| k_m := w |> <| k_tagset := k_ptr None |>)); [done..|].
    apply rio_free_io_queues_spec; [done|done|by eapply kinv_ext]. }
  set (c2 := c1 <| k_m := w |> <| k_tagset := k_ptr (Some t) |>). apply (rio_up_or_failed_from true c1 c2); [done..|].
  assert (Hi3 : kinv (t :: l) c2) by by eapply kinv_ext.
  destruct (k_new_at opts _ _ _ Hi3) as (w' & [[-> Hi4]|(q & -> & Hi4)]).
  { right. apply (rio_failed_from true c2 (c2 <| k_m := w' |> <| k_connect_q := k_ptr None |>)); [done..|].
    apply (rio_free_tag_set_spec true _ _ t); [done|done|done|by eapply kinv_ext]. }
  set (c3 := c2 <| k_m := w' |> <| k_connect_q := k_ptr (Some q) |>). apply (rio_up_or_failed_from true c2 c3); [done..|].
  apply (rio_start_spec true c3 q t l); [|done|by eapply kinv_ext]. intros _. split; [done|]. change (1 < k_queue_count c1). lia.
Qed.

(** ** Tear-down of the I/O queues *)

Lemma rdestroy_io_queues_spec (remove : bool) c l l' :
  kinv l c -> (forall j, (1 <= j)%nat -> (rflag c j).2 = false) ->
  l ≡ₚ (if remove then rio_objs c else []) ++ l' -> (remove = true -> exists q t, kio_ptrs c = (Some q, Some t)) ->
  exists c', nvme_rdma_destroy_io_queues remove c = Some c' /\ kadm_part c' = kadm_part c /\ kio_part c' = kio_part c /\
    rio_down c' /\ kinv l' c'.
Proof.
  intros Hi Hf Hp Hr. unfold nvme_rdma_destroy_io_queues.
  assert (H : exists m, (if remove then c ← k_release (k_connect_q c) c; k_release (k_tagset c) c else Some c)
    = Some (c <| k_m := m |>) /\ kinv l' (c <| k_m := m |>)).
  { destruct remove; [|exists (k_m c); split; [by destruct c|]; eapply kinv_perm; [eapply kinv_ext; [exact Hi|done..|apply Hi]|exact Hp]].
    destruct (Hr eq_refl) as (q & t & Ht). unfold kio_ptrs, rio_objs in *. injection Ht as Eq Et. rewrite Eq, Et in *. simpl in Hp.
    destruct (k_release_at _ _ _ _ _ _ Hi Hp) as (w1 & -> & Hw1).
    cbn [mbind option_bind]. change (k_tagset (c <| k_m := w1 |>)) with (k_tagset c). rewrite Et.
    destruct (k_release_at _ _ _ _ _ _ Hw1 (Permutation_refl _)) as (w2 & -> & Hw2). by exists w2. }
  destruct H as (m & -> & Hi2). cbn [mbind option_bind].
  destruct (rfree_io_spec opts R l' (c <| k_m := m |>) Hi2 Hf) as (c2 & -> & Ho & Hi3 & Fd).
  destruct (io_only_parts _ _ Ho) as (G1 & G2). exists c2. by split_and!.
Qed.

Lemma rteardown_io_spec (remove : bool) c l l' :
  kinv l c -> (1 < k_queue_count c -> exists q t, kio_ptrs c = (Some q, Some t) /\ t ∈ l) ->
  l ≡ₚ (if remove && (1 <? k_queue_count c) then rio_objs c else []) ++ l' ->
  exists c', nvme_rdma_teardown_io_queues remove c = Some c' /\ kadm_part c' = kadm_part c /\ kio_part c' = kio_part c /\
    rio_down c' /\ kinv l' c'.
Proof.
  intros Hi Hq Hp. unfold nvme_rdma_teardown_io_queues. destruct (Z.leb_spec (k_queue_count c) 1).
  { rewrite (proj2 (Z.ltb_ge 1 (k_queue_count c))), andb_false_r in Hp by lia.
    exists c. split_and!; [done..| |by eapply kinv_perm]. intros j Hj. apply (ki_down _ _ _ _ Hi). lia. }
  rewrite (proj2 (Z.ltb_lt 1 (k_queue_count c))), andb_true_r in Hp by lia. destruct Hq as (q & t & Ht & Hin); [done|].
  destruct (rstop_io_spec opts R l c Hi) as (c1 & -> & Ho & Hi1 & Hj).
  cbn [mbind option_bind]. destruct (io_only_parts _ _ Ho) as (E1 & E2). pose proof E2 as E2'. apply kio_part_ptrs in E2' as [E3 _].
  pose proof E3 as E3'. unfold kio_ptrs in E3', Ht. injection E3' as Eq Et. injection Ht as Fq Ft.
  unfold rcancel_requests. rewrite Et, Ft, (k_use_at _ _ _ _ _ Hi1 Hin). cbn [mbind option_bind].
  destruct (rdestroy_io_queues_spec remove c1 l l' Hi1) as (c2 & -> & G1 & G2 & G3 & G4).
  { intros j Hj1. by rewrite Hj. }
  { unfold rio_objs in *. by rewrite Eq, Et. }
  { intros _. exists q, t. unfold kio_ptrs. congruence. }
  exists c2. split_and!; [done|exact (eq_trans G1 E1)|exact (eq_trans G2 E2)|done..].
Qed.

(** ** Set-up of the controller *)

(** The pointers of a controller that was created. *)
Definition rptrs_ok (c : rctrl) : Prop :=
  (exists a f t, kadm_ptrs c = (Some a, Some f, Some t)) /\
  (1 < k_queue_count c -> exists q t, kio_ptrs c = (Some q, Some t)).

Lemma rctrl_objs_eq c a f t :
  kadm_ptrs c = (Some a, Some f, Some t) -> rctrl_objs c = [a; f; t] ++ rio_objs c ++ async_objs c.
Proof. unfold kadm_ptrs. intros H. injection H as E1 E2 E3. unfold rctrl_objs. by rewrite E1, E2, E3. Qed.

Lemma rio_objs_kept c c' : kio_ptrs c' = kio_ptrs c -> rio_objs c' = rio_objs c.
Proof. unfold kio_ptrs, rio_objs. intros H. injection H as E1 E2. by rewrite E1, E2. Qed.

(** The objects of an existing controller do not change while it is down. *)
Lemma robjs_kept c c' a f t :
  kadm_ptrs c = (Some a, Some f, Some t) -> kadm_ptrs c' = kadm_ptrs c -> kio_ptrs c' = kio_ptrs c -> k_async c' = k_async c ->
  rctrl_objs c' = rctrl_objs c.
Proof.
  intros H1 H2 H3 H4. rewrite (rctrl_objs_eq c a f t H1), (rctrl_objs_eq c' a f t) by congruence. unfold async_objs. rewrite H4.
  by rewrite (rio_objs_kept _ _ H3).
Qed.

(** The label [destroy_admin]. *)
Lemma rsetup_destroy_admin new ret c a f t e l :
  kadm_ptrs c = (Some a, Some f, Some t) -> adm_async c e -> rio_down c ->
  kinv (elem_objs e ++ rheld_new new [a; f; t] ++ l) c ->
  exists c', rdestroy_admin new ret c = Some (ret, c') /\ kcore c' = kcore c /\ kio_part c' = kio_part c /\
    kadm_ptrs c' = kadm_ptrs c /\ kcaps c' = kcaps c /\ rall_down c' /\ kinv l c'.
Proof.
  intros Ht (Ha & Hw & Hdev) Hd Hi. unfold rdestroy_admin. destruct (stop_0r opts R _ _ Hi) as (c1 & -> & Hs & Hk & Hi1 & Hf & Hd1).
  cbn [mbind option_bind]. destruct (rsame_parts _ _ Hs) as (E1 & E2 & E3 & E4 & E5 & E6). pose proof E3 as Ht'.
  rewrite Ht in Ht'. unfold kadm_ptrs in Ht'. injection Ht' as G1 G2 G3.
  destruct (rdestroy_admin_spec opts R new c1 _ l Hi1) as (c2 & -> & Hi2 & F1 & F2 & F3 & F4 & F5 & F6 & F7).
  { unfold async_ok. rewrite E4, Ha. by split; [|apply Hd1]. }
  { by rewrite Hf. }
  { unfold async_objs. rewrite E4, Ha, G1, G2, G3. by destruct new. }
  { intros _. exists a, f, t. congruence. }
  cbn [mbind option_bind]. exists c2. split_and!; try done; try congruence. split; [|done].
  intros [|j]; [done|]. rewrite (io_kept_flag _ _ _ F7), (io_kept_flag _ _ _ Hk) by lia. apply Hd. lia.
Qed.

(** The I/O queues within [nvme_rdma_setup_ctrl]. *)
Lemma rio_stage new c l :
  kinv l c -> dev_held c -> rio_down c -> (new = true -> kio_ptrs c = (None, None)) ->
  (new = false -> 1 < k_queue_count c -> exists q t, kio_ptrs c = (Some q, Some t) /\ t ∈ l) ->
  let r := if 1 <? k_queue_count c then nvme_rdma_configure_io_queues opts new c else Some (0, c) in
  (exists c', r = Some (0, c') /\ kadm_part c' = kadm_part c /\ rio_flags c' (true, true) /\
     (new = false -> kio_ptrs c' = kio_ptrs c) /\ (1 < k_queue_count c' -> exists q t, kio_ptrs c' = (Some q, Some t)) /\
     kinv ((if new then rio_objs c' else []) ++ l) c') \/
  rio_failed new c l r.
Proof.
  intros Hi Hdev Hd Hnew Hold r. subst r. destruct (Z.ltb_spec 1 (k_queue_count c)) as [Hc|Hc].
  2:{ left. exists c. split_and!; try done.
      - intros j Hj Hlt. lia.
      - lia.
      - destruct new; [|done]. specialize (Hnew eq_refl). unfold kio_ptrs in Hnew. injection Hnew as E1 E2.
        unfold rio_objs. by rewrite E1, E2. }
  destruct (rconfigure_io_spec new c l Hi Hdev Hd) as [(c' & q & t & H & F1 & F2 & F3 & F4 & Hi')|H].
  { intros Hn. destruct (Hold Hn Hc) as (q & t & E & Hin). exists t. unfold kio_ptrs in E. by simplify_eq. }
  - left. exists c'. split_and!; try done.
    + intros _. destruct new; [exists q, t; by apply F3|]. destruct (Hold eq_refl Hc) as (q' & t' & E & _).
      exists q', t'. by rewrite F2.
    + destruct new; [|done]. destruct (F3 eq_refl) as [E _]. unfold kio_ptrs in E. injection E as E1 E2. unfold rio_objs.
      by rewrite E1, E2.
  - by right.
Qed.

(** The two results of [nvme_rdma_setup_ctrl]. *)
Definition rsetup_up (base : list Z) (ret : Z) (c' : rctrl) : Prop :=
  ret = 0 /\ caps_ok c' = true /\ k_state c' = NVME_CTRL_LIVE /\ rall_up c' /\ rptrs_ok c' /\ async_ok c' /\ kinv (rctrl_objs c' ++ base) c'.
Definition rsetup_down (new : bool) (base : list Z) (c : rctrl) (ret : Z) (c' : rctrl) : Prop :=
  (ret = 0 -> caps_ok c' = false /\ kio_part c' = kio_part c) /\ k_state c' = k_state c /\ rall_down c' /\ (new = false -> rptrs_ok c') /\
  kinv ((if new then [] else rctrl_objs c') ++ base) c'.

(** What a set-up that failed gives back to the caller. *)
Lemma rsetup_back (new : bool) c c' base :
  (new = false -> rptrs_ok c) -> k_async c = None -> kio_ptrs c' = kio_ptrs c \/ new = true ->
  (new = false -> kadm_ptrs c' = kadm_ptrs c) ->
  (new = false -> 1 < k_queue_count c' -> exists q t, kio_ptrs c' = (Some q, Some t)) -> k_async c' = None ->
  kinv ((if new then [] else rctrl_objs c) ++ base) c' ->
  (new = false -> rptrs_ok c') /\ kinv ((if new then [] else rctrl_objs c') ++ base) c'.
Proof.
  intros Hok Ha E1 E2 Hc Ha' Hi. destruct new; [done|]. destruct (Hok eq_refl) as [(a & f & t & Ht) Hq].
  specialize (E2 eq_refl). destruct E1 as [E1|]; [|done]. split.
  - intros _. split; [exists a, f, t; congruence|by apply Hc].
  - rewrite (robjs_kept c c' a f t) by congruence. done.
Qed.

Lemma tagset_in c base : rptrs_ok c -> 1 < k_queue_count c -> exists q t, kio_ptrs c = (Some q, Some t) /\ t ∈ rctrl_objs c ++ base.
Proof.
  intros [(a & f & t & Ht) Hq] Hlt. destruct (Hq Hlt) as (q & t' & Hqt). exists q, t'. split; [done|]. rewrite (rctrl_objs_eq c a f t Ht).
  unfold kio_ptrs in Hqt. injection Hqt as Q1 Q2. unfold rio_objs. rewrite Q1, Q2. simpl. set_solver.
Qed.

(** From the I/O queues on: the admin queue is up. *)
Lemma rsetup_io (new : bool) c0 c a f t e base :
  change_ok (k_state c) NVME_CTRL_LIVE = true ->
  (new = false -> rptrs_ok c0) -> k_async c0 = None -> (new = true -> kio_ptrs c0 = (None, None)) ->
  kcore c = kcore c0 -> kio_part c = kio_part c0 -> (new = false -> kadm_ptrs c = kadm_ptrs c0) ->
  kadm_ptrs c = (Some a, Some f, Some t) -> adm_async c e -> rflag c 0 = (true, true) -> rio_down c ->
  caps_ok c = true -> kinv (elem_objs e ++ rheld_new new [a; f; t] ++ (if new then [] else rctrl_objs c0) ++ base) c ->
  exists ret c',
    ('(ret, c) ← (if 1 <? k_queue_count c then nvme_rdma_configure_io_queues opts new c else Some (0, c));
     if negb (ret =? 0) then rdestroy_admin new ret c
     else
       let '(ok, c) := rdma_change_state NVME_CTRL_LIVE c in
       if negb ok then rdestroy_io new (- EINVAL) c else Some (0, c)) = Some (ret, c') /\ kworks c' = kworks c0 /\
    (rsetup_up base ret c' \/ rsetup_down new base c0 ret c').
Proof.
  intros Hch Hok Ha0 Hnew E1 E2 E3 Ht Has Hf Hd Hic Hi. pose proof Has as (Ha & Hw & Hdev). destruct (kio_part_ptrs _ _ E2) as [E4 E5].
  pose proof (rio_stage new c _ Hi Hdev Hd) as Hst. cbv zeta in Hst.
  destruct Hst as [(c1 & -> & F1 & F3 & F4 & F5 & Hi1)|(err & c1 & H & He & F1 & F2 & F4 & Hi1)].
  { intros Hn. rewrite E4. by apply Hnew. }
  { intros -> Hlt. rewrite E5 in Hlt. destruct (tagset_in c0 base (Hok eq_refl) Hlt) as (q & t' & Hqt & Hin). exists q, t'. rewrite E4. split; [done|].
    apply elem_of_app. by right. }
  all: destruct (kadm_part_inv _ _ F1) as (G1 & G2 & G3 & G4 & G5 & G6); rewrite <- G2 in Ht;
    (assert (Has1 : adm_async c1 e) by (split_and!; [congruence|done|by apply G6])).
  2:{ rewrite H. cbn [mbind option_bind]. rewrite (proj2 (Z.eqb_neq err 0) He). cbn [negb].
      destruct (rsetup_destroy_admin new err c1 a f t e ((if new then [] else rctrl_objs c0) ++ base))
        as (c2 & -> & K1 & K2 & K3 & K4 & K5 & K6); [done..|].
      destruct (kcore_inv c0 c2) as [W1 W2]; [by rewrite K1, G1|].
      exists err, c2. split_and!; [done..|]. right.
      assert (Hc : 1 < k_queue_count c0).
      { rewrite <- E5. destruct (Z.ltb_spec 1 (k_queue_count c)); [done|]. by injection H as <- <-. }
      destruct (kio_part_ptrs _ _ K2) as [K7 K8]. destruct (rsetup_back new c0 c2 base) as [B1 B2]; try done.
      - destruct new; [by right|left]. rewrite K7, F2 by done. done.
      - intros Hn. rewrite K3, G2. by apply E3.
      - intros Hn _. rewrite K7, F2, E4 by done. by apply (Hok Hn).
      - by destruct K5. }
  cbn [mbind option_bind negb Z.eqb]. unfold rdma_change_state. destruct (kcore_inv c c1) as [W1 W2]; [done|]. rewrite W2, Hch. cbn [negb].
  exists 0, (c1 <| k_state := NVME_CTRL_LIVE |>). split_and!; [done|by destruct (kcore_inv _ _ (eq_trans G1 E1))|left]. split_and!; [done| |done| | | |].
  - unfold caps_ok, kcaps in *. injection G4 as Q1 Q2. simpl. by rewrite Q1, Q2.
  - intros [|j] Hj; [exact (eq_trans G5 Hf)|]. apply (F3 (S j)); [lia|exact Hj].
  - split; [by exists a, f, t|exact F5].
  - unfold async_ok. simpl. destruct Has1 as (-> & ? & ?). done.
  - eapply kinv_ext; [eapply kinv_perm; [exact Hi1|]|done..|apply Hi1].
    change (rctrl_objs (c1 <| k_state := NVME_CTRL_LIVE |>)) with (rctrl_objs c1). rewrite (rctrl_objs_eq c1 a f t Ht).
    unfold async_objs. destruct Has1 as (-> & _). destruct new; simpl; [solve_Permutation|].
    rewrite (rctrl_objs_eq c0 a f t) by (rewrite <- E3, <- G2 by done; done). unfold async_objs. rewrite Ha0.
    rewrite (rio_objs_kept c0 c1) by (rewrite F4 by done; done). simpl. solve_Permutation.
Qed.

Lemma rsetup_spec (new : bool) c base :
  change_ok (k_state c) NVME_CTRL_LIVE = true ->
  kinv ((if new then [] else rctrl_objs c) ++ base) c -> rall_down c -> (new = true -> kio_ptrs c = (None, None)) ->
  (new = false -> rptrs_ok c) ->
  exists ret c', nvme_rdma_setup_ctrl opts new c = Some (ret, c') /\ kworks c' = kworks c /\
    (rsetup_up base ret c' \/ rsetup_down new base c ret c').
Proof.
  intros Hch Hi [Hd Ha] Hnew Hok. unfold nvme_rdma_setup_ctrl.
  destruct (rconfigure_admin_spec opts R new c _ Hi (Hd 0%nat)) as
    [(c1 & a & f & t & e & -> & F1 & F2 & F3 & F4 & F5 & F6 & F7 & Hi1)
    |(err & c1 & -> & He & F1 & F2 & F3 & F4 & F5 & F6 & Hi1)]; cbn [mbind option_bind].
  { intros ->. destruct (Hok eq_refl) as [(a & f & t & Ht) _]. exists a, f, t. split; [done|]. rewrite (rctrl_objs_eq c a f t Ht). left. }
  { done. }
  2:{ rewrite (proj2 (Z.eqb_neq err 0) He). destruct (kcore_inv _ _ F1) as [W1 W2]. destruct (kio_part_ptrs _ _ F2) as [E4 E5].
      exists err, c1. split_and!; [done..|right]. destruct (rsetup_back new c c1 base) as [B1 B2]; try done; [by left| |].
      - intros Hn. rewrite E4, E5. by apply (Hok Hn).
      - split_and!; try done. split; [|done]. intros [|j]; [done|]. rewrite (io_kept_flag _ _ _ F6) by lia. apply Hd. }
  cbn [negb Z.eqb]. assert (Hd1 : rio_down c1) by (intros j Hj; rewrite (io_kept_flag _ _ _ F7) by done; apply Hd).
  destruct (kcore_inv _ _ F1) as [_ Hst].
  assert (Hfail : caps_ok c1 = false -> exists ret c', rdestroy_admin new 0 c1 = Some (ret, c') /\ kworks c' = kworks c /\
    (rsetup_up base ret c' \/ rsetup_down new base c ret c')).
  { intros Hcap. destruct (rsetup_destroy_admin new 0 c1 a f t e ((if new then [] else rctrl_objs c) ++ base))
      as (c2 & -> & K1 & K2 & K3 & K4 & K5 & K6); [done..|].
    destruct (kcore_inv c c2) as [W1 W2]; [by rewrite K1|]. destruct (kio_part_ptrs c c2) as [E4 E5]; [by rewrite K2|].
    exists 0, c2. split_and!; [done..|right]. destruct (rsetup_back new c c2 base) as [B1 B2]; try done; [by left| | |by destruct K5|].
    + intros Hn. rewrite K3. by apply F4.
    + intros Hn. rewrite E4, E5. by apply (Hok Hn).
    + split_and!; try done. intros _. unfold caps_ok, kcaps in *. injection K4 as Q1 Q2. rewrite Q1, Q2, K2. done. }
  unfold c_true. destruct (Z.eqb_spec (k_icdoff c1) 0) as [Hic|Hic]; cbn [negb]; [|apply Hfail; unfold caps_ok; by rewrite (proj2 (Z.eqb_neq _ 0) Hic)].
  destruct (Z.testbit (k_sgls c1) 2) eqn:Hsg; cbn [negb]; [|apply Hfail; unfold caps_ok; by rewrite Hsg, andb_false_r].
  assert (H : exists sq b, rdma_clamp c1 = c1 <| k_sqsize := sq |> <| k_inline := b |> /\ 0 <= sq).
  { assert (0 <= k_sqsize c1) by apply Hi1. unfold rdma_clamp. assert (0 <= u16 (k_maxcmd c1 - 1)) by (apply Z.mod_pos_bound; lia).
    exists (if k_maxcmd c1 <? k_sqsize c1 + 1 then u16 (k_maxcmd c1 - 1) else k_sqsize c1), (Z.testbit (k_sgls c1) 20 || k_inline c1).
    split; [|by destruct (_ <? _)]. destruct (_ <? _); cbv zeta; [change (k_sgls (c1 <| k_sqsize := u16 (k_maxcmd c1 - 1) |>)) with (k_sgls c1)|];
      (destruct (Z.testbit (k_sgls c1) 20); by destruct c1). }
  destruct H as (sq & b & -> & Hsq). cbv zeta. eapply (rsetup_io new c _ a f t e base); try done.
  - simpl. by rewrite Hst.
  - change (caps_ok c1 = true). unfold caps_ok. by rewrite Hic, Hsg.
  - by eapply kinv_ext.
Qed.

(** ** Works of a controller that was created *)

Definition rgood (base : list Z) (c : rctrl) : Prop := kinv (rctrl_objs c ++ base) c /\ rptrs_ok c /\ async_ok c.

(** While a reconnect is scheduled the queues are down. *)
Definition rsettled (base : list Z) (c : rctrl) : Prop := rgood base c /\ (k_connect_work c = true -> rall_down c).

(** A change of what the heap and the pointers do not depend on. *)
Lemma rgood_ext base c c' :
  rgood base c -> k_queues c' = k_queues c -> k_io_queues c' = k_io_queues c -> k_m c' = k_m c -> k_sqsize c' = k_sqsize c ->
  k_device c' = k_device c -> kio_part c' = kio_part c -> kadm_ptrs c' = kadm_ptrs c -> k_async c' = k_async c -> rgood base c'.
Proof.
  intros (Hi & [(a & f & t & Ht) Hq] & Has) E1 E2 E3 E7 E8 E4 E5 E6. destruct (kio_part_ptrs _ _ E4) as [F1 F2]. split_and!.
  - rewrite (robjs_kept c c' a f t) by done. eapply kinv_ext; try done. rewrite E7. apply Hi.
  - split; [exists a, f, t; congruence|]. by rewrite F1, F2.
  - unfold async_ok, dev_held in *. by rewrite E6, E1, E8.
Qed.

Lemma rgood_use_admin base c : rgood base c -> k_use (k_admin_q c) c = Some c.
Proof.
  intros (Hi & [(a & f & t & Ht) _] & _). pose proof Ht as Ht'. unfold kadm_ptrs in Ht'. injection Ht' as Ea _ _. rewrite Ea.
  eapply k_use_at; [exact Hi|]. rewrite (rctrl_objs_eq c a f t Ht). left.
Qed.

Lemma async_ok_part c c' : kadm_part c' = kadm_part c -> async_ok c -> async_ok c' /\ async_objs c' = async_objs c.
Proof.
  intros H. destruct (kadm_part_inv _ _ H) as (_ & _ & E & _ & _ & Hd). unfold async_ok, async_objs. rewrite E.
  destruct (k_async c); [|done]. intros [? ?]. split; [|done]. split; [done|by apply Hd].
Qed.

Lemma rteardown_io_good base c :
  rgood base c -> exists c', nvme_rdma_teardown_io_queues false c = Some c' /\ rgood base c' /\ kcore c' = kcore c /\ rio_down c'.
Proof.
  intros (Hi & Hp & Has). pose proof Hp as [(a & f & t & Ht) Hq].
  destruct (rteardown_io_spec false c _ (rctrl_objs c ++ base) Hi) as (c' & -> & E1 & E2 & E4 & E5); [by apply tagset_in|done|].
  destruct (kadm_part_inv _ _ E1) as (F1 & F2 & F3 & F4 & _). destruct (kio_part_ptrs _ _ E2) as [G1 G2].
  exists c'. split_and!; try done. split_and!; [by rewrite (robjs_kept c c' a f t)| |by apply (async_ok_part c)].
  split; [exists a, f, t; congruence|]. by rewrite G1, G2.
Qed.

Lemma rteardown_admin_good base c :
  rgood base c -> rio_down c ->
  exists c', nvme_rdma_teardown_admin_queue false c = Some c' /\ rgood base c' /\ kcore c' = kcore c /\ rall_down c'.
Proof.
  intros (Hi & [(a & f & t & Ht) Hq] & Has) Hd. rewrite (rctrl_objs_eq c a f t Ht) in Hi.
  destruct (rteardown_admin_spec opts R false c _ (([a; f; t] ++ rio_objs c) ++ base) a f t Hi Has Ht)
    as (c' & -> & E1 & E2 & E3 & E4 & E5 & E6 & E7); [set_solver..|solve_Permutation|].
  destruct (kio_part_ptrs _ _ E3) as [G1 G2]. exists c'. split_and!; try done.
  - split_and!.
    + rewrite (rctrl_objs_eq c' a f t) by congruence. unfold async_objs. rewrite E5, (rio_objs_kept _ _ G1). simpl. by rewrite app_nil_r.
    + split; [exists a, f, t; congruence|]. by rewrite G1, G2.
    + unfold async_ok. by rewrite E5.
  - split; [|done]. intros [|j]; [done|]. rewrite (io_kept_flag _ _ _ E7) by lia. apply Hd. lia.
Qed.

Lemma rreconnect_or_remove_spec base c :
  rgood base c -> rall_down c -> rsettled base (nvme_rdma_reconnect_or_remove c).
Proof.
  intros Hg Hd. unfold nvme_rdma_reconnect_or_remove. repeat case_match; (split; [by eapply rgood_ext|by intros _]).
Qed.

Lemma rerror_recovery_good base c :
  rgood base c -> exists c', nvme_rdma_error_recovery_work c = Some c' /\ rsettled base c'.
Proof.
  intros Hg. unfold nvme_rdma_error_recovery_work.
  destruct (rteardown_io_good base (c <| k_err_work := false |>)) as (c1 & -> & Hg1 & _ & Hd1); [by eapply rgood_ext|].
  cbn [mbind option_bind]. destruct (rteardown_admin_good _ _ Hg1 Hd1) as (c2 & -> & Hg2 & _ & Hd2).
  cbn [mbind option_bind]. rewrite (rgood_use_admin base) by done. cbn [mbind option_bind]. unfold rdma_change_state.
  destruct (change_ok _ _); eexists; (split; [done|]); [|by split].
  apply rreconnect_or_remove_spec; [by eapply rgood_ext|done].
Qed.

Lemma rstart_recovery_settled base c : rsettled base c -> rsettled base (rdma_start_recovery c).
Proof.
  intros [Hg Hd]. unfold rdma_start_recovery, rdma_change_state. destruct (change_ok _ _); split; try done. by eapply rgood_ext.
Qed.

Lemma rtimeout_good base c : rsettled base c -> exists r c', nvme_rdma_timeout c = Some (r, c') /\ rsettled base c'.
Proof.
  intros Hs. unfold nvme_rdma_timeout. case_match; [by eexists _, _|]. case_match; cycle 1.
  { eexists _, _. split; [done|]. by apply rstart_recovery_settled. }
  assert (H1 : exists c1, (if k_err_work c then nvme_rdma_error_recovery_work c else Some c) = Some c1 /\ rsettled base c1).
  { destruct (k_err_work c); [|by exists c]. apply rerror_recovery_good, Hs. }
  destruct H1 as (c1 & -> & [Hg1 _]). cbn [mbind option_bind].
  destruct (rteardown_io_good base c1 Hg1) as (c2 & -> & Hg2 & _ & Hd2). cbn [mbind option_bind].
  destruct (rteardown_admin_good base c2 Hg2 Hd2) as (c3 & -> & Hg3 & _ & Hd3). cbn [mbind option_bind].
  eexists _, c3. split; [done|]. by split.
Qed.

(** ** Works that set the controller up again *)

Lemma kworks_connect c c' : kworks c' = kworks c -> k_connect_work c' = k_connect_work c.
Proof. intros H. exact (f_equal (fun x => x.1.1.1.1.1) H). Qed.

Lemma rsetup_again base c :
  change_ok (k_state c) NVME_CTRL_LIVE = true -> rgood base c -> rall_down c -> k_connect_work c = false ->
  exists ret c', nvme_rdma_setup_ctrl opts false c = Some (ret, c') /\ rsettled base c' /\ (ret <> 0 -> rall_down c').
Proof.
  intros Hch (Hi & Hp & _) Hd Hw. destruct (rsetup_spec false c base) as (ret & c' & -> & W & Hr); [done..|].
  apply kworks_connect in W. rewrite Hw in W.
  destruct Hr as [(-> & _ & _ & Hu & Hp' & Has & Hi')|(_ & _ & Hd' & Hp' & Hi')].
  - exists 0, c'. split_and!; [done| |done]. split; [done|by rewrite W].
  - exists ret, c'. split_and!; [done| |done]. split; [|by rewrite W]. split_and!; [done|by apply Hp'|]. unfold async_ok. by destruct Hd' as [_ ->].
Qed.

Lemma rreconnect_good base c :
  change_ok (k_state c) NVME_CTRL_LIVE = true -> rsettled base c -> k_connect_work c = true ->
  exists c', nvme_rdma_reconnect_ctrl_work opts c = Some c' /\ rsettled base c'.
Proof.
  intros Hch [Hg Hd] Hw. unfold nvme_rdma_reconnect_ctrl_work. cbv zeta.
  set (c1 := c <| k_connect_work := false |> <| k_nr_reconnects ::= _ |>).
  destruct (rsetup_again base c1) as (ret & c2 & -> & Hs & Hr); [done|by eapply rgood_ext|exact (Hd Hw)|done|].
  cbn [mbind option_bind]. eexists. split; [done|]. unfold c_true. destruct (Z.eqb_spec ret 0); cbn [negb].
  - destruct Hs as [Hs1 Hs2]. split; [by eapply rgood_ext|exact Hs2].
  - apply rreconnect_or_remove_spec; [apply Hs|by apply Hr].
Qed.

Lemma rgood_call base c :
  rgood base c -> exists ret c', k_call c = (ret, c') /\ rgood base c' /\ kcore c' = kcore c /\ forall j, rflag c' j = rflag c j.
Proof.
  intros (Hi & Hp & Has). destruct (k_call_at opts _ _ _ Hi) as (ret & m & -> & Hi'). eexists _, _. by split_and!.
Qed.

Lemma rreset_good `{!RdmaStateLaws ce} base c :
  rgood base c -> exists c', nvme_rdma_reset_ctrl_work opts c = Some c' /\ rsettled base c'.
Proof.
  intros Hg. unfold nvme_rdma_reset_ctrl_work, nvme_rdma_shutdown_ctrl. cbv zeta.
  set (c0 := c <| k_err_work := false |> <| k_connect_work := false |>).
  destruct (rteardown_io_good base c0) as (c1 & -> & Hg1 & W1 & Hd1); [by eapply rgood_ext|].
  cbn [mbind option_bind]. rewrite (rgood_use_admin base) by done. cbn [mbind option_bind].
  destruct (rgood_call base c1 Hg1) as (r & c2 & -> & Hg2 & W2 & Hf2).
  destruct (rteardown_admin_good base c2 Hg2) as (c3 & -> & Hg3 & W3 & Hd3).
  { intros j Hj. rewrite Hf2. by apply Hd1. }
  cbn [mbind option_bind]. assert (Hw : k_connect_work c3 = false).
  { destruct (kcore_inv c0 c3) as [W _]; [by rewrite W3, W2|]. by apply kworks_connect in W. }
  unfold rdma_change_state. destruct (change_ok _ _); cbn [negb].
  2:{ exists c3. split; [done|]. split; [done|by rewrite Hw]. }
  destruct (rsetup_again base (c3 <| k_state := NVME_CTRL_CONNECTING |>)) as (ret & c4 & -> & Hs & Hr);
    [apply connecting_live|by eapply rgood_ext|done..|].
  cbn [mbind option_bind]. eexists. split; [done|]. unfold c_true. destruct (Z.eqb_spec ret 0); cbn [negb]; [done|].
  apply rreconnect_or_remove_spec; [|exact (Hr n)]. destruct Hs as [Hs1 _]. by eapply rgood_ext.
Qed.
End setup.
