(* ===== verification/NvmeRdmaLife.v ===== *)
(** * Creation, deletion and every run of an RDMA controller

    [nvme_rdma_create_ctrl] is all or nothing.  No run of the works of a controller uses
    or releases an object, a device or a reference that is not in use, as long as a
    reconnect finds the controller in the state connecting, and deletion gives back all
    it owns.  A reconnect that finds the controller being deleted leaves queues that are
    freed and marked live, and the deletion then uses them. *)
From S2P Require Import Prelude MqTypes BlkMqTagSet NvmeTcpMap NvmeTcpConn NvmeTcpConnSpec NvmeTcpLife.
From S2P Require Import NvmeRdmaConn NvmeRdmaConnSpec NvmeRdmaCtrl NvmeRdmaCtrlInv NvmeRdmaCtrlAdmin NvmeRdmaCtrlSetup.

Lemma rqs_down {A} (f : rdma_queue -> list A) c :
  (forall q, rq_allocated q = false -> f q = []) -> (forall j, rflag c j = (false, false)) -> concat (f <$> k_queues c) = [].
Proof.
  intros Hf H. assert (Ha : forall q, q ∈ k_queues c -> f q = []).
  { intros q [i Hi]%list_elem_of_lookup. specialize (H i). unfold rflag in H. rewrite Hi in H. apply Hf. by injection H. }
  induction (k_queues c) as [|q l IH]; [done|]. simpl. rewrite Ha by left. apply IH. intros q' Hq. apply Ha. by right.
Qed.

Lemma q_objs_down q : rq_allocated q = false -> q_objs q = [].
Proof. unfold q_objs. by intros ->. Qed.
Lemma q_refs_down q : rq_allocated q = false -> q_refs q = [].
Proof. unfold q_refs. by intros ->. Qed.

Lemma rheld_fresh m refs i l : rheld m refs (i :: l) -> i ∉ l.
Proof. intros [_ (Hp & Hn & _)] Hi. rewrite Hp in Hn. apply NoDup_app in Hn as (_ & _ & Hn). by apply NoDup_cons in Hn as [? _]. Qed.

Section life.
Context {ce : CtrlEnv} {cl : CtrlLaws ce} {cm : RdmaCm} {cml : RdmaCmLaws cm} {rc : RdmaCore} {rcl : RdmaCoreLaws ce rc}.
Context {rsl : RdmaStateLaws ce} (opts : rdma_opts) (Hcounts : rcounts_ok (ro_queues opts)).
Implicit Types (R : list Z).

Lemma kinv_all_down R l c : kinv opts R l c -> rall_down c -> rheld (k_m c) R l.
Proof.
  intros Hi [Hd _]. pose proof (ki_heap _ _ _ _ Hi) as Hh. unfold rqs_refs, rqs_objs in Hh.
  rewrite (rqs_down q_refs c q_refs_down Hd), (rqs_down q_objs c q_objs_down Hd) in Hh. done.
Qed.

(** ** Deletion *)

Lemma rdelete_good R base c :
  rgood opts R base c ->
  exists c', nvme_rdma_delete_ctrl c = Some c' /\ rall_down c' /\
    kinv opts R ((if 1 <? k_queue_count c then [] else rio_objs c) ++ base) c'.
Proof.
  intros (Hi & [(a & f & t & Ht) Hq] & Has). unfold nvme_rdma_delete_ctrl, nvme_rdma_shutdown_ctrl. cbv zeta.
  set (c0 := c <| k_err_work := false |> <| k_connect_work := false |>).
  set (k := if 1 <? k_queue_count c then [] else rio_objs c).
  rewrite (rctrl_objs_eq c a f t Ht) in Hi.
  assert (Hi0 : kinv opts R (([a; f; t] ++ rio_objs c ++ async_objs c) ++ base) c0) by (eapply kinv_ext; [exact Hi|done..|apply Hi]).
  destruct (rteardown_io_spec opts R true c0 _ ([a; f; t] ++ async_objs c ++ k ++ base) Hi0) as (c1 & -> & E1 & E2 & E4 & Hi1).
  { intros Hlt. destruct (Hq Hlt) as (q & t' & Hqt). exists q, t'. split; [done|]. unfold kio_ptrs in Hqt. injection Hqt as Q1 Q2.
    unfold rio_objs. rewrite Q1, Q2. simpl. set_solver. }
  { subst k. change (k_queue_count c0) with (k_queue_count c). change (rio_objs c0) with (rio_objs c).
    destruct (1 <? k_queue_count c); simpl; solve_Permutation. }
  cbn [mbind option_bind]. destruct (kadm_part_inv _ _ E1) as (F1 & F2 & F3 & F4 & _). destruct (async_ok_part c0 c1 E1 Has) as [Has1 Eo].
  pose proof (eq_trans F2 Ht) as Ht1. pose proof Ht1 as Ht'. unfold kadm_ptrs in Ht'. injection Ht' as A1 A2 A3.
  rewrite A1, (k_use_at opts R _ _ _ Hi1) by left. cbn [mbind option_bind].
  destruct (k_call_at opts R _ _ Hi1) as (ret & m & -> & Hi2).
  destruct (rteardown_admin_spec opts R true (c1 <| k_m := m |>) _ (k ++ base) a f t Hi2 Has1 Ht1)
    as (c2 & -> & Hi3 & G1 & G2 & G3 & G4 & G5 & G6); [set_solver..| |].
  { change (async_objs (c1 <| k_m := m |>)) with (async_objs c1). rewrite Eo. change (async_objs c0) with (async_objs c). solve_Permutation. }
  exists c2. split_and!; [done| |done]. split; [|done]. intros [|j]; [done|]. rewrite (io_kept_flag _ _ _ G6) by lia. apply E4. lia.
Qed.

(** ** Creation *)

(** What a creation that failed leaves, and what one that succeeded owns; [port] is the
    string of the options. *)
Definition rcreate_failed R (ctrls port live : list Z) (r : option (Z * option rctrl * list Z * rdma_world)) : Prop :=
  exists ret m, r = Some (ret, None, ctrls, m) /\ ret <> 0 /\ rheld m R (port ++ live).
Definition rcreate_done R (ctrls port live : list Z) (r : option (Z * option rctrl * list Z * rdma_world)) : Prop :=
  exists c self array, r = Some (0, Some c, ctrls ++ [self], k_m c) /\ k_self c = Some self /\ k_array c = Some array /\
    if caps_ok c
    then k_state c = NVME_CTRL_LIVE /\ rall_up c /\ rsettled opts R ([array; self] ++ port ++ live) c
    else rall_down c /\ kio_ptrs c = (None, None) /\ kinv opts R ([array; self] ++ port ++ live) c.

Lemma free_new_rctrl_spec R ret self ctrls m port live :
  ret <> 0 -> rheld m R (self :: port ++ live) -> rcreate_failed R ctrls port live (free_new_rctrl ret (Some self) ctrls m).
Proof.
  intros Hr Hm. unfold free_new_rctrl. destruct (rw_release_ok self m _ _ Hm) as (m' & -> & Hm'). by exists ret, m'.
Qed.

Lemma rfree_ctrl_spec R c array self port live ctrls :
  k_self c = Some self -> k_array c = Some array -> self ∉ ctrls -> rall_down c ->
  kinv opts R ([array; self] ++ port ++ live) c ->
  exists m, nvme_rdma_free_ctrl ctrls c = Some (ctrls, m) /\ rheld m R (port ++ live).
Proof.
  intros Es Ea Hn Hd Hi. destruct (kinv_all_down _ _ _ Hi Hd) as [Hdev Hh]. unfold nvme_rdma_free_ctrl. rewrite Es, Ea.
  set (d := dev_objs (rw_devs (k_m c))) in *.
  destruct (kfree_spec array (rw_w (k_m c)) (self :: d ++ port ++ live)) as (w1 & -> & Hw1).
  { eapply holds_perm; [exact Hh|]. simpl. solve_Permutation. }
  cbn [mbind option_bind]. destruct (kfree_spec self w1 _ Hw1) as (w2 & -> & Hw2). cbn [mbind option_bind].
  exists ((k_m c) <| rw_w := w2 |>). split; [|split; [exact Hdev|exact Hw2]]. rewrite list_filter_all; [done|]. intros x Hx H. injection H as ->. done.
Qed.

Lemma init_new_rctrl_spec R c array self port live ctrls :
  k_self c = Some self -> k_array c = Some array -> self ∉ ctrls -> k_state c = NVME_CTRL_NEW ->
  rall_down c -> kio_ptrs c = (None, None) -> k_connect_work c = false -> kinv opts R ([array; self] ++ port ++ live) c ->
  rcreate_failed R ctrls port live (init_new_rctrl opts ctrls c) \/ rcreate_done R ctrls port live (init_new_rctrl opts ctrls c).
Proof.
  intros Es Ea Hn Hst Hd Hq Hcw Hi. unfold init_new_rctrl. destruct (k_call_at opts R _ _ Hi) as (ret & m & -> & Hi1).
  set (c1 := c <| k_m := m |>) in *. destruct (Z.eqb_spec ret 0); cbn [negb].
  2:{ left. pose proof (kinv_all_down _ _ c1 Hi1 Hd) as Hh. change (k_array c1) with (k_array c). change (k_self c1) with (k_self c). rewrite Es, Ea.
      destruct (rw_release_ok array (k_m c1) _ _ Hh) as (m1 & -> & Hm1). cbn [mbind option_bind]. by apply free_new_rctrl_spec. }
  unfold rdma_change_state. change (k_state c1) with (k_state c). rewrite Hst, new_connecting.
  destruct (rsetup_spec opts R Hcounts true (c1 <| k_state := NVME_CTRL_CONNECTING |>) ([array; self] ++ port ++ live))
    as (ret' & c2 & -> & W & Hr); [apply connecting_live|eapply kinv_ext; [exact Hi1|done..|apply Hi1]|done..|]. cbn [mbind option_bind].
  assert (Es2 : k_self c2 = Some self) by exact (eq_trans (f_equal (fun x => x.1.1.2) W) Es).
  assert (Ea2 : k_array c2 = Some array) by exact (eq_trans (f_equal (fun x => x.1.2) W) Ea).
  assert (Ew2 : k_connect_work c2 = false) by exact (eq_trans (kworks_connect _ _ W) Hcw).
  destruct Hr as [(-> & Hic & Hst2 & Hu & Hpt & Has & Hi2)|(Hic & Hst2 & Hd2 & _ & Hi2)].
  - right. cbn [negb Z.eqb]. rewrite Es2. cbn [mbind option_bind]. exists c2, self, array. rewrite Hic. split_and!; try done.
    split; [by split_and!|by rewrite Ew2].
  - destruct (Z.eqb_spec ret' 0) as [->|Hr]; cbn [negb].
    + right. destruct (Hic eq_refl) as [Hne Hio]. rewrite Es2. cbn [mbind option_bind]. exists c2, self, array. rewrite Hne. split_and!; try done.
      destruct (kio_part_ptrs _ _ Hio) as [-> _]. done.
    + destruct (rfree_ctrl_spec R c2 array self port live ctrls) as (m' & -> & Hm'); [done..|]. cbn [mbind option_bind].
      left. eexists _, m'. split_and!; [done| |done]. destruct (0 <? ret'); done.
Qed.

(** The controller before it is initialized. *)
Lemma new_rctrl_inv R self array m base qsize :
  rheld m R base -> 0 <= qsize ->
  let c := mk_rctrl (replicate (Z.to_nat (asked (ro_queues opts) + 1)) new_rqueue) (asked (ro_queues opts) + 1) qsize 0 0 0 [0; 0; 0]
    NVME_CTRL_NEW None None 0 0 (0, 0) false None None None None None 0 false false false self array m in
  kinv opts R base c /\ rall_down c.
Proof.
  intros Hm Hq c. destruct Hcounts as (H1 & H2 & H3 & H4). unfold asked in *.
  assert (Hd : forall j, rflag c j = (false, false)).
  { intros j. unfold rflag, c. simpl. destruct (replicate _ new_rqueue !! j) eqn:E; [|done]. by apply lookup_replicate_1 in E as [-> _]. }
  split; [|done]. split; simpl; unfold asked; rewrite ?length_replicate; try done; try lia.
  - by apply Forall_replicate.
  - unfold rqs_refs, rqs_objs. pose proof (rqs_down q_refs c q_refs_down Hd) as Hr. pose proof (rqs_down q_objs c q_objs_down Hd) as Ho.
    simpl in Hr, Ho. unfold asked in Hr, Ho. rewrite Hr, Ho. done.
Qed.

Lemma rcreate_spec R ip_match ctrls m live :
  rheld m R live -> (forall x, x ∈ ctrls -> x ∈ live) ->
  let r := nvme_rdma_create_ctrl opts ip_match ctrls m in
  exists port, (length port <= if ro_trsvcid opts then 0 else 1)%nat /\
    (rcreate_failed R ctrls port live r \/ rcreate_done R ctrls port live r).
Proof.
  intros Hm Hin r. subst r. unfold nvme_rdma_create_ctrl.
  destruct (rw_new_ok alloc_ok m R live Hm) as [(m1 & -> & H1)|(self & m1 & -> & H1 & _)].
  { exists []. split; [simpl; lia|left]. by exists (- ENOMEM), m1. }
  assert (Hs : self ∉ ctrls) by (intros Hx%Hin; by apply (rheld_fresh _ _ _ _ H1)).
  assert (Hport : exists port m2 pt, (if ro_trsvcid opts then (Some 0, m1) else rw_new alloc_ok m1) = (pt, m2) /\
    (length port <= if ro_trsvcid opts then 0 else 1)%nat /\ rheld m2 R (self :: port ++ live)).
  { destruct (ro_trsvcid opts); [by exists [], m1, (Some 0)|].
    destruct (rw_new_ok alloc_ok m1 _ _ H1) as [(m2 & -> & H2)|(i & m2 & -> & H2 & _)]; [exists [], m2, None|exists [i], m2, (Some i)]; split_and!; try done.
    - simpl; lia.
    - eapply rheld_perm; [done|]. apply Permutation_swap. }
  destruct Hport as (port & m2 & pt & -> & Hlen & H2). exists port. split; [done|].
  destruct pt as [pt|]; [|left; by apply free_new_rctrl_spec].
  destruct H2 as [Hdev Hw]. destruct (calls_spec (if ro_host_traddr opts then 2 else 1) (rw_w m2) _ Hw) as (ret & w & -> & Hw').
  assert (H3 : rheld (m2 <| rw_w := w |>) R (self :: port ++ live)) by by split.
  destruct (Z.eqb_spec ret 0); cbn [negb]; [|left; by apply free_new_rctrl_spec].
  destruct (negb _ && _); [left; by apply free_new_rctrl_spec|].
  destruct (rw_new_ok alloc_ok _ _ _ H3) as [(m3 & -> & H4)|(array & m3 & -> & H4 & _)]; [left; by apply free_new_rctrl_spec|].
  assert (Hcount : u32 (o_nr_io_queues (ro_queues opts) + o_nr_write_queues (ro_queues opts) + o_nr_poll_queues (ro_queues opts) + 1) =
    asked (ro_queues opts) + 1) by (destruct Hcounts as (? & ? & ? & ?); unfold asked in *; apply u32_small; lia).
  rewrite Hcount. destruct (new_rctrl_inv R (Some self) (Some array) m3 ([array; self] ++ port ++ live) (u16 (ro_queue_size opts - 1)) H4) as [Hi Hd].
  { apply Z.mod_pos_bound. lia. }
  by eapply init_new_rctrl_spec.
Qed.

(** ** Runs *)

(** What can happen to a controller: it is created, its state changes, an error is seen,
    a work that is scheduled runs, a request times out.  A reconnect runs while the
    controller is connecting. *)
Inductive rreach R : rctrl -> Prop :=
| rreach_create ip_match ctrls m live ctrls' m' c :
    rheld m R live -> (forall x, x ∈ ctrls -> x ∈ live) ->
    nvme_rdma_create_ctrl opts ip_match ctrls m = Some (0, Some c, ctrls', m') -> caps_ok c = true -> rreach R c
| rreach_state c s : rreach R c -> change_ok (k_state c) s = true -> rreach R (c <| k_state := s |>)
| rreach_error c : rreach R c -> rreach R (rdma_start_recovery c)
| rreach_err_work c c' : rreach R c -> k_err_work c = true -> nvme_rdma_error_recovery_work c = Some c' -> rreach R c'
| rreach_connect c c' :
    rreach R c -> k_connect_work c = true -> k_state c = NVME_CTRL_CONNECTING ->
    nvme_rdma_reconnect_ctrl_work opts c = Some c' -> rreach R c'
| rreach_reset c c' : rreach R c -> nvme_rdma_reset_ctrl_work opts c = Some c' -> rreach R c'
| rreach_timeout c r c' : rreach R c -> nvme_rdma_timeout c = Some (r, c') -> rreach R c'.

Lemma rreach_settled R c : rreach R c -> exists base, rsettled opts R base c.
Proof.
  induction 1 as [ip ctrls m live ctrls' m' c Hm Hin H Hic|c s _ (base & Hg & Hd) _
    |c _ (base & Hs)|c c' _ (base & Hs & _) _ H|c c' _ (base & Hs) Hc Hst H|c c' _ (base & Hs & _) H|c r c' _ (base & Hs) H].
  - destruct (rcreate_spec R ip ctrls m live Hm Hin) as (port & _ & [(ret & m1 & E & _)|(c1 & s & a & E & _ & _ & Hr)]);
      rewrite H in E; [done|]. injection E as <- _ _. rewrite Hic in Hr. eexists. apply Hr.
  - exists base. split; [by eapply rgood_ext|exact Hd].
  - exists base. by apply rstart_recovery_settled.
  - destruct (rerror_recovery_good opts R Hcounts base c Hs) as (c1 & E & Hs'). rewrite H in E. injection E as <-. by exists base.
  - destruct (rreconnect_good opts R Hcounts base c) as (c1 & E & Hs'); [rewrite Hst; apply connecting_live|done..|]. rewrite H in E. injection E as <-. by exists base.
  - destruct (rreset_good opts R Hcounts base c Hs) as (c1 & E & Hs'). rewrite H in E. injection E as <-. by exists base.
  - destruct (rtimeout_good opts R Hcounts base c Hs) as (r1 & c1 & E & Hs'). rewrite H in E. injection E as <- <-. by exists base.
Qed.
End life.

(** C34: [nvme_rdma_create_ctrl] is all or nothing, whichever call, allocation or
    connection event fails.  Either it returns an error and leaves the list of
    controllers, the objects and the references of devices as they were (and the port
    string, which belongs to the options); or it returns a controller that is on the
    list, in state live with every queue allocated and connected, and what is in use
    beyond what was before is what its queues own, their references of devices, what it
    points to, itself and its array.  The exception is a controller that reports a
    capsule offset or no keyed descriptors: it is returned with every queue down. *)
Theorem rdma_create_all_or_nothing {ce : CtrlEnv} (cl : CtrlLaws ce) {cm : RdmaCm} (cml : RdmaCmLaws cm) {rc : RdmaCore}
    (rcl : RdmaCoreLaws ce rc) (rsl : RdmaStateLaws ce) opts R ip_match ctrls m live :
  rcounts_ok (ro_queues opts) -> rheld m R live -> (forall x, x ∈ ctrls -> x ∈ live) ->
  exists ret oc ctrls' m' port,
    nvme_rdma_create_ctrl opts ip_match ctrls m = Some (ret, oc, ctrls', m') /\
    (length port <= if ro_trsvcid opts then 0 else 1)%nat /\
    match oc with
    | None => ret <> 0 /\ ctrls' = ctrls /\ rheld m' R (port ++ live)
    | Some c => ret = 0 /\ m' = k_m c /\ exists self array,
        ctrls' = ctrls ++ [self] /\ k_self c = Some self /\ k_array c = Some array /\
        if caps_ok c
        then k_state c = NVME_CTRL_LIVE /\ rall_up c /\
          rheld m' (rqs_refs (k_queues c) ++ R) (rqs_objs (k_queues c) ++ rctrl_objs c ++ [array; self] ++ port ++ live)
        else rall_down c
    end.
Proof.
  intros Hok Hm Hin. destruct (rcreate_spec opts Hok R ip_match ctrls m live Hm Hin)
    as (port & Hp & [(ret & m1 & -> & Hr & Hh)|(c & self & array & -> & Es & Ea & Hr)]).
  - by exists ret, None, ctrls, m1, port.
  - exists 0, (Some c), (ctrls ++ [self]), (k_m c), port. split_and!; try done. exists self, array. split_and!; try done.
    destruct (caps_ok c); [|by destruct Hr]. destruct Hr as (Hs & Hu & [[Hi _] _]). split_and!; try done. apply (ki_heap _ _ _ _ Hi).
Qed.

(** C26: no run of an RDMA controller that was created without capsule offset and with
    keyed descriptors touches memory or a device it does not hold (for the others
    [rdma_icdoff_delete_undefined] shows that the deletion is undefined).
    After it is created, in every order of state changes, errors, error recovery,
    reconnects, resets and time-outs, with any result of every call, allocation and
    connection event, each of these works is defined, provided that a reconnect finds
    the state connecting (otherwise [deleting_reconnect_undefined]).  A controller with I/O queues can be deleted at any point: all
    its queues are down after it, and the objects and references of devices that remain
    are those that were there before its queues and pointers. *)
Theorem rdma_lifecycle_safe {ce : CtrlEnv} (cl : CtrlLaws ce) {cm : RdmaCm} (cml : RdmaCmLaws cm) {rc : RdmaCore}
    (rcl : RdmaCoreLaws ce rc) (rsl : RdmaStateLaws ce) opts R c :
  rcounts_ok (ro_queues opts) -> rreach opts R c ->
  is_Some (nvme_rdma_error_recovery_work c) /\
  (k_connect_work c = true -> k_state c = NVME_CTRL_CONNECTING -> is_Some (nvme_rdma_reconnect_ctrl_work opts c)) /\
  is_Some (nvme_rdma_reset_ctrl_work opts c) /\ is_Some (nvme_rdma_timeout c) /\
  exists base, rheld (k_m c) (rqs_refs (k_queues c) ++ R) (rqs_objs (k_queues c) ++ rctrl_objs c ++ base) /\
  exists c', nvme_rdma_delete_ctrl c = Some c' /\ rall_down c' /\ (1 < k_queue_count c -> rheld (k_m c') R base).
Proof.
  intros Hok Hr. destruct (rreach_settled opts Hok R c Hr) as (base & Hs). pose proof Hs as [Hg _].
  destruct (rerror_recovery_good opts R Hok base c Hg) as (c1 & E1 & _). destruct (rreset_good opts R Hok base c Hg) as (c2 & E2 & _).
  destruct (rtimeout_good opts R Hok base c Hs) as (r3 & c3 & E3 & _). destruct (rdelete_good opts Hok R base c Hg) as (c4 & E4 & Hd & Hi).
  split_and!; [by eexists| |by eexists|by eexists|].
  - intros Hc Hst. destruct (rreconnect_good opts R Hok base c) as (c5 & E5 & _); [rewrite Hst; apply connecting_live|done..|]. by eexists.
  - exists base. split; [apply (ki_heap _ _ _ _ (proj1 Hg))|]. exists c4. split_and!; [done..|]. intros Hc.
    rewrite (proj2 (Z.ltb_lt 1 _) Hc) in Hi. by apply (kinv_all_down opts R base c4).
Qed.

(** ** Examples *)

(** Rings of two answers; every call succeeds but those of [bad]. *)
Definition rlife_env (icdoff : Z) (bad : list nat) : CtrlEnv := {|
  ext k := if bool_decide (k ∈ bad) then -111 else 0;
  alloc_ok _ := true;
  caravan_ok _ := true;
  ptr_err _ := -12;
  icresp_of _ := mk_icresp 1 128 0 1 0;
  identified _ := (1, icdoff, 2);
  ioccsz _ := 516;
  granted _ n := n;
  change_ok := ex_change_ok;
  should_reconnect _ := true;
  next_wrap n := (n + 1) mod 2;
  online_cpus := 2;
  nvme_tcp_icresp := 1;
  sizeof_icresp := 128;
  NVME_TCP_PFV_1_0 := 0;
  NVME_TCP_HDR_DIGEST_ENABLE := 1;
  NVME_TCP_DATA_DIGEST_ENABLE := 2;
  sizeof_nvme_command := 64;
  NVME_TCP_ADMIN_CCSZ := 8192;
  sizeof_tcp_rsp_pdu := 24;
|}.
Definition ex_core : RdmaCore := {|
  sgls_of _ := 4;
  comp_vectors _ := 4;
  rdma_cmd_size := 64;
  rdma_aq_depth := 2;
  rdma_aq_tags := 1;
  rdma_request_size := 512;
  device_node _ := 0;
|}.

Lemma rlife_laws icdoff bad : CtrlLaws (rlife_env icdoff bad).
Proof. split; simpl; lia. Qed.
Lemma rlife_core_laws icdoff bad : RdmaCoreLaws (rlife_env icdoff bad) ex_core.
Proof. split; simpl; lia. Qed.
Lemma rlife_state_laws icdoff bad : RdmaStateLaws (rlife_env icdoff bad).
Proof. by split. Qed.

Definition rlife_opts : rdma_opts := mk_ropts (mk_opts 1 1 0) 2 false false true false.

Lemma rlife_counts : rcounts_ok (ro_queues rlife_opts).
Proof. unfold rcounts_ok, asked. simpl. lia. Qed.
Definition rex_create (icdoff : Z) (bad : list nat) : option (Z * option rctrl * list Z * rdma_world) :=
  @nvme_rdma_create_ctrl (rlife_env icdoff bad) (ex_cm ESTABLISHED) ex_core rlife_opts (fun _ => false) [3] ex_rw.
Definition rex_ctrl (icdoff : Z) (bad : list nat) : rctrl :=
  match rex_create icdoff bad with
  | Some (_, Some c, _, _) => c
  | _ => mk_rctrl [] 0 0 0 0 0 [] NVME_CTRL_DEAD None None 0 0 (0, 0) false None None None None None 0 false false false None None ex_rw
  end.
Definition rex_list (bad : list nat) : list Z := match rex_create 0 bad with Some (_, _, l, _) => l | None => [] end.
Definition rex_heap (bad : list nat) : rdma_world := match rex_create 0 bad with Some (_, _, _, m) => m | None => ex_rw end.

(** A creation whose set-up of an I/O queue fails, and one that succeeds. *)
Lemma rdma_create_all_or_nothing_witness :
  (w_live (rw_w (rex_heap [56%nat])) = [5; 3] /\ exists port, (length port <= 1)%nat /\ rheld (rex_heap [56%nat]) [] (port ++ [3])) /\
  (k_queue_count (rex_ctrl 0 []) = 3 /\ rall_up (rex_ctrl 0 [])).
Proof.
  split; (split; [vm_compute; reflexivity|]).
  - destruct (@rdma_create_all_or_nothing (rlife_env 0 [56%nat]) (rlife_laws 0 _) (ex_cm ESTABLISHED) (ex_cm_laws _) ex_core
      (rlife_core_laws 0 _) (rlife_state_laws 0 _) rlife_opts [] (fun _ => false) [3] ex_rw [3] rlife_counts ex_rheld (fun x H => H))
      as (ret & oc & ctrls & m & port & E & Hp & H).
    assert (Ev : @nvme_rdma_create_ctrl (rlife_env 0 [56%nat]) (ex_cm ESTABLISHED) ex_core rlife_opts (fun _ => false) [3] ex_rw =
       Some (-111, None, [3], rex_heap [56%nat])) by (vm_compute; reflexivity).
    pose proof (eq_trans (eq_sym E) Ev) as Heq. clear E Ev. revert Heq H. generalize (rex_heap [56%nat]). intros m0 Heq H.
    injection Heq as -> -> -> ->. exists port. split; [exact Hp|apply H].
  - destruct (@rdma_create_all_or_nothing (rlife_env 0 []) (rlife_laws 0 _) (ex_cm ESTABLISHED) (ex_cm_laws _) ex_core
      (rlife_core_laws 0 _) (rlife_state_laws 0 _) rlife_opts [] (fun _ => false) [3] ex_rw [3] rlife_counts ex_rheld (fun x H => H))
      as (ret & oc & ctrls & m & port & E & Hp & H).
    assert (Ev : @nvme_rdma_create_ctrl (rlife_env 0 []) (ex_cm ESTABLISHED) ex_core rlife_opts (fun _ => false) [3] ex_rw =
       Some (0, Some (rex_ctrl 0 []), rex_list [], rex_heap [])) by (vm_compute; reflexivity).
    assert (Ei : caps_ok (rex_ctrl 0 []) = true) by (vm_compute; reflexivity).
    pose proof (eq_trans (eq_sym E) Ev) as Heq. clear E Ev. revert Heq H Ei.
    generalize (rex_ctrl 0 []) (rex_list []) (rex_heap []). intros c l m0 Heq H Ei.
    injection Heq as -> -> -> ->. destruct H as (_ & _ & self & array & _ & _ & _ & H). rewrite Ei in H. apply H.
Defined.

(** A run: an error, the recovery, a reconnect that fails and one that succeeds. *)
Definition rex_bad : list nat := [100%nat].
Definition rrun_or (f : rctrl -> option rctrl) (c : rctrl) : rctrl := default c (f c).
Definition rex_error : rctrl := @rdma_start_recovery (rlife_env 0 rex_bad) (rex_ctrl 0 rex_bad).
Definition rex_down : rctrl := rrun_or (@nvme_rdma_error_recovery_work (rlife_env 0 rex_bad)) rex_error.
Definition rex_connect : rctrl -> option rctrl :=
  @nvme_rdma_reconnect_ctrl_work (rlife_env 0 rex_bad) (ex_cm ESTABLISHED) ex_core rlife_opts.
Definition rex_failed : rctrl := rrun_or rex_connect rex_down.
Definition rex_again : rctrl := rrun_or rex_connect rex_failed.

Lemma rex_reach : @rreach (rlife_env 0 rex_bad) (ex_cm ESTABLISHED) ex_core rlife_opts [] rex_again.
Proof.
  refine (@rreach_connect (rlife_env 0 rex_bad) (ex_cm ESTABLISHED) ex_core rlife_opts [] rex_failed rex_again _ _ _ _); [|vm_compute; reflexivity..].
  refine (@rreach_connect (rlife_env 0 rex_bad) (ex_cm ESTABLISHED) ex_core rlife_opts [] rex_down rex_failed _ _ _ _); [|vm_compute; reflexivity..].
  refine (@rreach_err_work (rlife_env 0 rex_bad) (ex_cm ESTABLISHED) ex_core rlife_opts [] rex_error rex_down _ _ _); [|vm_compute; reflexivity..].
  unfold rex_error. apply rreach_error.
  refine (@rreach_create (rlife_env 0 rex_bad) (ex_cm ESTABLISHED) ex_core rlife_opts [] (fun _ => false) [3] ex_rw [3] (rex_list rex_bad) (rex_heap rex_bad)
    (rex_ctrl 0 rex_bad) ex_rheld (fun x H => H) _ _); vm_compute; reflexivity.
Qed.

Lemma rdma_lifecycle_safe_witness :
  k_connect_work rex_failed = true /\ k_state rex_again = NVME_CTRL_LIVE /\ k_queue_count rex_again = 3 /\
  exists base c', @nvme_rdma_delete_ctrl (rlife_env 0 rex_bad) rex_again = Some c' /\ rall_down c' /\ rheld (k_m c') [] base.
Proof.
  split_and!; [vm_compute; reflexivity..|].
  destruct (@rdma_lifecycle_safe (rlife_env 0 rex_bad) (rlife_laws 0 _) (ex_cm ESTABLISHED) (ex_cm_laws _) ex_core (rlife_core_laws 0 _)
    (rlife_state_laws 0 _) rlife_opts [] rex_again rlife_counts rex_reach) as (_ & _ & _ & _ & base & _ & c' & H1 & H2 & H3).
  exists base, c'. split_and!; [done..|]. apply H3. vm_compute. reflexivity.
Defined.

(** [nvme_rdma_destroy_io_queues] does not stop the queues: a reconnect that finds the
    controller being deleted frees queues that stay marked live, and the deletion
    disconnects them again. *)
Lemma deleting_reconnect_undefined :
  exists c', rex_connect (rex_failed <| k_state := NVME_CTRL_DELETING |>) = Some c' /\ rflag c' 1 = (false, true)
    /\ @nvme_rdma_delete_ctrl (rlife_env 0 rex_bad) c' = None.
Proof. eexists. split; [vm_compute; reflexivity|]. split; vm_compute; reflexivity. Qed.

(** A controller that reports a capsule offset is returned with its queues down, and
    deleting it cleans up queues that were freed. *)
Lemma rdma_icdoff_delete_undefined :
  exists c l m, rex_create 4 [] = Some (0, Some c, l, m) /\ k_async c = None
    /\ @nvme_rdma_delete_ctrl (rlife_env 4 []) c = None.
Proof. eexists _, _, _. split; [vm_compute; reflexivity|]. split; vm_compute; reflexivity. Qed.

(** When a device is removed, the device of every controller is read: one that waits for
    a reconnect and held the last reference of its device points to freed memory. *)
Lemma remove_one_undefined :
  nvme_rdma_remove_one 6 ((k_m rex_down) <| rw_devs := [mk_rdev 900 901 6 1 4] |>) [rex_down] = None.
Proof. vm_compute. reflexivity. Qed.
